(* ===== verification/_CoqProject ===== *)
-Q . S2P
Prelude.v
PyStr.v
StateExn.v
Models.v
Graph.v
Scheduler.v
SchedulerInv.v
SchedulerLoop.v
SchedulerSpec.v
Usage.v
Retry.v
Reviews.v
ReviewRoundTrip.v
PlanRecords.v
Artifacts.v
PlanContract.v
PlanContractSpec.v
Foreach.v
ForeachOrder.v
ForeachSpec.v
ReviewCandidates.v
ReviewLoopState.v
ReviewLoop.v
ReviewLoopRounds.v
ReviewLoopAudit.v
ReviewLoopSpec.v
ReviewLoopCorrect.v
RunState.v
RunManifests.v
ResumeStates.v
ResumeStatesSpec.v
Checkpoint.v
CheckpointProgress.v
CheckpointSpec.v
CheckpointCorrect.v
Composition.v
CompositionSpec.v
CompositionCorrect.v
CompositionClaims.v
CompositionReferences.v
Events.v
EventsSpec.v
Dashboard.v
DashboardSpec.v
PreflightState.v
Redaction.v
RedactionSpec.v
RuntimeConfig.v
SecretHandles.v
PreflightFilesystem.v
PreflightRender.v
WorkspaceSelection.v
WorkflowValidation.v
WorktreeOrder.v
PreflightCompiler.v
SecretClaims.v
WorkspaceContract.v
BranchExport.v
BranchExportSpec.v
BranchExportRecovery.v
BranchExportClaims.v
WorkspaceState.v
WorkspaceStateSpec.v
WorkspaceStateContract.v
WorkspaceStateClaims.v
WorktreeRefs.v
WorktreeRefsSpec.v
ForeachCompilation.v
PromptAssembly.v
PromptBudget.v
PreflightText.v
PreflightInv.v
PreflightTokens.v
PreflightStreams.v
ValidationSpec.v
PreflightGraph.v
PreflightCorrect.v
PreflightContract.v
ForeachCompilationSpec.v
PreflightClaims.v
