(* ===== verification/Prelude.v ===== *)
(** * Crewplane: a verification development

    Crewplane runs multi-agent workflows.  A workflow is a graph of nodes; each
    node asks command-line agents (providers) to produce or review text.  The
    program validates and compiles a workflow into a persisted execution plan,
    schedules the nodes of the plan, runs the providers of a node with retries
    and, for sequential nodes with reviewers, in a loop of review and
    remediation; it publishes artifacts, and it can resume an earlier run from
    the states and checkpoints that run left behind.

    This library models that core and proves it correct.  Paths below are
    relative to src/src/crewplane; a comment "Code: path, symbol" in front of a
    definition names the code it translates.

    ** Conventions

    Python functions are Rocq functions.  A function that may raise returns an
    [outcome]: [Ok v], [Raise e] with the exception class and the message the
    code builds, or [OutOfFuel] for loops written with fuel.  Objects the code
    mutates are records that are passed along; where mutations survive an
    exception, computations live in the monad [M] of StateExn.v, which returns a
    state in every case, with a weakest precondition [wp] to reason about them.
    A dict is an association list in insertion order ([dict], with [dget],
    [dset], [ddel], [ditem], where [ditem] raises [KeyError]); a set that is
    only tested is a [gset].  Integers are [Z], prices and costs are exact
    rationals, clock readings are milliseconds.  Strings are ASCII: PyStr.v has
    the [str] operations the code uses, and regular expressions are the
    deterministic matchers they denote on such text.  A Pydantic model is a
    record with the validator its construction runs: the field constraints
    ([fields]) and then the model validators, with their messages.

    What runs outside the modelled code is a type class whose laws are stated
    separately and are satisfied by the concrete instances of the witnesses:
    [SchedulerEnv] (asyncio tasks, publication of expansion artifacts),
    [InvocationEnv] (provider processes and the clock), [ReviewLoopEnv]
    (provider calls, prompts resolved from artifacts, file writes and
    cancellation of a review loop), [ReviewLibraries] (the CommonMark parser and
    SHA-256), [HashLibrary], [ClockLibrary] ([datetime.fromisoformat]),
    [JsonLibrary] ([json.loads]), [ResumeSource] and [StageFiles] (files an
    earlier run left), [WorkflowFiles] (workflow files and the Markdown parser
    that the composer calls), [PreflightFiles] (the file system, the environment
    and git as the compiler reads them), [HmacLibrary], [Platform] (the host
    system), [ExportHost] and [RepositoryView] (git,
    files of a run and other processes, for branch exports), [CacheHost] (the
    default cache directory), [CompilerServices]
    (signature of a plan), [PromptSources] (files, artifacts and workspaces that a prompt
    inserts), [EventLibrary] (ISO time stamps, floats from integers),
    [FloatFormat] (tenths of a second).

    ** Parts of the program and the files that model them

    - Prelude.v, PyStr.v, StateExn.v: exceptions, dicts, loops over lists,
      sorting, tactics and hints; Python strings; the state and exception monad.
    - Models.v: workflow nodes, template syntax, prompt segments, token budgets
      (core/workflow/{keywords,syntax,models,normalization}.py,
      core/prompt_segments.py, core/token_budget.py, core/workspace/policy.py).
    - Graph.v: waves, ancestors and cycles of a workflow (core/workflow/graph.py).
    - Scheduler.v, SchedulerInv.v, SchedulerLoop.v, SchedulerSpec.v: the
      scheduler (runtime/execution/workflow/{state,scheduling,expansion}.py), its
      invariant, its loop and its theorems.
    - Usage.v: token usage and cost (runtime/agent/usage*.py).
    - Retry.v: the attempts of an invocation (runtime/agent/invocation/*.py,
      runtime/agent/failures).
    - Reviews.v, ReviewRoundTrip.v: reviewer verdicts (core/review_contract.py,
      runtime/execution/reviews/*.py).
    - PlanRecords.v, Artifacts.v, PlanContract.v, PlanContractSpec.v: compiled
      plan records, canonical JSON, artifact names and the contract of a
      persisted plan (core/preflight/{compiled_records,models,plan_contract*}.py,
      architecture/contracts/artifacts.py).
    - Foreach.v, ForeachOrder.v, ForeachSpec.v: expansion of foreach groups
      (core/preflight/foreach).
    - ReviewCandidates.v, ReviewLoopState.v, ReviewLoop.v and, for their proofs,
      ReviewLoopRounds.v, ReviewLoopAudit.v, ReviewLoopSpec.v,
      ReviewLoopCorrect.v: the review loop of a sequential node
      (runtime/execution/review_loop).
    - RunState.v, RunManifests.v: durable run state and the manifest of a run
      (core/execution_state.py, artifacts/manager.py, artifacts/locks/manifest.py).
    - ResumeStates.v, ResumeStatesSpec.v: which nodes of an earlier run are
      reused (artifacts/resume/validation.py).
    - Checkpoint.v, CheckpointProgress.v, CheckpointSpec.v, CheckpointCorrect.v:
      checkpoints of a review loop (core/review_checkpoint*.py,
      runtime/execution/review_loop/checkpoint_progress.py,
      artifacts/resume/checkpoint_files.py).
    - Composition.v and, for its proofs, CompositionSpec.v, CompositionCorrect.v,
      CompositionClaims.v, CompositionReferences.v: composition of Markdown
      workflows with imports, parameters, bound inputs, worktrees and foreach
      templates (core/workflow/composition, core/workspace/selection.py).
    - Events.v, EventsSpec.v, Dashboard.v, DashboardSpec.v: execution events,
      the records of the event log and the dashboard they are folded into
      (architecture/contracts/execution_event.py,
      observability/events/{builders,log,reader,dashboard_state,reducer}.py,
      observability/timing.py).
    - WorkspaceSelection.v, WorkflowValidation.v and, for their proofs,
      WorktreeOrder.v, ValidationSpec.v: the workspaces that nodes select and
      every authoring check (core/workspace/selection.py,
      core/workflow/validation, core/preflight/validation.py).
    - PreflightState.v, PreflightFilesystem.v, PreflightRender.v,
      PreflightCompiler.v: the compiler of execution plans: its state and
      diagnostics, file tokens, render streams, and the phases
      (core/preflight/{compile_state,static_resources,render_plans,compiler}.py
      and the modules they call).
    - Redaction.v, RuntimeConfig.v and, for their proofs, RedactionSpec.v,
      SecretHandles.v, SecretClaims.v: agent and integration
      configurations, redaction of their secrets with fingerprints, the
      snapshot of a runtime configuration with its signatures, and the
      resolution of captured secrets
      (core/config.py, core/preflight/runtime_config, architecture/contracts,
      runtime/execution/runtime_context.py).
    - BranchExport.v and, for its proofs, BranchExportSpec.v,
      BranchExportRecovery.v, BranchExportClaims.v: the export of a worktree's
      result to a branch: checkpoints, prepared and terminal records, their
      reconciliation, the git commands and the batches of a run
      (runtime/workspace/branch_export).
    - WorkspaceContract.v, WorkspaceState.v and, for their proofs,
      WorkspaceStateSpec.v, WorkspaceStateContract.v, WorkspaceStateClaims.v:
      the persisted state of a workspace: the contract its readers check
      (artifacts/workspace/state), its creation and every edit of it, the
      fences of workers that may still write, terminal outcomes and discarded
      lineage (runtime/workspace/{state,state_evidence,running_state_payload,
      lineage_discard,terminalization,mutator_fence}.py, the worker fences of
      runtime/execution/provider_call and runtime/agent/invocation).  The store
      has the files, the fenced paths, the results of the next writes and the
      clock; the resolution of paths is a parameter.
    - WorktreeRefs.v and, for its proofs, WorktreeRefsSpec.v: the temporary refs of imported sources and the
      published refs of results
      (runtime/workspace/worktree/{refs,temporary_refs,ref_publication}.py);
      git, the lock of its metadata and random identifiers are the class
      [RefHost], and what is used of git the class [RefLaws].
    - ForeachCompilation.v: foreach sources before and after compilation
      (core/preflight/foreach/compilation.py).
    - PromptAssembly.v, PromptBudget.v: prompts assembled from a compiled plan
      and their budgets (runtime/execution/{fragment_assembler,
      prompt_budgeting}.py).
    - PreflightText.v, PreflightInv.v, PreflightTokens.v, PreflightStreams.v,
      PreflightGraph.v, PreflightCorrect.v,
      PreflightContract.v, ForeachCompilationSpec.v, PreflightClaims.v: the
      proofs about the compiler: substitution of tokens in text, the invariant
      of the compile state, streams, edges, the phases, the contract of a
      compiled plan.

    How they interact: a plan that passes PlanContract satisfies the
    scheduler's precondition [plan_ok] (C19); a foreach expansion satisfies the
    interface [expansion_ok] that the scheduler's environment promises (C23); the
    nodes selected from an earlier run are a start the scheduler accepts
    (ResumeStatesSpec.v);
    a restored checkpoint is a state the review loop may start from (C35); the
    candidates a review loop accepts are those of [validate_executor_outputs]
    (C28); a workflow that passes validation compiles to a plan that passes
    the graph checks of PlanContract and starts the scheduler (C9), and whose
    prompts are the authored templates with their tokens substituted (C8);
    exports read states that satisfy the contract (WorkspaceContract), which
    the edits of the runtime keep (C40); refs of worktrees are recorded by the
    operations of WorkspaceState, whose states never forget them (C20, C33).

    ** Theorems

    - C1-C3, graph: the waves are the dependency layers, the cycle error is
      raised exactly for cycles, the ancestor map is the transitive closure.
    - C4-C6, scheduler: a node starts only after its dependencies succeeded, the
      run terminates and is reported as successful only when every node
      succeeded, unconfirmed process cleanup is never masked, the concurrency
      limit holds; a wait returns any nonempty part of the running tasks.
    - C7, C13, branch exports: a branch is only created, where none is, under a
      persisted prepared record; an interrupted export is completed and a
      completed one can be repeated.
    - C8-C10, compiler: compiled prompts are substituted templates, compiled
      plans meet the contract, captured files lie below permitted roots after
      their symbolic links are resolved, and are addressed by their content.
    - C11, C12, retries: attempts are bounded by the configured ceilings, or by
      the quota deadline without them (sleeps take their time).
    - C14, C15: writers of one worktree are ordered by dependencies; what a
      prompt inserts is bounded by the node's budget.
    - C16, C17, verdicts: what counts as approval, with the verdict read from
      the output of the reviewer; rendering and parsing round trip for sections
      whose only line breaks are line feeds.
    - C18, C22, secrets: what is persisted of a configuration depends on its
      secrets through their keyed fingerprints only, and the captured secrets
      are those of the agents a workflow uses and restore these agents.
    - C19, plans: a validated plan is schedulable.
    - C20, C40, workspace states: a state only moves forward, also when
      operations raise or writes fail before or after the file is replaced, and
      recorded events keep the contract that the readers of a state check.
    - C21, C23, C24, foreach: the topological order of an expansion, the refinement of the scheduler's interface, the completion
      gate.
    - C25, event log: the record of an event reads back as the event.
    - C26-C29, review loop: causes of success (the approving reviews answer the
      request that showed the kept candidate) and the status published last,
      bounds on rounds, what reviewers see, causes of errors.
    - C30-C32, runs and resume: the stored manifest is always consistent, also
      when writes fail; stale locks are recovered to a terminal state that never
      invents success, with every error named; selection of reusable nodes is
      the valid dependency cone.
    - C33, worktree refs: a ref is created only where none is and after a
      workspace state recorded it, and removed only at the recorded object,
      whatever fails and whatever others do meanwhile to states and refs.
    - C34, C35, checkpoints: restoring is the inverse of encoding, a resumed loop
      keeps the loop's promises.
    - C36, dashboard: its state is consistent whatever events it receives, and a
      cancellation leaves nothing unfinished.
    - C37-C39, composition: it terminates with distinct node ids and sources
      inside the project or with an error, import cycles are errors, imports and
      templates are hygienic, every node keeps the worktree its own file names.

    ** Fuel

    Structural loops need none.  The waves of a graph, the topological order
    and the ancestors of a plan run with as much fuel as there are nodes, and
    each step of them consumes a node; the descendants of a set of nodes use one
    more step than there are nodes to push; deleting unsupported nodes uses one
    more pass than there are states.  The theorems about these functions say
    that the fuel is enough.  The scheduling loop and the retry loop take their
    fuel as an argument, as does composition, whose fuel is the depth of nested
    imports and is enough when it exceeds the number of files (C37); C5, C11 and
    C12 give a bound from which on the result no longer depends on it and is
    never [OutOfFuel].

    ** Not modelled

    The trial expansion of literal foreach groups after compilation, and
    Windows paths.  Operating-system interaction (processes, signals, atomic file replacement,
    file locks, git), the formats of third-party command-line tools, terminal
    rendering and the command line.  Text outside ASCII, the rounding of
    floats, the loading of YAML and the coercions of Pydantic.  Logging and
    progress events other than those a definition mentions.

    ** Next

    The signature of a plan, the materialization of workspaces, and the run
    summary. *)

From Stdlib Require Import ZArith Lia Ascii String.
From stdpp Require Import base gmap sets list strings sorting relations.

(* stdpp opens its own scopes; [string_scope] is opened where literals are used. *)
Open Scope Z_scope.

(** ** Python exceptions and fallible computations *)

(** The exception values the modelled code raises.  The constructors keep
    the Python class and the message the code builds. *)
Inductive exn : Type :=
| ValueError (msg : string)
| KeyError (key : string)
| OSError (msg : string)
| RuntimeError (msg : string)
| NodeExecutionError (msg : string)
| InvocationFailureError (kind msg : string)
| WorkspaceSetupError (msg : string)
| UnconfirmedCleanupError (msg : string)
| ReviewPolicyError (msg : string)
| CancelledError
| OtherError (cls msg : string).

#[global] Instance exn_eq_dec : EqDecision exn.
Proof. solve_decision. Defined.

(** A computation returns a value, raises, or (only for the loops written
    with fuel) runs out of fuel.  Running out of fuel is kept apart from the
    exceptions, so that a theorem stating [Ok] also states termination. *)
Inductive outcome (A : Type) : Type :=
| Ok (a : A)
| Raise (e : exn)
| OutOfFuel.
Arguments Ok {A} a.
Arguments Raise {A} e.
Arguments OutOfFuel {A}.

#[global] Instance outcome_ret : MRet outcome := fun A a => Ok a.
#[global] Instance outcome_bind : MBind outcome := fun A B f m =>
  match m with
  | Ok a => f a
  | Raise e => Raise e
  | OutOfFuel => OutOfFuel
  end.

Lemma bind_Ok {A B} (f : A -> outcome B) (m : outcome A) (b : B) :
  (m ≫= f) = Ok b <-> exists a, m = Ok a /\ f a = Ok b.
Proof. destruct m; simpl; naive_solver. Qed.

Lemma ret_Ok {A} (a b : A) : (mret a : outcome A) = Ok b <-> a = b.
Proof. unfold mret, outcome_ret. naive_solver. Qed.

(** Decompose hypotheses of the form [m ≫= f = Ok b]. *)
Ltac inv_ok :=
  repeat match goal with
  | H : (_ ≫= _) = Ok _ |- _ =>
      let a := fresh "a" in let Ha := fresh "Hok" in
      apply bind_Ok in H; destruct H as (a & Ha & H)
  | H : (mret _) = Ok _ |- _ => apply (proj1 (ret_Ok _ _)) in H
  | H : Ok _ = Ok _ |- _ => injection H as H
  | H : Raise _ = Ok _ |- _ => discriminate H
  | H : OutOfFuel = Ok _ |- _ => discriminate H
  end.

(** [for x in l: s = step(s, x)], where the body may raise. *)
Fixpoint for_each {A S} (step : S -> A -> outcome S) (l : list A) (s : S) : outcome S :=
  match l with
  | [] => Ok s
  | x :: t => s' ← step s x; for_each step t s'
  end.

Lemma for_each_app {A S} (step : S -> A -> outcome S) l1 l2 s :
  for_each step (l1 ++ l2) s = (for_each step l1 s ≫= for_each step l2).
Proof.
  revert s; induction l1 as [|x l1 IH]; intros s; simpl; [done|].
  destruct (step s x); simpl; auto.
Qed.

(** Rule for loops whose body never raises under an invariant [P processed]. *)
Lemma for_each_inv {A S} (P : list A -> S -> Prop) (step : S -> A -> outcome S) l s :
  P [] s ->
  (forall done x rest s', l = done ++ x :: rest -> P done s' ->
     exists s'', step s' x = Ok s'' /\ P (done ++ [x]) s'') ->
  exists s', for_each step l s = Ok s' /\ P l s'.
Proof.
  intros H0 Hstep.
  assert (forall todo done s', l = done ++ todo -> P done s' ->
            exists s'', for_each step todo s' = Ok s'' /\ P l s'') as H.
  { induction todo as [|x todo IH]; intros done s' Hl HP.
    - rewrite app_nil_r in Hl; subst. eauto.
    - destruct (Hstep done x todo s' Hl HP) as (s'' & Hs & HP').
      simpl. rewrite Hs. simpl. apply (IH (done ++ [x])); [|done].
      by rewrite <- app_assoc. }
  by apply (H l []).
Qed.

(** ** Python dictionaries

    A [dict] keeps its insertion order, which the code relies on when it
    iterates, so it is an association list with unique keys.  Assigning to a
    present key keeps its position. *)
Notation dict V := (list (string * V)).

Section Dict.
Context {V : Type}.
Implicit Types (d : dict V) (k : string) (v : V).

Fixpoint dget d k : option V :=
  match d with
  | [] => None
  | (k', v) :: t => if decide (k = k') then Some v else dget t k
  end.

(** [d[k]], raising [KeyError]. *)
Definition ditem d k : outcome V :=
  match dget d k with Some v => Ok v | None => Raise (KeyError k) end.

(** [d[k] = v]. *)
Fixpoint dset d k v : dict V :=
  match d with
  | [] => [(k, v)]
  | (k', v') :: t => if decide (k = k') then (k', v) :: t else (k', v') :: dset t k v
  end.

(** [del d[k]] / [d.pop(k)] on a present key. *)
Fixpoint ddel d k : dict V :=
  match d with
  | [] => []
  | (k', v') :: t => if decide (k = k') then t else (k', v') :: ddel t k
  end.

Definition dkeys d : list string := map fst d.

(** [k in d]. *)
Definition dmem d k : bool := match dget d k with Some _ => true | None => false end.

(** [{k: v for k, v in l}] and [dict(l)]. *)
Definition dict_of (l : list (string * V)) : dict V :=
  foldl (fun d kv => dset d kv.1 kv.2) [] l.

Lemma dget_dset_eq d k v : dget (dset d k v) k = Some v.
Proof.
  induction d as [|[k' v'] d IH]; simpl; [by rewrite decide_True|].
  destruct (decide (k = k')); simpl; [by rewrite decide_True | by rewrite decide_False].
Qed.

Lemma dget_dset_ne d k k' v : k <> k' -> dget (dset d k v) k' = dget d k'.
Proof.
  intros Hne. induction d as [|[k0 v0] d IH]; simpl; [by rewrite decide_False by done|].
  destruct (decide (k = k0)); simpl; destruct (decide (k' = k0)); congruence.
Qed.

Lemma dget_dset d k k' v :
  dget (dset d k v) k' = if decide (k = k') then Some v else dget d k'.
Proof. case_decide; subst; [apply dget_dset_eq | by apply dget_dset_ne]. Qed.

Lemma dget_is_Some d k : is_Some (dget d k) <-> k ∈ dkeys d.
Proof.
  unfold dkeys. induction d as [|[k' v] d IH]; simpl.
  - split; [intros [? ?]; done | intros H; by inversion H].
  - destruct (decide (k = k')); subst; set_solver.
Qed.

Lemma dget_None d k : dget d k = None <-> k ∉ dkeys d.
Proof.
  rewrite <- dget_is_Some. destruct (dget d k); split; try done.
  - intros H. exfalso. apply H. eauto.
Qed.

Lemma dget_elem_of d k v : dget d k = Some v -> (k, v) ∈ d.
Proof.
  induction d as [|[k' v'] d IH]; simpl; [done|].
  destruct (decide (k = k')); [intros [= ->]; subst; left | intros H; right; auto].
Qed.

Lemma elem_of_dget d k v : NoDup (dkeys d) -> (k, v) ∈ d -> dget d k = Some v.
Proof.
  unfold dkeys. induction d as [|[k' v'] d IH]; simpl; [intros _ H; by inversion H|].
  intros Hnd Hin. apply NoDup_cons in Hnd as [Hn Hnd].
  apply elem_of_cons in Hin as [[= -> ->]|Hin]; [by rewrite decide_True|].
  rewrite decide_False; [auto|]. intros ->. apply Hn.
  apply list_elem_of_fmap. by exists (k', v).
Qed.

Lemma dmem_true d k : dmem d k = true <-> k ∈ dkeys d.
Proof. unfold dmem. rewrite <- dget_is_Some. destruct (dget d k); naive_solver. Qed.

Lemma dmem_false d k : dmem d k = false <-> k ∉ dkeys d.
Proof. rewrite <- dmem_true. destruct (dmem d k); naive_solver. Qed.

Lemma dkeys_dset_in d k v : k ∈ dkeys d -> dkeys (dset d k v) = dkeys d.
Proof.
  unfold dkeys. induction d as [|[k' v'] d IH]; simpl; [intros H; by inversion H|].
  intros H. destruct (decide (k = k')); simpl; [done|]. f_equal. set_solver.
Qed.

Lemma dkeys_dset_notin d k v : k ∉ dkeys d -> dkeys (dset d k v) = dkeys d ++ [k].
Proof.
  unfold dkeys. induction d as [|[k' v'] d IH]; simpl; [done|].
  intros H. destruct (decide (k = k')); simpl; [set_solver|]. f_equal. set_solver.
Qed.

Lemma dset_notin d k v : k ∉ dkeys d -> dset d k v = d ++ [(k, v)].
Proof.
  unfold dkeys. induction d as [|[k' v'] d IH]; simpl; [done|]. rewrite not_elem_of_cons. intros [Hne Hk].
  rewrite decide_False by done. by rewrite IH.
Qed.

Lemma elem_of_dkeys_dset d k k' v : k' ∈ dkeys (dset d k v) <-> k' = k \/ k' ∈ dkeys d.
Proof.
  destruct (decide (k ∈ dkeys d)).
  - rewrite dkeys_dset_in by done. naive_solver.
  - rewrite dkeys_dset_notin by done. set_solver.
Qed.

Lemma NoDup_dkeys_dset d k v : NoDup (dkeys d) -> NoDup (dkeys (dset d k v)).
Proof.
  intros Hnd. destruct (decide (k ∈ dkeys d)).
  - by rewrite dkeys_dset_in.
  - rewrite dkeys_dset_notin by done. apply NoDup_app.
    split; [done|]. split; [set_solver | apply NoDup_singleton].
Qed.

Lemma dget_ddel_ne d k k' : k <> k' -> dget (ddel d k) k' = dget d k'.
Proof.
  intros Hne. induction d as [|[k0 v0] d IH]; simpl; [done|].
  destruct (decide (k = k0)); simpl; destruct (decide (k' = k0)); congruence.
Qed.

Lemma dget_ddel_eq d k : NoDup (dkeys d) -> dget (ddel d k) k = None.
Proof.
  unfold dkeys. induction d as [|[k0 v0] d IH]; simpl; [done|].
  intros [Hn Hnd]%NoDup_cons. destruct (decide (k = k0)); simpl.
  - subst. by apply dget_None.
  - rewrite decide_False by done. auto.
Qed.

Lemma dkeys_ddel_sublist d k : sublist (dkeys (ddel d k)) (dkeys d).
Proof.
  unfold dkeys. induction d as [|[k0 v0] d IH]; simpl; [done|].
  destruct (decide (k = k0)); simpl; [by apply sublist_cons | by apply sublist_skip].
Qed.

Lemma NoDup_dkeys_ddel d k : NoDup (dkeys d) -> NoDup (dkeys (ddel d k)).
Proof. intros H. eapply sublist_NoDup; [done | apply dkeys_ddel_sublist]. Qed.

Lemma elem_of_dkeys_ddel d k k' :
  NoDup (dkeys d) -> (k' ∈ dkeys (ddel d k) <-> k' ∈ dkeys d /\ k' <> k).
Proof.
  intros Hnd. rewrite <- !dget_is_Some. destruct (decide (k' = k)) as [->|Hne].
  - rewrite dget_ddel_eq by done. split; [intros [? ?]; done | naive_solver].
  - rewrite dget_ddel_ne by done. naive_solver.
Qed.

Lemma length_ddel d k : k ∈ dkeys d -> length d = S (length (ddel d k)).
Proof.
  unfold dkeys. induction d as [|[k0 v0] d IH]; simpl; [intros H; by inversion H|].
  intros H. destruct (decide (k = k0)); simpl; [done|]. f_equal. apply IH. set_solver.
Qed.

Lemma ditem_Ok d k v : ditem d k = Ok v <-> dget d k = Some v.
Proof. unfold ditem. destruct (dget d k); naive_solver. Qed.

Lemma dict_of_snoc l k v : dict_of (l ++ [(k, v)]) = dset (dict_of l) k v.
Proof. unfold dict_of. by rewrite foldl_app. Qed.

Lemma NoDup_dict_of l : NoDup (dkeys (dict_of l)).
Proof.
  induction l as [|[k v] l IH] using rev_ind; [constructor|].
  rewrite dict_of_snoc. by apply NoDup_dkeys_dset.
Qed.

Lemma elem_of_dkeys_dict_of l k : k ∈ dkeys (dict_of l) <-> k ∈ map fst l.
Proof.
  induction l as [|[k' v] l IH] using rev_ind; [done|].
  rewrite dict_of_snoc, elem_of_dkeys_dset, IH, map_app. set_solver.
Qed.

Lemma dict_of_NoDup l : NoDup (map fst l) -> dict_of l = l.
Proof.
  induction l as [|[k v] l IH] using rev_ind; intros Hnd; [done|].
  rewrite map_app in Hnd. apply NoDup_app in Hnd as (Hl & Hd & _).
  rewrite dict_of_snoc, IH by done. clear IH. induction l as [|[k' v'] l IH]; simpl; [done|].
  simpl in *. rewrite decide_False by set_solver. f_equal. apply IH; [|set_solver].
  by apply NoDup_cons in Hl as [_ ?].
Qed.

End Dict.

#[export] Hint Rewrite @dget_dset_eq : dict.
#[export] Hint Resolve NoDup_dkeys_dset NoDup_dkeys_ddel NoDup_dict_of : dict.

(** A dict comprehension over distinct keys with a value per key. *)
Lemma dget_dict_of_map {V} (f : string -> V) (l : list string) k :
  dget (dict_of (map (fun x => (x, f x)) l)) k = if decide (k ∈ l) then Some (f k) else None.
Proof.
  induction l as [|x l IH] using rev_ind; [done|].
  rewrite map_app. simpl. rewrite dict_of_snoc, dget_dset.
  destruct (decide (x = k)) as [->|]; [by rewrite decide_True by set_solver|].
  rewrite IH. destruct (decide (k ∈ l)).
  - by rewrite decide_True by set_solver.
  - by rewrite decide_False by set_solver.
Qed.

(** ** Stable sorting by an integer key, Python's [sorted(l, key=...)] *)

Section SortBy.
Context {A : Type} (key : A -> Z).

Fixpoint insert_by (x : A) (l : list A) : list A :=
  match l with
  | [] => [x]
  | y :: t => if key x <=? key y then x :: y :: t else y :: insert_by x t
  end.

Definition sort_by (l : list A) : list A := foldr insert_by [] l.

Definition key_le (x y : A) : Prop := key x <= key y.

Lemma insert_by_Permutation x l : insert_by x l ≡ₚ x :: l.
Proof.
  induction l as [|y l IH]; simpl; [done|].
  destruct (key x <=? key y); [done|]. rewrite IH. apply Permutation_swap.
Qed.

Lemma sort_by_Permutation l : sort_by l ≡ₚ l.
Proof. induction l; simpl; [done|]. by rewrite insert_by_Permutation, IHl. Qed.

Lemma insert_by_sorted x l :
  StronglySorted key_le l -> StronglySorted key_le (insert_by x l).
Proof.
  induction 1 as [|y l Hl IH Hy]; simpl; [repeat constructor|].
  destruct (Z.leb_spec (key x) (key y)).
  - constructor; [by constructor|]. constructor; [done|].
    eapply Forall_impl; [done|]. unfold key_le in *. intros z Hz; simpl in Hz; lia.
  - constructor; [done|]. rewrite insert_by_Permutation.
    constructor; [unfold key_le; lia | done].
Qed.

Lemma sort_by_sorted l : StronglySorted key_le (sort_by l).
Proof. induction l; simpl; [constructor | by apply insert_by_sorted]. Qed.

Lemma elem_of_sort_by x l : x ∈ sort_by l <-> x ∈ l.
Proof. by rewrite sort_by_Permutation. Qed.

Lemma length_sort_by l : length (sort_by l) = length l.
Proof. by rewrite sort_by_Permutation. Qed.

End SortBy.

(** [sorted(l, key=order.__getitem__)] for a dict of positions. *)
Definition sorted_by_order (order : dict Z) (l : list string) : outcome (list string) :=
  ks ← mapM (fun x => k ← ditem order x; mret (k, x)) l;
  mret (map snd (sort_by fst ks)).

Definition order_of (order : dict Z) (x : string) : Z := default 0 (dget order x).

Definition order_le (order : dict Z) (x y : string) : Prop := order_of order x <= order_of order y.

Lemma mapM_ditem_ok (order : dict Z) l :
  (forall x, x ∈ l -> x ∈ dkeys order) ->
  mapM (fun x => k ← ditem order x; mret (k, x)) l = Ok (map (fun x => (order_of order x, x)) l).
Proof.
  induction l as [|x l IH]; intros Hin; [done|].
  assert (x ∈ dkeys order) as Hx by (apply Hin; left).
  apply dget_is_Some in Hx as [k Hk]. simpl.
  rewrite IH by (intros; apply Hin; by right). unfold ditem, order_of. by rewrite Hk.
Qed.

Lemma StronglySorted_map {A B} (R : B -> B -> Prop) (f : A -> B) l :
  StronglySorted (fun x y => R (f x) (f y)) l -> StronglySorted R (map f l).
Proof.
  induction 1 as [|x l Hl IH Hx]; simpl; constructor; [done|].
  apply Forall_fmap. by eapply Forall_impl.
Qed.

Lemma StronglySorted_impl {A} (R R' : A -> A -> Prop) l :
  (forall x y, x ∈ l -> y ∈ l -> R x y -> R' x y) ->
  StronglySorted R l -> StronglySorted R' l.
Proof.
  intros HR. induction 1 as [|x l Hl IH Hx]; constructor.
  - apply IH. intros. apply HR; [by right.. | done].
  - apply Forall_forall. intros y Hy. apply HR; [left | by right |].
    by eapply Forall_forall in Hx.
Qed.

Lemma sorted_by_order_ok (order : dict Z) l :
  (forall x, x ∈ l -> x ∈ dkeys order) ->
  exists s, sorted_by_order order l = Ok s /\ s ≡ₚ l /\ StronglySorted (order_le order) s.
Proof.
  intros Hin. unfold sorted_by_order. rewrite mapM_ditem_ok by done.
  set (kl := map _ l). eexists. split; [done|]. split.
  - rewrite (sort_by_Permutation fst kl). unfold kl. rewrite map_map. simpl. by rewrite map_id.
  - apply StronglySorted_map.
    eapply StronglySorted_impl; [|apply (sort_by_sorted fst)].
    intros [k1 x1] [k2 x2] H1 H2. rewrite elem_of_sort_by in H1, H2.
    apply list_elem_of_fmap in H1 as (? & [= -> ->] & _).
    apply list_elem_of_fmap in H2 as (? & [= -> ->] & _). done.
Qed.

(** [{x: index for index, x in enumerate(l)}]. *)
Definition enumerate_order (l : list string) : dict Z :=
  dict_of (imap (fun i x => (x, Z.of_nat i)) l).

Lemma map_fst_imap (f : nat -> string -> Z) (l : list string) : map fst (imap (fun i y => (y, f i y)) l) = l.
Proof. revert f. induction l as [|y l IH]; intros f; simpl; [done|]. f_equal. apply (IH (fun i => f (S i))). Qed.

Lemma elem_of_dkeys_enumerate l x : x ∈ dkeys (enumerate_order l) <-> x ∈ l.
Proof. unfold enumerate_order. by rewrite elem_of_dkeys_dict_of, (map_fst_imap (fun i _ => Z.of_nat i)). Qed.

Lemma order_of_enumerate l i x : NoDup l -> l !! i = Some x -> order_of (enumerate_order l) x = Z.of_nat i.
Proof.
  intros Hnd Hi. unfold order_of, enumerate_order. pose proof (map_fst_imap (fun i _ => Z.of_nat i) l) as Hfst.
  rewrite dict_of_NoDup by (rewrite Hfst; exact Hnd).
  erewrite elem_of_dget; [reflexivity | unfold dkeys; rewrite Hfst; exact Hnd |].
  apply list_elem_of_lookup. exists i. by rewrite list_lookup_imap, Hi.
Qed.

Lemma elem_of_snoc {A} (l : list A) x y : x ∈ l ++ [y] <-> x ∈ l \/ x = y.
Proof. by rewrite elem_of_app, list_elem_of_singleton. Qed.

(** ** Finite sets of node ids *)

Lemma size_difference_singleton (X : gset string) x :
  x ∈ X -> Z.of_nat (size (X ∖ {[x]})) = Z.of_nat (size X) - 1.
Proof.
  intros Hx. rewrite size_difference by set_solver. rewrite size_singleton.
  assert (size X <> 0%nat); [|lia].
  intros ?%size_empty_inv. set_solver.
Qed.

Lemma size_zero_subseteq (X Y : gset string) : size (X ∖ Y) = 0%nat <-> X ⊆ Y.
Proof.
  rewrite size_empty_iff. split; [|set_solver].
  intros H x Hx. destruct (decide (x ∈ Y)); [done|]. set_solver.
Qed.

(** ** Cycles in finite relations *)

Lemma StronglySorted_NoDup_or `{EqDecision A} (R : A -> A -> Prop) l :
  StronglySorted R l -> NoDup l \/ exists x, x ∈ l /\ R x x.
Proof.
  induction 1 as [|x l Hl IH Hx]; [left; constructor|].
  destruct (decide (x ∈ l)) as [Hin|Hnin].
  - right. exists x. split; [left|]. by eapply Forall_forall in Hx.
  - destruct IH as [IH|(y & Hy & HR)]; [left; by constructor | right; exists y; set_solver].
Qed.

(** A nonempty finite set in which every element has a predecessor in the set
    contains a cycle. *)
Lemma no_source_cycle `{EqDecision A} (R : A -> A -> Prop) (S : list A) s :
  s ∈ S -> (forall n, n ∈ S -> exists d, d ∈ S /\ R d n) ->
  exists n, n ∈ S /\ tc R n n.
Proof.
  intros Hs Hpred.
  assert (forall k, exists l, length l = Datatypes.S k /\ StronglySorted (tc R) l /\
            (forall x, x ∈ l -> x ∈ S)) as Hwalk.
  { induction k as [|k (l & Hlen & Hso & Hin)].
    - exists [s]. split_and!; [done | repeat constructor | set_solver].
    - destruct l as [|x l]; [done|]. destruct (Hpred x) as (d & Hd & HR); [apply Hin; left|].
      exists (d :: x :: l). split_and!; [simpl in *; lia | | set_solver].
      constructor; [done|]. apply StronglySorted_inv in Hso as [_ Hx].
      constructor; [by apply tc_once|]. eapply Forall_impl; [done|].
      intros y Hy. eapply tc_l; [done | exact Hy]. }
  destruct (Hwalk (length S)) as (l & Hlen & Hso & Hin).
  destruct (StronglySorted_NoDup_or _ _ Hso) as [Hnd|(x & Hx & HR)]; [|by exists x; auto].
  assert (length l <= length S)%nat; [|lia].
  apply submseteq_length, NoDup_submseteq; [done|]. intros x Hx. by apply Hin.
Qed.

(** ** String building *)

(** [sep.join(parts)]. *)
Fixpoint str_join (sep : string) (parts : list string) : string :=
  match parts with
  | [] => EmptyString
  | [x] => x
  | x :: t => x +:+ sep +:+ str_join sep t
  end.

(** ** Sorting strings, Python's [sorted(l)] on ASCII strings *)

Fixpoint insert_str (x : string) (l : list string) : list string :=
  match l with
  | [] => [x]
  | y :: t => if String.leb x y then x :: y :: t else y :: insert_str x t
  end.

Definition sorted_str (l : list string) : list string := foldr insert_str [] l.

Lemma insert_str_Permutation x l : insert_str x l ≡ₚ x :: l.
Proof.
  induction l as [|y l IH]; simpl; [done|].
  destruct (String.leb x y); [done|]. rewrite IH. apply Permutation_swap.
Qed.

Lemma sorted_str_Permutation l : sorted_str l ≡ₚ l.
Proof. induction l; simpl; [done|]. by rewrite insert_str_Permutation, IHl. Qed.

Lemma elem_of_sorted_str x l : x ∈ sorted_str l <-> x ∈ l.
Proof. by rewrite sorted_str_Permutation. Qed.

Lemma sorted_str_nil l : sorted_str l = [] <-> l = [].
Proof.
  split; [|by intros ->]. intros H. apply Permutation_nil_r. by rewrite <- (sorted_str_Permutation l), H.
Qed.

(** ** Loops that update one dict entry per element *)

(** [for x in l: d[x] = f(d[x])] over distinct present keys. *)
Lemma for_each_update {V} (f : V -> V) (l : list string) (d : dict V) :
  NoDup l -> (forall x, x ∈ l -> x ∈ dkeys d) ->
  exists d', for_each (fun (d : dict V) x => v ← ditem d x; mret (dset d x (f v))) l d = Ok d' /\
    dkeys d' = dkeys d /\
    forall n, dget d' n = if decide (n ∈ l) then f <$> dget d n else dget d n.
Proof.
  intros Hnd Hin.
  set (I := fun (done : list string) (d' : dict V) => dkeys d' = dkeys d /\
    forall n, dget d' n = if decide (n ∈ done) then f <$> dget d n else dget d n).
  apply (for_each_inv I); [split; [done|]; intros n; by rewrite decide_False by apply not_elem_of_nil|].
  intros done x rest d' -> [Hk Hd].
  assert (x ∈ dkeys d) as Hx by (apply Hin; set_solver).
  assert (x ∉ done) as Hxd by (apply NoDup_app in Hnd; set_solver).
  destruct (proj2 (dget_is_Some d x) Hx) as [v Hv].
  pose proof (Hd x) as Hdx. rewrite decide_False, Hv in Hdx by done.
  exists (dset d' x (f v)). unfold ditem. rewrite Hdx. split; [done|]. split.
  - rewrite dkeys_dset_in; [done|]. by rewrite Hk.
  - intros n. rewrite dget_dset, Hd. destruct (decide (x = n)) as [->|Hne].
    + rewrite decide_True by (apply elem_of_snoc; by right). by rewrite Hv.
    + destruct (decide (n ∈ done)), (decide (n ∈ done ++ [x])) as [H|H]; try done;
        rewrite elem_of_snoc in H; naive_solver.
Qed.

Lemma dget_map_val {V W} (f : V -> W) (d : dict V) k :
  dget (map (fun '(k, v) => (k, f v)) d) k = f <$> dget d k.
Proof. induction d as [|[k' v] d IH]; simpl; [done|]. by destruct (decide (k = k')). Qed.

Lemma elem_of_filter_true {A} (p : A -> bool) (l : list A) x :
  x ∈ List.filter p l <-> x ∈ l /\ p x = true.
Proof. by rewrite !list_elem_of_In, filter_In. Qed.

Lemma NoDup_filter_true {A} (p : A -> bool) (l : list A) : NoDup l -> NoDup (List.filter p l).
Proof. rewrite !NoDup_ListNoDup. apply List.NoDup_filter. Qed.

Lemma NoDup_map_fst_filter {A B} (p : A * B -> bool) (l : list (A * B)) :
  NoDup (map fst l) -> NoDup (map fst (List.filter p l)).
Proof.
  induction l as [|[a b] l IH]; simpl; [done|].
  intros [Ha Hnd]%NoDup_cons. destruct (p (a, b)); simpl; [|auto].
  constructor; [|auto]. intros H. apply Ha.
  apply list_elem_of_fmap in H as ([a' b'] & -> & H). apply elem_of_filter_true in H as [H _].
  apply list_elem_of_fmap. by exists (a', b').
Qed.

(** The keys a dict comprehension with a condition on the value keeps. *)
Lemma elem_of_keys_filter {V} (p : string * V -> bool) (d : dict V) k :
  NoDup (dkeys d) ->
  k ∈ map fst (List.filter p d) <-> exists v, dget d k = Some v /\ p (k, v) = true.
Proof.
  intros Hnd. split.
  - intros ([k' v] & -> & H)%list_elem_of_fmap. apply elem_of_filter_true in H as [H Hp].
    exists v. split; [by apply elem_of_dget | done].
  - intros (v & Hv & Hp). apply list_elem_of_fmap. exists (k, v). split; [done|].
    apply elem_of_filter_true. split; [by apply dget_elem_of | done].
Qed.

(** [[x for x in l if p(d[x])]] over present keys. *)
Lemma for_each_keep {V} (p : V -> bool) (d : dict V) (l acc : list string) :
  (forall x, x ∈ l -> x ∈ dkeys d) ->
  for_each (fun (kept : list string) x =>
    v ← ditem d x; mret (if p v then kept ++ [x] else kept)) l acc =
  Ok (acc ++ List.filter (fun x => match dget d x with Some v => p v | None => false end) l).
Proof.
  revert acc. induction l as [|x l IH]; intros acc Hin; simpl; [by rewrite app_nil_r|].
  destruct (proj2 (dget_is_Some d x)) as [v Hv]; [apply Hin; left|].
  rewrite (proj2 (ditem_Ok d x v) Hv). simpl. rewrite IH by (intros y Hy; apply Hin; by right).
  rewrite Hv. destruct (p v); [by rewrite <- app_assoc | done].
Qed.

(** A dict comprehension whose value expression may raise. *)
Lemma mapM_dict_ok {V W} (f : string * V -> outcome (string * W)) (Q : string -> V -> W -> Prop) (l : dict V) :
  (forall k v, (k, v) ∈ l -> exists w, f (k, v) = Ok (k, w) /\ Q k v w) ->
  exists l', mapM f l = Ok l' /\ dkeys l' = dkeys l /\
    forall k v, dget l k = Some v -> exists w, dget l' k = Some w /\ Q k v w.
Proof.
  unfold dkeys. induction l as [|[k v] l IH]; intros H.
  - exists []. split_and!; [done..|]. intros k v Hk. done.
  - destruct (H k v) as (w & Hf & HQ); [left|].
    destruct IH as (l' & Hm & Hk & Hg); [intros; apply H; by right|].
    exists ((k, w) :: l'). simpl. rewrite Hf. simpl. rewrite Hm. split; [done|].
    split; [simpl; by rewrite Hk|]. intros k' v'. simpl. case_decide; [naive_solver|]. apply Hg.
Qed.

Lemma StronglySorted_filter_true {A} (R : A -> A -> Prop) (p : A -> bool) l :
  StronglySorted R l -> StronglySorted R (List.filter p l).
Proof.
  induction 1 as [|x l Hl IH Hx]; simpl; [constructor|].
  destruct (p x); [|done]. constructor; [done|].
  apply Forall_forall. intros y Hy. apply elem_of_filter_true in Hy as [Hy _].
  by eapply Forall_forall in Hx.
Qed.

(** In an acyclic relation, walking back from an element of a finite set whose
    elements all have a predecessor in the set or in [good] reaches [good]. *)
Lemma acyclic_reaches `{EqDecision A} (R : A -> A -> Prop) (good : A -> Prop) (S : list A) n :
  n ∈ S -> (forall x, x ∈ S -> exists d, R d x /\ (good d \/ d ∈ S)) ->
  (forall x, ~ tc R x x) -> exists a, tc R a n /\ good a.
Proof.
  intros Hn Hpred Hacyc.
  assert (forall k, (exists a, tc R a n /\ good a) \/
    exists l, length l = Datatypes.S k /\ StronglySorted (tc R) l /\
      (forall x, x ∈ l -> x ∈ S) /\ (forall x, x ∈ l -> x = n \/ tc R x n)) as Hwalk.
  { induction k as [|k [Hdone|(l & Hlen & Hso & Hin & Hreach)]]; [right|by left|].
    - exists [n]. split_and!; [done | repeat constructor | set_solver | set_solver].
    - destruct l as [|x l]; [done|]. destruct (Hpred x) as (d & HR & Hd); [apply Hin; left|].
      assert (tc R d n) as Hdn.
      { destruct (Hreach x) as [->|Hx]; [left | by apply tc_once | by eapply tc_l]. }
      destruct Hd as [Hg|Hd]; [left; eauto|]. right. exists (d :: x :: l).
      split_and!; [simpl in *; lia | | set_solver |].
      + constructor; [done|]. apply StronglySorted_inv in Hso as [_ Hx].
        constructor; [by apply tc_once|]. eapply Forall_impl; [done|].
        intros y Hy. eapply tc_l; [done | exact Hy].
      + intros y Hy. apply elem_of_cons in Hy as [->|Hy]; [by right | auto]. }
  destruct (Hwalk (length S)) as [|(l & Hlen & Hso & Hin & _)]; [done|]. exfalso.
  destruct (StronglySorted_NoDup_or _ _ Hso) as [Hnd|(x & Hx & HR)]; [|by eapply Hacyc].
  assert (length l <= length S)%nat; [|lia].
  apply submseteq_length, NoDup_submseteq; [done|]. intros x Hx. by apply Hin.
Qed.
