(* ===== verification/PyStr.v ===== *)
(** Python [str] operations, restricted to ASCII text.

    The modelled code works on Python strings; every operation below follows
    the Python semantics on ASCII characters (code points 0-127).  Whitespace
    is what [str.isspace] and the regular expression class [\s] accept among
    them: 9-13, 28-31 and 32. *)

From Stdlib Require Import ZArith Lia Ascii String.
From stdpp Require Import base list strings pretty.
From S2P Require Import Prelude.

Open Scope Z_scope.

Notation text := (list ascii).

Definition chars (s : string) : text := list_ascii_of_string s.
Definition of_chars (l : text) : string := string_of_list_ascii l.

Lemma of_chars_chars s : of_chars (chars s) = s.
Proof. apply string_of_list_ascii_of_string. Qed.

Lemma chars_of_chars l : chars (of_chars l) = l.
Proof. apply list_ascii_of_string_of_list_ascii. Qed.

Definition code (c : ascii) : N := N_of_ascii c.

Definition in_range (lo hi : N) (c : ascii) : bool := (lo <=? code c)%N && (code c <=? hi)%N.

Definition is_space (c : ascii) : bool := in_range 9 13 c || in_range 28 31 c || (code c =? 32)%N.
Definition is_lower (c : ascii) : bool := in_range 97 122 c.
Definition is_upper (c : ascii) : bool := in_range 65 90 c.
Definition is_digit (c : ascii) : bool := in_range 48 57 c.

Definition lower_char (c : ascii) : ascii :=
  if is_upper c then ascii_of_N (code c + 32) else c.
Definition upper_char (c : ascii) : ascii :=
  if is_lower c then ascii_of_N (code c - 32) else c.

(** [str.lower] (and [str.casefold], which agrees with it on ASCII). *)
Definition str_lower (s : string) : string := of_chars (map lower_char (chars s)).
(** [str.upper]. *)
Definition str_upper (s : string) : string := of_chars (map upper_char (chars s)).

Fixpoint drop_while (p : ascii -> bool) (l : text) : text :=
  match l with
  | [] => []
  | c :: t => if p c then drop_while p t else l
  end.

Definition strip_text (l : text) : text :=
  reverse (drop_while is_space (reverse (drop_while is_space l))).

(** [str.strip()]. *)
Definition str_strip (s : string) : string := of_chars (strip_text (chars s)).

(** Truthiness of a [str]. *)
Definition nonempty (s : string) : bool := match s with EmptyString => false | _ => true end.

(** [bool(s.strip())]. *)
Definition not_blank (s : string) : bool := nonempty (str_strip s).

(** [s.startswith(p)] on characters. *)
Fixpoint starts_with (p l : text) : bool :=
  match p, l with
  | [], _ => true
  | a :: p', b :: l' => if decide (a = b) then starts_with p' l' else false
  | _ :: _, [] => false
  end.

Definition str_startswith (p s : string) : bool := starts_with (chars p) (chars s).
Definition str_endswith (p s : string) : bool :=
  starts_with (reverse (chars p)) (reverse (chars s)).

(** [needle in s]. *)
Fixpoint text_contains (needle l : text) : bool :=
  starts_with needle l ||
  match l with
  | [] => false
  | _ :: t => text_contains needle t
  end.

Definition str_contains (needle s : string) : bool := text_contains (chars needle) (chars s).

(** Membership of a string in a literal collection of strings. *)
Definition str_in (s : string) (l : list string) : bool := bool_decide (s ∈ l).

(** Line boundaries of [str.splitlines] among ASCII characters: LF, CR, CRLF,
    VT, FF and the separators 28-30. *)
Definition is_line_end (c : ascii) : bool :=
  in_range 10 13 c || in_range 28 30 c.

Definition cr : ascii := ascii_of_N 13.
Definition lf : ascii := ascii_of_N 10.
Definition lf_str : string := of_chars [lf].
Definition quote_char : ascii := ascii_of_N 34.

(** [s.splitlines()]: [acc] is the current line, reversed. *)
Fixpoint splitlines_aux (acc : text) (l : text) : list text :=
  match l with
  | [] => match acc with [] => [] | _ => [reverse acc] end
  | c :: t =>
      if is_line_end c then
        match t with
        | d :: t' => if bool_decide (c = cr) && bool_decide (d = lf)
                     then reverse acc :: splitlines_aux [] t'
                     else reverse acc :: splitlines_aux [] t
        | [] => [reverse acc]
        end
      else splitlines_aux (c :: acc) t
  end.

Definition str_splitlines (s : string) : list string := map of_chars (splitlines_aux [] (chars s)).

(** [s.splitlines(keepends=True)]. *)
Fixpoint splitlines_keep_aux (acc : text) (l : text) : list text :=
  match l with
  | [] => match acc with [] => [] | _ => [reverse acc] end
  | c :: t =>
      if is_line_end c then
        match t with
        | d :: t' => if bool_decide (c = cr) && bool_decide (d = lf)
                     then (reverse acc ++ [c; d]) :: splitlines_keep_aux [] t'
                     else (reverse acc ++ [c]) :: splitlines_keep_aux [] t
        | [] => [reverse acc ++ [c]]
        end
      else splitlines_keep_aux (c :: acc) t
  end.

Definition str_splitlines_keep (s : string) : list string :=
  map of_chars (splitlines_keep_aux [] (chars s)).

(** [s.split()]: maximal runs of non-whitespace. *)
Fixpoint split_ws_aux (acc : text) (l : text) : list text :=
  match l with
  | [] => match acc with [] => [] | _ => [reverse acc] end
  | c :: t =>
      if is_space c
      then match acc with [] => split_ws_aux [] t | _ => reverse acc :: split_ws_aux [] t end
      else split_ws_aux (c :: acc) t
  end.

Definition str_split (s : string) : list string := map of_chars (split_ws_aux [] (chars s)).

(** [int] formatted in an f-string. *)
Definition str_int (z : Z) : string := pretty z.

(** A single-quoted value in an f-string. *)
Definition quoted (s : string) : string := "'" +:+ s +:+ "'".

(** ** Lemmas *)

Lemma chars_app s t : chars (s +:+ t) = chars s ++ chars t.
Proof. unfold chars. induction s as [|c s IH]; simpl; [done | by rewrite IH]. Qed.

Lemma length_chars s : length (chars s) = String.length s.
Proof. induction s as [|c s IH]; [done|]. simpl. by f_equal. Qed.

Lemma of_chars_app a b : of_chars (a ++ b) = of_chars a +:+ of_chars b.
Proof. unfold of_chars. induction a as [|c a IH]; simpl; [done | by rewrite IH]. Qed.

Lemma str_app_nil_r s : s +:+ "" = s.
Proof. induction s as [|c s IH]; [done|]. change (String c (s +:+ "") = String c s). by f_equal. Qed.

Lemma str_app_assoc a b c : (a +:+ b) +:+ c = a +:+ b +:+ c.
Proof.
  rewrite <- (of_chars_chars ((a +:+ b) +:+ c)), <- (of_chars_chars (a +:+ b +:+ c)).
  by rewrite !chars_app, app_assoc.
Qed.

Lemma drop_while_idemp p l : drop_while p (drop_while p l) = drop_while p l.
Proof. induction l as [|c l IH]; simpl; [done|]. destruct (p c) eqn:E; [done|]. simpl. by rewrite E. Qed.

Lemma drop_while_head p l c t : drop_while p l = c :: t -> p c = false.
Proof.
  induction l as [|d l IH]; simpl; [done|]. destruct (p d) eqn:E; [done|].
  intros [= -> ->]. done.
Qed.

Lemma drop_while_none p l : Forall (fun c => p c = false) l -> drop_while p l = l.
Proof. destruct 1 as [|c l Hc Hl]; simpl; [done|]. by rewrite Hc. Qed.

Lemma drop_while_app_last p l c : p c = false -> drop_while p (l ++ [c]) = drop_while p l ++ [c].
Proof.
  intros Hc. induction l as [|d l IH]; simpl; [by rewrite Hc|]. destruct (p d); [done|]. done.
Qed.

Lemma drop_while_suffix p l : exists pre, l = pre ++ drop_while p l /\ Forall (fun c => p c = true) pre.
Proof.
  induction l as [|c l (pre & Hl & Hp)]; simpl; [by exists []|].
  destruct (p c) eqn:E; [|by exists []].
  exists (c :: pre). simpl. rewrite <- Hl. by split; [|constructor].
Qed.

(** Stripping leaves no leading whitespace and is idempotent. *)
Lemma strip_text_idemp l : strip_text (strip_text l) = strip_text l.
Proof.
  unfold strip_text.
  set (m := drop_while is_space l).
  set (r := drop_while is_space (reverse m)).
  assert (drop_while is_space (reverse r) = reverse r) as Hr.
  { destruct (drop_while_suffix is_space (reverse m)) as (pre & Hm & Hpre).
    fold r in Hm. assert (m = reverse r ++ reverse pre) as Hm'.
    { by rewrite <- reverse_app, <- Hm, reverse_involutive. }
    destruct (reverse r) as [|c t] eqn:Er; [done|]. simpl.
    assert (is_space c = false) as ->; [|done].
    apply (drop_while_head is_space l c (t ++ reverse pre)).
    fold m. by rewrite Hm'. }
  rewrite Hr, reverse_involutive. unfold r. by rewrite drop_while_idemp.
Qed.

Lemma str_strip_idemp s : str_strip (str_strip s) = str_strip s.
Proof. unfold str_strip. by rewrite chars_of_chars, strip_text_idemp. Qed.

Lemma str_in_true s l : str_in s l = true <-> s ∈ l.
Proof. unfold str_in. by rewrite bool_decide_eq_true. Qed.

Lemma nonempty_true s : nonempty s = true <-> s <> EmptyString.
Proof. destruct s; simpl; naive_solver. Qed.

Lemma starts_with_spec p l : starts_with p l = true <-> exists rest, l = p ++ rest.
Proof.
  revert l. induction p as [|a p IH]; intros [|b l]; simpl.
  - naive_solver.
  - naive_solver.
  - naive_solver.
  - destruct (decide (a = b)); subst.
    + rewrite IH. naive_solver.
    + naive_solver.
Qed.

Lemma text_contains_spec n l : text_contains n l = true <-> exists a b, l = a ++ n ++ b.
Proof.
  induction l as [|c l IH].
  - simpl. rewrite orb_false_r, starts_with_spec. split.
    + intros [r Hr]. by exists [], r.
    + intros (a & b & H). destruct a; [by exists b | done].
  - simpl text_contains. rewrite orb_true_iff, starts_with_spec, IH. split.
    + intros [[r Hr]|(a & b & Hl)]; [by exists [], r | exists (c :: a), b; by rewrite Hl].
    + intros ([|d a] & b & H); [left; by exists b |].
      simpl in H. injection H as -> ->. right. by exists a, b.
Qed.

(** ** Exceptions as text *)

(** [str(exc)]. *)
Definition exn_str (e : exn) : string :=
  match e with
  | ValueError m | OSError m | RuntimeError m | NodeExecutionError m
  | InvocationFailureError _ m | WorkspaceSetupError m | UnconfirmedCleanupError m
  | ReviewPolicyError m => m
  | CancelledError => ""
  | KeyError k => quoted k
  | OtherError _ m => m
  end.

Definition exn_class (e : exn) : string :=
  match e with
  | ValueError _ => "ValueError" | KeyError _ => "KeyError" | OSError _ => "OSError"
  | RuntimeError _ => "RuntimeError" | NodeExecutionError _ => "NodeExecutionError"
  | InvocationFailureError _ _ => "InvocationFailureError"
  | WorkspaceSetupError _ => "WorkspaceSetupError"
  | UnconfirmedCleanupError _ => "ProcessDrainError"
  | ReviewPolicyError _ => "ReviewPolicyError"
  | CancelledError => "CancelledError"
  | OtherError c _ => c
  end.

(** Code: runtime/execution/activity/events.py, safe_error_message. *)
Definition safe_error_message (e : exn) : string :=
  let message := str_strip (exn_str e) in
  if nonempty message then message else exn_class e.
