(* ===== verification/StateExn.v ===== *)
(** Stateful computations that may raise, and a weakest precondition for them.

    Python code that mutates shared objects keeps its mutations when it raises,
    so a computation returns a state beside its outcome in every case. *)

From Stdlib Require Import ZArith Lia String.
From stdpp Require Import base list.
From S2P Require Import Prelude.

(** A computation on the state [S]. *)
Definition M (S A : Type) : Type := S -> outcome A * S.

Definition ret {S A} (a : A) : M S A := fun s => (Ok a, s).
Definition raise {S A} (e : exn) : M S A := fun s => (Raise e, s).
Definition read {S A} (f : S -> A) : M S A := fun s => (Ok (f s), s).
Definition modify {S} (f : S -> S) : M S unit := fun s => (Ok tt, f s).
Definition lift {S A} (o : outcome A) : M S A := fun s => (o, s).

Definition bind {S A B} (m : M S A) (k : A -> M S B) : M S B := fun s =>
  match m s with
  | (Ok a, s') => k a s'
  | (Raise e, s') => (Raise e, s')
  | (OutOfFuel, s') => (OutOfFuel, s')
  end.

(** [try: m except e: handler(e)]; the handler decides which errors it handles. *)
Definition try_except {S A} (m : M S A) (handler : exn -> M S A) : M S A := fun s =>
  match m s with
  | (Raise e, s') => handler e s'
  | r => r
  end.

(* The notations [x ← m; k] and [m ;; k] of the outcome monad. *)
#[global] Instance M_ret S : MRet (M S) := fun A a => ret a.
#[global] Instance M_bind S : MBind (M S) := fun A B k m => bind m k.

(** [if c: m]. *)
Definition when {S} (c : bool) (m : M S unit) : M S unit := if c then m else ret tt.

(** [for x in l: body(x)]. *)
Fixpoint for_all {S A} (body : A -> M S unit) (l : list A) : M S unit :=
  match l with
  | [] => ret tt
  | x :: t => body x ;; for_all body t
  end.

(** [[f(x) for x in l]]. *)
Fixpoint map_all {S A B} (f : A -> M S B) (l : list A) : M S (list B) :=
  match l with
  | [] => ret []
  | x :: t => y ← f x; ys ← map_all f t; ret (y :: ys)
  end.

(** A computation on a part of the state. *)
Definition zoom {S T A} (get : T -> S) (put : S -> T -> T) (m : M S A) : M T A := fun t =>
  let '(o, s) := m (get t) in (o, put s t).

(** ** Weakest preconditions *)

(** After [m] from [s], [Q] holds of a result and [E] of an error. *)
Definition wp {S A} (m : M S A) (Q : A -> S -> Prop) (E : exn -> S -> Prop) (s : S) : Prop :=
  match m s with
  | (Ok a, s') => Q a s'
  | (Raise e, s') => E e s'
  | (OutOfFuel, _) => False
  end.

Section Rules.
Context {S : Type}.
Implicit Types s : S.

Lemma wp_ret {A} (a : A) Q E s : Q a s -> wp (ret a) Q E s.
Proof. done. Qed.

Lemma wp_raise {A} e (Q : A -> S -> Prop) E s : E e s -> wp (raise e) Q E s.
Proof. done. Qed.

Lemma wp_read {A} (f : S -> A) Q E s : Q (f s) s -> wp (read f) Q E s.
Proof. done. Qed.

Lemma wp_modify f Q (E : exn -> S -> Prop) s : Q tt (f s) -> wp (modify f) Q E s.
Proof. done. Qed.

Lemma wp_lift {A} (o : outcome A) Q E s :
  match o with Ok a => Q a s | Raise e => E e s | OutOfFuel => False end -> wp (lift o) Q E s.
Proof. done. Qed.

Lemma wp_bind {A B} (m : M S A) (k : A -> M S B) Q E s :
  wp m (fun a s' => wp (k a) Q E s') E s -> wp (m ≫= k) Q E s.
Proof. unfold wp, mbind, M_bind, bind. destruct (m s) as [[a|e|] s']; done. Qed.

Lemma wp_try {A} (m : M S A) (h : exn -> M S A) Q E s :
  wp m Q (fun e s' => wp (h e) Q E s') s -> wp (try_except m h) Q E s.
Proof. unfold wp, try_except. destruct (m s) as [[a|e|] s']; done. Qed.

Lemma wp_mono {A} (m : M S A) (Q Q' : A -> S -> Prop) (E E' : exn -> S -> Prop) s :
  wp m Q E s -> (forall a s', Q a s' -> Q' a s') -> (forall e s', E e s' -> E' e s') -> wp m Q' E' s.
Proof. unfold wp. destruct (m s) as [[a|e|] s']; naive_solver. Qed.

Lemma wp_and {A} (m : M S A) (Q Q' : A -> S -> Prop) (E E' : exn -> S -> Prop) s :
  wp m Q E s -> wp m Q' E' s -> wp m (fun a s' => Q a s' /\ Q' a s') (fun e s' => E e s' /\ E' e s') s.
Proof. unfold wp. destruct (m s) as [[a|e|] s']; naive_solver. Qed.

Lemma wp_when (c : bool) (m : M S unit) Q E s :
  (c = true -> wp m Q E s) -> (c = false -> Q tt s) -> wp (when c m) Q E s.
Proof. destruct c; naive_solver. Qed.

Lemma wp_if {A} (c : bool) (m1 m2 : M S A) Q E s :
  (c = true -> wp m1 Q E s) -> (c = false -> wp m2 Q E s) -> wp (if c then m1 else m2) Q E s.
Proof. destruct c; naive_solver. Qed.

(** A loop keeps an invariant that does not depend on its progress. *)
Lemma wp_for_all {A} (I : S -> Prop) (E : exn -> S -> Prop) (body : A -> M S unit) l s :
  I s -> (forall x s', x ∈ l -> I s' -> wp (body x) (fun _ => I) E s') -> wp (for_all body l) (fun _ => I) E s.
Proof.
  intros Hs Hbody. revert s Hs. induction l as [|x l IH]; intros s Hs; simpl; [done|].
  apply wp_bind. eapply wp_mono; [apply Hbody; [left|done]| |done].
  intros a s' Hs'. apply IH; [|done]. intros y s'' Hy. apply Hbody. by right.
Qed.

Lemma wp_map_all {A B} (I : S -> Prop) (R : A -> B -> Prop) (E : exn -> S -> Prop) (f : A -> M S B) l s :
  I s -> (forall x s', x ∈ l -> I s' -> wp (f x) (fun y s'' => I s'' /\ R x y) E s') ->
  wp (map_all f l) (fun ys s' => I s' /\ Forall2 R l ys) E s.
Proof.
  intros Hs Hf. revert s Hs. induction l as [|x l IH]; intros s Hs; simpl; [by split|].
  apply wp_bind. eapply wp_mono; [apply Hf; [left|done]| |done]. intros y s' [Hs' Hy].
  apply wp_bind. eapply wp_mono; [apply IH; [|done]; intros z s'' Hz; apply Hf; by right| |done].
  intros ys s'' [Hs'' Hys]. split; [done | by constructor].
Qed.

End Rules.

Lemma wp_zoom {S T A} (get : T -> S) (put : S -> T -> T) (m : M S A) Q E (t : T) :
  wp m (fun a s => Q a (put s t)) (fun e s => E e (put s t)) (get t) -> wp (zoom get put m) Q E t.
Proof. unfold wp, zoom. destruct (m (get t)) as [[a|e|] s]; done. Qed.

Create HintDb wp.
#[export] Hint Resolve wp_ret wp_raise wp_read wp_modify wp_lift : wp.

(** One step of symbolic execution. *)
Ltac wp_step :=
  match goal with
  | |- wp (_ ≫= _) _ _ _ => apply wp_bind
  | |- wp (ret _) _ _ _ => apply wp_ret
  | |- wp (raise _) _ _ _ => apply wp_raise
  | |- wp (read _) _ _ _ => apply wp_read
  | |- wp (modify _) _ _ _ => apply wp_modify
  | |- wp (lift _) _ _ _ => apply wp_lift
  | |- wp (try_except _ _) _ _ _ => apply wp_try
  | |- wp (zoom _ _ _) _ _ _ => apply wp_zoom
  | |- wp (when _ _) _ _ _ => apply wp_when; intros ?
  | |- wp (if _ then _ else _) _ _ _ => apply wp_if; intros ?
  end.

(** ** Partial correctness *)

(** After a successful run of [m] from [s], [Q] holds. *)
Definition post {S A} (m : M S A) (Q : A -> S -> Prop) (s : S) : Prop := forall a s', m s = (Ok a, s') -> Q a s'.

Section Partial.
Context {S : Type}.
Implicit Types s : S.

Lemma post_of_wp {A} (m : M S A) Q E s : wp m Q E s -> post m Q s.
Proof. intros H a s' Hm. unfold wp in H. by rewrite Hm in H. Qed.

Lemma post_mono {A} (m : M S A) (Q Q' : A -> S -> Prop) s : post m Q s -> (forall a s', Q a s' -> Q' a s') -> post m Q' s.
Proof. intros H HQ a s' Hm. by apply HQ, H. Qed.

Lemma post_ret {A} (a : A) Q s : Q a s -> post (ret a) Q s.
Proof. intros H a' s' [= <- <-]. done. Qed.

Lemma post_raise {A} e (Q : A -> S -> Prop) s : post (raise e) Q s.
Proof. intros a s' H. done. Qed.

Lemma post_read {A} (f : S -> A) Q s : Q (f s) s -> post (read f) Q s.
Proof. intros H a' s' [= <- <-]. done. Qed.

Lemma post_modify f (Q : unit -> S -> Prop) s : Q tt (f s) -> post (modify f) Q s.
Proof. intros H a' s' [= <- <-]. done. Qed.

Lemma post_lift {A} (o : outcome A) (Q : A -> S -> Prop) s : (forall a, o = Ok a -> Q a s) -> post (lift o) Q s.
Proof. intros H a' s' [= -> <-]. by apply H. Qed.

Lemma post_bind {A B} (m : M S A) (k : A -> M S B) Q s : post m (fun a s' => post (k a) Q s') s -> post (m ≫= k) Q s.
Proof.
  intros H b s' Hm. unfold mbind, M_bind, bind in Hm. destruct (m s) as [[a|e|] s1] eqn:E; [|done..].
  by apply (H _ _ E).
Qed.

Lemma post_when (c : bool) (m : M S unit) Q s :
  (c = true -> post m Q s) -> (c = false -> Q tt s) -> post (when c m) Q s.
Proof. destruct c; [auto|]. intros _ H. by apply post_ret, H. Qed.

Lemma post_if {A} (c : bool) (m1 m2 : M S A) Q s :
  (c = true -> post m1 Q s) -> (c = false -> post m2 Q s) -> post (if c then m1 else m2) Q s.
Proof. destruct c; auto. Qed.

Lemma post_for_all {A} (I : S -> Prop) (body : A -> M S unit) l s :
  I s -> (forall x s', x ∈ l -> I s' -> post (body x) (fun _ => I) s') -> post (for_all body l) (fun _ => I) s.
Proof.
  intros Hs Hbody. revert s Hs. induction l as [|x l IH]; intros s Hs; simpl; [by apply post_ret|].
  apply post_bind. eapply post_mono; [apply Hbody; [left|done]|]. intros u s' Hs'. apply IH; [|done].
  intros y s'' Hy. apply Hbody. by right.
Qed.

Lemma post_map_all {A B} (I : S -> Prop) (R : A -> B -> Prop) (f : A -> M S B) l s :
  I s -> (forall x s', x ∈ l -> I s' -> post (f x) (fun y s'' => I s'' /\ R x y) s') ->
  post (map_all f l) (fun ys s' => I s' /\ Forall2 R l ys) s.
Proof.
  intros Hs Hf. revert s Hs. induction l as [|x l IH]; intros s Hs; simpl; [apply post_ret; by split|].
  apply post_bind. eapply post_mono; [apply Hf; [left|done]|]. intros y s' [Hs' Hy].
  apply post_bind. eapply post_mono; [apply IH; [|done]; intros z s'' Hz; apply Hf; by right|].
  intros ys s'' [Hs'' Hys]. apply post_ret. split; [done | by constructor].
Qed.

End Partial.

(** One step of symbolic execution for [post]. *)
Ltac post_step :=
  match goal with
  | |- post (_ ≫= _) _ _ => apply post_bind
  | |- post (ret _) _ _ => apply post_ret
  | |- post (raise _) _ _ => apply post_raise
  | |- post (read _) _ _ => apply post_read
  | |- post (modify _) _ _ => apply post_modify
  | |- post (lift _) _ _ => apply post_lift; intros ? ?
  | |- post (when _ _) _ _ => apply post_when; intros ?
  | |- post (if _ then _ else _) _ _ => apply post_if; intros ?
  end.

(** A comprehension whose results keep holding while the state only grows. *)
Lemma post_map_all_mono {S A B} (K : S -> S -> Prop) `{!PreOrder K} (R : A -> B -> S -> Prop) (f : A -> M S B) l s :
  (forall x y s1 s2, K s1 s2 -> R x y s1 -> R x y s2) ->
  (forall x s1, x ∈ l -> K s s1 -> post (f x) (fun y s2 => K s1 s2 /\ R x y s2) s1) ->
  post (map_all f l) (fun ys s' => K s s' /\ Forall2 (fun x y => R x y s') l ys) s.
Proof.
  intros Hmono. revert s. induction l as [|x l IH]; intros s Hf; simpl; [apply post_ret; by split|].
  apply post_bind. eapply post_mono; [apply Hf; [left | done]|]. intros y s1 [Hk Hy].
  apply post_bind. eapply post_mono; [apply (IH s1)|].
  - intros z s2 Hz Hk2. apply Hf; [by right | by transitivity s1].
  - intros ys s2 [Hk2 Hys]. apply post_ret. split; [by transitivity s1|]. constructor; [by apply (Hmono x y s1)|done].
Qed.
