(* ===== verification/Models.v ===== *)
(** The workflow data model: keywords, template syntax, prompt segments,
    token budgets, worktree declarations and workflow nodes.

    Sources: core/workflow/keywords.py, syntax.py, models.py,
    normalization.py, core/prompt_segments.py, core/token_budget.py and
    core/workspace/policy.py.  Regular expressions are written as the
    deterministic matchers they denote on ASCII text. *)

From Stdlib Require Import ZArith Lia Ascii String.
From stdpp Require Import base list strings pretty.
From S2P Require Import Prelude PyStr.

Open Scope string_scope.
Open Scope list_scope.
Open Scope Z_scope.

(** ** Decoded YAML and JSON values *)

(** Code: architecture/contracts/json.py:1-5.  A float is kept as its
    printed form, which the modelled code never computes with. *)
Inductive json : Type :=
| JNull
| JBool (b : bool)
| JInt (z : Z)
| JFloat (repr : string)
| JStr (s : string)
| JList (l : list json)
| JObj (fields : list (string * json)).

(** ** Keywords (core/workflow/keywords.py) *)

(** Code: core/workflow/keywords.py, NodeMode. *)
Inductive NodeMode := Parallel | Sequential | InputMode | Foreach.
(** Code: core/workflow/keywords.py, ReviewStartsWith. *)
Inductive ReviewStartsWith := StartsExecutor | StartsReviewer.
(** Code: core/workflow/keywords.py, ProviderRole. *)
Inductive ProviderRole := EXECUTOR | REVIEWER.
(** Code: core/workflow/keywords.py, SequentialConsensusPolicy. *)
Inductive SequentialConsensusPolicy := ConsensusContinue | ConsensusFatal.

#[global] Instance NodeMode_eq_dec : EqDecision NodeMode.
Proof. solve_decision. Defined.
#[global] Instance ReviewStartsWith_eq_dec : EqDecision ReviewStartsWith.
Proof. solve_decision. Defined.
#[global] Instance ProviderRole_eq_dec : EqDecision ProviderRole.
Proof. solve_decision. Defined.
#[global] Instance SequentialConsensusPolicy_eq_dec : EqDecision SequentialConsensusPolicy.
Proof. solve_decision. Defined.

(** Code: core/workflow/keywords.py, ALLOWED_NODE_MODES. *)
Definition ALLOWED_NODE_MODES : list string := ["parallel"; "sequential"; "input"; "foreach"].
(** Code: core/workflow/keywords.py, ALLOWED_REVIEW_STARTS_WITH. *)
Definition ALLOWED_REVIEW_STARTS_WITH : list string := ["executor"; "reviewer"].
(** Code: core/workflow/keywords.py, NodeArtifactName. *)
Definition ALLOWED_NODE_ARTIFACT_NAMES : list string :=
  ["output"; "findings"; "output_path"; "findings_path"; "output_size"; "findings_size";
   "output_sha256"; "findings_sha256"].
(** Code: core/workflow/keywords.py, RESERVED_RUN_ROOT_NAMES. *)
Definition RESERVED_RUN_ROOT_NAMES : list string :=
  ["logs"; "manifests"; "preflight"; "workspace-exports"].

Definition mode_value (m : NodeMode) : string :=
  match m with
  | Parallel => "parallel" | Sequential => "sequential"
  | InputMode => "input" | Foreach => "foreach"
  end.
Definition role_value (r : ProviderRole) : string :=
  match r with EXECUTOR => "executor" | REVIEWER => "reviewer" end.
Definition starts_value (s : ReviewStartsWith) : string :=
  match s with StartsExecutor => "executor" | StartsReviewer => "reviewer" end.

(** Code: core/workflow/keywords.py, validate_exact_keyword. *)
Definition validate_exact_keyword (value : json) (field_name : string)
    (allowed_values : list string) : outcome json :=
  match value with
  | JStr s =>
      if str_in s allowed_values then Ok value
      else
        let allowed := str_join ", " allowed_values in
        if str_in (str_lower s) allowed_values
        then Raise (ValueError (field_name +:+ " must be lower-case and one of: " +:+ allowed))
        else Raise (ValueError (field_name +:+ " must be one of: " +:+ allowed))
  | _ => Ok value
  end.

(** Code: core/workflow/normalization.py, normalize_node_mode. *)
Definition normalize_node_mode (value : json) : outcome json :=
  validate_exact_keyword value "node mode" ALLOWED_NODE_MODES.

(** Code: core/workflow/normalization.py, normalize_review_starts_with. *)
Definition normalize_review_starts_with (value : json) : outcome json :=
  validate_exact_keyword value "review_starts_with" ALLOWED_REVIEW_STARTS_WITH.

(** [itertools.pairwise]. *)
Fixpoint pairwise {A} (l : list A) : list (A * A) :=
  match l with
  | a :: (b :: _) as t => (a, b) :: pairwise t
  | _ => []
  end.

(** Code: core/workflow/keywords.py, provider_role_segments_are_contiguous. *)
Definition provider_role_segments_are_contiguous (roles : list ProviderRole) : bool :=
  forallb (fun '(l, r) => negb (bool_decide (l = REVIEWER)) || negb (bool_decide (r = EXECUTOR)))
    (pairwise roles).

(** ** Template syntax (core/workflow/syntax.py) *)

Definition lit (s : string) : text := chars s.
Definition brace_open : ascii := ascii_of_N 123.
Definition brace_close : ascii := ascii_of_N 125.
Definition is_char (c d : ascii) : bool := bool_decide (c = d).

Definition node_id_char (c : ascii) : bool :=
  is_lower c || is_digit c || is_char c "." || is_char c "_" || is_char c "-".
Definition artifact_char (c : ascii) : bool :=
  is_lower c || is_upper c || is_digit c || is_char c "_" || is_char c "-".

(** Code: core/workflow/syntax.py, NODE_ID_PATTERN. *)
Definition node_id_fullmatch (s : string) : bool :=
  nonempty s && forallb node_id_char (chars s).

Fixpoint span (p : ascii -> bool) (l : text) : text * text :=
  match l with
  | [] => ([], [])
  | c :: t => if p c then let (a, b) := span p t in (c :: a, b) else ([], l)
  end.

(** The body of a fullmatch of [{{ body }}] where the body holds no [}]. *)
Definition braced_body (l : text) : option text :=
  if starts_with (lit "{{") l then
    let (body, rest) := span (fun c => negb (is_char c brace_close)) (drop 2 l) in
    if decide (rest = lit "}}") then Some body else None
  else None.

(** Code: core/workflow/syntax.py, INPUT_SOURCE_PATTERN. *)
Definition input_source_fullmatch (s : string) : bool :=
  match braced_body (chars s) with
  | Some body =>
      let body := drop_while is_space body in
      starts_with (lit "file:") body && negb (bool_decide (drop 5 body = []))
  | None => false
  end.

(** Split at the last dot: [rsplit(".", 1)]. *)
Definition split_last_dot (l : text) : option (text * text) :=
  let (after, before) := span (fun c => negb (is_char c ".")) (reverse l) in
  match before with
  | [] => None
  | _ :: b => Some (reverse b, reverse after)
  end.

(** Code: core/workflow/syntax.py, NODE_ARTIFACT_REFERENCE_PATTERN.
    A match at the head of the text: the node id, the artifact name and the
    number of characters consumed. *)
Definition match_artifact_reference (l : text) : option ((text * text) * nat) :=
  if starts_with (lit "{{") l then
    let (sp1, l1) := span is_space (drop 2 l) in
    let (core, l2) := span (fun c => node_id_char c || artifact_char c) l1 in
    let (sp2, l3) := span is_space l2 in
    if starts_with (lit "}}") l3 then
      match split_last_dot core with
      | Some (g1, g2) =>
          if negb (bool_decide (g1 = [])) && forallb node_id_char g1 && negb (bool_decide (g2 = []))
          then Some ((g1, g2), (4 + length sp1 + length core + length sp2)%nat)
          else None
      | None => None
      end
    else None
  else None.

(** Code: core/workflow/syntax.py, PARAM_TEMPLATE_PATTERN. *)
Definition match_param (l : text) : option (text * nat) :=
  if starts_with (lit "{{") l then
    let (sp, l1) := span is_space (drop 2 l) in
    if starts_with (lit "param:") l1 then
      let (key, l2) := span (fun c => negb (is_char c brace_close)) (drop 6 l1) in
      if starts_with (lit "}}") l2 && negb (bool_decide (key = []))
      then Some (key, (10 + length sp + length key)%nat)
      else None
    else None
  else None.

(** Code: core/workflow/syntax.py, TEMPLATE_TOKEN_PATTERN. *)
Definition match_template (l : text) : option (text * nat) :=
  if starts_with (lit "{{") l then
    let (body, rest) := span (fun c => negb (is_char c brace_open || is_char c brace_close)) (drop 2 l) in
    if starts_with (lit "}}") rest
    then Some ((lit "{{" ++ body ++ lit "}}")%list, (4 + length body)%nat)
    else None
  else None.

(** [pattern.finditer(s)] for a pattern that never matches the empty text. *)
Fixpoint find_all {A} (try : text -> option (A * nat)) (skip : nat) (l : text) : list A :=
  match l with
  | [] => []
  | _ :: t =>
      match skip with
      | S k => find_all try k t
      | O => match try l with
             | Some (a, S n) => a :: find_all try n t
             | _ => find_all try O t
             end
      end
  end.

(** [pattern.sub(f, s)] for a pattern that never matches the empty text. *)
Fixpoint sub_all {A} (try : text -> option (A * nat)) (emit : A -> text) (skip : nat) (l : text) : text :=
  match l with
  | [] => []
  | c :: t =>
      match skip with
      | S k => sub_all try emit k t
      | O => match try l with
             | Some (a, S n) => (emit a ++ sub_all try emit n t)%list
             | _ => c :: sub_all try emit O t
             end
      end
  end.

(** Code: core/workflow/syntax.py, NodeArtifactToken..KeyValueToken. *)
Inductive TemplateToken :=
| NodeArtifactToken (node_id artifact_name : string)
| KeyValueToken (template_type value : string).

(** Code: core/workflow/syntax.py, match_template_token. *)
Definition match_template_token (token : string) : option TemplateToken :=
  let l := chars token in
  let node_match :=
    match match_artifact_reference l with
    | Some ((g1, g2), n) => if decide (n = length l) then Some (g1, g2) else None
    | None => None
    end in
  match node_match with
  | Some (g1, g2) => Some (NodeArtifactToken (of_chars g1) (of_chars g2))
  | None =>
      match braced_body l with
      | Some body =>
          let (key, rest) := span (fun c => is_lower c || is_upper c || is_char c "_") body in
          match rest with
          | colon :: value =>
              if is_char colon ":" && negb (bool_decide (key = [])) && negb (bool_decide (value = []))
              then Some (KeyValueToken (of_chars key) (of_chars value)) else None
          | [] => None
          end
      | None => None
      end
  end.

(** ** Prompt segments (core/prompt_segments.py) *)

(** Code: core/prompt_segments.py, PromptSegmentRole. *)
Inductive PromptSegmentRole := SEG_SHARED | SEG_EXECUTOR | SEG_REVIEWER.
#[global] Instance PromptSegmentRole_eq_dec : EqDecision PromptSegmentRole.
Proof. solve_decision. Defined.

Definition segment_role_value (r : PromptSegmentRole) : string :=
  match r with SEG_SHARED => "shared" | SEG_EXECUTOR => "executor" | SEG_REVIEWER => "reviewer" end.

(** Code: core/prompt_segments.py, PromptSegment. *)
Record PromptSegment := mkSegment { seg_role : PromptSegmentRole; seg_content : string }.

(** Code: core/prompt_segments.py, render_prompt_segments. *)
Definition render_prompt_segments (segments : list PromptSegment) (role : PromptSegmentRole) : string :=
  str_join "" (map seg_content
    (List.filter (fun s => bool_decide (seg_role s = SEG_SHARED) || bool_decide (seg_role s = role)) segments)).

(** Code: core/prompt_segments.py, prompt_segment_payload_dict. *)
Definition prompt_segment_payload_dict (s : PromptSegment) : json :=
  JObj [("role", JStr (segment_role_value (seg_role s))); ("content", JStr (seg_content s))].

(** ** Token budgets (core/token_budget.py) *)

(** A threshold field with pydantic's [model_fields_set]: [None] when the
    field was not given, [Some v] when it was (possibly to [None]). *)
Notation fieldset A := (option A) (only parsing).

(** Code: core/token_budget.py, validate_token_budget_thresholds. *)
Definition validate_token_budget_thresholds (warn fail : option Z) : outcome unit :=
  match warn, fail with
  | Some w, Some f =>
      if f <? w
      then Raise (ValueError "fail_threshold_chars must be greater than or equal to warn_threshold_chars")
      else Ok tt
  | _, _ => Ok tt
  end.

(** Code: core/token_budget.py, TokenBudgetSettings. *)
Record TokenBudgetSettings := mkBudgetSettings {
  settings_warn : option Z;
  settings_fail : option Z }.
Definition default_TokenBudgetSettings : TokenBudgetSettings := mkBudgetSettings (Some 50000) None.

(** Code: core/token_budget.py, TokenBudgetOverride. *)
Record TokenBudgetOverride := mkBudgetOverride {
  override_warn : fieldset (option Z);
  override_fail : fieldset (option Z) }.

(** Code: core/token_budget.py, ResolvedTokenBudget. *)
Record ResolvedTokenBudget := mkResolvedBudget {
  resolved_warn : option Z;
  resolved_fail : option Z }.

(** Code: core/token_budget.py, ResolvedTokenBudget.has_thresholds. *)
Definition has_thresholds (b : ResolvedTokenBudget) : bool :=
  match resolved_warn b, resolved_fail b with None, None => false | _, _ => true end.

(** Code: core/token_budget.py, resolve_token_budget. *)
Definition resolve_token_budget (settings_budget : option TokenBudgetSettings)
    (node_budget : option TokenBudgetOverride) : outcome ResolvedTokenBudget :=
  let default_budget := default default_TokenBudgetSettings settings_budget in
  let (warn, fail) :=
    match node_budget with
    | None => (settings_warn default_budget, settings_fail default_budget)
    | Some nb => (default (settings_warn default_budget) (override_warn nb),
                  default (settings_fail default_budget) (override_fail nb))
    end in
  _ ← validate_token_budget_thresholds warn fail;
  mret (mkResolvedBudget warn fail).

(** Code: core/token_budget.py, token_budget_payload_dict. *)
Definition token_budget_payload_dict (b : TokenBudgetOverride) : json :=
  let field name (v : fieldset (option Z)) :=
    match v with
    | None => []
    | Some None => [(name, JNull)]
    | Some (Some z) => [(name, JInt z)]
    end in
  JObj (field "warn_threshold_chars" (override_warn b) ++ field "fail_threshold_chars" (override_fail b)).

(** ** Worktree declarations (core/workspace/policy.py) *)

(** Code: core/workspace/policy.py, WorktreeKind. *)
Inductive WorktreeKind := WK_worktree | WK_snapshot.
#[global] Instance WorktreeKind_eq_dec : EqDecision WorktreeKind.
Proof. solve_decision. Defined.

(** Code: core/workspace/policy.py, PROJECT_ROOT_WORKTREE_SELECTOR. *)
Definition PROJECT_ROOT_WORKTREE_SELECTOR : string := "none".

(** Code: core/workspace/policy.py, WorktreeDeclaration. *)
Record WorktreeDeclaration := mkWorktree {
  wt_kind : WorktreeKind;
  wt_setup_profile : option string;
  wt_create_branch : bool;
  wt_branch_name : option string }.

(** Code: core/workspace/policy.py, validate_worktree_name. *)
Definition validate_worktree_name (name : string) : outcome string :=
  let normalized := str_strip name in
  if decide (normalized = PROJECT_ROOT_WORKTREE_SELECTOR)
  then Raise (ValueError "'none' is reserved and cannot be a worktree name")
  else if node_id_fullmatch normalized then Ok normalized
  else Raise (ValueError "worktree names must match '[a-z0-9._-]+'").

(** Code: core/workflow/normalization.py, normalize_worktree_selector. *)
Definition normalize_worktree_selector (value : json) : outcome json :=
  match value with
  | JStr s =>
      let normalized := str_strip s in
      if nonempty normalized then Ok (JStr normalized)
      else Raise (ValueError "worktree selector cannot be blank")
  | _ => Ok value
  end.

(** Code: core/workflow/normalization.py, normalize_worktree_declarations.
    The YAML mapping is given by its string keys; [decl] is the raw value. *)
Definition normalize_worktree_declarations (value : list (string * json)) : outcome (dict json) :=
  for_each (fun normalized '(raw_name, declaration) =>
    name ← validate_worktree_name raw_name;
    if dmem normalized name then Raise (ValueError ("Duplicate worktree name " +:+ quoted name))
    else Ok (dset normalized name declaration)) value [].

(** ** Workflow nodes and plans (core/workflow/models.py) *)

(** Code: core/workflow/models.py, ProviderSpec. *)
Record ProviderSpec := mkProvider {
  provider_name : string;
  provider_model : option string;
  provider_reasoning : option string;
  provider_role : ProviderRole }.

(** The [items] field: an inline array of objects or an artifact reference. *)
Inductive ForeachItems :=
| InlineItems (items : list json)
| ItemsReference (ref : string).

(** Code: core/workflow/models.py, WorkflowNode.  [review_starts_with] keeps
    whether the field was given, as [model_fields_set] does. *)
Record WorkflowNode := mkNode {
  node_id : string;
  node_mode : NodeMode;
  node_findings : bool;
  node_prompt_segments : list PromptSegment;
  node_source : option string;
  node_providers : list ProviderSpec;
  node_needs : list string;
  node_audit_rounds : option Z;
  node_depth : option Z;
  node_review_starts_with : fieldset ReviewStartsWith;
  node_continue_on_failure : bool;
  node_failure_threshold : option Z;
  node_token_budget : option TokenBudgetOverride;
  node_worktree : option string;
  node_workflow : option string;
  node_item_input : option string;
  node_items : option ForeachItems;
  node_max_items : option Z;
  node_inputs : dict string;
  node_with_params : dict string }.

Definition review_starts_with (n : WorkflowNode) : ReviewStartsWith :=
  default StartsExecutor (node_review_starts_with n).

(** Code: core/workflow/models.py, WorkflowPlan. *)
Record WorkflowPlan := mkPlan {
  plan_schema_version : string;
  plan_name : string;
  plan_description : string;
  plan_repeat_force_run_count : option Z;
  plan_inputs : dict string;
  plan_worktrees : dict WorktreeDeclaration;
  plan_nodes : list WorkflowNode }.

(** Code: core/workflow/models.py, WorkflowPlan._validate_worktree_selectors. *)
Definition validate_worktree_selectors (plan : WorkflowPlan) : outcome unit :=
  for_each (fun (_ : unit) (node : WorkflowNode) =>
    match node_worktree node with
    | Some w =>
        if decide (w = PROJECT_ROOT_WORKTREE_SELECTOR) then Ok tt
        else if dmem (plan_worktrees plan) w then Ok tt
        else Raise (ValueError ("Node " +:+ quoted (node_id node) +:+ " selects unknown worktree " +:+ quoted w))
    | None => Ok tt
    end) (plan_nodes plan) tt.

(** Code: core/workflow/models.py, render_prompt_for_role. *)
Definition render_prompt_for_role (n : WorkflowNode) (role : PromptSegmentRole) : string :=
  render_prompt_segments (node_prompt_segments n) role.

Definition is_some {A} (o : option A) : bool := match o with Some _ => true | None => false end.
Definition is_cons {A} (l : list A) : bool := match l with [] => false | _ => true end.

(** Code: core/workflow/models.py, INPUT_NODE_CONTRACT_RULES. *)
Definition INPUT_NODE_CONTRACT_RULES : list (string * (WorkflowNode -> bool)) :=
  [("prompt_segments", fun n => is_cons (node_prompt_segments n));
   ("findings", node_findings);
   ("providers", fun n => is_cons (node_providers n));
   ("dependencies", fun n => is_cons (node_needs n));
   ("depth", fun n => is_some (node_depth n));
   ("audit_rounds", fun n => is_some (node_audit_rounds n));
   ("review_starts_with", fun n => is_some (node_review_starts_with n));
   ("failure_threshold", fun n => is_some (node_failure_threshold n));
   ("continue_on_failure", node_continue_on_failure);
   ("token_budget", fun n => is_some (node_token_budget n))].

(** Code: core/workflow/models.py, validate_input_node_boundary. *)
Definition validate_input_node_boundary (n : WorkflowNode) (node_label : string) : outcome unit :=
  for_each (fun (_ : unit) (rule : string * (WorkflowNode -> bool)) =>
    let (field_name, is_defined) := rule in
    if is_defined n
    then Raise (ValueError (node_label +:+ " must not define " +:+ field_name +:+ "."))
    else Ok tt) INPUT_NODE_CONTRACT_RULES tt.

(** Code: core/workflow/models.py, validate_input_node_contract. *)
Definition validate_input_node_contract (n : WorkflowNode) (node_label : string) : outcome unit :=
  _ ← validate_input_node_boundary n node_label;
  match node_source n with
  | None => Raise (ValueError (node_label +:+ " requires a non-empty source."))
  | Some source =>
      if negb (not_blank source)
      then Raise (ValueError (node_label +:+ " requires a non-empty source."))
      else if input_source_fullmatch (str_strip source) then Ok tt
      else Raise (ValueError (node_label +:+
             " source must be exactly one raw {{file:...}} template."))
  end.

(** Code: core/workflow/models.py, workflow_provider_payload_dict. *)
Definition workflow_provider_payload_dict (p : ProviderSpec) : json :=
  JObj (("provider", JStr (provider_name p)) ::
    match provider_model p with Some m => [("model", JStr m)] | None => [] end ++
    match provider_reasoning p with Some r => [("reasoning", JStr r)] | None => [] end ++
    (if decide (provider_role p = EXECUTOR) then [] else [("role", JStr (role_value (provider_role p)))])).

Definition items_json (i : ForeachItems) : json :=
  match i with InlineItems l => JList l | ItemsReference s => JStr s end.

Definition string_dict_json (d : dict string) : json := JObj (map (fun '(k, v) => (k, JStr v)) d).

Definition opt_field {A} (name : string) (f : A -> json) (o : option A) : list (string * json) :=
  match o with Some a => [(name, f a)] | None => [] end.

(** Code: core/workflow/models.py, workflow_node_payload_dict. *)
Definition workflow_node_payload_dict (n : WorkflowNode) : outcome json :=
  if decide (node_mode n = Foreach) then
    match node_workflow n, node_item_input n, node_items n with
    | Some w, Some ii, Some items =>
        let uncapped := match items, node_max_items n with
                        | ItemsReference _, None => true | _, _ => false end in
        if uncapped then Raise (ValueError ("Incomplete foreach declaration " +:+ quoted (node_id n)))
        else Ok (JObj
          ([("id", JStr (node_id n)); ("mode", JStr (mode_value (node_mode n)));
            ("needs", JList (map JStr (node_needs n))); ("workflow", JStr w);
            ("item_input", JStr ii); ("items", items_json items);
            ("inputs", string_dict_json (node_inputs n));
            ("with_params", string_dict_json (node_with_params n))]
           ++ opt_field "max_items" JInt (node_max_items n)))
    | _, _, _ => Raise (ValueError ("Incomplete foreach declaration " +:+ quoted (node_id n)))
    end
  else
    Ok (JObj
      ([("id", JStr (node_id n)); ("mode", JStr (mode_value (node_mode n)));
        ("providers", JList (map workflow_provider_payload_dict (node_providers n)));
        ("needs", JList (map JStr (node_needs n)));
        ("continue_on_failure", JBool (node_continue_on_failure n))]
       ++ (if node_findings n then [("findings", JBool true)] else [])
       ++ (if decide (node_mode n = InputMode)
           then [("source", JStr (default "" (node_source n)))]
           else [("prompt_segments", JList (map prompt_segment_payload_dict (node_prompt_segments n)))])
       ++ opt_field "depth" JInt (node_depth n)
       ++ opt_field "audit_rounds" JInt (node_audit_rounds n)
       ++ opt_field "review_starts_with" (fun s => JStr (starts_value s)) (node_review_starts_with n)
       ++ opt_field "failure_threshold" JInt (node_failure_threshold n)
       ++ opt_field "token_budget" token_budget_payload_dict (node_token_budget n)
       ++ opt_field "worktree" JStr (node_worktree n))).
