(* ===== verification/Graph.v ===== *)
(** Workflow graph analysis: core/workflow/graph.py.

    [ordered_graph_waves] is the layered Kahn traversal the rest of the
    program relies on for execution order.  The theorems show that on maps
    built from a node list it terminates, never raises [KeyError], returns the
    nodes in dependency layers exactly when the graph is acyclic and raises
    its cycle error exactly when there is a dependency cycle; the ancestor
    map is the transitive closure of the dependency relation. *)

From Stdlib Require Import ZArith Lia Ascii String.
From stdpp Require Import base gmap sets list strings sorting relations.
From S2P Require Import Prelude PyStr Models.

Open Scope string_scope.
Open Scope list_scope.
Open Scope Z_scope.

(** ** Definitions *)

Definition CYCLE_MESSAGE : string := "Workflow graph contains a cycle.".

Definition set_of (l : list string) : gset string := list_to_set l.

Definition node_refs (workflow : WorkflowPlan) : list (string * list string) :=
  map (fun node => (node_id node, node_needs node)) (plan_nodes workflow).

(** Code: core/workflow/graph.py, has_valid_dependency_references. *)
Definition has_valid_dependency_references (workflow : WorkflowPlan) : bool :=
  let ids := map node_id (plan_nodes workflow) in
  let node_ids := set_of ids in
  let dependencies := dict_of (map (fun '(id, needs) => (id, set_of needs)) (node_refs workflow)) in
  if negb (bool_decide (size node_ids = length (plan_nodes workflow))) then false
  else if existsb (fun '(id, needs) => bool_decide (id ∈ needs)) dependencies then false
  else forallb (fun '(_, needs) => bool_decide (needs ⊆ node_ids)) dependencies.

(** [dependents[needed].add(node_id)] for each need of one node. *)
Definition add_dependent (id : string) (dependents : dict (gset string)) (needed : string)
    : outcome (dict (gset string)) :=
  match dget dependents needed with
  | None => Raise (ValueError ("Node " +:+ quoted id +:+ " depends on unknown node " +:+ quoted needed +:+ "."))
  | Some ds => Ok (dset dependents needed ({[id]} ∪ ds))
  end.

(** Code: core/workflow/graph.py, build_graph_dependency_maps. *)
Definition build_graph_dependency_maps (nodes : list (string * list string))
    : outcome (dict (gset string) * dict (gset string)) :=
  let dependencies := dict_of (map (fun '(id, needs) => (id, set_of needs)) nodes) in
  let dependents := dict_of (map (fun '(id, _) => (id, ∅)) nodes) in
  dependents ← for_each (fun dependents '(id, needs) =>
                 for_each (add_dependent id) needs dependents) nodes dependents;
  mret (dependencies, dependents).

(** Code: core/workflow/graph.py, build_dependency_maps. *)
Definition build_dependency_maps (workflow : WorkflowPlan)
    : outcome (dict (gset string) * dict (gset string)) :=
  build_graph_dependency_maps (node_refs workflow).

(** The body of the inner loop: one dependent of a finished node. *)
Definition relax_dependent (st : dict Z * list string) (dependent_id : string)
    : outcome (dict Z * list string) :=
  let (remaining, next_ready) := st in
  count ← ditem remaining dependent_id;
  let remaining := dset remaining dependent_id (count - 1) in
  if decide (count - 1 = 0) then Ok (remaining, next_ready ++ [dependent_id])
  else Ok (remaining, next_ready).

(** One node of the current wave. *)
Definition finish_node (order : dict Z) (dependents : dict (gset string))
    (st : dict Z * list string) (id : string) : outcome (dict Z * list string) :=
  ds ← ditem dependents id;
  sorted ← sorted_by_order order (elements ds);
  for_each relax_dependent sorted st.

(** The [while ready] loop; [fuel] bounds the number of waves. *)
Fixpoint waves_loop (fuel : nat) (order : dict Z) (dependents : dict (gset string))
    (remaining : dict Z) (ready : list string) (waves : list (list string)) (visited : nat)
    : outcome (list (list string) * nat) :=
  match ready with
  | [] => Ok (waves, visited)
  | _ :: _ =>
      match fuel with
      | O => OutOfFuel
      | S fuel' =>
          '(remaining', next_ready) ← for_each (finish_node order dependents) ready (remaining, []);
          ready' ← sorted_by_order order next_ready;
          waves_loop fuel' order dependents remaining' ready' (waves ++ [ready]) (visited + length ready)
      end
  end.

(** Code: core/workflow/graph.py, ordered_graph_waves. *)
Definition ordered_graph_waves (node_ids : list string)
    (dependencies dependents : dict (gset string)) : outcome (list (list string)) :=
  let remaining := map (fun '(id, needs) => (id, Z.of_nat (size needs))) dependencies in
  let order := enumerate_order node_ids in
  ready ← sorted_by_order order (map fst (List.filter (fun '(_, count) => count =? 0) remaining));
  '(waves, visited) ← waves_loop (length dependencies) order dependents remaining ready [] 0;
  if decide (visited = length node_ids) then Ok waves else Raise (ValueError CYCLE_MESSAGE).

(** The ancestor update for one node.
    Code: core/workflow/graph.py:69-73. *)
Definition ancestors_step (dependencies ancestors : dict (gset string)) (id : string)
    : outcome (dict (gset string)) :=
  needs ← ditem dependencies id;
  for_each (fun anc needed =>
    mine ← ditem anc id;
    theirs ← ditem anc needed;
    Ok (dset anc id ({[needed]} ∪ (mine ∪ theirs)))) (elements needs) ancestors.

(** Code: core/workflow/graph.py, WorkflowGraphAnalysis. *)
Record WorkflowGraphAnalysis := mkAnalysis {
  analysis_waves : list (list string);
  analysis_ancestors : dict (gset string) }.

(** Code: core/workflow/graph.py, analyze_workflow_graph. *)
Definition analyze_workflow_graph (workflow : WorkflowPlan) : outcome WorkflowGraphAnalysis :=
  '(dependencies, dependents) ← build_dependency_maps workflow;
  waves ← ordered_graph_waves (map node_id (plan_nodes workflow)) dependencies dependents;
  let ancestors := map (fun '(id, _) => (id, ∅)) dependencies in
  ancestors ← for_each (ancestors_step dependencies) (concat waves) ancestors;
  mret (mkAnalysis waves ancestors).

(** Code: core/workflow/graph.py, topological_waves. *)
Definition topological_waves (workflow : WorkflowPlan) : outcome (list (list string)) :=
  a ← analyze_workflow_graph workflow; mret (analysis_waves a).

(** Code: core/workflow/graph.py, ancestor_map. *)
Definition ancestor_map (workflow : WorkflowPlan) : outcome (dict (gset string)) :=
  a ← analyze_workflow_graph workflow; mret (analysis_ancestors a).

(** ** The dependency maps *)

Definition deps (D : dict (gset string)) (n : string) : gset string := default ∅ (dget D n).

(** What the two maps built by [build_graph_dependency_maps] promise to the
    traversal: the keys are the node ids, needs are node ids and the
    dependents map is the converse of the dependency map. *)
Class GraphMaps (ids : list string) (D T : dict (gset string)) : Prop := {
  gm_nodup : NoDup ids;
  gm_keys : dkeys D = ids;
  gm_tkeys : forall x, x ∈ dkeys T <-> x ∈ ids;
  gm_closed : forall n d, d ∈ deps D n -> d ∈ ids;
  gm_dual : forall d S, dget T d = Some S -> forall n, n ∈ S <-> n ∈ ids /\ d ∈ deps D n }.

Lemma set_of_elem x l : x ∈ set_of l <-> x ∈ l.
Proof. unfold set_of. by rewrite elem_of_list_to_set. Qed.

#[export] Hint Rewrite set_of_elem : sets_of.

Lemma dkeys_map_pair {V W} (f : string * V -> W) (d : dict V) :
  dkeys (map (fun kv => (fst kv, f kv)) d) = dkeys d.
Proof. unfold dkeys. rewrite map_map. done. Qed.

Lemma dget_map_pair {V W} (f : V -> W) (d : dict V) k :
  dget (map (fun '(k, v) => (k, f v)) d) k = f <$> dget d k.
Proof. induction d as [|[k' v] d IH]; simpl; [done|]. destruct (decide (k = k')); done. Qed.

Lemma dkeys_map_val {V W} (f : V -> W) (d : dict V) :
  dkeys (map (fun '(k, v) => (k, f v)) d) = dkeys d.
Proof. induction d as [|[k v] d IH]; simpl; f_equal; done. Qed.

Section BuildMaps.
Context (nodes : list (string * list string)).
Let ids := map fst nodes.

(** The partially filled dependents map after the nodes in [done]. *)
Definition dependents_inv (done : list (string * list string)) (T : dict (gset string)) : Prop :=
  (forall x, x ∈ dkeys T <-> x ∈ ids) /\
  (forall d S, dget T d = Some S ->
     forall n, n ∈ S <-> exists needs, (n, needs) ∈ done /\ d ∈ needs) /\
  (forall n needs d, (n, needs) ∈ done -> d ∈ needs -> d ∈ ids).

Lemma add_dependents_ok done id todo T :
  (forall d, d ∈ todo -> d ∈ ids) ->
  dependents_inv done T ->
  exists T', for_each (add_dependent id) todo T = Ok T' /\ dependents_inv (done ++ [(id, todo)]) T'.
Proof.
  intros Hin (Hk & Hd & Hc).
  set (P := fun (seen : list string) (T' : dict (gset string)) =>
    (forall x, x ∈ dkeys T' <-> x ∈ ids) /\
    (forall d S, dget T' d = Some S ->
       forall n, n ∈ S <-> (exists needs, (n, needs) ∈ done /\ d ∈ needs) \/ (n = id /\ d ∈ seen))).
  destruct (for_each_inv P (add_dependent id) todo T) as (T' & HT' & Hk' & Hd').
  - split; [done|]. intros d S HS n. rewrite (Hd d S HS n). set_solver.
  - intros seen x rest T' Hl [Hk' Hd'].
    assert (x ∈ dkeys T') as Hx.
    { apply Hk', Hin. rewrite Hl. set_solver. }
    unfold add_dependent. apply dget_is_Some in Hx as [S HS]. rewrite HS.
    eexists. split; [done|]. split.
    + intros y. rewrite elem_of_dkeys_dset, Hk'. split; [|tauto].
      intros [->|]; [|done]. apply Hk', dget_is_Some. eauto.
    + intros d S' HS' n. rewrite dget_dset in HS'. case_decide as Hxd.
      * subst. injection HS' as <-. rewrite elem_of_union, elem_of_singleton, (Hd' _ _ HS n). set_solver.
      * rewrite (Hd' _ _ HS' n). set_solver.
  - exists T'. split; [done|]. split; [done|]. split.
    + intros d S HS n. rewrite (Hd' d S HS n). split.
      * intros [(needs & Hn & Hdn)|[-> Hdn]]; [exists needs | exists todo]; set_solver.
      * intros (needs & Hn & Hdn). apply elem_of_app in Hn as [Hn|Hn]; [eauto|].
        apply list_elem_of_singleton in Hn. injection Hn as -> ->. by right.
    + intros n needs d Hn Hdn. apply elem_of_app in Hn as [Hn|Hn]; [eauto|].
      apply list_elem_of_singleton in Hn. injection Hn as -> ->. auto.
Qed.

Lemma elem_of_fst {A B} (l : list (A * B)) x : x ∈ map fst l <-> exists y, (x, y) ∈ l.
Proof.
  rewrite list_elem_of_fmap. split.
  - intros ([a b] & -> & H). eauto.
  - intros [y H]. by exists (x, y).
Qed.

Lemma build_maps_ok :
  NoDup ids ->
  (forall n needs d, (n, needs) ∈ nodes -> d ∈ needs -> d ∈ ids) ->
  exists T, build_graph_dependency_maps nodes
            = Ok (map (fun '(id, needs) => (id, set_of needs)) nodes, T) /\
            GraphMaps ids (map (fun '(id, needs) => (id, set_of needs)) nodes) T.
Proof.
  intros Hnd Hclosed. unfold build_graph_dependency_maps.
  assert (forall V (f : list string -> V),
    dict_of (map (fun '(id, needs) => (id, f needs)) nodes) = map (fun '(id, needs) => (id, f needs)) nodes) as Hdict.
  { intros V f. apply dict_of_NoDup. change (NoDup (dkeys (map (fun '(id, needs) => (id, f needs)) nodes))).
    rewrite dkeys_map_val. done. }
  rewrite !Hdict.
  set (D := map (fun '(id, needs) => (id, set_of needs)) nodes).
  assert (forall n d, d ∈ deps D n <-> exists needs, (n, needs) ∈ nodes /\ d ∈ needs) as HD.
  { intros n d. unfold deps, D. rewrite dget_map_pair. split.
    - destruct (dget nodes n) as [needs|] eqn:E; simpl; [|set_solver].
      intros Hd%set_of_elem. exists needs. split; [by apply dget_elem_of | done].
    - intros (needs & Hn & Hd). erewrite elem_of_dget by eauto. simpl. by apply set_of_elem. }
  edestruct (for_each_inv dependents_inv) as (T & HT & Hk & Hd & Hc).
  3: { rewrite HT. simpl. eexists. split; [done|]. split.
       - done.
       - unfold D. by rewrite dkeys_map_val.
       - done.
       - intros n d (needs & Hn & Hd')%HD. eauto.
       - intros d S HS n. rewrite (Hd d S HS n), HD. split; [|tauto].
         intros Hx. split; [|done]. destruct Hx as (needs & Hn & _). apply elem_of_fst. eauto. }
  - split; [|split].
    + intros x. rewrite dkeys_map_val. done.
    + intros d S HS n. rewrite (dget_map_pair (fun _ : list string => (∅ : gset string))) in HS.
      destruct (dget nodes d); simpl in HS; [|done]. injection HS as <-. set_solver.
    + intros n needs d Hn. by inversion Hn.
  - intros done_ [id needs] rest T0 Hl HP. apply add_dependents_ok; [|done].
    intros d Hd. apply (Hclosed id needs); [|done]. rewrite Hl. set_solver.
Qed.

End BuildMaps.

(** ** The layered traversal *)

Definition placed (ws : list (list string)) : gset string := set_of (concat ws).

(** Wave [i] holds exactly the nodes not placed before whose dependencies are
    all placed before, in declaration order. *)
Definition layered (ids : list string) (D : dict (gset string)) (ws : list (list string)) : Prop :=
  forall i w, ws !! i = Some w ->
    NoDup w /\
    StronglySorted (order_le (enumerate_order ids)) w /\
    forall n, n ∈ w <-> n ∈ ids /\ deps D n ⊆ placed (take i ws) /\ n ∉ placed (take i ws).

Lemma placed_elem ws n : n ∈ placed ws <-> exists w, w ∈ ws /\ n ∈ w.
Proof.
  unfold placed. rewrite set_of_elem, list_elem_of_In, in_concat.
  setoid_rewrite <- list_elem_of_In. naive_solver.
Qed.

Lemma placed_snoc ws w : placed (ws ++ [w]) = placed ws ∪ set_of w.
Proof.
  unfold placed, set_of. rewrite concat_app, list_to_set_app_L. simpl. by rewrite app_nil_r.
Qed.

Lemma layered_closed ids D ws n :
  layered ids D ws -> n ∈ placed ws -> n ∈ ids /\ deps D n ⊆ placed ws.
Proof.
  intros Hl (w & Hw & Hn)%placed_elem. apply list_elem_of_lookup in Hw as [i Hi].
  destruct (Hl i w Hi) as (_ & _ & Hiff). apply Hiff in Hn as (Hid & Hsub & _).
  split; [done|]. intros d Hd. apply Hsub in Hd. apply placed_elem in Hd as (w' & Hw' & Hd).
  apply placed_elem. exists w'. split; [|done].
  by apply (subseteq_take i ws).
Qed.

Lemma layered_snoc ids D ws w :
  layered ids D ws ->
  NoDup w -> StronglySorted (order_le (enumerate_order ids)) w ->
  (forall n, n ∈ w <-> n ∈ ids /\ deps D n ⊆ placed ws /\ n ∉ placed ws) ->
  layered ids D (ws ++ [w]).
Proof.
  intros Hl Hnd Hs Hiff i w' Hi. apply lookup_app_Some in Hi as [Hi|[Hge Hi]].
  - destruct (Hl i w' Hi) as (? & ? & H). rewrite take_app_le; [done|].
    apply lookup_lt_Some in Hi. lia.
  - apply list_lookup_singleton_Some in Hi as [Hi <-].
    assert (i = length ws) as -> by lia. by rewrite take_app_length.
Qed.

Section Traversal.
Context (ids : list string) (D T : dict (gset string)) {GM : GraphMaps ids D T}.
Let order := enumerate_order ids.

Definition rem_ok (remaining : dict Z) (P : gset string) : Prop :=
  forall n, n ∈ ids -> dget remaining n = Some (Z.of_nat (size (deps D n ∖ P))).

Lemma sorted_ids_ok l :
  (forall x, x ∈ l -> x ∈ ids) ->
  exists s, sorted_by_order order l = Ok s /\ s ≡ₚ l /\ StronglySorted (order_le order) s.
Proof.
  intros H. apply sorted_by_order_ok. intros x Hx. unfold order. by apply elem_of_dkeys_enumerate, H.
Qed.

Lemma size_remove_need n P x :
  x ∈ deps D n -> x ∉ P ->
  Z.of_nat (size (deps D n ∖ (P ∪ {[x]}))) = Z.of_nat (size (deps D n ∖ P)) - 1.
Proof.
  intros Hx HP.
  replace (deps D n ∖ (P ∪ {[x]})) with ((deps D n ∖ P) ∖ {[x]}) by set_solver.
  apply size_difference_singleton. set_solver.
Qed.

(** Finishing one node updates every counter and queues the dependents that
    became ready. *)
Lemma finish_node_ok remaining next P x :
  x ∈ ids -> x ∉ P -> rem_ok remaining P ->
  exists remaining' fresh,
    finish_node order T (remaining, next) x = Ok (remaining', next ++ fresh) /\
    rem_ok remaining' (P ∪ {[x]}) /\ NoDup fresh /\
    forall d, d ∈ fresh <-> d ∈ ids /\ x ∈ deps D d /\ deps D d ⊆ P ∪ {[x]}.
Proof.
  intros Hx HxP Hrem. unfold finish_node.
  assert (x ∈ dkeys T) as [S HS]%dget_is_Some by (by apply (gm_tkeys (ids:=ids) (D:=D))).
  unfold ditem. rewrite HS. simpl.
  assert (forall n, n ∈ S <-> n ∈ ids /\ x ∈ deps D n) as HSd by (by apply (gm_dual (ids:=ids) x S)).
  destruct (sorted_ids_ok (elements S)) as (L & HL & HLp & _).
  { intros y Hy%elem_of_elements. by apply HSd in Hy as [? _]. }
  rewrite HL. simpl.
  assert (forall n, n ∈ L <-> n ∈ ids /\ x ∈ deps D n) as HLe.
  { intros n. rewrite HLp, elem_of_elements. apply HSd. }
  assert (NoDup L) as HLn by (rewrite HLp; apply NoDup_elements).
  set (isfresh := fun d => bool_decide (deps D d ⊆ P ∪ {[x]})).
  set (Inv := fun (seen : list string) (st : dict Z * list string) =>
    (forall n, n ∈ ids -> dget st.1 n =
       Some (Z.of_nat (size (deps D n ∖ P)) - if decide (n ∈ seen) then 1 else 0)) /\
    st.2 = next ++ List.filter isfresh seen).
  destruct (for_each_inv Inv relax_dependent L (remaining, next)) as ([rem' nx'] & Hr & Hc & Hn).
  - split; simpl; [|by rewrite app_nil_r]. intros n Hn. rewrite (Hrem n Hn). f_equal. lia.
  - intros seen d rest [rem' nx'] Hsplit [Hc Hn]. simpl in Hc, Hn.
    assert (d ∈ ids /\ x ∈ deps D d) as [Hd Hxd] by (apply HLe; rewrite Hsplit; set_solver).
    assert (d ∉ seen) as Hseen.
    { rewrite Hsplit in HLn. apply NoDup_app in HLn as (_ & Hdis & _). intros Hin.
      apply (Hdis d Hin). left. }
    unfold relax_dependent, ditem. rewrite (Hc d Hd), decide_False by done. simpl.
    set (k := Z.of_nat (size (deps D d ∖ P)) - 0).
    assert (isfresh d = bool_decide (k - 1 = 0)) as Hf.
    { unfold isfresh. apply bool_decide_ext. rewrite <- size_zero_subseteq.
      pose proof (size_remove_need d P x Hxd HxP). unfold k. lia. }
    exists (dset rem' d (k - 1), if decide (k - 1 = 0) then nx' ++ [d] else nx').
    split; [destruct (decide (k - 1 = 0)); reflexivity|]. split; simpl.
    + intros n Hni. rewrite dget_dset. destruct (decide (d = n)) as [<-|Hdn].
      * rewrite decide_True by (apply elem_of_snoc; by right). f_equal. unfold k. lia.
      * rewrite (Hc n Hni). rewrite (decide_ext (n ∈ seen ++ [d]) (n ∈ seen)); [done|].
        rewrite elem_of_snoc. naive_solver.
    + rewrite List.filter_app. simpl. rewrite Hf.
      destruct (decide (k - 1 = 0)); simpl.
      * rewrite bool_decide_true by done. by rewrite app_assoc, Hn.
      * rewrite bool_decide_false by done. by rewrite app_nil_r.
  - simpl in Hc, Hn. exists rem', (List.filter isfresh L). rewrite Hr, Hn.
    split; [done|]. split; [|split].
    + intros n Hni. rewrite (Hc n Hni). f_equal. destruct (decide (n ∈ L)) as [HnL|HnL].
      * apply HLe in HnL as [_ Hxn]. symmetry. by apply size_remove_need.
      * assert (x ∉ deps D n) by (intros ?; apply HnL, HLe; done).
        replace (deps D n ∖ (P ∪ {[x]})) with (deps D n ∖ P) by set_solver. lia.
    + apply NoDup_ListNoDup, List.NoDup_filter. by apply NoDup_ListNoDup.
    + intros d. rewrite list_elem_of_In, List.filter_In, <- list_elem_of_In, HLe.
      unfold isfresh. rewrite bool_decide_eq_true. tauto.
Qed.

(** Finishing a whole wave. *)
Lemma finish_wave_ok remaining P W :
  NoDup W -> (forall x, x ∈ W -> x ∈ ids /\ x ∉ P) -> rem_ok remaining P ->
  exists remaining' next,
    for_each (finish_node order T) W (remaining, []) = Ok (remaining', next) /\
    rem_ok remaining' (P ∪ set_of W) /\ NoDup next /\
    forall d, d ∈ next <-> d ∈ ids /\ deps D d ⊆ P ∪ set_of W /\ ~ deps D d ⊆ P.
Proof.
  intros HW HWid Hrem.
  set (Inv := fun (seen : list string) (st : dict Z * list string) =>
    rem_ok st.1 (P ∪ set_of seen) /\ NoDup st.2 /\
    forall d, d ∈ st.2 <-> d ∈ ids /\ deps D d ⊆ P ∪ set_of seen /\ ~ deps D d ⊆ P).
  destruct (for_each_inv Inv (finish_node order T) W (remaining, [])) as ([r n] & Hr & Hi).
  - split; [|split]; simpl; [|constructor|].
    + replace (P ∪ set_of []) with P by set_solver. done.
    + intros d. set_solver.
  - intros seen x rest [r n] Hsplit (Hrok & Hnd & Hiff). simpl in *.
    destruct (HWid x) as [Hx HxP]; [rewrite Hsplit; set_solver|].
    assert (x ∉ seen) as Hxs.
    { rewrite Hsplit in HW. apply NoDup_app in HW as (_ & Hdis & _). intros Hin. apply (Hdis x Hin). left. }
    destruct (finish_node_ok r n (P ∪ set_of seen) x) as (r' & fresh & Hf & Hr' & Hfn & Hfi).
    { done. } { rewrite elem_of_union, set_of_elem. tauto. } { done. }
    exists (r', n ++ fresh). split; [done|].
    assert (P ∪ set_of (seen ++ [x]) = P ∪ set_of seen ∪ {[x]}) as Heq.
    { unfold set_of. rewrite list_to_set_app_L. simpl. set_solver. }
    unfold Inv. simpl. rewrite Heq. split; [done|]. split.
    + apply NoDup_app. split; [done|]. split; [|done].
      intros d Hd1%Hiff Hd2%Hfi. destruct Hd1 as (_ & Hsub & _), Hd2 as (_ & Hxd & _).
      apply Hsub in Hxd. rewrite elem_of_union, set_of_elem in Hxd. tauto.
    + intros d. rewrite elem_of_app, Hiff, Hfi. split.
      * intros [(? & ? & ?)|(? & ? & ?)]; [set_solver|]. split; [done|]. split; [done|]. set_solver.
      * intros (Hd & Hsub & Hn). destruct (decide (x ∈ deps D d)).
        -- by right.
        -- left. split; [done|]. split; [set_solver | done].
  - destruct Hi as (? & ? & ?). eauto 10.
Qed.

(** The number of nodes already placed never exceeds the number of nodes. *)
Lemma placed_bound ws w :
  NoDup (concat ws ++ w) -> (forall x, x ∈ concat ws ++ w -> x ∈ ids) ->
  (length (concat ws) + length w <= length ids)%nat.
Proof.
  intros Hnd Hin. rewrite <- length_app. apply submseteq_length.
  apply NoDup_submseteq; [done|]. intros x Hx. by apply Hin.
Qed.

(** The invariant of the [while ready] loop. *)
Record loop_inv (ws : list (list string)) (remaining : dict Z) (ready : list string) : Prop := {
  li_layered : layered ids D ws;
  li_nodup : NoDup (concat ws);
  li_nonempty : Forall (.≠ []) ws;
  li_remaining : rem_ok remaining (placed ws);
  li_ready_nodup : NoDup ready;
  li_ready_sorted : StronglySorted (order_le order) ready;
  li_ready : forall n, n ∈ ready <-> n ∈ ids /\ deps D n ⊆ placed ws /\ n ∉ placed ws }.

Lemma loop_inv_nodup ws remaining ready :
  loop_inv ws remaining ready -> NoDup (concat (ws ++ [ready])).
Proof.
  intros [Hl Hnd _ _ Hrn _ Hiff]. rewrite concat_app. simpl. rewrite app_nil_r.
  apply NoDup_app. split_and!; [done | | done].
  intros x Hx (_ & _ & Hx')%Hiff. apply Hx'. by apply set_of_elem.
Qed.

Lemma loop_inv_bound ws remaining ready :
  loop_inv ws remaining ready -> (length (concat ws) + length ready <= length ids)%nat.
Proof.
  intros Hinv. apply placed_bound.
  - pose proof (loop_inv_nodup _ _ _ Hinv) as H. rewrite concat_app in H. simpl in H.
    by rewrite app_nil_r in H.
  - destruct Hinv as [Hl _ _ _ _ _ Hiff]. intros x [Hx|Hx]%elem_of_app.
    + apply (layered_closed ids D ws x Hl). by apply set_of_elem.
    + by apply Hiff in Hx as [? _].
Qed.

Lemma loop_step ws remaining ready :
  loop_inv ws remaining ready -> ready <> [] ->
  exists remaining' next ready',
    for_each (finish_node order T) ready (remaining, []) = Ok (remaining', next) /\
    sorted_by_order order next = Ok ready' /\
    loop_inv (ws ++ [ready]) remaining' ready'.
Proof.
  intros Hinv Hne. pose proof (loop_inv_nodup _ _ _ Hinv) as Hnd'.
  destruct Hinv as [Hl Hnd Hall Hrem Hrn Hrs Hiff].
  destruct (finish_wave_ok remaining (placed ws) ready) as (rem' & next & Hfor & Hrem' & Hnn & Hni).
  { done. } { intros x (? & _ & ?)%Hiff. done. } { done. }
  destruct (sorted_ids_ok next) as (ready' & Hsort & Hperm & Hss); [intros x [? _]%Hni; done|].
  exists rem', next, ready'. split; [done|]. split; [done|].
  assert (layered ids D (ws ++ [ready])) as Hl' by (by apply layered_snoc).
  split; try done.
  - apply Forall_app. split; [done|]. by constructor.
  - by rewrite placed_snoc.
  - by rewrite Hperm.
  - intros n. rewrite Hperm, Hni, placed_snoc. split.
    + intros (Hn & Hsub & Hnot). split_and!; [done|done|].
      rewrite elem_of_union, set_of_elem, Hiff. intros [Hp|(_ & ? & _)]; [|done].
      by destruct (layered_closed ids D ws n Hl Hp).
    + intros (Hn & Hsub & Hnot). split_and!; [done|done|]. intros Hsub'.
      apply Hnot. rewrite elem_of_union, set_of_elem, Hiff.
      destruct (decide (n ∈ placed ws)); [by left | by right].
Qed.

Lemma waves_loop_S fuel remaining ready ws visited :
  ready <> [] ->
  waves_loop (S fuel) order T remaining ready ws visited =
    ('(remaining', next_ready) ← for_each (finish_node order T) ready (remaining, []);
     ready' ← sorted_by_order order next_ready;
     waves_loop fuel order T remaining' ready' (ws ++ [ready]) (visited + length ready)).
Proof. by destruct ready. Qed.

(** The loop with enough fuel returns the layers of the graph, and stops only
    when no unplaced node has all its dependencies placed. *)
Lemma waves_loop_ok fuel remaining ready ws :
  loop_inv ws remaining ready ->
  (length ids <= fuel + length (concat ws))%nat ->
  exists ws', waves_loop fuel order T remaining ready ws (length (concat ws)) = Ok (ws', length (concat ws')) /\
    layered ids D ws' /\ NoDup (concat ws') /\ Forall (.≠ []) ws' /\
    forall n, n ∈ ids -> deps D n ⊆ placed ws' -> n ∈ placed ws'.
Proof.
  revert remaining ready ws. induction fuel as [|fuel IH]; intros remaining ready ws Hinv Hfuel;
    destruct (decide (ready = [])) as [->|Hne].
  1,3: exists ws; destruct Hinv; split_and!; try done; intros n Hn Hsub;
       destruct (decide (n ∈ placed ws)); [done|]; exfalso; apply (not_elem_of_nil n); naive_solver.
  - pose proof (loop_inv_bound _ _ _ Hinv). destruct ready; [done|]. simpl in *. lia.
  - destruct (loop_step _ _ _ Hinv Hne) as (rem' & next & ready' & Hf & Hs & Hinv').
    assert (length (concat (ws ++ [ready])) = length (concat ws) + length ready)%nat as Hlen.
    { rewrite concat_app, length_app. simpl. by rewrite app_nil_r. }
    rewrite waves_loop_S by done. rewrite Hf. simpl. rewrite Hs. simpl. rewrite <- Hlen.
    apply IH; [done|]. rewrite Hlen. destruct ready; [done|]. simpl. lia.
Qed.

Lemma initial_loop_inv :
  exists ready,
    sorted_by_order order (map fst (List.filter (fun '(_, count) => count =? 0)
       (map (fun '(id, needs) => (id, Z.of_nat (size needs))) D))) = Ok ready /\
    loop_inv [] (map (fun '(id, needs) => (id, Z.of_nat (size needs))) D) ready.
Proof.
  assert (NoDup (dkeys D)) as HndD by (rewrite (gm_keys (ids:=ids) (T:=T)); apply (gm_nodup (T:=T))).
  set (R := map _ D).
  assert (dkeys R = ids) as HR by (unfold R; rewrite dkeys_map_val; apply (gm_keys (T:=T))).
  assert (NoDup (dkeys R)) as HndR by (rewrite HR; apply (gm_nodup (T:=T))).
  assert (forall n, n ∈ ids -> dget R n = Some (Z.of_nat (size (deps D n)))) as Hget.
  { intros n Hn. unfold R. rewrite dget_map_pair. unfold deps.
    rewrite <- (gm_keys (ids:=ids) (T:=T)) in Hn. apply dget_is_Some in Hn as [X HX]. by rewrite HX. }
  set (F := List.filter _ R).
  assert (forall n, n ∈ map fst F <-> n ∈ ids /\ deps D n = ∅) as HF.
  { intros n. rewrite elem_of_fst. split.
    - intros [c Hc]. unfold F in Hc. rewrite list_elem_of_In, List.filter_In, <- list_elem_of_In in Hc.
      destruct Hc as [Hc Hz%Z.eqb_eq]. apply elem_of_dget in Hc; [|done].
      assert (n ∈ ids) as Hn by (rewrite <- HR; apply dget_is_Some; eauto).
      split; [done|]. rewrite (Hget n Hn) in Hc. injection Hc as <-.
      apply leibniz_equiv, size_empty_iff. lia.
    - intros [Hn He]. exists 0. unfold F. rewrite list_elem_of_In, List.filter_In, <- list_elem_of_In.
      split; [|done]. apply dget_elem_of. by rewrite (Hget n Hn), He. }
  assert (NoDup (map fst F)) as HndF.
  { apply NoDup_ListNoDup. unfold F. clear -HndR. unfold dkeys in HndR. apply NoDup_ListNoDup in HndR.
    induction R as [|[k v] R IH]; simpl in *; [done|]. inversion_clear HndR as [|? ? Hk Hd].
    destruct (v =? 0); simpl; [|by apply IH]. constructor; [|by apply IH].
    rewrite <- list_elem_of_In in *. rewrite elem_of_fst in *. intros [c Hc]. apply Hk.
    exists c. rewrite list_elem_of_In, List.filter_In, <- list_elem_of_In in Hc. tauto. }
  destruct (sorted_ids_ok (map fst F)) as (ready & Hs & Hp & Hss); [intros x [? _]%HF; done|].
  exists ready. split; [done|]. split; try done.
  - constructor.
  - intros n Hn. rewrite (Hget n Hn). change (placed []) with (∅ : gset string).
    by rewrite difference_empty_L.
  - by rewrite Hp.
  - intros n. rewrite Hp, HF. unfold placed. simpl. split; [intros [? ->]; set_solver|].
    intros (? & ? & _). split; [done|]. set_solver.
Qed.

(** [ordered_graph_waves] on consistent maps: it computes the layers, and
    succeeds when they cover all nodes. *)
Lemma ordered_graph_waves_spec :
  exists ws,
    layered ids D ws /\ NoDup (concat ws) /\ Forall (.≠ []) ws /\
    (forall n, n ∈ ids -> deps D n ⊆ placed ws -> n ∈ placed ws) /\
    ordered_graph_waves ids D T =
      (if decide (length (concat ws) = length ids) then Ok ws else Raise (ValueError CYCLE_MESSAGE)).
Proof.
  destruct initial_loop_inv as (ready & Hs & Hinv).
  destruct (waves_loop_ok (length D) _ ready [] Hinv) as (ws & Hw & Hl & Hn & Hne & Hstop).
  { simpl. rewrite <- (gm_keys (ids:=ids) (T:=T)). unfold dkeys. rewrite length_map. lia. }
  exists ws. split_and!; try done. unfold ordered_graph_waves.
  fold order. rewrite Hs. simpl in *. by rewrite Hw.
Qed.

End Traversal.

(** ** Correctness of the analysis of a workflow *)

(** [d] is listed in the needs of node [n]. *)
Definition depends (workflow : WorkflowPlan) (d n : string) : Prop :=
  exists node, node ∈ plan_nodes workflow /\ node_id node = n /\ d ∈ node_needs node.

Definition workflow_ids (workflow : WorkflowPlan) : list string := map node_id (plan_nodes workflow).

Lemma workflow_ids_refs workflow : map fst (node_refs workflow) = workflow_ids workflow.
Proof. unfold node_refs, workflow_ids. by rewrite map_map. Qed.

Lemma elem_of_node_refs workflow n needs :
  (n, needs) ∈ node_refs workflow <->
  exists node, node ∈ plan_nodes workflow /\ node_id node = n /\ node_needs node = needs.
Proof. unfold node_refs. rewrite list_elem_of_fmap. naive_solver. Qed.

Lemma has_valid_dependency_references_spec workflow :
  has_valid_dependency_references workflow = true <->
  NoDup (workflow_ids workflow) /\
  (forall d n, depends workflow d n -> d ∈ workflow_ids workflow /\ d <> n).
Proof.
  unfold has_valid_dependency_references.
  assert (size (set_of (map node_id (plan_nodes workflow))) = length (plan_nodes workflow) <->
          NoDup (workflow_ids workflow)) as Hsize.
  { fold (workflow_ids workflow). unfold set_of. split.
    - intros Hs. rewrite <- (length_map node_id) in Hs. fold (workflow_ids workflow) in Hs.
      assert (elements (list_to_set (C:=gset string) (workflow_ids workflow)) ⊆+ workflow_ids workflow) as Hsub.
      { apply NoDup_submseteq; [apply NoDup_elements|]. intros x. set_solver. }
      apply submseteq_length_Permutation in Hsub; [|unfold size, set_size in Hs; simpl in Hs; lia].
      rewrite <- Hsub. apply NoDup_elements.
    - intros Hnd. rewrite size_list_to_set by done. apply length_map. }
  case_bool_decide as Hs; simpl; [|split; [done | naive_solver]].
  apply Hsize in Hs as Hnd. clear Hsize.
  assert (dict_of (map (fun '(id, needs) => (id, set_of needs)) (node_refs workflow))
          = map (fun '(id, needs) => (id, set_of needs)) (node_refs workflow)) as ->.
  { apply dict_of_NoDup. change (NoDup (dkeys (map (fun '(id, needs) => (id, set_of needs)) (node_refs workflow)))).
    rewrite dkeys_map_val. unfold dkeys. by rewrite workflow_ids_refs. }
  set (L := map (fun '(id, needs) => (id, set_of needs)) (node_refs workflow)).
  assert (forall n X, (n, X) ∈ L <-> exists needs, (n, needs) ∈ node_refs workflow /\ X = set_of needs) as HL.
  { intros n X. unfold L. rewrite list_elem_of_fmap. split.
    - intros ([n' needs] & [= -> ->] & H). eauto.
    - intros (needs & H & ->). by exists (n, needs). }
  destruct (existsb _ L) eqn:Eself; simpl.
  - split; [done|]. intros [_ H]. apply existsb_exists in Eself as ([n X] & Hin & Hx%bool_decide_eq_true).
    rewrite <- list_elem_of_In in Hin. apply HL in Hin as (needs & Hin & ->).
    apply elem_of_node_refs in Hin as (node & ? & ? & ?). destruct (H n n) as [_ []]; [|done].
    exists node. subst. by rewrite set_of_elem in Hx.
  - rewrite forallb_forall. split.
    + intros Hall. split; [done|]. intros d n (node & Hnode & <- & Hd).
      assert ((node_id node, set_of (node_needs node)) ∈ L) as Hin.
      { apply HL. exists (node_needs node). split; [|done]. apply elem_of_node_refs. eauto. }
      split.
      * rewrite list_elem_of_In in Hin. apply Hall in Hin. apply bool_decide_eq_true in Hin.
        apply set_of_elem, Hin, set_of_elem, Hd.
      * intros ->. rewrite list_elem_of_In in Hin.
        assert (existsb (fun '(id, needs) => bool_decide (id ∈ needs)) L = true) as Ht; [|congruence].
        apply existsb_exists. eexists. split; [exact Hin|]. apply bool_decide_eq_true, set_of_elem, Hd.
    + intros [_ H] [n X] Hin. rewrite <- list_elem_of_In in Hin. apply HL in Hin as (needs & Hin & ->).
      apply bool_decide_eq_true. intros d Hd%set_of_elem. apply elem_of_node_refs in Hin as (node & ? & ? & ?).
      apply set_of_elem, (H d n). exists node. by subst.
Qed.

Lemma layered_init ids D ws w : layered ids D (ws ++ [w]) -> layered ids D ws.
Proof.
  intros Hl i w' Hi. pose proof (lookup_lt_Some _ _ _ Hi).
  specialize (Hl i w' ltac:(by apply lookup_app_l_Some)).
  by rewrite take_app_le in Hl by lia.
Qed.

Section Ancestors.
Context (ids : list string) (D T : dict (gset string)) {GM : GraphMaps ids D T}.

Definition dep (m n : string) : Prop := m ∈ deps D n.

(** After the nodes in [done]: their entries are their transitive
    dependencies, the other entries are still empty. *)
Definition anc_inv (done : list string) (anc : dict (gset string)) : Prop :=
  forall n, n ∈ ids -> exists A, dget anc n = Some A /\
    if decide (n ∈ done) then forall m, m ∈ A <-> tc dep m n else A = ∅.

Lemma tc_dep_unfold m n : tc dep m n <-> exists d, d ∈ deps D n /\ (m = d \/ tc dep m d).
Proof.
  split.
  - induction 1 as [m n H|m d n H Ht IH].
    + exists m. auto.
    + destruct IH as (d' & Hd' & [->|Ht']).
      * exists d'. split; [done|]. right. by apply tc_once.
      * exists d'. split; [done|]. right. eapply tc_l; eauto.
  - intros (d & Hd & [->|Ht]); [by apply tc_once | by eapply tc_r].
Qed.

Lemma dget_deps n : n ∈ ids -> dget D n = Some (deps D n).
Proof.
  intros Hn. rewrite <- (gm_keys (ids:=ids) (T:=T)) in Hn.
  apply dget_is_Some in Hn as [X HX]. unfold deps. by rewrite HX.
Qed.

Lemma ancestors_step_ok done anc n :
  anc_inv done anc -> n ∈ ids -> n ∉ done -> (forall d, d ∈ deps D n -> d ∈ done) ->
  exists anc', ancestors_step D anc n = Ok anc' /\ anc_inv (done ++ [n]) anc'.
Proof.
  intros Hinv Hn Hnd Hdeps. unfold ancestors_step. rewrite (proj2 (ditem_Ok D n _) (dget_deps n Hn)). simpl.
  set (Inv := fun (seen : list string) (anc' : dict (gset string)) =>
    (forall x, x <> n -> dget anc' x = dget anc x) /\
    exists A, dget anc' n = Some A /\
      forall m, m ∈ A <-> exists d, d ∈ seen /\ (m = d \/ tc dep m d)).
  destruct (for_each_inv Inv (fun anc needed =>
      mine ← ditem anc n; theirs ← ditem anc needed;
      Ok (dset anc n ({[needed]} ∪ (mine ∪ theirs)))) (elements (deps D n)) anc)
    as (anc' & Hrun & Hother & A & HA & HAm).
  - split; [done|]. destruct (Hinv n Hn) as (A & HA & HAe). rewrite decide_False in HAe by done.
    subst. exists ∅. split; [done|]. intros m. set_solver.
  - intros seen d rest anc1 Hsplit (Hother & A & HA & HAm).
    assert (d ∈ deps D n) as Hd by (apply elem_of_elements; rewrite Hsplit; set_solver).
    assert (d <> n) as Hdn by (intros ->; auto).
    destruct (Hinv d) as (B & HB & HBm); [by apply (gm_closed (ids:=ids) (T:=T) n)|].
    rewrite decide_True in HBm by auto.
    unfold ditem. rewrite HA, (Hother d Hdn), HB. simpl. eexists. split; [done|]. split.
    + intros x Hx. rewrite dget_dset_ne by done. auto.
    + eexists. split; [apply dget_dset_eq|]. intros m.
      rewrite !elem_of_union, elem_of_singleton, HAm, HBm.
      setoid_rewrite elem_of_snoc. naive_solver.
  - exists anc'. split; [done|]. intros x Hx.
    destruct (decide (x = n)) as [->|Hxn].
    + exists A. split; [done|]. rewrite decide_True by set_solver. intros m.
      rewrite HAm, tc_dep_unfold. by setoid_rewrite elem_of_elements.
    + destruct (Hinv x Hx) as (B & HB & HBm). exists B. rewrite (Hother x Hxn). split; [done|].
      destruct (decide (x ∈ done)) as [Hd|Hd].
      * by rewrite decide_True by (apply elem_of_snoc; by left).
      * rewrite decide_False; [done|]. rewrite elem_of_snoc. tauto.
Qed.

Lemma ancestors_loop_ok ws anc :
  layered ids D ws -> NoDup (concat ws) -> anc_inv [] anc ->
  exists anc', for_each (ancestors_step D) (concat ws) anc = Ok anc' /\ anc_inv (concat ws) anc'.
Proof.
  intros Hl Hnd Hinv. induction ws as [|w ws IH] using rev_ind; [by exists anc|].
  rewrite concat_app in *. simpl in *. rewrite app_nil_r in *.
  apply NoDup_app in Hnd as (Hnd & Hdis & Hndw).
  destruct IH as (anc1 & H1 & Hinv1); [by eapply layered_init | done |].
  rewrite for_each_app, H1. simpl.
  destruct (Hl (length ws) w) as (_ & _ & Hiff); [by rewrite lookup_app_r, Nat.sub_diag by lia|].
  rewrite take_app_length in Hiff.
  apply (for_each_inv (fun seen a => anc_inv (concat ws ++ seen) a)); [by rewrite app_nil_r|].
  intros seen n rest anc2 Hsplit Hinv2.
  assert (n ∈ w) as Hnw by (rewrite Hsplit; set_solver).
  apply Hiff in Hnw as (Hn & Hsub & Hnot).
  rewrite app_assoc. apply ancestors_step_ok; [done | done | |].
  - rewrite elem_of_app. intros [H|H]; [by apply Hnot, set_of_elem|].
    rewrite Hsplit in Hndw. apply NoDup_app in Hndw as (_ & Hd & _). apply (Hd n H). left.
  - intros d Hd%Hsub%set_of_elem. apply elem_of_app. by left.
Qed.

End Ancestors.

(** *** The three properties of the analysis *)

Lemma workflow_maps workflow :
  has_valid_dependency_references workflow = true ->
  exists D T, build_dependency_maps workflow = Ok (D, T) /\
    GraphMaps (workflow_ids workflow) D T /\
    forall d n, d ∈ deps D n <-> depends workflow d n.
Proof.
  intros [Hnd Hc]%has_valid_dependency_references_spec.
  destruct (build_maps_ok (node_refs workflow)) as (T & HB & HG).
  - by rewrite workflow_ids_refs.
  - intros n needs d (node & ? & ? & ?)%elem_of_node_refs Hd. rewrite workflow_ids_refs.
    apply (Hc d n). exists node. by subst.
  - rewrite workflow_ids_refs in HG. eexists _, T. split; [exact HB|]. split; [done|].
    intros d n. unfold deps. rewrite dget_map_pair. split.
    + destruct (dget (node_refs workflow) n) as [needs|] eqn:E; simpl; [|set_solver].
      intros Hd%set_of_elem. apply dget_elem_of, elem_of_node_refs in E as (node & ? & ? & ?).
      exists node. by subst.
    + intros (node & Hin & Hid & Hd).
      assert (dget (node_refs workflow) n = Some (node_needs node)) as ->.
      { apply elem_of_dget; [unfold dkeys; by rewrite workflow_ids_refs|]. apply elem_of_node_refs. eauto. }
      simpl. by apply set_of_elem.
Qed.

Lemma layered_take ids D ws i : layered ids D ws -> layered ids D (take i ws).
Proof.
  intros Hl j w [Hj Hlt]%lookup_take_Some. specialize (Hl j w Hj).
  by rewrite take_take, Nat.min_l by lia.
Qed.

Lemma layered_tc_placed ids D ws m n :
  layered ids D ws -> n ∈ placed ws -> tc (dep D) m n -> m ∈ placed ws.
Proof.
  intros Hl Hn Ht. revert Hn. induction Ht as [m n Hd|m d n Hd Ht IH]; intros Hn.
  - apply (layered_closed ids D ws n Hl Hn). done.
  - apply (layered_closed ids D ws d Hl); [by apply IH | done].
Qed.

Lemma layered_acyclic ids D ws n :
  layered ids D ws -> n ∈ placed ws -> ~ tc (dep D) n n.
Proof.
  intros Hl (w & Hw & Hn)%placed_elem Hc. apply list_elem_of_lookup in Hw as [i Hi].
  destruct (Hl i w Hi) as (_ & _ & Hiff). apply Hiff in Hn as (_ & Hsub & Hnot). apply Hnot.
  apply tc_dep_unfold in Hc as (d & Hd & [->|Ht]); [by apply Hsub|].
  eapply layered_tc_placed; [by apply layered_take | by apply Hsub | done].
Qed.

(** The layers cover all nodes exactly when there is no dependency cycle. *)
Lemma layers_cover_iff ids D T {GM : GraphMaps ids D T} ws :
  layered ids D ws -> NoDup (concat ws) ->
  (forall n, n ∈ ids -> deps D n ⊆ placed ws -> n ∈ placed ws) ->
  (concat ws ≡ₚ ids /\ ~ exists n, tc (dep D) n n) \/
  (length (concat ws) <> length ids /\ exists n, tc (dep D) n n).
Proof.
  intros Hl Hnd Hstop.
  assert (forall n, n ∈ concat ws -> n ∈ ids) as Hin.
  { intros n Hn. apply (layered_closed ids D ws n Hl). by apply set_of_elem. }
  destruct (decide (length (concat ws) = length ids)) as [Hlen|Hlen].
  - left. assert (concat ws ≡ₚ ids) as Hperm.
    { apply submseteq_length_Permutation; [by apply NoDup_submseteq | lia]. }
    split; [done|]. intros [n Hc]. apply (layered_acyclic ids D ws n Hl); [|done].
    apply set_of_elem. rewrite Hperm. apply tc_dep_unfold in Hc as (d & Hd & Hc).
    assert (forall m x, tc (dep D) m x -> m ∈ ids) as Htc.
    { intros m x. induction 1; by eapply (gm_closed (T:=T)). }
    destruct Hc as [->|Hc]; [by eapply (gm_closed (T:=T)) | by eapply Htc].
  - right. split; [done|].
    set (rest := filter (fun n => n ∉ placed ws) ids).
    assert (exists s, s ∈ rest) as [s Hs].
    { destruct rest as [|s r] eqn:Er; [|exists s; left]. exfalso. apply Hlen.
      apply Permutation_length, submseteq_length_Permutation; [by apply NoDup_submseteq|].
      apply submseteq_length, NoDup_submseteq; [apply (gm_nodup (D:=D) (T:=T))|].
      intros x Hx. apply set_of_elem. destruct (decide (x ∈ placed ws)); [done|].
      assert (x ∈ rest) as Hr by (by apply list_elem_of_filter). rewrite Er in Hr. by inversion Hr. }
    destruct (no_source_cycle (dep D) rest s Hs) as (n & _ & Hn); [|by exists n].
    intros n [Hnp Hnid]%list_elem_of_filter.
    destruct (set_choose_or_empty (deps D n ∖ placed ws)) as [[d Hd]|He].
    + exists d. split; [|set_solver]. apply list_elem_of_filter. split; [set_solver|].
      apply (gm_closed (T:=T) n). set_solver.
    + exfalso. apply Hnp, Hstop; [done|]. intros d Hd.
      destruct (decide (d ∈ placed ws)); [done|]. set_solver.
Qed.

Lemma tc_depends workflow D :
  (forall d n, d ∈ deps D n <-> depends workflow d n) ->
  forall m n, tc (dep D) m n <-> tc (depends workflow) m n.
Proof.
  intros HD m n. split; induction 1.
  1,3: apply tc_once; by apply HD.
  all: eapply tc_l; [by apply HD | done].
Qed.

(** Everything known about the outcome of the analysis, in one place. *)
Lemma analyze_workflow_graph_cases workflow :
  has_valid_dependency_references workflow = true ->
  (exists D T ws anc,
     GraphMaps (workflow_ids workflow) D T /\
     (forall d n, d ∈ deps D n <-> depends workflow d n) /\
     analyze_workflow_graph workflow = Ok (mkAnalysis ws anc) /\
     layered (workflow_ids workflow) D ws /\ Forall (.≠ []) ws /\
     concat ws ≡ₚ workflow_ids workflow /\
     anc_inv (workflow_ids workflow) D (workflow_ids workflow) anc /\
     ~ exists n, tc (depends workflow) n n) \/
  (analyze_workflow_graph workflow = Raise (ValueError CYCLE_MESSAGE) /\
   exists n, tc (depends workflow) n n).
Proof.
  intros Hv. destruct (workflow_maps workflow Hv) as (D & T & HB & HG & HD).
  pose proof (tc_depends workflow D HD) as Htc.
  destruct (ordered_graph_waves_spec (workflow_ids workflow) D T) as (ws & Hl & Hnd & Hne & Hstop & Hrun).
  destruct (layers_cover_iff (workflow_ids workflow) D T ws Hl Hnd Hstop) as [[Hperm Hac]|[Hlen [n Hn]]];
    unfold analyze_workflow_graph; rewrite HB; simpl; fold (workflow_ids workflow); rewrite Hrun.
  - left. rewrite decide_True by (by apply Permutation_length).
    destruct (ancestors_loop_ok (workflow_ids workflow) D T ws (map (fun '(id, _) => (id, ∅)) D)) as (anc & Ha & Hi);
      [done | done | |].
    { intros n Hn. exists ∅. split; [|done].
      rewrite (dget_map_pair (fun _ : gset string => (∅ : gset string))).
      by rewrite (dget_deps _ D T n Hn). }
    exists D, T, ws, anc. split_and!; try done.
    + simpl. rewrite Ha. done.
    + intros n Hn. destruct (Hi n Hn) as (A & HA & HAm). exists A. split; [done|].
      rewrite decide_True in HAm by (by rewrite Hperm). by rewrite decide_True.
    + intros [n Hn]. apply Hac. exists n. by apply Htc.
  - right. rewrite decide_False by done. split; [done|]. exists n. by apply Htc.
Qed.

(** C1 (functional): for a workflow whose ids are unique and whose needs name
    other existing nodes, a successful graph analysis returns nonempty waves
    that hold every node exactly once; all dependencies of a node lie in
    strictly earlier waves; a node of wave i+1 has a dependency in wave i (no
    node is delayed); and each wave keeps the declaration order.
    Definitions: analyze_workflow_graph, ordered_graph_waves,
    build_graph_dependency_maps, has_valid_dependency_references. *)
Theorem analyze_waves_are_dependency_layers (workflow : WorkflowPlan) (a : WorkflowGraphAnalysis)
    (Hvalid : has_valid_dependency_references workflow = true)
    (Hrun : analyze_workflow_graph workflow = Ok a) :
  concat (analysis_waves a) ≡ₚ workflow_ids workflow /\
  Forall (.≠ []) (analysis_waves a) /\
  (forall i w n d, analysis_waves a !! i = Some w -> n ∈ w -> depends workflow d n ->
     exists j w', (j < i)%nat /\ analysis_waves a !! j = Some w' /\ d ∈ w') /\
  (forall i w n, analysis_waves a !! S i = Some w -> n ∈ w ->
     exists d w', depends workflow d n /\ analysis_waves a !! i = Some w' /\ d ∈ w') /\
  Forall (StronglySorted (order_le (enumerate_order (workflow_ids workflow)))) (analysis_waves a).
Proof.
  destruct (analyze_workflow_graph_cases workflow Hvalid)
    as [(D & T & ws & anc & HG & HD & Ha & Hl & Hne & Hp & _)|[Ha _]]; [|congruence].
  rewrite Ha in Hrun. injection Hrun as <-. simpl. split_and!; try done.
  - intros i w n d Hi Hn Hd. destruct (Hl i w Hi) as (_ & _ & Hiff).
    apply Hiff in Hn as (_ & Hsub & _). apply HD, Hsub, placed_elem in Hd as (w' & Hw' & Hd).
    apply list_elem_of_lookup in Hw' as [j [Hj Hlt]%lookup_take_Some]. eauto.
  - intros i w n Hi Hn. destruct (Hl (S i) w Hi) as (_ & _ & Hiff).
    apply Hiff in Hn as (Hid & Hsub & Hnot).
    destruct (lookup_lt_is_Some_2 ws i) as [w' Hw']; [apply lookup_lt_Some in Hi; lia|].
    rewrite (take_S_r ws i w' Hw'), placed_snoc in Hsub, Hnot.
    destruct (Hl i w' Hw') as (_ & _ & Hiff').
    destruct (set_choose_or_empty (deps D n ∖ placed (take i ws))) as [[d Hd]|He].
    + exists d, w'. split_and!; [apply HD; set_solver | done |].
      apply set_of_elem. set_solver.
    + exfalso. apply Hnot, elem_of_union. right. apply set_of_elem, Hiff'.
      split_and!; [done | | set_solver].
      intros d Hd. destruct (decide (d ∈ placed (take i ws))); [done | set_solver].
  - apply Forall_lookup. intros i w Hi. by destruct (Hl i w Hi) as (_ & ? & _).
Qed.

(** A three-node workflow used by the witnesses. *)
Definition example_node (id : string) (needs : list string) : WorkflowNode :=
  mkNode id Sequential false [mkSegment SEG_SHARED "work"] None
    [mkProvider "codex" None None EXECUTOR] needs None None None false None None None
    None None None None [] [].
Definition example_workflow : WorkflowPlan :=
  mkPlan "1.0" "example" "" None [] []
    [example_node "build" ["plan"]; example_node "plan" []; example_node "ship" ["build"; "plan"]].
Definition example_cycle : WorkflowPlan :=
  mkPlan "1.0" "cycle" "" None [] [] [example_node "a" ["b"]; example_node "b" ["a"]].

Definition example_ancestors : dict (gset string) :=
  [("build", {["plan"]}); ("plan", ∅); ("ship", {["build"; "plan"]})].

Lemma analyze_waves_witness :
  concat [["plan"]; ["build"]; ["ship"]] ≡ₚ workflow_ids example_workflow.
Proof.
  apply (analyze_waves_are_dependency_layers example_workflow
    (mkAnalysis [["plan"]; ["build"]; ["ship"]] example_ancestors)); vm_compute; reflexivity.
Defined.

(** C2 (error): the graph analysis of a workflow with valid references is
    total: it either succeeds and the dependency relation has no cycle, or it
    raises exactly the cycle error and a dependency cycle exists; it never
    raises a key error and its loop terminates.
    Definitions: analyze_workflow_graph, ordered_graph_waves,
    has_valid_dependency_references. *)
Theorem analyze_raises_iff_cycle (workflow : WorkflowPlan)
    (Hvalid : has_valid_dependency_references workflow = true) :
  match analyze_workflow_graph workflow with
  | Ok _ => ~ exists n, tc (depends workflow) n n
  | Raise e => e = ValueError "Workflow graph contains a cycle." /\ exists n, tc (depends workflow) n n
  | OutOfFuel => False
  end.
Proof.
  destruct (analyze_workflow_graph_cases workflow Hvalid)
    as [(D & T & ws & anc & _ & _ & Ha & _ & _ & _ & _ & Hac)|[Ha Hc]]; rewrite Ha; done.
Qed.

Lemma analyze_raises_witness : exists n, tc (depends example_cycle) n n.
Proof.
  pose proof (analyze_raises_iff_cycle example_cycle ltac:(vm_compute; reflexivity)) as H.
  replace (analyze_workflow_graph example_cycle)
    with (Raise (A := WorkflowGraphAnalysis) (ValueError CYCLE_MESSAGE)) in H by (vm_compute; reflexivity).
  apply H.
Defined.

(** The ancestors of a successful analysis. *)
Lemma analysis_ancestors_spec workflow a :
  has_valid_dependency_references workflow = true -> analyze_workflow_graph workflow = Ok a ->
  forall n, n ∈ workflow_ids workflow ->
    exists A, dget (analysis_ancestors a) n = Some A /\ forall m, m ∈ A <-> tc (depends workflow) m n.
Proof.
  intros Hvalid Hrun n Hn. destruct (analyze_workflow_graph_cases workflow Hvalid)
    as [(D & T & ws & anc & _ & HD & Ha & _ & _ & _ & Hi & _)|[Ha _]]; [|congruence].
  rewrite Ha in Hrun. injection Hrun as <-. destruct (Hi n Hn) as (A & HA & HAm). rewrite decide_True in HAm by done.
  exists A. split; [done|]. intros m. rewrite HAm. by apply tc_depends.
Qed.

(** C3 (equivalence): the ancestor map computed wave by wave is the transitive
    closure of the declared needs: every node has an entry, and it holds
    exactly the nodes from which it is reachable.
    Definitions: ancestor_map, analyze_workflow_graph, ancestors_step. *)
Theorem ancestor_map_is_transitive_closure (workflow : WorkflowPlan) (anc : dict (gset string))
    (Hvalid : has_valid_dependency_references workflow = true)
    (Hrun : ancestor_map workflow = Ok anc) :
  forall n, n ∈ workflow_ids workflow ->
    exists A, dget anc n = Some A /\ forall m, m ∈ A <-> tc (depends workflow) m n.
Proof. unfold ancestor_map in Hrun. inv_ok. intros n Hn. subst. by apply analysis_ancestors_spec. Qed.

Lemma ancestor_map_witness :
  exists A, dget example_ancestors "ship" = Some A /\
    forall m, m ∈ A <-> tc (depends example_workflow) m "ship".
Proof.
  apply (ancestor_map_is_transitive_closure example_workflow).
  - vm_compute. reflexivity.
  - vm_compute. reflexivity.
  - vm_compute. right. right. left.
Defined.

(** ** The order of the waves *)

Lemma concat_precedes (ws : list (list string)) i j wi wj d n :
  NoDup (concat ws) -> ws !! j = Some wj -> ws !! i = Some wi -> (j < i)%nat -> d ∈ wj -> n ∈ wi ->
  order_of (enumerate_order (concat ws)) d < order_of (enumerate_order (concat ws)) n.
Proof.
  intros Hnd Hj Hi Hlt Hd Hn.
  assert (Hsplit : concat ws = concat (take i ws) ++ concat (drop i ws)) by (by rewrite <- concat_app, take_drop).
  assert (Hd' : d ∈ concat (take i ws)).
  { apply list_elem_of_In, in_concat. exists wj. split; [|by apply list_elem_of_In]. apply list_elem_of_In.
    apply (list_elem_of_lookup_2 _ j). apply lookup_take_Some. by split. }
  assert (Hn' : n ∈ concat (drop i ws)).
  { rewrite (drop_S ws wi i Hi). simpl. apply elem_of_app. by left. }
  apply list_elem_of_lookup in Hd' as [a Ha]. apply list_elem_of_lookup in Hn' as [b Hb].
  rewrite (order_of_enumerate _ a), (order_of_enumerate _ (length (concat (take i ws)) + b)); [|done|..|done|].
  - apply lookup_lt_Some in Ha. lia.
  - rewrite Hsplit, lookup_app_r by lia. by rewrite Nat.add_comm, Nat.add_sub.
  - rewrite Hsplit. by apply lookup_app_l_Some.
Qed.

(** A node comes after everything it depends on. *)
Lemma waves_precede workflow a d n :
  has_valid_dependency_references workflow = true -> analyze_workflow_graph workflow = Ok a -> tc (depends workflow) d n ->
  order_of (enumerate_order (concat (analysis_waves a))) d < order_of (enumerate_order (concat (analysis_waves a))) n.
Proof.
  intros Hvalid Hrun. destruct (analyze_workflow_graph_cases workflow Hvalid)
    as [(D & T & ws & anc & _ & HD & Ha & Hl & _ & Hp & _)|[Ha _]]; [|congruence].
  rewrite Ha in Hrun. injection Hrun as <-. simpl.
  apply has_valid_dependency_references_spec in Hvalid as [Hnd _]. rewrite <- Hp in Hnd.
  assert (Hstep : forall d n, depends workflow d n ->
    order_of (enumerate_order (concat ws)) d < order_of (enumerate_order (concat ws)) n).
  { clear d n. intros d n Hd. assert (Hn : n ∈ concat ws).
    { rewrite Hp. destruct Hd as (node & Hin & <- & _). by apply list_elem_of_fmap_2. }
    apply list_elem_of_In, in_concat in Hn as (w & Hw & Hn). apply list_elem_of_In in Hw, Hn.
    apply list_elem_of_lookup in Hw as [i Hi]. destruct (Hl i w Hi) as (_ & _ & Hiff).
    apply Hiff in Hn as Hn'. destruct Hn' as (_ & Hsub & _).
    apply HD, Hsub, placed_elem in Hd as (w' & Hw' & Hd). apply list_elem_of_lookup in Hw' as [j [Hj Hlt]%lookup_take_Some].
    by eapply (concat_precedes ws i j). }
  induction 1 as [d n H|d m n H _ IH]; [by apply Hstep|]. etrans; [by apply Hstep | done].
Qed.
