(* ===== verification/Scheduler.v ===== *)
(** The workflow scheduler: runtime/execution/workflow/{state,scheduling,expansion}.py
    with its activity tracker (runtime/execution/activity/telemetry.py).

    The scheduler's mutable [WorkflowExecutionState] is a record passed from
    step to step; a [Session] adds what the scheduling loop reads and updates
    beside it (the compiled plan, the node lookup, the tracker and the events
    it emits).  What runs outside the scheduler (the asyncio tasks that execute
    nodes, the publication of foreach artifacts) is the class [SchedulerEnv];
    what the scheduler needs from it is stated by [SchedulerEnvLaws]. *)

From Stdlib Require Import ZArith Lia Ascii String.
From stdpp Require Import base gmap sets list strings sorting relations.
From S2P Require Import Prelude PyStr Models Graph.

Open Scope string_scope.
Open Scope list_scope.
Open Scope Z_scope.

(** ** Data *)

(** Code: architecture/contracts/execution_status.py, ExecutionStatus. *)
Inductive ExecutionStatus : Type :=
| PENDING | RUNNING | SUCCEEDED | FAILED | CANCELLED | BLOCKED.

#[global] Instance ExecutionStatus_eq_dec : EqDecision ExecutionStatus.
Proof. solve_decision. Defined.

(** The fields of a compiled node the scheduler reads.
    Code: core/preflight/compiled_records.py:387-397. *)
Record PreflightNode := mkPNode {
  pn_id : string;
  pn_mode : NodeMode;
  pn_dependencies : list string
}.

#[global] Instance PreflightNode_eq_dec : EqDecision PreflightNode.
Proof. solve_decision. Defined.

(** Code: core/preflight/compiled_records.py, DependencyEdge. *)
Record DependencyEdge := mkEdge {
  source_node : string;
  target_node : string;
  artifact_name : option string
}.

#[global] Instance DependencyEdge_eq_dec : EqDecision DependencyEdge.
Proof. solve_decision. Defined.

(** The scheduling part of a compiled plan; [expansions] keeps the ids of the
    groups that have been expanded (the keys of the mapping). *)
Record ExecutionPlan := mkExecutionPlan {
  workflow_name : string;
  pnodes : list PreflightNode;
  execution_order : list string;
  dependency_graph : list DependencyEdge;
  expansions : list string
}.

(** The asyncio task of a node. *)
Record Task := mkTask { task_node : PreflightNode }.

(** Code: runtime/execution/activity/telemetry.py, WorkflowExecutionState. *)
Record WorkflowExecutionState := mkState {
  ready : list string;
  running : dict Task;
  statuses : dict ExecutionStatus;
  node_errors : dict exn;
  failed_dependencies : dict (gset string);
  remaining_dependencies : dict Z;
  dependents : dict (list string);
  dependencies_by_node : dict (gset string);
  node_order : dict Z
}.

Definition with_ready (st : WorkflowExecutionState) x : WorkflowExecutionState :=
  mkState x (running st) (statuses st) (node_errors st) (failed_dependencies st)
    (remaining_dependencies st) (dependents st) (dependencies_by_node st) (node_order st).
Definition with_running (st : WorkflowExecutionState) x : WorkflowExecutionState :=
  mkState (ready st) x (statuses st) (node_errors st) (failed_dependencies st)
    (remaining_dependencies st) (dependents st) (dependencies_by_node st) (node_order st).
Definition with_statuses (st : WorkflowExecutionState) x : WorkflowExecutionState :=
  mkState (ready st) (running st) x (node_errors st) (failed_dependencies st)
    (remaining_dependencies st) (dependents st) (dependencies_by_node st) (node_order st).
Definition with_node_errors (st : WorkflowExecutionState) x : WorkflowExecutionState :=
  mkState (ready st) (running st) (statuses st) x (failed_dependencies st)
    (remaining_dependencies st) (dependents st) (dependencies_by_node st) (node_order st).
Definition with_failed_dependencies (st : WorkflowExecutionState) x : WorkflowExecutionState :=
  mkState (ready st) (running st) (statuses st) (node_errors st) x
    (remaining_dependencies st) (dependents st) (dependencies_by_node st) (node_order st).
Definition with_remaining (st : WorkflowExecutionState) x : WorkflowExecutionState :=
  mkState (ready st) (running st) (statuses st) (node_errors st) (failed_dependencies st)
    x (dependents st) (dependencies_by_node st) (node_order st).

(** ** The initial state *)

(** Code: runtime/execution/workflow/state.py, validate_dependency_edge. *)
Definition validate_dependency_edge (edge : DependencyEdge) (node_ids : list string) : outcome unit :=
  if negb (bool_decide (source_node edge ∈ node_ids)) then
    Raise (ValueError ("Compiled dependency graph references unknown source node "
                       +:+ quoted (source_node edge) +:+ "."))
  else if negb (bool_decide (target_node edge ∈ node_ids)) then
    Raise (ValueError ("Compiled dependency graph references unknown target node "
                       +:+ quoted (target_node edge) +:+ "."))
  else Ok tt.

Definition plan_node_ids (plan : ExecutionPlan) : list string := map pn_id (pnodes plan).

(** Code: runtime/execution/workflow/state.py, dependencies_by_node_from_plan. *)
Definition dependencies_by_node_from_plan (plan : ExecutionPlan) : outcome (dict (gset string)) :=
  let node_ids := plan_node_ids plan in
  let dependencies := dict_of (map (fun id => (id, ∅)) node_ids) in
  for_each (fun (dependencies : dict (gset string)) edge =>
    _ ← validate_dependency_edge edge node_ids;
    current ← ditem dependencies (target_node edge);
    mret (dset dependencies (target_node edge) ({[source_node edge]} ∪ current)))
    (dependency_graph plan) dependencies.

(** Code: runtime/execution/workflow/state.py, build_dependents_map. *)
Definition build_dependents_map (dependencies : dict (gset string)) : outcome (dict (list string)) :=
  for_each (fun dependents '(node_id, node_dependencies) =>
    for_each (fun (dependents : dict (list string)) needed =>
      current ← ditem dependents needed;
      mret (dset dependents needed (current ++ [node_id])))
      (elements (node_dependencies : gset string)) dependents)
    dependencies (map (fun '(node_id, _) => (node_id, [])) dependencies).

Definition list_repr (l : list string) : string := "[" +:+ str_join ", " (map quoted l) +:+ "]".

(** Code: runtime/execution/workflow/state.py, validated_resumed_nodes. *)
Definition validated_resumed_nodes (resumed_node_ids : list string) (node_order : dict Z)
    : outcome (list string) :=
  let resumed_nodes := remove_dups resumed_node_ids in
  let unknown_nodes := sorted_str (List.filter (fun n => negb (dmem node_order n)) resumed_nodes) in
  match unknown_nodes with
  | [] => Ok resumed_nodes
  | _ => Raise (ValueError ("Resumed node ids are not in the plan: " +:+ list_repr unknown_nodes))
  end.

(** [node_order] from the execution order, completed by [setdefault].
    Code: runtime/execution/workflow/state.py:14-16. *)
Definition plan_node_order (plan : ExecutionPlan) : dict Z :=
  foldl (fun (order : dict Z) id => if dmem order id then order else dset order id (Z.of_nat (length order)))
    (enumerate_order (execution_order plan)) (plan_node_ids plan).

(** [remaining_dependencies[dependent_id] -= 1].
    Code: runtime/execution/workflow/state.py:25-26. *)
Definition decrement (remaining : dict Z) (dependent_id : string) : outcome (dict Z) :=
  count ← ditem remaining dependent_id; mret (dset remaining dependent_id (count - 1)).

(** Code: runtime/execution/workflow/state.py, initialize_workflow_execution_state. *)
Definition initialize_workflow_execution_state (plan : ExecutionPlan) (resumed_node_ids : list string)
    : outcome WorkflowExecutionState :=
  let node_order := plan_node_order plan in
  dependencies_by_node ← dependencies_by_node_from_plan plan;
  resumed_nodes ← validated_resumed_nodes resumed_node_ids node_order;
  let remaining := map (fun '(id, deps) => (id, Z.of_nat (size deps))) dependencies_by_node in
  dependents ← build_dependents_map dependencies_by_node;
  ordered ← sorted_by_order node_order resumed_nodes;
  remaining ← for_each (fun remaining node_id =>
                dependent_ids ← ditem dependents node_id;
                for_each decrement dependent_ids remaining) ordered remaining;
  ready ← sorted_by_order node_order
            (map fst (List.filter (fun '(id, count) => (count =? 0) && negb (bool_decide (id ∈ resumed_nodes)))
                        remaining));
  mret {| ready := ready;
          running := [];
          statuses := dict_of (map (fun id =>
             (id, if bool_decide (id ∈ resumed_nodes) then SUCCEEDED else PENDING)) (plan_node_ids plan));
          node_errors := [];
          failed_dependencies := dict_of (map (fun id => (id, ∅)) (plan_node_ids plan));
          remaining_dependencies := remaining;
          dependents := dependents;
          dependencies_by_node := dependencies_by_node;
          node_order := node_order |}.

(** ** Telemetry *)

(** Code: runtime/execution/activity/telemetry.py, RuntimeActivityTracker.__init__. *)
Record RuntimeActivityTracker := mkTracker {
  active_nodes : gset string;
  version : Z
}.

(** Code: runtime/execution/activity/telemetry.py, RuntimeActivityTracker.mark_node_running. *)
Definition mark_node_running (t : RuntimeActivityTracker) (node_id : string) : RuntimeActivityTracker :=
  if bool_decide (node_id ∈ active_nodes t) then t
  else mkTracker ({[node_id]} ∪ active_nodes t) (version t + 1).

(** Code: runtime/execution/activity/telemetry.py, RuntimeActivityTracker.mark_node_finished. *)
Definition mark_node_finished (t : RuntimeActivityTracker) (node_id : string) : RuntimeActivityTracker :=
  if negb (bool_decide (node_id ∈ active_nodes t)) then t
  else mkTracker (active_nodes t ∖ {[node_id]}) (version t + 1).

(** Code: runtime/execution/activity/telemetry.py, ActivityTrackerSnapshot. *)
Record ActivityTrackerSnapshot := mkSnapshot { is_exclusive : bool; snapshot_version : Z }.

(** Code: runtime/execution/activity/telemetry.py, RuntimeActivityTracker.snapshot. *)
Definition snapshot (t : RuntimeActivityTracker) (node_id : string) : ActivityTrackerSnapshot :=
  mkSnapshot (bool_decide (active_nodes t ∖ {[node_id]} = ∅)) (version t).

(** The node events the scheduler itself emits.
    Code: architecture/contracts/execution_event.py:53-58. *)
Inductive NodeEvent : Type :=
| NODE_STARTED (node_id : string)
| NODE_FINISHED (node_id : string)
| NODE_FAILED (node_id error : string)
| NODE_BLOCKED (node_id error : string).

(** Whether a process drain error is found along the chain of the exception;
    [UnconfirmedCleanupError] is an exception with one in its chain.
    Code: runtime/agent/process/drain.py, unconfirmed_process_cleanup. *)
Definition unconfirmed_process_cleanup (e : exn) : bool :=
  match e with UnconfirmedCleanupError _ => true | _ => false end.

(** Code: runtime/execution/errors.py, is_expected_execution_failure. *)
Definition is_expected_execution_failure (e : exn) : bool :=
  negb (unconfirmed_process_cleanup e) &&
  match e with
  | NodeExecutionError _ | InvocationFailureError _ _ | WorkspaceSetupError _
  | ReviewPolicyError _ => true
  | _ => false
  end.

(** ** The session and what runs outside the scheduler *)

(** Code: runtime/execution/workflow/execution_session.py, WorkflowExecutionSession. *)
Record Session := mkSession {
  splan : ExecutionPlan;
  nodes_by_id : dict PreflightNode;
  state : WorkflowExecutionState;
  max_concurrent_nodes : option Z;
  tracker : RuntimeActivityTracker;
  events : list NodeEvent;
  waits : nat
}.

Definition with_state (s : Session) x : Session :=
  mkSession (splan s) (nodes_by_id s) x (max_concurrent_nodes s) (tracker s) (events s) (waits s).
Definition with_tracker (s : Session) x : Session :=
  mkSession (splan s) (nodes_by_id s) (state s) (max_concurrent_nodes s) x (events s) (waits s).
Definition emit_workflow_event (s : Session) (e : NodeEvent) : Session :=
  mkSession (splan s) (nodes_by_id s) (state s) (max_concurrent_nodes s) (tracker s)
    (events s ++ [e]) (waits s).

(** The environment of the scheduler.
    [task_result]: the exception a node's task ends with, if any.
    [wait_done k ts t]: whether task [t] is in the done set of the [k]-th
    [asyncio.wait(ts, FIRST_COMPLETED)].
    [expand_effective]: the effective plan a ready group expands to, after its
    artifacts are published.  [join_result]: the verification and publication
    of an expanded group's index. *)
Class SchedulerEnv := {
  task_result : Task -> option exn;
  wait_done : nat -> list Task -> Task -> bool;
  expand_effective : ExecutionPlan -> string -> outcome ExecutionPlan;
  join_result : ExecutionPlan -> string -> outcome unit
}.

(** Code: runtime/execution/workflow/node.py, mark_node_running_activity. *)
Definition mark_node_running_activity (s : Session) (node_id : string) : Session :=
  with_tracker s (mark_node_running (tracker s) node_id).

(** Code: runtime/execution/workflow/node.py, mark_node_finished_activity. *)
Definition mark_node_finished_activity (s : Session) (node_id : string) : Session :=
  with_tracker s (mark_node_finished (tracker s) node_id).

(** ** Completion of a node *)

(** Code: runtime/execution/workflow/scheduling.py, _mark_node_failed. *)
Definition mark_node_failed (node_id : string) (exc : exn) (s : Session) : outcome Session :=
  let s := mark_node_finished_activity s node_id in
  let st := with_statuses (state s) (dset (statuses (state s)) node_id FAILED) in
  let st := with_node_errors st (dset (node_errors st) node_id exc) in
  let s := emit_workflow_event s (NODE_FAILED node_id (safe_error_message exc)) in
  dependent_ids ← ditem (dependents st) node_id;
  failed ← for_each (fun (failed : dict (gset string)) dependent_id =>
             current ← ditem failed dependent_id;
             mret (dset failed dependent_id ({[node_id]} ∪ current)))
             dependent_ids (failed_dependencies st);
  mret (with_state s (with_failed_dependencies st failed)).

(** The loop body of [_queue_satisfied_dependents] on (remaining, ready).
    Code: runtime/execution/workflow/scheduling.py:174-179. *)
Definition queue_dependent (failed : dict (gset string)) (acc : dict Z * list string)
    (dependent_id : string) : outcome (dict Z * list string) :=
  let '(remaining, ready) := acc in
  failed_of ← ditem failed dependent_id;
  if negb (bool_decide (failed_of = ∅)) then mret (remaining, ready)
  else
    count ← ditem remaining dependent_id;
    let remaining := dset remaining dependent_id (count - 1) in
    mret (remaining, if count - 1 =? 0 then ready ++ [dependent_id] else ready).

(** Code: runtime/execution/workflow/scheduling.py, _queue_satisfied_dependents. *)
Definition queue_satisfied_dependents (node_id : string) (st : WorkflowExecutionState)
    : outcome WorkflowExecutionState :=
  dependent_ids ← ditem (dependents st) node_id;
  '(remaining, queued) ← for_each (queue_dependent (failed_dependencies st)) dependent_ids
                           (remaining_dependencies st, ready st);
  queued ← sorted_by_order (node_order st) queued;
  mret (with_ready (with_remaining st remaining) queued).

(** Code: runtime/execution/workflow/scheduling.py, _mark_node_succeeded. *)
Definition mark_node_succeeded (node_id : string) (s : Session) : outcome Session :=
  let s := mark_node_finished_activity s node_id in
  let st := with_statuses (state s) (dset (statuses (state s)) node_id SUCCEEDED) in
  let s := emit_workflow_event s (NODE_FINISHED node_id) in
  st ← queue_satisfied_dependents node_id st;
  mret (with_state s st).

Section Scheduling.
Context {env : SchedulerEnv}.

(** Code: runtime/execution/workflow/scheduling.py, _finalize_completed_node.
    The result carries the exception it re-raises, with the state the failure
    has already been recorded in. *)
Definition finalize_completed_node (node_id : string) (s : Session)
    : outcome (Session * option exn) :=
  task ← ditem (running (state s)) node_id;
  let s := with_state s (with_running (state s) (ddel (running (state s)) node_id)) in
  match task_result task with
  | Some exc =>
      s ← mark_node_failed node_id exc s;
      mret (s, if is_expected_execution_failure exc then None else Some exc)
  | None => s ← mark_node_succeeded node_id s; mret (s, None)
  end.

(** Code: runtime/execution/workflow/scheduling.py, _completed_node_ids. *)
Definition completed_node_ids (running : dict Task) (done : Task -> bool) (node_order : dict Z)
    : outcome (list string) :=
  sorted_by_order node_order (map fst (List.filter (fun '(_, task) => done task) running)).

(** Code: runtime/execution/workflow/scheduling.py, wait_for_completed_nodes. *)
Definition wait_for_completed_nodes (s : Session) : outcome (list string) :=
  completed_node_ids (running (state s)) (wait_done (waits s) (map snd (running (state s)))) (node_order (state s)).

Definition tick (s : Session) : Session :=
  mkSession (splan s) (nodes_by_id s) (state s) (max_concurrent_nodes s) (tracker s)
    (events s) (S (waits s)).

(** The loop body of [_consume_completed_nodes]: an exception that escapes the
    finalization replaces the remembered one when that is absent or when it
    carries an unconfirmed process cleanup.
    Code: runtime/execution/workflow/scheduling.py:213-218. *)
Definition consume_node (acc : Session * option exn) (node_id : string)
    : outcome (Session * option exn) :=
  let '(s, unexpected_error) := acc in
  '(s, raised) ← finalize_completed_node node_id s;
  mret (s, match raised with
           | None => unexpected_error
           | Some exc => if bool_decide (unexpected_error = None) || unconfirmed_process_cleanup exc
                         then Some exc else unexpected_error
           end).

(** Code: runtime/execution/workflow/scheduling.py, _consume_completed_nodes. *)
Definition consume_completed_nodes (s : Session) : outcome (Session * option exn) :=
  ids ← wait_for_completed_nodes s;
  for_each consume_node ids (tick s, None).

(** ** Foreach groups *)

(** [rebuilt.statuses.update(prior.statuses)]. *)
Definition dict_update {V} (d e : dict V) : dict V := foldl (fun d kv => dset d kv.1 kv.2) d e.

(** [status in {FAILED, BLOCKED}]. *)
Definition failed_or_blocked (status : ExecutionStatus) : bool :=
  bool_decide (status = FAILED) || bool_decide (status = BLOCKED).

(** Code: runtime/execution/workflow/expansion.py, _install_expanded_plan. *)
Definition install_expanded_plan (s : Session) (effective : ExecutionPlan) : outcome Session :=
  let prior := state s in
  rebuilt ← initialize_workflow_execution_state effective
              (map fst (List.filter (fun '(_, status) => bool_decide (status = SUCCEEDED)) (statuses prior)));
  let statuses' := dict_update (statuses rebuilt) (statuses prior) in
  ready' ← for_each (fun (kept : list string) node_id =>
             status ← ditem statuses' node_id;
             mret (if bool_decide (status = PENDING) then kept ++ [node_id] else kept)) (ready rebuilt) [];
  failed' ← mapM (fun '(node_id, deps) =>
              failed ← for_each (fun (failed : gset string) dependency =>
                         status ← ditem statuses' dependency;
                         mret (if failed_or_blocked status then {[dependency]} ∪ failed else failed))
                         (elements (deps : gset string)) ∅;
              mret ((node_id, failed) : string * gset string)) (dependencies_by_node rebuilt);
  mret (mkSession effective
          (dict_of (map (fun node => (pn_id node, node)) (pnodes effective)))
          {| ready := ready'; running := running prior; statuses := statuses';
             node_errors := node_errors prior; failed_dependencies := failed';
             remaining_dependencies := remaining_dependencies rebuilt;
             dependents := dependents rebuilt;
             dependencies_by_node := dependencies_by_node rebuilt;
             node_order := node_order rebuilt |}
          (max_concurrent_nodes s) (tracker s) (events s) (waits s)).

(** [expand_group]: resolve, validate and publish, then install.
    Code: runtime/execution/workflow/expansion.py, expand_group. *)
Definition expand_group (s : Session) (group_id : string) : outcome Session :=
  effective ← expand_effective (splan s) group_id;
  install_expanded_plan s effective.

(** The first ready node whose mode is foreach, if any.
    Code: runtime/execution/workflow/scheduling.py:102-109. *)
Fixpoint next_group (nodes : dict PreflightNode) (ids : list string) : outcome (option string) :=
  match ids with
  | [] => Ok None
  | id :: rest =>
      node ← ditem nodes id;
      if bool_decide (pn_mode node = Foreach) then Ok (Some id) else next_group nodes rest
  end.

(** [l.remove(x)]: the first occurrence. *)
Fixpoint list_remove (l : list string) (x : string) : list string :=
  match l with
  | [] => []
  | y :: t => if decide (x = y) then t else y :: list_remove t x
  end.

(** [except (OSError, ValueError)]. *)
Definition caught_by_group (e : exn) : bool :=
  match e with OSError _ | ValueError _ => true | _ => false end.

(** One iteration of [_run_ready_groups] for the group found.
    Code: runtime/execution/workflow/scheduling.py:112-127. *)
Definition run_ready_group (group_id : string) (s : Session) : outcome Session :=
  let s := with_state s (with_ready (state s) (list_remove (ready (state s)) group_id)) in
  if negb (bool_decide (group_id ∈ expansions (splan s))) then
    match expand_group s group_id with
    | Ok s' => Ok s'
    | Raise exc => if caught_by_group exc
                   then mark_node_failed group_id (NodeExecutionError (exn_str exc)) s
                   else Raise exc
    | OutOfFuel => OutOfFuel
    end
  else
    let s := mark_node_running_activity s group_id in
    let s := emit_workflow_event s (NODE_STARTED group_id) in
    match join_result (splan s) group_id with
    | Ok _ => mark_node_succeeded group_id s
    | Raise exc => if caught_by_group exc
                   then mark_node_failed group_id (NodeExecutionError (exn_str exc)) s
                   else Raise exc
    | OutOfFuel => OutOfFuel
    end.

(** Code: runtime/execution/workflow/scheduling.py, _run_ready_groups. *)
Fixpoint run_ready_groups (fuel : nat) (s : Session) : outcome Session :=
  match fuel with
  | O => OutOfFuel
  | S fuel =>
      group ← next_group (nodes_by_id s) (ready (state s));
      match group with
      | None => Ok s
      | Some group_id => s ← run_ready_group group_id s; run_ready_groups fuel s
      end
  end.

(** ** Dispatch and the scheduling loop *)

(** Code: runtime/execution/workflow/scheduling.py:81-82. *)
Definition has_capacity (s : Session) : bool :=
  match max_concurrent_nodes s with
  | None => true
  | Some limit => Z.of_nat (length (running (state s))) <? limit
  end.

(** The [while] of [_schedule_ready_nodes]; the ready list only shrinks.
    Code: runtime/execution/workflow/scheduling.py:80-94. *)
Fixpoint dispatch_ready (queue : list string) (s : Session) : outcome Session :=
  match queue with
  | [] => Ok (with_state s (with_ready (state s) []))
  | node_id :: rest =>
      if negb (has_capacity s) then Ok (with_state s (with_ready (state s) queue))
      else
        status ← ditem (statuses (state s)) node_id;
        if negb (bool_decide (status = PENDING)) then dispatch_ready rest s
        else
          let s := with_state s (with_statuses (state s) (dset (statuses (state s)) node_id RUNNING)) in
          let s := mark_node_running_activity s node_id in
          node ← ditem (nodes_by_id s) node_id;
          dispatch_ready rest
            (with_state s (with_running (state s) (dset (running (state s)) node_id (mkTask node))))
  end.

(** Code: runtime/execution/workflow/scheduling.py, _schedule_ready_nodes. *)
Definition schedule_ready_nodes (fuel : nat) (s : Session) : outcome Session :=
  s ← run_ready_groups fuel s;
  dispatch_ready (ready (state s)) s.

(** Code: runtime/execution/workflow/scheduling.py, run_scheduling_loop.
    An unexpected failure stops the loop; it is returned with the state. *)
Fixpoint run_scheduling_loop (fuel : nat) (s : Session) : outcome (Session * option exn) :=
  match fuel with
  | O => OutOfFuel
  | S fuel' =>
      if bool_decide (ready (state s) = []) && bool_decide (running (state s) = []) then Ok (s, None)
      else
        s ← schedule_ready_nodes fuel s;
        if bool_decide (running (state s) = []) then Ok (s, None)
        else
          '(s, unexpected) ← consume_completed_nodes s;
          match unexpected with
          | Some exc => Ok (s, Some exc)
          | None => run_scheduling_loop fuel' s
          end
  end.

End Scheduling.

(** ** The end of a run *)

(** Code: runtime/execution/workflow/scheduling.py, _unsatisfied_dependencies. *)
Definition unsatisfied_dependencies (node_id : string) (statuses : dict ExecutionStatus)
    (dependencies_by_node : dict (gset string)) : outcome (list string) :=
  deps ← ditem dependencies_by_node node_id;
  for_each (fun (kept : list string) dependency =>
    status ← ditem statuses dependency;
    mret (if bool_decide (status = SUCCEEDED) then kept else kept ++ [dependency]))
    (elements (deps : gset string)) [].

(** The loop body of [_mark_blocked_nodes].
    Code: runtime/execution/workflow/scheduling.py:245-257. *)
Definition block_node (s : Session) (node_id : string) : outcome Session :=
  let st := with_statuses (state s) (dset (statuses (state s)) node_id BLOCKED) in
  unsatisfied ← unsatisfied_dependencies node_id (statuses st) (dependencies_by_node st);
  mret (emit_workflow_event (with_state s st)
          (NODE_BLOCKED node_id ("unsatisfied dependencies: " +:+ str_join ", " unsatisfied))).

(** Code: runtime/execution/workflow/scheduling.py, _mark_blocked_nodes. *)
Definition mark_blocked_nodes (s : Session) : outcome (Session * list string) :=
  let blocked_nodes :=
    map fst (List.filter (fun '(_, status) => bool_decide (status = PENDING)) (statuses (state s))) in
  s ← for_each block_node blocked_nodes s;
  mret (s, blocked_nodes).

(** Code: runtime/execution/workflow/scheduling.py, _build_workflow_failure_details. *)
Definition build_workflow_failure_details (node_errors : dict exn) (blocked_nodes : list string)
    (dependencies_by_node : dict (gset string)) (statuses : dict ExecutionStatus) : outcome string :=
  failed_lines ← mapM (fun node_id =>
    exc ← ditem node_errors node_id;
    mret ("- failed: " +:+ node_id +:+ " (" +:+ exn_str exc +:+ ")")) (sorted_str (dkeys node_errors));
  blocked_lines ← mapM (fun node_id =>
    unsatisfied ← unsatisfied_dependencies node_id statuses dependencies_by_node;
    mret ("- blocked: " +:+ node_id +:+ " (unsatisfied dependencies: "
          +:+ str_join ", " unsatisfied +:+ ")")) (sorted_str blocked_nodes);
  mret (str_join lf_str (failed_lines ++ blocked_lines)).

Definition WorkflowExecutionError (msg : string) : exn := OtherError "WorkflowExecutionError" msg.

(** Code: runtime/execution/workflow/scheduling.py, _raise_if_workflow_failed. *)
Definition raise_if_workflow_failed (workflow_name : string) (node_errors : dict exn)
    (blocked_nodes : list string) (dependencies_by_node : dict (gset string))
    (statuses : dict ExecutionStatus) : outcome unit :=
  if bool_decide (dkeys node_errors = []) && bool_decide (blocked_nodes = []) then Ok tt
  else
    details ← build_workflow_failure_details node_errors blocked_nodes dependencies_by_node statuses;
    Raise (WorkflowExecutionError ("Workflow " +:+ quoted workflow_name +:+ " failed:"
                                   +:+ lf_str +:+ details)).

(** Code: runtime/execution/workflow/scheduling.py, finalize_execution.
    The state of the session is returned beside the outcome, since the blocked
    statuses are recorded also when the workflow error is raised. *)
Definition finalize_execution (s : Session) : outcome (Session * outcome unit) :=
  '(s, blocked_nodes) ← mark_blocked_nodes s;
  mret (s, raise_if_workflow_failed (workflow_name (splan s)) (node_errors (state s))
             blocked_nodes (dependencies_by_node (state s)) (statuses (state s))).

(** The scheduling part of a new session.
    Code: runtime/execution/workflow/execution_session.py, initialize_workflow_execution. *)
Definition initialize_session (plan : ExecutionPlan) (resumed_node_ids : list string)
    (max_concurrent : option Z) : outcome Session :=
  state ← initialize_workflow_execution_state plan resumed_node_ids;
  mret (mkSession plan (dict_of (map (fun node => (pn_id node, node)) (pnodes plan))) state
          max_concurrent (mkTracker ∅ 0) [] 0).
