(* ===== verification/SchedulerInv.v ===== *)
(** The scheduler's invariant and its preservation by every operation of
    Scheduler.v: initialization, the two ways a node ends, dispatch, and the
    installation of an expanded plan. *)

From Stdlib Require Import ZArith Lia Ascii String.
From stdpp Require Import base gmap sets list strings sorting relations.
From S2P Require Import Prelude PyStr Models Graph Scheduler.

Open Scope string_scope.
Open Scope list_scope.
Open Scope Z_scope.

(** ** The dependency relation of a plan *)

Definition plan_dep (plan : ExecutionPlan) (d n : string) : Prop :=
  exists e, e ∈ dependency_graph plan /\ source_node e = d /\ target_node e = n.

(** What a compiled plan guarantees: unique node ids and known edge ends. *)
Record plan_ok (plan : ExecutionPlan) : Prop := {
  po_nodup : NoDup (plan_node_ids plan);
  po_edges : forall d n, plan_dep plan d n -> d ∈ plan_node_ids plan /\ n ∈ plan_node_ids plan;
  po_acyclic : forall n, ~ tc (plan_dep plan) n n
}.

(** A rank that every edge increases excludes cycles. *)
Lemma plan_ok_by_rank plan (rank : string -> Z) :
  NoDup (plan_node_ids plan) ->
  (forall d n, plan_dep plan d n -> (d ∈ plan_node_ids plan /\ n ∈ plan_node_ids plan) /\ rank d < rank n) ->
  plan_ok plan.
Proof.
  intros Hnd He. constructor; [done | apply He |].
  assert (forall d n, tc (plan_dep plan) d n -> rank d < rank n) as Htc.
  { induction 1 as [d n Hd|d b n Hd _ IH]; [by apply He|]. destruct (He d b Hd). lia. }
  intros n Hn. apply Htc in Hn. lia.
Qed.

(** The nodes of [X] that have not succeeded. *)
Definition unsatisfied (statuses : dict ExecutionStatus) (X : gset string) : gset string :=
  filter (fun d => dget statuses d <> Some SUCCEEDED) X.

Definition satisfied (statuses : dict ExecutionStatus) (plan : ExecutionPlan) (n : string) : Prop :=
  forall d, plan_dep plan d n -> dget statuses d = Some SUCCEEDED.

(** ** The invariant

    [hole] is a node that has been taken from the ready list or from the
    running tasks and whose end is not recorded yet. *)
Record sched_inv (plan : ExecutionPlan) (hole : option string) (st : WorkflowExecutionState) : Prop := {
  si_plan : plan_ok plan;
  si_statuses : forall n, n ∈ dkeys (statuses st) <-> n ∈ plan_node_ids plan;
  si_statuses_nodup : NoDup (dkeys (statuses st));
  si_live : forall n s, dget (statuses st) n = Some s -> s = PENDING \/ s = RUNNING \/ s = SUCCEEDED \/ s = FAILED;
  si_deps : forall n, n ∈ plan_node_ids plan -> exists X, dget (dependencies_by_node st) n = Some X /\
              forall d, d ∈ X <-> plan_dep plan d n;
  si_dependents : forall d, d ∈ plan_node_ids plan -> exists l, dget (dependents st) d = Some l /\
              NoDup l /\ forall n, n ∈ l <-> plan_dep plan d n;
  si_order : forall n, n ∈ plan_node_ids plan -> n ∈ dkeys (node_order st);
  si_failed : forall n, n ∈ plan_node_ids plan -> exists X, dget (failed_dependencies st) n = Some X /\
              forall d, d ∈ X <-> plan_dep plan d n /\ dget (statuses st) d = Some FAILED;
  si_remaining : forall n X, n ∈ plan_node_ids plan -> (forall d, d ∈ X <-> plan_dep plan d n) -> exists c,
              dget (remaining_dependencies st) n = Some c /\
              Z.of_nat (size (unsatisfied (statuses st) X)) <= c /\
              ((forall d, plan_dep plan d n -> dget (statuses st) d <> Some FAILED) ->
               c = Z.of_nat (size (unsatisfied (statuses st) X)));
  si_ready_nodup : NoDup (ready st);
  si_ready : forall n, n ∈ ready st <->
              hole <> Some n /\ dget (statuses st) n = Some PENDING /\ satisfied (statuses st) plan n;
  si_ready_sorted : StronglySorted (order_le (node_order st)) (ready st);
  si_running_nodup : NoDup (dkeys (running st));
  si_running : forall n, n ∈ dkeys (running st) <-> hole <> Some n /\ dget (statuses st) n = Some RUNNING;
  si_errors : forall n, n ∈ dkeys (node_errors st) <-> dget (statuses st) n = Some FAILED;
  si_started : forall n s, dget (statuses st) n = Some s -> s <> PENDING -> satisfied (statuses st) plan n;
  si_hole : forall h, hole = Some h ->
              (dget (statuses st) h = Some PENDING \/ dget (statuses st) h = Some RUNNING) /\
              satisfied (statuses st) plan h
}.

(** ** The initial state *)

Section Initialize.
Context (plan : ExecutionPlan) (Hplan : plan_ok plan).

Lemma dependencies_from_plan_ok :
  exists D, dependencies_by_node_from_plan plan = Ok D /\ dkeys D = plan_node_ids plan /\
    forall n X, dget D n = Some X -> forall d, d ∈ X <-> plan_dep plan d n.
Proof.
  unfold dependencies_by_node_from_plan.
  set (I := fun (done : list DependencyEdge) (D : dict (gset string)) =>
    dkeys D = plan_node_ids plan /\
    forall n X, dget D n = Some X ->
      forall d, d ∈ X <-> exists e, e ∈ done /\ source_node e = d /\ target_node e = n).
  apply (for_each_inv I).
  - split.
    + rewrite dict_of_NoDup; unfold dkeys; rewrite ?map_map; simpl; rewrite ?map_id; [done|].
      apply Hplan.
    + intros n X. rewrite (dget_dict_of_map (fun _ => ∅)). case_decide; [|done].
      intros [= <-] d. split; [set_solver|]. intros (e & He & _). by apply elem_of_nil in He.
  - intros done e rest D Hl [Hk HD].
    assert (source_node e ∈ plan_node_ids plan /\ target_node e ∈ plan_node_ids plan) as [Hs Ht].
    { apply (po_edges _ Hplan). exists e. split; [|done]. rewrite Hl. set_solver. }
    unfold validate_dependency_edge. rewrite !bool_decide_eq_true_2 by done. simpl.
    destruct (proj2 (dget_is_Some D (target_node e))) as [X HX]; [by rewrite Hk|].
    unfold ditem. rewrite HX. simpl. eexists. split; [done|]. split.
    + rewrite dkeys_dset_in; [done|]. by rewrite Hk.
    + intros n Y. rewrite dget_dset. case_decide as Hn.
      * intros [= <-] d. subst n. rewrite elem_of_union, elem_of_singleton, (HD _ _ HX d).
        setoid_rewrite elem_of_snoc. split.
        -- intros [->|(e' & He' & ? & ?)]; [exists e | exists e']; naive_solver.
        -- intros (e' & [He'| ->] & <- & ?); naive_solver.
      * intros HY d. rewrite (HD _ _ HY d). setoid_rewrite elem_of_snoc. naive_solver.
Qed.

Lemma dependents_map_ok D :
  dkeys D = plan_node_ids plan ->
  (forall n X, dget D n = Some X -> forall d, d ∈ X <-> plan_dep plan d n) ->
  exists T, build_dependents_map D = Ok T /\
    forall d, d ∈ plan_node_ids plan -> exists l, dget T d = Some l /\ NoDup l /\
      forall n, n ∈ l <-> plan_dep plan d n.
Proof.
  intros Hk HD. unfold build_dependents_map.
  set (col := fun (done : dict (gset string)) d =>
    map fst (List.filter (fun '(_, X) => bool_decide (d ∈ (X : gset string))) done)).
  set (I := fun (done : dict (gset string)) (T : dict (list string)) =>
    dkeys T = plan_node_ids plan /\
    forall d, d ∈ plan_node_ids plan -> dget T d = Some (col done d)).
  assert (NoDup (dkeys D)) as HndD by (rewrite Hk; apply Hplan).
  destruct (for_each_inv I (fun dependents '(node_id, node_dependencies) =>
    for_each (fun (dependents : dict (list string)) needed =>
      current ← ditem dependents needed;
      mret (dset dependents needed (current ++ [node_id])))
      (elements (node_dependencies : gset string)) dependents) D
      (map (fun '(node_id, _) => (node_id, [])) D)) as (T & HT & HkT & HI).
  - split.
    + rewrite <- Hk. unfold dkeys. rewrite map_map. apply map_ext. by intros [].
    + intros d Hd. rewrite dget_map_val. rewrite <- Hk, <- dget_is_Some in Hd.
      destruct Hd as [X ->]. done.
  - intros done [n X] rest T HlD [HkT HT].
    assert (dget D n = Some X) as HnX.
    { apply elem_of_dget; [done|]. rewrite HlD. set_solver. }
    destruct (for_each_update (fun cur => cur ++ [n]) (elements X) T) as (T' & HT' & Hk' & Hg).
    { apply NoDup_elements. }
    { intros x Hx. rewrite HkT. rewrite elem_of_elements, (HD _ _ HnX) in Hx.
      exact (proj1 (po_edges _ Hplan _ _ Hx)). }
    exists T'. split; [done|]. split; [by rewrite Hk', HkT|].
    intros d Hd. rewrite Hg, HT by done. unfold col. rewrite List.filter_app, map_app. simpl.
    destruct (decide (d ∈ X)) as [Hin|Hin].
    + rewrite decide_True by (by rewrite elem_of_elements). rewrite bool_decide_eq_true_2 by done. done.
    + rewrite decide_False by (by rewrite elem_of_elements). rewrite bool_decide_eq_false_2 by done.
      simpl. by rewrite app_nil_r.
  - exists T. split; [done|]. intros d Hd. exists (col D d). split; [auto|]. split.
    + by apply NoDup_map_fst_filter.
    + intros n. unfold col. rewrite elem_of_keys_filter by done. split.
      * intros (X & HX & Hb). rewrite bool_decide_eq_true in Hb. by apply (HD n X HX).
      * intros Hdep. destruct (proj2 (dget_is_Some D n)) as [X HX].
        { rewrite Hk. exact (proj2 (po_edges _ Hplan _ _ Hdep)). }
        exists X. split; [done|]. apply bool_decide_eq_true. by apply (HD n X HX).
Qed.

Lemma size_difference_snoc (X : gset string) done x :
  x ∉ done -> Z.of_nat (size (X ∖ set_of (done ++ [x]))) =
    if decide (x ∈ X) then Z.of_nat (size (X ∖ set_of done)) - 1 else Z.of_nat (size (X ∖ set_of done)).
Proof.
  intros Hx. assert (X ∖ set_of (done ++ [x]) = (X ∖ set_of done) ∖ {[x]}) as ->.
  { apply leibniz_equiv. intros y. rewrite !elem_of_difference, !set_of_elem, elem_of_snoc, elem_of_singleton. tauto. }
  case_decide.
  - apply size_difference_singleton. by rewrite elem_of_difference, set_of_elem.
  - do 2 f_equal. apply leibniz_equiv. intros y.
    rewrite !elem_of_difference, elem_of_singleton. naive_solver.
Qed.

Lemma decrement_resumed_ok D T resumed :
  dkeys D = plan_node_ids plan ->
  (forall n X, dget D n = Some X -> forall d, d ∈ X <-> plan_dep plan d n) ->
  (forall d, d ∈ plan_node_ids plan -> exists l, dget T d = Some l /\ NoDup l /\
      forall n, n ∈ l <-> plan_dep plan d n) ->
  NoDup resumed -> (forall r, r ∈ resumed -> r ∈ plan_node_ids plan) ->
  exists R, for_each (fun remaining node_id =>
              dependent_ids ← ditem T node_id; for_each decrement dependent_ids remaining) resumed
              (map (fun '(id, deps) => (id, Z.of_nat (size (deps : gset string)))) D) = Ok R /\
    dkeys R = plan_node_ids plan /\
    forall n X, dget D n = Some X -> dget R n = Some (Z.of_nat (size (X ∖ set_of resumed))).
Proof.
  intros Hk HD HT Hnd Hin.
  set (I := fun done (R : dict Z) => dkeys R = plan_node_ids plan /\
    forall n X, dget D n = Some X -> dget R n = Some (Z.of_nat (size (X ∖ set_of done)))).
  apply (for_each_inv I).
  - split.
    + rewrite <- Hk. unfold dkeys. rewrite map_map. apply map_ext. by intros [].
    + intros n X HX. rewrite dget_map_val, HX. change (set_of []) with (∅ : gset string). by rewrite difference_empty_L.
  - intros done r rest R -> [HkR HR].
    assert (r ∈ plan_node_ids plan) as Hr by (apply Hin; set_solver).
    assert (r ∉ done) as Hrd by (apply NoDup_app in Hnd; set_solver).
    destruct (HT r Hr) as (l & Hl & Hndl & Hlspec).
    unfold ditem at 1. rewrite Hl. simpl.
    destruct (for_each_update (fun c => c - 1) l R) as (R' & HR' & Hk' & Hg); [done| |].
    { intros x Hx. rewrite HkR. rewrite Hlspec in Hx. exact (proj2 (po_edges _ Hplan _ _ Hx)). }
    exists R'. split; [exact HR'|]. split; [by rewrite Hk'|].
    intros n X HX. rewrite Hg, (HR n X HX), size_difference_snoc by done.
    rewrite (decide_ext (n ∈ l) (r ∈ X)); [by case_decide|].
    by rewrite Hlspec, (HD n X HX).
Qed.

(** The description of the initial state. *)
Record initial_spec (resumed : list string) (st : WorkflowExecutionState) : Prop := {
  is_running : running st = [];
  is_errors : node_errors st = [];
  is_statuses : forall n, dget (statuses st) n =
    if decide (n ∈ plan_node_ids plan)
    then Some (if decide (n ∈ resumed) then SUCCEEDED else PENDING) else None;
  is_statuses_nodup : NoDup (dkeys (statuses st));
  is_deps_keys : dkeys (dependencies_by_node st) = plan_node_ids plan;
  is_deps : forall n X, dget (dependencies_by_node st) n = Some X -> forall d, d ∈ X <-> plan_dep plan d n;
  is_dependents : forall d, d ∈ plan_node_ids plan -> exists l, dget (dependents st) d = Some l /\
      NoDup l /\ forall n, n ∈ l <-> plan_dep plan d n;
  is_order : forall n, n ∈ plan_node_ids plan -> n ∈ dkeys (node_order st);
  is_failed : forall n, n ∈ plan_node_ids plan -> dget (failed_dependencies st) n = Some ∅;
  is_remaining : forall n X, dget (dependencies_by_node st) n = Some X ->
      dget (remaining_dependencies st) n = Some (Z.of_nat (size (X ∖ set_of resumed)));
  is_ready_nodup : NoDup (ready st);
  is_ready_sorted : StronglySorted (order_le (node_order st)) (ready st);
  is_ready : forall n, n ∈ ready st <-> n ∈ plan_node_ids plan /\ n ∉ resumed /\
      forall d, plan_dep plan d n -> d ∈ resumed
}.

Lemma plan_node_order_keys n :
  n ∈ dkeys (plan_node_order plan) <-> n ∈ execution_order plan \/ n ∈ plan_node_ids plan.
Proof.
  unfold plan_node_order. rewrite <- (elem_of_dkeys_enumerate (execution_order plan)).
  generalize (enumerate_order (execution_order plan)).
  induction (plan_node_ids plan) as [|x l IH]; intros d; simpl; [set_solver|].
  rewrite IH. destruct (dmem d x) eqn:Hx.
  - apply dmem_true in Hx. set_solver.
  - rewrite elem_of_dkeys_dset. set_solver.
Qed.

Lemma validated_resumed_ok resumed :
  (forall r, r ∈ resumed -> r ∈ plan_node_ids plan) ->
  validated_resumed_nodes resumed (plan_node_order plan) = Ok (remove_dups resumed).
Proof.
  intros Hin. unfold validated_resumed_nodes.
  assert (List.filter (fun n => negb (dmem (plan_node_order plan) n)) (remove_dups resumed) = []) as ->; [|done].
  apply list.elem_of_nil_inv. intros x [Hx Hd]%elem_of_filter_true.
  apply elem_of_remove_dups, Hin in Hx. apply negb_true_iff, dmem_false in Hd.
  apply Hd, plan_node_order_keys. by right.
Qed.

Lemma initialize_ok resumed :
  (forall r, r ∈ resumed -> r ∈ plan_node_ids plan) ->
  exists st, initialize_workflow_execution_state plan resumed = Ok st /\ initial_spec resumed st.
Proof.
  intros Hin. unfold initialize_workflow_execution_state.
  destruct dependencies_from_plan_ok as (D & -> & HkD & HD). simpl.
  rewrite validated_resumed_ok by done. simpl.
  destruct (dependents_map_ok D HkD HD) as (T & -> & HT). simpl.
  assert (forall x, x ∈ plan_node_ids plan -> x ∈ dkeys (plan_node_order plan)) as Hord
    by (intros x Hx; apply plan_node_order_keys; by right).
  destruct (sorted_by_order_ok (plan_node_order plan) (remove_dups resumed)) as (ordered & -> & Hperm & _).
  { intros x Hx. apply Hord, Hin. by apply elem_of_remove_dups. }
  simpl.
  assert (forall x, x ∈ ordered <-> x ∈ resumed) as Hel by (intros; by rewrite Hperm, elem_of_remove_dups).
  destruct (decrement_resumed_ok D T ordered HkD HD HT) as (R & -> & HkR & HR).
  { rewrite Hperm. apply NoDup_remove_dups. }
  { intros r Hr. apply Hin. by rewrite <- Hel. }
  assert (forall X : gset string, X ∖ set_of ordered = X ∖ set_of resumed) as Hset.
  { intros X. f_equal. apply leibniz_equiv. intros y. by rewrite !set_of_elem. }
  simpl.
  assert (NoDup (dkeys R)) as HndR by (rewrite HkR; apply Hplan).
  set (cand := map fst _).
  assert (forall n, n ∈ cand <-> n ∈ plan_node_ids plan /\ n ∉ resumed /\
      forall d, plan_dep plan d n -> d ∈ resumed) as Hcand.
  { intros n. unfold cand. rewrite elem_of_keys_filter by done.
    split.
    - intros (c & Hc & [Hz Hn]%andb_true_iff). apply Z.eqb_eq in Hz as ->.
      rewrite negb_true_iff, bool_decide_eq_false, elem_of_remove_dups in Hn.
      assert (n ∈ plan_node_ids plan) as HnN by (rewrite <- HkR; apply dget_is_Some; eauto).
      split_and!; [done..|]. intros d Hd.
      destruct (proj2 (dget_is_Some D n)) as [X HX]; [by rewrite HkD|].
      rewrite (HR n X HX) in Hc. injection Hc as Hc.
      assert (X ⊆ set_of ordered) as Hsub by (apply size_zero_subseteq; lia).
      apply Hel, set_of_elem, Hsub. by apply (HD n X HX).
    - intros (HnN & Hn & Hdeps). destruct (proj2 (dget_is_Some D n)) as [X HX]; [by rewrite HkD|].
      exists (Z.of_nat (size (X ∖ set_of ordered))). split; [auto|].
      rewrite andb_true_iff, negb_true_iff, bool_decide_eq_false, elem_of_remove_dups.
      split; [|done]. apply Z.eqb_eq. assert (size (X ∖ set_of ordered) = 0%nat) as ->; [|done].
      apply size_zero_subseteq. intros d Hd. apply set_of_elem, Hel, Hdeps. by apply (HD n X HX). }
  destruct (sorted_by_order_ok (plan_node_order plan) cand) as (rd & -> & Hrp & Hrs).
  { intros x Hx. apply Hcand in Hx as [Hx _]. auto. }
  simpl. eexists. split; [done|]. constructor; simpl; try done.
  - intros n. rewrite (dget_dict_of_map (fun id => if bool_decide (id ∈ remove_dups resumed) then SUCCEEDED else PENDING)).
    case_decide; [|done]. f_equal. rewrite (bool_decide_ext _ (n ∈ resumed)) by apply elem_of_remove_dups.
    by destruct (decide (n ∈ resumed)); [rewrite bool_decide_eq_true_2 | rewrite bool_decide_eq_false_2].
  - apply NoDup_dict_of.
  - intros n Hn. rewrite (dget_dict_of_map (fun _ => ∅)). by rewrite decide_True.
  - intros n X HX. rewrite <- Hset. auto.
  - rewrite Hrp. unfold cand. by apply NoDup_map_fst_filter.
  - intros n. by rewrite Hrp.
Qed.

End Initialize.

(** ** Recording the end of a node *)

Lemma unsatisfied_elem statuses X d :
  d ∈ unsatisfied statuses X <-> dget statuses d <> Some SUCCEEDED /\ d ∈ X.
Proof. unfold unsatisfied. by rewrite elem_of_filter. Qed.

Lemma unsatisfied_succeeded statuses h X :
  unsatisfied (dset statuses h SUCCEEDED) X = unsatisfied statuses X ∖ {[h]}.
Proof.
  apply leibniz_equiv. intros d. rewrite elem_of_difference, !unsatisfied_elem, elem_of_singleton, dget_dset.
  case_decide; naive_solver.
Qed.

(** Setting a status that neither leaves nor enters [SUCCEEDED]. *)
Lemma unsatisfied_other statuses h s X :
  dget statuses h <> Some SUCCEEDED -> s <> SUCCEEDED ->
  unsatisfied (dset statuses h s) X = unsatisfied statuses X.
Proof.
  intros Hh Hs. apply leibniz_equiv. intros d. rewrite !unsatisfied_elem, dget_dset.
  case_decide; naive_solver.
Qed.

Lemma satisfied_mono statuses plan h n :
  satisfied statuses plan n -> satisfied (dset statuses h SUCCEEDED) plan n.
Proof. intros H d Hd. rewrite dget_dset. case_decide; [done|]. by apply H. Qed.

Lemma satisfied_other statuses plan h s n :
  dget statuses h <> Some SUCCEEDED -> s <> SUCCEEDED ->
  satisfied (dset statuses h s) plan n <-> satisfied statuses plan n.
Proof.
  intros Hh Hs. unfold satisfied. split; intros H d Hd; specialize (H d Hd).
  - rewrite dget_dset in H. case_decide; naive_solver.
  - rewrite dget_dset. case_decide; naive_solver.
Qed.

(** The loop of [_queue_satisfied_dependents]. *)
Lemma queue_loop_ok (F : dict (gset string)) (R : dict Z) rd l :
  NoDup l -> (forall n, n ∈ l -> n ∈ dkeys F /\ n ∈ dkeys R) ->
  exists R' new, for_each (queue_dependent F) l (R, rd) = Ok (R', rd ++ new) /\
    dkeys R' = dkeys R /\ NoDup new /\
    (forall n, n ∈ new <-> n ∈ l /\ dget F n = Some ∅ /\ dget R n = Some 1) /\
    forall n, dget R' n = if decide (n ∈ l /\ dget F n = Some ∅)
                          then (fun c => c - 1) <$> dget R n else dget R n.
Proof.
  intros Hnd Hin.
  set (I := fun (done : list string) (acc : dict Z * list string) =>
    exists new, acc.2 = rd ++ new /\ dkeys acc.1 = dkeys R /\ NoDup new /\
    (forall n, n ∈ new <-> n ∈ done /\ dget F n = Some ∅ /\ dget R n = Some 1) /\
    forall n, dget acc.1 n = if decide (n ∈ done /\ dget F n = Some ∅)
                          then (fun c => c - 1) <$> dget R n else dget R n).
  destruct (for_each_inv I (queue_dependent F) l (R, rd)) as ([R' rd'] & Hr & new & Hrd & Hk & Hn & He & Hg).
  - exists []. cbn [fst snd]. rewrite app_nil_r. split_and!; [done..|constructor| |].
    + intros n. rewrite !elem_of_nil. tauto.
    + intros n. rewrite decide_False; [done|]. rewrite elem_of_nil. tauto.
  - intros done x rest [R1 rd1] -> (new & Hrd & Hk & Hn & He & Hg). cbn [fst snd] in *. subst rd1.
    destruct (Hin x) as [HxF HxR]; [set_solver|].
    assert (x ∉ done) as Hxd by (apply NoDup_app in Hnd; set_solver).
    apply dget_is_Some in HxF as [X HX]. apply dget_is_Some in HxR as [c Hc].
    unfold queue_dependent, ditem. rewrite HX. simpl.
    destruct (decide (X = ∅)) as [->|HXne].
    + rewrite bool_decide_eq_true_2 by done. simpl.
      pose proof (Hg x) as Hgx. rewrite decide_False, Hc in Hgx by tauto.
      rewrite Hgx. simpl. eexists. split; [done|].
      exists (if c - 1 =? 0 then new ++ [x] else new). cbn [fst snd]. split_and!.
      * destruct (c - 1 =? 0); [by rewrite app_assoc | done].
      * rewrite dkeys_dset_in; [done|]. rewrite Hk. apply dget_is_Some. eauto.
      * destruct (c - 1 =? 0); [|done]. apply NoDup_app. split; [done|].
        split; [|apply NoDup_singleton]. intros y Hy Hyx. apply list_elem_of_singleton in Hyx as ->.
        apply He in Hy. tauto.
      * intros n. destruct (Z.eqb_spec (c - 1) 0) as [Hz|Hz].
        -- rewrite !elem_of_snoc, He. assert (c = 1) as -> by lia. naive_solver.
        -- rewrite He, elem_of_snoc. assert (c <> 1) by lia. naive_solver.
      * intros n. rewrite dget_dset. case_decide as Hxn.
        -- subst n. rewrite decide_True; [by rewrite Hc|]. rewrite elem_of_snoc. tauto.
        -- rewrite Hg. apply decide_ext. rewrite elem_of_snoc. naive_solver.
    + rewrite bool_decide_eq_false_2 by done. simpl. eexists. split; [done|]. exists new. cbn [fst snd].
      split_and!; [done..| |].
      * intros n. rewrite He, elem_of_snoc. naive_solver.
      * intros n. rewrite Hg. apply decide_ext. rewrite elem_of_snoc. naive_solver.
  - cbn [fst snd] in *. subst rd'. eauto 10.
Qed.

Section Marking.
Context (plan : ExecutionPlan) (st : WorkflowExecutionState) (h : string).
Context (INV : sched_inv plan (Some h) st).

Lemma hole_in_plan : h ∈ plan_node_ids plan.
Proof.
  apply (si_statuses _ _ _ INV). destruct (si_hole _ _ _ INV h eq_refl) as [[H|H] _];
    apply dget_is_Some; eauto.
Qed.

Lemma hole_not_done : dget (statuses st) h <> Some SUCCEEDED /\ dget (statuses st) h <> Some FAILED.
Proof. destruct (si_hole _ _ _ INV h eq_refl) as [[H|H] _]; rewrite H; done. Qed.

(** A node that depends on the hole is still pending. *)
Lemma hole_dependent_pending n : plan_dep plan h n -> dget (statuses st) n = Some PENDING /\ n <> h.
Proof.
  intros Hd. destruct hole_not_done as [Hs _].
  pose proof (proj2 (po_edges _ (si_plan _ _ _ INV) _ _ Hd)) as Hn.
  apply (si_statuses _ _ _ INV), dget_is_Some in Hn as [s Hn]. split.
  - destruct (decide (s = PENDING)) as [->|Hne]; [done|].
    destruct Hs. by apply (si_started _ _ _ INV n s Hn Hne).
  - intros ->. apply Hs. by apply (proj2 (si_hole _ _ _ INV h eq_refl)).
Qed.

(** The counter of a dependent of the hole when its other dependencies are done. *)
Lemma last_dependency n (X : gset string) :
  plan_dep plan h n -> (forall d, d ∈ X <-> plan_dep plan d n) ->
  (dget (failed_dependencies st) n = Some ∅ /\ dget (remaining_dependencies st) n = Some 1) <->
  satisfied (dset (statuses st) h SUCCEEDED) plan n.
Proof.
  intros Hd HXspec. destruct hole_not_done as [Hs Hf].
  pose proof (proj2 (po_edges _ (si_plan _ _ _ INV) _ _ Hd)) as Hn.
  destruct (si_remaining _ _ _ INV n X Hn HXspec) as (c & Hc & Hle & Heq).
  destruct (si_failed _ _ _ INV n Hn) as (F & HF & HFspec).
  assert (h ∈ unsatisfied (statuses st) X) as Hin by (apply unsatisfied_elem; by rewrite HXspec).
  pose proof (size_difference_singleton _ _ Hin) as Hsize.
  rewrite <- unsatisfied_succeeded in Hsize. rewrite HF, Hc. split.
  - intros [[= ->] [= ->]] d Hdd.
    assert (1 = Z.of_nat (size (unsatisfied (statuses st) X))) as H1.
    { apply Heq. intros d' Hd' Hfd'. apply (not_elem_of_empty (C:=gset string) d'), HFspec. done. }
    assert (unsatisfied (dset (statuses st) h SUCCEEDED) X = ∅) as He
      by (apply leibniz_equiv, size_empty_inv; lia).
    destruct (decide (dget (dset (statuses st) h SUCCEEDED) d = Some SUCCEEDED)) as [|Hns]; [done|].
    assert (d ∈ unsatisfied (dset (statuses st) h SUCCEEDED) X) by (apply unsatisfied_elem; by rewrite HXspec).
    set_solver.
  - intros Hsat.
    assert (forall d, plan_dep plan d n -> dget (statuses st) d <> Some FAILED) as Hnf.
    { intros d Hdd Hfd. specialize (Hsat d Hdd). rewrite dget_dset in Hsat. case_decide; naive_solver. }
    split.
    + f_equal. apply leibniz_equiv, elem_of_equiv_empty. intros d [? Hfd]%HFspec. by eapply Hnf.
    + f_equal. rewrite Heq by done.
      assert (unsatisfied (dset (statuses st) h SUCCEEDED) X = ∅) as He.
      { apply leibniz_equiv, elem_of_equiv_empty. intros d [Hns Hdx]%unsatisfied_elem.
        apply Hns, Hsat. by apply HXspec. }
      rewrite He, size_empty in Hsize. lia.
Qed.

(** [_mark_node_succeeded] on the state. *)
Lemma succeeded_state_ok :
  exists st', queue_satisfied_dependents h (with_statuses st (dset (statuses st) h SUCCEEDED)) = Ok st' /\
    sched_inv plan None st' /\ statuses st' = dset (statuses st) h SUCCEEDED /\
    running st' = running st /\ node_errors st' = node_errors st.
Proof.
  destruct hole_not_done as [Hs Hf].
  destruct (si_dependents _ _ _ INV h hole_in_plan) as (l & Hl & Hlnd & Hlspec).
  unfold queue_satisfied_dependents, ditem. simpl. rewrite Hl. simpl.
  destruct (queue_loop_ok (failed_dependencies st) (remaining_dependencies st) (ready st) l)
    as (R & new & -> & HkR & Hnew & Hnewspec & HR); [done| |].
  { intros n Hn. apply Hlspec in Hn. pose proof (proj2 (po_edges _ (si_plan _ _ _ INV) _ _ Hn)) as HnN.
    destruct (si_failed _ _ _ INV n HnN) as (F & HF & _).
    destruct (si_deps _ _ _ INV n HnN) as (X & _ & HX).
    destruct (si_remaining _ _ _ INV n X HnN HX) as (c & Hc & _).
    split; apply dget_is_Some; eauto. }
  simpl.
  assert (forall n, n ∈ new <-> plan_dep plan h n /\ satisfied (dset (statuses st) h SUCCEEDED) plan n) as Hnew'.
  { intros n. rewrite Hnewspec, Hlspec. split; intros [Hd H]; (split; [done|]);
      destruct (si_deps _ _ _ INV n (proj2 (po_edges _ (si_plan _ _ _ INV) _ _ Hd))) as (X & _ & HXs);
      by apply (last_dependency n X Hd HXs). }
  assert (forall n, n ∈ ready st ++ new <-> None <> Some n /\
    dget (dset (statuses st) h SUCCEEDED) n = Some PENDING /\ satisfied (dset (statuses st) h SUCCEEDED) plan n) as Hrd.
  { intros n. rewrite elem_of_app, Hnew', (si_ready _ _ _ INV), dget_dset. split.
    - intros [(Hne & Hp & Hsat)|[Hd Hsat]].
      + rewrite decide_False by congruence. split_and!; [done..|]. by apply satisfied_mono.
      + destruct (hole_dependent_pending n Hd). by rewrite decide_False by done.
    - intros (_ & Hp & Hsat). case_decide as Hn; [done|].
      destruct (decide (n ∈ l)) as [Hnl|Hnl]; [right; split; [by apply Hlspec | done]|].
      left. split_and!; [congruence | done |]. intros d Hd. specialize (Hsat d Hd). rewrite dget_dset in Hsat.
      case_decide; [|done]. subst d. destruct Hnl. by apply Hlspec. }
  destruct (sorted_by_order_ok (node_order st) (ready st ++ new)) as (rd & -> & Hperm & Hsorted).
  { intros x Hx. apply Hrd in Hx as (_ & Hp & _). apply (si_order _ _ _ INV).
    rewrite dget_dset in Hp. case_decide; [done|]. apply (si_statuses _ _ _ INV), dget_is_Some. eauto. }
  simpl. eexists. split; [done|]. split; [|done].
  assert (forall n, n ∈ dkeys (dset (statuses st) h SUCCEEDED) <-> n ∈ plan_node_ids plan) as Hkeys.
  { intros n. rewrite elem_of_dkeys_dset, (si_statuses _ _ _ INV). pose proof hole_in_plan. naive_solver. }
  constructor; simpl; try apply INV; try done.
  - apply NoDup_dkeys_dset, INV.
  - intros n s. rewrite dget_dset. case_decide; [naive_solver|]. apply (si_live _ _ _ INV).
  - intros n Hn. destruct (si_failed _ _ _ INV n Hn) as (F & HF & HFspec). exists F. split; [done|].
    intros d. rewrite HFspec, dget_dset. case_decide; naive_solver.
  - intros n X Hn HXs. destruct (si_remaining _ _ _ INV n X Hn HXs) as (c & Hc & Hle & Heq).
    rewrite HR, Hc, unsatisfied_succeeded.
    destruct (decide (h ∈ unsatisfied (statuses st) X)) as [Hh|Hh].
    + assert (plan_dep plan h n) as Hdep by (apply HXs; by apply unsatisfied_elem in Hh as [_ ?]).
      rewrite size_difference_singleton by done. case_decide as Hcase.
      * exists (c - 1). split; [done|]. split; [lia|]. intros Hnf. rewrite Heq; [done|].
        intros d Hd. specialize (Hnf d Hd). rewrite dget_dset in Hnf. case_decide; [by subst | done].
      * exists c. split; [done|]. split; [lia|]. intros Hnf. exfalso. apply Hcase.
        split; [by apply Hlspec|]. destruct (si_failed _ _ _ INV n Hn) as (F & HF & HFspec).
        rewrite HF. f_equal. apply leibniz_equiv, elem_of_equiv_empty. intros d [Hd Hfd]%HFspec.
        apply (Hnf d Hd). rewrite dget_dset. by rewrite decide_False by congruence.
    + assert (unsatisfied (statuses st) X ∖ {[h]} = unsatisfied (statuses st) X) as -> by set_solver.
      rewrite decide_False.
      * exists c. split; [done|]. split; [lia|]. intros Hnf. apply Heq. intros d Hd.
        specialize (Hnf d Hd). rewrite dget_dset in Hnf. case_decide; [by subst | done].
      * intros [Hd%Hlspec _]. apply Hh, unsatisfied_elem. split; [done|]. by apply HXs.
  - rewrite Hperm. apply NoDup_app. split_and!; [apply INV | | done].
    intros n Hn Hn'. apply (si_ready _ _ _ INV) in Hn as (_ & _ & Hsat). apply Hnew' in Hn' as [Hd _].
    by apply Hs, Hsat.
  - intros n. by rewrite Hperm.
  - intros n. rewrite (si_running _ _ _ INV), dget_dset. case_decide; naive_solver.
  - intros n. rewrite (si_errors _ _ _ INV), dget_dset. case_decide; naive_solver.
  - intros n s. rewrite dget_dset. case_decide as Hn.
    + intros [= <-] _. subst n. apply satisfied_mono. by apply (si_hole _ _ _ INV h).
    + intros Hst Hne. apply satisfied_mono. by eapply (si_started _ _ _ INV).
Qed.

(** [_mark_node_failed] on the state. *)
Lemma failed_state_ok exc :
  exists l F, dget (dependents st) h = Some l /\
    for_each (fun (failed : dict (gset string)) dependent_id =>
             current ← ditem failed dependent_id;
             mret (dset failed dependent_id ({[h]} ∪ current))) l (failed_dependencies st) = Ok F /\
    sched_inv plan None
      (with_failed_dependencies
         (with_node_errors (with_statuses st (dset (statuses st) h FAILED))
            (dset (node_errors st) h exc)) F).
Proof.
  destruct hole_not_done as [Hs Hf].
  destruct (si_dependents _ _ _ INV h hole_in_plan) as (l & Hl & Hlnd & Hlspec). exists l.
  destruct (for_each_update (fun current => {[h]} ∪ current) l (failed_dependencies st))
    as (F & HF & HkF & HFspec); [done| |].
  { intros n Hn. apply Hlspec in Hn.
    destruct (si_failed _ _ _ INV n (proj2 (po_edges _ (si_plan _ _ _ INV) _ _ Hn))) as (X & HX & _).
    apply dget_is_Some. eauto. }
  exists F. split; [done|]. split; [done|].
  assert (forall n, satisfied (dset (statuses st) h FAILED) plan n <-> satisfied (statuses st) plan n) as Hsat
    by (intros; by apply satisfied_other).
  constructor; simpl; try apply INV; try done.
  - intros n. rewrite elem_of_dkeys_dset, (si_statuses _ _ _ INV). pose proof hole_in_plan. naive_solver.
  - apply NoDup_dkeys_dset, INV.
  - intros n s. rewrite dget_dset. case_decide; [naive_solver|]. apply (si_live _ _ _ INV).
  - intros n Hn. destruct (si_failed _ _ _ INV n Hn) as (X & HX & HXs). rewrite HFspec, HX.
    case_decide as Hnl; [exists ({[h]} ∪ X) | exists X]; (split; [done|]); intros d; rewrite dget_dset.
    + rewrite elem_of_union, elem_of_singleton, HXs. apply Hlspec in Hnl. case_decide; naive_solver.
    + rewrite HXs. case_decide; [subst d|done]. rewrite Hlspec in Hnl. naive_solver.
  - intros n X Hn HXs. destruct (si_remaining _ _ _ INV n X Hn HXs) as (c & Hc & Hle & Heq).
    rewrite unsatisfied_other by done. exists c. split_and!; [done..|]. intros Hnf. apply Heq.
    intros d Hd. specialize (Hnf d Hd). rewrite dget_dset in Hnf. case_decide; [by subst | done].
  - intros n. rewrite (si_ready _ _ _ INV), dget_dset, Hsat. case_decide; naive_solver.
  - intros n. rewrite (si_running _ _ _ INV), dget_dset. case_decide; naive_solver.
  - intros n. rewrite elem_of_dkeys_dset, (si_errors _ _ _ INV), dget_dset. case_decide; naive_solver.
  - intros n s. rewrite dget_dset, Hsat. case_decide as Hn.
    + intros _ _. subst n. by apply (si_hole _ _ _ INV h).
    + intros Hst Hne. by eapply (si_started _ _ _ INV).
Qed.

End Marking.

(** ** The session invariant *)

Record session_inv (hole : option string) (s : Session) : Prop := {
  se_state : sched_inv (splan s) hole (state s);
  se_nodes : forall n, n ∈ plan_node_ids (splan s) -> exists node,
               dget (nodes_by_id s) n = Some node /\ node ∈ pnodes (splan s) /\ pn_id node = n;
  se_active : forall n, n ∈ active_nodes (tracker s) <-> dget (statuses (state s)) n = Some RUNNING
}.

(** What every step keeps besides its effect on the state. *)
Definition same_run (s s' : Session) : Prop :=
  splan s' = splan s /\ nodes_by_id s' = nodes_by_id s /\
  max_concurrent_nodes s' = max_concurrent_nodes s /\ waits s' = waits s.

#[global] Instance same_run_preorder : PreOrder same_run.
Proof.
  split; [done|]. intros s1 s2 s3 (A1 & A2 & A3 & A4) (B1 & B2 & B3 & B4). split_and!; congruence.
Qed.

Lemma active_finished t n m : m ∈ active_nodes (mark_node_finished t n) <-> m ∈ active_nodes t /\ m <> n.
Proof.
  unfold mark_node_finished. case_bool_decide; simpl; [rewrite elem_of_difference, elem_of_singleton; done|].
  naive_solver.
Qed.

Lemma active_running t n m : m ∈ active_nodes (mark_node_running t n) <-> m ∈ active_nodes t \/ m = n.
Proof.
  unfold mark_node_running. case_bool_decide; simpl; [naive_solver|].
  rewrite elem_of_union, elem_of_singleton. tauto.
Qed.

(** A node whose end is being recorded: a running one, or a group that is being
    expanded or joined (active only while it joins). *)
Definition hole_active (h : string) (s : Session) : Prop :=
  sched_inv (splan s) (Some h) (state s) /\
  (forall n, n ∈ plan_node_ids (splan s) -> exists node,
     dget (nodes_by_id s) n = Some node /\ node ∈ pnodes (splan s) /\ pn_id node = n) /\
  forall n, n <> h -> n ∈ active_nodes (tracker s) <-> dget (statuses (state s)) n = Some RUNNING.

Lemma mark_node_succeeded_ok h s :
  hole_active h s -> exists s', mark_node_succeeded h s = Ok s' /\ session_inv None s' /\ same_run s s' /\
    statuses (state s') = dset (statuses (state s)) h SUCCEEDED /\
    running (state s') = running (state s) /\ node_errors (state s') = node_errors (state s) /\
    events s' = events s ++ [NODE_FINISHED h].
Proof.
  intros (Hinv & Hnodes & Hact). unfold mark_node_succeeded. simpl.
  destruct (succeeded_state_ok _ _ _ Hinv) as (st' & -> & Hinv' & Hst & Hrun & Herr). simpl.
  eexists. split; [done|]. split; [|done]. constructor; simpl; [done..|].
  intros n. rewrite active_finished, Hst, dget_dset. case_decide; [naive_solver|].
  rewrite Hact by done. naive_solver.
Qed.

Lemma mark_node_failed_ok h exc s :
  hole_active h s -> exists s', mark_node_failed h exc s = Ok s' /\ session_inv None s' /\ same_run s s' /\
    statuses (state s') = dset (statuses (state s)) h FAILED /\
    running (state s') = running (state s) /\ node_errors (state s') = dset (node_errors (state s)) h exc /\
    events s' = events s ++ [NODE_FAILED h (safe_error_message exc)].
Proof.
  intros (Hinv & Hnodes & Hact). unfold mark_node_failed. simpl.
  destruct (failed_state_ok _ _ _ Hinv exc) as (l & F & Hl & HF & Hinv').
  rewrite (proj2 (ditem_Ok (dependents (state s)) h l) Hl). simpl. rewrite HF. simpl.
  eexists. split; [done|]. split; [|done]. constructor; simpl; [done..|].
  intros n. rewrite active_finished, dget_dset. case_decide; [naive_solver|].
  rewrite Hact by done. naive_solver.
Qed.

(** Taking a node out of the running tasks or out of the ready list. *)
Lemma pop_running_hole s h :
  session_inv None s -> h ∈ dkeys (running (state s)) ->
  hole_active h (with_state s (with_running (state s) (ddel (running (state s)) h))).
Proof.
  intros [Hinv Hnodes Hact] Hh. pose proof (proj1 (si_running _ _ _ Hinv h) Hh) as [_ Hrun].
  split; [|split; [done | intros; apply Hact]]. constructor; simpl; try apply Hinv.
  - intros n. rewrite (si_ready _ _ _ Hinv). split; [|naive_solver]. intros (_ & Hp & ?). split; [congruence | done].
  - apply NoDup_dkeys_ddel, Hinv.
  - intros n. rewrite elem_of_dkeys_ddel by apply Hinv. rewrite (si_running _ _ _ Hinv). naive_solver.
  - intros h' [= <-]. split; [by right|]. by eapply (si_started _ _ _ Hinv).
Qed.

(** ** Progress of the statuses *)

(** The transitions of a node's status during scheduling. *)
Definition advances (a b : ExecutionStatus) : bool :=
  match a, b with
  | PENDING, _ => true
  | RUNNING, (RUNNING | SUCCEEDED | FAILED) => true
  | _, _ => bool_decide (a = b)
  end.

Definition progress (S S' : dict ExecutionStatus) : Prop :=
  forall n a, dget S n = Some a -> exists b, dget S' n = Some b /\ advances a b = true.

#[global] Instance progress_preorder : PreOrder progress.
Proof.
  split.
  - intros S n a Hn. exists a. split; [done|]. by destruct a.
  - intros S1 S2 S3 H12 H23 n a Ha. destruct (H12 n a Ha) as (b & Hb & Hab).
    destruct (H23 n b Hb) as (c & Hc & Hbc). exists c. split; [done|].
    by destruct a, b, c.
Qed.

Lemma progress_dset S n a b : dget S n = Some a -> advances a b = true -> progress S (dset S n b).
Proof.
  intros Ha Hab m x Hm. rewrite dget_dset. case_decide; [|exists x; split; [done|]; by destruct x].
  simplify_eq. eauto.
Qed.

Definition is_live (s : ExecutionStatus) : bool := bool_decide (s = PENDING) || bool_decide (s = RUNNING).

(** The nodes that have not ended. *)
Definition live (S : dict ExecutionStatus) : gset string :=
  set_of (map fst (List.filter (fun '(_, s) => is_live s) S)).

Lemma live_elem S n : NoDup (dkeys S) ->
  n ∈ live S <-> dget S n = Some PENDING \/ dget S n = Some RUNNING.
Proof.
  intros Hnd. unfold live. rewrite set_of_elem, elem_of_keys_filter by done. split.
  - intros (s & -> & H). destruct s; naive_solver.
  - intros [->| ->]; eauto.
Qed.

Lemma live_ended S n s : NoDup (dkeys S) -> n ∈ live S -> is_live s = false ->
  Z.of_nat (size (live (dset S n s))) = Z.of_nat (size (live S)) - 1.
Proof.
  intros Hnd Hn Hs. rewrite <- (size_difference_singleton _ n) by done. do 2 f_equal.
  apply leibniz_equiv. intros m. rewrite elem_of_difference, elem_of_singleton, !live_elem, dget_dset by auto with dict.
  case_decide; [|naive_solver]. subst. split; [|naive_solver]. by intros [[= ->]|[= ->]].
Qed.

(** ** Consuming completed tasks *)

Section Steps.
Context {env : SchedulerEnv}.

Definition ended (s : ExecutionStatus) : Prop := s = SUCCEEDED \/ s = FAILED.

Lemma finalize_completed_node_ok n s :
  session_inv None s -> n ∈ dkeys (running (state s)) ->
  exists s' r, finalize_completed_node n s = Ok (s', r) /\ session_inv None s' /\ same_run s s' /\
    progress (statuses (state s)) (statuses (state s')) /\
    running (state s') = ddel (running (state s)) n /\
    Z.of_nat (size (live (statuses (state s')))) = Z.of_nat (size (live (statuses (state s)))) - 1 /\
    (r = None \/ exists t e, dget (running (state s)) n = Some t /\ task_result t = Some e /\
        r = Some e /\ is_expected_execution_failure e = false).
Proof.
  intros Hs Hn. pose proof (pop_running_hole s n Hs Hn) as Hhole.
  pose proof (se_state _ _ Hs) as Hinv.
  destruct (proj1 (si_running _ _ _ Hinv n) Hn) as [_ Hrun].
  pose proof (si_statuses_nodup _ _ _ Hinv) as Hnd.
  assert (n ∈ live (statuses (state s))) as Hlive by (apply live_elem; auto).
  apply dget_is_Some in Hn as [t Ht]. unfold finalize_completed_node, ditem. rewrite Ht. simpl.
  destruct (task_result t) as [e|] eqn:He.
  - destruct (mark_node_failed_ok n e _ Hhole) as (s' & -> & Hs' & Hsame & Hst & Hr & _). simpl.
    do 2 eexists. split; [done|]. rewrite Hst, Hr. split_and!; try done.
    + by eapply progress_dset.
    + by apply live_ended.
    + destruct (is_expected_execution_failure e) eqn:Hexp; [by left|]. right. by exists t, e.
  - destruct (mark_node_succeeded_ok n _ Hhole) as (s' & -> & Hs' & Hsame & Hst & Hr & _). simpl.
    do 2 eexists. split; [done|]. rewrite Hst, Hr. split_and!; try done.
    + by eapply progress_dset.
    + by apply live_ended.
    + by left.
Qed.

End Steps.
