(* ===== verification/SchedulerLoop.v ===== *)
(** The scheduling loop: dispatch, foreach groups, consumption of completed
    tasks and the end of a run, against the interface [SchedulerEnvLaws] of
    what runs outside the scheduler. *)

From Stdlib Require Import ZArith Lia Ascii String.
From stdpp Require Import base gmap sets list strings sorting relations.
From S2P Require Import Prelude PyStr Models Graph Scheduler SchedulerInv.

Open Scope string_scope.
Open Scope list_scope.
Open Scope Z_scope.

(** ** The interface *)

(** What the expansion of group [g] may change in a plan: it adds nodes that
    are not groups, gives [g] further dependencies and records the expansion. *)
Record expansion_ok (P : ExecutionPlan) (g : string) (P' : ExecutionPlan) : Prop := {
  eo_plan : plan_ok P';
  eo_ids : forall n, n ∈ plan_node_ids P -> n ∈ plan_node_ids P';
  eo_groups : forall node, node ∈ pnodes P' -> pn_mode node = Foreach ->
                exists old, old ∈ pnodes P /\ pn_id old = pn_id node /\ pn_mode old = Foreach;
  eo_deps : forall d n, n ∈ plan_node_ids P -> n <> g -> plan_dep P' d n <-> plan_dep P d n;
  eo_gate : forall d, plan_dep P d g -> plan_dep P' d g;
  eo_expansions : forall x, x ∈ expansions P' <-> x ∈ expansions P \/ x = g
}.

(** [asyncio.wait] with [FIRST_COMPLETED] returns a done set with some of the
    tasks it waits for, at least one; an expansion is well formed; neither expansion nor join diverges. *)
Class SchedulerEnvLaws (env : SchedulerEnv) : Prop := {
  wait_first_completed : forall k ts, ts <> [] -> exists t, t ∈ ts /\ wait_done k ts t = true;
  expand_well_formed : forall P g P', plan_ok P -> g ∈ plan_node_ids P -> g ∉ expansions P ->
                         expand_effective P g = Ok P' -> expansion_ok P g P';
  expand_returns : forall P g, expand_effective P g <> OutOfFuel;
  join_returns : forall P g, join_result P g <> OutOfFuel
}.

Section Loop.
Context {env : SchedulerEnv}.

(** ** Consuming completed tasks *)

(** The unexpected failure a run stops with is one of its tasks' results. *)
Definition task_failure (s : Session) (e : exn) : Prop :=
  exists n t, dget (running (state s)) n = Some t /\ task_result t = Some e /\
    is_expected_execution_failure e = false.

Lemma consume_loop_ok s ids :
  session_inv None s -> NoDup ids -> (forall n, n ∈ ids -> n ∈ dkeys (running (state s))) ->
  exists s' r, for_each consume_node ids (s, None) = Ok (s', r) /\ session_inv None s' /\ same_run s s' /\
    progress (statuses (state s)) (statuses (state s')) /\
    (forall n t, dget (running (state s')) n = Some t <-> dget (running (state s)) n = Some t /\ n ∉ ids) /\
    Z.of_nat (size (live (statuses (state s')))) =
      Z.of_nat (size (live (statuses (state s)))) - Z.of_nat (length ids) /\
    (forall e, r = Some e -> task_failure s e).
Proof.
  intros Hs Hnd Hin.
  set (I := fun (done : list string) (acc : Session * option exn) =>
    session_inv None acc.1 /\ same_run s acc.1 /\
    progress (statuses (state s)) (statuses (state acc.1)) /\
    (forall n t, dget (running (state acc.1)) n = Some t <-> dget (running (state s)) n = Some t /\ n ∉ done) /\
    Z.of_nat (size (live (statuses (state acc.1)))) =
      Z.of_nat (size (live (statuses (state s)))) - Z.of_nat (length done) /\
    (forall e, acc.2 = Some e -> task_failure s e)).
  destruct (for_each_inv I consume_node ids (s, None)) as ([s' r] & Hr & HI); [| |exists s', r; by split].
  - split_and!; [done|done|reflexivity| |simpl; lia|done].
    intros n t. split; [|naive_solver]. intros H. split; [done|]. apply not_elem_of_nil.
  - intros done x rest [s1 r1] -> (Hs1 & Hsame & Hpr & Hrun & Hlive & Hr). cbn [fst snd] in *.
    destruct (proj2 (dget_is_Some _ _) (Hin x ltac:(set_solver))) as [t Ht].
    assert (x ∉ done) as Hxd by (apply NoDup_app in Hnd; set_solver).
    assert (dget (running (state s1)) x = Some t) as Ht1 by (by apply Hrun).
    destruct (finalize_completed_node_ok x s1 Hs1) as (s2 & r2 & Hf & Hs2 & Hsame2 & Hpr2 & Hrun2 & Hlive2 & Hr2).
    { apply dget_is_Some. eauto. }
    unfold consume_node. rewrite Hf. simpl. eexists. split; [done|].
    unfold I. cbn [fst snd]. split_and!; [done| |by etrans| | |].
    + by etrans.
    + intros n t'. rewrite Hrun2, elem_of_snoc. destruct (decide (x = n)) as [->|Hne].
      * rewrite dget_ddel_eq by apply (si_running_nodup _ _ _ (se_state _ _ Hs1)). naive_solver.
      * rewrite dget_ddel_ne by done. rewrite Hrun. naive_solver.
    + rewrite length_app. simpl. lia.
    + intros e. destruct Hr2 as [->|(t' & e' & Ht' & He' & -> & Hexp)]; [apply Hr|].
      assert (task_failure s e') as Htf by (exists x, t'; by simplify_eq).
      destruct (_ || _); [by intros [= <-] | apply Hr].
Qed.

Lemma consume_completed_nodes_ok {laws : SchedulerEnvLaws env} s :
  session_inv None s -> running (state s) <> [] ->
  exists s' r, consume_completed_nodes s = Ok (s', r) /\ session_inv None s' /\
    splan s' = splan s /\ max_concurrent_nodes s' = max_concurrent_nodes s /\
    progress (statuses (state s)) (statuses (state s')) /\
    (length (running (state s')) <= length (running (state s)))%nat /\
    Z.of_nat (size (live (statuses (state s')))) < Z.of_nat (size (live (statuses (state s)))) /\
    (forall e, r = Some e -> task_failure s e).
Proof.
  intros Hs Hne. pose proof (se_state _ _ Hs) as Hinv.
  unfold consume_completed_nodes, wait_for_completed_nodes, completed_node_ids.
  set (cand := map fst _).
  assert (forall n, n ∈ cand <-> exists t, dget (running (state s)) n = Some t /\ wait_done (waits s) (map snd (running (state s))) t = true) as Hcand.
  { intros n. unfold cand. apply elem_of_keys_filter, Hinv. }
  destruct (sorted_by_order_ok (node_order (state s)) cand) as (ids & -> & Hperm & _).
  { intros x Hx. apply Hcand in Hx as (t & Ht & _). apply (si_order _ _ _ Hinv), (si_statuses _ _ _ Hinv), dget_is_Some.
    assert (x ∈ dkeys (running (state s))) as Hx by (apply dget_is_Some; eauto).
    apply (si_running _ _ _ Hinv) in Hx as [_ Hx]. eauto. }
  simpl.
  destruct (consume_loop_ok (tick s) ids) as (s' & r & -> & Hs' & Hsame & Hpr & Hrun & Hlive & Hr).
  { destruct Hs. by constructor. }
  { rewrite Hperm. apply NoDup_map_fst_filter, Hinv. }
  { intros n Hn. rewrite Hperm, Hcand in Hn. destruct Hn as (t & Ht & _). apply dget_is_Some. eauto. }
  exists s', r. destruct Hsame as (Hp & Hn & Hm & Hw). split_and!; try done.
  - assert (length (dkeys (running (state s'))) <= length (dkeys (running (state s))))%nat as Hlen.
    { apply submseteq_length, NoDup_submseteq; [apply Hs'|]. intros n Hn'.
      apply dget_is_Some in Hn' as [t Ht]. apply Hrun in Ht as [Ht _]. apply dget_is_Some. eauto. }
    unfold dkeys in Hlen. by rewrite !length_map in Hlen.
  - destruct (wait_first_completed (waits s) (map snd (running (state s)))) as (t & Ht & Hd).
    { by destruct (running (state s)). }
    apply list_elem_of_fmap in Ht as ([n t'] & -> & Ht). apply elem_of_dget in Ht; [|apply Hinv].
    assert (n ∈ ids) as Hn' by (rewrite Hperm, Hcand; eauto).
    change (statuses (state (tick s))) with (statuses (state s)) in Hlive. rewrite Hlive.
    destruct ids; [by apply elem_of_nil in Hn' | simpl; lia].
Qed.

(** ** Dispatch *)

Lemma live_running S n : NoDup (dkeys S) -> dget S n = Some PENDING -> live (dset S n RUNNING) = live S.
Proof.
  intros Hnd Hn. apply leibniz_equiv. intros m. rewrite !live_elem, dget_dset by auto with dict.
  case_decide; naive_solver.
Qed.

Lemma length_dset_new {V} (d : dict V) k v : k ∉ dkeys d -> length (dset d k v) = S (length d).
Proof.
  intros Hk. rewrite <- (length_map fst (dset d k v)), <- (length_map fst d).
  fold (dkeys (dset d k v)). rewrite dkeys_dset_notin by done. rewrite length_app. simpl. unfold dkeys. lia.
Qed.

(** Starting one ready node. *)
Definition start_node (s : Session) (n : string) (node : PreflightNode) (rest : list string) : Session :=
  let st := with_ready (state s) rest in
  let st := with_statuses st (dset (statuses st) n RUNNING) in
  mark_node_running_activity (with_state s (with_running st (dset (running st) n (mkTask node)))) n.

Lemma start_node_ok s n node rest :
  session_inv None s -> ready (state s) = n :: rest -> session_inv None (start_node s n node rest).
Proof.
  intros [Hinv Hnodes Hact] Hready.
  assert (n ∈ ready (state s)) as Hn by (rewrite Hready; left).
  apply (si_ready _ _ _ Hinv) in Hn as (_ & Hp & Hsat).
  assert (forall m, satisfied (dset (statuses (state s)) n RUNNING) (splan s) m <->
                    satisfied (statuses (state s)) (splan s) m) as Hs
    by (intros; apply satisfied_other; [by rewrite Hp | done]).
  pose proof (si_ready_nodup _ _ _ Hinv) as Hnd. rewrite Hready in Hnd. apply NoDup_cons in Hnd as [Hnr Hnd].
  constructor; [|done|].
  - constructor; simpl; try apply Hinv.
    + intros m. rewrite elem_of_dkeys_dset, (si_statuses _ _ _ Hinv).
      assert (n ∈ plan_node_ids (splan s)) by (apply (si_statuses _ _ _ Hinv), dget_is_Some; eauto).
      naive_solver.
    + apply NoDup_dkeys_dset, Hinv.
    + intros m x. rewrite dget_dset. case_decide; [naive_solver|]. apply (si_live _ _ _ Hinv).
    + intros m Hm. destruct (si_failed _ _ _ Hinv m Hm) as (X & HX & HXs). exists X. split; [done|].
      intros d. rewrite HXs, dget_dset. case_decide; naive_solver.
    + intros m X Hm HXs. destruct (si_remaining _ _ _ Hinv m X Hm HXs) as (c & Hc & Hle & Heq).
      rewrite unsatisfied_other by (by rewrite ?Hp). exists c. split_and!; [done..|]. intros Hnf. apply Heq.
      intros d Hd. specialize (Hnf d Hd). rewrite dget_dset in Hnf. case_decide; [subst; by rewrite Hp | done].
    + done.
    + intros m. rewrite dget_dset, Hs. pose proof (si_ready _ _ _ Hinv m) as Hm.
      rewrite Hready, elem_of_cons in Hm. case_decide; naive_solver.
    + pose proof (si_ready_sorted _ _ _ Hinv) as Hso. rewrite Hready in Hso.
      by apply StronglySorted_inv in Hso as [? _].
    + apply NoDup_dkeys_dset, Hinv.
    + intros m. rewrite elem_of_dkeys_dset, (si_running _ _ _ Hinv), dget_dset. case_decide; naive_solver.
    + intros m. rewrite (si_errors _ _ _ Hinv), dget_dset. case_decide; naive_solver.
    + intros m x. rewrite dget_dset, Hs. case_decide; [by subst|]. apply (si_started _ _ _ Hinv).
    + done.
  - intros m. simpl. rewrite active_running, Hact, dget_dset. case_decide; naive_solver.
Qed.

(** The concurrency bound. *)
Definition within_limit (s : Session) : Prop :=
  forall limit, max_concurrent_nodes s = Some limit -> Z.of_nat (length (running (state s))) <= Z.max 0 limit.

Lemma dispatch_ready_ok queue s :
  session_inv None (with_state s (with_ready (state s) queue)) -> within_limit s ->
  exists s', dispatch_ready queue s = Ok s' /\ session_inv None s' /\ same_run s s' /\
    progress (statuses (state s)) (statuses (state s')) /\
    live (statuses (state s')) = live (statuses (state s)) /\ within_limit s' /\
    (ready (state s') = [] \/ has_capacity s' = false).
Proof.
  revert s. induction queue as [|n rest IH]; intros s Hs Hlim; simpl.
  - eexists. split; [done|]. split_and!; try done. by left.
  - destruct (has_capacity s) eqn:Hcap; simpl.
    2: { eexists. split; [done|]. split_and!; try done. by right. }
    assert (n ∈ n :: rest) as Hn by left.
    pose proof (se_state _ _ Hs) as Hinv. apply (si_ready _ _ _ Hinv) in Hn as (_ & Hp & _). simpl in Hp.
    rewrite (proj2 (ditem_Ok (statuses (state s)) n PENDING) Hp). simpl.
    destruct (se_nodes _ _ Hs n) as (node & Hnode & _).
    { apply (si_statuses _ _ _ Hinv), dget_is_Some. eauto. }
    simpl in Hnode. rewrite (proj2 (ditem_Ok (nodes_by_id s) n node) Hnode). simpl.
    assert (n ∉ dkeys (running (state s))) as Hnr.
    { intros Hr. apply (si_running _ _ _ Hinv) in Hr as [_ Hr]. simpl in Hr. congruence. }
    edestruct IH as (s' & -> & Hs' & Hsame & Hpr & Hlive & Hlim' & Hready).
    + exact (start_node_ok _ n node rest Hs eq_refl).
    + intros limit Hl. simpl in Hl |- *. rewrite length_dset_new by done.
      unfold has_capacity in Hcap. rewrite Hl in Hcap. apply Z.ltb_lt in Hcap. lia.
    + exists s'. split; [done|]. split_and!; try done.
      * etrans; [|exact Hpr]. by eapply progress_dset.
      * rewrite Hlive. apply live_running; [apply Hinv | done].
Qed.

(** ** Installing an expanded plan *)

Lemma dget_dict_update {V} (d e : dict V) k :
  NoDup (dkeys e) -> dget (dict_update d e) k = match dget e k with Some v => Some v | None => dget d k end.
Proof.
  unfold dict_update, dkeys. revert d. induction e as [|[k' v] e IH]; intros d Hnd; simpl; [done|].
  apply NoDup_cons in Hnd as [Hk Hnd]. rewrite IH by done. rewrite dget_dset.
  destruct (decide (k = k')) as [->|Hne].
  - rewrite decide_True by done. by rewrite (proj2 (dget_None e k') Hk).
  - by rewrite decide_False by congruence.
Qed.

Lemma NoDup_dict_update {V} (d e : dict V) : NoDup (dkeys d) -> NoDup (dkeys (dict_update d e)).
Proof.
  unfold dict_update. revert d. induction e as [|[k v] e IH]; intros d Hnd; simpl; [done|].
  apply IH. by apply NoDup_dkeys_dset.
Qed.

(** The set comprehension of the failed dependencies. *)
Lemma failed_set_ok (S : dict ExecutionStatus) (l : list string) (acc : gset string) :
  (forall x, x ∈ l -> x ∈ dkeys S) ->
  exists F, for_each (fun (failed : gset string) dependency =>
              status ← ditem S dependency;
              mret (if failed_or_blocked status then {[dependency]} ∪ failed else failed)) l acc = Ok F /\
    forall d, d ∈ F <-> d ∈ acc \/ d ∈ l /\ exists s, dget S d = Some s /\ failed_or_blocked s = true.
Proof.
  revert acc. induction l as [|x l IH]; intros acc Hin; simpl.
  - exists acc. split; [done|]. intros d. rewrite elem_of_nil. tauto.
  - destruct (proj2 (dget_is_Some S x)) as [s Hs]; [apply Hin; left|].
    rewrite (proj2 (ditem_Ok S x s) Hs). simpl.
    edestruct IH as (F & -> & HF); [intros y Hy; apply Hin; by right|].
    exists F. split; [done|]. intros d. rewrite HF, elem_of_cons. clear IH HF Hin.
    destruct (failed_or_blocked s) eqn:Hb.
    + rewrite elem_of_union, elem_of_singleton. split.
      * intros [[->|?]|[? ?]]; [right; split; eauto | by left | right; split; auto].
      * intros [?|[[->|?] ?]]; auto.
    + split; [intros [?|[? ?]]; auto|]. intros [?|[[->|?] (s' & Hs' & Hb')]]; [auto | congruence | eauto].
Qed.

Section Install.
Context (s : Session) (g : string) (P' : ExecutionPlan).
Context (Hs : hole_active g s) (Hg : dget (statuses (state s)) g = Some PENDING).
Context (HP : expansion_ok (splan s) g P').
Context (Hact : forall n, n ∈ active_nodes (tracker s) <-> dget (statuses (state s)) n = Some RUNNING).

Definition succeeded_ids : list string :=
  map fst (List.filter (fun '(_, status) => bool_decide (status = SUCCEEDED)) (statuses (state s))).

Lemma succeeded_ids_elem n : n ∈ succeeded_ids <-> dget (statuses (state s)) n = Some SUCCEEDED.
Proof.
  destruct Hs as (Hinv & _). unfold succeeded_ids. rewrite elem_of_keys_filter by apply Hinv.
  setoid_rewrite bool_decide_eq_true. naive_solver.
Qed.

(** The statuses after the installation: the old ones, and pending new nodes. *)
Definition merged (S' : dict ExecutionStatus) : Prop := forall n,
  dget S' n = match dget (statuses (state s)) n with
              | Some x => Some x
              | None => if decide (n ∈ plan_node_ids P') then Some PENDING else None
              end.

Lemma installed_inv st S' F :
  initial_spec P' succeeded_ids st -> merged S' -> NoDup (dkeys S') ->
  (forall n, n ∈ dkeys S' <-> n ∈ plan_node_ids P') ->
  (forall n, dget S' n = Some SUCCEEDED <-> n ∈ succeeded_ids) ->
  (forall n X, dget (dependencies_by_node st) n = Some X -> exists W, dget F n = Some W /\
     forall d, d ∈ W <-> d ∈ X /\ dget S' d = Some FAILED) ->
  sched_inv P' None
    {| ready := List.filter (fun x => match dget S' x with Some v => bool_decide (v = PENDING) | None => false end) (ready st);
       running := running (state s); statuses := S'; node_errors := node_errors (state s);
       failed_dependencies := F; remaining_dependencies := remaining_dependencies st;
       dependents := dependents st; dependencies_by_node := dependencies_by_node st;
       node_order := node_order st |}.
Proof.
  intros Hspec Hm Hnd Hk Hsucc HF. pose proof Hs as (Hinv & _ & _).
  assert (forall n, n ∈ plan_node_ids P' -> exists X, dget (dependencies_by_node st) n = Some X /\
            forall d, d ∈ X <-> plan_dep P' d n) as Hdeps.
  { intros n Hn. destruct (proj2 (dget_is_Some (dependencies_by_node st) n)) as [X HX].
    { by rewrite (is_deps_keys _ _ _ Hspec). }
    exists X. split; [done|]. by apply (is_deps _ _ _ Hspec). }
  assert (forall n x, dget (statuses (state s)) n = Some x -> dget S' n = Some x) as Hold
    by (intros n x Hn; by rewrite Hm, Hn).
  assert (forall n x, dget S' n = Some x -> x <> PENDING -> dget (statuses (state s)) n = Some x) as Hback.
  { intros n x. rewrite Hm. destruct (dget _ n); [naive_solver|]. case_decide; naive_solver. }
  assert (forall n, satisfied S' P' n <-> forall d, plan_dep P' d n -> d ∈ succeeded_ids) as Hsat.
  { intros n. unfold satisfied. by setoid_rewrite Hsucc. }
  constructor; simpl; try apply Hspec; try apply Hinv; try done.
  - apply HP.
  - intros n x Hn. destruct (decide (x = PENDING)); [by left|].
    by apply (si_live _ _ _ Hinv n x), Hback.
  - intros n Hn. destruct (Hdeps n Hn) as (X & HX & HXs). destruct (HF n X HX) as (W & HW & HWs).
    exists W. split; [done|]. intros d. by rewrite HWs, HXs.
  - intros n X Hn HXs. destruct (Hdeps n Hn) as (Y & HY & HYs).
    assert (X = Y) as -> by (apply leibniz_equiv; intros d; by rewrite HXs, HYs).
    rewrite (is_remaining _ _ _ Hspec n Y HY).
    assert (unsatisfied S' Y = Y ∖ set_of succeeded_ids) as ->; [|eexists; split_and!; done].
    apply leibniz_equiv. intros d. rewrite unsatisfied_elem, elem_of_difference, set_of_elem, Hsucc. tauto.
  - apply NoDup_filter_true, Hspec.
  - intros n. rewrite elem_of_filter_true, (is_ready _ _ _ Hspec), Hsat. split.
    + intros [(Hn & Hns & Hd) Hp]. split_and!; [done| |done].
      destruct (dget S' n); [|done]. apply bool_decide_eq_true in Hp. by subst.
    + intros (_ & Hp & Hd). rewrite Hp. split_and!; [apply Hk, dget_is_Some; eauto | | done | done].
      rewrite <- Hsucc, Hp. done.
  - apply StronglySorted_filter_true, Hspec.
  - intros n. rewrite (si_running _ _ _ Hinv). split.
    + intros [_ Hr]. split; [done|]. by apply Hold.
    + intros [_ Hr]. apply Hback in Hr; [|done]. split; [congruence | done].
  - intros n. rewrite (si_errors _ _ _ Hinv). split; [apply Hold|]. intros Hn. by apply Hback in Hn.
  - intros n x Hn Hx. apply Hback in Hn; [|done]. pose proof (si_started _ _ _ Hinv n x Hn Hx) as Hsn.
    intros d Hd. apply Hold, Hsn. apply (eo_deps _ _ _ HP); [|congruence|done].
    apply (si_statuses _ _ _ Hinv), dget_is_Some. eauto.
Qed.

Lemma install_expanded_plan_ok :
  exists s', install_expanded_plan s P' = Ok s' /\ session_inv None s' /\ splan s' = P' /\
    max_concurrent_nodes s' = max_concurrent_nodes s /\ waits s' = waits s /\
    running (state s') = running (state s) /\ progress (statuses (state s)) (statuses (state s')).
Proof.
  pose proof Hs as (Hinv & Hnodes & _).
  destruct (initialize_ok P' (eo_plan _ _ _ HP) succeeded_ids) as (st & Hst & Hspec).
  { intros r Hr%succeeded_ids_elem. apply (eo_ids _ _ _ HP), (si_statuses _ _ _ Hinv), dget_is_Some. eauto. }
  unfold install_expanded_plan. fold succeeded_ids. rewrite Hst. simpl.
  set (S' := dict_update (statuses st) (statuses (state s))).
  assert (forall n, dget S' n = match dget (statuses (state s)) n with
            | Some x => Some x | None => if decide (n ∈ plan_node_ids P') then Some PENDING else None end) as HS'.
  { intros n. unfold S'. rewrite dget_dict_update by apply Hinv.
    destruct (dget (statuses (state s)) n) eqn:Hn; [done|]. rewrite (is_statuses _ _ _ Hspec).
    case_decide; [|done]. rewrite decide_False; [done|]. rewrite succeeded_ids_elem. congruence. }
  assert (forall n, n ∈ dkeys S' <-> n ∈ plan_node_ids P') as HkS'.
  { intros n. rewrite <- dget_is_Some, HS'. destruct (dget (statuses (state s)) n) eqn:Hn.
    - split; [|eauto]. intros _. apply (eo_ids _ _ _ HP), (si_statuses _ _ _ Hinv), dget_is_Some. eauto.
    - case_decide; split; intros H'; try done; by destruct H'. }
  assert (forall n, dget S' n = Some SUCCEEDED <-> n ∈ succeeded_ids) as Hsucc.
  { intros n. rewrite HS', succeeded_ids_elem. destruct (dget (statuses (state s)) n); [done|].
    case_decide; naive_solver. }
  rewrite for_each_keep.
  2: { intros x Hx. apply (is_ready _ _ _ Hspec) in Hx as [Hx _]. by apply HkS'. }
  simpl.
  destruct (mapM_dict_ok (fun '(node_id, deps) =>
      failed ← for_each (fun (failed : gset string) dependency =>
                 status ← ditem S' dependency;
                 mret (if failed_or_blocked status then {[dependency]} ∪ failed else failed))
                 (elements (deps : gset string)) ∅;
      mret ((node_id, failed) : string * gset string))
      (fun n X F => forall d, d ∈ F <-> d ∈ X /\ dget S' d = Some FAILED) (dependencies_by_node st))
    as (F & -> & HkF & HF).
  { intros n X HnX. apply elem_of_dget in HnX; [|rewrite (is_deps_keys _ _ _ Hspec); apply HP].
    destruct (failed_set_ok S' (elements X) ∅) as (F & -> & HF).
    { intros x Hx%elem_of_elements. apply HkS'. apply (is_deps _ _ _ Hspec n X HnX) in Hx.
      exact (proj1 (po_edges _ (eo_plan _ _ _ HP) _ _ Hx)). }
    exists F. split; [done|]. intros d. rewrite HF, elem_of_elements. split.
    - intros [Hd|(Hd & x & Hx & Hb)]; [by apply not_elem_of_empty in Hd|]. split; [done|].
      rewrite HS' in Hx |- *. destruct (dget (statuses (state s)) d) as [y|] eqn:Hy.
      + destruct (si_live _ _ _ Hinv d y Hy) as [->|[->|[->| ->]]]; simplify_eq; done.
      + case_decide; by simplify_eq.
    - intros [Hd Hf]. right. split; [done|]. by exists FAILED. }
  eexists. split; [done|]. split; [|split_and!; try done].
  2: { intros n a Ha. exists a. simpl. rewrite HS', Ha. split; [done|]. by destruct a. }
  constructor; simpl.
  - apply installed_inv; try done. apply NoDup_dict_update, Hspec.
  - intros n Hn. apply list_elem_of_fmap in Hn as (node & -> & Hn). exists node. split_and!; [|done..].
    apply elem_of_dget; [apply NoDup_dict_of|]. rewrite dict_of_NoDup.
    + apply list_elem_of_fmap. by exists node.
    + rewrite map_map. simpl. apply HP.
  - intros n. rewrite Hact, HS'. destruct (dget (statuses (state s)) n); [done|]. case_decide; naive_solver.
Qed.

End Install.

(** ** Foreach groups *)

Lemma elem_of_list_remove l x y : NoDup l -> y ∈ list_remove l x <-> y ∈ l /\ y <> x.
Proof.
  induction l as [|z l IH]; intros Hnd; simpl; [rewrite elem_of_nil; tauto|].
  apply NoDup_cons in Hnd as [Hz Hnd]. rewrite elem_of_cons. case_decide.
  - subst. split; [intros Hy; split; [by right | by intros ->]|]. naive_solver.
  - rewrite elem_of_cons, IH by done. naive_solver.
Qed.

Lemma list_remove_sublist l x : list_remove l x `sublist_of` l.
Proof. induction l; simpl; [done|]. case_decide; [by constructor | by constructor]. Qed.

Lemma StronglySorted_sublist {A} (R : A -> A -> Prop) l1 l2 :
  l1 `sublist_of` l2 -> StronglySorted R l2 -> StronglySorted R l1.
Proof.
  induction 1 as [|x l1 l2 Hsub IH|x l1 l2 Hsub IH]; intros Hs; [constructor| |];
    apply StronglySorted_inv in Hs as [Hs Hx]; [|auto].
  constructor; [auto|]. apply Forall_forall. intros y Hy. eapply Forall_forall in Hx; [exact Hx|].
  by eapply elem_of_submseteq, sublist_submseteq.
Qed.

(** Taking a group out of the ready list. *)
Lemma take_ready_hole s g :
  session_inv None s -> g ∈ ready (state s) ->
  hole_active g (with_state s (with_ready (state s) (list_remove (ready (state s)) g))).
Proof.
  intros [Hinv Hnodes Hact] Hg. pose proof (proj1 (si_ready _ _ _ Hinv g) Hg) as (_ & Hp & Hsat).
  split; [|split; [done | intros; apply Hact]]. constructor; simpl; try apply Hinv.
  - eapply sublist_NoDup; [apply (si_ready_nodup _ _ _ Hinv) | apply list_remove_sublist].
  - intros n. rewrite elem_of_list_remove by apply Hinv. rewrite (si_ready _ _ _ Hinv). naive_solver.
  - eapply StronglySorted_sublist; [apply list_remove_sublist | apply (si_ready_sorted _ _ _ Hinv)].
  - intros n. rewrite (si_running _ _ _ Hinv). split; [|naive_solver]. intros [_ Hr]. split; [congruence | done].
  - intros h [= <-]. split; [by left | done].
Qed.

(** Groups that have not been expanded. *)
Definition unexpanded (P : ExecutionPlan) : gset string :=
  set_of (map pn_id (List.filter (fun node => bool_decide (pn_mode node = Foreach)) (pnodes P)))
    ∖ set_of (expansions P).

Lemma unexpanded_elem P n :
  n ∈ unexpanded P <-> (exists node, node ∈ pnodes P /\ pn_id node = n /\ pn_mode node = Foreach) /\ n ∉ expansions P.
Proof.
  unfold unexpanded. rewrite elem_of_difference, !set_of_elem, list_elem_of_fmap.
  setoid_rewrite elem_of_filter_true. setoid_rewrite bool_decide_eq_true. naive_solver.
Qed.

Definition before (s' s : Session) : Prop :=
  (size (unexpanded (splan s')) < size (unexpanded (splan s)))%nat \/
  (size (unexpanded (splan s')) = size (unexpanded (splan s)) /\
   (size (live (statuses (state s'))) < size (live (statuses (state s))))%nat).

Lemma before_wf : well_founded before.
Proof.
  intros s. remember (size (unexpanded (splan s))) as u eqn:Hu. revert s Hu.
  induction (lt_wf u) as [u _ IHu]. intros s Hu.
  remember (size (live (statuses (state s)))) as l eqn:Hl. revert s Hu Hl.
  induction (lt_wf l) as [l _ IHl]. intros s Hu Hl. constructor. intros s' [Hlt|[Heq Hlt]].
  - eapply IHu; [|reflexivity]. lia.
  - eapply IHl; [|lia|reflexivity]. lia.
Qed.

Lemma before_trans s1 s2 s3 : before s1 s2 -> before s2 s3 -> before s1 s3.
Proof. unfold before. lia. Qed.

(** The effect of scheduling steps other than the consumption of tasks. *)
Record step_ok (s s' : Session) : Prop := {
  so_inv : session_inv None s';
  so_max : max_concurrent_nodes s' = max_concurrent_nodes s;
  so_running : running (state s') = running (state s);
  so_progress : progress (statuses (state s)) (statuses (state s'))
}.

Lemma marked_step s g s0 s1 st :
  session_inv None s -> g ∈ ready (state s) ->
  same_run s0 s1 -> splan s0 = splan s -> max_concurrent_nodes s0 = max_concurrent_nodes s ->
  statuses (state s1) = dset (statuses (state s)) g st -> is_live st = false ->
  session_inv None s1 -> running (state s1) = running (state s) ->
  step_ok s s1 /\ before s1 s.
Proof.
  intros Hs Hg (Hp & _ & Hm & _) Hp0 Hm0 Hst Hlive Hs1 Hrun. pose proof (se_state _ _ Hs) as Hinv.
  apply (si_ready _ _ _ Hinv) in Hg as (_ & Hg & _). split.
  - constructor; [done | congruence | done |]. rewrite Hst. by eapply progress_dset.
  - right. rewrite Hp, Hp0. split; [done|]. rewrite Hst.
    assert (g ∈ live (statuses (state s))) as Hl by (apply live_elem; [apply Hinv | by left]).
    pose proof (live_ended _ _ st (si_statuses_nodup _ _ _ Hinv) Hl Hlive). lia.
Qed.

Lemma run_ready_group_ok {laws : SchedulerEnvLaws env} s g node :
  session_inv None s -> g ∈ ready (state s) ->
  node ∈ pnodes (splan s) -> pn_id node = g -> pn_mode node = Foreach ->
  (exists s', run_ready_group g s = Ok s' /\ step_ok s s' /\ before s' s) \/
  (exists e, run_ready_group g s = Raise e /\ caught_by_group e = false).
Proof.
  intros Hs Hg Hnode Hid Hmode. pose proof (se_state _ _ Hs) as Hinv.
  pose proof (take_ready_hole s g Hs Hg) as Hhole. pose proof (proj1 (si_ready _ _ _ Hinv g) Hg) as (_ & Hp & _).
  unfold run_ready_group.
  set (s0 := with_state s (with_ready (state s) (list_remove (ready (state s)) g))) in *.
  assert (g ∈ plan_node_ids (splan s)) as HgN by (apply (si_statuses _ _ _ Hinv), dget_is_Some; eauto).
  case_bool_decide as Hexp; simpl.
  - set (s1 := emit_workflow_event _ _).
    assert (hole_active g s1) as H1.
    { destruct Hhole as (H1 & H2 & H3). split; [done|]. split; [done|]. intros n Hn. simpl.
      pose proof (H3 n Hn) as H3n. simpl in H3n. rewrite active_running, H3n. naive_solver. }
    destruct (join_result (splan s) g) as [[]|e|] eqn:Hj; [| |by apply join_returns in Hj].
    + left. destruct (mark_node_succeeded_ok g s1 H1) as (s' & Hm & Hs' & Hsame & Hst & Hr & _).
      exists s'. split; [done|]. by eapply (marked_step s g s1).
    + destruct (caught_by_group e) eqn:Hc; [|right; eauto]. left.
      destruct (mark_node_failed_ok g (NodeExecutionError (exn_str e)) s1 H1) as (s' & Hm & Hs' & Hsame & Hst & Hr & _).
      exists s'. split; [done|]. by eapply (marked_step s g s1).
  - unfold expand_group. change (splan s0) with (splan s).
    destruct (expand_effective (splan s) g) as [P'|e|] eqn:He; simpl; [| |by apply expand_returns in He].
    + pose proof (expand_well_formed _ _ _ (si_plan _ _ _ Hinv) HgN Hexp He) as HP.
      destruct (install_expanded_plan_ok s0 g P' Hhole Hp HP) as (s' & Hin & Hs' & HP' & Hm & _ & Hr & Hpr).
      { intros n. apply (se_active _ _ Hs). }
      left. exists s'. rewrite Hin. split; [done|]. split; [by constructor|]. left. rewrite HP'.
      apply subset_size. split.
      * intros n. rewrite !unexpanded_elem, (eo_expansions _ _ _ HP). intros [(nd & Hnd & Hn & Hmd) Hx].
        destruct (eo_groups _ _ _ HP nd Hnd Hmd) as (old & Ho & Hoid & Hom). split; [exists old; split_and!; [done|congruence|done]|].
        naive_solver.
      * intros Hsub. assert (g ∈ unexpanded P') as Hgu.
        { apply Hsub, unexpanded_elem. eauto 10. }
        apply unexpanded_elem in Hgu as [_ Hgu]. apply Hgu, (eo_expansions _ _ _ HP). by right.
    + destruct (caught_by_group e) eqn:Hc; [|right; eauto]. left.
      destruct (mark_node_failed_ok g (NodeExecutionError (exn_str e)) s0 Hhole) as (s' & Hm & Hs' & Hsame & Hst & Hr & _).
      exists s'. split; [done|]. by eapply (marked_step s g s0).
Qed.

Lemma next_group_ok s ids :
  session_inv None s -> (forall n, n ∈ ids -> n ∈ plan_node_ids (splan s)) ->
  next_group (nodes_by_id s) ids = Ok None \/
  exists g node, next_group (nodes_by_id s) ids = Ok (Some g) /\ g ∈ ids /\
    node ∈ pnodes (splan s) /\ pn_id node = g /\ pn_mode node = Foreach.
Proof.
  intros Hs. induction ids as [|n ids IH]; intros Hin; simpl; [by left|].
  destruct (se_nodes _ _ Hs n) as (node & Hnode & Hn & Hid); [apply Hin; left|].
  rewrite (proj2 (ditem_Ok (nodes_by_id s) n node) Hnode). simpl. case_bool_decide as Hm.
  - right. exists n, node. split_and!; try done. left.
  - destruct IH as [IH|(g & nd & IH & Hg & ?)]; [intros; apply Hin; by right | by left|].
    right. exists g, nd. split; [done|]. split; [by right | done].
Qed.

Lemma ready_in_plan s n : session_inv None s -> n ∈ ready (state s) -> n ∈ plan_node_ids (splan s).
Proof.
  intros Hs Hn. pose proof (se_state _ _ Hs) as Hinv. apply (si_ready _ _ _ Hinv) in Hn as (_ & Hp & _).
  apply (si_statuses _ _ _ Hinv), dget_is_Some. eauto.
Qed.

#[local] Instance step_ok_trans : Transitive step_ok.
Proof.
  intros s1 s2 s3 [A1 A2 A3 A4] [B1 B2 B3 B4]. constructor; [done | congruence | congruence | by etrans].
Qed.

(** Enough fuel makes [_run_ready_groups] return, or raise an exception that is
    neither [OSError] nor [ValueError]. *)
Lemma run_ready_groups_ok {laws : SchedulerEnvLaws env} s :
  session_inv None s ->
  exists k, (exists s', step_ok s s' /\ (s' = s \/ before s' s) /\
                next_group (nodes_by_id s') (ready (state s')) = Ok None /\
                forall fuel, (k <= fuel)%nat -> run_ready_groups fuel s = Ok s') \/
            (exists e, caught_by_group e = false /\ forall fuel, (k <= fuel)%nat -> run_ready_groups fuel s = Raise e).
Proof.
  induction (before_wf s) as [s _ IH]. intros Hs.
  destruct (next_group_ok s (ready (state s)) Hs) as [Hg|(g & node & Hg & Hgr & Hnode & Hid & Hm)].
  { intros n Hn. by apply ready_in_plan. }
  - exists 1%nat. left. exists s. split; [by constructor|]. split; [by left|]. split; [done|].
    intros [|fuel] Hf; [lia|]. simpl. by rewrite Hg.
  - destruct (run_ready_group_ok s g node Hs Hgr Hnode Hid Hm) as [(s1 & Hrun & Hok & Hb)|(e & Hrun & Hc)].
    + destruct (IH s1 Hb) as (k & [(s' & Hok' & Hb' & Hng & Hk)|(e & Hc & Hk)]); [apply Hok| |]; exists (S k).
      * left. exists s'. split; [by etrans|].
        split; [right; destruct Hb' as [->|Hb']; [done | by eapply before_trans]|]. split; [done|].
        intros [|fuel] Hf; [lia|]. simpl. rewrite Hg. simpl. rewrite Hrun. simpl. apply Hk. lia.
      * right. exists e. split; [done|]. intros [|fuel] Hf; [lia|]. simpl. rewrite Hg. simpl. rewrite Hrun. simpl.
        apply Hk. lia.
    + exists 1%nat. right. exists e. split; [done|]. intros [|fuel] Hf; [lia|]. simpl. rewrite Hg. simpl. by rewrite Hrun.
Qed.

(** One call of [_schedule_ready_nodes]. *)
Record scheduled (s s' : Session) : Prop := {
  sc_inv : session_inv None s';
  sc_max : max_concurrent_nodes s' = max_concurrent_nodes s;
  sc_limit : within_limit s';
  sc_progress : progress (statuses (state s)) (statuses (state s'));
  sc_before : before s' s \/ splan s' = splan s /\ live (statuses (state s')) = live (statuses (state s));
  sc_dispatched : ready (state s') = [] \/ has_capacity s' = false
}.

Lemma with_ready_self s : with_state s (with_ready (state s) (ready (state s))) = s.
Proof. by destruct s as [? ? [] ? ? ? ?]. Qed.

Lemma schedule_ready_nodes_ok {laws : SchedulerEnvLaws env} s :
  session_inv None s -> within_limit s ->
  exists k, (exists s', scheduled s s' /\ forall fuel, (k <= fuel)%nat -> schedule_ready_nodes fuel s = Ok s') \/
            (exists e, caught_by_group e = false /\ forall fuel, (k <= fuel)%nat -> schedule_ready_nodes fuel s = Raise e).
Proof.
  intros Hs Hlim. destruct (run_ready_groups_ok s Hs) as (k & [(s1 & Hok & Hb & _ & Hk)|(e & Hc & Hk)]); exists k.
  - left. destruct (dispatch_ready_ok (ready (state s1)) s1) as (s' & Hd & Hs' & Hsame & Hpr & Hlive & Hlim' & Hready).
    { rewrite with_ready_self. apply Hok. }
    { intros limit Hl. rewrite (so_running _ _ Hok). apply Hlim. by rewrite <- (so_max _ _ Hok). }
    destruct Hsame as (Hp & _ & Hmax & _). exists s'. split.
    + constructor; try done; [by rewrite Hmax, (so_max _ _ Hok) | etrans; [apply Hok | done] |].
      unfold before in *. rewrite Hp, Hlive. destruct Hb as [->|Hb]; [by right | by left].
    + intros fuel Hf. unfold schedule_ready_nodes. rewrite Hk by done. exact Hd.
  - right. exists e. split; [done|]. intros fuel Hf. unfold schedule_ready_nodes. by rewrite Hk.
Qed.

(** ** The whole loop *)

(** The state a normal end of the loop leaves. *)
Record quiescent (s s' : Session) : Prop := {
  qu_inv : session_inv None s';
  qu_progress : progress (statuses (state s)) (statuses (state s'));
  qu_running : running (state s') = [];
  qu_ready : (forall limit, max_concurrent_nodes s = Some limit -> 0 < limit) -> ready (state s') = []
}.

Definition unexpected_task_failure (e : exn) : Prop :=
  is_expected_execution_failure e = false /\ exists t, task_result t = Some e.

Lemma idle_capacity s : running (state s) = [] -> has_capacity s = false ->
  exists limit, max_concurrent_nodes s = Some limit /\ limit <= 0.
Proof.
  unfold has_capacity. intros ->. destruct (max_concurrent_nodes s) as [limit|]; [|done].
  intros H%Z.ltb_ge. simpl in H. eauto.
Qed.

Lemma run_scheduling_loop_ok {laws : SchedulerEnvLaws env} s :
  session_inv None s -> within_limit s ->
  exists k out, (forall fuel, (k <= fuel)%nat -> run_scheduling_loop fuel s = out) /\
    ((exists s', out = Ok (s', None) /\ quiescent s s') \/
     (exists s' e, out = Ok (s', Some e) /\ unexpected_task_failure e /\ session_inv None s' /\
        progress (statuses (state s)) (statuses (state s'))) \/
     (exists e, out = Raise e /\ caught_by_group e = false)).
Proof.
  induction (before_wf s) as [s _ IH]. intros Hs Hlim.
  destruct (decide (ready (state s) = [] /\ running (state s) = [])) as [[Hr Hq]|Hbusy].
  { exists 1%nat, (Ok (s, None)). split; [|left; by exists s].
    intros [|fuel] Hf; [lia|]. simpl. by rewrite Hr, Hq. }
  assert (bool_decide (ready (state s) = []) && bool_decide (running (state s) = []) = false) as Hguard.
  { apply not_true_is_false. intros [?%bool_decide_eq_true ?%bool_decide_eq_true]%andb_true_iff. auto. }
  destruct (schedule_ready_nodes_ok s Hs Hlim) as (k & [(s1 & Hok & Hk)|(e & Hc & Hk)]).
  2: { exists (S k), (Raise e). split; [|right; right; eauto].
       intros [|fuel] Hf; [lia|]. simpl. rewrite Hguard. by rewrite Hk by lia. }
  destruct (decide (running (state s1) = [])) as [Hq|Hne].
  { exists (S k), (Ok (s1, None)). split.
    - intros [|fuel] Hf; [lia|]. simpl. rewrite Hguard, Hk by lia. simpl. by rewrite bool_decide_eq_true_2.
    - left. exists s1. split; [done|]. constructor; [apply Hok | apply Hok | done |]. intros Hpos.
      destruct (sc_dispatched _ _ Hok) as [|Hcap]; [done|].
      destruct (idle_capacity s1 Hq Hcap) as (limit & Hl & Hle). rewrite (sc_max _ _ Hok) in Hl.
      apply Hpos in Hl. lia. }
  destruct (consume_completed_nodes_ok s1 (sc_inv _ _ Hok) Hne)
    as (s2 & r & Hcon & Hs2 & Hp2 & Hm2 & Hpr2 & Hlen & Hlive & Hr).
  assert (progress (statuses (state s)) (statuses (state s2))) as Hpr by (etrans; [apply Hok | done]).
  destruct r as [e|].
  { exists (S k), (Ok (s2, Some e)). split.
    - intros [|fuel] Hf; [lia|]. simpl. rewrite Hguard, Hk by lia. simpl. rewrite bool_decide_eq_false_2 by done.
      by rewrite Hcon.
    - right. left. exists s2, e. split_and!; try done.
      destruct (Hr e eq_refl) as (n & t & _ & Ht & He). split; [done|]. eauto. }
  assert (before s2 s) as Hb.
  { assert (before s2 s1) as Hb1 by (right; rewrite Hp2; split; [done | lia]).
    destruct (sc_before _ _ Hok) as [Hb|[HpE HlE]]; [by eapply before_trans|].
    unfold before in *. by rewrite HpE, HlE in Hb1. }
  destruct (IH s2 Hb Hs2) as (k2 & out & Hk2 & Hout).
  { intros limit Hl. rewrite Hm2 in Hl. pose proof (sc_limit _ _ Hok limit Hl). lia. }
  exists (S (k `max` k2)), out. split.
  - intros [|fuel] Hf; [lia|]. simpl. rewrite Hguard, Hk by lia. simpl. rewrite bool_decide_eq_false_2 by done.
    rewrite Hcon. simpl. apply Hk2. lia.
  - destruct Hout as [(s' & -> & Hq)|[(s' & e & -> & He & Hi & Hp')|He]]; [left|right; left|by right; right].
    + exists s'. split; [done|]. destruct Hq as [Q1 Q2 Q3 Q4]. constructor; [done | by etrans | done |].
      intros Hpos. apply Q4. intros limit. rewrite Hm2, (sc_max _ _ Hok). apply Hpos.
    + exists s', e. split_and!; try done. by etrans.
Qed.

End Loop.
