(* ===== verification/SchedulerSpec.v ===== *)
(** What the scheduler promises to a workflow: the theorems about
    [initialize_session], [run_scheduling_loop] and [finalize_execution]. *)

From Stdlib Require Import ZArith Lia Ascii String.
From stdpp Require Import base gmap sets list strings sorting relations.
From S2P Require Import Prelude PyStr Models Graph Scheduler SchedulerInv SchedulerLoop.

Open Scope string_scope.
Open Scope list_scope.
Open Scope Z_scope.

(** Resumed nodes carry their dependencies with them. *)
Definition resumed_closed (plan : ExecutionPlan) (resumed : list string) : Prop :=
  (forall r, r ∈ resumed -> r ∈ plan_node_ids plan) /\
  forall d n, n ∈ resumed -> plan_dep plan d n -> d ∈ resumed.

(** The initial state satisfies the invariant. *)
Lemma initial_inv plan resumed st :
  plan_ok plan -> resumed_closed plan resumed -> initial_spec plan resumed st -> sched_inv plan None st.
Proof.
  intros Hp [Hin Hcl] Hspec.
  assert (forall n, dget (statuses st) n = Some SUCCEEDED <-> n ∈ resumed) as Hsucc.
  { intros n. rewrite (is_statuses _ _ _ Hspec). repeat case_decide; naive_solver. }
  assert (forall n s, dget (statuses st) n = Some s -> s = PENDING \/ s = SUCCEEDED) as Hps.
  { intros n s. rewrite (is_statuses _ _ _ Hspec). repeat case_decide; naive_solver. }
  constructor; try apply Hspec; try done.
  - intros n. rewrite <- dget_is_Some, (is_statuses _ _ _ Hspec). case_decide; split; try done.
  - intros n s Hs. destruct (Hps n s Hs); tauto.
  - intros n Hn. rewrite <- (is_deps_keys _ _ _ Hspec) in Hn. apply dget_is_Some in Hn as [X HX].
    exists X. split; [done|]. by apply (is_deps _ _ _ Hspec).
  - intros n Hn. exists ∅. split; [by apply Hspec|]. intros d. split; [intros H; by apply not_elem_of_empty in H|].
    intros [_ Hf]. destruct (Hps _ _ Hf); congruence.
  - intros n X Hn HX. assert (Hk := Hn). rewrite <- (is_deps_keys _ _ _ Hspec) in Hk.
    apply dget_is_Some in Hk as [Y HY].
    assert (X = Y) as -> by (apply leibniz_equiv; intros d; by rewrite HX, (is_deps _ _ _ Hspec n Y HY)).
    rewrite (is_remaining _ _ _ Hspec n Y HY).
    assert (unsatisfied (statuses st) Y = Y ∖ set_of resumed) as ->; [|eexists; split_and!; done].
    apply leibniz_equiv. intros d. rewrite unsatisfied_elem, elem_of_difference, set_of_elem, Hsucc. tauto.
  - intros n. rewrite (is_ready _ _ _ Hspec). unfold satisfied. setoid_rewrite Hsucc.
    rewrite (is_statuses _ _ _ Hspec). repeat case_decide; naive_solver.
  - rewrite (is_running _ _ _ Hspec). constructor.
  - intros n. rewrite (is_running _ _ _ Hspec). split; [intros H; by apply elem_of_nil in H|].
    intros [_ Hr]. destruct (Hps _ _ Hr); congruence.
  - intros n. rewrite (is_errors _ _ _ Hspec). split; [intros H; by apply elem_of_nil in H|].
    intros Hr. destruct (Hps _ _ Hr); congruence.
  - intros n s Hs Hne. destruct (Hps n s Hs) as [->| ->]; [done|].
    intros d Hd. apply Hsucc. eapply Hcl; [|done]. by apply Hsucc.
Qed.

Lemma initialize_session_ok plan resumed limit :
  plan_ok plan -> resumed_closed plan resumed ->
  exists s, initialize_session plan resumed limit = Ok s /\ session_inv None s /\ within_limit s /\
    splan s = plan /\ max_concurrent_nodes s = limit /\
    forall n, dget (statuses (state s)) n = if decide (n ∈ plan_node_ids plan)
      then Some (if decide (n ∈ resumed) then SUCCEEDED else PENDING) else None.
Proof.
  intros Hp Hcl. destruct (initialize_ok plan Hp resumed) as (st & Hst & Hspec); [apply Hcl|].
  unfold initialize_session. rewrite Hst. simpl. eexists. split; [done|].
  pose proof (initial_inv _ _ _ Hp Hcl Hspec) as Hinv.
  split_and!; [|intros l _; simpl; rewrite (is_running _ _ _ Hspec); simpl; lia|done|done|apply Hspec].
  constructor; simpl; [done| |].
  - intros n Hn. apply list_elem_of_fmap in Hn as (node & -> & Hn). exists node. split_and!; [|done..].
    apply elem_of_dget; [apply NoDup_dict_of|]. rewrite dict_of_NoDup.
    + apply list_elem_of_fmap. by exists node.
    + rewrite map_map. simpl. apply Hp.
  - intros n. split; [intros H; by apply not_elem_of_empty in H|]. intros Hr.
    rewrite (is_statuses _ _ _ Hspec) in Hr. repeat case_decide; naive_solver.
Qed.

(** ** Reachable sessions *)

(** The sessions the loop goes through: after [_schedule_ready_nodes] and after
    [_consume_completed_nodes]. *)
Inductive reachable {env : SchedulerEnv} (s0 : Session) : Session -> Prop :=
| reach_start : reachable s0 s0
| reach_schedule s s' fuel : reachable s0 s -> schedule_ready_nodes fuel s = Ok s' -> reachable s0 s'
| reach_consume s s' r : reachable s0 s -> running (state s) <> [] ->
    consume_completed_nodes s = Ok (s', r) -> reachable s0 s'.

Section Reachable.
Context {env : SchedulerEnv} {laws : SchedulerEnvLaws env}.

Lemma run_ready_groups_fuel fuel fuel' s s' :
  run_ready_groups fuel s = Ok s' -> (fuel <= fuel')%nat -> run_ready_groups fuel' s = Ok s'.
Proof.
  revert fuel' s. induction fuel as [|fuel IH]; intros [|fuel'] s; simpl; [done|done|lia|].
  intros H Hle. destruct (next_group (nodes_by_id s) (ready (state s))) as [[g|]| |]; simpl in *; try done.
  destruct (run_ready_group g s); simpl in *; try done. apply IH; [done | lia].
Qed.

Lemma schedule_scheduled fuel s s' :
  session_inv None s -> within_limit s -> schedule_ready_nodes fuel s = Ok s' -> scheduled s s'.
Proof.
  intros Hs Hlim Hrun. destruct (schedule_ready_nodes_ok s Hs Hlim) as (k & Hk).
  assert (schedule_ready_nodes (fuel `max` k) s = Ok s') as Hmax.
  { unfold schedule_ready_nodes in *. inv_ok. rewrite (run_ready_groups_fuel fuel _ s a) by (done || lia). done. }
  destruct Hk as [(s1 & Hok & Hk)|(e & _ & Hk)]; rewrite Hk in Hmax by lia; [|done].
  by simplify_eq.
Qed.

Lemma reachable_ok s0 s :
  session_inv None s0 -> within_limit s0 -> reachable s0 s ->
  session_inv None s /\ within_limit s /\ max_concurrent_nodes s = max_concurrent_nodes s0 /\
  progress (statuses (state s0)) (statuses (state s)).
Proof.
  intros H0 Hl0. induction 1 as [|s s' fuel _ (Hs & Hl & Hm & Hpr) Hrun|s s' r _ (Hs & Hl & Hm & Hpr) Hne Hcon].
  - split_and!; try done.
  - pose proof (schedule_scheduled fuel s s' Hs Hl Hrun) as Hok.
    split_and!; [apply Hok | apply Hok | by rewrite (sc_max _ _ Hok) | etrans; [done | apply Hok]].
  - destruct (consume_completed_nodes_ok s Hs Hne) as (s1 & r1 & Hcon' & Hs1 & _ & Hm1 & Hpr1 & Hlen & _).
    rewrite Hcon in Hcon'. simplify_eq. split_and!; [done | | congruence | by etrans].
    intros limit Hlim. rewrite Hm1 in Hlim. specialize (Hl limit Hlim). lia.
Qed.

(** ** Claims about the running workflow *)

(** C4 (invariant): In every session the scheduling loop reaches from a new one, a node that has
    started (or ended) has all its dependencies SUCCEEDED, the tasks in flight are exactly the RUNNING
    nodes and no more than max_concurrent_nodes, and the ready list is exactly the pending nodes whose
    dependencies have all succeeded, in execution order: no node starts early and no wakeup is lost.
    Definitions: initialize_session, schedule_ready_nodes, consume_completed_nodes, queue_satisfied_dependents, mark_node_failed. *)
Theorem scheduler_reachable_invariant (plan : ExecutionPlan) (resumed : list string) (limit : option Z)
    (s0 s : Session) :
  plan_ok plan -> resumed_closed plan resumed ->
  initialize_session plan resumed limit = Ok s0 -> reachable s0 s ->
  (forall n st d, dget (statuses (state s)) n = Some st -> st <> PENDING -> plan_dep (splan s) d n ->
     dget (statuses (state s)) d = Some SUCCEEDED) /\
  (forall n, n ∈ dkeys (running (state s)) <-> dget (statuses (state s)) n = Some RUNNING) /\
  (forall l, limit = Some l -> Z.of_nat (length (running (state s))) <= Z.max 0 l) /\
  (forall n, n ∈ ready (state s) <-> dget (statuses (state s)) n = Some PENDING /\
     forall d, plan_dep (splan s) d n -> dget (statuses (state s)) d = Some SUCCEEDED) /\
  StronglySorted (order_le (node_order (state s))) (ready (state s)).
Proof.
  intros Hp Hcl Hinit Hreach.
  destruct (initialize_session_ok plan resumed limit Hp Hcl) as (s0' & Hi & Hs0 & Hl0 & _ & Hmax & _).
  rewrite Hinit in Hi. simplify_eq.
  destruct (reachable_ok s0' s Hs0 Hl0 Hreach) as (Hs & Hl & Hm & _). pose proof (se_state _ _ Hs) as Hinv.
  split_and!.
  - intros n st d Hn Hne Hd. by eapply (si_started _ _ _ Hinv).
  - intros n. rewrite (si_running _ _ _ Hinv). naive_solver.
  - intros l Hlim. apply Hl. congruence.
  - intros n. rewrite (si_ready _ _ _ Hinv). unfold satisfied. naive_solver.
  - apply Hinv.
Qed.

End Reachable.

(** ** The end of a run *)

(** The whole scheduling of a workflow, from a compiled plan to the outcome of
    [finalize_execution]; an unexpected failure of the loop propagates.
    Code: runtime/execution/workflow/orchestration.py:30-50. *)
Definition run_workflow {env : SchedulerEnv} (fuel : nat) (plan : ExecutionPlan)
    (resumed_node_ids : list string) (limit : option Z) : outcome (Session * outcome unit) :=
  s ← initialize_session plan resumed_node_ids limit;
  '(s, unexpected) ← run_scheduling_loop fuel s;
  match unexpected with
  | Some exc => mret (s, Raise exc)
  | None => finalize_execution s
  end.

Lemma unsatisfied_dependencies_ok (S : dict ExecutionStatus) (D : dict (gset string)) n X :
  dget D n = Some X -> (forall d, d ∈ X -> d ∈ dkeys S) ->
  exists l, unsatisfied_dependencies n S D = Ok l.
Proof.
  intros HX Hin. unfold unsatisfied_dependencies. rewrite (proj2 (ditem_Ok D n X) HX). simpl.
  destruct (for_each_inv (fun (_ : list string) (_ : list string) => True)
    (fun (kept : list string) dependency => status ← ditem S dependency;
       mret (if bool_decide (status = SUCCEEDED) then kept else kept ++ [dependency])) (elements X) [])
    as (l & Hl & _); [done| |exists l; exact Hl].
  intros seen x rest kept Hsplit _. assert (x ∈ dkeys S) as Hx.
  { apply Hin, elem_of_elements. rewrite Hsplit. set_solver. }
  apply dget_is_Some in Hx as [s Hs]. rewrite (proj2 (ditem_Ok S x s) Hs). simpl. eauto.
Qed.

Lemma mapM_total {A B} (f : A -> outcome B) l :
  (forall x, x ∈ l -> exists y, f x = Ok y) -> exists l', mapM f l = Ok l'.
Proof.
  induction l as [|x l IH]; intros H; [by exists []|].
  destruct (H x) as [y Hy]; [left|]. destruct IH as [l' Hl']; [intros; apply H; by right|].
  exists (y :: l'). simpl. rewrite Hy. simpl. by rewrite Hl'.
Qed.

(** The dependencies of every node are recorded and known. *)
Definition deps_known (ids : list string) (s : Session) : Prop :=
  forall n, n ∈ ids -> exists X, dget (dependencies_by_node (state s)) n = Some X /\
    forall d, d ∈ X -> d ∈ dkeys (statuses (state s)).

Lemma block_nodes_ok ids s :
  deps_known ids s ->
  exists s', for_each block_node ids s = Ok s' /\ splan s' = splan s /\
    node_errors (state s') = node_errors (state s) /\
    dependencies_by_node (state s') = dependencies_by_node (state s) /\
    (forall n, n ∈ dkeys (statuses (state s)) -> n ∈ dkeys (statuses (state s'))) /\
    forall n, dget (statuses (state s')) n = if decide (n ∈ ids) then Some BLOCKED else dget (statuses (state s)) n.
Proof.
  revert s. induction ids as [|x ids IH]; intros s Hk; simpl.
  - exists s. by split_and!.
  - assert (exists s1, block_node s x = Ok s1 /\ splan s1 = splan s /\
      state s1 = with_statuses (state s) (dset (statuses (state s)) x BLOCKED)) as (s1 & -> & Hp1 & Hs1).
    { destruct (Hk x) as (X & HX & HXs); [left|]. unfold block_node. simpl.
      destruct (unsatisfied_dependencies_ok (dset (statuses (state s)) x BLOCKED) _ x X HX) as (l & ->); [|eauto].
      intros d Hd. apply elem_of_dkeys_dset. right. auto. }
    simpl. destruct (IH s1) as (s' & -> & Hp & He & Hd & Hkeys & Hst).
    { intros n Hn. destruct (Hk n) as (Y & HY & HYs); [by right|]. exists Y. rewrite Hs1. split; [done|].
      intros d Hd. apply elem_of_dkeys_dset. right. auto. }
    rewrite Hs1 in He, Hd, Hkeys, Hst. simpl in He, Hd, Hkeys, Hst.
    exists s'. split_and!; try congruence.
    + intros n Hn. apply Hkeys, elem_of_dkeys_dset. by right.
    + intros n. rewrite Hst, dget_dset. destruct (decide (n ∈ ids)).
      * by rewrite decide_True by (by right).
      * destruct (decide (x = n)) as [->|]; [by rewrite decide_True by left|].
        rewrite decide_False; [done|]. rewrite elem_of_cons. naive_solver.
Qed.

(** Names for the facts about a finished run. *)
Definition all_succeeded (s : Session) : Prop :=
  forall n, n ∈ plan_node_ids (splan s) -> dget (statuses (state s)) n = Some SUCCEEDED.

Definition failed_ancestor (s : Session) (n : string) : Prop :=
  exists a, tc (plan_dep (splan s)) a n /\ dget (statuses (state s)) a = Some FAILED.

(** A quiescent session: each pending node has a failed ancestor. *)
Lemma pending_failed_ancestor s n :
  session_inv None s -> running (state s) = [] -> ready (state s) = [] ->
  dget (statuses (state s)) n = Some PENDING -> failed_ancestor s n.
Proof.
  intros Hs Hrun Hready Hn. pose proof (se_state _ _ Hs) as Hinv.
  set (pend := map fst (List.filter (fun '(_, st) => bool_decide (st = PENDING)) (statuses (state s)))).
  assert (forall m, m ∈ pend <-> dget (statuses (state s)) m = Some PENDING) as Hpend.
  { intros m. unfold pend. rewrite elem_of_keys_filter by apply Hinv. setoid_rewrite bool_decide_eq_true. naive_solver. }
  apply (acyclic_reaches (plan_dep (splan s)) _ pend); [by apply Hpend | | apply Hinv].
  intros x Hx%Hpend. assert (x ∈ plan_node_ids (splan s)) as HxN
    by (apply (si_statuses _ _ _ Hinv), dget_is_Some; eauto).
  destruct (si_deps _ _ _ Hinv x HxN) as (X & _ & HX).
  destruct (decide (unsatisfied (statuses (state s)) X = ∅)) as [He|Hne].
  - exfalso. apply (not_elem_of_nil x). rewrite <- Hready. apply (si_ready _ _ _ Hinv).
    split_and!; [done..|]. intros d Hd.
    destruct (decide (dget (statuses (state s)) d = Some SUCCEEDED)) as [|Hd']; [done|].
    exfalso. apply (not_elem_of_empty (C:=gset string) d). rewrite <- He. apply unsatisfied_elem.
    split; [done|]. by apply HX.
  - apply set_choose_L in Hne as [d Hd]. apply unsatisfied_elem in Hd as [Hns Hd]. apply HX in Hd.
    exists d. split; [done|]. pose proof (proj1 (po_edges _ (si_plan _ _ _ Hinv) _ _ Hd)) as HdN.
    apply (si_statuses _ _ _ Hinv), dget_is_Some in HdN as [st Hst].
    destruct (si_live _ _ _ Hinv d st Hst) as [->|[->|[->| ->]]]; [right; by apply Hpend| |done|by left].
    exfalso. assert (d ∈ dkeys (running (state s))) as Hr by (by apply (si_running _ _ _ Hinv)).
    rewrite Hrun in Hr. by apply elem_of_nil in Hr.
Qed.

(** Ancestors of a node that started have all succeeded. *)
Lemma started_ancestors s n st a :
  session_inv None s -> dget (statuses (state s)) n = Some st -> st <> PENDING ->
  tc (plan_dep (splan s)) a n -> dget (statuses (state s)) a = Some SUCCEEDED.
Proof.
  intros Hs Hn Hst Htc. pose proof (se_state _ _ Hs) as Hinv. revert st Hn Hst.
  induction Htc as [a n Hd|a b n Hd Htc IH]; intros st Hn Hst.
  - by eapply (si_started _ _ _ Hinv).
  - specialize (IH st Hn Hst). by eapply (si_started _ _ _ Hinv b SUCCEEDED).
Qed.

Lemma failure_details_ok errors blocked D S :
  (forall n, n ∈ blocked -> exists X, dget D n = Some X /\ forall d, d ∈ X -> d ∈ dkeys S) ->
  exists m, build_workflow_failure_details errors blocked D S = Ok m.
Proof.
  intros Hb. unfold build_workflow_failure_details.
  edestruct (mapM_total (fun node_id => exc ← ditem errors node_id;
    mret ("- failed: " +:+ node_id +:+ " (" +:+ exn_str exc +:+ ")")) (sorted_str (dkeys errors))) as (l1 & ->).
  { intros x Hx. rewrite elem_of_sorted_str in Hx. apply dget_is_Some in Hx as [e He].
    rewrite (proj2 (ditem_Ok errors x e) He). simpl. eauto. }
  simpl.
  edestruct (mapM_total (fun node_id => unsatisfied ← unsatisfied_dependencies node_id S D;
    mret ("- blocked: " +:+ node_id +:+ " (unsatisfied dependencies: "
          +:+ str_join ", " unsatisfied +:+ ")")) (sorted_str blocked)) as (l2 & ->); [|simpl; eauto].
  intros x Hx. rewrite elem_of_sorted_str in Hx. destruct (Hb x Hx) as (X & HX & HXs).
  destruct (unsatisfied_dependencies_ok S D x X HX HXs) as (l & ->). simpl. eauto.
Qed.

(** The two ways [finalize_execution] ends a quiescent run. *)
Definition finished (s : Session) (r : outcome unit) : Prop :=
  (r = Ok tt /\ all_succeeded s) \/
  (exists m, r = Raise (WorkflowExecutionError m)) /\
  (exists n, n ∈ plan_node_ids (splan s) /\ dget (statuses (state s)) n = Some FAILED) /\
  (forall n, n ∈ plan_node_ids (splan s) ->
     (dget (statuses (state s)) n = Some SUCCEEDED \/ dget (statuses (state s)) n = Some FAILED \/
      dget (statuses (state s)) n = Some BLOCKED) /\
     (dget (statuses (state s)) n = Some BLOCKED <-> failed_ancestor s n)).

(** The part of [finished] about a failed run, from the statuses alone. *)
Lemma blocked_statuses s s' :
  session_inv None s -> running (state s) = [] -> ready (state s) = [] -> splan s' = splan s ->
  (forall n, dget (statuses (state s')) n =
     if decide (dget (statuses (state s)) n = Some PENDING) then Some BLOCKED else dget (statuses (state s)) n) ->
  forall n, n ∈ plan_node_ids (splan s) ->
     (dget (statuses (state s')) n = Some SUCCEEDED \/ dget (statuses (state s')) n = Some FAILED \/
      dget (statuses (state s')) n = Some BLOCKED) /\
     (dget (statuses (state s')) n = Some BLOCKED <-> failed_ancestor s' n).
Proof.
  intros Hs Hrun Hready Hp Hst n Hn. pose proof (se_state _ _ Hs) as Hinv.
  assert (failed_ancestor s' n <-> failed_ancestor s n) as ->.
  { unfold failed_ancestor. rewrite Hp. setoid_rewrite Hst.
    split; intros (a & Ha & Hf); exists a; (split; [done|]); case_decide; naive_solver. }
  rewrite Hst. apply (si_statuses _ _ _ Hinv), dget_is_Some in Hn as [x Hx]. rewrite Hx.
  assert (x <> PENDING -> ~ failed_ancestor s n) as Hno.
  { intros Hne (a & Ha & Hf). rewrite (started_ancestors s n x a Hs Hx Hne Ha) in Hf. done. }
  destruct (si_live _ _ _ Hinv n x Hx) as [->|[->|[->| ->]]].
  - rewrite decide_True by done. split; [tauto|]. split; [|done]. intros _. by apply pending_failed_ancestor.
  - exfalso. assert (n ∈ dkeys (running (state s))) as Hr by (by apply (si_running _ _ _ Hinv)).
    rewrite Hrun in Hr. by apply elem_of_nil in Hr.
  - rewrite decide_False by congruence. split; [tauto|]. split; [congruence|]. intros Hf. by destruct Hno.
  - rewrite decide_False by congruence. split; [tauto|]. split; [congruence|]. intros Hf. by destruct Hno.
Qed.

Lemma finalize_execution_ok s :
  session_inv None s -> running (state s) = [] -> ready (state s) = [] ->
  exists s' r, finalize_execution s = Ok (s', r) /\ splan s' = splan s /\ finished s' r.
Proof.
  intros Hs Hrun Hready. pose proof (se_state _ _ Hs) as Hinv.
  unfold finalize_execution, mark_blocked_nodes.
  set (blocked := map fst _).
  assert (forall n, n ∈ blocked <-> dget (statuses (state s)) n = Some PENDING) as Hbl.
  { intros n. unfold blocked. rewrite elem_of_keys_filter by apply Hinv. setoid_rewrite bool_decide_eq_true. naive_solver. }
  assert (deps_known blocked s) as Hk.
  { intros n Hn%Hbl. destruct (si_deps _ _ _ Hinv n) as (X & HX & HXs).
    { apply (si_statuses _ _ _ Hinv), dget_is_Some. eauto. }
    exists X. split; [done|]. intros d Hd%HXs. apply (si_statuses _ _ _ Hinv).
    exact (proj1 (po_edges _ (si_plan _ _ _ Hinv) _ _ Hd)). }
  destruct (block_nodes_ok blocked s Hk) as (s' & -> & Hp & He & Hd & Hkeys & Hst). simpl.
  eexists _, _. split; [done|]. split; [done|].
  assert (forall n, dget (statuses (state s')) n =
     if decide (dget (statuses (state s)) n = Some PENDING) then Some BLOCKED else dget (statuses (state s)) n) as Hst'.
  { intros n. rewrite Hst. by apply decide_ext. }
  pose proof (blocked_statuses s s' Hs Hrun Hready Hp Hst') as Hall.
  unfold raise_if_workflow_failed. rewrite He, Hp, Hd.
  destruct (bool_decide (dkeys (node_errors (state s)) = []) && bool_decide (blocked = [])) eqn:Hb.
  - left. apply andb_true_iff in Hb as [Herr%bool_decide_eq_true Hbn%bool_decide_eq_true]. split; [done|].
    intros n Hn. rewrite Hp in Hn. destruct (Hall n Hn) as [[?|[Hf|Hblk]] _]; [done| |].
    + rewrite Hst' in Hf. case_decide; [done|]. exfalso. apply (not_elem_of_nil n). rewrite <- Herr.
      by apply (si_errors _ _ _ Hinv).
    + rewrite Hst' in Hblk. case_decide as Hpd; [|].
      * exfalso. apply (not_elem_of_nil n). rewrite <- Hbn. by apply Hbl.
      * by destruct (si_live _ _ _ Hinv n _ Hblk) as [?|[?|[?|?]]].
  - right. destruct (failure_details_ok (node_errors (state s)) blocked (dependencies_by_node (state s))
      (statuses (state s'))) as (m & ->).
    { intros n Hn. destruct (Hk n Hn) as (X & HX & HXs). exists X. split; [done|]. intros d Hdx. auto. }
    simpl. split; [eauto|]. split; [|rewrite Hp; apply Hall].
    assert (exists a, dget (statuses (state s)) a = Some FAILED) as (a & Ha).
    { apply andb_false_iff in Hb as [Hb|Hb]; apply bool_decide_eq_false in Hb.
      - destruct (dkeys (node_errors (state s))) as [|a l] eqn:Hl; [done|]. exists a.
        apply (si_errors _ _ _ Hinv). rewrite Hl. left.
      - destruct blocked as [|a l] eqn:Hl; [done|].
        destruct (pending_failed_ancestor s a Hs Hrun Hready) as (b & _ & Hf); [|eauto].
        apply Hbl. left. }
    exists a. rewrite Hp. split; [apply (si_statuses _ _ _ Hinv), dget_is_Some; eauto|].
    rewrite Hst'. by rewrite decide_False by congruence.
Qed.

(** ** A plan whose execution order is topological is well formed *)

Definition ordered_edge (plan : ExecutionPlan) (e : DependencyEdge) : bool :=
  bool_decide (source_node e ∈ plan_node_ids plan) && bool_decide (target_node e ∈ plan_node_ids plan) &&
  (order_of (enumerate_order (execution_order plan)) (source_node e) <?
   order_of (enumerate_order (execution_order plan)) (target_node e)).

Lemma plan_ok_by_order plan :
  NoDup (plan_node_ids plan) -> forallb (ordered_edge plan) (dependency_graph plan) = true -> plan_ok plan.
Proof.
  intros Hnd Hall. rewrite forallb_forall in Hall.
  apply (plan_ok_by_rank plan (order_of (enumerate_order (execution_order plan)))); [done|].
  intros d n (e & He & <- & <-). apply list_elem_of_In in He. apply Hall in He.
  unfold ordered_edge in He. rewrite !andb_true_iff, !bool_decide_eq_true, Z.ltb_lt in He. tauto.
Qed.

(** ** An example: a diamond in which one branch fails *)

Definition example_plan : ExecutionPlan := {|
  workflow_name := "diamond";
  pnodes := [mkPNode "a" Sequential []; mkPNode "b" Sequential ["a"]; mkPNode "c" Parallel ["a"];
             mkPNode "d" Sequential ["b"; "c"]; mkPNode "e" Sequential ["c"]];
  execution_order := ["a"; "b"; "c"; "d"; "e"];
  dependency_graph := [mkEdge "a" "b" None; mkEdge "a" "c" None; mkEdge "b" "d" None;
                       mkEdge "c" "d" None; mkEdge "c" "e" (Some "output")];
  expansions := [] |}.

(** One task in flight completes at a wait, the one that started first; "b" fails. *)
Definition example_env : SchedulerEnv := {|
  task_result := fun t => if bool_decide (pn_id (task_node t) = "b")
                          then Some (NodeExecutionError "provider failed") else None;
  wait_done := fun _ ts t => bool_decide (pn_id <$> (task_node <$> head ts) = Some (pn_id (task_node t)));
  expand_effective := fun _ _ => Raise (ValueError "no template");
  join_result := fun _ _ => Raise (ValueError "no template") |}.

#[local] Instance example_laws : SchedulerEnvLaws example_env.
Proof. constructor; try done. intros k [|t ts] Hne; [done|]. exists t. split; [left | by apply bool_decide_eq_true]. Qed.

Lemma example_plan_ok : plan_ok example_plan.
Proof. apply plan_ok_by_order; [apply (bool_decide_unpack _); vm_compute; exact I | vm_compute; reflexivity]. Qed.

Lemma example_resumed : resumed_closed example_plan ["a"].
Proof.
  split; [intros r Hr; apply list_elem_of_singleton in Hr as ->; left|].
  intros d n Hn (e & He & <- & Ht). apply list_elem_of_singleton in Hn as ->.
  exfalso. apply list_elem_of_In in He. simpl in He.
  repeat destruct He as [<-|He]; by try discriminate Ht.
Qed.

Definition example_session : Session :=
  match initialize_session example_plan ["a"] (Some 2) with
  | Ok s => s
  | _ => mkSession example_plan [] (mkState [] [] [] [] [] [] [] [] []) None (mkTracker ∅ 0) [] 0
  end.

(** The session after the first [_schedule_ready_nodes]. *)
Definition example_scheduled : Session :=
  match @schedule_ready_nodes example_env 5 example_session with Ok s => s | _ => example_session end.

Lemma example_session_eq : initialize_session example_plan ["a"] (Some 2) = Ok example_session.
Proof. vm_compute. reflexivity. Qed.

Lemma example_scheduled_eq : @schedule_ready_nodes example_env 5 example_session = Ok example_scheduled.
Proof. vm_compute. reflexivity. Qed.

Lemma scheduler_reachable_witness :
  dget (statuses (state example_scheduled)) "b" = Some RUNNING /\
  (forall d, plan_dep (splan example_scheduled) d "b" -> dget (statuses (state example_scheduled)) d = Some SUCCEEDED) /\
  Z.of_nat (length (running (state example_scheduled))) <= 2.
Proof.
  destruct (@scheduler_reachable_invariant example_env example_laws example_plan ["a"] (Some 2)
              example_session example_scheduled example_plan_ok example_resumed example_session_eq
              (@reach_schedule example_env example_session example_session example_scheduled 5
                 (@reach_start example_env example_session) example_scheduled_eq)) as (Hdeps & _ & Hlim & _ & _).
  assert (dget (statuses (state example_scheduled)) "b" = Some RUNNING) as Hb by (vm_compute; reflexivity).
  split; [exact Hb|]. split; [|exact (Hlim 2 eq_refl)]. intros d Hd. exact (Hdeps "b" RUNNING d Hb ltac:(discriminate) Hd).
Defined.

Section Claims.
Context {env : SchedulerEnv} {laws : SchedulerEnvLaws env}.

(** C5 (termination): With a positive concurrency limit, scheduling a well formed plan terminates, for
    every behaviour of the tasks.  Unless an unexpected exception stops it, it returns normally exactly
    when every node SUCCEEDED, and otherwise raises WorkflowExecutionError with each node SUCCEEDED,
    FAILED or BLOCKED, where the BLOCKED nodes are exactly those with a FAILED ancestor.
    Definitions: run_workflow, run_scheduling_loop, finalize_execution, mark_blocked_nodes, raise_if_workflow_failed. *)
Theorem workflow_run_terminates (plan : ExecutionPlan) (resumed : list string) (limit : option Z) :
  plan_ok plan -> resumed_closed plan resumed -> (forall l, limit = Some l -> 0 < l) ->
  exists k out, (forall fuel, (k <= fuel)%nat -> run_workflow fuel plan resumed limit = out) /\
    ((exists s r, out = Ok (s, r) /\ finished s r) \/
     (exists s e, out = Ok (s, Raise e) /\ unexpected_task_failure e) \/
     (exists e, out = Raise e /\ caught_by_group e = false)).
Proof.
  intros Hp Hcl Hpos. unfold run_workflow.
  destruct (initialize_session_ok plan resumed limit Hp Hcl) as (s0 & -> & Hs0 & Hl0 & _ & Hm & _). simpl.
  destruct (run_scheduling_loop_ok s0 Hs0 Hl0) as (k & out & Hk & Hout). exists k.
  destruct Hout as [(s & -> & Hq)|[(s & e & -> & He & _)|(e & -> & He)]].
  - destruct (finalize_execution_ok s) as (s' & r & Hf & _ & Hfin); [apply Hq.. | |].
    { apply Hq. rewrite Hm. exact Hpos. }
    exists (Ok (s', r)). split; [|left; eauto]. intros fuel Hfu. rewrite Hk by done. exact Hf.
  - exists (Ok (s, Raise e)). split; [|right; left; eauto]. intros fuel Hfu. by rewrite Hk.
  - exists (Raise e). split; [|right; right; eauto]. intros fuel Hfu. by rewrite Hk.
Qed.

End Claims.

Lemma workflow_run_witness :
  exists k out, (forall fuel, (k <= fuel)%nat -> @run_workflow example_env fuel example_plan ["a"] (Some 2) = out) /\
    ((exists s r, out = Ok (s, r) /\ finished s r) \/
     (exists s e, out = Ok (s, Raise e) /\ @unexpected_task_failure example_env e) \/
     (exists e, out = Raise e /\ caught_by_group e = false)).
Proof.
  apply (@workflow_run_terminates example_env example_laws example_plan ["a"] (Some 2)
           example_plan_ok example_resumed).
  intros l [= <-]. lia.
Defined.

(** The example run: "b" fails, "d" is blocked, "e" still runs. *)
Example example_run :
  (p ← @run_workflow example_env 10 example_plan ["a"] (Some 2); mret (statuses (state p.1), p.2)) =
  Ok ([("a", SUCCEEDED); ("b", FAILED); ("c", SUCCEEDED); ("d", BLOCKED); ("e", SUCCEEDED)],
      Raise (WorkflowExecutionError ("Workflow 'diamond' failed:" +:+ lf_str +:+
        "- failed: b (provider failed)" +:+ lf_str +:+ "- blocked: d (unsatisfied dependencies: b)"))).
Proof. vm_compute. reflexivity. Qed.

(** ** Failure evidence *)

Section Evidence.
Context {env : SchedulerEnv} {laws : SchedulerEnvLaws env}.

Lemma finalize_raises n s s' r t :
  finalize_completed_node n s = Ok (s', r) -> dget (running (state s)) n = Some t ->
  r = match task_result t with
      | Some e => if is_expected_execution_failure e then None else Some e
      | None => None
      end.
Proof.
  intros H Ht. unfold finalize_completed_node in H. rewrite (proj2 (ditem_Ok _ n t) Ht) in H. simpl in H.
  destruct (task_result t) as [e|]; inv_ok; by simplify_eq.
Qed.

Lemma unconfirmed_unexpected e :
  unconfirmed_process_cleanup e = true -> is_expected_execution_failure e = false.
Proof. unfold is_expected_execution_failure. by intros ->. Qed.

Definition unconfirmed_result (s : Session) (ids : list string) : Prop :=
  exists n t e, n ∈ ids /\ dget (running (state s)) n = Some t /\ task_result t = Some e /\
    unconfirmed_process_cleanup e = true.

Lemma consume_unconfirmed ids s r0 s' r :
  session_inv None s -> NoDup ids -> (forall n, n ∈ ids -> n ∈ dkeys (running (state s))) ->
  for_each consume_node ids (s, r0) = Ok (s', r) ->
  (exists e, r0 = Some e /\ unconfirmed_process_cleanup e = true) \/ unconfirmed_result s ids ->
  exists e, r = Some e /\ unconfirmed_process_cleanup e = true.
Proof.
  revert s r0. induction ids as [|x ids IH]; intros s r0 Hs Hnd Hin Hrun Hev; simpl in Hrun.
  - injection Hrun as <- <-. destruct Hev as [|(n & t & e & Hn & _)]; [done|]. by apply elem_of_nil in Hn.
  - apply NoDup_cons in Hnd as [Hx Hnd].
    destruct (finalize_completed_node_ok x s Hs) as (s1 & r1 & Hf & Hs1 & _ & _ & Hr1 & _); [apply Hin; left|].
    destruct (proj2 (dget_is_Some _ _) (Hin x ltac:(left))) as [t Ht].
    pose proof (finalize_raises x s s1 r1 t Hf Ht) as Hres.
    unfold consume_node at 1 in Hrun. rewrite Hf in Hrun. simpl in Hrun.
    assert (forall n, n ∈ ids -> dget (running (state s1)) n = dget (running (state s)) n) as Hsame.
    { intros n Hn. rewrite Hr1. apply dget_ddel_ne. intros ->. done. }
    apply (IH s1 _ Hs1 Hnd) in Hrun; [done| |].
    { intros n Hn. apply dget_is_Some. rewrite Hsame by done. apply dget_is_Some, Hin. by right. }
    destruct Hev as [(e & -> & He)|(n & t' & e & Hn & Ht' & Hte & He)].
    + left. destruct r1 as [e1|]; [|eauto]. destruct (unconfirmed_process_cleanup e1) eqn:Hu.
      * rewrite orb_true_r. eauto.
      * rewrite orb_false_r, bool_decide_eq_false_2 by done. eauto.
    + apply elem_of_cons in Hn as [->|Hn].
      * left. simplify_eq. rewrite Hte, (unconfirmed_unexpected e He), He, orb_true_r. eauto.
      * right. exists n, t', e. rewrite Hsame by done. done.
Qed.

(** C6 (error): When several tasks complete together and one of them ended without confirming that its
    provider process was cleaned up, the exception the loop raises is such an unconfirmed-cleanup error:
    the evidence is never masked by another unexpected failure.
    Definitions: consume_completed_nodes, consume_node, finalize_completed_node, is_expected_execution_failure. *)
Theorem unconfirmed_cleanup_not_masked (plan : ExecutionPlan) (resumed : list string) (limit : option Z)
    (s0 s s' : Session) (r : option exn) (n : string) (t : Task) (e : exn) :
  plan_ok plan -> resumed_closed plan resumed ->
  initialize_session plan resumed limit = Ok s0 -> reachable s0 s ->
  consume_completed_nodes s = Ok (s', r) ->
  dget (running (state s)) n = Some t -> wait_done (waits s) (map snd (running (state s))) t = true -> task_result t = Some e ->
  unconfirmed_process_cleanup e = true ->
  exists e', r = Some e' /\ unconfirmed_process_cleanup e' = true.
Proof.
  intros Hp Hcl Hinit Hreach Hcon Hn Hd He Hu.
  destruct (initialize_session_ok plan resumed limit Hp Hcl) as (s0' & Hi & Hs0 & Hl0 & _).
  rewrite Hinit in Hi. simplify_eq. destruct (reachable_ok s0' s Hs0 Hl0 Hreach) as (Hs & _).
  pose proof (se_state _ _ Hs) as Hinv.
  unfold consume_completed_nodes, wait_for_completed_nodes, completed_node_ids in Hcon.
  set (cand := map fst _) in Hcon.
  assert (forall m, m ∈ cand <-> exists u, dget (running (state s)) m = Some u /\ wait_done (waits s) (map snd (running (state s))) u = true) as Hc.
  { intros m. unfold cand. apply elem_of_keys_filter, Hinv. }
  destruct (sorted_by_order_ok (node_order (state s)) cand) as (ids & Hids & Hperm & _).
  { intros x Hx. apply Hc in Hx as (u & Hxu & _). apply (si_order _ _ _ Hinv), (si_statuses _ _ _ Hinv), dget_is_Some.
    assert (x ∈ dkeys (running (state s))) as Hx by (apply dget_is_Some; eauto).
    apply (si_running _ _ _ Hinv) in Hx as [_ Hx]. eauto. }
  rewrite Hids in Hcon. simpl in Hcon. eapply consume_unconfirmed; [| | |exact Hcon|right].
  - destruct Hs. by constructor.
  - rewrite Hperm. apply NoDup_map_fst_filter, Hinv.
  - intros m Hm. rewrite Hperm, Hc in Hm. destruct Hm as (u & Hm & _). apply dget_is_Some. eauto.
  - exists n, t, e. split_and!; [|done..]. rewrite Hperm, Hc. eauto.
Qed.

End Evidence.

(** Two nodes fail together; only the second one carries the evidence. *)
Definition example_drain_env : SchedulerEnv := {|
  task_result := fun t => if bool_decide (pn_id (task_node t) = "b") then Some (RuntimeError "boom")
                          else if bool_decide (pn_id (task_node t) = "c")
                          then Some (UnconfirmedCleanupError "process still alive") else None;
  wait_done := fun _ _ _ => true;
  expand_effective := fun _ _ => Raise (ValueError "no template");
  join_result := fun _ _ => Raise (ValueError "no template") |}.

#[local] Instance example_drain_laws : SchedulerEnvLaws example_drain_env.
Proof. constructor; try done. intros k [|t ts] Hne; [done|]. exists t. split; [left | done]. Qed.

Definition example_consumed : Session * option exn :=
  match @consume_completed_nodes example_drain_env example_scheduled with
  | Ok p => p | _ => (example_scheduled, None) end.

Lemma example_consumed_eq :
  @consume_completed_nodes example_drain_env example_scheduled = Ok (example_consumed.1, example_consumed.2).
Proof. vm_compute. reflexivity. Qed.

Lemma example_drain_scheduled_eq :
  @schedule_ready_nodes example_drain_env 5 example_session = Ok example_scheduled.
Proof. vm_compute. reflexivity. Qed.

Lemma unconfirmed_cleanup_witness :
  exists e', example_consumed.2 = Some e' /\ unconfirmed_process_cleanup e' = true.
Proof.
  apply (@unconfirmed_cleanup_not_masked example_drain_env example_drain_laws example_plan ["a"] (Some 2)
           example_session example_scheduled example_consumed.1 example_consumed.2 "c"
           (mkTask (mkPNode "c" Parallel ["a"])) (UnconfirmedCleanupError "process still alive")
           example_plan_ok example_resumed example_session_eq
           (@reach_schedule example_drain_env example_session example_session example_scheduled 5
              (@reach_start example_drain_env example_session) example_drain_scheduled_eq)
           example_consumed_eq); vm_compute; reflexivity.
Defined.

(** ** Statuses only move forward *)

Section Forward.
Context {env : SchedulerEnv} {laws : SchedulerEnvLaws env}.

(** Between any two points of the scheduling loop, including the installation of expanded
    foreach plans in between, no node is forgotten, a RUNNING node never becomes PENDING again, and a
    SUCCEEDED or FAILED status never changes: every node is dispatched at most once. *)
Theorem node_status_moves_forward (plan : ExecutionPlan) (resumed : list string) (limit : option Z)
    (s0 s s' : Session) (n : string) (a : ExecutionStatus) :
  plan_ok plan -> resumed_closed plan resumed ->
  initialize_session plan resumed limit = Ok s0 -> reachable s0 s -> reachable s s' ->
  dget (statuses (state s)) n = Some a ->
  exists b, dget (statuses (state s')) n = Some b /\
    (a = RUNNING -> b <> PENDING) /\ (a = SUCCEEDED \/ a = FAILED -> b = a).
Proof.
  intros Hp Hcl Hinit H1 H2 Ha.
  destruct (initialize_session_ok plan resumed limit Hp Hcl) as (s0' & Hi & Hs0 & Hl0 & _).
  rewrite Hinit in Hi. simplify_eq. destruct (reachable_ok s0' s Hs0 Hl0 H1) as (Hs & Hl & _).
  destruct (reachable_ok s s' Hs Hl H2) as (_ & _ & _ & Hpr).
  destruct (Hpr n a Ha) as (b & Hb & Hab). exists b. split; [done|]. destruct a, b; naive_solver.
Qed.

End Forward.

Lemma node_status_forward_witness :
  exists b, dget (statuses (state example_consumed.1)) "b" = Some b /\
    (RUNNING = RUNNING -> b <> PENDING) /\ (RUNNING = SUCCEEDED \/ RUNNING = FAILED -> b = RUNNING).
Proof.
  apply (@node_status_moves_forward example_drain_env example_drain_laws example_plan ["a"] (Some 2)
           example_session example_scheduled example_consumed.1 "b" RUNNING
           example_plan_ok example_resumed example_session_eq
           (@reach_schedule example_drain_env example_session example_session example_scheduled 5
              (@reach_start example_drain_env example_session) example_drain_scheduled_eq)).
  - eapply (@reach_consume example_drain_env); [apply (@reach_start example_drain_env) | | exact example_consumed_eq].
    vm_compute. discriminate.
  - vm_compute. reflexivity.
Defined.
