(* ===== verification/Usage.v ===== *)
(** Token usage and configured cost of one provider invocation:
    runtime/agent/usage.py, runtime/agent/usage_costs.py and the usage records
    of architecture/contracts/invocation.py.

    Prices and costs are exact rationals; the rounding of the program's floats
    is not modelled.  Text is measured in characters of an ASCII string. *)

From Stdlib Require Import ZArith Lia Ascii String QArith Qminmax Lqa.
From stdpp Require Import base gmap sets list strings.
From S2P Require Import Prelude PyStr.

Open Scope string_scope.
Open Scope list_scope.
Open Scope Z_scope.

(** ** Records *)

(** Code: architecture/contracts/invocation.py, TokenBucket. *)
Inductive TokenBucket : Type :=
| BInput | BCachedInput | BCacheWrite | BOutput | BReasoning | BTotal.

#[global] Instance TokenBucket_eq_dec : EqDecision TokenBucket.
Proof. solve_decision. Defined.

(** Code: architecture/contracts/invocation.py, TOKEN_BUCKETS. *)
Definition TOKEN_BUCKETS : list TokenBucket :=
  [BInput; BCachedInput; BCacheWrite; BOutput; BReasoning; BTotal].

(** Provider-reported counts per bucket, [None] when unknown; [as_dict] is
    application to a bucket.
    Code: architecture/contracts/invocation.py, ProviderTokenUsage. *)
Record ProviderTokenUsage := mkTokens {
  input : option Z; cached_input : option Z; cache_write : option Z;
  output : option Z; reasoning : option Z; total : option Z
}.

(** Code: architecture/contracts/invocation.py, ProviderTokenUsage.as_dict. *)
Definition tokens_as_dict (t : ProviderTokenUsage) (b : TokenBucket) : option Z :=
  match b with
  | BInput => input t | BCachedInput => cached_input t | BCacheWrite => cache_write t
  | BOutput => output t | BReasoning => reasoning t | BTotal => total t
  end.

Definition no_tokens : ProviderTokenUsage := mkTokens None None None None None None.

(** Code: architecture/contracts/invocation.py, _add_exact_counter. *)
Definition add_exact_counter (current additional : option Z) : option Z :=
  match current, additional with Some a, Some b => Some (a + b) | _, _ => None end.

(** Code: architecture/contracts/invocation.py, ProviderTokenUsage.add_exact. *)
Definition add_exact (t additional : ProviderTokenUsage) : ProviderTokenUsage :=
  mkTokens (add_exact_counter (input t) (input additional))
           (add_exact_counter (cached_input t) (cached_input additional))
           (add_exact_counter (cache_write t) (cache_write additional))
           (add_exact_counter (output t) (output additional))
           (add_exact_counter (reasoning t) (reasoning additional))
           (add_exact_counter (total t) (total additional)).

(** Code: architecture/contracts/invocation.py, UsageDecodeResult. *)
Record UsageDecodeResult := mkDecode {
  ud_tokens : option ProviderTokenUsage;
  ud_error : option string;
  valid_report_count : Z
}.

(** A price per million tokens for each bucket.
    Code: core/config.py, TokenPricing. *)
Definition TokenPricing : Type := TokenBucket -> option Q.

Inductive CostConfidence : Type := CFull | CPartial | CNone | CMixed.
Inductive UsageStatus : Type := UFull | UPartial | UNone | UMalformed.
Inductive OutputExtractionStatus : Type := ESuccess | EMissing | EMalformed.

#[global] Instance CostConfidence_eq_dec : EqDecision CostConfidence.
Proof. solve_decision. Defined.
#[global] Instance UsageStatus_eq_dec : EqDecision UsageStatus.
Proof. solve_decision. Defined.
#[global] Instance OutputExtractionStatus_eq_dec : EqDecision OutputExtractionStatus.
Proof. solve_decision. Defined.

(** ** Costs *)

Definition TOKENS_PER_MILLION : Q := 1000000.

(** Code: runtime/agent/usage_costs.py, estimate_token_count. *)
Definition estimate_token_count (char_count : Z) : Z :=
  if char_count <=? 0 then 0 else (char_count + 3) / 4.

(** Code: core/config.py, TokenPricing.configured_buckets. *)
Definition configured_buckets (pricing : TokenPricing) : list TokenBucket :=
  List.filter (fun b => match pricing b with Some _ => true | None => false end) TOKEN_BUCKETS.

(** Code: runtime/agent/usage_costs.py, _exclusive_token_count. *)
Definition exclusive_token_count (inclusive_count : option Z) (separately_priced : list (option Z)) : option Z :=
  match inclusive_count with
  | None => None
  | Some n =>
      if existsb (fun c => match c with None => true | Some _ => false end) separately_priced then None
      else
        let separately_priced_total := foldr (fun c acc => default 0 c + acc) 0 separately_priced in
        if 0 <=? n - separately_priced_total then Some (n - separately_priced_total) else None
  end.

(** Code: runtime/agent/usage_costs.py, _billable_provider_tokens. *)
Definition billable_provider_tokens (pricing : TokenPricing) (provider_tokens : ProviderTokenUsage)
    (b : TokenBucket) : option Z :=
  let counts := tokens_as_dict provider_tokens in
  let priced b := match pricing b with Some _ => true | None => false end in
  match b with
  | BInput => exclusive_token_count (counts BInput) (map counts (List.filter priced [BCachedInput; BCacheWrite]))
  | BOutput => exclusive_token_count (counts BOutput) (map counts (List.filter priced [BReasoning]))
  | b => counts b
  end.

(** Code: runtime/agent/usage_costs.py, visible_cost_token_count. *)
Definition visible_cost_token_count (b : TokenBucket)
    (visible_input_tokens visible_output_tokens visible_estimate_tokens : Z) : option Z :=
  match b with
  | BInput => Some visible_input_tokens
  | BOutput => Some visible_output_tokens
  | BTotal => Some visible_estimate_tokens
  | _ => None
  end.

(** The counters of the loop of [derive_configured_cost]. *)
Record CostLoop := mkCost {
  total_cost : Q; computed_bucket_count : Z; missing_bucket_count : Z; fallback_bucket_count : Z
}.

(** One iteration of the loop over the configured buckets.
    Code: runtime/agent/usage_costs.py:47-65. *)
Definition cost_step (pricing : TokenPricing) (billable visible : TokenBucket -> option Z)
    (s : CostLoop) (bucket : TokenBucket) : CostLoop :=
  let token_count := match billable bucket with Some n => Some n | None => visible bucket end in
  let fallback :=
    match billable bucket, visible bucket with
    | None, Some _ => fallback_bucket_count s + 1
    | _, _ => fallback_bucket_count s
    end in
  match token_count with
  | None => mkCost (total_cost s) (computed_bucket_count s) (missing_bucket_count s + 1) fallback
  | Some n =>
      match pricing bucket with
      | None => mkCost (total_cost s) (computed_bucket_count s) (missing_bucket_count s) fallback
      | Some rate =>
          mkCost (total_cost s + inject_Z n * rate / TOKENS_PER_MILLION)%Q (computed_bucket_count s + 1)
            (missing_bucket_count s) fallback
      end
  end.

(** Code: runtime/agent/usage_costs.py, derive_configured_cost. *)
Definition derive_configured_cost (pricing : TokenPricing) (provider_tokens : ProviderTokenUsage)
    (visible_input_tokens visible_output_tokens visible_estimate_tokens : Z) : option Q * CostConfidence :=
  match configured_buckets pricing with
  | [] => (None, CNone)
  | buckets =>
      let visible b := visible_cost_token_count b visible_input_tokens visible_output_tokens visible_estimate_tokens in
      let s := foldl (cost_step pricing (billable_provider_tokens pricing provider_tokens) visible)
                 (mkCost 0 0 0 0) buckets in
      if computed_bucket_count s =? 0 then (None, CNone)
      else if (missing_bucket_count s =? 0) && (fallback_bucket_count s =? 0) then (Some (total_cost s), CFull)
      else (Some (total_cost s), CPartial)
  end.

(** Code: runtime/agent/usage_costs.py, provider_usage_buckets. *)
Definition provider_usage_buckets (pricing : TokenPricing) : list TokenBucket :=
  let pricing_buckets := configured_buckets pricing in
  if bool_decide (BTotal ∈ pricing_buckets) then [BTotal]
  else foldl (fun required bucket =>
         if negb (bool_decide (bucket ∈ required)) && bool_decide (bucket ∈ pricing_buckets)
         then required ++ [bucket] else required) [BInput; BOutput] TOKEN_BUCKETS.

(** Code: runtime/agent/usage_costs.py, classify_provider_usage_status. *)
Definition classify_provider_usage_status (pricing : TokenPricing) (provider_tokens : ProviderTokenUsage)
    (provider_usage_report_count : Z) (usage_parse_error : option string) : UsageStatus :=
  if provider_usage_report_count =? 0 then
    match usage_parse_error with Some _ => UMalformed | None => UNone end
  else
    let required := provider_usage_buckets pricing in
    let known := List.filter (fun b => match tokens_as_dict provider_tokens b with Some _ => true | None => false end) required in
    match known with
    | [] => UNone
    | _ => if bool_decide (length known = length required) then UFull else UPartial
    end.

(** Code: architecture/contracts/invocation.py, reduce_cost_confidences. *)
Definition reduce_cost_confidences (confidences : list CostConfidence) : CostConfidence :=
  if forallb (fun c => bool_decide (c = CNone)) confidences then CNone
  else if forallb (fun c => bool_decide (c = CFull)) confidences then CFull
  else if forallb (fun c => bool_decide (c = CFull) || bool_decide (c = CPartial)) confidences
          && bool_decide (CPartial ∈ confidences) then CPartial
  else CMixed.

(** ** The accumulator of an invocation *)

(** Code: runtime/agent/usage.py, InvocationUsageAccumulator.__init__. *)
Record Accumulator := mkAcc {
  prompt_chars_per_attempt : Z;
  attempt_count : Z;
  visible_output_chars_total : Z;
  acc_provider_tokens : option ProviderTokenUsage;
  acc_report_count : Z;
  acc_parse_error : option string
}.

Definition new_accumulator (prompt : string) : Accumulator :=
  mkAcc (Z.of_nat (String.length prompt)) 0 0 None 0 None.

(** Code: runtime/agent/usage.py, InvocationUsageAccumulator.record_attempt_start. *)
Definition record_attempt_start (a : Accumulator) : Accumulator :=
  mkAcc (prompt_chars_per_attempt a) (attempt_count a + 1) (visible_output_chars_total a)
    (acc_provider_tokens a) (acc_report_count a) (acc_parse_error a).

(** Code: runtime/agent/usage.py, InvocationUsageAccumulator.record_attempt_output_chars. *)
Definition record_attempt_output_chars (a : Accumulator) (char_count : Z) : Accumulator :=
  mkAcc (prompt_chars_per_attempt a) (attempt_count a) (visible_output_chars_total a + Z.max 0 char_count)
    (acc_provider_tokens a) (acc_report_count a) (acc_parse_error a).

(** Code: runtime/agent/usage.py, InvocationUsageAccumulator.record_attempt_output. *)
Definition record_attempt_output (a : Accumulator) (output_text : string) : Accumulator :=
  record_attempt_output_chars a (Z.of_nat (String.length output_text)).

(** Code: runtime/agent/usage.py, InvocationUsageAccumulator.record_provider_usage. *)
Definition record_provider_usage (a : Accumulator) (result : UsageDecodeResult) : Accumulator :=
  let tokens := match ud_tokens result with
                | None => acc_provider_tokens a
                | Some t => Some (match acc_provider_tokens a with
                                  | None => t
                                  | Some current => add_exact current t
                                  end)
                end in
  let count := match ud_tokens result with
               | None => acc_report_count a
               | Some _ => acc_report_count a + valid_report_count result
               end in
  let error := match ud_error result with None => acc_parse_error a | Some e => Some e end in
  mkAcc (prompt_chars_per_attempt a) (attempt_count a) (visible_output_chars_total a) tokens count error.

(** Code: architecture/contracts/invocation.py:150-166. *)
Record InvocationUsage := mkUsage {
  iu_attempt_count : Z;
  cli_captured : bool;
  iu_extraction_status : OutputExtractionStatus;
  iu_usage_status : UsageStatus;
  iu_report_count : Z;
  iu_tokens : ProviderTokenUsage;
  visible_estimate_tokens : Z;
  configured_cost_usd : option Q;
  invocation_cost_confidence : CostConfidence;
  iu_parse_error : option string
}.

(** Code: runtime/agent/usage.py, InvocationUsageAccumulator.build_usage. *)
Definition build_usage (a : Accumulator) (pricing : TokenPricing) (status : OutputExtractionStatus)
    : InvocationUsage :=
  let visible_input := estimate_token_count (prompt_chars_per_attempt a * attempt_count a) in
  let visible_output := estimate_token_count (visible_output_chars_total a) in
  let provider_tokens := default no_tokens (acc_provider_tokens a) in
  let '(cost, confidence) := derive_configured_cost pricing provider_tokens visible_input visible_output
                               (visible_input + visible_output) in
  mkUsage (attempt_count a) (bool_decide (status = ESuccess)) status
    (classify_provider_usage_status pricing provider_tokens (acc_report_count a) (acc_parse_error a))
    (acc_report_count a) provider_tokens (visible_input + visible_output) cost confidence (acc_parse_error a).

(** Code: runtime/agent/usage.py, build_fallback_usage_from_output_chars. *)
Definition build_fallback_usage (prompt : string) (output_char_count : Z) (pricing : TokenPricing)
    (attempts : Z) : InvocationUsage :=
  let visible_input := estimate_token_count (Z.of_nat (String.length prompt) * attempts) in
  let visible_output := estimate_token_count output_char_count in
  let '(cost, confidence) := derive_configured_cost pricing no_tokens visible_input visible_output
                               (visible_input + visible_output) in
  mkUsage attempts true ESuccess UNone 0 no_tokens (visible_input + visible_output) cost confidence None.

(** Code: runtime/agent/usage_costs.py, roll_up_cost_confidence. *)
Definition roll_up_cost_confidence (usages : list InvocationUsage) : CostConfidence :=
  reduce_cost_confidences (map invocation_cost_confidence usages).

(** ** Theorems *)

(** The exact sum over a list of buckets. *)
Definition bucket_cost (pricing : TokenPricing) (count : TokenBucket -> option Z) (b : TokenBucket) : Q :=
  match pricing b, count b with
  | Some rate, Some n => (inject_Z n * rate / TOKENS_PER_MILLION)%Q
  | _, _ => 0%Q
  end.

Definition sum_cost (pricing : TokenPricing) (count : TokenBucket -> option Z) (l : list TokenBucket) : Q :=
  foldl (fun acc b => (acc + bucket_cost pricing count b)%Q) 0%Q l.

Definition unknown_count (count : TokenBucket -> option Z) (l : list TokenBucket) : Z :=
  foldr (fun b acc => match count b with None => 1 + acc | Some _ => acc end) 0 l.

Lemma unknown_count_zero count l :
  0 <= unknown_count count l /\ (unknown_count count l = 0 <-> forall b, b ∈ l -> is_Some (count b)).
Proof.
  induction l as [|b l [IH0 IH]]; simpl; [split; [lia|]; split; [set_solver | done]|].
  destruct (count b) as [n|] eqn:Hb.
  - split; [lia|]. rewrite IH. split; intros H x; [|intros Hx; apply H; by right].
    intros [->|Hx]%elem_of_cons; [rewrite Hb; eauto | auto].
  - split; [lia|]. split; [lia|]. intros H. destruct (H b) as [n Hn]; [left|congruence].
Qed.

(** The loop counts what is not known from the provider, and never a bucket
    twice. *)
Lemma cost_loop pricing billable visible l s :
  (forall b, b ∈ l -> is_Some (pricing b)) ->
  let s' := foldl (cost_step pricing billable visible) s l in
  missing_bucket_count s' + fallback_bucket_count s' =
    missing_bucket_count s + fallback_bucket_count s + unknown_count billable l /\
  missing_bucket_count s <= missing_bucket_count s' /\ fallback_bucket_count s <= fallback_bucket_count s' /\
  computed_bucket_count s' + missing_bucket_count s' =
    computed_bucket_count s + missing_bucket_count s + Z.of_nat (length l) /\
  (unknown_count billable l = 0 -> total_cost s' =
     foldl (fun acc b => (acc + bucket_cost pricing billable b)%Q) (total_cost s) l).
Proof.
  revert s. induction l as [|b l IH]; intros s Hp; simpl; [split_and!; (lia || done)|].
  destruct (Hp b) as [rate Hrate]; [left|].
  specialize (IH (cost_step pricing billable visible s b)) as (I1 & I2 & I3 & I4 & I5);
    [intros x Hx; apply Hp; by right|].
  pose proof (unknown_count_zero billable l) as [Hu _].
  unfold cost_step, bucket_cost in *. rewrite Hrate in *.
  destruct (billable b) as [n|]; [|destruct (visible b) as [v|]]; simpl in *; split_and!; try lia.
  exact I5.
Qed.

(** The configured cost has confidence full exactly when some bucket is priced and the
    provider reported the billable count of every priced bucket; the cost is then the sum over the
    priced buckets of count times rate per million, with no estimate mixed in, and no cost is
    reported exactly when the confidence is none. *)
Theorem configured_cost_confidence (pricing : TokenPricing) (tokens : ProviderTokenUsage) (vi vo ve : Z) :
  let billable := billable_provider_tokens pricing tokens in
  let '(cost, confidence) := derive_configured_cost pricing tokens vi vo ve in
  (confidence = CFull <->
     configured_buckets pricing <> [] /\ forall b, b ∈ configured_buckets pricing -> is_Some (billable b)) /\
  (confidence = CFull -> cost = Some (sum_cost pricing billable (configured_buckets pricing))) /\
  (cost = None <-> confidence = CNone) /\ confidence <> CMixed.
Proof.
  intros billable. unfold derive_configured_cost.
  assert (forall b, b ∈ configured_buckets pricing -> is_Some (pricing b)) as Hpriced.
  { intros b Hb. unfold configured_buckets in Hb. apply elem_of_filter_true in Hb as [_ Hb].
    destruct (pricing b); [eauto | done]. }
  destruct (configured_buckets pricing) as [|b0 l0] eqn:Hbs; [split_and!; naive_solver|].
  set (buckets := b0 :: l0) in *. set (visible := fun b => visible_cost_token_count b vi vo ve). fold billable.
  pose proof (cost_loop pricing billable visible buckets (mkCost 0 0 0 0) Hpriced) as Hloop. cbv zeta in Hloop.
  set (s := foldl (cost_step _ _ _) _ buckets) in *. clearbody s. destruct Hloop as (I1 & I2 & I3 & I4 & I5).
  cbn [missing_bucket_count fallback_bucket_count computed_bucket_count total_cost] in I1, I2, I3, I4, I5.
  destruct (unknown_count_zero billable buckets) as [Hu Hz]. unfold sum_cost.
  destruct (Z.eqb_spec (computed_bucket_count s) 0) as [Hc|Hc].
  - split_and!; try done. split; [done|]. intros [_ Hall]. exfalso. apply Hz in Hall.
    unfold buckets in I4. simpl in I4. lia.
  - destruct ((missing_bucket_count s =? 0) && (fallback_bucket_count s =? 0)) eqn:Hm.
    + apply andb_true_iff in Hm as [Hm%Z.eqb_eq Hf%Z.eqb_eq].
      assert (unknown_count billable buckets = 0) as H0 by lia.
      split_and!; try done; [|intros _; f_equal; by apply I5].
      split; [intros _|done]. split; [done|]. by apply Hz.
    + split_and!; try done. split; [done|]. intros [_ Hall]. exfalso. apply Hz in Hall.
      rewrite andb_false_iff, !Z.eqb_neq in Hm. lia.
Qed.

(** Tokens that are priced in a bucket of their own are never billed again in the inclusive
    bucket: when the input (output) count is billable, it is non-negative and adds up, with the
    separately priced cached and cache-write (reasoning) counts, to the provider's inclusive count. *)
Theorem billable_tokens_not_double_counted (pricing : TokenPricing) (tokens : ProviderTokenUsage) (n : Z) :
  let sub b := match pricing b with Some _ => default 0 (tokens_as_dict tokens b) | None => 0 end in
  (billable_provider_tokens pricing tokens BInput = Some n ->
     0 <= n /\ input tokens = Some (n + sub BCachedInput + sub BCacheWrite)) /\
  (billable_provider_tokens pricing tokens BOutput = Some n ->
     0 <= n /\ output tokens = Some (n + sub BReasoning)).
Proof.
  simpl. unfold billable_provider_tokens, exclusive_token_count. simpl. split.
  - destruct (input tokens) as [i|]; [|done].
    destruct (pricing BCachedInput), (pricing BCacheWrite); simpl;
      destruct (cached_input tokens), (cache_write tokens); simpl; try done;
      (match goal with |- context [0 <=? ?x] => destruct (Z.leb_spec 0 x) end; [|done]); intros [= <-]; (split; [lia | f_equal; simpl; lia]).
  - destruct (output tokens) as [o|]; [|done].
    destruct (pricing BReasoning); simpl; destruct (reasoning tokens); simpl; try done;
      (match goal with |- context [0 <=? ?x] => destruct (Z.leb_spec 0 x) end; [|done]); intros [= <-]; (split; [lia | f_equal; lia]).
Qed.

(** Codex-style pricing with a separate price for cached input. *)
Definition example_pricing : TokenPricing := fun b =>
  match b with BInput => Some 3%Q | BCachedInput => Some (1 # 2)%Q | BOutput => Some 12%Q | _ => None end.

Definition example_tokens : ProviderTokenUsage :=
  mkTokens (Some 1000) (Some 400) None (Some 50) (Some 20) None.

Lemma billable_tokens_witness :
  0 <= 600 /\ input example_tokens = Some (600 + 400 + 0).
Proof.
  apply (proj1 (billable_tokens_not_double_counted example_pricing example_tokens 600)).
  vm_compute. reflexivity.
Defined.

(** ** Accumulation over attempts *)

Definition sum_counts (l : list (option Z)) : option Z :=
  match l with [] => None | c :: t => foldl add_exact_counter c t end.

Lemma tokens_as_dict_add t u b :
  tokens_as_dict (add_exact t u) b = add_exact_counter (tokens_as_dict t b) (tokens_as_dict u b).
Proof. by destruct b. Qed.

Lemma foldl_add_none l : foldl add_exact_counter None l = None.
Proof. by induction l as [|[z|] l IH]. Qed.

Lemma foldl_add_some z l :
  foldl add_exact_counter (Some z) l =
  if decide (Forall is_Some l) then Some (z + foldr (fun c acc => default 0 c + acc) 0 l) else None.
Proof.
  revert z. induction l as [|[x|] l IH]; intros z; cbn [foldl foldr add_exact_counter default].
  - rewrite decide_True by constructor. f_equal. lia.
  - rewrite IH. destruct (decide (Forall is_Some l)) as [H|H].
    + rewrite decide_True by (constructor; eauto). f_equal. simpl. lia.
    + rewrite decide_False; [done|]. intros H'. apply Forall_cons in H' as [_ ?]. done.
  - rewrite foldl_add_none, decide_False; [done|]. intros H. apply Forall_cons in H as [[? ?] _]. done.
Qed.

(** The reports of the attempts that decoded tokens. *)
Definition reported (results : list UsageDecodeResult) : list ProviderTokenUsage := omap ud_tokens results.

Lemma recorded_tokens a results :
  acc_provider_tokens (foldl record_provider_usage a results) =
  match acc_provider_tokens a, reported results with
  | None, [] => None
  | None, t :: ts => Some (foldl add_exact t ts)
  | Some t, ts => Some (foldl add_exact t ts)
  end.
Proof.
  revert a. induction results as [|r results IH]; intros a; simpl; [by destruct (acc_provider_tokens a)|].
  rewrite IH. unfold record_provider_usage, reported. simpl.
  destruct (ud_tokens r), (acc_provider_tokens a); done.
Qed.

(** Over the attempts of an invocation the provider counts of each bucket are summed
    exactly: the bucket is known at the end exactly when some attempt reported usage and every report
    knew the bucket, and is then the sum; one unknown report makes the bucket unknown rather than
    undercounted. *)
Theorem provider_usage_sums_exactly (prompt : string) (results : list UsageDecodeResult) (b : TokenBucket) (n : Z) :
  let final := foldl record_provider_usage (new_accumulator prompt) results in
  (tokens_as_dict (default no_tokens (acc_provider_tokens final)) b = Some n <->
   reported results <> [] /\ Forall (fun t => is_Some (tokens_as_dict t b)) (reported results) /\
   n = foldr (fun t acc => default 0 (tokens_as_dict t b) + acc) 0 (reported results)).
Proof.
  simpl. rewrite recorded_tokens. simpl. destruct (reported results) as [|t ts]; simpl.
  - destruct b; naive_solver.
  - assert (tokens_as_dict (foldl add_exact t ts) b =
      foldl add_exact_counter (tokens_as_dict t b) (map (fun t => tokens_as_dict t b) ts)) as ->.
    { revert t. induction ts as [|u ts IH]; intros t; simpl; [done|]. by rewrite IH, tokens_as_dict_add. }
    assert (foldr (fun c acc => default 0 c + acc) 0 (map (fun t => tokens_as_dict t b) ts) =
            foldr (fun t acc => default 0 (tokens_as_dict t b) + acc) 0 ts) as Hsum.
    { induction ts as [|u ts IH]; simpl; [done | by rewrite IH]. }
    rewrite Forall_cons. destruct (tokens_as_dict t b) as [z|]; simpl.
    + rewrite foldl_add_some, Hsum. case_decide as Hall; rewrite Forall_fmap in Hall; naive_solver.
    + rewrite foldl_add_none. split; [done|]. by intros (_ & [[? ?] _] & _).
Qed.
