(* ===== verification/Retry.v ===== *)
(** The attempts of one provider invocation: runtime/agent/invocation/
    {retry,state,transitions,attempt_decisions,output,telemetry,loop}.py, with
    runtime/agent/retry_units.py and runtime/agent/failures.

    Durations and clock readings are whole milliseconds ([Z]); every float of
    the configuration is one of these.  A captured stream is its text, whether
    the runner kept it inline or in a file.  The provider's classifiers and
    extractors are functions of the [InvocationPlan], as in the code; what a
    command returns and what the clock reads are the class [InvocationEnv]. *)

From Stdlib Require Import ZArith Lia Ascii String.
From stdpp Require Import base gmap sets list strings.
From S2P Require Import Prelude PyStr Usage.

Open Scope string_scope.
Open Scope list_scope.
Open Scope Z_scope.

(** ** Records *)

(** Code: architecture/contracts/invocation.py, CommandResult. *)
Record CommandResult := mkResult {
  returncode : Z;
  stdout_text : string;
  stderr_text : string
}.

(** Code: architecture/contracts/invocation.py, _split_nonempty_lines. *)
Definition split_nonempty_lines (value : string) : list string :=
  List.filter nonempty (str_splitlines value).

Definition iter_stdout_lines (r : CommandResult) : list string := split_nonempty_lines (stdout_text r).
Definition iter_stderr_lines (r : CommandResult) : list string := split_nonempty_lines (stderr_text r).

(** Code: architecture/contracts/invocation.py, CommandResult.iter_combined_lines. *)
Definition iter_combined_lines (r : CommandResult) : list string :=
  iter_stderr_lines r ++ iter_stdout_lines r.

(** Code: architecture/contracts/invocation.py, OutputExtractionResult. *)
Record OutputExtractionResult := mkExtraction {
  output_text : string;
  output_extraction_status : OutputExtractionStatus;
  output_char_count : option Z
}.

(** Code: architecture/contracts/invocation.py, QuotaClassification. *)
Record QuotaClassification := mkQuota {
  is_quota : bool;
  reset_after_ms : option Z
}.

(** Code: architecture/contracts/invocation.py, OneShotFailureRetryPolicy. *)
Record OneShotFailureRetryPolicy := mkOneShot {
  output_contains : list string;
  os_wait_ms : Z;
  os_reason : string;
  notice_message : string
}.

(** Code: architecture/contracts/invocation_failures.py, InvocationFailureSummary. *)
Record InvocationFailureSummary := mkSummary {
  kind : string;
  phase : string;
  source : string;
  message : string;
  advice : string;
  condensed : bool
}.

(** The retry part of a provider's configuration.
    Code: core/config.py:118-127. *)
Record AgentConfig := mkConfig {
  max_retries : Z;
  retry_delay_ms : Z;
  retry_on_exit_codes : list Z;
  retry_on_stderr_contains : list string;
  retry_on_output_contains : list string;
  quota_reached_on_contains : list string;
  quota_reached_retry_delay_ms : Z;
  quota_reset_sleep_floor_ms : Z;
  quota_retry_max_wait_ms : option Z;
  quota_retry_max_attempts : option Z;
  pricing : TokenPricing
}.

(** Code: architecture/contracts/invocation.py, InvocationPlan. *)
Record InvocationPlan := mkInvocationPlan {
  cmd0 : string;
  output_extractor : option (CommandResult -> OutputExtractionResult);
  usage_decoder : option (CommandResult -> outcome UsageDecodeResult);
  quota_classifier : CommandResult -> list string -> Z -> QuotaClassification;
  failure_classifier : CommandResult -> InvocationFailureSummary;
  one_shot_failure_retry : option OneShotFailureRetryPolicy
}.

(** Code: runtime/agent/invocation/state.py, InvocationDiagnosticNotice. *)
Record InvocationDiagnosticNotice := mkNotice {
  notice_text : string;
  operation : string
}.

(** Code: runtime/agent/invocation/state.py, ExtractedInvocationOutput. *)
Record ExtractedInvocationOutput := mkExtracted {
  ex_result : OutputExtractionResult;
  ex_notice : option InvocationDiagnosticNotice
}.

(** Code: runtime/agent/invocation/state.py, InvocationAttemptResult. *)
Record InvocationAttemptResult := mkAttempt {
  result : CommandResult;
  extracted_output : option ExtractedInvocationOutput;
  usage_output : string
}.

(** Code: runtime/agent/invocation/state.py, InvocationRetryCursor. *)
Record InvocationRetryCursor := mkCursor {
  retry_count : Z;
  quota_retry_count : Z;
  quota_retry_started_at : option Z
}.

(** The transitions carry their cursor ([AttemptTransitionState]).
    Code: runtime/agent/invocation/state.py, AttemptTransitionState..InvocationAttemptTransition. *)
Inductive InvocationAttemptTransition : Type :=
| ContinueAttempt (c : InvocationRetryCursor) (attempt_output_for_usage : option string)
| SleepAndRetryAttempt (c : InvocationRetryCursor) (retry_delay_ms : Z)
    (extracted : option ExtractedInvocationOutput) (attempt_output_for_usage : option string)
    (notice : InvocationDiagnosticNotice)
| FinalizeSuccessAttempt (c : InvocationRetryCursor) (extracted : ExtractedInvocationOutput)
| RaiseRetryExhaustedAttempt (c : InvocationRetryCursor) (extracted : option ExtractedInvocationOutput)
    (attempt_output_for_usage : option string)
| RaiseFailedExitAttempt (c : InvocationRetryCursor) (attempt_output_for_usage : option string)
| RaiseQuotaFailureAttempt (c : InvocationRetryCursor) (msg : string) (attempt_output_for_usage : option string)
| RaiseOutputExtractionFailureAttempt (c : InvocationRetryCursor) (extracted : ExtractedInvocationOutput)
    (attempt_output_for_usage : option string).

(** ** Durations as text *)

Definition pad3 (n : Z) : string :=
  if n <? 10 then "00" +:+ str_int n else if n <? 100 then "0" +:+ str_int n else str_int n.

(** [round(ms / 1000)], to the nearest integer with ties to even. *)
Definition round_seconds (ms : Z) : Z :=
  let q := ms / 1000 in
  let r := ms mod 1000 in
  if r <? 500 then q else if 500 <? r then q + 1 else if Z.even q then q else q + 1.

(** Code: runtime/agent/retry_units.py, format_wait_duration. *)
Definition format_wait_duration (ms : Z) : string :=
  if ms <? 1000 then
    (if ms <? 0 then "-" else "") +:+ str_int (Z.abs ms / 1000) +:+ "." +:+ pad3 (Z.abs ms mod 1000) +:+ "s"
  else
    let rounded := round_seconds ms in
    let days := rounded / 86400 in
    let remainder := rounded mod 86400 in
    let hours := remainder / 3600 in
    let remainder := remainder mod 3600 in
    let minutes := remainder / 60 in
    let secs := remainder mod 60 in
    let parts := (if days =? 0 then [] else [str_int days +:+ "d"])
                 ++ (if hours =? 0 then [] else [str_int hours +:+ "h"])
                 ++ (if minutes =? 0 then [] else [str_int minutes +:+ "m"]) in
    let parts := parts ++ (if negb (secs =? 0) || bool_decide (parts = []) then [str_int secs +:+ "s"] else []) in
    str_join "" parts.

(** [repr] of a float number of seconds given in milliseconds. *)
Definition repr_seconds (ms : Z) : string :=
  let frac := ms mod 1000 in
  str_int (ms / 1000) +:+ "." +:+
  (if frac =? 0 then "0"
   else if frac mod 100 =? 0 then str_int (frac / 100)
   else if frac mod 10 =? 0 then (if frac <? 100 then "0" else "") +:+ str_int (frac / 10)
   else pad3 frac).

(** ** Retry decisions *)

Definition QUOTA_RETRY_GUARD_HOURS : Z := 5.

(** Code: runtime/agent/invocation/retry.py, QUOTA_RETRY_GUARD_SECONDS. *)
Definition QUOTA_RETRY_GUARD_MS : Z := QUOTA_RETRY_GUARD_HOURS * 60 * 60 * 1000.

(** Code: runtime/agent/invocation/retry.py, NoFailureRetry..FailureRetryDecision. *)
Inductive FailureRetryDecision : Type :=
| NoFailureRetry (count : Z) (retry_matched reports_retry_exhaustion_for_failed_exit : bool)
| ScheduleFailureRetry (count : Z) (wait_ms : Z) (notice : InvocationDiagnosticNotice).

(** Code: runtime/agent/invocation/retry.py, NoQuotaRetry..QuotaRetryDecision. *)
Inductive QuotaRetryDecision : Type :=
| NoQuotaRetry (started_at : option Z) (count : Z)
| ScheduleQuotaRetry (started_at : Z) (count : Z) (wait_ms : Z) (notice : InvocationDiagnosticNotice)
| QuotaRetryFailure (started_at : Z) (count : Z) (msg : string).

(** Code: runtime/agent/invocation/retry.py, matches_any. *)
Definition matches_any (lines needles : list string) : bool :=
  let normalized_needles := map str_lower (List.filter nonempty needles) in
  existsb (fun line => existsb (fun needle => str_contains needle (str_lower line)) normalized_needles) lines.

(** Code: runtime/agent/invocation/retry.py, should_retry_failure. *)
Definition should_retry_failure (config : AgentConfig) (r : CommandResult) : bool :=
  bool_decide (returncode r ∈ retry_on_exit_codes config)
  || matches_any (iter_stderr_lines r) (retry_on_stderr_contains config)
  || matches_any (iter_combined_lines r) (retry_on_output_contains config).

(** Code: runtime/agent/invocation/retry.py, _matches_one_shot_failure_retry. *)
Definition matches_one_shot_failure_retry (policy : option OneShotFailureRetryPolicy) (r : CommandResult) : bool :=
  match policy with
  | None => false
  | Some p => if returncode r =? 0 then false else matches_any (iter_combined_lines r) (output_contains p)
  end.

(** Code: runtime/agent/invocation/retry.py, _schedule_configured_failure_retry. *)
Definition schedule_configured_failure_retry (config : AgentConfig) (cmd : string) (r : CommandResult)
    (count : Z) : FailureRetryDecision :=
  let failure_detail := if negb (returncode r =? 0)
    then "failed with exit code " +:+ str_int (returncode r)
    else "matched configured retry conditions" in
  ScheduleFailureRetry (count + 1) (retry_delay_ms config)
    (mkNotice (cmd +:+ " " +:+ failure_detail +:+ "; retrying in " +:+ repr_seconds (retry_delay_ms config)
               +:+ "s (" +:+ str_int (count + 1) +:+ "/" +:+ str_int (max_retries config) +:+ ")")
              "retry_scheduled").

(** Code: runtime/agent/invocation/retry.py, _schedule_one_shot_failure_retry. *)
Definition schedule_one_shot_failure_retry (policy : OneShotFailureRetryPolicy) (count : Z)
    : FailureRetryDecision :=
  ScheduleFailureRetry count (os_wait_ms policy) (mkNotice (notice_message policy) "retry_scheduled").

(** Code: runtime/agent/invocation/retry.py, evaluate_failure_retry. *)
Definition evaluate_failure_retry (config : AgentConfig) (cmd : string) (r : CommandResult) (count : Z)
    (built_in_retry_used : bool) (policy : option OneShotFailureRetryPolicy) : FailureRetryDecision :=
  let one_shot_retry_matched := matches_one_shot_failure_retry policy r in
  let configured_retry_matched := should_retry_failure config r in
  match policy with
  | Some p =>
      if one_shot_retry_matched && negb built_in_retry_used then schedule_one_shot_failure_retry p count
      else if configured_retry_matched && (count <? max_retries config)
      then schedule_configured_failure_retry config cmd r count
      else NoFailureRetry (count + Z.b2z (one_shot_retry_matched && built_in_retry_used))
             (configured_retry_matched || one_shot_retry_matched)
             (one_shot_retry_matched && built_in_retry_used)
  | None =>
      if configured_retry_matched && (count <? max_retries config)
      then schedule_configured_failure_retry config cmd r count
      else NoFailureRetry count configured_retry_matched false
  end.

(** Code: runtime/agent/invocation/retry.py, quota_retry_elapsed_seconds. *)
Definition quota_retry_elapsed (now started_at : Z) : Z := Z.max 0 (now - started_at).

(** Code: runtime/agent/invocation/retry.py, quota_retry_guard_exhausted. *)
Definition quota_retry_guard_exhausted (now : Z) (started_at : Z) : bool :=
  QUOTA_RETRY_GUARD_MS <=? quota_retry_elapsed now started_at.

(** Code: runtime/agent/invocation/retry.py, quota_retry_guard_will_exhaust. *)
Definition quota_retry_guard_will_exhaust (now started_at wait_ms : Z) : bool :=
  QUOTA_RETRY_GUARD_MS <=? quota_retry_elapsed now started_at + wait_ms.

(** Code: runtime/agent/invocation/retry.py, compute_quota_wait_seconds. *)
Definition compute_quota_wait (config : AgentConfig) (quota : QuotaClassification) : Z :=
  let configured_delay := quota_reached_retry_delay_ms config in
  match reset_after_ms quota with
  | None => configured_delay
  | Some reset =>
      let parsed_wait := Z.max (reset + quota_reset_sleep_floor_ms config) (quota_reset_sleep_floor_ms config) in
      Z.max parsed_wait configured_delay
  end.

(** Code: runtime/agent/invocation/retry.py, _schedule_quota_retry. *)
Definition schedule_quota_retry (config : AgentConfig) (cmd : string) (quota : QuotaClassification)
    (started_at count wait_ms : Z) : QuotaRetryDecision :=
  let wait_detail := match reset_after_ms quota with
    | None => format_wait_duration wait_ms +:+ " (configured fixed delay)"
    | Some reset => format_wait_duration wait_ms +:+ " (parsed reset " +:+ format_wait_duration reset
                    +:+ " + floor " +:+ repr_seconds (quota_reset_sleep_floor_ms config) +:+ "s)"
    end in
  ScheduleQuotaRetry started_at (count + 1) wait_ms
    (mkNotice ("Quota reached for " +:+ cmd +:+ "; retrying in " +:+ wait_detail +:+ " (quota attempt "
               +:+ str_int (count + 1) +:+ "; independent of max_retries)") "quota_retry_scheduled").

(** The readings an evaluation may make, in order: the wall clock the
    classifier is given ([datetime.now(UTC)]), then the monotonic clock at the
    start (or for the exhausted guard), for the guard of the next wait, and for
    its message. *)
Record ClockReadings := mkClock { wall_read : Z; first_read : Z; guard_read : Z; message_read : Z }.

Definition over (limit : option Z) (test : Z -> bool) : bool :=
  match limit with None => false | Some l => test l end.

(** Code: runtime/agent/invocation/retry.py, evaluate_quota_retry. *)
Definition evaluate_quota_retry (config : AgentConfig) (cmd : string)
    (classifier : CommandResult -> list string -> Z -> QuotaClassification) (r : CommandResult)
    (started : option Z) (count waited_ms : Z) (policy : option OneShotFailureRetryPolicy)
    (clock : ClockReadings) : QuotaRetryDecision :=
  if matches_one_shot_failure_retry policy r then NoQuotaRetry started count
  else
  let quota := classifier r (quota_reached_on_contains config) (wall_read clock) in
  if negb (is_quota quota) then NoQuotaRetry started count
  else
  let started_at := default (first_read clock) started in
  if over started (quota_retry_guard_exhausted (first_read clock)) then
    QuotaRetryFailure started_at count
      ("Quota retry guard exceeded after " +:+ str_int QUOTA_RETRY_GUARD_HOURS +:+ " hours for " +:+ cmd)
  else if over (quota_retry_max_attempts config) (fun ceiling => ceiling <=? count) then
    QuotaRetryFailure started_at count
      ("Quota retry configured attempt ceiling of " +:+ str_int (default 0 (quota_retry_max_attempts config))
       +:+ " reached for " +:+ cmd)
  else if over (reset_after_ms quota) (fun reset => QUOTA_RETRY_GUARD_MS <? reset) then
    QuotaRetryFailure started_at count
      ("Quota reached for " +:+ cmd +:+ "; provider reported reset after "
       +:+ format_wait_duration (default 0 (reset_after_ms quota)) +:+ ", which exceeds "
       +:+ str_int QUOTA_RETRY_GUARD_HOURS +:+ " hours")
  else
  let wait_ms := compute_quota_wait config quota in
  if over (quota_retry_max_wait_ms config) (fun ceiling => ceiling <=? waited_ms + wait_ms) then
    QuotaRetryFailure started_at count
      ("Quota retry configured wait ceiling of " +:+ format_wait_duration (default 0 (quota_retry_max_wait_ms config))
       +:+ " would be reached for " +:+ cmd +:+ "; cumulative quota wait is " +:+ format_wait_duration waited_ms
       +:+ " and next wait is " +:+ format_wait_duration wait_ms)
  else if quota_retry_guard_will_exhaust (guard_read clock) started_at wait_ms then
    QuotaRetryFailure started_at count
      ("Quota retry guard would exceed " +:+ str_int QUOTA_RETRY_GUARD_HOURS +:+ " hours for " +:+ cmd
       +:+ "; elapsed retry time is " +:+ format_wait_duration (quota_retry_elapsed (message_read clock) started_at)
       +:+ " and next retry wait is " +:+ format_wait_duration wait_ms)
  else schedule_quota_retry config cmd quota started_at count wait_ms.

(** ** Output of an attempt *)

Definition MAX_USAGE_OUTPUT_BYTES : nat := Z.to_nat 1048576.

(** Code: runtime/agent/usage.py, _bounded_text. *)
Definition bounded_text (value : string) : string := String.substring 0 MAX_USAGE_OUTPUT_BYTES value.

(** Code: runtime/agent/usage.py, output_text_for_usage. *)
Definition output_text_for_usage (r : CommandResult) : string :=
  let stdout := bounded_text (stdout_text r) in
  let stderr := bounded_text (stderr_text r) in
  if returncode r =? 0 then
    if not_blank stdout then stdout else if not_blank stderr then stderr else ""
  else if nonempty stderr then stderr +:+ stdout else stdout.

(** Code: runtime/agent/invocation/output.py, _extract_visible_output. *)
Definition extract_visible_output (cmd : string) (r : CommandResult) : ExtractedInvocationOutput :=
  let found text notice :=
    mkExtracted (mkExtraction text ESuccess (Some (Z.of_nat (String.length text)))) notice in
  if not_blank (stdout_text r) then found (stdout_text r) None
  else if not_blank (stderr_text r) then
    found (stderr_text r)
      (Some (mkNotice (cmd +:+ " invocation succeeded with empty stdout; using stderr as output. "
                       +:+ "Provider log contains the original stderr lines.") "stderr_fallback"))
  else mkExtracted (mkExtraction "" EMissing None) None.

(** Code: runtime/agent/invocation/output.py, extract_invocation_output. *)
Definition extract_invocation_output (plan : InvocationPlan) (r : CommandResult) : ExtractedInvocationOutput :=
  match output_extractor plan with
  | Some extractor => mkExtracted (extractor r) None
  | None => extract_visible_output (cmd0 plan) r
  end.

(** Code: runtime/agent/invocation/output.py, _extract_successful_structured_output. *)
Definition extract_successful_structured_output (plan : InvocationPlan) (r : CommandResult)
    : option ExtractedInvocationOutput :=
  match output_extractor plan with
  | None => None
  | Some _ =>
      if negb (returncode r =? 0) then None
      else
        let extracted := extract_invocation_output plan r in
        if bool_decide (output_extraction_status (ex_result extracted) = ESuccess) then Some extracted else None
  end.

(** Code: runtime/agent/invocation/output.py, build_invocation_attempt_result. *)
Definition build_invocation_attempt_result (plan : InvocationPlan) (r : CommandResult) : InvocationAttemptResult :=
  match extract_successful_structured_output plan r with
  | Some extracted =>
      mkAttempt (mkResult 0 (output_text (ex_result extracted)) (stderr_text r)) (Some extracted)
        (output_text (ex_result extracted))
  | None => mkAttempt r None (output_text_for_usage r)
  end.

(** ** Transitions *)

Definition with_retry (c : InvocationRetryCursor) (count : Z) : InvocationRetryCursor :=
  mkCursor count (quota_retry_count c) (quota_retry_started_at c).

(** Code: runtime/agent/invocation/transitions.py, transition_from_structured_output. *)
Definition transition_from_structured_output (attempt : InvocationAttemptResult) (c : InvocationRetryCursor)
    (decision : option FailureRetryDecision) : outcome InvocationAttemptTransition :=
  match extracted_output attempt with
  | None => Ok (ContinueAttempt c (Some (usage_output attempt)))
  | Some extracted =>
      match decision with
      | Some (ScheduleFailureRetry count wait_ms notice) =>
          Ok (SleepAndRetryAttempt (with_retry c count) wait_ms (Some extracted) (Some (usage_output attempt)) notice)
      | Some (NoFailureRetry count true _) =>
          Ok (RaiseRetryExhaustedAttempt (with_retry c count) (Some extracted) None)
      | Some (NoFailureRetry count false _) => Ok (FinalizeSuccessAttempt (with_retry c count) extracted)
      | None => Raise (RuntimeError "Structured output transition requires a retry decision.")
      end
  end.

(** Code: runtime/agent/invocation/transitions.py, transition_from_quota_retry. *)
Definition transition_from_quota_retry (attempt : InvocationAttemptResult) (c : InvocationRetryCursor)
    (decision : QuotaRetryDecision) : InvocationAttemptTransition :=
  match decision with
  | NoQuotaRetry started count =>
      ContinueAttempt (mkCursor (retry_count c) count started) (Some (usage_output attempt))
  | ScheduleQuotaRetry started count wait_ms notice =>
      SleepAndRetryAttempt (mkCursor (retry_count c) count (Some started)) wait_ms None
        (Some (usage_output attempt)) notice
  | QuotaRetryFailure started count msg =>
      RaiseQuotaFailureAttempt (mkCursor (retry_count c) count (Some started)) msg (Some (usage_output attempt))
  end.

(** Code: runtime/agent/invocation/transitions.py, transition_from_retryable_failure. *)
Definition transition_from_retryable_failure (attempt : InvocationAttemptResult) (c : InvocationRetryCursor)
    (decision : FailureRetryDecision) : InvocationAttemptTransition :=
  match decision with
  | ScheduleFailureRetry count wait_ms notice =>
      SleepAndRetryAttempt (with_retry c count) wait_ms None (Some (usage_output attempt)) notice
  | NoFailureRetry count _ _ => ContinueAttempt (with_retry c count) (Some (usage_output attempt))
  end.

(** Code: runtime/agent/invocation/transitions.py, _reports_retry_exhaustion_for_failed_exit. *)
Definition reports_exhaustion_for_failed_exit (decision : FailureRetryDecision) : bool :=
  match decision with ScheduleFailureRetry _ _ _ => false | NoFailureRetry _ _ reports => reports end.

(** Code: runtime/agent/invocation/transitions.py, _retry_decision_matched. *)
Definition retry_decision_matched (decision : FailureRetryDecision) : bool :=
  match decision with ScheduleFailureRetry _ _ _ => true | NoFailureRetry _ matched _ => matched end.

(** Code: runtime/agent/invocation/transitions.py, transition_from_terminal_failure. *)
Definition transition_from_terminal_failure (attempt : InvocationAttemptResult) (c : InvocationRetryCursor)
    (decision : FailureRetryDecision) : InvocationAttemptTransition :=
  let usage := Some (usage_output attempt) in
  if negb (returncode (result attempt) =? 0) then
    if reports_exhaustion_for_failed_exit decision then RaiseRetryExhaustedAttempt c None usage
    else RaiseFailedExitAttempt c usage
  else if retry_decision_matched decision then RaiseRetryExhaustedAttempt c None usage
  else ContinueAttempt c usage.

(** Code: runtime/agent/invocation/transitions.py, transition_from_final_extraction. *)
Definition transition_from_final_extraction (attempt : InvocationAttemptResult) (c : InvocationRetryCursor)
    (extracted : ExtractedInvocationOutput) : InvocationAttemptTransition :=
  if bool_decide (output_extraction_status (ex_result extracted) = ESuccess)
  then FinalizeSuccessAttempt c extracted
  else RaiseOutputExtractionFailureAttempt c extracted (Some (usage_output attempt)).

(** ** Choosing the transition of an attempt *)

(** Code: runtime/agent/invocation/attempt_decisions.py, _select_structured_output_transition. *)
Definition select_structured_output_transition (config : AgentConfig) (plan : InvocationPlan)
    (attempt : InvocationAttemptResult) (c : InvocationRetryCursor) (built_in_retry_used : bool)
    : outcome InvocationAttemptTransition :=
  let decision :=
    match extracted_output attempt with
    | None => None
    | Some _ => Some (evaluate_failure_retry config (cmd0 plan) (result attempt) (retry_count c)
                        built_in_retry_used (one_shot_failure_retry plan))
    end in
  transition_from_structured_output attempt c decision.

(** Code: runtime/agent/invocation/attempt_decisions.py, _select_quota_transition. *)
Definition select_quota_transition (config : AgentConfig) (plan : InvocationPlan)
    (attempt : InvocationAttemptResult) (c : InvocationRetryCursor) (waited_ms : Z) (clock : ClockReadings)
    : InvocationAttemptTransition :=
  transition_from_quota_retry attempt c
    (evaluate_quota_retry config (cmd0 plan) (quota_classifier plan) (result attempt)
       (quota_retry_started_at c) (quota_retry_count c) waited_ms (one_shot_failure_retry plan) clock).

(** Code: runtime/agent/invocation/attempt_decisions.py, _select_failure_transition. *)
Definition select_failure_transition (config : AgentConfig) (plan : InvocationPlan)
    (attempt : InvocationAttemptResult) (c : InvocationRetryCursor) (built_in_retry_used : bool)
    : InvocationAttemptTransition :=
  let decision := evaluate_failure_retry config (cmd0 plan) (result attempt) (retry_count c)
                    built_in_retry_used (one_shot_failure_retry plan) in
  match transition_from_retryable_failure attempt c decision with
  | ContinueAttempt c _ => transition_from_terminal_failure attempt c decision
  | transition => transition
  end.

(** Code: runtime/agent/invocation/attempt_decisions.py, select_attempt_transition. *)
Definition select_attempt_transition (config : AgentConfig) (plan : InvocationPlan)
    (attempt : InvocationAttemptResult) (c : InvocationRetryCursor) (waited_ms : Z)
    (built_in_retry_used : bool) (clock : ClockReadings) : outcome InvocationAttemptTransition :=
  transition ← select_structured_output_transition config plan attempt c built_in_retry_used;
  match transition with
  | ContinueAttempt c _ =>
      match select_quota_transition config plan attempt c waited_ms clock with
      | ContinueAttempt c _ =>
          match select_failure_transition config plan attempt c built_in_retry_used with
          | ContinueAttempt c _ =>
              Ok (transition_from_final_extraction attempt c (extract_invocation_output plan (result attempt)))
          | transition => Ok transition
          end
      | transition => Ok transition
      end
  | transition => Ok transition
  end.

(** ** The invocation loop *)

(** Code: runtime/agent/invocation/state.py, InvocationUsageState. *)
Record InvocationUsageState := mkUsageState {
  accumulator : Accumulator;
  us_extraction_status : OutputExtractionStatus;
  usage_recorded : bool
}.

(** What an invocation does outside its own state, in order. *)
Inductive InvocationAction : Type :=
| EmitNotice (n : InvocationDiagnosticNotice)
| ResetBeforeRetry
| SleepFor (ms : Z)
| WriteOutput (text : string)
| RecordUsage (u : InvocationUsage).

(** Code: runtime/agent/invocation/loop.py, _InvocationLoopState. *)
Record InvocationLoopState := mkLoop {
  usage_state : InvocationUsageState;
  cursor : InvocationRetryCursor;
  attempt : Z;
  quota_retry_wait_ms : Z;
  last_non_quota_failure : option InvocationFailureSummary;
  actions : list InvocationAction
}.

(** Code: runtime/agent/invocation/loop.py, _InvocationLoopState.built_in_retry_used. *)
Definition built_in_retry_used (s : InvocationLoopState) : bool :=
  retry_count (cursor s) + quota_retry_count (cursor s) <? attempt s.

Definition with_usage (s : InvocationLoopState) u : InvocationLoopState :=
  mkLoop u (cursor s) (attempt s) (quota_retry_wait_ms s) (last_non_quota_failure s) (actions s).
Definition act (s : InvocationLoopState) (l : list InvocationAction) : InvocationLoopState :=
  mkLoop (usage_state s) (cursor s) (attempt s) (quota_retry_wait_ms s) (last_non_quota_failure s) (actions s ++ l).
Definition with_accumulator (u : InvocationUsageState) a : InvocationUsageState :=
  mkUsageState a (us_extraction_status u) (usage_recorded u).

(** Code: runtime/agent/invocation/state.py, InvocationUsageState.record_extracted_output. *)
Definition record_extracted_output (u : InvocationUsageState) (e : ExtractedInvocationOutput) : InvocationUsageState :=
  let a := match output_char_count (ex_result e) with
           | Some n => record_attempt_output_chars (accumulator u) n
           | None => record_attempt_output (accumulator u) (output_text (ex_result e))
           end in
  mkUsageState a (output_extraction_status (ex_result e)) (usage_recorded u).

Definition notice_actions (n : option InvocationDiagnosticNotice) : list InvocationAction :=
  match n with None => [] | Some n => [EmitNotice n] end.

(** Code: runtime/agent/invocation/telemetry.py, _record_extracted_transition_output. *)
Definition record_extracted_transition_output (e : ExtractedInvocationOutput) (usage : option string)
    (s : InvocationLoopState) : InvocationLoopState :=
  let s := act (with_usage s (record_extracted_output (usage_state s) e)) (notice_actions (ex_notice e)) in
  match usage with
  | Some text => if nonempty text && negb (nonempty (output_text (ex_result e)))
                 then with_usage s (with_accumulator (usage_state s)
                        (record_attempt_output (accumulator (usage_state s)) text)) else s
  | None => s
  end.

(** Code: runtime/agent/invocation/telemetry.py, _record_attempt_output_if_present. *)
Definition record_attempt_output_if_present (usage : option string) (s : InvocationLoopState) : InvocationLoopState :=
  match usage with
  | Some text => if nonempty text
                 then with_usage s (with_accumulator (usage_state s)
                        (record_attempt_output (accumulator (usage_state s)) text)) else s
  | None => s
  end.

(** Code: runtime/agent/invocation/telemetry.py, record_transition_outputs. *)
Definition record_transition_outputs (t : InvocationAttemptTransition) (s : InvocationLoopState) : InvocationLoopState :=
  match t with
  | FinalizeSuccessAttempt _ e => record_extracted_transition_output e None s
  | SleepAndRetryAttempt _ _ (Some e) usage _ | RaiseRetryExhaustedAttempt _ (Some e) usage
  | RaiseOutputExtractionFailureAttempt _ e usage => record_extracted_transition_output e usage s
  | ContinueAttempt _ usage | SleepAndRetryAttempt _ _ None usage _ | RaiseRetryExhaustedAttempt _ None usage
  | RaiseFailedExitAttempt _ usage | RaiseQuotaFailureAttempt _ _ usage => record_attempt_output_if_present usage s
  end.

(** Code: runtime/agent/invocation/telemetry.py, record_usage_from_state_once. *)
Definition record_usage_from_state_once (config : AgentConfig) (s : InvocationLoopState) : InvocationLoopState :=
  let u := usage_state s in
  if usage_recorded u then s
  else act (with_usage s (mkUsageState (accumulator u) (us_extraction_status u) true))
         [RecordUsage (build_usage (accumulator u) (pricing config) (us_extraction_status u))].

(** Code: architecture/contracts/invocation_failures.py, InvocationFailureSummary.format_for_error. *)
Definition format_for_error (s : InvocationFailureSummary) (log_file : option string) : string :=
  match log_file with
  | Some path => if condensed s then message s +:+ " (see " +:+ path +:+ ")" else message s
  | None => message s
  end.

(** Code: architecture/contracts/invocation_failures.py, InvocationFailureError. *)
Definition failure_error (prefix : string) (s : InvocationFailureSummary) (log_file : option string) : exn :=
  InvocationFailureError (kind s) (prefix +:+ ": " +:+ format_for_error s log_file).

(** Code: runtime/agent/failures/__init__.py, build_quota_failure_error. *)
Definition build_quota_failure_error (prefix : string) (plan : InvocationPlan) (r : CommandResult)
    (last : option InvocationFailureSummary) : exn :=
  let summary := failure_classifier plan r in
  let summary :=
    if bool_decide (kind summary = "quota_or_rate_limit") then summary
    else mkSummary "quota_or_rate_limit" "provider_transport" (source summary) (message summary)
           ("The provider reported quota or rate limiting. Quota retries are independent " +:+
            "of max_retries; check retry/reset details and provider account limits.") (condensed summary) in
  let prefix := match last with
                | None => prefix
                | Some s => prefix +:+ "; last distinct non-quota failure: " +:+ message s
                end in
  failure_error prefix summary None.

Definition status_name (s : OutputExtractionStatus) : string :=
  match s with ESuccess => "success" | EMissing => "missing" | EMalformed => "malformed" end.

(** Code: runtime/agent/failures/__init__.py, build_output_extraction_failure_error. *)
Definition build_output_extraction_failure_error (cmd : string) (status : OutputExtractionStatus) : exn :=
  InvocationFailureError "malformed_provider_output" (cmd +:+ " output extraction failed: " +:+ status_name status).

(** What the loop does not control: the result (or exception) of running the
    command of each attempt, the clock readings of its decision, and the reset
    before a retry; the preparation of the runtime may fail too. *)
Class InvocationEnv := {
  prepare_runtime_for_attempt : Z -> outcome unit;
  run_command : Z -> outcome CommandResult;
  read_clock : Z -> ClockReadings;
  reset_before_retry : Z -> outcome unit;
  log_file : option string
}.

(** The end of one attempt cycle: retry, return or raise. *)
Inductive CycleEnd : Type :=
| CycleRetry (c : InvocationRetryCursor) (delay_ms : Z)
| CycleReturn
| CycleRaise (e : exn).

Section Invocation.
Context {env : InvocationEnv} (config : AgentConfig) (plan : InvocationPlan).

(** Code: runtime/agent/invocation/loop.py, _decode_provider_usage. *)
Definition decode_provider_usage (r : CommandResult) : UsageDecodeResult :=
  match usage_decoder plan with
  | None => mkDecode None None 0
  | Some decoder =>
      match decoder r with
      | Ok d => d
      | Raise e => mkDecode None (Some ("Provider usage decoding failed: " +:+ safe_error_message e)) 0
      | OutOfFuel => mkDecode None None 0
      end
  end.

(** Code: runtime/agent/invocation/loop.py, _is_non_quota_retry. *)
Definition is_non_quota_retry (t : InvocationAttemptTransition) : bool :=
  match t with
  | SleepAndRetryAttempt _ _ _ _ notice => negb (bool_decide (operation notice = "quota_retry_scheduled"))
  | _ => false
  end.

(** Code: runtime/agent/invocation/loop.py, _remember_non_quota_failure. *)
Definition remember_non_quota_failure (a : InvocationAttemptResult) (t : InvocationAttemptTransition)
    (s : InvocationLoopState) : InvocationLoopState :=
  let summary := failure_classifier plan (result a) in
  if is_non_quota_retry t && negb (bool_decide (kind summary = "quota_or_rate_limit"))
  then mkLoop (usage_state s) (cursor s) (attempt s) (quota_retry_wait_ms s) (Some summary) (actions s)
  else s.

(** Code: runtime/agent/invocation/loop.py, _execute_transition_action. *)
Definition execute_transition_action (t : InvocationAttemptTransition) (a : InvocationAttemptResult)
    (s : InvocationLoopState) : InvocationLoopState * CycleEnd :=
  match t with
  | ContinueAttempt _ _ =>
      (s, CycleRaise (RuntimeError "Invocation loop cannot execute a continue transition."))
  | _ =>
    let s := record_transition_outputs t s in
    match t with
    | SleepAndRetryAttempt c delay _ _ notice =>
        let s := act s [EmitNotice notice] in
        match reset_before_retry (attempt s) with
        | Ok _ => (act s [ResetBeforeRetry; SleepFor delay], CycleRetry c delay)
        | Raise e => (s, CycleRaise e)
        | OutOfFuel => (s, CycleRaise (RuntimeError "reset"))
        end
    | FinalizeSuccessAttempt _ e =>
        (record_usage_from_state_once config (act s [WriteOutput (output_text (ex_result e))]), CycleReturn)
    | RaiseRetryExhaustedAttempt c _ _ =>
        (s, CycleRaise (failure_error ("Command output matched retry conditions after "
              +:+ str_int (retry_count c) +:+ " retries") (failure_classifier plan (result a)) log_file))
    | RaiseFailedExitAttempt _ _ =>
        (s, CycleRaise (failure_error ("Exit code " +:+ str_int (returncode (result a)))
              (failure_classifier plan (result a)) log_file))
    | RaiseQuotaFailureAttempt _ msg _ =>
        (s, CycleRaise (build_quota_failure_error msg plan (result a) (last_non_quota_failure s)))
    | RaiseOutputExtractionFailureAttempt _ e _ =>
        (s, CycleRaise (build_output_extraction_failure_error (cmd0 plan) (output_extraction_status (ex_result e))))
    | ContinueAttempt _ _ => (s, CycleReturn)
    end
  end.

(** Code: runtime/agent/invocation/loop.py, _run_attempt_cycle. *)
Definition run_attempt_cycle (s : InvocationLoopState) : InvocationLoopState * CycleEnd :=
  let start := with_usage s (with_accumulator (usage_state s)
                 (record_attempt_start (accumulator (usage_state s)))) in
  match prepare_runtime_for_attempt (attempt s), run_command (attempt s) with
  | Raise e, _ => (s, CycleRaise e)
  | OutOfFuel, _ => (s, CycleRaise (RuntimeError "prepare"))
  | Ok _, Raise e => (start, CycleRaise e)
  | Ok _, OutOfFuel => (start, CycleRaise (RuntimeError "command"))
  | Ok _, Ok r =>
      let s := with_usage start (with_accumulator (usage_state start)
                 (record_provider_usage (accumulator (usage_state start)) (decode_provider_usage r))) in
      let a := build_invocation_attempt_result plan r in
      match select_attempt_transition config plan a (cursor s) (quota_retry_wait_ms s)
              (built_in_retry_used s) (read_clock (attempt s)) with
      | Ok t => execute_transition_action t a (remember_non_quota_failure a t s)
      | Raise e => (s, CycleRaise e)
      | OutOfFuel => (s, CycleRaise (RuntimeError "transition"))
      end
  end.

(** Code: runtime/agent/invocation/loop.py, _advance_retry_state. *)
Definition advance_retry_state (s : InvocationLoopState) (c : InvocationRetryCursor) (delay_ms : Z)
    : InvocationLoopState :=
  mkLoop (usage_state s) c (attempt s + 1)
    (if quota_retry_count (cursor s) <? quota_retry_count c then quota_retry_wait_ms s + delay_ms
     else quota_retry_wait_ms s)
    (last_non_quota_failure s) (actions s).

(** The usage is recorded when an exception leaves the loop, a cancellation
    apart. Code: runtime/agent/invocation/loop.py:133-138. *)
Definition record_usage_on_raise (e : exn) (s : InvocationLoopState) : InvocationLoopState :=
  if bool_decide (e = CancelledError) then s else record_usage_from_state_once config s.

(** The [while True] of [run_invocation_loop] with its exception handlers.
    Code: runtime/agent/invocation/loop.py:128-138. *)
Fixpoint invocation_attempts (fuel : nat) (s : InvocationLoopState)
    : outcome (InvocationLoopState * option exn) :=
  match fuel with
  | O => OutOfFuel
  | S fuel =>
      match run_attempt_cycle s with
      | (s, CycleReturn) => Ok (s, None)
      | (s, CycleRaise e) => Ok (record_usage_on_raise e s, Some e)
      | (s, CycleRetry c delay) => invocation_attempts fuel (advance_retry_state s c delay)
      end
  end.

(** Code: runtime/agent/invocation/loop.py, run_invocation_loop. *)
Definition run_invocation_loop (fuel : nat) (prompt : string) : outcome (InvocationLoopState * option exn) :=
  invocation_attempts fuel
    (mkLoop (mkUsageState (new_accumulator prompt) EMissing false) (mkCursor 0 0 None) 0 0 None []).

End Invocation.

(** ** The decisions *)

Section Decisions.
Context (config : AgentConfig) (plan : InvocationPlan).

(** The three ways an attempt leads to another one: the adapter's built-in
    retry, a configured retry and a quota retry. *)
Inductive retry_step (c : InvocationRetryCursor) (waited : Z) (used : bool) (clock : ClockReadings)
    : InvocationRetryCursor -> Z -> Prop :=
| step_built_in p :
    one_shot_failure_retry plan = Some p -> used = false -> retry_step c waited used clock c (os_wait_ms p)
| step_configured :
    retry_count c < max_retries config ->
    retry_step c waited used clock (mkCursor (retry_count c + 1) (quota_retry_count c) (quota_retry_started_at c))
      (retry_delay_ms config)
| step_quota t d :
    t = default (first_read clock) (quota_retry_started_at c) ->
    quota_reached_retry_delay_ms config <= d ->
    (forall q, quota_retry_max_attempts config = Some q -> quota_retry_count c < q) ->
    (forall w, quota_retry_max_wait_ms config = Some w -> waited + d < w) ->
    Z.max 0 (guard_read clock - t) + d < QUOTA_RETRY_GUARD_MS ->
    retry_step c waited used clock (mkCursor (retry_count c) (quota_retry_count c + 1) (Some t)) d.

Lemma evaluate_failure_schedules r count used policy count' d n :
  evaluate_failure_retry config (cmd0 plan) r count used policy = ScheduleFailureRetry count' d n ->
  operation n = "retry_scheduled" /\
  ((exists p, policy = Some p /\ d = os_wait_ms p /\ count' = count /\ used = false) \/
   count' = count + 1 /\ count < max_retries config /\ d = retry_delay_ms config).
Proof.
  unfold evaluate_failure_retry, schedule_one_shot_failure_retry, schedule_configured_failure_retry.
  destruct policy as [p|]; [destruct (_ && negb used) eqn:Hu|].
  - intros [= <- <- <-]. split; [done|]. left. exists p. split_and!; try done.
    apply andb_true_iff in Hu as [_ Hu]. by destruct used.
  - destruct (_ && (count <? _)) eqn:Hc; [|done]. intros [= <- <- <-]. split; [done|]. right.
    apply andb_true_iff in Hc as [_ Hc%Z.ltb_lt]. done.
  - destruct (_ && (count <? _)) eqn:Hc; [|done]. intros [= <- <- <-]. split; [done|]. right.
    apply andb_true_iff in Hc as [_ Hc%Z.ltb_lt]. done.
Qed.

Lemma over_false limit test : over limit test = false <-> forall l, limit = Some l -> test l = false.
Proof. destruct limit; simpl; naive_solver. Qed.

Lemma compute_quota_wait_floor quota : quota_reached_retry_delay_ms config <= compute_quota_wait config quota.
Proof. unfold compute_quota_wait. destruct (reset_after_ms quota); lia. Qed.

Lemma evaluate_quota_schedules classifier r started count waited policy clock t count' d n :
  evaluate_quota_retry config (cmd0 plan) classifier r started count waited policy clock =
    ScheduleQuotaRetry t count' d n ->
  operation n = "quota_retry_scheduled" /\ count' = count + 1 /\ t = default (first_read clock) started /\
  quota_reached_retry_delay_ms config <= d /\
  (forall q, quota_retry_max_attempts config = Some q -> count < q) /\
  (forall w, quota_retry_max_wait_ms config = Some w -> waited + d < w) /\
  Z.max 0 (guard_read clock - t) + d < QUOTA_RETRY_GUARD_MS.
Proof.
  unfold evaluate_quota_retry. destruct (matches_one_shot_failure_retry policy r); [done|].
  destruct (negb _); [done|]. destruct (over started _); [done|].
  destruct (over (quota_retry_max_attempts config) _) eqn:Hq; [done|]. rewrite over_false in Hq.
  destruct (over (reset_after_ms _) _); [done|].
  destruct (over (quota_retry_max_wait_ms config) _) eqn:Hw; [done|]. rewrite over_false in Hw.
  unfold quota_retry_guard_will_exhaust, quota_retry_elapsed.
  destruct (Z.leb_spec QUOTA_RETRY_GUARD_MS
    (Z.max 0 (guard_read clock - default (first_read clock) started) +
     compute_quota_wait config (classifier r (quota_reached_on_contains config) (wall_read clock)))) as [|Hg]; [done|].
  unfold schedule_quota_retry. intros [= <- <- <- <-]. split_and!; try done.
  - apply compute_quota_wait_floor.
  - intros q Hqq. specialize (Hq q Hqq). apply Z.leb_gt in Hq. lia.
  - intros w Hww. specialize (Hw w Hww). apply Z.leb_gt in Hw. lia.
Qed.

(** What [select_attempt_transition] can return. *)
Definition transition_ok (a : InvocationAttemptResult) (c : InvocationRetryCursor) (waited : Z) (used : bool)
    (clock : ClockReadings) (t : InvocationAttemptTransition) : Prop :=
  match t with
  | ContinueAttempt _ _ => False
  | SleepAndRetryAttempt c' d _ _ _ => retry_step c waited used clock c' d
  | FinalizeSuccessAttempt _ e =>
      returncode (result a) = 0 /\ should_retry_failure config (result a) = false /\
      (extracted_output a = Some e \/
       extracted_output a = None /\ e = extract_invocation_output plan (result a) /\
       output_extraction_status (ex_result e) = ESuccess)
  | RaiseOutputExtractionFailureAttempt _ e _ =>
      returncode (result a) = 0 /\ extracted_output a = None /\ output_extraction_status (ex_result e) <> ESuccess
  | RaiseFailedExitAttempt _ _ => returncode (result a) <> 0
  | RaiseRetryExhaustedAttempt _ _ _ | RaiseQuotaFailureAttempt _ _ _ => True
  end.

(** No retry and no match means that neither rule applied. *)
Lemma evaluate_failure_none r count used policy count' m rep :
  evaluate_failure_retry config (cmd0 plan) r count used policy = NoFailureRetry count' m rep ->
  (m = false -> should_retry_failure config r = false).
Proof.
  unfold evaluate_failure_retry, schedule_one_shot_failure_retry, schedule_configured_failure_retry.
  destruct policy as [p|]; [destruct (_ && negb used)|]; try done;
    (destruct (_ && (count <? _)); [done|]); intros [= _ Hm _]; [|congruence].
  intros ->. by apply orb_false_iff in Hm as [? _].
Qed.

Lemma select_failure_ok a c waited used clock :
  (exists c' u, select_failure_transition config plan a c used = ContinueAttempt c' u /\
     returncode (result a) = 0 /\ should_retry_failure config (result a) = false) \/
  transition_ok a c waited used clock (select_failure_transition config plan a c used) /\
  (forall c' u, select_failure_transition config plan a c used <> ContinueAttempt c' u) /\
  (forall c' e, select_failure_transition config plan a c used <> FinalizeSuccessAttempt c' e).
Proof.
  unfold select_failure_transition.
  destruct (evaluate_failure_retry config (cmd0 plan) (result a) (retry_count c) used
              (one_shot_failure_retry plan)) as [count m rep|count d n] eqn:He; simpl.
  - unfold transition_from_terminal_failure. destruct (Z.eqb_spec (returncode (result a)) 0) as [H0|H0]; simpl.
    + destruct m; [right; by split|]. left. do 2 eexists. split; [done|]. split; [done|].
      by eapply evaluate_failure_none.
    + right. destruct rep; by split.
  - right. split; [|done]. apply evaluate_failure_schedules in He as [_ [(p & Hp & -> & -> & Hu)|(-> & Hlt & ->)]].
    + destruct c. by apply step_built_in.
    + by apply step_configured.
Qed.

Lemma select_transition_ok a c waited used clock :
  (forall e, extracted_output a = Some e -> returncode (result a) = 0) ->
  exists t, select_attempt_transition config plan a c waited used clock = Ok t /\
    transition_ok a c waited used clock t.
Proof.
  intros Hext. unfold select_attempt_transition, select_structured_output_transition, transition_from_structured_output.
  destruct (extracted_output a) as [e|] eqn:Ha.
  - destruct (evaluate_failure_retry config (cmd0 plan) (result a) (retry_count c) used
                (one_shot_failure_retry plan)) as [count m rep|count d n] eqn:He.
    + destruct m; (eexists; split; [done|]); simpl; [done|]. rewrite Ha. split_and!; [by eapply Hext | | by left].
      by eapply evaluate_failure_none.
    + eexists. split; [done|]. simpl. apply evaluate_failure_schedules in He as [_ [(p & Hp & -> & -> & Hu)|(-> & Hlt & ->)]].
      * destruct c. by apply step_built_in.
      * by apply step_configured.
  - simpl. unfold select_quota_transition.
    destruct (evaluate_quota_retry _ _ _ _ _ _ _ _ _) as [st q|t q d n|t q msg] eqn:Hq; simpl.
    + assert (st = quota_retry_started_at c /\ q = quota_retry_count c) as [-> ->].
      { unfold evaluate_quota_retry in Hq. destruct (matches_one_shot_failure_retry _ _); [by simplify_eq|].
        destruct (negb _); [by simplify_eq|]. repeat (destruct (over _ _); [done|]).
        destruct (quota_retry_guard_will_exhaust _ _ _); done. }
      replace (mkCursor (retry_count c) (quota_retry_count c) (quota_retry_started_at c)) with c by (by destruct c).
      destruct (select_failure_ok a c waited used clock) as [(c' & u & -> & H0 & Hsr)|(Hok & Hnc & Hnf)].
      * eexists. split; [done|]. unfold transition_from_final_extraction. case_bool_decide as Hs; simpl.
        -- split_and!; try done. right. done.
        -- done.
      * destruct (select_failure_transition config plan a c used) eqn:E; try (eexists; split; [done|]; exact Hok).
        by destruct (Hnc c0 attempt_output_for_usage).
    + eexists. split; [done|]. simpl. apply evaluate_quota_schedules in Hq as (_ & -> & -> & H1 & H2 & H3 & H4).
      by apply step_quota.
    + eexists. by split.
Qed.

End Decisions.

(** ** The loop *)

Section LoopFacts.
Context {env : InvocationEnv} (config : AgentConfig) (plan : InvocationPlan).

(** What the bookkeeping of an attempt leaves alone. *)
Definition same_counters (s s' : InvocationLoopState) : Prop :=
  cursor s' = cursor s /\ attempt s' = attempt s /\ quota_retry_wait_ms s' = quota_retry_wait_ms s.

#[local] Instance same_counters_preorder : PreOrder same_counters.
Proof. split; [done|]. intros ? ? ? (? & ? & ?) (? & ? & ?). split_and!; congruence. Qed.

(** The actions added since, and the number of times usage was recorded. *)
Definition is_usage (a : InvocationAction) : bool := match a with RecordUsage _ => true | _ => false end.
Definition is_write (a : InvocationAction) : bool := match a with WriteOutput _ => true | _ => false end.

Definition quiet (l : list InvocationAction) : Prop :=
  List.filter is_usage l = [] /\ List.filter is_write l = [].

(** A step that records no usage and writes no output. *)
Definition quiet_step (s s' : InvocationLoopState) : Prop :=
  same_counters s s' /\ usage_recorded (usage_state s') = usage_recorded (usage_state s) /\
  attempt_count (accumulator (usage_state s')) = attempt_count (accumulator (usage_state s)) /\
  exists l, actions s' = actions s ++ l /\ quiet l.

#[local] Instance quiet_step_preorder : PreOrder quiet_step.
Proof.
  split.
  - intros s. split_and!; try done. exists []. by rewrite app_nil_r.
  - intros s1 s2 s3 (A & B & C & l1 & E1 & Q1 & W1) (A' & B' & C' & l2 & E2 & Q2 & W2).
    split_and!; [by etrans | congruence | congruence |]. exists (l1 ++ l2).
    rewrite E2, E1, <- app_assoc. split; [done|]. unfold quiet. by rewrite !List.filter_app, Q1, Q2, W1, W2.
Qed.

Lemma record_transition_outputs_quiet t s : quiet_step s (record_transition_outputs t s).
Proof.
  assert (forall e u, quiet_step s (record_extracted_transition_output e u s)) as He.
  { intros e u. unfold record_extracted_transition_output.
    assert (forall x, quiet (notice_actions x)) as Hq by (by intros [?|]).
    destruct u as [u|]; [destruct (_ && _)|]; (split; [done|]); (split; [done|]);
      (split; [simpl; by destruct (output_char_count _) |]); simpl; eauto. }
  assert (forall u, quiet_step s (record_attempt_output_if_present u s)) as Hu.
  { intros [u|]; simpl; [destruct (nonempty u)|]; try reflexivity.
    split_and!; try done. exists []. by rewrite app_nil_r. }
  destruct t as [| ? ? [?|] ? ? | | ? [?|] ? | | |]; [apply Hu|apply He|apply Hu|apply He|apply He|apply Hu..|apply He].
Qed.

Lemma remember_quiet a t s : quiet_step s (remember_non_quota_failure plan a t s).
Proof.
  unfold remember_non_quota_failure. destruct (_ && _); [|reflexivity].
  split_and!; try done. exists []. by rewrite app_nil_r.
Qed.

(** One cycle, seen from its end. *)
Definition cycle_ok (s s' : InvocationLoopState) (e : CycleEnd) : Prop :=
  same_counters s s' /\
  attempt_count (accumulator (usage_state s')) <= attempt_count (accumulator (usage_state s)) + 1 /\
  match e with
  | CycleRetry c d =>
      usage_recorded (usage_state s') = usage_recorded (usage_state s) /\
      attempt_count (accumulator (usage_state s')) = attempt_count (accumulator (usage_state s)) + 1 /\
      (exists l, actions s' = actions s ++ l /\ quiet l) /\
      retry_step config plan (cursor s) (quota_retry_wait_ms s) (built_in_retry_used s) (read_clock (attempt s)) c d
  | CycleReturn => exists l text u, actions s' = actions s ++ l ++ [WriteOutput text] ++ u /\ quiet l /\
      (usage_recorded (usage_state s) = false -> exists w, u = [RecordUsage w]) /\
      exists r e, run_command (attempt s) = Ok r /\ returncode r = 0 /\
        (extract_invocation_output plan r = e \/ extracted_output (build_invocation_attempt_result plan r) = Some e) /\
        output_extraction_status (ex_result e) = ESuccess /\ text = output_text (ex_result e)
  | CycleRaise _ => usage_recorded (usage_state s') = usage_recorded (usage_state s) /\
      exists l, actions s' = actions s ++ l /\ quiet l
  end.

Lemma extracted_success r e :
  extracted_output (build_invocation_attempt_result plan r) = Some e ->
  returncode (result (build_invocation_attempt_result plan r)) = 0 /\ returncode r = 0 /\
  output_extraction_status (ex_result e) = ESuccess.
Proof.
  unfold build_invocation_attempt_result, extract_successful_structured_output.
  destruct (output_extractor plan); [|done]. destruct (Z.eqb_spec (returncode r) 0) as [H0|]; simpl; [|done].
  case_bool_decide as Hs; simpl; [|done]. intros [= <-]. done.
Qed.

Lemma not_extracted r :
  extracted_output (build_invocation_attempt_result plan r) = None ->
  result (build_invocation_attempt_result plan r) = r.
Proof. unfold build_invocation_attempt_result. by destruct (extract_successful_structured_output plan r). Qed.

Lemma run_attempt_cycle_ok s : let '(s', e) := run_attempt_cycle config plan s in cycle_ok s s' e.
Proof.
  unfold run_attempt_cycle. set (start := with_usage s _).
  assert (same_counters s start /\ usage_recorded (usage_state start) = usage_recorded (usage_state s) /\
    attempt_count (accumulator (usage_state start)) = attempt_count (accumulator (usage_state s)) + 1 /\
    actions start = actions s) as (H1 & H2 & H3 & H4) by done.
  assert (exists l, actions s = actions s ++ l /\ quiet l) as Hnil by (exists []; by rewrite app_nil_r).
  destruct (prepare_runtime_for_attempt (attempt s)) as [u|e|].
  2, 3: split_and!; [done | lia | done | done].
  destruct (run_command (attempt s)) as [r|e|] eqn:Hr.
  2, 3: split_and!; [done | simpl; lia | done | done].
  set (s1 := with_usage start _). set (a := build_invocation_attempt_result plan r).
  destruct (select_transition_ok config plan a (cursor s1) (quota_retry_wait_ms s1) (built_in_retry_used s1)
              (read_clock (attempt s1))) as (t & -> & Hok).
  { intros e He. by apply extracted_success in He as [? _]. }
  pose proof (remember_quiet a t s1) as Q1. set (s2 := remember_non_quota_failure plan a t s1) in *.
  pose proof (record_transition_outputs_quiet t s2) as Q2.
  assert (quiet_step s1 (record_transition_outputs t s2)) as Q by (by etrans).
  destruct Q as (C & U & A & l & E & Ql).
  assert (attempt_count (accumulator (usage_state (record_transition_outputs t s2))) =
          attempt_count (accumulator (usage_state s)) + 1) as A' by (rewrite A; done).
  unfold execute_transition_action. set (s3 := record_transition_outputs t s2) in *. clearbody s3.
  destruct t as [c' u'|c' d ex u' n|c' ex|c' ex u'|c' u'|c' m u'|c' ex u']; [done|..].
  - destruct (reset_before_retry _); simpl.
    + split_and!; [exact C | simpl; lia | done | done | | exact Hok]. simpl.
      rewrite E. eexists. split; [by rewrite <- !app_assoc|]. destruct Ql as [Ql1 Ql2].
      split; rewrite !List.filter_app; [by rewrite Ql1 | by rewrite Ql2].
    + split_and!; [exact C | simpl; lia | done |]. simpl. rewrite E. eexists. split; [by rewrite <- !app_assoc|].
      destruct Ql as [Ql1 Ql2]. split; rewrite !List.filter_app; [by rewrite Ql1 | by rewrite Ql2].
    + split_and!; [exact C | simpl; lia | done |]. simpl. rewrite E. eexists. split; [by rewrite <- !app_assoc|].
      destruct Ql as [Ql1 Ql2]. split; rewrite !List.filter_app; [by rewrite Ql1 | by rewrite Ql2].
  - destruct Hok as (H0 & _ & Hex).
    assert (exists r0 e0, run_command (attempt s) = Ok r0 /\ returncode r0 = 0 /\
      (extract_invocation_output plan r0 = e0 \/ extracted_output (build_invocation_attempt_result plan r0) = Some e0) /\
      output_extraction_status (ex_result e0) = ESuccess /\ output_text (ex_result ex) = output_text (ex_result e0)) as Hfin.
    { exists r, ex. destruct Hex as [Hex|(Hn & -> & Hs)].
      - destruct (extracted_success r ex Hex) as (_ & ? & ?). split_and!; try done. by right.
      - pose proof (not_extracted r Hn) as Hra. change (result a = r) in Hra. rewrite Hra in H0, Hs |- *.
        split_and!; try done. by left. }
    unfold record_usage_from_state_once.
    destruct (usage_recorded (usage_state (act s3 [WriteOutput (output_text (ex_result ex))]))) eqn:Hrec; simpl.
    + split_and!; [exact C | simpl; lia |]. exists l, (output_text (ex_result ex)), []. simpl. rewrite E.
      split_and!; [by rewrite <- !app_assoc | done | | done]. simpl in Hrec. rewrite U in Hrec. intros Hf.
      assert (usage_recorded (usage_state s1) = usage_recorded (usage_state s)) as Hu by done. congruence.
    + split_and!; [exact C | simpl; lia |]. eexists l, (output_text (ex_result ex)), [RecordUsage _]. simpl. rewrite E.
      split_and!; [rewrite <- !app_assoc; reflexivity | done | eauto | done].
  - split_and!; [exact C | lia | done | eauto].
  - split_and!; [exact C | lia | done | eauto].
  - split_and!; [exact C | lia | done | eauto].
  - split_and!; [exact C | lia | done | eauto].
Qed.

(** A loop invariant with a measure that every retry decreases. *)
Lemma attempts_run (Inv : InvocationLoopState -> Prop) (m : InvocationLoopState -> nat) :
  (forall s s' c d, Inv s -> run_attempt_cycle config plan s = (s', CycleRetry c d) ->
     Inv (advance_retry_state s' c d) /\ (m (advance_retry_state s' c d) < m s)%nat) ->
  forall fuel s, Inv s -> (m s < fuel)%nat ->
  exists sl s' e, Inv sl /\ run_attempt_cycle config plan sl = (s', e) /\
    match e with
    | CycleRetry _ _ => False
    | CycleReturn => invocation_attempts config plan fuel s = Ok (s', None)
    | CycleRaise x => invocation_attempts config plan fuel s = Ok (record_usage_on_raise config x s', Some x)
    end.
Proof.
  intros Hstep. induction fuel as [|fuel IH]; intros s Hs Hm; [lia|]. simpl.
  destruct (run_attempt_cycle config plan s) as [s' [c d| |x]] eqn:Hc.
  - destruct (Hstep s s' c d Hs Hc) as [Hinv Hlt].
    destruct (IH (advance_retry_state s' c d) Hinv) as (sl & s2 & e & Hsl & Hce & Hres); [lia|].
    exists sl, s2, e. by split_and!.
  - exists s, s', CycleReturn. by split_and!.
  - exists s, s', (CycleRaise x). by split_and!.
Qed.

(** The counters at the head of the loop. *)
Record head_inv (s : InvocationLoopState) : Prop := {
  hi_retry : 0 <= retry_count (cursor s) <= Z.max 0 (max_retries config);
  hi_quota : 0 <= quota_retry_count (cursor s);
  hi_quota_max : forall q, quota_retry_max_attempts config = Some q -> quota_retry_count (cursor s) <= Z.max 0 q;
  hi_attempt : attempt s = retry_count (cursor s) + quota_retry_count (cursor s) \/
               attempt s = retry_count (cursor s) + quota_retry_count (cursor s) + 1;
  hi_count : attempt_count (accumulator (usage_state s)) = attempt s;
  hi_wait : forall w, quota_retry_max_wait_ms config = Some w -> 0 < w -> quota_retry_wait_ms s < w;
  hi_unrecorded : usage_recorded (usage_state s) = false;
  hi_quiet : quiet (actions s)
}.

Lemma quiet_app l1 l2 : quiet l1 -> quiet l2 -> quiet (l1 ++ l2).
Proof. intros [A1 B1] [A2 B2]. unfold quiet. by rewrite !List.filter_app, A1, A2, B1, B2. Qed.

Lemma head_inv_start prompt :
  head_inv (mkLoop (mkUsageState (new_accumulator prompt) EMissing false) (mkCursor 0 0 None) 0 0 None []).
Proof. constructor; simpl; try done; intros; lia. Qed.

Lemma head_inv_step s s' c d :
  head_inv s -> run_attempt_cycle config plan s = (s', CycleRetry c d) ->
  head_inv (advance_retry_state s' c d) /\ attempt (advance_retry_state s' c d) = attempt s + 1 /\
  retry_step config plan (cursor s) (quota_retry_wait_ms s) (built_in_retry_used s) (read_clock (attempt s)) c d.
Proof.
  intros [H1 H2 H3 H4 H5 H6 H7 H8] Hc. pose proof (run_attempt_cycle_ok s) as Hok. rewrite Hc in Hok.
  destruct Hok as ((Hcur & Hatt & Hwait) & _ & Hrec & Hcnt & (l & Hl & Ql) & Hstep).
  split; [|split; [simpl; congruence | done]].
  assert (usage_recorded (usage_state s') = false) as Hu by congruence.
  assert (quiet (actions s')) as Hq by (rewrite Hl; by apply quiet_app).
  assert (attempt_count (accumulator (usage_state s')) = attempt s' + 1) as Hn by (rewrite Hcnt, Hatt, H5; done).
  destruct Hstep as [p Hp Hused|Hlt|t d Ht Hd Hq1 Hw Hg]; constructor; simpl; rewrite ?Hcur, ?Hatt, ?Hwait in *; try done.
  - unfold built_in_retry_used in Hused. apply Z.ltb_ge in Hused. lia.
  - rewrite Z.ltb_irrefl. done.
  - lia.
  - lia.
  - rewrite Z.ltb_irrefl. done.
  - lia.
  - intros q Hqq. specialize (Hq1 q Hqq). lia.
  - lia.
  - intros w Hww Hpos. rewrite (proj2 (Z.ltb_lt _ _)) by lia. by apply Hw.
Qed.

End LoopFacts.

(** ** Claims *)

Section RetryClaims.
Context {env : InvocationEnv} (config : AgentConfig) (plan : InvocationPlan).

(** C11 (termination): With a quota attempt ceiling, an invocation ends after at most
    max_retries + quota_retry_max_attempts + 2 provider attempts, whatever the commands return: the
    configured retries, the quota retries and the adapter's built-in retry (used at most once) are the
    only reasons to start another attempt; the retry counters stay within their configured limits and
    the accumulated quota wait stays below its ceiling.
    Definitions: run_invocation_loop, invocation_attempts, run_attempt_cycle, advance_retry_state, select_attempt_transition, evaluate_failure_retry, evaluate_quota_retry, built_in_retry_used. *)
Theorem invocation_attempts_bounded (prompt : string) (ceiling : Z) (fuel : nat) :
  0 <= max_retries config -> 0 <= ceiling -> quota_retry_max_attempts config = Some ceiling ->
  max_retries config + ceiling + 2 <= Z.of_nat fuel ->
  exists s r, run_invocation_loop config plan fuel prompt = Ok (s, r) /\
    attempt_count (accumulator (usage_state s)) <= max_retries config + ceiling + 2 /\
    retry_count (cursor s) <= max_retries config /\ quota_retry_count (cursor s) <= ceiling /\
    0 <= attempt s - (retry_count (cursor s) + quota_retry_count (cursor s)) <= 1 /\
    (forall w, quota_retry_max_wait_ms config = Some w -> 0 < w -> quota_retry_wait_ms s < w).
Proof.
  intros Hr Hq Hceil Hfuel.
  set (m := fun s : InvocationLoopState => Z.to_nat (max_retries config + ceiling + 1 - attempt s)).
  destruct (attempts_run config plan (head_inv config) m) with (fuel := fuel)
    (s := mkLoop (mkUsageState (new_accumulator prompt) EMissing false) (mkCursor 0 0 None) 0 0 None [])
    as (sl & s' & e & Hsl & Hc & Hres).
  - intros s s' c d Hs Hc. destruct (head_inv_step config plan s s' c d Hs Hc) as (Hs' & Ha & _).
    split; [done|]. unfold m. rewrite Ha. pose proof (hi_retry _ _ Hs'). pose proof (hi_quota_max _ _ Hs' _ Hceil).
    pose proof (hi_attempt _ _ Hs') as Hat. rewrite Ha in Hat. lia.
  - apply head_inv_start.
  - unfold m. simpl. lia.
  - pose proof (run_attempt_cycle_ok config plan sl) as Hok. rewrite Hc in Hok.
    destruct Hok as ((Hcur & Hatt & Hwait) & Hcnt & _).
    destruct Hsl as [I1 I2 I3 I4 I5 I6 _ _]. specialize (I3 _ Hceil).
    assert (attempt_count (accumulator (usage_state s')) <= max_retries config + ceiling + 2 /\
      retry_count (cursor s') <= max_retries config /\ quota_retry_count (cursor s') <= ceiling /\
      0 <= attempt s' - (retry_count (cursor s') + quota_retry_count (cursor s')) <= 1 /\
      (forall w, quota_retry_max_wait_ms config = Some w -> 0 < w -> quota_retry_wait_ms s' < w)) as Hall.
    { rewrite Hcur, Hatt, Hwait. split_and!; try lia. exact I6. }
    unfold run_invocation_loop. destruct e as [c d| |x]; [done| |].
    + exists s', None. by split.
    + exists (record_usage_on_raise config x s'), (Some x). split; [done|].
      unfold record_usage_on_raise, record_usage_from_state_once.
      by destruct (bool_decide _); [|destruct (usage_recorded (usage_state s'))].
Qed.

(** The states at the head of the loop of an invocation. *)
Inductive loop_head (prompt : string) : InvocationLoopState -> Prop :=
| head_first :
    loop_head prompt (mkLoop (mkUsageState (new_accumulator prompt) EMissing false) (mkCursor 0 0 None) 0 0 None [])
| head_again s s' c d :
    loop_head prompt s -> run_attempt_cycle config plan s = (s', CycleRetry c d) ->
    loop_head prompt (advance_retry_state s' c d).

(** The clock of an invocation: readings never go back, and when an attempt
    of it sleeps [d] milliseconds the clock advances by [d]. *)
Record clock_laws (prompt : string) : Prop := {
  cl_order : forall k, first_read (read_clock k) <= guard_read (read_clock k) <= first_read (read_clock (k + 1));
  cl_sleep : forall s s' c d, loop_head prompt s -> run_attempt_cycle config plan s = (s', CycleRetry c d) ->
    guard_read (read_clock (attempt s)) + d <= first_read (read_clock (attempt s + 1))
}.

(** Quota retries since the first quota failure have taken their delays. *)
Definition quota_clock (s : InvocationLoopState) : Prop :=
  match quota_retry_started_at (cursor s) with
  | None => quota_retry_count (cursor s) = 0
  | Some t => quota_retry_count (cursor s) * quota_reached_retry_delay_ms config <=
                first_read (read_clock (attempt s)) - t /\
              quota_retry_count (cursor s) * quota_reached_retry_delay_ms config <= QUOTA_RETRY_GUARD_MS
  end.

Lemma quota_clock_step prompt s s' c d :
  clock_laws prompt -> loop_head prompt s -> 0 < quota_reached_retry_delay_ms config -> head_inv config s -> quota_clock s ->
  run_attempt_cycle config plan s = (s', CycleRetry c d) -> quota_clock (advance_retry_state s' c d).
Proof.
  intros [Hord Hsleep] Hhead HD Hs Hqc Hc. destruct (head_inv_step config plan s s' c d Hs Hc) as (_ & Ha & Hstep).
  pose proof (Hsleep s s' c d Hhead Hc) as Hsl. pose proof (Hord (attempt s)) as Ho.
  unfold quota_clock in *. rewrite Ha. simpl.
  destruct Hstep as [p Hp Hused|Hlt|t d Ht Hd Hq1 Hw Hg]; simpl.
  - destruct (quota_retry_started_at (cursor s)); [|done]. lia.
  - destruct (quota_retry_started_at (cursor s)); [|done]. lia.
  - destruct (quota_retry_started_at (cursor s)) as [t0|]; simpl in Ht; subst t; [|rewrite Hqc]; split; nia.
Qed.

(** C12 (liveness): Without any configured ceiling the invocation still ends: with a positive quota delay, a
    monotonic clock and sleeps that take their time, the five-hour guard bounds the quota retries, so at
    most max_retries + (five hours / quota delay) + 2 attempts are made.
    Definitions: run_invocation_loop, evaluate_quota_retry, quota_retry_guard_will_exhaust, compute_quota_wait, QUOTA_RETRY_GUARD_MS. *)
Theorem quota_guard_ends_invocation (prompt : string) (fuel : nat) :
  clock_laws prompt -> 0 <= max_retries config -> 0 < quota_reached_retry_delay_ms config ->
  max_retries config + QUOTA_RETRY_GUARD_MS / quota_reached_retry_delay_ms config + 2 <= Z.of_nat fuel ->
  exists s r, run_invocation_loop config plan fuel prompt = Ok (s, r) /\
    attempt_count (accumulator (usage_state s)) <=
      max_retries config + QUOTA_RETRY_GUARD_MS / quota_reached_retry_delay_ms config + 2.
Proof.
  intros Hclock Hr HD Hfuel. set (B := QUOTA_RETRY_GUARD_MS / quota_reached_retry_delay_ms config) in *.
  assert (forall s, head_inv config s -> quota_clock s -> quota_retry_count (cursor s) <= B) as Hbound.
  { intros s Hs Hq. apply Z.div_le_lower_bound; [lia|]. unfold quota_clock in Hq.
    destruct (quota_retry_started_at (cursor s)); [lia|].
    rewrite Hq. unfold QUOTA_RETRY_GUARD_MS, QUOTA_RETRY_GUARD_HOURS. lia. }
  set (m := fun s : InvocationLoopState => Z.to_nat (max_retries config + B + 1 - attempt s)).
  destruct (attempts_run config plan (fun s => head_inv config s /\ quota_clock s /\ loop_head prompt s) m) with (fuel := fuel)
    (s := mkLoop (mkUsageState (new_accumulator prompt) EMissing false) (mkCursor 0 0 None) 0 0 None [])
    as (sl & s' & e & (Hsl & Hql & _) & Hc & Hres).
  - intros s s' c d (Hs & Hqs & Hh) Hc. destruct (head_inv_step config plan s s' c d Hs Hc) as (Hs' & Ha & _).
    pose proof (quota_clock_step prompt s s' c d Hclock Hh HD Hs Hqs Hc) as Hq'.
    split; [split_and!; [done | done | by eapply head_again]|]. unfold m. rewrite Ha.
    pose proof (hi_retry _ _ Hs'). pose proof (Hbound _ Hs' Hq'). pose proof (hi_attempt _ _ Hs') as Hat.
    rewrite Ha in Hat. lia.
  - split_and!; [apply head_inv_start | done | constructor].
  - assert (0 <= B) by (apply Z.div_pos; [done | lia]). unfold m. simpl. lia.
  - pose proof (run_attempt_cycle_ok config plan sl) as Hok. rewrite Hc in Hok. destruct Hok as (_ & Hcnt & _).
    pose proof (Hbound _ Hsl Hql). destruct Hsl as [I1 I2 _ I4 I5 _ _ _].
    assert (attempt_count (accumulator (usage_state s')) <= max_retries config + B + 2) as Hall by lia.
    unfold run_invocation_loop. destruct e as [c d| |x]; [done| |].
    + exists s', None. by split.
    + exists (record_usage_on_raise config x s'), (Some x). split; [done|].
      unfold record_usage_on_raise, record_usage_from_state_once.
      by destruct (bool_decide _); [|destruct (usage_recorded (usage_state s'))].
Qed.

(** When the loop ends, usage has been recorded exactly once (not at all when it was
    cancelled); the output file is written
    exactly when it returns normally, then exactly once and before the usage record, with the text
    extracted successfully from a command that exited with 0; when it raises nothing is written. *)
Theorem invocation_output_and_usage_once (prompt : string) (fuel : nat) (s : InvocationLoopState) (r : option exn) :
  run_invocation_loop config plan fuel prompt = Ok (s, r) ->
  exists before u, quiet before /\
    match r with
    | None => exists text k res e, actions s = before ++ [WriteOutput text; RecordUsage u] /\
        run_command k = Ok res /\ returncode res = 0 /\ output_extraction_status (ex_result e) = ESuccess /\
        (extract_invocation_output plan res = e \/
         extracted_output (build_invocation_attempt_result plan res) = Some e) /\
        text = output_text (ex_result e)
    | Some CancelledError => actions s = before
    | Some _ => actions s = before ++ [RecordUsage u]
    end.
Proof.
  unfold run_invocation_loop. pose proof (head_inv_start config prompt) as Hs.
  revert Hs. generalize (mkLoop (mkUsageState (new_accumulator prompt) EMissing false) (mkCursor 0 0 None) 0 0 None []).
  induction fuel as [|fuel IH]; intros s0 Hs; simpl; [done|].
  pose proof (run_attempt_cycle_ok config plan s0) as Hok.
  destruct (run_attempt_cycle config plan s0) as [s' [c d| |x]] eqn:Hc.
  - apply IH. by destruct (head_inv_step config plan s0 s' c d Hs Hc).
  - intros [= <- <-]. destruct Hok as (_ & _ & l & text & u & Hact & Ql & Hu & k & e & Hk & H0 & He & Hst & Ht).
    destruct (Hu (hi_unrecorded _ _ Hs)) as [w ->]. exists (actions s0 ++ l), w.
    split; [apply quiet_app; [apply Hs | done]|]. exists text, (attempt s0), k, e.
    split_and!; try done. by rewrite Hact, <- app_assoc.
  - intros [= <- <-]. destruct Hok as (_ & _ & Hrec & l & Hact & Ql).
    unfold record_usage_on_raise, record_usage_from_state_once. rewrite Hrec, (hi_unrecorded _ _ Hs).
    eexists (actions s0 ++ l), _. split; [apply quiet_app; [apply Hs | done]|].
    case_bool_decide as Hx; [by subst x | destruct x; simpl; by rewrite ?Hact].
Qed.

End RetryClaims.

(** ** An example: a transient failure, then success *)

Definition example_config : AgentConfig := {|
  max_retries := 1; retry_delay_ms := 5000; retry_on_exit_codes := [75];
  retry_on_stderr_contains := []; retry_on_output_contains := [];
  quota_reached_on_contains := ["rate limit"]; quota_reached_retry_delay_ms := 300000;
  quota_reset_sleep_floor_ms := 5000; quota_retry_max_wait_ms := Some 3600000;
  quota_retry_max_attempts := Some 2; pricing := fun _ => None |}.

Definition example_invocation : InvocationPlan := {|
  cmd0 := "codex"; output_extractor := None; usage_decoder := None;
  quota_classifier := fun r needles _ => mkQuota (matches_any (iter_combined_lines r) needles) None;
  failure_classifier := fun r => mkSummary "provider_error" "unknown" "stderr_text" (stderr_text r) "" false;
  one_shot_failure_retry := None |}.

(** The first attempt exits with a retryable code, the second hits the quota,
    the third succeeds; the clock ticks with the sleeps. *)
Definition example_invocation_env : InvocationEnv := {|
  prepare_runtime_for_attempt := fun _ => Ok tt;
  run_command := fun k => if k =? 0 then Ok (mkResult 75 "" "busy")
                          else if k =? 1 then Ok (mkResult 1 "" "Rate limit reached")
                          else Ok (mkResult 0 "done" "");
  read_clock := fun k => mkClock (k * 18000000) (k * 18000000) (k * 18000000) (k * 18000000);
  reset_before_retry := fun _ => Ok tt;
  log_file := None |}.

Example example_invocation_run :
  match @run_invocation_loop example_invocation_env example_config example_invocation 6 "prompt" with
  | Ok (s, r) => r = None /\ attempt s = 2 /\ retry_count (cursor s) = 1 /\ quota_retry_count (cursor s) = 1
  | _ => False
  end.
Proof. vm_compute. by split_and!. Qed.

(** A cancelled command ends the loop with nothing recorded. *)
Example cancelled_invocation_records_nothing :
  let env : InvocationEnv := {|
    prepare_runtime_for_attempt := fun _ => Ok tt; run_command := fun _ => Raise CancelledError;
    read_clock := fun _ => mkClock 0 0 0 0; reset_before_retry := fun _ => Ok tt; log_file := None |} in
  match run_invocation_loop example_config example_invocation 1 "prompt" with
  | Ok (s, r) => r = Some CancelledError /\ actions s = []
  | _ => False
  end.
Proof. vm_compute. by split. Qed.

(** Witness of C11. *)
Lemma invocation_attempts_witness :
  exists s r, @run_invocation_loop example_invocation_env example_config example_invocation 6 "prompt" = Ok (s, r) /\
    attempt_count (accumulator (usage_state s)) <= 1 + 2 + 2 /\
    retry_count (cursor s) <= 1 /\ quota_retry_count (cursor s) <= 2 /\
    0 <= attempt s - (retry_count (cursor s) + quota_retry_count (cursor s)) <= 1 /\
    (forall w, Some 3600000 = Some w -> 0 < w -> quota_retry_wait_ms s < w).
Proof.
  apply (@invocation_attempts_bounded example_invocation_env example_config example_invocation "prompt" 2 6);
    simpl; try lia; reflexivity.
Defined.

Lemma example_clock_laws : @clock_laws example_invocation_env example_config example_invocation "prompt".
Proof.
  constructor; [intros k; simpl; lia|]. intros s s' c d _ Hc.
  pose proof (@run_attempt_cycle_ok example_invocation_env example_config example_invocation s) as Hok.
  rewrite Hc in Hok. destruct Hok as (_ & _ & _ & _ & _ & Hstep).
  assert (d <= 18000000) as Hd.
  { destruct Hstep as [p Hp _|_|t d _ _ _ _ Hg]; [done | simpl; lia |].
    unfold QUOTA_RETRY_GUARD_MS, QUOTA_RETRY_GUARD_HOURS in Hg. lia. }
  cbn [read_clock example_invocation_env first_read guard_read]. lia.
Qed.

(** Witness of C12. *)
Lemma quota_guard_witness :
  exists s r, @run_invocation_loop example_invocation_env example_config example_invocation 63 "prompt" = Ok (s, r) /\
    attempt_count (accumulator (usage_state s)) <= 63.
Proof.
  apply (@quota_guard_ends_invocation example_invocation_env example_config example_invocation "prompt" 63);
    [exact example_clock_laws | simpl; lia | simpl; lia | vm_compute; discriminate].
Defined.

Definition example_invocation_end : InvocationLoopState * option exn :=
  match @run_invocation_loop example_invocation_env example_config example_invocation 6 "prompt" with
  | Ok p => p
  | _ => (mkLoop (mkUsageState (new_accumulator "") EMissing false) (mkCursor 0 0 None) 0 0 None [], None)
  end.

(** An instance. *)
Lemma invocation_output_witness :
  exists before u text, quiet before /\ actions example_invocation_end.1 = before ++ [WriteOutput text; RecordUsage u].
Proof.
  assert (@run_invocation_loop example_invocation_env example_config example_invocation 6 "prompt" =
          Ok (example_invocation_end.1, None)) as Hrun by (vm_compute; reflexivity).
  destruct (@invocation_output_and_usage_once example_invocation_env example_config example_invocation "prompt" 6
              example_invocation_end.1 None Hrun) as (before & u & Hq & text & k & res & e & Hact & _).
  exists before, u, text. split; assumption.
Defined.
