(* ===== verification/Reviews.v ===== *)
(** Reviewer verdicts: core/review_contract.py and runtime/execution/reviews/
    {types,markdown,structured,plain_language,fingerprints,consensus}.py.

    The CommonMark parser (markdown-it-py) and the SHA-256 digest are the
    parameters of [ReviewLibraries]; everything else is the code's.  The
    verdict-line pattern is modelled as the named-group pattern the code means. *)

From Stdlib Require Import ZArith Lia Ascii String.
From stdpp Require Import base gmap sets list strings.
From S2P Require Import Prelude PyStr Models.

Open Scope string_scope.
Open Scope list_scope.
Open Scope Z_scope.

(** ** The review contract *)

Definition VERDICT_CHANGES_REQUESTED : string := "CHANGES_REQUESTED".
Definition VERDICT_NITS_ONLY : string := "NITS_ONLY".
Definition VERDICT_NO_FINDINGS : string := "NO_FINDINGS".

(** Code: core/review_contract.py, VALID_REVIEW_VERDICTS. *)
Definition VALID_REVIEW_VERDICTS : list string :=
  [VERDICT_CHANGES_REQUESTED; VERDICT_NITS_ONLY; VERDICT_NO_FINDINGS].

Definition REQUIRED_EMPTY_SENTINEL : string := "None".

(** The sections in their order.
    Code: core/review_contract.py, REVIEW_SECTIONS. *)
Inductive ReviewSection : Type := major_issues | minor_issues | nitpicks.

#[global] Instance ReviewSection_eq_dec : EqDecision ReviewSection.
Proof. solve_decision. Defined.

Definition SECTION_ORDER : list ReviewSection := [major_issues; minor_issues; nitpicks].

Definition display_name (s : ReviewSection) : string :=
  match s with major_issues => "Major Issues" | minor_issues => "Minor Issues" | nitpicks => "Nitpicks" end.

Definition section_index (s : ReviewSection) : Z :=
  match s with major_issues => 0 | minor_issues => 1 | nitpicks => 2 end.

(** Code: core/review_contract.py, ParsedReviewResult. *)
Record ParsedReviewResult := mkReview {
  verdict : string;
  rv_major : string;
  rv_minor : string;
  rv_nits : string
}.

Definition section_of (r : ParsedReviewResult) (s : ReviewSection) : string :=
  match s with major_issues => rv_major r | minor_issues => rv_minor r | nitpicks => rv_nits r end.

(** Code: core/review_contract.py, render_review_contract. *)
Definition render_review_contract (r : ParsedReviewResult) : string :=
  str_join "" (map (fun s => "## " +:+ display_name s +:+ lf_str +:+ section_of r s +:+ lf_str +:+ lf_str) SECTION_ORDER)
  +:+ "---" +:+ lf_str +:+ "VERDICT: " +:+ verdict r +:+ lf_str.

(** Code: core/review_contract.py, render_no_findings_review_contract. *)
Definition render_no_findings_review_contract : string :=
  render_review_contract (mkReview VERDICT_NO_FINDINGS REQUIRED_EMPTY_SENTINEL REQUIRED_EMPTY_SENTINEL
                            REQUIRED_EMPTY_SENTINEL).

(** Code: runtime/execution/reviews/types.py, ReviewContractError. *)
Definition ReviewContractError (msg : string) : exn := OtherError "ReviewContractError" msg.

(** Code: runtime/execution/reviews/types.py, StructuredReviewMatch. *)
Record StructuredReviewMatch := mkMatch {
  sm_verdict : string;
  sm_major : string; sm_minor : string; sm_nits : string;
  prefix : string; suffix : string;
  sm_warnings : list string
}.

(** Code: runtime/execution/reviews/types.py, EvaluatedReviewResult. *)
Record EvaluatedReviewResult := mkEvaluated {
  ev_verdict : option string;
  approved : bool;
  ev_major : string; ev_minor : string; ev_nits : string;
  unresolved_fingerprints : list string;
  unresolved_issue_count : Z;
  normalized_markdown : string;
  raw_text : string;
  evaluation_kind : string;
  warnings : list string;
  original_verdict : option string;
  had_leading_text : bool;
  had_trailing_text : bool;
  unstructured_feedback : option string
}.

(** ** Markdown *)

(** A block token of the CommonMark parser. *)
Record MdToken := mkToken {
  md_type : string; md_tag : string; md_level : Z; md_markup : string;
  md_map : option (nat * nat); md_content : string
}.

(** The libraries the review code calls. *)
Class ReviewLibraries := {
  markdown_parse : string -> list MdToken;
  sha256_hex : string -> string
}.

(** Code: runtime/execution/reviews/markdown.py, ReviewHeading. *)
Record ReviewHeading := mkHeading {
  section : option ReviewSection;
  start_line : nat;
  content_start_line : nat
}.

(** Code: runtime/execution/reviews/markdown.py, is_root_atx_h2. *)
Definition is_root_atx_h2 (t : MdToken) : bool :=
  bool_decide (md_type t = "heading_open") && bool_decide (md_tag t = "h2") &&
  (md_level t =? 0) && bool_decide (md_markup t = "##").

(** Code: runtime/execution/reviews/markdown.py, review_section_for_heading. *)
Definition review_section_for_heading (heading_text : string) : option ReviewSection :=
  let name := str_lower (str_strip heading_text) in
  List.find (fun s => bool_decide (str_lower (display_name s) = name)) SECTION_ORDER.

(** ** Text helpers *)

Definition is_alnum (c : ascii) : bool := is_lower c || is_digit c.

(** Runs of other characters become one space. *)
Fixpoint squash (gap : bool) (l : text) : text :=
  match l with
  | [] => if gap then [ascii_of_N 32] else []
  | c :: t => if is_alnum c then (if gap then [ascii_of_N 32; c] else [c]) ++ squash false t
              else squash true t
  end.

(** Code: runtime/execution/reviews/structured.py, normalize_text_token. *)
Definition normalize_text_token (value : string) : string :=
  str_strip (of_chars (squash false (chars (str_lower value)))).

(** Code: runtime/execution/reviews/structured.py, _GENERIC_EMPTY_SENTINELS. *)
Definition GENERIC_EMPTY_SENTINELS : list string :=
  [""; "n a"; "na"; "no comment"; "no comments"; "no finding"; "no findings"; "no issue"; "no issues";
   "none"; "none found"; "none noted"; "not applicable"; "nothing"; "nothing to report"].

(** Code: runtime/execution/reviews/structured.py, is_empty_section. *)
Definition is_empty_section (content : string) (name : option string) : bool :=
  let normalized := normalize_text_token content in
  if str_in normalized GENERIC_EMPTY_SENTINELS then true
  else match name with
       | None => false
       | Some name =>
           let section_name := normalize_text_token name in
           str_in normalized ["no " +:+ section_name; "none for " +:+ section_name; "nothing for " +:+ section_name]
       end.

(** Code: runtime/execution/reviews/structured.py, is_review_heading. *)
Definition is_review_heading (line : string) : bool :=
  str_startswith "##" line &&
  str_in (normalize_text_token (of_chars (drop 2 (chars line)))) (map (fun s => str_lower (display_name s)) SECTION_ORDER).

(** Code: runtime/execution/reviews/structured.py, validate_review_section_content. *)
Definition validate_review_section_content (name content : string) : outcome unit :=
  for_each (fun (_ : unit) line =>
    let stripped := str_strip line in
    if bool_decide (stripped = "---") then
      Raise (ReviewContractError ("Reviewer section " +:+ quoted name +:+ " contains an unexpected review delimiter."))
    else if str_startswith "VERDICT:" (str_upper stripped) then
      Raise (ReviewContractError ("Reviewer section " +:+ quoted name +:+ " contains an unexpected verdict line."))
    else if is_review_heading stripped then
      Raise (ReviewContractError ("Reviewer section " +:+ quoted name +:+ " contains an unexpected section heading."))
    else Ok tt) (str_splitlines content) tt.

(** Code: runtime/execution/reviews/structured.py, normalize_review_section. *)
Definition normalize_review_section (name content : string) : outcome string :=
  let normalized := str_strip content in
  if negb (nonempty normalized) then
    Raise (ReviewContractError ("Reviewer section " +:+ quoted name +:+ " must contain content or "
                                +:+ quoted REQUIRED_EMPTY_SENTINEL +:+ "."))
  else if is_empty_section normalized (Some name) then Ok REQUIRED_EMPTY_SENTINEL
  else _ ← validate_review_section_content name normalized; mret normalized.

(** Code: runtime/execution/reviews/structured.py, canonical_review_verdict. *)
Definition canonical_review_verdict (r : ParsedReviewResult) : string :=
  let has_major := negb (is_empty_section (rv_major r) None) in
  let has_minor := negb (is_empty_section (rv_minor r) None) in
  let has_nitpicks := negb (is_empty_section (rv_nits r) None) in
  if bool_decide (verdict r = VERDICT_CHANGES_REQUESTED) || has_major || has_minor then VERDICT_CHANGES_REQUESTED
  else if has_nitpicks then VERDICT_NITS_ONLY
  else VERDICT_NO_FINDINGS.

(** Code: runtime/execution/reviews/structured.py, normalize_review_result. *)
Definition normalize_review_result (r : ParsedReviewResult) : outcome ParsedReviewResult :=
  major ← normalize_review_section (display_name major_issues) (rv_major r);
  minor ← normalize_review_section (display_name minor_issues) (rv_minor r);
  nits ← normalize_review_section (display_name nitpicks) (rv_nits r);
  let normalized := mkReview (str_upper (str_strip (verdict r))) major minor nits in
  mret (mkReview (canonical_review_verdict normalized) major minor nits).

(** ** Structured reviews *)

(** The verdict of a line, upper-cased.
    Code: runtime/execution/reviews/structured.py, _VERDICT_LINE_PATTERN. *)
Definition match_verdict_line (line : string) : option string :=
  let stripped := str_upper (str_strip line) in
  if str_startswith "VERDICT:" stripped then
    let name := of_chars (drop_while is_space (drop 8 (chars stripped))) in
    if str_in name VALID_REVIEW_VERDICTS then Some name else None
  else None.

(** [lines[first:last]]. *)
Definition slice {A} (l : list A) (first last : nat) : list A := take (last - first) (drop first l).

(** The longest prefix of review headings. *)
Fixpoint review_run (l : list ReviewHeading) : list ReviewHeading :=
  match l with
  | [] => []
  | h :: t => match section h with None => [] | Some _ => h :: review_run t end
  end.

(** The review headings that end the list.
    Code: runtime/execution/reviews/structured.py, final_review_heading_run. *)
Definition final_review_heading_run (headings : list ReviewHeading) : list ReviewHeading :=
  reverse (review_run (reverse headings)).

(** Code: runtime/execution/reviews/structured.py, validate_review_heading_run. *)
Definition validate_review_heading_run (headings : list ReviewHeading) : outcome unit :=
  let sections := omap section headings in
  if negb (bool_decide (NoDup sections)) then
    Raise (ReviewContractError "Reviewer output contains duplicate structured review sections.")
  else if negb (bool_decide (sections = sort_by section_index sections)) then
    Raise (ReviewContractError "Reviewer output structured review sections are out of order.")
  else Ok tt.

(** Walking back over blank lines from the verdict. *)
Fixpoint skip_blank_back (lines : list string) (cursor : nat) : nat :=
  match cursor with
  | O => O
  | S k => if not_blank (default "" (lines !! k)) then cursor else skip_blank_back lines k
  end.

(** Code: runtime/execution/reviews/structured.py, review_content_end_line. *)
Definition review_content_end_line (lines : list string) (verdict_line : nat) : outcome nat :=
  match skip_blank_back lines verdict_line with
  | O => Raise (ReviewContractError "Reviewer output must include a review delimiter before the final verdict.")
  | S k => if bool_decide (str_strip (default "" (lines !! k)) = "---") then Ok k
           else Raise (ReviewContractError "Reviewer output must include a review delimiter before the final verdict.")
  end.

(** The text of each section of the final run; a section that is absent maps
    to [None].
    Code: runtime/execution/reviews/structured.py, collect_review_section_content. *)
Fixpoint collect_review_section_content (lines : list string) (headings : list ReviewHeading)
    (content_end_line : nat) (acc : ReviewSection -> option string) : ReviewSection -> option string :=
  match headings with
  | [] => acc
  | h :: rest =>
      let next_start := match rest with h' :: _ => start_line h' | [] => content_end_line end in
      let acc := match section h with
                 | None => acc
                 | Some s => fun s' => if decide (s' = s)
                               then Some (str_join "" (slice lines (content_start_line h) next_start)) else acc s'
                 end in
      collect_review_section_content lines rest content_end_line acc
  end.

(** Code: runtime/execution/reviews/structured.py, collect_earlier_review_sections. *)
Definition collect_earlier_review_sections (headings run : list ReviewHeading) : list ReviewSection :=
  match run with
  | [] => []
  | h :: _ => omap section (List.filter (fun h' => (start_line h' <? start_line h)%nat) headings)
  end.

(** Code: runtime/execution/reviews/structured.py, _APPROVED_REPAIRABLE_MISSING_SECTIONS. *)
Definition approved_repairable (v : string) : list ReviewSection :=
  if decide (v = VERDICT_NITS_ONLY) then [major_issues; minor_issues]
  else if decide (v = VERDICT_NO_FINDINGS) then SECTION_ORDER else [].

(** Code: runtime/execution/reviews/structured.py, repair_missing_sections. *)
Definition repair_missing_sections (v : string) (sections : ReviewSection -> option string)
    (earlier : list ReviewSection) : outcome ((ReviewSection -> string) * list string) :=
  let missing := List.filter (fun s => match sections s with None => true | Some _ => false end) SECTION_ORDER in
  let ambiguous := List.filter (fun s => bool_decide (s ∈ earlier)) missing in
  let unrepaired := List.filter (fun s => negb (bool_decide (s ∈ approved_repairable v))) missing in
  let names l := str_join ", " (map display_name l) in
  if negb (bool_decide (ambiguous = [])) then
    Raise (ReviewContractError ("Reviewer output omitted section(s) from the final review block after "
             +:+ "using the same section heading earlier: " +:+ names ambiguous +:+ "."))
  else if negb (bool_decide (unrepaired = [])) then
    Raise (ReviewContractError ("Reviewer output omitted required section(s): " +:+ names unrepaired +:+ "."))
  else Ok (fun s => default REQUIRED_EMPTY_SENTINEL (sections s),
           map (fun s => "Repaired reviewer output: missing " +:+ display_name s +:+ " section treated as None.") missing).

Section WithLibraries.
Context {libs : ReviewLibraries}.

(** Code: runtime/execution/reviews/markdown.py, code_block_lines. *)
Definition code_block_lines (output : string) : list nat :=
  concat (map (fun t =>
    match md_map t with
    | Some (first, last) => if str_in (md_type t) ["fence"; "code_block"] then seq first (last - first) else []
    | None => []
    end) (markdown_parse output)).

(** One pass over the tokens: a root heading followed by its inline text. *)
Fixpoint collect_headings (before_line : option nat) (tokens : list MdToken) : list ReviewHeading :=
  match tokens with
  | [] => []
  | t :: rest =>
      match is_root_atx_h2 t, md_map t, rest with
      | true, Some (first, last), next :: _ =>
          if bool_decide (md_type next = "inline") &&
             match before_line with Some b => (first <? b)%nat | None => true end
          then mkHeading (review_section_for_heading (md_content next)) first last :: collect_headings before_line rest
          else collect_headings before_line rest
      | _, _, _ => collect_headings before_line rest
      end
  end.

(** Code: runtime/execution/reviews/markdown.py, collect_root_h2_review_headings. *)
Definition collect_root_h2_review_headings (output : string) (before_line : option nat) : list ReviewHeading :=
  collect_headings before_line (markdown_parse output).

(** Code: runtime/execution/reviews/structured.py, final_review_verdict_line. *)
Definition final_review_verdict_line (output : string) : option nat :=
  let ignored := code_block_lines output in
  foldl (fun (found : option nat) '(index, line) =>
    if bool_decide (index ∈ ignored) then found
    else match match_verdict_line line with Some _ => Some index | None => found end)
    None (imap (fun i line => (i, line)) (str_splitlines output)).

(** Code: runtime/execution/reviews/structured.py, extract_final_review_verdict. *)
Definition extract_final_review_verdict (output : string) : option string :=
  index ← final_review_verdict_line output;
  line ← str_splitlines output !! index;
  match_verdict_line line.

(** Code: runtime/execution/reviews/structured.py, extract_structured_review. *)
Definition extract_structured_review (output : string) : outcome (option StructuredReviewMatch) :=
  let lines := str_splitlines_keep output in
  match extract_final_review_verdict output, final_review_verdict_line output with
  | Some v, Some verdict_line =>
      let headings := collect_root_h2_review_headings output (Some verdict_line) in
      let run := final_review_heading_run headings in
      match run with
      | [] => Ok None
      | first :: _ =>
          _ ← validate_review_heading_run run;
          content_end_line ← review_content_end_line lines verdict_line;
          let sections := collect_review_section_content lines run content_end_line (fun _ => None) in
          '(repaired, warns) ← repair_missing_sections v sections (collect_earlier_review_sections headings run);
          mret (Some (mkMatch v (repaired major_issues) (repaired minor_issues) (repaired nitpicks)
                        (str_join "" (take (start_line first) lines))
                        (str_join "" (drop (S verdict_line) lines)) warns))
      end
  | _, _ => Ok None
  end.

(** Code: runtime/execution/reviews/structured.py, review_output_uses_structured_contract. *)
Definition review_output_uses_structured_contract (output : string) : bool :=
  match extract_final_review_verdict output with
  | Some _ => true
  | None => existsb (fun h => match section h with Some _ => true | None => false end)
              (collect_root_h2_review_headings output None)
  end.

Definition review_of_match (m : StructuredReviewMatch) : ParsedReviewResult :=
  mkReview (sm_verdict m) (sm_major m) (sm_minor m) (sm_nits m).

(** Code: runtime/execution/reviews/structured.py, parse_review_result. *)
Definition parse_review_result (output : string) : outcome ParsedReviewResult :=
  m ← extract_structured_review output;
  match m with
  | None => Raise (ReviewContractError "Reviewer output must include a structured review block.")
  | Some m => normalize_review_result (review_of_match m)
  end.

(** Code: runtime/execution/reviews/structured.py, structured_review_warnings. *)
Definition structured_review_warnings (m : StructuredReviewMatch) (normalized : ParsedReviewResult) : list string :=
  sm_warnings m
  ++ (if not_blank (suffix m) then ["Ignored commentary below the structured review block during review parsing."] else [])
  ++ (if bool_decide (sm_verdict m = verdict normalized) then []
      else ["Normalized reviewer verdict from " +:+ sm_verdict m +:+ " to " +:+ verdict normalized
            +:+ " based on section content."]).

(** ** Plain-language reviews *)

(** Code: runtime/execution/reviews/plain_language.py, _APPROVAL_CUES. *)
Definition APPROVAL_CUES : list string :=
  ["approved"; "good to go"; "lgtm"; "looks good"; "looks great"; "looks solid"; "merge ready";
   "no blockers"; "no blocking issues"; "ready to merge"; "ship it"].

(** Code: runtime/execution/reviews/plain_language.py, _BLOCKER_CUES. *)
Definition BLOCKER_CUES : list string :=
  ["blocker remains"; "blockers remain"; "can not approve"; "cannot approve"; "changes requested";
   "do not approve"; "issue remains"; "issues remain"; "must fix"; "needs changes"; "not good to go";
   "not lgtm"; "not approved"; "not ready"; "not ready to merge"; "remaining blocker";
   "remaining blockers"; "remaining issue"; "remaining issues"; "should fix"].

(** Code: runtime/execution/reviews/plain_language.py, contains_cue. *)
Definition contains_cue (normalized_output cue : string) : bool :=
  str_contains (" " +:+ cue +:+ " ") (" " +:+ normalized_output +:+ " ").

(** Code: runtime/execution/reviews/plain_language.py, PlainLanguageReviewInference. *)
Record PlainLanguageReviewInference := mkInference {
  inf_parsed : ParsedReviewResult;
  inf_kind : string;
  inf_warnings : list string
}.

(** The whole text, case-folded, with single spaces and without one final
    full stop or exclamation mark. *)
Definition approval_text (stripped_output : string) : string :=
  let joined := str_join " " (str_split (str_lower stripped_output)) in
  if str_endswith "." joined || str_endswith "!" joined
  then of_chars (take (length (chars joined) - 1) (chars joined)) else joined.

(** Code: runtime/execution/reviews/plain_language.py, infer_plain_language_review. *)
Definition infer_plain_language_review (output : string) : option PlainLanguageReviewInference :=
  let stripped_output := str_strip output in
  if negb (nonempty stripped_output) then None
  else
    let normalized_output := normalize_text_token stripped_output in
    let has_blocker := existsb (contains_cue normalized_output) BLOCKER_CUES in
    if str_in (approval_text stripped_output) APPROVAL_CUES then
      Some (mkInference (mkReview VERDICT_NO_FINDINGS REQUIRED_EMPTY_SENTINEL REQUIRED_EMPTY_SENTINEL
                           REQUIRED_EMPTY_SENTINEL) "plain_language_approval"
              ["Inferred NO_FINDINGS approval from plain-language reviewer output."])
    else if has_blocker then
      Some (mkInference (mkReview VERDICT_CHANGES_REQUESTED REQUIRED_EMPTY_SENTINEL stripped_output
                           REQUIRED_EMPTY_SENTINEL) "plain_language_changes_requested"
              ["Inferred CHANGES_REQUESTED from blocker language in unstructured reviewer output."])
    else None.

(** ** Issues and fingerprints *)

Definition is_item_bullet (c : ascii) : bool := is_char c "-" || is_char c "*" || is_char c "+".

(** The text after an issue marker: leading blanks, then a bullet or a number
    with a dot, then at least one blank.
    Code: runtime/execution/reviews/fingerprints.py, _ISSUE_ITEM_MARKER_PATTERN. *)
Definition match_issue_marker (line : text) : option text :=
  let after_blank rest := match rest with
                          | c :: _ => if is_space c then Some (drop_while is_space rest) else None
                          | [] => None
                          end in
  let l := drop_while is_space line in
  match l with
  | [] => None
  | c :: rest =>
      if is_item_bullet c then after_blank rest
      else
        let '(digits, rest) := span is_digit l in
        match digits, rest with
        | _ :: _, dot :: rest => if is_char dot "." then after_blank rest else None
        | _, _ => None
        end
  end.

(** Code: runtime/execution/reviews/fingerprints.py, _append_issue. *)
Definition append_issue (issues current_issue : list string) : list string :=
  let issue := str_strip (str_join lf_str (List.filter nonempty current_issue)) in
  if nonempty issue then issues ++ [issue] else issues.

(** One line of the loop of [_split_review_issues].
    Code: runtime/execution/reviews/fingerprints.py:128-134. *)
Definition split_issue_line (acc : list string * list string) (raw_line : string) : list string * list string :=
  let '(issues, current_issue) := acc in
  match match_issue_marker (chars raw_line) with
  | Some rest => (append_issue issues current_issue, [str_strip (of_chars rest)])
  | None =>
      if negb (bool_decide (current_issue = [])) || not_blank raw_line
      then (issues, current_issue ++ [str_strip raw_line]) else (issues, current_issue)
  end.

(** Code: runtime/execution/reviews/fingerprints.py, _split_review_issues. *)
Definition split_review_issues (content : string) : list string :=
  let '(issues, current) := foldl split_issue_line ([], []) (str_splitlines (str_strip content)) in
  match append_issue issues current with
  | [] => [str_strip content]
  | issues => issues
  end.

(** Code: runtime/execution/reviews/fingerprints.py, count_unresolved_issues. *)
Definition count_unresolved_issues (r : ParsedReviewResult) : Z :=
  foldl (fun count content =>
    if is_empty_section content None then count
    else count + Z.of_nat (length (split_review_issues content))) 0 [rv_major r; rv_minor r].

Definition path_char (c : ascii) : bool :=
  is_lower c || is_upper c || is_digit c || is_char c "_" || is_char c "." || is_char c "/" || is_char c "-".
Definition word_char (c : ascii) : bool := is_lower c || is_upper c || is_digit c || is_char c "_".

(** Greedy search for the last dot of a path that is followed by a word. *)
Fixpoint last_suffix (before : nat) (l : text) : option nat :=
  match l with
  | [] => None
  | c :: t =>
      match last_suffix (S before) t with
      | Some n => Some n
      | None =>
          match t with
          | d :: _ => if is_char c "." && word_char d && negb (before =? 0)%nat
                      then Some (before + 1 + length (fst (span word_char t)))%nat else None
          | [] => None
          end
      end
  end.

(** Code: runtime/execution/reviews/fingerprints.py, _PATH_REFERENCE_PATTERN. *)
Definition match_path_reference (l : text) : option (text * nat) :=
  let run := fst (span path_char l) in
  match last_suffix 0 run with
  | None => None
  | Some n =>
      let tail :=
        match drop n l with
        | colon :: rest =>
            let '(d1, rest) := span is_digit rest in
            if is_char colon ":" && negb (bool_decide (d1 = [])) then
              match rest with
              | dash :: rest =>
                  let d2 := fst (span is_digit rest) in
                  if is_char dash "-" && negb (bool_decide (d2 = []))
                  then (2 + length d1 + length d2)%nat else (1 + length d1)%nat
              | [] => (1 + length d1)%nat
              end
            else O
        | [] => O
        end in
      Some (take n l, (n + tail)%nat)
  end.

Definition sorted_set (l : list string) : list string := sorted_str (remove_dups l).

(** Code: runtime/execution/reviews/fingerprints.py, _extract_issue_references. *)
Definition extract_issue_references (issue : string) : list string :=
  sorted_set (map (fun p => str_lower (of_chars p)) (find_all match_path_reference 0 (chars issue))).

(** Code: runtime/execution/reviews/fingerprints.py, _REFERENCE_FINGERPRINT_STOPWORDS. *)
Definition REFERENCE_FINGERPRINT_STOPWORDS : list string :=
  ["a"; "an"; "and"; "any"; "are"; "before"; "change"; "changes"; "ensure"; "executor"; "file"; "files";
   "fix"; "for"; "in"; "issue"; "issues"; "line"; "lines"; "make"; "missing"; "need"; "needed"; "needs";
   "on"; "only"; "or"; "path"; "review"; "reviewer"; "still"; "that"; "the"; "these"; "this"; "those";
   "to"; "update"; "use"; "used"; "using"; "with"; "without"].

(** Maximal runs of [a-z0-9]. *)
Fixpoint alnum_runs (acc l : text) : list text :=
  match l with
  | [] => match acc with [] => [] | _ => [reverse acc] end
  | c :: t => if is_alnum c then alnum_runs (c :: acc) t
              else match acc with [] => alnum_runs [] t | _ => reverse acc :: alnum_runs [] t end
  end.

(** Code: runtime/execution/reviews/fingerprints.py, _extract_issue_keywords. *)
Definition extract_issue_keywords (issue : string) : list string :=
  let scrubbed := sub_all match_path_reference (fun _ => [ascii_of_N 32]) 0 (chars (str_lower issue)) in
  foldl (fun (keywords : list string) token =>
    if (String.length token <? 4)%nat || str_in token REFERENCE_FINGERPRINT_STOPWORDS || str_in token keywords
    then keywords else keywords ++ [token]) [] (map of_chars (alnum_runs [] scrubbed)).

Definition MAX_REFERENCE_FINGERPRINT_KEYWORDS : nat := 3.

Definition digest12 (s : string) : string := String.substring 0 12 (sha256_hex s).

(** Code: runtime/execution/reviews/fingerprints.py, _fingerprint_review_section. *)
Definition fingerprint_review_section (severity content : string) : string :=
  digest12 (severity +:+ ":" +:+ normalize_text_token content).

(** Code: runtime/execution/reviews/fingerprints.py, _build_reference_fingerprints. *)
Definition build_reference_fingerprints (severity issue : string) : list string :=
  let keywords := take MAX_REFERENCE_FINGERPRINT_KEYWORDS (extract_issue_keywords issue) in
  concat (map (fun reference => map (fun keyword =>
    digest12 (severity +:+ ":ref:" +:+ reference +:+ ":" +:+ keyword)) keywords) (extract_issue_references issue)).

(** Code: runtime/execution/reviews/fingerprints.py, build_unresolved_fingerprints. *)
Definition build_unresolved_fingerprints (r : ParsedReviewResult) : list string :=
  sorted_set (concat (map (fun '(severity, content) =>
    if is_empty_section content None then []
    else concat (map (fun issue =>
           fingerprint_review_section severity issue :: build_reference_fingerprints severity issue)
           (split_review_issues content)))
    [("major", rv_major r); ("minor", rv_minor r)])).

(** ** Evaluation and consensus *)

(** Code: runtime/execution/reviews/consensus.py, is_approved_verdict. *)
Definition is_approved_verdict (v : option string) : bool :=
  match v with None => false | Some v => str_in v [VERDICT_NITS_ONLY; VERDICT_NO_FINDINGS] end.

(** Code: runtime/execution/reviews/consensus.py, build_evaluated_review_result. *)
Definition build_evaluated_review_result (parsed : ParsedReviewResult) (raw kind : string) (warns : list string)
    (original : option string) (leading trailing : bool) : EvaluatedReviewResult :=
  {| ev_verdict := Some (verdict parsed);
     approved := is_approved_verdict (Some (verdict parsed));
     ev_major := rv_major parsed; ev_minor := rv_minor parsed; ev_nits := rv_nits parsed;
     unresolved_fingerprints := build_unresolved_fingerprints parsed;
     unresolved_issue_count := count_unresolved_issues parsed;
     normalized_markdown := render_review_contract parsed;
     raw_text := raw; evaluation_kind := kind; warnings := warns; original_verdict := original;
     had_leading_text := leading; had_trailing_text := trailing; unstructured_feedback := None |}.

(** Code: runtime/execution/reviews/consensus.py, render_unstructured_review_feedback. *)
Definition render_unstructured_review_feedback (raw : string) : string :=
  str_join lf_str
    ["# Unstructured Reviewer Feedback"; "";
     "The runtime could not normalize this reviewer response into Major Issues, Minor Issues, or Nitpicks. "
       +:+ "Treat the content below as raw reviewer feedback, not as normalized candidate findings."; "";
     "## Raw Feedback"; ""; if nonempty raw then raw else "No reviewer text was available."; ""].

(** Code: runtime/execution/reviews/consensus.py, build_unstructured_review_feedback_result. *)
Definition build_unstructured_review_feedback_result (raw warning : string) (original : option string)
    (leading trailing : bool) : EvaluatedReviewResult :=
  let feedback := str_strip raw in
  {| ev_verdict := None; approved := false;
     ev_major := REQUIRED_EMPTY_SENTINEL; ev_minor := REQUIRED_EMPTY_SENTINEL; ev_nits := REQUIRED_EMPTY_SENTINEL;
     unresolved_fingerprints := []; unresolved_issue_count := 0;
     normalized_markdown := render_unstructured_review_feedback feedback;
     raw_text := raw; evaluation_kind := "unstructured_feedback"; warnings := [warning];
     original_verdict := original; had_leading_text := leading; had_trailing_text := trailing;
     unstructured_feedback := Some feedback |}.

(** Code: runtime/execution/reviews/consensus.py, evaluate_review_output. *)
Definition evaluate_review_output (output : string) : outcome EvaluatedReviewResult :=
  match extract_structured_review output with
  | Raise (OtherError "ReviewContractError" msg) =>
      Ok (build_unstructured_review_feedback_result output
            ("Reviewer output looked like a structured review, but it could not be parsed safely. "
             +:+ "Preserving it as unstructured reviewer feedback: " +:+ msg)
            (extract_final_review_verdict output) false false)
  | Raise e => Raise e
  | OutOfFuel => OutOfFuel
  | Ok (Some m) =>
      match normalize_review_result (review_of_match m) with
      | Raise (OtherError "ReviewContractError" msg) =>
          Ok (build_unstructured_review_feedback_result output
                ("Reviewer output included a structured review block, but it could not be normalized. "
                 +:+ "Preserving it as unstructured reviewer feedback: " +:+ msg)
                (Some (sm_verdict m)) (not_blank (prefix m)) (not_blank (suffix m)))
      | Raise e => Raise e
      | OutOfFuel => OutOfFuel
      | Ok parsed =>
          Ok (build_evaluated_review_result parsed output "structured" (structured_review_warnings m parsed)
                (Some (sm_verdict m)) (not_blank (prefix m)) (not_blank (suffix m)))
      end
  | Ok None =>
      if review_output_uses_structured_contract output then
        Ok (build_unstructured_review_feedback_result output
              ("Reviewer output contained structured review markers, but no safe structured review result "
               +:+ "could be extracted. Preserving it as unstructured reviewer feedback.")
              (extract_final_review_verdict output) false false)
      else
        match infer_plain_language_review output with
        | Some inferred =>
            Ok (build_evaluated_review_result (inf_parsed inferred) output (inf_kind inferred)
                  (inf_warnings inferred) None false false)
        | None =>
            Ok (build_unstructured_review_feedback_result output
                  ("Reviewer output did not include a structured review block, and approval could not be "
                   +:+ "inferred from plain-language cues. Preserving it as unstructured reviewer feedback.")
                  None false false)
        end
  end.

(** Code: runtime/execution/reviews/consensus.py, check_consensus. *)
Definition check_consensus (results : list EvaluatedReviewResult) : bool :=
  match results with [] => false | _ => forallb approved results end.

End WithLibraries.

(** ** Theorems *)

(* The text functions are reasoned about through lemmas, never by unfolding. *)
#[local] Opaque is_empty_section normalize_text_token str_strip str_upper str_in quoted String.append.

Section ReviewTheorems.
Context {libs : ReviewLibraries}.

Lemma split_review_issues_nonempty content : split_review_issues content <> [].
Proof.
  unfold split_review_issues. destruct (foldl split_issue_line ([], []) _) as [issues current].
  destruct (append_issue issues current); done.
Qed.

Lemma sorted_set_nil l : sorted_set l = [] <-> l = [].
Proof.
  unfold sorted_set. rewrite sorted_str_nil. split; [|by intros ->].
  destruct l as [|x l]; [done|]. intros H. exfalso. apply (not_elem_of_nil x). rewrite <- H.
  apply elem_of_remove_dups. left.
Qed.

(** A review has no unresolved issue, equivalently no unresolved fingerprint, exactly when
    both its major and its minor section are empty: a non-empty section always yields at least one
    issue, however its text is laid out. *)
Theorem unresolved_iff_open_sections (r : ParsedReviewResult) :
  (count_unresolved_issues r = 0 <->
     is_empty_section (rv_major r) None = true /\ is_empty_section (rv_minor r) None = true) /\
  (build_unresolved_fingerprints r = [] <->
     is_empty_section (rv_major r) None = true /\ is_empty_section (rv_minor r) None = true) /\
  0 <= count_unresolved_issues r.
Proof.
  assert (forall c, (0 < length (split_review_issues c))%nat) as Hpos.
  { intros c. pose proof (split_review_issues_nonempty c). destruct (split_review_issues c); simpl; [done | lia]. }
  pose proof (Hpos (rv_major r)). pose proof (Hpos (rv_minor r)).
  assert (forall sev c, concat (map (fun issue => fingerprint_review_section sev issue ::
      build_reference_fingerprints sev issue) (split_review_issues c)) <> []) as Hne.
  { intros sev c. pose proof (split_review_issues_nonempty c). by destruct (split_review_issues c). }
  unfold count_unresolved_issues, build_unresolved_fingerprints. rewrite sorted_set_nil. simpl. rewrite app_nil_r.
  destruct (is_empty_section (rv_major r) None), (is_empty_section (rv_minor r) None); simpl;
    (split_and!; [split; [try lia | intuition (try lia; congruence)] | | lia]); try done;
    (split; [|intuition congruence]); intros Hnil; exfalso.
  - by apply Hne in Hnil.
  - apply app_eq_nil in Hnil as [Hnil _]. by apply Hne in Hnil.
  - apply app_eq_nil in Hnil as [Hnil _]. by apply Hne in Hnil.
Qed.

(** *** Normalization *)

Lemma none_is_empty name : is_empty_section REQUIRED_EMPTY_SENTINEL name = true.
Proof. destruct name; vm_compute; reflexivity. Qed.

Lemma normalize_section_idemp name c c' :
  normalize_review_section name c = Ok c' -> normalize_review_section name c' = Ok c' /\ nonempty c' = true.
Proof.
  unfold normalize_review_section. destruct (nonempty (str_strip c)) eqn:Hn; simpl; [|done].
  destruct (is_empty_section (str_strip c) (Some name)) eqn:He.
  - intros [= <-]. split; [|done].
    assert (str_strip REQUIRED_EMPTY_SENTINEL = REQUIRED_EMPTY_SENTINEL) as -> by (vm_compute; reflexivity).
    rewrite none_is_empty. reflexivity.
  - intros H. inv_ok. subst. rewrite str_strip_idemp, Hn, He. simpl. split; [|done].
    destruct a. rewrite Hok. done.
Qed.

Lemma canonical_cases r :
  (canonical_review_verdict r = VERDICT_CHANGES_REQUESTED /\
     (verdict r = VERDICT_CHANGES_REQUESTED \/ is_empty_section (rv_major r) None = false \/
      is_empty_section (rv_minor r) None = false)) \/
  (canonical_review_verdict r = VERDICT_NITS_ONLY /\ verdict r <> VERDICT_CHANGES_REQUESTED /\
     is_empty_section (rv_major r) None = true /\ is_empty_section (rv_minor r) None = true /\
     is_empty_section (rv_nits r) None = false) \/
  (canonical_review_verdict r = VERDICT_NO_FINDINGS /\ verdict r <> VERDICT_CHANGES_REQUESTED /\
     is_empty_section (rv_major r) None = true /\ is_empty_section (rv_minor r) None = true /\
     is_empty_section (rv_nits r) None = true).
Proof.
  unfold canonical_review_verdict. case_bool_decide as Hv; simpl; [left; tauto|].
  destruct (is_empty_section (rv_major r) None); simpl; [|left; tauto].
  destruct (is_empty_section (rv_minor r) None); simpl; [|left; tauto].
  destruct (is_empty_section (rv_nits r) None); simpl; tauto.
Qed.

Lemma canonical_stable v major minor nits :
  let c := canonical_review_verdict (mkReview v major minor nits) in
  canonical_review_verdict (mkReview (str_upper (str_strip c)) major minor nits) = c.
Proof.
  simpl. destruct (canonical_cases (mkReview v major minor nits)) as [[-> H]|[(-> & _ & H1 & H2 & H3)|(-> & _ & H1 & H2 & H3)]].
  - assert (str_upper (str_strip VERDICT_CHANGES_REQUESTED) = VERDICT_CHANGES_REQUESTED) as -> by (vm_compute; reflexivity).
    done.
  - assert (str_upper (str_strip VERDICT_NITS_ONLY) = VERDICT_NITS_ONLY) as -> by (vm_compute; reflexivity).
    unfold canonical_review_verdict. simpl in *. by rewrite H1, H2, H3.
  - assert (str_upper (str_strip VERDICT_NO_FINDINGS) = VERDICT_NO_FINDINGS) as -> by (vm_compute; reflexivity).
    unfold canonical_review_verdict. simpl in *. by rewrite H1, H2, H3.
Qed.

(** Normalizing a review is idempotent, and the normalized verdict is determined by the
    sections: CHANGES_REQUESTED when the reviewer asked for changes or a major or minor issue is open,
    NITS_ONLY when only nitpicks are left, NO_FINDINGS when nothing is. *)
Theorem normalize_review_idempotent (r r' : ParsedReviewResult) :
  normalize_review_result r = Ok r' ->
  normalize_review_result r' = Ok r' /\
  (verdict r' = VERDICT_CHANGES_REQUESTED <->
     str_upper (str_strip (verdict r)) = VERDICT_CHANGES_REQUESTED \/
     is_empty_section (rv_major r') None = false \/ is_empty_section (rv_minor r') None = false) /\
  (verdict r' = VERDICT_NITS_ONLY \/ verdict r' = VERDICT_NO_FINDINGS ->
     (verdict r' = VERDICT_NITS_ONLY <-> is_empty_section (rv_nits r') None = false)) /\
  str_in (verdict r') VALID_REVIEW_VERDICTS = true.
Proof.
  intros H. unfold normalize_review_result in H. inv_ok. subst. unfold normalize_review_result.
  cbn [rv_major rv_minor rv_nits verdict].
  destruct (normalize_section_idemp _ _ _ Hok) as [-> _]. destruct (normalize_section_idemp _ _ _ Hok0) as [-> _].
  destruct (normalize_section_idemp _ _ _ Hok1) as [-> _]. cbn [mbind outcome_bind].
  set (v := str_upper (str_strip (verdict r))). unfold mret, outcome_ret.
  rewrite (canonical_stable v a a0 a1). split; [done|].
  destruct (canonical_cases (mkReview v a a0 a1)) as [[-> Hc]|[(-> & Hv & H1 & H2 & H3)|(-> & Hv & H1 & H2 & H3)]]; simpl in *.
  - split_and!; [tauto | intros [Hx|Hx]; discriminate Hx | vm_compute; reflexivity].
  - rewrite H1, H2, H3. split_and!; [|done|vm_compute; reflexivity]. split; [discriminate|]. intros [?|[?|?]]; done.
  - rewrite H1, H2, H3. split_and!; [| |vm_compute; reflexivity].
    + split; [discriminate|]. intros [?|[?|?]]; done.
    + intros _. split; [discriminate | done].
Qed.

Lemma normalize_review_idempotent_witness :
  let r' := mkReview VERDICT_NITS_ONLY "None" "None" "Rename the helper." in
  normalize_review_result r' = Ok r' /\ (verdict r' = VERDICT_NITS_ONLY <-> is_empty_section (rv_nits r') None = false).
Proof.
  destruct (normalize_review_idempotent (mkReview " no_findings" "none." "No minor issues" "Rename the helper. ")
              (mkReview VERDICT_NITS_ONLY "None" "None" "Rename the helper.")) as (H1 & _ & H3 & _);
    [vm_compute; reflexivity|].
  split; [exact H1 | apply H3; left; reflexivity].
Defined.

(** *** Approval *)

(** Errors of the extraction and normalization are contract errors. *)
Definition contract_outcome {A} (o : outcome A) : Prop :=
  match o with Ok _ => True | Raise e => exists m, e = ReviewContractError m | OutOfFuel => False end.

Lemma contract_bind {A B} (m : outcome A) (f : A -> outcome B) :
  contract_outcome m -> (forall a, m = Ok a -> contract_outcome (f a)) -> contract_outcome (m ≫= f).
Proof. destruct m; simpl; auto. Qed.

Lemma validate_content_contract name c : contract_outcome (validate_review_section_content name c).
Proof.
  unfold validate_review_section_content. generalize (str_splitlines c). intros l. generalize tt.
  induction l as [|x l IH]; intros u; simpl; [done|].
  repeat (case_bool_decide || destruct (str_startswith _ _) || destruct (is_review_heading _)); simpl; eauto.
Qed.

Lemma normalize_section_contract name c : contract_outcome (normalize_review_section name c).
Proof.
  unfold normalize_review_section. destruct (negb _); simpl; [eauto|]. destruct (is_empty_section _ _); [done|].
  apply contract_bind; [apply validate_content_contract | done].
Qed.

Lemma normalize_contract r : contract_outcome (normalize_review_result r).
Proof. unfold normalize_review_result. repeat (apply contract_bind; [apply normalize_section_contract|intros ? _]). done. Qed.

Lemma extract_contract output : contract_outcome (extract_structured_review output).
Proof.
  unfold extract_structured_review. destruct (extract_final_review_verdict output) as [v|]; [|done].
  destruct (final_review_verdict_line output) as [n|]; [|done].
  destruct (final_review_heading_run _) as [|h t]; [done|]. apply contract_bind.
  { unfold validate_review_heading_run. repeat case_bool_decide; simpl; eauto. }
  intros [] _. apply contract_bind.
  { unfold review_content_end_line. destruct (skip_blank_back _ _); simpl; [eauto|]. case_bool_decide; simpl; eauto. }
  intros e _. apply contract_bind; [|by intros [? ?]].
  unfold repair_missing_sections. repeat case_bool_decide; simpl; eauto.
Qed.

(** Line [i] of the output, outside code blocks, gives the verdict [v]. *)
Definition verdict_at (output : string) (i : nat) (v : string) : Prop :=
  i ∉ code_block_lines output /\ exists line, str_splitlines output !! i = Some line /\ match_verdict_line line = Some v.

(** It is the last such line. *)
Definition final_verdict (output : string) (i : nat) (v : string) : Prop :=
  verdict_at output i v /\ forall j w, verdict_at output j w -> (j <= i)%nat.

(** Line [k] is the delimiter before the verdict of line [i]. *)
Definition delimiter_before (output : string) (i k : nat) : Prop :=
  (k < i)%nat /\ str_strip (default "" (str_splitlines_keep output !! k)) = "---" /\
  forall j, (k < j < i)%nat -> not_blank (default "" (str_splitlines_keep output !! j)) = false.

(** The text between the heading [h] and what follows it: the next heading or
    line [k]. *)
Definition text_under (output : string) (h : ReviewHeading) (after : list ReviewHeading) (k : nat) : string :=
  str_join "" (slice (str_splitlines_keep output) (content_start_line h) (default k (start_line <$> head after))).

(** Section [s] reports nothing: it is the last of its name, only sections of
    the contract follow it, and its text up to the delimiter says so; or the
    output has no such section, neither in its last block nor on a line before
    it. *)
Definition reports_nothing (output : string) (i k : nat) (s : ReviewSection) : Prop :=
  let headings := collect_root_h2_review_headings output (Some i) in
  (exists before h after, headings = before ++ h :: after /\ section h = Some s /\
     Forall (fun h' => is_Some (section h') /\ section h' <> Some s) after /\
     is_empty_section (str_strip (text_under output h after k)) (Some (display_name s)) = true) \/
  (exists before first after, headings = before ++ first :: after /\ Forall (fun h => section h <> Some s) (first :: after) /\
     Forall (fun h => (start_line h < start_line first)%nat -> section h <> Some s) before).

(** What an approval may rest on: the final verdict line and the sections of the
    block it ends, or a text that is nothing but an approval. *)
Definition no_open_issues (output : string) (ev : EvaluatedReviewResult) : Prop :=
  (ev_verdict ev = Some VERDICT_NITS_ONLY \/ ev_verdict ev = Some VERDICT_NO_FINDINGS) /\
  unstructured_feedback ev = None /\
  ((exists i k v, final_verdict output i v /\ (v = VERDICT_NITS_ONLY \/ v = VERDICT_NO_FINDINGS) /\ delimiter_before output i k /\
      reports_nothing output i k major_issues /\ reports_nothing output i k minor_issues) \/
   ((forall i v, ~ verdict_at output i v) /\ Forall (fun h => section h = None) (collect_root_h2_review_headings output None) /\
    approval_text (str_strip output) ∈ APPROVAL_CUES)).

Lemma approved_verdict v : is_approved_verdict (Some v) = true <-> v = VERDICT_NITS_ONLY \/ v = VERDICT_NO_FINDINGS.
Proof. unfold is_approved_verdict. rewrite str_in_true. set_solver. Qed.

(** *** The final verdict line *)

Lemma match_verdict_valid line v : match_verdict_line line = Some v -> str_in v VALID_REVIEW_VERDICTS = true.
Proof. unfold match_verdict_line. destruct (str_startswith _ _); [|done]. destruct (str_in _ _) eqn:H; [|done]. by intros [= <-]. Qed.

(** The loop keeps the last line that matches. *)
Lemma verdict_loop (ignored : list nat) (lines : list string) :
  match foldl (fun (found : option nat) '(index, line) =>
      if bool_decide (index ∈ ignored) then found
      else match match_verdict_line line with Some _ => Some index | None => found end)
      None (imap (fun i line => (i, line)) lines) with
  | Some i => exists line v, i ∉ ignored /\ lines !! i = Some line /\ match_verdict_line line = Some v /\
      forall j line' w, j ∉ ignored -> lines !! j = Some line' -> match_verdict_line line' = Some w -> (j <= i)%nat
  | None => forall j line' w, j ∉ ignored -> lines !! j = Some line' -> match_verdict_line line' <> Some w
  end.
Proof.
  induction lines as [|x lines IH] using rev_ind; [done|]. rewrite imap_app, foldl_app. cbn [imap foldl].
  rewrite Nat.add_0_r. set (found := foldl _ _ _) in *. clearbody found.
  assert (Hlast : forall j line', (lines ++ [x]) !! j = Some line' -> lines !! j = Some line' \/ (j = length lines /\ line' = x)).
  { intros j line' Hj. apply lookup_app_Some in Hj as [Hj|[Hle Hj]]; [by left|]. right.
    destruct (j - length lines)%nat eqn:Hd; [|done]. injection Hj as ->. split; [lia | done]. }
  assert (Hkeep : forall i line, lines !! i = Some line -> (lines ++ [x]) !! i = Some line) by (intros i line Hi; by apply lookup_app_l_Some).
  destruct (bool_decide (length lines ∈ ignored)) eqn:Hig; [|destruct (match_verdict_line x) as [v|] eqn:Hx].
  - apply bool_decide_eq_true in Hig. destruct found as [i|].
    + destruct IH as (line & v & H1 & H2 & H3 & H4). exists line, v. split_and!; [done|by apply Hkeep|done|].
      intros j line' w Hj [Hl|[-> ->]]%Hlast Hm; [by eapply H4 | done].
    + intros j line' w Hj [Hl|[-> ->]]%Hlast; [by eapply IH | done].
  - apply bool_decide_eq_false in Hig. exists x, v. split_and!; [done|by rewrite lookup_app_r, Nat.sub_diag|done|].
    intros j line' w Hj [Hl|[-> ->]]%Hlast _; [|done]. apply lookup_lt_Some in Hl. lia.
  - destruct found as [i|].
    + destruct IH as (line & v & H1 & H2 & H3 & H4). exists line, v. split_and!; [done|by apply Hkeep|done|].
      intros j line' w Hj [Hl|[-> ->]]%Hlast Hm; [by eapply H4 | by rewrite Hx in Hm].
    + intros j line' w Hj [Hl|[-> ->]]%Hlast; [by eapply IH | by rewrite Hx].
Qed.

Lemma final_line_spec output :
  match final_review_verdict_line output with
  | Some i => exists v, extract_final_review_verdict output = Some v /\ final_verdict output i v /\ str_in v VALID_REVIEW_VERDICTS = true
  | None => extract_final_review_verdict output = None /\ forall i v, ~ verdict_at output i v
  end.
Proof.
  pose proof (verdict_loop (code_block_lines output) (str_splitlines output)) as H.
  fold (final_review_verdict_line output) in H. unfold extract_final_review_verdict.
  destruct (final_review_verdict_line output) as [i|]; cbn [mbind option_bind].
  - destruct H as (line & v & H1 & H2 & H3 & H4). exists v. rewrite H2. cbn [mbind option_bind].
    split_and!; [done|split|by eapply match_verdict_valid]; [split; [done|]; by exists line|].
    intros j w [Hj (line' & Hl & Hm)]. by eapply H4.
  - split; [done|]. intros i v [Hi (line & Hl & Hm)]. by eapply H.
Qed.

(** *** The block of the final verdict *)

Lemma delimiter_spec output i k :
  review_content_end_line (str_splitlines_keep output) i = Ok k -> delimiter_before output i k.
Proof.
  unfold review_content_end_line, delimiter_before. generalize (str_splitlines_keep output). intros lines.
  assert (Hs : (skip_blank_back lines i <= i)%nat /\
    forall j, (skip_blank_back lines i <= j < i)%nat -> not_blank (default "" (lines !! j)) = false).
  { induction i as [|i IH]; cbn [skip_blank_back]; [split; [done | intros j; lia]|].
    destruct (not_blank (default "" (lines !! i))) eqn:Hb; [split; [done | intros j; lia]|]. destruct IH as [H1 H2]. split; [lia|].
    intros j Hj. destruct (decide (j = i)) as [->|Hne]; [done|]. apply H2. lia. }
  destruct Hs as [H1 H2]. destruct (skip_blank_back lines i) as [|k']; [done|]. case_bool_decide as Hd; [|done]. intros [= <-].
  split_and!; [lia|done|]. intros j Hj. apply H2. lia.
Qed.

(** The sections that end the document, and what is before them. *)
Lemma final_run_suffix headings : exists before, headings = before ++ final_review_heading_run headings /\
  Forall (fun h => is_Some (section h)) (final_review_heading_run headings).
Proof.
  assert (H : forall l, exists rest, l = review_run l ++ rest /\ Forall (fun h => is_Some (section h)) (review_run l)).
  { induction l as [|h l (rest & Hl & Hall)]; cbn [review_run]; [by exists []|]. destruct (section h) as [s|] eqn:Hs; [|by eexists].
    exists rest. cbn. split; [by f_equal|]. constructor; [by eexists | done]. }
  destruct (H (reverse headings)) as (rest & Hl & Hall). unfold final_review_heading_run. exists (reverse rest). split.
  - rewrite <- reverse_app, <- Hl. by rewrite reverse_involutive.
  - by apply Forall_reverse.
Qed.

(** The text that is kept for a section is that under its last heading. *)
Lemma collected_text lines headings k acc s t :
  collect_review_section_content lines headings k acc s = Some t ->
  (exists before h after, headings = before ++ h :: after /\ section h = Some s /\ Forall (fun h' => section h' <> Some s) after /\
     t = str_join "" (slice lines (content_start_line h) (default k (start_line <$> head after)))) \/
  (Forall (fun h => section h <> Some s) headings /\ acc s = Some t).
Proof.
  revert acc. induction headings as [|h rest IH]; intros acc Ht; cbn [collect_review_section_content] in Ht; [by right|].
  destruct (IH _ Ht) as [(before & h' & after & -> & Hs & Hall & Heq)|[Hall Hacc]].
  - left. exists (h :: before), h', after. by split_and!.
  - destruct (section h) as [s'|] eqn:Hh; [|right; split; [by constructor; [rewrite Hh|]|done]].
    destruct (decide (s = s')) as [->|Hne].
    + left. exists [], h, rest. injection Hacc as <-. split_and!; [done..|]. by destruct rest.
    + right. split; [|done]. constructor; [|done]. rewrite Hh. by intros [= ->].
Qed.

Lemma collected_kept lines headings k acc s :
  is_Some (acc s) -> is_Some (collect_review_section_content lines headings k acc s).
Proof.
  revert acc. induction headings as [|h l IH]; intros acc Ha; cbn [collect_review_section_content]; [done|]. apply IH.
  destruct (section h) as [s'|]; [|done]. destruct (decide (s = s')); [by eexists | done].
Qed.

Lemma uncollected lines headings k acc s :
  collect_review_section_content lines headings k acc s = None -> Forall (fun h => section h <> Some s) headings.
Proof.
  revert acc. induction headings as [|h rest IH]; intros acc Ht; cbn [collect_review_section_content] in Ht; [done|].
  constructor; [|by eapply IH]. intros Hs. rewrite Hs in Ht. eapply eq_None_not_Some; [exact Ht|]. apply collected_kept.
  cbv beta. rewrite decide_True by done. by eexists.
Qed.

(** A section that is read as empty reports nothing. *)
Lemma empty_section_normalized name c c' :
  normalize_review_section name c = Ok c' -> is_empty_section c' None = true -> is_empty_section (str_strip c) (Some name) = true.
Proof.
  unfold normalize_review_section. destruct (negb _); [done|]. destruct (is_empty_section (str_strip c) (Some name)) eqn:He; [done|].
  intros H Hn. inv_ok. subst. exfalso. revert He Hn. with_strategy transparent [is_empty_section] unfold is_empty_section.
  by destruct (str_in _ GENERIC_EMPTY_SENTINELS).
Qed.

(** What a structured review is read from. *)
Definition section_text (m : StructuredReviewMatch) (s : ReviewSection) : string :=
  match s with major_issues => sm_major m | minor_issues => sm_minor m | nitpicks => sm_nits m end.

Lemma extract_spec output m :
  extract_structured_review output = Ok (Some m) ->
  exists i k, final_verdict output i (sm_verdict m) /\ str_in (sm_verdict m) VALID_REVIEW_VERDICTS = true /\ delimiter_before output i k /\
    forall s c, normalize_review_section (display_name s) (section_text m s) = Ok c -> is_empty_section c None = true ->
      reports_nothing output i k s.
Proof.
  unfold extract_structured_review. pose proof (final_line_spec output) as Hl.
  destruct (final_review_verdict_line output) as [i|]; [|destruct Hl as [-> _]; done]. destruct Hl as (v & -> & Hv & Hvalid).
  set (headings := collect_root_h2_review_headings output (Some i)).
  destruct (final_run_suffix headings) as (before & Hh & Hsec). set (run := final_review_heading_run headings) in *.
  destruct run as [|first after] eqn:Hrun; [done|]. intros H. apply bind_Ok in H as ([] & _ & H).
  apply bind_Ok in H as (k & Hk & H). apply bind_Ok in H as ([repaired warns] & Hr & H). injection H as <-.
  exists i, k. cbn [sm_verdict]. split_and!; [done..|by apply delimiter_spec|]. intros s c Hc Hempty.
  set (sections := collect_review_section_content (str_splitlines_keep output) (first :: after) k (fun _ => None)) in Hr.
  unfold repair_missing_sections in Hr. case_bool_decide as Hamb; [|done]. cbn [negb] in Hr. case_bool_decide as Hunr; [|done]. cbn [negb] in Hr.
  injection Hr as <- <-. cbn [section_text sm_major sm_minor sm_nits] in Hc.
  assert (Hc' : normalize_review_section (display_name s) (default REQUIRED_EMPTY_SENTINEL (sections s)) = Ok c) by (by destruct s).
  clear Hc. unfold reports_nothing. fold headings. rewrite Hh. destruct (sections s) as [t|] eqn:Hs; cbn [from_option id] in Hc'.
  - left. destruct (collected_text _ _ _ _ _ _ Hs) as [(b & h & a & Hspl & Hh' & Hall & ->)|[_ [=]]]. rewrite Hspl in Hsec |- *.
    exists (before ++ b), h, a. split_and!; [by rewrite app_assoc|done| |by eapply empty_section_normalized].
    apply Forall_app in Hsec as [_ Hsec]. apply Forall_cons in Hsec as [_ Hsec]. rewrite Forall_forall in *. intros x Hx. split; eauto.
  - right. exists before, first, after. split_and!; [done|by eapply uncollected|]. rewrite Forall_forall. intros h Hin Hlt Hsome.
    assert (Hmis : s ∈ List.filter (fun s => match sections s with None => true | Some _ => false end) SECTION_ORDER).
    { apply list_elem_of_In, filter_In. rewrite Hs. split; [by destruct s; cbn; auto | done]. }
    assert (Hearly : s ∈ collect_earlier_review_sections (before ++ first :: after) (first :: after)).
    { cbn [collect_earlier_review_sections]. apply list_elem_of_omap. exists h. split; [|done]. apply list_elem_of_In, filter_In.
      split; [apply list_elem_of_In, elem_of_app; by left | by apply Nat.ltb_lt]. }
    assert (Hin' : s ∈ @nil ReviewSection); [|by apply elem_of_nil in Hin'].
    rewrite <- Hamb. apply list_elem_of_In, filter_In. split; [by apply list_elem_of_In|]. rewrite <- Hh in Hearly. by apply bool_decide_eq_true.
Qed.

Lemma evaluate_structured output m p :
  extract_structured_review output = Ok (Some m) -> normalize_review_result (review_of_match m) = Ok p ->
  is_approved_verdict (Some (verdict p)) = true ->
  exists i k v, final_verdict output i v /\ (v = VERDICT_NITS_ONLY \/ v = VERDICT_NO_FINDINGS) /\ delimiter_before output i k /\
    reports_nothing output i k major_issues /\ reports_nothing output i k minor_issues.
Proof.
  intros Hm Hp Ha. apply approved_verdict in Ha. destruct (extract_spec output m Hm) as (i & k & Hf & Hv & Hd & Hsec).
  unfold normalize_review_result in Hp. inv_ok. subst p. cbn [verdict] in Ha. exists i, k, (sm_verdict m).
  assert (Hup : str_upper (str_strip (sm_verdict m)) = sm_verdict m).
  { apply str_in_true in Hv. unfold VALID_REVIEW_VERDICTS in Hv.
    repeat (apply elem_of_cons in Hv as [->|Hv]; [vm_compute; reflexivity|]). by apply elem_of_nil in Hv. }
  cbn [review_of_match verdict] in Ha. rewrite Hup in Ha. apply str_in_true in Hv.
  destruct (canonical_cases (mkReview (sm_verdict m) a a0 a1)) as [[E _]|[(E & Hne & H1 & H2 & _)|(E & Hne & H1 & H2 & _)]];
    rewrite E in Ha; cbn [verdict rv_major rv_minor] in *; [by destruct Ha|..].
  all: split_and!; [done| |done|by apply (Hsec major_issues a)|by apply (Hsec minor_issues a0)]; unfold VALID_REVIEW_VERDICTS in Hv; set_solver.
Qed.

Lemma evaluate_review_safe (output : string) :
  exists ev, evaluate_review_output output = Ok ev /\ (approved ev = true -> no_open_issues output ev).
Proof.
  unfold evaluate_review_output. pose proof (extract_contract output) as Hx.
  destruct (extract_structured_review output) as [[m|]|e|] eqn:Hm; simpl in Hx; [| |destruct Hx as [msg ->]|done].
  - pose proof (normalize_contract (review_of_match m)) as Hn.
    destruct (normalize_review_result (review_of_match m)) as [p|e|] eqn:Hp; simpl in Hn; [|destruct Hn as [msg ->]|done].
    + eexists. split; [done|]. intros Ha. cbn [approved build_evaluated_review_result] in Ha. split_and!; [|done|left; by eapply evaluate_structured].
      apply approved_verdict in Ha. cbn. destruct Ha as [->| ->]; [by left | by right].
    + simpl. by eexists.
  - destruct (review_output_uses_structured_contract output) eqn:Hc; [by eexists|].
    unfold infer_plain_language_review. destruct (negb _); [by eexists|].
    destruct (str_in (approval_text (str_strip output)) APPROVAL_CUES) eqn:Hcue.
    + eexists. split; [done|]. intros _. split_and!; [by right|done|]. right.
      unfold review_output_uses_structured_contract in Hc. pose proof (final_line_spec output) as Hl.
      destruct (final_review_verdict_line output) as [i|]; [destruct Hl as (v & Hv & _); by rewrite Hv in Hc|]. destruct Hl as [Hv Hno].
      rewrite Hv in Hc. split_and!; [done| |by apply str_in_true]. apply Forall_forall. intros h Hh.
      destruct (section h) as [s|] eqn:Hs; [|done]. exfalso. apply not_true_iff_false in Hc. apply Hc. apply existsb_exists.
      exists h. split; [by apply list_elem_of_In | by rewrite Hs].
    + destruct (existsb _ _); by eexists.
  - simpl. by eexists.
Qed.

(** The evaluation keeps the text it read. *)
Lemma evaluated_raw output ev : evaluate_review_output output = Ok ev -> raw_text ev = output.
Proof.
  unfold evaluate_review_output. intros H. repeat (case_match; simplify_eq; try done).
Qed.

(** C16 (safety): Evaluating any reviewer output terminates with a result, never an exception. A result is
    approved only when it is not kept as unstructured feedback and the output itself approves: either the last verdict line
    outside code blocks says NITS_ONLY or NO_FINDINGS, a delimiter precedes it, and in the block of sections before the delimiter
    the text under "Major Issues" and the text under "Minor Issues" say that there is nothing, or the section is absent there and
    on all lines before; or there is no verdict line and no section of the contract at all, and the whole output is one of the phrases
    of approval.
    Definitions: evaluate_review_output, extract_structured_review, extract_final_review_verdict, final_review_verdict_line, collect_review_section_content, repair_missing_sections, review_content_end_line, normalize_review_result, canonical_review_verdict, infer_plain_language_review, build_evaluated_review_result, build_unstructured_review_feedback_result, is_approved_verdict. *)
Theorem approved_review_has_no_open_issues (output : string) :
  exists ev, evaluate_review_output output = Ok ev /\ (approved ev = true -> no_open_issues output ev).
Proof. exact (evaluate_review_safe output). Qed.

End ReviewTheorems.
