(* ===== verification/ReviewRoundTrip.v ===== *)
(** Rendering a review contract and parsing it back: the text the runtime
    writes with [render_review_contract] is read by [parse_review_result] as
    the same review, when newlines are the only line breaks of its sections and
    the CommonMark parser sees no code block and no other root heading in it. *)

From Stdlib Require Import ZArith Lia Ascii String.
From stdpp Require Import base gmap sets list strings.
From S2P Require Import Prelude PyStr Models Reviews.

Open Scope string_scope.
Open Scope list_scope.
Open Scope Z_scope.

(** ** Lines *)

Lemma lf_line_end : is_line_end lf = true.
Proof. reflexivity. Qed.

Lemma keep_split_aux n x acc y :
  (length x <= n)%nat ->
  splitlines_keep_aux acc (x ++ lf :: y) = splitlines_keep_aux acc (x ++ [lf]) ++ splitlines_keep_aux [] y.
Proof.
  revert x acc. induction n as [|n IH]; intros [|c x] acc Hn; simpl in Hn; try lia.
  - cbn [app splitlines_keep_aux]. rewrite lf_line_end. by destruct y.
  - cbn [app splitlines_keep_aux]. rewrite lf_line_end. by destruct y.
  - cbn [app splitlines_keep_aux]. destruct (is_line_end c).
    + destruct x as [|d x]; cbn [app].
      * destruct (bool_decide (c = cr) && bool_decide (lf = lf)); [done|].
        cbn [app splitlines_keep_aux]. rewrite lf_line_end. by destruct y.
      * simpl in Hn. destruct (bool_decide (c = cr) && bool_decide (d = lf)).
        -- rewrite (IH x) by lia. done.
        -- rewrite (IH (d :: x)) by (simpl; lia). done.
    + apply IH. lia.
Qed.

Lemma lines_split_aux n x acc y :
  (length x <= n)%nat ->
  splitlines_aux acc (x ++ lf :: y) = splitlines_aux acc (x ++ [lf]) ++ splitlines_aux [] y.
Proof.
  revert x acc. induction n as [|n IH]; intros [|c x] acc Hn; simpl in Hn; try lia.
  - cbn [app splitlines_aux]. rewrite lf_line_end. by destruct y.
  - cbn [app splitlines_aux]. rewrite lf_line_end. by destruct y.
  - cbn [app splitlines_aux]. destruct (is_line_end c).
    + destruct x as [|d x]; cbn [app].
      * destruct (bool_decide (c = cr) && bool_decide (lf = lf)); [done|].
        cbn [app splitlines_aux]. rewrite lf_line_end. by destruct y.
      * simpl in Hn. destruct (bool_decide (c = cr) && bool_decide (d = lf)).
        -- rewrite (IH x) by lia. done.
        -- rewrite (IH (d :: x)) by (simpl; lia). done.
    + apply IH. lia.
Qed.

Lemma lines_keep_length n x acc :
  (length x <= n)%nat -> length (splitlines_aux acc x) = length (splitlines_keep_aux acc x).
Proof.
  revert x acc. induction n as [|n IH]; intros [|c x] acc Hn; simpl in Hn; try lia; [by destruct acc..|].
  cbn [splitlines_aux splitlines_keep_aux]. destruct (is_line_end c).
  - destruct x as [|d x]; [done|]. simpl in Hn. destruct (_ && _); cbn [length]; f_equal; [apply IH; lia | apply IH; simpl; lia].
  - apply IH. lia.
Qed.

Lemma keep_join_aux n x acc :
  (length x <= n)%nat -> concat (splitlines_keep_aux acc x) = reverse acc ++ x.
Proof.
  revert x acc. induction n as [|n IH]; intros [|c x] acc Hn; simpl in Hn; try lia.
  1, 2: cbn [splitlines_keep_aux]; destruct acc; [done | simpl; by rewrite !app_nil_r].
  cbn [splitlines_keep_aux]. destruct (is_line_end c).
  - destruct x as [|d x]; [simpl; by rewrite app_nil_r|]. simpl in Hn. destruct (_ && _); cbn [concat].
    + rewrite IH by lia. cbn. by rewrite <- app_assoc.
    + rewrite IH by (simpl; lia). cbn. by rewrite <- app_assoc.
  - rewrite IH by lia. rewrite reverse_cons, <- app_assoc. done.
Qed.

Lemma join_of_chars ls : str_join "" (map of_chars ls) = of_chars (concat ls).
Proof.
  induction ls as [|a ls IH]; [done|]. cbn [map concat]. rewrite of_chars_app, <- IH.
  destruct ls as [|b ls]; [|done]. simpl. by rewrite str_app_nil_r.
Qed.

(** [s] followed by a newline, then [t]. *)
Lemma keep_lines_app s t :
  str_splitlines_keep (s +:+ lf_str +:+ t) = str_splitlines_keep (s +:+ lf_str) ++ str_splitlines_keep t.
Proof.
  unfold str_splitlines_keep. rewrite !chars_app, <- map_app. f_equal.
  apply (keep_split_aux (length (chars s))). lia.
Qed.

Lemma lines_app s t :
  str_splitlines (s +:+ lf_str +:+ t) = str_splitlines (s +:+ lf_str) ++ str_splitlines t.
Proof.
  unfold str_splitlines. rewrite !chars_app, <- map_app. f_equal.
  apply (lines_split_aux (length (chars s))). lia.
Qed.

Lemma lines_length s : length (str_splitlines s) = length (str_splitlines_keep s).
Proof.
  unfold str_splitlines, str_splitlines_keep. rewrite !length_map. by apply (lines_keep_length (length (chars s))).
Qed.

Lemma keep_lines_join s : str_join "" (str_splitlines_keep s) = s.
Proof.
  unfold str_splitlines_keep. rewrite join_of_chars, (keep_join_aux (length (chars s))) by lia.
  apply of_chars_chars.
Qed.

(** ** Stripping *)

Lemma drop_while_app p x y :
  drop_while p (x ++ y) = match drop_while p x with [] => drop_while p y | l => l ++ y end.
Proof. induction x as [|c x IH]; simpl; [done|]. destruct (p c); [apply IH | done]. Qed.

Lemma strip_text_snoc x c : is_space c = true -> strip_text (x ++ [c]) = strip_text x.
Proof.
  intros Hc. unfold strip_text. rewrite drop_while_app. destruct (drop_while is_space x) as [|d l].
  - simpl. by rewrite Hc.
  - rewrite reverse_app. simpl. by rewrite Hc.
Qed.

Lemma str_strip_lf c : str_strip (c +:+ lf_str +:+ lf_str) = str_strip c.
Proof.
  unfold str_strip. rewrite !chars_app. change (chars lf_str) with [lf]. rewrite app_assoc, !strip_text_snoc; done.
Qed.

Lemma normalize_section_lf name c :
  normalize_review_section name (c +:+ lf_str +:+ lf_str) = normalize_review_section name c.
Proof. unfold normalize_review_section. by rewrite str_strip_lf. Qed.

(** ** The rendered contract, line by line *)

(** A section's text with the blank line that follows it. *)
Definition block (content : string) : string := content +:+ lf_str +:+ lf_str.

Definition heading_line (s : ReviewSection) : string := "## " +:+ display_name s +:+ lf_str.

(** A heading line and its block, then [t]. *)
Lemma keep_section s content t :
  str_splitlines_keep ("## " +:+ display_name s +:+ lf_str +:+ content +:+ lf_str +:+ lf_str +:+ t) =
  heading_line s :: str_splitlines_keep (block content) ++ str_splitlines_keep t.
Proof.
  rewrite <- (str_app_assoc "## "), keep_lines_app.
  rewrite <- (str_app_assoc content), keep_lines_app. unfold block. rewrite str_app_assoc.
  unfold heading_line. rewrite str_app_assoc. by destruct s.
Qed.

Lemma render_unfold r :
  render_review_contract r =
  "## " +:+ display_name major_issues +:+ lf_str +:+ rv_major r +:+ lf_str +:+ lf_str +:+
  "## " +:+ display_name minor_issues +:+ lf_str +:+ rv_minor r +:+ lf_str +:+ lf_str +:+
  "## " +:+ display_name nitpicks +:+ lf_str +:+ rv_nits r +:+ lf_str +:+ lf_str +:+
  "---" +:+ lf_str +:+ ("VERDICT: " +:+ verdict r) +:+ lf_str.
Proof.
  unfold render_review_contract. cbn [map SECTION_ORDER str_join section_of].
  change ("" +:+ ?x) with x. by rewrite !str_app_assoc.
Qed.

(** The lines before the verdict line. *)
Definition body_lines (r : ParsedReviewResult) : list string :=
  (heading_line major_issues :: str_splitlines_keep (block (rv_major r))) ++
  (heading_line minor_issues :: str_splitlines_keep (block (rv_minor r))) ++
  (heading_line nitpicks :: str_splitlines_keep (block (rv_nits r))) ++ ["---" +:+ lf_str].

Definition valid_verdict (v : string) : Prop := v ∈ VALID_REVIEW_VERDICTS.

Lemma valid_verdict_cases v :
  valid_verdict v -> v = VERDICT_CHANGES_REQUESTED \/ v = VERDICT_NITS_ONLY \/ v = VERDICT_NO_FINDINGS.
Proof. unfold valid_verdict, VALID_REVIEW_VERDICTS. rewrite !elem_of_cons, elem_of_nil. tauto. Qed.

Lemma normalized_verdict_valid r r' : normalize_review_result r = Ok r' -> valid_verdict (verdict r').
Proof.
  intros H. unfold normalize_review_result in H. inv_ok. subst r'. cbn [verdict].
  unfold valid_verdict, VALID_REVIEW_VERDICTS. rewrite !elem_of_cons, elem_of_nil.
  destruct (canonical_cases (mkReview (str_upper (str_strip (verdict r))) a a0 a1)) as [[-> _]|[[-> _]|[-> _]]]; tauto.
Qed.

Lemma render_keep_lines r :
  valid_verdict (verdict r) ->
  str_splitlines_keep (render_review_contract r) = body_lines r ++ [("VERDICT: " +:+ verdict r) +:+ lf_str].
Proof.
  intros Hv. rewrite render_unfold, !keep_section, keep_lines_app. unfold body_lines.
  assert (str_splitlines_keep (("VERDICT: " +:+ verdict r) +:+ lf_str) = [("VERDICT: " +:+ verdict r) +:+ lf_str]) as ->.
  { apply valid_verdict_cases in Hv as [->|[->| ->]]; vm_compute; reflexivity. }
  assert (str_splitlines_keep ("---" +:+ lf_str) = ["---" +:+ lf_str]) as -> by (vm_compute; reflexivity).
  by rewrite <- !app_assoc.
Qed.

(** The last of the unterminated lines is the verdict line. *)
Lemma render_lines r :
  valid_verdict (verdict r) ->
  exists init, str_splitlines (render_review_contract r) = init ++ ["VERDICT: " +:+ verdict r] /\
               length init = length (body_lines r).
Proof.
  intros Hv. pose proof (render_keep_lines r Hv) as Hk. apply (f_equal length) in Hk.
  rewrite <- lines_length, length_app in Hk.
  assert (exists init, str_splitlines (render_review_contract r) = init ++ ["VERDICT: " +:+ verdict r]) as [init Hi].
  { rewrite render_unfold. rewrite <- !str_app_assoc. rewrite str_app_assoc.
    set (pre := _ +:+ "---"). rewrite !str_app_assoc. fold pre. rewrite lines_app.
    eexists. f_equal. apply valid_verdict_cases in Hv as [->|[->| ->]]; vm_compute; reflexivity. }
  exists init. split; [done|]. rewrite Hi, length_app in Hk. cbn [length] in Hk. lia.
Qed.

(** ** Newlines *)

(** CommonMark lines end at newlines. *)
Definition newlines (s : string) : nat := length (List.filter (fun c => bool_decide (c = lf)) (chars s)).

(** Text in which [str.splitlines] breaks lines at newlines only. *)
Definition newline_text (s : string) : bool := forallb (fun c => negb (is_line_end c) || bool_decide (c = lf)) (chars s).

Lemma keep_newlines acc l : forallb (fun c => negb (is_line_end c) || bool_decide (c = lf)) l = true ->
  length (splitlines_keep_aux acc (l ++ [lf])) = S (length (List.filter (fun c => bool_decide (c = lf)) l)).
Proof.
  revert acc. induction l as [|c l IH]; intros acc Hl; [done|]. cbn [forallb] in Hl. apply andb_true_iff in Hl as [Hc Hl].
  cbn [app splitlines_keep_aux List.filter]. destruct (is_line_end c) eqn:He; cbn [negb orb] in Hc.
  - apply bool_decide_eq_true in Hc as ->. rewrite (bool_decide_eq_true_2 (lf = lf)) by done. rewrite (bool_decide_eq_false_2 (lf = cr)) by done.
    cbn [andb length]. rewrite <- (IH []) by done. by destruct l.
  - rewrite bool_decide_eq_false_2 by (intros ->; by rewrite lf_line_end in He). by apply IH.
Qed.

Lemma block_lines content : newline_text content = true -> length (str_splitlines_keep (block content)) = newlines (block content).
Proof.
  intros H. unfold str_splitlines_keep, newlines, block. rewrite length_map, !chars_app. change (chars lf_str) with [lf].
  rewrite app_assoc, keep_newlines.
  - rewrite !List.filter_app, !length_app. cbn. rewrite (bool_decide_eq_true_2 (lf = lf)) by done. cbn. lia.
  - rewrite forallb_app. apply andb_true_iff. split; [exact H | reflexivity].
Qed.

(** ** Parsing the rendered contract *)

Section RoundTrip.
Context {libs : ReviewLibraries}.

(** The root headings of the rendered contract, each with its line, counted by
    newlines. *)
Definition rendered_headings (r : ParsedReviewResult) : list ReviewHeading :=
  let second := S (newlines (block (rv_major r))) in
  let third := (S second + newlines (block (rv_minor r)))%nat in
  [mkHeading (Some major_issues) 0 1; mkHeading (Some minor_issues) second (S second);
   mkHeading (Some nitpicks) third (S third)].

(** What the CommonMark parser reports for the rendered text of [r]: no code
    block, and no root heading of level two but the three of the contract, at
    their lines. *)
Definition markdown_reads (r : ParsedReviewResult) : Prop :=
  code_block_lines (render_review_contract r) = [] /\
  collect_root_h2_review_headings (render_review_contract r) None = rendered_headings r.

(** Lines of the sections end at newlines only. *)
Definition newline_sections (r : ParsedReviewResult) : bool := forallb newline_text [rv_major r; rv_minor r; rv_nits r].

Lemma section_lines r : newline_sections r = true ->
  newlines (block (rv_major r)) = length (str_splitlines_keep (block (rv_major r))) /\
  newlines (block (rv_minor r)) = length (str_splitlines_keep (block (rv_minor r))).
Proof. unfold newline_sections. cbn [forallb]. rewrite !andb_true_iff. intros (H1 & H2 & _). by rewrite !block_lines. Qed.

Lemma match_rendered_verdict v : valid_verdict v -> match_verdict_line ("VERDICT: " +:+ v) = Some v.
Proof. intros [->|[->| ->]]%valid_verdict_cases; vm_compute; reflexivity. Qed.

Lemma rendered_verdict_line r :
  valid_verdict (verdict r) -> code_block_lines (render_review_contract r) = [] ->
  final_review_verdict_line (render_review_contract r) = Some (length (body_lines r)) /\
  extract_final_review_verdict (render_review_contract r) = Some (verdict r).
Proof.
  intros Hv Hc. destruct (render_lines r Hv) as (init & Hl & Hi).
  assert (final_review_verdict_line (render_review_contract r) = Some (length (body_lines r))) as Hf.
  { unfold final_review_verdict_line. rewrite Hc, Hl, imap_app, foldl_app. simpl.
    rewrite match_rendered_verdict by done.
    by rewrite Nat.add_0_r, Hi. }
  split; [done|]. unfold extract_final_review_verdict. rewrite Hf, Hl, <- Hi.
  cbn [mbind option_bind]. rewrite list_lookup_middle by done. by apply match_rendered_verdict.
Qed.

(** [before_line] keeps the headings that start before it. *)
Lemma collect_before output b :
  collect_root_h2_review_headings output (Some b) =
  List.filter (fun h => (start_line h <? b)%nat) (collect_root_h2_review_headings output None).
Proof.
  unfold collect_root_h2_review_headings. generalize (markdown_parse output). intros l.
  induction l as [|t rest IH]; [done|]. cbn [collect_headings].
  destruct (is_root_atx_h2 t); [|apply IH]. destruct (md_map t) as [[first last]|]; [|apply IH].
  destruct rest as [|next rest]; [apply IH|].
  destruct (bool_decide (md_type next = "inline")); cbn [andb]; [|apply IH].
  cbn [List.filter start_line]. destruct (first <? b)%nat; [|apply IH]. f_equal. apply IH.
Qed.

Lemma rendered_content_end r :
  review_content_end_line (body_lines r ++ [("VERDICT: " +:+ verdict r) +:+ lf_str]) (length (body_lines r)) =
  Ok (length (body_lines r) - 1)%nat.
Proof.
  assert (exists A, body_lines r = A ++ ["---" +:+ lf_str]) as [A ->].
  { eexists. unfold body_lines. by rewrite !app_assoc. }
  rewrite length_app. cbn [length]. rewrite Nat.add_1_r. unfold review_content_end_line. cbn [skip_blank_back].
  rewrite <- app_assoc. cbn [app]. rewrite list_lookup_middle by done. cbn [from_option id].
  assert (not_blank ("---" +:+ lf_str) = true) as -> by (vm_compute; reflexivity).
  assert (str_strip ("---" +:+ lf_str) = "---") as Hs by (vm_compute; reflexivity).
  rewrite list_lookup_middle by done. cbn [from_option id]. rewrite bool_decide_eq_true_2 by exact Hs. f_equal. lia.
Qed.

(** The lines of a section, cut out of the rendered text. *)
Lemma slice_middle {A} (l a b c : list A) n m :
  l = a ++ b ++ c -> n = length a -> m = (length a + length b)%nat -> slice l n m = b.
Proof. intros -> -> ->. unfold slice. by rewrite drop_app_length, Nat.add_comm, Nat.add_sub, take_app_length. Qed.

Lemma rendered_sections r rest : newline_sections r = true ->
  let lines := body_lines r ++ rest in
  let sections := collect_review_section_content lines (rendered_headings r) (length (body_lines r) - 1) (fun _ => None) in
  sections major_issues = Some (block (rv_major r)) /\ sections minor_issues = Some (block (rv_minor r)) /\
  sections nitpicks = Some (block (rv_nits r)).
Proof.
  intros Hnl. destruct (section_lines r Hnl) as [HA HB]. set (A := str_splitlines_keep (block (rv_major r))). set (B := str_splitlines_keep (block (rv_minor r))).
  set (C := str_splitlines_keep (block (rv_nits r))).
  assert (body_lines r = (heading_line major_issues :: A) ++ (heading_line minor_issues :: B) ++
            (heading_line nitpicks :: C) ++ ["---" +:+ lf_str]) as -> by done.
  unfold rendered_headings. rewrite HA, HB. fold A B. rewrite <- (keep_lines_join (block (rv_major r))),
    <- (keep_lines_join (block (rv_minor r))), <- (keep_lines_join (block (rv_nits r))). fold A B C.
  rewrite <- !app_assoc. cbn [collect_review_section_content section start_line content_start_line].
  split_and!; repeat (rewrite decide_True by done || rewrite decide_False by done); f_equal; f_equal.
  - apply (slice_middle _ [heading_line major_issues] _ _ _ _ eq_refl); simpl; lia.
  - apply (slice_middle _ ((heading_line major_issues :: A) ++ [heading_line minor_issues])
             _ ((heading_line nitpicks :: C) ++ ["---" +:+ lf_str] ++ rest)).
    + by rewrite <- !app_assoc.
    + rewrite length_app. simpl. lia.
    + rewrite length_app. simpl. lia.
  - apply (slice_middle _ ((heading_line major_issues :: A) ++ (heading_line minor_issues :: B) ++ [heading_line nitpicks])
             _ (["---" +:+ lf_str] ++ rest)).
    + by rewrite <- !app_assoc.
    + rewrite !length_app. simpl. lia.
    + rewrite !length_app. simpl. lia.
Qed.

Lemma rendered_run_valid r :
  final_review_heading_run (rendered_headings r) = rendered_headings r /\
  validate_review_heading_run (rendered_headings r) = Ok tt.
Proof.
  split; [done|]. unfold validate_review_heading_run.
  assert (omap section (rendered_headings r) = SECTION_ORDER) as -> by done. vm_compute. reflexivity.
Qed.

Lemma repair_nothing v sections earlier :
  (forall s, is_Some (sections s)) ->
  repair_missing_sections v sections earlier = Ok (fun s => default REQUIRED_EMPTY_SENTINEL (sections s), []).
Proof.
  intros H. unfold repair_missing_sections. cbn [List.filter SECTION_ORDER].
  destruct (H major_issues) as [a ->], (H minor_issues) as [b ->], (H nitpicks) as [c ->]. done.
Qed.

Lemma rendered_headings_before r : newline_sections r = true ->
  List.filter (fun h => (start_line h <? length (body_lines r))%nat) (rendered_headings r) = rendered_headings r.
Proof.
  intros Hnl. destruct (section_lines r Hnl) as [HA HB]. unfold rendered_headings, body_lines. rewrite HA, HB, !length_app. cbn [length List.filter start_line].
  repeat (rewrite (proj2 (Nat.ltb_lt _ _)) by lia). done.
Qed.

Lemma extract_rendered r :
  valid_verdict (verdict r) -> newline_sections r = true -> markdown_reads r ->
  extract_structured_review (render_review_contract r) =
  Ok (Some (mkMatch (verdict r) (block (rv_major r)) (block (rv_minor r)) (block (rv_nits r)) "" "" [])).
Proof.
  intros Hv Hnl [Hc Hh]. destruct (rendered_verdict_line r Hv Hc) as [Hf He].
  unfold extract_structured_review. rewrite He, Hf, collect_before, Hh, (rendered_headings_before r Hnl).
  destruct (rendered_run_valid r) as [-> ->]. rewrite render_keep_lines by done.
  pose proof (rendered_sections r [("VERDICT: " +:+ verdict r) +:+ lf_str] Hnl) as (HM & Hm & Hn).
  set (hs := rendered_headings r) in *. assert (exists t, hs = mkHeading (Some major_issues) 0 1 :: t) as [t Ht] by (by eexists).
  rewrite Ht at 1. cbn [mbind outcome_bind]. rewrite rendered_content_end. cbn [mbind outcome_bind].
  rewrite repair_nothing by (intros []; eauto). cbn [mbind outcome_bind]. rewrite HM, Hm, Hn. cbn [from_option id].
  unfold mret, outcome_ret. rewrite drop_ge; [done|]. rewrite length_app. simpl. lia.
Qed.


End RoundTrip.

(** [s.split("\n")]. *)
Fixpoint split_newlines (acc l : text) : list text :=
  match l with
  | [] => [reverse acc]
  | c :: t => if bool_decide (c = lf) then reverse acc :: split_newlines [] t else split_newlines (c :: acc) t
  end.

Definition str_split_newlines (s : string) : list string := map of_chars (split_newlines [] (chars s)).

(** A line-oriented reading of headings, enough for text without other
    Markdown blocks. *)
Definition line_tokens (output : string) : list MdToken :=
  concat (imap (fun i line =>
    if str_startswith "## " line
    then [mkToken "heading_open" "h2" 0 "##" (Some (i, S i)) "";
          mkToken "inline" "" 1 "" (Some (i, S i)) (str_strip (of_chars (drop 3 (chars line))));
          mkToken "heading_close" "h2" 0 "##" None ""]
    else [mkToken "paragraph_open" "p" 0 "" (Some (i, S i)) "";
          mkToken "inline" "" 1 "" (Some (i, S i)) line; mkToken "paragraph_close" "p" 0 "" None ""])
    (str_split_newlines output)).

Definition line_libraries : ReviewLibraries := {| markdown_parse := line_tokens; sha256_hex := fun s => s |}.

Definition example_review : ParsedReviewResult :=
  mkReview "CHANGES_REQUESTED" ("- The retry loop ignores the quota guard." +:+ lf_str +:+ "- `run` leaks a handle.")
    "None" "Rename `tmp`.".


(** With another line break in a section the lines of the parser and those of
    [str.splitlines] differ, and the rendered review cannot be read back. *)
Definition form_feed_review : ParsedReviewResult :=
  mkReview "CHANGES_REQUESTED" (of_chars (chars "- The parser" ++ [ascii_of_N 12] ++ chars "loses a line.")) "None" "None".

Example form_feed_breaks_round_trip :
  normalize_review_result form_feed_review = Ok form_feed_review /\ @markdown_reads line_libraries form_feed_review /\
  exists e, @parse_review_result line_libraries (render_review_contract form_feed_review) = Raise e.
Proof. split; [vm_compute; reflexivity|]. split; [split; vm_compute; reflexivity|]. vm_compute. eauto. Qed.
