(* ===== verification/PlanRecords.v ===== *)
(** The compiled records of a preflight plan (core/preflight/compiled_records.py,
    core/preflight/models.py, core/preflight/workspace/models.py,
    core/expansion_state.py, architecture/contracts/artifacts.py), canonical
    JSON and the signatures derived from it.

    Fields keep the source's names behind a two-letter prefix per record.  The
    SHA-256 digest is a parameter. *)

From Stdlib Require Import ZArith Lia Ascii String.
From stdpp Require Import base gmap sets list strings.
From S2P Require Import Prelude PyStr Models.

Open Scope string_scope.
Open Scope list_scope.
Open Scope Z_scope.

(** The SHA-256 digest of a UTF-8 text, in hexadecimal. *)
Class HashLibrary := { sha256 : string -> string }.

(** ** JSON *)

Definition json_eq_dec_fix : forall x y : json, {x = y} + {x <> y}.
Proof.
  fix IH 1. intros x y. destruct x as [|b|z|r|s|l|f], y as [|b'|z'|r'|s'|l'|f']; try (right; discriminate).
  - by left.
  - destruct (decide (b = b')) as [->|]; [by left | right; congruence].
  - destruct (decide (z = z')) as [->|]; [by left | right; congruence].
  - destruct (decide (r = r')) as [->|]; [by left | right; congruence].
  - destruct (decide (s = s')) as [->|]; [by left | right; congruence].
  - destruct (List.list_eq_dec IH l l') as [->|]; [by left | right; congruence].
  - assert (forall p q : string * json, {p = q} + {p <> q}) as Hp.
    { intros [k v] [k' v']. destruct (decide (k = k')) as [->|]; [|right; congruence].
      destruct (IH v v') as [->|]; [by left | right; congruence]. }
    destruct (List.list_eq_dec Hp f f') as [->|]; [by left | right; congruence].
Defined.

#[global] Instance json_eq_dec : EqDecision json := json_eq_dec_fix.

(** [payload.get(key)] on a decoded JSON object. *)
Definition jget (fields : list (string * json)) (key : string) : option json :=
  snd <$> List.find (fun '(k, _) => bool_decide (k = key)) fields.

(** The escapes of [json.dumps] with [ensure_ascii=False]. *)
Definition hex_digit (n : N) : ascii := ascii_of_N (if (n <? 10)%N then 48 + n else 87 + n).

Definition json_escape (c : ascii) : text :=
  let n := code c in
  if (n =? 34)%N then [ascii_of_N 92; ascii_of_N 34]
  else if (n =? 92)%N then [ascii_of_N 92; ascii_of_N 92]
  else if (n =? 10)%N then ascii_of_N 92 :: chars "n"
  else if (n =? 13)%N then ascii_of_N 92 :: chars "r"
  else if (n =? 9)%N then ascii_of_N 92 :: chars "t"
  else if (n =? 8)%N then ascii_of_N 92 :: chars "b"
  else if (n =? 12)%N then ascii_of_N 92 :: chars "f"
  else if (n <? 32)%N then ascii_of_N 92 :: chars "u00" ++ [hex_digit (n / 16); hex_digit (n mod 16)]
  else [c].

Definition json_string (s : string) : string :=
  of_chars ([quote_char] ++ concat (map json_escape (chars s)) ++ [quote_char]).

(** Sorting the members of an object by key. *)
Fixpoint insert_member (kv : string * string) (l : list (string * string)) : list (string * string) :=
  match l with
  | [] => [kv]
  | kv' :: t => if String.leb kv.1 kv'.1 then kv :: l else kv' :: insert_member kv t
  end.

Definition sort_members (l : list (string * string)) : list (string * string) := foldr insert_member [] l.

(** [json.dumps] with sorted keys and compact separators, on the values the
    plan records hold.
    Code: core/preflight/serialization.py, canonical_json. *)
Fixpoint canonical_json (v : json) : string :=
  match v with
  | JNull => "null"
  | JBool true => "true"
  | JBool false => "false"
  | JInt z => str_int z
  | JFloat repr => repr
  | JStr s => json_string s
  | JList l => "[" +:+ str_join "," (map canonical_json l) +:+ "]"
  | JObj f => "{" +:+ str_join "," (map (fun '(k, text) => json_string k +:+ ":" +:+ text)
                 (sort_members (map (fun '(k, v) => (k, canonical_json v)) f))) +:+ "}"
  end.

Definition jopt {A} (f : A -> json) (o : option A) : json := match o with Some a => f a | None => JNull end.

(** ** Artifact contracts (architecture/contracts/artifacts.py) *)

(** Code: architecture/contracts/artifacts.py:21-31. *)
Record ArtifactContract := mkContract {
  ac_stage_path : option string;
  ac_output_path : string;
  ac_findings_path : option string;
  ac_log_path : option string;
  ac_manifest_path : option string;
  ac_result_path : option string
}.

#[global] Instance ArtifactContract_eq_dec : EqDecision ArtifactContract.
Proof. solve_decision. Defined.

(** ** Workspace policies (core/preflight/workspace/models.py) *)

Inductive WorkspaceSourceKind := SourceProject | SourceNode.
Inductive WorkspaceMaterialization := project_root | snapshot_checkout | worktree_checkout.
Inductive WorkspaceCleanStart := CleanStrict | CleanTrackedOnly.

#[global] Instance WorkspaceSourceKind_eq_dec : EqDecision WorkspaceSourceKind.
Proof. solve_decision. Defined.
#[global] Instance WorkspaceMaterialization_eq_dec : EqDecision WorkspaceMaterialization.
Proof. solve_decision. Defined.
#[global] Instance WorkspaceCleanStart_eq_dec : EqDecision WorkspaceCleanStart.
Proof. solve_decision. Defined.

(** A token of a setup command is a text or a redacted object.
    Code: core/preflight/workspace/models.py:42-46. *)
Record WorkspaceSetupCommandRecord := mkSetupCommand { sc_argv : list json; sc_command_index : Z }.

(** Code: core/preflight/workspace/models.py:61-68. *)
Record WorkspaceSetupRecord := mkSetup { ws_profile_name : string; ws_commands : list WorkspaceSetupCommandRecord }.

(** Code: core/preflight/workspace/models.py, WorkspaceBranchExportRecord. *)
Record WorkspaceBranchExportRecord := mkBranchExport { be_create_branch : bool; be_branch_name : option string }.

#[global] Instance WorkspaceSetupCommandRecord_eq_dec : EqDecision WorkspaceSetupCommandRecord.
Proof. solve_decision. Defined.
#[global] Instance WorkspaceSetupRecord_eq_dec : EqDecision WorkspaceSetupRecord.
Proof. solve_decision. Defined.
#[global] Instance WorkspaceBranchExportRecord_eq_dec : EqDecision WorkspaceBranchExportRecord.
Proof. solve_decision. Defined.

(** [worktree_contract] is kept as its mode and schema version.
    Code: core/preflight/workspace/models.py:88-104. *)
Record WorkspaceSelectionRecord := mkSelection {
  wp_enabled : bool;
  wp_logical_worktree_name : option string;
  wp_declaration_kind : option WorktreeKind;
  wp_source_kind : WorkspaceSourceKind;
  wp_source_node_id : option string;
  wp_clean_start : WorkspaceCleanStart;
  wp_materialization : WorkspaceMaterialization;
  wp_worktree_contract : string * string;
  wp_setup : option WorkspaceSetupRecord;
  wp_branch_export : WorkspaceBranchExportRecord;
  wp_writable : bool;
  wp_lineage_producer : bool
}.

#[global] Instance WorkspaceSelectionRecord_eq_dec : EqDecision WorkspaceSelectionRecord.
Proof. solve_decision. Defined.

(** Code: core/preflight/workspace/models.py, is_lineage_worktree. *)
Definition is_lineage_worktree (policy : option WorkspaceSelectionRecord) : bool :=
  match policy with
  | None => false
  | Some p => wp_enabled p && bool_decide (wp_materialization p = worktree_checkout) && wp_lineage_producer p
  end.

(** The model validator of a workspace selection.
    Code: core/preflight/workspace/models.py, WorkspaceSelectionRecord._validate_workspace_contract. *)
Definition validate_workspace_contract (p : WorkspaceSelectionRecord) : outcome unit :=
  if negb (wp_enabled p) then
    if bool_decide (wp_materialization p = project_root) then Ok tt
    else Raise (ValueError "disabled workspace selection must use project_root")
  else if negb (is_some (wp_logical_worktree_name p)) || negb (is_some (wp_declaration_kind p)) then
    Raise (ValueError "enabled workspace selection requires a declaration")
  else if bool_decide (wp_source_kind p = SourceNode) && negb (is_some (wp_source_node_id p)) then
    Raise (ValueError "node workspace source requires source_node_id")
  else if negb (bool_decide (wp_source_kind p = SourceNode)) && is_some (wp_source_node_id p) then
    Raise (ValueError "only node workspace sources may name source_node_id")
  else if negb (bool_decide (wp_materialization p =
                  if decide (wp_declaration_kind p = Some WK_snapshot) then snapshot_checkout else worktree_checkout)) then
    Raise (ValueError "workspace kind and materialization are inconsistent")
  else if negb (wp_writable p) then Raise (ValueError "managed workspace selection must be writable")
  else if bool_decide (wp_declaration_kind p = Some WK_snapshot) && wp_lineage_producer p then
    Raise (ValueError "snapshot workspace cannot produce lineage")
  else Ok tt.

(** ** Compiled records (core/preflight/compiled_records.py) *)

(** Code: core/workflow/source_locations.py, SourceSpan. *)
Record SourceSpan := mkSpan { sp_start_line : Z; sp_end_line : Z; sp_start_column : option Z; sp_end_column : option Z }.

(** Code: core/workflow/source_locations.py, TokenRawSpan. *)
Record TokenRawSpan := mkRawSpan { rs_start : Z; rs_end : Z }.

#[global] Instance SourceSpan_eq_dec : EqDecision SourceSpan.
Proof. solve_decision. Defined.
#[global] Instance TokenRawSpan_eq_dec : EqDecision TokenRawSpan.
Proof. solve_decision. Defined.

(** Code: core/preflight/compiled_records.py, TokenKind. *)
Inductive TokenKind := TokNode | TokFile | TokEnv | TokVar.

(** Code: core/preflight/compiled_records.py, FragmentKind. *)
Inductive FragmentKind :=
| literal | static_file_content | workspace_file_locator | static_env | static_var | runtime_locator_lookup.

#[global] Instance TokenKind_eq_dec : EqDecision TokenKind.
Proof. solve_decision. Defined.
#[global] Instance FragmentKind_eq_dec : EqDecision FragmentKind.
Proof. solve_decision. Defined.

Definition fragment_kind_value (k : FragmentKind) : string :=
  match k with
  | literal => "literal" | static_file_content => "static_file_content"
  | workspace_file_locator => "workspace_file_locator" | static_env => "static_env"
  | static_var => "static_var" | runtime_locator_lookup => "runtime_locator_lookup"
  end.

(** Code: core/preflight/compiled_records.py:74-86. *)
Record Fragment := mkFragment {
  fr_fragment_index : Z;
  fr_kind : FragmentKind;
  fr_source_role : PromptSegmentRole;
  fr_text : option string;
  fr_content_ref : option string;
  fr_key : option string;
  fr_value_handle : option string;
  fr_value_stored : option string;
  fr_fingerprint : option string;
  fr_locator : option (dict string)
}.

#[global] Instance Fragment_eq_dec : EqDecision Fragment.
Proof. solve_decision. Defined.

(** The payload fields of a fragment that are present, by name. *)
Definition fragment_payload (f : Fragment) : list string :=
  List.filter (fun name =>
    bool_decide ((name, true) ∈
      [("text", is_some (fr_text f)); ("content_ref", is_some (fr_content_ref f)); ("key", is_some (fr_key f));
       ("value_handle", is_some (fr_value_handle f)); ("value_stored", is_some (fr_value_stored f));
       ("fingerprint", is_some (fr_fingerprint f)); ("locator", is_some (fr_locator f))]))
    ["text"; "content_ref"; "key"; "value_handle"; "value_stored"; "fingerprint"; "locator"].

(** Code: core/preflight/compiled_records.py, FRAGMENT_ALLOWED_PAYLOAD_FIELDS. *)
Definition FRAGMENT_ALLOWED_PAYLOAD_FIELDS (k : FragmentKind) : list string :=
  match k with
  | literal => ["text"]
  | static_file_content => ["content_ref"]
  | workspace_file_locator | runtime_locator_lookup => ["locator"]
  | static_env | static_var => ["key"; "value_handle"; "value_stored"; "fingerprint"]
  end.

(** [bool(locator.get(key))]. *)
Definition has_locator_field (locator : dict string) (key : string) : bool :=
  nonempty (default "" (dget locator key)).

(** Code: core/preflight/compiled_records.py, Fragment._reject_unrelated_payload_fields. *)
Definition reject_unrelated_payload_fields (f : Fragment) : outcome unit :=
  let unrelated := sorted_str (List.filter (fun name =>
    negb (str_in name (FRAGMENT_ALLOWED_PAYLOAD_FIELDS (fr_kind f)))) (fragment_payload f)) in
  if is_cons unrelated then
    Raise (ValueError (fragment_kind_value (fr_kind f) +:+ " fragments must not define payload field(s): "
                       +:+ str_join ", " unrelated +:+ "."))
  else Ok tt.

(** Code: core/preflight/compiled_records.py, Fragment._validate_static_value_fragment. *)
Definition validate_static_value_fragment (f : Fragment) : outcome unit :=
  if negb (is_some (fr_key f)) then Raise (ValueError "Static value fragments require key.")
  else if negb (Z.b2z (is_some (fr_value_handle f)) + Z.b2z (is_some (fr_value_stored f)) =? 1) then
    Raise (ValueError "Static value fragments require exactly one handle or stored value.")
  else if is_some (fr_value_stored f) && is_some (fr_fingerprint f) then
    Raise (ValueError "Static value fragments with value_stored must not define fingerprint.")
  else Ok tt.

(** Code: core/preflight/compiled_records.py, Fragment._validate_fragment_payload. *)
Definition validate_fragment_payload (f : Fragment) : outcome unit :=
  _ ← reject_unrelated_payload_fields f;
  match fr_kind f with
  | literal => if is_some (fr_text f) then Ok tt else Raise (ValueError "Literal fragments require text.")
  | static_file_content =>
      if is_some (fr_content_ref f) then Ok tt else Raise (ValueError "Static file fragments require content_ref.")
  | workspace_file_locator =>
      match fr_locator f with
      | None => Raise (ValueError "Workspace file locator fragments require locator.")
      | Some l => if has_locator_field l "locator_id" then Ok tt
                  else Raise (ValueError "Workspace file locator fragments require locator_id metadata.")
      end
  | runtime_locator_lookup =>
      match fr_locator f with
      | None => Raise (ValueError "Runtime locator fragments require locator.")
      | Some l => if has_locator_field l "node_id" && has_locator_field l "artifact_name" then Ok tt
                  else Raise (ValueError "Runtime locator fragments require node_id and artifact_name metadata.")
      end
  | static_env | static_var => validate_static_value_fragment f
  end.

(** Code: core/preflight/compiled_records.py, RenderStream. *)
Record RenderStream := mkStream { rs_target_role : ProviderRole; rs_fragments : list Fragment }.

#[global] Instance RenderStream_eq_dec : EqDecision RenderStream.
Proof. solve_decision. Defined.

(** Code: core/preflight/compiled_records.py, RenderPlan. *)
Record RenderPlan := mkRenderPlan {
  rp_render_plan_id : string;
  rp_node_id : option string;
  rp_module_id : option string;
  rp_source_file : option string;
  rp_source_root : option string;
  rp_source_span : option SourceSpan;
  rp_template_hash : option string;
  rp_template_signature : option string;
  rp_streams : list RenderStream
}.

#[global] Instance RenderPlan_eq_dec : EqDecision RenderPlan.
Proof. solve_decision. Defined.

(** Code: core/preflight/compiled_records.py:176-193. *)
Record TokenCatalogEntry := mkTokenEntry {
  te_occurrence_id : string;
  te_node_id : string;
  te_target_role : ProviderRole;
  te_source_role : PromptSegmentRole;
  te_raw_token : string;
  te_token_kind : TokenKind;
  te_fragment_index : Z;
  te_signature : string;
  te_source_file : option string;
  te_source_span : option SourceSpan;
  te_token_raw_span : option TokenRawSpan;
  te_canonical_locator : option string;
  te_dependency_signature : option string;
  te_resolved : dict json;
  te_metadata : dict string
}.

#[global] Instance TokenCatalogEntry_eq_dec : EqDecision TokenCatalogEntry.
Proof. solve_decision. Defined.

(** Code: core/preflight/compiled_records.py, DependencyEdge. *)
Record CompiledEdge := mkCompiledEdge {
  de_source_node : string;
  de_target_node : string;
  de_artifact_name : option string;
  de_dependency_signature : string;
  de_target_locator : option string;
  de_artifact_key : option string;
  de_first_token_signature : option string
}.

#[global] Instance CompiledEdge_eq_dec : EqDecision CompiledEdge.
Proof. solve_decision. Defined.

(** Code: core/preflight/compiled_records.py, ProviderRecord. *)
Record ProviderRecord := mkProviderRecord {
  pr_provider : string;
  pr_role : ProviderRole;
  pr_model : option string;
  pr_requested_reasoning : option string;
  pr_task_id : string;
  pr_agent_config_key : string;
  pr_invoker_alias : string;
  pr_agent_config_signature : string;
  pr_invoker_config_signature : string
}.

#[global] Instance ProviderRecord_eq_dec : EqDecision ProviderRecord.
Proof. solve_decision. Defined.

(** The retry policy record has no field.
    Code: core/preflight/compiled_records.py:235-259. *)
Record ExecutionPolicy := mkPolicy {
  xp_depth : option Z;
  xp_audit_rounds : option Z;
  xp_review_starts_with : ReviewStartsWith;
  xp_continue_on_failure : bool;
  xp_failure_threshold : option Z;
  xp_token_budget : option (option Z * option Z);
  xp_consensus_on_exhaustion : option SequentialConsensusPolicy;
  xp_max_concurrent_nodes : option Z;
  xp_max_parallel_invocations : option Z
}.

#[global] Instance ExecutionPolicy_eq_dec : EqDecision ExecutionPolicy.
Proof. solve_decision. Defined.

(** [value or 1]. *)
Definition or_one (o : option Z) : Z := match o with Some z => if z =? 0 then 1 else z | None => 1 end.

(** Code: core/preflight/compiled_records.py, ExecutionPolicy.single_provider_total_rounds. *)
Definition single_provider_total_rounds (p : ExecutionPolicy) : Z := or_one (xp_depth p).

(** Code: core/preflight/compiled_records.py, WorkspaceFileSourceClass. *)
Inductive WorkspaceFileSourceClass := PROJECT_INITIAL | PROJECT_INITIAL_THEN_CANDIDATE | RUNTIME_DYNAMIC.

(** Code: core/preflight/compiled_records.py, WorkspaceFileTarget. *)
Inductive WorkspaceFileTarget := INPUT_OUTPUT | EXECUTOR_PROMPT | REVIEWER_PROMPT.

#[global] Instance WorkspaceFileSourceClass_eq_dec : EqDecision WorkspaceFileSourceClass.
Proof. solve_decision. Defined.
#[global] Instance WorkspaceFileTarget_eq_dec : EqDecision WorkspaceFileTarget.
Proof. solve_decision. Defined.

(** Code: core/preflight/compiled_records.py:292-317. *)
Record WorkspaceFileLocator := mkLocator {
  wl_locator_id : string;
  wl_content_ref : option string;
  wl_occurrence_id : string;
  wl_node_id : string;
  wl_target : WorkspaceFileTarget;
  wl_source_class : WorkspaceFileSourceClass;
  wl_raw_token : string;
  wl_raw_path : string;
  wl_source_file : option string;
  wl_source_span : option SourceSpan;
  wl_token_raw_span : option TokenRawSpan;
  wl_source_root : string;
  wl_source_root_relative_to_project : string;
  wl_project_root_relative_to_git_top : string;
  wl_git_top_relative_path : string;
  wl_workspace_relative_path : string;
  wl_git_blob : option string;
  wl_git_file_mode : option string;
  wl_byte_size : option Z;
  wl_canonical_blob_sha256 : option string;
  wl_injected_sha256 : option string;
  wl_literal_path_verified : bool;
  wl_utf8_validated : bool
}.

#[global] Instance WorkspaceFileLocator_eq_dec : EqDecision WorkspaceFileLocator.
Proof. solve_decision. Defined.

(** Code: core/preflight/compiled_records.py, WorkspaceFileLocator._validate_project_initial_state. *)
Definition validate_project_initial_state (l : WorkspaceFileLocator) : outcome unit :=
  let missing := map fst (List.filter (fun '(_, present) => negb present)
    [("byte_size", is_some (wl_byte_size l)); ("canonical_blob_sha256", is_some (wl_canonical_blob_sha256 l));
     ("content_ref", is_some (wl_content_ref l)); ("git_blob", is_some (wl_git_blob l));
     ("git_file_mode", is_some (wl_git_file_mode l))]) in
  if is_cons missing then
    Raise (ValueError ("Project-initial workspace locators require: " +:+ str_join ", " missing))
  else if negb (wl_literal_path_verified l) || negb (wl_utf8_validated l) then
    Raise (ValueError "Project-initial workspace locators require verified literal UTF-8 bytes.")
  else Ok tt.

(** Code: core/preflight/compiled_records.py, WorkspaceFileLocator._validate_runtime_dynamic_state. *)
Definition validate_runtime_dynamic_state (l : WorkspaceFileLocator) : outcome unit :=
  let present := map fst (List.filter (fun '(_, present) => present)
    [("byte_size", is_some (wl_byte_size l)); ("canonical_blob_sha256", is_some (wl_canonical_blob_sha256 l));
     ("content_ref", is_some (wl_content_ref l)); ("git_blob", is_some (wl_git_blob l));
     ("git_file_mode", is_some (wl_git_file_mode l)); ("injected_sha256", is_some (wl_injected_sha256 l))]) in
  if is_cons present || wl_literal_path_verified l || wl_utf8_validated l then
    Raise (ValueError ("Runtime-dynamic workspace locators cannot carry static byte metadata: "
      +:+ (if is_cons present then str_join ", " present else "verification flags") +:+ "."))
  else Ok tt.

(** Code: core/preflight/compiled_records.py, WorkspaceFileLocator._validate_source_state. *)
Definition validate_source_state (l : WorkspaceFileLocator) : outcome unit :=
  _ ← (if decide (wl_source_class l = RUNTIME_DYNAMIC) then validate_runtime_dynamic_state l
       else validate_project_initial_state l);
  if bool_decide (wl_target l = INPUT_OUTPUT) && negb (bool_decide (wl_source_class l = PROJECT_INITIAL)) then
    Raise (ValueError "Input workspace locators must use project_initial bytes.")
  else Ok tt.

(** ** Expansion evidence (core/expansion_state.py) *)

(** Code: core/expansion_state.py:11-16. *)
Record ExpansionProvenance := mkProvenance { xv_group_id : string; xv_digest : string; xv_ordinal : option Z }.

(** Code: core/expansion_state.py:37-42. *)
Record ExpansionArtifact := mkArtifact { xa_relative_path : string; xa_size_bytes : Z; xa_sha256 : string }.

#[global] Instance ExpansionProvenance_eq_dec : EqDecision ExpansionProvenance.
Proof. solve_decision. Defined.
#[global] Instance ExpansionArtifact_eq_dec : EqDecision ExpansionArtifact.
Proof. solve_decision. Defined.

(** Code: core/expansion_state.py:59-68. *)
Record ExpansionState := mkExpansionState {
  xs_group_id : string;
  xs_workflow_signature : string;
  xs_template_digest : string;
  xs_digest : string;
  xs_collection : ExpansionArtifact;
  xs_items : list ExpansionArtifact;
  xs_caller_artifacts : dict ExpansionArtifact
}.

#[global] Instance ExpansionState_eq_dec : EqDecision ExpansionState.
Proof. solve_decision. Defined.

(** Code: core/expansion_state.py, ExpansionState.provenance. *)
Definition provenance (s : ExpansionState) (ordinal : option Z) : ExpansionProvenance :=
  mkProvenance (xs_group_id s) (xs_digest s) ordinal.

(** Code: core/expansion_state.py, ExpansionProvenance.validate_node. *)
Definition validate_provenance_node (p : ExpansionProvenance) (node_id : string) : outcome unit :=
  let valid := match xv_ordinal p with
               | None => bool_decide (node_id = xv_group_id p)
               | Some k => str_startswith (xv_group_id p +:+ ".i" +:+ str_int k +:+ ".") node_id
               end in
  if valid then Ok tt else Raise (ValueError "Expansion provenance does not match concrete node identity").

(** ** Nodes, templates and plans *)

(** Code: core/preflight/compiled_records.py:387-406. *)
Record PreflightExecutionNode := mkExecNode {
  en_id : string;
  en_module_id : option string;
  en_source_file : option string;
  en_source_root : option string;
  en_source_span : option SourceSpan;
  en_mode : NodeMode;
  en_findings : bool;
  en_dependencies : list string;
  en_render_plan_id : option string;
  en_provider_records : list ProviderRecord;
  en_execution_policy : ExecutionPolicy;
  en_workspace_policy : option WorkspaceSelectionRecord;
  en_artifact_contract : ArtifactContract;
  en_expansion : option ExpansionProvenance;
  en_input_item_slot : bool;
  en_input_content_ref : option string;
  en_input_workspace_file_locator_id : option string
}.

#[global] Instance PreflightExecutionNode_eq_dec : EqDecision PreflightExecutionNode.
Proof. solve_decision. Defined.

(** Code: core/preflight/compiled_records.py, PreflightExecutionNode._validate_mode_payload. *)
Definition validate_mode_payload (n : PreflightExecutionNode) : outcome unit :=
  if bool_decide (en_mode n = InputMode) then
    if is_some (en_render_plan_id n) then Raise (ValueError "Input preflight nodes must not define render_plan_id.")
    else if is_cons (en_provider_records n) then
      Raise (ValueError "Input preflight nodes must not define provider_records.")
    else Ok tt
  else if is_some (en_input_content_ref n) then
    Raise (ValueError "Provider-executed preflight nodes must not define input_content_ref.")
  else if is_some (en_input_workspace_file_locator_id n) then
    Raise (ValueError "Provider-executed preflight nodes must not define input_workspace_file_locator_id.")
  else Ok tt.

(** Code: core/preflight/models.py:45-63. *)
Record CompiledForeach := mkCompiledForeach {
  cf_group_id : string;
  cf_namespace : string;
  cf_workflow : string;
  cf_items : list json + string;
  cf_max_items : Z;
  cf_item_node_id : string;
  cf_shared_bindings : dict string;
  cf_parameters : dict string;
  cf_original_dependencies : list string;
  cf_template_digest : string;
  cf_execution_order : list string;
  cf_nodes : list PreflightExecutionNode;
  cf_render_plans : list RenderPlan;
  cf_workspace_file_locators : list WorkspaceFileLocator;
  cf_token_catalog : list TokenCatalogEntry;
  cf_dependency_graph : list CompiledEdge
}.

(** Code: core/preflight/models.py, CompiledForeach.node_bound. *)
Definition node_bound (t : CompiledForeach) : Z :=
  (match cf_items t with inl items => Z.of_nat (length items) | inr _ => cf_max_items t end)
  * Z.of_nat (length (cf_nodes t)).

(** The fields of a plan the contract and the expansion read or replace.
    Code: core/preflight/models.py:133-159. *)
Record PreflightExecutionPlan := mkPlanRecord {
  pp_run_key_name : string;
  pp_workflow_name : string;
  pp_workflow_signature : string;
  pp_execution_order : list string;
  pp_expansions : dict ExpansionState;
  pp_foreach_templates : list CompiledForeach;
  pp_nodes : list PreflightExecutionNode;
  pp_render_plans : list RenderPlan;
  pp_workspace_file_locators : list WorkspaceFileLocator;
  pp_token_catalog : list TokenCatalogEntry;
  pp_dependency_graph : list CompiledEdge;
  pp_runtime_config_snapshot : dict json;
  pp_fingerprint_metadata : dict json;
  pp_value_fingerprints : list (dict string)
}.

(** Code: core/preflight/foreach/models.py, ExpansionBatch. *)
Record ExpansionBatch := mkBatch {
  xb_state : ExpansionState;
  xb_nodes : list PreflightExecutionNode;
  xb_render_plans : list RenderPlan;
  xb_workspace_file_locators : list WorkspaceFileLocator;
  xb_token_catalog : list TokenCatalogEntry;
  xb_dependency_graph : list CompiledEdge;
  xb_group_dependencies : list string
}.

#[global] Instance ExpansionBatch_eq_dec : EqDecision ExpansionBatch.
Proof. solve_decision. Defined.

(** ** Signatures *)

Section Signatures.
Context {hash : HashLibrary}.

(** Code: core/preflight/signatures.py, signature_for_payload. *)
Definition signature_for_payload (payload : json) : string := sha256 (canonical_json payload).

(** Code: core/preflight/dependency_edges.py, dependency_signature. *)
Definition dependency_signature (source_node target_node : string) (artifact_name : option string) : string :=
  signature_for_payload (JObj [("artifact_name", jopt JStr artifact_name); ("source", JStr source_node);
                               ("target", JStr target_node)]).

(** A descriptor as [model_dump] writes it. *)
Definition artifact_payload (a : ExpansionArtifact) : json :=
  JObj [("relative_path", JStr (xa_relative_path a)); ("size_bytes", JInt (xa_size_bytes a));
        ("sha256", JStr (xa_sha256 a))].

(** Code: core/preflight/foreach/expansion_identity.py, expansion_digest. *)
Definition expansion_digest (template : CompiledForeach) (workflow_signature : string)
    (collection : ExpansionArtifact) (items : list ExpansionArtifact)
    (caller_artifacts : dict ExpansionArtifact) : string :=
  signature_for_payload (JObj
    [("workflow_signature", JStr workflow_signature);
     ("template_digest", JStr (cf_template_digest template));
     ("group_id", JStr (cf_group_id template));
     ("collection", artifact_payload collection);
     ("items", JList (map artifact_payload items));
     ("caller_artifacts", JObj (map (fun '(k, a) => (k, artifact_payload a)) caller_artifacts));
     ("shared_bindings", string_dict_json (cf_shared_bindings template))]).

End Signatures.
