(* ===== verification/Artifacts.v ===== *)
(** Artifact names and locators: architecture/contracts/artifacts.py and the
    path checks of architecture/safe_file_paths.py.

    Every name the runtime generates for a node or a task is shown to be a
    portable path component of at most 180 characters, so building the locators
    of a node never fails. *)

From Stdlib Require Import ZArith Lia Ascii String.
From stdpp Require Import base gmap sets list strings.
From S2P Require Import Prelude PyStr Models PlanRecords.

Open Scope string_scope.
Open Scope list_scope.
Open Scope Z_scope.

(** ** Text helpers *)

(** [s.split(sep)] for a separator of one character. *)
Fixpoint split_on_aux (sep : ascii) (acc l : text) : list text :=
  match l with
  | [] => [reverse acc]
  | c :: t => if is_char c sep then reverse acc :: split_on_aux sep [] t else split_on_aux sep (c :: acc) t
  end.

Definition str_split_on (sep : ascii) (s : string) : list string := map of_chars (split_on_aux sep [] (chars s)).

(** [s.rstrip(set)]. *)
Definition rstrip_text (p : ascii -> bool) (l : text) : text := reverse (drop_while p (reverse l)).

Definition str_len (s : string) : Z := Z.of_nat (String.length s).

(** [s[:n]]. *)
Definition str_take (n : Z) (s : string) : string := of_chars (take (Z.to_nat n) (chars s)).

(** Runs of characters outside [keep] become one [-]. *)
Fixpoint dash_runs (keep : ascii -> bool) (in_gap : bool) (l : text) : text :=
  match l with
  | [] => []
  | c :: t => if keep c then c :: dash_runs keep false t
              else if in_gap then dash_runs keep true t else "-"%char :: dash_runs keep true t
  end.

(** ** Safe paths (architecture/safe_file_paths.py) *)

Definition WINDOWS_DEVICES : list string :=
  ["con"; "prn"; "aux"; "nul"; "conin$"; "conout$";
   "com1"; "com2"; "com3"; "com4"; "com5"; "com6"; "com7"; "com8"; "com9";
   "lpt1"; "lpt2"; "lpt3"; "lpt4"; "lpt5"; "lpt6"; "lpt7"; "lpt8"; "lpt9"].

(** The end of a device match: a dot, the end of the text or its last newline. *)
Definition device_end (rest : text) : bool :=
  match rest with
  | [] => true
  | c :: t => is_char c "." || (bool_decide (c = lf) && bool_decide (t = []))
  end.

(** A device name, spaces, then a dot or the end; the superscript digits of the
    pattern are outside ASCII.
    Code: architecture/safe_file_paths.py, is_windows_device_name. *)
Definition is_windows_device_name (name : string) : bool :=
  let l := map lower_char (chars name) in
  existsb (fun d => starts_with (chars d) l &&
                    device_end (drop_while (fun c => is_char c " ") (drop (String.length d) l))) WINDOWS_DEVICES.

(** Code: architecture/safe_file_paths.py, is_safe_path_component. *)
Definition is_safe_path_component (component : string) : bool :=
  nonempty component && negb (str_in component ["."; ".."]) &&
  negb (str_endswith "." component || str_endswith " " component) &&
  negb (is_windows_device_name component) &&
  negb (existsb (fun c => (code c <? 32)%N || bool_decide (c ∈ quote_char :: chars "<>:/\|?*")) (chars component)).

(** Code: architecture/safe_file_paths.py, is_safe_relative_path. *)
Definition is_safe_relative_path (relative_path : string) : bool :=
  forallb is_safe_path_component (str_split_on "/" relative_path).

(** ** Generated names (architecture/contracts/artifacts.py) *)

(** Code: architecture/contracts/artifacts.py, MAX_ARTIFACT_PATH_COMPONENT_CHARS. *)
Definition MAX_ARTIFACT_PATH_COMPONENT_CHARS : Z := 180.

(** Code: architecture/contracts/artifacts.py, REVIEW_AUDIT_DIRECTORY_PREFIX. *)
Definition REVIEW_AUDIT_DIRECTORY_PREFIX : string := "review-audit-round-".

Definition artifact_name_char (c : ascii) : bool := is_lower c || is_digit c.

Section Names.
Context {hash : HashLibrary}.

(** Code: architecture/contracts/artifacts.py, artifact_name_hash. *)
Definition artifact_name_hash (value : string) : string := str_take 12 (sha256 value).

(** Code: architecture/contracts/artifacts.py, windows_safe_generated_name. *)
Definition windows_safe_generated_name (slug original : string) : string :=
  let slug := if str_endswith "." slug || str_endswith " " slug then
                let stem := of_chars (rstrip_text (fun c => is_char c "." || is_char c " ") (chars slug)) in
                (if nonempty stem then stem else "task") +:+ "--" +:+ artifact_name_hash original
              else slug in
  if is_windows_device_name slug then "safe-" +:+ slug else slug.

(** Code: architecture/contracts/artifacts.py, safe_stage_name. *)
Definition safe_stage_name (name : string) : string :=
  let stripped := str_lower (str_strip name) in
  if negb (nonempty stripped) || str_in stripped ["."; ".."] then "task"
  else
    let slug := of_chars (dash_runs node_id_char false (chars stripped)) in
    if str_in slug ["."; ".."] then "task"
    else windows_safe_generated_name (if nonempty slug then slug else "task") name.

(** Code: architecture/contracts/artifacts.py, safe_artifact_name. *)
Definition safe_artifact_name (name : string) : string :=
  let stripped := str_lower (str_strip name) in
  if negb (nonempty stripped) || str_in stripped ["."; ".."] then "task"
  else
    let dash c := is_char c "-" in
    let slug := of_chars (rstrip_text dash (drop_while dash (dash_runs artifact_name_char false (chars stripped)))) in
    if nonempty slug then slug else "task".

(** Code: architecture/contracts/artifacts.py, bounded_artifact_name. *)
Definition bounded_artifact_name (safe_prefix suffix : string) : outcome string :=
  if MAX_ARTIFACT_PATH_COMPONENT_CHARS <=? str_len suffix then
    Raise (ValueError "Generated suffix exceeds path component budget.")
  else
    let safe_prefix := if is_windows_device_name (safe_prefix +:+ suffix) then "safe-" +:+ safe_prefix else safe_prefix in
    let available := MAX_ARTIFACT_PATH_COMPONENT_CHARS - str_len suffix in
    let prefix := of_chars (rstrip_text (fun c => is_char c "-" || is_char c "." || is_char c "_")
                              (chars (str_take available safe_prefix))) in
    let prefix := if nonempty prefix then prefix else str_take available "artifact" in
    Ok (prefix +:+ suffix).

(** Code: architecture/contracts/artifacts.py, bounded_artifact_filename. *)
Definition bounded_artifact_filename (name safe_prefix suffix : string) : outcome string :=
  let safe_prefix := if is_windows_device_name (safe_prefix +:+ suffix) then "safe-" +:+ safe_prefix else safe_prefix in
  if str_len (safe_prefix +:+ suffix) <=? MAX_ARTIFACT_PATH_COMPONENT_CHARS then Ok (safe_prefix +:+ suffix)
  else bounded_artifact_name safe_prefix ("--" +:+ artifact_name_hash name +:+ suffix).

(** Code: architecture/contracts/artifacts.py, build_stage_directory_name. *)
Definition build_stage_directory_name (node_id : string) : outcome string :=
  let safe_name := safe_stage_name node_id in
  if str_len safe_name <=? MAX_ARTIFACT_PATH_COMPONENT_CHARS then Ok safe_name
  else bounded_artifact_name safe_name ("--" +:+ artifact_name_hash node_id).

(** Code: architecture/contracts/artifacts.py, build_result_filename. *)
Definition build_result_filename (node_id : string) : outcome string :=
  bounded_artifact_filename node_id (safe_stage_name node_id) "-result.md".

(** Code: architecture/contracts/artifacts.py, build_findings_filename. *)
Definition build_findings_filename (node_id : string) : outcome string :=
  bounded_artifact_filename node_id (safe_stage_name node_id) "-findings.md".

(** The field validator of every locator.
    Code: architecture/contracts/artifacts.py, ArtifactContract._validate_relative_locator. *)
Definition validate_relative_locator (value : option string) : outcome (option string) :=
  match value with
  | None => Ok None
  | Some path => if is_safe_relative_path path then Ok value
                 else Raise (ValueError "Artifact locators must be nonblank safe relative paths.")
  end.

(** Code: architecture/contracts/artifacts.py, artifact_contract_for_node. *)
Definition artifact_contract_for_node (node_id : string) (findings_enabled : bool) : outcome ArtifactContract :=
  stage_path ← build_stage_directory_name node_id;
  output_path ← build_result_filename node_id;
  findings_path ← (if findings_enabled then (name ← build_findings_filename node_id; mret (Some name)) else Ok None);
  let log_path := stage_path +:+ "/logs" in
  _ ← validate_relative_locator (Some stage_path);
  _ ← validate_relative_locator (Some output_path);
  _ ← validate_relative_locator findings_path;
  _ ← validate_relative_locator (Some log_path);
  mret (mkContract (Some stage_path) output_path findings_path (Some log_path) None (Some output_path)).

(** Code: architecture/contracts/artifacts.py, build_review_audit_directory_name. *)
Definition build_review_audit_directory_name (audit_round_num : Z) : string :=
  REVIEW_AUDIT_DIRECTORY_PREFIX +:+ str_int audit_round_num.

(** Code: architecture/contracts/artifacts.py, build_task_round_filename. *)
Definition build_task_round_filename (task_id : string) (round_num : Z) : string :=
  task_id +:+ "_round" +:+ str_int round_num +:+ ".md".

(** Code: architecture/contracts/artifacts.py, build_reviewer_state_filename. *)
Definition build_reviewer_state_filename (task_id : string) (round_num : Z) : string :=
  safe_artifact_name task_id +:+ "-round-" +:+ str_int round_num +:+ ".state.json".

(** Code: architecture/contracts/artifacts.py, build_log_filename. *)
Definition build_log_filename (task_id : string) (audit_round_num round_num : option Z) : outcome string :=
  let audit_part := match audit_round_num with Some n => "-audit" +:+ str_int n | None => "" end in
  let round_part := match round_num with Some n => "-round" +:+ str_int n | None => "" end in
  bounded_artifact_filename task_id (safe_artifact_name task_id) (audit_part +:+ round_part +:+ ".log").

End Names.

(** ** Portability of the generated names *)

(** The documented form of a SHA-256 hexadecimal digest. *)
Class HashLaws (hash : HashLibrary) : Prop := {
  sha256_length : forall s, length (chars (sha256 s)) = 64%nat;
  sha256_hex : forall s, Forall (fun c => is_digit c || in_range 97 102 c = true) (chars (sha256 s))
}.

Definition name_text (l : text) : Prop := Forall (fun c => node_id_char c = true) l.

(** A portable component made of the characters of node ids. *)
Record portable (s : string) : Prop := {
  po_chars : name_text (chars s);
  po_nonempty : chars s <> [];
  po_last : last (chars s) <> Some "."%char;
  po_device : is_windows_device_name s = false
}.

Lemma name_char_facts c : node_id_char c = true ->
  lower_char c = c /\ is_char c " " = false /\ c <> lf /\ (code c <? 32)%N = false /\
  c ∉ quote_char :: chars "<>:/\|?*".
Proof.
  intros H.
  assert (forall c, node_id_char c = true ->
    bool_decide (lower_char c = c) && negb (is_char c " ") && negb (bool_decide (c = lf)) && negb (code c <? 32)%N &&
    negb (bool_decide (c ∈ quote_char :: chars "<>:/\|?*")) = true) as Hall.
  { clear. intros [[] [] [] [] [] [] [] []]; vm_compute; congruence. }
  apply Hall in H. rewrite !andb_true_iff, !negb_true_iff, !bool_decide_eq_true, !bool_decide_eq_false in H. tauto.
Qed.

Lemma hex_name_char c : is_digit c || in_range 97 102 c = true -> node_id_char c = true /\ c <> "."%char.
Proof.
  intros H.
  assert (forall c, is_digit c || in_range 97 102 c = true -> node_id_char c && negb (is_char c ".") = true) as Hall.
  { clear. intros [[] [] [] [] [] [] [] []]; vm_compute; congruence. }
  apply Hall in H. unfold is_char in H. rewrite andb_true_iff, negb_true_iff, bool_decide_eq_false in H. tauto.
Qed.

Lemma dash_runs_name b l : name_text (dash_runs node_id_char b l).
Proof.
  revert b. induction l as [|c l IH]; intros b; simpl; [constructor|].
  destruct (node_id_char c) eqn:Hc; [constructor; [done | apply IH]|].
  destruct b; [apply IH|]. constructor; [reflexivity | apply IH].
Qed.

Lemma endswith_last c s : str_endswith (of_chars [c]) s = true <-> last (chars s) = Some c.
Proof.
  unfold str_endswith. rewrite chars_of_chars, starts_with_spec. simpl. split.
  - intros [rest Hr]. apply (f_equal reverse) in Hr. rewrite reverse_involutive in Hr. rewrite Hr. simpl.
    by rewrite reverse_cons, last_snoc.
  - intros Hl. destruct (chars s) as [|a l] using rev_ind; [done|]. rewrite last_snoc in Hl. injection Hl as ->.
    rewrite reverse_snoc. by eexists.
Qed.

(** On name characters a device name ends the text or is followed by a dot. *)
Lemma device_spec s : name_text (chars s) ->
  is_windows_device_name s = true <->
  exists d rest, d ∈ WINDOWS_DEVICES /\ chars s = chars d ++ rest /\ (rest = [] \/ exists t, rest = "."%char :: t).
Proof.
  intros Hn. unfold is_windows_device_name.
  assert (map lower_char (chars s) = chars s) as ->.
  { clear -Hn. induction Hn as [|c l Hc Hl IH]; [done|]. simpl. rewrite IH. by rewrite (proj1 (name_char_facts c Hc)). }
  rewrite existsb_exists. setoid_rewrite andb_true_iff. setoid_rewrite starts_with_spec. split.
  - intros (d & Hd & [rest Hr] & He). exists d, rest. split; [by apply list_elem_of_In|]. split; [done|].
    rewrite Hr in He, Hn. assert (length (chars d) = String.length d) as Hlen.
    { clear. induction d; simpl; [done | by f_equal]. }
    rewrite <- Hlen, drop_app_length in He. apply Forall_app in Hn as [_ Hrest].
    destruct rest as [|c t]; [by left|]. apply Forall_cons in Hrest as [Hc Ht].
    destruct (name_char_facts c Hc) as (_ & Hsp & Hlf & _). simpl in He. rewrite Hsp in He. simpl in He.
    rewrite (bool_decide_eq_false_2 _ Hlf) in He. unfold is_char in He.
    rewrite orb_true_iff, bool_decide_eq_true in He. right. exists t. destruct He as [->|He]; [done|discriminate].
  - intros (d & rest & Hd & Hs & Hr). exists d. split; [by apply list_elem_of_In|]. split; [by eexists|].
    assert (length (chars d) = String.length d) as Hlen.
    { clear. induction d; simpl; [done | by f_equal]. }
    rewrite Hs, <- Hlen, drop_app_length. by destruct Hr as [->|[t ->]].
Qed.

Lemma portable_safe s : portable s -> is_safe_path_component s = true.
Proof.
  intros [Hn Hne Hl Hd]. unfold is_safe_path_component. rewrite Hd, !andb_true_iff, !negb_true_iff, orb_false_iff.
  split_and!.
  - destruct s; [done|]. done.
  - apply not_true_is_false. rewrite str_in_true. intros [->|[->|[]%elem_of_nil]%elem_of_cons]%elem_of_cons; by apply Hl.
  - apply not_true_is_false. intros H. by apply (endswith_last ".") in H.
  - apply not_true_is_false. intros H. apply (endswith_last " ") in H.
    apply last_Some_elem_of in H. eapply Forall_forall in Hn; [|exact H]. discriminate.
  - done.
  - apply not_true_is_false. rewrite existsb_exists. intros (c & Hc & H). apply list_elem_of_In in Hc.
    eapply Forall_forall in Hn; [|exact Hc]. destruct (name_char_facts c Hn) as (_ & _ & _ & H1 & H2).
    rewrite H1, bool_decide_eq_false_2 in H; [discriminate | done].
Qed.

Lemma split_on_skip sep acc l r :
  Forall (fun c => c <> sep) l -> split_on_aux sep acc (l ++ r) = split_on_aux sep (reverse l ++ acc) r.
Proof.
  intros Hl. revert acc. induction Hl as [|c l Hc Hl IH]; intros acc; [done|]. simpl.
  unfold is_char. rewrite bool_decide_eq_false_2 by done. rewrite IH. by rewrite reverse_cons, <- app_assoc.
Qed.

Lemma portable_no_slash s : portable s -> Forall (fun c => c <> "/"%char) (chars s).
Proof. intros Hp. eapply Forall_impl; [apply Hp|]. intros c Hc ->. discriminate. Qed.

Lemma portable_split s : portable s -> str_split_on "/" s = [s].
Proof.
  intros Hp. unfold str_split_on. rewrite <- (app_nil_r (chars s)), split_on_skip by by apply portable_no_slash.
  simpl. by rewrite app_nil_r, reverse_involutive, of_chars_chars.
Qed.

Lemma portable_path s : portable s -> is_safe_relative_path s = true.
Proof. intros Hp. unfold is_safe_relative_path. rewrite portable_split by done. simpl. by rewrite portable_safe. Qed.

Lemma portable_logs s : portable s -> is_safe_relative_path (s +:+ "/logs") = true.
Proof.
  intros Hp. unfold is_safe_relative_path, str_split_on. rewrite chars_app, split_on_skip by by apply portable_no_slash.
  rewrite app_nil_r. change (chars "/logs") with ("/"%char :: chars "logs"). simpl.
  rewrite reverse_involutive, of_chars_chars, portable_safe by done. vm_compute. reflexivity.
Qed.

(** *** Building portable names *)

Lemma name_app a b : name_text (chars (a +:+ b)) <-> name_text (chars a) /\ name_text (chars b).
Proof. rewrite chars_app. apply Forall_app. Qed.

Lemma last_app_ne {A} (a b : list A) : b <> [] -> last (a ++ b) = last b.
Proof. intros Hb. destruct b as [|x b _] using rev_ind; [done|]. by rewrite app_assoc, !last_snoc. Qed.

(** Nothing that starts with [safe-] is a device. *)
Lemma safe_not_device s : name_text (chars s) -> is_windows_device_name ("safe-" +:+ s) = false.
Proof.
  intros Hs. apply not_true_is_false. rewrite device_spec by (apply name_app; split; [by repeat constructor | done]).
  intros (d & rest & Hd & He & _). rewrite chars_app in He. unfold WINDOWS_DEVICES in Hd.
  repeat (apply elem_of_cons in Hd as [->|Hd]; [discriminate He|]). by apply elem_of_nil in Hd.
Qed.

Lemma dash_split (a d rest t : text) :
  a ++ "-"%char :: rest = d ++ "."%char :: t -> "-"%char ∉ d -> exists t', a = d ++ "."%char :: t'.
Proof.
  revert d. induction a as [|x a IH]; intros [|y d]; simpl; intros He Hd.
  - discriminate.
  - injection He as <- He. exfalso. apply Hd. left.
  - injection He as -> He. by exists a.
  - injection He as -> He. destruct (IH d He) as [t' Ht]; [by apply not_elem_of_cons in Hd as [_ Hd]|].
    exists t'. by rewrite Ht.
Qed.

(** A device name that a dash follows inside the text is one of the text before
    the dash. *)
Lemma device_before_dash a b : name_text (chars (a +:+ "-" +:+ b)) ->
  is_windows_device_name (a +:+ "-" +:+ b) = true ->
  exists d t, d ∈ WINDOWS_DEVICES /\ chars a = chars d ++ "."%char :: t.
Proof.
  intros Hn H. apply device_spec in H as (d & rest & Hd & He & Hr); [|done].
  rewrite !chars_app in He. change (chars "-") with ["-"%char] in He.
  assert ("-"%char ∉ chars d) as Hdash.
  { clear -Hd. unfold WINDOWS_DEVICES in Hd.
    repeat (apply elem_of_cons in Hd as [->|Hd]; [vm_compute; intros Hx; repeat (apply elem_of_cons in Hx as [Hx|Hx]; [discriminate Hx|]); by apply elem_of_nil in Hx|]).
    by apply elem_of_nil in Hd. }
  exists d. destruct Hr as [->|[t ->]].
  - exfalso. apply Hdash. rewrite app_nil_r in He. rewrite <- He. set_solver.
  - destruct (dash_split _ _ _ _ He Hdash) as [t' Ht]. by exists t'.
Qed.

(** Truncating and stripping keep name characters. *)
Lemma rstrip_prefix p l : exists r, l = rstrip_text p l ++ r.
Proof.
  unfold rstrip_text. destruct (drop_while_suffix p (reverse l)) as (pre & Hp & _).
  exists (reverse pre). apply (f_equal reverse) in Hp. rewrite reverse_involutive, reverse_app in Hp. exact Hp.
Qed.

Lemma str_take_prefix n s : exists r, chars s = chars (str_take n s) ++ r.
Proof. exists (drop (Z.to_nat n) (chars s)). unfold str_take. by rewrite chars_of_chars, take_drop. Qed.

Lemma str_take_length n s : 0 <= n -> (length (chars (str_take n s)) <= Z.to_nat n)%nat.
Proof. intros Hn. unfold str_take. rewrite chars_of_chars, length_take. lia. Qed.

Lemma str_len_chars s : str_len s = Z.of_nat (length (chars s)).
Proof. unfold str_len. f_equal. induction s; simpl; [done | by f_equal]. Qed.

(** A suffix the names end with: [-], then name characters, not ending in a dot. *)
Record suffix_ok (s : string) : Prop := {
  so_dash : exists t, s = "-" +:+ t;
  so_chars : name_text (chars s);
  so_last : last (chars s) <> Some "."%char
}.

Lemma suffix_ne s : suffix_ok s -> chars s <> [].
Proof. intros [[t ->] _ _]. rewrite chars_app. done. Qed.

(** A name that is no device with a suffix stays none with its prefixes. *)
Lemma portable_suffixed q p s :
  suffix_ok s -> name_text (chars q) -> (exists r, chars q = chars p ++ r) ->
  is_windows_device_name (q +:+ s) = false -> portable (p +:+ s).
Proof.
  intros Hs Hq [r Hr] Hd. pose proof (suffix_ne s Hs) as Hne. destruct Hs as [[t ->] Hc Hl].
  assert (name_text (chars (p +:+ "-" +:+ t))) as Hn.
  { apply name_app. split; [|done]. rewrite Hr in Hq. by apply Forall_app in Hq as [? _]. }
  constructor.
  - done.
  - rewrite chars_app. intros H. by apply app_eq_nil in H as [_ ?].
  - by rewrite chars_app, last_app_ne.
  - apply not_true_is_false. intros H. apply device_before_dash in H as (d & t' & Hd' & Ht); [|done].
    apply not_true_iff_false in Hd. apply Hd. apply device_spec; [by apply name_app|].
    exists d, ("."%char :: t' ++ r ++ chars ("-" +:+ t)). split; [done|]. rewrite chars_app, Hr, Ht, <- !app_assoc.
    split; [done | right; by eexists].
Qed.

Section Portability.
Context {hash : HashLibrary} {laws : HashLaws hash}.

Lemma hash_text original :
  name_text (chars (artifact_name_hash original)) /\ length (chars (artifact_name_hash original)) = 12%nat /\
  Forall (fun c => c <> "."%char) (chars (artifact_name_hash original)).
Proof.
  unfold artifact_name_hash, str_take. rewrite chars_of_chars.
  pose proof (sha256_hex original) as Hx. apply (Forall_take _ (Z.to_nat 12)) in Hx. split_and!.
  - eapply Forall_impl; [exact Hx|]. intros c Hc. by apply hex_name_char.
  - rewrite length_take, sha256_length. done.
  - eapply Forall_impl; [exact Hx|]. intros c Hc. by apply hex_name_char.
Qed.

Lemma hash_suffix original : suffix_ok ("--" +:+ artifact_name_hash original).
Proof.
  destruct (hash_text original) as (Hn & Hl & Hd). constructor.
  - by exists ("-" +:+ artifact_name_hash original).
  - apply name_app. split; [by repeat constructor | done].
  - rewrite chars_app, last_app_ne by (intros H; by rewrite H in Hl). intros H. apply last_Some_elem_of in H.
    eapply Forall_forall in Hd; done.
Qed.

(** [safe-] is put in front of a name that would be a device. *)
Lemma guarded_prefix p s : name_text (chars p) -> suffix_ok s ->
  let q := if is_windows_device_name (p +:+ s) then "safe-" +:+ p else p in
  name_text (chars q) /\ is_windows_device_name (q +:+ s) = false.
Proof.
  intros Hp Hs. simpl. destruct (is_windows_device_name (p +:+ s)) eqn:Hd; [|done]. split.
  - apply name_app. split; [by repeat constructor | done].
  - rewrite str_app_assoc. apply safe_not_device, name_app. split; [done | apply Hs].
Qed.

Lemma bounded_name_portable p s :
  name_text (chars p) -> suffix_ok s -> str_len s <= 100 ->
  exists n, bounded_artifact_name p s = Ok n /\ portable n /\ str_len n <= 180.
Proof.
  intros Hp Hs Hlen. unfold bounded_artifact_name, MAX_ARTIFACT_PATH_COMPONENT_CHARS.
  rewrite (proj2 (Z.leb_gt _ _)) by lia.
  destruct (guarded_prefix p s Hp Hs) as [Hq Hd]. cbv zeta in Hq, Hd.
  set (q := if is_windows_device_name (p +:+ s) then "safe-" +:+ p else p) in *. cbv zeta.
  set (r := of_chars (rstrip_text _ _)).
  assert (exists x, chars q = chars r ++ x) as [x Hx].
  { destruct (str_take_prefix (180 - str_len s) q) as [a Ha].
    destruct (rstrip_prefix (fun c => is_char c "-" || is_char c "." || is_char c "_")
                (chars (str_take (180 - str_len s) q))) as [b Hb].
    exists (b ++ a). unfold r. rewrite chars_of_chars, app_assoc, <- Hb. exact Ha. }
  assert (length (chars r) <= Z.to_nat (180 - str_len s))%nat as Hr.
  { destruct (rstrip_prefix (fun c => is_char c "-" || is_char c "." || is_char c "_")
                (chars (str_take (180 - str_len s) q))) as [b Hb].
    apply (f_equal length) in Hb. rewrite length_app in Hb. unfold r. rewrite chars_of_chars.
    pose proof (str_take_length (180 - str_len s) q ltac:(lia)). lia. }
  eexists. split; [reflexivity|]. destruct (nonempty r) eqn:Hnr.
  - split; [by eapply portable_suffixed; eauto|]. rewrite str_len_chars, chars_app, length_app, <- str_len_chars in *.
    rewrite (str_len_chars s) in *. lia.
  - assert (str_take (180 - str_len s) "artifact" = "artifact") as ->.
    { unfold str_take. rewrite take_ge; [done|]. change (length (chars "artifact")) with 8%nat. lia. }
    split; [|rewrite str_len_chars, chars_app, length_app; rewrite str_len_chars in Hlen; simpl; lia].
    apply (portable_suffixed "artifact" "artifact"); [done | by repeat constructor | exists []; by rewrite app_nil_r|].
    apply not_true_is_false. intros H. destruct Hs as [[t ->] Hc _]. apply device_before_dash in H as (d & u & Hd' & Hu).
    + unfold WINDOWS_DEVICES in Hd'. repeat (apply elem_of_cons in Hd' as [->|Hd']; [discriminate Hu|]).
      by apply elem_of_nil in Hd'.
    + apply name_app. split; [by repeat constructor | done].
Qed.

Lemma filename_portable name p s :
  name_text (chars p) -> suffix_ok s -> str_len s <= 50 ->
  exists n, bounded_artifact_filename name p s = Ok n /\ portable n /\ str_len n <= 180.
Proof.
  intros Hp Hs Hlen. unfold bounded_artifact_filename. destruct (guarded_prefix p s Hp Hs) as [Hq Hd]. cbv zeta in Hq, Hd.
  set (q := if is_windows_device_name (p +:+ s) then "safe-" +:+ p else p) in *. cbv zeta.
  destruct (Z.leb_spec (str_len (q +:+ s)) MAX_ARTIFACT_PATH_COMPONENT_CHARS) as [Hle|_].
  - eexists. split; [reflexivity|]. split; [|exact Hle].
    apply (portable_suffixed q q); [done | done | exists []; by rewrite app_nil_r | done].
  - destruct (hash_text name) as (Hn & Hl & _). apply bounded_name_portable; [done| |].
    + constructor.
      * by exists ("-" +:+ artifact_name_hash name +:+ s).
      * apply name_app. split; [by repeat constructor|]. apply name_app. split; [done | apply Hs].
      * rewrite !chars_app, !last_app_ne; [apply Hs | by apply suffix_ne |].
        intros H. apply app_eq_nil in H as [_ H]. by apply suffix_ne in H.
    + rewrite str_len_chars, !chars_app, !length_app, Hl. rewrite str_len_chars in Hlen. simpl. lia.
Qed.

Lemma lower_strip_nonempty l : l <> [] -> dash_runs node_id_char false l <> [].
Proof. destruct l as [|c l]; [done|]. intros _. simpl. by destruct (node_id_char c). Qed.

Lemma windows_safe_portable slug original :
  name_text (chars slug) -> chars slug <> [] -> portable (windows_safe_generated_name slug original).
Proof.
  intros Hn Hne. unfold windows_safe_generated_name.
  assert (exists s, (if str_endswith "." slug || str_endswith " " slug
      then (if nonempty (of_chars (rstrip_text (fun c => is_char c "." || is_char c " ") (chars slug)))
            then of_chars (rstrip_text (fun c => is_char c "." || is_char c " ") (chars slug)) else "task")
           +:+ "--" +:+ artifact_name_hash original else slug) = s /\
      name_text (chars s) /\ chars s <> [] /\ last (chars s) <> Some "."%char) as (s & -> & Hs & Hsne & Hl).
  { eexists. split; [reflexivity|]. destruct (str_endswith "." slug) eqn:He; simpl.
    - set (stem := if nonempty _ then _ else _). destruct (hash_suffix original) as [_ Hh Hhl].
      assert (name_text (chars stem)) as Hstem.
      { unfold stem. destruct (nonempty _); [|by repeat constructor]. rewrite chars_of_chars.
        destruct (rstrip_prefix (fun c => is_char c "." || is_char c " ") (chars slug)) as [r Hr]. rewrite Hr in Hn.
        by apply Forall_app in Hn as [? _]. }
      split; [by apply name_app|]. rewrite chars_app, last_app_ne by done. split; [|done].
      intros H. by apply app_eq_nil in H as [_ ?].
    - destruct (str_endswith " " slug) eqn:He'; simpl.
      { apply (endswith_last " ") in He'. apply last_Some_elem_of in He'. eapply Forall_forall in Hn; [|exact He']. discriminate. }
      split_and!; [done..|]. intros H. apply (endswith_last ".") in H. change (str_endswith "." slug = true) in H. congruence. }
  cbv zeta. destruct (is_windows_device_name s) eqn:Hd; [|by constructor].
  constructor; [|done| |by apply safe_not_device].
  - apply name_app. split; [by repeat constructor | done].
  - by rewrite chars_app, last_app_ne.
Qed.

Lemma task_portable : portable "task".
Proof. constructor; [by repeat constructor | done | done | vm_compute; reflexivity]. Qed.

Lemma stage_name_portable name : portable (safe_stage_name name).
Proof.
  unfold safe_stage_name. cbv zeta. destruct (nonempty (str_lower (str_strip name))) eqn:Hne; cbn [negb orb]; [|apply task_portable].
  destruct (str_in (str_lower (str_strip name)) ["."; ".."]); [apply task_portable|].
  destruct (str_in _ ["."; ".."]); [apply task_portable|].
  assert (chars (str_lower (str_strip name)) <> []) as Hc by (by destruct (str_lower (str_strip name))).
  set (l := chars (str_lower (str_strip name))) in *. apply windows_safe_portable.
  - destruct (nonempty (of_chars _)); [|by repeat constructor]. rewrite chars_of_chars. apply dash_runs_name.
  - destruct (nonempty (of_chars _)); [|done]. rewrite chars_of_chars. by apply lower_strip_nonempty.
Qed.

Lemma stage_directory_portable node_id :
  exists n, build_stage_directory_name node_id = Ok n /\ portable n /\ str_len n <= 180.
Proof.
  pose proof (stage_name_portable node_id) as Hp. unfold build_stage_directory_name.
  destruct (Z.leb_spec (str_len (safe_stage_name node_id)) MAX_ARTIFACT_PATH_COMPONENT_CHARS); [by eexists|].
  destruct (hash_text node_id) as (_ & Hl & _). apply bounded_name_portable; [apply Hp | apply hash_suffix|].
  rewrite str_len_chars, chars_app, length_app, Hl. simpl. lia.
Qed.

Lemma md_suffix s : s = "-result.md" \/ s = "-findings.md" -> suffix_ok s /\ str_len s <= 50.
Proof.
  intros [->| ->]; (split; [constructor; [|by repeat constructor | done] | vm_compute; congruence]).
  - by exists "result.md".
  - by exists "findings.md".
Qed.

(** Building the artifact contract of a node succeeds for every node id, with or without
    findings, and every locator in it is a safe relative path (no reserved device name, no trailing dot
    or blank, no control or reserved character) whose stage and file names have at most 180 characters. *)
Theorem artifact_contract_total (node_id : string) (findings : bool) :
  exists stage output found,
    artifact_contract_for_node node_id findings =
      Ok (mkContract (Some stage) output found (Some (stage +:+ "/logs")) None (Some output)) /\
    is_safe_relative_path stage = true /\ is_safe_relative_path output = true /\
    is_safe_relative_path (stage +:+ "/logs") = true /\
    str_len stage <= MAX_ARTIFACT_PATH_COMPONENT_CHARS /\ str_len output <= MAX_ARTIFACT_PATH_COMPONENT_CHARS /\
    match found with
    | Some path => findings = true /\ is_safe_relative_path path = true /\ str_len path <= MAX_ARTIFACT_PATH_COMPONENT_CHARS
    | None => findings = false
    end.
Proof.
  pose proof (stage_name_portable node_id) as [Hn _ _ _].
  destruct (md_suffix "-result.md") as [Hs1 Hl1]; [by left|]. destruct (md_suffix "-findings.md") as [Hs2 Hl2]; [by right|].
  destruct (stage_directory_portable node_id) as (stage & E1 & P1 & L1).
  destruct (filename_portable node_id _ _ Hn Hs1 Hl1) as (out & E2 & P2 & L2).
  destruct (filename_portable node_id _ _ Hn Hs2 Hl2) as (found & E3 & P3 & L3).
  unfold artifact_contract_for_node, build_result_filename, build_findings_filename. rewrite E1, E2, E3.
  cbn [mbind outcome_bind]. unfold validate_relative_locator. rewrite (portable_path stage P1), (portable_path out P2), (portable_logs stage P1).
  exists stage, out, (if findings then Some found else None).
  destruct findings; cbn [mbind outcome_bind mret outcome_ret]; rewrite ?(portable_path found P3);
    split_and!; eauto using portable_path, portable_logs.
Qed.

End Portability.

(** How a write of a file ends: it is done, or it raises before the file is
    replaced, or it raises when the file is replaced already (the sync of the
    directory fails).
    Code: artifacts/atomic_posix.py, _replace_bytes. *)
Inductive WriteResult := Written | NotReplaced | ReplacedUnsynced.

(** A digest of the documented form. *)
Definition constant_hash : HashLibrary :=
  {| sha256 := fun _ => "e3b0c44298fc1c149afbf4c8996fb92427ae41e4649b934ca495991b7852b855" |}.

Lemma constant_hash_laws : HashLaws constant_hash.
Proof. constructor; intros s; [reflexivity|]. repeat (constructor; [reflexivity|]). constructor. Qed.

(** An instance, with a reserved device name. *)
Lemma artifact_contract_total_witness :
  exists stage output found,
    @artifact_contract_for_node constant_hash "Con.Report " true =
      Ok (mkContract (Some stage) output found (Some (stage +:+ "/logs")) None (Some output)) /\
    is_safe_relative_path stage = true.
Proof.
  destruct (@artifact_contract_total constant_hash constant_hash_laws "Con.Report " true)
    as (stage & output & found & H & Hs & _).
  exists stage, output, found. split; [exact H | exact Hs].
Defined.
