(* ===== verification/PlanContract.v ===== *)
(** The contract of a persisted execution plan: core/preflight/plan_contract.py
    and its parts (plan_contract_{records,nodes,dependencies,artifacts,shape,
    workspace_lineage,workspace_locators}.py, invocation_names.py).

    Every check raises [ValueError] with the code's message, in the code's
    order.  PlanContractSpec.v shows what a plan that passes guarantees. *)

From Stdlib Require Import ZArith Lia Ascii String.
From stdpp Require Import base gmap sets list strings.
From S2P Require Import Prelude PyStr Models PlanRecords Artifacts.

Open Scope string_scope.
Open Scope list_scope.
Open Scope Z_scope.

(** [if not condition: raise ValueError(message)]. *)
Definition require (condition : bool) (message : string) : outcome unit :=
  if condition then Ok tt else Raise (ValueError message).

(** A loop that only checks. *)
Definition each {A} (f : A -> outcome unit) (l : list A) : outcome unit := for_each (fun _ x => f x) l tt.

(** [len(l) == len(set(l))]. *)
Definition all_distinct (l : list string) : bool := bool_decide (NoDup l).

(** [set(a) == set(b)]. *)
Definition same_set (a b : list string) : bool :=
  bool_decide (list_to_set a = (list_to_set b : gset string)).

Definition SCHEMA_VERSION : string := "1.0".
Definition FINGERPRINT_PAYLOAD_VERSION : string := "1".

(** ** Records (plan_contract_records.py) *)

(** Code: core/preflight/plan_contract_records.py, unique_records. *)
Definition unique_records {R} (key : R -> string) (field_name label : string) (records : list R) : outcome (dict R) :=
  for_each (fun indexed record =>
    _ ← require (not_blank (key record)) ("Persisted " +:+ label +:+ " records require nonblank " +:+ field_name +:+ ".");
    _ ← require (negb (dmem indexed (key record)))
          ("Persisted plan contains duplicate " +:+ label +:+ " " +:+ quoted (key record) +:+ ".");
    mret (dset indexed (key record) record)) records [].

(** Code: core/preflight/plan_contract_records.py, validate_execution_order. *)
Definition validate_execution_order (execution_order : list string) (nodes_by_id : dict PreflightExecutionNode)
    : outcome unit :=
  _ ← require (all_distinct execution_order) "Persisted plan execution_order contains duplicate nodes.";
  require (same_set execution_order (dkeys nodes_by_id))
    "Persisted plan execution_order must contain every node exactly once.".

(** Code: core/preflight/plan_contract_records.py, validate_render_plan_ownership. *)
Definition validate_render_plan_ownership (plan : PreflightExecutionPlan) (render_plans_by_id : dict RenderPlan)
    : outcome unit :=
  let referenced_ids := omap en_render_plan_id (pp_nodes plan) in
  let unreferenced := sorted_str (List.filter (fun id => negb (str_in id referenced_ids)) (dkeys render_plans_by_id)) in
  require (negb (is_cons unreferenced))
    ("Persisted render plans must be owned by exactly one node: " +:+ str_join ", " unreferenced).

(** ** The dependency graph (plan_contract_dependencies.py) *)

(** Code: core/preflight/plan_contract_dependencies.py, _validate_dependency_edge. *)
Definition validate_graph_edge (nodes_by_id : dict PreflightExecutionNode) (node_order : dict Z)
    (edge : CompiledEdge) : outcome unit :=
  let source := de_source_node edge in
  let target := de_target_node edge in
  _ ← require (not_blank source && not_blank target) "Persisted dependency graph node ids cannot be blank.";
  _ ← require (dmem nodes_by_id source)
        ("Persisted dependency graph references unknown source node " +:+ quoted source +:+ ".");
  _ ← require (dmem nodes_by_id target)
        ("Persisted dependency graph references unknown target node " +:+ quoted target +:+ ".");
  source_index ← ditem node_order source;
  target_index ← ditem node_order target;
  _ ← require (source_index <? target_index)
        ("Persisted dependency graph edge must point from an upstream node: " +:+ quoted source +:+ " -> "
         +:+ quoted target +:+ ".");
  _ ← require (match de_artifact_name edge with None => true | Some a => str_in a ALLOWED_NODE_ARTIFACT_NAMES end)
        ("Persisted dependency graph contains unknown artifact " +:+ quoted (default "None" (de_artifact_name edge)) +:+ ".");
  source_node ← ditem nodes_by_id source;
  _ ← require (negb (match de_artifact_name edge with None => false | Some a => str_startswith "findings" a end)
               || en_findings source_node)
        ("Persisted dependency graph requests findings from node " +:+ quoted source
         +:+ ", which does not publish findings.");
  _ ← require (bool_decide (de_artifact_key edge = de_artifact_name edge))
        "Persisted dependency graph artifact_key is inconsistent.";
  require (bool_decide (de_target_locator edge =
             Some (match de_artifact_name edge with None => source | Some a => source +:+ "." +:+ a end)))
    "Persisted dependency graph target_locator is inconsistent.".

Definition edge_key (e : CompiledEdge) : string * string * option string :=
  (de_source_node e, de_target_node e, de_artifact_name e).

(** Code: core/preflight/plan_contract_dependencies.py, _validate_render_plan_runtime_locator_dependencies. *)
Definition validate_render_plan_runtime_locator_dependencies
    (dependency_edges : list (string * string * option string)) (render_plan : RenderPlan) : outcome unit :=
  match rp_node_id render_plan with
  | None => Ok tt
  | Some node_id =>
      each (fun stream => each (fun fragment =>
        if bool_decide (fr_kind fragment = runtime_locator_lookup) then
          match fr_locator fragment with
          | None => Ok tt
          | Some locator =>
              source ← ditem locator "node_id";
              artifact ← ditem locator "artifact_name";
              require (bool_decide ((source, node_id, Some artifact) ∈ dependency_edges))
                ("Persisted render plan " +:+ quoted (rp_render_plan_id render_plan) +:+ " contains runtime locator '"
                 +:+ source +:+ "." +:+ artifact +:+ "' without a matching dependency edge.")
          end
        else Ok tt) (rs_fragments stream)) (rp_streams render_plan)
  end.

(** One edge of the loop: the edges seen and the dependencies of each node. *)
Definition graph_step (nodes_by_id : dict PreflightExecutionNode) (node_order : dict Z)
    (acc : list (string * string * option string) * dict (gset string)) (edge : CompiledEdge)
    : outcome (list (string * string * option string) * dict (gset string)) :=
  let '(seen_edges, graph_dependencies) := acc in
  _ ← validate_graph_edge nodes_by_id node_order edge;
  _ ← require (negb (bool_decide (edge_key edge ∈ seen_edges)))
        ("Persisted dependency graph contains duplicate edge " +:+ quoted (de_source_node edge) +:+ " -> "
         +:+ quoted (de_target_node edge) +:+ ".");
  sources ← ditem graph_dependencies (de_target_node edge);
  mret (edge_key edge :: seen_edges,
        dset graph_dependencies (de_target_node edge) (sources ∪ {[ de_source_node edge ]})).

(** Code: core/preflight/plan_contract_dependencies.py, validate_dependency_graph. *)
Definition validate_dependency_graph (plan : PreflightExecutionPlan) (nodes_by_id : dict PreflightExecutionNode)
    : outcome unit :=
  let node_order := enumerate_order (pp_execution_order plan) in
  let graph_dependencies := map (fun id => (id, ∅ : gset string)) (dkeys nodes_by_id) in
  '(seen_edges, graph_dependencies) ←
     for_each (graph_step nodes_by_id node_order) (pp_dependency_graph plan) ([], graph_dependencies);
  _ ← each (validate_render_plan_runtime_locator_dependencies seen_edges) (pp_render_plans plan);
  each (fun node =>
    sources ← ditem graph_dependencies (en_id node);
    require (bool_decide (sources = list_to_set (en_dependencies node)))
      ("Persisted node " +:+ quoted (en_id node)
       +:+ " dependencies disagree with the compiled dependency graph.")) (pp_nodes plan).

(** ** Artifact locators (plan_contract_artifacts.py) *)

(** Code: core/preflight/plan_contract_artifacts.py, RESERVED_STAGE_ROOTS. *)
Definition RESERVED_STAGE_ROOTS : list string := RESERVED_RUN_ROOT_NAMES ++ ["preflight"].

(** [PurePosixPath(path).parts]. *)
Definition posix_parts (path : string) : list string :=
  let anchor := if str_startswith "//" path && negb (str_startswith "///" path) then ["//"]
                else if str_startswith "/" path then ["/"] else [] in
  anchor ++ List.filter (fun part => nonempty part && negb (bool_decide (part = "."))) (str_split_on "/" path).

(** An occupied locator: its root, its path parts, its path and its node. *)
Record Occupied := mkOccupied { oc_root : string; oc_parts : list string; oc_path : string; oc_node : string }.

(** Lexicographic comparisons, as Python compares tuples. *)
Definition then_compare (c : comparison) (d : comparison) : comparison :=
  match c with Eq => d | _ => c end.

Fixpoint compare_parts (a b : list string) : comparison :=
  match a, b with
  | [], [] => Eq
  | [], _ :: _ => Lt
  | _ :: _, [] => Gt
  | x :: a, y :: b => then_compare (String.compare x y) (compare_parts a b)
  end.

Definition compare_occupied (a b : Occupied) : comparison :=
  then_compare (String.compare (oc_root a) (oc_root b))
    (then_compare (compare_parts (oc_parts a) (oc_parts b))
       (then_compare (String.compare (oc_path a) (oc_path b)) (String.compare (oc_node a) (oc_node b)))).

Definition occupied_le (a b : Occupied) : bool := match compare_occupied a b with Gt => false | _ => true end.

Fixpoint insert_occupied (x : Occupied) (l : list Occupied) : list Occupied :=
  match l with
  | [] => [x]
  | y :: t => if occupied_le x y then x :: l else y :: insert_occupied x t
  end.

(** [occupied.sort()].
    Code: core/preflight/plan_contract_artifacts.py:62-62. *)
Definition sort_occupied (l : list Occupied) : list Occupied := foldr insert_occupied [] l.

(** [parts[:len(prefix)] == prefix]. *)
Definition parts_prefix (prefix parts : list string) : bool := bool_decide (take (length prefix) parts = prefix).

(** Code: core/preflight/plan_contract_artifacts.py:63-66. *)
Definition overlapping (previous current : Occupied) : bool :=
  bool_decide (oc_root current = oc_root previous) && parts_prefix (oc_parts previous) (oc_parts current).

(** The locators a node occupies, after the checks on its contract.
    Code: core/preflight/plan_contract_artifacts.py:24-60. *)
Definition occupied_by_node (node : PreflightExecutionNode) : outcome (list Occupied) :=
  let contract := en_artifact_contract node in
  let persisted := "Persisted node " +:+ quoted (en_id node) in
  stage_path ← match ac_stage_path contract with
               | None => Raise (ValueError (persisted +:+ " is missing its stage locator."))
               | Some path => Ok path
               end;
  let stage_root := default "" (head (str_split_on "/" stage_path)) in
  _ ← require (negb (str_in (str_lower stage_root) RESERVED_STAGE_ROOTS))
        (persisted +:+ " uses reserved stage root " +:+ quoted stage_root +:+ ".");
  _ ← require (bool_decide (ac_result_path contract = Some (ac_output_path contract)))
        (persisted +:+ " has conflicting output locators.");
  _ ← require (Bool.eqb (en_findings node) (is_some (ac_findings_path contract)))
        (persisted +:+ " has an inconsistent findings locator.");
  _ ← require (bool_decide (ac_log_path contract = Some (stage_path +:+ "/logs")))
        (persisted +:+ " has a log locator outside its stage.");
  let entry root path := mkOccupied root (posix_parts (str_lower path)) path (en_id node) in
  mret ([entry "stages" stage_path; entry "results" (ac_output_path contract)]
        ++ match ac_findings_path contract with Some path => [entry "results" path] | None => [] end).

(** The list [occupied] after the loop over the nodes.
    Code: core/preflight/plan_contract_artifacts.py:22-23. *)
Definition collect_occupied (nodes : list PreflightExecutionNode) : outcome (list Occupied) :=
  for_each (fun acc node => entries ← occupied_by_node node; mret (acc ++ entries)) nodes [].

(** Code: core/preflight/plan_contract_artifacts.py, validate_artifact_contract_uniqueness. *)
Definition validate_artifact_contract_uniqueness (nodes : list PreflightExecutionNode) : outcome unit :=
  occupied ← collect_occupied nodes;
  each (fun '(previous, current) =>
    require (negb (overlapping previous current))
      ("Persisted nodes " +:+ quoted (oc_node previous) +:+ " and " +:+ quoted (oc_node current)
       +:+ " have overlapping " +:+ oc_root current +:+ " artifact locators: " +:+ quoted (oc_path previous)
       +:+ " and " +:+ quoted (oc_path current) +:+ ".")) (pairwise (sort_occupied occupied)).

(** ** Workspace lineage (plan_contract_workspace_lineage.py) *)

(** The worklist of [_ancestor_node_ids]; [pending] has its last element first.
    Every pop either skips a seen id or adds a new one, whose dependencies are
    pushed once, so the dependencies of the node and of all records bound the
    number of pops. *)
Fixpoint ancestor_loop (fuel : nat) (nodes_by_id : dict PreflightExecutionNode) (pending ancestors : list string)
    : outcome (list string) :=
  match pending with
  | [] => Ok ancestors
  | dependency_id :: pending =>
      match fuel with
      | O => OutOfFuel
      | S fuel =>
          if str_in dependency_id ancestors then ancestor_loop fuel nodes_by_id pending ancestors
          else
            let more := match dget nodes_by_id dependency_id with Some d => en_dependencies d | None => [] end in
            ancestor_loop fuel nodes_by_id (reverse more ++ pending) (ancestors ++ [dependency_id])
      end
  end.

Definition ancestor_fuel (node : PreflightExecutionNode) (nodes_by_id : dict PreflightExecutionNode) : nat :=
  length (en_dependencies node) + sum_list_with (fun '(_, n) => length (en_dependencies n)) nodes_by_id.

(** Code: core/preflight/plan_contract_workspace_lineage.py, _ancestor_node_ids. *)
Definition ancestor_node_ids (node : PreflightExecutionNode) (nodes_by_id : dict PreflightExecutionNode)
    : outcome (list string) :=
  ancestors ← ancestor_loop (ancestor_fuel node nodes_by_id) nodes_by_id (reverse (en_dependencies node)) [];
  mret (List.filter (dmem nodes_by_id) ancestors).

(** [max] by (ancestor count, order), keeping the first maximum.
    Code: core/workspace/selection.py, latest_lineage_source. *)
Definition latest_lineage_source (candidate_ancestor_counts : dict Z) (node_order : dict Z) : outcome (option string) :=
  best ← for_each (fun best '(node_id, count) =>
    index ← ditem node_order node_id;
    mret (match best with
          | None => Some (node_id, count, index)
          | Some (_, c, i) => if (c <? count) || ((c =? count) && (i <? index)) then Some (node_id, count, index) else best
          end)) candidate_ancestor_counts None;
  mret (match best with Some (node_id, _, _) => Some node_id | None => None end).

(** Code: core/preflight/plan_contract_workspace_lineage.py, _latest_same_worktree_source. *)
Definition latest_same_worktree_source (node : PreflightExecutionNode) (policy : WorkspaceSelectionRecord)
    (nodes_by_id : dict PreflightExecutionNode) (node_order : dict Z) : outcome (option string) :=
  ancestors ← ancestor_node_ids node nodes_by_id;
  candidates ← for_each (fun acc node_id =>
    record ← ditem nodes_by_id node_id;
    mret (match en_workspace_policy record with
          | Some p => if is_lineage_worktree (Some p) &&
                         bool_decide (wp_logical_worktree_name p = wp_logical_worktree_name policy)
                      then acc ++ [node_id] else acc
          | None => acc
          end)) ancestors [];
  counts ← mapM (fun node_id =>
    record ← ditem nodes_by_id node_id;
    above ← ancestor_node_ids record nodes_by_id;
    mret (node_id, Z.of_nat (length above))) candidates;
  latest_lineage_source counts node_order.

(** Code: core/preflight/plan_contract_workspace_lineage.py, _validate_declared_workspace_source. *)
Definition validate_declared_workspace_source (node : PreflightExecutionNode) (policy : WorkspaceSelectionRecord)
    (nodes_by_id : dict PreflightExecutionNode) (node_order : dict Z) : outcome unit :=
  if negb (bool_decide (wp_source_kind policy = SourceNode)) then Ok tt
  else
  let persisted := "Persisted node " +:+ quoted (en_id node) +:+ " workspace " in
  match wp_source_node_id policy with
  | None => Raise (ValueError (persisted +:+ "policy references an unknown source node."))
  | Some source_node_id =>
      _ ← require (dmem nodes_by_id source_node_id) (persisted +:+ "policy references an unknown source node.");
      let source := persisted +:+ "source " +:+ quoted source_node_id in
      ancestors ← ancestor_node_ids node nodes_by_id;
      _ ← require (str_in source_node_id ancestors) (source +:+ " must be an upstream dependency.");
      source_index ← ditem node_order source_node_id;
      node_index ← ditem node_order (en_id node);
      _ ← require (source_index <? node_index) (source +:+ " is not upstream.");
      record ← ditem nodes_by_id source_node_id;
      match en_workspace_policy record with
      | None => Raise (ValueError (source +:+ " must be an enabled lineage producer."))
      | Some p =>
          _ ← require (wp_enabled p && wp_lineage_producer p) (source +:+ " must be an enabled lineage producer.");
          require (bool_decide (wp_logical_worktree_name p = wp_logical_worktree_name policy))
            (source +:+ " must use the same logical worktree.")
      end
  end.

(** Code: core/preflight/plan_contract_workspace_lineage.py, _validate_direct_worktree_dependencies. *)
Definition validate_direct_worktree_dependencies (node : PreflightExecutionNode) (policy : WorkspaceSelectionRecord)
    (nodes_by_id : dict PreflightExecutionNode) : outcome unit :=
  if negb (is_lineage_worktree (Some policy)) then Ok tt
  else each (fun dependency_id =>
    match dget nodes_by_id dependency_id ≫= en_workspace_policy with
    | None => Ok tt
    | Some p =>
        require (negb (is_lineage_worktree (Some p)) ||
                 bool_decide (wp_logical_worktree_name p = wp_logical_worktree_name policy))
          ("Persisted node " +:+ quoted (en_id node) +:+ " directly depends on lineage producer "
           +:+ quoted dependency_id +:+ " from a different logical worktree; dependencies "
           +:+ "between worktrees must use the same logical worktree.")
    end) (en_dependencies node).

(** Code: core/preflight/plan_contract_workspace_lineage.py, validate_workspace_source_lineage. *)
Definition validate_workspace_source_lineage (node : PreflightExecutionNode)
    (nodes_by_id : dict PreflightExecutionNode) (node_order : dict Z) : outcome unit :=
  match en_workspace_policy node with
  | None => Ok tt
  | Some policy =>
      _ ← validate_declared_workspace_source node policy nodes_by_id node_order;
      _ ← validate_direct_worktree_dependencies node policy nodes_by_id;
      if negb (is_lineage_worktree (Some policy)) then Ok tt
      else
        expected_source ← latest_same_worktree_source node policy nodes_by_id node_order;
        match expected_source with
        | None =>
            require (bool_decide (wp_source_kind policy = SourceProject) && negb (is_some (wp_source_node_id policy)))
              ("Persisted node " +:+ quoted (en_id node) +:+ " must use project workspace source "
               +:+ "without a same-worktree lineage ancestor.")
        | Some expected =>
            require (bool_decide (wp_source_kind policy = SourceNode) &&
                     bool_decide (wp_source_node_id policy = Some expected))
              ("Persisted node " +:+ quoted (en_id node) +:+ " must use latest same-worktree lineage source "
               +:+ quoted expected +:+ ".")
        end
  end.

(** ** Nodes (plan_contract_nodes.py) *)

(** Code: core/preflight/plan_contract_nodes.py, _validate_input_execution_policy. *)
Definition validate_input_execution_policy (node : PreflightExecutionNode) : outcome unit :=
  let policy := en_execution_policy node in
  _ ← require (negb (en_findings node ||
                     (is_cons (en_dependencies node) && bool_decide (en_mode node = InputMode)
                      && negb (is_some (en_expansion node)))))
        ("Persisted input node " +:+ quoted (en_id node) +:+ " cannot define findings or dependencies.");
  require (negb (is_some (xp_depth policy) || is_some (xp_audit_rounds policy)
                 || negb (bool_decide (xp_review_starts_with policy = StartsExecutor))
                 || xp_continue_on_failure policy || is_some (xp_failure_threshold policy)
                 || is_some (xp_token_budget policy) || is_some (xp_consensus_on_exhaustion policy)))
    ("Persisted input node " +:+ quoted (en_id node) +:+ " contains provider execution policy.").

(** Code: core/preflight/plan_contract_nodes.py, _validate_parallel_execution_policy. *)
Definition validate_parallel_execution_policy (node : PreflightExecutionNode) (provider_roles : list ProviderRole)
    : outcome unit :=
  let policy := en_execution_policy node in
  let persisted := "Persisted parallel node " +:+ quoted (en_id node) in
  _ ← require (negb (is_some (xp_depth policy) || is_some (xp_audit_rounds policy)))
        (persisted +:+ " cannot define depth or audit_rounds.");
  _ ← require (bool_decide (xp_review_starts_with policy = StartsExecutor)) (persisted +:+ " must start with executors.");
  _ ← require (negb (is_some (xp_consensus_on_exhaustion policy))) (persisted +:+ " cannot define consensus policy.");
  _ ← require (forallb (fun role => bool_decide (role = EXECUTOR)) provider_roles) (persisted +:+ " cannot contain reviewers.");
  require (match xp_failure_threshold policy with
           | None => true
           | Some threshold => threshold <? Z.of_nat (length provider_roles)
           end) (persisted +:+ " failure threshold must be less than its provider count.").

(** Code: core/preflight/plan_contract_nodes.py, _validate_review_loop_provider_order. *)
Definition validate_review_loop_provider_order (node : PreflightExecutionNode) (provider_roles : list ProviderRole)
    : outcome unit :=
  _ ← require (provider_role_segments_are_contiguous provider_roles)
        ("Persisted review-loop node " +:+ quoted (en_id node) +:+ " must group executors before reviewers.");
  match provider_roles with
  | [] => Raise (OtherError "IndexError" "list index out of range")
  | first :: _ =>
      require (bool_decide (first = EXECUTOR) && bool_decide (REVIEWER ∈ provider_roles))
        ("Persisted review-loop node " +:+ quoted (en_id node)
         +:+ " must contain executor and reviewer providers in that order.")
  end.

(** Code: core/preflight/plan_contract_nodes.py, _validate_sequential_execution_policy. *)
Definition validate_sequential_execution_policy (node : PreflightExecutionNode) (provider_roles : list ProviderRole)
    : outcome unit :=
  let policy := en_execution_policy node in
  _ ← require (negb (is_some (xp_failure_threshold policy)))
        ("Persisted sequential node " +:+ quoted (en_id node) +:+ " cannot define failure threshold.");
  match provider_roles with
  | [role] =>
      let persisted := "Persisted single-provider node " +:+ quoted (en_id node) in
      _ ← require (bool_decide (role = EXECUTOR)) (persisted +:+ " must use an executor.");
      require (negb (is_some (xp_audit_rounds policy))) (persisted +:+ " cannot define audit_rounds.")
  | _ => validate_review_loop_provider_order node provider_roles
  end.

(** Code: core/preflight/plan_contract_nodes.py, _validate_node_execution_policy. *)
Definition validate_node_execution_policy (node : PreflightExecutionNode) : outcome unit :=
  let provider_roles := map pr_role (en_provider_records node) in
  match en_mode node with
  | InputMode | Foreach => validate_input_execution_policy node
  | Parallel => validate_parallel_execution_policy node provider_roles
  | Sequential => validate_sequential_execution_policy node provider_roles
  end.

(** [value == expected] for an [int] and a decoded JSON value. *)
Definition json_is_int (v : json) (z : Z) : bool :=
  match v with
  | JInt n => n =? z
  | JBool b => Z.b2z b =? z
  | JFloat repr => bool_decide (repr = str_int z +:+ ".0")
  | _ => false
  end.

(** Code: core/preflight/plan_contract_nodes.py, _validate_node_concurrency_policy. *)
Definition validate_node_concurrency_policy (runtime_config_snapshot : dict json) (node : PreflightExecutionNode)
    : outcome unit :=
  execution ← match dget runtime_config_snapshot "execution" with
              | None | Some JNull => Ok []
              | Some (JObj fields) => Ok fields
              | Some _ => Raise (ValueError "Persisted plan runtime config snapshot must contain an execution object.")
              end;
  let policy := en_execution_policy node in
  let agrees field (actual : option Z) :=
    match dget execution field, actual with
    | (None | Some JNull), None => true
    | Some v, Some z => json_is_int v z
    | _, _ => false
    end in
  require (agrees "max_concurrent_nodes" (xp_max_concurrent_nodes policy) &&
           agrees "max_parallel_invocations" (xp_max_parallel_invocations policy))
    ("Persisted node " +:+ quoted (en_id node) +:+ " concurrency policy conflicts with the runtime config snapshot.").

(** Code: core/preflight/plan_contract_nodes.py, _validate_provider_task_ids. *)
Definition validate_provider_task_ids (node : PreflightExecutionNode) : outcome unit :=
  let persisted := "Persisted node " +:+ quoted (en_id node) in
  _ ← for_each (fun (task_ids : list string) provider =>
    _ ← each (fun '(field_name, value) =>
          require (not_blank value) (persisted +:+ " provider " +:+ field_name +:+ " cannot be blank."))
          [("provider", pr_provider provider); ("agent_config_key", pr_agent_config_key provider);
           ("invoker_alias", pr_invoker_alias provider);
           ("agent_config_signature", pr_agent_config_signature provider);
           ("invoker_config_signature", pr_invoker_config_signature provider)];
    _ ← require (not_blank (pr_task_id provider)) (persisted +:+ " provider task_id cannot be blank.");
    _ ← require (negb (str_in (pr_task_id provider) task_ids))
          (persisted +:+ " contains duplicate provider task_id " +:+ quoted (pr_task_id provider) +:+ ".");
    mret (pr_task_id provider :: task_ids)) (en_provider_records node) [];
  Ok tt.

(** Code: core/preflight/plan_contract_nodes.py, _snapshot_consensus_policy. *)
Definition snapshot_consensus_policy (snapshot : dict json) : option json :=
  match dget snapshot "execution" with
  | Some (JObj execution) => dget execution "sequential_consensus_on_exhaustion"
  | _ => None
  end.

Definition consensus_value (p : SequentialConsensusPolicy) : string :=
  match p with ConsensusContinue => "continue" | ConsensusFatal => "fatal" end.

Definition uses_review_loop (node : PreflightExecutionNode) : bool :=
  bool_decide (en_mode node = Sequential) &&
  existsb (fun p => bool_decide (pr_role p = REVIEWER)) (en_provider_records node).

(** Code: core/preflight/plan_contract_nodes.py, _validate_node_consensus_policy. *)
Definition validate_node_consensus_policy (snapshot_policy : option json) (node : PreflightExecutionNode)
    : outcome unit :=
  let node_policy := xp_consensus_on_exhaustion (en_execution_policy node) in
  let loop := uses_review_loop node in
  _ ← require (loop || negb (is_some node_policy))
        ("Persisted node " +:+ quoted (en_id node) +:+ " defines consensus policy outside a sequential review loop.");
  _ ← require (negb loop || is_some node_policy)
        ("Persisted review-loop node " +:+ quoted (en_id node) +:+ " is missing consensus policy.");
  require (negb loop || bool_decide (snapshot_policy = JStr <$> (consensus_value <$> node_policy)))
    ("Persisted review-loop node " +:+ quoted (en_id node)
     +:+ " consensus policy conflicts with the signed runtime snapshot.").

(** ** Invocation names (invocation_names.py) *)

(** [Path(p).name]. *)
Definition path_name (p : string) : string :=
  default "" (last (List.filter (fun part => nonempty part && negb (bool_decide (part = "."))) (str_split_on "/" p))).

(** [Path(name).with_suffix(suffix).name] for a name with a suffix. *)
Definition with_suffix (name suffix : string) : string :=
  match split_last_dot (chars name) with
  | Some (stem, _) => of_chars stem +:+ suffix
  | None => name +:+ suffix
  end.

(** Code: core/review_policy.py, remediation_depth_or_default. *)
Definition remediation_depth_or_default (depth : option Z) : Z := or_one depth.

(** Code: core/review_policy.py, audit_rounds_or_default. *)
Definition audit_rounds_or_default (audit_rounds : option Z) : Z := or_one audit_rounds.

(** Code: core/review_policy.py, maximum_review_round. *)
Definition maximum_review_round (remediation_depth : Z) : Z := remediation_depth + 1.

Section WithHash.
Context {hash : HashLibrary}.

(** Code: core/preflight/invocation_names.py, _invocation_components. *)
Definition invocation_components (provider : ProviderRecord) (round_num audits : Z) (review_loop : bool)
    : outcome (list string) :=
  let task := path_name (build_task_round_filename (pr_task_id provider) round_num) in
  log ← build_log_filename (pr_task_id provider) (if 1 <? audits then Some audits else None) (Some round_num);
  mret ([task; log]
    ++ if review_loop then
         (if 1 <? audits then [build_review_audit_directory_name audits] else [])
         ++ (if bool_decide (pr_role provider = REVIEWER)
             then [with_suffix task ".review.json"; with_suffix task ".raw.txt";
                   build_reviewer_state_filename (pr_task_id provider) round_num]
             else [with_suffix task ".candidate.json"])
       else []).

(** Code: core/preflight/invocation_names.py, validate_invocation_names. *)
Definition validate_invocation_names (node : PreflightExecutionNode) : outcome unit :=
  let review_loop := uses_review_loop node in
  let policy := en_execution_policy node in
  let maximum_round :=
    if review_loop then maximum_review_round (remediation_depth_or_default (xp_depth policy))
    else if bool_decide (en_mode node = Parallel) then 1 else single_provider_total_rounds policy in
  let audits := if review_loop then audit_rounds_or_default (xp_audit_rounds policy) else 1 in
  each (fun provider => each (fun round_num =>
    names ← invocation_components provider round_num audits review_loop;
    each (fun name =>
      require (str_len name <=? MAX_ARTIFACT_PATH_COMPONENT_CHARS)
        ("Node " +:+ quoted (en_id node) +:+ " provider " +:+ quoted (pr_provider provider) +:+ " generates component "
         +:+ quoted name +:+ " exceeding the " +:+ str_int MAX_ARTIFACT_PATH_COMPONENT_CHARS
         +:+ "-character budget; shorten the provider alias.")) names)
    [0; maximum_round]) (en_provider_records node).

(** Code: core/preflight/plan_contract_nodes.py, validate_node_relationships. *)
Definition validate_node_relationships (plan : PreflightExecutionPlan) (nodes_by_id : dict PreflightExecutionNode)
    (render_plans_by_id : dict RenderPlan) : outcome unit :=
  let node_order := enumerate_order (pp_execution_order plan) in
  let snapshot_policy := snapshot_consensus_policy (pp_runtime_config_snapshot plan) in
  each (fun node =>
    _ ← require (all_distinct (en_dependencies node))
          ("Persisted node " +:+ quoted (en_id node) +:+ " contains duplicate dependencies.");
    _ ← match en_render_plan_id node with
        | None => Ok tt
        | Some id =>
            require (match dget render_plans_by_id id with
                     | None => false
                     | Some render_plan => bool_decide (rp_node_id render_plan = Some (en_id node))
                     end) ("Persisted node " +:+ quoted (en_id node) +:+ " has an invalid render_plan_id.")
        end;
    _ ← validate_node_execution_policy node;
    _ ← validate_node_concurrency_policy (pp_runtime_config_snapshot plan) node;
    _ ← validate_workspace_source_lineage node nodes_by_id node_order;
    _ ← validate_node_consensus_policy snapshot_policy node;
    _ ← validate_provider_task_ids node;
    validate_invocation_names node) (pp_nodes plan).

End WithHash.

(** ** Workspace file locators (plan_contract_workspace_locators.py) *)

Definition target_value (t : WorkspaceFileTarget) : string :=
  match t with INPUT_OUTPUT => "input_output" | EXECUTOR_PROMPT => "executor_prompt" | REVIEWER_PROMPT => "reviewer_prompt" end.

Definition source_class_value (c : WorkspaceFileSourceClass) : string :=
  match c with
  | PROJECT_INITIAL => "project_initial"
  | PROJECT_INITIAL_THEN_CANDIDATE => "project_initial_then_candidate"
  | RUNTIME_DYNAMIC => "runtime_dynamic"
  end.

(** Code: core/preflight/plan_contract_workspace_locators.py, _expected_workspace_locator_source_class. *)
Definition expected_workspace_locator_source_class (policy : WorkspaceSelectionRecord) (locator : WorkspaceFileLocator)
    : string :=
  if negb (bool_decide (wp_declaration_kind policy = Some WK_worktree)) then "project_initial"
  else if bool_decide (target_value (wl_target locator) = "reviewer_prompt") || bool_decide (wp_source_kind policy = SourceNode)
  then "runtime_dynamic" else "project_initial_then_candidate".

(** [referenced[key] += 1]. *)
Definition count_reference (referenced : dict Z) (key : string) : outcome (dict Z) :=
  n ← ditem referenced key; mret (dset referenced key (n + 1)).

(** Code: core/preflight/plan_contract_workspace_locators.py, _validate_node_workspace_locator. *)
Definition validate_node_workspace_locator (locators_by_id : dict WorkspaceFileLocator) (referenced : dict Z)
    (node : PreflightExecutionNode) : outcome (dict Z) :=
  referenced ← match en_input_workspace_file_locator_id node with
    | None => Ok referenced
    | Some id =>
        locator ← match dget locators_by_id id with
                  | Some l => if bool_decide (wl_node_id l = en_id node) then Ok l
                              else Raise (ValueError ("Persisted input node " +:+ quoted (en_id node)
                                                      +:+ " references an invalid workspace locator."))
                  | None => Raise (ValueError ("Persisted input node " +:+ quoted (en_id node)
                                               +:+ " references an invalid workspace locator."))
                  end;
        _ ← require (bool_decide (target_value (wl_target locator) = "input_output"))
              "Input node workspace locator has the wrong target.";
        count_reference referenced id
    end;
  let managed := List.filter (fun l => bool_decide (wl_node_id l = en_id node) &&
                   negb (bool_decide (target_value (wl_target l) = "input_output"))) (map snd locators_by_id) in
  if negb (is_cons managed) then Ok referenced
  else
    let missing := "Persisted node " +:+ quoted (en_id node)
                   +:+ " has workspace locators without an enabled workspace policy." in
    policy ← match en_workspace_policy node with
             | Some p => if wp_enabled p then Ok p else Raise (ValueError missing)
             | None => Raise (ValueError missing)
             end;
    _ ← each (fun locator =>
      require (bool_decide (source_class_value (wl_source_class locator) =
                            expected_workspace_locator_source_class policy locator))
        ("Persisted node " +:+ quoted (en_id node) +:+ " workspace locator " +:+ quoted (wl_locator_id locator)
         +:+ " source class conflicts with its target and workspace lineage.")) managed;
    mret referenced.

(** Code: core/preflight/plan_contract_workspace_locators.py, _validate_workspace_locator_stream. *)
Definition validate_workspace_locator_stream (node_id : string) (locators_by_id : dict WorkspaceFileLocator)
    (referenced : dict Z) (stream : RenderStream) : outcome (dict Z) :=
  for_each (fun referenced fragment =>
    if negb (bool_decide (fr_kind fragment = workspace_file_locator)) then mret referenced
    else
      let locator_id := dget (default [] (fr_locator fragment)) "locator_id" in
      locator ← match dget locators_by_id (default "" locator_id) with
                | Some l => Ok l
                | None => Raise (ValueError ("Persisted node " +:+ quoted node_id
                            +:+ " references unknown workspace locator " +:+ quoted (default "None" locator_id) +:+ "."))
                end;
      _ ← require (bool_decide (wl_node_id locator = node_id)) "Workspace locator node identity is inconsistent.";
      _ ← require (bool_decide (target_value (wl_target locator) = role_value (rs_target_role stream) +:+ "_prompt"))
            "Workspace locator target conflicts with its stream.";
      count_reference referenced (default "" locator_id)) (rs_fragments stream) referenced.

(** Code: core/preflight/plan_contract_workspace_locators.py, validate_workspace_locator_relationships. *)
Definition validate_workspace_locator_relationships (plan : PreflightExecutionPlan)
    (nodes_by_id : dict PreflightExecutionNode) (render_plans_by_id : dict RenderPlan) : outcome unit :=
  locators_by_id ← unique_records wl_locator_id "locator_id" "workspace file locator" (pp_workspace_file_locators plan);
  _ ← unique_records wl_occurrence_id "occurrence_id" "workspace file occurrence" (pp_workspace_file_locators plan);
  let unknown := sorted_str (map wl_locator_id
    (List.filter (fun l => negb (dmem nodes_by_id (wl_node_id l))) (pp_workspace_file_locators plan))) in
  _ ← require (negb (is_cons unknown))
        ("Persisted workspace locators reference unknown nodes: " +:+ str_join ", " unknown);
  referenced ← for_each (fun referenced node =>
    referenced ← validate_node_workspace_locator locators_by_id referenced node;
    match en_render_plan_id node with
    | None => mret referenced
    | Some id =>
        render_plan ← ditem render_plans_by_id id;
        for_each (validate_workspace_locator_stream (en_id node) locators_by_id) (rp_streams render_plan) referenced
    end) (pp_nodes plan) (map (fun '(id, _) => (id, 0)) locators_by_id);
  let unreferenced := sorted_str (map fst (List.filter (fun '(_, count) => negb (count =? 1)) referenced)) in
  require (negb (is_cons unreferenced))
    ("Persisted workspace locators must each have exactly one owner: " +:+ str_join ", " unreferenced).

(** ** Shape (plan_contract_shape.py) *)

(** Code: core/preflight/plan_contract_shape.py, _reject_legacy_plan_fields. *)
Definition reject_legacy_plan_fields {V} (payload : dict V) (legacy_fields : list string) (payload_label : string)
    : outcome unit :=
  let present := sorted_str (List.filter (dmem payload) legacy_fields) in
  require (negb (is_cons present))
    ("Unsupported legacy preflight plan " +:+ payload_label +:+ " field(s): " +:+ str_join ", " present +:+ ".").

(** Code: core/preflight/plan_contract_shape.py, validate_current_runtime_snapshot_shape. *)
Definition validate_current_runtime_snapshot_shape (snapshot : dict json) : outcome unit :=
  _ ← reject_legacy_plan_fields snapshot ["config_schema_version"; "workflow_schema_version"] "runtime config snapshot";
  _ ← require (dmem snapshot "schema_version")
        "Preflight plan runtime config snapshot must include 'schema_version'.";
  _ ← require (bool_decide (dget snapshot "schema_version" = Some (JStr SCHEMA_VERSION)))
        ("Preflight plan runtime config snapshot schema_version must be " +:+ quoted SCHEMA_VERSION +:+ ".");
  each (fun integration_name =>
    match dget snapshot integration_name with
    | Some (JObj payload) =>
        reject_legacy_plan_fields payload ["api_version"]
          ("runtime config " +:+ quoted integration_name +:+ " integration")
    | _ => Ok tt
    end) ["invoker"; "artifacts"; "ui"].

(** Code: core/preflight/plan_contract_shape.py, validate_current_fingerprint_metadata_shape. *)
Definition validate_current_fingerprint_metadata_shape (metadata : dict json) : outcome unit :=
  _ ← reject_legacy_plan_fields metadata ["schema_version"] "fingerprint metadata";
  _ ← require (dmem metadata "payload_version") "Preflight plan fingerprint metadata must include 'payload_version'.";
  require (bool_decide (dget metadata "payload_version" = Some (JStr FINGERPRINT_PAYLOAD_VERSION)))
    ("Preflight plan fingerprint metadata payload_version must be " +:+ quoted FINGERPRINT_PAYLOAD_VERSION +:+ ".").

(** Code: core/preflight/plan_contract_shape.py, validate_current_value_fingerprint_shape. *)
Definition validate_current_value_fingerprint_shape (records : list (dict string)) : outcome unit :=
  each (fun '(index, record) =>
    let at_index := "Preflight plan value fingerprint at index " +:+ str_int index in
    _ ← reject_legacy_plan_fields record ["fingerprint_schema_version"] ("value fingerprint at index " +:+ str_int index);
    _ ← require (dmem record "fingerprint_payload_version") (at_index +:+ " must include 'fingerprint_payload_version'.");
    require (bool_decide (dget record "fingerprint_payload_version" = Some FINGERPRINT_PAYLOAD_VERSION))
      (at_index +:+ " payload version must be " +:+ quoted FINGERPRINT_PAYLOAD_VERSION +:+ "."))
    (imap (fun i r => (Z.of_nat i, r)) records).

(** [str(value or "").strip()] is nonempty. *)
Definition field_present (o : option string) : bool := not_blank (default "" o).

(** Code: core/preflight/plan_contract_shape.py, _validate_persisted_input_node_contract. *)
Definition validate_persisted_input_node_contract (node : PreflightExecutionNode) : outcome unit :=
  let input_sources := List.filter id [field_present (en_input_content_ref node);
                                       field_present (en_input_workspace_file_locator_id node)] in
  if en_input_item_slot node then
    require (negb (is_cons input_sources)) "Frozen item slots cannot contain fallback input sources"
  else require (length input_sources =? 1)%nat
         ("Persisted input preflight node " +:+ quoted (en_id node) +:+ " must define exactly one input source reference.").

(** Code: core/preflight/plan_contract_shape.py, _validate_persisted_provider_node_contract. *)
Definition validate_persisted_provider_node_contract (node : PreflightExecutionNode) : outcome unit :=
  let persisted := "Persisted provider preflight node " +:+ quoted (en_id node) in
  _ ← require (field_present (en_render_plan_id node)) (persisted +:+ " must define render_plan_id.");
  require (is_cons (en_provider_records node)) (persisted +:+ " must define at least one provider record.").

(** Code: core/preflight/plan_contract_shape.py, _validate_persisted_workspace_policy. *)
Definition validate_persisted_workspace_policy (node : PreflightExecutionNode) : outcome unit :=
  require (match en_workspace_policy node with None => true | Some p => wp_enabled p end)
    ("Persisted preflight node " +:+ quoted (en_id node) +:+ " must omit a disabled workspace_policy.").

(** Code: core/preflight/plan_contract_shape.py, validate_persisted_node_contracts. *)
Definition validate_persisted_node_contracts (nodes : list PreflightExecutionNode) : outcome unit :=
  each (fun node =>
    _ ← validate_persisted_workspace_policy node;
    _ ← require (negb (en_input_item_slot node) || bool_decide (en_mode node = InputMode))
          "Only input nodes can declare frozen item slots";
    match en_mode node with
    | Foreach =>
        require (negb (nonempty (default "" (en_render_plan_id node)) || is_cons (en_provider_records node)
                       || is_some (en_workspace_policy node) || nonempty (default "" (en_input_content_ref node))
                       || nonempty (default "" (en_input_workspace_file_locator_id node))))
          "Foreach nodes cannot contain provider, workspace, or input execution records"
    | InputMode => validate_persisted_input_node_contract node
    | _ => validate_persisted_provider_node_contract node
    end) nodes.

(** ** The contract (plan_contract.py) *)

(** Code: core/preflight/plan_contract.py, validate_current_execution_plan_shape. *)
Definition validate_current_execution_plan_shape (plan : PreflightExecutionPlan) : outcome unit :=
  _ ← validate_current_runtime_snapshot_shape (pp_runtime_config_snapshot plan);
  _ ← validate_current_fingerprint_metadata_shape (pp_fingerprint_metadata plan);
  _ ← validate_current_value_fingerprint_shape (pp_value_fingerprints plan);
  validate_persisted_node_contracts (pp_nodes plan).

(** Code: core/preflight/plan_contract.py, validate_execution_graph_semantics. *)
Definition validate_execution_graph_semantics {hash : HashLibrary} (plan : PreflightExecutionPlan) : outcome unit :=
  nodes_by_id ← unique_records en_id "id" "node" (pp_nodes plan);
  _ ← validate_execution_order (pp_execution_order plan) nodes_by_id;
  render_plans_by_id ← unique_records rp_render_plan_id "render_plan_id" "render plan" (pp_render_plans plan);
  _ ← validate_node_relationships plan nodes_by_id render_plans_by_id;
  _ ← validate_dependency_graph plan nodes_by_id;
  _ ← validate_render_plan_ownership plan render_plans_by_id;
  _ ← validate_artifact_contract_uniqueness (pp_nodes plan);
  validate_workspace_locator_relationships plan nodes_by_id render_plans_by_id.
