(* ===== verification/PlanContractSpec.v ===== *)
(** What a validated plan guarantees: the scheduler's precondition, a
    topological execution order, and artifact locators of which none contains
    another. *)

From Stdlib Require Import ZArith Lia Ascii String.
From stdpp Require Import base gmap sets list strings sorting relations.
From S2P Require Import Prelude PyStr Models Graph Scheduler SchedulerInv PlanRecords Artifacts PlanContract.

Open Scope string_scope.
Open Scope list_scope.
Open Scope Z_scope.

(** ** Checks *)

Lemma require_Ok b m : require b m = Ok tt <-> b = true.
Proof. unfold require. by destruct b. Qed.

Lemma each_Ok {A} (f : A -> outcome unit) l : each f l = Ok tt <-> Forall (fun x => f x = Ok tt) l.
Proof.
  unfold each. induction l as [|x l IH]; simpl; [done|]. rewrite Forall_cons, <- IH.
  destruct (f x) as [[]|e|]; naive_solver.
Qed.

(** Splits a successful sequence of checks. *)
Ltac checks :=
  inv_ok;
  repeat match goal with
  | u : unit |- _ => destruct u
  | H : require _ _ = Ok tt |- _ => apply (proj1 (require_Ok _ _)) in H
  end.

Lemma unique_records_Ok {R} (key : R -> string) field label records d :
  unique_records key field label records = Ok d ->
  d = map (fun r => (key r, r)) records /\ NoDup (map key records) /\ Forall (fun r => not_blank (key r) = true) records.
Proof.
  unfold unique_records.
  assert (forall acc done, acc = map (fun r => (key r, r)) done -> NoDup (map key done) ->
    Forall (fun r => not_blank (key r) = true) done ->
    for_each (fun indexed record =>
      _ ← require (not_blank (key record)) ("Persisted " +:+ label +:+ " records require nonblank " +:+ field +:+ ".");
      _ ← require (negb (dmem indexed (key record)))
            ("Persisted plan contains duplicate " +:+ label +:+ " " +:+ quoted (key record) +:+ ".");
      mret (dset indexed (key record) record)) records acc = Ok d ->
    d = map (fun r => (key r, r)) (done ++ records) /\ NoDup (map key (done ++ records)) /\
    Forall (fun r => not_blank (key r) = true) (done ++ records)) as Hgen.
  { induction records as [|r records IH]; intros acc done Hacc Hnd Hb H.
    - injection H as <-. by rewrite app_nil_r.
    - cbn [for_each] in H. destruct (not_blank (key r)) eqn:Hblank; [|discriminate H].
      destruct (dmem acc (key r)) eqn:Hmem; [discriminate H|]. apply dmem_false in Hmem.
      assert (dkeys acc = map key done) as Hk by (rewrite Hacc; unfold dkeys; by rewrite map_map).
      rewrite Hk in Hmem. cbn in H.
      change (done ++ r :: records) with (done ++ [r] ++ records). rewrite app_assoc. eapply IH; [| | |exact H].
      + rewrite map_app, <- Hacc. apply dset_notin. by rewrite Hk.
      + rewrite map_app. apply NoDup_app. split_and!; [done| |by apply NoDup_singleton].
        intros x Hx. simpl. rewrite list_elem_of_singleton. congruence.
      + apply Forall_app. split; [done|]. by repeat constructor. }
  intros H. destruct (Hgen [] [] eq_refl (NoDup_nil_2) (Forall_nil_2 _) H) as (H1 & H2 & H3). done.
Qed.

(** Distinct keys that are not blank pass the check. *)
Lemma unique_records_total {R} (key : R -> string) field label records :
  NoDup (map key records) -> Forall (fun r => not_blank (key r) = true) records ->
  unique_records key field label records = Ok (map (fun r => (key r, r)) records).
Proof.
  unfold unique_records. intros Hnd Hb.
  enough (Hgen : forall done, NoDup (map key (done ++ records)) ->
    for_each (fun indexed record =>
      _ ← require (not_blank (key record)) ("Persisted " +:+ label +:+ " records require nonblank " +:+ field +:+ ".");
      _ ← require (negb (dmem indexed (key record)))
            ("Persisted plan contains duplicate " +:+ label +:+ " " +:+ quoted (key record) +:+ ".");
      mret (dset indexed (key record) record)) records (map (fun r => (key r, r)) done)
    = Ok (map (fun r => (key r, r)) (done ++ records))) by (by apply (Hgen [])).
  clear Hnd. induction Hb as [|r records Hr _ IH]; intros done Hnd; simpl; [by rewrite app_nil_r|].
  rewrite Hr. simpl. assert (Hk : key r ∉ dkeys (map (fun r => (key r, r)) done)).
  { unfold dkeys. rewrite map_map. simpl. rewrite map_app in Hnd. apply NoDup_app in Hnd as (_ & Hd & _).
    intros Hin. apply (Hd (key r)); [done | left]. }
  rewrite (proj2 (dmem_false _ _) Hk). simpl. rewrite dset_notin by done.
  change [(key r, r)] with (map (fun r => (key r, r)) [r]). rewrite <- map_app, IH; by rewrite <- app_assoc.
Qed.

(** ** The scheduler's view of a plan *)

Definition sched_node (n : PreflightExecutionNode) : PreflightNode := mkPNode (en_id n) (en_mode n) (en_dependencies n).

Definition sched_edge (e : CompiledEdge) : DependencyEdge :=
  mkEdge (de_source_node e) (de_target_node e) (de_artifact_name e).

Definition sched_plan (p : PreflightExecutionPlan) : ExecutionPlan :=
  mkExecutionPlan (pp_workflow_name p) (map sched_node (pp_nodes p)) (pp_execution_order p)
    (map sched_edge (pp_dependency_graph p)) (dkeys (pp_expansions p)).

Definition edge_dep (edges : list CompiledEdge) (d n : string) : Prop :=
  exists e, e ∈ edges /\ de_source_node e = d /\ de_target_node e = n.

Lemma sched_plan_dep p d n : plan_dep (sched_plan p) d n <-> edge_dep (pp_dependency_graph p) d n.
Proof.
  unfold plan_dep, edge_dep. simpl. split.
  - intros (e & He & <- & <-). apply list_elem_of_fmap in He as (e' & -> & He). by exists e'.
  - intros (e & He & <- & <-). exists (sched_edge e). split; [|done]. apply list_elem_of_fmap. by exists e.
Qed.

Lemma sched_plan_ids p : plan_node_ids (sched_plan p) = map en_id (pp_nodes p).
Proof. unfold plan_node_ids. simpl. by rewrite map_map. Qed.

(** What the check of one edge establishes. *)
Definition edge_checked (nodes_by_id : dict PreflightExecutionNode) (node_order : dict Z) (e : CompiledEdge) : Prop :=
  de_source_node e ∈ dkeys nodes_by_id /\ de_target_node e ∈ dkeys nodes_by_id /\
  order_of node_order (de_source_node e) < order_of node_order (de_target_node e).

Lemma validate_graph_edge_Ok N O e : validate_graph_edge N O e = Ok tt -> edge_checked N O e.
Proof.
  unfold validate_graph_edge. intros H. cbv zeta in H. checks. rewrite !dmem_true in *.
  repeat match goal with H : ditem O _ = Ok _ |- _ => apply ditem_Ok in H end.
  split_and!; [done..|]. unfold order_of. repeat match goal with H : dget O _ = Some _ |- _ => rewrite H end.
  simpl. lia.
Qed.

Lemma graph_loop_Ok N O edges : forall done seen G seen' G',
  dkeys G = dkeys N -> NoDup (dkeys N) ->
  (forall n X, dget G n = Some X -> forall d, d ∈ X <-> edge_dep done d n) ->
  for_each (graph_step N O) edges (seen, G) = Ok (seen', G') ->
  Forall (edge_checked N O) edges /\ dkeys G' = dkeys N /\
  (forall n X, dget G' n = Some X -> forall d, d ∈ X <-> edge_dep (done ++ edges) d n).
Proof.
  induction edges as [|e edges IH]; intros done seen G seen' G' HG Hnd HX H.
  - injection H as <- <-. by rewrite app_nil_r.
  - cbn [for_each] in H. apply bind_Ok in H as ([seen1 G1] & Hstep & H). unfold graph_step in Hstep.
    checks. injection Hstep as <- <-.
    match goal with H : validate_graph_edge _ _ _ = _ |- _ => apply validate_graph_edge_Ok in H end.
    match goal with H : ditem _ _ = Ok _ |- _ => apply ditem_Ok in H; rename H into HG1 end.
    edestruct (IH (done ++ [e])) as (H1 & H2 & H3); [| exact Hnd | | exact H |].
    { rewrite dkeys_dset_in; [exact HG | apply dget_is_Some; eauto]. }
    { intros n X. rewrite dget_dset. destruct (decide (de_target_node e = n)) as [Hn|Hn].
      - intros HXn d. injection HXn as HXn. subst X n. rewrite elem_of_union, elem_of_singleton, (HX _ _ HG1 d). unfold edge_dep.
        setoid_rewrite elem_of_snoc. naive_solver.
      - intros HXn d. rewrite (HX _ _ HXn d). unfold edge_dep. setoid_rewrite elem_of_snoc. naive_solver. }
    rewrite <- app_assoc in H3. split_and!; [by constructor|done|done].
Qed.

Lemma validate_dependency_graph_Ok plan N :
  NoDup (dkeys N) -> validate_dependency_graph plan N = Ok tt ->
  Forall (edge_checked N (enumerate_order (pp_execution_order plan))) (pp_dependency_graph plan) /\
  (forall node, node ∈ pp_nodes plan ->
     forall d, d ∈ en_dependencies node <-> edge_dep (pp_dependency_graph plan) d (en_id node)).
Proof.
  intros Hnd H. unfold validate_dependency_graph in H. cbv zeta in H. inv_ok. destruct a as [seen G]. checks.
  apply graph_loop_Ok with (done := []) in Hok as (H1 & H2 & H3); [| |done|].
  - split; [done|]. intros node Hn d. apply each_Ok in H. eapply Forall_forall in H; [|exact Hn]. checks.
    apply ditem_Ok in Hok. apply bool_decide_eq_true in H. rewrite <- (H3 _ _ Hok d), H. by rewrite elem_of_list_to_set.
  - unfold dkeys. by rewrite map_map, map_id.
  - intros n X HX d. apply dget_elem_of, list_elem_of_fmap in HX as (k & [= _ ->] & _).
    rewrite elem_of_empty. split; [done|]. intros (e & He & _). by apply elem_of_nil in He.
Qed.

Section Validated.
Context {hash : HashLibrary}.

Lemma validated_plan_facts (plan : PreflightExecutionPlan) :
  validate_execution_graph_semantics plan = Ok tt ->
  plan_ok (sched_plan plan) /\
  (forall node, node ∈ pp_nodes plan -> NoDup (en_dependencies node) /\
     forall d, d ∈ en_dependencies node <-> plan_dep (sched_plan plan) d (en_id node)) /\
  pp_execution_order plan ≡ₚ map en_id (pp_nodes plan) /\
  (forall i j d n, plan_dep (sched_plan plan) d n -> pp_execution_order plan !! i = Some d ->
     pp_execution_order plan !! j = Some n -> (i < j)%nat).
Proof.
  intros H. unfold validate_execution_graph_semantics in H. checks.
  apply unique_records_Ok in Hok as (-> & Hids & _). set (N := map (fun r => (en_id r, r)) (pp_nodes plan)) in *.
  assert (dkeys N = map en_id (pp_nodes plan)) as HN by (unfold dkeys, N; by rewrite map_map).
  unfold validate_execution_order in Hok0. checks. unfold all_distinct, same_set in *.
  apply bool_decide_eq_true in Hok, Hok0.
  apply validate_dependency_graph_Ok in Hok3 as [Hedges Hdeps]; [|by rewrite HN].
  assert (forall d n, plan_dep (sched_plan plan) d n ->
    d ∈ dkeys N /\ n ∈ dkeys N /\ order_of (enumerate_order (pp_execution_order plan)) d <
      order_of (enumerate_order (pp_execution_order plan)) n) as Hedge.
  { intros d n (e & He & <- & <-)%sched_plan_dep. eapply Forall_forall in Hedges; [|exact He]. exact Hedges. }
  split_and!.
  - apply (plan_ok_by_rank _ (order_of (enumerate_order (pp_execution_order plan)))); [by rewrite sched_plan_ids|].
    intros d n Hd. rewrite sched_plan_ids, <- HN. destruct (Hedge d n Hd) as (? & ? & ?). done.
  - intros node Hn. split.
    + unfold validate_node_relationships in Hok2. apply each_Ok in Hok2.
      eapply Forall_forall in Hok2; [|exact Hn]. cbv beta in Hok2. apply bind_Ok in Hok2 as ([] & Hd & _).
      apply require_Ok, bool_decide_eq_true in Hd. exact Hd.
    + intros d. rewrite sched_plan_dep. by apply Hdeps.
  - apply NoDup_Permutation; [done | done|]. intros x. rewrite <- HN, <- !(elem_of_list_to_set (C := gset string)).
    by rewrite Hok0.
  - intros i j d n Hd Hi Hj. destruct (Hedge d n Hd) as (_ & _ & Hlt).
    erewrite !order_of_enumerate in Hlt by eauto. lia.
Qed.

(** C19 (refinement): A plan that passes the persisted-plan contract satisfies the precondition of the
    scheduler: unique node ids, edges between known nodes and no dependency cycle; the dependencies
    recorded in each node are exactly the sources of its incoming edges, without duplicates; and the
    execution order lists every node once, every dependency before its dependents.
    Definitions: validate_execution_graph_semantics, validate_dependency_graph, validate_graph_edge, unique_records, validate_execution_order, validate_node_relationships. *)
Theorem validated_plan_is_schedulable (plan : PreflightExecutionPlan) :
  validate_execution_graph_semantics plan = Ok tt ->
  plan_ok (sched_plan plan) /\
  (forall node, node ∈ pp_nodes plan -> NoDup (en_dependencies node) /\
     forall d, d ∈ en_dependencies node <-> plan_dep (sched_plan plan) d (en_id node)) /\
  pp_execution_order plan ≡ₚ map en_id (pp_nodes plan) /\
  (forall i j d n, plan_dep (sched_plan plan) d n -> pp_execution_order plan !! i = Some d ->
     pp_execution_order plan !! j = Some n -> (i < j)%nat).
Proof. apply validated_plan_facts. Qed.

End Validated.

(** ** Artifact locators *)

(** A comparison that decides a total order. *)
Class LawfulCompare {A} (cmp : A -> A -> comparison) : Prop := {
  cmp_eq : forall a b, cmp a b = Eq <-> a = b;
  cmp_antisym : forall a b, cmp b a = CompOpp (cmp a b);
  cmp_trans : forall a b c, cmp a b = Lt -> cmp b c = Lt -> cmp a c = Lt
}.

(** Lexicographic combination of two comparisons through projections. *)
Lemma then_Lt c d : then_compare c d = Lt <-> c = Lt \/ c = Eq /\ d = Lt.
Proof. destruct c; simpl; naive_solver. Qed.

Lemma then_Eq c d : then_compare c d = Eq <-> c = Eq /\ d = Eq.
Proof. destruct c; simpl; naive_solver. Qed.

#[global] Instance lex_lawful {A B} (f : A -> A -> comparison) (g : B -> B -> comparison)
    `{LawfulCompare A f} `{LawfulCompare B g} :
  LawfulCompare (fun x y : A * B => then_compare (f x.1 y.1) (g x.2 y.2)).
Proof.
  constructor.
  - intros [a b] [a' b']. simpl. rewrite then_Eq, !cmp_eq. naive_solver.
  - intros [a b] [a' b']. simpl. rewrite (cmp_antisym (cmp := f) a a'), (cmp_antisym (cmp := g) b b'). by destruct (f a a').
  - intros [a b] [a' b'] [a'' b'']. simpl. rewrite !then_Lt, !cmp_eq.
    intros [H1|[-> H1]] [H2|[<- H2]]; [left; by eapply cmp_trans | by left | by left | right].
    split; [done | by eapply cmp_trans].
Qed.

#[global] Instance string_compare_lawful : LawfulCompare String.compare.
Proof.
  constructor.
  - intros a b. split; [apply String.compare_eq_iff|]. intros ->. induction b as [|c b IH]; simpl; [done|].
    unfold Ascii.compare. by rewrite N.compare_refl.
  - intros a b. apply String.compare_antisym.
  - induction a as [|x a IH]; intros [|y b] [|z c]; simpl; try done.
    unfold Ascii.compare. destruct (N.compare_spec (N_of_ascii x) (N_of_ascii y)) as [E1|E1|E1];
      destruct (N.compare_spec (N_of_ascii y) (N_of_ascii z)) as [E2|E2|E2]; try done; intros H1 H2.
    + rewrite E1, E2, N.compare_refl. by eapply IH.
    + rewrite E1. by apply N.compare_lt_iff in E2 as ->.
    + rewrite <- E2. by apply N.compare_lt_iff in E1 as ->.
    + assert (N_of_ascii x < N_of_ascii z)%N as E by lia. by apply N.compare_lt_iff in E as ->.
Qed.

#[global] Instance parts_compare_lawful : LawfulCompare compare_parts.
Proof.
  constructor.
  - induction a as [|x a IH]; intros [|y b]; simpl; try done. rewrite then_Eq, cmp_eq, IH. naive_solver.
  - induction a as [|x a IH]; intros [|y b]; simpl; try done. rewrite (cmp_antisym (cmp := String.compare) x y), IH. by destruct (String.compare x y).
  - induction a as [|x a IH]; intros [|y b] [|z c]; simpl; try done. rewrite !then_Lt, !cmp_eq.
    intros [H1|[-> H1]] [H2|[<- H2]]; [left; by eapply cmp_trans | by left | by left | right].
    split; [done | by eapply IH].
Qed.

Definition occupied_key (o : Occupied) : string * (list string * (string * string)) :=
  (oc_root o, (oc_parts o, (oc_path o, oc_node o))).

Definition compare_key := fun x y : string * (list string * (string * string)) =>
  then_compare (String.compare x.1 y.1)
    (then_compare (compare_parts x.2.1 y.2.1)
       (then_compare (String.compare x.2.2.1 y.2.2.1) (String.compare x.2.2.2 y.2.2.2))).

#[global] Instance key_lawful : LawfulCompare compare_key.
Proof.
  exact (@lex_lawful _ _ String.compare _ _ (@lex_lawful _ _ compare_parts _ _ (lex_lawful String.compare String.compare))).
Qed.

Definition before (a b : Occupied) : Prop := occupied_le a b = true.

Lemma before_spec a b : before a b <-> compare_key (occupied_key a) (occupied_key b) <> Gt.
Proof.
  unfold before, occupied_le. change (compare_occupied a b) with (compare_key (occupied_key a) (occupied_key b)).
  by destruct (compare_key _ _).
Qed.

Lemma before_total a b : before a b \/ before b a.
Proof. rewrite !before_spec, (cmp_antisym (cmp := compare_key) (occupied_key a)). destruct (compare_key (occupied_key a) _); simpl; naive_solver. Qed.

Lemma occupied_before_trans a b c : before a b -> before b c -> before a c.
Proof.
  rewrite !before_spec. destruct (compare_key (occupied_key a) (occupied_key b)) eqn:E1; [|intros _ | done].
  - apply cmp_eq in E1. by rewrite E1.
  - destruct (compare_key (occupied_key b) (occupied_key c)) eqn:E2; [|intros _ | done].
    + apply cmp_eq in E2. rewrite <- E2. by rewrite E1.
    + by rewrite (cmp_trans _ _ _ E1 E2).
Qed.

Lemma insert_occupied_Permutation x l : insert_occupied x l ≡ₚ x :: l.
Proof. induction l as [|y l IH]; simpl; [done|]. destruct (occupied_le x y); [done|]. rewrite IH. constructor. Qed.

Lemma sort_occupied_Permutation l : sort_occupied l ≡ₚ l.
Proof. induction l as [|x l IH]; simpl; [done|]. by rewrite insert_occupied_Permutation, IH. Qed.

Lemma insert_occupied_sorted x l : StronglySorted before l -> StronglySorted before (insert_occupied x l).
Proof.
  induction 1 as [|y l Hl IH Hy]; simpl; [repeat constructor|]. destruct (occupied_le x y) eqn:Hxy.
  - constructor; [by constructor|]. constructor; [done|]. eapply Forall_impl; [exact Hy|]. intros z. by apply occupied_before_trans.
  - constructor; [done|]. rewrite insert_occupied_Permutation. constructor; [|done].
    destruct (before_total x y) as [H|H]; [unfold before in H; congruence | done].
Qed.

Lemma sort_occupied_sorted l : StronglySorted before (sort_occupied l).
Proof. induction l; simpl; [constructor | by apply insert_occupied_sorted]. Qed.

(** Between a path and one of its extensions lie only extensions of the path. *)
Lemma compare_parts_between p q r :
  compare_parts p q <> Gt -> compare_parts q (p ++ r) <> Gt -> exists t, q = p ++ t.
Proof.
  revert q. induction p as [|x p IH]; intros q; [by exists q|]. destruct q as [|y q]; [done|]. simpl.
  intros H1 H2. destruct (String.compare x y) eqn:E; simpl in H1; [| |done].
  - apply cmp_eq in E as ->. assert (String.compare y y = Eq) as Hyy by by apply cmp_eq.
    rewrite Hyy in H2. simpl in H2. destruct (IH q H1 H2) as [t ->]. by exists t.
  - rewrite (cmp_antisym (cmp := String.compare) x y), E in H2. done.
Qed.

Lemma parts_prefix_true p q : parts_prefix p q = true <-> exists t, q = p ++ t.
Proof.
  unfold parts_prefix. rewrite bool_decide_eq_true. split.
  - intros H. exists (drop (length p) q). rewrite <- H at 1. by rewrite take_drop.
  - intros [t ->]. apply take_app_length.
Qed.

Lemma overlapping_true a b : overlapping a b = true <-> oc_root b = oc_root a /\ exists t, oc_parts b = oc_parts a ++ t.
Proof. unfold overlapping. by rewrite andb_true_iff, bool_decide_eq_true, parts_prefix_true. Qed.

(** In sorted order an overlap with a later entry is one with the next entry. *)
Lemma overlap_adjacent a b c : before a b -> before b c -> overlapping a c = true -> overlapping a b = true.
Proof.
  rewrite !before_spec, !overlapping_true. unfold compare_key. simpl. intros H1 H2 [Hr [t Ht]]. rewrite Hr, Ht in *.
  destruct (String.compare (oc_root a) (oc_root b)) eqn:E; simpl in H1; [| |done].
  - apply cmp_eq in E. split; [done|]. rewrite <- E in H2.
    assert (String.compare (oc_root a) (oc_root a) = Eq) as Haa by by apply cmp_eq. rewrite Haa in H2. simpl in H2.
    apply (compare_parts_between _ _ t).
    + by destruct (compare_parts (oc_parts a) (oc_parts b)).
    + by destruct (compare_parts (oc_parts b) (oc_parts a ++ t)).
  - rewrite (cmp_antisym (cmp := String.compare) (oc_root a)), E in H2. done.
Qed.

(** Two entries of which the first comes later and is a proper part of the
    second can not be in sorted order. *)
Lemma overlap_backwards a b : before a b -> overlapping b a = true -> overlapping a b = true.
Proof.
  rewrite before_spec, !overlapping_true. unfold compare_key. simpl. intros H1 [Hr [t Ht]]. rewrite Hr, Ht in *.
  split; [done|]. assert (String.compare (oc_root b) (oc_root b) = Eq) as Haa by by apply cmp_eq. rewrite Haa in H1.
  simpl in H1. destruct t as [|x t]; [by exists []; rewrite !app_nil_r|]. exfalso. apply H1.
  assert (compare_parts (oc_parts b ++ x :: t) (oc_parts b) = Gt) as ->; [|done]. clear. induction (oc_parts b) as [|y l IH]; [done|].
  simpl. assert (String.compare y y = Eq) as -> by by apply cmp_eq. done.
Qed.

Lemma pairwise_lookup {A} (l : list A) i a b :
  l !! i = Some a -> l !! S i = Some b -> (a, b) ∈ pairwise l.
Proof.
  revert i. induction l as [|x l IH]; intros i; [done|]. destruct l as [|y l]; [by destruct i|].
  destruct i as [|i]; simpl; [intros [= ->] [= ->]; left|]. intros H1 H2. right. by apply (IH i).
Qed.

Lemma elem_of_pairwise {A} (l : list A) a b :
  (a, b) ∈ pairwise l -> exists i, l !! i = Some a /\ l !! S i = Some b.
Proof.
  induction l as [|x l IH]; [by intros ?%elem_of_nil|]. destruct l as [|y l]; [by intros ?%elem_of_nil|].
  intros H. change (pairwise (x :: y :: l)) with ((x, y) :: pairwise (y :: l)) in H.
  apply elem_of_cons in H as [[= -> ->]|H]; [by exists O|]. destruct (IH H) as (i & H1 & H2). by exists (S i).
Qed.

Lemma StronglySorted_lookup {A} (R : A -> A -> Prop) l i j a b :
  StronglySorted R l -> (i < j)%nat -> l !! i = Some a -> l !! j = Some b -> R a b.
Proof.
  intros Hl. revert i j. induction Hl as [|x l Hl IH Hx]; intros i j Hij Hi Hj; [done|].
  destruct j as [|j]; [lia|]. destruct i as [|i]; simpl in *.
  - injection Hi as ->. eapply Forall_forall in Hx; [exact Hx|]. by eapply list_elem_of_lookup_2.
  - apply (IH i j); [lia | done | done].
Qed.

(** No entry is contained in another one. *)
Definition pairwise_disjoint (l : list Occupied) : Prop :=
  forall i j a b, i <> j -> l !! i = Some a -> l !! j = Some b -> overlapping a b = false.

Lemma pairwise_disjoint_Permutation l k : l ≡ₚ k -> pairwise_disjoint k -> pairwise_disjoint l.
Proof.
  intros Hp Hk i j a b Hij Ha Hb. apply Permutation_inj in Hp as (_ & f & Hf & Hl).
  apply (Hk (f i) (f j)); [|by rewrite <- Hl..]. intros H. by apply Hf in H.
Qed.

Lemma sorted_adjacent_disjoint l :
  StronglySorted before l -> (forall a b, (a, b) ∈ pairwise l -> overlapping a b = false) -> pairwise_disjoint l.
Proof.
  intros Hl Hadj.
  assert (forall i j a b, (i < j)%nat -> l !! i = Some a -> l !! j = Some b -> overlapping a b = false) as Hlt.
  { intros i j a b Hij Ha Hb. destruct (l !! S i) as [n|] eqn:Hn.
    2: { apply lookup_ge_None in Hn. apply lookup_lt_Some in Hb. lia. }
    assert (overlapping a n = false) as Ho by (apply Hadj; by eapply pairwise_lookup).
    destruct (decide (j = S i)) as [->|]; [congruence|]. apply not_true_is_false. intros H.
    apply not_true_iff_false in Ho. apply Ho. apply (overlap_adjacent a n b); [| |done].
    - by apply (StronglySorted_lookup _ l i (S i)); [|lia|..].
    - by apply (StronglySorted_lookup _ l (S i) j); [|lia|..]. }
  intros i j a b Hij Ha Hb. destruct (decide (i < j)%nat) as [H|H]; [by eapply Hlt|].
  apply not_true_is_false. intros Ho. assert (overlapping b a = true) as Ho'.
  { apply overlap_backwards; [|done]. by apply (StronglySorted_lookup _ l j i); [|lia|..]. }
  rewrite (Hlt j i b a) in Ho'; [done | lia | done | done].
Qed.

(** For nodes whose own artifact contracts are well formed, the uniqueness check, which
    compares only neighbours after sorting, accepts exactly when no stage or result locator of the plan
    equals or contains another one of the same root, case-insensitively, over all pairs of locators. *)
Theorem artifact_locators_never_overlap (nodes : list PreflightExecutionNode) (occupied : list Occupied) :
  collect_occupied nodes = Ok occupied ->
  validate_artifact_contract_uniqueness nodes = Ok tt <->
  forall i j a b, i <> j -> occupied !! i = Some a -> occupied !! j = Some b ->
    ~ (oc_root a = oc_root b /\ oc_parts a `prefix_of` oc_parts b).
Proof.
  intros Hc. unfold validate_artifact_contract_uniqueness. rewrite Hc. cbn [mbind outcome_bind]. rewrite each_Ok.
  trans (pairwise_disjoint occupied).
  2: { unfold pairwise_disjoint. split; intros H i j a b Hij Ha Hb.
       - specialize (H i j a b Hij Ha Hb). intros [Hr [t Ht]]. apply not_true_iff_false in H. apply H.
         apply overlapping_true. split; [done | by exists t].
       - specialize (H i j a b Hij Ha Hb). apply not_true_is_false. intros [Hr [t Ht]]%overlapping_true.
         apply H. split; [done | by exists t]. }
  pose proof (sort_occupied_Permutation occupied) as Hp. split.
  - intros H. apply (pairwise_disjoint_Permutation _ (sort_occupied occupied)); [done|].
    apply sorted_adjacent_disjoint; [apply sort_occupied_sorted|]. intros a b Hab.
    eapply Forall_forall in H; [|exact Hab]. cbv beta in H. apply require_Ok in H. by apply negb_true_iff.
  - intros H. apply (pairwise_disjoint_Permutation (sort_occupied occupied)) in H; [|done].
    apply Forall_forall. intros [a b] (i & Ha & Hb)%elem_of_pairwise. apply require_Ok, negb_true_iff.
    by apply (H i (S i)); [lia|..].
Qed.

(** ** An example: an input and the provider node that reads it *)

Definition no_policy : ExecutionPolicy := mkPolicy None None StartsExecutor false None None None None None.

Definition contract_named (name : string) : ArtifactContract :=
  mkContract (Some name) (name +:+ "-result.md") None (Some (name +:+ "/logs")) None (Some (name +:+ "-result.md")).

Definition example_input : PreflightExecutionNode :=
  mkExecNode "spec" None None None None InputMode false [] None [] no_policy None (contract_named "spec") None false
    (Some "preflight/inputs/spec.md") None.

Definition example_task : PreflightExecutionNode :=
  mkExecNode "build" None None None None Sequential false ["spec"] (Some "build")
    [mkProviderRecord "codex" EXECUTOR None None "codex" "codex" "cli" "sig" "sig"] no_policy None
    (contract_named "build") None false None None.

Definition example_edge : CompiledEdge :=
  mkCompiledEdge "spec" "build" (Some "output") "sig" (Some "spec.output") (Some "output") None.

Definition example_render : RenderPlan :=
  mkRenderPlan "build" (Some "build") None None None None None None
    [mkStream EXECUTOR [mkFragment 0 runtime_locator_lookup SEG_SHARED None None None None None None
                          (Some [("node_id", "spec"); ("artifact_name", "output")])]].

Definition example_record : PreflightExecutionPlan :=
  mkPlanRecord "run" "demo" "sig" ["spec"; "build"] [] [] [example_input; example_task] [example_render] [] []
    [example_edge] [("schema_version", JStr "1.0")] [("payload_version", JStr "1")] [].

(** Witness of C19. *)
Lemma validated_plan_is_schedulable_witness :
  plan_ok (sched_plan example_record) /\
  (forall i j d n, plan_dep (sched_plan example_record) d n -> pp_execution_order example_record !! i = Some d ->
     pp_execution_order example_record !! j = Some n -> (i < j)%nat).
Proof.
  destruct (@validated_plan_is_schedulable constant_hash example_record) as (H1 & _ & _ & H4); [vm_compute; reflexivity|].
  split; [exact H1 | exact H4].
Defined.

(** An example. *)
Lemma artifact_locators_never_overlap_witness :
  exists occupied, collect_occupied [example_input; example_task] = Ok occupied /\ length occupied = 4%nat /\
    forall i j a b, i <> j -> occupied !! i = Some a -> occupied !! j = Some b ->
      ~ (oc_root a = oc_root b /\ oc_parts a `prefix_of` oc_parts b).
Proof.
  eexists. split; [vm_compute; reflexivity|]. split; [reflexivity|].
  apply (artifact_locators_never_overlap [example_input; example_task]); vm_compute; reflexivity.
Defined.
