(* ===== verification/Foreach.v ===== *)
(** Foreach expansion: core/preflight/foreach/{expansion,reconstruction,index}.py,
    core/workflow/collections.py and the branch names of core/workspace.

    A frozen child template and the items of a group are turned into concrete
    node, render, locator, token and edge records ([concrete_batch]), which are
    inserted into the plan before the group they complete ([expanded_plan]).
    Items are decoded JSON values, so they have no cycles.  The digest check of
    the frozen templates themselves (validate_frozen_templates) is not modelled. *)

From Stdlib Require Import ZArith Lia Ascii String.
From stdpp Require Import base gmap sets list strings.
From S2P Require Import Prelude PyStr Models PlanRecords Artifacts PlanContract.

Open Scope string_scope.
Open Scope list_scope.
Open Scope Z_scope.

(** ** Collections (core/workflow/collections.py) *)

(** Code: core/workflow/collections.py, COLLECTION_BYTE_LIMIT. *)
Definition COLLECTION_BYTE_LIMIT : Z := 1024 * 1024.
(** Code: core/workflow/collections.py, COLLECTION_DEPTH_LIMIT. *)
Definition COLLECTION_DEPTH_LIMIT : Z := 64.

(** Code: core/workflow/collections.py, collection_reference. *)
Definition collection_reference (value : string) : outcome (string * string) :=
  let failure := Raise (ValueError ("items must be an array of objects or exactly one {{node.output}} or "
                                    +:+ "{{node.findings}} reference")) in
  match braced_body (chars (str_strip value)) with
  | None => failure
  | Some body =>
      match split_last_dot body with
      | Some (node, artifact) =>
          if negb (bool_decide (node = [])) && forallb node_id_char node && str_in (of_chars artifact) ["output"; "findings"]
          then Ok (of_chars node, of_chars artifact) else failure
      | None => failure
      end
  end.

(** Depth, numbers and keys of a value; the label grows with the path.
    Code: core/workflow/collections.py, _validate_json_value.._validate_container_items. *)
Fixpoint validate_json_value (value : json) (depth : Z) (label : string) : outcome unit :=
  match value with
  | JObj fields =>
      if COLLECTION_DEPTH_LIMIT <? depth then
        Raise (ValueError (label +:+ ": container depth exceeds " +:+ str_int COLLECTION_DEPTH_LIMIT))
      else (fix members (l : list (string * json)) : outcome unit :=
              match l with
              | [] => Ok tt
              | (key, item) :: rest => _ ← validate_json_value item (depth + 1) (label +:+ "." +:+ key); members rest
              end) fields
  | JList items =>
      if COLLECTION_DEPTH_LIMIT <? depth then
        Raise (ValueError (label +:+ ": container depth exceeds " +:+ str_int COLLECTION_DEPTH_LIMIT))
      else (fix elements (index : Z) (l : list json) : outcome unit :=
              match l with
              | [] => Ok tt
              | item :: rest =>
                  _ ← validate_json_value item (depth + 1) (label +:+ "[" +:+ str_int index +:+ "]");
                  elements (index + 1) rest
              end) 0 items
  | JFloat repr => require (negb (str_in repr ["nan"; "inf"; "-inf"])) (label +:+ ": numbers must be finite")
  | _ => Ok tt
  end.

(** Code: core/workflow/collections.py, _encode. *)
Definition encode_collection (value : json) (label : string) : outcome string :=
  let data := canonical_json value in
  _ ← require (str_len data <=? COLLECTION_BYTE_LIMIT)
        (label +:+ ": collection byte limit " +:+ str_int COLLECTION_BYTE_LIMIT +:+ " exceeded");
  mret data.

Definition is_object (v : json) : bool := match v with JObj _ => true | _ => false end.

(** Code: core/workflow/collections.py, validate_collection. *)
Definition validate_collection (items : list json) (max_items : Z) (group source : string) : outcome unit :=
  let label := "Foreach " +:+ quoted group +:+ " " +:+ source in
  _ ← require (0 <=? max_items) (label +:+ ": max_items must be a strict nonnegative integer");
  _ ← require (Z.of_nat (length items) <=? max_items)
        (label +:+ ": " +:+ str_int (Z.of_nat (length items)) +:+ " items exceeds max_items " +:+ str_int max_items);
  _ ← each (fun '(index, item) =>
        require (is_object item) (label +:+ "[" +:+ str_int index +:+ "]: expected an object"))
        (imap (fun i item => (Z.of_nat i, item)) items);
  _ ← validate_json_value (JList items) 1 label;
  _ ← encode_collection (JList items) label;
  mret tt.

(** Code: core/workflow/collections.py, collection_bytes. *)
Definition collection_bytes (items : list json) (max_items : Z) (group source : string) : outcome string :=
  _ ← validate_collection items max_items group source;
  encode_collection (JList items) ("Foreach " +:+ quoted group +:+ " " +:+ source).

(** ** References (core/workflow/composition/rewrites.py) *)

(** Code: core/workflow/composition/rewrites.py, qualify_id. *)
Definition qualify_id (prefix node_id : string) : string :=
  if nonempty prefix then prefix +:+ "." +:+ node_id else node_id.

(** Code: core/workflow/composition/rewrites.py, resolve_dependency_id. *)
Definition resolve_dependency_id (dependency_id namespace_prefix : string) (bound_input_nodes : dict string) : string :=
  match dget bound_input_nodes dependency_id with
  | Some target => target
  | None => qualify_id namespace_prefix dependency_id
  end.

(** The text that replaces a reference.
    Code: core/workflow/composition/rewrites.py, rewrite_artifact_references._replace. *)
Definition rewritten_reference (namespace_prefix : string) (bound_input_nodes : dict string) (r : text * text) : text :=
  lit "{{" ++ chars (resolve_dependency_id (of_chars (fst r)) namespace_prefix bound_input_nodes) ++ lit "." ++ snd r ++ lit "}}".

(** Code: core/workflow/composition/rewrites.py, rewrite_artifact_references. *)
Definition rewrite_artifact_references (prompt namespace_prefix : string) (bound_input_nodes : dict string) : string :=
  of_chars (sub_all match_artifact_reference (rewritten_reference namespace_prefix bound_input_nodes) 0 (chars prompt)).

(** ** Expansion (core/preflight/foreach/expansion.py) *)

(** [s.removeprefix(p)]. *)
Definition removeprefix (p s : string) : string :=
  if str_startswith p s then of_chars (drop (String.length p) (chars s)) else s.

(** [list(dict.fromkeys(l))]. *)
Fixpoint dedup_from (seen l : list string) : list string :=
  match l with
  | [] => []
  | x :: t => if str_in x seen then dedup_from seen t else x :: dedup_from (x :: seen) t
  end.

Definition dedup (l : list string) : list string := dedup_from [] l.

(** Code: core/preflight/foreach/expansion.py, generated_id. *)
Definition generated_id (template : CompiledForeach) (node_id : string) (ordinal : Z) : string :=
  cf_group_id template +:+ ".i" +:+ str_int ordinal +:+ "." +:+ removeprefix (cf_namespace template +:+ ".") node_id.

(** Code: core/preflight/foreach/expansion.py, expansion_limit. *)
Definition expansion_limit (plan : PreflightExecutionPlan) : outcome Z :=
  let failure := Raise (ValueError "Foreach requires a compiled positive max_expanded_nodes") in
  match dget (pp_runtime_config_snapshot plan) "execution" with
  | Some (JObj execution) =>
      match dget execution "max_expanded_nodes" with
      | Some (JInt limit) => if limit <=? 0 then failure else Ok limit
      | _ => failure
      end
  | _ => failure
  end.

(** Code: core/preflight/foreach/expansion.py, _validate_expansion. *)
Definition validate_expansion (plan : PreflightExecutionPlan) (template : CompiledForeach) (items : list json)
    : outcome unit :=
  _ ← validate_collection items (cf_max_items template) (cf_group_id template) "items";
  _ ← require (negb (dmem (pp_expansions plan) (cf_group_id template)))
        ("Foreach " +:+ quoted (cf_group_id template) +:+ " is already expanded");
  restored ← for_each (fun total '(group, state) =>
    match List.find (fun t => bool_decide (cf_group_id t = group)) (pp_foreach_templates plan) with
    | Some t => mret (total + Z.of_nat (length (xs_items state)) * Z.of_nat (length (cf_nodes t)))
    | None => Raise (OtherError "StopIteration" "")
    end) (pp_expansions plan) 0;
  limit ← expansion_limit plan;
  require (restored + Z.of_nat (length items) * Z.of_nat (length (cf_nodes template)) <=? limit)
    ("Foreach " +:+ quoted (cf_group_id template) +:+ " exceeds cumulative max_expanded_nodes").

(** Code: core/preflight/foreach/expansion.py, terminal_node_ids. *)
Definition terminal_node_ids (template : CompiledForeach) : gset string :=
  let local_ids : gset string := list_to_set (map en_id (cf_nodes template)) in
  let sources : gset string := list_to_set (map de_source_node (cf_dependency_graph template)) in
  let terminal_ids := local_ids ∖ (sources ∩ local_ids) in
  if decide (1 < size local_ids)%nat then terminal_ids ∖ {[ cf_item_node_id template ]} else terminal_ids.

(** Code: core/preflight/foreach/expansion.py, _InstanceMapping. *)
Record InstanceMapping := mkInstance {
  im_template : CompiledForeach;
  im_ordinal : Z;
  im_node_ids : dict string;
  im_item_id : string;
  im_terminal_ids : gset string;
  im_locator_ids : dict string
}.

(** [ids.get(value or "")]. *)
Definition dget_or (ids : dict string) (o : option string) : option string := dget ids (default "" o).

(** Code: core/preflight/foreach/expansion.py, _instance_dependencies. *)
Definition instance_dependencies (instance : InstanceMapping) (original : PreflightExecutionNode) : list string :=
  let ids := im_node_ids instance in
  let dependencies := map (fun dep => default dep (dget ids dep)) (en_dependencies original) in
  dedup (if bool_decide (en_id original = cf_item_node_id (im_template instance))
         then cf_original_dependencies (im_template instance)
         else if negb (existsb (dmem ids) (en_dependencies original)) then dependencies ++ [im_item_id instance]
         else dependencies).

(** Code: core/preflight/foreach/expansion.py, _remap_workspace_policy. *)
Definition remap_workspace_policy (instance : InstanceMapping) (p : WorkspaceSelectionRecord) : WorkspaceSelectionRecord :=
  mkSelection (wp_enabled p)
    (Some (generated_id (im_template instance) (default "" (wp_logical_worktree_name p)) (im_ordinal instance)))
    (wp_declaration_kind p) (wp_source_kind p)
    (match dget_or (im_node_ids instance) (wp_source_node_id p) with Some id => Some id | None => wp_source_node_id p end)
    (wp_clean_start p) (wp_materialization p) (wp_worktree_contract p) (wp_setup p) (wp_branch_export p)
    (wp_writable p) (wp_lineage_producer p).

(** Code: core/preflight/foreach/expansion.py, _occurrence. *)
Definition occurrence (mapping : dict string) (occ node_id : string) : outcome string :=
  id ← ditem mapping node_id; mret (id +:+ removeprefix node_id occ).

(** Code: core/preflight/foreach/expansion.py, _remap_workspace_locator. *)
Definition remap_workspace_locator (instance : InstanceMapping) (l : WorkspaceFileLocator) : outcome WorkspaceFileLocator :=
  node_id ← ditem (im_node_ids instance) (wl_node_id l);
  locator_id ← ditem (im_locator_ids instance) (wl_locator_id l);
  occurrence_id ← occurrence (im_node_ids instance) (wl_occurrence_id l) (wl_node_id l);
  mret (mkLocator locator_id (wl_content_ref l) occurrence_id node_id (wl_target l) (wl_source_class l) (wl_raw_token l)
    (wl_raw_path l) (wl_source_file l) (wl_source_span l) (wl_token_raw_span l) (wl_source_root l)
    (wl_source_root_relative_to_project l) (wl_project_root_relative_to_git_top l) (wl_git_top_relative_path l)
    (wl_workspace_relative_path l) (wl_git_blob l) (wl_git_file_mode l) (wl_byte_size l) (wl_canonical_blob_sha256 l)
    (wl_injected_sha256 l) (wl_literal_path_verified l) (wl_utf8_validated l)).

(** Code: core/preflight/foreach/expansion.py, _remap_fragment. *)
Definition remap_fragment (instance : InstanceMapping) (f : Fragment) : outcome Fragment :=
  locator ← match fr_locator f with
    | None => Ok None
    | Some locator =>
        locator ← (if bool_decide (fr_kind f = runtime_locator_lookup) then
                     source ← ditem locator "node_id";
                     mret (dset locator "node_id" (default source (dget (im_node_ids instance) source)))
                   else Ok locator);
        locator ← (if bool_decide (fr_kind f = workspace_file_locator) then
                     id ← ditem locator "locator_id";
                     new_id ← ditem (im_locator_ids instance) id;
                     mret (dset locator "locator_id" new_id)
                   else Ok locator);
        mret (Some locator)
    end;
  mret (mkFragment (fr_fragment_index f) (fr_kind f) (fr_source_role f) (fr_text f) (fr_content_ref f) (fr_key f)
          (fr_value_handle f) (fr_value_stored f) (fr_fingerprint f) locator).

(** Code: core/preflight/foreach/expansion.py, _remap_stream. *)
Definition remap_stream (instance : InstanceMapping) (stream : RenderStream) : outcome RenderStream :=
  fragments ← mapM (remap_fragment instance) (rs_fragments stream);
  mret (mkStream (rs_target_role stream) fragments).

Section WithHash.
Context {hash : HashLibrary}.

(** Code: core/preflight/foreach/expansion.py, scheduling_edge. *)
Definition scheduling_edge (source target : string) (artifact : option string) : CompiledEdge :=
  mkCompiledEdge source target artifact (dependency_signature source target artifact)
    (Some (match artifact with
           | Some a => if nonempty a then source +:+ "." +:+ a else source
           | None => source
           end)) artifact None.

(** Code: core/preflight/foreach/expansion.py, _instance_mapping. *)
Definition instance_mapping (template : CompiledForeach) (ordinal : Z) : outcome InstanceMapping :=
  let node_ids := dict_of (map (fun n => (en_id n, generated_id template (en_id n) ordinal)) (cf_nodes template)) in
  item_id ← ditem node_ids (cf_item_node_id template);
  let locator_ids := dict_of (map (fun l => (wl_locator_id l,
      "workspace-file-" +:+ signature_for_payload (JList [JStr (wl_locator_id l); JStr item_id])))
      (cf_workspace_file_locators template)) in
  mret (mkInstance template ordinal node_ids item_id (terminal_node_ids template) locator_ids).

(** Code: core/preflight/foreach/expansion.py, _remap_node. *)
Definition remap_node (state : ExpansionState) (instance : InstanceMapping) (n : PreflightExecutionNode)
    : outcome PreflightExecutionNode :=
  node_id ← ditem (im_node_ids instance) (en_id n);
  contract ← artifact_contract_for_node node_id (en_findings n);
  content_ref ← (if bool_decide (en_id n = cf_item_node_id (im_template instance)) then
                   match xs_items state !! Z.to_nat (im_ordinal instance) with
                   | Some item => Ok (Some (xa_relative_path item))
                   | None => Raise (OtherError "IndexError" "list index out of range")
                   end
                 else Ok (en_input_content_ref n));
  mret (mkExecNode node_id (en_module_id n) (en_source_file n) (en_source_root n) (en_source_span n) (en_mode n)
          (en_findings n) (instance_dependencies instance n) (dget_or (im_node_ids instance) (en_render_plan_id n))
          (en_provider_records n) (en_execution_policy n)
          (remap_workspace_policy instance <$> en_workspace_policy n) contract
          (Some (provenance state (Some (im_ordinal instance)))) false content_ref
          (dget_or (im_locator_ids instance) (en_input_workspace_file_locator_id n))).

(** Code: core/preflight/foreach/expansion.py, _remap_render. *)
Definition remap_render (instance : InstanceMapping) (r : RenderPlan) : outcome RenderPlan :=
  streams ← mapM (remap_stream instance) (rp_streams r);
  node_id ← ditem (im_node_ids instance) (default "" (rp_node_id r));
  render_plan_id ← ditem (im_node_ids instance) (rp_render_plan_id r);
  mret (mkRenderPlan render_plan_id (Some node_id) (rp_module_id r) (rp_source_file r) (rp_source_root r)
          (rp_source_span r) (rp_template_hash r)
          (Some (signature_for_payload (JObj [("node_id", JStr node_id); ("template_hash", jopt JStr (rp_template_hash r))])))
          streams).

(** Code: core/preflight/foreach/expansion.py, _node_token_updates. *)
Definition node_token_updates (instance : InstanceMapping) (t : TokenCatalogEntry) : outcome TokenCatalogEntry :=
  source ← ditem (te_metadata t) "node_id";
  let source := default source (dget (im_node_ids instance) source) in
  artifact ← ditem (te_metadata t) "artifact_name";
  node_id ← ditem (im_node_ids instance) (te_node_id t);
  let signature := dependency_signature source node_id (Some artifact) in
  let metadata := dset (dset (te_metadata t) "node_id" source) "dependency_signature" signature in
  let resolved := dset (dset (te_resolved t) "locator" (JObj [("node_id", JStr source); ("artifact_name", JStr artifact)]))
                    "dependency_signature" (JStr signature) in
  mret (mkTokenEntry (te_occurrence_id t) (te_node_id t) (te_target_role t) (te_source_role t)
          (rewrite_artifact_references (te_raw_token t) "" (im_node_ids instance)) (te_token_kind t)
          (te_fragment_index t) (te_signature t) (te_source_file t) (te_source_span t) (te_token_raw_span t)
          (Some (source +:+ "." +:+ artifact)) (Some signature) resolved metadata).

(** Code: core/preflight/foreach/expansion.py, _workspace_token_updates. *)
Definition workspace_token_updates (instance : InstanceMapping) (t : TokenCatalogEntry) : outcome TokenCatalogEntry :=
  match te_canonical_locator t ≫= dget (im_locator_ids instance) with
  | None => Ok t
  | Some locator_id =>
      node_id ← ditem (im_node_ids instance) (te_node_id t);
      let resolved := if dmem (te_resolved t) "locator_id" then dset (te_resolved t) "locator_id" (JStr locator_id) else te_resolved t in
      let resolved := if dmem resolved "node_id" then dset resolved "node_id" (JStr node_id) else resolved in
      let metadata := if dmem (te_metadata t) "locator_id" then dset (te_metadata t) "locator_id" locator_id else te_metadata t in
      let metadata := if dmem metadata "node_id" then dset metadata "node_id" node_id else metadata in
      mret (mkTokenEntry (te_occurrence_id t) (te_node_id t) (te_target_role t) (te_source_role t) (te_raw_token t)
              (te_token_kind t) (te_fragment_index t) (te_signature t) (te_source_file t) (te_source_span t)
              (te_token_raw_span t) (Some locator_id) (te_dependency_signature t) resolved metadata)
  end.

(** Code: core/preflight/foreach/expansion.py, _remap_token. *)
Definition remap_token (instance : InstanceMapping) (t : TokenCatalogEntry) : outcome TokenCatalogEntry :=
  node_id ← ditem (im_node_ids instance) (te_node_id t);
  occurrence_id ← occurrence (im_node_ids instance) (te_occurrence_id t) (te_node_id t);
  u ← (if bool_decide (te_token_kind t = TokNode) then node_token_updates instance t else workspace_token_updates instance t);
  mret (mkTokenEntry occurrence_id node_id (te_target_role u) (te_source_role u) (te_raw_token u) (te_token_kind u)
          (te_fragment_index u) (signature_for_payload (JList [JStr (te_signature t); JStr node_id])) (te_source_file u)
          (te_source_span u) (te_token_raw_span u) (te_canonical_locator u) (te_dependency_signature u)
          (te_resolved u) (te_metadata u)).

(** One node of [_append_nodes]: (nodes, group dependencies, edges). *)
Definition append_node (state : ExpansionState) (instance : InstanceMapping) (batch : ExpansionBatch)
    (original : PreflightExecutionNode) : outcome ExpansionBatch :=
  node ← remap_node state instance original;
  mret (mkBatch (xb_state batch) (xb_nodes batch ++ [node]) (xb_render_plans batch) (xb_workspace_file_locators batch)
          (xb_token_catalog batch)
          (xb_dependency_graph batch ++ map (fun dependency => scheduling_edge dependency (en_id node) None) (en_dependencies node))
          (if bool_decide (en_id original ∈ im_terminal_ids instance)
           then xb_group_dependencies batch ++ [en_id node] else xb_group_dependencies batch)).

(** Code: core/preflight/foreach/expansion.py, _append_nodes. *)
Definition append_nodes (instance : InstanceMapping) (batch : ExpansionBatch) : outcome ExpansionBatch :=
  for_each (append_node (xb_state batch) instance) (cf_nodes (im_template instance)) batch.

(** Code: core/preflight/foreach/expansion.py, _append_artifact_edges. *)
Definition append_artifact_edges (instance : InstanceMapping) (batch : ExpansionBatch) : outcome ExpansionBatch :=
  for_each (fun batch edge =>
    match de_artifact_name edge with
    | None => mret batch
    | Some artifact =>
        target ← ditem (im_node_ids instance) (de_target_node edge);
        mret (mkBatch (xb_state batch) (xb_nodes batch) (xb_render_plans batch) (xb_workspace_file_locators batch)
                (xb_token_catalog batch)
                (xb_dependency_graph batch ++
                   [scheduling_edge (default (de_source_node edge) (dget (im_node_ids instance) (de_source_node edge)))
                      target (Some artifact)])
                (xb_group_dependencies batch))
    end) (cf_dependency_graph (im_template instance)) batch.

(** Code: core/preflight/foreach/expansion.py, _append_instance. *)
Definition append_instance (template : CompiledForeach) (batch : ExpansionBatch) (ordinal : Z) : outcome ExpansionBatch :=
  instance ← instance_mapping template ordinal;
  batch ← append_nodes instance batch;
  batch ← append_artifact_edges instance batch;
  renders ← mapM (remap_render instance) (cf_render_plans template);
  locators ← mapM (remap_workspace_locator instance) (cf_workspace_file_locators template);
  tokens ← mapM (remap_token instance) (cf_token_catalog template);
  mret (mkBatch (xb_state batch) (xb_nodes batch) (xb_render_plans batch ++ renders)
          (xb_workspace_file_locators batch ++ locators) (xb_token_catalog batch ++ tokens)
          (xb_dependency_graph batch) (xb_group_dependencies batch)).

(** Code: core/preflight/foreach/expansion.py, concrete_batch. *)
Definition concrete_batch (template : CompiledForeach) (state : ExpansionState) (dependencies : list string)
    : outcome ExpansionBatch :=
  for_each (append_instance template) (map Z.of_nat (seq 0 (length (xs_items state))))
    (mkBatch state [] [] [] [] [] dependencies).

(** Code: core/preflight/foreach/expansion.py, expansion_directory. *)
Definition expansion_directory (group_id : string) : outcome string :=
  name ← build_stage_directory_name group_id; mret ("preflight/expansions/" +:+ name).

(** The field validators of an artifact descriptor run on construction.
    Code: core/preflight/foreach/expansion.py, descriptor. *)
Definition descriptor (path data : string) : outcome ExpansionArtifact :=
  _ ← require (is_safe_relative_path path) "Expansion artifact path must be a safe relative path";
  mret (mkArtifact path (str_len data) (sha256 data)).

(** Code: core/preflight/foreach/expansion.py, _expansion_state. *)
Definition expansion_state (plan : PreflightExecutionPlan) (template : CompiledForeach) (items : list json)
    (caller_artifacts : dict ExpansionArtifact) : outcome ExpansionState :=
  root ← expansion_directory (cf_group_id template);
  data ← collection_bytes items (cf_max_items template) (cf_group_id template) "items";
  collection ← descriptor (root +:+ "/items.json") data;
  item_descriptors ← mapM (fun '(index, item) =>
    descriptor (root +:+ "/items/" +:+ str_int index +:+ ".json") (canonical_json item))
    (imap (fun i item => (Z.of_nat i, item)) items);
  mret (mkExpansionState (cf_group_id template) (pp_workflow_signature plan) (cf_template_digest template)
          (expansion_digest template (pp_workflow_signature plan) collection item_descriptors caller_artifacts)
          collection item_descriptors caller_artifacts).

(** Code: core/preflight/foreach/expansion.py, instantiate_foreach. *)
Definition instantiate_foreach (plan : PreflightExecutionPlan) (template : CompiledForeach) (items : list json)
    (caller_artifacts : dict ExpansionArtifact) : outcome ExpansionBatch :=
  _ ← validate_expansion plan template items;
  state ← expansion_state plan template items caller_artifacts;
  match List.find (fun node => bool_decide (en_id node = cf_group_id template)) (pp_nodes plan) with
  | None => Raise (OtherError "StopIteration" "")
  | Some group => concrete_batch template state (en_dependencies group)
  end.

(** ** Reconstruction (core/preflight/foreach/reconstruction.py) *)

(** The inner loop of [topological_order]: one dependent of a finished node. *)
Definition release_dependent (order : dict Z) (acc : dict Z * list (Z * string)) (dependent : string)
    : outcome (dict Z * list (Z * string)) :=
  let '(remaining, ready) := acc in
  count ← ditem remaining dependent;
  let remaining := dset remaining dependent (count - 1) in
  if count - 1 =? 0 then
    index ← ditem order dependent;
    mret (remaining, insert_by fst (index, dependent) ready)
  else mret (remaining, ready).

(** The [while ready] loop; [ready] is the heap as a list sorted by position,
    and every node is popped at most once. *)
Fixpoint topological_loop (fuel : nat) (order : dict Z) (dependents : dict (list string))
    (remaining : dict Z) (ready : list (Z * string)) (result : list string) : outcome (list string) :=
  match ready with
  | [] => Ok result
  | (_, node_id) :: ready =>
      match fuel with
      | O => OutOfFuel
      | S fuel =>
          ds ← ditem dependents node_id;
          '(remaining, ready) ← for_each (release_dependent order) ds (remaining, ready);
          topological_loop fuel order dependents remaining ready (result ++ [node_id])
      end
  end.

(** [dependents[dependency].append(node.id)] for each dependency of a node. *)
Definition record_dependents (dependents : dict (list string)) (node : PreflightExecutionNode) : outcome (dict (list string)) :=
  for_each (fun dependents dependency =>
    match dget dependents dependency with
    | None => Raise (ValueError ("Expansion references unknown dependency " +:+ quoted dependency))
    | Some l => mret (dset dependents dependency (l ++ [en_id node]))
    end) (en_dependencies node) dependents.

(** Code: core/preflight/foreach/reconstruction.py, topological_order. *)
Definition topological_order (nodes : list PreflightExecutionNode) : outcome (list string) :=
  let ids := map en_id nodes in
  let order := enumerate_order ids in
  _ ← require (length order =? length nodes)%nat "Expansion contains colliding node identities";
  let remaining := dict_of (map (fun n => (en_id n, Z.of_nat (length (en_dependencies n)))) nodes) in
  dependents ← for_each record_dependents nodes (dict_of (map (fun id => (id, [])) ids));
  ready ← mapM (fun '(id, _) => index ← ditem order id; mret (index, id))
            (List.filter (fun '(_, count) => count =? 0) remaining);
  result ← topological_loop (length nodes) order dependents remaining (sort_by fst ready) [];
  _ ← require (length result =? length nodes)%nat "Expansion introduces a dependency cycle";
  mret result.

(** Code: core/preflight/foreach/reconstruction.py, _validate_expansion_batch. *)
Definition validate_expansion_batch (plan : PreflightExecutionPlan) (batch : ExpansionBatch) : outcome unit :=
  let group_id := xs_group_id (xb_state batch) in
  let differ := Raise (ValueError "Expansion additions differ from the frozen child template") in
  _ ← require (negb (dmem (pp_expansions plan) group_id)) ("Duplicate expansion " +:+ quoted group_id);
  match List.find (fun t => bool_decide (cf_group_id t = group_id)) (pp_foreach_templates plan),
        List.find (fun n => bool_decide (en_id n = group_id)) (pp_nodes plan) with
  | Some template, Some group =>
      expected ← concrete_batch template (xb_state batch) (en_dependencies group);
      if bool_decide (batch = expected) then Ok tt else differ
  | _, _ => differ
  end.

(** The group with the completion gate and its provenance. *)
Definition gated_group (batch : ExpansionBatch) (n : PreflightExecutionNode) : PreflightExecutionNode :=
  mkExecNode (en_id n) (en_module_id n) (en_source_file n) (en_source_root n) (en_source_span n) (en_mode n)
    (en_findings n) (xb_group_dependencies batch) (en_render_plan_id n) (en_provider_records n) (en_execution_policy n)
    (en_workspace_policy n) (en_artifact_contract n) (Some (provenance (xb_state batch) None)) (en_input_item_slot n)
    (en_input_content_ref n) (en_input_workspace_file_locator_id n).

(** Code: core/preflight/foreach/reconstruction.py, _expanded_nodes. *)
Definition expanded_nodes (plan : PreflightExecutionPlan) (batch : ExpansionBatch) : list PreflightExecutionNode :=
  concat (map (fun node =>
    if bool_decide (en_id node = xs_group_id (xb_state batch)) then xb_nodes batch ++ [gated_group batch node] else [node])
    (pp_nodes plan)).

(** Code: core/preflight/foreach/reconstruction.py, _expanded_dependency_graph. *)
Definition expanded_dependency_graph (plan : PreflightExecutionPlan) (batch : ExpansionBatch) : list CompiledEdge :=
  let group_id := xs_group_id (xb_state batch) in
  let edges := pp_dependency_graph plan ++ xb_dependency_graph batch in
  let existing := map (fun e => (de_source_node e, de_target_node e)) edges in
  edges ++ map (fun dependency => scheduling_edge dependency group_id None)
    (List.filter (fun dependency => negb (bool_decide ((dependency, group_id) ∈ existing))) (xb_group_dependencies batch)).

(** The plan [apply_expansion] builds and then validates.
    Code: core/preflight/foreach/reconstruction.py:147-163. *)
Definition expanded_plan (plan : PreflightExecutionPlan) (batch : ExpansionBatch) : outcome PreflightExecutionPlan :=
  _ ← validate_expansion_batch plan batch;
  let nodes := expanded_nodes plan batch in
  execution_order ← topological_order nodes;
  mret (mkPlanRecord (pp_run_key_name plan) (pp_workflow_name plan) (pp_workflow_signature plan) execution_order
          (dset (pp_expansions plan) (xs_group_id (xb_state batch)) (xb_state batch)) (pp_foreach_templates plan) nodes
          (pp_render_plans plan ++ xb_render_plans batch)
          (pp_workspace_file_locators plan ++ xb_workspace_file_locators batch)
          (pp_token_catalog plan ++ xb_token_catalog batch) (expanded_dependency_graph plan batch)
          (pp_runtime_config_snapshot plan) (pp_fingerprint_metadata plan) (pp_value_fingerprints plan)).

(** *** Provenance of restored expansions *)

(** Code: core/preflight/foreach/reconstruction.py, _validate_expansion_identity. *)
Definition validate_expansion_identity (plan : PreflightExecutionPlan) (group_id : string) (state : ExpansionState)
    (template : option CompiledForeach) : outcome CompiledForeach :=
  let differ := Raise (ValueError "Expansion does not match its frozen template and root signature") in
  match template with
  | None => differ
  | Some t =>
      if bool_decide (xs_group_id state = group_id) && bool_decide (xs_template_digest state = cf_template_digest t) &&
         bool_decide (xs_workflow_signature state = pp_workflow_signature plan)
      then Ok t else differ
  end.

(** Code: core/preflight/foreach/reconstruction.py, _validate_expansion_evidence. *)
Definition validate_expansion_evidence (template : CompiledForeach) (state : ExpansionState) : outcome unit :=
  root ← expansion_directory (xs_group_id state);
  _ ← require ((Z.of_nat (length (xs_items state)) <=? cf_max_items template) &&
               bool_decide (xa_relative_path (xs_collection state) = root +:+ "/items.json") &&
               forallb (fun '(ordinal, item) =>
                 bool_decide (xa_relative_path item = root +:+ "/items/" +:+ str_int ordinal +:+ ".json"))
                 (imap (fun i item => (Z.of_nat i, item)) (xs_items state)))
        "Expansion item count or locators differ from the compiled contract";
  require (bool_decide (xs_digest state = expansion_digest template (xs_workflow_signature state) (xs_collection state)
                          (xs_items state) (xs_caller_artifacts state)))
    "Expansion digest does not match its evidence".

(** Code: core/preflight/foreach/reconstruction.py, _reconstruct_expansion. *)
Definition reconstruct_expansion (template : CompiledForeach) (state : ExpansionState) : outcome ExpansionBatch :=
  let original := cf_original_dependencies template in
  original ← match cf_items template with
             | inl _ => Ok original
             | inr reference =>
                 '(source, _) ← collection_reference reference;
                 mret (if str_in source original then original else original ++ [source])
             end;
  concrete_batch template state original.

(** Code: core/preflight/foreach/reconstruction.py, _validate_generated_nodes. *)
Definition validate_generated_nodes (nodes : dict PreflightExecutionNode) (batch : ExpansionBatch) : outcome unit :=
  group ← ditem nodes (xs_group_id (xb_state batch));
  _ ← require (same_set (en_dependencies group) (xb_group_dependencies batch))
        "Foreach completion gate differs from its instance terminals";
  each (fun node => require (bool_decide (dget nodes (en_id node) = Some node))
          ("Generated node " +:+ quoted (en_id node) +:+ " differs from its frozen template")) (xb_nodes batch).

(** Code: core/preflight/foreach/reconstruction.py, _validate_node_provenance. *)
Definition validate_node_provenance (nodes : list PreflightExecutionNode) (expected : dict (option ExpansionProvenance))
    : outcome unit :=
  each (fun node =>
    _ ← require (bool_decide (en_expansion node = mjoin (dget expected (en_id node))))
          ("Node " +:+ quoted (en_id node) +:+ " has invalid expansion provenance");
    require (negb (en_input_item_slot node)) "Uninstantiated item slots cannot enter an executable graph") nodes.

(** Code: core/preflight/foreach/reconstruction.py, validate_expansion_provenance. *)
Definition validate_expansion_provenance (plan : PreflightExecutionPlan) : outcome unit :=
  let templates := dict_of (map (fun t => (cf_group_id t, t)) (pp_foreach_templates plan)) in
  let nodes := dict_of (map (fun n => (en_id n, n)) (pp_nodes plan)) in
  '(expected, generated_count) ← for_each (fun '(expected, count) '(group_id, state) =>
    template ← validate_expansion_identity plan group_id state (dget templates group_id);
    _ ← validate_expansion_evidence template state;
    derived ← reconstruct_expansion template state;
    _ ← validate_generated_nodes nodes derived;
    let expected := dset expected group_id (Some (provenance state None)) in
    mret (foldl (fun expected generated => dset expected (en_id generated) (en_expansion generated)) expected (xb_nodes derived),
          count + Z.of_nat (length (xb_nodes derived)))) (pp_expansions plan) ([], 0);
  _ ← (if is_cons (pp_expansions plan) then
         limit ← expansion_limit plan;
         require (generated_count <=? limit) "Restored expansions exceed max_expanded_nodes"
       else Ok tt);
  validate_node_provenance (pp_nodes plan) expected.

(** ** Branch targets (core/workspace/naming.py, core/workspace/policy.py) *)

(** [slug.replace("..", ".")], left to right. *)
Fixpoint replace_dots (l : text) : text :=
  match l with
  | a :: (b :: t) as rest => if is_char a "." && is_char b "." then "."%char :: replace_dots t else a :: replace_dots rest
  | _ => l
  end.

(** [while ".." in slug: slug = slug.replace("..", ".")]; every round shortens
    the text, so its length bounds the rounds. *)
Fixpoint collapse_dots (fuel : nat) (l : text) : outcome text :=
  if text_contains (chars "..") l then
    match fuel with O => OutOfFuel | S fuel => collapse_dots fuel (replace_dots l) end
  else Ok l.

Definition ref_char (c : ascii) : bool :=
  is_lower c || is_upper c || is_digit c || is_char c "." || is_char c "_" || is_char c "-".

(** Code: core/workspace/naming.py, _bounded_component. *)
Definition bounded_component (slug original : string) (max_chars : Z) (separator : string) : string :=
  if str_len slug <=? max_chars then slug
  else
    let suffix := separator +:+ str_take 12 (sha256 original) in
    let available := max_chars - str_len suffix in
    let prefix := of_chars (rstrip_text (fun c => is_char c "." || is_char c "-") (chars (str_take available slug))) in
    let prefix := if nonempty prefix then prefix else str_take available (str_take 16 (sha256 original)) in
    prefix +:+ suffix.

(** Code: core/workspace/naming.py, safe_ref_component. *)
Definition safe_ref_component (value : string) : outcome string :=
  let edge c := is_char c "." || is_char c "-" || is_char c "/" in
  let slug := rstrip_text edge (drop_while edge (dash_runs ref_char false (chars value))) in
  slug ← collapse_dots (length slug) slug;
  let slug := of_chars slug in
  let slug := if negb (nonempty slug) || str_endswith "." slug || str_endswith ".lock" slug
              then str_take 16 (sha256 value) else slug in
  mret (bounded_component slug value 96 "-").

(** Code: core/workspace/policy.py, generated_branch_name. *)
Definition generated_branch_name (workflow_name logical_worktree_name run_key_name : string) : outcome string :=
  a ← safe_ref_component workflow_name;
  b ← safe_ref_component logical_worktree_name;
  c ← safe_ref_component run_key_name;
  mret ("crewplane/" +:+ a +:+ "/" +:+ b +:+ "/" +:+ c).

(** The branch a node exports to, with its logical worktree. *)
Definition branch_target (plan : PreflightExecutionPlan) (node : PreflightExecutionNode) : outcome (option (string * string)) :=
  match en_workspace_policy node with
  | Some p =>
      if be_create_branch (wp_branch_export p) then
        let logical := default "" (wp_logical_worktree_name p) in
        target ← match be_branch_name (wp_branch_export p) with
                 | Some name => if nonempty name then Ok name
                                else generated_branch_name (pp_workflow_name plan) logical (pp_run_key_name plan)
                 | None => generated_branch_name (pp_workflow_name plan) logical (pp_run_key_name plan)
                 end;
        mret (Some (target, logical))
      else Ok None
  | None => Ok None
  end.

(** Code: core/preflight/foreach/reconstruction.py, validate_branch_targets. *)
Definition validate_branch_targets (plan : PreflightExecutionPlan) : outcome unit :=
  _ ← for_each (fun (targets : dict string) node =>
    entry ← branch_target plan node;
    match entry with
    | None => mret targets
    | Some (target, logical) =>
        _ ← require (match dget targets target with Some known => bool_decide (known = logical) | None => true end)
              ("Expansion branch target collision: " +:+ quoted target);
        mret (dset targets target logical)
    end) (pp_nodes plan) [];
  Ok tt.

End WithHash.
