(* ===== verification/ForeachOrder.v ===== *)
(** The deterministic topological order of an expanded plan
    (core/preflight/foreach/reconstruction.py, topological_order). *)

From Stdlib Require Import ZArith Lia Ascii String.
From stdpp Require Import base gmap sets list strings sorting relations.
From S2P Require Import Prelude PyStr Models PlanRecords Artifacts PlanContract Foreach.

Open Scope string_scope.
Open Scope list_scope.
Open Scope Z_scope.

(** ** Counting *)

(** The occurrences of [x] in [l], and the entries of [l] outside [R]. *)
Definition occ (x : string) (l : list string) : nat := length (List.filter (fun y => bool_decide (y = x)) l).
Definition missing (R l : list string) : nat := length (List.filter (fun y => negb (str_in y R)) l).

Lemma occ_app x a b : occ x (a ++ b) = (occ x a + occ x b)%nat.
Proof. unfold occ. by rewrite List.filter_app, length_app. Qed.

Lemma occ_snoc x a y : occ x (a ++ [y]) = (occ x a + if decide (y = x) then 1 else 0)%nat.
Proof. rewrite occ_app. unfold occ. simpl. case_bool_decide; by case_decide. Qed.

Lemma occ_replicate x n y : occ x (replicate n y) = (if decide (y = x) then n else 0)%nat.
Proof.
  unfold occ. induction n as [|n IH]; simpl; [by case_decide|].
  case_bool_decide; case_decide; simpl; try done; by rewrite IH.
Qed.

Lemma occ_pos x l : x ∈ l <-> (0 < occ x l)%nat.
Proof.
  unfold occ. induction l as [|y l IH]; simpl; [split; [by intros ?%elem_of_nil | lia]|].
  rewrite elem_of_cons. case_bool_decide; simpl; [split; [lia | by left]|]. rewrite <- IH. naive_solver.
Qed.

Lemma missing_zero R l : missing R l = 0%nat <-> forall d, d ∈ l -> d ∈ R.
Proof.
  unfold missing. induction l as [|y l IH]; simpl; [split; [intros _ d Hd; by apply elem_of_nil in Hd | done]|].
  destruct (str_in y R) eqn:Hy; simpl.
  - apply str_in_true in Hy. rewrite IH. split; [|intros H d Hd; apply H; by right].
    intros H d [->|Hd]%elem_of_cons; auto.
  - split; [lia|]. intros H. apply not_true_iff_false in Hy. exfalso. apply Hy, str_in_true, H. left.
Qed.

Lemma missing_snoc R x l : x ∉ R -> missing R l = (missing (R ++ [x]) l + occ x l)%nat.
Proof.
  intros Hx. unfold missing, occ. induction l as [|y l IH]; simpl; [done|].
  assert (str_in y (R ++ [x]) = str_in y R || bool_decide (y = x)) as ->.
  { apply eq_true_iff_eq. rewrite orb_true_iff, !str_in_true, bool_decide_eq_true, elem_of_snoc. tauto. }
  case_bool_decide as Hyx; [|rewrite orb_false_r; destruct (str_in y R); simpl; lia].
  subst y. destruct (str_in x R) eqn:Hs; [by apply str_in_true in Hs|]. simpl. lia.
Qed.

Lemma missing_nil l : missing [] l = length l.
Proof. unfold missing. induction l as [|y l IH]; [done|]. cbn [List.filter].
  assert (str_in y [] = false) as -> by (by apply bool_decide_eq_false_2, not_elem_of_nil). cbn [negb length]. by rewrite IH. Qed.

Section Order.
Context (nodes : list PreflightExecutionNode) (Hids : NoDup (map en_id nodes)).

Definition node_deps (n : string) : list string :=
  default [] (dget (map (fun x => (en_id x, en_dependencies x)) nodes) n).

Lemma node_deps_of x : x ∈ nodes -> node_deps (en_id x) = en_dependencies x.
Proof.
  intros Hx. unfold node_deps. erewrite elem_of_dget; [done| |].
  - unfold dkeys. by rewrite map_map.
  - apply list_elem_of_fmap. by exists x.
Qed.

(** ** The dependents table *)

Lemma record_dependents_Ok x T :
  (forall d, d ∈ en_dependencies x -> d ∈ dkeys T) ->
  exists T', record_dependents T x = Ok T' /\ dkeys T' = dkeys T /\
    forall d l, dget T d = Some l -> dget T' d = Some (l ++ replicate (occ d (en_dependencies x)) (en_id x)).
Proof.
  intros Hk. unfold record_dependents.
  set (I := fun (done : list string) (T' : dict (list string)) => dkeys T' = dkeys T /\
    forall d l, dget T d = Some l -> dget T' d = Some (l ++ replicate (occ d done) (en_id x))).
  edestruct (for_each_inv I) as (T' & Hr & HI); [| |exists T'; split; [exact Hr | exact HI]].
  - split; [done|]. intros d l Hd. simpl. by rewrite app_nil_r.
  - intros done d rest T' Hl (Hkeys & HT). assert (d ∈ dkeys T) as Hd by (apply Hk; rewrite Hl; set_solver).
    apply dget_is_Some in Hd as [l Hd]. rewrite (HT d l Hd). eexists. split; [reflexivity|]. split.
    + rewrite dkeys_dset_in; [done|]. apply dget_is_Some. rewrite (HT d l Hd). eauto.
    + intros d' l' Hd'. rewrite dget_dset, occ_snoc. destruct (decide (d = d')) as [->|].
      * rewrite Hd in Hd'. injection Hd' as <-. rewrite <- app_assoc. f_equal. f_equal.
        rewrite Nat.add_1_r, replicate_S_end. done.
      * rewrite Nat.add_0_r. by apply HT.
Qed.

(** The table after all nodes. *)
Lemma dependents_table :
  (forall x d, x ∈ nodes -> d ∈ en_dependencies x -> d ∈ map en_id nodes) ->
  exists T, for_each record_dependents nodes (dict_of (map (fun id => (id, [])) (map en_id nodes))) = Ok T /\
    forall d, d ∈ map en_id nodes -> exists l, dget T d = Some l /\
      forall m, occ m l = (if decide (m ∈ map en_id nodes) then occ d (node_deps m) else 0)%nat.
Proof.
  intros Hknown.
  set (I := fun (done : list PreflightExecutionNode) (T : dict (list string)) =>
    (forall d, d ∈ dkeys T <-> d ∈ map en_id nodes) /\
    forall d, d ∈ map en_id nodes -> exists l, dget T d = Some l /\
      forall m, occ m l = (if decide (m ∈ map en_id done) then occ d (node_deps m) else 0)%nat).
  edestruct (for_each_inv I record_dependents nodes) as (T & Hr & HI); [| |exists T; split; [exact Hr | apply HI]].
  - split.
    + intros d. rewrite elem_of_dkeys_dict_of, !map_map. simpl. done.
    + intros d Hd. exists []. split.
      * rewrite dict_of_NoDup by (rewrite !map_map; exact Hids). apply elem_of_dget; [unfold dkeys; rewrite !map_map; exact Hids|].
        apply list_elem_of_fmap. by exists d.
      * intros m. case_decide as H; [by apply elem_of_nil in H | done].
  - intros done x rest T Hl (Hkeys & HT).
    assert (x ∈ nodes) as Hx by (rewrite Hl; set_solver).
    assert (en_id x ∉ map en_id done) as Hnew.
    { intros H. rewrite Hl, map_app in Hids. apply NoDup_app in Hids as (_ & H' & _). apply (H' _ H). left. }
    destruct (record_dependents_Ok x T) as (T' & HT' & Hk & Hd).
    { intros d Hd. apply Hkeys. by eapply Hknown. }
    exists T'. split; [done|]. split; [intros d; by rewrite Hk|].
    intros d Hin. destruct (HT d Hin) as (l & Hdl & Hl'). exists (l ++ replicate (occ d (en_dependencies x)) (en_id x)).
    split; [by apply Hd|]. intros m. rewrite occ_app, occ_replicate, Hl', map_app.
    destruct (decide (en_id x = m)) as [<-|Hne].
    + rewrite decide_False by done. rewrite decide_True by (apply elem_of_app; right; left).
      by rewrite node_deps_of.
    + rewrite Nat.add_0_r. destruct (decide (m ∈ map en_id done)) as [Hm|Hm].
      * by rewrite decide_True by (apply elem_of_app; by left).
      * rewrite decide_False; [done|]. rewrite elem_of_app. intros [?|H]; [done|].
        apply list_elem_of_singleton in H. congruence.
Qed.

(** ** The loop *)

Let ids := map en_id nodes.
Let order := enumerate_order ids.

Definition pos (n : string) : Z := order_of order n.

(** What holds between two pops: [R] has been emitted, [Q] is the heap. *)
Record topo_inv (R : list string) (Q : list (Z * string)) (M : dict Z) : Prop := {
  ti_nodup : NoDup (R ++ map snd Q);
  ti_sub : forall n, n ∈ R -> n ∈ ids;
  ti_count : forall n, n ∈ ids -> dget M n = Some (Z.of_nat (missing R (node_deps n)));
  ti_ready : forall n, n ∈ map snd Q <-> n ∈ ids /\ n ∉ R /\ missing R (node_deps n) = 0%nat;
  ti_pos : forall i n, (i, n) ∈ Q -> i = pos n;
  ti_sorted : StronglySorted (key_le fst) Q;
  ti_ordered : forall i n d, R !! i = Some n -> d ∈ node_deps n -> d ∈ take i R;
  ti_greedy : forall i x y, R !! i = Some x -> y ∈ ids -> y ∉ take (S i) R ->
                (forall d, d ∈ node_deps y -> d ∈ take i R) -> pos x < pos y
}.

Lemma pos_item n : n ∈ ids -> ditem order n = Ok (pos n).
Proof.
  intros Hn. apply ditem_Ok. unfold pos, order_of.
  apply (elem_of_dkeys_enumerate ids) in Hn. apply dget_is_Some in Hn as [i Hi]. fold order in Hi. by rewrite Hi.
Qed.

Lemma pos_inj x y : x ∈ ids -> y ∈ ids -> pos x = pos y -> x = y.
Proof.
  intros Hx Hy He. apply list_elem_of_lookup in Hx as [i Hi], Hy as [j Hj].
  unfold pos, order in He. rewrite (order_of_enumerate ids i x Hids Hi), (order_of_enumerate ids j y Hids Hj) in He.
  apply Nat2Z.inj in He as ->. congruence.
Qed.

(** Releasing the dependents [ds] of the node [x] that was just emitted. *)
Lemma release_all R x ds Q M :
  x ∈ ids -> x ∉ R -> (forall n, n ∈ R ++ [x] -> missing R (node_deps n) = 0%nat) ->
  (forall m, occ m ds = (if decide (m ∈ ids) then occ x (node_deps m) else 0)%nat) ->
  (forall n, n ∈ ids -> dget M n = Some (Z.of_nat (missing R (node_deps n)))) ->
  NoDup (map snd Q) -> StronglySorted (key_le fst) Q -> (forall i n, (i, n) ∈ Q -> i = pos n) ->
  (forall n, n ∈ map snd Q <-> n ∈ ids /\ n ∉ R ++ [x] /\ missing R (node_deps n) = 0%nat) ->
  exists M' Q', for_each (release_dependent order) ds (M, Q) = Ok (M', Q') /\
    (forall n, n ∈ ids -> dget M' n = Some (Z.of_nat (missing (R ++ [x]) (node_deps n)))) /\
    NoDup (map snd Q') /\ StronglySorted (key_le fst) Q' /\ (forall i n, (i, n) ∈ Q' -> i = pos n) /\
    (forall n, n ∈ map snd Q' <-> n ∈ ids /\ n ∉ R ++ [x] /\ missing (R ++ [x]) (node_deps n) = 0%nat).
Proof.
  intros Hx HxR Hxm Hds HM Hnd Hso Hpos Hmem.
  set (left n done := (missing R (node_deps n) - occ n done)%nat).
  set (I := fun (done : list string) (acc : dict Z * list (Z * string)) =>
    (forall n, n ∈ ids -> dget acc.1 n = Some (Z.of_nat (left n done))) /\
    NoDup (map snd acc.2) /\ StronglySorted (key_le fst) acc.2 /\ (forall i n, (i, n) ∈ acc.2 -> i = pos n) /\
    (forall n, n ∈ map snd acc.2 <-> n ∈ ids /\ n ∉ R ++ [x] /\ left n done = 0%nat)).
  destruct (for_each_inv I (release_dependent order) ds (M, Q)) as ([M' Q'] & Hr & HI).
  - split_and!; try done; simpl.
    + intros n Hn. unfold left. rewrite (HM n Hn). do 2 f_equal. unfold occ. simpl. lia.
    + intros n. rewrite Hmem. unfold left, occ. simpl. rewrite Nat.sub_0_r. done.
  - intros done m rest [M1 Q1] Hl (H1 & H2 & H3 & H4 & H5). cbn [fst snd] in *.
    assert (m ∈ ds) as Hmds by (rewrite Hl; set_solver).
    assert (m ∈ ids) as Hm.
    { destruct (decide (m ∈ ids)) as [|Hn]; [done|]. apply occ_pos in Hmds. rewrite Hds, decide_False in Hmds by done. lia. }
    assert (occ m done < occ x (node_deps m))%nat as Hocc.
    { pose proof (Hds m) as H. rewrite decide_True in H by done. rewrite <- H, Hl, occ_app.
      assert (m ∈ m :: rest) as H' by left. apply occ_pos in H'. lia. }
    pose proof (missing_snoc R x (node_deps m) HxR) as Hsn.
    unfold release_dependent. rewrite (proj2 (ditem_Ok _ _ _) (H1 m Hm)). cbn [mbind outcome_bind].
    assert (forall n, left n (done ++ [m]) = (left n done - if decide (m = n) then 1 else 0)%nat) as Hleft.
    { intros n. unfold left. rewrite occ_snoc. lia. }
    assert (forall n, n ∈ ids -> dget (dset M1 m (Z.of_nat (left m done) - 1)) n = Some (Z.of_nat (left n (done ++ [m])))) as HM'.
    { intros n Hn. rewrite dget_dset, Hleft. destruct (decide (m = n)) as [<-|]; [|rewrite Nat.sub_0_r; by apply H1].
      f_equal. unfold left in *. lia. }
    destruct (Z.eqb_spec (Z.of_nat (left m done) - 1) 0) as [Hz|Hz].
    + rewrite pos_item by done. cbn [mbind outcome_bind]. eexists. split; [reflexivity|].
      assert (m ∉ map snd Q1) as HmQ by (rewrite H5; intros (_ & _ & ?); lia).
      assert (m ∉ R ++ [x]) as HmR by (intros HmR; apply Hxm in HmR; lia).
      split_and!; cbn [fst snd].
      * done.
      * rewrite (insert_by_Permutation fst). cbn. by constructor.
      * by apply insert_by_sorted.
      * intros i n. rewrite (insert_by_Permutation fst), elem_of_cons. intros [[= -> ->]|H]; [done | by apply H4].
      * intros n. rewrite (insert_by_Permutation fst), Hleft. cbn. rewrite elem_of_cons, H5.
        destruct (decide (m = n)) as [<-|Hne]; [split; [intros _; split_and!; [done|done|lia] | by left]|].
        rewrite Nat.sub_0_r. split; [intros [->|?]; [done|tauto] | tauto].
    + eexists. split; [reflexivity|]. split_and!; cbn [fst snd]; [done..|].
      intros n. rewrite H5, Hleft. destruct (decide (m = n)) as [<-|Hne]; [|by rewrite Nat.sub_0_r].
      unfold left in *. split; intros (? & ? & ?); lia.
  - exists M', Q'. split; [done|]. destruct HI as (H1 & H2 & H3 & H4 & H5). cbn [fst snd] in *.
    assert (forall n, n ∈ ids -> left n ds = missing (R ++ [x]) (node_deps n)) as Hleft.
    { intros n Hn. unfold left. rewrite Hds, decide_True by done. rewrite (missing_snoc R x) by done. lia. }
    split_and!; try done.
    + intros n Hn. rewrite H1, Hleft by done. done.
    + intros n. rewrite H5. split; intros (? & ? & ?); split_and!; try done; by rewrite Hleft in * by done.
Qed.

Lemma topo_step R i x Q M T :
  topo_inv R ((i, x) :: Q) M ->
  (exists ds, dget T x = Some ds /\ forall m, occ m ds = (if decide (m ∈ ids) then occ x (node_deps m) else 0)%nat) ->
  exists ds M' Q', dget T x = Some ds /\ for_each (release_dependent order) ds (M, Q) = Ok (M', Q') /\
    topo_inv (R ++ [x]) Q' M'.
Proof.
  intros [Hnd Hsub Hcount Hready Hpos Hso Hord Hgr] (ds & Hds & Hocc).
  destruct (proj1 (Hready x)) as (Hx & HxR & Hxm); [left|].
  assert (NoDup (map snd Q) /\ x ∉ map snd Q /\ NoDup R /\ forall n, n ∈ R -> n ∉ map snd Q) as (HndQ & HxQ & HndR & HRQ).
  { simpl in Hnd. apply NoDup_app in Hnd as (HR & HRQ & [HxQ HQ]%NoDup_cons). split_and!; [done..|].
    intros n HnR HnQ. apply (HRQ n HnR). by right. }
  assert (StronglySorted (key_le fst) Q /\ Forall (key_le fst (i, x)) Q) as [HsoQ Hmin] by by apply StronglySorted_inv.
  destruct (release_all R x ds Q M) as (M' & Q' & Hr & HM' & HndQ' & HsoQ' & Hpos' & Hready'); try done.
  { intros n [HnR| ->]%elem_of_snoc; [|done]. apply missing_zero. intros d Hd.
    apply list_elem_of_lookup in HnR as [k Hk]. specialize (Hord k n d Hk Hd). by apply elem_of_take in Hord as (? & ? & _); eapply list_elem_of_lookup_2. }
  { intros k n Hk. apply Hpos. by right. }
  { intros n. specialize (Hready n). simpl in Hready. rewrite elem_of_cons in Hready. rewrite elem_of_snoc. split.
    - intros Hn. destruct (proj1 Hready (or_intror Hn)) as (? & ? & ?). split_and!; [done| |done]. intros [?| ->]; done.
    - intros (Hn & HnR & Hm). destruct (proj2 Hready) as [->|?]; [tauto | tauto | done]. }
  exists ds, M', Q'. split_and!; [done..|].
  assert (forall k, (k <= length R)%nat -> take k (R ++ [x]) = take k R) as Htake by (intros k Hk; by rewrite take_app_le).
  constructor.
  - apply NoDup_app. split_and!; [|intros n Hn HnQ; by apply Hready' in HnQ as (_ & ? & _)|done].
    apply NoDup_app. split_and!; [done| |by apply NoDup_singleton]. intros n Hn ->%list_elem_of_singleton. done.
  - intros n [Hn| ->]%elem_of_snoc; [by apply Hsub | done].
  - done.
  - done.
  - done.
  - done.
  - intros k n d Hk Hd. apply lookup_snoc_Some in Hk as [[Hlt Hk]|[-> <-]].
    + rewrite Htake by lia. by eapply Hord.
    + rewrite Htake, take_ge by lia. rewrite missing_zero in Hxm. by apply Hxm.
  - intros k z y Hk Hy Hny Hdeps. apply lookup_snoc_Some in Hk as [[Hlt Hk]|[-> <-]].
    + rewrite Htake in Hny by lia. rewrite Htake in Hdeps by lia. by eapply Hgr.
    + rewrite take_ge in Hny by (rewrite length_app; simpl; lia). rewrite Htake, take_ge in Hdeps by lia.
      assert (y ∈ map snd Q) as HyQ.
      { apply not_elem_of_app in Hny as [HyR Hyx]. rewrite list_elem_of_singleton in Hyx.
        assert (y ∈ map snd ((i, x) :: Q)) as H by (apply Hready; split_and!; [done..|by apply missing_zero]).
        simpl in H. apply elem_of_cons in H as [?|?]; [congruence | done]. }
      apply list_elem_of_fmap in HyQ as ([j y'] & Hy' & HyQ). cbn in Hy'. subst y'.
      eapply Forall_forall in Hmin; [|exact HyQ]. unfold key_le in Hmin. cbn in Hmin.
      rewrite (Hpos i x), (Hpos j y) in Hmin by (by left || by right).
      assert (pos x <> pos y); [|lia]. intros He. apply pos_inj in He; [|done|done]. subst y.
      apply Hny. apply elem_of_snoc. by right.
Qed.

Lemma NoDup_sub_length (l k : list string) : NoDup l -> (forall n, n ∈ l -> n ∈ k) -> (length l <= length k)%nat.
Proof. intros Hl Hk. by apply submseteq_length, NoDup_submseteq. Qed.

Lemma topological_loop_Ok T fuel : forall R Q M,
  topo_inv R Q M ->
  (forall d, d ∈ ids -> exists l, dget T d = Some l /\
     forall m, occ m l = (if decide (m ∈ ids) then occ d (node_deps m) else 0)%nat) ->
  (length ids <= fuel + length R)%nat ->
  exists R' M', topological_loop fuel order T M Q R = Ok R' /\ topo_inv R' [] M'.
Proof.
  induction fuel as [|fuel IH]; intros R [|[i x] Q] M Hinv HT Hfuel; try (exists R, M; by split).
  - exfalso. pose proof (ti_nodup _ _ _ Hinv) as Hnd. apply NoDup_sub_length with (k := ids) in Hnd.
    + rewrite length_app in Hnd. simpl in Hnd. lia.
    + intros n [Hn|Hn]%elem_of_app; [by apply (ti_sub _ _ _ Hinv) | by apply (ti_ready _ _ _ Hinv)].
  - assert (x ∈ ids) as Hx by (apply (ti_ready _ _ _ Hinv); left).
    destruct (topo_step R i x Q M T Hinv (HT x Hx)) as (ds & M' & Q' & Hds & Hr & Hinv').
    cbn [topological_loop]. rewrite (proj2 (ditem_Ok _ _ _) Hds). cbn [mbind outcome_bind]. rewrite Hr.
    cbn [mbind outcome_bind]. apply IH; [done|done|]. rewrite length_app. simpl. lia.
Qed.

Definition initial_counts : dict Z := dict_of (map (fun n => (en_id n, Z.of_nat (length (en_dependencies n)))) nodes).

Lemma initial_count n : n ∈ ids -> dget initial_counts n = Some (Z.of_nat (missing [] (node_deps n))).
Proof.
  intros Hn. apply list_elem_of_fmap in Hn as (x & -> & Hx). rewrite missing_nil, node_deps_of by done.
  unfold initial_counts. rewrite dict_of_NoDup by (rewrite map_map; exact Hids).
  apply elem_of_dget; [unfold dkeys; rewrite map_map; exact Hids|]. apply list_elem_of_fmap. by exists x.
Qed.

Lemma initial_keys : NoDup (dkeys initial_counts) /\ forall n, n ∈ dkeys initial_counts <-> n ∈ ids.
Proof.
  split; [apply NoDup_dict_of|]. intros n. unfold initial_counts. rewrite elem_of_dkeys_dict_of, map_map. done.
Qed.

Lemma ready_positions (l : dict Z) :
  (forall n, n ∈ map fst l -> n ∈ ids) ->
  mapM (fun '(id, _) => index ← ditem order id; mret (index, id)) l = Ok (map (fun id => (pos id, id)) (map fst l)).
Proof.
  induction l as [|[id c] l IH]; intros Hl; [done|]. cbn [mapM]. simpl. rewrite pos_item by (apply Hl; left). simpl.
  rewrite IH; [done|]. intros n Hn. apply Hl. by right.
Qed.

Lemma initial_ready :
  exists Q, mapM (fun '(id, _) => index ← ditem order id; mret (index, id))
              (List.filter (fun '(_, count) => count =? 0) initial_counts) = Ok Q /\
    topo_inv [] (sort_by fst Q) initial_counts.
Proof.
  destruct initial_keys as [Hk Hkeys]. set (l := List.filter _ initial_counts).
  assert (forall n, n ∈ map fst l <-> n ∈ ids /\ missing [] (node_deps n) = 0%nat) as Hl.
  { intros n. unfold l. rewrite elem_of_keys_filter by done. split.
    - intros (c & Hc & Hz). assert (n ∈ ids) as Hn by (apply Hkeys, dget_is_Some; eauto). split; [done|].
      rewrite initial_count in Hc by done. injection Hc as <-. apply Z.eqb_eq in Hz. lia.
    - intros [Hn Hz]. exists 0. rewrite initial_count by done. by rewrite Hz. }
  eexists. split; [apply ready_positions; intros n Hn; by destruct (proj1 (Hl n) Hn)|]. set (Q := map _ (map fst l)).
  assert (map snd (sort_by fst Q) ≡ₚ map fst l) as Hperm.
  { rewrite (sort_by_Permutation fst Q). unfold Q. rewrite map_map. simpl. by rewrite map_id. }
  constructor.
  - rewrite Hperm. apply NoDup_map_fst_filter. exact Hk.
  - intros n Hn. by apply elem_of_nil in Hn.
  - by apply initial_count.
  - intros n. rewrite Hperm, Hl. split; [|tauto]. intros [? ?]. split_and!; [done | apply not_elem_of_nil | done].
  - intros i n. rewrite (sort_by_Permutation fst Q). unfold Q. intros (k & [= -> ->] & _)%list_elem_of_fmap. done.
  - apply sort_by_sorted.
  - intros i n d Hi. by rewrite lookup_nil in Hi.
  - intros i x y Hi. by rewrite lookup_nil in Hi.
Qed.

End Order.

(** ** Failures *)

Definition unknown_message (d : string) : string := "Expansion references unknown dependency " +:+ quoted d.

Lemma record_dependents_cases x T :
  (exists T', record_dependents T x = Ok T' /\ dkeys T' = dkeys T /\ forall d, d ∈ en_dependencies x -> d ∈ dkeys T) \/
  (exists d, d ∈ en_dependencies x /\ d ∉ dkeys T /\ record_dependents T x = Raise (ValueError (unknown_message d))).
Proof.
  unfold record_dependents. generalize (en_dependencies x). intros l. revert T.
  induction l as [|d l IH]; intros T.
  - left. exists T. split_and!; [done..|]. intros d Hd. by apply elem_of_nil in Hd.
  - cbn [for_each]. destruct (dget T d) as [k|] eqn:Hd.
    + assert (d ∈ dkeys T) as Hin by (apply dget_is_Some; eauto).
      cbn [mbind outcome_bind mret outcome_ret].
      destruct (IH (dset T d (k ++ [en_id x]))) as [(T' & H1 & H2 & H3)|(d' & H1 & H2 & H3)];
        rewrite dkeys_dset_in in * by done.
      * left. exists T'. split_and!; [done..|]. intros d' [->|Hd']%elem_of_cons; [done | by apply H3].
      * right. exists d'. split_and!; [by right | done | done].
    + right. exists d. split_and!; [left | by apply dget_None | done].
Qed.

Lemma record_all_cases nodes : forall T,
  (exists T', for_each record_dependents nodes T = Ok T' /\
     forall x d, x ∈ nodes -> d ∈ en_dependencies x -> d ∈ dkeys T) \/
  (exists x d, x ∈ nodes /\ d ∈ en_dependencies x /\ d ∉ dkeys T /\
     for_each record_dependents nodes T = Raise (ValueError (unknown_message d))).
Proof.
  induction nodes as [|x nodes IH]; intros T.
  - left. exists T. split; [done|]. intros x d Hx. by apply elem_of_nil in Hx.
  - cbn [for_each]. destruct (record_dependents_cases x T) as [(T1 & -> & Hk & Hd)|(d & Hd & HT & ->)].
    + cbn [mbind outcome_bind]. destruct (IH T1) as [(T' & H1 & H2)|(y & d & Hy & Hyd & Hn & He)]; rewrite Hk in *.
      * left. exists T'. split; [done|]. intros y d [->|Hy]%elem_of_cons; [apply Hd | by apply H2].
      * right. exists y, d. split_and!; [by right | done..].
    + right. exists x, d. split_and!; [left | done..].
Qed.

Lemma enumerate_length l : (length (enumerate_order l) =? length l)%nat = true <-> NoDup l.
Proof.
  rewrite Nat.eqb_eq. split.
  - intros H. assert (length (dkeys (enumerate_order l)) = length l) as Hl by (unfold dkeys; by rewrite length_map).
    assert (NoDup (dkeys (enumerate_order l))) as Hnd by apply NoDup_dict_of.
    assert (dkeys (enumerate_order l) ≡ₚ l) as <-; [|done].
    apply submseteq_length_Permutation; [|lia]. apply NoDup_submseteq; [done|]. intros n. by rewrite elem_of_dkeys_enumerate.
  - intros Hnd. unfold enumerate_order. rewrite dict_of_NoDup; [by rewrite length_imap|].
    by rewrite (map_fst_imap (fun i _ => Z.of_nat i)).
Qed.

(** The dependency relation of the records. *)
Definition node_dep (nodes : list PreflightExecutionNode) (d n : string) : Prop :=
  exists x, x ∈ nodes /\ en_id x = n /\ d ∈ en_dependencies x.

Lemma node_dep_deps nodes d n :
  NoDup (map en_id nodes) -> n ∈ map en_id nodes -> node_dep nodes d n <-> d ∈ node_deps nodes n.
Proof.
  intros Hnd Hn. split.
  - intros (x & Hx & <- & Hd). by rewrite (node_deps_of nodes Hnd x Hx).
  - intros Hd. apply list_elem_of_fmap in Hn as (x & -> & Hx). rewrite (node_deps_of nodes Hnd x Hx) in Hd. by exists x.
Qed.

(** A complete order lists exactly the nodes, each after its dependencies, earlier released nodes first. *)
Lemma complete_order_spec nodes R M :
  NoDup (map en_id nodes) -> topo_inv nodes R [] M -> length R = length nodes ->
  NoDup R /\ R ≡ₚ map en_id nodes /\
  (forall i n d, R !! i = Some n -> node_dep nodes d n -> d ∈ take i R) /\
  (forall i j x y a b, (i < j)%nat -> R !! i = Some x -> R !! j = Some y ->
     (forall d, node_dep nodes d y -> d ∈ take i R) ->
     map en_id nodes !! a = Some x -> map en_id nodes !! b = Some y -> (a < b)%nat).
Proof.
  intros Hlen HR HlR. pose proof (ti_nodup _ _ _ _ HR) as HndR. simpl in HndR. rewrite app_nil_r in HndR.
  assert (R ≡ₚ map en_id nodes) as Hperm.
  { apply submseteq_length_Permutation; [|rewrite length_map; lia]. apply NoDup_submseteq; [done|]. apply (ti_sub _ _ _ _ HR). }
  split_and!; [done|done| |].
  - intros i n d Hi Hd. eapply (ti_ordered _ _ _ _ HR); [done|]. apply node_dep_deps; [done| |done].
    rewrite <- Hperm. by eapply list_elem_of_lookup_2.
  - intros i j x y a b Hij Hi Hj Hdeps Ha Hb.
    assert (y ∈ map en_id nodes) as Hy by (by eapply list_elem_of_lookup_2).
    assert (pos nodes x < pos nodes y) as Hlt.
    { eapply (ti_greedy _ _ _ _ HR); [exact Hi | exact Hy | |].
      - intros Hin. apply elem_of_take in Hin as (k & Hk & Hlt).
        assert (j = k) by (eapply NoDup_lookup; eauto). lia.
      - intros d Hd. apply Hdeps. by apply node_dep_deps. }
    unfold pos in Hlt. rewrite (order_of_enumerate _ a x), (order_of_enumerate _ b y) in Hlt by done. lia.
Qed.

(** A loop that stops before every node is placed leaves a dependency cycle behind. *)
Lemma stuck_order_cycle nodes R M :
  NoDup (map en_id nodes) -> (forall x d, x ∈ nodes -> d ∈ en_dependencies x -> d ∈ map en_id nodes) ->
  topo_inv nodes R [] M -> length R <> length nodes -> exists n, tc (node_dep nodes) n n.
Proof.
  intros Hlen Hknown HR HlR. pose proof (ti_nodup _ _ _ _ HR) as HndR. simpl in HndR. rewrite app_nil_r in HndR.
  set (S := List.filter (fun n => negb (str_in n R)) (map en_id nodes)).
  assert (forall n, n ∈ S <-> n ∈ map en_id nodes /\ n ∉ R) as HS.
  { intros n. unfold S. rewrite elem_of_filter_true, negb_true_iff, <- not_true_iff_false, str_in_true. done. }
  destruct S as [|s S'] eqn:ES.
  { exfalso. apply HlR. rewrite <- (length_map en_id nodes). apply Nat.le_antisymm.
    - apply NoDup_sub_length; [done | apply (ti_sub _ _ _ _ HR)].
    - apply NoDup_sub_length; [done|]. intros n Hn. destruct (decide (n ∈ R)) as [|Hn']; [done|].
      exfalso. apply (not_elem_of_nil n), HS. done. }
  destruct (no_source_cycle (node_dep nodes) (s :: S') s) as (n & _ & Hcyc); [left| |by exists n].
  intros n Hn. apply HS in Hn as [Hn HnR].
  assert (missing R (node_deps nodes n) <> 0%nat) as Hm.
  { intros H0. apply (not_elem_of_nil n). apply (ti_ready _ _ _ _ HR n). done. }
  rewrite missing_zero in Hm.
  assert (exists d, d ∈ node_deps nodes n /\ d ∉ R) as (d & Hd & HdR).
  { destruct (decide (Exists (fun d => d ∉ R) (node_deps nodes n))) as [He|He].
    - apply Exists_exists in He as (d & ? & ?). by exists d.
    - exfalso. apply Hm. intros d Hd. destruct (decide (d ∈ R)); [done|]. exfalso. apply He, Exists_exists. eauto. }
  assert (node_dep nodes d n) as Hdep by (by apply node_dep_deps). exists d. split; [|done]. apply HS. split; [|done].
  destruct Hdep as (x & Hx & _ & Hxd). by eapply Hknown.
Qed.

(** C21 (functional): For every list of node records, computing the order of an expanded plan terminates. It
    returns an order exactly of the given nodes in which each node comes after all its dependencies and,
    at every step, no node that was already released and stands earlier in the input is passed over; or
    it raises the error of the first defect it finds: colliding ids, an unknown dependency, or a cycle,
    and then that defect is present.
    Definitions: topological_order. *)
Theorem topological_order_correct (nodes : list PreflightExecutionNode) :
  match topological_order nodes with
  | Ok order =>
      NoDup order /\ order ≡ₚ map en_id nodes /\
      (forall i n d, order !! i = Some n -> node_dep nodes d n -> d ∈ take i order) /\
      (forall i j x y a b, (i < j)%nat -> order !! i = Some x -> order !! j = Some y ->
         (forall d, node_dep nodes d y -> d ∈ take i order) ->
         map en_id nodes !! a = Some x -> map en_id nodes !! b = Some y -> (a < b)%nat)
  | Raise e =>
      (~ NoDup (map en_id nodes) /\ e = ValueError "Expansion contains colliding node identities") \/
      (exists d n, node_dep nodes d n /\ d ∉ map en_id nodes /\ e = ValueError (unknown_message d)) \/
      (exists n, tc (node_dep nodes) n n /\ e = ValueError "Expansion introduces a dependency cycle")
  | OutOfFuel => False
  end.
Proof.
  unfold topological_order. cbv zeta. unfold require at 1.
  assert (length nodes = length (map en_id nodes)) as Hlm by (by rewrite length_map).
  assert ((length (enumerate_order (map en_id nodes)) =? length nodes)%nat =
    (length (enumerate_order (map en_id nodes)) =? length (map en_id nodes))%nat) as -> by (by rewrite <- Hlm).
  destruct (length (enumerate_order (map en_id nodes)) =? length (map en_id nodes))%nat eqn:Hlen; cbn [mbind outcome_bind].
  2: { left. split; [|done]. rewrite <- enumerate_length. congruence. }
  apply enumerate_length in Hlen. fold (initial_counts nodes).
  destruct (record_all_cases nodes (dict_of (map (fun id => (id, [])) (map en_id nodes))))
    as [(T0 & _ & Hknown)|(x & d & Hx & Hd & Hn & ->)].
  2: { cbn [mbind outcome_bind]. right. left. exists d, (en_id x). split_and!; [by exists x| |done].
       intros H. apply Hn. rewrite elem_of_dkeys_dict_of, map_map. by rewrite map_id. }
  assert (forall x d, x ∈ nodes -> d ∈ en_dependencies x -> d ∈ map en_id nodes) as Hknown'.
  { intros x d Hx Hd. specialize (Hknown x d Hx Hd). by rewrite elem_of_dkeys_dict_of, map_map, map_id in Hknown. }
  destruct (dependents_table nodes Hlen Hknown') as (T & -> & HT). cbn [mbind outcome_bind].
  destruct (initial_ready nodes Hlen) as (Q & -> & Hinv). cbn [mbind outcome_bind].
  destruct (topological_loop_Ok nodes Hlen T (length nodes) [] (sort_by fst Q) (initial_counts nodes) Hinv HT)
    as (R & M & -> & HR); [rewrite length_map; simpl; lia|]. cbn [mbind outcome_bind]. unfold require.
  destruct (length R =? length nodes)%nat eqn:HlR; cbn [mbind outcome_bind].
  - by apply (complete_order_spec nodes R M); [..|apply Nat.eqb_eq].
  - right. right. destruct (stuck_order_cycle nodes R M) as [n Hn]; [done..|by apply Nat.eqb_neq|by exists n].
Qed.
