(* ===== verification/ForeachSpec.v ===== *)
(** What an expansion guarantees: distinct identities, the shape of the
    generated records, the scheduler's interface [expansion_ok] and the
    completion gate. *)

From Stdlib Require Import ZArith Lia Ascii String.
From stdpp Require Import base gmap sets list strings pretty sorting relations.
From S2P Require Import Prelude PyStr Models Graph Scheduler SchedulerInv SchedulerLoop.
From S2P Require Import PlanRecords Artifacts PlanContract PlanContractSpec Foreach ForeachOrder.

Open Scope string_scope.
Open Scope list_scope.
Open Scope Z_scope.

(** ** Decimal ordinals *)

Lemma pretty_N_go_digits x s :
  Forall (fun c => c <> "."%char) (chars s) -> Forall (fun c => c <> "."%char) (chars (pretty_N_go x s)).
Proof.
  revert s. induction (N.lt_wf_0 x) as [x _ IH]; intros s Hs. destruct (decide (0 < x)%N) as [Hx|Hx].
  - rewrite pretty_N_go_step by done. apply IH; [by apply N.div_lt|].
    change (chars (String (pretty_N_char (x `mod` 10)) s)) with (pretty_N_char (x `mod` 10) :: chars s).
    constructor; [|done]. assert (x `mod` 10 < 10)%N as Hm by (apply N.mod_lt; lia).
    destruct (x `mod` 10)%N as [|p]; [done|]. do 4 (destruct p as [p|p|]; try done). all: lia.
  - assert (x = 0%N) as -> by lia. by rewrite pretty_N_go_0.
Qed.

Lemma str_int_no_dot z : 0 <= z -> Forall (fun c => c <> "."%char) (chars (str_int z)).
Proof.
  intros Hz. unfold str_int. destruct z as [|p|p]; [|apply pretty_N_go_digits; constructor|lia].
  vm_compute. by repeat constructor.
Qed.

(** Text before the first dot is determined. *)
Lemma dot_split_inj (a b x y : text) :
  Forall (fun c => c <> "."%char) a -> Forall (fun c => c <> "."%char) b ->
  a ++ "."%char :: x = b ++ "."%char :: y -> a = b /\ x = y.
Proof.
  intros Ha. revert b. induction Ha as [|c a Hc Ha IH]; intros b Hb He; destruct Hb as [|d b Hd Hb]; simpl in He.
  - by injection He as ->.
  - injection He as <- _. done.
  - injection He as -> _. done.
  - injection He as -> He. destruct (IH b Hb He) as [-> ->]. done.
Qed.

Lemma app_inj_str a b c : a +:+ b = a +:+ c -> b = c.
Proof.
  intros H. apply (f_equal chars) in H. rewrite !chars_app in H. apply app_inv_head in H.
  apply (f_equal of_chars) in H. by rewrite !of_chars_chars in H.
Qed.

(** ** Identities *)

Lemma generated_id_inj t n m k l :
  0 <= k -> 0 <= l -> generated_id t n k = generated_id t m l ->
  k = l /\ removeprefix (cf_namespace t +:+ ".") n = removeprefix (cf_namespace t +:+ ".") m.
Proof.
  intros Hk Hl He. unfold generated_id in He. do 2 apply app_inj_str in He. apply (f_equal chars) in He.
  rewrite !chars_app in He. apply dot_split_inj in He as [H1 H2]; [|by apply str_int_no_dot..].
  apply (f_equal of_chars) in H1, H2. rewrite !of_chars_chars in H1, H2. by apply (inj pretty) in H1.
Qed.

(** The part of the check of a frozen template that concerns node identities.
    Code: core/preflight/foreach/reconstruction.py:90-98. *)
Definition frozen_children_ok (template : CompiledForeach) : bool :=
  forallb (fun node => str_startswith (cf_namespace template +:+ ".") (en_id node) &&
                       negb (bool_decide (en_mode node = Foreach)) && negb (is_some (en_expansion node)))
    (cf_nodes template).

Lemma removeprefix_inj p a b :
  str_startswith p a = true -> str_startswith p b = true -> removeprefix p a = removeprefix p b -> a = b.
Proof.
  unfold removeprefix, str_startswith. intros Ha Hb. rewrite Ha, Hb.
  apply starts_with_spec in Ha as [x Hx], Hb as [y Hy]. rewrite Hx, Hy.
  assert (length (chars p) = String.length p) as <- by (clear; induction p; simpl; [done | by f_equal]).
  rewrite !drop_app_length. intros H. apply (f_equal chars) in H. rewrite !chars_of_chars in H. subst y.
  rewrite <- Hy in Hx. apply (f_equal of_chars) in Hx. by rewrite !of_chars_chars in Hx.
Qed.

(** ** The shape of a batch *)

Lemma Forall2_elem_of_l {A B} (P : A -> B -> Prop) l k a : Forall2 P l k -> a ∈ l -> exists b, b ∈ k /\ P a b.
Proof.
  intros H Ha. apply list_elem_of_lookup in Ha as [i Hi]. destruct (Forall2_lookup_l _ _ _ _ _ H Hi) as (b & Hb & HP).
  exists b. split; [by eapply list_elem_of_lookup_2 | done].
Qed.

Lemma Forall2_elem_of_r {A B} (P : A -> B -> Prop) l k b : Forall2 P l k -> b ∈ k -> exists a, a ∈ l /\ P a b.
Proof.
  intros H Hb. apply list_elem_of_lookup in Hb as [i Hi]. destruct (Forall2_lookup_r _ _ _ _ _ H Hi) as (a & Ha & HP).
  exists a. split; [by eapply list_elem_of_lookup_2 | done].
Qed.

Section Batch.
Context {hash : HashLibrary}.
Context (t : CompiledForeach).

Let tids := map en_id (cf_nodes t).

(** The identities of instance [k]. *)
Definition instance_ids (k : Z) : dict string :=
  dict_of (map (fun n => (en_id n, generated_id t (en_id n) k)) (cf_nodes t)).

Lemma instance_ids_get k n :
  dget (instance_ids k) n = if decide (n ∈ tids) then Some (generated_id t n k) else None.
Proof.
  unfold instance_ids. rewrite <- (map_map en_id (fun n => (n, generated_id t n k))).
  apply (dget_dict_of_map (fun n => generated_id t n k)).
Qed.

(** The parts of an instance mapping the nodes and edges depend on. *)
Definition instance_core (k : Z) (im : InstanceMapping) : Prop :=
  im_template im = t /\ im_ordinal im = k /\ im_node_ids im = instance_ids k /\
  im_item_id im = generated_id t (cf_item_node_id t) k /\ im_terminal_ids im = terminal_node_ids t.

Lemma instance_mapping_core k im : instance_mapping t k = Ok im -> instance_core k im /\ cf_item_node_id t ∈ tids.
Proof.
  unfold instance_mapping. fold (instance_ids k). intros H. inv_ok. subst im. apply ditem_Ok in Hok.
  rewrite instance_ids_get in Hok. case_decide as Hi; [|done]. injection Hok as <-. by split.
Qed.

(** Record [x] is the copy of template node [n] in instance [k]. *)
Record copy_of (k : Z) (n x : PreflightExecutionNode) : Prop := {
  co_id : en_id x = generated_id t (en_id n) k;
  co_mode : en_mode x = en_mode n;
  co_deps : forall im, instance_core k im -> en_dependencies x = instance_dependencies im n
}.

Lemma instance_dependencies_core k im im' n :
  instance_core k im -> instance_core k im' -> instance_dependencies im n = instance_dependencies im' n.
Proof.
  intros (H1 & _ & H2 & H3 & _) (H1' & _ & H2' & H3' & _). unfold instance_dependencies. by rewrite H1, H2, H3, H1', H2', H3'.
Qed.

Lemma remap_node_copy state k im n x :
  instance_core k im -> n ∈ cf_nodes t -> remap_node state im n = Ok x -> copy_of k n x.
Proof.
  intros Him Hn H. unfold remap_node in H. inv_ok. subst x. apply ditem_Ok in Hok.
  destruct (Him) as (_ & _ & Hids & _). rewrite Hids, instance_ids_get in Hok.
  rewrite decide_True in Hok by (apply list_elem_of_fmap; eauto). injection Hok as <-.
  constructor; [done..|]. intros im' Him'. simpl. by eapply instance_dependencies_core.
Qed.

(** What a batch holds for the (instance, node) pairs [ps]. *)
Record batch_shape (deps : list string) (ps : list (Z * PreflightExecutionNode)) (b : ExpansionBatch) : Prop := {
  bs_nodes : Forall2 (fun p x => copy_of p.1 p.2 x) ps (xb_nodes b);
  bs_targets : forall e, e ∈ xb_dependency_graph b -> de_target_node e ∈ map en_id (xb_nodes b);
  bs_edges : forall x d, x ∈ xb_nodes b -> d ∈ en_dependencies x -> edge_dep (xb_dependency_graph b) d (en_id x);
  bs_deps : forall d, d ∈ deps -> d ∈ xb_group_dependencies b;
  bs_gate : forall k n, (k, n) ∈ ps -> en_id n ∈ terminal_node_ids t -> generated_id t (en_id n) k ∈ xb_group_dependencies b
}.

Lemma edge_dep_app a b d n : edge_dep (a ++ b) d n <-> edge_dep a d n \/ edge_dep b d n.
Proof. unfold edge_dep. setoid_rewrite elem_of_app. naive_solver. Qed.

Lemma append_node_shape state deps k im ps b n b' :
  instance_core k im -> n ∈ cf_nodes t -> batch_shape deps ps b -> append_node state im b n = Ok b' ->
  batch_shape deps (ps ++ [(k, n)]) b' /\ xb_state b' = xb_state b.
Proof.
  intros Him Hn [H1 H2 H3 H4 H5] H. unfold append_node in H. inv_ok. rename a into x. subst b'. split; [|done].
  pose proof (remap_node_copy _ _ _ _ _ Him Hn Hok) as Hx.
  destruct (Him) as (_ & _ & _ & _ & Hterm).
  constructor; cbn [xb_nodes xb_dependency_graph xb_group_dependencies].
  - apply Forall2_app; [done|]. constructor; [exact Hx | constructor].
  - intros e. rewrite map_app, !elem_of_app. intros [He|He]; [left; by apply H2|].
    right. apply list_elem_of_fmap in He as (d & -> & _). simpl. left.
  - intros y d [Hy|Hy]%elem_of_app Hd; rewrite edge_dep_app; [left; by apply H3|].
    apply list_elem_of_singleton in Hy as ->. right. exists (scheduling_edge d (en_id x) None).
    split; [|done]. apply list_elem_of_fmap. by exists d.
  - intros d Hd. case_bool_decide; [apply elem_of_app; left|]; by apply H4.
  - intros k' n' [Hin|Hin]%elem_of_app Hm.
    + case_bool_decide; [apply elem_of_app; left|]; by apply H5.
    + apply list_elem_of_singleton in Hin as [= -> ->]. rewrite Hterm, bool_decide_eq_true_2 by done.
      apply elem_of_app. right. rewrite (co_id _ _ _ Hx). left.
Qed.

Lemma append_nodes_shape state deps k im : forall ns ps b b',
  instance_core k im -> (forall n, n ∈ ns -> n ∈ cf_nodes t) -> batch_shape deps ps b ->
  for_each (append_node state im) ns b = Ok b' ->
  batch_shape deps (ps ++ map (pair k) ns) b' /\ xb_state b' = xb_state b.
Proof.
  induction ns as [|n ns IH]; intros ps b b' Him Hns Hb H.
  - injection H as <-. by rewrite app_nil_r.
  - cbn [for_each] in H. apply bind_Ok in H as (b1 & Hb1 & H).
    destruct (append_node_shape state deps k im ps b n b1 Him (Hns n ltac:(left)) Hb Hb1) as [Hs1 Hst1].
    destruct (IH _ b1 b' Him (fun m Hm => Hns m ltac:(by right)) Hs1 H) as [Hs Hst].
    rewrite <- app_assoc in Hs. split; [exact Hs | by rewrite Hst].
Qed.

Lemma append_artifact_edges_shape deps k im : forall es ps b b',
  instance_core k im -> (forall n, n ∈ cf_nodes t -> (k, n) ∈ ps) -> batch_shape deps ps b ->
  for_each (fun batch edge =>
    match de_artifact_name edge with
    | None => mret batch
    | Some artifact =>
        target ← ditem (im_node_ids im) (de_target_node edge);
        mret (mkBatch (xb_state batch) (xb_nodes batch) (xb_render_plans batch) (xb_workspace_file_locators batch)
                (xb_token_catalog batch)
                (xb_dependency_graph batch ++
                   [scheduling_edge (default (de_source_node edge) (dget (im_node_ids im) (de_source_node edge)))
                      target (Some artifact)])
                (xb_group_dependencies batch))
    end) es b = Ok b' ->
  batch_shape deps ps b' /\ xb_state b' = xb_state b.
Proof.
  induction es as [|e es IH]; intros ps b b' Him Hps Hb H; [by injection H as <-|].
  cbn [for_each] in H. apply bind_Ok in H as (b1 & Hb1 & H).
  assert (batch_shape deps ps b1 /\ xb_state b1 = xb_state b) as [Hs1 Hst1].
  { destruct (de_artifact_name e) as [a|]; [|by injection Hb1 as <-]. inv_ok. subst b1. split; [|done].
    apply ditem_Ok in Hok. destruct (Him) as (_ & _ & Hids & _). rewrite Hids, instance_ids_get in Hok.
    case_decide as Ht; [|done]. injection Hok as <-. apply list_elem_of_fmap in Ht as (n & Hn & Hnt).
    destruct Hb as [H1 H2 H3 H4 H5]. constructor; cbn [xb_nodes xb_dependency_graph xb_group_dependencies]; try done.
    - intros e'. rewrite elem_of_app. intros [He'|He']; [by apply H2|]. apply list_elem_of_singleton in He' as ->. simpl.
      destruct (Forall2_elem_of_l _ _ _ _ H1 (Hps n Hnt)) as (x & Hx & Hc).
      apply list_elem_of_fmap. exists x. split; [|done]. rewrite (co_id _ _ _ Hc). simpl. by rewrite Hn.
    - intros x d Hx Hd. rewrite edge_dep_app. left. by apply H3. }
  destruct (IH ps b1 b' Him Hps Hs1 H) as [Hs Hst]. split; [done | by rewrite Hst].
Qed.

Lemma append_instance_shape deps k ps b b' :
  batch_shape deps ps b -> append_instance t b k = Ok b' ->
  batch_shape deps (ps ++ map (pair k) (cf_nodes t)) b' /\ xb_state b' = xb_state b /\ cf_item_node_id t ∈ tids.
Proof.
  intros Hb H. unfold append_instance in H. inv_ok. subst b'.
  apply instance_mapping_core in Hok as [Him Hitem].
  destruct (Him) as (Ht & _). unfold append_nodes in Hok0. rewrite Ht in Hok0.
  destruct (append_nodes_shape (xb_state b) deps k a (cf_nodes t) ps b a0 Him) as [Hs1 Hst1]; [done|done|done|].
  unfold append_artifact_edges in Hok1. rewrite Ht in Hok1.
  destruct (append_artifact_edges_shape deps k a (cf_dependency_graph t) (ps ++ map (pair k) (cf_nodes t)) a0 a1 Him) as [Hs2 Hst2].
  { intros n Hn. apply elem_of_app. right. apply list_elem_of_fmap. by exists n. }
  { done. }
  { done. }
  destruct Hs2 as [H1 H2 H3 H4 H5]. split_and!; [by constructor | simpl; by rewrite Hst2 | done].
Qed.

(** The pairs of a batch with [count] items. *)
Definition instance_pairs (ks : list Z) : list (Z * PreflightExecutionNode) := concat (map (fun k => map (pair k) (cf_nodes t)) ks).

Lemma concrete_batch_shape state deps b :
  concrete_batch t state deps = Ok b ->
  batch_shape deps (instance_pairs (map Z.of_nat (seq 0 (length (xs_items state))))) b /\ xb_state b = state /\
  (xs_items state <> [] -> cf_item_node_id t ∈ tids).
Proof.
  unfold concrete_batch.
  assert (forall ks ps b0, batch_shape deps ps b0 -> for_each (append_instance t) ks b0 = Ok b ->
    batch_shape deps (ps ++ instance_pairs ks) b /\ xb_state b = xb_state b0 /\ (ks <> [] -> cf_item_node_id t ∈ tids)) as Hgen.
  { induction ks as [|k ks IH]; intros ps b0 Hb0 H.
    - injection H as <-. unfold instance_pairs. simpl. by rewrite app_nil_r.
    - cbn [for_each] in H. apply bind_Ok in H as (b1 & Hb1 & H).
      destruct (append_instance_shape deps k ps b0 b1 Hb0 Hb1) as (Hs1 & Hst1 & Hi).
      destruct (IH _ b1 Hs1 H) as (Hs & Hst & _). rewrite <- app_assoc in Hs.
      split_and!; [exact Hs | by rewrite Hst | done]. }
  intros H. assert (batch_shape deps [] (mkBatch state [] [] [] [] [] deps)) as H0.
  { constructor; cbn [xb_nodes xb_dependency_graph xb_group_dependencies]; [constructor | | | done |].
    - intros e He. by apply elem_of_nil in He.
    - intros x d Hx. by apply elem_of_nil in Hx.
    - intros k n Hk. by apply elem_of_nil in Hk. }
  destruct (Hgen _ [] _ H0 H) as (Hs & Hst & Hi).
  split_and!; [exact Hs | exact Hst|]. intros Hne. apply Hi. destruct (xs_items state); [done | simpl; done].
Qed.

End Batch.

Lemma mapM_Ok_length {A B} (f : A -> outcome B) l k : mapM f l = Ok k -> length k = length l.
Proof.
  revert k. induction l as [|x l IH]; intros k H; [by injection H as <-|]. cbn [mapM] in H. inv_ok. subst k. simpl. by rewrite (IH a0).
Qed.

Lemma elem_of_list_concat {A} (x : A) ls : x ∈ concat ls <-> exists l, x ∈ l /\ l ∈ ls.
Proof. rewrite list_elem_of_In, in_concat. setoid_rewrite list_elem_of_In. naive_solver. Qed.

Lemma instance_pairs_NoDup t ks : NoDup ks -> NoDup (cf_nodes t) -> NoDup (instance_pairs t ks).
Proof.
  intros Hks Hn. induction Hks as [|k ks Hk Hks IH]; [constructor|]. unfold instance_pairs in *. simpl.
  apply NoDup_app. split_and!; [by apply NoDup_fmap_2; [intros ? ? [=]|]| |done].
  intros [k' n] (m & [= -> ->] & _)%list_elem_of_fmap (l & Hl & Hin)%elem_of_list_concat.
  apply list_elem_of_fmap in Hin as (k2 & -> & Hk2). apply list_elem_of_fmap in Hl as (? & [= -> ->] & _). done.
Qed.

Lemma elem_of_instance_pairs t ks k n : (k, n) ∈ instance_pairs t ks <-> k ∈ ks /\ n ∈ cf_nodes t.
Proof.
  unfold instance_pairs. rewrite elem_of_list_concat. split.
  - intros (l & Hl & Hin). apply list_elem_of_fmap in Hin as (k' & -> & Hk). apply list_elem_of_fmap in Hl as (m & [= -> ->] & Hm).
    done.
  - intros [Hk Hn]. exists (map (pair k) (cf_nodes t)). split; apply list_elem_of_fmap; eauto.
Qed.

Lemma instance_pairs_length t ks : length (instance_pairs t ks) = (length ks * length (cf_nodes t))%nat.
Proof. unfold instance_pairs. induction ks as [|k ks IH]; simpl; [done|]. by rewrite length_app, length_map, IH. Qed.

Section Identities.
Context {hash : HashLibrary}.

Lemma batch_ids t deps ps b :
  batch_shape t deps ps b -> map en_id (xb_nodes b) = map (fun p => generated_id t (en_id p.2) p.1) ps.
Proof.
  intros [H _ _ _ _]. induction H as [|p x ps xs Hc _ IH]; simpl; [done|]. by rewrite (co_id _ _ _ _ Hc), IH.
Qed.

Lemma batch_ids_NoDup t deps ks b :
  frozen_children_ok t = true -> NoDup (map en_id (cf_nodes t)) -> NoDup ks -> Forall (fun k => 0 <= k) ks ->
  batch_shape t deps (instance_pairs t ks) b -> NoDup (map en_id (xb_nodes b)).
Proof.
  intros Hf Hnd Hks Hpos Hb. rewrite (batch_ids _ _ _ _ Hb). unfold frozen_children_ok in Hf. rewrite forallb_forall in Hf.
  assert (forall n, n ∈ cf_nodes t -> str_startswith (cf_namespace t +:+ ".") (en_id n) = true) as Hns.
  { intros n Hn. apply list_elem_of_In, Hf in Hn. rewrite !andb_true_iff in Hn. tauto. }
  apply NoDup_fmap_2_strong; [|apply instance_pairs_NoDup; [done | apply (NoDup_fmap_1 en_id); exact Hnd]].
  intros [k n] [l m] Hkn Hlm. apply elem_of_instance_pairs in Hkn as [Hk Hn], Hlm as [Hl Hm]. simpl. intros He.
  apply generated_id_inj in He as [-> He]; [|by eapply Forall_forall in Hpos..].
  apply removeprefix_inj in He; [|by apply Hns..]. f_equal.
  apply list_elem_of_lookup in Hn as [i Hi], Hm as [j Hj].
  assert (i = j) as ->; [|congruence]. eapply NoDup_lookup; [exact Hnd | |]; rewrite list_lookup_fmap; [by rewrite Hi|].
  rewrite Hj. simpl. by rewrite He.
Qed.

(** The nodes earlier expansions generated. *)
Definition restored_total (plan : PreflightExecutionPlan) : Z :=
  foldr (fun '(group, state) total =>
    Z.of_nat (length (xs_items state)) *
      Z.of_nat (length (default [] (cf_nodes <$> List.find (fun t => bool_decide (cf_group_id t = group)) (pp_foreach_templates plan))))
    + total) 0 (pp_expansions plan).

Lemma restored_sum plan : forall total0 total,
  for_each (fun total '(group, state) =>
    match List.find (fun t => bool_decide (cf_group_id t = group)) (pp_foreach_templates plan) with
    | Some t => mret (total + Z.of_nat (length (xs_items state)) * Z.of_nat (length (cf_nodes t)))
    | None => Raise (OtherError "StopIteration" "")
    end) (pp_expansions plan) total0 = Ok total -> total = total0 + restored_total plan.
Proof.
  unfold restored_total. induction (pp_expansions plan) as [|[g st] l IH]; intros total0 total H; [injection H as <-; simpl; lia|].
  cbn [for_each] in H. cbn [foldr]. destruct (List.find _ _) as [t|]; [|discriminate H].
  cbn [mbind outcome_bind mret outcome_ret] in H. apply IH in H. simpl. lia.
Qed.

(** Instantiating a foreach group yields one copy of every template node per item, in item and
    template order, with pairwise distinct ids; there are at most max_items items, and together with the
    nodes of all earlier expansions the copies stay within the compiled max_expanded_nodes budget. *)
Theorem expansion_ids_distinct_and_bounded (plan : PreflightExecutionPlan) (t : CompiledForeach) (items : list json)
    (callers : dict ExpansionArtifact) (b : ExpansionBatch) :
  frozen_children_ok t = true -> NoDup (map en_id (cf_nodes t)) ->
  instantiate_foreach plan t items callers = Ok b ->
  map en_id (xb_nodes b) =
    concat (map (fun k => map (fun n => generated_id t (en_id n) (Z.of_nat k)) (cf_nodes t)) (seq 0 (length items))) /\
  NoDup (map en_id (xb_nodes b)) /\
  Z.of_nat (length items) <= cf_max_items t /\
  exists limit, expansion_limit plan = Ok limit /\ restored_total plan + Z.of_nat (length (xb_nodes b)) <= limit.
Proof.
  intros Hf Hnd H. unfold instantiate_foreach in H. checks. rename a0 into state.
  destruct (List.find _ (pp_nodes plan)) as [group|]; [|done].
  assert (length (xs_items state) = length items) as Hlen.
  { unfold expansion_state in Hok0. inv_ok. subst state. simpl.
    match goal with H : mapM _ _ = Ok _ |- _ => apply mapM_Ok_length in H; rewrite H end. by rewrite length_imap. }
  apply concrete_batch_shape in H as (Hb & _ & _). rewrite Hlen in Hb.
  assert (length (xb_nodes b) = length items * length (cf_nodes t))%nat as Hcount.
  { destruct Hb as [H1 _ _ _ _]. apply Forall2_length in H1. rewrite <- H1, instance_pairs_length, length_map, length_seq. done. }
  split_and!.
  - rewrite (batch_ids _ _ _ _ Hb). unfold instance_pairs. rewrite concat_map, !map_map. f_equal. apply map_ext. intros k.
    by rewrite map_map.
  - eapply batch_ids_NoDup; [done|done| | |exact Hb].
    + apply NoDup_fmap_2; [intros ? ? ?; lia | apply NoDup_seq].
    + apply Forall_fmap, Forall_forall. intros k _. simpl. lia.
  - unfold validate_expansion in Hok. inv_ok. unfold validate_collection in Hok1. cbv zeta in Hok1. checks. lia.
  - unfold validate_expansion in Hok. checks.
    match goal with H : expansion_limit plan = Ok ?limit |- _ => exists limit; split; [done|] end.
    match goal with H : for_each _ (pp_expansions plan) 0 = Ok ?total |- _ =>
      assert (total = 0 + restored_total plan) as Htotal by (eapply restored_sum; exact H) end. lia.
Qed.

End Identities.

(** ** The expanded plan *)

Section Expanded.
Context {hash : HashLibrary}.
Context (P P' : PreflightExecutionPlan) (b : ExpansionBatch).

Let g := xs_group_id (xb_state b).

Lemma elem_of_expanded x :
  x ∈ expanded_nodes P b <->
  exists node, node ∈ pp_nodes P /\
    ((en_id node <> g /\ x = node) \/ (en_id node = g /\ (x ∈ xb_nodes b \/ x = gated_group b node))).
Proof.
  unfold expanded_nodes. fold g. rewrite elem_of_list_concat. split.
  - intros (l & Hx & Hl). apply list_elem_of_fmap in Hl as (node & -> & Hn). exists node. split; [done|].
    case_bool_decide as Hg.
    + right. rewrite elem_of_snoc in Hx. done.
    + left. by apply list_elem_of_singleton in Hx.
  - intros (node & Hn & Hx). eexists. split; [|apply list_elem_of_fmap; by exists node].
    case_bool_decide as Hg; [rewrite elem_of_snoc | rewrite list_elem_of_singleton]; tauto.
Qed.

Lemma expanded_ids_keep n : n ∈ map en_id (pp_nodes P) -> n ∈ map en_id (expanded_nodes P b).
Proof.
  intros (node & -> & Hn)%list_elem_of_fmap. apply list_elem_of_fmap.
  destruct (decide (en_id node = g)) as [Hg|Hg].
  - exists (gated_group b node). split; [done|]. apply elem_of_expanded. exists node. tauto.
  - exists node. split; [done|]. apply elem_of_expanded. exists node. tauto.
Qed.

(** With unique ids, no generated id is an id of the plan. *)
Lemma generated_ids_fresh n :
  NoDup (map en_id (expanded_nodes P b)) -> (exists group, group ∈ pp_nodes P /\ en_id group = g) ->
  n ∈ map en_id (xb_nodes b) -> n ∈ map en_id (pp_nodes P) -> n = g.
Proof.
  intros Hnd (group & Hgr & Hid) Hb Hn. destruct (decide (n = g)) as [|Hne]; [done|]. exfalso.
  apply list_elem_of_fmap in Hn as (node & Hnn & Hn).
  apply list_elem_of_lookup in Hgr as [i Hi], Hn as [j Hj].
  assert (i <> j) as Hij by (intros ->; simplify_eq; congruence).
  unfold expanded_nodes in Hnd. rewrite concat_map, map_map in Hnd. fold g in Hnd.
  set (f := fun node => map en_id (if bool_decide (en_id node = g) then xb_nodes b ++ [gated_group b node] else [node])) in Hnd.
  assert (forall (l : list PreflightExecutionNode) i j x y z, NoDup (concat (map f l)) -> i <> j -> l !! i = Some x -> l !! j = Some y ->
    z ∈ f x -> z ∈ f y -> False) as Hdis.
  { clear. induction l as [|a l IH]; intros i j x y z Hnd Hij Hi Hj Hx Hy; [done|].
    simpl in Hnd. apply NoDup_app in Hnd as (_ & Hd & Hnd).
    assert (forall k w, l !! k = Some w -> z ∈ f w -> z ∈ concat (map f l)) as Hin.
    { intros k w Hk Hw. apply elem_of_list_concat. exists (f w). split; [done|]. apply list_elem_of_fmap. exists w.
      split; [done | by eapply list_elem_of_lookup_2]. }
    destruct i as [|i], j as [|j]; simpl in *; simplify_eq.
    - apply (Hd z Hx). by eapply Hin.
    - apply (Hd z Hy). by eapply Hin.
    - eapply (IH i j); eauto. }
  apply (Hdis _ i j group node n Hnd Hij Hi Hj); unfold f.
  - rewrite bool_decide_eq_true_2 by done. rewrite map_app. apply elem_of_app. by left.
  - rewrite bool_decide_eq_false_2 by congruence. simpl. rewrite <- Hnn. left.
Qed.

Lemma gate_edge d : d ∈ xb_group_dependencies b -> edge_dep (expanded_dependency_graph P b) d g.
Proof.
  intros Hd. unfold expanded_dependency_graph. fold g. cbv zeta. rewrite edge_dep_app.
  destruct (decide ((d, g) ∈ map (fun e => (de_source_node e, de_target_node e)) (pp_dependency_graph P ++ xb_dependency_graph b)))
    as [Hin|Hin].
  - left. apply list_elem_of_fmap in Hin as (e & [= -> He] & Hin). by exists e.
  - right. exists (scheduling_edge d g None). split; [|done]. apply list_elem_of_fmap. exists d. split; [done|].
    apply elem_of_filter_true. split; [done|]. by rewrite bool_decide_eq_false_2.
Qed.

(** What a successful [expanded_plan] says about the batch and the result. *)
Lemma expanded_plan_Ok :
  expanded_plan P b = Ok P' ->
  g ∉ dkeys (pp_expansions P) /\ pp_nodes P' = expanded_nodes P b /\
  pp_dependency_graph P' = expanded_dependency_graph P b /\
  pp_expansions P' = dset (pp_expansions P) g (xb_state b) /\
  exists t group, t ∈ pp_foreach_templates P /\ cf_group_id t = g /\ group ∈ pp_nodes P /\ en_id group = g /\
    batch_shape t (en_dependencies group) (instance_pairs t (map Z.of_nat (seq 0 (length (xs_items (xb_state b)))))) b /\
    (xs_items (xb_state b) <> [] -> cf_item_node_id t ∈ map en_id (cf_nodes t)).
Proof.
  intros H. unfold expanded_plan in H. apply bind_Ok in H as ([] & Hv & H). apply bind_Ok in H as (ord & _ & H). injection H as <-. cbn.
  unfold validate_expansion_batch in Hv. fold g in Hv. cbv zeta in Hv. apply bind_Ok in Hv as ([] & Hm & Hrest).
  apply require_Ok, negb_true_iff, dmem_false in Hm. split_and!; [done..|].
  destruct (List.find _ (pp_foreach_templates P)) as [t|] eqn:Ht; [|discriminate Hrest].
  destruct (List.find _ (pp_nodes P)) as [group|] eqn:Hg; [|discriminate Hrest].
  apply find_some in Ht as [Ht1 Ht2], Hg as [Hg1 Hg2]. apply bool_decide_eq_true in Ht2, Hg2.
  apply bind_Ok in Hrest as (expected & Hc & Hb). case_bool_decide as Heq; [|discriminate]. rewrite <- Heq in Hc.
  apply concrete_batch_shape in Hc as (H1 & _ & H3). exists t, group.
  split_and!; [by apply list_elem_of_In | done | by apply list_elem_of_In | done | done | done].
Qed.

End Expanded.

Section Refinement.
Context {hash : HashLibrary}.
Context (P P' : PreflightExecutionPlan) (b : ExpansionBatch).

(** C23 (refinement): Expanding a group refines the interface the scheduler relies on: when the expanded plan
    passes the plan contract, the result is schedulable, keeps every node of the plan, introduces no
    further foreach group, leaves the dependencies of all other nodes unchanged, keeps those of the group
    and adds exactly the group to the recorded expansions.
    Definitions: expanded_plan, expanded_nodes, expanded_dependency_graph, validate_expansion_batch, concrete_batch, validate_execution_graph_semantics, frozen_children_ok. *)
Theorem expansion_refines_interface :
  Forall (fun t => frozen_children_ok t = true) (pp_foreach_templates P) ->
  expanded_plan P b = Ok P' ->
  validate_execution_graph_semantics P' = Ok tt ->
  expansion_ok (sched_plan P) (xs_group_id (xb_state b)) (sched_plan P').
Proof.
  intros Hf He Hv. destruct (validated_plan_facts P' Hv) as (Hok & _).
  destruct (expanded_plan_Ok P P' b He) as (Hnew & Hnodes & Hgraph & Hexp & t & group & Ht & Htg & Hgr & Hgid & Hb & _).
  assert (NoDup (map en_id (expanded_nodes P b))) as Hnd.
  { pose proof (po_nodup _ Hok) as H. by rewrite sched_plan_ids, Hnodes in H. }
  constructor.
  - done.
  - intros n. rewrite !sched_plan_ids, Hnodes. apply expanded_ids_keep.
  - intros node Hn Hm. simpl in Hn. rewrite Hnodes in Hn. apply list_elem_of_fmap in Hn as (x & -> & Hx).
    apply elem_of_expanded in Hx as (old & Hold & [[Hne ->]|[Heq [Hx| ->]]]).
    + exists (sched_node old). split; [|done]. apply list_elem_of_fmap. by exists old.
    + exfalso. destruct (Forall2_elem_of_r _ _ _ _ (bs_nodes _ _ _ _ Hb) Hx) as ([k n] & Hkn & Hc).
      apply elem_of_instance_pairs in Hkn as [_ Hn]. eapply Forall_forall in Hf; [|exact Ht].
      unfold frozen_children_ok in Hf. rewrite forallb_forall in Hf. apply list_elem_of_In, Hf in Hn.
      rewrite !andb_true_iff, !negb_true_iff, bool_decide_eq_false in Hn. destruct Hn as [[_ Hn] _].
      apply Hn. pose proof (co_mode _ _ _ _ Hc) as Hcm. simpl in Hcm, Hm. congruence.
    + exists (sched_node old). split; [|done]. apply list_elem_of_fmap. by exists old.
  - intros d n Hn Hne. rewrite !sched_plan_dep, Hgraph. unfold expanded_dependency_graph. cbv zeta. rewrite !edge_dep_app. split.
    + intros [[H|(e & Hin & _ & <-)]|(e & Hin & _ & <-)]; [done| |].
      * exfalso. apply Hne. rewrite sched_plan_ids in Hn.
        apply (generated_ids_fresh P b _ Hnd); [by exists group | by apply (bs_targets _ _ _ _ Hb) | done].
      * apply list_elem_of_fmap in Hin as (d' & -> & _). done.
    + intros H. by left; left.
  - intros d. rewrite !sched_plan_dep, Hgraph. unfold expanded_dependency_graph. cbv zeta. rewrite !edge_dep_app. tauto.
  - intros x. simpl. rewrite Hexp, elem_of_dkeys_dset. tauto.
Qed.

(** The dependencies a frozen template records agree with its edges, and its
    item slot is an input without dependencies. *)
Record template_consistent (t : CompiledForeach) : Prop := {
  tc_edges : forall e, e ∈ cf_dependency_graph t -> de_source_node e ∈ map en_id (cf_nodes t) ->
               exists y, y ∈ cf_nodes t /\ en_id y = de_target_node e /\ de_source_node e ∈ en_dependencies y;
  tc_item : forall n, n ∈ cf_nodes t -> en_id n = cf_item_node_id t -> en_dependencies n = []
}.

Lemma elem_of_dedup_from seen l x : x ∈ dedup_from seen l <-> x ∈ l /\ x ∉ seen.
Proof.
  revert seen. induction l as [|y l IH]; intros seen; simpl; [set_solver|].
  destruct (str_in y seen) eqn:Hy.
  - apply str_in_true in Hy. rewrite IH, elem_of_cons. split; [tauto|]. intros [[->|?] ?]; tauto.
  - apply not_true_iff_false in Hy. rewrite str_in_true in Hy. rewrite !elem_of_cons, IH, !elem_of_cons.
    destruct (decide (x = y)) as [->|]; tauto.
Qed.

Lemma elem_of_dedup l x : x ∈ dedup l <-> x ∈ l.
Proof. unfold dedup. rewrite elem_of_dedup_from. split; [tauto|]. intros H. split; [done | apply not_elem_of_nil]. Qed.

Lemma tc_flip {A} (R : A -> A -> Prop) x y : tc (fun a b => R b a) x y -> tc R y x.
Proof. induction 1 as [x y H|x y z H _ IH]; [by apply tc_once | eapply tc_r; eauto]. Qed.

(** *** The completion gate *)

Section Gate.
Context (t : CompiledForeach) (deps : list string) (ks : list Z) (k : Z).
Context (Hc : template_consistent t) (Hb : batch_shape t deps (instance_pairs t ks) b) (Hk : k ∈ ks).
Context (Hgraph : pp_dependency_graph P' = expanded_dependency_graph P b).
Context (Hacyc : forall n, ~ tc (plan_dep (sched_plan P')) n n).
Context (Hitem : cf_item_node_id t ∈ map en_id (cf_nodes t)).

Let R := plan_dep (sched_plan P').
Let gen n := generated_id t n k.
Let tids := map en_id (cf_nodes t).
Let g := xs_group_id (xb_state b).
Let item := cf_item_node_id t.

Definition core_instance : InstanceMapping := mkInstance t k (instance_ids t k) (gen item) (terminal_node_ids t) [].

Lemma core_instance_ok : instance_core t k core_instance.
Proof. done. Qed.

(** The copy of [y] depends on what its record lists. *)
Lemma copy_depends y d : y ∈ cf_nodes t -> d ∈ instance_dependencies core_instance y -> R d (gen (en_id y)).
Proof.
  intros Hy Hd. destruct (Forall2_elem_of_l _ _ _ (k, y) (bs_nodes _ _ _ _ Hb)) as (x & Hx & Hcx).
  { by apply elem_of_instance_pairs. }
  unfold R. apply sched_plan_dep. rewrite Hgraph. unfold expanded_dependency_graph. cbv zeta. rewrite !edge_dep_app. left. right.
  pose proof (co_id _ _ _ _ Hcx) as Hid. simpl in Hid. unfold gen. rewrite <- Hid. apply (bs_edges _ _ _ _ Hb); [done|].
  by rewrite (co_deps _ _ _ _ Hcx core_instance core_instance_ok).
Qed.

Lemma local_dependency y n : y ∈ cf_nodes t -> n ∈ tids -> n ∈ en_dependencies y -> R (gen n) (gen (en_id y)).
Proof.
  intros Hy Hn Hd. apply copy_depends; [done|]. unfold instance_dependencies. apply elem_of_dedup. cbn [im_template im_node_ids core_instance].
  rewrite bool_decide_eq_false_2 by (intros Hi; by rewrite (tc_item _ Hc y Hy Hi), elem_of_nil in Hd).
  assert (existsb (dmem (instance_ids t k)) (en_dependencies y) = true) as ->.
  { apply existsb_exists. exists n. split; [by apply list_elem_of_In|]. unfold dmem. by rewrite instance_ids_get, decide_True. }
  cbn [negb]. apply list_elem_of_fmap. exists n. split; [|done]. by rewrite instance_ids_get, decide_True.
Qed.

Lemma root_depends_on_item y :
  y ∈ cf_nodes t -> en_id y <> item -> (forall n, n ∈ tids -> n ∉ en_dependencies y) -> R (gen item) (gen (en_id y)).
Proof.
  intros Hy Hne Hroot. apply copy_depends; [done|]. unfold instance_dependencies. apply elem_of_dedup.
  cbn [im_template im_node_ids im_item_id core_instance]. rewrite bool_decide_eq_false_2 by done.
  assert (existsb (dmem (instance_ids t k)) (en_dependencies y) = false) as ->.
  { apply not_true_is_false. intros (n & Hn & Hm)%existsb_exists. apply list_elem_of_In in Hn. unfold dmem in Hm.
    rewrite instance_ids_get in Hm. case_decide as Hin; [|done]. by apply (Hroot n Hin). }
  cbn [negb]. apply elem_of_app. right. left.
Qed.

Lemma terminal_completes n : n ∈ tids -> n ∈ terminal_node_ids t -> R (gen n) g.
Proof.
  intros Hn Ht. unfold R. apply sched_plan_dep. rewrite Hgraph. apply gate_edge.
  apply list_elem_of_fmap in Hn as (y & -> & Hy). apply (bs_gate _ _ _ _ Hb k y); [by apply elem_of_instance_pairs | done].
Qed.

Lemma not_terminal n :
  n ∈ tids -> n ∉ terminal_node_ids t -> (exists y, y ∈ cf_nodes t /\ n ∈ en_dependencies y) \/
    (n = item /\ (1 < size (list_to_set tids : gset string))%nat).
Proof.
  intros Hn Ht. unfold terminal_node_ids in Ht. fold tids item in Ht.
  destruct (decide (n ∈ map de_source_node (cf_dependency_graph t))) as [Hs|Hs].
  - left. apply list_elem_of_fmap in Hs as (e & -> & He). destruct (tc_edges _ Hc e He Hn) as (y & Hy & _ & Hd). by exists y.
  - right. case_decide as Hsz; [|set_solver]. split; [|done]. destruct (decide (n = item)) as [|Hne]; [done|]. set_solver.
Qed.

(** Every copy but the item's reaches the group. *)
Lemma inner_reaches n : n ∈ tids -> n <> item -> tc R (gen n) g.
Proof.
  intros Hn Hne.
  destruct (acyclic_reaches (fun a b => R b a) (fun d => d = g)
    (map gen (List.filter (fun m => negb (bool_decide (m = item))) tids)) (gen n)) as (a & Ha & ->).
  - apply list_elem_of_fmap. exists n. split; [done|]. apply elem_of_filter_true. by rewrite bool_decide_eq_false_2.
  - intros x (m & -> & Hm)%list_elem_of_fmap. apply elem_of_filter_true in Hm as [Hm Hmi].
    apply negb_true_iff, bool_decide_eq_false in Hmi.
    destruct (decide (m ∈ terminal_node_ids t)) as [Ht|Ht]; [exists g; split; [by apply terminal_completes | by left]|].
    destruct (not_terminal m Hm Ht) as [(y & Hy & Hd)|[? _]]; [|done].
    exists (gen (en_id y)). split; [by apply local_dependency|]. right. apply list_elem_of_fmap. exists (en_id y).
    split; [done|]. apply elem_of_filter_true. split; [by apply list_elem_of_fmap; exists y|].
    rewrite bool_decide_eq_false_2; [done|]. intros Hi. by rewrite (tc_item _ Hc y Hy Hi), elem_of_nil in Hd.
  - intros x Hx. apply tc_flip in Hx. by apply (Hacyc x).
  - by apply tc_flip in Ha.
Qed.

(** The item reaches every other copy. *)
Lemma item_reaches n : n ∈ tids -> n <> item -> tc R (gen item) (gen n).
Proof.
  intros Hn Hne.
  destruct (acyclic_reaches R (fun d => d = gen item)
    (map gen (List.filter (fun m => negb (bool_decide (m = item))) tids)) (gen n)) as (a & Ha & ->); [| |done|done].
  - apply list_elem_of_fmap. exists n. split; [done|]. apply elem_of_filter_true. by rewrite bool_decide_eq_false_2.
  - intros x (m & -> & Hm)%list_elem_of_fmap. apply elem_of_filter_true in Hm as [Hm Hmi].
    apply negb_true_iff, bool_decide_eq_false in Hmi. apply list_elem_of_fmap in Hm as (y & -> & Hy).
    destruct (decide (Exists (fun d => d ∈ tids) (en_dependencies y))) as [Hex|Hex].
    + apply Exists_exists in Hex as (d & Hd & Hdt). exists (gen d). split; [by apply local_dependency|].
      destruct (decide (d = item)) as [->|Hdi]; [by left|]. right. apply list_elem_of_fmap. exists d. split; [done|].
      apply elem_of_filter_true. by rewrite bool_decide_eq_false_2.
    + exists (gen item). split; [|by left]. apply root_depends_on_item; [done..|]. intros d Hd Hdy. apply Hex, Exists_exists. eauto.
Qed.

Lemma copy_reaches n : n ∈ tids -> tc R (gen n) g.
Proof.
  intros Hn. destruct (decide (n = item)) as [->|Hne]; [|by apply inner_reaches].
  destruct (decide (Exists (fun m => m <> item) tids)) as [Hex|Hex].
  - apply Exists_exists in Hex as (m & Hm & Hmi). eapply tc_transitive; [by apply item_reaches | by apply inner_reaches].
  - assert (forall m, m ∈ tids -> m = item) as Hall.
    { intros m Hm. destruct (decide (m = item)); [done|]. exfalso. apply Hex, Exists_exists. eauto. }
    apply tc_once, terminal_completes; [done|]. destruct (decide (item ∈ terminal_node_ids t)) as [|Ht]; [done|]. exfalso.
    destruct (not_terminal item Hn Ht) as [(y & Hy & Hd)|[_ Hsz]].
    + assert (en_id y = item) as Hyi by (apply Hall, list_elem_of_fmap; by exists y).
      by rewrite (tc_item _ Hc y Hy Hyi), elem_of_nil in Hd.
    + assert ((list_to_set tids : gset string) = {[item]}) as Hs.
      { apply leibniz_equiv. intros m. rewrite elem_of_list_to_set, elem_of_singleton. split; [apply Hall | by intros ->]. }
      rewrite Hs, size_singleton in Hsz. lia.
Qed.

End Gate.

(** C24 (safety): The group of an expansion is a completion gate: in a validated expanded plan every generated
    node of every instance, the item input included, precedes the group through dependency edges, so the
    group can run only after all of them.
    Definitions: expanded_plan, concrete_batch, instance_dependencies, terminal_node_ids, append_artifact_edges, expanded_dependency_graph. *)
Theorem generated_nodes_precede_group :
  Forall template_consistent (pp_foreach_templates P) ->
  expanded_plan P b = Ok P' ->
  validate_execution_graph_semantics P' = Ok tt ->
  forall x, x ∈ xb_nodes b -> tc (plan_dep (sched_plan P')) (en_id x) (xs_group_id (xb_state b)).
Proof.
  intros Hf He Hv x Hx. destruct (validated_plan_facts P' Hv) as (Hok & _).
  destruct (expanded_plan_Ok P P' b He) as (_ & _ & Hgraph & _ & t & group & Ht & _ & _ & _ & Hb & Hitem).
  destruct (Forall2_elem_of_r _ _ _ _ (bs_nodes _ _ _ _ Hb) Hx) as ([k n] & Hkn & Hc).
  apply elem_of_instance_pairs in Hkn as [Hk Hn]. pose proof (co_id _ _ _ _ Hc) as Hid. simpl in Hid. rewrite Hid.
  eapply copy_reaches; [by eapply Forall_forall in Hf | exact Hb | exact Hk | done | apply Hok | | by apply list_elem_of_fmap; exists n].
  apply Hitem. intros Hnil. rewrite Hnil in Hk. simpl in Hk. by apply elem_of_nil in Hk.
Qed.

End Refinement.

(** ** An example: a group of two items whose child is one task *)

Definition fan_item : PreflightExecutionNode :=
  mkExecNode "fan.template.item" None None None None InputMode false [] None [] no_policy None
    (contract_named "fan.template.item") None true None None.

Definition fan_work : PreflightExecutionNode :=
  mkExecNode "fan.template.work" None None None None Sequential false ["fan.template.item"] (Some "fan.template.work")
    [mkProviderRecord "codex" EXECUTOR None None "codex" "codex" "cli" "sig" "sig"] no_policy None
    (contract_named "fan.template.work") None false None None.

Definition fan_template : CompiledForeach :=
  mkCompiledForeach "fan" "fan.template" "child" (inl [JObj [("n", JInt 1)]; JObj [("n", JInt 2)]]) 4 "fan.template.item"
    [] [] [] "digest" ["fan.template.item"; "fan.template.work"] [fan_item; fan_work]
    [mkRenderPlan "fan.template.work" (Some "fan.template.work") None None None None None None
       [mkStream EXECUTOR [mkFragment 0 runtime_locator_lookup SEG_SHARED None None None None None None
          (Some [("node_id", "fan.template.item"); ("artifact_name", "output")])]]] [] []
    [mkCompiledEdge "fan.template.item" "fan.template.work" (Some "output") "sig" (Some "fan.template.item.output")
       (Some "output") None].

Definition fan_group : PreflightExecutionNode :=
  mkExecNode "fan" None None None None Foreach false [] None [] no_policy None (contract_named "fan") None false None None.

Definition fan_plan : PreflightExecutionPlan :=
  mkPlanRecord "run" "demo" "sig" ["fan"] [] [fan_template] [fan_group] [] [] [] []
    [("schema_version", JStr "1.0"); ("execution", JObj [("max_expanded_nodes", JInt 10)])]
    [("payload_version", JStr "1")] [].

Definition fan_items : list json := [JObj [("n", JInt 1)]; JObj [("n", JInt 2)]].

Definition ok_or {A} (fallback : A) (o : outcome A) : A := match o with Ok a => a | _ => fallback end.

Definition fan_artifact : ExpansionArtifact := mkArtifact "" 0 "".

Definition fan_batch : ExpansionBatch :=
  ok_or (mkBatch (mkExpansionState "" "" "" "" fan_artifact [] []) [] [] [] [] [] [])
    (@instantiate_foreach constant_hash fan_plan fan_template fan_items []).

Definition fan_expanded : PreflightExecutionPlan := ok_or fan_plan (@expanded_plan constant_hash fan_plan fan_batch).

(** An instance, with two items. *)
Lemma expansion_ids_distinct_and_bounded_witness :
  NoDup (map en_id (xb_nodes fan_batch)) /\
  map en_id (xb_nodes fan_batch) = ["fan.i0.item"; "fan.i0.work"; "fan.i1.item"; "fan.i1.work"].
Proof.
  destruct (@expansion_ids_distinct_and_bounded constant_hash fan_plan fan_template fan_items [] fan_batch) as (H1 & H2 & _).
  - vm_compute. reflexivity.
  - apply (bool_decide_unpack _). vm_compute. exact I.
  - vm_compute. reflexivity.
  - split; [exact H2 | rewrite H1; vm_compute; reflexivity].
Defined.

(** Witness of C23. *)
Lemma expansion_refines_interface_witness :
  expansion_ok (sched_plan fan_plan) "fan" (sched_plan fan_expanded).
Proof.
  apply (@expansion_refines_interface constant_hash fan_plan fan_expanded fan_batch).
  - repeat constructor.
  - vm_compute. reflexivity.
  - vm_compute. reflexivity.
Defined.

Lemma fan_template_consistent : template_consistent fan_template.
Proof.
  constructor.
  - intros e He _. exists fan_work. apply list_elem_of_singleton in He as ->. split_and!; [right; left | done | left].
  - intros n [->|[->|[]%elem_of_nil]%elem_of_cons]%elem_of_cons Hi; [done | discriminate Hi].
Qed.

(** Witness of C24. *)
Lemma generated_nodes_precede_group_witness :
  xb_nodes fan_batch <> [] /\
  Forall (fun x => tc (plan_dep (sched_plan fan_expanded)) (en_id x) (xs_group_id (xb_state fan_batch))) (xb_nodes fan_batch).
Proof.
  split; [vm_compute; discriminate|]. apply Forall_forall.
  apply (@generated_nodes_precede_group constant_hash fan_plan fan_expanded fan_batch).
  - constructor; [exact fan_template_consistent | constructor].
  - vm_compute. reflexivity.
  - vm_compute. reflexivity.
Defined.
