(* ===== verification/ReviewCandidates.v ===== *)
(** Candidates of a review loop: the artifacts of a round and their validation,
    from runtime/execution/review_loop/{types,validation,candidate_identity,state}.py
    and artifacts/failure_artifacts.py.

    The patterns are deterministic matchers on ASCII text, so the typographic
    apostrophe of two of them is left out.  A path is its POSIX text. *)

From Stdlib Require Import ZArith Lia Ascii String.
From stdpp Require Import base gmap sets list strings sorting.
From S2P Require Import Prelude PyStr Models PlanRecords Reviews.

Open Scope string_scope.
Open Scope list_scope.
Open Scope Z_scope.

(** ** The artifacts of a round *)

(** A size in bytes and a SHA-256 digest. *)
Definition ContentSignature : Type := (Z * string)%type.

(** Code: runtime/execution/review_loop/candidate_identity.py, CandidateIdentity. *)
Record CandidateIdentity := mkIdentity {
  ci_kind : string;
  ci_fingerprint : option string;
  ci_source_fingerprint : option string;
  ci_reason : option string
}.

(** Code: runtime/execution/review_loop/types.py, ExecutorRoundArtifact. *)
Record ExecutorRoundArtifact := mkExecutorArtifact {
  ea_provider : ProviderRecord;
  ea_task_id : string;
  ea_content : string;
  ea_output_file : string;
  ea_audit_round_num : option Z;
  ea_round_num : Z;
  ea_output_signature : option ContentSignature;
  ea_candidate_identity : option CandidateIdentity;
  ea_producer_audit : option Z;
  ea_producer_round : option Z
}.

(** Code: runtime/execution/review_loop/types.py, ReviewerRoundArtifact. *)
Record ReviewerRoundArtifact := mkReviewerArtifact {
  ra_provider : ProviderRecord;
  ra_task_id : string;
  ra_evaluation : EvaluatedReviewResult;
  ra_output_file : string;
  ra_audit_round_num : option Z;
  ra_round_num : Z;
  ra_output_signature : option ContentSignature
}.

(** Code: runtime/execution/review_loop/types.py, CandidateValidationResult. *)
Record CandidateValidationResult := mkValidation {
  cv_valid : bool;
  cv_reason : option string;
  cv_invalid_task_ids : list string
}.

Definition INVALID_CANDIDATE_EMPTY : string := "invalid_candidate.empty".
Definition INVALID_CANDIDATE_REDIRECTED : string := "invalid_candidate.redirected".

(** ** Pattern matching *)

(** Replace the matches of a pattern by a space, from left to right.  A match
    is tried with the character before it and consumes at least one. *)
Fixpoint scrub (m : option ascii -> text -> option nat) (prev : option ascii) (skip : nat) (l : text) : text :=
  match l with
  | [] => []
  | c :: t =>
      match skip with
      | S k => scrub m (Some c) k t
      | O => match m prev l with
             | Some (S k) => ascii_of_N 32 :: scrub m (Some c) k t
             | _ => c :: scrub m (Some c) 0 t
             end
      end
  end.

Fixpoint search (m : option ascii -> text -> option nat) (prev : option ascii) (l : text) : bool :=
  bool_decide (is_Some (m prev l)) || match l with [] => false | c :: t => search m (Some c) t end.

(** No word character follows; [\b] after one. *)
Definition word_ends (l : text) : bool := match l with [] => true | c :: _ => negb (word_char c) end.

(** [_round\d+\.md\b]. *)
Definition round_suffix (l : text) : option nat :=
  if starts_with (lit "_round") l then
    let '(digits, rest) := span is_digit (drop 6 l) in
    if negb (bool_decide (digits = [])) && starts_with (lit ".md") rest && word_ends (drop 3 rest)
    then Some (6 + length digits + 3)%nat else None
  else None.

(** [[\w./-]+] followed by the suffix: the longest prefix that leaves one. *)
Fixpoint round_reference (taken : nat) (l : text) : option nat :=
  let here := if (taken =? 0)%nat then None else option_map (Nat.add taken) (round_suffix l) in
  match l with
  | [] => here
  | c :: t => if path_char c then match round_reference (S taken) t with Some n => Some n | None => here end else here
  end.

(** Code: runtime/execution/review_loop/validation.py, ROUND_ARTIFACT_REFERENCE_PATTERN. *)
Definition match_round_artifact_reference (prev : option ascii) (l : text) : option nat :=
  match (if prev then None else round_reference 0 l) with
  | Some n => Some n
  | None =>
      match l with
      | c :: t =>
          if is_char c "`" || is_char c "(" || is_char c "/" || is_char c "<" || is_space c
          then option_map S (round_reference 0 t) else None
      | [] => None
      end
  end.

(** Case-insensitive literal. *)
Definition literal (p : string) (l : text) : bool := starts_with (chars p) (map lower_char l).

(** The first alternative that matches; the flag asks for a word boundary after it. *)
Definition first_alternative (alternatives : list (string * bool)) (l : text) : option nat :=
  (fun '(p, _) => String.length p) <$>
  List.find (fun '(p, boundary) =>
    literal p l && (negb boundary || word_ends (drop (String.length p) l))) alternatives.

(** Code: runtime/execution/review_loop/validation.py, REDIRECT_SIGNAL_PATTERN. *)
Definition match_redirect_signal (prev : option ascii) (l : text) : option nat :=
  if match prev with Some c => word_char c | None => false end then None
  else first_alternative (map (fun p => (p, true))
    ["updated"; "update"; "updating"; "see"; "referring"; "refer"; "checking"; "last pass"; "in place";
     "changes are in"; "change are in"; "prior design"; "current repo shape"; "progress update";
     "applied"; "implemented"; "fixed"]) l.

(** Code: runtime/execution/review_loop/validation.py, REDIRECT_LEADING_PHRASE_PATTERN. *)
Definition match_redirect_leading_phrase (prev : option ascii) (l : text) : option nat :=
  if prev then None
  else first_alternative
    [("i've", false); ("ive", false); ("i have", false); ("updated", true); ("update", true); ("see", true);
     ("referring", true); ("refer", true); ("checked", true); ("checking", true); ("check", true);
     ("the design update", false); ("i'm", false); ("im", false); ("i am", false);
     ("the current repo shape", false); ("changes are in", true); ("change are in", true);
     ("progress update", true)] l.

Definition STATUS_ONLY_PHRASES : list string :=
  ["done"; "ready for review";
   "no further action"; "no further action needed"; "no further actionrequired";
   "no further changes"; "no further changes needed"; "no further changesrequired";
   "change applied"; "change complete"; "change completed";
   "changes applied"; "changes complete"; "changes completed";
   "completed"; "fixed"; "implemented"; "addressed"].

(** Code: runtime/execution/review_loop/validation.py, STATUS_ONLY_PARAGRAPH_PATTERN. *)
Definition status_only_fullmatch (s : string) : bool :=
  let s := str_lower s in
  str_in s STATUS_ONLY_PHRASES || existsb (fun p => bool_decide (s = p +:+ ".")) STATUS_ONLY_PHRASES.

(** ** Classification of an executor's output *)

(** Code: runtime/execution/review_loop/validation.py, _split_candidate_paragraphs. *)
Definition split_candidate_paragraphs (content : string) : list string :=
  let '(paragraphs, current) :=
    foldl (fun '(paragraphs, current) raw_line =>
      let line := str_strip raw_line in
      if nonempty line then (paragraphs, current ++ [line])
      else match current with
           | [] => (paragraphs, [])
           | _ => (paragraphs ++ [str_join " " current], [])
           end) ([], []) (str_splitlines content) in
  match current with [] => paragraphs | _ => paragraphs ++ [str_join " " current] end.

(** Code: runtime/execution/review_loop/validation.py, _looks_like_substantive_candidate_paragraph. *)
Definition looks_like_substantive_candidate_paragraph (paragraph : string) : bool :=
  let scrubbed := scrub match_round_artifact_reference None 0 (chars paragraph) in
  let scrubbed := scrub match_redirect_leading_phrase None 0 scrubbed in
  let scrubbed := scrub match_redirect_signal None 0 scrubbed in
  let tokens := List.filter (fun token => 4 <=? Z.of_nat (length token)) (alnum_runs [] (map lower_char scrubbed)) in
  (50 <=? Z.of_nat (length (strip_text scrubbed))) && (6 <=? Z.of_nat (length tokens)).

(** Code: runtime/execution/review_loop/validation.py, _looks_like_redirect_paragraph. *)
Definition looks_like_redirect_paragraph (paragraph : string) : bool :=
  if 240 <? Z.of_nat (String.length paragraph) then false
  else if negb (search match_round_artifact_reference None (chars paragraph)) then false
  else
    let normalized := str_lower (str_strip paragraph) in
    search match_redirect_signal None (chars paragraph)
    || search match_redirect_leading_phrase None (chars paragraph)
    || existsb (fun p => str_startswith p normalized) ["see "; "refer "; "check "; "updated "].

(** Code: runtime/execution/review_loop/validation.py, _looks_like_status_only_paragraph. *)
Definition looks_like_status_only_paragraph (paragraph : string) : bool :=
  if 80 <? Z.of_nat (String.length paragraph) then false
  else status_only_fullmatch (str_strip paragraph).

(** Code: runtime/execution/review_loop/validation.py, _looks_like_redirected_candidate. *)
Definition looks_like_redirected_candidate (content : string) : bool :=
  let stripped := str_strip content in
  if (4000 <? Z.of_nat (String.length stripped)) || str_contains "```" stripped then false
  else if existsb (fun line => starts_with (chars "#") (drop_while is_space (chars line))) (str_splitlines stripped)
  then false
  else
    let paragraphs := split_candidate_paragraphs stripped in
    if bool_decide (paragraphs = []) then false
    else if existsb looks_like_substantive_candidate_paragraph paragraphs then false
    else if negb (existsb looks_like_redirect_paragraph paragraphs) then false
    else forallb (fun p => looks_like_redirect_paragraph p || looks_like_status_only_paragraph p) paragraphs.

(** Code: artifacts/failure_artifacts.py, SYNTHETIC_INVOCATION_FAILURE_MARKER. *)
Definition SYNTHETIC_INVOCATION_FAILURE_MARKER : string := "<!-- crewplane:invocation_failed -->".

(** Code: artifacts/failure_artifacts.py, is_synthetic_invocation_failure. *)
Definition is_synthetic_invocation_failure (content : string) : bool :=
  starts_with (chars SYNTHETIC_INVOCATION_FAILURE_MARKER) (drop_while is_space (chars content)).

(** Code: runtime/execution/review_loop/validation.py, classify_executor_output. *)
Definition classify_executor_output (content : string) : option string :=
  if negb (not_blank content) || is_synthetic_invocation_failure content then Some INVALID_CANDIDATE_EMPTY
  else if looks_like_redirected_candidate content then Some INVALID_CANDIDATE_REDIRECTED
  else None.

(** The reasons found so far, each with its tasks. *)
Definition record_invalid (reasons : dict (list string)) (artifact : ExecutorRoundArtifact) : dict (list string) :=
  match classify_executor_output (ea_content artifact) with
  | None => reasons
  | Some reason => dset reasons reason (default [] (dget reasons reason) ++ [ea_task_id artifact])
  end.

(** Code: runtime/execution/review_loop/validation.py, validate_executor_outputs. *)
Definition validate_executor_outputs (executor_outputs : list ExecutorRoundArtifact) : CandidateValidationResult :=
  let invalid_reasons := foldl record_invalid [] executor_outputs in
  match sorted_str (dkeys invalid_reasons) with
  | [] => mkValidation true None []
  | reason :: _ => mkValidation false (Some reason) (sorted_str (default [] (dget invalid_reasons reason)))
  end.

(** ** Fingerprints *)

(** [json.dumps] with sorted keys and the default separators. *)
Fixpoint json_dumps (v : json) : string :=
  match v with
  | JNull => "null"
  | JBool true => "true"
  | JBool false => "false"
  | JInt z => str_int z
  | JFloat repr => repr
  | JStr s => json_string s
  | JList l => "[" +:+ str_join ", " (map json_dumps l) +:+ "]"
  | JObj f => "{" +:+ str_join ", " (map (fun '(k, text) => json_string k +:+ ": " +:+ text)
                 (sort_members (map (fun '(k, v) => (k, json_dumps v)) f))) +:+ "}"
  end.

Section Fingerprints.
Context {hash : HashLibrary}.

(** Code: runtime/execution/review_loop/candidate_identity.py, content_fingerprint. *)
Definition content_fingerprint (value : json) : string := sha256 (json_dumps value).

(** What identifies an output; [None] when its identity is unverified. *)
Definition output_identity (artifact : ExecutorRoundArtifact) : option json :=
  match ea_candidate_identity artifact with
  | None => Some (JList [JStr (ea_task_id artifact); JStr (ea_content artifact)])
  | Some identity =>
      match ci_fingerprint identity with
      | None => None
      | Some fingerprint => Some (JList [JStr (ea_task_id artifact); JStr fingerprint])
      end
  end.

(** Code: runtime/execution/review_loop/validation.py, build_executor_output_fingerprint. *)
Definition build_executor_output_fingerprint (executor_outputs : list ExecutorRoundArtifact) : option string :=
  (fun identities => content_fingerprint (JList identities)) <$> mapM output_identity executor_outputs.

End Fingerprints.

(** Code: runtime/execution/review_loop/validation.py, collect_unresolved_fingerprints. *)
Definition collect_unresolved_fingerprints (reviewer_outputs : list ReviewerRoundArtifact) : list string :=
  sorted_set (concat (map (fun artifact => unresolved_fingerprints (ra_evaluation artifact)) reviewer_outputs)).

(** Code: runtime/execution/review_loop/validation.py, count_unresolved_review_issues. *)
Definition count_unresolved_review_issues (reviewer_outputs : list ReviewerRoundArtifact) : Z :=
  foldr (fun artifact total => unresolved_issue_count (ra_evaluation artifact) + total) 0 reviewer_outputs.

(** ** The packet of unresolved feedback *)

(** Code: runtime/execution/review_loop/state.py, _has_unresolved_review_issues. *)
Definition has_unresolved_review_issues (evaluation : EvaluatedReviewResult) : bool :=
  negb (bool_decide (ev_major evaluation = REQUIRED_EMPTY_SENTINEL))
  || negb (bool_decide (ev_minor evaluation = REQUIRED_EMPTY_SENTINEL)).

(** Code: runtime/execution/review_loop/state.py, _has_feedback_for_executor. *)
Definition has_feedback_for_executor (evaluation : EvaluatedReviewResult) : bool :=
  has_unresolved_review_issues evaluation || bool_decide (unstructured_feedback evaluation <> None).

(** [Path.name] of a normalized path. *)
Definition file_name (path : string) : string :=
  of_chars (reverse (fst (span (fun c => negb (is_char c "/")) (reverse (chars path))))).

(** The sections one reviewer contributes. *)
Definition review_packet_sections (artifact : ReviewerRoundArtifact) : list string :=
  let evaluation := ra_evaluation artifact in
  if negb (has_feedback_for_executor evaluation) then []
  else
    ["### " +:+ pr_provider (ra_provider artifact) +:+ " reviewer (" +:+ ra_task_id artifact +:+ ")";
     "Source artifact: " +:+ file_name (ra_output_file artifact); ""]
    ++ (if bool_decide (ev_major evaluation = REQUIRED_EMPTY_SENTINEL) then []
        else ["#### Major Issues"; ev_major evaluation; ""])
    ++ (if bool_decide (ev_minor evaluation = REQUIRED_EMPTY_SENTINEL) then []
        else ["#### Minor Issues"; ev_minor evaluation; ""])
    ++ match unstructured_feedback evaluation with
       | None => []
       | Some feedback =>
           ["#### Unstructured Feedback";
            "The runtime could not normalize this reviewer response into Major Issues, Minor Issues, or Nitpicks. "
            +:+ "Treat this as raw reviewer feedback, not as normalized candidate findings.";
            ""; feedback; ""]
       end.

(** Code: runtime/execution/review_loop/state.py, render_unresolved_review_packet. *)
Definition render_unresolved_review_packet (reviewer_outputs : list ReviewerRoundArtifact) : option string :=
  match concat (map review_packet_sections reviewer_outputs) with
  | [] => None
  | sections => Some (str_strip (str_join lf_str (["## Reviewer Feedback"; ""] ++ sections)))
  end.

(** The lines of an executor's output in the inbox. *)
Definition inbox_output_lines (previous_output_by_task : dict ExecutorRoundArtifact) (artifact : ExecutorRoundArtifact)
    : list string :=
  ["### " +:+ ea_task_id artifact; "- current-output: " +:+ ea_output_file artifact]
  ++ match dget previous_output_by_task (ea_task_id artifact) with
     | Some previous => ["- previous-output: " +:+ ea_output_file previous]
     | None => []
     end ++ [""].

(** Code: runtime/execution/review_loop/state.py, render_review_inbox. *)
Definition render_review_inbox (node_id : string) (audit_round_num : option Z) (round_num : Z)
    (executor_outputs : list ExecutorRoundArtifact) (previous_executor_outputs : option (list ExecutorRoundArtifact))
    (reviewer_outputs : list ReviewerRoundArtifact) : option string :=
  match render_unresolved_review_packet reviewer_outputs with
  | None => None
  | Some packet =>
      let previous_output_by_task :=
        dict_of (map (fun a => (ea_task_id a, a)) (default [] previous_executor_outputs)) in
      let heading :=
        match audit_round_num with
        | None => "# Review Inbox: " +:+ node_id +:+ " round " +:+ str_int round_num
        | Some audit => "# Review Inbox: " +:+ node_id +:+ " audit round " +:+ str_int audit
                        +:+ " local round " +:+ str_int round_num
        end in
      Some (str_join lf_str
        ([heading; ""; packet; ""; "## Executor Context"; ""]
         ++ concat (map (inbox_output_lines previous_output_by_task) executor_outputs)
         ++ ["## Round Goal";
             "Address unresolved major and minor issues. Nitpicks are optional "
             +:+ "unless they hide a correctness problem."]))
  end.

(** ** Theorems *)

Lemma packet_none reviewer_outputs :
  render_unresolved_review_packet reviewer_outputs = None <->
  Forall (fun a => has_feedback_for_executor (ra_evaluation a) = false) reviewer_outputs.
Proof.
  unfold render_unresolved_review_packet. induction reviewer_outputs as [|a l IH]; simpl; [done|].
  unfold review_packet_sections at 1. destruct (has_feedback_for_executor _) eqn:E; simpl.
  - split; [done|]. intros H. inversion H. congruence.
  - rewrite IH. split; [by constructor | by inversion 1].
Qed.

Definition invalid_of (outputs : list ExecutorRoundArtifact) (reason : string) : list string :=
  map ea_task_id (List.filter (fun a => bool_decide (classify_executor_output (ea_content a) = Some reason)) outputs).

Lemma record_invalid_spec outputs : forall reasons reason,
  default [] (dget (foldl record_invalid reasons outputs) reason) =
  default [] (dget reasons reason) ++ invalid_of outputs reason.
Proof.
  induction outputs as [|a outputs IH]; intros reasons reason; simpl; [by rewrite app_nil_r|].
  rewrite IH. unfold record_invalid, invalid_of. simpl.
  destruct (classify_executor_output (ea_content a)) as [r|]; [|done].
  rewrite dget_dset. destruct (decide (r = reason)) as [->|Hne]; simpl.
  - rewrite bool_decide_true by done. simpl. by rewrite <- app_assoc.
  - rewrite bool_decide_false by congruence. done.
Qed.

Lemma record_invalid_keys outputs : forall reasons,
  NoDup (dkeys reasons) -> Forall (fun r => r = INVALID_CANDIDATE_EMPTY \/ r = INVALID_CANDIDATE_REDIRECTED) (dkeys reasons) ->
  NoDup (dkeys (foldl record_invalid reasons outputs)) /\
  Forall (fun r => r = INVALID_CANDIDATE_EMPTY \/ r = INVALID_CANDIDATE_REDIRECTED) (dkeys (foldl record_invalid reasons outputs)) /\
  forall r, r ∈ dkeys (foldl record_invalid reasons outputs) <-> r ∈ dkeys reasons \/ invalid_of outputs r <> [].
Proof.
  induction outputs as [|a outputs IH]; intros reasons Hnd Hf; simpl; [naive_solver|].
  assert (NoDup (dkeys (record_invalid reasons a)) /\
    Forall (fun r => r = INVALID_CANDIDATE_EMPTY \/ r = INVALID_CANDIDATE_REDIRECTED) (dkeys (record_invalid reasons a)) /\
    forall r, r ∈ dkeys (record_invalid reasons a) <-> r ∈ dkeys reasons \/ classify_executor_output (ea_content a) = Some r)
    as (Hnd' & Hf' & Hk).
  { unfold record_invalid. destruct (classify_executor_output (ea_content a)) as [r|] eqn:E; [|naive_solver].
    split_and!; [by apply NoDup_dkeys_dset| |].
    - apply Forall_forall. intros x Hx. apply elem_of_dkeys_dset in Hx as [->|Hx]; [|by eapply Forall_forall in Hf].
      unfold classify_executor_output in E. repeat case_match; naive_solver.
    - intros x. rewrite elem_of_dkeys_dset. naive_solver. }
  destruct (IH _ Hnd' Hf') as (H1 & H2 & H3). split_and!; [done|done|]. intros r. rewrite H3, Hk.
  unfold invalid_of. simpl. case_bool_decide; simpl; naive_solver.
Qed.

Lemma reasons_sorted l :
  NoDup l -> Forall (fun r => r = INVALID_CANDIDATE_EMPTY \/ r = INVALID_CANDIDATE_REDIRECTED) l ->
  sorted_str l =
    (if decide (INVALID_CANDIDATE_EMPTY ∈ l) then INVALID_CANDIDATE_EMPTY :: (if decide (INVALID_CANDIDATE_REDIRECTED ∈ l) then [INVALID_CANDIDATE_REDIRECTED] else [])
     else if decide (INVALID_CANDIDATE_REDIRECTED ∈ l) then [INVALID_CANDIDATE_REDIRECTED] else []).
Proof.
  intros Hnd Hf. destruct l as [|a [|b [|c l]]].
  - vm_compute. reflexivity.
  - inversion Hf as [|? ? [-> | ->] _]; vm_compute; reflexivity.
  - apply NoDup_cons in Hnd as [Hab _]. inversion Hf as [|? ? Ha Hf']. inversion Hf' as [|? ? Hb _]. subst.
    destruct Ha as [-> | ->], Hb as [-> | ->]; try (exfalso; apply Hab; left); vm_compute; reflexivity.
  - exfalso. apply NoDup_cons in Hnd as [Ha Hnd]. apply NoDup_cons in Hnd as [Hb _].
    rewrite !Forall_cons in Hf. destruct Hf as (Ea & Eb & Ec & _).
    rewrite !elem_of_cons in Ha, Hb. destruct Ea as [-> | ->], Eb as [-> | ->], Ec as [-> | ->];
      first [apply Ha; by auto using list_elem_of_here | apply Hb; by auto using list_elem_of_here].
Qed.

Lemma invalid_of_nil outputs :
  invalid_of outputs INVALID_CANDIDATE_EMPTY = [] /\ invalid_of outputs INVALID_CANDIDATE_REDIRECTED = [] <->
  Forall (fun a => classify_executor_output (ea_content a) = None) outputs.
Proof.
  induction outputs as [|a l IH]; [done|]. rewrite Forall_cons, <- IH. unfold invalid_of. simpl.
  assert (classify_executor_output (ea_content a) = None \/ classify_executor_output (ea_content a) = Some INVALID_CANDIDATE_EMPTY
    \/ classify_executor_output (ea_content a) = Some INVALID_CANDIDATE_REDIRECTED) as [-> |[-> | ->]]
    by (unfold classify_executor_output; repeat case_match; auto); repeat case_bool_decide; simpl; naive_solver.
Qed.

(** What the validation returns. *)
Lemma validate_executor_outputs_eq (outputs : list ExecutorRoundArtifact) :
  validate_executor_outputs outputs =
    (if decide (invalid_of outputs INVALID_CANDIDATE_EMPTY = []) then
       if decide (invalid_of outputs INVALID_CANDIDATE_REDIRECTED = []) then mkValidation true None []
       else mkValidation false (Some INVALID_CANDIDATE_REDIRECTED)
              (sorted_str (invalid_of outputs INVALID_CANDIDATE_REDIRECTED))
     else mkValidation false (Some INVALID_CANDIDATE_EMPTY) (sorted_str (invalid_of outputs INVALID_CANDIDATE_EMPTY))).
Proof.
  destruct (record_invalid_keys outputs [] (NoDup_nil_2) (Forall_nil_2 _)) as (Hnd & Hf & Hk).
  pose proof (record_invalid_spec outputs []) as Hv. unfold validate_executor_outputs. cbv zeta.
  rewrite (reasons_sorted _ Hnd Hf). generalize dependent (foldl record_invalid [] outputs). intros d Hnd Hf Hk Hv.
  assert (forall r, r ∈ dkeys d <-> invalid_of outputs r <> []) as Hk' by (intros r; rewrite Hk; simpl; set_solver).
  clear Hk. repeat case_decide; rewrite Hk' in *; try done; by rewrite Hv.
Qed.

Lemma outputs_valid (outputs : list ExecutorRoundArtifact) :
  cv_valid (validate_executor_outputs outputs) = true <->
  Forall (fun a => classify_executor_output (ea_content a) = None) outputs.
Proof. rewrite validate_executor_outputs_eq, <- invalid_of_nil. repeat case_decide; simpl; naive_solver. Qed.

(** The word "required" is only recognised without the blank that separates it. *)
Example required_without_blank :
  looks_like_status_only_paragraph "No further action needed." = true /\
  looks_like_status_only_paragraph "No further action required." = false /\
  looks_like_status_only_paragraph "No further actionrequired." = true.
Proof. vm_compute. done. Qed.

(** A candidate set is valid exactly when every output of it is; otherwise it is rejected as
    empty when some output is blank or a synthetic failure report, and as redirected only when no output
    is empty, and the rejection names, sorted, exactly the tasks whose outputs have that defect. *)
Theorem candidate_rejection_names_all_offenders (outputs : list ExecutorRoundArtifact) :
  validate_executor_outputs outputs =
    (if decide (invalid_of outputs INVALID_CANDIDATE_EMPTY = []) then
       if decide (invalid_of outputs INVALID_CANDIDATE_REDIRECTED = []) then mkValidation true None []
       else mkValidation false (Some INVALID_CANDIDATE_REDIRECTED)
              (sorted_str (invalid_of outputs INVALID_CANDIDATE_REDIRECTED))
     else mkValidation false (Some INVALID_CANDIDATE_EMPTY) (sorted_str (invalid_of outputs INVALID_CANDIDATE_EMPTY))) /\
  (cv_valid (validate_executor_outputs outputs) = true <->
     Forall (fun a => classify_executor_output (ea_content a) = None) outputs).
Proof. split; [apply validate_executor_outputs_eq | apply outputs_valid]. Qed.

(** ** What an accepted output looks like *)

(** Some character is not white space. *)
Definition visible (content : string) : Prop := exists c, c ∈ chars content /\ is_space c = false.

(** The report written in place of the output of a failed invocation. *)
Definition failure_report (content : string) : Prop :=
  exists blanks rest, Forall (fun c => is_space c = true) blanks /\
    chars content = blanks ++ chars SYNTHETIC_INVOCATION_FAILURE_MARKER ++ rest.

(** A short text without headings and code fences that only points elsewhere: some
    paragraph is a redirect, the others are redirects or status lines, none has substance. *)
Definition redirects_only (content : string) : Prop :=
  let text := str_strip content in
  Z.of_nat (String.length text) <= 4000 /\ str_contains "```" text = false /\
  (forall line rest, line ∈ str_splitlines text -> drop_while is_space (chars line) <> "#"%char :: rest) /\
  (exists p, p ∈ split_candidate_paragraphs text /\ looks_like_redirect_paragraph p = true) /\
  (forall p, p ∈ split_candidate_paragraphs text ->
    looks_like_substantive_candidate_paragraph p = false /\
    (looks_like_redirect_paragraph p = true \/ looks_like_status_only_paragraph p = true)).

Definition presentable (content : string) : Prop :=
  visible content /\ ~ failure_report content /\ ~ redirects_only content.

Lemma not_blank_visible content : not_blank content = true -> visible content.
Proof.
  unfold not_blank, str_strip, strip_text. intros H. destruct (drop_while is_space (chars content)) as [|c t] eqn:E; [done|].
  exists c. split; [|by eapply drop_while_head]. destruct (drop_while_suffix is_space (chars content)) as (pre & Hp & _).
  rewrite Hp, E. apply elem_of_app. right. left.
Qed.

Lemma failure_report_synthetic content : failure_report content -> is_synthetic_invocation_failure content = true.
Proof.
  intros (blanks & rest & Hb & Hc). unfold is_synthetic_invocation_failure. rewrite Hc. apply starts_with_spec. exists rest.
  clear Hc. induction Hb as [|c blanks Hc _ IH]; [done|]. simpl. by rewrite Hc.
Qed.

Lemma redirects_only_redirected content : redirects_only content -> looks_like_redirected_candidate content = true.
Proof.
  intros (Hlen & Hfence & Hhead & (q & Hq & Hqr) & Hall). unfold looks_like_redirected_candidate. cbv zeta.
  rewrite (proj2 (Z.ltb_ge _ _) Hlen), Hfence. simpl.
  destruct (existsb _ (str_splitlines _)) eqn:E1.
  { exfalso. apply existsb_exists in E1 as (line & Hin & Hs).
    destruct (drop_while is_space (chars line)) as [|b rest] eqn:Ed; [done|]. destruct (decide ("#"%char = b)) as [<-|]; [|done].
    eapply Hhead; [by apply list_elem_of_In | exact Ed]. }
  rewrite bool_decide_eq_false_2 by (intros E; rewrite E in Hq; by apply elem_of_nil in Hq).
  destruct (existsb looks_like_substantive_candidate_paragraph _) eqn:E2.
  { exfalso. apply existsb_exists in E2 as (p & Hin%list_elem_of_In & Hs). apply Hall in Hin as [? _]. congruence. }
  rewrite (proj2 (existsb_exists _ _)); [|exists q; split; [by apply list_elem_of_In | done]]. simpl.
  apply forallb_forall. intros p Hin%list_elem_of_In. apply Hall in Hin as [_ H]. by apply orb_true_iff.
Qed.

Lemma accepted_presentable content : classify_executor_output content = None -> presentable content.
Proof.
  unfold classify_executor_output. intros H. destruct (negb (not_blank content) || _) eqn:E1; [done|].
  apply orb_false_iff in E1 as [Hb%negb_false_iff Hf]. destruct (looks_like_redirected_candidate content) eqn:E2; [done|].
  split_and!; [by apply not_blank_visible | intros HH%failure_report_synthetic; congruence | intros HH%redirects_only_redirected; congruence].
Qed.
