(* ===== verification/ReviewLoopState.v ===== *)
(** The state of a review loop: runtime/execution/review_loop/{types,stall,state}.py.

    The active audit's stall state is the loop's own object in the code, so it
    is stored once, in the loop's progress.  Mutations are functions on the
    records; what a status file holds is [build_review_loop_status_payload]. *)

From Stdlib Require Import ZArith Lia Ascii String.
From stdpp Require Import base gmap sets list strings.
From S2P Require Import Prelude PyStr Models PlanRecords Reviews ReviewCandidates StateExn.

Open Scope string_scope.
Open Scope list_scope.
Open Scope Z_scope.

(** Code: core/review_contract.py, ReviewLoopStopReason. *)
Inductive ReviewLoopStopReason : Type :=
| CONSENSUS | CONSENSUS_EXHAUSTED | NO_PROGRESS | NO_VALID_CANDIDATE | CANCELLED | FAILED.

#[global] Instance ReviewLoopStopReason_eq_dec : EqDecision ReviewLoopStopReason.
Proof. solve_decision. Defined.

(** Code: core/review_checkpoint_state.py, CheckpointPhase. *)
Inductive CheckpointPhase : Type := PhaseExecutors | PhaseReviewers | PhaseFinalize.

#[global] Instance CheckpointPhase_eq_dec : EqDecision CheckpointPhase.
Proof. solve_decision. Defined.

(** Code: core/review_checkpoint_state.py, CheckpointReviewerFailure. *)
Record CheckpointReviewerFailure := mkReviewerFailure {
  rf_task_id : string;
  rf_role : ProviderRole;
  rf_audit : Z;
  rf_local_round : Z;
  rf_failure_kind : string;
  rf_warning : string
}.

(** ** The stall detector *)

Definition MAX_CONSECUTIVE_NO_PROGRESS_ROUNDS : Z := 2.

Definition Feedback : Type := (string * string * string * option string)%type.

(** Code: runtime/execution/review_loop/stall.py, ReviewStallState. *)
Record ReviewStallState := mkStall {
  consecutive_round_count : Z;
  candidate_fingerprint : option string;
  review_feedback : list Feedback
}.

Definition fresh_stall : ReviewStallState := mkStall 0 None [].

Definition feedback_of (review : ReviewerRoundArtifact) : Feedback :=
  let e := ra_evaluation review in (ra_task_id review, ev_major e, ev_minor e, unstructured_feedback e).

(** Code: runtime/execution/review_loop/stall.py, ReviewStallState.observe_review. *)
Definition observe_review (fingerprint : option string) (reviews : list ReviewerRoundArtifact)
    (s : ReviewStallState) : ReviewStallState :=
  let feedback := map feedback_of reviews in
  mkStall
    (if bool_decide (fingerprint = None) || negb (bool_decide (fingerprint = candidate_fingerprint s))
        || negb (bool_decide (feedback = review_feedback s)) then 0 else consecutive_round_count s)
    fingerprint feedback.

(** Code: runtime/execution/review_loop/stall.py, ReviewStallState.record_unchanged_attempt. *)
Definition record_unchanged_attempt (s : ReviewStallState) : bool * ReviewStallState :=
  let count := consecutive_round_count s + 1 in
  (MAX_CONSECUTIVE_NO_PROGRESS_ROUNDS <=? count, mkStall count (candidate_fingerprint s) (review_feedback s)).

Definition reset_stall_count (s : ReviewStallState) : ReviewStallState :=
  mkStall 0 (candidate_fingerprint s) (review_feedback s).

(** ** Results of rounds and audits *)

(** Code: runtime/execution/review_loop/types.py, ExecutorRoundRunResult. *)
Record ExecutorRoundRunResult := mkExecutorRun { xo_outputs : list ExecutorRoundArtifact; xo_drift_warning_count : Z }.

(** Code: runtime/execution/review_loop/types.py, ReviewerRoundRunResult. *)
Record ReviewerRoundRunResult := mkReviewerRun {
  ro_outputs : list ReviewerRoundArtifact;
  ro_drift_warning_count : Z;
  ro_reviewer_failure_count : Z;
  ro_failures : list CheckpointReviewerFailure
}.

(** Code: runtime/execution/review_loop/types.py, AuditRoundResult. *)
Record AuditRoundResult := mkAuditResult {
  ar_consensus_reached : bool;
  ar_clean_fresh_approval : bool;
  ar_latest_executor_outputs : option (list ExecutorRoundArtifact);
  ar_latest_reviewer_outputs : list ReviewerRoundArtifact;
  ar_invalid_candidate_round_count : Z;
  ar_no_progress_round_count : Z;
  ar_artifact_drift_warning_count : Z;
  ar_last_round_num : Z;
  ar_selected_round_num : Z;
  ar_stop_reason : option ReviewLoopStopReason;
  ar_reviewer_failures : list CheckpointReviewerFailure
}.

(** Code: runtime/execution/review_loop/types.py, ReviewRoundState. *)
Record ReviewRoundState := mkRoundState {
  rs_reviewer_outputs : list ReviewerRoundArtifact;
  rs_reviewer_failure_count : Z;
  rs_current_review_packet : option string;
  rs_current_unresolved_fingerprints : list string;
  rs_current_executor_fingerprint : option string
}.

(** ** The progress of one audit *)

(** Code: runtime/execution/review_loop/types.py, AuditRoundProgress. *)
Record AuditRoundProgress := mkAudit {
  ap_executor_outputs : list ExecutorRoundArtifact;
  ap_previous_executor_outputs : option (list ExecutorRoundArtifact);
  ap_previous_review_packet : option string;
  ap_previous_unresolved_fingerprints : list string;
  ap_previous_executor_fingerprint : option string;
  ap_latest_valid_executor_outputs : option (list ExecutorRoundArtifact);
  ap_latest_reviewer_outputs : list ReviewerRoundArtifact;
  ap_invalid_candidate_round_count : Z;
  ap_no_progress_round_count : Z;
  ap_artifact_drift_warning_count : Z;
  ap_last_round_num : Z;
  ap_selected_round_num : Z;
  ap_stop_reason : option ReviewLoopStopReason;
  ap_reviewer_failures : list CheckpointReviewerFailure
}.

Definition set_ap_executor_outputs (v : list ExecutorRoundArtifact) (r : AuditRoundProgress) : AuditRoundProgress :=
  mkAudit v (ap_previous_executor_outputs r) (ap_previous_review_packet r) (ap_previous_unresolved_fingerprints r) (ap_previous_executor_fingerprint r) (ap_latest_valid_executor_outputs r) (ap_latest_reviewer_outputs r) (ap_invalid_candidate_round_count r) (ap_no_progress_round_count r) (ap_artifact_drift_warning_count r) (ap_last_round_num r) (ap_selected_round_num r) (ap_stop_reason r) (ap_reviewer_failures r).
Definition set_ap_previous_executor_outputs (v : option (list ExecutorRoundArtifact)) (r : AuditRoundProgress) : AuditRoundProgress :=
  mkAudit (ap_executor_outputs r) v (ap_previous_review_packet r) (ap_previous_unresolved_fingerprints r) (ap_previous_executor_fingerprint r) (ap_latest_valid_executor_outputs r) (ap_latest_reviewer_outputs r) (ap_invalid_candidate_round_count r) (ap_no_progress_round_count r) (ap_artifact_drift_warning_count r) (ap_last_round_num r) (ap_selected_round_num r) (ap_stop_reason r) (ap_reviewer_failures r).
Definition set_ap_previous_review_packet (v : option string) (r : AuditRoundProgress) : AuditRoundProgress :=
  mkAudit (ap_executor_outputs r) (ap_previous_executor_outputs r) v (ap_previous_unresolved_fingerprints r) (ap_previous_executor_fingerprint r) (ap_latest_valid_executor_outputs r) (ap_latest_reviewer_outputs r) (ap_invalid_candidate_round_count r) (ap_no_progress_round_count r) (ap_artifact_drift_warning_count r) (ap_last_round_num r) (ap_selected_round_num r) (ap_stop_reason r) (ap_reviewer_failures r).
Definition set_ap_previous_unresolved_fingerprints (v : list string) (r : AuditRoundProgress) : AuditRoundProgress :=
  mkAudit (ap_executor_outputs r) (ap_previous_executor_outputs r) (ap_previous_review_packet r) v (ap_previous_executor_fingerprint r) (ap_latest_valid_executor_outputs r) (ap_latest_reviewer_outputs r) (ap_invalid_candidate_round_count r) (ap_no_progress_round_count r) (ap_artifact_drift_warning_count r) (ap_last_round_num r) (ap_selected_round_num r) (ap_stop_reason r) (ap_reviewer_failures r).
Definition set_ap_previous_executor_fingerprint (v : option string) (r : AuditRoundProgress) : AuditRoundProgress :=
  mkAudit (ap_executor_outputs r) (ap_previous_executor_outputs r) (ap_previous_review_packet r) (ap_previous_unresolved_fingerprints r) v (ap_latest_valid_executor_outputs r) (ap_latest_reviewer_outputs r) (ap_invalid_candidate_round_count r) (ap_no_progress_round_count r) (ap_artifact_drift_warning_count r) (ap_last_round_num r) (ap_selected_round_num r) (ap_stop_reason r) (ap_reviewer_failures r).
Definition set_ap_latest_valid_executor_outputs (v : option (list ExecutorRoundArtifact)) (r : AuditRoundProgress) : AuditRoundProgress :=
  mkAudit (ap_executor_outputs r) (ap_previous_executor_outputs r) (ap_previous_review_packet r) (ap_previous_unresolved_fingerprints r) (ap_previous_executor_fingerprint r) v (ap_latest_reviewer_outputs r) (ap_invalid_candidate_round_count r) (ap_no_progress_round_count r) (ap_artifact_drift_warning_count r) (ap_last_round_num r) (ap_selected_round_num r) (ap_stop_reason r) (ap_reviewer_failures r).
Definition set_ap_latest_reviewer_outputs (v : list ReviewerRoundArtifact) (r : AuditRoundProgress) : AuditRoundProgress :=
  mkAudit (ap_executor_outputs r) (ap_previous_executor_outputs r) (ap_previous_review_packet r) (ap_previous_unresolved_fingerprints r) (ap_previous_executor_fingerprint r) (ap_latest_valid_executor_outputs r) v (ap_invalid_candidate_round_count r) (ap_no_progress_round_count r) (ap_artifact_drift_warning_count r) (ap_last_round_num r) (ap_selected_round_num r) (ap_stop_reason r) (ap_reviewer_failures r).
Definition set_ap_invalid_candidate_round_count (v : Z) (r : AuditRoundProgress) : AuditRoundProgress :=
  mkAudit (ap_executor_outputs r) (ap_previous_executor_outputs r) (ap_previous_review_packet r) (ap_previous_unresolved_fingerprints r) (ap_previous_executor_fingerprint r) (ap_latest_valid_executor_outputs r) (ap_latest_reviewer_outputs r) v (ap_no_progress_round_count r) (ap_artifact_drift_warning_count r) (ap_last_round_num r) (ap_selected_round_num r) (ap_stop_reason r) (ap_reviewer_failures r).
Definition set_ap_no_progress_round_count (v : Z) (r : AuditRoundProgress) : AuditRoundProgress :=
  mkAudit (ap_executor_outputs r) (ap_previous_executor_outputs r) (ap_previous_review_packet r) (ap_previous_unresolved_fingerprints r) (ap_previous_executor_fingerprint r) (ap_latest_valid_executor_outputs r) (ap_latest_reviewer_outputs r) (ap_invalid_candidate_round_count r) v (ap_artifact_drift_warning_count r) (ap_last_round_num r) (ap_selected_round_num r) (ap_stop_reason r) (ap_reviewer_failures r).
Definition set_ap_artifact_drift_warning_count (v : Z) (r : AuditRoundProgress) : AuditRoundProgress :=
  mkAudit (ap_executor_outputs r) (ap_previous_executor_outputs r) (ap_previous_review_packet r) (ap_previous_unresolved_fingerprints r) (ap_previous_executor_fingerprint r) (ap_latest_valid_executor_outputs r) (ap_latest_reviewer_outputs r) (ap_invalid_candidate_round_count r) (ap_no_progress_round_count r) v (ap_last_round_num r) (ap_selected_round_num r) (ap_stop_reason r) (ap_reviewer_failures r).
Definition set_ap_last_round_num (v : Z) (r : AuditRoundProgress) : AuditRoundProgress :=
  mkAudit (ap_executor_outputs r) (ap_previous_executor_outputs r) (ap_previous_review_packet r) (ap_previous_unresolved_fingerprints r) (ap_previous_executor_fingerprint r) (ap_latest_valid_executor_outputs r) (ap_latest_reviewer_outputs r) (ap_invalid_candidate_round_count r) (ap_no_progress_round_count r) (ap_artifact_drift_warning_count r) v (ap_selected_round_num r) (ap_stop_reason r) (ap_reviewer_failures r).
Definition set_ap_selected_round_num (v : Z) (r : AuditRoundProgress) : AuditRoundProgress :=
  mkAudit (ap_executor_outputs r) (ap_previous_executor_outputs r) (ap_previous_review_packet r) (ap_previous_unresolved_fingerprints r) (ap_previous_executor_fingerprint r) (ap_latest_valid_executor_outputs r) (ap_latest_reviewer_outputs r) (ap_invalid_candidate_round_count r) (ap_no_progress_round_count r) (ap_artifact_drift_warning_count r) (ap_last_round_num r) v (ap_stop_reason r) (ap_reviewer_failures r).
Definition set_ap_stop_reason (v : option ReviewLoopStopReason) (r : AuditRoundProgress) : AuditRoundProgress :=
  mkAudit (ap_executor_outputs r) (ap_previous_executor_outputs r) (ap_previous_review_packet r) (ap_previous_unresolved_fingerprints r) (ap_previous_executor_fingerprint r) (ap_latest_valid_executor_outputs r) (ap_latest_reviewer_outputs r) (ap_invalid_candidate_round_count r) (ap_no_progress_round_count r) (ap_artifact_drift_warning_count r) (ap_last_round_num r) (ap_selected_round_num r) v (ap_reviewer_failures r).
Definition set_ap_reviewer_failures (v : list CheckpointReviewerFailure) (r : AuditRoundProgress) : AuditRoundProgress :=
  mkAudit (ap_executor_outputs r) (ap_previous_executor_outputs r) (ap_previous_review_packet r) (ap_previous_unresolved_fingerprints r) (ap_previous_executor_fingerprint r) (ap_latest_valid_executor_outputs r) (ap_latest_reviewer_outputs r) (ap_invalid_candidate_round_count r) (ap_no_progress_round_count r) (ap_artifact_drift_warning_count r) (ap_last_round_num r) (ap_selected_round_num r) (ap_stop_reason r) v.


(** A fresh audit of a candidate. *)
Definition fresh_audit (executor_outputs : list ExecutorRoundArtifact)
    (latest_valid : option (list ExecutorRoundArtifact)) : AuditRoundProgress :=
  mkAudit executor_outputs None None [] None latest_valid [] 0 0 0 0 0 None [].

(** Code: runtime/execution/review_loop/types.py, AuditRoundProgress.add_artifact_drift_warnings. *)
Definition add_artifact_drift_warnings (count : Z) (a : AuditRoundProgress) : AuditRoundProgress :=
  set_ap_artifact_drift_warning_count (ap_artifact_drift_warning_count a + count) a.

(** Code: runtime/execution/review_loop/types.py, AuditRoundProgress.record_invalid_candidate. *)
Definition record_invalid_candidate (a : AuditRoundProgress) : AuditRoundProgress :=
  set_ap_invalid_candidate_round_count (ap_invalid_candidate_round_count a + 1) a.

(** Code: runtime/execution/review_loop/types.py, AuditRoundProgress.record_no_progress. *)
Definition record_no_progress (a : AuditRoundProgress) : AuditRoundProgress :=
  set_ap_no_progress_round_count (ap_no_progress_round_count a + 1) a.

(** Code: runtime/execution/review_loop/types.py, AuditRoundProgress.record_completed_review. *)
Definition record_completed_review (run : ReviewerRoundRunResult) (round_num : Z) (a : AuditRoundProgress)
    : AuditRoundProgress :=
  let a := set_ap_latest_valid_executor_outputs (Some (ap_executor_outputs a)) a in
  let a := set_ap_selected_round_num round_num a in
  let a := add_artifact_drift_warnings (ro_drift_warning_count run) a in
  let a := set_ap_latest_reviewer_outputs (ro_outputs run) a in
  set_ap_reviewer_failures (ro_failures run) a.

(** The audit's part of advance_review_state; the stall state observes the
    review beside it.
    Code: runtime/execution/review_loop/types.py, AuditRoundProgress.advance_review_state. *)
Definition advance_review_state (state : ReviewRoundState) (a : AuditRoundProgress) : AuditRoundProgress :=
  let a := set_ap_previous_executor_outputs (Some (ap_executor_outputs a)) a in
  let a := set_ap_previous_review_packet (rs_current_review_packet state) a in
  let a := set_ap_previous_unresolved_fingerprints (rs_current_unresolved_fingerprints state) a in
  set_ap_previous_executor_fingerprint (rs_current_executor_fingerprint state) a.

(** Code: runtime/execution/review_loop/types.py, AuditRoundProgress.to_result. *)
Definition to_result (consensus_reached clean_fresh_approval : bool) (a : AuditRoundProgress) : AuditRoundResult :=
  mkAuditResult consensus_reached clean_fresh_approval (ap_latest_valid_executor_outputs a)
    (ap_latest_reviewer_outputs a) (ap_invalid_candidate_round_count a) (ap_no_progress_round_count a)
    (ap_artifact_drift_warning_count a) (ap_last_round_num a) (ap_selected_round_num a) (ap_stop_reason a)
    (ap_reviewer_failures a).

(** ** The progress of the loop *)

(** Code: runtime/execution/review_loop/types.py, ReviewLoopProgress. *)
Record ReviewLoopProgress := mkLoop {
  lp_latest_executor_outputs : option (list ExecutorRoundArtifact);
  lp_latest_reviewer_outputs : list ReviewerRoundArtifact;
  lp_executed_audit_rounds : Z;
  lp_last_round_num : Z;
  lp_consensus_reached : bool;
  lp_continued_after_exhaustion : bool;
  lp_invalid_candidate_round_count : Z;
  lp_no_progress_round_count : Z;
  lp_artifact_drift_warning_count : Z;
  lp_selected_round_num : Z;
  lp_stop_reason : option ReviewLoopStopReason;
  lp_continued_after_stop : bool;
  lp_stall : ReviewStallState;
  lp_active_audit : option AuditRoundProgress;
  lp_reviewer_failures : list CheckpointReviewerFailure;
  lp_initial_review_completed : bool;
  lp_initial_reviews : list ReviewerRoundArtifact;
  lp_initial_failures : list CheckpointReviewerFailure;
  lp_cursor_audit : Z;
  lp_cursor_round : Z;
  lp_next_phase : CheckpointPhase
}.

Definition set_lp_latest_executor_outputs (v : option (list ExecutorRoundArtifact)) (r : ReviewLoopProgress) : ReviewLoopProgress :=
  mkLoop v (lp_latest_reviewer_outputs r) (lp_executed_audit_rounds r) (lp_last_round_num r) (lp_consensus_reached r) (lp_continued_after_exhaustion r) (lp_invalid_candidate_round_count r) (lp_no_progress_round_count r) (lp_artifact_drift_warning_count r) (lp_selected_round_num r) (lp_stop_reason r) (lp_continued_after_stop r) (lp_stall r) (lp_active_audit r) (lp_reviewer_failures r) (lp_initial_review_completed r) (lp_initial_reviews r) (lp_initial_failures r) (lp_cursor_audit r) (lp_cursor_round r) (lp_next_phase r).
Definition set_lp_latest_reviewer_outputs (v : list ReviewerRoundArtifact) (r : ReviewLoopProgress) : ReviewLoopProgress :=
  mkLoop (lp_latest_executor_outputs r) v (lp_executed_audit_rounds r) (lp_last_round_num r) (lp_consensus_reached r) (lp_continued_after_exhaustion r) (lp_invalid_candidate_round_count r) (lp_no_progress_round_count r) (lp_artifact_drift_warning_count r) (lp_selected_round_num r) (lp_stop_reason r) (lp_continued_after_stop r) (lp_stall r) (lp_active_audit r) (lp_reviewer_failures r) (lp_initial_review_completed r) (lp_initial_reviews r) (lp_initial_failures r) (lp_cursor_audit r) (lp_cursor_round r) (lp_next_phase r).
Definition set_lp_executed_audit_rounds (v : Z) (r : ReviewLoopProgress) : ReviewLoopProgress :=
  mkLoop (lp_latest_executor_outputs r) (lp_latest_reviewer_outputs r) v (lp_last_round_num r) (lp_consensus_reached r) (lp_continued_after_exhaustion r) (lp_invalid_candidate_round_count r) (lp_no_progress_round_count r) (lp_artifact_drift_warning_count r) (lp_selected_round_num r) (lp_stop_reason r) (lp_continued_after_stop r) (lp_stall r) (lp_active_audit r) (lp_reviewer_failures r) (lp_initial_review_completed r) (lp_initial_reviews r) (lp_initial_failures r) (lp_cursor_audit r) (lp_cursor_round r) (lp_next_phase r).
Definition set_lp_last_round_num (v : Z) (r : ReviewLoopProgress) : ReviewLoopProgress :=
  mkLoop (lp_latest_executor_outputs r) (lp_latest_reviewer_outputs r) (lp_executed_audit_rounds r) v (lp_consensus_reached r) (lp_continued_after_exhaustion r) (lp_invalid_candidate_round_count r) (lp_no_progress_round_count r) (lp_artifact_drift_warning_count r) (lp_selected_round_num r) (lp_stop_reason r) (lp_continued_after_stop r) (lp_stall r) (lp_active_audit r) (lp_reviewer_failures r) (lp_initial_review_completed r) (lp_initial_reviews r) (lp_initial_failures r) (lp_cursor_audit r) (lp_cursor_round r) (lp_next_phase r).
Definition set_lp_consensus_reached (v : bool) (r : ReviewLoopProgress) : ReviewLoopProgress :=
  mkLoop (lp_latest_executor_outputs r) (lp_latest_reviewer_outputs r) (lp_executed_audit_rounds r) (lp_last_round_num r) v (lp_continued_after_exhaustion r) (lp_invalid_candidate_round_count r) (lp_no_progress_round_count r) (lp_artifact_drift_warning_count r) (lp_selected_round_num r) (lp_stop_reason r) (lp_continued_after_stop r) (lp_stall r) (lp_active_audit r) (lp_reviewer_failures r) (lp_initial_review_completed r) (lp_initial_reviews r) (lp_initial_failures r) (lp_cursor_audit r) (lp_cursor_round r) (lp_next_phase r).
Definition set_lp_continued_after_exhaustion (v : bool) (r : ReviewLoopProgress) : ReviewLoopProgress :=
  mkLoop (lp_latest_executor_outputs r) (lp_latest_reviewer_outputs r) (lp_executed_audit_rounds r) (lp_last_round_num r) (lp_consensus_reached r) v (lp_invalid_candidate_round_count r) (lp_no_progress_round_count r) (lp_artifact_drift_warning_count r) (lp_selected_round_num r) (lp_stop_reason r) (lp_continued_after_stop r) (lp_stall r) (lp_active_audit r) (lp_reviewer_failures r) (lp_initial_review_completed r) (lp_initial_reviews r) (lp_initial_failures r) (lp_cursor_audit r) (lp_cursor_round r) (lp_next_phase r).
Definition set_lp_invalid_candidate_round_count (v : Z) (r : ReviewLoopProgress) : ReviewLoopProgress :=
  mkLoop (lp_latest_executor_outputs r) (lp_latest_reviewer_outputs r) (lp_executed_audit_rounds r) (lp_last_round_num r) (lp_consensus_reached r) (lp_continued_after_exhaustion r) v (lp_no_progress_round_count r) (lp_artifact_drift_warning_count r) (lp_selected_round_num r) (lp_stop_reason r) (lp_continued_after_stop r) (lp_stall r) (lp_active_audit r) (lp_reviewer_failures r) (lp_initial_review_completed r) (lp_initial_reviews r) (lp_initial_failures r) (lp_cursor_audit r) (lp_cursor_round r) (lp_next_phase r).
Definition set_lp_no_progress_round_count (v : Z) (r : ReviewLoopProgress) : ReviewLoopProgress :=
  mkLoop (lp_latest_executor_outputs r) (lp_latest_reviewer_outputs r) (lp_executed_audit_rounds r) (lp_last_round_num r) (lp_consensus_reached r) (lp_continued_after_exhaustion r) (lp_invalid_candidate_round_count r) v (lp_artifact_drift_warning_count r) (lp_selected_round_num r) (lp_stop_reason r) (lp_continued_after_stop r) (lp_stall r) (lp_active_audit r) (lp_reviewer_failures r) (lp_initial_review_completed r) (lp_initial_reviews r) (lp_initial_failures r) (lp_cursor_audit r) (lp_cursor_round r) (lp_next_phase r).
Definition set_lp_artifact_drift_warning_count (v : Z) (r : ReviewLoopProgress) : ReviewLoopProgress :=
  mkLoop (lp_latest_executor_outputs r) (lp_latest_reviewer_outputs r) (lp_executed_audit_rounds r) (lp_last_round_num r) (lp_consensus_reached r) (lp_continued_after_exhaustion r) (lp_invalid_candidate_round_count r) (lp_no_progress_round_count r) v (lp_selected_round_num r) (lp_stop_reason r) (lp_continued_after_stop r) (lp_stall r) (lp_active_audit r) (lp_reviewer_failures r) (lp_initial_review_completed r) (lp_initial_reviews r) (lp_initial_failures r) (lp_cursor_audit r) (lp_cursor_round r) (lp_next_phase r).
Definition set_lp_selected_round_num (v : Z) (r : ReviewLoopProgress) : ReviewLoopProgress :=
  mkLoop (lp_latest_executor_outputs r) (lp_latest_reviewer_outputs r) (lp_executed_audit_rounds r) (lp_last_round_num r) (lp_consensus_reached r) (lp_continued_after_exhaustion r) (lp_invalid_candidate_round_count r) (lp_no_progress_round_count r) (lp_artifact_drift_warning_count r) v (lp_stop_reason r) (lp_continued_after_stop r) (lp_stall r) (lp_active_audit r) (lp_reviewer_failures r) (lp_initial_review_completed r) (lp_initial_reviews r) (lp_initial_failures r) (lp_cursor_audit r) (lp_cursor_round r) (lp_next_phase r).
Definition set_lp_stop_reason (v : option ReviewLoopStopReason) (r : ReviewLoopProgress) : ReviewLoopProgress :=
  mkLoop (lp_latest_executor_outputs r) (lp_latest_reviewer_outputs r) (lp_executed_audit_rounds r) (lp_last_round_num r) (lp_consensus_reached r) (lp_continued_after_exhaustion r) (lp_invalid_candidate_round_count r) (lp_no_progress_round_count r) (lp_artifact_drift_warning_count r) (lp_selected_round_num r) v (lp_continued_after_stop r) (lp_stall r) (lp_active_audit r) (lp_reviewer_failures r) (lp_initial_review_completed r) (lp_initial_reviews r) (lp_initial_failures r) (lp_cursor_audit r) (lp_cursor_round r) (lp_next_phase r).
Definition set_lp_continued_after_stop (v : bool) (r : ReviewLoopProgress) : ReviewLoopProgress :=
  mkLoop (lp_latest_executor_outputs r) (lp_latest_reviewer_outputs r) (lp_executed_audit_rounds r) (lp_last_round_num r) (lp_consensus_reached r) (lp_continued_after_exhaustion r) (lp_invalid_candidate_round_count r) (lp_no_progress_round_count r) (lp_artifact_drift_warning_count r) (lp_selected_round_num r) (lp_stop_reason r) v (lp_stall r) (lp_active_audit r) (lp_reviewer_failures r) (lp_initial_review_completed r) (lp_initial_reviews r) (lp_initial_failures r) (lp_cursor_audit r) (lp_cursor_round r) (lp_next_phase r).
Definition set_lp_stall (v : ReviewStallState) (r : ReviewLoopProgress) : ReviewLoopProgress :=
  mkLoop (lp_latest_executor_outputs r) (lp_latest_reviewer_outputs r) (lp_executed_audit_rounds r) (lp_last_round_num r) (lp_consensus_reached r) (lp_continued_after_exhaustion r) (lp_invalid_candidate_round_count r) (lp_no_progress_round_count r) (lp_artifact_drift_warning_count r) (lp_selected_round_num r) (lp_stop_reason r) (lp_continued_after_stop r) v (lp_active_audit r) (lp_reviewer_failures r) (lp_initial_review_completed r) (lp_initial_reviews r) (lp_initial_failures r) (lp_cursor_audit r) (lp_cursor_round r) (lp_next_phase r).
Definition set_lp_active_audit (v : option AuditRoundProgress) (r : ReviewLoopProgress) : ReviewLoopProgress :=
  mkLoop (lp_latest_executor_outputs r) (lp_latest_reviewer_outputs r) (lp_executed_audit_rounds r) (lp_last_round_num r) (lp_consensus_reached r) (lp_continued_after_exhaustion r) (lp_invalid_candidate_round_count r) (lp_no_progress_round_count r) (lp_artifact_drift_warning_count r) (lp_selected_round_num r) (lp_stop_reason r) (lp_continued_after_stop r) (lp_stall r) v (lp_reviewer_failures r) (lp_initial_review_completed r) (lp_initial_reviews r) (lp_initial_failures r) (lp_cursor_audit r) (lp_cursor_round r) (lp_next_phase r).
Definition set_lp_reviewer_failures (v : list CheckpointReviewerFailure) (r : ReviewLoopProgress) : ReviewLoopProgress :=
  mkLoop (lp_latest_executor_outputs r) (lp_latest_reviewer_outputs r) (lp_executed_audit_rounds r) (lp_last_round_num r) (lp_consensus_reached r) (lp_continued_after_exhaustion r) (lp_invalid_candidate_round_count r) (lp_no_progress_round_count r) (lp_artifact_drift_warning_count r) (lp_selected_round_num r) (lp_stop_reason r) (lp_continued_after_stop r) (lp_stall r) (lp_active_audit r) v (lp_initial_review_completed r) (lp_initial_reviews r) (lp_initial_failures r) (lp_cursor_audit r) (lp_cursor_round r) (lp_next_phase r).
Definition set_lp_initial_review_completed (v : bool) (r : ReviewLoopProgress) : ReviewLoopProgress :=
  mkLoop (lp_latest_executor_outputs r) (lp_latest_reviewer_outputs r) (lp_executed_audit_rounds r) (lp_last_round_num r) (lp_consensus_reached r) (lp_continued_after_exhaustion r) (lp_invalid_candidate_round_count r) (lp_no_progress_round_count r) (lp_artifact_drift_warning_count r) (lp_selected_round_num r) (lp_stop_reason r) (lp_continued_after_stop r) (lp_stall r) (lp_active_audit r) (lp_reviewer_failures r) v (lp_initial_reviews r) (lp_initial_failures r) (lp_cursor_audit r) (lp_cursor_round r) (lp_next_phase r).
Definition set_lp_initial_reviews (v : list ReviewerRoundArtifact) (r : ReviewLoopProgress) : ReviewLoopProgress :=
  mkLoop (lp_latest_executor_outputs r) (lp_latest_reviewer_outputs r) (lp_executed_audit_rounds r) (lp_last_round_num r) (lp_consensus_reached r) (lp_continued_after_exhaustion r) (lp_invalid_candidate_round_count r) (lp_no_progress_round_count r) (lp_artifact_drift_warning_count r) (lp_selected_round_num r) (lp_stop_reason r) (lp_continued_after_stop r) (lp_stall r) (lp_active_audit r) (lp_reviewer_failures r) (lp_initial_review_completed r) v (lp_initial_failures r) (lp_cursor_audit r) (lp_cursor_round r) (lp_next_phase r).
Definition set_lp_initial_failures (v : list CheckpointReviewerFailure) (r : ReviewLoopProgress) : ReviewLoopProgress :=
  mkLoop (lp_latest_executor_outputs r) (lp_latest_reviewer_outputs r) (lp_executed_audit_rounds r) (lp_last_round_num r) (lp_consensus_reached r) (lp_continued_after_exhaustion r) (lp_invalid_candidate_round_count r) (lp_no_progress_round_count r) (lp_artifact_drift_warning_count r) (lp_selected_round_num r) (lp_stop_reason r) (lp_continued_after_stop r) (lp_stall r) (lp_active_audit r) (lp_reviewer_failures r) (lp_initial_review_completed r) (lp_initial_reviews r) v (lp_cursor_audit r) (lp_cursor_round r) (lp_next_phase r).
Definition set_lp_cursor_audit (v : Z) (r : ReviewLoopProgress) : ReviewLoopProgress :=
  mkLoop (lp_latest_executor_outputs r) (lp_latest_reviewer_outputs r) (lp_executed_audit_rounds r) (lp_last_round_num r) (lp_consensus_reached r) (lp_continued_after_exhaustion r) (lp_invalid_candidate_round_count r) (lp_no_progress_round_count r) (lp_artifact_drift_warning_count r) (lp_selected_round_num r) (lp_stop_reason r) (lp_continued_after_stop r) (lp_stall r) (lp_active_audit r) (lp_reviewer_failures r) (lp_initial_review_completed r) (lp_initial_reviews r) (lp_initial_failures r) v (lp_cursor_round r) (lp_next_phase r).
Definition set_lp_cursor_round (v : Z) (r : ReviewLoopProgress) : ReviewLoopProgress :=
  mkLoop (lp_latest_executor_outputs r) (lp_latest_reviewer_outputs r) (lp_executed_audit_rounds r) (lp_last_round_num r) (lp_consensus_reached r) (lp_continued_after_exhaustion r) (lp_invalid_candidate_round_count r) (lp_no_progress_round_count r) (lp_artifact_drift_warning_count r) (lp_selected_round_num r) (lp_stop_reason r) (lp_continued_after_stop r) (lp_stall r) (lp_active_audit r) (lp_reviewer_failures r) (lp_initial_review_completed r) (lp_initial_reviews r) (lp_initial_failures r) (lp_cursor_audit r) v (lp_next_phase r).
Definition set_lp_next_phase (v : CheckpointPhase) (r : ReviewLoopProgress) : ReviewLoopProgress :=
  mkLoop (lp_latest_executor_outputs r) (lp_latest_reviewer_outputs r) (lp_executed_audit_rounds r) (lp_last_round_num r) (lp_consensus_reached r) (lp_continued_after_exhaustion r) (lp_invalid_candidate_round_count r) (lp_no_progress_round_count r) (lp_artifact_drift_warning_count r) (lp_selected_round_num r) (lp_stop_reason r) (lp_continued_after_stop r) (lp_stall r) (lp_active_audit r) (lp_reviewer_failures r) (lp_initial_review_completed r) (lp_initial_reviews r) (lp_initial_failures r) (lp_cursor_audit r) (lp_cursor_round r) v.


Definition fresh_progress : ReviewLoopProgress :=
  mkLoop None [] 0 0 false false 0 0 0 0 None false fresh_stall None [] false [] [] 1 1 PhaseExecutors.

(** Code: runtime/execution/review_loop/types.py, ReviewLoopProgress.record_initial_executor_run. *)
Definition record_initial_executor_run (run : ExecutorRoundRunResult) (p : ReviewLoopProgress) : ReviewLoopProgress :=
  set_lp_artifact_drift_warning_count (lp_artifact_drift_warning_count p + xo_drift_warning_count run) p.

(** Code: runtime/execution/review_loop/types.py, ReviewLoopProgress.record_initial_reviewer_run. *)
Definition record_initial_reviewer_run (run : ReviewerRoundRunResult) (p : ReviewLoopProgress) : ReviewLoopProgress :=
  let p := set_lp_artifact_drift_warning_count (lp_artifact_drift_warning_count p + ro_drift_warning_count run) p in
  let p := set_lp_initial_review_completed true p in
  let p := set_lp_initial_reviews (ro_outputs run) p in
  set_lp_initial_failures (ro_failures run) p.

(** The counters and flags an audit's result updates first. *)
Definition record_audit_counters (r : AuditRoundResult) (p : ReviewLoopProgress) : ReviewLoopProgress :=
  let p := set_lp_active_audit None p in
  let p := set_lp_invalid_candidate_round_count (lp_invalid_candidate_round_count p + ar_invalid_candidate_round_count r) p in
  let p := set_lp_no_progress_round_count (lp_no_progress_round_count p + ar_no_progress_round_count r) p in
  let p := set_lp_artifact_drift_warning_count (lp_artifact_drift_warning_count p + ar_artifact_drift_warning_count r) p in
  let p := set_lp_last_round_num (ar_last_round_num r) p in
  let p := if 0 <? ar_selected_round_num r then set_lp_selected_round_num (ar_selected_round_num r) p else p in
  let p := set_lp_consensus_reached (ar_consensus_reached r) p in
  let p := set_lp_continued_after_exhaustion false p in
  set_lp_stop_reason (ar_stop_reason r) p.

(** The reviews an audit's result leaves behind. *)
Definition record_audit_reviews (r : AuditRoundResult) (p : ReviewLoopProgress) : ReviewLoopProgress :=
  set_lp_reviewer_failures (ar_reviewer_failures r) (set_lp_latest_reviewer_outputs (ar_latest_reviewer_outputs r) p).

(** Code: runtime/execution/review_loop/types.py, ReviewLoopProgress.record_audit_result. *)
Definition record_audit_result (r : AuditRoundResult) : M ReviewLoopProgress unit := fun p =>
  let p := record_audit_counters r p in
  match ar_latest_executor_outputs r with
  | None => (Ok tt, record_audit_reviews r p)
  | Some outputs =>
      let p := set_lp_latest_executor_outputs (Some outputs) p in
      if ar_selected_round_num r =? 0 then
        match outputs with
        | [] => (Raise (OtherError "IndexError" "list index out of range"), p)
        | first :: _ => (Ok tt, record_audit_reviews r (set_lp_selected_round_num (ea_round_num first) p))
        end
      else (Ok tt, record_audit_reviews r p)
  end.

(** Code: runtime/execution/review_loop/types.py, ReviewLoopProgress.mark_consensus_exhausted. *)
Definition mark_consensus_exhausted (continued : bool) (p : ReviewLoopProgress) : ReviewLoopProgress :=
  let p := set_lp_consensus_reached false p in
  let p := set_lp_continued_after_exhaustion continued p in
  let p := set_lp_continued_after_stop continued p in
  set_lp_stop_reason (Some CONSENSUS_EXHAUSTED) p.

(** Code: runtime/execution/review_loop/types.py, ReviewLoopProgress.snapshot. *)
Definition snapshot (p : ReviewLoopProgress) : outcome ReviewLoopProgress :=
  let s := set_lp_active_audit None p in
  s ← match lp_active_audit p with
      | None => Ok s
      | Some active =>
          match record_audit_result (to_result false false active) s with
          | (Ok _, s) =>
              Ok (if (ap_selected_round_num active =? 0)
                     && match lp_latest_executor_outputs p with Some (_ :: _) => true | _ => false end
                  then set_lp_selected_round_num (lp_selected_round_num p)
                         (set_lp_latest_reviewer_outputs (lp_latest_reviewer_outputs p)
                            (set_lp_latest_executor_outputs (lp_latest_executor_outputs p) s))
                  else s)
          | (Raise e, _) => Raise e
          | (OutOfFuel, _) => OutOfFuel
          end
      end;
  mret (match lp_stop_reason p with Some _ => set_lp_stop_reason (lp_stop_reason p) s | None => s end).

(** ** The published status *)

(** Code: artifacts/results/review_loop_status.py, ReviewLoopStatusPayload.  The output
    entries are the artifacts themselves; that their files are safe and hold
    the bound bytes is checked when the status is written. *)
Record ReviewLoopStatusPayload := mkStatus {
  sp_node_id : string;
  sp_executed_audit_rounds : Z;
  sp_attempted_local_round_num : Z;
  sp_final_local_round_num : Z;
  sp_consensus_reached : bool;
  sp_continued_after_consensus_exhaustion : bool;
  sp_invalid_candidate_round_count : Z;
  sp_no_progress_round_count : Z;
  sp_artifact_drift_warning_count : Z;
  sp_stop_reason : option ReviewLoopStopReason;
  sp_continued_after_stop : bool;
  sp_consecutive_no_progress_round_count : Z;
  sp_canonical_executor_outputs : list ExecutorRoundArtifact;
  sp_reviewer_outputs : list ReviewerRoundArtifact
}.

(** Code: runtime/execution/review_loop/state.py, _selected_round_num. *)
Definition selected_round_num (p : ReviewLoopProgress) : Z :=
  match lp_latest_executor_outputs p with
  | Some (first :: _) => ea_round_num first
  | _ => match lp_latest_reviewer_outputs p with first :: _ => ra_round_num first | [] => 0 end
  end.

(** Code: runtime/execution/review_loop/state.py, build_review_loop_status_payload. *)
Definition build_review_loop_status_payload (node_id : string) (progress : ReviewLoopProgress)
    : outcome ReviewLoopStatusPayload :=
  p ← snapshot progress;
  mret (mkStatus node_id (lp_executed_audit_rounds p) (lp_last_round_num p)
    (if lp_selected_round_num p =? 0 then selected_round_num p else lp_selected_round_num p)
    (lp_consensus_reached p) (lp_continued_after_exhaustion p) (lp_invalid_candidate_round_count p)
    (lp_no_progress_round_count p) (lp_artifact_drift_warning_count p) (lp_stop_reason p)
    (lp_continued_after_stop p) (consecutive_round_count (lp_stall p))
    (default [] (lp_latest_executor_outputs p)) (lp_latest_reviewer_outputs p)).
