(* ===== verification/ReviewLoop.v ===== *)
(** The review loop of a sequential node: runtime/execution/review_loop/
    {policy,prompts,executor_round,reviewer_round,audit_round,audit_review_outcome,
    audit_publication,initial_candidate,completion_policy,orchestration,audit_io}.py.

    Computations act on the mutable progress of the loop and of its active
    audit; what happens outside (provider processes, files, prompts resolved
    from artifacts, cancellation) is the class [ReviewLoopEnv].  Every write is
    an [Effect], which the outside may refuse with an exception, and a trace
    keeps the effects that took place and the rounds that were started.  Status
    publication and checkpoint transitions are always enabled, as the
    orchestration enables them. *)

From Stdlib Require Import ZArith Lia Ascii String.
From stdpp Require Import base gmap sets list list_numbers strings.
From S2P Require Import Prelude PyStr Models Scheduler PlanRecords Artifacts PlanContract.
From S2P Require Import Reviews ReviewCandidates StateExn ReviewLoopState.

Open Scope string_scope.
Open Scope list_scope.
Open Scope Z_scope.

(** The digest of the review libraries is the digest of candidates. *)
#[global] Instance review_hash {libs : ReviewLibraries} : HashLibrary := {| sha256 := sha256_hex |}.

(** ** Policies *)

(** Code: runtime/execution/review_loop/policy.py, resolve_remediation_depth. *)
Definition resolve_remediation_depth (node : PreflightExecutionNode) : outcome Z :=
  let depth := xp_depth (en_execution_policy node) in
  if match depth with Some d => d <=? 0 | None => false end
  then Raise (ValueError ("Sequential node " +:+ quoted (en_id node) +:+ " depth must be greater than 0 when provided."))
  else Ok (remediation_depth_or_default depth).

(** Code: runtime/execution/review_loop/policy.py, resolve_audit_rounds. *)
Definition resolve_audit_rounds (node : PreflightExecutionNode) : outcome Z :=
  let audit_rounds := xp_audit_rounds (en_execution_policy node) in
  if match audit_rounds with Some d => d <=? 0 | None => false end
  then Raise (ValueError ("Sequential node " +:+ quoted (en_id node)
                          +:+ " audit_rounds must be greater than 0 when provided."))
  else Ok (audit_rounds_or_default audit_rounds).

(** Code: core/review_policy.py, audit_round_context. *)
Definition audit_round_context (audit_rounds : option Z) (audit_round_num : Z) : option Z :=
  if 1 <? audit_rounds_or_default audit_rounds then Some audit_round_num else None.

(** Code: runtime/execution/review_loop/policy.py, split_sequential_review_loop_providers. *)
Definition split_sequential_review_loop_providers (node_id : string) (providers : list ProviderRecord)
    : outcome (list ProviderRecord * list ProviderRecord) :=
  if negb (provider_role_segments_are_contiguous (map pr_role providers)) then
    Raise (ValueError ("Sequential node " +:+ quoted node_id +:+ " must declare providers as a contiguous "
                       +:+ "executor segment followed by a contiguous reviewer segment."))
  else
    let executors := List.filter (fun p => bool_decide (pr_role p = EXECUTOR)) providers in
    let reviewers := List.filter (fun p => bool_decide (pr_role p = REVIEWER)) providers in
    match executors, reviewers with
    | _ :: _, _ :: _ => Ok (executors, reviewers)
    | _, _ => Raise (ValueError ("Sequential node " +:+ quoted node_id
                                 +:+ " requires at least one executor and one reviewer."))
    end.

(** Code: runtime/execution/review_loop/policy.py, consensus_failure_allows_continuation. *)
Definition consensus_failure_allows_continuation (node : PreflightExecutionNode) : bool * string :=
  if xp_continue_on_failure (en_execution_policy node) then (true, "continue_on_failure=true")
  else if bool_decide (xp_consensus_on_exhaustion (en_execution_policy node) = Some ConsensusContinue)
  then (true, "settings.sequential_consensus_on_exhaustion=continue")
  else (false, "settings.sequential_consensus_on_exhaustion=fatal").

(** The fields of the run context the loop reads.
    Code: runtime/execution/review_loop/types.py, ReviewLoopRunContext. *)
Record ReviewLoopRunContext := mkContext {
  cx_stage : PreflightExecutionNode;
  cx_node_dir : string;
  cx_executors : list ProviderRecord;
  cx_reviewers : list ProviderRecord;
  cx_executor_prompt : string;
  cx_reviewer_prompt_context : string;
  cx_remediation_depth : Z;
  cx_audit_rounds : Z;
  cx_print_console : bool
}.

(** Code: runtime/execution/review_loop/policy.py, review_loop_can_finish. *)
Definition review_loop_can_finish (context : ReviewLoopRunContext) (result : AuditRoundResult) (audit_round_num : Z) : bool :=
  if ar_clean_fresh_approval result then true
  else if ar_consensus_reached result && (audit_round_num <? cx_audit_rounds context) then false
  else ar_consensus_reached result.

(** Code: runtime/execution/review_loop/policy.py, audit_round_dir. *)
Definition audit_round_dir (node_dir : string) (audit_rounds audit_round_num : Z) : string :=
  if audit_rounds =? 1 then node_dir else node_dir +:+ "/" +:+ build_review_audit_directory_name audit_round_num.

(** ** Prompts *)

(** Code: runtime/execution/review_loop/prompts.py, REVIEWER_ONLY_INSTRUCTION. *)
Definition REVIEWER_ONLY_INSTRUCTION : string :=
  str_join lf_str
    ["You are acting only as a reviewer.";
     "Review only the current executor output(s) shown below.";
     "Do not modify files, apply fixes, run changes, or change the workspace.";
     "Approve the cycle only when all major and minor issues are resolved.";
     "Use NITS_ONLY only when only optional nitpicks remain.";
     "Use NO_FINDINGS only when no issues remain at all."].

(** Code: runtime/execution/review_loop/prompts.py, INITIAL_REVIEWER_ONLY_INSTRUCTION. *)
Definition INITIAL_REVIEWER_ONLY_INSTRUCTION : string :=
  str_join lf_str
    ["You are acting only as a reviewer.";
     "Review only the existing context shown below before any same-node executor candidate exists.";
     "Do not modify files, apply fixes, run changes, or change the workspace.";
     "Approve the initial pass only when the existing context has no major or minor issues.";
     "Use NITS_ONLY only when only optional nitpicks remain.";
     "Use NO_FINDINGS only when no issues remain at all."].

(** Code: runtime/execution/review_loop/prompts.py, INITIAL_REVIEW_APPROVED_HANDOFF. *)
Definition INITIAL_REVIEW_APPROVED_HANDOFF : string :=
  "The initial reviewer pass found no unresolved major or minor issues in the reviewed context. "
     +:+ "Preserve that reviewed state, avoid broad rewrites, and make only the minimal necessary changes "
     +:+ "required to produce this node's canonical executor candidate.".

(** Code: runtime/execution/review_loop/prompts.py, INITIAL_REVIEW_FAILURE_HANDOFF. *)
Definition INITIAL_REVIEW_FAILURE_HANDOFF : string :=
  "The initial reviewer pass could not approve the reviewed context because at least one reviewer "
     +:+ "invocation failed. Do not invent reviewer feedback. Preserve the reviewed context where "
     +:+ "possible and make only the minimal necessary changes required to produce this node's canonical "
     +:+ "executor candidate.".

(** Code: runtime/execution/review_loop/prompts.py, INITIAL_REVIEW_BLOCKED_HANDOFF. *)
Definition INITIAL_REVIEW_BLOCKED_HANDOFF : string :=
  "The initial reviewer pass did not produce approval or actionable normalized feedback. Treat the "
     +:+ "reviewed context as blocked, preserve it where possible, and make only the minimal necessary "
     +:+ "changes required to produce this node's canonical executor candidate.".

(** Code: runtime/execution/review_loop/prompts.py, INITIAL_REVIEW_TASK_CONTEXT. *)
Definition INITIAL_REVIEW_TASK_CONTEXT : string :=
  "Review the existing context before the local round 1 executor writes this node's canonical "
     +:+ "candidate.".

(** Code: runtime/execution/review_loop/prompts.py, REVIEWER_REMEDIATION_INSTRUCTION. *)
Definition REVIEWER_REMEDIATION_INSTRUCTION : string :=
  "When previous unresolved review state is provided, verify whether those major and minor issues "
     +:+ "are now resolved. Report new major or minor issues only when the current candidate introduces "
     +:+ "or reveals them.".

(** Code: runtime/execution/review_loop/prompts.py, EXECUTOR_CANONICAL_OUTPUT_INSTRUCTION. *)
Definition EXECUTOR_CANONICAL_OUTPUT_INSTRUCTION : string :=
  str_join lf_str
    ["Return the full revised candidate in this response.";
     "This response becomes the canonical artifact for this round.";
     "Do not rely on editing prior .crewplane artifacts or redirecting review to another round file.";
     "Start directly with the candidate document title or first candidate section.";
     "Do not include progress notes, process commentary, or references to what you inspected before "
     +:+ "the candidate."].

(** Code: runtime/execution/review_loop/prompts.py, NO_PROGRESS_RECOVERY_INSTRUCTION. *)
Definition NO_PROGRESS_RECOVERY_INSTRUCTION : string :=
  str_join lf_str
    ["Runtime no-progress notice: the previous remediation attempt left the deliverable unchanged "
     +:+ "while the review below remains unresolved.";
     "This is the final recovery attempt before this node stops with no_progress.";
     "Make a concrete change addressing the unresolved feedback. Rewording a handoff without changing "
     +:+ "its file deliverable does not count as progress. If blocked, preserve the candidate and explain "
     +:+ "the blocker; do not claim approval or repeat an unsupported claim that the findings are fixed."].

(** Code: core/review_contract.py, REVIEW_RESPONSE_INSTRUCTION. *)
Definition REVIEW_RESPONSE_INSTRUCTION : string :=
  "Return this review block at the end of your response:" +:+ lf_str
  +:+ str_join "" (map (fun section => "## " +:+ display_name section +:+ lf_str +:+ REQUIRED_EMPTY_SENTINEL
                                      +:+ lf_str +:+ lf_str) SECTION_ORDER)
  +:+ "---" +:+ lf_str +:+ "VERDICT: CHANGES_REQUESTED | NITS_ONLY | NO_FINDINGS" +:+ lf_str +:+ lf_str
  +:+ "If you add optional commentary, put it above the review block and keep the review block last.".

(** [if value:] for an optional text. *)
Definition given (o : option string) : bool := match o with Some s => nonempty s | None => false end.

(** Code: runtime/execution/review_loop/prompts.py, build_executor_prompt. *)
Definition build_executor_prompt (base_prompt : string)
    (previous_candidate_context previous_review_packet initial_review_handoff : option string)
    (recovery_attempt : bool) : string :=
  str_join (lf_str +:+ lf_str)
    ([base_prompt; EXECUTOR_CANONICAL_OUTPUT_INSTRUCTION]
     ++ (if recovery_attempt then [NO_PROGRESS_RECOVERY_INSTRUCTION] else [])
     ++ (if given initial_review_handoff
         then ["Initial reviewer handoff:" +:+ lf_str +:+ default "" initial_review_handoff] else [])
     ++ (if given previous_review_packet then
           (if given previous_candidate_context
            then ["Previous canonical candidate:" +:+ lf_str +:+ default "" previous_candidate_context] else [])
           ++ ["Previous unresolved review state:" +:+ lf_str +:+ default "" previous_review_packet;
               "Address all remaining major and minor issues in your update. "
               +:+ "Nitpicks are optional unless they hide a correctness problem."]
         else [])).

(** Code: runtime/execution/review_loop/prompts.py, build_review_context. *)
Definition build_review_context (executor_outputs : list ExecutorRoundArtifact) : string :=
  str_join (lf_str +:+ lf_str)
    (map (fun a => "=== " +:+ pr_provider (ea_provider a) +:+ " executor output ===" +:+ lf_str
                   +:+ "Artifact: " +:+ ea_output_file a +:+ lf_str +:+ lf_str +:+ ea_content a) executor_outputs).

(** Code: runtime/execution/review_loop/prompts.py, _review_context_section. *)
Definition review_context_section (heading : string) (note : option string) (review_context : string) : string :=
  if given note then heading +:+ ":" +:+ lf_str +:+ default "" note +:+ lf_str +:+ lf_str +:+ review_context
  else heading +:+ ":" +:+ lf_str +:+ lf_str +:+ review_context.

(** Code: runtime/execution/review_loop/prompts.py, build_reviewer_prompt. *)
Definition build_reviewer_prompt (base_prompt review_context : string) (previous_review_packet : option string)
    (review_context_heading : string) (review_context_note : option string) (reviewer_instruction : string) : string :=
  str_join (lf_str +:+ lf_str)
    ([reviewer_instruction; "Task context:" +:+ lf_str +:+ base_prompt]
     ++ (if given previous_review_packet
         then [REVIEWER_REMEDIATION_INSTRUCTION;
               "Previous unresolved review state:" +:+ lf_str +:+ default "" previous_review_packet] else [])
     ++ [review_context_section review_context_heading review_context_note review_context; REVIEW_RESPONSE_INSTRUCTION]).

(** ** Requests and effects *)

(** Code: runtime/execution/review_loop/types.py, ExecutorRoundRequest. *)
Record ExecutorRoundRequest := mkExecutorRequest {
  xr_artifact_dir : string;
  xr_previous_review_packet : option string;
  xr_previous_executor_outputs : option (list ExecutorRoundArtifact);
  xr_audit_round_num : option Z;
  xr_round_num : Z;
  xr_initial_review_handoff : option string;
  xr_recovery_attempt : bool
}.

(** Code: runtime/execution/review_loop/types.py, ReviewerRoundRequest. *)
Record ReviewerRoundRequest := mkReviewerRequest {
  rr_artifact_dir : string;
  rr_reviewer_prompt_context : string;
  rr_review_context : string;
  rr_previous_review_packet : option string;
  rr_audit_round_num : option Z;
  rr_round_num : Z;
  rr_review_context_heading : string;
  rr_review_context_note : option string;
  rr_reviewer_instruction : option string
}.

(** A completed reviewer process: its private output file, the signature bound
    to it and the drift warnings.
    Code: runtime/execution/review_loop/types.py, ReviewerInvocationResult. *)
Record ReviewerInvocationResult := mkInvocation {
  iv_invocation_output_file : string;
  iv_output_signature : ContentSignature;
  iv_drift_warning_count : Z
}.

(** Code: runtime/execution/review_loop/types.py, ReviewerInvocationFailure. *)
Record ReviewerInvocationFailure := mkInvocationFailure {
  if_provider : ProviderRecord;
  if_output_file : string;
  if_error : exn;
  if_failure_kind : string;
  if_warning : string
}.

(** What the loop writes or announces. *)
Inductive Effect : Type :=
| PublishStatus (payload : ReviewLoopStatusPayload)
| CommitCheckpoint (phase : CheckpointPhase) (audit local_round : Z) (progress : ReviewLoopProgress)
| CloseCheckpoint (reason : string)
| RestoreDiagnostics (progress : ReviewLoopProgress)
| ValidateFindings (outputs : list ExecutorRoundArtifact)
| DiscardLineage (task_ids : list string) (audit : option Z) (local_round : Z) (reason : string)
| PersistInbox (artifact_dir : string) (round_num : Z) (markdown : string)
| PersistEvaluation (output_file : string) (evaluation : EvaluatedReviewResult)
| PersistReview (review : ReviewerRoundArtifact)
| PersistReviewerFailure (failure : ReviewerInvocationFailure)
| RuntimeLog (operation message : string)
| Console (message : string).

(** The history of a run. *)
Inductive TraceItem : Type :=
| Performed (effect : Effect)
| ExecutorsStarted (request : ExecutorRoundRequest)
| ReviewersStarted (request : ReviewerRoundRequest).

(** What runs outside the loop. *)
Class ReviewLoopEnv := {
  world : Type;
  (* resolve_prompt_with_output_budget_details, for a role, an audit and a round *)
  resolve_prompt : ProviderRole -> option Z -> Z -> world -> outcome string * world;
  (* enforce_prompt_budget on the previous candidate *)
  enforce_prompt_budget : string -> world -> outcome unit * world;
  (* one executor call behind the drift guard, and the output read back *)
  call_executor : ExecutorRoundRequest -> ProviderRecord -> string -> world ->
    outcome (string * option ContentSignature * Z) * world;
  (* the identity bound to an output after the round *)
  bind_candidate_identity : ExecutorRoundRequest -> ExecutorRoundArtifact -> world -> outcome CandidateIdentity * world;
  (* gather_invocations over the reviewers *)
  gather_reviewers : ReviewerRoundRequest -> string -> world ->
    outcome (list (ReviewerInvocationResult + exn)) * world;
  read_bound_invocation_output : string -> ContentSignature -> world -> outcome string * world;
  publish_invocation_output : string -> string -> ContentSignature -> world -> outcome ContentSignature * world;
  publish_text : string -> string -> ContentSignature -> world -> outcome ContentSignature * world;
  perform : Effect -> world -> outcome unit * world;
  (* whether the task was cancelled while a write was being drained *)
  cancelled : world -> bool * world
}.

(** ** State *)

Section Loop.
Context {libs : ReviewLibraries} {env : ReviewLoopEnv}.

(** Rejected invocations wait for the next checkpoint. *)
Record IO := mkIO {
  io_rejected : list (option Z * Z * list string * string);
  io_trace : list TraceItem;
  io_world : world
}.

(** The loop between audits, and the loop inside one. *)
Record LoopState := mkLoopState { ls_progress : ReviewLoopProgress; ls_io : IO }.
Record AuditState := mkAuditState { as_progress : ReviewLoopProgress; as_audit : AuditRoundProgress; as_io : IO }.

Class HasIO (S : Type) := { get_io : S -> IO; put_io : IO -> S -> S }.
#[global] Instance io_HasIO : HasIO IO := {| get_io := id; put_io io _ := io |}.
#[global] Instance loop_HasIO : HasIO LoopState := {| get_io := ls_io; put_io io s := mkLoopState (ls_progress s) io |}.
#[global] Instance audit_HasIO : HasIO AuditState :=
  {| get_io := as_io; put_io io s := mkAuditState (as_progress s) (as_audit s) io |}.

Section IOps.
Context {S : Type} {has : HasIO S}.

Definition with_io {A} (m : M IO A) : M S A := zoom get_io put_io m.

(** A call to the outside. *)
Definition outside {A} (f : world -> outcome A * world) : M S A :=
  with_io (fun io => let '(o, w) := f (io_world io) in (o, mkIO (io_rejected io) (io_trace io) w)).

Definition record_item (item : TraceItem) : M S unit :=
  with_io (modify (fun io => mkIO (io_rejected io) (io_trace io ++ [item]) (io_world io))).

(** An effect that took place is recorded. *)
Definition do_effect (e : Effect) : M S unit := outside (perform e) ;; record_item (Performed e).

(** Code: runtime/execution/review_loop/audit_io.py, complete_audit_io. *)
Definition complete_audit_io {A} (operation : M S A) : M S A :=
  result ← operation;
  was_cancelled ← outside (fun w => let '(c, w) := cancelled w in (Ok c, w));
  if was_cancelled : bool then raise CancelledError else ret result.

End IOps.

(** ** Executor rounds *)

Section Rounds.
Context {S : Type} {has : HasIO S} (context : ReviewLoopRunContext).

(** Code: runtime/execution/review_loop/prompts.py, resolve_previous_candidate_context. *)
Definition resolve_previous_candidate_context (previous : option (list ExecutorRoundArtifact)) : M S (option string) :=
  match previous with
  | None | Some [] => ret None
  | Some outputs =>
      let review_context := build_review_context outputs in
      outside (enforce_prompt_budget review_context) ;; ret (Some review_context)
  end.

(** Code: runtime/execution/review_loop/executor_round.py, _prepare_executor_prompt. *)
Definition prepare_executor_prompt (request : ExecutorRoundRequest) : M S string :=
  previous_candidate_context ← resolve_previous_candidate_context (xr_previous_executor_outputs request);
  resolved_prompt ←
    match xr_previous_executor_outputs request with
    | None => ret (cx_executor_prompt context)
    | Some _ => outside (resolve_prompt EXECUTOR (xr_audit_round_num request) (xr_round_num request))
    end;
  ret (build_executor_prompt resolved_prompt previous_candidate_context (xr_previous_review_packet request)
         (xr_initial_review_handoff request) (xr_recovery_attempt request)).

(** Code: runtime/execution/review_loop/executor_round.py, _run_executor. *)
Definition run_executor (request : ExecutorRoundRequest) (prompt : string) (provider : ProviderRecord)
    : M S (ExecutorRoundArtifact * Z) :=
  '(content, signature, warning_count) ← outside (call_executor request provider prompt);
  ret (mkExecutorArtifact provider (pr_task_id provider) content
         (xr_artifact_dir request +:+ "/" +:+ build_task_round_filename (pr_task_id provider) (xr_round_num request))
         (xr_audit_round_num request) (xr_round_num request) signature None None None, warning_count).

Definition with_identity (a : ExecutorRoundArtifact) (identity : CandidateIdentity) : ExecutorRoundArtifact :=
  mkExecutorArtifact (ea_provider a) (ea_task_id a) (ea_content a) (ea_output_file a) (ea_audit_round_num a)
    (ea_round_num a) (ea_output_signature a) (Some identity) (ea_producer_audit a) (ea_producer_round a).

(** Code: runtime/execution/review_loop/candidate_identity.py, bind_candidate_identities. *)
Definition bind_candidate_identities (request : ExecutorRoundRequest) (outputs : list ExecutorRoundArtifact)
    : M S (list ExecutorRoundArtifact) :=
  map_all (fun a => identity ← outside (bind_candidate_identity request a); ret (with_identity a identity)) outputs.

(** Code: runtime/execution/review_loop/executor_round.py, run_executor_round. *)
Definition run_executor_round (request : ExecutorRoundRequest) : M S ExecutorRoundRunResult :=
  record_item (ExecutorsStarted request) ;;
  prompt ← prepare_executor_prompt request;
  runs ← map_all (run_executor request prompt) (cx_executors context);
  outputs ← bind_candidate_identities request (map fst runs);
  ret (mkExecutorRun outputs (foldr Z.add 0 (map snd runs))).

(** ** Reviewer rounds *)

Definition is_runtime_error (e : exn) : bool :=
  match e with
  | RuntimeError _ | NodeExecutionError _ | InvocationFailureError _ _ | WorkspaceSetupError _
  | UnconfirmedCleanupError _ | ReviewPolicyError _ => true
  | _ => false
  end.
Definition is_os_error (e : exn) : bool := match e with OSError _ => true | _ => false end.

(** Code: runtime/execution/review_loop/reviewer_round.py, reviewer_output_path. *)
Definition reviewer_output_path (request : ReviewerRoundRequest) (provider : ProviderRecord) : string :=
  rr_artifact_dir request +:+ "/" +:+ build_task_round_filename (pr_task_id provider) (rr_round_num request).

(** Code: runtime/execution/review_loop/reviewer_round.py, reviewer_failure_kind. *)
Definition reviewer_failure_kind (error : exn) : string :=
  match error with
  | InvocationFailureError _ _ => "invocation_failed"
  | WorkspaceSetupError _ => "workspace_setup_failed"
  | _ => "node_execution_failed"
  end.

(** Code: runtime/execution/review_loop/reviewer_round.py, reviewer_failure_warning. *)
Definition reviewer_failure_warning (error : exn) : string :=
  match error with
  | InvocationFailureError _ _ =>
      "Reviewer invocation failed. Preserving failure state without treating provider metadata as review feedback."
  | _ => "Reviewer execution failed. Preserving failure state without treating the failure as review feedback."
  end.

(** The first loop of the collection: a process whose cleanup is unconfirmed wins. *)
Fixpoint first_unconfirmed_cleanup (completed : list (ReviewerInvocationResult + exn)) : option exn :=
  match completed with
  | [] => None
  | inr e :: t => if unconfirmed_process_cleanup e then Some e else first_unconfirmed_cleanup t
  | inl _ :: t => first_unconfirmed_cleanup t
  end.

(** The second loop, over the reviewers in their order. *)
Fixpoint collect_results (request : ReviewerRoundRequest) (completed : list (ReviewerInvocationResult + exn))
    (reviewers : list ProviderRecord)
    : outcome (list (ProviderRecord * ReviewerInvocationResult) * list ReviewerInvocationFailure) :=
  match completed with
  | [] => Ok ([], [])
  | result :: completed =>
      match reviewers with
      | [] => Raise (OtherError "IndexError" "tuple index out of range")
      | provider :: reviewers =>
          match result with
          | inr e =>
              if negb (is_expected_execution_failure e) then Raise e
              else
                '(results, failures) ← collect_results request completed reviewers;
                mret (results, mkInvocationFailure provider (reviewer_output_path request provider) e
                                 (reviewer_failure_kind e) (reviewer_failure_warning e) :: failures)
          | inl invocation =>
              '(results, failures) ← collect_results request completed reviewers;
              mret ((provider, invocation) :: results, failures)
          end
      end
  end.

(** Code: runtime/execution/review_loop/reviewer_round.py, collect_ordered_reviewer_results. *)
Definition collect_ordered_reviewer_results (request : ReviewerRoundRequest)
    (completed : list (ReviewerInvocationResult + exn))
    : outcome (list (ProviderRecord * ReviewerInvocationResult) * list ReviewerInvocationFailure) :=
  match first_unconfirmed_cleanup completed with
  | Some e => Raise e
  | None => collect_results request completed (cx_reviewers context)
  end.

(** Code: runtime/execution/review_loop/reviewer_round.py, _reviewer_output_failure. *)
Definition reviewer_output_failure (request : ReviewerRoundRequest) (provider : ProviderRecord) (error : exn)
    (failure_kind warning : string) : ReviewerInvocationFailure :=
  mkInvocationFailure provider (reviewer_output_path request provider) error failure_kind warning.

(** The failure of a ReviewerOutputPublicationError. *)
Definition publication_failure (request : ReviewerRoundRequest) (provider : ProviderRecord) (message : string)
    : ReviewerInvocationFailure :=
  reviewer_output_failure request provider (NodeExecutionError message) "output_publication_failed"
    ("Reviewer output could not be published safely. Preserving "
     +:+ "failure state without treating it as review feedback.").

(** The failure of a ReviewerOutputMissingError. *)
Definition missing_failure (request : ReviewerRoundRequest) (provider : ProviderRecord) : ReviewerInvocationFailure :=
  reviewer_output_failure request provider (NodeExecutionError "No review content was extracted.")
    "missing_review_content"
    ("Reviewer invocation completed, but no review content was extracted. "
     +:+ "Preserving failure state without sending provider metadata to the executor.").

(** Code: runtime/execution/review_loop/reviewer_round.py, read_reviewer_output. *)
Definition read_reviewer_output (request : ReviewerRoundRequest) (provider : ProviderRecord)
    (invocation : ReviewerInvocationResult) : M S (string + ReviewerInvocationFailure) :=
  raw_output ←
    try_except
      (raw ← outside (read_bound_invocation_output (iv_invocation_output_file invocation) (iv_output_signature invocation));
       ret (inl raw))
      (fun e => if is_runtime_error e
                then ret (inr (publication_failure request provider "Reviewer output did not match its bound provider bytes."))
                else raise e);
  ret (match raw_output with
       | inl raw => if not_blank raw then inl raw else inr (missing_failure request provider)
       | inr failure => inr failure
       end).

(** Code: runtime/execution/review_loop/reviewer_round.py, evaluate_reviewer_output. *)
Definition evaluate_reviewer_output (request : ReviewerRoundRequest) (provider : ProviderRecord)
    (invocation : ReviewerInvocationResult) : M S (ReviewerRoundArtifact + ReviewerInvocationFailure) :=
  raw_output ← read_reviewer_output request provider invocation;
  match raw_output with
  | inr failure => ret (inr failure)
  | inl raw =>
      evaluation ← lift (evaluate_review_output raw);
      let output_file := reviewer_output_path request provider in
      let markdown := normalized_markdown evaluation in
      published ←
        try_except
          (signature ← outside (publish_text markdown output_file (Z.of_nat (String.length markdown), sha256 markdown));
           ret (inl signature))
          (fun e => if is_os_error e || is_runtime_error e
                    then ret (inr (publication_failure request provider
                                     "Reviewer output did not match its bound runtime publication."))
                    else raise e);
      match published with
      | inr failure => ret (inr failure)
      | inl signature =>
          do_effect (PersistEvaluation output_file evaluation) ;;
          for_all (fun warning => do_effect (RuntimeLog "review_output_normalization" warning)) (warnings evaluation) ;;
          let review := mkReviewerArtifact provider (pr_task_id provider) evaluation output_file
                          (rr_audit_round_num request) (rr_round_num request) (Some signature) in
          do_effect (PersistReview review) ;;
          ret (inl review)
      end
  end.

(** Code: runtime/execution/review_loop/reviewer_round.py, evaluate_reviewer_outputs. *)
Definition evaluate_reviewer_outputs (request : ReviewerRoundRequest)
    (results : list (ProviderRecord * ReviewerInvocationResult))
    : M S (list ReviewerRoundArtifact * list ReviewerInvocationFailure) :=
  evaluated ← map_all (fun '(provider, invocation) => evaluate_reviewer_output request provider invocation) results;
  ret (omap (fun r => match r with inl a => Some a | inr _ => None end) evaluated,
       omap (fun r => match r with inl _ => None | inr f => Some f end) evaluated).

(** Code: runtime/execution/review_loop/reviewer_round.py, persist_reviewer_failures. *)
Definition persist_reviewer_failures (failures : list ReviewerInvocationFailure) : M S unit :=
  for_all (fun failure =>
    do_effect (PersistReviewerFailure failure) ;;
    do_effect (RuntimeLog "reviewer_invocation_failure" (if_warning failure))) failures.

(** Code: runtime/execution/review_loop/reviewer_round.py, enforce_reviewer_failure_policy. *)
Definition enforce_reviewer_failure_policy (failures : list ReviewerInvocationFailure) : M S unit :=
  if xp_continue_on_failure (en_execution_policy (cx_stage context)) then ret tt
  else
    match failures with
    | [] => ret tt
    | [failure] => raise (if_error failure)
    | _ =>
        let failure_details :=
          str_join "; " (map (fun f => pr_task_id (if_provider f) +:+ ": " +:+ exn_str (if_error f)) failures) in
        raise (NodeExecutionError ("Reviewer invocation failed for node " +:+ quoted (en_id (cx_stage context))
                                   +:+ ": " +:+ failure_details +:+ "."))
    end.

(** Code: runtime/execution/review_loop/reviewer_round.py:117-127.  The record of a failure in the
    progress and its checkpoint. *)
Definition checkpoint_failure (request : ReviewerRoundRequest) (f : ReviewerInvocationFailure) : CheckpointReviewerFailure :=
  mkReviewerFailure (pr_task_id (if_provider f)) (pr_role (if_provider f)) (or_one (rr_audit_round_num request))
    (rr_round_num request) (if_failure_kind f) (if_warning f).

(** Code: runtime/execution/review_loop/reviewer_round.py, build_reviewer_round_runtime.  The prompt of the
    round; its path checks and drift baseline belong to the environment. *)
Definition reviewer_round_prompt (request : ReviewerRoundRequest) : string :=
  build_reviewer_prompt (rr_reviewer_prompt_context request) (rr_review_context request)
    (rr_previous_review_packet request) (rr_review_context_heading request) (rr_review_context_note request)
    (if given (rr_reviewer_instruction request) then default "" (rr_reviewer_instruction request)
     else REVIEWER_ONLY_INSTRUCTION).

(** Code: runtime/execution/review_loop/reviewer_round.py, run_reviewer_round. *)
Definition run_reviewer_round (request : ReviewerRoundRequest) : M S ReviewerRoundRunResult :=
  record_item (ReviewersStarted request) ;;
  when ((1 <? Z.of_nat (length (cx_reviewers context))) && cx_print_console context)
    (do_effect (Console ("Running " +:+ str_int (Z.of_nat (length (cx_reviewers context)))
                         +:+ " reviewers in parallel for round " +:+ str_int (rr_round_num request) +:+ "..."))) ;;
  completed ← outside (gather_reviewers request (reviewer_round_prompt request));
  '(results, failures) ← lift (collect_ordered_reviewer_results request completed);
  '(outputs, output_failures) ← evaluate_reviewer_outputs request results;
  let failures := failures ++ output_failures in
  persist_reviewer_failures failures ;;
  enforce_reviewer_failure_policy failures ;;
  ret (mkReviewerRun outputs (foldr Z.add 0 (map (fun r => iv_drift_warning_count r.2) results))
         (Z.of_nat (length failures)) (map (checkpoint_failure request) failures)).

End Rounds.

(** ** One audit *)

Section Audit.
Context (context : ReviewLoopRunContext).

(** Code: runtime/execution/review_loop/types.py, AuditRoundRequest. *)
Record AuditRoundRequest := mkAuditRequest {
  aq_audit_dir : string;
  aq_audit_round_num : option Z;
  aq_start_round : Z;
  aq_start_phase : CheckpointPhase
}.

Context (request : AuditRoundRequest).

Definition stage_id : string := en_id (cx_stage context).
Definition max_round : Z := maximum_review_round (cx_remediation_depth context).

(** [(request.audit_round_num or 1) == audit_rounds_or_default(...)]. *)
Definition final_audit : bool :=
  or_one (aq_audit_round_num request) =? audit_rounds_or_default (xp_audit_rounds (en_execution_policy (cx_stage context))).

Definition modify_audit (f : AuditRoundProgress -> AuditRoundProgress) : M AuditState unit :=
  modify (fun s => mkAuditState (as_progress s) (f (as_audit s)) (as_io s)).
Definition modify_stall (f : ReviewStallState -> ReviewStallState) : M AuditState unit :=
  modify (fun s => mkAuditState (set_lp_stall (f (lp_stall (as_progress s))) (as_progress s)) (as_audit s) (as_io s)).
Definition current_stall (s : AuditState) : ReviewStallState := lp_stall (as_progress s).

(** The loop's progress as its owner sees it while the audit runs. *)
Definition live_progress (s : AuditState) : ReviewLoopProgress := set_lp_active_audit (Some (as_audit s)) (as_progress s).

(** Code: runtime/execution/review_loop/orchestration.py, _persist_review_loop_status. *)
Definition persist_review_loop_status {S} {has : HasIO S} (progress : ReviewLoopProgress) : M S unit :=
  payload ← lift (build_review_loop_status_payload stage_id progress);
  do_effect (PublishStatus payload).

Definition publish_status : M AuditState unit := progress ← read live_progress; persist_review_loop_status progress.

(** Code: runtime/execution/review_loop/orchestration.py, _discard_rejected_invocations. *)
Definition discard_rejected_invocations {S} {has : HasIO S} : M S unit :=
  rejected ← read (fun s => io_rejected (get_io s));
  for_all (fun '(audit, local_round, task_ids, reason) =>
    do_effect (DiscardLineage task_ids audit local_round reason)) rejected ;;
  with_io (modify (fun io => mkIO [] (io_trace io) (io_world io))).

(** Code: runtime/execution/review_loop/orchestration.py, _commit_transition.  The checkpoint itself is one
    effect (checkpoint.py, commit_checkpoint); the cursor moves when it is published. *)
Definition commit_transition (phase : CheckpointPhase) (local_round : Z) : M AuditState unit :=
  progress ← read live_progress;
  do_effect (CommitCheckpoint phase (lp_cursor_audit progress) local_round progress) ;;
  modify (fun s => mkAuditState (set_lp_cursor_round local_round (set_lp_next_phase phase (as_progress s)))
                     (as_audit s) (as_io s)) ;;
  complete_audit_io discard_rejected_invocations.

(** Code: runtime/execution/review_loop/audit_round.py, _reject_executor_lineage. *)
Definition reject_executor_lineage (task_ids : list string) (round_num : Z) (reason : string) : M AuditState unit :=
  with_io (modify (fun io =>
    mkIO (io_rejected io ++ [(aq_audit_round_num request, round_num, task_ids, reason)]) (io_trace io) (io_world io))).

Definition log_prefix : string := "Sequential review loop for node " +:+ quoted stage_id.

(** Code: runtime/execution/review_loop/validation.py, emit_invalid_candidate_warning. *)
Definition emit_invalid_candidate_warning (validation : CandidateValidationResult) : M AuditState unit :=
  match cv_reason validation with
  | None => ret tt
  | Some reason =>
      do_effect (RuntimeLog "review_loop_invalid_candidate"
        (log_prefix +:+ " skipped reviewer invocation because the current round candidate was invalid ("
         +:+ reason +:+ ")."))
  end.

(** Code: runtime/execution/review_loop/validation.py, emit_no_progress_warning. *)
Definition emit_no_progress_warning : M AuditState unit :=
  do_effect (RuntimeLog "review_loop_no_progress"
    (log_prefix +:+ " skipped reviewer invocation because the remediation deliverable was unchanged and review "
     +:+ "feedback remains unresolved. Two consecutive unchanged attempts stop the node.")).

(** Code: runtime/execution/review_loop/audit_round.py, emit_remediation_context_exhaustion_warning. *)
Definition emit_remediation_context_exhaustion_warning : M AuditState unit :=
  do_effect (RuntimeLog "review_loop_remediation_context_exhausted"
    (log_prefix +:+ " stopped remediation after provider session context exhaustion. Continuing "
     +:+ "with the latest valid candidate.")).

(** Code: runtime/execution/review_loop/validation.py, emit_review_stall_warning. *)
Definition emit_review_stall_warning (previous_unresolved current_unresolved : list string)
    (previous_executor_fingerprint current_executor_fingerprint : option string) : M AuditState unit :=
  let repeated_fingerprints :=
    sorted_set (List.filter (fun f => str_in f current_unresolved) previous_unresolved) in
  match repeated_fingerprints with
  | [] => ret tt
  | _ =>
      do_effect (RuntimeLog "review_stall_detection"
        (if bool_decide (previous_executor_fingerprint = current_executor_fingerprint)
         then log_prefix +:+ " repeated unresolved review state without executor output changes. This may indicate "
              +:+ "disagreement between executor and reviewer or simple non-progress."
         else log_prefix +:+ " repeated unresolved review state after executor output changed. The applied fixes "
              +:+ "may not be addressing the remaining reviewer concerns."))
  end.

(** Code: runtime/execution/review_loop/audit_review_outcome.py, emit_review_stall_warning_if_needed. *)
Definition emit_review_stall_warning_if_needed (state : ReviewRoundState) : M AuditState unit :=
  progress ← read as_audit;
  match ap_previous_executor_fingerprint progress with
  | None => ret tt
  | Some previous =>
      emit_review_stall_warning (ap_previous_unresolved_fingerprints progress)
        (rs_current_unresolved_fingerprints state) (Some previous) (rs_current_executor_fingerprint state)
  end.

(** Code: runtime/execution/review_loop/audit_review_outcome.py, review_phase_reached_consensus. *)
Definition review_phase_reached_consensus (state : ReviewRoundState) (round_num : Z) : M AuditState bool :=
  if 0 <? rs_reviewer_failure_count state then ret false
  else if negb (check_consensus (map ra_evaluation (rs_reviewer_outputs state))) then ret false
  else
    when (cx_print_console context)
      (do_effect (Console ("[green bold]Consensus reached in round " +:+ str_int round_num +:+ "![/]"))) ;;
    ret true.

(** Code: runtime/execution/review_loop/audit_round.py, AuditIterationOutcome. *)
Inductive AuditIterationOutcome : Type := ITER_CONTINUE | ITER_STOP | ITER_CONSENSUS.

(** A candidate ready for review, or the outcome of the iteration without one.
    Code: runtime/execution/review_loop/audit_round.py, ReviewCandidate. *)
Inductive Acquired : Type := ReviewCandidate (fingerprint : option string) | NoCandidate (outcome : AuditIterationOutcome).

(** Code: runtime/execution/review_loop/validation.py, is_no_progress_candidate. *)
Definition is_no_progress_candidate (progress : AuditRoundProgress) (fingerprint : option string) (round_num : Z) : bool :=
  (1 <? round_num) && bool_decide (fingerprint <> None) && bool_decide (ap_previous_review_packet progress <> None)
  && bool_decide (ap_previous_executor_fingerprint progress = fingerprint).

(** Code: runtime/execution/review_loop/audit_round.py, record_invalid_candidate_and_should_stop. *)
Definition record_invalid_candidate_and_should_stop (validation : CandidateValidationResult) (round_num : Z)
    : M AuditState bool :=
  modify_audit record_invalid_candidate ;;
  modify_stall reset_stall_count ;;
  progress ← read as_audit;
  reject_executor_lineage (map ea_task_id (ap_executor_outputs progress)) round_num
    (if given (cv_reason validation) then default "" (cv_reason validation) else "invalid_candidate") ;;
  emit_invalid_candidate_warning validation ;;
  match ap_latest_valid_executor_outputs progress with
  | None => ret true
  | Some latest_valid =>
      if round_num =? 1 then ret true
      else modify_audit (set_ap_executor_outputs latest_valid) ;; ret false
  end.

(** Code: runtime/execution/review_loop/audit_round.py, record_no_progress_candidate. *)
Definition record_no_progress_candidate (round_num : Z) : M AuditState unit :=
  modify_audit record_no_progress ;;
  progress ← read as_audit;
  reject_executor_lineage (map ea_task_id (ap_executor_outputs progress)) round_num "no_progress_candidate" ;;
  modify_audit (set_ap_executor_outputs (default [] (ap_latest_valid_executor_outputs progress))) ;;
  emit_no_progress_warning.

(** [self.stall.record_unchanged_attempt()]. *)
Definition note_unchanged_attempt : M AuditState bool :=
  stalled ← read (fun s => fst (record_unchanged_attempt (current_stall s)));
  modify_stall (fun st => snd (record_unchanged_attempt st)) ;;
  ret stalled.

(** Code: runtime/execution/review_loop/audit_round.py, _prepare_review_candidate. *)
Definition prepare_review_candidate (round_num : Z) : M AuditState Acquired :=
  progress ← read as_audit;
  let validation := validate_executor_outputs (ap_executor_outputs progress) in
  if negb (cv_valid validation) then
    should_stop ← record_invalid_candidate_and_should_stop validation round_num;
    ret (NoCandidate (if should_stop : bool then ITER_STOP else ITER_CONTINUE))
  else
    let fingerprint := build_executor_output_fingerprint (ap_executor_outputs progress) in
    if is_no_progress_candidate progress fingerprint round_num then
      record_no_progress_candidate round_num ;;
      stalled ← note_unchanged_attempt;
      if stalled : bool then
        modify_audit (set_ap_stop_reason (Some NO_PROGRESS)) ;;
        ret (NoCandidate ITER_STOP)
      else ret (NoCandidate ITER_CONTINUE)
    else
      st ← read current_stall;
      when (bool_decide (fingerprint = None) || negb (bool_decide (fingerprint = candidate_fingerprint st)))
        (modify_stall reset_stall_count) ;;
      ret (ReviewCandidate fingerprint).

(** Code: runtime/execution/review_loop/audit_round.py, run_remediation_executor_round. *)
Definition run_remediation_executor_round (round_num : Z) : M AuditState unit :=
  if round_num =? 1 then ret tt
  else
    progress ← read as_audit;
    st ← read current_stall;
    run ← run_executor_round context
            (mkExecutorRequest (aq_audit_dir request) (ap_previous_review_packet progress)
               (ap_previous_executor_outputs progress) (aq_audit_round_num request) round_num None
               (0 <? consecutive_round_count st));
    modify_audit (set_ap_executor_outputs (xo_outputs run)) ;;
    modify_audit (add_artifact_drift_warnings (xo_drift_warning_count run)).

(** Code: runtime/execution/review_loop/audit_round.py, recover_after_remediation_context_exhaustion. *)
Definition recover_after_remediation_context_exhaustion (round_num : Z) (kind : string) : M AuditState bool :=
  progress ← read as_audit;
  match ap_latest_valid_executor_outputs progress with
  | None => ret false
  | Some latest_valid =>
      if (round_num =? 1) || negb (bool_decide (kind = "provider_session_context_exhausted")) then ret false
      else
        reject_executor_lineage (map pr_task_id (cx_executors context)) round_num "remediation_context_exhausted" ;;
        modify_audit (set_ap_executor_outputs latest_valid) ;;
        emit_remediation_context_exhaustion_warning ;;
        ret true
  end.

(** Code: runtime/execution/review_loop/audit_round.py, _completed_rejection_survives_cancellation. *)
Definition completed_rejection_survives_cancellation (s : AuditState) (round_num : Z)
    (completed_candidate : option Acquired) : bool :=
  let stalled := bool_decide (ap_stop_reason (as_audit s) = Some NO_PROGRESS)
                 && negb (xp_continue_on_failure (en_execution_policy (cx_stage context))) in
  let exhausted :=
    match completed_candidate with
    | Some (NoCandidate outcome) =>
        final_audit
        && (match outcome with ITER_STOP => true | _ => false end || (round_num =? max_round))
        && (bool_decide (ap_latest_valid_executor_outputs (as_audit s) = None)
            || negb (fst (consensus_failure_allows_continuation (cx_stage context))))
    | _ => false
    end in
  stalled || exhausted.

(** The handler of a failed remediation round: recover or propagate, unless a
    cancellation meets a rejection that is final anyway. *)
Definition handle_remediation_failure (round_num : Z) (e : exn) : M AuditState Acquired :=
  match e with
  | InvocationFailureError kind _ =>
      try_except
        (complete_audit_io
           (recovered ← recover_after_remediation_context_exhaustion round_num kind;
            if recovered : bool then ret tt else raise e))
        (fun e => match e with
                  | CancelledError =>
                      if negb final_audit || fst (consensus_failure_allows_continuation (cx_stage context))
                      then raise e else ret tt
                  | _ => raise e
                  end) ;;
      ret (NoCandidate ITER_STOP)
  | _ => raise e
  end.

(** The preparation, drained through a cancellation; the candidate it completed
    is known to the handler. *)
Definition complete_candidate (round_num : Z) : M AuditState Acquired := fun s =>
  match prepare_review_candidate round_num s with
  | (Ok candidate, s') =>
      try_except (complete_audit_io (ret candidate))
        (fun e => match e with
                  | CancelledError =>
                      survives ← read (fun s => completed_rejection_survives_cancellation s round_num (Some candidate));
                      if survives : bool then ret (NoCandidate ITER_STOP) else raise e
                  | _ => raise e
                  end) s'
  | (Raise CancelledError, s') =>
      if completed_rejection_survives_cancellation s' round_num None
      then (Ok (NoCandidate ITER_STOP), s') else (Raise CancelledError, s')
  | r => r
  end.

(** Code: runtime/execution/review_loop/audit_round.py, _acquire_review_candidate. *)
Definition acquire_review_candidate (round_num : Z) : M AuditState Acquired :=
  if (round_num =? aq_start_round request) && bool_decide (aq_start_phase request = PhaseReviewers) then
    progress ← read as_audit;
    ret (ReviewCandidate (build_executor_output_fingerprint (ap_executor_outputs progress)))
  else
    ran ← try_except (run_remediation_executor_round round_num ;; ret None)
            (fun e => stopped ← handle_remediation_failure round_num e; ret (Some stopped));
    match ran with
    | Some stopped => ret stopped
    | None =>
        candidate ← complete_candidate round_num;
        match candidate with
        | ReviewCandidate _ => commit_transition PhaseReviewers round_num ;; ret candidate
        | NoCandidate _ => ret candidate
        end
    end.

(** Code: runtime/execution/review_loop/audit_publication.py, persist_round_review_inbox. *)
Definition persist_round_review_inbox (reviewer_outputs : list ReviewerRoundArtifact) (round_num : Z) : M AuditState unit :=
  progress ← read as_audit;
  match render_review_inbox stage_id (aq_audit_round_num request) round_num (ap_executor_outputs progress)
          (ap_previous_executor_outputs progress) reviewer_outputs with
  | Some inbox_markdown => do_effect (PersistInbox (aq_audit_dir request) round_num inbox_markdown)
  | None => ret tt
  end.

(** Code: runtime/execution/review_loop/audit_round.py, _resolve_reviewer_prompt. *)
Definition resolve_reviewer_prompt (round_num : Z) : M AuditState string :=
  if nonempty (cx_reviewer_prompt_context context) then ret (cx_reviewer_prompt_context context)
  else outside (resolve_prompt REVIEWER (aq_audit_round_num request) round_num).

(** Code: runtime/execution/review_loop/audit_round.py, _build_reviewer_round_request. *)
Definition build_reviewer_round_request (round_num : Z) : M AuditState ReviewerRoundRequest :=
  prompt ← resolve_reviewer_prompt round_num;
  progress ← read as_audit;
  ret (mkReviewerRequest (aq_audit_dir request) prompt (build_review_context (ap_executor_outputs progress))
         (ap_previous_review_packet progress) (aq_audit_round_num request) round_num
         "Current executor output(s)" None None).

(** Code: runtime/execution/review_loop/audit_round.py, run_review_phase. *)
Definition run_review_phase (fingerprint : option string) (round_num : Z) : M AuditState ReviewRoundState :=
  reviewer_request ← complete_audit_io (build_reviewer_round_request round_num);
  run ← run_reviewer_round context reviewer_request;
  modify_audit (record_completed_review run round_num) ;;
  complete_audit_io (persist_round_review_inbox (ro_outputs run) round_num) ;;
  ret (mkRoundState (ro_outputs run) (ro_reviewer_failure_count run)
         (render_unresolved_review_packet (ro_outputs run))
         (collect_unresolved_fingerprints (ro_outputs run)) fingerprint).

(** Code: runtime/execution/review_loop/audit_round.py, _execute_audit_iteration. *)
Definition execute_audit_iteration (round_num : Z) : M AuditState AuditIterationOutcome :=
  candidate ← acquire_review_candidate round_num;
  match candidate with
  | NoCandidate outcome => ret outcome
  | ReviewCandidate fingerprint =>
      state ← run_review_phase fingerprint round_num;
      complete_audit_io (emit_review_stall_warning_if_needed state) ;;
      consensus ← complete_audit_io (review_phase_reached_consensus state round_num);
      if consensus : bool then
        modify_stall (observe_review fingerprint (rs_reviewer_outputs state)) ;;
        ret ITER_CONSENSUS
      else
        modify_audit (advance_review_state state) ;;
        latest_reviews ← read (fun s => ap_latest_reviewer_outputs (as_audit s));
        modify_stall (observe_review (rs_current_executor_fingerprint state) latest_reviews) ;;
        ret ITER_CONTINUE
  end.

(** Code: runtime/execution/review_loop/audit_round.py, execute_audit_round_iterations. *)
Fixpoint audit_iterations (rounds : list Z) : M AuditState AuditRoundResult :=
  match rounds with
  | [] => read (fun s => to_result false false (as_audit s))
  | round_num :: rounds =>
      modify_audit (set_ap_last_round_num round_num) ;;
      complete_audit_io publish_status ;;
      outcome ← execute_audit_iteration round_num;
      match outcome with
      | ITER_STOP => read (fun s => to_result false false (as_audit s))
      | ITER_CONSENSUS => read (fun s => to_result true (round_num =? 1) (as_audit s))
      | ITER_CONTINUE =>
          when (round_num <? max_round) (commit_transition PhaseExecutors (round_num + 1)) ;;
          audit_iterations rounds
      end
  end.

(** [range(first, last + 1)]. *)
Definition z_range (first last : Z) : list Z := seqZ first (last + 1 - first).

Definition execute_audit_round_iterations : M AuditState AuditRoundResult :=
  audit_iterations (z_range (aq_start_round request) max_round).

(** Code: runtime/execution/review_loop/audit_round.py, _completed_review_requires_failure. *)
Definition completed_review_requires_failure (s : AuditState) : bool :=
  let progress := as_audit s in
  final_audit && (ap_last_round_num progress =? max_round)
  && (ap_selected_round_num progress =? ap_last_round_num progress)
  && negb (fst (consensus_failure_allows_continuation (cx_stage context)))
  && negb (check_consensus (map ra_evaluation (ap_latest_reviewer_outputs progress))).

(** Code: runtime/execution/review_loop/audit_round.py, execute_single_audit_round. *)
Definition execute_single_audit_round : M AuditState AuditRoundResult :=
  try_except execute_audit_round_iterations
    (fun e =>
       settled ← read completed_review_requires_failure;
       if bool_decide (e = CancelledError) && settled
       then read (fun s => to_result false false (as_audit s))
       else complete_audit_io (publish_status ;; raise e)).

End Audit.

(** ** The loop over audits *)

Section Orchestration.
Context (context : ReviewLoopRunContext).

Notation node_id := (en_id (cx_stage context)).

Definition modify_progress (f : ReviewLoopProgress -> ReviewLoopProgress) : M LoopState unit :=
  modify (fun s => mkLoopState (f (ls_progress s)) (ls_io s)).

(** A status published from the loop; its callers complete the write.
    Code: runtime/execution/review_loop/orchestration.py, _publish_review_loop_status. *)
Definition publish_review_loop_status : M LoopState unit :=
  progress ← read ls_progress; persist_review_loop_status context progress.

(** The transition committed between audits.
    Code: runtime/execution/review_loop/orchestration.py, _commit_transition. *)
Definition commit_loop_transition (phase : CheckpointPhase) (local_round : Z) : M LoopState unit :=
  progress ← read ls_progress;
  do_effect (CommitCheckpoint phase (lp_cursor_audit progress) local_round progress) ;;
  modify_progress (fun p => set_lp_cursor_round local_round (set_lp_next_phase phase p)) ;;
  complete_audit_io discard_rejected_invocations.

(** Code: runtime/execution/review_loop/initial_candidate.py, _initial_review_handoff_from_result. *)
Definition initial_review_handoff_from_result (run : ReviewerRoundRunResult) : string :=
  if 0 <? ro_reviewer_failure_count run then INITIAL_REVIEW_FAILURE_HANDOFF
  else match render_unresolved_review_packet (ro_outputs run) with
       | Some unresolved_packet => unresolved_packet
       | None => if check_consensus (map ra_evaluation (ro_outputs run)) then INITIAL_REVIEW_APPROVED_HANDOFF
                 else INITIAL_REVIEW_BLOCKED_HANDOFF
       end.

(** Code: runtime/execution/review_loop/initial_candidate.py, _should_run_initial_pre_review. *)
Definition should_run_initial_pre_review (progress : ReviewLoopProgress) (audit_round_num : Z) : bool :=
  bool_decide (xp_review_starts_with (en_execution_policy (cx_stage context)) = StartsReviewer)
  && (audit_round_num =? 1)
  && match lp_latest_executor_outputs progress with None => true | Some _ => false end.

(** Code: runtime/execution/review_loop/initial_candidate.py, _initial_pre_review_prompt. *)
Definition initial_pre_review_prompt (audit_context : option Z) : M LoopState string :=
  if nonempty (cx_reviewer_prompt_context context) then ret (cx_reviewer_prompt_context context)
  else outside (resolve_prompt REVIEWER audit_context 0).

(** Code: runtime/execution/review_loop/initial_candidate.py, initial_pre_review_handoff. *)
Definition initial_pre_review_handoff (audit_dir : string) (audit_context : option Z) (audit_round_num : Z)
    : M LoopState (option string) :=
  progress ← read ls_progress;
  if (audit_round_num =? 1) && lp_initial_review_completed progress then
    ret (Some (initial_review_handoff_from_result
      (mkReviewerRun (lp_initial_reviews progress) 0 (Z.of_nat (length (lp_initial_failures progress)))
         (lp_initial_failures progress))))
  else if negb (should_run_initial_pre_review progress audit_round_num) then ret None
  else
    prompt ← complete_audit_io (initial_pre_review_prompt audit_context);
    run ← run_reviewer_round context
            (mkReviewerRequest audit_dir INITIAL_REVIEW_TASK_CONTEXT prompt None audit_context 0
               "Existing review context"
               (Some ("No same-node executor candidate exists yet. Review the existing "
                      +:+ "context before the local round 1 executor writes a canonical candidate."))
               (Some INITIAL_REVIEWER_ONLY_INSTRUCTION));
    modify_progress (record_initial_reviewer_run run) ;;
    commit_loop_transition PhaseExecutors 1 ;;
    ret (Some (initial_review_handoff_from_result run)).

(** [a or b or 1] on optional round numbers. *)
Definition producer_of (own carried : option Z) (fallback : Z) : Z :=
  match own with
  | Some z => if z =? 0 then match carried with Some c => if c =? 0 then fallback else c | None => fallback end else z
  | None => match carried with Some c => if c =? 0 then fallback else c | None => fallback end
  end.

(** Code: runtime/execution/review_loop/initial_candidate.py, seed_executor_outputs. *)
Definition seed_executor_output (artifact_dir : string) (audit_round_num : option Z) (round_num : Z)
    (artifact : ExecutorRoundArtifact) : M LoopState ExecutorRoundArtifact :=
  let output_file := artifact_dir +:+ "/" +:+ build_task_round_filename (ea_task_id artifact) round_num in
  match ea_output_signature artifact with
  | None => raise (RuntimeError ("Cannot seed an executor output without a bound runtime publication: "
                                 +:+ ea_output_file artifact))
  | Some bound =>
      content ← outside (read_bound_invocation_output (ea_output_file artifact) bound);
      if negb (bool_decide (content = ea_content artifact)) then
        raise (RuntimeError ("Executor content does not match its bound output bytes: " +:+ ea_output_file artifact))
      else
        output_signature ← outside (publish_invocation_output (ea_output_file artifact) output_file bound);
        ret (mkExecutorArtifact (ea_provider artifact) (ea_task_id artifact) (ea_content artifact) output_file
               audit_round_num round_num (Some output_signature) (ea_candidate_identity artifact)
               (Some (producer_of (ea_producer_audit artifact) (ea_audit_round_num artifact) 1))
               (Some (producer_of (ea_producer_round artifact) None (ea_round_num artifact))))
  end.

(** Code: runtime/execution/review_loop/initial_candidate.py, initial_audit_executor_outputs. *)
Definition initial_audit_executor_outputs (audit_dir : string) (audit_context : option Z)
    (initial_review_handoff : option string) : M LoopState (list ExecutorRoundArtifact) :=
  progress ← read ls_progress;
  match lp_latest_executor_outputs progress with
  | Some latest => complete_audit_io (map_all (seed_executor_output audit_dir audit_context 1) latest)
  | None =>
      run ← run_executor_round context
              (mkExecutorRequest audit_dir None None audit_context 1 initial_review_handoff false);
      modify_progress (record_initial_executor_run run) ;;
      ret (xo_outputs run)
  end.

(** The audit runs on the loop's progress and its active audit; it leaves the
    audit active. *)
Definition in_audit {A} (active : AuditRoundProgress) (m : M AuditState A) : M LoopState A := fun s =>
  let '(o, a) := m (mkAuditState (ls_progress s) active (ls_io s)) in
  (o, mkLoopState (set_lp_active_audit (Some (as_audit a)) (as_progress a)) (as_io a)).

(** Code: runtime/execution/review_loop/orchestration.py, _print_audit_round_header. *)
Definition print_audit_round_header (audit_round_num : Z) : M LoopState unit :=
  when (cx_print_console context)
    (do_effect (Console
       (lf_str +:+ if 1 <? cx_audit_rounds context
                   then "[bold]Audit round " +:+ str_int audit_round_num +:+ "/" +:+ str_int (cx_audit_rounds context) +:+ "[/]"
                   else "[bold]Review cycle (depth " +:+ str_int (cx_remediation_depth context) +:+ ")[/]"))).

(** Code: runtime/execution/review_loop/orchestration.py, _execute_review_loop_audit_round. *)
Definition execute_review_loop_audit_round (audit_round_num : Z) : M LoopState AuditRoundResult :=
  audit_dir ← complete_audit_io (ret (audit_round_dir (cx_node_dir context) (cx_audit_rounds context) audit_round_num));
  let audit_context := audit_round_context (Some (cx_audit_rounds context)) audit_round_num in
  complete_audit_io (print_audit_round_header audit_round_num) ;;
  progress ← read ls_progress;
  match lp_active_audit progress with
  | Some _ => ret tt
  | None =>
      when ((1 <? audit_round_num) && match lp_latest_executor_outputs progress with None => true | _ => false end)
        (commit_loop_transition PhaseExecutors 1) ;;
      handoff ← initial_pre_review_handoff audit_dir audit_context audit_round_num;
      modify_progress (set_lp_last_round_num 1) ;;
      outputs ← initial_audit_executor_outputs audit_dir audit_context handoff;
      modify_progress (set_lp_active_audit (Some
        (fresh_audit outputs (if cv_valid (validate_executor_outputs outputs) then Some outputs else None))))
  end ;;
  progress ← read ls_progress;
  match lp_active_audit progress with
  | None => raise (OtherError "AttributeError" "active_audit")
  | Some active =>
      audit_result ← in_audit active (execute_single_audit_round context
        (mkAuditRequest audit_dir audit_context (lp_cursor_round progress) (lp_next_phase progress)));
      zoom ls_progress (fun p s => mkLoopState p (ls_io s)) (record_audit_result audit_result) ;;
      ret audit_result
  end.

(** ** Terminal decisions *)

(** Code: runtime/execution/review_loop/completion_policy.py, _emit_consensus_exhaustion. *)
Definition emit_consensus_exhaustion (executed_audit_rounds : Z) (continuation_reason : option string) : M LoopState unit :=
  let message := "Sequential node " +:+ quoted node_id +:+ " failed to reach consensus after "
                 +:+ str_int executed_audit_rounds +:+ " audit rounds." in
  do_effect (RuntimeLog "review_loop_consensus_exhausted"
    (match continuation_reason with
     | Some reason => message +:+ " Continuing due to " +:+ reason +:+ "."
     | None => message
     end)).

(** Code: runtime/execution/review_loop/completion_policy.py, _emit_no_canonical_candidate. *)
Definition emit_no_canonical_candidate : M LoopState unit :=
  do_effect (RuntimeLog "review_loop_no_canonical_candidate"
    ("Sequential node " +:+ quoted node_id +:+ " did not produce any valid canonical candidate across all audit rounds.")).

(** Code: runtime/execution/review_loop/completion_policy.py, apply_exhausted_review_loop_policy. *)
Definition apply_exhausted_review_loop_policy (continuation_reason : option string) : M LoopState unit :=
  progress ← read ls_progress;
  match lp_latest_executor_outputs progress with
  | None =>
      emit_no_canonical_candidate ;;
      raise (ReviewPolicyError ("Sequential node " +:+ quoted node_id +:+ " did not produce a valid canonical candidate."))
  | Some _ =>
      emit_consensus_exhaustion (lp_executed_audit_rounds progress) continuation_reason ;;
      match continuation_reason with
      | None =>
          raise (ReviewPolicyError ("Sequential node " +:+ quoted node_id +:+ " failed to reach consensus after "
                                    +:+ str_int (lp_executed_audit_rounds progress) +:+ " audit rounds."))
      | Some reason =>
          when (cx_print_console context)
            (do_effect (Console ("[yellow]WARN[/] Sequential node " +:+ quoted node_id
               +:+ " failed to reach consensus after " +:+ str_int (lp_executed_audit_rounds progress)
               +:+ " audit rounds. Continuing due to " +:+ reason +:+ ".")))
      end
  end.

(** Code: runtime/execution/review_loop/completion_policy.py, apply_stalled_review_loop_policy. *)
Definition apply_stalled_review_loop_policy : M LoopState unit :=
  progress ← read ls_progress;
  let continued := lp_continued_after_stop progress in
  let message := "Sequential node " +:+ quoted node_id +:+ " stopped with no_progress after "
                 +:+ str_int (consecutive_round_count (lp_stall progress))
                 +:+ " consecutive unchanged remediation attempts. Review feedback remains unresolved."
                 +:+ (if continued then " Continuing due to continue_on_failure=true." else "") in
  do_effect (RuntimeLog "review_loop_stopped" message) ;;
  if continued then ret tt else raise (ReviewPolicyError message).

(** Code: runtime/execution/review_loop/orchestration.py, _publish_exhausted_rejection. *)
Definition publish_exhausted_rejection : M LoopState unit :=
  modify_progress (mark_consensus_exhausted false) ;;
  progress ← read ls_progress;
  when (match lp_latest_executor_outputs progress with None => true | Some _ => false end)
    (modify_progress (set_lp_stop_reason (Some NO_VALID_CANDIDATE))) ;;
  publish_review_loop_status ;;
  apply_exhausted_review_loop_policy None.

Definition reset_cursor : M LoopState unit :=
  modify_progress (fun p => set_lp_next_phase PhaseExecutors (set_lp_cursor_round 1 p)).

(** Code: runtime/execution/review_loop/orchestration.py, _publish_final_audit_rejection. *)
Definition publish_final_audit_rejection : M LoopState unit :=
  publish_review_loop_status ;;
  reset_cursor ;;
  publish_exhausted_rejection.

(** Code: runtime/execution/review_loop/orchestration.py, _finish_exhausted_review_loop. *)
Definition finish_exhausted_review_loop : M LoopState unit :=
  let '(should_continue, reason) := consensus_failure_allows_continuation (cx_stage context) in
  progress ← read ls_progress;
  if match lp_latest_executor_outputs progress with None => true | Some _ => negb should_continue end then
    complete_audit_io publish_exhausted_rejection
  else
    modify_progress (mark_consensus_exhausted true) ;;
    complete_audit_io publish_review_loop_status ;;
    complete_audit_io (apply_exhausted_review_loop_policy (Some reason)).

(** Code: runtime/execution/review_loop/orchestration.py, finish_stalled_review_loop. *)
Definition finish_stalled_review_loop : M LoopState unit :=
  modify_progress (set_lp_continued_after_stop (xp_continue_on_failure (en_execution_policy (cx_stage context)))) ;;
  publish_review_loop_status ;;
  apply_stalled_review_loop_policy.

(** Code: runtime/execution/review_loop/orchestration.py, _publish_stalled_rejection. *)
Definition publish_stalled_rejection : M LoopState unit :=
  publish_review_loop_status ;; finish_stalled_review_loop.

(** Code: runtime/execution/review_loop/orchestration.py, _finish_stalled_audit. *)
Definition finish_stalled_audit : M LoopState unit :=
  if negb (xp_continue_on_failure (en_execution_policy (cx_stage context))) then
    complete_audit_io publish_stalled_rejection
  else
    complete_audit_io publish_review_loop_status ;;
    modify_progress (set_lp_continued_after_stop true) ;;
    complete_audit_io publish_review_loop_status ;;
    complete_audit_io apply_stalled_review_loop_policy.

(** The body of the loop over audits, with what follows it.
    Code: runtime/execution/review_loop/orchestration.py:217-248. *)
Fixpoint run_audits (audits : list Z) : M LoopState unit :=
  match audits with
  | [] => finish_exhausted_review_loop
  | audit_round_num :: audits =>
      modify_progress (fun p => set_lp_executed_audit_rounds audit_round_num (set_lp_cursor_audit audit_round_num p)) ;;
      audit_result ← execute_review_loop_audit_round audit_round_num;
      if bool_decide (ar_stop_reason audit_result = Some NO_PROGRESS) then finish_stalled_audit
      else
        let can_finish := review_loop_can_finish context audit_result audit_round_num in
        progress ← read ls_progress;
        if (audit_round_num =? cx_audit_rounds context) && negb can_finish
           && match lp_latest_executor_outputs progress with
              | None => true
              | Some _ => negb (fst (consensus_failure_allows_continuation (cx_stage context)))
              end
        then complete_audit_io publish_final_audit_rejection
        else
          complete_audit_io publish_review_loop_status ;;
          reset_cursor ;;
          if can_finish then
            modify_progress (set_lp_stop_reason (Some CONSENSUS)) ;;
            complete_audit_io publish_review_loop_status
          else run_audits audits
  end.

(** Code: runtime/execution/review_loop/orchestration.py, execute_review_loop_audits. *)
Definition execute_review_loop_audits : M LoopState unit :=
  progress ← read ls_progress;
  run_audits (z_range (lp_cursor_audit progress) (cx_audit_rounds context)).

(** Code: runtime/execution/review_loop/orchestration.py, _validate_final_findings. *)
Definition validate_final_findings : M LoopState unit :=
  progress ← read ls_progress;
  try_except (do_effect (ValidateFindings (default [] (lp_latest_executor_outputs progress))))
    (fun e => match e with
              | OtherError "FindingsExtractionError" message =>
                  do_effect (CloseCheckpoint message) ;; raise (NodeExecutionError message)
              | _ => raise e
              end).

(** Code: runtime/execution/review_loop/orchestration.py, _reject_review_loop. *)
Definition reject_review_loop (error : exn) : M LoopState unit :=
  do_effect (CloseCheckpoint (exn_str error)) ;;
  discard_rejected_invocations ;;
  raise error.

(** Code: runtime/execution/review_loop/orchestration.py, _publish_review_loop_failure. *)
Definition publish_review_loop_failure (error : exn) : M LoopState unit :=
  publish_review_loop_status ;; raise error.

(** The body of the stage once its context is built.
    Code: runtime/execution/review_loop/orchestration.py:128-145. *)
Definition run_review_loop : M LoopState unit :=
  try_except
    (execute_review_loop_audits ;;
     complete_audit_io validate_final_findings ;;
     progress ← read ls_progress;
     commit_loop_transition PhaseFinalize (lp_last_round_num progress))
    (fun e =>
       match e with
       | ReviewPolicyError _ => complete_audit_io (reject_review_loop e)
       | CancelledError =>
           modify_progress (fun p => set_lp_consensus_reached false (set_lp_stop_reason (Some CANCELLED) p)) ;;
           complete_audit_io (publish_review_loop_failure e)
       | _ =>
           modify_progress (fun p => match lp_stop_reason p with
                                     | None => set_lp_stop_reason (Some FAILED) p
                                     | Some _ => p
                                     end) ;;
           complete_audit_io (publish_review_loop_failure e)
       end).

End Orchestration.

(** Code: runtime/execution/review_loop/orchestration.py, execute_review_loop_stage.  The progress a checkpoint
    restores, or fresh progress, is in the state already; the prompts are the
    environment's. *)
Definition execute_review_loop_stage (stage : PreflightExecutionNode) (node_dir : string) (print_console : bool)
    : M LoopState unit :=
  '(executors, reviewers) ← lift (split_sequential_review_loop_providers (en_id stage) (en_provider_records stage));
  progress ← complete_audit_io (read ls_progress);
  if bool_decide (lp_next_phase progress = PhaseFinalize) then
    complete_audit_io (do_effect (RestoreDiagnostics progress))
  else
    context ← complete_audit_io (
      executor_prompt ← outside (resolve_prompt EXECUTOR None 0);
      reviewer_prompt_context ← outside (resolve_prompt REVIEWER None 0);
      depth ← lift (resolve_remediation_depth stage);
      audit_rounds ← lift (resolve_audit_rounds stage);
      ret (mkContext stage node_dir executors reviewers executor_prompt reviewer_prompt_context depth audit_rounds
             print_console));
    run_review_loop context.

End Loop.
