(* ===== verification/ReviewLoopRounds.v ===== *)
(** What a round of the review loop does to its state: the frame of every
    outside operation, and the results of executor and reviewer rounds. *)

From Stdlib Require Import ZArith Lia Ascii String.
From stdpp Require Import base gmap sets list list_numbers strings.
From S2P Require Import Prelude PyStr Models Scheduler PlanRecords Artifacts PlanContract.
From S2P Require Import Reviews ReviewCandidates StateExn ReviewLoopState ReviewLoop.

Open Scope string_scope.
Open Scope list_scope.
Open Scope Z_scope.

Lemma Forall2_map_eq {A B C} (f : A -> C) (g : B -> C) l k :
  Forall2 (fun a b => g b = f a) l k -> map g k = map f l.
Proof. induction 1; simpl; congruence. Qed.

(** An effect other than a checkpoint. *)
Definition no_checkpoint (e : Effect) : Prop := match e with CommitCheckpoint _ _ _ _ => False | _ => True end.


Section RoundSpec.
Context {libs : ReviewLibraries} {env : ReviewLoopEnv}.

(** Only the completion policy raises its error, and every reviewer of a round
    is gathered. *)
Definition outside_error (e : exn) : Prop := match e with ReviewPolicyError _ => False | _ => True end.

Definition outside_call {A} (f : world -> outcome A * world) : Prop :=
  forall w, match fst (f w) with Ok _ => True | Raise e => outside_error e | OutOfFuel => False end.

Class ReviewLoopEnvLaws (context : ReviewLoopRunContext) : Prop := {
  law_resolve role audit round : outside_call (resolve_prompt role audit round);
  law_budget text : outside_call (enforce_prompt_budget text);
  law_executor request provider prompt : outside_call (call_executor request provider prompt);
  law_identity request artifact : outside_call (bind_candidate_identity request artifact);
  law_gather request prompt : outside_call (gather_reviewers request prompt);
  law_gather_errors request prompt w completed w' e :
    gather_reviewers request prompt w = (Ok completed, w') -> inr e ∈ completed -> outside_error e;
  law_gather_length request prompt w completed w' :
    gather_reviewers request prompt w = (Ok completed, w') -> length completed = length (cx_reviewers context);
  law_read path signature : outside_call (read_bound_invocation_output path signature);
  law_publish source target signature : outside_call (publish_invocation_output source target signature);
  law_publish_text text target signature : outside_call (publish_text text target signature);
  law_perform effect : outside_call (perform effect)
}.

(** ** The lens laws of the two states *)

Class IOLens (S : Type) {has : HasIO S} : Prop := {
  get_put_io io (s : S) : get_io (put_io io s) = io;
  put_get_io (s : S) : put_io (get_io s) s = s;
  put_put_io io io' (s : S) : put_io io (put_io io' s) = put_io io s
}.

#[global] Instance loop_lens : IOLens LoopState.
Proof. split; intros; try done; by destruct s. Qed.
#[global] Instance audit_lens : IOLens AuditState.
Proof. split; intros; try done; by destruct s. Qed.

(** The rounds a trace starts, and the statuses it publishes. *)
Definition reviews_asked (io : IO) : list ReviewerRoundRequest :=
  omap (fun item => match item with ReviewersStarted r => Some r | _ => None end) (io_trace io).
Definition executors_asked (io : IO) : list ExecutorRoundRequest :=
  omap (fun item => match item with ExecutorsStarted r => Some r | _ => None end) (io_trace io).

(** The checkpoints it commits: phase, audit, round and progress. *)
Definition checkpoints_made (io : IO) : list (CheckpointPhase * Z * Z * ReviewLoopProgress) :=
  omap (fun item => match item with Performed (CommitCheckpoint phase audit round p) => Some (phase, audit, round, p) | _ => None end) (io_trace io).
Definition statuses_published (io : IO) : list ReviewLoopStatusPayload :=
  omap (fun item => match item with Performed (PublishStatus payload) => Some payload | _ => None end) (io_trace io).

(** The state changed only in its [IO] part, where the trace grew, started the
    rounds [xs] and [rs] and committed no checkpoint. *)
Definition io_step {S} {has : HasIO S} (xs : list ExecutorRoundRequest) (rs : list ReviewerRoundRequest) (s s' : S) : Prop :=
  exists io, s' = put_io io s /\ io_trace (get_io s) `prefix_of` io_trace io /\
    executors_asked io = executors_asked (get_io s) ++ xs /\ reviews_asked io = reviews_asked (get_io s) ++ rs /\
    checkpoints_made io = checkpoints_made (get_io s).

Section Frame.
Context {S : Type} {has : HasIO S} {lens : IOLens S}.

Lemma io_step_refl (s : S) : io_step [] [] s s.
Proof. exists (get_io s). by rewrite put_get_io, !app_nil_r. Qed.

Lemma io_step_trans xs rs xs' rs' (s s' s'' : S) :
  io_step xs rs s s' -> io_step xs' rs' s' s'' -> io_step (xs ++ xs') (rs ++ rs') s s''.
Proof.
  intros (io & -> & Ht & Hx & Hr & Hc) (io' & -> & Ht' & Hx' & Hr' & Hc'). exists io'. rewrite put_put_io. rewrite get_put_io in *.
  split_and!; [done | by etrans | | | congruence]; rewrite ?Hx', ?Hr', ?Hx, ?Hr; by rewrite app_assoc.
Qed.

(** [m] only acts outside, starts the rounds [xs] and [rs] and raises only
    outside errors; [Q] holds of its result. *)
Definition io_op {A} (xs : list ExecutorRoundRequest) (rs : list ReviewerRoundRequest) (m : M S A) (Q : A -> Prop) : Prop :=
  forall s, wp m (fun a s' => io_step xs rs s s' /\ Q a) (fun e s' => io_step xs rs s s' /\ outside_error e) s.

Notation quiet m Q := (io_op [] [] m Q).

Lemma quiet_ret {A} (a : A) (Q : A -> Prop) : Q a -> quiet (ret a) Q.
Proof. intros Ha s. split; [apply io_step_refl | done]. Qed.

Lemma quiet_raise {A} e (Q : A -> Prop) : outside_error e -> quiet (raise e) Q.
Proof. intros He s. split; [apply io_step_refl | done]. Qed.

Lemma quiet_lift {A} (o : outcome A) (Q : A -> Prop) :
  match o with Ok a => Q a | Raise e => outside_error e | OutOfFuel => False end -> quiet (lift o) Q.
Proof. intros Ho s. destruct o; simpl in *; try done; (split; [apply io_step_refl | done]). Qed.

Lemma quiet_read {A} (f : S -> A) (Q : A -> Prop) : (forall s, Q (f s)) -> quiet (read f) Q.
Proof. intros Hf s. split; [apply io_step_refl | apply Hf]. Qed.

Lemma io_op_mono {A} xs rs (m : M S A) (Q Q' : A -> Prop) : io_op xs rs m Q -> (forall a, Q a -> Q' a) -> io_op xs rs m Q'.
Proof. intros Hm HQ s. eapply wp_mono; [apply Hm| |]; naive_solver. Qed.

Lemma io_op_bind {A B} xs rs (m : M S A) (k : A -> M S B) Q R :
  io_op xs rs m Q -> (forall a, Q a -> quiet (k a) R) -> io_op xs rs (m ≫= k) R.
Proof.
  intros Hm Hk s. apply wp_bind. eapply wp_mono; [apply Hm| |done]. intros a s' [Hs Ha].
  eapply wp_mono; [by apply Hk | |]; intros ? ? [Hs' ?]; (split; [|done]);
    pose proof (io_step_trans _ _ _ _ _ _ _ Hs Hs') as Htr; by rewrite !app_nil_r in Htr.
Qed.

Lemma quiet_try {A} (m : M S A) (h : exn -> M S A) Q :
  quiet m Q -> (forall e, outside_error e -> quiet (h e) Q) -> quiet (try_except m h) Q.
Proof.
  intros Hm Hh s. apply wp_try. eapply wp_mono; [apply Hm|done|]. intros e s' [Hs He].
  eapply wp_mono; [by apply Hh | |]; intros ? ? [Hs' ?]; (split; [|done]); exact (io_step_trans [] [] [] [] _ _ _ Hs Hs').
Qed.

Lemma quiet_when (c : bool) (m : M S unit) : quiet m (fun _ => True) -> quiet (when c m) (fun _ => True).
Proof. intros Hm. destruct c; [done | by apply quiet_ret]. Qed.

Lemma quiet_if {A} (c : bool) (m1 m2 : M S A) Q : quiet m1 Q -> quiet m2 Q -> quiet (if c then m1 else m2) Q.
Proof. by destruct c. Qed.

Lemma quiet_for_all {B} (body : B -> M S unit) l :
  (forall x, quiet (body x) (fun _ => True)) -> quiet (for_all body l) (fun _ => True).
Proof.
  intros H. induction l as [|x l IH]; simpl; [by apply quiet_ret|]. eapply io_op_bind; [apply H|]. intros _ _. exact IH.
Qed.

Lemma quiet_map_all {B C} (f : B -> M S C) (R : B -> C -> Prop) l :
  (forall x, x ∈ l -> quiet (f x) (R x)) -> quiet (map_all f l) (Forall2 R l).
Proof.
  induction l as [|x l IH]; intros H; simpl; [apply quiet_ret; constructor|].
  eapply io_op_bind; [apply H; left|]. intros y Hy.
  eapply io_op_bind; [apply IH; intros z Hz; apply H; by right|]. intros ys Hys. apply quiet_ret. by constructor.
Qed.

Lemma quiet_outside {A} (f : world -> outcome A * world) (Q : A -> Prop) :
  outside_call f -> (forall w a w', f w = (Ok a, w') -> Q a) -> quiet (outside f) Q.
Proof.
  intros Hf HQ s. unfold outside, with_io. apply wp_zoom. unfold wp. specialize (Hf (io_world (get_io s))).
  specialize (HQ (io_world (get_io s))). destruct (f (io_world (get_io s))) as [[a|e|] w]; simpl in *; [| |done];
    (split; [|by eauto]); eexists; (split_and!; [reflexivity|..]); unfold executors_asked, reviews_asked, checkpoints_made; simpl;
    by rewrite ?app_nil_r.
Qed.

Lemma record_executors (request : ExecutorRoundRequest) : io_op [request] [] (record_item (ExecutorsStarted request)) (fun _ => True).
Proof.
  intros s. unfold record_item, with_io. apply wp_zoom. unfold wp, modify. simpl. split; [|done].
  eexists. split; [reflexivity|]. unfold executors_asked, reviews_asked. simpl.
  split_and!; [by apply prefix_app_r | by rewrite omap_app | by rewrite omap_app, !app_nil_r | unfold checkpoints_made; simpl; by rewrite omap_app, app_nil_r].
Qed.

Lemma record_reviewers (request : ReviewerRoundRequest) : io_op [] [request] (record_item (ReviewersStarted request)) (fun _ => True).
Proof.
  intros s. unfold record_item, with_io. apply wp_zoom. unfold wp, modify. simpl. split; [|done].
  eexists. split; [reflexivity|]. unfold executors_asked, reviews_asked. simpl.
  split_and!; [by apply prefix_app_r | by rewrite omap_app, !app_nil_r | by rewrite omap_app | unfold checkpoints_made; simpl; by rewrite omap_app, app_nil_r].
Qed.

Lemma record_performed (e : Effect) (H : no_checkpoint e) : quiet (record_item (Performed e)) (fun _ => True).
Proof.
  intros s. unfold record_item, with_io. apply wp_zoom. unfold wp, modify. simpl. split; [|done].
  eexists. split; [reflexivity|]. unfold executors_asked, reviews_asked. simpl.
  split_and!; [by apply prefix_app_r | by rewrite omap_app, !app_nil_r | by rewrite omap_app, !app_nil_r|].
  unfold checkpoints_made. simpl. rewrite omap_app. destruct e; simpl in *; by rewrite ?app_nil_r.
Qed.

Lemma quiet_complete {A} (m : M S A) Q : quiet m Q -> quiet (complete_audit_io m) Q.
Proof.
  intros Hm. eapply io_op_bind; [exact Hm|]. intros a Ha. eapply io_op_bind with (Q := fun _ => True).
  - apply quiet_outside; [|done]. intros w. by destruct (cancelled w).
  - intros [] _; [by apply quiet_raise | by apply quiet_ret].
Qed.

(** Symbolic execution of an operation that only acts outside. *)
Lemma wp_io {A} xs rs (m : M S A) (P : A -> Prop) Q E s :
  io_op xs rs m P -> (forall a s', io_step xs rs s s' -> P a -> Q a s') ->
  (forall e s', io_step xs rs s s' -> outside_error e -> E e s') -> wp m Q E s.
Proof. intros Hm HQ HE. eapply wp_mono; [apply Hm| |]; naive_solver. Qed.

(** Asking whether the task was cancelled. *)
Lemma wp_cancelled (Q : bool -> S -> Prop) E s :
  (forall b s', io_step [] [] s s' -> io_trace (get_io s') = io_trace (get_io s) -> Q b s') -> wp (outside (fun w => let '(c, w) := cancelled w in (Ok c, w))) Q E s.
Proof.
  intros H. unfold outside, with_io. apply wp_zoom. unfold wp. destruct (cancelled (io_world (get_io s))) as [c w].
  apply H; [|by rewrite get_put_io]. eexists. split; [reflexivity|]. unfold executors_asked, reviews_asked, checkpoints_made.
  simpl. by rewrite !app_nil_r.
Qed.

(** A drained operation records nothing more when it returns. *)
Lemma wp_complete_trace {A} (m : M S A) Q E s :
  wp m (fun a s' => forall s'', io_step [] [] s' s'' -> io_trace (get_io s'') = io_trace (get_io s') ->
    Q a s'' /\ E CancelledError s'') E s ->
  wp (complete_audit_io m) Q E s.
Proof.
  intros H. apply wp_bind. eapply wp_mono; [exact H| |done]. intros a s' Ha. apply wp_bind, wp_cancelled.
  intros [] s'' Hio Ht; [apply wp_raise | apply wp_ret]; by apply Ha.
Qed.

(** A drained operation either returns or is overtaken by a cancellation. *)
Lemma wp_complete {A} (m : M S A) Q E s :
  wp m (fun a s' => forall s'', io_step [] [] s' s'' -> Q a s'' /\ E CancelledError s'') E s ->
  wp (complete_audit_io m) Q E s.
Proof.
  intros H. apply wp_complete_trace. eapply wp_mono; [exact H| |done]. intros a s' Ha s'' Hio _. by apply Ha.
Qed.

Context {context : ReviewLoopRunContext} {laws : ReviewLoopEnvLaws context}.

Lemma quiet_effect (e : Effect) (H : no_checkpoint e) : quiet (do_effect e) (fun _ => True).
Proof. eapply io_op_bind; [apply quiet_outside with (Q := fun _ => True); [apply law_perform|done]|]. intros _ _. by apply record_performed. Qed.

(** An effect that took place is the last item of the trace. *)
Lemma wp_effect (e : Effect) (Q : unit -> S -> Prop) E s :
  no_checkpoint e ->
  (forall s', io_step [] [] s s' -> io_trace (get_io s') = io_trace (get_io s) ++ [Performed e] -> Q tt s') ->
  (forall err s', io_step [] [] s s' -> outside_error err -> E err s') -> wp (do_effect e) Q E s.
Proof.
  intros He HQ HE. assert (wp (do_effect e) (fun _ s' => io_trace (get_io s') = io_trace (get_io s) ++ [Performed e]) (fun _ _ => True) s) as Ht.
  { unfold do_effect. apply wp_bind. unfold outside, with_io. apply wp_zoom. unfold wp at 1.
    pose proof (law_perform e (io_world (get_io s))) as Hl. destruct (perform e _) as [[u|err|] w]; simpl in *; [|done|done].
    unfold record_item, with_io. apply wp_zoom. unfold wp, modify. simpl. by rewrite !get_put_io. }
  pose proof (quiet_effect e He s) as Hq. unfold wp in *.
  destruct (do_effect e s) as [[[]|err|] s']; [apply HQ; [apply Hq | exact Ht] | destruct Hq; by apply HE | done].
Qed.

(** A checkpoint that took place is recorded. *)
Lemma wp_commit_effect phase audit round p (Q : unit -> S -> Prop) E s :
  (forall io, io_trace (get_io s) `prefix_of` io_trace io -> executors_asked io = executors_asked (get_io s) ->
     reviews_asked io = reviews_asked (get_io s) -> checkpoints_made io = checkpoints_made (get_io s) ++ [(phase, audit, round, p)] ->
     Q tt (put_io io s)) ->
  (forall e s', io_step [] [] s s' -> outside_error e -> E e s') -> wp (do_effect (CommitCheckpoint phase audit round p)) Q E s.
Proof.
  intros HQ HE. unfold do_effect. apply wp_bind.
  eapply wp_io; [apply quiet_outside with (Q := fun _ => True); [apply law_perform|done]| |exact HE].
  intros _ s1 (io & -> & Ht & Hx & Hr & Hc) _. rewrite !app_nil_r in *. unfold record_item, with_io. apply wp_zoom. unfold wp, modify.
  cbn [fst snd]. rewrite put_put_io, get_put_io. apply HQ; unfold executors_asked, reviews_asked, checkpoints_made in *; simpl.
  - etrans; [exact Ht | by apply prefix_app_r].
  - by rewrite omap_app, Hx, app_nil_r.
  - by rewrite omap_app, Hr, app_nil_r.
  - by rewrite omap_app, Hc.
Qed.

End Frame.

Notation quiet m Q := (io_op [] [] m Q).

(** ** Executor rounds *)

Section Rounds.
Context {S : Type} {has : HasIO S} {lens : IOLens S}.
Context {context : ReviewLoopRunContext} {laws : ReviewLoopEnvLaws context}.

Lemma quiet_previous_context previous : quiet (resolve_previous_candidate_context (S := S) previous) (fun _ => True).
Proof.
  destruct previous as [[|a l]|]; simpl; try by apply quiet_ret.
  eapply io_op_bind; [apply quiet_outside with (Q := fun _ => True); [apply law_budget|done]|].
  intros _ _. by apply quiet_ret.
Qed.

Lemma quiet_prepare_prompt request : quiet (prepare_executor_prompt (S := S) context request) (fun _ => True).
Proof.
  eapply io_op_bind; [apply quiet_previous_context|]. intros previous _.
  eapply io_op_bind with (Q := fun _ => True); [|intros prompt _; by apply quiet_ret].
  destruct (xr_previous_executor_outputs request); [|by apply quiet_ret]. apply quiet_outside; [apply law_resolve|done].
Qed.

Lemma quiet_run_executor request prompt provider :
  quiet (run_executor (S := S) request prompt provider) (fun r => ea_task_id r.1 = pr_task_id provider).
Proof.
  eapply io_op_bind; [apply quiet_outside with (Q := fun _ => True); [apply law_executor|done]|].
  intros [[content signature] count] _. by apply quiet_ret.
Qed.

Lemma quiet_bind_identities request outputs :
  quiet (bind_candidate_identities (S := S) request outputs)
    (fun bound => map ea_task_id bound = map ea_task_id outputs).
Proof.
  eapply io_op_mono; [apply quiet_map_all with (R := fun a b => ea_task_id b = ea_task_id a)|].
  - intros a _. eapply io_op_bind; [apply quiet_outside with (Q := fun _ => True); [apply law_identity|done]|].
    intros identity _. by apply quiet_ret.
  - intros bound H. exact (Forall2_map_eq _ _ _ _ H).
Qed.

(** An executor round returns one output per executor, in their order. *)
Lemma executor_round_spec request :
  io_op [request] [] (run_executor_round (S := S) context request)
    (fun run => map ea_task_id (xo_outputs run) = map pr_task_id (cx_executors context)).
Proof.
  eapply io_op_bind; [apply record_executors|]. intros _ _.
  eapply io_op_bind; [apply quiet_prepare_prompt|]. intros prompt _.
  eapply io_op_bind; [apply quiet_map_all with (R := fun p r => ea_task_id r.1 = pr_task_id p); intros; apply quiet_run_executor|].
  intros runs Hruns. eapply io_op_bind; [apply quiet_bind_identities|]. intros bound Hb. apply quiet_ret. simpl.
  rewrite Hb, map_map. exact (Forall2_map_eq _ _ _ _ Hruns).
Qed.

(** ** Reviewer rounds *)

(** A round's outputs are evaluations of reviewer texts, with the numbers of the
    round; without failures there is one for every reviewer. *)
Record reviewer_run_ok (request : ReviewerRoundRequest) (run : ReviewerRoundRunResult) : Prop := {
  rro_count : ro_reviewer_failure_count run = Z.of_nat (length (ro_failures run));
  rro_evaluated : Forall (fun a => exists raw, evaluate_review_output raw = Ok (ra_evaluation a)) (ro_outputs run);
  rro_round : Forall (fun a => ra_audit_round_num a = rr_audit_round_num request /\ ra_round_num a = rr_round_num request) (ro_outputs run);
  rro_complete : ro_failures run = [] -> map ra_task_id (ro_outputs run) = map pr_task_id (cx_reviewers context);
  rro_allowed : ro_failures run <> [] -> xp_continue_on_failure (en_execution_policy (cx_stage context)) = true
}.

Lemma collect_results_spec request completed : forall reviewers,
  length completed = length reviewers -> (forall e, inr e ∈ completed -> outside_error e) ->
  match collect_results request completed reviewers with
  | Ok (results, failures) => (failures = [] -> map fst results = reviewers)
      /\ Forall (fun f => outside_error (if_error f)) failures
  | Raise e => outside_error e
  | OutOfFuel => False
  end.
Proof.
  induction completed as [|r completed IH]; intros [|p reviewers] Hlen Hout; simpl; try done.
  simpl in Hlen. specialize (IH reviewers ltac:(lia) ltac:(intros e He; apply Hout; by right)).
  destruct r as [iv|e].
  - destruct (collect_results request completed reviewers) as [[results failures]|e|]; simpl; [|done|done].
    destruct IH as [IH1 IH2]. split; [|done]. intros Hf. simpl. f_equal. auto.
  - destruct (is_expected_execution_failure e); simpl; [|apply Hout; left].
    destruct (collect_results request completed reviewers) as [[results failures]|e'|]; simpl; [|done|done].
    destruct IH as [IH1 IH2]. split; [done|]. constructor; [apply Hout; left | done].
Qed.

Lemma quiet_collect request completed :
  length completed = length (cx_reviewers context) -> (forall e, inr e ∈ completed -> outside_error e) ->
  quiet (lift (S := S) (collect_ordered_reviewer_results context request completed))
    (fun '(results, failures) => (failures = [] -> map fst results = cx_reviewers context)
       /\ Forall (fun f => outside_error (if_error f)) failures).
Proof.
  intros Hlen Hout. apply quiet_lift. unfold collect_ordered_reviewer_results.
  destruct (first_unconfirmed_cleanup completed) as [e|] eqn:E.
  - clear Hlen. induction completed as [|[iv|e'] completed IH]; simpl in *; [done|apply IH; [set_solver|done]|].
    destruct (unconfirmed_process_cleanup e'); [injection E as ->; apply Hout; left | apply IH; [set_solver|done]].
  - pose proof (collect_results_spec request completed (cx_reviewers context) Hlen Hout) as H.
    destruct (collect_results _ _ _) as [[results failures]|e|]; done.
Qed.

Lemma quiet_read_output request provider invocation :
  quiet (read_reviewer_output (S := S) request provider invocation)
    (fun r => match r with inr f => outside_error (if_error f) | inl _ => True end).
Proof.
  eapply io_op_bind with (Q := fun r => match r with inr f => outside_error (if_error f) | inl _ => True end).
  - apply quiet_try.
    + eapply io_op_bind; [apply quiet_outside with (Q := fun _ => True); [apply law_read|done]|].
      intros raw _. by apply quiet_ret.
    + intros e He. destruct (is_runtime_error e); [by apply quiet_ret | by apply quiet_raise].
  - intros [raw|f] Hf; apply quiet_ret; [by destruct (not_blank raw) | done].
Qed.

(** One reviewer's output: an evaluation of its text, or a failure. *)
Definition output_ok (request : ReviewerRoundRequest) (provider : ProviderRecord) (r : ReviewerRoundArtifact + ReviewerInvocationFailure) : Prop :=
  match r with
  | inl a => ra_task_id a = pr_task_id provider /\ (exists raw, evaluate_review_output raw = Ok (ra_evaluation a)) /\
      ra_audit_round_num a = rr_audit_round_num request /\ ra_round_num a = rr_round_num request
  | inr f => outside_error (if_error f)
  end.

Lemma quiet_evaluate_output request provider invocation :
  quiet (evaluate_reviewer_output (S := S) request provider invocation) (output_ok request provider).
Proof.
  eapply io_op_bind; [apply quiet_read_output|]. intros [raw|f] Hf; [|by apply quiet_ret].
  destruct (evaluate_review_safe raw) as (ev & Hev & _). rewrite Hev.
  eapply io_op_bind; [apply quiet_lift with (Q := eq ev); done|]. intros ? <-.
  eapply io_op_bind with (Q := fun r => match r with inr f => outside_error (if_error f) | inl _ => True end).
  - apply quiet_try.
    + eapply io_op_bind; [apply quiet_outside with (Q := fun _ => True); [apply law_publish_text|done]|].
      intros signature _. by apply quiet_ret.
    + intros e He. destruct (_ || _); [by apply quiet_ret | by apply quiet_raise].
  - intros [signature|f] Hf'; [|by apply quiet_ret].
    eapply io_op_bind; [by apply quiet_effect|]. intros _ _.
    eapply io_op_bind; [apply quiet_for_all; intros; by apply quiet_effect|]. intros _ _.
    eapply io_op_bind; [by apply quiet_effect|]. intros _ _. apply quiet_ret. simpl. eauto.
Qed.

Lemma quiet_evaluate_outputs request results :
  quiet (evaluate_reviewer_outputs (S := S) request results)
    (fun '(outputs, failures) =>
       Forall (fun a => exists raw, evaluate_review_output raw = Ok (ra_evaluation a)) outputs /\
       Forall (fun a => ra_audit_round_num a = rr_audit_round_num request /\ ra_round_num a = rr_round_num request) outputs /\
       Forall (fun f => outside_error (if_error f)) failures /\
       (failures = [] -> map ra_task_id outputs = map pr_task_id (map fst results))).
Proof.
  eapply io_op_bind; [apply quiet_map_all with (R := fun r => output_ok request r.1); intros [p iv] _; apply quiet_evaluate_output|].
  intros evaluated H. apply quiet_ret.
  induction H as [|[p iv] r results evaluated Hr _ (IH1 & IH0 & IH2 & IH3)]; simpl; [done|].
  destruct r as [a|f]; simpl in *.
  - destruct Hr as (Ha & Hraw & Hnum). split_and!; [by constructor | by constructor | done | intros Hf; f_equal; auto].
  - split_and!; [done | done | by constructor | done].
Qed.

Lemma quiet_enforce failures :
  Forall (fun f => outside_error (if_error f)) failures ->
  quiet (enforce_reviewer_failure_policy (S := S) context failures)
    (fun _ => failures <> [] -> xp_continue_on_failure (en_execution_policy (cx_stage context)) = true).
Proof.
  intros Hf. unfold enforce_reviewer_failure_policy. destruct (xp_continue_on_failure _); [by apply quiet_ret|].
  destruct failures as [|f [|f' failures]]; [by apply quiet_ret | | by apply quiet_raise].
  apply quiet_raise. by inversion Hf.
Qed.

Lemma reviewer_round_spec request :
  io_op [] [request] (run_reviewer_round (S := S) context request) (reviewer_run_ok request).
Proof.
  eapply io_op_bind; [apply record_reviewers|]. intros _ _.
  eapply io_op_bind; [by apply quiet_when, quiet_effect|]. intros _ _.
  eapply io_op_bind; [apply quiet_outside with (Q := fun completed => length completed = length (cx_reviewers context) /\
    forall e, inr e ∈ completed -> outside_error e); [apply law_gather|]|].
  { intros w completed w' H. split; [by eapply law_gather_length | intros e; by eapply law_gather_errors]. }
  intros completed [Hlen Hout]. eapply io_op_bind; [by apply quiet_collect|]. intros [results failures] [Hr Hf].
  eapply io_op_bind; [apply quiet_evaluate_outputs|]. intros [outputs output_failures] (Ho & Hnum & Hf' & Hc).
  eapply io_op_bind; [apply quiet_for_all; intros f; eapply io_op_bind; [by apply quiet_effect|]; intros _ _; by apply quiet_effect|].
  intros _ _. eapply io_op_bind; [apply quiet_enforce; by apply Forall_app|]. intros [] Hcont. apply quiet_ret.
  assert (map (checkpoint_failure request) (failures ++ output_failures) = [] -> failures = [] /\ output_failures = []) as Hnil
    by (intros H%map_eq_nil; by apply app_eq_nil).
  split; simpl; [by rewrite length_map | done | done | |].
  - intros H. apply Hnil in H as [-> ->]. by rewrite Hc, Hr.
  - intros H. apply Hcont. intros E. by rewrite E in H.
Qed.

End Rounds.
End RoundSpec.
