(* ===== verification/ReviewLoopAudit.v ===== *)
(** The invariant of an audit and what its iterations preserve and guarantee. *)

From Stdlib Require Import ZArith Lia Ascii String.
From stdpp Require Import base gmap sets list list_numbers strings.
From S2P Require Import Prelude PyStr Models Scheduler PlanRecords Artifacts PlanContract.
From S2P Require Import Reviews ReviewCandidates StateExn ReviewLoopState ReviewLoop ReviewLoopRounds.

Open Scope string_scope.
Open Scope list_scope.
Open Scope Z_scope.

(** Whether the loop started with the facts about reviews and checkpoints that it
    keeps, as a fresh loop does. *)
Class Tracking : Type := tracked : Prop.

Section AuditSpec.
Context {libs : ReviewLibraries} {env : ReviewLoopEnv} {tracking : Tracking}.
Context {context : ReviewLoopRunContext} {laws : ReviewLoopEnvLaws context}.

(** ** The vocabulary *)

(** A valid set of outputs, one per executor. *)
Definition candidate_ok (outputs : list ExecutorRoundArtifact) : Prop :=
  cv_valid (validate_executor_outputs outputs) = true /\
  map ea_task_id outputs = map pr_task_id (cx_executors context).

(** A review of a local round shows a valid candidate. *)
Definition review_ok (r : ReviewerRoundRequest) : Prop :=
  1 <= rr_round_num r -> exists outputs, candidate_ok outputs /\ rr_review_context r = build_review_context outputs.

(** The reviews answer the last request, which shows the candidate [outputs];
    there is one of every reviewer, and each approves. *)
Definition approves (requests : list ReviewerRoundRequest) (outputs : list ExecutorRoundArtifact)
    (reviews : list ReviewerRoundArtifact) : Prop :=
  map ra_task_id reviews = map pr_task_id (cx_reviewers context) /\
  exists r, last requests = Some r /\ rr_review_context r = build_review_context outputs /\
    Forall (fun a => ra_audit_round_num a = rr_audit_round_num r /\ ra_round_num a = rr_round_num r /\
      approved (ra_evaluation a) = true /\ no_open_issues (raw_text (ra_evaluation a)) (ra_evaluation a)) reviews.

(** Some reviewer failed or did not approve, or there is no review. *)
Definition unapproved (failures : list CheckpointReviewerFailure) (reviews : list ReviewerRoundArtifact) : Prop :=
  failures <> [] \/ reviews = [] \/ exists a, a ∈ reviews /\ approved (ra_evaluation a) = false.

(** What an audit knows of its last review. *)
Definition feedback_of (a : AuditRoundProgress)
    : list ReviewerRoundArtifact * list CheckpointReviewerFailure * option (list ExecutorRoundArtifact) * option string :=
  (ap_latest_reviewer_outputs a, ap_reviewer_failures a, ap_previous_executor_outputs a, ap_previous_review_packet a).

(** The feedback for the executors is that of the latest reviews. *)
Definition packet_ok (a : AuditRoundProgress) : Prop :=
  ap_previous_review_packet a =
    if is_some (ap_previous_executor_outputs a) then render_unresolved_review_packet (ap_latest_reviewer_outputs a) else None.

(** The last review did not approve. *)
Definition refused (a : AuditRoundProgress) : Prop := unapproved (ap_reviewer_failures a) (ap_latest_reviewer_outputs a).

(** Between iterations the last review did not approve. *)
Definition between (a : AuditRoundProgress) : Prop := packet_ok a /\ refused a.

Lemma between_feedback a a' : feedback_of a' = feedback_of a -> between a -> between a'.
Proof. unfold between, refused, packet_ok, feedback_of. intros [= -> -> -> ->]. done. Qed.

(** A checkpoint has the number of its audit and keeps the feedback in it. *)
Definition checkpoint_ok (made : CheckpointPhase * Z * Z * ReviewLoopProgress) : Prop :=
  let '(_, audit, _, p) := made in
  audit = lp_cursor_audit p /\ forall a, lp_active_audit p = Some a -> packet_ok a.

(** What an audit never loses, even on an error. *)
Record audit_safe (s : AuditState) : Prop := {
  as_valid outputs : ap_latest_valid_executor_outputs (as_audit s) = Some outputs -> candidate_ok outputs;
  as_reviews : Forall review_ok (reviews_asked (as_io s));
  as_checkpoints : tracked -> Forall checkpoint_ok (checkpoints_made (as_io s));
  as_stop : (ap_stop_reason (as_audit s) = None /\ 0 <= consecutive_round_count (current_stall s) <= 1) \/
    (ap_stop_reason (as_audit s) = Some NO_PROGRESS /\ consecutive_round_count (current_stall s) = 2 /\
     ap_latest_valid_executor_outputs (as_audit s) <> None)
}.

(** The invariant between iterations. *)
Record audit_inv (s : AuditState) : Prop := {
  ai_safe : audit_safe s;
  ai_ids : map ea_task_id (ap_executor_outputs (as_audit s)) = map pr_task_id (cx_executors context);
  ai_packet : ap_previous_review_packet (as_audit s) <> None -> ap_latest_valid_executor_outputs (as_audit s) <> None;
  ai_count : 0 <= consecutive_round_count (current_stall s) <= 1;
  ai_running : ap_stop_reason (as_audit s) = None
}.

(** The loop's progress without what an audit changes of it. *)
Definition core (p : ReviewLoopProgress) : ReviewLoopProgress :=
  set_lp_stall fresh_stall (set_lp_cursor_round 0 (set_lp_next_phase PhaseExecutors p)).

(** [s'] follows [s] after at most [n] executor rounds and [m] reviewer rounds. *)
Record follows (n m : nat) (s s' : AuditState) : Prop := {
  fo_core : core (as_progress s') = core (as_progress s);
  fo_executors : (length (executors_asked (as_io s')) <= length (executors_asked (as_io s)) + n)%nat;
  fo_reviewers : (length (reviews_asked (as_io s')) <= length (reviews_asked (as_io s)) + m)%nat;
  fo_requests : reviews_asked (as_io s) `prefix_of` reviews_asked (as_io s');
  fo_feedback : m = 0%nat -> feedback_of (as_audit s') = feedback_of (as_audit s)
}.

Lemma follows_refl s : follows 0 0 s s.
Proof. split; (done || lia). Qed.

Lemma follows_trans n m n' m' s s' s'' : follows n m s s' -> follows n' m' s' s'' -> follows (n + n') (m + m') s s''.
Proof. intros [] []. split; [congruence | lia | lia | by etrans|]. intros H. rewrite fo_feedback1 by lia. apply fo_feedback0. lia. Qed.

Lemma follows_weaken n m n' m' s s' : follows n m s s' -> (n <= n')%nat -> (m <= m')%nat -> follows n' m' s s'.
Proof. intros [] ? ?. split; [done | lia | lia | done|]. intros E. apply fo_feedback0. lia. Qed.

(** ** Stability *)

Lemma io_step_audit xs rs (s s' : AuditState) : io_step xs rs s s' ->
  as_progress s' = as_progress s /\ as_audit s' = as_audit s /\
  reviews_asked (as_io s') = reviews_asked (as_io s) ++ rs /\ executors_asked (as_io s') = executors_asked (as_io s) ++ xs /\
  checkpoints_made (as_io s') = checkpoints_made (as_io s).
Proof. by intros (io & -> & _ & Hx & Hr & Hc). Qed.

Lemma io_step_follows xs rs (s s' : AuditState) : io_step xs rs s s' -> follows (length xs) (length rs) s s'.
Proof.
  intros (Hp & Ha & Hr & Hx & _)%io_step_audit. split; [by rewrite Hp | rewrite Hx, length_app; lia | rewrite Hr, length_app; lia| |by rewrite Ha].
  rewrite Hr. by apply prefix_app_r.
Qed.

Lemma audit_safe_io xs (s s' : AuditState) : io_step xs [] s s' -> audit_safe s -> audit_safe s'.
Proof.
  intros (Hp & Ha & Hr & Hx & Hc)%io_step_audit [H1 H2 H3 H4]. rewrite app_nil_r in Hr. unfold current_stall in *.
  split; unfold current_stall; rewrite ?Ha, ?Hp, ?Hr, ?Hc; done.
Qed.

Lemma audit_inv_io xs (s s' : AuditState) : io_step xs [] s s' -> audit_inv s -> audit_inv s'.
Proof.
  intros Hio [H0 H1 H2 H3 H4]. pose proof (audit_safe_io _ _ _ Hio H0). apply io_step_audit in Hio as (Hp & Ha & _).
  unfold current_stall in *. split; unfold current_stall; rewrite ?Ha, ?Hp; done.
Qed.

Lemma record_result_cases r p :
  match fst (record_audit_result r p) with
  | Ok _ => True | Raise e => e = OtherError "IndexError" "list index out of range" | OutOfFuel => False
  end.
Proof.
  unfold record_audit_result. destruct (ar_latest_executor_outputs r) as [[|a l]|]; [| |done];
    by destruct (ar_selected_round_num r =? 0).
Qed.

Lemma snapshot_cases p :
  match snapshot p with
  | Ok _ => True | Raise e => e = OtherError "IndexError" "list index out of range" | OutOfFuel => False
  end.
Proof.
  unfold snapshot. destruct (lp_active_audit p) as [a|]; [|done].
  pose proof (record_result_cases (to_result false false a) (set_lp_active_audit None p)) as H.
  by destruct (record_audit_result _ _) as [[u|e|] p'].
Qed.

Lemma quiet_status {S} {has : HasIO S} {lens : IOLens S} (progress : ReviewLoopProgress) :
  io_op [] [] (persist_review_loop_status (S := S) context progress) (fun _ => True).
Proof.
  eapply io_op_bind; [apply quiet_lift with (Q := fun _ => True)|intros payload _; by apply quiet_effect].
  unfold build_review_loop_status_payload. pose proof (snapshot_cases progress) as H.
  destruct (snapshot progress) as [p|e|]; simpl; [done | by subst | done].
Qed.

Lemma quiet_publish : io_op [] [] (publish_status context) (fun _ => True).
Proof. eapply io_op_bind; [by apply quiet_read with (Q := fun _ => True)|]. intros p _. apply quiet_status. Qed.

Lemma quiet_discard {S} {has : HasIO S} {lens : IOLens S} : io_op [] [] (discard_rejected_invocations (S := S)) (fun _ => True).
Proof.
  eapply io_op_bind; [by apply quiet_read with (Q := fun _ => True)|]. intros rejected _.
  eapply io_op_bind; [apply quiet_for_all; intros [[[audit round] ids] reason]; by apply quiet_effect|]. intros _ _ s.
  unfold with_io. apply wp_zoom. unfold wp, modify. simpl. split; [|done]. eexists. split; [reflexivity|]. simpl.
  by rewrite !app_nil_r.
Qed.

Lemma io_quiet_facts (s s' : AuditState) : io_step [] [] s s' ->
  as_audit s' = as_audit s /\ lp_stall (as_progress s') = lp_stall (as_progress s) /\
  follows 0 0 s s' /\ reviews_asked (as_io s') = reviews_asked (as_io s) /\ checkpoints_made (as_io s') = checkpoints_made (as_io s).
Proof.
  intros H. pose proof (io_step_follows _ _ _ _ H) as Hf. apply io_step_audit in H as (Hp & Ha & Hr & _ & Hc).
  rewrite app_nil_r in Hr. rewrite Hp. done.
Qed.

(** A committed transition moves the cursor and nothing else. *)
Lemma wp_commit_transition phase round (Q : unit -> AuditState -> Prop) E s :
  (tracked -> packet_ok (as_audit s)) ->
  (forall s', as_audit s' = as_audit s -> lp_stall (as_progress s') = lp_stall (as_progress s) ->
     follows 0 0 s s' -> reviews_asked (as_io s') = reviews_asked (as_io s) ->
     (tracked -> Forall checkpoint_ok (checkpoints_made (as_io s)) -> Forall checkpoint_ok (checkpoints_made (as_io s'))) ->
     Q tt s' /\ forall e, outside_error e -> E e s') ->
  wp (commit_transition phase round) Q E s.
Proof.
  intros Hpk H. apply wp_bind, wp_read, wp_bind. apply (wp_commit_effect (laws := laws)).
  2: { intros e s' (? & ? & ? & ? & Hc)%io_quiet_facts He. apply H; try done. by rewrite Hc. }
  intros io _ Hx Hr Hc. apply wp_bind, wp_modify. simpl in *.
  assert (forall s2, io_step [] [] (mkAuditState (set_lp_cursor_round round (set_lp_next_phase phase (as_progress s))) (as_audit s) io) s2 ->
     as_audit s2 = as_audit s /\ lp_stall (as_progress s2) = lp_stall (as_progress s) /\
     follows 0 0 s s2 /\ reviews_asked (as_io s2) = reviews_asked (as_io s) /\
     (tracked -> Forall checkpoint_ok (checkpoints_made (as_io s)) -> Forall checkpoint_ok (checkpoints_made (as_io s2)))) as Hs2.
  { intros s2 Hio2. pose proof (io_step_follows _ _ _ _ Hio2) as [F1 F2 F3 F4 F5].
    apply io_step_audit in Hio2 as (Hp2 & Ha2 & Hr2 & _ & Hc2). simpl in *. rewrite app_nil_r in Hr2.
    rewrite Ha2, Hp2, Hr2, Hc2, Hc, Hr. split_and!; try done.
    - split; [by rewrite Hp2 | rewrite <- Hx; lia | rewrite <- Hr; lia | by rewrite Hr2, Hr | by rewrite Ha2].
    - intros Htr Hall. apply Forall_app. split; [done|]. constructor; [|done]. split; [done|].
      intros a [= <-]. by apply Hpk. }
  eapply wp_io; [apply quiet_complete, quiet_discard| |].
  - intros [] s2 Hio2 _. destruct (Hs2 s2 Hio2) as (? & ? & ? & ? & ?). by apply H.
  - intros e s2 Hio2 He. destruct (Hs2 s2 Hio2) as (? & ? & ? & ? & ?). by apply H.
Qed.

(** ** Preparing a candidate *)

Context (request : AuditRoundRequest).

Definition error_post (n m : nat) (s : AuditState) (e : exn) (s' : AuditState) : Prop :=
  follows n m s s' /\ audit_safe s' /\ outside_error e.

Definition acquired_post (n : nat) (s : AuditState) (c : Acquired) (s' : AuditState) : Prop :=
  follows n 0 s s' /\
  match c with
  | NoCandidate ITER_CONTINUE => audit_inv s'
  | NoCandidate ITER_STOP => audit_safe s'
  | NoCandidate ITER_CONSENSUS => False
  | ReviewCandidate fingerprint =>
      audit_inv s' /\ candidate_ok (ap_executor_outputs (as_audit s')) /\
      fingerprint = build_executor_output_fingerprint (ap_executor_outputs (as_audit s'))
  end.

Lemma follows_io n m xs rs s s1 s2 : follows n m s s1 -> io_step xs rs s1 s2 -> follows (n + length xs) (m + length rs) s s2.
Proof. intros H H'. eapply follows_trans; [exact H | by apply io_step_follows]. Qed.

Lemma quiet_reject ids round reason : io_op [] [] (reject_executor_lineage request ids round reason) (fun _ => True).
Proof.
  intros s. unfold reject_executor_lineage, with_io. apply wp_zoom. unfold wp, modify. simpl. split; [|done].
  eexists. split; [reflexivity|]. simpl. by rewrite !app_nil_r.
Qed.

(** Counting and resetting before a candidate is rejected keeps the invariant. *)
Lemma inv_invalid s : audit_inv s -> audit_inv (mkAuditState (set_lp_stall (reset_stall_count (lp_stall (as_progress s))) (as_progress s))
  (record_invalid_candidate (as_audit s)) (as_io s)).
Proof. intros [[H1 H2 HK H3] H4 H5 H6 H7]. split; [split| | | |]; simpl; first [done | lia | (left; split; [done | lia])]. Qed.

Lemma inv_no_progress s outputs :
  audit_inv s -> map ea_task_id outputs = map pr_task_id (cx_executors context) ->
  audit_inv (mkAuditState (as_progress s) (set_ap_executor_outputs outputs (record_no_progress (as_audit s))) (as_io s)).
Proof. intros [[H1 H2 HK H3] H4 H5 H6 H7] Hi. by split; [split| | | |]. Qed.

Lemma inv_outputs s outputs :
  audit_inv s -> map ea_task_id outputs = map pr_task_id (cx_executors context) ->
  audit_inv (mkAuditState (as_progress s) (set_ap_executor_outputs outputs (as_audit s)) (as_io s)).
Proof. intros [[H1 H2 HK H3] H4 H5 H6 H7] Hi. by split; [split| | | |]. Qed.

Lemma follows_audit n m s a a' p io : follows n m s (mkAuditState p a io) ->
  (m = 0%nat -> feedback_of a' = feedback_of a) -> follows n m s (mkAuditState p a' io).
Proof. intros [] H. split; try done. intros E. simpl in *. rewrite (H E). by apply fo_feedback0. Qed.

Lemma follows_stall n m s a p st io : follows n m s (mkAuditState p a io) -> follows n m s (mkAuditState (set_lp_stall st p) a io).
Proof. by intros []. Qed.

(** Quiet operations in the middle of an iteration. *)
Lemma wp_quiet {A} (m : M AuditState A) (P : A -> Prop) Q n k s0 s :
  io_op [] [] m P -> follows n k s0 s -> audit_inv s ->
  (forall a s', P a -> follows n k s0 s' -> audit_inv s' -> as_audit s' = as_audit s ->
     as_progress s' = as_progress s -> reviews_asked (as_io s') = reviews_asked (as_io s) -> Q a s') ->
  wp m Q (error_post n k s0) s.
Proof.
  intros Hm Hf Hi HQ. eapply wp_io; [exact Hm| |].
  - intros a s' Hio Ha. pose proof (follows_io _ _ _ _ _ _ _ Hf Hio) as Hf'. rewrite !Nat.add_0_r in Hf'.
    pose proof (audit_inv_io _ _ _ Hio Hi). apply io_step_audit in Hio as (? & ? & Hr & _). rewrite app_nil_r in Hr. by apply HQ.
  - intros e s' Hio He. pose proof (follows_io _ _ _ _ _ _ _ Hf Hio) as Hf'. rewrite !Nat.add_0_r in Hf'.
    split_and!; [done | | done]. eapply audit_safe_io; [exact Hio | apply Hi].
Qed.

Lemma error_mono n m n' m' s e s' : error_post n m s e s' -> (n <= n')%nat -> (m <= m')%nat -> error_post n' m' s e s'.
Proof. intros (H & ?) ? ?. split; [|done]. by eapply follows_weaken. Qed.

Lemma error_trans n m n' m' s s' e s'' : follows n m s s' -> error_post n' m' s' e s'' -> error_post (n + n') (m + m') s e s''.
Proof. intros H (H' & ?). split; [|done]. by eapply follows_trans. Qed.

Lemma wp_record_invalid validation round s :
  audit_inv s ->
  wp (record_invalid_candidate_and_should_stop context request validation round)
    (fun stop s' => follows 0 0 s s' /\ if stop : bool then audit_safe s' else audit_inv s') (error_post 0 0 s) s.
Proof.
  intros Hinv. pose proof (inv_invalid s Hinv) as Hinv1. apply wp_bind, wp_modify, wp_bind, wp_modify, wp_bind, wp_read, wp_bind.
  simpl. assert (follows 0 0 s (mkAuditState (set_lp_stall (reset_stall_count (lp_stall (as_progress s))) (as_progress s))
    (record_invalid_candidate (as_audit s)) (as_io s))) as Hf by (split; simpl; (done || lia)).
  eapply wp_quiet; [apply quiet_reject | exact Hf | done|]. intros _ s1 _ Hf1 Hi1 Ha1 _ _. simpl in Ha1. apply wp_bind.
  eapply wp_quiet with (P := fun _ => True); [|exact Hf1|done|].
  { unfold emit_invalid_candidate_warning. destruct (cv_reason validation); [by apply quiet_effect | by apply quiet_ret]. }
  intros _ s2 _ Hf2 Hi2 Ha2 _ _. destruct (ap_latest_valid_executor_outputs (as_audit s)) as [latest|] eqn:El.
  - destruct (round =? 1); [by split; [|apply Hi2]|].
    apply wp_bind, wp_modify. split; [by destruct s2; eapply follows_audit|].
    apply inv_outputs; [done|]. apply (as_valid s (ai_safe _ Hinv) latest El).
  - by split; [|apply Hi2].
Qed.

Lemma wp_record_no_progress round s latest :
  audit_inv s -> ap_latest_valid_executor_outputs (as_audit s) = Some latest ->
  wp (record_no_progress_candidate context request round)
    (fun _ s' => follows 0 0 s s' /\ audit_inv s' /\ ap_latest_valid_executor_outputs (as_audit s') = Some latest /\
       as_progress s' = as_progress s) (error_post 0 0 s) s.
Proof.
  intros Hinv El. apply wp_bind, wp_modify, wp_bind, wp_read, wp_bind.
  assert (map ea_task_id latest = map pr_task_id (cx_executors context)) as Hids by apply (as_valid s (ai_safe _ Hinv) latest El).
  assert (audit_inv (mkAuditState (as_progress s) (record_no_progress (as_audit s)) (as_io s))) as Hi0.
  { destruct Hinv as [[H1 H2 HK H3] H4 H5 H6 H7]. by split; [split| | | |]. }
  eapply wp_quiet; [apply quiet_reject | | exact Hi0 |]; [split; simpl; (done || lia)|].
  intros _ s1 _ Hf1 Hi1 Ha1 Hp1 _. simpl in *. apply wp_bind, wp_modify. rewrite El.
  eapply wp_quiet; [by apply quiet_effect | destruct s1; by eapply follows_audit | by apply inv_outputs|].
  intros _ s2 _ Hf2 Hi2 Ha2 Hp2 _. simpl in *. split_and!; [done..| |congruence]. rewrite Ha2. simpl. by rewrite Ha1.
Qed.

(** An unchanged candidate: a second one in a row stops the audit. *)
Lemma wp_unchanged round s latest :
  audit_inv s -> ap_latest_valid_executor_outputs (as_audit s) = Some latest ->
  wp (record_no_progress_candidate context request round ;;
      stalled ← note_unchanged_attempt;
      if stalled : bool then modify_audit (set_ap_stop_reason (Some NO_PROGRESS)) ;; ret (NoCandidate ITER_STOP)
      else ret (NoCandidate ITER_CONTINUE)) (acquired_post 0 s) (error_post 0 0 s) s.
Proof.
  intros Hinv El. apply wp_bind. eapply wp_mono; [by apply wp_record_no_progress| |done].
  intros _ s1 (Hf & Hi & El1 & Hp). unfold note_unchanged_attempt.
  apply wp_bind, wp_bind, wp_read, wp_bind, wp_modify, wp_ret. unfold record_unchanged_attempt. simpl.
  destruct Hi as [[H1 H2 HK H3] H4 H5 H6 H7]. unfold current_stall in *.
  destruct (MAX_CONSECUTIVE_NO_PROGRESS_ROUNDS <=? consecutive_round_count (lp_stall (as_progress s1)) + 1) eqn:E;
    unfold MAX_CONSECUTIVE_NO_PROGRESS_ROUNDS in E.
  - apply Z.leb_le in E. apply wp_bind, wp_modify, wp_ret. split; [destruct s1 as [p a io]; by apply follows_stall, (follows_audit _ _ _ a)|].
    split; simpl; [done | done | done |]. right. unfold current_stall. simpl. split_and!; [done | lia | congruence].
  - apply Z.leb_gt in E. apply wp_ret. split; [destruct s1; by apply follows_stall|].
    split; [split| | | |]; unfold current_stall; simpl; first [done | lia | (left; split; [done | lia])].
Qed.

Lemma wp_prepare round s :
  audit_inv s -> wp (prepare_review_candidate context request round) (acquired_post 0 s) (error_post 0 0 s) s.
Proof.
  intros Hinv. apply wp_bind, wp_read. cbv zeta.
  destruct (cv_valid (validate_executor_outputs (ap_executor_outputs (as_audit s)))) eqn:Ev; cbn [negb].
  2: { apply wp_bind. eapply wp_mono; [by apply wp_record_invalid| |done].
       intros stop s' [Hf Hs]. apply wp_ret. by destruct stop. }
  destruct (is_no_progress_candidate _ _ _) eqn:En.
  - apply andb_true_iff in En as [[_ Hp%bool_decide_eq_true]%andb_true_iff _].
    destruct (ap_latest_valid_executor_outputs (as_audit s)) as [latest|] eqn:El; [by apply wp_unchanged with latest|].
    by destruct (ai_packet _ Hinv Hp).
  - apply wp_bind, wp_read, wp_bind. apply wp_when; intros _; [apply wp_modify|]; apply wp_ret; (split; [by split; simpl; (done || lia)|]).
    + split_and!; [|by split; [exact Ev | exact (ai_ids _ Hinv)]|done].
      destruct Hinv as [[H1 H2 HK H3] H4 H5 H6 H7]. split; [split| | | |]; unfold current_stall in *; simpl; first [done | lia | (left; split; [done | lia])].
    + split_and!; [done | by split; [exact Ev | exact (ai_ids _ Hinv)] | done].
Qed.

Lemma acquired_safe n s c s' : acquired_post n s c s' -> audit_safe s'.
Proof. intros [_ H]. destruct c as [fp|[]]; [apply H | apply H | done | done]. Qed.

Lemma acquired_io n s c s' s'' : acquired_post n s c s' -> io_step [] [] s' s'' -> acquired_post n s c s''.
Proof.
  intros [Hf H] Hio. pose proof (follows_io _ _ _ _ _ _ _ Hf Hio) as Hf'. rewrite !Nat.add_0_r in Hf'. split; [done|].
  pose proof (io_step_audit _ _ _ _ Hio) as (_ & Ha & _). destruct c as [fp|[]]; rewrite ?Ha; try done.
  - destruct H as (Hi & ? & ?). split; [by eapply audit_inv_io | done].
  - by eapply audit_inv_io.
  - by eapply audit_safe_io.
Qed.

Lemma acquired_error s c s' : acquired_post 0 s c s' -> error_post 0 0 s CancelledError s'.
Proof. intros H. split; [apply H|]. split; [by eapply acquired_safe | done]. Qed.

Lemma wp_complete_candidate round s :
  audit_inv s -> wp (complete_candidate context request round) (acquired_post 0 s) (error_post 0 0 s) s.
Proof.
  intros Hinv. pose proof (wp_prepare round s Hinv) as H. unfold complete_candidate, wp at 1.
  unfold wp in H. destruct (prepare_review_candidate context request round s) as [[c|e|] s']; [| |done].
  - change (wp (try_except (complete_audit_io (ret c)) (fun e => match e with
      | CancelledError => survives ← read (fun s => completed_rejection_survives_cancellation context request s round (Some c));
          if survives : bool then ret (NoCandidate ITER_STOP) else raise e | _ => raise e end))
      (acquired_post 0 s) (error_post 0 0 s) s').
    apply wp_try, wp_complete, wp_ret. intros s'' Hio. pose proof (acquired_io _ _ _ _ _ H Hio) as H''. split; [done|].
    apply wp_bind, wp_read, wp_if; intros _; [apply wp_ret | apply wp_raise; by apply acquired_error with c].
    split; [apply H'' | by eapply acquired_safe].
  - destruct e; try done. destruct (completed_rejection_survives_cancellation _ _ _ _ _); [|done].
    split; [apply H | apply H].
Qed.

(** ** Acquiring a candidate *)

(** Executors run in every round but the first. *)
Definition executor_budget (round : Z) : nat := if round =? 1 then 0 else 1.

(** A failed executor round leaves the invariant in place. *)
Lemma wp_remediation round s :
  audit_inv s ->
  wp (run_remediation_executor_round context request round)
    (fun _ s' => follows (executor_budget round) 0 s s' /\ audit_inv s')
    (fun e s' => follows (executor_budget round) 0 s s' /\ audit_inv s' /\ outside_error e) s.
Proof.
  intros Hinv. unfold run_remediation_executor_round, executor_budget. destruct (round =? 1).
  { apply wp_ret. split; [apply follows_refl | done]. }
  apply wp_bind, wp_read, wp_bind, wp_read, wp_bind. eapply wp_io; [apply executor_round_spec| |].
  - intros run s1 Hio Hids. apply wp_bind, wp_modify, wp_modify. simpl.
    pose proof (io_step_follows _ _ _ _ Hio) as Hf. pose proof (audit_inv_io _ _ _ Hio Hinv) as Hi.
    split; [destruct s1; by eapply follows_audit|]. destruct Hi as [[H1 H2 HK H3] H4 H5 H6 H7]. by split; [split| | | |].
  - intros e s1 Hio He. split_and!; [by apply io_step_follows in Hio | by eapply audit_inv_io | done].
Qed.

(** Recovering restores the last valid candidate. *)
Lemma wp_recover round kind s :
  audit_inv s ->
  wp (recover_after_remediation_context_exhaustion context request round kind)
    (fun _ s' => follows 0 0 s s' /\ audit_inv s') (error_post 0 0 s) s.
Proof.
  intros Hinv. apply wp_bind, wp_read. destruct (ap_latest_valid_executor_outputs (as_audit s)) as [latest|] eqn:El.
  2: { apply wp_ret. split; [apply follows_refl | done]. }
  apply wp_if; intros _; [apply wp_ret; split; [apply follows_refl | done]|]. apply wp_bind.
  eapply wp_quiet; [apply quiet_reject | apply follows_refl | done|]. intros _ s1 _ Hf1 Hi1 Ha1 _ _.
  apply wp_bind, wp_modify, wp_bind. eapply wp_quiet; [by apply quiet_effect | destruct s1; by eapply follows_audit | |].
  { apply inv_outputs; [done|]. apply (as_valid s (ai_safe _ Hinv) latest El). }
  intros _ s2 _ Hf2 Hi2 _ _ _. apply wp_ret. done.
Qed.

Lemma wp_handle_failure round e s :
  audit_inv s -> outside_error e ->
  wp (handle_remediation_failure context request round e) (acquired_post 0 s) (error_post 0 0 s) s.
Proof.
  intros Hinv He. assert (error_post 0 0 s e s) as Hself by (split_and!; [apply follows_refl | apply Hinv | done]).
  destruct e; try (by apply wp_raise). unfold handle_remediation_failure. apply wp_bind, wp_try, wp_complete, wp_bind.
  eapply wp_mono; [by apply wp_recover| |].
  - intros recovered s1 [Hf Hi].
    assert (forall s2, io_step [] [] s1 s2 -> follows 0 0 s s2 /\ audit_inv s2) as Hio.
    { intros s2 Hio. split; [exact (follows_io _ _ _ _ _ _ _ Hf Hio) | by eapply audit_inv_io]. }
    destruct recovered.
    + apply wp_ret. intros s2 Hio2. destruct (Hio s2 Hio2) as [Hf2 Hi2].
      assert (acquired_post 0 s (NoCandidate ITER_STOP) s2) by (split; [done | apply Hi2]). split; [by apply wp_ret|].
      apply wp_if; intros _; [apply wp_raise; split_and!; [done | apply Hi2 | done] | by apply wp_ret, wp_ret].
    + apply wp_raise, wp_raise. split_and!; [done | apply Hi | done].
  - intros e s1 He1. destruct e; try (by apply wp_raise).
    apply wp_if; intros _; [by apply wp_raise | apply wp_ret, wp_ret]. split; apply He1.
Qed.

(** Resuming before a review needs a valid candidate. *)
Definition resumable (s : AuditState) : Prop :=
  aq_start_phase request = PhaseReviewers -> candidate_ok (ap_executor_outputs (as_audit s)).

(** The invariant after a committed transition. *)
Lemma audit_inv_committed s s' :
  as_audit s' = as_audit s -> lp_stall (as_progress s') = lp_stall (as_progress s) ->
  reviews_asked (as_io s') = reviews_asked (as_io s) ->
  (tracked -> Forall checkpoint_ok (checkpoints_made (as_io s)) -> Forall checkpoint_ok (checkpoints_made (as_io s'))) ->
  audit_inv s -> audit_inv s'.
Proof.
  intros Ha Hst Hr Hk [[H1 H2 HK H3] H4 H5 H6 H7].
  split; [split| | | |]; unfold current_stall in *; rewrite ?Ha, ?Hst, ?Hr; auto.
Qed.

Lemma packet_feedback a a' : feedback_of a' = feedback_of a -> packet_ok a -> packet_ok a'.
Proof. unfold packet_ok, feedback_of. intros [= -> _ -> ->]. done. Qed.

Lemma wp_acquire round s :
  audit_inv s -> (tracked -> packet_ok (as_audit s)) -> (round = aq_start_round request -> resumable s) ->
  wp (acquire_review_candidate context request round) (acquired_post (executor_budget round) s)
    (error_post (executor_budget round) 0 s) s.
Proof.
  intros Hinv Hpk Hres. unfold acquire_review_candidate.
  destruct ((round =? aq_start_round request) && bool_decide (aq_start_phase request = PhaseReviewers)) eqn:E.
  { apply andb_true_iff in E as [->%Z.eqb_eq Hp%bool_decide_eq_true]. apply wp_bind, wp_read, wp_ret.
    split; [eapply follows_weaken; [apply follows_refl | lia | lia]|]. split_and!; [done | by apply Hres | done]. }
  apply wp_bind, wp_try, wp_bind. eapply wp_mono; [by apply wp_remediation| |].
  - intros _ s1 [Hf1 Hi1]. apply wp_ret, wp_bind. eapply wp_mono; [by apply wp_complete_candidate| |].
    + intros c s2 [Hf2 Hc]. pose proof (follows_trans _ _ _ _ _ _ _ Hf1 Hf2) as Hf. rewrite Nat.add_0_r in Hf.
      destruct c as [fp|o]; [|by apply wp_ret].
      apply wp_bind, wp_commit_transition; [intros Ht; by eapply packet_feedback; [apply (fo_feedback _ _ _ _ Hf) | apply Hpk]|].
      intros s3 Ha3 Hst3 Hf3 Hr3 Hk3. pose proof (follows_trans _ _ _ _ _ _ _ Hf Hf3) as Hf'. rewrite !Nat.add_0_r in Hf'.
      destruct Hc as (Hi & Hc & Hfp). pose proof (audit_inv_committed _ _ Ha3 Hst3 Hr3 Hk3 Hi) as Hi3.
      split; [apply wp_ret; split; [done|]; by rewrite Ha3 | intros e He; split_and!; [done | apply Hi3 | done]].
    + intros e s2 He. pose proof (error_trans _ _ _ _ _ _ _ _ Hf1 He) as H. by rewrite Nat.add_0_r in H.
  - intros e s1 (Hf1 & Hi1 & He). apply wp_bind. eapply wp_mono; [by apply wp_handle_failure| |].
    + intros c s2 [Hf2 Hc]. apply wp_ret, wp_ret. split; [|done].
      pose proof (follows_trans _ _ _ _ _ _ _ Hf1 Hf2) as Hf. by rewrite Nat.add_0_r in Hf.
    + intros e' s2 He'. pose proof (error_trans _ _ _ _ _ _ _ _ Hf1 He') as H. by rewrite Nat.add_0_r in H.
Qed.

(** ** The review of a candidate *)

Lemma audit_inv_reviewed xs r (s s' : AuditState) :
  io_step xs [r] s s' -> review_ok r -> audit_inv s -> audit_inv s'.
Proof.
  intros (Hp & Ha & Hr & _ & Hk)%io_step_audit Hok [[H1 H2 HK H3] H4 H5 H6 H7]. unfold current_stall in *.
  split; [split| | | |]; unfold current_stall; rewrite ?Ha, ?Hp, ?Hr, ?Hk; try done. apply Forall_app. by split; [|constructor].
Qed.

Record reviewed (s : AuditState) (fingerprint : option string) (state : ReviewRoundState) (s' : AuditState) : Prop := {
  re_follows : follows 0 1 s s';
  re_inv : audit_inv s';
  re_candidate : ap_latest_valid_executor_outputs (as_audit s') = Some (ap_executor_outputs (as_audit s'));
  re_outputs : ap_latest_reviewer_outputs (as_audit s') = rs_reviewer_outputs state;
  re_fingerprint : rs_current_executor_fingerprint state = fingerprint;
  re_packet : rs_current_review_packet state = render_unresolved_review_packet (rs_reviewer_outputs state);
  re_run : exists r, last (reviews_asked (as_io s')) = Some r /\
    rr_review_context r = build_review_context (ap_executor_outputs (as_audit s')) /\
    reviewer_run_ok (context := context) r
      (mkReviewerRun (rs_reviewer_outputs state) 0 (rs_reviewer_failure_count state) (ap_reviewer_failures (as_audit s')))
}.

Lemma wp_build_request round s :
  audit_inv s -> candidate_ok (ap_executor_outputs (as_audit s)) ->
  wp (complete_audit_io (build_reviewer_round_request context request round))
    (fun r s' => follows 0 0 s s' /\ audit_inv s' /\ as_audit s' = as_audit s /\ rr_round_num r = round /\
       rr_review_context r = build_review_context (ap_executor_outputs (as_audit s))) (error_post 0 0 s) s.
Proof.
  intros Hinv Hc. apply wp_complete, wp_bind.
  eapply wp_quiet with (P := fun _ => True); [|apply follows_refl|done|].
  { unfold resolve_reviewer_prompt. apply quiet_if; [by apply quiet_ret | apply quiet_outside; [apply law_resolve|done]]. }
  intros prompt s1 _ Hf1 Hi1 Ha1 _ _. apply wp_bind, wp_read, wp_ret. intros s2 Hio. simpl. rewrite Ha1.
  pose proof (follows_io _ _ _ _ _ _ _ Hf1 Hio) as Hf2. pose proof (audit_inv_io _ _ _ Hio Hi1) as Hi2.
  apply io_step_audit in Hio as (_ & Ha2 & _). split; [split_and!; [done | done | congruence | done | done]|].
  split_and!; [done | apply Hi2 | done].
Qed.

Lemma wp_review_phase fingerprint round s :
  audit_inv s -> candidate_ok (ap_executor_outputs (as_audit s)) ->
  wp (run_review_phase context request fingerprint round) (reviewed s fingerprint) (error_post 0 1 s) s.
Proof.
  intros Hinv Hc. apply wp_bind. eapply wp_mono; [by apply wp_build_request| |intros; by eapply error_mono; eauto].
  intros r s1 (Hf1 & Hi1 & Ha1 & Hr & Hctx). apply wp_bind.
  assert (review_ok r) as Hok by (intros _; eauto). eapply wp_io; [apply (reviewer_round_spec (laws := laws))| |].
  2: { intros e s2 Hio He. split_and!; [exact (follows_io _ _ _ _ _ _ _ Hf1 Hio) | | done]. by eapply audit_inv_reviewed. }
  intros run s2 Hio Hrun. pose proof (follows_io _ _ _ _ _ _ _ Hf1 Hio) as Hf2. pose proof (audit_inv_reviewed _ _ _ _ Hio Hok Hi1) as Hi2.
  apply io_step_audit in Hio as (_ & Ha2 & Hr2 & _). rewrite Ha1 in Ha2. apply wp_bind, wp_modify. simpl.
  set (s3 := mkAuditState (as_progress s2) (record_completed_review run round (as_audit s2)) (as_io s2)).
  assert (follows 0 1 s s3) as Hf3 by (destruct s2; by eapply follows_audit).
  assert (audit_inv s3) as Hi3.
  { destruct Hi2 as [[H1 H2 HK H3] H4 H5 H6 H7]. unfold current_stall in *.
    split; [split| | | |]; unfold current_stall; simpl; try first [done | (left; split; [done | lia])].
    intros outputs [= <-]. by rewrite Ha2. }
  apply wp_bind, wp_complete. eapply wp_quiet with (P := fun _ => True); [|exact Hf3|exact Hi3|].
  { eapply io_op_bind; [by apply quiet_read with (Q := fun _ => True)|]. intros progress _.
    destruct (render_review_inbox _ _ _ _ _ _); [by apply quiet_effect | by apply quiet_ret]. }
  intros _ s4 _ Hf4 Hi4 Ha4 _ Hr4 s5 Hio5. pose proof (follows_io _ _ _ _ _ _ _ Hf4 Hio5) as Hf5.
  pose proof (audit_inv_io _ _ _ Hio5 Hi4) as Hi5. apply io_step_audit in Hio5 as (_ & Ha5 & Hr5 & _).
  rewrite Ha4 in Ha5. rewrite app_nil_r, Hr4 in Hr5. simpl in Ha5, Hr5.
  split; [|split_and!; [done | apply Hi5 | done]]. apply wp_ret.
  destruct Hrun. split; rewrite ?Ha5; simpl; try done.
  exists r. rewrite Hr5, Hr2, Ha2. by rewrite last_snoc.
Qed.

(** ** An iteration *)

Definition consensus_on (s : AuditState) : Prop :=
  ap_reviewer_failures (as_audit s) = [] /\
  exists outputs, ap_latest_valid_executor_outputs (as_audit s) = Some outputs /\
    approves (reviews_asked (as_io s)) outputs (ap_latest_reviewer_outputs (as_audit s)).

Definition iteration_post (round : Z) (s : AuditState) (o : AuditIterationOutcome) (s' : AuditState) : Prop :=
  follows (executor_budget round) 1 s s' /\
  match o with
  | ITER_CONTINUE => audit_inv s' /\ (tracked -> between (as_audit s'))
  | ITER_STOP => audit_safe s' /\ (tracked -> refused (as_audit s'))
  | ITER_CONSENSUS => audit_inv s' /\ consensus_on s'
  end.

Lemma all_approved reviews :
  Forall (fun a => exists raw, evaluate_review_output raw = Ok (ra_evaluation a)) reviews ->
  check_consensus (map ra_evaluation reviews) = true ->
  Forall (fun a => approved (ra_evaluation a) = true /\ no_open_issues (raw_text (ra_evaluation a)) (ra_evaluation a)) reviews.
Proof.
  intros Hev Hc. assert (forallb approved (map ra_evaluation reviews) = true) as Hall by (by destruct reviews). clear Hc.
  induction Hev as [|a reviews [raw Hraw] _ IH]; [done|]. simpl in Hall. apply andb_true_iff in Hall as [Ha Hall].
  constructor; [|by apply IH]. split; [done|]. destruct (evaluate_review_safe raw) as (ev & Hev & Hno).
  rewrite Hraw in Hev. injection Hev as <-. rewrite (evaluated_raw _ _ Hraw). auto.
Qed.

Lemma reviewed_consensus s fp state s' s'' :
  reviewed s fp state s' -> as_audit s'' = as_audit s' -> reviews_asked (as_io s'') = reviews_asked (as_io s') ->
  (0 <? rs_reviewer_failure_count state) = false -> check_consensus (map ra_evaluation (rs_reviewer_outputs state)) = true ->
  consensus_on s''.
Proof.
  intros [] Ha Hr Hcount Hc. destruct re_run0 as (r & Hlast & Hctx & [Rcount Revals Rround Rcomplete Rallowed]). simpl in *. apply Z.ltb_ge in Hcount.
  assert (ap_reviewer_failures (as_audit s') = []) as Hnil by (apply length_zero_iff_nil; lia).
  unfold consensus_on. rewrite Ha, Hr. split; [done|]. eexists. split; [done|]. rewrite re_outputs0.
  split; [auto|]. exists r. split_and!; [done | done|]. pose proof (all_approved _ Revals Hc) as Hall.
  apply Forall_forall. intros a Ha'. rewrite Forall_forall in Rround, Hall.
  destruct (Rround a Ha'), (Hall a Ha'). done.
Qed.

(** A review without consensus leaves an open verdict. *)
Lemma no_consensus failures reviews : check_consensus (map ra_evaluation reviews) = false -> unapproved failures reviews.
Proof.
  destruct reviews as [|a reviews]; [by right; left|]. intros H. right. right. remember (a :: reviews) as l eqn:El.
  assert (forallb approved (map ra_evaluation l) = false) as Hf by (by subst). clear El H. induction l as [|b l IH]; [done|].
  simpl in Hf. destruct (approved (ra_evaluation b)) eqn:E; [|exists b; split; [left | done]].
  destruct (IH Hf) as (c & Hc & ?). exists c. split; [by right | done].
Qed.

Lemma reviewed_refused s fp state s' s'' :
  reviewed s fp state s' -> as_audit s'' = as_audit s' ->
  ((0 <? rs_reviewer_failure_count state) = true \/ check_consensus (map ra_evaluation (rs_reviewer_outputs state)) = false) ->
  refused (as_audit s'').
Proof.
  intros [] Ha Hc. unfold refused. rewrite Ha, re_outputs0. destruct Hc as [Hcount|Hc]; [|by apply no_consensus].
  left. destruct re_run0 as (r & _ & _ & [Rcount _ _ _ _]). simpl in *. intros E. rewrite E in Rcount. simpl in Rcount.
  rewrite Rcount in Hcount. done.
Qed.

Lemma observe_count fp reviews st :
  0 <= consecutive_round_count st <= 1 -> 0 <= consecutive_round_count (observe_review fp reviews st) <= 1.
Proof. intros H. simpl. repeat case_match; lia. Qed.

Lemma inv_observed s fp reviews :
  audit_inv s -> audit_inv (mkAuditState (set_lp_stall (observe_review fp reviews (lp_stall (as_progress s))) (as_progress s)) (as_audit s) (as_io s)).
Proof.
  intros [[H1 H2 HK H3] H4 H5 H6 H7]. pose proof (observe_count fp reviews _ H6).
  split; [split| | | |]; unfold current_stall in *; simpl in *; first [done | lia | (left; split; [done | lia])].
Qed.

Lemma wp_consensus_check state round s0 s1 (Q : bool -> AuditState -> Prop) s :
  follows s0 1 s1 s -> audit_inv s ->
  (forall (b : bool) s', follows s0 1 s1 s' -> audit_inv s' -> as_audit s' = as_audit s -> as_progress s' = as_progress s ->
     reviews_asked (as_io s') = reviews_asked (as_io s) ->
     (if b then (0 <? rs_reviewer_failure_count state) = false /\ check_consensus (map ra_evaluation (rs_reviewer_outputs state)) = true
      else (0 <? rs_reviewer_failure_count state) = true \/ check_consensus (map ra_evaluation (rs_reviewer_outputs state)) = false) ->
     Q b s') ->
  wp (complete_audit_io (review_phase_reached_consensus context state round)) Q (error_post s0 1 s1) s.
Proof.
  intros Hf Hi HQ. eapply wp_quiet with (P := fun b : bool => if b
    then (0 <? rs_reviewer_failure_count state) = false /\ check_consensus (map ra_evaluation (rs_reviewer_outputs state)) = true
    else (0 <? rs_reviewer_failure_count state) = true \/ check_consensus (map ra_evaluation (rs_reviewer_outputs state)) = false);
    [|exact Hf|done|].
  - apply quiet_complete. unfold review_phase_reached_consensus.
    destruct (0 <? _); [by apply quiet_ret; left|]. destruct (check_consensus _); simpl; [|by apply quiet_ret; right].
    eapply io_op_bind; [by apply quiet_when, quiet_effect|]. intros _ _. by apply quiet_ret.
  - intros b s' Hb Hf' Hi' Ha' Hp' Hr'. by apply HQ.
Qed.

Lemma quiet_stall_warning state : io_op [] [] (emit_review_stall_warning_if_needed context state) (fun _ => True).
Proof.
  eapply io_op_bind; [by apply quiet_read with (Q := fun _ => True)|]. intros progress _.
  destruct (ap_previous_executor_fingerprint progress); [|by apply quiet_ret]. unfold emit_review_stall_warning.
  destruct (sorted_set _); [by apply quiet_ret | by apply quiet_effect].
Qed.

Lemma wp_iteration round s :
  audit_inv s -> (tracked -> between (as_audit s)) -> (round = aq_start_round request -> resumable s) ->
  wp (execute_audit_iteration context request round) (iteration_post round s) (error_post (executor_budget round) 1 s) s.
Proof.
  intros Hinv Hbt Hres. apply wp_bind.
  eapply wp_mono; [apply wp_acquire; [done | by intros [Ht _]%Hbt | done]| |intros; eapply error_mono; [done|lia|lia]].
  intros [fp|o] s1 [Hf1 Hc].
  2: { apply wp_ret. split; [eapply follows_weaken; [exact Hf1|lia|lia]|].
       assert (tracked -> between (as_audit s1)) as Hb1 by (intros Ht; eapply between_feedback; [by apply (fo_feedback _ _ _ _ Hf1) | auto]).
       destruct o; [by split | split; [done | by intros [_ ?]%Hb1] | done]. }
  destruct Hc as (Hi1 & Hok & Hfp). apply wp_bind. eapply wp_mono; [by apply wp_review_phase| |].
  2: { intros e s2 He. pose proof (error_trans _ _ _ _ _ _ _ _ Hf1 He) as H. by rewrite Nat.add_0_r in H. }
  intros state s2 Hrev. pose proof (follows_trans _ _ _ _ _ _ _ Hf1 (re_follows _ _ _ _ Hrev)) as Hf2.
  rewrite Nat.add_0_r in Hf2. simpl in Hf2. apply wp_bind.
  eapply wp_quiet; [apply quiet_complete, quiet_stall_warning | exact Hf2 | apply Hrev|].
  intros _ s3 _ Hf3 Hi3 Ha3 Hp3 Hr3. apply wp_bind. eapply wp_consensus_check; [exact Hf3 | done|].
  intros consensus s4 Hf4 Hi4 Ha4 Hp4 Hr4 Hcons. destruct consensus.
  - apply wp_bind, wp_modify, wp_ret. split; [destruct s4; by apply follows_stall|]. split; [by apply inv_observed|].
    destruct Hcons as [Hcount Hcheck]. eapply reviewed_consensus; [exact Hrev| | |done|done]; simpl; congruence.
  - apply wp_bind, wp_modify, wp_bind, wp_read, wp_bind, wp_modify, wp_ret. simpl.
    split; [destruct s4 as [p a io]; by apply follows_stall, (follows_audit _ _ _ a)|].
    assert (refused (as_audit s4)) as Hno by (eapply reviewed_refused; [exact Hrev | congruence | done]).
    assert (packet_ok (advance_review_state state (as_audit s4))) as Hpk.
    { unfold packet_ok. simpl. rewrite (re_packet _ _ _ _ Hrev), Ha4, Ha3, (re_outputs _ _ _ _ Hrev). done. }
    split; [|done].
    assert (ap_latest_valid_executor_outputs (as_audit s4) <> None) as Hlv by (rewrite Ha4, Ha3, (re_candidate _ _ _ _ Hrev); done).
    destruct Hi4 as [[H1 H2 HK H3] H4 H5 H6 H7]. pose proof (observe_count (rs_current_executor_fingerprint state)
      (ap_latest_reviewer_outputs (as_audit s4)) _ H6).
    split; [split| | | |]; unfold current_stall in *; simpl in *; first [done | lia | (left; split; [done | lia])].
Qed.

(** ** The rounds of an audit *)

Fixpoint executor_budgets (rounds : list Z) : nat :=
  match rounds with [] => 0 | r :: rounds => executor_budget r + executor_budgets rounds end.

(** What the result of an audit says of its final state. *)
Definition audit_post (n m : nat) (s : AuditState) (r : AuditRoundResult) (s' : AuditState) : Prop :=
  follows n m s s' /\ audit_safe s' /\
  exists consensus fresh, r = to_result consensus fresh (as_audit s') /\
    (if consensus then consensus_on s' /\ ap_stop_reason (as_audit s') = None else tracked -> refused (as_audit s')) /\
    (fresh = true -> consensus = true).

Lemma audit_post_weaken n m n' m' s r s' :
  audit_post n m s r s' -> (n <= n')%nat -> (m <= m')%nat -> audit_post n' m' s r s'.
Proof. intros (H & ?) ? ?. split; [by eapply follows_weaken | done]. Qed.

Lemma inv_last_round s round : audit_inv s -> audit_inv (mkAuditState (as_progress s) (set_ap_last_round_num round (as_audit s)) (as_io s)).
Proof. intros [[H1 H2 HK H3] H4 H5 H6 H7]. by split; [split| | | |]. Qed.

Lemma wp_iterations rounds : forall s,
  audit_inv s -> (tracked -> between (as_audit s)) ->
  match rounds with [] => True | r :: rest => (r = aq_start_round request -> resumable s) /\ aq_start_round request ∉ rest end ->
  wp (audit_iterations context request rounds) (audit_post (executor_budgets rounds) (length rounds) s)
    (error_post (executor_budgets rounds) (length rounds) s) s.
Proof.
  induction rounds as [|round rounds IH]; intros s Hinv Hbt Hstart; simpl.
  { apply wp_read. split_and!; [apply follows_refl | apply Hinv|]. exists false, false. split_and!; [done | by intros [_ ?]%Hbt | done]. }
  destruct Hstart as [Hres Hrest]. apply wp_bind, wp_modify, wp_bind.
  eapply wp_mono with (E := error_post 0 0 s); [eapply wp_quiet; [apply quiet_complete, quiet_publish| |by apply inv_last_round|]| |].
  { split; simpl; (done || lia). }
  { intros u s1 _ Hf1 Hi1 Ha1 _ _. exact (conj Hf1 (conj Hi1 Ha1)). }
  2: { intros e s' He. eapply error_mono; [done|lia|lia]. }
  intros _ s1 (Hf1 & Hi1 & Ha1). apply wp_bind.
  eapply wp_mono; [apply wp_iteration; [done | rewrite Ha1; exact Hbt|]| |].
  { intros Hr Hp. rewrite Ha1. simpl. by apply Hres. }
  2: { intros e s2 He. pose proof (error_trans _ _ _ _ _ _ _ _ Hf1 He) as H. eapply error_mono; [exact H|simpl; lia|simpl; lia]. }
  intros o s2 [Hf2 Ho]. pose proof (follows_trans _ _ _ _ _ _ _ Hf1 Hf2) as Hf. simpl in Hf.
  assert (follows (executor_budget round + executor_budgets rounds) (S (length rounds)) s s2) as Hfw
    by (eapply follows_weaken; [exact Hf|lia|lia]).
  destruct o.
  - apply wp_bind. assert (wp (when (round <? max_round context) (commit_transition PhaseExecutors (round + 1)))
      (fun _ s3 => audit_inv s3 /\ (tracked -> between (as_audit s3)) /\ follows 0 0 s2 s3) (error_post 0 0 s2) s2) as Hcommit.
    { destruct Ho as [Ho Hb2]. apply wp_when; intros _; [|split_and!; [done | done | apply follows_refl]].
      apply wp_commit_transition; [by intros [? _]%Hb2|]. intros s3 Ha3 Hst3 Hf3 Hr3 Hk3.
      pose proof (audit_inv_committed _ _ Ha3 Hst3 Hr3 Hk3 Ho) as Hi3.
      split; [by rewrite Ha3|]. intros e He. split_and!; [done | apply Hi3 | done]. }
    eapply wp_mono; [exact Hcommit| |].
    2: { intros e s3 He. pose proof (error_trans _ _ _ _ _ _ _ _ Hf He) as H. eapply error_mono; [exact H|lia|lia]. }
    intros _ s3 (Hi3 & Hb3 & Hf3). pose proof (follows_trans _ _ _ _ _ _ _ Hf Hf3) as Hf'. eapply wp_mono; [apply IH; [done | done|]| |].
    + destruct rounds as [|r rest]; [done|]. apply not_elem_of_cons in Hrest as [Hne Hrest]. by split.
    + intros r s4 (Hf4 & Hr). split; [|done]. eapply follows_weaken; [exact (follows_trans _ _ _ _ _ _ _ Hf' Hf4)|lia|lia].
    + intros e s4 He. eapply error_mono; [exact (error_trans _ _ _ _ _ _ _ _ Hf' He)|lia|lia].
  - apply wp_read. destruct Ho as [Hs Hno]. split_and!; [done | done|]. by exists false, false.
  - apply wp_read. destruct Ho as [Hi Hcons]. split_and!; [done | apply Hi|]. exists true, (round =? 1).
    split_and!; [done | done | apply (ai_running _ Hi) | done].
Qed.

(** The rounds left to an audit that starts at [aq_start_round]. *)
Definition audit_rounds_left : list Z := z_range (aq_start_round request) (max_round context).

(** ** A whole audit *)

Lemma wp_single_audit s :
  audit_inv s -> (tracked -> between (as_audit s)) -> resumable s ->
  wp (execute_single_audit_round context request)
    (audit_post (executor_budgets audit_rounds_left) (length audit_rounds_left) s)
    (error_post (executor_budgets audit_rounds_left) (length audit_rounds_left) s) s.
Proof.
  intros Hinv Hbt Hres. apply wp_try. unfold execute_audit_round_iterations. fold audit_rounds_left.
  eapply wp_mono; [apply wp_iterations; [done | done|]|done|].
  { unfold audit_rounds_left, z_range. destruct (decide (0 < max_round context + 1 - aq_start_round request)) as [H|H].
    - rewrite seqZ_cons by done. split; [done|]. rewrite elem_of_seqZ. lia.
    - by rewrite seqZ_nil by lia. }
  intros e s1 (Hf1 & Hs1 & He). apply wp_bind, wp_read, wp_if; intros Hif.
  - apply wp_read. split_and!; [done | done|]. exists false, false. split_and!; [done| |done]. intros _. apply no_consensus.
    apply andb_true_iff in Hif as [_ Hif]. unfold completed_review_requires_failure in Hif.
    by apply andb_true_iff in Hif as [_ Hif%negb_true_iff].
  - assert (forall s2 e', io_step [] [] s1 s2 -> outside_error e' -> error_post (executor_budgets audit_rounds_left)
      (length audit_rounds_left) s e' s2) as Herr.
    { intros s2 e' Hio He'. pose proof (follows_io _ _ _ _ _ _ _ Hf1 Hio) as Hf2. rewrite !Nat.add_0_r in Hf2.
      split_and!; [done | by eapply audit_safe_io | done]. }
    apply wp_complete, wp_bind. eapply wp_io; [apply quiet_publish| |auto].
    intros _ s2 Hio _. apply wp_raise. auto.
Qed.

End AuditSpec.
