(* ===== verification/ReviewLoopSpec.v ===== *)
(** What a review loop guarantees: the conditions under which it completes or
    rejects a node, the number of rounds it runs, and what reviewers see. *)

From Stdlib Require Import ZArith Lia Ascii String.
From stdpp Require Import base gmap sets list list_numbers strings.
From S2P Require Import Prelude PyStr Models Scheduler PlanRecords Artifacts PlanContract.
From S2P Require Import Reviews ReviewCandidates StateExn ReviewLoopState ReviewLoop ReviewLoopRounds ReviewLoopAudit.

Open Scope string_scope.
Open Scope list_scope.
Open Scope Z_scope.

Section LoopSpec.
Context {libs : ReviewLibraries} {env : ReviewLoopEnv} {tracking : Tracking}.
Context {context : ReviewLoopRunContext} {laws : ReviewLoopEnvLaws context}.

Notation candidate_ok := (candidate_ok (context := context)).
Notation review_ok := (review_ok (context := context)).
Notation approves := (approves (context := context)).
Notation audit_inv := (audit_inv (context := context)).
Notation audit_safe := (audit_safe (context := context)).

(** What a trace says of reviews and checkpoints. *)
Definition log (io : IO) : list ReviewerRoundRequest * list (CheckpointPhase * Z * Z * ReviewLoopProgress) :=
  (reviews_asked io, checkpoints_made io).

Definition log_ok (l : list ReviewerRoundRequest * list (CheckpointPhase * Z * Z * ReviewLoopProgress)) : Prop :=
  Forall review_ok (fst l) /\ (tracked -> Forall checkpoint_ok (snd l)).

Lemma log_reviews io io' : log io' = log io -> reviews_asked io' = reviews_asked io.
Proof. by intros [= H _]. Qed.

(** The progress of a loop between audits. *)
Record progress_ok (p : ReviewLoopProgress) (io : IO) : Prop := {
  po_valid outputs : lp_latest_executor_outputs p = Some outputs -> candidate_ok outputs;
  po_reviews : log_ok (log io)
}.

(** The loop before an audit: fresh, or resumed inside one. *)
Record loop_inv (s : LoopState) : Prop := {
  li_progress : progress_ok (ls_progress s) (ls_io s);
  li_count : 0 <= consecutive_round_count (lp_stall (ls_progress s)) <= 1;
  li_fresh : lp_active_audit (ls_progress s) = None ->
    lp_cursor_round (ls_progress s) = 1 /\ lp_next_phase (ls_progress s) = PhaseExecutors;
  li_active a : lp_active_audit (ls_progress s) = Some a ->
    audit_inv (mkAuditState (ls_progress s) a (ls_io s)) /\ (tracked -> between a) /\ 1 <= lp_cursor_round (ls_progress s) /\
    (lp_next_phase (ls_progress s) = PhaseReviewers -> candidate_ok (ap_executor_outputs a))
}.

Definition asked_executors (s : LoopState) : nat := length (executors_asked (ls_io s)).
Definition asked_reviewers (s : LoopState) : nat := length (reviews_asked (ls_io s)).

(** [s'] comes after [s], with at most [n] more executor and [m] more reviewer rounds. *)
Record later (n m : nat) (s s' : LoopState) : Prop := {
  la_executors : (asked_executors s' <= asked_executors s + n)%nat;
  la_reviewers : (asked_reviewers s' <= asked_reviewers s + m)%nat
}.

Lemma later_refl s : later 0 0 s s.
Proof. split; lia. Qed.
Lemma later_trans n m n' m' s s' s'' : later n m s s' -> later n' m' s' s'' -> later (n + n') (m + m') s s''.
Proof. intros [] []. split; lia. Qed.
Lemma later_weaken n m n' m' s s' : later n m s s' -> (n <= n')%nat -> (m <= m')%nat -> later n' m' s s'.
Proof. intros [] ? ?. split; lia. Qed.

Lemma io_step_loop xs rs (s s' : LoopState) : io_step xs rs s s' ->
  ls_progress s' = ls_progress s /\ log (ls_io s') = (fst (log (ls_io s)) ++ rs, snd (log (ls_io s))) /\ later (length xs) (length rs) s s'.
Proof.
  intros (io & -> & Ht & Hx & Hr & Hc). simpl in *. split_and!; [done | by unfold log; rewrite Hr, Hc|].
  split; unfold asked_executors, asked_reviewers; simpl; rewrite ?Hx, ?Hr, length_app; lia.
Qed.

Lemma quiet_loop xs (s s' : LoopState) : io_step xs [] s s' ->
  ls_progress s' = ls_progress s /\ log (ls_io s') = log (ls_io s) /\ later (length xs) 0 s s'.
Proof. intros (Hp & Hr & Hl)%io_step_loop. rewrite app_nil_r in Hr. by split_and!. Qed.

(** A review before the first candidate is no review of a local round. *)
Lemma log_pre_review l r : log_ok l -> rr_round_num r = 0 -> log_ok (fst l ++ [r], snd l).
Proof.
  intros [H1 H2] Hr. split; [|done]. apply Forall_app. split; [done|]. constructor; [|done]. unfold review_ok. lia.
Qed.

(** An error that comes from outside leaves the reviews of the trace in order. *)
Definition loop_error (n m : nat) (s : LoopState) (e : exn) (s' : LoopState) : Prop :=
  later n m s s' /\ log_ok (log (ls_io s')) /\ outside_error e.

Lemma loop_error_weaken n m n' m' s s1 e s' :
  later n m s s1 -> loop_error n' m' s1 e s' -> loop_error (n + n') (m + m') s e s'.
Proof. intros H (H' & ?). split; [by eapply later_trans | done]. Qed.

Lemma loop_error_mono n m n' m' s e s' : loop_error n m s e s' -> (n <= n')%nat -> (m <= m')%nat -> loop_error n' m' s e s'.
Proof. intros (H & ?) ? ?. split; [by eapply later_weaken | done]. Qed.

(** Quiet operations between audits. *)
Lemma wp_quiet_loop {A} (m : M LoopState A) (P : A -> Prop) Q s :
  io_op [] [] m P -> log_ok (log (ls_io s)) ->
  (forall a s', P a -> ls_progress s' = ls_progress s -> log (ls_io s') = log (ls_io s) ->
     later 0 0 s s' -> Q a s') ->
  wp m Q (loop_error 0 0 s) s.
Proof.
  intros Hm Hr HQ. eapply wp_io; [exact Hm| |].
  - intros a s' (Hp & Hr' & Hl)%quiet_loop Ha. by apply HQ.
  - intros e s' (Hp & Hr' & Hl)%quiet_loop He. split_and!; [done | by rewrite Hr' | done].
Qed.

(** ** The candidate an audit starts from *)

Lemma wp_commit_loop phase round s :
  log_ok (log (ls_io s)) -> lp_active_audit (ls_progress s) = None ->
  wp (commit_loop_transition phase round)
    (fun _ s' => ls_progress s' = set_lp_cursor_round round (set_lp_next_phase phase (ls_progress s)) /\
       log_ok (log (ls_io s')) /\ later 0 0 s s') (loop_error 0 0 s) s.
Proof.
  intros Hr Ha. apply wp_bind, wp_read, wp_bind. apply (wp_commit_effect (laws := laws)).
  2: { intros e s' (Hp & Hr' & Hl)%quiet_loop He. split_and!; [done | by rewrite Hr' | done]. }
  intros io _ Hx Hrv Hc. apply wp_bind, wp_modify. simpl in *. set (s2 := mkLoopState _ io).
  assert (log_ok (log io)) as Hok.
  { unfold log. rewrite Hrv, Hc. destruct Hr as [H1 H2]. split; [done|]. intros Ht. apply Forall_app. split; [by apply H2|].
    constructor; [|done]. split; [done|]. by rewrite Ha. }
  assert (later 0 0 s s2) as Hl2 by (split; unfold asked_executors, asked_reviewers; simpl; rewrite ?Hx, ?Hrv; lia).
  eapply wp_mono; [eapply wp_quiet_loop with (s := s2); [apply quiet_complete, quiet_discard | done|]| |].
  - intros u s3 _ Hp3 Hr3 Hl3. exact (conj Hp3 (conj Hr3 Hl3)).
  - intros _ s3 (Hp3 & Hr3 & Hl3). split_and!; [done | by rewrite Hr3 |]. exact (later_trans _ _ _ _ _ _ _ Hl2 Hl3).
  - intros e s3 He. exact (loop_error_weaken _ _ _ _ _ _ _ _ Hl2 He).
Qed.

(** The progress before an audit has a candidate. *)
Record unstarted (p p' : ReviewLoopProgress) : Prop := {
  un_outputs : lp_latest_executor_outputs p' = lp_latest_executor_outputs p;
  un_stall : lp_stall p' = lp_stall p;
  un_active : lp_active_audit p' = None;
  un_executed : lp_executed_audit_rounds p' = lp_executed_audit_rounds p;
  un_cursor : lp_cursor_round p' = 1 /\ lp_next_phase p' = PhaseExecutors
}.

Definition before_audit (n m : nat) (s s' : LoopState) : Prop :=
  later n m s s' /\ unstarted (ls_progress s) (ls_progress s') /\ log_ok (log (ls_io s')).

(** Only the first audit is preceded by a review without a candidate. *)
Definition pre_review_budget (audit : Z) : nat := if audit =? 1 then 1 else 0.

Lemma wp_handoff dir audit_context audit s :
  unstarted (ls_progress s) (ls_progress s) -> log_ok (log (ls_io s)) ->
  wp (initial_pre_review_handoff context dir audit_context audit)
    (fun _ s' => before_audit 0 (pre_review_budget audit) s s') (loop_error 0 (pre_review_budget audit) s) s.
Proof.
  intros Hu Hr. assert (before_audit 0 (pre_review_budget audit) s s) as Hself
    by (split_and!; [split; lia | done | done]).
  apply wp_bind, wp_read, wp_if; intros H1; [by apply wp_ret|]. apply wp_if; intros H2; [by apply wp_ret|].
  apply negb_false_iff in H2. unfold should_run_initial_pre_review in H2.
  apply andb_true_iff in H2 as [[_ ->%Z.eqb_eq]%andb_true_iff _]. change (pre_review_budget 1) with 1%nat.
  apply wp_bind. eapply wp_mono with (E := loop_error 0 0 s); [eapply wp_quiet_loop with (P := fun _ => True); [|done|]| |].
  { apply quiet_complete. unfold initial_pre_review_prompt. apply quiet_if; [by apply quiet_ret|].
    apply quiet_outside; [apply law_resolve | done]. }
  { intros prompt s1 _ Hp1 Hr1 Hl1. exact (conj Hp1 (conj Hr1 Hl1)). }
  2: { intros e s1 He. eapply loop_error_mono; [exact He|lia|lia]. }
  intros prompt s1 (Hp1 & Hr1 & Hl1). apply wp_bind. eapply wp_io; [apply (reviewer_round_spec (laws := laws))| |].
  2: { intros e s2 (Hp2 & Hr2 & Hl2)%io_step_loop He. split_and!; [|rewrite Hr2, Hr1|done].
       - exact (later_trans _ _ _ _ _ _ _ Hl1 Hl2).
       - by apply log_pre_review. }
  intros run s2 (Hp2 & Hr2 & Hl2)%io_step_loop _. pose proof (later_trans _ _ _ _ _ _ _ Hl1 Hl2) as Hl.
  apply wp_bind, wp_modify, wp_bind. set (s3 := mkLoopState _ _).
  assert (log_ok (log (ls_io s3))) as Hr3.
  { simpl. rewrite Hr2, Hr1. by apply log_pre_review. }
  assert (later 0 1 s s3) as Hl3 by (destruct Hl; split; done).
  eapply wp_mono; [apply wp_commit_loop with (s := s3); [done | simpl; rewrite Hp2, Hp1; apply Hu]| |].
  - intros _ s4 (Hp4 & Hr4 & Hl4). apply wp_ret. split_and!; [exact (later_trans _ _ _ _ _ _ _ Hl3 Hl4)| |done].
    rewrite Hp4. simpl. rewrite Hp2, Hp1. destruct Hu. by split.
  - intros e s4 He. exact (loop_error_weaken _ _ _ _ _ _ _ _ Hl3 He).
Qed.

Lemma quiet_seed dir audit_context round artifact :
  io_op [] [] (seed_executor_output dir audit_context round artifact) (fun a => ea_task_id a = ea_task_id artifact).
Proof.
  unfold seed_executor_output. destruct (ea_output_signature artifact) as [bound|]; [|by apply quiet_raise].
  eapply io_op_bind; [apply quiet_outside with (Q := fun _ => True); [apply law_read|done]|]. intros content _.
  apply quiet_if; [by apply quiet_raise|].
  eapply io_op_bind; [apply quiet_outside with (Q := fun _ => True); [apply law_publish|done]|]. intros signature _.
  by apply quiet_ret.
Qed.

Lemma wp_initial_outputs dir audit_context handoff s :
  progress_ok (ls_progress s) (ls_io s) -> unstarted (ls_progress s) (ls_progress s) ->
  wp (initial_audit_executor_outputs context dir audit_context handoff)
    (fun outputs s' => before_audit 1 0 s s' /\ map ea_task_id outputs = map pr_task_id (cx_executors context))
    (loop_error 1 0 s) s.
Proof.
  intros [Hv Hr] Hu. apply wp_bind, wp_read. destruct (lp_latest_executor_outputs (ls_progress s)) as [latest|] eqn:El.
  - eapply wp_mono with (E := loop_error 0 0 s); [eapply wp_quiet_loop with (P := fun outputs => map ea_task_id outputs = map ea_task_id latest); [|done|]| |].
    + apply quiet_complete. eapply io_op_mono; [apply quiet_map_all with (R := fun a b => ea_task_id b = ea_task_id a); intros; apply quiet_seed|].
      intros outputs H. exact (Forall2_map_eq _ _ _ _ H).
    + intros outputs s1 Hids Hp1 Hr1 Hl1. exact (conj Hids (conj Hp1 (conj Hr1 Hl1))).
    + intros outputs s1 (Hids & Hp1 & Hr1 & Hl1). rewrite Hids. destruct (Hv latest eq_refl) as [_ Hlatest].
      split; [|done]. split_and!; [by eapply later_weaken; [exact Hl1|lia|lia] | by rewrite Hp1 | by rewrite Hr1].
    + intros e s1 He. eapply loop_error_mono; [exact He|lia|lia].
  - apply wp_bind. eapply wp_io; [apply (executor_round_spec (laws := laws))| |].
    + intros run s1 (Hp1 & Hr1 & Hl1)%quiet_loop Hids. apply wp_bind, wp_modify, wp_ret.
      split; [|done]. split_and!; [destruct Hl1; split; done | simpl; rewrite Hp1; destruct Hu; by split | by simpl; rewrite Hr1].
    + intros e s1 (Hp1 & Hr1 & Hl1)%quiet_loop He. split_and!; [done | by rewrite Hr1 | done].
Qed.

(** ** One audit of the loop *)

Definition depth_budget : nat := Z.to_nat (cx_remediation_depth context).

Lemma rounds_budget first : 1 <= first ->
  (length (z_range first (max_round context)) <= S depth_budget)%nat /\
  (executor_budgets (z_range first (max_round context)) <= depth_budget)%nat.
Proof.
  intros H. unfold z_range, max_round, maximum_review_round, depth_budget. rewrite length_seqZ. split; [lia|].
  assert (forall k f, 1 < f -> executor_budgets (seqZ f (Z.of_nat k)) = k) as Hk.
  { intros k. induction k as [|k IH]; intros f Hf; [by rewrite seqZ_nil by lia|]. rewrite seqZ_cons by lia. simpl.
    replace (Z.pred (Z.of_nat (S k))) with (Z.of_nat k) by lia. rewrite IH by lia. unfold executor_budget.
    destruct (Z.eqb_spec f 1); lia. }
  destruct (decide (0 < cx_remediation_depth context + 1 + 1 - first)) as [Hl|Hl]; [|rewrite seqZ_nil by lia; simpl; lia].
  rewrite seqZ_cons by done. simpl. rewrite <- (Z2Nat.id (Z.pred _)) by lia. rewrite Hk by lia. unfold executor_budget.
  destruct (Z.eqb_spec first 1); lia.
Qed.

Record audited (s : LoopState) (audit : Z) (r : AuditRoundResult) (s' : LoopState) : Prop := {
  au_later : later (S depth_budget) (S depth_budget + pre_review_budget audit) s s';
  au_inactive : lp_active_audit (ls_progress s') = None;
  au_ok : progress_ok (ls_progress s') (ls_io s');
  au_stop : (ar_stop_reason r = None /\ 0 <= consecutive_round_count (lp_stall (ls_progress s')) <= 1) \/
    (ar_stop_reason r = Some NO_PROGRESS /\ lp_stop_reason (ls_progress s') = Some NO_PROGRESS /\
     consecutive_round_count (lp_stall (ls_progress s')) = 2 /\ lp_latest_executor_outputs (ls_progress s') <> None /\
     lp_consensus_reached (ls_progress s') = false);
  au_consensus : lp_consensus_reached (ls_progress s') = ar_consensus_reached r;
  au_fresh : ar_clean_fresh_approval r = true -> ar_consensus_reached r = true;
  au_executed : lp_executed_audit_rounds (ls_progress s') = lp_executed_audit_rounds (ls_progress s);
  au_refused : tracked -> ar_consensus_reached r = false ->
    unapproved (lp_reviewer_failures (ls_progress s')) (lp_latest_reviewer_outputs (ls_progress s'));
  au_approved : ar_consensus_reached r = true -> exists outputs, lp_latest_executor_outputs (ls_progress s') = Some outputs /\
    approves (reviews_asked (ls_io s')) outputs (lp_latest_reviewer_outputs (ls_progress s'))
}.

Definition audit_error (s : LoopState) (audit : Z) : exn -> LoopState -> Prop :=
  loop_error (S depth_budget) (S depth_budget + pre_review_budget audit) s.

(** Recording the result of an audit. *)
Lemma record_result_spec r p :
  match record_audit_result r p with
  | (Ok _, p') =>
      lp_active_audit p' = None /\ lp_stall p' = lp_stall p /\ lp_stop_reason p' = ar_stop_reason r /\
      lp_consensus_reached p' = ar_consensus_reached r /\ lp_latest_reviewer_outputs p' = ar_latest_reviewer_outputs r /\
      lp_reviewer_failures p' = ar_reviewer_failures r /\ lp_executed_audit_rounds p' = lp_executed_audit_rounds p /\
      lp_latest_executor_outputs p' = match ar_latest_executor_outputs r with Some o => Some o | None => lp_latest_executor_outputs p end
  | (Raise e, _) => outside_error e
  | (OutOfFuel, _) => False
  end.
Proof.
  unfold record_audit_result, record_audit_counters, record_audit_reviews.
  destruct (ar_latest_executor_outputs r) as [[|a l]|]; destruct (ar_selected_round_num r =? 0), (0 <? ar_selected_round_num r); done.
Qed.

Lemma wp_in_audit {A} active (m : M AuditState A) Q E s :
  wp m (fun a t => Q a (mkLoopState (set_lp_active_audit (Some (as_audit t)) (as_progress t)) (as_io t)))
    (fun e t => E e (mkLoopState (set_lp_active_audit (Some (as_audit t)) (as_progress t)) (as_io t)))
    (mkAuditState (ls_progress s) active (ls_io s)) -> wp (in_audit active m) Q E s.
Proof. unfold wp, in_audit. by destruct (m _) as [[a|e|] t]. Qed.

(** The active audit, from its start or from where it was left. *)
Lemma wp_active_audit dir audit_context first phase active s0 n m audit s :
  later n m s0 s -> (n + depth_budget <= S depth_budget)%nat -> (m <= pre_review_budget audit)%nat ->
  progress_ok (ls_progress s) (ls_io s) -> lp_executed_audit_rounds (ls_progress s) = lp_executed_audit_rounds (ls_progress s0) ->
  1 <= first -> audit_inv (mkAuditState (ls_progress s) active (ls_io s)) -> (tracked -> between active) ->
  (phase = PhaseReviewers -> candidate_ok (ap_executor_outputs active)) ->
  wp (audit_result ← in_audit active (execute_single_audit_round context (mkAuditRequest dir audit_context first phase));
      zoom ls_progress (fun p s => mkLoopState p (ls_io s)) (record_audit_result audit_result) ;; ret audit_result)
    (audited s0 audit) (audit_error s0 audit) s.
Proof.
  intros Hl Hn Hm [Hv Hr] Hex Hfirst Hinv Hbt Hphase. destruct (rounds_budget first Hfirst) as [Hb1 Hb2].
  apply wp_bind, wp_in_audit. eapply wp_mono; [apply (wp_single_audit (laws := laws)); done| |].
  2: { intros e t ([Hc Hx Hrv Hpre _] & [Hs1 Hs2 HK Hs3] & He). simpl in *. destruct Hl as [Hl1 Hl2].
       unfold audit_rounds_left in *. simpl in *. split_and!; [split; unfold asked_executors, asked_reviewers in *; simpl in *; lia | done | done]. }
  intros r t ([Hc Hx Hrv Hpre _] & [Hs1 Hs2 HK Hs3] & consensus & fresh & -> & Hcons & Hfresh). simpl in *.
  unfold audit_rounds_left in *. simpl in *. destruct Hl as [Hl1 Hl2].
  apply wp_bind, wp_zoom. simpl. unfold wp at 1.
  pose proof (record_result_spec (to_result consensus fresh (as_audit t)) (set_lp_active_audit (Some (as_audit t)) (as_progress t))) as Hrec.
  assert (later (S depth_budget) (S depth_budget + pre_review_budget audit) s0 (mkLoopState (as_progress t) (as_io t))) as Hl'
    by (split; unfold asked_executors, asked_reviewers in *; simpl in *; lia).
  destruct (record_audit_result _ _) as [[u|e|] p']; [| |done].
  2: { split_and!; [destruct Hl'; split; done | done | done]. }
  destruct Hrec as (Ha & Hst & Hstop & Hcr & Hlr & Hlf & Hle' & Hle). simpl in Hstop, Hcr, Hlr, Hlf, Hle', Hle. apply wp_ret.
  assert (lp_latest_executor_outputs (as_progress t) = lp_latest_executor_outputs (ls_progress s)) as Hcore
    by exact (f_equal lp_latest_executor_outputs Hc).
  assert (lp_executed_audit_rounds (as_progress t) = lp_executed_audit_rounds (ls_progress s)) as Hcore'
    by exact (f_equal lp_executed_audit_rounds Hc).
  split; simpl; [destruct Hl'; split; done | done | | | done | done | congruence | | ].
  - split; [|done]. intros outputs Ho. rewrite Hle in Ho.
    destruct (ap_latest_valid_executor_outputs (as_audit t)) as [o|] eqn:E; [injection Ho as <-; by apply Hs1|].
    rewrite Hcore in Ho. by apply Hv.
  - rewrite Hst, Hstop. simpl. unfold current_stall in Hs3. destruct Hs3 as [[H1 H2]|(H1 & H2 & H3)]; [by left|right].
    split_and!; [done | done | done | |].
    + rewrite Hle. by destruct (ap_latest_valid_executor_outputs (as_audit t)).
    + rewrite Hcr. destruct consensus; [|done]. destruct Hcons as [_ H4]. congruence.
  - intros Ht ->. rewrite Hlf, Hlr. by apply Hcons.
  - intros ->. destruct Hcons as [(_ & outputs & Ho & Happ) _]. exists outputs. rewrite Hle, Ho, Hlr. done.
Qed.

Lemma unstarted_self p : lp_active_audit p = None -> lp_cursor_round p = 1 -> lp_next_phase p = PhaseExecutors -> unstarted p p.
Proof. by split. Qed.

(** Before its first round, a fresh audit has a candidate of every executor. *)
Lemma wp_start_audit dir audit_context audit s :
  loop_inv s -> lp_active_audit (ls_progress s) = None ->
  wp (when ((1 <? audit) && match lp_latest_executor_outputs (ls_progress s) with None => true | _ => false end)
        (commit_loop_transition PhaseExecutors 1) ;;
      handoff ← initial_pre_review_handoff context dir audit_context audit;
      modify_progress (set_lp_last_round_num 1) ;;
      outputs ← initial_audit_executor_outputs context dir audit_context handoff;
      modify_progress (set_lp_active_audit (Some
        (fresh_audit outputs (if cv_valid (validate_executor_outputs outputs) then Some outputs else None)))))
    (fun _ s' => later 1 (pre_review_budget audit) s s' /\ progress_ok (ls_progress s') (ls_io s') /\
       lp_cursor_round (ls_progress s') = 1 /\ lp_next_phase (ls_progress s') = PhaseExecutors /\
       lp_executed_audit_rounds (ls_progress s') = lp_executed_audit_rounds (ls_progress s) /\
       exists a, lp_active_audit (ls_progress s') = Some a /\ audit_inv (mkAuditState (ls_progress s') a (ls_io s')) /\ between a)
    (loop_error 1 (pre_review_budget audit) s) s.
Proof.
  intros [[Hv Hr] Hc Hfresh _] Ha. destruct (Hfresh Ha) as [Hcr Hph].
  apply wp_bind. assert (wp (when ((1 <? audit) && match lp_latest_executor_outputs (ls_progress s) with None => true | _ => false end)
        (commit_loop_transition PhaseExecutors 1)) (fun _ s' => before_audit 0 0 s s') (loop_error 0 0 s) s) as H0.
  { apply wp_when; intros _; [|split_and!; [apply later_refl | by apply unstarted_self | done]].
    eapply wp_mono; [by apply wp_commit_loop| |done]. intros _ s1 (Hp1 & Hr1 & Hl1).
    split_and!; [done | rewrite Hp1; by split | done]. }
  eapply wp_mono; [exact H0| |intros; eapply loop_error_mono; [done|lia|lia]]. intros _ s1 (Hl1 & Hu1 & Hr1).
  apply wp_bind. eapply wp_mono; [apply wp_handoff with (s := s1); [|done]| |].
  { destruct Hu1. destruct un_cursor0. by apply unstarted_self. }
  2: { intros e s2 He. eapply loop_error_mono; [exact (loop_error_weaken _ _ _ _ _ _ _ _ Hl1 He)|lia|lia]. }
  intros handoff s2 (Hl2 & Hu2 & Hr2). pose proof (later_trans _ _ _ _ _ _ _ Hl1 Hl2) as Hl. simpl in Hl.
  apply wp_bind, wp_modify, wp_bind. set (s3 := mkLoopState _ _).
  assert (later 0 (pre_review_budget audit) s s3) as Hl3 by (destruct Hl; split; done).
  assert (lp_latest_executor_outputs (ls_progress s3) = lp_latest_executor_outputs (ls_progress s)) as Ho
    by (destruct Hu1, Hu2; simpl; congruence).
  assert (lp_stall (ls_progress s3) = lp_stall (ls_progress s)) as Hst by (destruct Hu1, Hu2; simpl; congruence).
  eapply wp_mono; [apply wp_initial_outputs with (s := s3)| |].
  { split; [|done]. intros outputs. rewrite Ho. apply Hv. }
  { destruct Hu2. destruct un_cursor0. by apply unstarted_self. }
  2: { intros e s4 He. eapply loop_error_mono; [exact (loop_error_weaken _ _ _ _ _ _ _ _ Hl3 He)|lia|lia]. }
  intros outputs s4 ((Hl4 & Hu4 & Hr4) & Hids). apply wp_modify. simpl.
  destruct Hu4 as [H1 H2 H3 H6 [H4 H5]]. split_and!; [| |done|done| |].
  - pose proof (later_trans _ _ _ _ _ _ _ Hl3 Hl4) as []. split; unfold asked_executors, asked_reviewers in *; simpl in *; lia.
  - split; [|done]. intros o. simpl. rewrite H1, Ho. apply Hv.
  - rewrite H6. simpl. destruct Hu1, Hu2. congruence.
  - destruct Hr4 as [Hr4 Hk4]. eexists. split; [done|]. split; [|split; [done | by right; left]]. split; [split| | | |]; unfold current_stall; simpl; try done; rewrite ?H2, ?Hst; try done.
    + intros o. destruct (cv_valid (validate_executor_outputs outputs)) eqn:Ev; [|done]. intros [= <-]. done.
    + by left.
Qed.

Lemma wp_audit_round audit s :
  loop_inv s -> wp (execute_review_loop_audit_round context audit) (audited s audit) (audit_error s audit) s.
Proof.
  intros Hinv. pose proof (po_reviews _ _ (li_progress _ Hinv)) as Hr.
  assert (forall n m e s', loop_error n m s e s' -> (n <= 1)%nat -> (m <= pre_review_budget audit)%nat -> audit_error s audit e s')
    as Herr by (intros; eapply loop_error_mono; [done|lia|lia]).
  apply wp_bind. eapply wp_mono with (E := loop_error 0 0 s); [eapply wp_quiet_loop with (P := fun _ => True); [by apply quiet_complete, quiet_ret|done|]| |].
  { intros dir s1 _ Hp1 Hr1 Hl1. exact (conj Hp1 (conj Hr1 Hl1)). }
  2: { intros e s1 He. eapply Herr; [exact He|lia|lia]. }
  intros dir s1 (Hp1 & Hr1 & Hl1). apply wp_bind.
  eapply wp_mono with (E := loop_error 0 0 s1); [eapply wp_quiet_loop with (P := fun _ => True); [by apply quiet_complete, quiet_when, quiet_effect|by rewrite Hr1|]| |].
  { intros u s2 _ Hp2 Hr2 Hl2. exact (conj Hp2 (conj Hr2 Hl2)). }
  2: { intros e s2 He. eapply Herr; [exact (loop_error_weaken _ _ _ _ _ _ _ _ Hl1 He)|lia|lia]. }
  intros _ s2 (Hp2 & Hr2 & Hl2). pose proof (later_trans _ _ _ _ _ _ _ Hl1 Hl2) as Hl. simpl in Hl.
  rewrite Hp1 in Hp2. rewrite Hr1 in Hr2. apply wp_bind, wp_read.
  assert (loop_inv s2) as Hinv2.
  { destruct Hinv as [[Hv _] Hc Hf Hac]. split; [split| | |]; rewrite ?Hp2, ?Hr2; try done. intros a Ha.
    destruct (Hac a Ha) as [[[A1 A2 AK A3] A4 A5 A6 A7] Hrest]. split; [|done]. injection Hr2 as Hr2 Hk2.
    by split; [split; simpl; rewrite ?Hr2, ?Hk2| | | |]. }
  rewrite Hp2. destruct (lp_active_audit (ls_progress s)) as [active|] eqn:Ea.
  - apply wp_bind, wp_ret, wp_bind, wp_read. rewrite Hp2, Ea.
    destruct (li_active _ Hinv2 active ltac:(by rewrite Hp2)) as (Hai & Hbt & Hcur & Hph). rewrite <- Hp2.
    eapply wp_active_audit; [exact Hl | lia | lia | apply Hinv2 | by rewrite Hp2 | done | done | done | done].
  - apply wp_bind. rewrite <- Hp2. eapply wp_mono; [apply wp_start_audit; [done | by rewrite Hp2]| |].
    + intros _ s3 (Hl3 & Hok & Hcur & Hph & Hex & a & Ha & Hai & Hbt). apply wp_bind, wp_read. rewrite Ha.
      eapply wp_active_audit; [exact (later_trans _ _ _ _ _ _ _ Hl Hl3) | simpl; lia | simpl; lia | done | by rewrite Hex, Hp2 | by rewrite Hcur | done | done|].
      by rewrite Hph.
    + intros e s3 He. eapply Herr; [exact (loop_error_weaken _ _ _ _ _ _ _ _ Hl He)|simpl; lia|simpl; lia].
Qed.

(** ** Terminal decisions *)

(** The last status that was published says how the loop ended. *)
Definition announced (s : LoopState) : Prop :=
  exists payload, last (statuses_published (ls_io s)) = Some payload /\
    sp_stop_reason payload = lp_stop_reason (ls_progress s) /\
    sp_consensus_reached payload = lp_consensus_reached (ls_progress s) /\
    sp_continued_after_stop payload = lp_continued_after_stop (ls_progress s) /\
    sp_canonical_executor_outputs payload = default [] (lp_latest_executor_outputs (ls_progress s)).

(** Every audit was run, and the last reviews did not approve. *)
Definition exhausted (s : LoopState) : Prop :=
  tracked -> lp_executed_audit_rounds (ls_progress s) = cx_audit_rounds context /\
    unapproved (lp_reviewer_failures (ls_progress s)) (lp_latest_reviewer_outputs (ls_progress s)).

(** Why a loop may complete. *)
Definition completed (s : LoopState) : Prop :=
  exists outputs, lp_latest_executor_outputs (ls_progress s) = Some outputs /\ candidate_ok outputs /\
    ((lp_stop_reason (ls_progress s) = Some CONSENSUS /\ lp_consensus_reached (ls_progress s) = true /\
      approves (reviews_asked (ls_io s)) outputs (lp_latest_reviewer_outputs (ls_progress s))) \/
     (lp_stop_reason (ls_progress s) = Some CONSENSUS_EXHAUSTED /\ lp_consensus_reached (ls_progress s) = false /\
      exhausted s /\ fst (consensus_failure_allows_continuation (cx_stage context)) = true) \/
     (lp_stop_reason (ls_progress s) = Some NO_PROGRESS /\ lp_consensus_reached (ls_progress s) = false /\
      consecutive_round_count (lp_stall (ls_progress s)) = 2 /\
      xp_continue_on_failure (en_execution_policy (cx_stage context)) = true)).

(** Why a loop rejects its node. *)
Definition rejected (s : LoopState) : Prop :=
  lp_consensus_reached (ls_progress s) = false /\ lp_continued_after_stop (ls_progress s) = false /\
  ((lp_stop_reason (ls_progress s) = Some NO_VALID_CANDIDATE /\ lp_latest_executor_outputs (ls_progress s) = None /\ exhausted s) \/
   (lp_stop_reason (ls_progress s) = Some CONSENSUS_EXHAUSTED /\ lp_latest_executor_outputs (ls_progress s) <> None /\
    exhausted s /\ fst (consensus_failure_allows_continuation (cx_stage context)) = false) \/
   (lp_stop_reason (ls_progress s) = Some NO_PROGRESS /\ consecutive_round_count (lp_stall (ls_progress s)) = 2 /\
    xp_continue_on_failure (en_execution_policy (cx_stage context)) = false)).

Definition ends_ok (n m : nat) (s s' : LoopState) : Prop :=
  later n m s s' /\ log_ok (log (ls_io s')) /\ completed s' /\ announced s'.

Definition ends_badly (n m : nat) (s : LoopState) (e : exn) (s' : LoopState) : Prop :=
  loop_error n m s e s' \/
  (exists msg, e = ReviewPolicyError msg /\ later n m s s' /\ log_ok (log (ls_io s')) /\ rejected s' /\ announced s').

(** Steps that publish no status keep what was published and decided. *)
Lemma announced_step (s s' : LoopState) :
  ls_progress s' = ls_progress s -> statuses_published (ls_io s') = statuses_published (ls_io s) -> announced s -> announced s'.
Proof. intros Hp Ht. unfold announced. by rewrite Hp, Ht. Qed.

Lemma same_statuses (s s' : LoopState) : io_trace (ls_io s') = io_trace (ls_io s) -> statuses_published (ls_io s') = statuses_published (ls_io s).
Proof. unfold statuses_published. by intros ->. Qed.

Lemma payload_fields id p payload :
  lp_active_audit p = None -> build_review_loop_status_payload id p = Ok payload ->
  sp_stop_reason payload = lp_stop_reason p /\ sp_consensus_reached payload = lp_consensus_reached p /\
  sp_continued_after_stop payload = lp_continued_after_stop p /\
  sp_canonical_executor_outputs payload = default [] (lp_latest_executor_outputs p).
Proof.
  unfold build_review_loop_status_payload, snapshot. intros -> H. simpl in H. injection H as <-.
  destruct (lp_stop_reason p) eqn:E; simpl; rewrite ?E; done.
Qed.

Lemma wp_publish Q s :
  lp_active_audit (ls_progress s) = None -> log_ok (log (ls_io s)) ->
  (forall s', ls_progress s' = ls_progress s -> log (ls_io s') = log (ls_io s) ->
     later 0 0 s s' -> announced s' -> Q tt s') ->
  wp (publish_review_loop_status context) Q (loop_error 0 0 s) s.
Proof.
  intros Ha Hr HQ. unfold publish_review_loop_status, persist_review_loop_status. apply wp_bind, wp_read, wp_bind, wp_lift.
  pose proof (payload_fields (stage_id context) (ls_progress s)) as Hf.
  destruct (build_review_loop_status_payload _ _) as [payload|e|] eqn:E.
  2: { exfalso. unfold build_review_loop_status_payload, snapshot in E. by rewrite Ha in E. }
  2: { exfalso. unfold build_review_loop_status_payload, snapshot in E. by rewrite Ha in E. }
  apply (wp_effect (laws := laws)); [done| |].
  - intros s1 Hio Ht. apply quiet_loop in Hio as (Hp1 & Hr1 & Hl1). apply HQ; [done..|]. exists payload. simpl in Ht.
    unfold statuses_published. rewrite Ht, omap_app. simpl. rewrite last_snoc, Hp1. split; [done|]. by apply Hf.
  - intros err s1 (Hp1 & Hr1 & Hl1)%quiet_loop He. split_and!; [done | by rewrite Hr1 | done].
Qed.

(** A drained step whose end state is closed under outside steps. *)
Lemma wp_drained (m : M LoopState unit) n k s0 (Q : LoopState -> Prop) s :
  wp m (fun _ s' => Q s' /\ later n k s0 s' /\ log_ok (log (ls_io s'))) (ends_badly n k s0) s ->
  (forall s1 s2, Q s1 -> ls_progress s2 = ls_progress s1 -> log (ls_io s2) = log (ls_io s1) ->
     io_trace (ls_io s2) = io_trace (ls_io s1) -> Q s2) ->
  wp (complete_audit_io m) (fun _ s' => Q s' /\ later n k s0 s' /\ log_ok (log (ls_io s'))) (ends_badly n k s0) s.
Proof.
  intros H HQ. apply wp_complete_trace. eapply wp_mono; [exact H| |done]. intros _ s1 (HQ1 & Hl & Hr) s2 (Hp & Hr2 & Hl2)%quiet_loop Ht.
  pose proof (later_trans _ _ _ _ _ _ _ Hl Hl2) as Hl'. rewrite !Nat.add_0_r in Hl'.
  split; [split_and!; [by eapply HQ | done | by rewrite Hr2]|]. left. split_and!; [done | by rewrite Hr2 | done].
Qed.

Lemma bad_step n k s0 s e s' : later n k s0 s -> loop_error 0 0 s e s' -> ends_badly n k s0 e s'.
Proof. intros Hl He. left. pose proof (loop_error_weaken _ _ _ _ _ _ _ _ Hl He) as H. by rewrite !Nat.add_0_r in H. Qed.

Lemma later_0 n k s0 s s' : later n k s0 s -> later 0 0 s s' -> later n k s0 s'.
Proof. intros [] []. split; lia. Qed.

(** Publishing the progress [s] has, seen from [s0]. *)
Lemma wp_publish_from Q n k s0 s :
  later n k s0 s -> lp_active_audit (ls_progress s) = None -> log_ok (log (ls_io s)) ->
  (forall s', ls_progress s' = ls_progress s -> log (ls_io s') = log (ls_io s) ->
     later n k s0 s' -> announced s' -> Q tt s') ->
  wp (publish_review_loop_status context) Q (ends_badly n k s0) s.
Proof.
  intros Hl Ha Hr HQ. eapply wp_mono; [by apply wp_publish with (Q := fun _ s' => ls_progress s' = ls_progress s /\
    log (ls_io s') = log (ls_io s) /\ later n k s0 s' /\ announced s'); [..|intros; split_and!; eauto using later_0]| |].
  - intros [] s' (? & ? & ? & ?). by apply HQ.
  - intros e s' He. by eapply bad_step.
Qed.

(** An effect other than a checkpoint or a status. *)
Definition plain_effect (e : Effect) : Prop := match e with PublishStatus _ => False | _ => no_checkpoint e end.

Lemma wp_log Q n k s0 s (e : Effect) :
  plain_effect e -> later n k s0 s -> log_ok (log (ls_io s)) -> announced s ->
  (forall s', ls_progress s' = ls_progress s -> log (ls_io s') = log (ls_io s) ->
     later n k s0 s' -> announced s' -> Q tt s') ->
  wp (do_effect e) Q (ends_badly n k s0) s.
Proof.
  intros Hpl Hl Hr Han HQ. apply (wp_effect (laws := laws)); [by destruct e| |].
  - intros s1 Hio Ht. apply quiet_loop in Hio as (Hp1 & Hr1 & Hl1). apply HQ; [done | done | by eapply later_0|].
    eapply announced_step; [done| |exact Han]. simpl in Ht. unfold statuses_published. rewrite Ht, omap_app.
    by destruct e; simpl in *; rewrite ?app_nil_r.
  - intros err s1 (Hp1 & Hr1 & Hl1)%quiet_loop He. eapply bad_step; [exact Hl|]. split_and!; [done | by rewrite Hr1 | done].
Qed.

(** A rejection always raises, after its status is published. *)
Lemma wp_exhausted_rejection n k s0 s :
  later n k s0 s -> lp_active_audit (ls_progress s) = None -> log_ok (log (ls_io s)) ->
  exhausted s ->
  (lp_latest_executor_outputs (ls_progress s) = None \/ fst (consensus_failure_allows_continuation (cx_stage context)) = false) ->
  wp (publish_exhausted_rejection context) (fun _ _ => False) (ends_badly n k s0) s.
Proof.
  intros Hl Ha Hr Hend Hpol. apply wp_bind, wp_modify, wp_bind, wp_read, wp_bind. cbn [ls_progress ls_io].
  set (stop := match lp_latest_executor_outputs (ls_progress s) with None => NO_VALID_CANDIDATE | Some _ => CONSENSUS_EXHAUSTED end).
  assert (wp (when (match lp_latest_executor_outputs (mark_consensus_exhausted false (ls_progress s)) with None => true | Some _ => false end)
      (modify_progress (set_lp_stop_reason (Some NO_VALID_CANDIDATE))))
    (fun _ s1 => ls_io s1 = ls_io s /\ ls_progress s1 = set_lp_stop_reason (Some stop) (mark_consensus_exhausted false (ls_progress s)))
    (ends_badly n k s0) (mkLoopState (mark_consensus_exhausted false (ls_progress s)) (ls_io s))) as H0.
  { unfold stop. simpl. destruct (lp_latest_executor_outputs (ls_progress s)); simpl; [apply wp_ret | apply wp_modify]; done. }
  eapply wp_mono; [exact H0| |done]. intros _ s1 [Hio Hp]. assert (later n k s0 s1) as Hl1.
  { destruct Hl. split; unfold asked_executors, asked_reviewers in *; by rewrite Hio. }
  apply wp_bind. eapply wp_publish_from; [exact Hl1 | by rewrite Hp | by rewrite Hio|]. intros s2 Hp2 Hr2 Hl2 Han2.
  rewrite Hio in Hr2. rewrite Hp in Hp2. apply wp_bind, wp_read. rewrite Hp2. simpl.
  assert (forall s3, ls_progress s3 = ls_progress s2 -> rejected s3) as Hrej.
  { intros s3 Hp3. unfold rejected. assert (exhausted s3) as Hend3 by (unfold exhausted in *; rewrite Hp3, Hp2; exact Hend).
    rewrite Hp3, Hp2. split_and!; [done | done|]. simpl. unfold stop.
    destruct (lp_latest_executor_outputs (ls_progress s)); [right; left | by left]. by destruct Hpol. }
  destruct (lp_latest_executor_outputs (ls_progress s)); apply wp_bind;
    (eapply wp_log; [done | exact Hl2 | by rewrite Hr2 | done|]); intros s3 Hp3 Hr3 Hl3 Han3; apply wp_raise; right; eexists;
    (split_and!; [reflexivity | done | by rewrite Hr3, Hr2 | by apply Hrej | done]).
Qed.

(** Continuing after exhaustion. *)
Lemma wp_exhausted_continue n k s0 s outputs reason :
  later n k s0 s -> lp_active_audit (ls_progress s) = None -> log_ok (log (ls_io s)) ->
  lp_latest_executor_outputs (ls_progress s) = Some outputs -> candidate_ok outputs -> exhausted s ->
  fst (consensus_failure_allows_continuation (cx_stage context)) = true ->
  wp (modify_progress (mark_consensus_exhausted true) ;;
      complete_audit_io (publish_review_loop_status context) ;;
      complete_audit_io (apply_exhausted_review_loop_policy context (Some reason)))
    (fun _ => ends_ok n k s0) (ends_badly n k s0) s.
Proof.
  intros Hl Ha Hr Ho Hok Hend Hpol. apply wp_bind, wp_modify, wp_bind.
  set (P := fun s' : LoopState => ls_progress s' = mark_consensus_exhausted true (ls_progress s) /\ announced s').
  assert (forall s1 s2 : LoopState, P s1 -> ls_progress s2 = ls_progress s1 -> log (ls_io s2) = log (ls_io s1) ->
     io_trace (ls_io s2) = io_trace (ls_io s1) -> P s2) as HP.
  { intros s1 s2 [Hp Han] Hp2 _ Ht. split; [congruence | by eapply announced_step; [..|exact Han]; [|apply same_statuses]]. }
  eapply wp_mono; [apply (wp_drained _ n k s0 P); [|exact HP]| |done].
  { eapply wp_publish_from; [destruct Hl; split; done | done | done|]. intros s1 Hp1 Hr1 Hl1 Han1.
    split; [by split|]. split; [done | by rewrite Hr1]. }
  intros _ s1 ([Hp1 Han1] & Hl1 & Hr1).
  eapply wp_mono; [apply (wp_drained _ n k s0 P); [|exact HP]| |done].
  - apply wp_bind, wp_read. rewrite Hp1. simpl. rewrite Ho. apply wp_bind.
    eapply wp_log; [done | exact Hl1 | done | done|]. intros s2 Hp2 Hr2 Hl2 Han2.
    assert (P s2 /\ later n k s0 s2 /\ log_ok (log (ls_io s2))) as H2.
    { split_and!; [split; [congruence|done] | done | by rewrite Hr2]. }
    apply wp_when; intros _; [|done]. eapply wp_log; [done | done | apply H2 | done|]. intros s3 Hp3 Hr3 Hl3 Han3.
    split_and!; [split; [congruence|done] | done | by rewrite Hr3, Hr2].
  - intros _ s2 ([Hp2 Han2] & Hl2 & Hr2). split_and!; [done | done | | done]. exists outputs. rewrite Hp2. simpl.
    split_and!; [done | done|]. right. left. split_and!; [done | done | | done]. unfold exhausted. by rewrite Hp2.
Qed.

Lemma wp_raises (m : M LoopState unit) Q n k s0 s :
  wp m (fun _ _ => False) (ends_badly n k s0) s -> wp (complete_audit_io m) Q (ends_badly n k s0) s.
Proof. intros H. apply wp_complete. eapply wp_mono; [exact H|done|done]. Qed.

(** What an audit stopped by two unchanged attempts leaves behind. *)
Record stalled (s : LoopState) : Prop := {
  sl_active : lp_active_audit (ls_progress s) = None;
  sl_stop : lp_stop_reason (ls_progress s) = Some NO_PROGRESS;
  sl_count : consecutive_round_count (lp_stall (ls_progress s)) = 2;
  sl_consensus : lp_consensus_reached (ls_progress s) = false;
  sl_outputs : exists outputs, lp_latest_executor_outputs (ls_progress s) = Some outputs /\ candidate_ok outputs
}.

Lemma wp_stalled_continue n k s0 s :
  later n k s0 s -> log_ok (log (ls_io s)) -> stalled s ->
  xp_continue_on_failure (en_execution_policy (cx_stage context)) = true ->
  wp (complete_audit_io (publish_review_loop_status context) ;;
      modify_progress (set_lp_continued_after_stop true) ;;
      complete_audit_io (publish_review_loop_status context) ;;
      complete_audit_io (apply_stalled_review_loop_policy context)) (fun _ => ends_ok n k s0) (ends_badly n k s0) s.
Proof.
  intros Hl Hr [Ha Hs Hc Hcons (outputs & Ho & Hok)] Hpol. apply wp_bind.
  eapply wp_mono; [apply (wp_drained _ n k s0 (fun s' => ls_progress s' = ls_progress s)); [|intros; congruence]| |done].
  { eapply wp_publish_from; [done..|]. intros s1 Hp1 Hr1 Hl1 _. split_and!; [done | done | by rewrite Hr1]. }
  intros _ s1 (Hp1 & Hl1 & Hr1). apply wp_bind, wp_modify, wp_bind.
  set (P := fun s' : LoopState => ls_progress s' = set_lp_continued_after_stop true (ls_progress s) /\ announced s').
  assert (forall s2 s3 : LoopState, P s2 -> ls_progress s3 = ls_progress s2 -> log (ls_io s3) = log (ls_io s2) ->
     io_trace (ls_io s3) = io_trace (ls_io s2) -> P s3) as HP.
  { intros s2 s3 [Hp Han] Hp3 _ Ht. split; [congruence | by eapply announced_step; [..|exact Han]; [|apply same_statuses]]. }
  eapply wp_mono; [apply (wp_drained _ n k s0 P); [|exact HP]| |done].
  { eapply wp_publish_from; [destruct Hl1; split; done | by simpl; rewrite Hp1 | done|].
    intros s2 Hp2 Hr2 Hl2 Han2. split_and!; [split; [rewrite Hp2; simpl; by rewrite Hp1 | done] | done | by rewrite Hr2]. }
  intros _ s2 ([Hp2 Han2] & Hl2 & Hr2). eapply wp_mono; [apply (wp_drained _ n k s0 P); [|exact HP]| |done].
  - apply wp_bind, wp_read. rewrite Hp2. simpl. apply wp_bind. eapply wp_log; [done..|]. intros s3 Hp3 Hr3 Hl3 Han3.
    apply wp_ret. split_and!; [split; [congruence|done] | done | by rewrite Hr3].
  - intros _ s3 ([Hp3 Han3] & Hl3 & Hr3). split_and!; [done | done | | done]. exists outputs. rewrite Hp3. simpl.
    split_and!; [done | done|]. right. right. done.
Qed.

Lemma wp_stalled_rejection n k s0 s :
  later n k s0 s -> log_ok (log (ls_io s)) -> stalled s ->
  xp_continue_on_failure (en_execution_policy (cx_stage context)) = false ->
  wp (publish_stalled_rejection context) (fun _ _ => False) (ends_badly n k s0) s.
Proof.
  intros Hl Hr [Ha Hs Hc Hcons _] Hpol. apply wp_bind. eapply wp_publish_from; [done..|]. intros s1 Hp1 Hr1 Hl1 _.
  apply wp_bind, wp_modify, wp_bind. rewrite Hpol. eapply wp_publish_from; [destruct Hl1; split; done | by simpl; rewrite Hp1 | by simpl; rewrite Hr1|].
  intros s2 Hp2 Hr2 Hl2 Han2. simpl in Hp2, Hr2. apply wp_bind, wp_read. rewrite Hp2. simpl. apply wp_bind.
  eapply wp_log; [done | done | by rewrite Hr2, Hr1 | done|]. intros s3 Hp3 Hr3 Hl3 Han3. apply wp_raise. right. eexists.
  split_and!; [reflexivity | done | by rewrite Hr3, Hr2, Hr1 | | done]. unfold rejected. rewrite Hp3, Hp2, Hp1. simpl.
  split_and!; [done | done|]. by right; right.
Qed.

Lemma wp_finish_stalled n k s0 s :
  later n k s0 s -> log_ok (log (ls_io s)) -> stalled s ->
  wp (finish_stalled_audit context) (fun _ => ends_ok n k s0) (ends_badly n k s0) s.
Proof.
  intros Hl Hr Hs. unfold finish_stalled_audit. destruct (xp_continue_on_failure _) eqn:E; cbn [negb].
  - by apply wp_stalled_continue.
  - by apply wp_raises, wp_stalled_rejection.
Qed.

Lemma wp_finish_exhausted n k s0 s :
  later n k s0 s -> lp_active_audit (ls_progress s) = None -> progress_ok (ls_progress s) (ls_io s) -> exhausted s ->
  wp (finish_exhausted_review_loop context) (fun _ => ends_ok n k s0) (ends_badly n k s0) s.
Proof.
  intros Hl Ha [Hv Hr] Hend. unfold finish_exhausted_review_loop.
  destruct (consensus_failure_allows_continuation (cx_stage context)) as [allowed reason] eqn:E. apply wp_bind, wp_read.
  destruct (lp_latest_executor_outputs (ls_progress s)) as [outputs|] eqn:Eo; [destruct allowed|]; simpl.
  - eapply wp_exhausted_continue; [done | done | done | done | by apply Hv | done | by rewrite E].
  - apply wp_raises, wp_exhausted_rejection; [done..|]. right. by rewrite E.
  - apply wp_raises, wp_exhausted_rejection; [done..|]. by left.
Qed.

(** The end of an audit that reached consensus. *)
Lemma wp_finish_consensus n k s0 s outputs :
  later n k s0 s -> lp_active_audit (ls_progress s) = None -> progress_ok (ls_progress s) (ls_io s) ->
  lp_latest_executor_outputs (ls_progress s) = Some outputs -> lp_consensus_reached (ls_progress s) = true ->
  approves (reviews_asked (ls_io s)) outputs (lp_latest_reviewer_outputs (ls_progress s)) ->
  wp (modify_progress (set_lp_stop_reason (Some CONSENSUS)) ;; complete_audit_io (publish_review_loop_status context))
    (fun _ => ends_ok n k s0) (ends_badly n k s0) s.
Proof.
  intros Hl Ha [Hv Hr] Ho Hc Happ. apply wp_bind, wp_modify.
  set (P := fun s' : LoopState => ls_progress s' = set_lp_stop_reason (Some CONSENSUS) (ls_progress s) /\ announced s' /\
    log (ls_io s') = log (ls_io s)).
  eapply wp_mono; [apply (wp_drained _ n k s0 P)| |done].
  - eapply wp_publish_from; [destruct Hl; split; done | done | done|]. intros s1 Hp1 Hr1 Hl1 Han1.
    split_and!; [done | done | by rewrite Hr1].
  - intros s1 s2 (Hp & Han & Hrv) Hp2 Hr2 Ht. split_and!; [congruence | by eapply announced_step; [..|exact Han]; [|apply same_statuses] | congruence].
  - intros _ s1 ((Hp1 & Han1 & Hr1) & Hl1 & Hok1). split_and!; [done | done | | done]. exists outputs.
    rewrite Hp1, (log_reviews _ _ Hr1). simpl. split_and!; [done | by apply Hv|]. by left.
Qed.

(** ** The loop *)

Fixpoint pre_review_budgets (audits : list Z) : nat :=
  match audits with [] => 0 | a :: audits => pre_review_budget a + pre_review_budgets audits end.

Definition executor_limit (audits : list Z) : nat := length audits * S depth_budget.
Definition reviewer_limit (audits : list Z) : nat := length audits * S depth_budget + pre_review_budgets audits.

Lemma ends_ok_trans n k n' k' s s1 s' : later n k s s1 -> ends_ok n' k' s1 s' -> ends_ok (n + n') (k + k') s s'.
Proof. intros Hl (H & ?). split; [by eapply later_trans | done]. Qed.

Lemma ends_badly_trans n k n' k' s s1 e s' : later n k s s1 -> ends_badly n' k' s1 e s' -> ends_badly (n + n') (k + k') s e s'.
Proof.
  intros Hl [H|(msg & He & H & ?)]; [left; by eapply loop_error_weaken|]. right. exists msg.
  split_and!; [done | by eapply later_trans | naive_solver..].
Qed.

Lemma ends_ok_mono n k n' k' s s' : ends_ok n k s s' -> (n <= n')%nat -> (k <= k')%nat -> ends_ok n' k' s s'.
Proof. intros (H & ?) ? ?. split; [by eapply later_weaken | done]. Qed.

Lemma ends_badly_mono n k n' k' s e s' : ends_badly n k s e s' -> (n <= n')%nat -> (k <= k')%nat -> ends_badly n' k' s e s'.
Proof.
  intros [H|(msg & He & H & ?)] ? ?; [left; by eapply loop_error_mono|]. right. exists msg.
  split_and!; [done | by eapply later_weaken | naive_solver..].
Qed.

(** After an audit that does not end the loop, the next one starts afresh. *)
Lemma inv_next_audit s audit r s1 s2 :
  audited s audit r s1 -> ar_stop_reason r = None -> ls_progress s2 = ls_progress s1 ->
  log (ls_io s2) = log (ls_io s1) ->
  loop_inv (mkLoopState (set_lp_next_phase PhaseExecutors (set_lp_cursor_round 1 (ls_progress s2))) (ls_io s2)).
Proof.
  intros [Hl Ha [Hv Hr] Hs Hc Hf _ _ Happ] Hstop Hp Hr2. split; simpl.
  - split; simpl; [rewrite Hp; apply Hv | by rewrite Hr2].
  - rewrite Hp. destruct Hs as [[_ ?]|[? _]]; [done | congruence].
  - done.
  - intros a. rewrite Hp, Ha. done.
Qed.

(** Drop what is known about a stop by two unchanged attempts. *)
Lemma audited_stalled s audit r s1 : audited s audit r s1 -> ar_stop_reason r = Some NO_PROGRESS -> stalled s1.
Proof.
  intros [Hl Ha [Hv Hr] Hs Hc Hf _ _ Happ] Hstop. destruct Hs as [[? _]|(_ & H1 & H2 & H3 & H4)]; [congruence|].
  split; [done..|]. destruct (lp_latest_executor_outputs (ls_progress s1)) as [o|] eqn:E; [|done]. eauto.
Qed.

Lemma can_finish_consensus s audit r s1 :
  audited s audit r s1 -> review_loop_can_finish context r audit = true -> ar_consensus_reached r = true.
Proof.
  intros [_ _ _ _ _ Hf _ _ _]. unfold review_loop_can_finish. destruct (ar_clean_fresh_approval r); [auto|].
  destruct (ar_consensus_reached r); [done|]. by destruct (audit <? cx_audit_rounds context).
Qed.

(** The last audit ends the loop unless it did not reach consensus. *)
Lemma last_audit_exhausted s audit r s1 s2 :
  audited s audit r s1 -> lp_executed_audit_rounds (ls_progress s) = audit -> audit = cx_audit_rounds context ->
  review_loop_can_finish context r audit = false ->
  lp_executed_audit_rounds (ls_progress s2) = lp_executed_audit_rounds (ls_progress s1) ->
  lp_reviewer_failures (ls_progress s2) = lp_reviewer_failures (ls_progress s1) ->
  lp_latest_reviewer_outputs (ls_progress s2) = lp_latest_reviewer_outputs (ls_progress s1) -> exhausted s2.
Proof.
  intros [] He Ha Hfin E1 E2 E3 Ht. rewrite E1, E2, E3. split; [congruence|]. apply au_refused0; [done|]. unfold review_loop_can_finish in Hfin.
  rewrite Ha, Z.ltb_irrefl, andb_false_r in Hfin. by destruct (ar_clean_fresh_approval r).
Qed.

(** The decision after an audit; [rest] is the loop over the remaining audits. *)
Lemma wp_decide audit (rest : M LoopState unit) r s0 n k s s1 (Q : LoopState -> Prop) (E : exn -> LoopState -> Prop) :
  audited s0 audit r s1 -> lp_executed_audit_rounds (ls_progress s0) = audit -> later n k s s1 ->
  (forall s', ends_ok n k s s' -> Q s') -> (forall e s', ends_badly n k s e s' -> E e s') ->
  (forall s2, loop_inv s2 -> lp_active_audit (ls_progress s2) = None -> later n k s s2 ->
     (audit = cx_audit_rounds context -> exhausted s2) -> wp rest (fun _ => Q) E s2) ->
  wp (if bool_decide (ar_stop_reason r = Some NO_PROGRESS) then finish_stalled_audit context
      else
        progress ← read ls_progress;
        if (audit =? cx_audit_rounds context) && negb (review_loop_can_finish context r audit)
           && match lp_latest_executor_outputs progress with
              | None => true
              | Some _ => negb (fst (consensus_failure_allows_continuation (cx_stage context)))
              end
        then complete_audit_io (publish_final_audit_rejection context)
        else
          complete_audit_io (publish_review_loop_status context) ;;
          reset_cursor ;;
          if review_loop_can_finish context r audit then
            modify_progress (set_lp_stop_reason (Some CONSENSUS)) ;;
            complete_audit_io (publish_review_loop_status context)
          else rest) (fun _ => Q) E s1.
Proof.
  intros Haud Hnum Hl Wok Wbad Hrest. pose proof (au_ok _ _ _ _ Haud) as Hok. pose proof (au_inactive _ _ _ _ Haud) as Hact.
  apply wp_if; intros Hnp.
  { apply bool_decide_eq_true in Hnp. eapply wp_mono; [apply wp_finish_stalled; [exact Hl | apply Hok | by eapply audited_stalled]| |]; auto. }
  apply bool_decide_eq_false in Hnp. assert (ar_stop_reason r = None) as Hstop
    by (destruct (au_stop _ _ _ _ Haud) as [[? _]|[? _]]; congruence).
  apply wp_bind, wp_read, wp_if; intros Hend.
  { apply andb_true_iff in Hend as [[Hlast%Z.eqb_eq Hfin%negb_true_iff]%andb_true_iff Hpol]. eapply wp_mono; [apply (wp_raises _ (fun _ => ends_ok n k s) n k s s1), wp_bind|intros u; exact Wok|exact Wbad].
    apply (wp_publish_from _ n k s s1); [done | done | apply Hok|]. intros s2 Hp2 Hr2 Hl2 _.
    apply wp_bind, wp_modify. apply (wp_exhausted_rejection n k s); simpl; rewrite ?Hp2, ?Hr2;
      [destruct Hl2; split; done | done | apply Hok | eapply last_audit_exhausted; [exact Haud | simpl; by rewrite ?Hp2..]|].
    destruct (lp_latest_executor_outputs (ls_progress s1)); [right; by apply negb_true_iff | by left]. }
  apply wp_bind. eapply wp_mono; [apply (wp_drained _ n k s (fun s' => ls_progress s' = ls_progress s1 /\ log (ls_io s') = log (ls_io s1))); [|intros ? ? [] ? ?; split; congruence]| |exact Wbad].
  { eapply wp_publish_from; [exact Hl | done | apply Hok|]. intros s2 Hp2 Hr2 Hl2 _. split; [done|]. split; [done | rewrite Hr2; apply Hok]. }
  intros _ s2 ([Hp2 Hr2] & Hl2 & Hok2). apply wp_bind, wp_modify, wp_if; intros Hfin.
  - pose proof (can_finish_consensus _ _ _ _ Haud Hfin) as Hcons. destruct (au_approved _ _ _ _ Haud Hcons) as (outputs & Ho & Happ).
    eapply wp_mono; [apply (wp_finish_consensus n k s _ outputs)| intros u; exact Wok | exact Wbad]; simpl; rewrite ?Hp2, ?(log_reviews _ _ Hr2);
      [destruct Hl2; split; done | done | | done | by rewrite (au_consensus _ _ _ _ Haud) | done].
    destruct Hok as [Hv Hr]. split; [done | by rewrite Hr2].
  - apply Hrest; [by eapply inv_next_audit | by simpl; rewrite Hp2 | destruct Hl2; split; done|].
    intros Hlast. eapply last_audit_exhausted; [exact Haud | simpl; by rewrite ?Hp2..].
Qed.

Lemma inv_numbered audit s : loop_inv s ->
  loop_inv (mkLoopState (set_lp_executed_audit_rounds audit (set_lp_cursor_audit audit (ls_progress s))) (ls_io s)).
Proof.
  intros [[H1 H2] H3 H4 H5]. split; [split| | |]; simpl; try done. intros a Ea.
  destruct (H5 a Ea) as [[[] ? ? ? ?] ?]. by split; [split; [split| | | |]|].
Qed.

Lemma wp_run_audits audits : forall s,
  loop_inv s -> (audits = [] -> lp_active_audit (ls_progress s) = None) ->
  match last audits with Some audit => audit = cx_audit_rounds context | None => exhausted s end ->
  wp (run_audits context audits) (fun _ => ends_ok (executor_limit audits) (reviewer_limit audits) s)
    (ends_badly (executor_limit audits) (reviewer_limit audits) s) s.
Proof.
  induction audits as [|audit audits IH]; intros s Hinv Hnil Hlast.
  { apply wp_finish_exhausted; [apply later_refl | auto | apply Hinv | done]. }
  simpl. apply wp_bind, wp_modify, wp_bind. pose proof (inv_numbered audit s Hinv) as Hinv0. set (s0 := mkLoopState _ _) in *.
  assert (later 0 0 s s0) as Hl0 by (split; unfold asked_executors, asked_reviewers; simpl; lia).
  set (n := S depth_budget). set (k := (S depth_budget + pre_review_budget audit)%nat).
  assert (executor_limit (audit :: audits) = n + executor_limit audits)%nat as En by (unfold executor_limit; simpl; lia).
  assert (reviewer_limit (audit :: audits) = k + reviewer_limit audits)%nat as Ek
    by (unfold reviewer_limit, k; simpl; lia).
  rewrite En, Ek. eapply wp_mono; [by apply (wp_audit_round audit s0)| |].
  2: { intros e s1 He. left. eapply loop_error_mono; [exact (loop_error_weaken _ _ _ _ _ _ _ _ Hl0 He)| |]; fold n k; lia. }
  intros r s1 Haud. pose proof (later_trans _ _ _ _ _ _ _ Hl0 (au_later _ _ _ _ Haud)) as Hl. simpl in Hl.
  apply (wp_decide audit _ r s0 n k s s1 _ _ Haud); [done | exact Hl | intros; eapply ends_ok_mono; [done|lia|lia]
    | intros; eapply ends_badly_mono; [done|lia|lia]|].
  intros s2 Hinv2 Hact2 Hl2 Hend2. eapply wp_mono; [apply IH; [done | done|]| |].
  { destruct audits as [|a audits]; [by apply Hend2|]. rewrite last_cons_cons in Hlast.
    destruct (last (a :: audits)) eqn:El; [done | by apply last_None in El]. }
  - intros u s3 H. by eapply ends_ok_trans.
  - intros e s3 H. by eapply ends_badly_trans.
Qed.

End LoopSpec.
