(* ===== verification/ReviewLoopCorrect.v ===== *)
(** The correctness of a review loop, from a fresh or a resumed state, and a
    concrete run of it. *)

From Stdlib Require Import ZArith Lia Ascii String.
From stdpp Require Import base gmap sets list list_numbers strings.
From S2P Require Import Prelude PyStr Models Scheduler PlanRecords Artifacts PlanContract.
From S2P Require Import Reviews ReviewCandidates StateExn ReviewLoopState ReviewLoop ReviewLoopRounds ReviewLoopAudit.
From S2P Require Import ReviewLoopSpec.

Open Scope string_scope.
Open Scope list_scope.
Open Scope Z_scope.

(** What is known of the reviews and checkpoints of a loop, or left open. *)
Definition with_history : Tracking := True.
Definition without_history : Tracking := False.

Section LoopCorrect.
Context {libs : ReviewLibraries} {env : ReviewLoopEnv}.
Context {context : ReviewLoopRunContext} {laws : ReviewLoopEnvLaws context}.

Notation loop_inv := (loop_inv (context := context)).
Notation executor_limit := (executor_limit (context := context)).
Notation reviewer_limit := (reviewer_limit (context := context)).

Section Audits.
Context {tracking : Tracking}.

(** A state the loop may start from: one with an audit left, fresh or resumed; or,
    without a history, one whose audits are all over. *)
Definition startable (s : LoopState) : Prop :=
  loop_inv s /\
  (lp_cursor_audit (ls_progress s) <= cx_audit_rounds context \/ lp_active_audit (ls_progress s) = None /\ ~ tracked).

Definition audits_left (s : LoopState) : list Z :=
  z_range (lp_cursor_audit (ls_progress s)) (cx_audit_rounds context).

Lemma last_of_range first final : first <= final -> last (z_range first final) = Some final.
Proof.
  intros H. unfold z_range. replace (final + 1 - first) with ((final - first) + 1) by lia. rewrite seqZ_app by lia.
  replace (seqZ (first + (final - first)) 1) with [final]; [apply last_snoc|]. rewrite seqZ_cons, seqZ_nil by lia. f_equal. lia.
Qed.

Lemma wp_audits s : startable s ->
  wp (execute_review_loop_audits context)
    (fun _ => ends_ok (context := context) (executor_limit (audits_left s)) (reviewer_limit (audits_left s)) s)
    (ends_badly (context := context) (executor_limit (audits_left s)) (reviewer_limit (audits_left s)) s) s.
Proof.
  intros [Hinv Hstart]. apply wp_bind, wp_read, wp_run_audits; [done|..].
  - intros Hnil. destruct Hstart as [Hle|[? _]]; [|done]. exfalso. unfold audits_left, z_range in Hnil.
    rewrite seqZ_cons in Hnil by lia. done.
  - destruct (decide (lp_cursor_audit (ls_progress s) <= cx_audit_rounds context)) as [Hle|Hgt].
    + unfold audits_left. by rewrite last_of_range.
    + destruct Hstart as [?|[_ Hno]]; [lia|]. unfold audits_left, z_range. rewrite seqZ_nil by lia. by intros ?.
Qed.

End Audits.

Lemma pre_review_budgets_late l : Forall (fun a => a <> 1) l -> pre_review_budgets l = 0%nat.
Proof. induction 1 as [|a l Ha _ IH]; [done|]. simpl. unfold pre_review_budget. rewrite (proj2 (Z.eqb_neq a 1) Ha). done. Qed.

Lemma pre_review_budgets_range (n : nat) : forall first, (pre_review_budgets (seqZ first (Z.of_nat n)) <= 1)%nat.
Proof.
  induction n as [|n IH]; intros first; [simpl; lia|]. rewrite seqZ_cons by lia.
  replace (Z.pred (Z.of_nat (S n))) with (Z.of_nat n) by lia. simpl. unfold pre_review_budget at 1.
  destruct (first =? 1) eqn:E; [|apply IH]. apply Z.eqb_eq in E.
  rewrite pre_review_budgets_late; [lia|]. apply Forall_forall. intros x Hx%elem_of_seqZ. lia.
Qed.

(** The rounds that a loop with [audits] audits may run. *)
Definition round_limit (s : LoopState) : Z :=
  Z.max 0 (cx_audit_rounds context + 1 - lp_cursor_audit (ls_progress s)) * (Z.max 0 (cx_remediation_depth context) + 1).

Lemma later_limits s s' :
  later (executor_limit (audits_left s)) (reviewer_limit (audits_left s)) s s' ->
  Z.of_nat (asked_executors s') <= Z.of_nat (asked_executors s) + round_limit s /\
  Z.of_nat (asked_reviewers s') <= Z.of_nat (asked_reviewers s) + round_limit s + 1.
Proof.
  intros [Hx Hr]. assert (pre_review_budgets (audits_left s) <= 1)%nat as Hp.
  { unfold audits_left, z_range. set (n := cx_audit_rounds context + 1 - _). destruct (decide (n <= 0)) as [?|?].
    - rewrite seqZ_nil by done. simpl. lia.
    - rewrite <- (Z2Nat.id n) by lia. apply pre_review_budgets_range. }
  assert (Z.of_nat (executor_limit (audits_left s)) = round_limit s) as He.
  { unfold ReviewLoopSpec.executor_limit, audits_left, z_range, round_limit, depth_budget. rewrite length_seqZ. lia. }
  unfold ReviewLoopSpec.reviewer_limit in Hr. fold (executor_limit (audits_left s)) in Hr. lia.
Qed.

(** C26 (safety): A review loop that has an audit left and whose active audit, if there is one, was not approved yet,
    ends without an error for one of three reasons only: the reviews it keeps answer the last review request, which showed
    the candidate the loop keeps; there is one of every reviewer, with the numbers of that request, and each approves and
    reports no open issue in its text; or all audits of the node were run, after the last one a reviewer failed, did not
    approve or had not reviewed, and the policy of the node lets it continue; or two attempts in a row changed nothing and
    the node continues on failures.  In each case it keeps a valid candidate with one output per executor, and the last
    status it published says how it stopped, whether consensus was reached and which outputs are canonical.
    Definitions: execute_review_loop_audits, run_audits, finish_stalled_audit, finish_exhausted_review_loop, review_loop_can_finish, review_phase_reached_consensus, publish_review_loop_status. *)
Theorem review_loop_completes_with_cause (s s' : LoopState) :
  startable (tracking := with_history) s -> execute_review_loop_audits context s = (Ok tt, s') ->
  completed (tracking := with_history) (context := context) s' /\ announced s'.
Proof. intros Hs Hrun. pose proof (wp_audits s Hs) as H. unfold wp in H. rewrite Hrun in H. apply H. Qed.

(** C27 (bounds): Whatever the providers, the files and the reviews do, a review loop terminates, and it asks the
    executors at most (depth + 1) times per audit left and the reviewers at most (depth + 1) times per audit left, and
    once more for a review before the first candidate, whether it ends with a result or with an error.
    Definitions: execute_review_loop_audits, run_audits, execute_review_loop_audit_round, audit_iterations, maximum_review_round. *)
Theorem review_loop_rounds_bounded (s : LoopState) :
  startable (tracking := without_history) s ->
  let '(result, s') := execute_review_loop_audits context s in
  result <> OutOfFuel /\
  Z.of_nat (asked_executors s') <= Z.of_nat (asked_executors s) + round_limit s /\
  Z.of_nat (asked_reviewers s') <= Z.of_nat (asked_reviewers s) + round_limit s + 1.
Proof.
  intros Hs. pose proof (wp_audits s Hs) as H. unfold wp in H. destruct (execute_review_loop_audits context s) as [[u|e|] s']; [| |done].
  - split; [done|]. apply later_limits, H.
  - split; [done|]. apply later_limits. destruct H as [(H & _)|(msg & _ & H & _)]; exact H.
Qed.

(** A request of a local round shows one output per executor, in the order of the
    node, and each of them is something to review. *)
Definition shows_candidate (r : ReviewerRoundRequest) : Prop :=
  1 <= rr_round_num r -> exists outputs,
    map ea_task_id outputs = map pr_task_id (cx_executors context) /\
    Forall (fun a => presentable (ea_content a)) outputs /\ rr_review_context r = build_review_context outputs.

Lemma review_ok_shows r : review_ok (context := context) r -> shows_candidate r.
Proof.
  intros H Hr. destruct (H Hr) as (outputs & [Hv Hids] & Hctx). exists outputs. split_and!; [done| |done].
  apply outputs_valid in Hv. eapply Forall_impl; [exact Hv|]. intros a. apply accepted_presentable.
Qed.



(** Every checkpoint such a loop commits is in order. *)
Lemma audits_checkpoints (s : LoopState) : startable (tracking := with_history) s ->
  Forall checkpoint_ok (checkpoints_made (ls_io (snd (execute_review_loop_audits context s)))).
Proof.
  intros Hs. pose proof (wp_audits s Hs) as H. unfold wp in H.
  destruct (execute_review_loop_audits context s) as [[u|e|] s']; [|  |done].
  - destruct H as (_ & [_ H] & _). by apply H.
  - destruct H as [(_ & [_ H] & _)|(msg & _ & _ & [_ H] & _)]; by apply H.
Qed.

End LoopCorrect.

(** ** A run: changes are requested of the first candidate, the second is approved *)

Module LoopExample.

#[export] Instance libraries : ReviewLibraries := {| markdown_parse := fun _ => []; sha256_hex := fun s => s |}.

Definition executor : ProviderRecord := mkProviderRecord "codex" EXECUTOR None None "codex" "codex" "cli" "sig" "sig".
Definition reviewer : ProviderRecord := mkProviderRecord "claude" REVIEWER None None "claude" "claude" "cli" "sig" "sig".

(* The state of the outside is the number of reviews that were run; [verdict]
   is what the reviewers say after that many. *)
Definition outside_of (verdict : nat -> string) : ReviewLoopEnv := {|
  world := nat;
  resolve_prompt _ _ _ w := (Ok "Write a parser.", w);
  enforce_prompt_budget _ w := (Ok tt, w);
  call_executor _ _ _ w := (Ok ("The parser passes test number " +:+ str_int (Z.of_nat w) +:+ ".", None, 0), w);
  bind_candidate_identity _ a w := (Ok (mkIdentity "artifact" (Some (ea_content a)) None None), w);
  gather_reviewers _ _ w := (Ok [inl (mkInvocation "claude.md" (1, "sig") 0)], S w);
  read_bound_invocation_output _ _ w := (Ok (verdict w), w);
  publish_invocation_output _ _ signature w := (Ok signature, w);
  publish_text _ _ signature w := (Ok signature, w);
  perform _ w := (Ok tt, w);
  cancelled w := (false, w)
|}.

Definition learns : ReviewLoopEnv := outside_of (fun w => if Nat.leb w 1 then "Test number 1 must fix." else "LGTM").
Definition refuses : ReviewLoopEnv := outside_of (fun w => "The parser must fix test " +:+ str_int (Z.of_nat w) +:+ ".").

Definition policy : ExecutionPolicy := mkPolicy (Some 2) (Some 1) StartsExecutor false None None None None None.
Definition node : PreflightExecutionNode :=
  mkExecNode "build" None None None None Sequential false [] (Some "build") [executor; reviewer] policy None
    (mkContract (Some "build") "build-result.md" None (Some "build/logs") None (Some "build-result.md")) None false None None.
Definition context : ReviewLoopRunContext :=
  mkContext node "build" [executor] [reviewer] "Write a parser." "Write a parser." 2 1 false.

Lemma laws verdict : ReviewLoopEnvLaws (env := outside_of verdict) context.
Proof.
  split; try (intros; intros w; exact I).
  - intros request prompt w completed w' e [= <- _] Hin. by apply list_elem_of_singleton in Hin.
  - by intros request prompt w completed w' [= <- _].
Qed.

Definition start (env : ReviewLoopEnv) (w : @world env) : LoopState (env := env) := mkLoopState fresh_progress (mkIO [] [] w).

Lemma start_ok tracking verdict w : startable (tracking := tracking) (env := outside_of verdict) (context := context) (start (outside_of verdict) w).
Proof. split; [split; [split; [|split]|..]|]; simpl; first [done | lia | by left | constructor]. Qed.

Definition approved_end : LoopState (env := learns) := snd (execute_review_loop_audits (env := learns) context (start learns 0%nat)).
Definition refused_end : LoopState (env := refuses) := snd (execute_review_loop_audits (env := refuses) context (start refuses 0%nat)).

(** Two reviews, the second of which approves: [completed] holds by its first case. *)
Lemma review_loop_completes_with_cause_witness :
  lp_stop_reason (ls_progress approved_end) = Some CONSENSUS /\
  completed (tracking := with_history) (env := learns) (context := context) approved_end /\ announced (env := learns) approved_end.
Proof.
  split; [vm_compute; reflexivity|].
  apply (review_loop_completes_with_cause (env := learns) (laws := laws _) (start learns 0%nat)); [apply start_ok|].
  vm_compute. reflexivity.
Defined.

Lemma review_loop_rounds_bounded_witness :
  Z.of_nat (asked_executors (env := refuses) refused_end) <= 3 /\
  Z.of_nat (asked_reviewers (env := refuses) refused_end) <= 4.
Proof.
  pose proof (review_loop_rounds_bounded (env := refuses) (laws := laws _) (start refuses 0%nat) (start_ok _ _ _)) as H.
  unfold refused_end. destruct (execute_review_loop_audits _ _) as [r s']. exact (proj2 H).
Defined.


Definition refusal : exn :=
  match fst (execute_review_loop_audits (env := refuses) context (start refuses 0%nat)) with Raise e => e | _ => CancelledError end.


End LoopExample.
