(* ===== verification/RunState.v ===== *)
(** Durable run state: core/execution_state.py and core/value_checks.py.

    A Pydantic model is a record with the validator that its construction runs:
    the field constraints first, then the model validator.  Failures of field
    constraints keep the name of the model, model validators keep their message. *)

From Stdlib Require Import ZArith Lia Ascii String.
From stdpp Require Import base gmap sets list strings.
From S2P Require Import Prelude PyStr Models PlanRecords Artifacts PlanContract.

Open Scope string_scope.
Open Scope list_scope.
Open Scope Z_scope.

(** [datetime.fromisoformat] accepts the text. *)
Class ClockLibrary := { fromisoformat_accepts : string -> bool }.

(** Code: core/value_checks.py, is_sha256. *)
Definition is_sha256 (value : string) : bool :=
  (Z.of_nat (String.length value) =? 64) && forallb (fun c => bool_decide (c ∈ chars "0123456789abcdef")) (chars value).

(** The field constraints of the model [name] hold. *)
Definition fields (name : string) (ok : bool) : outcome unit :=
  if ok then Ok tt else Raise (OtherError "ValidationError" name).

(** Code: core/execution_state.py:15-20. *)
Definition RUN_STATE_SCHEMA_VERSION : Z := 1.

(** Code: core/execution_state.py, RunStatus. *)
Inductive RunStatus : Type := RunRunning | RunSucceeded | RunFailed | RunCancelled.

#[global] Instance RunStatus_eq_dec : EqDecision RunStatus.
Proof. solve_decision. Defined.

(** Code: core/execution_state.py, ArtifactKind. *)
Inductive ArtifactKind : Type := KindOutput | KindFindings | KindGeneratedFile.

#[global] Instance ArtifactKind_eq_dec : EqDecision ArtifactKind.
Proof. solve_decision. Defined.

(** Code: core/execution_state.py, validate_run_state_schema_version. *)
Definition validate_run_state_schema_version (value : Z) : outcome Z :=
  if negb (value =? RUN_STATE_SCHEMA_VERSION)
  then Raise (ValueError ("Unsupported run state schema version " +:+ quoted (str_int value) +:+ "."))
  else Ok value.

(** Code: core/preflight/plan_contract.py, validate_supported_plan_schema_version. *)
Definition validate_supported_plan_schema_version (value : string) : outcome string :=
  if negb (bool_decide (value = SCHEMA_VERSION))
  then Raise (ValueError ("Unsupported preflight plan schema version " +:+ quoted value +:+ ". Expected "
                          +:+ quoted SCHEMA_VERSION +:+ "."))
  else Ok value.

Section RunState.
Context {clock : ClockLibrary}.

(** Code: core/execution_state.py, validate_iso_datetime. *)
Definition validate_iso_datetime (value : string) : outcome string :=
  if fromisoformat_accepts value then Ok value
  else Raise (ValueError "timestamp fields must be ISO 8601 datetimes.").

(** Code: core/execution_state.py, ArtifactDescriptor. *)
Record ArtifactDescriptor := mkDescriptor {
  ad_kind : ArtifactKind;
  ad_relative_path : string;
  ad_sha256 : string;
  ad_size_bytes : Z
}.

Definition validate_artifact_descriptor (d : ArtifactDescriptor) : outcome unit :=
  _ ← require (is_safe_relative_path (ad_relative_path d)) "Artifact descriptor paths must be relative POSIX paths.";
  _ ← require (is_sha256 (ad_sha256 d)) "Artifact descriptor sha256 must be 64 lowercase hex characters.";
  fields "ArtifactDescriptor" (0 <=? ad_size_bytes d).

(** Code: core/execution_state.py, ResumeOrigin. *)
Record ResumeOrigin := mkOrigin {
  ro_source_run_id : string;
  ro_source_run_key_name : string;
  ro_source_node_id : string;
  ro_hydrated_at : string
}.

Definition validate_resume_origin (o : ResumeOrigin) : outcome unit :=
  _ ← require (not_blank (ro_source_run_id o) && not_blank (ro_source_run_key_name o) && not_blank (ro_source_node_id o))
        "Resume provenance fields cannot be blank.";
  _ ← validate_iso_datetime (ro_hydrated_at o); Ok tt.

(** Code: core/execution_state.py, ReviewCheckpointResumeSummary.  The phase is its text. *)
Record ReviewCheckpointResumeSummary := mkResumeSummary {
  rc_node_id : string;
  rc_source_audit : Z;
  rc_source_local_round : Z;
  rc_source_phase : string;
  rc_resume_origin : ResumeOrigin
}.

(** Code: core/execution_state.py, ReviewCheckpointResumeSummary.validate_node. *)
Definition validate_resume_summary (s : ReviewCheckpointResumeSummary) : outcome unit :=
  _ ← fields "ReviewCheckpointResumeSummary"
        (nonempty (rc_node_id s) && (1 <=? rc_source_audit s) && (0 <=? rc_source_local_round s)
         && str_in (rc_source_phase s) ["executors"; "reviewers"; "finalize"]);
  _ ← validate_resume_origin (rc_resume_origin s);
  require (bool_decide (rc_node_id s = ro_source_node_id (rc_resume_origin s)))
    "Checkpoint provenance must identify the resumed node.".

(** ** Node states *)

(** The status is always "succeeded".
    Code: core/execution_state.py, NodeState. *)
Record NodeState := mkNodeState {
  ns_run_state_schema_version : Z;
  ns_plan_schema_version : string;
  ns_workflow_identity : string;
  ns_workflow_name : string;
  ns_workflow_signature : string;
  ns_run_id : string;
  ns_run_key_name : string;
  ns_node_id : string;
  ns_expansion : option ExpansionProvenance;
  ns_completed_at : string;
  ns_artifacts : list ArtifactDescriptor;
  ns_generated_files : list ArtifactDescriptor;
  ns_workspace : option json;
  ns_resume_origin : option ResumeOrigin
}.

Definition is_generated (d : ArtifactDescriptor) : bool := bool_decide (ad_kind d = KindGeneratedFile).

(** Code: core/execution_state.py, NodeState._validate_artifact_descriptor_sets. *)
Definition validate_artifact_descriptor_sets (n : NodeState) : outcome unit :=
  _ ← match ns_expansion n with None => Ok tt | Some e => validate_provenance_node e (ns_node_id n) end;
  _ ← require (bool_decide (NoDup (map ad_kind (ns_artifacts n)))) "Node state artifact kinds must be unique.";
  _ ← require (negb (existsb is_generated (ns_artifacts n)))
        "Generated-file descriptors must be stored in generated_files.";
  _ ← require (forallb is_generated (ns_generated_files n))
        "generated_files may contain only generated-file descriptors.";
  require (bool_decide (NoDup (map ad_relative_path (ns_artifacts n ++ ns_generated_files n))))
    "Node state artifact paths must be unique.".

(** The construction of a node state.
    Code: core/execution_state.py:104-158. *)
Definition validate_node_state (n : NodeState) : outcome unit :=
  _ ← validate_run_state_schema_version (ns_run_state_schema_version n);
  _ ← validate_supported_plan_schema_version (ns_plan_schema_version n);
  _ ← require (forallb not_blank [ns_workflow_identity n; ns_workflow_name n; ns_run_id n; ns_run_key_name n; ns_node_id n])
        "Node state identity fields cannot be blank.";
  _ ← require (is_sha256 (ns_workflow_signature n)) "workflow_signature must be 64 lowercase hex characters.";
  _ ← validate_iso_datetime (ns_completed_at n);
  _ ← for_each (fun _ d => validate_artifact_descriptor d) (ns_artifacts n ++ ns_generated_files n) tt;
  _ ← match ns_resume_origin n with None => Ok tt | Some o => validate_resume_origin o end;
  validate_artifact_descriptor_sets n.

(** ** The run manifest *)

(** Code: core/execution_state.py, RunManifest. *)
Record RunManifest := mkManifest {
  rm_run_state_schema_version : Z;
  rm_plan_schema_version : string;
  rm_workflow_identity : string;
  rm_workflow_name : string;
  rm_workflow_signature : string;
  rm_run_id : string;
  rm_run_key_name : string;
  rm_started_at : string;
  rm_completed_at : option string;
  rm_status : RunStatus;
  rm_effective_runtime_config_signature : string;
  rm_preflight_plan_path : string;
  rm_preflight_manifest_path : string;
  rm_runtime_config_snapshot_path : string;
  rm_runtime_config_snapshot : dict json;
  rm_workflow_source : string;
  rm_composed_workflow : dict json;
  rm_referenced_workflows : list (dict string);
  rm_workspace : option json;
  rm_resumed_nodes : list string;
  rm_resumed_review_checkpoints : list ReviewCheckpointResumeSummary;
  rm_resume_source_run_id : option string;
  rm_resume_source_run_key_name : option string;
  rm_failure_message : option string;
  rm_cancel_reason : option string
}.

Definition not_blank_or_none (o : option string) : bool := match o with None => true | Some s => not_blank s end.

(** Code: core/execution_state.py, RunManifest._validate_completion_status. *)
Definition validate_completion_status (m : RunManifest) : outcome unit :=
  _ ← require (negb (bool_decide (rm_status m = RunRunning) && is_some (rm_completed_at m)))
        "Running manifests cannot have completed_at.";
  require (negb (negb (bool_decide (rm_status m = RunRunning)) && negb (is_some (rm_completed_at m))))
    "Terminal manifests require completed_at.".

(** Code: core/execution_state.py, RunManifest._validate_terminal_reasons. *)
Definition validate_terminal_reasons (m : RunManifest) : outcome unit :=
  let failed := bool_decide (rm_status m = RunFailed) in
  let cancelled := bool_decide (rm_status m = RunCancelled) in
  _ ← require (negb (negb failed && is_some (rm_failure_message m))) "failure_message is only valid for failed runs.";
  _ ← require (negb (negb cancelled && is_some (rm_cancel_reason m))) "cancel_reason is only valid for cancelled runs.";
  _ ← require (negb (failed && negb (is_some (rm_failure_message m)))) "Failed manifests require failure_message.";
  require (negb (cancelled && negb (is_some (rm_cancel_reason m)))) "Cancelled manifests require cancel_reason.".

(** Code: core/execution_state.py, RunManifest._validate_resume_provenance. *)
Definition validate_resume_provenance (m : RunManifest) : outcome unit :=
  let has_source_run_id := is_some (rm_resume_source_run_id m) in
  let has_source_run_key := is_some (rm_resume_source_run_key_name m) in
  let hydrated := negb (bool_decide (rm_resumed_nodes m = []) && match rm_resumed_review_checkpoints m with [] => true | _ => false end) in
  _ ← require (eqb has_source_run_id has_source_run_key) "Resume source provenance must be all-or-none.";
  _ ← require (eqb hydrated has_source_run_id)
        "Resume source provenance is required exactly when nodes or checkpoints were hydrated.";
  _ ← require (bool_decide (NoDup (rm_resumed_nodes m))) "resumed_nodes cannot contain duplicates.";
  let checkpoint_ids := map rc_node_id (rm_resumed_review_checkpoints m) in
  _ ← require (bool_decide (NoDup checkpoint_ids) && forallb (fun x => negb (str_in x (rm_resumed_nodes m))) checkpoint_ids)
        "Hydrated checkpoint and successful node IDs must be distinct.";
  for_each (fun _ c => require (bool_decide (Some (ro_source_run_id (rc_resume_origin c)) = rm_resume_source_run_id m)
                                && bool_decide (Some (ro_source_run_key_name (rc_resume_origin c)) = rm_resume_source_run_key_name m))
                         "Checkpoint provenance must match the manifest source run.")
    (rm_resumed_review_checkpoints m) tt.

(** Code: core/execution_state.py, RunManifest._validate_consistency. *)
Definition validate_consistency (m : RunManifest) : outcome unit :=
  _ ← validate_completion_status m;
  _ ← validate_terminal_reasons m;
  validate_resume_provenance m.

(** The construction of a manifest, [RunManifest.model_validate].
    Code: core/execution_state.py:184-281. *)
Definition validate_run_manifest (m : RunManifest) : outcome unit :=
  _ ← validate_run_state_schema_version (rm_run_state_schema_version m);
  _ ← validate_supported_plan_schema_version (rm_plan_schema_version m);
  _ ← require (forallb not_blank [rm_workflow_identity m; rm_workflow_name m; rm_run_id m; rm_run_key_name m;
                                 rm_preflight_plan_path m; rm_preflight_manifest_path m;
                                 rm_runtime_config_snapshot_path m; rm_workflow_source m])
        "Run manifest identity and path fields cannot be blank.";
  _ ← require (not_blank_or_none (rm_failure_message m) && not_blank_or_none (rm_cancel_reason m))
        "Terminal run reasons cannot be blank.";
  _ ← require (forallb not_blank (rm_resumed_nodes m)) "resumed_nodes cannot contain blank node ids.";
  _ ← for_each (fun _ c => validate_resume_summary c) (rm_resumed_review_checkpoints m) tt;
  _ ← require (not_blank_or_none (rm_resume_source_run_id m) && not_blank_or_none (rm_resume_source_run_key_name m))
        "Resume source provenance fields cannot be blank.";
  _ ← require (is_sha256 (rm_workflow_signature m) && is_sha256 (rm_effective_runtime_config_signature m))
        "Persisted signatures must be 64 lowercase hex characters.";
  _ ← validate_iso_datetime (rm_started_at m);
  _ ← match rm_completed_at m with None => Ok "" | Some t => validate_iso_datetime t end;
  validate_consistency m.

End RunState.
