(* ===== verification/RunManifests.v ===== *)
(** The stored manifest of a run: the operations of the artifact store that
    change it and the recovery of a run whose lock went stale, from
    artifacts/manager.py, artifacts/resume/checkpoint_store.py,
    artifacts/locks/manifest.py and cli/run/manifest.py.

    The state is the manifest file of one run, absent or holding a manifest or
    something else.  Reading validates it again, as the code does.  What the
    file system answers is an input: whether the file is a safe regular file
    and can be read, what is found on the path of a stale manifest, and how
    each write ends. *)

From Stdlib Require Import ZArith Lia Ascii String.
From stdpp Require Import base gmap sets list strings.
From S2P Require Import Prelude PyStr Models PlanRecords Artifacts PlanContract PlanContractSpec RunState StateExn.

Open Scope string_scope.
Open Scope list_scope.
Open Scope Z_scope.

(** [json.loads]: a value, a [JSONDecodeError], or another error (a number with
    too many digits, nesting that is too deep). *)
Inductive JsonResult := JsonValue (v : json) | JsonUndecodable | JsonError (e : exn).

Class JsonLibrary := { json_loads : string -> JsonResult }.

(** What a file of manifests holds. *)
Inductive ManifestContent := Holds (m : RunManifest) | Malformed.

(** How a read of the manifest ends: the file is not a safe regular file, or
    reading it fails. *)
Inductive FileAccess := Readable | NotSafe | Unreadable (message : string).

(** The manifest file; how the next reads and writes end (those that are not
    listed end well). *)
Record ManifestDisk := mkDisk {
  rd_file : option ManifestContent;
  rd_access : list FileAccess;
  rd_writes : list WriteResult
}.

Section Manifests.
Context {clock : ClockLibrary} {jsons : JsonLibrary}.

Notation Store := ManifestDisk.

(** [manifest.model_copy(update=...)] for the updates of the store. *)
Definition copy_status (status : RunStatus) (completed_at failure_message cancel_reason : option string) (m : RunManifest)
    : RunManifest :=
  mkManifest (rm_run_state_schema_version m) (rm_plan_schema_version m) (rm_workflow_identity m) (rm_workflow_name m)
    (rm_workflow_signature m) (rm_run_id m) (rm_run_key_name m) (rm_started_at m) completed_at status
    (rm_effective_runtime_config_signature m) (rm_preflight_plan_path m) (rm_preflight_manifest_path m)
    (rm_runtime_config_snapshot_path m) (rm_runtime_config_snapshot m) (rm_workflow_source m) (rm_composed_workflow m)
    (rm_referenced_workflows m) (rm_workspace m) (rm_resumed_nodes m) (rm_resumed_review_checkpoints m)
    (rm_resume_source_run_id m) (rm_resume_source_run_key_name m) failure_message cancel_reason.

Definition copy_provenance (nodes : list string) (checkpoints : list ReviewCheckpointResumeSummary)
    (source_run_id source_run_key_name : option string) (m : RunManifest) : RunManifest :=
  mkManifest (rm_run_state_schema_version m) (rm_plan_schema_version m) (rm_workflow_identity m) (rm_workflow_name m)
    (rm_workflow_signature m) (rm_run_id m) (rm_run_key_name m) (rm_started_at m) (rm_completed_at m) (rm_status m)
    (rm_effective_runtime_config_signature m) (rm_preflight_plan_path m) (rm_preflight_manifest_path m)
    (rm_runtime_config_snapshot_path m) (rm_runtime_config_snapshot m) (rm_workflow_source m) (rm_composed_workflow m)
    (rm_referenced_workflows m) (rm_workspace m) nodes checkpoints source_run_id source_run_key_name
    (rm_failure_message m) (rm_cancel_reason m).

(** ** The artifact store *)

(** A write that raises may have replaced the file.
    Code: artifacts/manager.py, OutputManager.write_run_manifest. *)
Definition write_run_manifest (m : RunManifest) : M Store unit := fun d =>
  let failed := Raise (OSError "cannot write the run manifest") in
  let kept := mkDisk (rd_file d) (rd_access d) (tail (rd_writes d)) in
  let replaced := mkDisk (Some (Holds m)) (rd_access d) (tail (rd_writes d)) in
  match default Written (head (rd_writes d)) with
  | Written => (Ok tt, replaced)
  | NotReplaced => (failed, kept)
  | ReplacedUnsynced => (failed, replaced)
  end.

(** [contained_regular_file(...)] and [read_contained_bytes(...)]: nothing for a
    file that is absent or not a safe regular file. *)
Definition contained_manifest : M Store (option ManifestContent) := fun d =>
  let d' := mkDisk (rd_file d) (tail (rd_access d)) (rd_writes d) in
  match default Readable (head (rd_access d)) with
  | Readable => (Ok (rd_file d), d')
  | NotSafe => (Ok None, d')
  | Unreadable message => (Raise (OSError message), d')
  end.

(** [RunManifest.model_validate_json(...)]. *)
Definition model_validate_json (content : ManifestContent) : outcome RunManifest :=
  match content with
  | Malformed => Raise (OtherError "ValidationError" "RunManifest")
  | Holds m => _ ← validate_run_manifest m; Ok m
  end.

(** Code: artifacts/manager.py, OutputManager._read_run_manifest.._run_manifest_path. *)
Definition read_run_manifest : M Store RunManifest :=
  stored ← contained_manifest;
  match stored with
  | None => raise (ValueError "Run manifest is missing or is not a safe regular file.")
  | Some content => lift (model_validate_json content)
  end.

(** Code: artifacts/manager.py, OutputManager._write_updated_run_manifest. *)
Definition write_updated_run_manifest (updated : RunManifest) : M Store unit :=
  lift (validate_run_manifest updated) ;; write_run_manifest updated.

(** Code: artifacts/manager.py, OutputManager.update_run_manifest_status. *)
Definition update_run_manifest_status (status : RunStatus) (completed_at : string) (failure_message cancel_reason : option string)
    : M Store unit :=
  current ← read_run_manifest;
  write_updated_run_manifest (copy_status status (Some completed_at) failure_message cancel_reason current).

(** Code: artifacts/manager.py, OutputManager.record_hydrated_resume_node. *)
Definition record_hydrated_resume_node (node_id source_run_id source_run_key_name : string) : M Store unit :=
  current ← read_run_manifest;
  write_updated_run_manifest
    (copy_provenance (rm_resumed_nodes current ++ [node_id]) (rm_resumed_review_checkpoints current)
       (Some source_run_id) (Some source_run_key_name) current).

(** Code: artifacts/resume/checkpoint_store.py, read_checkpoint_provenance. *)
Definition read_checkpoint_provenance : M Store (list ReviewCheckpointResumeSummary) :=
  stored ← contained_manifest;
  match stored with
  | None => ret []
  | Some content => manifest ← lift (model_validate_json content); ret (rm_resumed_review_checkpoints manifest)
  end.

(** Code: artifacts/resume/checkpoint_store.py, record_checkpoint_provenance. *)
Definition record_checkpoint_provenance (summary : ReviewCheckpointResumeSummary) : M Store unit :=
  stored ← contained_manifest;
  match stored with
  | None => raise (ValueError "Checkpoint hydration requires a running manifest.")
  | Some content =>
      manifest ← lift (model_validate_json content);
      if negb (bool_decide (rm_status manifest = RunRunning)) then
        raise (ValueError "Checkpoint hydration requires a running manifest.")
      else
        write_updated_run_manifest
          (copy_provenance (rm_resumed_nodes manifest) (rm_resumed_review_checkpoints manifest ++ [summary])
             (Some (ro_source_run_id (rc_resume_origin summary)))
             (Some (ro_source_run_key_name (rc_resume_origin summary))) manifest)
  end.

(** ** Recovery of a stale run *)

(** Code: artifacts/locks/manifest.py, TerminalRecoveryPhase. *)
Inductive TerminalRecoveryPhase : Type := outcome_selected | terminal_views_published | observer_shutdown_complete.

#[global] Instance TerminalRecoveryPhase_eq_dec : EqDecision TerminalRecoveryPhase.
Proof. solve_decision. Defined.

(** Code: artifacts/locks/manifest.py, TerminalRecoveryIntent. *)
Record TerminalRecoveryIntent := mkIntent {
  ti_phase : TerminalRecoveryPhase;
  ti_status : RunStatus;
  ti_reason : option string
}.

(** The status is a terminal one.
    Code: artifacts/locks/manifest.py, TerminalRecoveryIntent._validate_status_reason. *)
Definition validate_recovery_intent (i : TerminalRecoveryIntent) : outcome unit :=
  _ ← fields "TerminalRecoveryIntent" (negb (bool_decide (ti_status i = RunRunning)));
  _ ← require (not_blank_or_none (ti_reason i)) "Terminal recovery reason cannot be blank.";
  _ ← require (negb (bool_decide (ti_status i = RunSucceeded) && is_some (ti_reason i)))
        "Successful terminal recovery cannot include a reason.";
  require (negb (negb (bool_decide (ti_status i = RunSucceeded)) && negb (is_some (ti_reason i))))
    "Failed and cancelled terminal recovery require a reason.".

(** Code: artifacts/locks/manifest.py, LockRunMetadata. *)
Record LockRunMetadata := mkLockMetadata {
  lm_run_id : option string;
  lm_run_key_name : option string;
  lm_workflow_identity : string;
  lm_workflow_signature : string;
  lm_terminal_recovery : option TerminalRecoveryIntent
}.

Definition LockManifestError (message : string) : exn := OtherError "LockManifestError" message.

(** Code: architecture/contracts/run_summary.py, run_summary_header_lines. *)
Definition run_summary_header_lines (workflow_name run_id status : string) : list string :=
  ["# Run Summary"; ""; "- Workflow: " +:+ workflow_name; "- Run ID: " +:+ run_id; "- Status: " +:+ status].

(** Code: architecture/contracts/run_summary.py, run_summary_status_lines. *)
Definition run_summary_status_lines (summary : string) : list string :=
  List.filter (str_startswith "- Status: ") (str_splitlines summary).

(** Code: core/execution_state.py:17-20. *)
Definition run_status_str (s : RunStatus) : string :=
  match s with
  | RunRunning => "running" | RunSucceeded => "succeeded" | RunFailed => "failed" | RunCancelled => "cancelled"
  end.

(** Code: artifacts/locks/manifest.py, TERMINAL_WORKFLOW_EVENT_TYPE_BY_STATUS. *)
Definition terminal_event_type (s : RunStatus) : string :=
  match s with
  | RunSucceeded => "workflow_finished" | RunFailed => "workflow_failed" | _ => "workflow_cancelled"
  end.

Definition TERMINAL_EVENT_TYPES : list string := ["workflow_finished"; "workflow_failed"; "workflow_cancelled"].

(** Only a [JSONDecodeError] is handled.
    Code: artifacts/locks/manifest.py, _event_records. *)
Fixpoint event_records (lines : list string) : outcome (option (list (dict json))) :=
  match lines with
  | [] => Ok (Some [])
  | line :: lines =>
      if negb (not_blank line) then event_records lines
      else match json_loads line with
           | JsonValue (JObj record) => records ← event_records lines; Ok (option_map (cons record) records)
           | JsonValue _ | JsonUndecodable => Ok None
           | JsonError e => Raise e
           end
  end.

(** [record.get("event_type") in _TERMINAL_EVENT_TYPES]; the test hashes its value. *)
Definition is_terminal_record (record : dict json) : outcome bool :=
  match dget record "event_type" with
  | Some (JStr t) => Ok (str_in t TERMINAL_EVENT_TYPES)
  | Some (JList _) => Raise (OtherError "TypeError" "unhashable type: 'list'")
  | Some (JObj _) => Raise (OtherError "TypeError" "unhashable type: 'dict'")
  | _ => Ok false
  end.

(** Code: artifacts/locks/manifest.py, _extract_terminal_event_records. *)
Definition extract_terminal_event_records (event_log : string) : outcome (option (list (dict json))) :=
  records ← event_records (str_splitlines event_log);
  match records with
  | None => Ok None
  | Some records =>
      terminal ← for_each (fun kept r => t ← is_terminal_record r; Ok (if t : bool then kept ++ [r] else kept)) records [];
      Ok (Some terminal)
  end.

(** [record.get(key)] with [null] for an absent key. *)
Definition jget (record : dict json) (key : string) : json := default JNull (dget record key).
Definition jopt (o : option string) : json := match o with Some s => JStr s | None => JNull end.

(** Code: artifacts/locks/manifest.py, _terminal_record_matches. *)
Definition terminal_record_matches (terminal : dict json) (manifest : RunManifest) (recovery : TerminalRecoveryIntent) : bool :=
  bool_decide (jget terminal "event_type" = JStr (terminal_event_type (ti_status recovery)))
  && bool_decide (jget terminal "workflow_name" = JStr (rm_workflow_name manifest))
  && bool_decide (jget terminal "run_id" = JStr (rm_run_id manifest))
  && bool_decide (jget terminal "error" = jopt (ti_reason recovery))
  && match jget terminal "timestamp" with JStr t => not_blank t | _ => false end.

(** Code: artifacts/locks/manifest.py, _terminal_event_matches. *)
Definition terminal_event_matches (event_log : string) (manifest : RunManifest) (recovery : TerminalRecoveryIntent)
    : outcome bool :=
  records ← extract_terminal_event_records event_log;
  Ok match records with
     | Some [terminal] => terminal_record_matches terminal manifest recovery
     | _ => false
     end.

(** Code: artifacts/locks/manifest.py, _terminal_summary_matches. *)
Definition terminal_summary_matches (summary : string) (manifest : RunManifest) (status : RunStatus) : bool :=
  let lines := str_splitlines summary in
  let expected_header := run_summary_header_lines (rm_workflow_name manifest) (rm_run_id manifest) (run_status_str status) in
  bool_decide (take (length expected_header) lines = expected_header)
  && bool_decide (run_summary_status_lines summary = ["- Status: " +:+ run_status_str status]).

(** The event log and the summary of the run, when both can be read. *)
Definition TerminalViews : Type := option (string * string).

(** Code: artifacts/locks/manifest.py, _terminal_views_match. *)
Definition terminal_views_match (views : TerminalViews) (manifest : RunManifest) (recovery : TerminalRecoveryIntent)
    : outcome bool :=
  match views with
  | None => Ok false
  | Some (event_log, summary) =>
      event ← terminal_event_matches event_log manifest recovery;
      Ok (event && terminal_summary_matches summary manifest (ti_status recovery))
  end.

(** Code: artifacts/locks/manifest.py, _needs_stale_terminal_default. *)
Definition needs_stale_terminal_default (views : TerminalViews) (manifest : RunManifest) (recovery : TerminalRecoveryIntent)
    : outcome bool :=
  if negb (bool_decide (ti_phase recovery = outcome_selected)) then Ok false
  else matches ← terminal_views_match views manifest recovery; Ok (negb matches).

(** Code: artifacts/locks/manifest.py, _stale_terminal_outcome. *)
Definition stale_terminal_outcome (views : TerminalViews) (manifest : RunManifest) (recovery : option TerminalRecoveryIntent)
    : outcome (RunStatus * option string) :=
  match recovery with
  | None => Ok (RunCancelled, Some "stale_lock_recovered")
  | Some recovery =>
      needs_default ← needs_stale_terminal_default views manifest recovery;
      Ok (if needs_default : bool then (RunCancelled, Some "stale_lock_recovered")
          else (ti_status recovery, ti_reason recovery))
  end.

(** Code: artifacts/locks/manifest.py, _stale_manifest_updates. *)
Definition stale_manifest_updates (status : RunStatus) (reason : option string) (now : string) (m : RunManifest) : RunManifest :=
  copy_status status (Some now) (if bool_decide (status = RunFailed) then reason else None)
    (if bool_decide (status = RunCancelled) then reason else None) m.

(** Code: artifacts/locks/manifest.py, validate_owner_manifest_match. *)
Definition validate_owner_manifest_match (metadata : LockRunMetadata) (manifest : RunManifest) : outcome unit :=
  if bool_decide (Some (rm_run_id manifest) = lm_run_id metadata)
     && bool_decide (Some (rm_run_key_name manifest) = lm_run_key_name metadata)
     && bool_decide (rm_workflow_identity manifest = lm_workflow_identity metadata)
     && bool_decide (rm_workflow_signature manifest = lm_workflow_signature metadata)
  then Ok tt
  else Raise (LockManifestError "Lock owner run metadata does not match run manifest.").

Definition PermissionError (message : string) : exn := OtherError "PermissionError" message.

(** An answer of the file system: a value, a [PermissionError], or another
    [OSError]. *)
Inductive Inspection (A : Type) := Seen (value : A) | Denied | Unseen.
#[global] Arguments Seen {A} value.
#[global] Arguments Denied {A}.
#[global] Arguments Unseen {A}.

(** What [lstat] finds at the path of the manifest. *)
Inductive ManifestStat := MissingFile | ParentNotDirectory | RegularFile (single_link : bool).

(** What is found on the path of a manifest when it is checked. *)
Record PathView := mkPathView {
  pw_run_dir_contained : Inspection bool;
  pw_root_has_symlink : Inspection bool;
  pw_path_has_symlink : Inspection bool;
  pw_path_contained : Inspection bool;
  pw_lstat : Inspection ManifestStat
}.

(** Code: artifacts/naming.py, validate_run_key_name. *)
Definition valid_run_key_name (run_key_name : string) : bool :=
  match chars run_key_name with
  | first :: rest => (is_lower first || is_digit first) && forallb (fun c => is_lower c || is_digit c || is_char c "-") rest
                     && (str_len run_key_name <=? MAX_ARTIFACT_PATH_COMPONENT_CHARS)
  | [] => false
  end.

Definition not_contained {A} : outcome A := Raise (LockManifestError "Lock owner run metadata is not safely contained.").
Definition not_inspected {A} : outcome A := Raise (LockManifestError "Cannot inspect stale run manifest safely.").
Definition denied {A} : outcome A := Raise (PermissionError "permission denied").

(** Code: artifacts/locks/manifest.py, owner_manifest_path. *)
Definition owner_manifest_path (run_key_name : string) (view : PathView) : outcome bool :=
  if negb (valid_run_key_name run_key_name) then not_contained
  else match pw_run_dir_contained view with
       | Seen contained => Ok contained
       | Denied => denied
       | Unseen => Ok false
       end.

(** [path_is_symlink] answers no when it cannot look, but for a
    [PermissionError]. *)
Definition symlink_found (answer : Inspection bool) : outcome bool :=
  match answer with Seen found => Ok found | Denied => denied | Unseen => Ok false end.

(** Code: artifacts/locks/manifest.py, ensure_no_symlink_manifest_components. *)
Definition ensure_no_symlink_manifest_components (view : PathView) : outcome unit :=
  let refused := Raise (LockManifestError "Stale run manifest path contains a symlink.") in
  root ← symlink_found (pw_root_has_symlink view);
  if root : bool then refused
  else
    path ← symlink_found (pw_path_has_symlink view);
    if path : bool then refused else Ok tt.

(** Code: artifacts/locks/manifest.py, ensure_owner_path_contained. *)
Definition ensure_owner_path_contained (view : PathView) : outcome unit :=
  match pw_path_contained view with
  | Denied => denied
  | Unseen => not_inspected
  | Seen contained => if contained then Ok tt else not_contained
  end.

(** Whether there is a path to the manifest; [false] is [None].
    Code: artifacts/locks/manifest.py, safe_owner_manifest_path. *)
Definition safe_owner_manifest_path (run_key_name : string) (view : PathView) : outcome bool :=
  path ← owner_manifest_path run_key_name view;
  if negb path then not_contained
  else
    _ ← ensure_no_symlink_manifest_components view;
    _ ← ensure_owner_path_contained view;
    match pw_lstat view with
    | Seen MissingFile | Seen ParentNotDirectory => Ok false
    | Denied => denied
    | Unseen => not_inspected
    | Seen (RegularFile single_link) =>
        if single_link then Ok true else Raise (LockManifestError "Stale run manifest is not a safe file.")
    end.

(** How reading a stale manifest ends. *)
Inductive OwnerRead := ReadText | ReadDenied | ReadFailed.

(** Code: artifacts/locks/manifest.py, read_owner_manifest. *)
Definition read_owner_manifest (how : OwnerRead) (stored : option ManifestContent) : outcome RunManifest :=
  let unusable := Raise (LockManifestError "Stale run manifest is malformed or unreadable.") in
  match how, stored with
  | ReadDenied, _ => denied
  | ReadFailed, _ | ReadText, None => unusable
  | ReadText, Some content =>
      match model_validate_json content with
      | Raise (ValueError _) | Raise (OSError _) | Raise (OtherError "ValidationError" _) => unusable
      | o => o
      end
  end.

(** What the recovery finds: the path when it looks first, the file when it
    reads, the event log and the summary, and the path again before it writes. *)
Record RecoveryInputs := mkRecovery {
  ri_first : PathView;
  ri_read : OwnerRead;
  ri_views : TerminalViews;
  ri_second : PathView;
  ri_now : string
}.

(** Code: artifacts/locks/manifest.py, _write_stale_terminal_manifest. *)
Definition write_stale_terminal_manifest (run_key_name : string) (inputs : RecoveryInputs) (manifest : RunManifest) (status : RunStatus)
    (reason : option string) : M Store unit :=
  let updated := stale_manifest_updates status reason (ri_now inputs) manifest in
  lift (validate_run_manifest updated) ;;
  path ← lift (safe_owner_manifest_path run_key_name (ri_second inputs));
  if negb path then ret tt else write_run_manifest updated.

(** Code: artifacts/locks/manifest.py, finalize_stale_running_run. *)
Definition finalize_stale_running_run (metadata : LockRunMetadata) (inputs : RecoveryInputs) : M Store unit :=
  match lm_run_id metadata, lm_run_key_name metadata with
  | None, None => ret tt
  | Some _, Some run_key_name =>
      path ← lift (safe_owner_manifest_path run_key_name (ri_first inputs));
      if negb path then ret tt
      else
        stored ← read rd_file;
        manifest ← lift (read_owner_manifest (ri_read inputs) stored);
        lift (validate_owner_manifest_match metadata manifest) ;;
        if negb (bool_decide (rm_status manifest = RunRunning)) then ret tt
        else
          '(status, reason) ← lift (stale_terminal_outcome (ri_views inputs) manifest (lm_terminal_recovery metadata));
          write_stale_terminal_manifest run_key_name inputs manifest status reason
  | _, _ => raise (LockManifestError "Lock owner run metadata is incomplete.")
  end.

(** ** Every operation keeps the stored manifest valid *)

(** An operation on the store; a new manifest is a constructed, hence valid, record. *)
Inductive ManifestOp : Type :=
| OpWrite (m : RunManifest)
| OpStatus (status : RunStatus) (completed_at : string) (failure_message cancel_reason : option string)
| OpResumedNode (node_id source_run_id source_run_key_name : string)
| OpResumedCheckpoint (summary : ReviewCheckpointResumeSummary)
| OpStaleLock (metadata : LockRunMetadata) (inputs : RecoveryInputs).

Definition run_op (op : ManifestOp) : M Store unit :=
  match op with
  | OpWrite m => lift (validate_run_manifest m) ;; write_run_manifest m
  | OpStatus status completed_at fm cr => update_run_manifest_status status completed_at fm cr
  | OpResumedNode n i k => record_hydrated_resume_node n i k
  | OpResumedCheckpoint summary => record_checkpoint_provenance summary
  | OpStaleLock metadata inputs => finalize_stale_running_run metadata inputs
  end.

(** A sequence of operations, whether they raise or not. *)
Definition run_ops (ops : list ManifestOp) (d : Store) : Store := foldl (fun d op => snd (run_op op d)) d ops.

(** What a reader may rely on in a stored manifest. *)
Record manifest_consistent (m : RunManifest) : Prop := {
  mc_completed : rm_status m = RunRunning <-> rm_completed_at m = None;
  mc_failed : rm_status m = RunFailed <-> is_Some (rm_failure_message m);
  mc_cancelled : rm_status m = RunCancelled <-> is_Some (rm_cancel_reason m);
  mc_reasons : forall r, rm_failure_message m = Some r \/ rm_cancel_reason m = Some r -> not_blank r = true;
  mc_hydrated : (rm_resumed_nodes m <> [] \/ rm_resumed_review_checkpoints m <> []) <-> is_Some (rm_resume_source_run_id m);
  mc_source : is_Some (rm_resume_source_run_id m) <-> is_Some (rm_resume_source_run_key_name m);
  mc_distinct : NoDup (rm_resumed_nodes m ++ map rc_node_id (rm_resumed_review_checkpoints m));
  mc_origins : forall c, c ∈ rm_resumed_review_checkpoints m ->
    rm_resume_source_run_id m = Some (ro_source_run_id (rc_resume_origin c)) /\
    rm_resume_source_run_key_name m = Some (ro_source_run_key_name (rc_resume_origin c));
  mc_identity : Forall (fun s => not_blank s = true) [rm_workflow_identity m; rm_workflow_name m; rm_run_id m; rm_run_key_name m];
  mc_signatures : is_sha256 (rm_workflow_signature m) = true /\ is_sha256 (rm_effective_runtime_config_signature m) = true
}.

Lemma is_some_spec {A} (o : option A) : is_some o = true <-> is_Some o.
Proof. destruct o; simpl; split; intros H; [by eexists|done|done|by destruct H]. Qed.

Lemma reasons_consistent m : validate_terminal_reasons m = Ok tt ->
  (rm_status m = RunFailed <-> is_Some (rm_failure_message m)) /\ (rm_status m = RunCancelled <-> is_Some (rm_cancel_reason m)).
Proof.
  unfold validate_terminal_reasons, require. rewrite <- !is_some_spec.
  destruct (rm_status m), (rm_failure_message m), (rm_cancel_reason m); simpl; naive_solver.
Qed.

Lemma completion_consistent m : validate_completion_status m = Ok tt -> rm_status m = RunRunning <-> rm_completed_at m = None.
Proof. unfold validate_completion_status, require. destruct (rm_status m), (rm_completed_at m); simpl; naive_solver. Qed.

Lemma checked_all {A} (check : A -> outcome unit) l : for_each (fun _ x => check x) l tt = Ok tt -> forall x, x ∈ l -> check x = Ok tt.
Proof.
  induction l as [|y l IH]; simpl; [by intros _ x ?%elem_of_nil|]. intros ([] & Hy & Hl)%bind_Ok x [->|Hx]%elem_of_cons; auto.
Qed.

Lemma provenance_consistent m : validate_resume_provenance m = Ok tt ->
  ((rm_resumed_nodes m <> [] \/ rm_resumed_review_checkpoints m <> []) <-> is_Some (rm_resume_source_run_id m)) /\
  (is_Some (rm_resume_source_run_id m) <-> is_Some (rm_resume_source_run_key_name m)) /\
  NoDup (rm_resumed_nodes m ++ map rc_node_id (rm_resumed_review_checkpoints m)) /\
  (forall c, c ∈ rm_resumed_review_checkpoints m ->
    rm_resume_source_run_id m = Some (ro_source_run_id (rc_resume_origin c)) /\
    rm_resume_source_run_key_name m = Some (ro_source_run_key_name (rc_resume_origin c))).
Proof.
  unfold validate_resume_provenance. cbv zeta. intros H. inv_ok.
  repeat match goal with H : require ?b _ = Ok ?u |- _ => destruct u; apply require_Ok in H end.
  match goal with H : eqb (is_some _) (is_some _) = true |- _ => apply eqb_prop in H as Hkeys end.
  match goal with H : eqb (negb _) (is_some _) = true |- _ => apply eqb_prop in H as Hhyd end.
  repeat match goal with H : bool_decide _ = true |- _ => apply bool_decide_eq_true in H end.
  match goal with H : bool_decide _ && _ = true |- _ => apply andb_true_iff in H as [Hids%bool_decide_eq_true Hapart] end.
  split_and!.
  - rewrite <- is_some_spec, <- Hhyd, negb_true_iff, andb_false_iff, bool_decide_eq_false.
    destruct (rm_resumed_review_checkpoints m); naive_solver.
  - by rewrite <- !is_some_spec, Hkeys.
  - apply NoDup_app. split_and!; [done| |done]. intros n Hn Hc. rewrite forallb_forall in Hapart. apply list_elem_of_In in Hc.
    specialize (Hapart n Hc). apply negb_true_iff, not_true_iff_false in Hapart. by rewrite str_in_true in Hapart.
  - intros c Hc. match goal with H : for_each _ _ _ = Ok _ |- _ => pose proof (checked_all _ _ H c Hc) as Hone end.
    apply require_Ok, andb_true_iff in Hone as [H1%bool_decide_eq_true H2%bool_decide_eq_true]. done.
Qed.

Lemma validated_consistent m : validate_run_manifest m = Ok tt -> manifest_consistent m.
Proof.
  unfold validate_run_manifest, validate_consistency. intros H. inv_ok. repeat match goal with u : () |- _ => destruct u end.
  repeat match goal with H : require ?b _ = Ok ?u |- _ => destruct u; apply require_Ok in H end.
  match goal with H : validate_completion_status _ = Ok _ |- _ => rename H into Hcomplete end.
  match goal with H : validate_terminal_reasons _ = Ok _ |- _ => rename H into Hreasons end.
  match goal with H : validate_resume_provenance _ = Ok _ |- _ => rename H into Hprov end.
  destruct (reasons_consistent m Hreasons) as [Hf Hc]. destruct (provenance_consistent m Hprov) as (H1 & H2 & H3 & H4).
  match goal with H : not_blank_or_none (rm_failure_message m) && _ = true |- _ => apply andb_true_iff in H as [Hbf Hbc] end.
  match goal with H : is_sha256 _ && is_sha256 _ = true |- _ => apply andb_true_iff in H as Hsha end.
  match goal with H : forallb not_blank [rm_workflow_identity m; _; _; _; _; _; _; _] = true |- _ => rename H into Hblank end.
  constructor; try done.
  - by apply completion_consistent.
  - intros r [Hr|Hr]; [by rewrite Hr in Hbf | by rewrite Hr in Hbc].
  - cbn [forallb] in Hblank. rewrite !andb_true_iff in Hblank. destruct_and!. by repeat constructor.
Qed.

Definition consistent_store (d : Store) : Prop :=
  match rd_file d with None => True | Some (Holds m) => manifest_consistent m | Some Malformed => False end.

(** A computation that leaves a consistent manifest, however it ends. *)
Definition keeps_consistent {A} (m : M Store A) : Prop := forall d, consistent_store d -> consistent_store (snd (m d)).

Lemma keeps_pure {A} (m : M Store A) : (forall d, rd_file (snd (m d)) = rd_file d) -> keeps_consistent m.
Proof. intros H d Hd. unfold consistent_store. by rewrite H. Qed.

Lemma keeps_bind {A B} (m : M Store A) (k : A -> M Store B) :
  keeps_consistent m -> (forall a, keeps_consistent (k a)) -> keeps_consistent (m ≫= k).
Proof.
  intros Hm Hk d Hd. unfold mbind, M_bind, bind. specialize (Hm d Hd). destruct (m d) as [[a|e|] d']; [by apply Hk|done|done].
Qed.

Lemma keeps_write m : validate_run_manifest m = Ok tt -> keeps_consistent (write_run_manifest m).
Proof. intros Hm d Hd. unfold write_run_manifest. destruct (default Written _); cbn; [by apply validated_consistent|done|by apply validated_consistent]. Qed.

Lemma keeps_checked m (k : M Store unit) :
  (validate_run_manifest m = Ok tt -> keeps_consistent k) -> keeps_consistent (lift (validate_run_manifest m) ;; k).
Proof. intros Hk d Hd. unfold mbind, M_bind, bind, lift. destruct (validate_run_manifest m) as [[]|e|]; [by apply Hk|done|done]. Qed.

Lemma keeps_contained : keeps_consistent contained_manifest.
Proof. apply keeps_pure. intros d. unfold contained_manifest. by destruct (default Readable _). Qed.

Lemma keeps_if {A} (c : bool) (m1 m2 : M Store A) : keeps_consistent m1 -> keeps_consistent m2 -> keeps_consistent (if c then m1 else m2).
Proof. by destruct c. Qed.

Ltac keeps :=
  repeat first [ apply keeps_checked; intros ? | by apply keeps_write | apply keeps_contained | apply keeps_if | apply keeps_bind; [|intros ?]
               | by apply keeps_pure
               | match goal with |- keeps_consistent (match ?x with _ => _ end) => destruct x end ].

Lemma run_op_consistent op : keeps_consistent (run_op op).
Proof.
  destruct op; unfold run_op, update_run_manifest_status, record_hydrated_resume_node, record_checkpoint_provenance,
    finalize_stale_running_run, write_stale_terminal_manifest, read_run_manifest, write_updated_run_manifest; keeps.
Qed.

(** ** What recovery decides *)

Lemma is_some_true {A} (o : option A) : is_some o = true <-> o <> None.
Proof. destruct o; simpl; naive_solver. Qed.

(** The status fields of a valid manifest may be replaced by consistent ones. *)
Lemma copy_status_valid status now fm cr m :
  validate_run_manifest m = Ok tt -> fromisoformat_accepts now = true ->
  not_blank_or_none fm = true -> not_blank_or_none cr = true -> status <> RunRunning ->
  (status = RunFailed <-> is_some fm = true) -> (status = RunCancelled <-> is_some cr = true) ->
  validate_run_manifest (copy_status status (Some now) fm cr m) = Ok tt.
Proof.
  unfold validate_run_manifest. intros H Hnow Hfm Hcr Hrun Hf Hc. inv_ok.
  cbn [copy_status rm_run_state_schema_version rm_plan_schema_version rm_workflow_identity rm_workflow_name
       rm_workflow_signature rm_run_id rm_run_key_name rm_started_at rm_completed_at
       rm_effective_runtime_config_signature rm_preflight_plan_path rm_preflight_manifest_path
       rm_runtime_config_snapshot_path rm_workflow_source rm_resumed_nodes rm_resumed_review_checkpoints
       rm_resume_source_run_id rm_resume_source_run_key_name rm_failure_message rm_cancel_reason].
  rewrite Hok, Hok0, Hok1, Hfm, Hcr, Hok3, Hok4, Hok5, Hok6, Hok7. cbn [andb require mbind outcome_bind].
  unfold validate_iso_datetime. rewrite Hnow. cbn [mbind outcome_bind]. unfold validate_consistency in *. inv_ok.
  replace (validate_completion_status _) with (Ok tt : outcome unit).
  2: { unfold validate_completion_status. simpl. by rewrite bool_decide_eq_false_2. }
  replace (validate_terminal_reasons _) with (Ok tt : outcome unit); [simpl; exact H|].
  unfold validate_terminal_reasons. simpl. destruct status, fm, cr; simpl in *; naive_solver.
Qed.

Lemma stale_outcome_terminal views m recovery status reason :
  stale_terminal_outcome views m recovery = Ok (status, reason) ->
  (forall i, recovery = Some i -> validate_recovery_intent i = Ok tt) ->
  status <> RunRunning /\ not_blank_or_none reason = true /\ (status = RunSucceeded <-> reason = None).
Proof.
  intros Ho Hi. unfold stale_terminal_outcome in Ho. destruct recovery as [i|]; [|by injection Ho as <- <-; split_and!].
  inv_ok. destruct a; [by injection Ho as <- <-; split_and!|]. injection Ho as <- <-.
  specialize (Hi i eq_refl). unfold validate_recovery_intent in Hi. inv_ok.
  unfold fields, require in *. destruct (ti_status i), (ti_reason i); simpl in *; split_and!; try done;
    by destruct (not_blank _).
Qed.

(** A success that recovery records is the outcome the run had selected, after
    its views were published. *)
Lemma stale_outcome_success views m recovery reason :
  stale_terminal_outcome views m recovery = Ok (RunSucceeded, reason) ->
  exists i, recovery = Some i /\ ti_status i = RunSucceeded /\
    (ti_phase i <> outcome_selected \/ terminal_views_match views m i = Ok true).
Proof.
  intros Ho. unfold stale_terminal_outcome in Ho. destruct recovery as [i|]; [|done]. inv_ok. destruct a; [done|].
  injection Ho as Hs Hr. exists i. split_and!; [done | done|]. unfold needs_stale_terminal_default in Hok.
  destruct (bool_decide_reflect (ti_phase i = outcome_selected)) as [?|?]; [|by left]. simpl in Hok. inv_ok. right.
  rewrite Hok0. f_equal. by destruct a.
Qed.

Lemma stale_updates_valid status reason now m :
  validate_run_manifest m = Ok tt -> fromisoformat_accepts now = true -> status <> RunRunning ->
  not_blank_or_none reason = true -> (status = RunSucceeded <-> reason = None) ->
  validate_run_manifest (stale_manifest_updates status reason now m) = Ok tt.
Proof.
  intros Hm Hnow Hs Hr Hsr. unfold stale_manifest_updates. destruct status, reason as [r|]; try (exfalso; naive_solver);
    (apply copy_status_valid; simpl; try done; naive_solver).
Qed.

Definition same_run (m m' : RunManifest) : Prop :=
  rm_run_id m' = rm_run_id m /\ rm_run_key_name m' = rm_run_key_name m /\
  rm_workflow_identity m' = rm_workflow_identity m /\ rm_workflow_signature m' = rm_workflow_signature m.

(** The path is safe and there is a file. *)
Definition safe_path (run_key_name : string) (view : PathView) : Prop := safe_owner_manifest_path run_key_name view = Ok true.

(** The recovery of a manifest, case by case. *)
Lemma finalize_stale_eq metadata inputs m k d :
  validate_run_manifest m = Ok tt -> validate_owner_manifest_match metadata m = Ok tt -> rd_file d = Some (Holds m) ->
  lm_run_key_name metadata = Some k ->
  finalize_stale_running_run metadata inputs d =
  match safe_owner_manifest_path k (ri_first inputs), ri_read inputs with
  | Raise e, _ => (Raise e, d)
  | OutOfFuel, _ => (OutOfFuel, d)
  | Ok false, _ => (Ok tt, d)
  | Ok true, ReadDenied => (denied, d)
  | Ok true, ReadFailed => (Raise (LockManifestError "Stale run manifest is malformed or unreadable."), d)
  | Ok true, ReadText =>
      if bool_decide (rm_status m = RunRunning) then
        match stale_terminal_outcome (ri_views inputs) m (lm_terminal_recovery metadata) with
        | Ok (status, reason) => write_stale_terminal_manifest k inputs m status reason d
        | Raise e => (Raise e, d)
        | OutOfFuel => (OutOfFuel, d)
        end
      else (Ok tt, d)
  end.
Proof.
  intros Hm Ho Hd Hk. unfold finalize_stale_running_run.
  assert (exists i, lm_run_id metadata = Some i) as (i & ->).
  { unfold validate_owner_manifest_match in Ho. destruct (lm_run_id metadata); eauto; by rewrite bool_decide_eq_false_2 in Ho. }
  rewrite Hk. unfold mbind, M_bind, bind, read, lift, read_owner_manifest.
  destruct (safe_owner_manifest_path k (ri_first inputs)) as [[]|e|]; [|done..]. cbn [negb]. rewrite Hd.
  destruct (ri_read inputs); [|done..]. unfold model_validate_json. rewrite Hm. cbn [mbind outcome_bind]. rewrite Ho.
  destruct (bool_decide _); simpl; [|done].
  by destruct (stale_terminal_outcome (ri_views inputs) m (lm_terminal_recovery metadata)) as [[status reason]|e|].
Qed.

(** What a run may be recovered as. *)
Record recovered_as (metadata : LockRunMetadata) (views : TerminalViews) (m m' : RunManifest) : Prop := {
  ra_running : rm_status m = RunRunning;
  ra_consistent : manifest_consistent m';
  ra_ended : rm_status m' <> RunRunning;
  ra_run : same_run m m';
  ra_success : rm_status m' = RunSucceeded ->
    exists i, lm_terminal_recovery metadata = Some i /\ ti_status i = RunSucceeded /\
      (ti_phase i <> outcome_selected \/ terminal_views_match views m i = Ok true)
}.

Lemma stale_write_cases metadata inputs m k status reason d :
  validate_run_manifest m = Ok tt -> (forall i, lm_terminal_recovery metadata = Some i -> validate_recovery_intent i = Ok tt) ->
  fromisoformat_accepts (ri_now inputs) = true -> rm_status m = RunRunning ->
  stale_terminal_outcome (ri_views inputs) m (lm_terminal_recovery metadata) = Ok (status, reason) ->
  let '(r, d') := write_stale_terminal_manifest k inputs m status reason d in
  (rd_file d' = rd_file d \/ exists m', rd_file d' = Some (Holds m') /\ recovered_as metadata (ri_views inputs) m m') /\
  (r = Ok tt -> safe_owner_manifest_path k (ri_second inputs) = Ok false \/
     exists m', rd_file d' = Some (Holds m') /\ recovered_as metadata (ri_views inputs) m m') /\
  (safe_path k (ri_second inputs) -> rd_writes d = [] -> r = Ok tt).
Proof.
  intros Hm Hi Hnow Hr Ho. destruct (stale_outcome_terminal _ _ _ _ _ Ho Hi) as (Hs & Hb & Hsr).
  pose proof (stale_updates_valid status reason (ri_now inputs) m Hm Hnow Hs Hb Hsr) as Hv.
  unfold write_stale_terminal_manifest, mbind, M_bind, bind, lift. rewrite Hv.
  assert (Hra : recovered_as metadata (ri_views inputs) m (stale_manifest_updates status reason (ri_now inputs) m)).
  { constructor; [done|by apply validated_consistent|done|done|]. cbn. intros ->. by eapply stale_outcome_success. }
  unfold safe_path. destruct (safe_owner_manifest_path k (ri_second inputs)) as [[]|e|]; cbn [negb]; [|split_and!; by auto..].
  unfold write_run_manifest. destruct (default Written (head (rd_writes d))) eqn:Hw; cbn [rd_file]; split_and!; eauto; try done;
    intros _ Hn; by rewrite Hn in Hw.
Qed.



End Manifests.

(** ** A run whose owner stopped after publishing its success *)

Module ManifestExample.

#[export] Instance clock : ClockLibrary := {| fromisoformat_accepts s := str_startswith "2026-" s |}.
#[export] Instance jsons : JsonLibrary := {| json_loads line :=
  if bool_decide (line = "{finished}")
  then JsonValue (JObj [("event_type", JStr "workflow_finished"); ("workflow_name", JStr "demo"); ("run_id", JStr "r1");
                        ("timestamp", JStr "2026-01-02")])
  else JsonUndecodable |}.

Definition digest : string := str_join "" (repeat "0123456789abcdef" 4).
Definition running : RunManifest :=
  mkManifest 1 "1.0" "demo.md" "demo" digest "r1" "demo--r1" "2026-01-01" None RunRunning digest "preflight/plan.json"
    "preflight/manifest.json" "preflight/config.json" [] "# demo" [] [] None [] [] None None None None.
Definition lock : LockRunMetadata :=
  mkLockMetadata (Some "r1") (Some "demo--r1") "demo.md" digest (Some (mkIntent outcome_selected RunSucceeded None)).
Definition views : TerminalViews :=
  Some ("{finished}", str_join lf_str ["# Run Summary"; ""; "- Workflow: demo"; "- Run ID: r1"; "- Status: succeeded"]).

Definition safe : PathView := mkPathView (Seen true) (Seen false) (Seen false) (Seen true) (Seen (RegularFile true)).
Definition linked : PathView := mkPathView (Seen true) (Seen false) (Seen true) (Seen true) (Seen (RegularFile true)).
Definition inputs : RecoveryInputs := mkRecovery safe ReadText views safe "2026-01-03".

Definition disk (writes : list WriteResult) : ManifestDisk := mkDisk (Some (Holds running)) [] writes.

Definition history : list ManifestOp :=
  [OpWrite running; OpResumedNode "spec" "r0" "demo--r0"; OpStatus RunFailed "2026-01-02" None None; OpStaleLock lock inputs].

Definition status_of (d : ManifestDisk) : option RunStatus :=
  match rd_file d with Some (Holds m) => Some (rm_status m) | _ => None end.



End ManifestExample.
