(* ===== verification/ResumeStates.v ===== *)
(** Which completed nodes of an earlier run may be reused: the node states of
    artifacts/resume/validation.py.

    The files of the earlier run are the class [ResumeSource]: the decoded node
    states and the bytes of its result files.  The checks of a node's managed
    workspace belong to the workspace component and are functions of it. *)

From Stdlib Require Import ZArith Lia Ascii String.
From stdpp Require Import base gmap sets list strings relations.
From S2P Require Import Prelude PyStr Models Scheduler SchedulerInv PlanRecords Artifacts PlanContract PlanContractSpec RunState.

Open Scope string_scope.
Open Scope list_scope.
Open Scope Z_scope.

(** The record of an earlier run, without its paths.
    Code: artifacts/run_history.py, RunHistoryRecord. *)
Record RunHistoryRecord := mkHistory { hr_manifest : RunManifest }.

Class ResumeSource := {
  (* the decoded JSON of a node state file *)
  stored_node_state : string -> option NodeState;
  (* the contained regular files below the results directory *)
  result_bytes : string -> option string;
  workspace_node_state_is_valid : PreflightExecutionNode -> bool;
  build_node_workspace_descriptor : PreflightExecutionNode -> outcome json
}.

Section ResumeStates.
Context {clock : ClockLibrary} {hash : HashLibrary}.

(** ** Names (artifacts/naming.py, artifacts/generated_files/paths.py) *)

Definition result_dir_char (c : ascii) : bool :=
  is_lower c || is_upper c || is_digit c || is_char c "." || is_char c "_" || is_char c "-".

(** Code: artifacts/naming.py, build_generated_file_result_dir_name. *)
Definition build_generated_file_result_dir_name (name : string) : string :=
  let dot_or_dash c := is_char c "." || is_char c "-" in
  let safe_name := of_chars (rstrip_text (fun c => is_char c "-")
                     (drop_while dot_or_dash (dash_runs result_dir_char false (chars name)))) in
  if negb (nonempty safe_name) then "stage"
  else
    let safe_name := windows_safe_generated_name safe_name name in
    if str_len safe_name <=? 120 then safe_name
    else
      let suffix := "-" +:+ str_take 12 (sha256 name) in
      let prefix := of_chars (rstrip_text dot_or_dash (chars (str_take (120 - str_len suffix) safe_name))) in
      (if nonempty prefix then prefix else "stage") +:+ suffix.

(** Code: artifacts/generated_files/paths.py, generated_file_path_belongs_to_node. *)
Definition generated_file_path_belongs_to_node (relative_path node_id : string) : bool :=
  let parts := str_split_on "/" relative_path in
  (4 <=? Z.of_nat (length parts))
  && bool_decide (take 2 parts = ["generated-files"; build_generated_file_result_dir_name node_id])
  && is_safe_relative_path relative_path.

(** ** Dependencies *)

Definition add_dependency (deps : dict (gset string)) (e : CompiledEdge) : dict (gset string) :=
  match dget deps (de_target_node e) with
  | Some sources => dset deps (de_target_node e) ({[de_source_node e]} ∪ sources)
  | None => deps
  end.

(** Code: artifacts/resume/validation.py, _dependencies_by_node. *)
Definition plan_dependencies_by_node (plan : PreflightExecutionPlan) : dict (gset string) :=
  foldl add_dependency (dict_of (map (fun n => (en_id n, ∅)) (pp_nodes plan))) (pp_dependency_graph plan).

Definition add_dependent (node_id : string) (dependents : dict (gset string)) (dependency : string) : dict (gset string) :=
  dset dependents dependency ({[node_id]} ∪ default ∅ (dget dependents dependency)).

(** Code: artifacts/resume/validation.py, _dependents_by_node. *)
Definition dependents_by_node (dependencies : dict (gset string)) : dict (gset string) :=
  foldl (fun dependents '(node_id, sources) => foldl (add_dependent node_id) dependents (elements sources))
    (map (fun '(node_id, _) => (node_id, ∅)) dependencies) dependencies.

(** [stack] has its top first.
    Code: artifacts/resume/validation.py:401-408. *)
Fixpoint descendants_loop (fuel : nat) (dependents : dict (gset string)) (descendants : gset string) (stack : list string)
    : outcome (gset string) :=
  match fuel with
  | O => OutOfFuel
  | S fuel =>
      match stack with
      | [] => Ok descendants
      | node_id :: stack =>
          let fresh := elements (default ∅ (dget dependents node_id) ∖ descendants) in
          descendants_loop fuel dependents (descendants ∪ list_to_set fresh) (reverse fresh ++ stack)
      end
  end.

Definition all_dependents (dependents : dict (gset string)) : gset string := ⋃ (map snd dependents).

(** Code: artifacts/resume/validation.py, _descendants. *)
Definition descendants (node_ids : gset string) (dependents : dict (gset string)) : outcome (gset string) :=
  descendants_loop (S (size node_ids + size (all_dependents dependents))) dependents ∅ (elements node_ids).

(** ** Closure *)

Section Closure.
Context {V : Type}.

(** One node of a pass; a removal shows at once.
    Code: artifacts/resume/validation.py:421-428. *)
Definition close_node (dependencies : dict (gset string)) (node_ids : list string) (acc : dict V * bool) (node_id : string)
    : outcome (dict V * bool) :=
  let '(closed, changed) := acc in
  if negb (bool_decide (node_id ∈ node_ids)) then Ok (ddel closed node_id, true)
  else
    sources ← ditem dependencies node_id;
    if bool_decide (sources ⊆ list_to_set (dkeys closed)) then Ok (closed, changed)
    else Ok (ddel closed node_id, true).

(** Passes until nothing changes.
    Code: artifacts/resume/validation.py:416-420. *)
Fixpoint close_loop (fuel : nat) (dependencies : dict (gset string)) (node_ids : list string) (closed : dict V) : outcome (dict V) :=
  match fuel with
  | O => OutOfFuel
  | S fuel =>
      '(closed, changed) ← for_each (close_node dependencies node_ids) (dkeys closed) (closed, false);
      if changed : bool then close_loop fuel dependencies node_ids closed else Ok closed
  end.

(** [node_ids] are the keys of [nodes_by_id].  Sorting by position is
    [sorted_by_order] on their enumeration.
    Code: artifacts/resume/validation.py, _dependency_closed_states. *)
Definition dependency_closed_states (states : dict V) (dependencies : dict (gset string)) (node_ids : list string) : outcome (dict V) :=
  closed ← close_loop (S (length states)) dependencies node_ids states;
  ordered ← sorted_by_order (enumerate_order node_ids) (dkeys closed);
  mapM (fun id => v ← ditem closed id; Ok (id, v)) ordered.

End Closure.

(** ** Node states *)

Section Selection.
Context {source : ResumeSource}.
Variable record : RunHistoryRecord.

(** Code: artifacts/resume/validation.py, _read_node_state. *)
Definition read_node_state (node_id : string) : option NodeState :=
  match stored_node_state node_id with
  | None => None
  | Some state => match validate_node_state state with Ok _ => Some state | _ => None end
  end.

(** The plan's schema version is the supported one.
    Code: artifacts/resume/validation.py, _node_state_matches_context. *)
Definition node_state_matches_context (plan : PreflightExecutionPlan) (node_id : string) (state : NodeState) : bool :=
  bool_decide (ns_workflow_identity state = rm_workflow_identity (hr_manifest record))
  && bool_decide (ns_workflow_name state = pp_workflow_name plan)
  && bool_decide (ns_workflow_signature state = pp_workflow_signature plan)
  && bool_decide (ns_run_id state = rm_run_id (hr_manifest record))
  && bool_decide (ns_run_key_name state = rm_run_key_name (hr_manifest record))
  && bool_decide (ns_node_id state = node_id)
  && bool_decide (ns_plan_schema_version state = SCHEMA_VERSION).

(** Code: core/workflow/keywords.py:32-34. *)
Definition FINDINGS_KEYS : list string := ["findings"; "findings_path"; "findings_size"; "findings_sha256"].

(** Code: artifacts/resume/validation.py, required_resume_artifact_paths. *)
Definition required_resume_artifact_paths (plan : PreflightExecutionPlan) (node : PreflightExecutionNode)
    : list (ArtifactKind * string) :=
  let required := [(KindOutput, ac_output_path (en_artifact_contract node))] in
  let findings_required :=
    en_findings node || existsb (fun e => bool_decide (de_source_node e = en_id node)
                                          && match de_artifact_name e with Some a => str_in a FINDINGS_KEYS | None => false end)
                          (pp_dependency_graph plan) in
  if findings_required then
    match ac_findings_path (en_artifact_contract node) with
    | None => []
    | Some findings_path => required ++ [(KindFindings, findings_path)]
    end
  else required.

(** Code: artifacts/resume/validation.py, _descriptor_matches_file. *)
Definition descriptor_matches_file (descriptor : option ArtifactDescriptor) (expected_relative_path : string) : bool :=
  match descriptor with
  | None => false
  | Some d =>
      bool_decide (ad_relative_path d = expected_relative_path)
      && match result_bytes (ad_relative_path d) with
         | None => false
         | Some bytes => (str_len bytes =? ad_size_bytes d) && bool_decide (sha256 bytes = ad_sha256 d)
         end
  end.

(** The last descriptor of a kind.
    Code: artifacts/resume/validation.py, _artifact_descriptors. *)
Definition artifact_descriptor (state : NodeState) (kind : ArtifactKind) : option ArtifactDescriptor :=
  last (List.filter (fun d => bool_decide (ad_kind d = kind)) (ns_artifacts state)).

(** Code: artifacts/resume/validation.py, _generated_file_descriptors_match. *)
Definition generated_file_descriptors_match (descriptors : list ArtifactDescriptor) (node_id : string) : bool :=
  forallb (fun d => is_generated d && generated_file_path_belongs_to_node (ad_relative_path d) node_id
                    && descriptor_matches_file (Some d) (ad_relative_path d)) descriptors.

(** Code: artifacts/resume/validation.py, _json_string. *)
Definition json_string (v : json) : json := match v with JStr s => JStr s | _ => JNull end.

(** Code: artifacts/resume/validation.py, _workspace_state_artifact_resume_descriptor. *)
Definition workspace_state_artifact_resume_descriptor (artifact : dict json) : json :=
  JObj [("relative_path", json_string (default JNull (dget artifact "relative_path")));
        ("sha256", json_string (default JNull (dget artifact "resume_sha256")));
        ("size_bytes", match dget artifact "resume_size_bytes" with Some (JInt z) => JInt z | _ => JNull end)].

(** Code: artifacts/resume/validation.py, _workspace_resume_descriptor.._workspace_resume_mapping. *)
Fixpoint workspace_resume_descriptor (workspace : json) : json :=
  match workspace with
  | JObj fields =>
      JObj (omap (fun '(key, value) =>
                    if bool_decide (key = "branch_export") then None
                    else if bool_decide (key = "workspace_state_artifact") then
                      match value with
                      | JObj artifact => Some (key, workspace_state_artifact_resume_descriptor artifact)
                      | _ => Some (key, workspace_resume_descriptor value)
                      end
                    else Some (key, workspace_resume_descriptor value)) fields)
  | JList l => JList (map workspace_resume_descriptor l)
  | _ => workspace
  end.

(** JSON objects are compared without their order.
    Code: artifacts/resume/validation.py, _workspace_manifest_descriptor_matches. *)
Definition workspace_manifest_descriptor_matches (node : PreflightExecutionNode) (state : NodeState) : bool :=
  if negb (match en_workspace_policy node with Some p => wp_enabled p | None => false end)
  then negb (is_some (ns_workspace state))
  else
    match ns_workspace state, ac_stage_path (en_artifact_contract node) with
    | Some workspace, Some _ =>
        match build_node_workspace_descriptor node with
        | Ok expected => bool_decide (canonical_json (workspace_resume_descriptor workspace)
                                      = canonical_json (workspace_resume_descriptor expected))
        | _ => false
        end
    | _, _ => false
    end.

(** Code: artifacts/resume/validation.py, _node_state_is_valid. *)
Definition node_state_is_valid (plan : PreflightExecutionPlan) (node : PreflightExecutionNode) (state : NodeState) : bool :=
  if negb (bool_decide (ns_expansion state = en_expansion node))
     || bool_decide (en_mode node = Foreach) && negb (is_some (en_expansion node)) then false
  else if negb (node_state_matches_context plan (en_id node) state) then false
  else
    match required_resume_artifact_paths plan node with
    | [] => false
    | required =>
        forallb (fun '(kind, expected) => descriptor_matches_file (artifact_descriptor state kind) expected) required
        && generated_file_descriptors_match (ns_generated_files state) (en_id node)
        && workspace_node_state_is_valid node
        && workspace_manifest_descriptor_matches node state
    end.

Definition scan_node (plan : PreflightExecutionPlan) (acc : dict NodeState * gset string) (node : PreflightExecutionNode)
    : dict NodeState * gset string :=
  let '(valid_states, invalid_nodes) := acc in
  match read_node_state (en_id node) with
  | None => acc
  | Some state =>
      if node_state_is_valid plan node state then (dset valid_states (en_id node) state, invalid_nodes)
      else (valid_states, {[en_id node]} ∪ invalid_nodes)
  end.

(** The nodes of [nodes_by_id] are the plan's.
    Code: artifacts/resume/validation.py, _select_resume_states. *)
Definition select_resume_states (plan : PreflightExecutionPlan) (dependencies : dict (gset string)) : outcome (dict NodeState) :=
  let dependents := dependents_by_node dependencies in
  let '(valid_states, invalid_nodes) := foldl (scan_node plan) ([], ∅) (pp_nodes plan) in
  below ← descendants invalid_nodes dependents;
  let valid_states := foldl ddel valid_states (elements (invalid_nodes ∪ below)) in
  dependency_closed_states valid_states dependencies (dkeys (dict_of (map (fun n => (en_id n, n)) (pp_nodes plan)))).

End Selection.

End ResumeStates.
