(* ===== verification/ResumeStatesSpec.v ===== *)
(** The reusable nodes of an earlier run are exactly those whose whole
    dependency cone is valid, and they satisfy what the scheduler asks of the
    nodes it starts from. *)

From Stdlib Require Import ZArith Lia Ascii String.
From stdpp Require Import base gmap sets list strings relations sorting.
From S2P Require Import Prelude PyStr Models Scheduler SchedulerInv SchedulerLoop SchedulerSpec PlanRecords Artifacts.
From S2P Require Import PlanContract PlanContractSpec RunState ResumeStates.

Open Scope string_scope.
Open Scope list_scope.

(** ** Dependencies and dependents *)

(** [d] is a dependency of [n] in a dependency map. *)
Definition dep_of (dependencies : dict (gset string)) (d n : string) : Prop :=
  exists X, dget dependencies n = Some X /\ d ∈ X.

Lemma add_dependency_spec deps e n :
  dget (add_dependency deps e) n =
  (if decide (n = de_target_node e) then fun X => {[de_source_node e]} ∪ X else id) <$> dget deps n.
Proof.
  unfold add_dependency. destruct (dget deps (de_target_node e)) as [X|] eqn:E.
  - rewrite dget_dset. destruct (decide (de_target_node e = n)) as [<-|Hne], (decide _); subst; try done; [by rewrite E|].
    by destruct (dget deps n).
  - destruct (decide _) as [->|?]; [by rewrite E | by destruct (dget deps n)].
Qed.

Lemma dkeys_add_dependency deps e : dkeys (add_dependency deps e) = dkeys deps.
Proof.
  unfold add_dependency. destruct (dget deps (de_target_node e)) eqn:E; [|done]. apply dkeys_dset_in. apply dget_is_Some. by exists g.
Qed.

Lemma dependencies_fold edges : forall deps,
  dkeys (foldl add_dependency deps edges) = dkeys deps /\
  forall d n, dep_of (foldl add_dependency deps edges) d n <->
    dep_of deps d n \/ (n ∈ dkeys deps /\ exists e, e ∈ edges /\ de_source_node e = d /\ de_target_node e = n).
Proof.
  induction edges as [|e edges IH]; intros deps; simpl.
  { split; [done|]. intros d n. split; [by left|]. intros [?|(_ & e & He & _)]; [done | by apply elem_of_nil in He]. }
  destruct (IH (add_dependency deps e)) as [Hk Hd]. split; [by rewrite Hk, dkeys_add_dependency|]. intros d n.
  rewrite Hd, dkeys_add_dependency. unfold dep_of. rewrite add_dependency_spec. split.
  - intros [(X & HX & Hin)|(Hn & e' & He' & ? & ?)]; [|right; split; [done|]; exists e'; split_and!; [by right|done..]].
    apply fmap_Some in HX as (Y & HY & ->). destruct (decide (n = de_target_node e)) as [->|?]; [|left; eauto].
    apply elem_of_union in Hin as [->%elem_of_singleton|?]; [|left; eauto]. right. split; [apply dget_is_Some; by exists Y|].
    exists e. split_and!; [by left|done..].
  - intros [(X & HX & Hin)|(Hn & e' & He' & Hs & Ht)].
    + left. rewrite HX. simpl. eexists. split; [done|]. case_decide; [set_solver | done].
    + apply elem_of_cons in He' as [->|He']; [|right; split; [done|]; by exists e'].
      left. apply dget_is_Some in Hn as [X HX]. rewrite HX. simpl. eexists. split; [done|]. rewrite decide_True by done. set_solver.
Qed.

Lemma plan_dependencies_by_node_spec plan : NoDup (map en_id (pp_nodes plan)) ->
  dkeys (plan_dependencies_by_node plan) = map en_id (pp_nodes plan) /\
  forall d n, dep_of (plan_dependencies_by_node plan) d n <->
    n ∈ map en_id (pp_nodes plan) /\ edge_dep (pp_dependency_graph plan) d n.
Proof.
  intros Hnd. unfold plan_dependencies_by_node. set (start := dict_of _).
  assert (start = map (fun n => (en_id n, ∅)) (pp_nodes plan)) as Es.
  { apply dict_of_NoDup. by rewrite map_map. }
  assert (dkeys start = map en_id (pp_nodes plan)) as Ek by (rewrite Es; unfold dkeys; by rewrite map_map).
  destruct (dependencies_fold (pp_dependency_graph plan) start) as [Hk Hd]. rewrite Hk, Ek. split; [done|]. intros d n.
  rewrite Hd, Ek. split; [|intros [? ?]; by right]. intros [(X & HX & Hin)|?]; [|done].
  apply dget_elem_of in HX. rewrite Es in HX. apply list_elem_of_fmap in HX as (node & [= _ ->] & _).
  by apply elem_of_empty in Hin.
Qed.

(** The dependents that a dependency map yields. *)
Lemma dependents_inner n l : forall D d x,
  x ∈ default ∅ (dget (foldl (add_dependent n) D l) d) -> x ∈ default ∅ (dget D d) \/ (x = n /\ d ∈ l).
Proof.
  induction l as [|y l IH]; intros D d x; simpl; [by left|]. intros [Hx|[-> Hd]]%IH; [|right; split; [done | by right]].
  unfold add_dependent in Hx. rewrite dget_dset in Hx. destruct (decide (y = d)) as [->|?]; simpl in Hx; [|by left].
  apply elem_of_union in Hx as [->%elem_of_singleton|?]; [right; split; [done | by left] | by left].
Qed.

Lemma dependents_by_node_sound deps d x : NoDup (dkeys deps) ->
  x ∈ default ∅ (dget (dependents_by_node deps) d) -> dep_of deps d x.
Proof.
  intros Hnd. unfold dependents_by_node. set (start := map _ deps).
  assert (forall l D, (forall n X, (n, X) ∈ l -> (n, X) ∈ deps) ->
    (forall d x, x ∈ default ∅ (dget D d) -> dep_of deps d x) ->
    forall d x, x ∈ default ∅ (dget (foldl (fun dependents '(n, X) => foldl (add_dependent n) dependents (elements X)) D l) d) -> dep_of deps d x) as H.
  { induction l as [|[n X] l IH]; intros D Hl HD; simpl; [done|]. apply IH; [intros; apply Hl; by right|].
    intros d' x' [?|[-> Hd]]%dependents_inner; [by apply HD|]. exists X. split; [|by apply elem_of_elements].
    apply elem_of_dget; [done|]. apply Hl. by left. }
  apply H; [done|]. intros d' x'. destruct (dget start d') as [X|] eqn:E; simpl; [|by intros ?%elem_of_empty].
  apply dget_elem_of in E. apply list_elem_of_fmap in E as ([n Y] & [= _ ->] & _). by intros ?%elem_of_empty.
Qed.

(** ** Descendants *)

Lemma in_all_dependents D n x : x ∈ default ∅ (dget D n) -> x ∈ all_dependents D.
Proof.
  destruct (dget D n) as [X|] eqn:E; simpl; [|by intros ?%elem_of_empty]. intros Hx. apply dget_elem_of in E.
  apply elem_of_union_list. exists X. split; [|done]. apply list_elem_of_fmap. by exists (n, X).
Qed.

Lemma descendants_loop_ok D (R : string -> string -> Prop) (S0 : gset string) :
  (forall n x, x ∈ default ∅ (dget D n) -> R n x) ->
  forall fuel acc stack,
    acc ⊆ all_dependents D ->
    (forall x, x ∈ acc -> exists n, n ∈ S0 /\ tc R n x) -> (forall x, x ∈ stack -> x ∈ S0 \/ exists n, n ∈ S0 /\ tc R n x) ->
    (length stack + size (all_dependents D ∖ acc) < fuel)%nat ->
    exists out, descendants_loop fuel D acc stack = Ok out /\ forall x, x ∈ out -> exists n, n ∈ S0 /\ tc R n x.
Proof.
  intros HR. induction fuel as [|fuel IH]; intros acc stack Hsub Hacc Hst Hf; [lia|]. simpl.
  destruct stack as [|n stack]; [by exists acc|]. set (new := default ∅ (dget D n) ∖ acc).
  assert (forall x, x ∈ new -> exists m, m ∈ S0 /\ tc R m x) as Hnew.
  { intros x [Hx _]%elem_of_difference. apply HR in Hx. destruct (Hst n) as [?|(m & Hm & Hmn)]; [by left|exists n; split; [done | by apply tc_once]|].
    exists m. split; [done|]. by eapply tc_r. }
  assert (new ⊆ all_dependents D ∖ acc) as Hin.
  { intros x [Hx Hn]%elem_of_difference. apply elem_of_difference. split; [by eapply in_all_dependents | done]. }
  rewrite list_to_set_elements_L. apply IH.
  - intros x [?|Hx]%elem_of_union; [by apply Hsub|]. apply Hin in Hx. set_solver.
  - intros x [?|?]%elem_of_union; auto.
  - intros x [Hx|?]%elem_of_app; [|apply Hst; by right]. right. apply Hnew, elem_of_elements. by apply elem_of_reverse.
  - rewrite length_app, length_reverse. replace (all_dependents D ∖ (acc ∪ new)) with ((all_dependents D ∖ acc) ∖ new) by set_solver.
    rewrite size_difference by done. change (length (elements new)) with (size new).
    pose proof (subseteq_size _ _ Hin). simpl in Hf. lia.
Qed.

Lemma descendants_ok D (R : string -> string -> Prop) S0 :
  (forall n x, x ∈ default ∅ (dget D n) -> R n x) ->
  exists out, descendants S0 D = Ok out /\ forall x, x ∈ out -> exists n, n ∈ S0 /\ tc R n x.
Proof.
  intros HR. apply (descendants_loop_ok D R S0 HR); [set_solver | set_solver | |].
  - intros x Hx. left. by apply elem_of_elements.
  - change (length (elements S0)) with (size S0). rewrite difference_empty_L. lia.
Qed.

(** ** Closure under dependencies *)

(** [{id: d[id] for id in l}]. *)
Lemma mapM_restrict {V} (d : dict V) l : (forall x, x ∈ l -> x ∈ dkeys d) ->
  exists out, mapM (fun id => v ← ditem d id; Ok (id, v)) l = Ok out /\ dkeys out = l /\
    forall n v, dget out n = Some v <-> n ∈ l /\ dget d n = Some v.
Proof.
  induction l as [|x l IH]; intros Hl.
  { exists []. split_and!; [done..|]. intros n v. split; [done|]. by intros [?%elem_of_nil _]. }
  destruct (proj2 (dget_is_Some d x)) as [v Hv]; [apply Hl; left|]. destruct IH as (out & Hm & Hk & Hg); [intros; apply Hl; by right|].
  exists ((x, v) :: out). simpl. rewrite (proj2 (ditem_Ok d x v) Hv). simpl. rewrite Hm. split; [done|]. split; [simpl; by rewrite Hk|].
  intros n w. simpl. rewrite elem_of_cons. case_decide; [naive_solver|]. rewrite Hg. naive_solver.
Qed.

Section ClosureSpec.
Context {V : Type} (deps : dict (gset string)) (ids : list string) (states : dict V).
Context (Hids : forall n, n ∈ ids -> n ∈ dkeys deps).

(** The whole cone below [n] has a state. *)
Definition cone_ok (n : string) : Prop := forall d, rtc (dep_of deps) d n -> d ∈ dkeys states /\ d ∈ ids.

(** Between two nodes of a pass. *)
Record closing (closed : dict V) : Prop := {
  cl_nodup : NoDup (dkeys closed);
  cl_sub n v : dget closed n = Some v -> dget states n = Some v;
  cl_keeps n : cone_ok n -> n ∈ dkeys closed
}.

(** What a kept node shows. *)
Definition supported (closed : dict V) (n : string) : Prop := n ∈ ids /\ forall d, dep_of deps d n -> d ∈ dkeys closed.

Lemma cone_dep d n : cone_ok n -> dep_of deps d n -> cone_ok d.
Proof. intros Hn Hd d' Hd'. apply Hn. by eapply rtc_r. Qed.

Lemma closing_del closed n : closing closed -> ~ supported closed n -> closing (ddel closed n).
Proof.
  intros [Hnd Hsub Hk] Hn. split; [by apply NoDup_dkeys_ddel| |].
  - intros m v Hm. destruct (decide (n = m)) as [->|?]; [by rewrite dget_ddel_eq in Hm|]. rewrite dget_ddel_ne in Hm by done. by apply Hsub.
  - intros m Hm. apply elem_of_dkeys_ddel; [done|]. split; [by apply Hk|]. intros ->. apply Hn. split; [apply (Hm n); done|].
    intros d Hd. apply Hk. by eapply cone_dep.
Qed.

(** One pass: nothing changes and every node is supported, or the map shrinks. *)
Definition pass_inv (closed0 : dict V) (seen : list string) (acc : dict V * bool) : Prop :=
  let '(closed, changed) := acc in
  closing closed /\ (forall x, x ∈ dkeys closed0 -> x ∉ seen -> x ∈ dkeys closed) /\
  if changed then (length closed < length closed0)%nat
  else closed = closed0 /\ Forall (supported closed0) seen.

Lemma close_node_ok closed0 seen n acc : n ∈ dkeys closed0 -> n ∉ seen -> pass_inv closed0 seen acc ->
  exists acc', close_node deps ids acc n = Ok acc' /\ pass_inv closed0 (seen ++ [n]) acc'.
Proof.
  intros Hn0 Hns. destruct acc as [closed changed]. intros (Hcl & Hrest & Hch).
  assert (n ∈ dkeys closed) as Hn by auto.
  assert (~ supported closed n -> pass_inv closed0 (seen ++ [n]) (ddel closed n, true)) as Hdel.
  { intros Hs. split_and!; [by apply closing_del| |].
    - intros x Hx Hxs. apply elem_of_dkeys_ddel; [apply Hcl|]. split; [apply Hrest; set_solver | set_solver].
    - pose proof (length_ddel closed n Hn). destruct changed; [lia|]. destruct Hch as [<- _]. lia. }
  unfold close_node. destruct (bool_decide_reflect (n ∈ ids)) as [Hi|Hi]; simpl; [|eexists; split; [done|]; apply Hdel; by intros [? _]].
  destruct (proj2 (dget_is_Some deps n) (Hids n Hi)) as [X HX]. rewrite (proj2 (ditem_Ok deps n X) HX). simpl.
  destruct (bool_decide_reflect (X ⊆ list_to_set (dkeys closed))) as [Hs|Hs]; eexists; (split; [done|]).
  - split_and!; [done | set_solver|]. destruct changed; [done|]. destruct Hch as [-> Hall]. split; [done|].
    apply Forall_app. split; [done|]. constructor; [|done]. split; [done|]. intros d (Y & HY & Hd). simplify_eq. set_solver.
  - apply Hdel. intros [_ Hd]. apply Hs. intros d HdX. apply elem_of_list_to_set, Hd. by exists X.
Qed.

Lemma close_pass closed0 : closing closed0 ->
  exists acc, for_each (close_node deps ids) (dkeys closed0) (closed0, false) = Ok acc /\ pass_inv closed0 (dkeys closed0) acc.
Proof.
  intros Hcl. apply (for_each_inv (pass_inv closed0)).
  - by split_and!.
  - intros seen x rest acc Hl Hacc. pose proof (cl_nodup _ Hcl) as Hnd. rewrite Hl in Hnd.
    apply close_node_ok; [rewrite Hl; set_solver | | done].
    intros Hx. apply NoDup_app in Hnd as (_ & Hd & _). by apply (Hd x Hx); left.
Qed.

(** The loop ends with the states whose whole cone has a state. *)
Lemma close_loop_ok fuel : forall closed, closing closed -> (length closed < fuel)%nat ->
  exists out, close_loop fuel deps ids closed = Ok out /\ closing out /\ Forall (supported out) (dkeys out).
Proof.
  induction fuel as [|fuel IH]; intros closed Hcl Hf; [lia|]. simpl.
  destruct (close_pass closed Hcl) as ([closed' changed] & -> & Hcl' & Hrest & Hch). simpl. destruct changed; [apply IH; [done|lia]|].
  destruct Hch as [-> Hs]. by exists closed.
Qed.

Lemma supported_cone out n : (forall m v, dget out m = Some v -> dget states m = Some v) ->
  Forall (supported out) (dkeys out) -> n ∈ dkeys out -> cone_ok n.
Proof.
  intros Hsub Hall Hn d Hd. assert (d ∈ dkeys out) as Hin.
  { revert Hn. induction Hd as [|d m n Hdm Hmn IH]; [done|]. intros Hn. specialize (IH Hn).
    rewrite Forall_forall in Hall. by apply (Hall m IH). }
  rewrite Forall_forall in Hall. split; [|by apply Hall]. apply dget_is_Some. apply dget_is_Some in Hin as [v Hv].
  exists v. by apply Hsub.
Qed.

Lemma dependency_closed_ok : NoDup (dkeys states) -> NoDup ids ->
  exists out, dependency_closed_states states deps ids = Ok out /\ NoDup (dkeys out) /\
    (forall n v, dget out n = Some v <-> dget states n = Some v /\ cone_ok n) /\
    StronglySorted (order_le (enumerate_order ids)) (dkeys out).
Proof.
  intros Hnd Hids'. unfold dependency_closed_states.
  destruct (close_loop_ok (S (length states)) states) as (closed & -> & [Hcn Hsub Hk] & Hall); [|lia|].
  { split; [done | done|]. intros n Hn. by apply (Hn n). }
  simpl. assert (forall n, n ∈ dkeys closed <-> cone_ok n) as Hkey.
  { intros n. split; [by apply supported_cone | apply Hk]. }
  assert (forall x, x ∈ dkeys closed -> x ∈ dkeys (enumerate_order ids)) as Hord.
  { intros x Hx. apply elem_of_dkeys_enumerate. apply Hkey in Hx. by apply (Hx x). }
  destruct (sorted_by_order_ok (enumerate_order ids) (dkeys closed)) as (ordered & -> & Hperm & Hsort); [done|]. simpl.
  destruct (mapM_restrict closed ordered) as (out & -> & Hko & Hg); [intros x; by rewrite Hperm|].
  exists out. rewrite Hko. split_and!; [done | by rewrite Hperm | | done]. intros n v. rewrite Hg, Hperm, Hkey. split.
  - intros [Hc Hv]. split; [by apply Hsub | done].
  - intros [Hv Hc]. split; [done|]. apply Hkey, dget_is_Some in Hc as [w Hw]. rewrite Hw. pose proof (Hsub _ _ Hw). congruence.
Qed.

End ClosureSpec.

(** ** Selection *)

Section SelectionSpec.
Context {clock : ClockLibrary} {hash : HashLibrary} {source : ResumeSource}.
Context (record : RunHistoryRecord) (plan : PreflightExecutionPlan).

(** The node [n] of the plan left the valid state [st] behind. *)
Definition left_valid_state (n : string) (st : NodeState) : Prop :=
  exists node, node ∈ pp_nodes plan /\ en_id node = n /\ read_node_state n = Some st /\
    node_state_is_valid record plan node st = true.

(** The scan of the nodes [l], which follow [seen]. *)
Lemma scan_ok l : forall seen V I,
  seen ++ l = pp_nodes plan -> NoDup (map en_id (pp_nodes plan)) ->
  NoDup (dkeys V) ->
  (forall n st, dget V n = Some st <-> exists node, node ∈ seen /\ en_id node = n /\ read_node_state n = Some st /\
     node_state_is_valid record plan node st = true) ->
  (forall n, n ∈ I -> n ∉ dkeys V /\ n ∈ map en_id seen) ->
  let '(V', I') := foldl (scan_node record plan) (V, I) l in
  NoDup (dkeys V') /\ (forall n st, dget V' n = Some st <-> left_valid_state n st) /\ (forall n, n ∈ I' -> n ∉ dkeys V').
Proof.
  induction l as [|node l IH]; intros seen V I Hl Hnd HV Hvalid HI.
  { rewrite app_nil_r in Hl. subst seen. split_and!; [done | done|]. intros n Hn. by apply HI. }
  assert (en_id node ∉ map en_id seen) as Hfresh.
  { rewrite <- Hl, map_app in Hnd. apply NoDup_app in Hnd as (_ & Hd & _). intros Hin. apply (Hd _ Hin). left. }
  assert (dget V (en_id node) = None) as Hnone.
  { destruct (dget V (en_id node)) as [st|] eqn:E; [|done]. apply Hvalid in E as (m & Hm & Hid & _). destruct Hfresh.
    rewrite <- Hid. apply list_elem_of_fmap. by exists m. }
  assert ((seen ++ [node]) ++ l = pp_nodes plan) as Hl' by by rewrite <- app_assoc.
  assert ((forall st, read_node_state (en_id node) = Some st -> node_state_is_valid record plan node st = false) ->
    forall n st, dget V n = Some st <-> exists m, m ∈ seen ++ [node] /\ en_id m = n /\ read_node_state n = Some st /\
      node_state_is_valid record plan m st = true) as Hskip.
  { intros Hno n st. rewrite Hvalid. split; intros (m & Hm & Hid & Hr & Hv); exists m; (split; [|done]); [set_solver|].
    apply elem_of_snoc in Hm as [?| ->]; [done|]. subst n. rewrite (Hno st Hr) in Hv. done. }
  assert (forall n, n ∈ I -> n ∈ map en_id (seen ++ [node])) as HIn by (intros n Hn; rewrite map_app; set_solver).
  simpl. destruct (read_node_state (en_id node)) as [st|] eqn:Er; [destruct (node_state_is_valid record plan node st) eqn:Ev|].
  - apply (IH _ _ _ Hl' Hnd); [by apply NoDup_dkeys_dset| |].
    + intros n st'. rewrite dget_dset. destruct (decide (en_id node = n)) as [<-|Hne].
      * split; [intros [= <-]; exists node; split_and!; [set_solver|done..]|]. intros (m & Hm & Hid & Hr & _). congruence.
      * rewrite Hvalid. split; intros (m & Hm & Hid & Hr); exists m; (split; [|done]); [set_solver|].
        apply elem_of_snoc in Hm as [?| ->]; done.
    + intros n Hn. destruct (HI n Hn) as [H1 H2]. rewrite elem_of_dkeys_dset. split; [|by apply HIn]. intros [->|?]; done.
  - apply (IH _ _ _ Hl' Hnd HV); [apply Hskip; congruence|].
    intros n [->%elem_of_singleton|Hn]%elem_of_union; [|split; [apply (HI n Hn) | by apply HIn]].
    split; [by apply dget_None | rewrite map_app; set_solver].
  - apply (IH _ _ _ Hl' Hnd HV); [by apply Hskip|]. intros n Hn. split; [apply (HI n Hn) | by apply HIn].
Qed.

Lemma foldl_ddel {V} l : forall d : dict V, NoDup (dkeys d) ->
  NoDup (dkeys (foldl ddel d l)) /\ forall n v, dget (foldl ddel d l) n = Some v <-> dget d n = Some v /\ n ∉ l.
Proof.
  induction l as [|x l IH]; intros d Hd; simpl; [split; [done|]; intros n v; set_solver|].
  destruct (IH (ddel d x)) as [H1 H2]; [by apply NoDup_dkeys_ddel|]. split; [done|]. intros n v. rewrite H2, not_elem_of_cons.
  destruct (decide (x = n)) as [->|Hne]; [rewrite dget_ddel_eq by done; naive_solver|]. rewrite dget_ddel_ne by done. naive_solver.
Qed.

Notation edge := (edge_dep (pp_dependency_graph plan)).

(** Every dependency of [n], near or far, left a valid state behind. *)
Definition dependencies_valid (n : string) : Prop := forall d, tc edge d n -> exists st, left_valid_state d st.

Lemma left_valid_in_plan n st : left_valid_state n st -> n ∈ map en_id (pp_nodes plan).
Proof. intros (node & Hn & <- & _). apply list_elem_of_fmap. by exists node. Qed.

Lemma edge_rtc_dep {V} (S : dict V) d n : NoDup (map en_id (pp_nodes plan)) ->
  cone_ok (plan_dependencies_by_node plan) (map en_id (pp_nodes plan)) S n ->
  rtc edge d n -> rtc (dep_of (plan_dependencies_by_node plan)) d n.
Proof.
  intros Hnd Hc Hd. induction Hd as [|d m n Hdm Hmn IH]; [apply rtc_refl|]. specialize (IH Hc). eapply rtc_l; [|exact IH].
  apply plan_dependencies_by_node_spec; [done|]. split; [|done]. by apply Hc.
Qed.

(** The reusable states: what the selection returns, in plan order. *)
Lemma select_ok : NoDup (map en_id (pp_nodes plan)) ->
  exists states, select_resume_states record plan (plan_dependencies_by_node plan) = Ok states /\
    (forall n st, dget states n = Some st <-> left_valid_state n st /\ dependencies_valid n) /\
    NoDup (dkeys states) /\ StronglySorted (order_le (enumerate_order (map en_id (pp_nodes plan)))) (dkeys states).
Proof.
  intros Hnd. destruct (plan_dependencies_by_node_spec plan Hnd) as [Hkeys Hdep]. set (deps := plan_dependencies_by_node plan) in *.
  unfold select_resume_states. pose proof (scan_ok (pp_nodes plan) [] [] ∅ eq_refl Hnd) as Hscan.
  destruct (foldl (scan_node record plan) ([], ∅) (pp_nodes plan)) as [V I].
  destruct Hscan as (HVn & HV & HI); [constructor | | set_solver|].
  { intros n st. split; [done|]. by intros (m & Hm%elem_of_nil & _). }
  destruct (descendants_ok (dependents_by_node deps) (dep_of deps) I) as (below & -> & Hbelow).
  { intros n x. apply dependents_by_node_sound. by rewrite Hkeys. }
  simpl. destruct (foldl_ddel (elements (I ∪ below)) V HVn) as [HSn HS]. set (S := foldl ddel V _) in *.
  assert (forall x d, tc (dep_of deps) d x -> tc edge d x) as Htc.
  { intros x d. apply tc_congruence with (f := id). intros ? ? ?%Hdep. tauto. }
  assert (forall n st, left_valid_state n st -> dependencies_valid n -> dget S n = Some st) as Hkeep.
  { intros n st Hn Hc. apply HS. split; [by apply HV|]. rewrite elem_of_elements. intros [Hi|Hb]%elem_of_union.
    - apply (HI n Hi). apply dget_is_Some. exists st. by apply HV.
    - destruct (Hbelow n Hb) as (i & Hi & Hin). destruct (Hc i) as [st' Hst']; [by apply Htc|]. apply (HI i Hi), dget_is_Some.
      exists st'. by apply HV. }
  assert (forall n st, left_valid_state n st -> dependencies_valid n -> cone_ok deps (map en_id (pp_nodes plan)) S n) as Hcone.
  { intros n st Hn Hc d Hd. assert (exists st', left_valid_state d st' /\ dependencies_valid d) as (st' & Hst' & Hdv).
    { apply rtc_tc in Hd as [->|Hd]; [eauto|]. apply Htc in Hd. destruct (Hc d Hd) as [st' Hst']. exists st'. split; [done|].
      intros d' Hd'. apply Hc. by etrans. }
    split; [apply dget_is_Some; exists st'; by apply Hkeep | by eapply left_valid_in_plan]. }
  assert (dkeys (dict_of (map (fun n => (en_id n, n)) (pp_nodes plan))) = map en_id (pp_nodes plan)) as ->.
  { rewrite dict_of_NoDup by (by rewrite map_map). unfold dkeys. by rewrite map_map. }
  destruct (dependency_closed_ok deps (map en_id (pp_nodes plan)) S) as (out & -> & Hon & Hout & Hsort);
    [by rewrite Hkeys | done | done|]. exists out. split_and!; [done | | done | done]. intros n st. rewrite Hout. split.
  - intros [HnS Hc]. split; [apply HV; by apply HS in HnS as [? _]|]. intros d Hd.
    assert (d ∈ dkeys S) as [st' Hst']%dget_is_Some; [|exists st'; apply HV; by apply HS in Hst' as [? _]].
    apply Hc. eapply edge_rtc_dep; [done | done | by apply tc_rtc].
  - intros [Hn Hc]. split; [by apply Hkeep | by eapply Hcone].
Qed.

(** The reusable nodes are closed under the scheduler's dependencies. *)
Lemma selection_closed states : NoDup (map en_id (pp_nodes plan)) ->
  select_resume_states record plan (plan_dependencies_by_node plan) = Ok states ->
  resumed_closed (sched_plan plan) (dkeys states).
Proof.
  intros Hnd Hsel. destruct (select_ok Hnd) as (states' & Hsel' & Hin & _). rewrite Hsel in Hsel'. injection Hsel' as <-. split.
  - intros r [st Hr]%dget_is_Some. apply Hin in Hr as [Hr _]. apply left_valid_in_plan in Hr. unfold plan_node_ids. simpl. by rewrite map_map.
  - intros d n [st Hn]%dget_is_Some Hd%sched_plan_dep. apply Hin in Hn as [_ Hn]. destruct (Hn d) as [st' Hst']; [by apply tc_once|].
    apply dget_is_Some. exists st'. apply Hin. split; [done|]. intros d' Hd'. apply Hn. by eapply tc_r.
Qed.

(** C32 (equivalence): Selecting the reusable nodes of an earlier run terminates for every plan with distinct node ids,
    and, although the code prunes descendants of rejected states and then deletes unsupported nodes pass by pass, its
    result is the declarative one: a node is reused, with the state read for it, exactly when that state is valid and
    every direct or transitive dependency left a valid state behind; the nodes come once each, in plan order.
    Definitions: select_resume_states, descendants, dependency_closed_states, close_loop, plan_dependencies_by_node, dependents_by_node, node_state_is_valid. *)
Theorem resume_selection_is_valid_cone :
  NoDup (map en_id (pp_nodes plan)) ->
  exists states, select_resume_states record plan (plan_dependencies_by_node plan) = Ok states /\
    (forall n st, dget states n = Some st <-> left_valid_state n st /\ dependencies_valid n) /\
    NoDup (dkeys states) /\ StronglySorted (order_le (enumerate_order (map en_id (pp_nodes plan)))) (dkeys states).
Proof. exact select_ok. Qed.

(** A plan that satisfies the scheduler's precondition can be scheduled from the reusable nodes of an
    earlier run: the selection returns states, the scheduler accepts their ids, and in the session it builds exactly the
    reused nodes have SUCCEEDED, so none of them runs again and a node is ready at once only when all its dependencies
    were reused. *)
Theorem resumed_session_starts_from_selection (limit : option Z) :
  plan_ok (sched_plan plan) ->
  exists states s, select_resume_states record plan (plan_dependencies_by_node plan) = Ok states /\
    initialize_session (sched_plan plan) (dkeys states) limit = Ok s /\
    (forall n, dget (statuses (state s)) n = Some SUCCEEDED <-> n ∈ dkeys states) /\
    (forall n, n ∈ ready (state s) <-> n ∈ plan_node_ids (sched_plan plan) /\ n ∉ dkeys states /\
       forall d, plan_dep (sched_plan plan) d n -> d ∈ dkeys states).
Proof.
  intros Hp. assert (NoDup (map en_id (pp_nodes plan))) as Hnd.
  { pose proof (po_nodup _ Hp) as H. unfold plan_node_ids in H. simpl in H. by rewrite map_map in H. }
  destruct (select_ok Hnd) as (states & Hsel & _). pose proof (selection_closed states Hnd Hsel) as Hcl.
  destruct (initialize_ok _ Hp (dkeys states)) as (st & Hst & Hspec); [apply Hcl|].
  exists states. unfold initialize_session. rewrite Hst. eexists. split; [done|]. split; [done|]. split; [|apply Hspec].
  intros n. simpl. rewrite (is_statuses _ _ _ Hspec). case_decide as Hin; [case_decide; naive_solver|].
  split; [done|]. intros H. destruct Hin. by apply Hcl.
Qed.

End SelectionSpec.

(** ** A chain of three nodes whose second state is missing *)

Module ResumeExample.

Definition digest : string := str_join "" (repeat "0123456789abcdef" 4).
#[export] Instance hash : HashLibrary := {| sha256 _ := digest |}.
#[export] Instance clock : ClockLibrary := {| fromisoformat_accepts s := str_startswith "2026-" s |}.

Definition node (name : string) (needs : list string) : PreflightExecutionNode :=
  mkExecNode name None None None None InputMode false needs None [] no_policy None (contract_named name) None false None None.
Definition edge (from to : string) : CompiledEdge := mkCompiledEdge from to (Some "output") "sig" None None None.
Definition chain : PreflightExecutionPlan :=
  mkPlanRecord "demo--r2" "demo" digest ["a"; "b"; "c"] [] [] [node "a" []; node "b" ["a"]; node "c" ["b"]] [] [] []
    [edge "a" "b"; edge "b" "c"] [] [] [].

Definition earlier : RunHistoryRecord := mkHistory
  (mkManifest 1 "1.0" "demo.md" "demo" digest "r1" "demo--r1" "2026-01-01" (Some "2026-01-02") RunFailed digest "p" "m" "c" []
     "# demo" [] [] None [] [] None None (Some "node b failed") None).

Definition state_of (name : string) : NodeState :=
  mkNodeState 1 "1.0" "demo.md" "demo" digest "r1" "demo--r1" name None "2026-01-02"
    [mkDescriptor KindOutput (name +:+ "-result.md") digest 4] [] None None.

#[export] Instance files : ResumeSource := {|
  stored_node_state n := if str_in n ["a"; "c"] then Some (state_of n) else None;
  result_bytes _ := Some "done";
  workspace_node_state_is_valid _ := true;
  build_node_workspace_descriptor _ := Ok JNull
|}.

Lemma chain_ok : plan_ok (sched_plan chain).
Proof. apply plan_ok_by_order; [apply (bool_decide_unpack _); vm_compute; exact I | vm_compute; reflexivity]. Qed.

Lemma resume_selection_is_valid_cone_witness :
  exists states, select_resume_states earlier chain (plan_dependencies_by_node chain) = Ok states /\ dkeys states = ["a"] /\
    (forall n st, dget states n = Some st <-> left_valid_state earlier chain n st /\ dependencies_valid earlier chain n).
Proof.
  destruct (resume_selection_is_valid_cone earlier chain) as (states & Hs & H & _); [apply (bool_decide_unpack _); vm_compute; exact I|].
  exists states. split; [exact Hs|]. split; [|exact H]. vm_compute in Hs. injection Hs as <-. reflexivity.
Defined.

Lemma resumed_session_starts_from_selection_witness :
  exists (states : dict NodeState) s, dkeys states = ["a"] /\ initialize_session (sched_plan chain) (dkeys states) (Some 2%Z) = Ok s /\
    (forall n, dget (statuses (state s)) n = Some SUCCEEDED <-> n ∈ dkeys states) /\ ready (state s) = ["b"].
Proof.
  destruct (resumed_session_starts_from_selection earlier chain (Some 2%Z) chain_ok) as (states & s & Hs & Hi & Hst & _).
  assert (dkeys states = ["a"]) as Hk by (vm_compute in Hs; injection Hs as <-; reflexivity).
  exists states, s. split_and!; [exact Hk | exact Hi | exact Hst|]. rewrite Hk in Hi. vm_compute in Hi. injection Hi as <-. reflexivity.
Defined.

End ResumeExample.
