(* ===== verification/Checkpoint.v ===== *)
(** Review checkpoints: the records of core/review_checkpoint_state.py and
    core/review_checkpoint.py, and the checks of core/review_checkpoint.py and
    core/review_checkpoint_progress.py.

    Constructing a record runs its field constraints and its model validator;
    [validate_*] are those checks.  A role is a [ProviderRole], a phase a
    [CheckpointPhase], so the constraints that only exclude other texts are
    built in. *)

From Stdlib Require Import ZArith Lia Ascii String.
From stdpp Require Import base gmap sets list strings.
From S2P Require Import Prelude PyStr Models PlanRecords Artifacts PlanContract PlanContractSpec Reviews.
From S2P Require Import ReviewCandidates ReviewLoopState RunState.

Open Scope string_scope.
Open Scope list_scope.
Open Scope Z_scope.

#[global] Instance CheckpointReviewerFailure_eq_dec : EqDecision CheckpointReviewerFailure.
Proof. solve_decision. Defined.

(** ** Records (core/review_checkpoint_state.py) *)

(** Code: core/review_checkpoint_state.py, CheckpointTask. *)
Record CheckpointTask := mkCheckpointTask { kt_task_id : string; kt_role : ProviderRole }.

#[global] Instance CheckpointTask_eq_dec : EqDecision CheckpointTask.
Proof. solve_decision. Defined.

(** Code: core/review_checkpoint_state.py, CheckpointInvocation. *)
Record CheckpointInvocation := mkCheckpointInvocation {
  ki_task_id : string;
  ki_role : ProviderRole;
  ki_audit : Z;
  ki_local_round : Z
}.

#[global] Instance CheckpointInvocation_eq_dec : EqDecision CheckpointInvocation.
Proof. solve_decision. Defined.

Definition invocation_fields (i : CheckpointInvocation) : bool :=
  nonempty (ki_task_id i) && (1 <=? ki_audit i) && (0 <=? ki_local_round i).

(** The purposes of a file, lines 57 to 70. *)
Inductive FilePurpose : Type :=
| executor_output | reviewer_output | review_state | review_metadata | review_failure | candidate_identity
| generated_file | generated_metadata | workspace_state | workspace_setup | workspace_rendered | workspace_bundle.

#[global] Instance FilePurpose_eq_dec : EqDecision FilePurpose.
Proof. solve_decision. Defined.

(** Code: core/review_checkpoint_state.py, CheckpointFile. *)
Record CheckpointFile := mkCheckpointFile {
  kf_invocation : CheckpointInvocation;
  kf_purpose : FilePurpose;
  kf_relative_path : string;
  kf_signature : ContentSignature
}.

(** Code: core/review_checkpoint_state.py, CheckpointFile.validate_signature. *)
Definition validate_checkpoint_file (f : CheckpointFile) : outcome unit :=
  _ ← fields "CheckpointFile" (invocation_fields (kf_invocation f) && is_safe_relative_path (kf_relative_path f));
  let '(size, digest) := kf_signature f in
  require (negb ((size <? 0) || negb (is_sha256 digest))) "Invalid checkpoint content signature.".

(** Code: core/review_checkpoint_state.py, CheckpointCandidateIdentity. *)
Record CheckpointCandidateIdentity := mkCheckpointCandidateIdentity {
  kd_kind : string;
  kd_fingerprint : option string;
  kd_source_fingerprint : option string;
  kd_reason : option string
}.

#[global] Instance CheckpointCandidateIdentity_eq_dec : EqDecision CheckpointCandidateIdentity.
Proof. solve_decision. Defined.

Definition digest_or_none (o : option string) : bool := match o with None => true | Some d => is_sha256 d end.

(** Code: core/review_checkpoint_state.py, CheckpointCandidateIdentity.validate_classification. *)
Definition validate_candidate_classification (d : CheckpointCandidateIdentity) : outcome unit :=
  _ ← fields "CheckpointCandidateIdentity"
        (str_in (kd_kind d) ["document"; "files"; "unverified"] && digest_or_none (kd_fingerprint d));
  require (eqb (bool_decide (kd_kind d = "unverified")) (negb (is_some (kd_fingerprint d))))
    "Candidate classification and fingerprint disagree.".

(** Code: core/review_checkpoint_state.py, CheckpointCandidate. *)
Record CheckpointCandidate := mkCheckpointCandidate {
  kc_invocation : CheckpointInvocation;
  kc_output_path : string;
  kc_producer_audit : Z;
  kc_producer_round : Z;
  kc_identity : CheckpointCandidateIdentity
}.

#[global] Instance CheckpointCandidate_eq_dec : EqDecision CheckpointCandidate.
Proof. solve_decision. Defined.

Definition validate_checkpoint_candidate (c : CheckpointCandidate) : outcome unit :=
  fields "CheckpointCandidate"
    (invocation_fields (kc_invocation c) && is_safe_relative_path (kc_output_path c)
     && (1 <=? kc_producer_audit c) && (1 <=? kc_producer_round c)).

(** Code: core/review_checkpoint_state.py, CheckpointEvaluation. *)
Record CheckpointEvaluation := mkCheckpointEvaluation {
  ke_verdict : option string;
  ke_approved : bool;
  ke_major_issues : string;
  ke_minor_issues : string;
  ke_nitpicks : string;
  ke_unresolved_fingerprints : list string;
  ke_unresolved_issue_count : Z;
  ke_normalized_markdown : string;
  ke_raw_text : string;
  ke_evaluation_kind : string;
  ke_warnings : list string;
  ke_original_verdict : option string;
  ke_had_leading_text : bool;
  ke_had_trailing_text : bool;
  ke_unstructured_feedback : option string
}.

Definition EVALUATION_KINDS : list string :=
  ["structured"; "plain_language_approval"; "plain_language_changes_requested"; "unstructured_feedback"].

Definition validate_checkpoint_evaluation (e : CheckpointEvaluation) : outcome unit :=
  fields "CheckpointEvaluation" ((0 <=? ke_unresolved_issue_count e) && str_in (ke_evaluation_kind e) EVALUATION_KINDS).

(** Code: core/review_checkpoint_state.py, CheckpointReview. *)
Record CheckpointReview := mkCheckpointReview {
  kr_invocation : CheckpointInvocation;
  kr_output_path : string;
  kr_evaluation : CheckpointEvaluation
}.

Definition validate_checkpoint_review (r : CheckpointReview) : outcome unit :=
  fields "CheckpointReview" (invocation_fields (kr_invocation r) && is_safe_relative_path (kr_output_path r)).

(** The invocation a failure record extends. *)
Definition rf_invocation (f : CheckpointReviewerFailure) : CheckpointInvocation :=
  mkCheckpointInvocation (rf_task_id f) (rf_role f) (rf_audit f) (rf_local_round f).

(** Code: core/review_checkpoint_state.py, CheckpointStall. *)
Record CheckpointStall := mkCheckpointStall {
  kst_consecutive_round_count : Z;
  kst_candidate_fingerprint : option string;
  kst_review_feedback : list Feedback
}.

Definition validate_checkpoint_stall (s : CheckpointStall) : outcome unit :=
  fields "CheckpointStall" ((0 <=? kst_consecutive_round_count s) && digest_or_none (kst_candidate_fingerprint s)).

(** Code: core/review_checkpoint_state.py, CheckpointCounters. *)
Record CheckpointCounters := mkCheckpointCounters {
  kn_invalid_candidate_round_count : Z;
  kn_no_progress_round_count : Z;
  kn_artifact_drift_warning_count : Z;
  kn_last_round_num : Z;
  kn_selected_round_num : Z;
  kn_stop_reason : option string
}.

(** The values of the enumeration.
    Code: core/review_contract.py, ReviewLoopStopReason. *)
Definition stop_reason_value (r : ReviewLoopStopReason) : string :=
  match r with
  | CONSENSUS => "consensus" | CONSENSUS_EXHAUSTED => "consensus_exhausted" | NO_PROGRESS => "no_progress"
  | NO_VALID_CANDIDATE => "no_valid_candidate" | CANCELLED => "cancelled" | FAILED => "failed"
  end.

Definition STOP_REASONS : list ReviewLoopStopReason :=
  [CONSENSUS; CONSENSUS_EXHAUSTED; NO_PROGRESS; NO_VALID_CANDIDATE; CANCELLED; FAILED].

(** Code: core/review_checkpoint_state.py, CheckpointCounters.validate_stop_reason. *)
Definition validate_stop_reason (value : option string) : outcome unit :=
  match value with
  | None => Ok tt
  | Some v => require (str_in v (map stop_reason_value STOP_REASONS)) "Invalid review-loop stop reason."
  end.

Definition validate_checkpoint_counters (n : CheckpointCounters) : outcome unit :=
  _ ← fields "CheckpointCounters"
        ((0 <=? kn_invalid_candidate_round_count n) && (0 <=? kn_no_progress_round_count n)
         && (0 <=? kn_artifact_drift_warning_count n) && (0 <=? kn_last_round_num n) && (0 <=? kn_selected_round_num n));
  validate_stop_reason (kn_stop_reason n).

(** Code: core/review_checkpoint_state.py, CheckpointAuditProgress. *)
Record CheckpointAuditProgress := mkCheckpointAudit {
  ka_counters : CheckpointCounters;
  ka_executor_outputs : list CheckpointCandidate;
  ka_previous_executor_outputs : option (list CheckpointCandidate);
  ka_previous_unresolved_fingerprints : list string;
  ka_previous_executor_fingerprint : option string;
  ka_latest_valid_executor_outputs : option (list CheckpointCandidate);
  ka_latest_reviewer_outputs : list CheckpointReview;
  ka_reviewer_failures : list CheckpointReviewerFailure
}.

Definition validate_checkpoint_audit (a : CheckpointAuditProgress) : outcome unit :=
  _ ← validate_checkpoint_counters (ka_counters a);
  fields "CheckpointAuditProgress" (digest_or_none (ka_previous_executor_fingerprint a)).

(** Code: core/review_checkpoint_state.py, CheckpointProgress. *)
Record CheckpointProgress := mkCheckpointProgress {
  kp_counters : CheckpointCounters;
  kp_latest_executor_outputs : option (list CheckpointCandidate);
  kp_latest_reviewer_outputs : list CheckpointReview;
  kp_reviewer_failures : list CheckpointReviewerFailure;
  kp_executed_audit_rounds : Z;
  kp_consensus_reached : bool;
  kp_continued_after_exhaustion : bool;
  kp_continued_after_stop : bool;
  kp_stall : CheckpointStall;
  kp_active_audit : option CheckpointAuditProgress;
  kp_initial_review_completed : bool;
  kp_initial_reviews : list CheckpointReview;
  kp_initial_failures : list CheckpointReviewerFailure
}.

Definition validate_checkpoint_progress_fields (p : CheckpointProgress) : outcome unit :=
  _ ← validate_checkpoint_counters (kp_counters p);
  fields "CheckpointProgress" (0 <=? kp_executed_audit_rounds p).

(** Code: core/review_checkpoint_state.py, CheckpointProgress.candidates. *)
Definition progress_candidates (p : CheckpointProgress) : list CheckpointCandidate :=
  default [] (kp_latest_executor_outputs p)
  ++ match kp_active_audit p with
     | None => []
     | Some a => ka_executor_outputs a ++ default [] (ka_previous_executor_outputs a)
                 ++ default [] (ka_latest_valid_executor_outputs a)
     end.

(** Code: core/review_checkpoint_state.py, CheckpointProgress.reviews. *)
Definition progress_reviews (p : CheckpointProgress) : list CheckpointReview :=
  kp_initial_reviews p ++ kp_latest_reviewer_outputs p
  ++ match kp_active_audit p with None => [] | Some a => ka_latest_reviewer_outputs a end.

(** Code: core/review_checkpoint_state.py, CheckpointProgress.failures. *)
Definition progress_failures (p : CheckpointProgress) : list CheckpointReviewerFailure :=
  kp_initial_failures p ++ kp_reviewer_failures p
  ++ match kp_active_audit p with None => [] | Some a => ka_reviewer_failures a end.

(** Code: core/review_checkpoint_state.py, CheckpointGeneratedMapping. *)
Record CheckpointGeneratedMapping := mkGeneratedMapping { kg_output_path : string; kg_snapshot_path : option string }.

(** Code: core/review_checkpoint_state.py, CheckpointWorkspace. *)
Record CheckpointWorkspace := mkCheckpointWorkspace {
  kw_invocation : CheckpointInvocation;
  kw_snapshot_path : string;
  kw_destination_path : string
}.

(** Code: core/review_checkpoint_state.py, CheckpointProjectObservation. *)
Record CheckpointProjectObservation := mkObservation { ko_fingerprint : option string; ko_reliable : bool }.

(** Code: core/review_checkpoint_state.py, CheckpointProjectObservation.require_reliable_fingerprint. *)
Definition validate_project_observation (o : CheckpointProjectObservation) : outcome unit :=
  _ ← fields "CheckpointProjectObservation" (digest_or_none (ko_fingerprint o));
  require (negb (ko_reliable o && negb (is_some (ko_fingerprint o)))) "Reliable project observations require a fingerprint.".

(** ** Checkpoints (core/review_checkpoint.py) *)

(** Code: core/review_checkpoint.py, CheckpointIdentity. *)
Record CheckpointIdentity := mkCheckpointIdentity {
  kid_run_state_schema_version : Z;
  kid_plan_schema_version : string;
  kid_workflow_identity : string;
  kid_workflow_name : string;
  kid_workflow_signature : string;
  kid_run_id : string;
  kid_run_key_name : string;
  kid_node_id : string;
  kid_tasks : list CheckpointTask;
  kid_expansion : option ExpansionProvenance
}.

(** The model validator is [validate_expansion_identity].
    Code: core/review_checkpoint.py, CheckpointIdentity.validate_expansion_identity. *)
Definition validate_checkpoint_identity (i : CheckpointIdentity) : outcome unit :=
  _ ← validate_run_state_schema_version (kid_run_state_schema_version i);
  _ ← validate_supported_plan_schema_version (kid_plan_schema_version i);
  _ ← fields "CheckpointIdentity"
        (nonempty (kid_workflow_identity i) && nonempty (kid_workflow_name i) && is_sha256 (kid_workflow_signature i)
         && nonempty (kid_run_id i) && nonempty (kid_run_key_name i) && nonempty (kid_node_id i)
         && forallb (fun t => nonempty (kt_task_id t)) (kid_tasks i));
  match kid_expansion i with None => Ok tt | Some e => validate_provenance_node e (kid_node_id i) end.

(** Code: core/review_checkpoint.py, OpenReviewCheckpoint. *)
Record OpenReviewCheckpoint := mkOpenCheckpoint {
  ck_identity : CheckpointIdentity;
  ck_audit : Z;
  ck_local_round : Z;
  ck_next_phase : CheckpointPhase;
  ck_progress : CheckpointProgress;
  ck_files : list CheckpointFile;
  ck_generated_mappings : list CheckpointGeneratedMapping;
  ck_workspaces : list CheckpointWorkspace;
  ck_project_observation : option CheckpointProjectObservation;
  ck_resume_origin : option ResumeOrigin
}.

(** Code: core/review_checkpoint.py, ClosedReviewCheckpoint. *)
Record ClosedReviewCheckpoint := mkClosedCheckpoint { cc_identity : CheckpointIdentity; cc_terminal_reason : string }.

(** Code: core/review_checkpoint.py, ReviewLoopCheckpoint. *)
Inductive ReviewLoopCheckpoint : Type :=
| OpenCheckpoint (c : OpenReviewCheckpoint)
| ClosedCheckpoint (c : ClosedReviewCheckpoint).

Definition checkpoint_identity_of (c : ReviewLoopCheckpoint) : CheckpointIdentity :=
  match c with OpenCheckpoint c => ck_identity c | ClosedCheckpoint c => cc_identity c end.

(** [(a, b) > (c, d)] on pairs of numbers. *)
Definition pair_gt (p q : Z * Z) : bool := (fst q <? fst p) || (fst p =? fst q) && (snd q <? snd p).

Definition invocation_is (i : CheckpointInvocation) (task_id : string) (role : ProviderRole) (audit local_round : Z) : bool :=
  bool_decide (ki_task_id i = task_id) && bool_decide (ki_role i = role) && (ki_audit i =? audit)
  && (ki_local_round i =? local_round).

Definition coordinates (i : CheckpointInvocation) : Z * Z := (ki_audit i, ki_local_round i).

Section References.
Variable c : OpenReviewCheckpoint.

Definition files_by_path : dict CheckpointFile := dict_of (map (fun f => (kf_relative_path f, f)) (ck_files c)).

(** Code: core/review_checkpoint.py, OpenReviewCheckpoint._validate_candidate_evidence. *)
Definition validate_candidate_evidence : outcome unit :=
  for_each (fun _ candidate =>
    let i := kc_invocation candidate in
    require (match dget files_by_path (kc_output_path candidate) with
             | None => false
             | Some d =>
                 bool_decide (kf_purpose d = executor_output)
                 && invocation_is (kf_invocation d) (ki_task_id i) EXECUTOR (kc_producer_audit candidate) (kc_producer_round candidate)
                 && bool_decide (ki_role i = EXECUTOR)
                 && negb (pair_gt (kc_producer_audit candidate, kc_producer_round candidate) (coordinates i))
             end) "Candidate lacks matching producer evidence.") (progress_candidates (ck_progress c)) tt.

(** Code: core/review_checkpoint.py, OpenReviewCheckpoint._validate_review_evidence. *)
Definition validate_review_evidence : outcome unit :=
  for_each (fun _ review =>
    let i := kr_invocation review in
    require (match dget files_by_path (kr_output_path review) with
             | None => false
             | Some d =>
                 bool_decide (kf_purpose d = reviewer_output)
                 && invocation_is (kf_invocation d) (ki_task_id i) REVIEWER (ki_audit i) (ki_local_round i)
                 && bool_decide (ki_role i = REVIEWER)
             end) "Review lacks matching invocation evidence.") (progress_reviews (ck_progress c)) tt.

Definition output_paths : list string :=
  map kc_output_path (progress_candidates (ck_progress c)) ++ map kr_output_path (progress_reviews (ck_progress c)).

(** Code: core/review_checkpoint.py, OpenReviewCheckpoint._validate_generated_mappings. *)
Definition validate_generated_mappings : outcome unit :=
  let mappings := map kg_output_path (ck_generated_mappings c) in
  require (bool_decide (NoDup mappings) && forallb (fun m => str_in m output_paths) mappings)
    "Generated mappings must uniquely reference carried outputs.".

(** Code: core/review_checkpoint.py, OpenReviewCheckpoint._validate_workspace_evidence. *)
Definition validate_workspace_evidence : outcome unit :=
  _ ← require (bool_decide (NoDup (map kw_destination_path (ck_workspaces c)))) "Workspace destinations must be unique.";
  for_each (fun _ w =>
    require (match dget files_by_path (kw_snapshot_path w) with
             | None => false
             | Some d => bool_decide (kf_purpose d = workspace_state) && bool_decide (kf_invocation d = kw_invocation w)
             end) "Workspace snapshot lacks matching invocation evidence.") (ck_workspaces c) tt.

Definition empty_or_none {A} (o : option (list A)) : bool := match o with None | Some [] => true | _ => false end.

(** Code: core/review_checkpoint.py, OpenReviewCheckpoint._validate_phase_requirements. *)
Definition validate_phase_requirements : outcome unit :=
  let p := ck_progress c in
  _ ← require (negb (bool_decide (ck_next_phase c = PhaseFinalize)
                     && (is_some (kp_active_audit p) || empty_or_none (kp_latest_executor_outputs p)
                         || (kn_selected_round_num (kp_counters p) <? 1))))
        "Finalization requires a settled selected candidate.";
  _ ← require (negb (bool_decide (ck_next_phase c = PhaseReviewers) && (0 <? ck_local_round c)
                     && match kp_active_audit p with
                        | None => true
                        | Some a => match ka_executor_outputs a with [] => true | _ => false end
                        end))
        "Reviewers require a complete active candidate.";
  require (negb (bool_decide (ck_next_phase c = PhaseExecutors) && (1 <? ck_local_round c)
                 && negb (is_some (kp_active_audit p))))
    "Remediation executors require active audit progress.".

(** Code: core/review_checkpoint.py, OpenReviewCheckpoint.validate_references. *)
Definition validate_references : outcome unit :=
  _ ← require (Nat.eqb (length files_by_path) (length (ck_files c))) "Checkpoint file paths must be unique.";
  _ ← validate_candidate_evidence;
  _ ← validate_review_evidence;
  _ ← validate_generated_mappings;
  _ ← validate_workspace_evidence;
  validate_phase_requirements.

End References.

(** ** Progress (core/review_checkpoint_progress.py) *)

Definition role_ids (role : ProviderRole) (tasks : list CheckpointTask) : list string :=
  map kt_task_id (List.filter (fun t => bool_decide (kt_role t = role)) tasks).

Definition checkpoint_executors (c : OpenReviewCheckpoint) : list string := role_ids EXECUTOR (kid_tasks (ck_identity c)).
Definition checkpoint_reviewers (c : OpenReviewCheckpoint) : list string := role_ids REVIEWER (kid_tasks (ck_identity c)).

(** Code: core/review_checkpoint_progress.py, _validate_executor_group. *)
Definition validate_executor_group (group : list CheckpointCandidate) (executors : list string) : outcome unit :=
  require (bool_decide (map (fun x => ki_task_id (kc_invocation x)) group = executors)
           && Nat.eqb (length (remove_dups (map (fun x => coordinates (kc_invocation x)) group))) 1)
    "Checkpoint candidates require the complete ordered executor phase.".

(** Code: core/review_checkpoint_progress.py, _validate_candidate_identity. *)
Definition validate_candidate_identity (by_path : dict CheckpointCandidate) (candidate : CheckpointCandidate)
    : outcome (dict CheckpointCandidate) :=
  let i := kc_invocation candidate in
  _ ← require (match dget by_path (kc_output_path candidate) with
               | Some other => bool_decide (other = candidate)
               | None => true
               end) "Checkpoint contains conflicting candidate identities.";
  _ ← require (bool_decide ((kc_producer_audit candidate, kc_producer_round candidate) = coordinates i)
               || (kc_producer_audit candidate <? ki_audit i) && (ki_local_round i =? 1))
        "Only fresh audits may seed an earlier producer candidate.";
  Ok (dset by_path (kc_output_path candidate) candidate).

(** The groups of candidates a checkpoint carries.
    Code: core/review_checkpoint_progress.py:46-54. *)
Definition candidate_groups (p : CheckpointProgress) : list (option (list CheckpointCandidate)) :=
  kp_latest_executor_outputs p
  :: match kp_active_audit p with
     | None => []
     | Some a => [Some (ka_executor_outputs a); ka_previous_executor_outputs a; ka_latest_valid_executor_outputs a]
     end.

(** Code: core/review_checkpoint_progress.py, _validate_candidate_groups. *)
Definition validate_candidate_groups (c : OpenReviewCheckpoint) : outcome unit :=
  _ ← for_each (fun by_path group =>
        match group with
        | None => Ok by_path
        | Some group =>
            _ ← validate_executor_group group (checkpoint_executors c);
            for_each validate_candidate_identity group by_path
        end) (candidate_groups (ck_progress c)) [];
  Ok tt.

(** [sorted({...})] on the fingerprints of the reviews.
    Code: core/review_checkpoint_progress.py, _unresolved_fingerprints. *)
Definition checkpoint_unresolved_fingerprints (reviews : list CheckpointReview) : list string :=
  sorted_str (remove_dups (mjoin (map (fun r => ke_unresolved_fingerprints (kr_evaluation r)) reviews))).

(** Code: core/review_checkpoint_progress.py, _validate_executor_cursor. *)
Definition validate_executor_cursor (c : OpenReviewCheckpoint) : outcome unit :=
  let active := kp_active_audit (ck_progress c) in
  if ck_local_round c =? 1 then
    require (negb (is_some active)) "Initial executors cannot carry active audit progress."
  else
    require (match active with
             | None => false
             | Some a =>
                 (kn_last_round_num (ka_counters a) =? ck_local_round c - 1)
                 && (1 <=? kn_selected_round_num (ka_counters a)) && (kn_selected_round_num (ka_counters a) <? ck_local_round c)
                 && negb (empty_or_none (ka_previous_executor_outputs a))
                 && bool_decide (ka_previous_executor_outputs a = ka_latest_valid_executor_outputs a)
                 && bool_decide (Some (ka_executor_outputs a) = ka_latest_valid_executor_outputs a)
                 && forallb (fun x => ki_audit (kc_invocation x) =? ck_audit c) (default [] (ka_previous_executor_outputs a))
                 && bool_decide (ka_previous_unresolved_fingerprints a
                                 = checkpoint_unresolved_fingerprints (ka_latest_reviewer_outputs a))
             end) "Remediation cursor disagrees with settled active progress.".

(** Code: core/review_checkpoint_progress.py, _validate_progress_cursor. *)
Definition validate_progress_cursor (c : OpenReviewCheckpoint) (node : PreflightExecutionNode) : outcome unit :=
  let p := ck_progress c in
  _ ← require (kp_executed_audit_rounds p =? ck_audit c) "Checkpoint progress and audit cursor disagree.";
  _ ← (if bool_decide (ck_next_phase c = PhaseExecutors) then validate_executor_cursor c else Ok tt);
  _ ← for_each (fun _ n =>
        require (Z.max (kn_selected_round_num n) (kn_last_round_num n)
                 <=? maximum_review_round (remediation_depth_or_default (xp_depth (en_execution_policy node))))
          "Checkpoint progress exceeds configured round bounds.")
        (kp_counters p :: match kp_active_audit p with None => [] | Some a => [ka_counters a] end) tt;
  require (negb (bool_decide (ck_next_phase c = PhaseReviewers)
                 && match kp_active_audit p with
                    | None => false
                    | Some a => existsb (fun x => negb (bool_decide (coordinates (kc_invocation x) = (ck_audit c, ck_local_round c))))
                                  (ka_executor_outputs a)
                    end))
    "Reviewer cursor does not match the active candidate.".

(** Code: core/review_checkpoint_progress.py, _validate_batch. *)
Definition validate_batch (c : OpenReviewCheckpoint) (reviews : list CheckpointReview)
    (failures : list CheckpointReviewerFailure) (at_round : Z * Z) : outcome unit :=
  let expected := checkpoint_reviewers c in
  let observed := map kr_invocation reviews ++ map rf_invocation failures in
  _ ← require (bool_decide (sorted_str (map ki_task_id observed) = sorted_str expected)
               && forallb (fun i => bool_decide (coordinates i = at_round) && bool_decide (ki_role i = REVIEWER)) observed)
        "Checkpoint requires a complete settled reviewer batch.";
  let failed_task_ids := map rf_task_id failures in
  require (bool_decide (map (fun r => ki_task_id (kr_invocation r)) reviews
                        = List.filter (fun t => negb (str_in t failed_task_ids)) expected))
    "Checkpoint reviewer order does not match the compiled node.".

(** Code: core/review_checkpoint_progress.py, _validate_selected_batch. *)
Definition validate_selected_batch (c : OpenReviewCheckpoint) (candidates : option (list CheckpointCandidate))
    (reviews : list CheckpointReview) (failures : list CheckpointReviewerFailure) (selected_round : Z) : outcome unit :=
  if selected_round =? 0 then
    require (match reviews, failures with [], [] => true | _, _ => false end)
      "Unselected progress cannot carry a settled review batch."
  else
    match default [] candidates with
    | [] => Raise (ValueError "Selected candidate and round disagree.")
    | first :: _ =>
        _ ← require (forallb (fun x => ki_local_round (kc_invocation x) =? selected_round) (default [] candidates))
              "Selected candidate and round disagree.";
        validate_batch c reviews failures (ki_audit (kc_invocation first), selected_round)
    end.

(** Code: core/review_checkpoint_progress.py, _validate_selected_reviews. *)
Definition validate_selected_reviews (c : OpenReviewCheckpoint) : outcome unit :=
  let p := ck_progress c in
  _ ← validate_selected_batch c (kp_latest_executor_outputs p) (kp_latest_reviewer_outputs p) (kp_reviewer_failures p)
        (kn_selected_round_num (kp_counters p));
  match kp_active_audit p with
  | None => Ok tt
  | Some a => validate_selected_batch c (ka_latest_valid_executor_outputs a) (ka_latest_reviewer_outputs a)
                (ka_reviewer_failures a) (kn_selected_round_num (ka_counters a))
  end.

(** Code: core/review_checkpoint_progress.py, _validate_initial_reviews. *)
Definition validate_initial_reviews (c : OpenReviewCheckpoint) (node : PreflightExecutionNode) : outcome unit :=
  let p := ck_progress c in
  if kp_initial_review_completed p then
    _ ← require (bool_decide (xp_review_starts_with (en_execution_policy node) = StartsReviewer))
          "Initial review is not configured for this node.";
    validate_batch c (kp_initial_reviews p) (kp_initial_failures p) (1, 0)
  else
    require (match kp_initial_reviews p, kp_initial_failures p with [], [] => true | _, _ => false end)
      "Unsettled initial reviews cannot be checkpointed.".

(** Code: core/review_checkpoint_progress.py, _validate_review_policy. *)
Definition validate_review_policy (p : CheckpointProgress) (node : PreflightExecutionNode) : outcome unit :=
  _ ← require (match progress_failures p with [] => true | _ => xp_continue_on_failure (en_execution_policy node) end)
        "Reviewer failures require continuation policy.";
  require (negb (kp_consensus_reached p && match kp_reviewer_failures p with [] => false | _ => true end))
    "Reviewer failures prevent consensus.".

(** Code: core/review_checkpoint_progress.py, _validate_finalization. *)
Definition validate_finalization (c : OpenReviewCheckpoint) (node : PreflightExecutionNode) : outcome unit :=
  let p := ck_progress c in
  let policy := en_execution_policy node in
  let stop := kn_stop_reason (kp_counters p) in
  _ ← require (ck_local_round c =? kn_last_round_num (kp_counters p)) "Finalization cursor and attempted round disagree.";
  let permitted :=
    if bool_decide (stop = Some "consensus") then
      kp_consensus_reached p && forallb (fun r => ke_approved (kr_evaluation r)) (kp_latest_reviewer_outputs p)
      && negb (kp_continued_after_stop p || kp_continued_after_exhaustion p)
    else if bool_decide (stop = Some "no_progress") then
      xp_continue_on_failure policy && kp_continued_after_stop p
      && negb (kp_consensus_reached p || kp_continued_after_exhaustion p)
    else if bool_decide (stop = Some "consensus_exhausted") then
      (xp_continue_on_failure policy || bool_decide (xp_consensus_on_exhaustion policy = Some ConsensusContinue))
      && kp_continued_after_exhaustion p && kp_continued_after_stop p && negb (kp_consensus_reached p)
    else false in
  require permitted "Checkpoint finalization is not permitted by the settled review policy.".

(** Code: core/review_checkpoint_progress.py, validate_checkpoint_progress. *)
Definition validate_checkpoint_progress (c : OpenReviewCheckpoint) (node : PreflightExecutionNode) : outcome unit :=
  _ ← validate_candidate_groups c;
  _ ← validate_progress_cursor c node;
  _ ← validate_selected_reviews c;
  _ ← validate_initial_reviews c node;
  _ ← validate_review_policy (ck_progress c) node;
  if bool_decide (ck_next_phase c = PhaseFinalize) then validate_finalization c node else Ok tt.

(** ** The checkpoint of a compiled node (core/review_checkpoint.py) *)

(** Code: core/review_checkpoint.py, checkpoint_node_is_eligible. *)
Definition checkpoint_node_is_eligible (node : PreflightExecutionNode) : bool :=
  let roles := map pr_role (en_provider_records node) in
  bool_decide (en_mode node = Sequential) && bool_decide (EXECUTOR ∈ roles) && bool_decide (REVIEWER ∈ roles)
  && provider_role_segments_are_contiguous roles.

Definition node_max_round (node : PreflightExecutionNode) : Z :=
  maximum_review_round (remediation_depth_or_default (xp_depth (en_execution_policy node))).
Definition node_audit_rounds (node : PreflightExecutionNode) : Z :=
  audit_rounds_or_default (xp_audit_rounds (en_execution_policy node)).
Definition node_starts_with_review (node : PreflightExecutionNode) : bool :=
  bool_decide (xp_review_starts_with (en_execution_policy node) = StartsReviewer).

(** Code: core/review_checkpoint.py, _validate_node_cursor. *)
Definition validate_node_cursor (c : OpenReviewCheckpoint) (node : PreflightExecutionNode) : outcome unit :=
  _ ← require (negb ((node_audit_rounds node <? ck_audit c) || (node_max_round node <? ck_local_round c)))
        "Checkpoint cursor exceeds configured review bounds.";
  require (negb ((ck_local_round c =? 0)
                 && negb ((ck_audit c =? 1) && bool_decide (ck_next_phase c = PhaseReviewers) && node_starts_with_review node)))
    "Round zero is only valid for initial pre-review.".

(** The records with coordinates, in the order they are checked.
    Code: core/review_checkpoint.py:288-300. *)
Definition coordinate_records (c : OpenReviewCheckpoint) : list CheckpointInvocation :=
  map kf_invocation (ck_files c) ++ map kc_invocation (progress_candidates (ck_progress c))
  ++ map kr_invocation (progress_reviews (ck_progress c)) ++ map rf_invocation (progress_failures (ck_progress c))
  ++ map kw_invocation (ck_workspaces c).

(** Code: core/review_checkpoint.py, _validate_invocation_coordinates. *)
Definition validate_invocation_coordinates (c : OpenReviewCheckpoint) (node : PreflightExecutionNode) : outcome unit :=
  let identities := dict_of (map (fun t => (kt_task_id t, kt_role t)) (kid_tasks (ck_identity c))) in
  for_each (fun _ i =>
    _ ← require (bool_decide (dget identities (ki_task_id i) = Some (ki_role i))
                 && negb ((ck_audit c <? ki_audit i) || (node_max_round node <? ki_local_round i)
                          || pair_gt (coordinates i) (ck_audit c, ck_local_round c)))
          "Checkpoint invocation identity or coordinates mismatch.";
    require (negb ((ki_local_round i =? 0)
                   && negb ((ki_audit i =? 1) && bool_decide (ki_role i = REVIEWER) && node_starts_with_review node)))
      "Invalid round-zero invocation.") (coordinate_records c) tt.

(** The invocations and paths of the outputs.
    Code: core/review_checkpoint.py:328-331. *)
Definition output_records (c : OpenReviewCheckpoint) : list (CheckpointInvocation * string) :=
  map (fun x => (kc_invocation x, kc_output_path x)) (progress_candidates (ck_progress c))
  ++ map (fun x => (kr_invocation x, kr_output_path x)) (progress_reviews (ck_progress c)).

Definition expected_output_path (stage : string) (audit_rounds : Z) (i : CheckpointInvocation) : string :=
  stage +:+ "/" +:+ (if 1 <? audit_rounds then build_review_audit_directory_name (ki_audit i) +:+ "/" else "")
  +:+ build_task_round_filename (ki_task_id i) (ki_local_round i).

(** Code: core/review_checkpoint.py, _validate_artifact_paths. *)
Definition validate_artifact_paths (c : OpenReviewCheckpoint) (node : PreflightExecutionNode) : outcome unit :=
  match ac_stage_path (en_artifact_contract node) with
  | None => Raise (ValueError "Checkpoint dependencies must belong to the compiled node stage.")
  | Some stage =>
      _ ← require (forallb (fun f => str_startswith (stage +:+ "/") (kf_relative_path f)) (ck_files c))
            "Checkpoint dependencies must belong to the compiled node stage.";
      for_each (fun _ '(i, path) =>
        require (bool_decide (path = expected_output_path stage (node_audit_rounds node) i))
          "Checkpoint output path does not match its selected coordinates.") (output_records c) tt
  end.

Definition node_tasks (node : PreflightExecutionNode) : list CheckpointTask :=
  map (fun p => mkCheckpointTask (pr_task_id p) (pr_role p)) (en_provider_records node).

(** Code: core/review_checkpoint.py, validate_checkpoint_node. *)
Definition validate_checkpoint_node (checkpoint : ReviewLoopCheckpoint) (node : PreflightExecutionNode) : outcome unit :=
  let identity := checkpoint_identity_of checkpoint in
  _ ← require (bool_decide (kid_expansion identity = en_expansion node))
        "Checkpoint expansion provenance does not match concrete node";
  _ ← require (checkpoint_node_is_eligible node && bool_decide (kid_node_id identity = en_id node)
               && bool_decide (kid_tasks identity = node_tasks node))
        "Checkpoint node identity or provider topology mismatch.";
  match checkpoint with
  | ClosedCheckpoint _ => Ok tt
  | OpenCheckpoint c =>
      _ ← validate_checkpoint_progress c node;
      _ ← validate_node_cursor c node;
      _ ← validate_invocation_coordinates c node;
      validate_artifact_paths c node
  end.

(** The project observed when the checkpoint was taken.
    Code: artifacts/resume/checkpoint_validation.py, require_checkpoint_project. *)
Definition require_checkpoint_project (c : OpenReviewCheckpoint) (node : PreflightExecutionNode)
    (observation : option CheckpointProjectObservation) : outcome unit :=
  if match en_workspace_policy node with Some p => wp_enabled p | None => false end then
    require (negb (is_some (ck_project_observation c))) "Managed checkpoint cannot carry an unmanaged project observation."
  else
    require (match ck_project_observation c, observation with
             | Some expected, Some observed => ko_reliable expected && ko_reliable observed
                                               && bool_decide (ko_fingerprint observed = ko_fingerprint expected)
             | _, _ => false
             end) ("Project contents changed or cannot be verified for review checkpoint " +:+ quoted (en_id node) +:+ ".").
