(* ===== verification/CheckpointProgress.v ===== *)
(** Encoding and restoring the progress of a review loop:
    runtime/execution/review_loop/checkpoint_progress.py and the verified reads
    of artifacts/resume/checkpoint_files.py.

    [files] gives the bytes of the contained regular files below the stage root,
    by relative path; a missing or unsafe file is [None].  Nothing else writes
    them while a checkpoint is read.  Decoding UTF-8 is the identity on ASCII. *)

From Stdlib Require Import ZArith Lia Ascii String.
From stdpp Require Import base gmap sets list strings.
From S2P Require Import Prelude PyStr Models PlanRecords Artifacts PlanContract PlanContractSpec Reviews.
From S2P Require Import ReviewCandidates ReviewLoopState RunState ReviewLoop Checkpoint.

Open Scope string_scope.
Open Scope list_scope.
Open Scope Z_scope.

Definition StageFiles : Type := string -> option string.

Section Files.
Context {hash : HashLibrary}.

(** The signature of some bytes. *)
Definition signature_of (bytes : string) : ContentSignature := (str_len bytes, sha256 bytes).

(** Code: artifacts/resume/checkpoint_files.py, _verify_checkpoint_file_signature. *)
Definition verify_checkpoint_file_signature (files : StageFiles) (relative_path : string) (signature : option ContentSignature)
    : outcome ContentSignature :=
  match files relative_path with
  | None => Raise (ValueError ("Checkpoint dependency is missing or unsafe: " +:+ relative_path))
  | Some bytes =>
      if match signature with Some s => negb (bool_decide (s = signature_of bytes)) | None => false end
      then Raise (ValueError ("Checkpoint dependency changed: " +:+ relative_path))
      else Ok (signature_of bytes)
  end.

(** Code: artifacts/resume/checkpoint_files.py, describe_checkpoint_file. *)
Definition describe_checkpoint_file (files : StageFiles) (relative_path : string) (invocation : CheckpointInvocation)
    (purpose : FilePurpose) (signature : option ContentSignature) : outcome CheckpointFile :=
  actual ← verify_checkpoint_file_signature files relative_path signature;
  let f := mkCheckpointFile invocation purpose relative_path actual in
  _ ← validate_checkpoint_file f; Ok f.

(** Code: artifacts/resume/checkpoint_files.py, read_checkpoint_file. *)
Definition read_checkpoint_file (files : StageFiles) (root : string) (descriptor : CheckpointFile) : outcome string :=
  let path := kf_relative_path descriptor in
  match files path with
  | None => Raise (ValueError ("Checkpoint dependency is missing or unsafe: " +:+ path))
  | Some payload =>
      if fst (kf_signature descriptor) <? str_len payload then
        Raise (ValueError ("File exceeds the " +:+ str_int (fst (kf_signature descriptor)) +:+ "-byte read limit: "
                           +:+ root +:+ "/" +:+ path))
      else if negb (bool_decide (signature_of payload = kf_signature descriptor)) then
        Raise (ValueError ("Checkpoint dependency changed: " +:+ path))
      else Ok payload
  end.

(** Code: artifacts/resume/checkpoint_files.py, verify_checkpoint_files. *)
Definition verify_checkpoint_files (files : StageFiles) (descriptors : list CheckpointFile) : outcome unit :=
  for_each (fun _ d =>
    actual ← verify_checkpoint_file_signature files (kf_relative_path d) (Some (kf_signature d));
    validate_checkpoint_file (mkCheckpointFile (kf_invocation d) (kf_purpose d) (kf_relative_path d) actual)) descriptors tt.

(** The target after the copy; the source is read and verified first.
    Code: artifacts/resume/checkpoint_files.py, copy_checkpoint_file. *)
Definition copy_checkpoint_file (source target : StageFiles) (source_root target_root : string) (descriptor : CheckpointFile)
    : outcome StageFiles :=
  payload ← read_checkpoint_file source source_root descriptor;
  let copied : StageFiles := fun p => if bool_decide (p = kf_relative_path descriptor) then Some payload else target p in
  _ ← read_checkpoint_file copied target_root descriptor;
  Ok copied.

(** ** Encoding *)

Section Encode.
Variable root : string.

(** [path.relative_to(root).as_posix()]. *)
Definition relative_to_root (path : string) : outcome string :=
  if str_startswith (root +:+ "/") path then Ok (of_chars (drop (String.length root + 1) (chars path)))
  else Raise (ValueError (quoted path +:+ " is not in the subpath of " +:+ quoted root)).

(** Code: runtime/execution/review_loop/checkpoint_progress.py, _counters. *)
Definition loop_counters (p : ReviewLoopProgress) : CheckpointCounters :=
  mkCheckpointCounters (lp_invalid_candidate_round_count p) (lp_no_progress_round_count p)
    (lp_artifact_drift_warning_count p) (lp_last_round_num p) (lp_selected_round_num p)
    (stop_reason_value <$> lp_stop_reason p).

Definition audit_counters (a : AuditRoundProgress) : CheckpointCounters :=
  mkCheckpointCounters (ap_invalid_candidate_round_count a) (ap_no_progress_round_count a)
    (ap_artifact_drift_warning_count a) (ap_last_round_num a) (ap_selected_round_num a)
    (stop_reason_value <$> ap_stop_reason a).

(** Code: runtime/execution/review_loop/checkpoint_progress.py, _candidate. *)
Definition encode_candidate (artifact : ExecutorRoundArtifact) : outcome CheckpointCandidate :=
  match ea_candidate_identity artifact with
  | None => Raise (ValueError "Checkpoint candidate lacks a bound identity.")
  | Some identity =>
      path ← relative_to_root (ea_output_file artifact);
      let d := mkCheckpointCandidateIdentity (ci_kind identity) (ci_fingerprint identity) (ci_source_fingerprint identity)
                 (ci_reason identity) in
      _ ← validate_candidate_classification d;
      let c := mkCheckpointCandidate
                 (mkCheckpointInvocation (ea_task_id artifact) EXECUTOR (producer_of (ea_audit_round_num artifact) None 1)
                    (ea_round_num artifact))
                 path
                 (producer_of (ea_producer_audit artifact) (ea_audit_round_num artifact) 1)
                 (producer_of (ea_producer_round artifact) None (ea_round_num artifact)) d in
      _ ← validate_checkpoint_candidate c; Ok c
  end.

(** Code: runtime/execution/review_loop/checkpoint_progress.py, _candidates. *)
Definition encode_candidates (artifacts : option (list ExecutorRoundArtifact)) : outcome (option (list CheckpointCandidate)) :=
  match artifacts with
  | None => Ok None
  | Some l => encoded ← mapM encode_candidate l; Ok (Some encoded)
  end.

(** Code: runtime/execution/review_loop/checkpoint_progress.py, _review. *)
Definition encode_review (artifact : ReviewerRoundArtifact) : outcome CheckpointReview :=
  let e := ra_evaluation artifact in
  path ← relative_to_root (ra_output_file artifact);
  let stored := mkCheckpointEvaluation (ev_verdict e) (approved e) (ev_major e) (ev_minor e) (ev_nits e)
                  (unresolved_fingerprints e) (unresolved_issue_count e) (normalized_markdown e) (raw_text e)
                  (evaluation_kind e) (warnings e) (original_verdict e) (had_leading_text e) (had_trailing_text e)
                  (unstructured_feedback e) in
  _ ← validate_checkpoint_evaluation stored;
  let r := mkCheckpointReview
             (mkCheckpointInvocation (ra_task_id artifact) REVIEWER (producer_of (ra_audit_round_num artifact) None 1)
                (ra_round_num artifact)) path stored in
  _ ← validate_checkpoint_review r; Ok r.

(** Code: runtime/execution/review_loop/checkpoint_progress.py, _encode_audit. *)
Definition encode_audit (active : option AuditRoundProgress) : outcome (option CheckpointAuditProgress) :=
  match active with
  | None => Ok None
  | Some a =>
      executor_outputs ← mapM encode_candidate (ap_executor_outputs a);
      previous ← encode_candidates (ap_previous_executor_outputs a);
      latest ← encode_candidates (ap_latest_valid_executor_outputs a);
      reviews ← mapM encode_review (ap_latest_reviewer_outputs a);
      let stored := mkCheckpointAudit (audit_counters a) executor_outputs previous (ap_previous_unresolved_fingerprints a)
                      (ap_previous_executor_fingerprint a) latest reviews (ap_reviewer_failures a) in
      _ ← validate_checkpoint_audit stored; Ok (Some stored)
  end.

(** Code: runtime/execution/review_loop/checkpoint_progress.py, encode_progress. *)
Definition encode_progress (progress : ReviewLoopProgress) : outcome CheckpointProgress :=
  audit ← encode_audit (lp_active_audit progress);
  latest ← encode_candidates (lp_latest_executor_outputs progress);
  reviews ← mapM encode_review (lp_latest_reviewer_outputs progress);
  let stall := mkCheckpointStall (consecutive_round_count (lp_stall progress)) (candidate_fingerprint (lp_stall progress))
                 (review_feedback (lp_stall progress)) in
  _ ← validate_checkpoint_stall stall;
  initial ← mapM encode_review (lp_initial_reviews progress);
  let stored := mkCheckpointProgress (loop_counters progress) latest reviews (lp_reviewer_failures progress)
                  (lp_executed_audit_rounds progress) (lp_consensus_reached progress)
                  (lp_continued_after_exhaustion progress) (lp_continued_after_stop progress) stall audit
                  (lp_initial_review_completed progress) initial (lp_initial_failures progress) in
  _ ← validate_checkpoint_progress_fields stored; Ok stored.

End Encode.

(** ** Restoring *)

(** [ReviewLoopStopReason(value)]. *)
Definition parse_stop_reason (value : string) : outcome ReviewLoopStopReason :=
  match List.find (fun r => bool_decide (stop_reason_value r = value)) STOP_REASONS with
  | Some r => Ok r
  | None => Raise (ValueError (quoted value +:+ " is not a valid ReviewLoopStopReason"))
  end.

(** Code: runtime/execution/review_loop/checkpoint_progress.py:170-172. *)
Definition restore_stop_reason (value : option string) : outcome (option ReviewLoopStopReason) :=
  match value with None => Ok None | Some v => r ← parse_stop_reason v; Ok (Some r) end.

(** Code: runtime/execution/review_loop/checkpoint_progress.py, ProgressRestorer. *)
Record ProgressRestorer := mkRestorer {
  pr_checkpoint : OpenReviewCheckpoint;
  pr_root : string;
  pr_providers : dict ProviderRecord;
  pr_files : dict CheckpointFile;
  pr_audit_rounds : Z;
  pr_bytes : StageFiles
}.

(** Code: runtime/execution/review_loop/checkpoint_progress.py, ProgressRestorer.__init__. *)
Definition make_restorer (checkpoint : OpenReviewCheckpoint) (root : string) (providers : list ProviderRecord)
    (audit_rounds : Z) (bytes : StageFiles) : ProgressRestorer :=
  mkRestorer checkpoint root (dict_of (map (fun p => (pr_task_id p, p)) providers)) (files_by_path checkpoint) audit_rounds bytes.

Section Restore.
Variable r : ProgressRestorer.

Definition restored_audit (audit : Z) : option Z := if 1 <? pr_audit_rounds r then Some audit else None.

(** Code: runtime/execution/review_loop/checkpoint_progress.py, ProgressRestorer.candidate. *)
Definition restore_candidate (item : CheckpointCandidate) : outcome ExecutorRoundArtifact :=
  descriptor ← ditem (pr_files r) (kc_output_path item);
  provider ← ditem (pr_providers r) (ki_task_id (kc_invocation item));
  content ← read_checkpoint_file (pr_bytes r) (pr_root r) descriptor;
  let d := kc_identity item in
  Ok (mkExecutorArtifact provider (ki_task_id (kc_invocation item)) content (pr_root r +:+ "/" +:+ kc_output_path item)
        (restored_audit (ki_audit (kc_invocation item))) (ki_local_round (kc_invocation item))
        (Some (kf_signature descriptor))
        (Some (mkIdentity (kd_kind d) (kd_fingerprint d) (kd_source_fingerprint d) (kd_reason d)))
        (Some (kc_producer_audit item)) (Some (kc_producer_round item))).

(** Code: runtime/execution/review_loop/checkpoint_progress.py, ProgressRestorer.candidates. *)
Definition restore_candidates (items : option (list CheckpointCandidate)) : outcome (option (list ExecutorRoundArtifact)) :=
  match items with
  | None => Ok None
  | Some l => restored ← mapM restore_candidate l; Ok (Some restored)
  end.

(** Code: runtime/execution/review_loop/checkpoint_progress.py, ProgressRestorer.evaluation. *)
Definition restore_evaluation (e : CheckpointEvaluation) : EvaluatedReviewResult :=
  mkEvaluated (ke_verdict e) (ke_approved e) (ke_major_issues e) (ke_minor_issues e) (ke_nitpicks e)
    (ke_unresolved_fingerprints e) (ke_unresolved_issue_count e) (ke_normalized_markdown e) (ke_raw_text e)
    (ke_evaluation_kind e) (ke_warnings e) (ke_original_verdict e) (ke_had_leading_text e) (ke_had_trailing_text e)
    (ke_unstructured_feedback e).

(** Code: runtime/execution/review_loop/checkpoint_progress.py, ProgressRestorer.reviews. *)
Definition restore_review (item : CheckpointReview) : outcome ReviewerRoundArtifact :=
  provider ← ditem (pr_providers r) (ki_task_id (kr_invocation item));
  descriptor ← ditem (pr_files r) (kr_output_path item);
  Ok (mkReviewerArtifact provider (ki_task_id (kr_invocation item)) (restore_evaluation (kr_evaluation item))
        (pr_root r +:+ "/" +:+ kr_output_path item) (restored_audit (ki_audit (kr_invocation item)))
        (ki_local_round (kr_invocation item)) (Some (kf_signature descriptor))).

(** The stall state is the loop's own.
    Code: runtime/execution/review_loop/checkpoint_progress.py, ProgressRestorer._restore_audit. *)
Definition restore_audit (active : CheckpointAuditProgress) : outcome AuditRoundProgress :=
  reviews ← mapM restore_review (ka_latest_reviewer_outputs active);
  executor_outputs ← mapM restore_candidate (ka_executor_outputs active);
  previous ← restore_candidates (ka_previous_executor_outputs active);
  latest ← restore_candidates (ka_latest_valid_executor_outputs active);
  let n := ka_counters active in
  stop ← restore_stop_reason (kn_stop_reason n);
  Ok (mkAudit executor_outputs previous
        (if is_some (ka_previous_executor_outputs active) then render_unresolved_review_packet reviews else None)
        (ka_previous_unresolved_fingerprints active) (ka_previous_executor_fingerprint active) latest reviews
        (kn_invalid_candidate_round_count n) (kn_no_progress_round_count n) (kn_artifact_drift_warning_count n)
        (kn_last_round_num n) (kn_selected_round_num n) stop (ka_reviewer_failures active)).

(** Code: runtime/execution/review_loop/checkpoint_progress.py, ProgressRestorer.restore. *)
Definition restore : outcome ReviewLoopProgress :=
  let c := pr_checkpoint r in
  let p := ck_progress c in
  latest ← restore_candidates (kp_latest_executor_outputs p);
  reviews ← mapM restore_review (kp_latest_reviewer_outputs p);
  initial ← mapM restore_review (kp_initial_reviews p);
  let n := kp_counters p in
  stop ← restore_stop_reason (kn_stop_reason n);
  let stall := mkStall (kst_consecutive_round_count (kp_stall p)) (kst_candidate_fingerprint (kp_stall p))
                 (kst_review_feedback (kp_stall p)) in
  audit ← match kp_active_audit p with None => Ok None | Some a => a ← restore_audit a; Ok (Some a) end;
  Ok (mkLoop latest reviews (kp_executed_audit_rounds p) (kn_last_round_num n) (kp_consensus_reached p)
        (kp_continued_after_exhaustion p) (kn_invalid_candidate_round_count n) (kn_no_progress_round_count n)
        (kn_artifact_drift_warning_count n) (kn_selected_round_num n) stop (kp_continued_after_stop p) stall audit
        (kp_reviewer_failures p) (kp_initial_review_completed p) initial (kp_initial_failures p)
        (ck_audit c) (ck_local_round c) (ck_next_phase c)).

End Restore.
End Files.
