(* ===== verification/CheckpointSpec.v ===== *)
(** What checkpoints preserve: restoring an encoded progress, starting a loop
    from a restored checkpoint, and what a finalized checkpoint shows. *)

From Stdlib Require Import ZArith Lia Ascii String.
From stdpp Require Import base gmap sets list list_numbers strings.
From S2P Require Import Prelude PyStr Models Scheduler PlanRecords Artifacts PlanContract PlanContractSpec Reviews.
From S2P Require Import ReviewCandidates StateExn ReviewLoopState ReviewLoop RunState Checkpoint CheckpointProgress.
From S2P Require Import ReviewLoopRounds ReviewLoopAudit ReviewLoopSpec ReviewLoopCorrect.

Open Scope string_scope.
Open Scope list_scope.
Open Scope Z_scope.

(** Checks that passed. *)
Ltac inv_checks :=
  repeat (inv_ok;
    match goal with
    | H : require _ _ = Ok ?u |- _ => is_var u; destruct u
    | H : require _ _ = Ok tt |- _ => apply require_Ok in H
    | H : fields _ _ = Ok ?u |- _ => is_var u; destruct u
    end).

(** ** Round trip *)

(** Converting a list there and back. *)
Lemma mapM_roundtrip {A B C} (f : A -> outcome B) (g : B -> outcome C) (h : A -> C) (P : A -> Prop) l l' :
  (forall a b, P a -> f a = Ok b -> g b = Ok (h a)) -> Forall P l -> mapM f l = Ok l' -> mapM g l' = Ok (map h l).
Proof.
  intros H Hl. revert l'. induction Hl as [|a l Ha Hl IH]; intros l' Hm; simpl in Hm; inv_ok; [by subst|].
  subst l'. simpl. rewrite (H a a0 Ha Hok). simpl. by rewrite (IH _ Hok0).
Qed.

Lemma relative_to_root_join root rel : relative_to_root root (root +:+ "/" +:+ rel) = Ok rel.
Proof.
  unfold relative_to_root, str_startswith. rewrite (proj2 (starts_with_spec _ _)).
  2: { exists (chars rel). by rewrite !chars_app, <- app_assoc. }
  f_equal. rewrite !chars_app, app_assoc, drop_app_length'; [apply of_chars_chars|].
  rewrite length_app, length_chars. simpl. lia.
Qed.

Section RoundTrip.
Context {hash : HashLibrary}.
Context (root : string) (providers : dict ProviderRecord) (files : dict CheckpointFile) (bytes : StageFiles) (audit_rounds : Z).

(** An output that the run published: its file holds the content and has a
    descriptor, its provider is the node's, and it carries an audit number only
    when the node has several audits. *)
Definition published (task_id : string) (provider : ProviderRecord) (output_file : string) (audit : option Z)
    (signature : option ContentSignature) : Prop :=
  dget providers task_id = Some provider /\
  (exists rel f, output_file = root +:+ "/" +:+ rel /\ dget files rel = Some f /\ signature = Some (kf_signature f)) /\
  (if 1 <? audit_rounds then exists n, audit = Some n /\ n <> 0 else audit = None).

Definition published_candidate (a : ExecutorRoundArtifact) : Prop :=
  published (ea_task_id a) (ea_provider a) (ea_output_file a) (ea_audit_round_num a) (ea_output_signature a) /\
  forall rel f, ea_output_file a = root +:+ "/" +:+ rel -> dget files rel = Some f ->
    kf_signature f = signature_of (ea_content a) /\ bytes (kf_relative_path f) = Some (ea_content a).

Definition published_review (a : ReviewerRoundArtifact) : Prop :=
  published (ra_task_id a) (ra_provider a) (ra_output_file a) (ra_audit_round_num a) (ra_output_signature a).

(** The producer coordinates that the code fills in. *)
Definition settle (a : ExecutorRoundArtifact) : ExecutorRoundArtifact :=
  mkExecutorArtifact (ea_provider a) (ea_task_id a) (ea_content a) (ea_output_file a) (ea_audit_round_num a) (ea_round_num a)
    (ea_output_signature a) (ea_candidate_identity a)
    (Some (producer_of (ea_producer_audit a) (ea_audit_round_num a) 1))
    (Some (producer_of (ea_producer_round a) None (ea_round_num a))).

Definition settle_audit (a : AuditRoundProgress) : AuditRoundProgress :=
  set_ap_executor_outputs (map settle (ap_executor_outputs a))
    (set_ap_previous_executor_outputs (map settle <$> ap_previous_executor_outputs a)
       (set_ap_latest_valid_executor_outputs (map settle <$> ap_latest_valid_executor_outputs a) a)).

Definition settle_progress (p : ReviewLoopProgress) : ReviewLoopProgress :=
  set_lp_latest_executor_outputs (map settle <$> lp_latest_executor_outputs p)
    (set_lp_active_audit (settle_audit <$> lp_active_audit p) p).

Definition published_candidates (o : option (list ExecutorRoundArtifact)) : Prop :=
  match o with None => True | Some l => Forall published_candidate l end.

(** The outputs of an audit are published. *)
Definition published_audit (a : AuditRoundProgress) : Prop :=
  Forall published_candidate (ap_executor_outputs a) /\ published_candidates (ap_previous_executor_outputs a) /\
  published_candidates (ap_latest_valid_executor_outputs a) /\ Forall published_review (ap_latest_reviewer_outputs a).

Record published_progress (p : ReviewLoopProgress) : Prop := {
  pb_latest : published_candidates (lp_latest_executor_outputs p);
  pb_reviews : Forall published_review (lp_latest_reviewer_outputs p);
  pb_initial : Forall published_review (lp_initial_reviews p);
  pb_audit : match lp_active_audit p with None => True | Some a => published_audit a end
}.

Context (checkpoint : OpenReviewCheckpoint).
Notation r := (mkRestorer checkpoint root providers files audit_rounds bytes).

Lemma restored_audit_eq audit : (if 1 <? audit_rounds then exists n, audit = Some n /\ n <> 0 else audit = None) ->
  restored_audit r (producer_of audit None 1) = audit.
Proof.
  unfold restored_audit, producer_of. simpl. destruct (1 <? audit_rounds); [|by intros ->].
  intros (n & -> & Hn). by rewrite (proj2 (Z.eqb_neq n 0) Hn).
Qed.

Lemma candidate_roundtrip a c : published_candidate a -> encode_candidate root a = Ok c -> restore_candidate r c = Ok (settle a).
Proof.
  intros [(Hprov & (rel & f & Hout & Hf & Hsig) & Haud) Hfile] He. unfold encode_candidate in He.
  destruct (ea_candidate_identity a) as [identity|] eqn:Ei; [|done]. rewrite Hout, relative_to_root_join in He. simpl in He. inv_ok. subst c.
  destruct (Hfile rel f Hout Hf) as [Hs Hb]. unfold restore_candidate. simpl.
  rewrite (proj2 (ditem_Ok files rel f) Hf). simpl. rewrite (proj2 (ditem_Ok providers _ _) Hprov). simpl.
  unfold read_checkpoint_file. simpl. rewrite Hb, Hs. simpl. rewrite Z.ltb_irrefl, bool_decide_eq_true_2 by done. simpl.
  unfold settle. rewrite Hsig, Hs, Ei, Hout. f_equal. f_equal; [by apply restored_audit_eq|]. by destruct identity.
Qed.

Lemma review_roundtrip a c : published_review a -> encode_review root a = Ok c -> restore_review r c = Ok a.
Proof.
  intros (Hprov & (rel & f & Hout & Hf & Hsig) & Haud) He. unfold encode_review in He.
  rewrite Hout, relative_to_root_join in He. simpl in He. inv_ok. subst c. unfold restore_review. simpl.
  rewrite (proj2 (ditem_Ok providers _ _) Hprov). simpl. rewrite (proj2 (ditem_Ok files rel f) Hf). simpl.
  rewrite restored_audit_eq by done. destruct a as [? ? e ? ? ? ?]. simpl in *. subst. f_equal. f_equal. by destruct e.
Qed.

Lemma candidates_roundtrip o c : published_candidates o -> encode_candidates root o = Ok c ->
  restore_candidates r c = Ok (map settle <$> o).
Proof.
  destruct o as [l|]; simpl; intros Hl He; inv_ok; subst c; [|done]. simpl.
  by rewrite (mapM_roundtrip _ _ _ _ _ _ candidate_roundtrip Hl Hok).
Qed.

Lemma reviews_roundtrip l c : Forall published_review l -> mapM (encode_review root) l = Ok c -> mapM (restore_review r) c = Ok l.
Proof. intros Hl He. rewrite <- (map_id l). by apply (mapM_roundtrip _ _ _ _ _ _ review_roundtrip Hl He). Qed.

Lemma stop_reason_roundtrip o : restore_stop_reason (stop_reason_value <$> o) = Ok o.
Proof. by destruct o as [[]|]. Qed.

Lemma audit_roundtrip a c : published_audit a -> packet_ok a -> encode_audit root (Some a) = Ok (Some c) -> restore_audit r c = Ok (settle_audit a).
Proof.
  intros (Hx & Hp & Hl & Hr) Hpacket He. unfold packet_ok in Hpacket. unfold encode_audit in He. inv_ok. subst c. unfold restore_audit. simpl.
  rewrite (reviews_roundtrip _ _ Hr Hok2). simpl. rewrite (mapM_roundtrip _ _ _ _ _ _ candidate_roundtrip Hx Hok). simpl.
  rewrite (candidates_roundtrip _ _ Hp Hok0). simpl. rewrite (candidates_roundtrip _ _ Hl Hok1). simpl. rewrite stop_reason_roundtrip. simpl.
  f_equal. unfold settle_audit. destruct a. simpl in *. subst. f_equal.
  unfold encode_candidates in Hok0. by destruct ap_previous_executor_outputs; inv_ok; subst.
Qed.

Lemma progress_roundtrip p : published_progress p -> (forall a, lp_active_audit p = Some a -> packet_ok a) ->
  encode_progress root p = Ok (ck_progress checkpoint) -> ck_audit checkpoint = lp_cursor_audit p ->
  restore r = Ok (settle_progress
    (set_lp_cursor_round (ck_local_round checkpoint) (set_lp_next_phase (ck_next_phase checkpoint) p))).
Proof.
  intros [Hl Hr Hi Ha] Hpk He Hca. unfold encode_progress in He. inv_ok. unfold restore. simpl. rewrite <- He, Hca. simpl.
  rewrite (candidates_roundtrip _ _ Hl Hok0). simpl. rewrite (reviews_roundtrip _ _ Hr Hok1). simpl.
  rewrite (reviews_roundtrip _ _ Hi Hok3). simpl. rewrite stop_reason_roundtrip. simpl.
  assert (match a with None => Ok None | Some x => x ← restore_audit r x; Ok (Some x) end = Ok (settle_audit <$> lp_active_audit p)) as ->.
  { destruct (lp_active_audit p) as [audit|]; simpl in Hok; [|by inv_ok; subst]. destruct a as [c|]; [|by inv_ok].
    by rewrite (audit_roundtrip audit c Ha (Hpk _ eq_refl) Hok). }
  simpl. f_equal. unfold settle_progress. destruct p as [? ? ? ? ? ? ? ? ? ? ? ? [] ? ? ? ? ? ? ? ?]. done.
Qed.

End RoundTrip.

(** ** Starting from a checkpoint *)

Section Restart.
Context {libs : ReviewLibraries} {env : ReviewLoopEnv} {tracking : Tracking}.
Context (c : OpenReviewCheckpoint) (node : PreflightExecutionNode) (root : string) (bytes : StageFiles).

Notation r := (make_restorer c root (en_provider_records node) (node_audit_rounds node) bytes).

Lemma files_by_path_key rel f : dget (files_by_path c) rel = Some f -> kf_relative_path f = rel.
Proof.
  intros H%dget_elem_of. unfold files_by_path in H.
  assert (forall l : list (string * CheckpointFile), (forall k v, (k, v) ∈ l -> kf_relative_path v = k) ->
    forall k v, (k, v) ∈ dict_of l -> kf_relative_path v = k) as Hgen.
  { intros l. induction l as [|[k0 v0] l IH] using rev_ind; intros Hl k v Hk; [by apply elem_of_nil in Hk|].
    rewrite dict_of_snoc in Hk. apply elem_of_dget in Hk; [|apply NoDup_dkeys_dset, NoDup_dict_of].
    rewrite dget_dset in Hk. destruct (decide (k0 = k)) as [->|?]; [injection Hk as <-; apply Hl; set_solver|].
    apply dget_elem_of in Hk. eapply IH; [|done]. intros k' v' ?. apply Hl. set_solver. }
  eapply Hgen; [|done]. intros k v (x & [= -> ->] & _)%list_elem_of_fmap. done.
Qed.

(** What a restored candidate is. *)
Lemma restore_candidate_facts item a : restore_candidate r item = Ok a ->
  ea_task_id a = ki_task_id (kc_invocation item) /\ bytes (kc_output_path item) = Some (ea_content a).
Proof.
  unfold restore_candidate. intros H. inv_ok. subst a. simpl. split; [done|]. apply ditem_Ok in Hok. apply files_by_path_key in Hok.
  unfold read_checkpoint_file in Hok1. rewrite Hok in Hok1. simpl in Hok1. destruct (bytes (kc_output_path item)) as [payload|]; [|done].
  destruct (_ <? _); [done|]. destruct (negb _); [done|]. by injection Hok1 as ->.
Qed.

Lemma restore_group_facts group l : mapM (restore_candidate r) group = Ok l ->
  map ea_task_id l = map (fun x => ki_task_id (kc_invocation x)) group /\
  Forall (fun a => exists x, x ∈ group /\ bytes (kc_output_path x) = Some (ea_content a)) l.
Proof.
  revert l. induction group as [|x group IH]; intros l H; simpl in H; inv_ok; subst l; [done|].
  destruct (restore_candidate_facts _ _ Hok) as [Hid Hb], (IH _ Hok0) as [Hids Hall]. simpl. split; [by rewrite Hid, Hids|].
  constructor; [exists x; split; [by left | done]|]. eapply Forall_impl; [exact Hall|]. intros b (y & Hy & ?). exists y. split; [by right | done].
Qed.

(** The groups of a validated checkpoint are complete. *)
Lemma groups_complete : validate_candidate_groups c = Ok tt ->
  forall g, Some g ∈ candidate_groups (ck_progress c) -> map (fun x => ki_task_id (kc_invocation x)) g = checkpoint_executors c.
Proof.
  unfold validate_candidate_groups. intros H. inv_ok. clear H. revert a Hok. generalize ([] : dict CheckpointCandidate).
  induction (candidate_groups (ck_progress c)) as [|o groups IH]; intros d a H g Hg; [by apply elem_of_nil in Hg|].
  simpl in H. inv_ok. apply elem_of_cons in Hg as [<-|Hg]; [|by eapply IH]. inv_ok.
  unfold validate_executor_group in Hok0. inv_checks. apply andb_true_iff in Hok0 as [Hids _]. by apply bool_decide_eq_true in Hids.
Qed.

Lemma role_ids_node role : role_ids role (node_tasks node) =
  map pr_task_id (List.filter (fun p => bool_decide (pr_role p = role)) (en_provider_records node)).
Proof.
  unfold role_ids, node_tasks. induction (en_provider_records node) as [|p l IH]; [done|]. simpl.
  destruct (bool_decide (pr_role p = role)); simpl; by rewrite IH.
Qed.

(** The loop's context is the node's. *)
Definition context_of (context : ReviewLoopRunContext) : Prop :=
  cx_stage context = node /\
  split_sequential_review_loop_providers (en_id node) (en_provider_records node) = Ok (cx_executors context, cx_reviewers context) /\
  resolve_audit_rounds node = Ok (cx_audit_rounds context).

Lemma context_roles context : context_of context ->
  map pr_task_id (cx_executors context) = role_ids EXECUTOR (node_tasks node) /\
  map pr_task_id (cx_reviewers context) = role_ids REVIEWER (node_tasks node) /\
  cx_audit_rounds context = node_audit_rounds node.
Proof.
  intros (_ & Hs & Ha). unfold split_sequential_review_loop_providers in Hs. destruct (negb _); [done|].
  destruct (List.filter _ _) as [|x xs] eqn:E1 in Hs; [done|]. destruct (List.filter _ _) as [|y ys] eqn:E2 in Hs; [done|].
  injection Hs as <- <-. rewrite !role_ids_node, E1, E2. split_and!; [done..|]. unfold resolve_audit_rounds in Ha.
  destruct (match xp_audit_rounds _ with Some _ => _ | None => _ end); [done|]. by injection Ha as <-.
Qed.

(** Every candidate file holds an output the loop accepted. *)
Definition usable_candidates : Prop :=
  forall x content, x ∈ progress_candidates (ck_progress c) -> bytes (kc_output_path x) = Some content ->
    classify_executor_output content = None.

Lemma group_in_candidates g x : Some g ∈ candidate_groups (ck_progress c) -> x ∈ g -> x ∈ progress_candidates (ck_progress c).
Proof.
  unfold candidate_groups, progress_candidates. destruct (ck_progress c) as [? latest ? ? ? ? ? ? ? active ? ? ?]. simpl.
  intros Hg Hx. apply elem_of_cons in Hg as [<-|Hg]; [simpl; by apply elem_of_app; left|]. apply elem_of_app. right.
  destruct active as [a|]; [|by apply elem_of_nil in Hg]. rewrite !elem_of_app.
  repeat (apply elem_of_cons in Hg as [Hg|Hg]); [..|by apply elem_of_nil in Hg]; [injection Hg as ->; by left|..]; rewrite <- Hg; simpl; auto.
Qed.

(** A restored group is a candidate of the loop. *)
Lemma restored_group_ok context g l : context_of context -> kid_tasks (ck_identity c) = node_tasks node ->
  validate_candidate_groups c = Ok tt -> usable_candidates ->
  Some g ∈ candidate_groups (ck_progress c) -> mapM (restore_candidate r) g = Ok l -> candidate_ok (context := context) l.
Proof.
  intros Hcx Ht Hv Hu Hg Hl. destruct (restore_group_facts g l Hl) as [Hids Hall]. split.
  - apply outputs_valid. eapply Forall_impl; [exact Hall|]. intros a (x & Hx & Hb). eapply Hu; [|exact Hb]. by eapply group_in_candidates.
  - destruct (context_roles context Hcx) as (He & _). rewrite He, Hids, <- Ht. by apply groups_complete.
Qed.

Lemma restore_candidates_Some o l : restore_candidates r o = Ok (Some l) -> exists g, o = Some g /\ mapM (restore_candidate r) g = Ok l.
Proof. destruct o as [g|]; simpl; intros H; inv_ok; [|done]. exists g. split; [done|]. by rewrite <- H. Qed.

Lemma restore_candidates_None o : restore_candidates r o = Ok None -> o = None.
Proof. destruct o as [g|]; simpl; intros H; by inv_ok. Qed.

(** The fields of a restored progress the loop reads first. *)
Lemma restore_facts p : restore r = Ok p ->
  restore_candidates r (kp_latest_executor_outputs (ck_progress c)) = Ok (lp_latest_executor_outputs p) /\
  mapM (restore_review r) (kp_latest_reviewer_outputs (ck_progress c)) = Ok (lp_latest_reviewer_outputs p) /\
  consecutive_round_count (lp_stall p) = kst_consecutive_round_count (kp_stall (ck_progress c)) /\
  (lp_cursor_audit p = ck_audit c /\ lp_cursor_round p = ck_local_round c /\ lp_next_phase p = ck_next_phase c) /\
  match kp_active_audit (ck_progress c), lp_active_audit p with
  | None, None => True | Some a, Some a' => restore_audit r a = Ok a' | _, _ => False
  end /\
  (lp_consensus_reached p = kp_consensus_reached (ck_progress c) /\
   restore_stop_reason (kn_stop_reason (kp_counters (ck_progress c))) = Ok (lp_stop_reason p)).
Proof.
  unfold restore. simpl. intros H. inv_ok. subst p. simpl. split_and!; [done..| |done|done].
  destruct (kp_active_audit (ck_progress c)); inv_ok; subst; simpl; done.
Qed.

(** Some reviewer of the stored reviews failed or did not approve, or there is none. *)
Definition stored_refusal (a : CheckpointAuditProgress) : Prop :=
  ka_reviewer_failures a <> [] \/ ka_latest_reviewer_outputs a = [] \/
  exists x, x ∈ ka_latest_reviewer_outputs a /\ ke_approved (kr_evaluation x) = false.

(** What the loop needs of a checkpoint inside an audit: the audit was not
    stopped, its last reviews did not approve, and at most one attempt in a row
    changed nothing. *)
Definition unsettled_progress : Prop :=
  0 <= kst_consecutive_round_count (kp_stall (ck_progress c)) <= 1 /\
  match kp_active_audit (ck_progress c) with None => True | Some a => kn_stop_reason (ka_counters a) = None /\ stored_refusal a end.

Lemma active_phase : validate_references c = Ok tt -> validate_progress_cursor c node = Ok tt ->
  ck_next_phase c <> PhaseFinalize -> 1 <= ck_local_round c ->
  kp_active_audit (ck_progress c) = None -> ck_local_round c = 1 /\ ck_next_phase c = PhaseExecutors.
Proof.
  unfold validate_references, validate_progress_cursor, validate_phase_requirements. intros Hr Hc Hf Hl Ha. rewrite Ha in *.
  inv_checks. destruct (ck_next_phase c); [|exfalso|done].
  - split; [|done]. simpl in *. apply negb_true_iff in Hr. rewrite andb_true_r in Hr. apply Z.ltb_ge in Hr. lia.
  - simpl in *. match goal with H : negb (_ && true) = true |- _ => apply negb_true_iff in H; rewrite andb_true_r in H; apply Z.ltb_ge in H end. lia.
Qed.

Lemma selected_feedback a : 
  validate_selected_batch c (ka_latest_valid_executor_outputs a) (ka_latest_reviewer_outputs a) (ka_reviewer_failures a)
    (kn_selected_round_num (ka_counters a)) = Ok tt ->
  ka_latest_valid_executor_outputs a = None -> ka_latest_reviewer_outputs a = [].
Proof.
  unfold validate_selected_batch. intros H Hn. rewrite Hn in H. destruct (_ =? 0); [|done]. inv_checks. by destruct (ka_latest_reviewer_outputs a).
Qed.

(** The parts of a validated checkpoint. *)
Record checkpoint_valid : Prop := {
  cv_refs : validate_references c = Ok tt;
  cv_tasks : kid_tasks (ck_identity c) = node_tasks node;
  cv_groups : validate_candidate_groups c = Ok tt;
  cv_cursor : validate_progress_cursor c node = Ok tt;
  cv_selected : validate_selected_reviews c = Ok tt;
  cv_policy : validate_review_policy (ck_progress c) node = Ok tt;
  cv_final : ck_next_phase c = PhaseFinalize -> validate_finalization c node = Ok tt;
  cv_bounds : ck_audit c <= node_audit_rounds node
}.

Lemma node_checkpoint_valid : validate_references c = Ok tt -> validate_checkpoint_node (OpenCheckpoint c) node = Ok tt ->
  checkpoint_valid.
Proof.
  intros Hr Hn. unfold validate_checkpoint_node, validate_checkpoint_progress, validate_node_cursor in Hn. simpl in Hn. inv_checks.
  repeat match goal with u : unit |- _ => destruct u end. apply andb_true_iff in Hok0 as [_ Ht]. apply bool_decide_eq_true in Ht.
  split; try done; [by intros E; rewrite E in *|].
  match goal with H : negb (_ || _) = true |- _ => apply negb_true_iff, orb_false_iff in H as [H _]; by apply Z.ltb_ge in H end.
Qed.

Lemma restore_reviews_facts l l' : mapM (restore_review r) l = Ok l' ->
  map ra_task_id l' = map (fun x => ki_task_id (kr_invocation x)) l /\
  map (fun a => approved (ra_evaluation a)) l' = map (fun x => ke_approved (kr_evaluation x)) l.
Proof.
  revert l'. induction l as [|x l IH]; intros l' H; simpl in H; inv_ok; subst l'; [done|].
  destruct (IH _ Hok0) as [H1 H2]. unfold restore_review in Hok. inv_ok. subst a. simpl. by rewrite H1, H2.
Qed.

(** A restored audit has the feedback of its reviews, which did not approve. *)
Lemma restored_between a a' : unsettled_progress -> kp_active_audit (ck_progress c) = Some a -> restore_audit r a = Ok a' -> between a'.
Proof.
  intros [_ Hs] Ha Hr. rewrite Ha in Hs. destruct Hs as [_ Hs]. unfold restore_audit in Hr. inv_ok. subst a'. split.
  - unfold packet_ok. simpl. destruct (ka_previous_executor_outputs a); simpl in *; inv_ok; by subst.
  - unfold refused. simpl. destruct Hs as [?|[E|(x & Hx & Happ)]]; [by left | right; left | right; right].
    + rewrite E in Hok. by injection Hok as <-.
    + destruct (restore_reviews_facts _ _ Hok) as [_ Hmap]. assert (false ∈ map (fun y => ke_approved (kr_evaluation y)) (ka_latest_reviewer_outputs a)) as Hin
        by (rewrite <- Happ; apply list_elem_of_fmap; eauto).
      rewrite <- Hmap in Hin. apply list_elem_of_fmap in Hin as (y & Hy & Hin). by exists y.
Qed.

Lemma restored_audit_inv context a a' p io : context_of context -> checkpoint_valid -> usable_candidates -> unsettled_progress ->
  kp_active_audit (ck_progress c) = Some a -> restore_audit r a = Ok a' ->
  consecutive_round_count (lp_stall p) = kst_consecutive_round_count (kp_stall (ck_progress c)) ->
  io_trace io = [] -> audit_inv (context := context) (mkAuditState p a' io).
Proof.
  intros Hcx Hv Hu [Hst Hstop] Ha Hr Hstall Hio. rewrite Ha in Hstop. destruct Hstop as [Hstop _].
  unfold restore_audit in Hr. inv_ok. rewrite Hstop in Hok3. injection Hok3 as <-.
  assert (forall g l, Some g ∈ candidate_groups (ck_progress c) -> mapM (restore_candidate r) g = Ok l -> candidate_ok (context := context) l) as Hg
    by (intros; by eapply restored_group_ok; [|apply cv_tasks|apply cv_groups|..]).
  unfold candidate_groups in Hg. rewrite Ha in Hg. subst a'.
  split; unfold current_stall; simpl; [split; simpl| | | |]; rewrite ?Hstall.
  - intros l ->. apply restore_candidates_Some in Hok2 as (g & E & Hl). apply (Hg g l); [rewrite <- E; set_solver | done].
  - unfold reviews_asked. rewrite Hio. constructor.
  - intros _. unfold checkpoints_made. rewrite Hio. constructor.
  - left. split; [done|]. unfold current_stall. simpl. by rewrite Hstall.
  - apply (Hg (ka_executor_outputs a)); [set_solver | done].
  - intros Hp Hn. subst. apply Hp. apply restore_candidates_None in Hok2.
    pose proof (cv_selected Hv) as Hsel. unfold validate_selected_reviews in Hsel. rewrite Ha in Hsel. inv_ok.
    apply (selected_feedback a) in Hsel; [|done]. rewrite Hsel in Hok. simpl in Hok. injection Hok as <-. by destruct (is_some _).
  - done.
  - done.
Qed.

Lemma restored_startable context p io : context_of context -> checkpoint_valid -> usable_candidates -> unsettled_progress ->
  ck_next_phase c <> PhaseFinalize -> 1 <= ck_local_round c -> restore r = Ok p -> io_trace io = [] ->
  startable (context := context) (mkLoopState p io).
Proof.
  intros Hcx Hv Hu Hs Hph Hlr Hr Hio. destruct (restore_facts p Hr) as (Hlat & _ & Hstall & (Hca & Hcr & Hcp) & Hact & _).
  destruct (context_roles context Hcx) as (_ & _ & Hrounds).
  assert (forall g l, Some g ∈ candidate_groups (ck_progress c) -> mapM (restore_candidate r) g = Ok l -> candidate_ok (context := context) l) as Hg
    by (intros; by eapply restored_group_ok; [|apply cv_tasks|apply cv_groups|..]).
  split; [|left; simpl; rewrite Hca, Hrounds; apply (cv_bounds Hv)]. split; simpl.
  - split; simpl; [|unfold log, reviews_asked, checkpoints_made; rewrite Hio; split; [constructor | intros _; constructor]]. intros l E. rewrite E in Hlat. apply restore_candidates_Some in Hlat as (g & Eg & Hl).
    apply (Hg g l); [unfold candidate_groups; rewrite Eg; left | done].
  - rewrite Hstall. apply Hs.
  - intros E. rewrite E in Hact. destruct (kp_active_audit (ck_progress c)) as [a|] eqn:Ea; [done|]. rewrite Hcr, Hcp.
    by apply active_phase; [apply cv_refs | apply cv_cursor|..].
  - intros a' E. rewrite E in Hact. destruct (kp_active_audit (ck_progress c)) as [a|] eqn:Ea; [|done].
    split_and!; [by eapply restored_audit_inv | by intros _; eapply restored_between | by rewrite Hcr|]. intros _. unfold restore_audit in Hact. inv_ok. subst a'. simpl.
    apply (Hg (ka_executor_outputs a)); [unfold candidate_groups; rewrite Ea; set_solver | done].
Qed.

(** ** Finalized checkpoints *)

Lemma all_true {A} (f : A -> bool) l : Forall (fun a => f a = true) l <-> Forall (fun b => b = true) (map f l).
Proof. induction l as [|a l IH]; [done|]. simpl. by rewrite !Forall_cons, IH. Qed.

Lemma forallb_Forall {A} (f : A -> bool) l : forallb f l = true -> Forall (fun a => f a = true) l.
Proof. induction l as [|a l IH]; simpl; [done|]. intros [? ?]%andb_true_iff. by constructor; [|apply IH]. Qed.

Lemma filter_none_in (l : list string) : List.filter (fun t => negb (str_in t [])) l = l.
Proof. induction l as [|x l IH]; [done|]. cbn [List.filter]. replace (negb (str_in x [])) with true by done. by f_equal. Qed.

Lemma finalize_requirements : validate_references c = Ok tt -> ck_next_phase c = PhaseFinalize ->
  kp_active_audit (ck_progress c) = None /\ (exists x g, kp_latest_executor_outputs (ck_progress c) = Some (x :: g)) /\
  1 <= kn_selected_round_num (kp_counters (ck_progress c)).
Proof.
  unfold validate_references, validate_phase_requirements. intros Hr Hph. rewrite Hph in Hr. inv_checks. clear Hr.
  match goal with H : negb (bool_decide (PhaseFinalize = PhaseFinalize) && _) = true |- _ => rename H into Hf end.
  apply negb_true_iff in Hf. simpl in Hf. rewrite !orb_false_iff in Hf. destruct Hf as [[Ha Hl] Hs]. apply Z.ltb_ge in Hs.
  split_and!; [by destruct (kp_active_audit _)| |done]. destruct (kp_latest_executor_outputs _) as [[|x g]|]; try done. eauto.
Qed.

(** Consensus is backed by a complete batch of reviews. *)
Lemma consensus_batch : checkpoint_valid -> ck_next_phase c = PhaseFinalize -> kp_consensus_reached (ck_progress c) = true ->
  map (fun x => ki_task_id (kr_invocation x)) (kp_latest_reviewer_outputs (ck_progress c)) = checkpoint_reviewers c.
Proof.
  intros Hv Hph Hcons. destruct (finalize_requirements (cv_refs Hv) Hph) as (_ & (x & g & Hg) & Hsel).
  pose proof (cv_policy Hv) as Hpol. unfold validate_review_policy in Hpol. inv_checks. rewrite Hcons in Hpol.
  destruct (kp_reviewer_failures (ck_progress c)) as [|f fs] eqn:Ef; [|done].
  pose proof (cv_selected Hv) as Hb. unfold validate_selected_reviews in Hb. inv_ok. clear Hb. rewrite Ef, Hg in Hok0.
  unfold validate_selected_batch in Hok0. rewrite (proj2 (Z.eqb_neq _ 0)) in Hok0 by lia. cbn [default id from_option] in Hok0.
  unfold id, validate_batch in Hok0. inv_checks. apply bool_decide_eq_true in Hok0. rewrite Hok0. apply filter_none_in.
Qed.

(** Why a checkpoint may be finalized. *)
Definition finalized (context : ReviewLoopRunContext) (p : ReviewLoopProgress) : Prop :=
  (lp_stop_reason p = Some CONSENSUS /\ lp_consensus_reached p = true /\
   map ra_task_id (lp_latest_reviewer_outputs p) = map pr_task_id (cx_reviewers context) /\
   Forall (fun a => approved (ra_evaluation a) = true) (lp_latest_reviewer_outputs p)) \/
  (lp_stop_reason p = Some CONSENSUS_EXHAUSTED /\ lp_consensus_reached p = false /\
   fst (consensus_failure_allows_continuation node) = true) \/
  (lp_stop_reason p = Some NO_PROGRESS /\ lp_consensus_reached p = false /\
   xp_continue_on_failure (en_execution_policy node) = true).

Lemma restored_finalized context p : context_of context -> checkpoint_valid -> usable_candidates ->
  ck_next_phase c = PhaseFinalize -> restore r = Ok p ->
  (exists outputs, lp_latest_executor_outputs p = Some outputs /\ candidate_ok (context := context) outputs) /\ finalized context p.
Proof.
  intros Hcx Hv Hu Hph Hr. destruct (restore_facts p Hr) as (Hlat & Hrev & _ & _ & _ & Hcons & Hstop).
  destruct (context_roles context Hcx) as (_ & Hroles & _). destruct (finalize_requirements (cv_refs Hv) Hph) as (_ & (x & g & Hg) & _).
  split.
  { destruct (lp_latest_executor_outputs p) as [l|]; [|by apply restore_candidates_None in Hlat; congruence]. exists l. split; [done|].
    apply restore_candidates_Some in Hlat as (g' & Eg & Hl). eapply restored_group_ok; [done | by apply cv_tasks | by apply cv_groups | done | | done].
    unfold candidate_groups. rewrite Eg. left. }
  pose proof (cv_final Hv Hph) as Hf. unfold validate_finalization in Hf. inv_checks. clear Hok.
  destruct (restore_reviews_facts _ _ Hrev) as [Hids Happ]. unfold finalized. rewrite Hcons.
  destruct (bool_decide_reflect (kn_stop_reason (kp_counters (ck_progress c)) = Some "consensus")) as [E|_];
    [|destruct (bool_decide_reflect (kn_stop_reason (kp_counters (ck_progress c)) = Some "no_progress")) as [E|_];
      [|destruct (bool_decide_reflect (kn_stop_reason (kp_counters (ck_progress c)) = Some "consensus_exhausted")) as [E|_]; [|done]]];
    rewrite E in Hstop; injection Hstop as Hstop; rewrite <- Hstop.
  - left. apply andb_true_iff in Hf as [[Hc Hall]%andb_true_iff _]. split_and!; [done | done | |].
    + rewrite Hids, Hroles, consensus_batch by done. unfold checkpoint_reviewers. by rewrite (cv_tasks Hv).
    + apply all_true. rewrite Happ, <- all_true. by apply forallb_Forall.
  - right; right. apply andb_true_iff in Hf as [Hf Hn]. apply andb_true_iff in Hf as [Hx _].
    apply negb_true_iff, orb_false_iff in Hn as [Hc _]. done.
  - right; left. apply andb_true_iff in Hf as [Hf Hn]. apply andb_true_iff in Hf as [Hf _]. apply andb_true_iff in Hf as [Hx _].
    apply negb_true_iff in Hn. unfold consensus_failure_allows_continuation.
    destruct (xp_continue_on_failure _); [done|]. simpl in Hx. rewrite Hx. done.
Qed.

End Restart.
