(* ===== verification/CheckpointCorrect.v ===== *)
(** The correctness of resuming a review loop from a checkpoint: what is
    encoded is restored, a resumed loop keeps the promises of a fresh one, and a
    finalized checkpoint carries the evidence of its outcome. *)

From Stdlib Require Import ZArith Lia Ascii String.
From stdpp Require Import base gmap sets list list_numbers strings.
From S2P Require Import Prelude PyStr Models Scheduler PlanRecords Artifacts PlanContract PlanContractSpec Reviews.
From S2P Require Import ReviewCandidates StateExn ReviewLoopState ReviewLoop RunState Checkpoint CheckpointProgress.
From S2P Require Import ReviewLoopRounds ReviewLoopAudit ReviewLoopSpec ReviewLoopCorrect CheckpointSpec.

Open Scope string_scope.
Open Scope list_scope.
Open Scope Z_scope.

Section CheckpointClaims.
Context {libs : ReviewLibraries} {env : ReviewLoopEnv}.
Context (c : OpenReviewCheckpoint) (node : PreflightExecutionNode) (root : string) (bytes : StageFiles).

Notation r := (make_restorer c root (en_provider_records node) (node_audit_rounds node) bytes).

(** C34 (roundtrip): A checkpoint that a review loop commits between its rounds restores to the progress the loop goes
    on with.  The loop is any run from a state with an audit left; the stored checkpoint is the encoding of the progress
    committed, with the phase, audit and round it was committed for.  When the files hold the bytes the outputs were
    published with, the outputs are those of the node's providers and carry the number of their audit exactly if the node
    has several, restoring succeeds and gives that progress back, the feedback for the executors, which is not stored,
    included; only the producer of every candidate, which the encoding fills in, is made explicit.
    Definitions: encode_progress, encode_candidate, encode_review, encode_audit, restore, restore_audit, restore_candidate, restore_review, read_checkpoint_file, commit_transition, commit_loop_transition, advance_review_state. *)
Theorem checkpoint_restores_progress (context : ReviewLoopRunContext) (laws : ReviewLoopEnvLaws context) (s : LoopState)
    (phase : CheckpointPhase) (audit round : Z) (p : ReviewLoopProgress) :
  startable (tracking := with_history) (context := context) s ->
  (phase, audit, round, p) ∈ checkpoints_made (ls_io (snd (execute_review_loop_audits context s))) ->
  published_progress root (pr_providers r) (files_by_path c) bytes (node_audit_rounds node) p ->
  encode_progress root p = Ok (ck_progress c) ->
  ck_next_phase c = phase -> ck_audit c = audit -> ck_local_round c = round ->
  restore r = Ok (settle_progress (set_lp_cursor_round round (set_lp_next_phase phase p))).
Proof.
  intros Hs Hin Hp He <- Ha <-. pose proof (audits_checkpoints s Hs) as Hall. rewrite Forall_forall in Hall.
  destruct (Hall _ Hin) as [Hca Hpk]. apply progress_roundtrip; [done | done | done | congruence].
Qed.


(** A finalize checkpoint that passed validation shows why its node may complete: it restores to a valid
    candidate with one output per executor, and either consensus was reached with an approval of every reviewer of the
    node, or the audits were exhausted under a policy that continues, or nothing changed and the node continues on
    failures. *)
Theorem finalized_checkpoint_has_cause (context : ReviewLoopRunContext) (p : ReviewLoopProgress) :
  context_of node context ->
  validate_references c = Ok tt -> validate_checkpoint_node (OpenCheckpoint c) node = Ok tt ->
  ck_next_phase c = PhaseFinalize -> usable_candidates c bytes -> restore r = Ok p ->
  (exists outputs, lp_latest_executor_outputs p = Some outputs /\ candidate_ok (context := context) outputs) /\
  finalized node context p.
Proof. intros Hcx Hr Hn Hph Hu Hres. eapply restored_finalized; [exact Hcx | by apply node_checkpoint_valid|..]; done. Qed.

End CheckpointClaims.

(** ** Checkpoints of a node with one executor and one reviewer *)

Module CheckpointExample.
Import LoopExample.

Definition digest : string := "0123456789abcdef0123456789abcdef0123456789abcdef0123456789abcdef".

#[local] Instance libraries : ReviewLibraries := {| markdown_parse := fun _ => []; sha256_hex := fun _ => digest |}.

Definition content : string := "The parser passes every test.".
Definition output_path : string := "build/" +:+ build_task_round_filename "codex" 1.
Definition review_path : string := "build/" +:+ build_task_round_filename "claude" 1.
Definition bytes : StageFiles := fun p => if bool_decide (p = output_path) then Some content else None.

Definition candidate : ExecutorRoundArtifact :=
  mkExecutorArtifact executor "codex" content ("run/" +:+ output_path) None 1 (Some (signature_of content))
    (Some (mkIdentity "document" (Some digest) None None)) None None.
Definition approval : ReviewerRoundArtifact :=
  mkReviewerArtifact reviewer "claude"
    (mkEvaluated (Some "approved") true "" "" "" [] 0 "LGTM" "LGTM" "plain_language_approval" [] None false false None)
    ("run/" +:+ review_path) None 1 (Some (signature_of "LGTM")).

(* Waiting for the first review, and after it approved. *)
Definition waiting : ReviewLoopProgress :=
  mkLoop None [] 1 0 false false 0 0 0 0 None false fresh_stall
    (Some (mkAudit [candidate] None None [] None None [] 0 0 0 0 0 None [])) [] false [] [] 1 1 PhaseReviewers.
Definition settled : ReviewLoopProgress :=
  mkLoop (Some [candidate]) [approval] 1 1 true false 0 0 0 1 (Some CONSENSUS) false fresh_stall None [] false [] []
    1 1 PhaseFinalize.

Definition files : list CheckpointFile :=
  [mkCheckpointFile (mkCheckpointInvocation "codex" EXECUTOR 1 1) executor_output output_path (signature_of content);
   mkCheckpointFile (mkCheckpointInvocation "claude" REVIEWER 1 1) reviewer_output review_path (signature_of "LGTM")].

Definition checkpoint_of (p : ReviewLoopProgress) : OpenReviewCheckpoint :=
  mkOpenCheckpoint
    (mkCheckpointIdentity 3 "1" "flow" "flow" digest "run" "run" "build" (node_tasks node) None)
    (lp_cursor_audit p) (lp_cursor_round p) (lp_next_phase p)
    (match encode_progress "run" p with
     | Ok stored => stored
     | _ => mkCheckpointProgress (loop_counters p) None [] [] 0 false false false (mkCheckpointStall 0 None []) None false [] []
     end) files [] [] None None.

Definition restored (p : ReviewLoopProgress) : outcome ReviewLoopProgress :=
  restore (make_restorer (checkpoint_of p) "run" (en_provider_records node) (node_audit_rounds node) bytes).

Lemma node_context : context_of node context.
Proof. split_and!; vm_compute; reflexivity. Qed.

Lemma candidates_usable p : Forall (fun x => kc_output_path x = output_path) (progress_candidates (ck_progress (checkpoint_of p))) ->
  usable_candidates (checkpoint_of p) bytes.
Proof.
  intros Hall x text Hx Hb. rewrite Forall_forall in Hall. rewrite (Hall x Hx) in Hb. unfold bytes in Hb.
  rewrite bool_decide_eq_true_2 in Hb by done. injection Hb as <-. vm_compute. reflexivity.
Qed.

(* A loop that publishes its outputs; the reviewer refuses every candidate. *)
Definition publishing : ReviewLoopEnv := {|
  world := nat;
  resolve_prompt _ _ _ w := (Ok "Write a parser.", w);
  enforce_prompt_budget _ w := (Ok tt, w);
  call_executor _ _ _ w := (Ok (content, Some (signature_of content), 0), w);
  bind_candidate_identity _ a w := (Ok (mkIdentity "document" (Some digest) None None), w);
  gather_reviewers _ _ w := (Ok [inl (mkInvocation "claude.md" (1, digest) 0)], S w);
  read_bound_invocation_output _ _ w := (Ok "The parser must fix test 1.", w);
  publish_invocation_output _ _ signature w := (Ok signature, w);
  publish_text text _ _ w := (Ok (signature_of text), w);
  perform _ w := (Ok tt, w);
  cancelled w := (false, w)
|}.

Definition run_context : ReviewLoopRunContext :=
  mkContext node "run/build" [executor] [reviewer] "Write a parser." "Write a parser." 2 1 false.

Lemma publishing_laws : ReviewLoopEnvLaws (env := publishing) run_context.
Proof.
  split; try (intros; intros w; exact I).
  - intros request prompt w completed w' e [= <- _] Hin. by apply list_elem_of_singleton in Hin.
  - by intros request prompt w completed w' [= <- _].
Qed.

Definition published_start : LoopState (env := publishing) := mkLoopState fresh_progress (mkIO (env := publishing) [] [] 0%nat).

Lemma published_start_ok : startable (env := publishing) (tracking := with_history) (context := run_context) published_start.
Proof. split; [split; [split; [|split]|..]|]; simpl; first [done | lia | by left | constructor]. Qed.

(* The second checkpoint: the first candidate was refused, its remediation is next. *)
Definition refused_checkpoint : CheckpointPhase * Z * Z * ReviewLoopProgress :=
  default (PhaseFinalize, 0, 0, fresh_progress)
    (checkpoints_made (env := publishing)
       (ls_io (snd (execute_review_loop_audits (env := publishing) run_context published_start))) !! 1%nat).
Definition refused_progress : ReviewLoopProgress := Eval vm_compute in snd refused_checkpoint.

Definition refused_files : list CheckpointFile :=
  [mkCheckpointFile (mkCheckpointInvocation "codex" EXECUTOR 1 1) executor_output output_path (signature_of content);
   mkCheckpointFile (mkCheckpointInvocation "claude" REVIEWER 1 1) reviewer_output review_path
     (match lp_active_audit refused_progress with
      | Some a => match ap_latest_reviewer_outputs a with
                  | review :: _ => default (0, "") (ra_output_signature review) | [] => (0, "") end
      | None => (0, "") end)].

Definition refused_stored : OpenReviewCheckpoint :=
  mkOpenCheckpoint
    (mkCheckpointIdentity 3 "1" "flow" "flow" digest "run" "run" "build" (node_tasks node) None) 1 2 PhaseExecutors
    (match encode_progress "run" refused_progress with Ok stored => stored | _ => ck_progress (checkpoint_of waiting) end)
    refused_files [] [] None None.

Notation refused_restorer := (make_restorer refused_stored "run" (en_provider_records node) (node_audit_rounds node) bytes).

Definition refused_candidate : ExecutorRoundArtifact :=
  match lp_active_audit refused_progress with
  | Some a => match ap_executor_outputs a with x :: _ => x | [] => candidate end
  | None => candidate
  end.

Lemma refused_candidate_published :
  published_candidate "run" (pr_providers refused_restorer) (files_by_path refused_stored) bytes 1 refused_candidate.
Proof.
  split; [split_and!; [vm_compute; reflexivity | | vm_compute; reflexivity]|].
  - exists output_path. eexists. split_and!; [vm_compute; reflexivity..].
  - intros rel f E Hf. assert (rel = output_path) as ->.
    { vm_compute in E. injection E as <-. vm_compute. reflexivity. }
    vm_compute in Hf. injection Hf as <-. split; vm_compute; reflexivity.
Qed.

Definition refusing_review : ReviewerRoundArtifact :=
  match lp_active_audit refused_progress with
  | Some a => match ap_latest_reviewer_outputs a with x :: _ => x | [] => approval end
  | None => approval
  end.

Lemma refusing_review_published :
  published_review "run" (pr_providers refused_restorer) (files_by_path refused_stored) 1 refusing_review.
Proof.
  split_and!; [vm_compute; reflexivity | | vm_compute; reflexivity].
  exists review_path. eexists. split_and!; [vm_compute; reflexivity..].
Qed.

(** An active audit with a candidate, a previous candidate, reviews and feedback comes back. *)
Lemma checkpoint_restores_progress_witness :
  (exists a packet, lp_active_audit refused_progress = Some a /\ ap_previous_review_packet a = Some packet) /\
  restore refused_restorer = Ok (settle_progress (set_lp_cursor_round 2 (set_lp_next_phase PhaseExecutors refused_progress))).
Proof.
  split; [eexists _, _; split; reflexivity|].
  apply (checkpoint_restores_progress (env := publishing) refused_stored node "run" bytes run_context publishing_laws
           published_start PhaseExecutors 1 2).
  - exact published_start_ok.
  - apply list_elem_of_lookup_2 with 1%nat. vm_compute. reflexivity.
  - pose proof refused_candidate_published as Hc. pose proof refusing_review_published as Hr.
    split; [exact I | constructor | constructor|].
    split_and!; (constructor; [first [exact Hc | exact Hr] | constructor]).
  - vm_compute. reflexivity.
  - reflexivity.
  - reflexivity.
  - reflexivity.
Defined.

(* The outside, with the hash of this example. *)
Definition outside : ReviewLoopEnv := outside_of (fun _ => "LGTM").

Lemma outside_laws : ReviewLoopEnvLaws (env := outside) context.
Proof. apply laws. Qed.

Definition resumed : LoopState (env := outside) := mkLoopState (settle_progress waiting) (mkIO (env := outside) [] [] 0%nat).


Lemma finalized_checkpoint_has_cause_witness :
  lp_stop_reason (settle_progress settled) = Some CONSENSUS /\
  (exists outputs, lp_latest_executor_outputs (settle_progress settled) = Some outputs /\
    candidate_ok (context := context) outputs) /\ finalized node context (settle_progress settled).
Proof.
  split; [reflexivity|].
  apply (finalized_checkpoint_has_cause (checkpoint_of settled) node "run" bytes context).
  - exact node_context.
  - vm_compute. reflexivity.
  - vm_compute. reflexivity.
  - reflexivity.
  - apply candidates_usable. vm_compute. repeat constructor.
  - vm_compute. reflexivity.
Defined.

End CheckpointExample.
