(* ===== verification/Composition.v ===== *)
(** Composition of Markdown workflows: core/workflow/composition.

    A workflow file may import other files under an alias and expand a file for
    every item of a foreach node.  [WorkflowComposer] reads the files depth
    first, prefixes ids with their namespace, binds inputs and parameters, and
    returns one flat workflow with its foreach templates.

    The composer's fields are the record [Composer]; they keep what was
    collected before an error.  The class [WorkflowFiles] stands for the file
    system ([Path.exists], [is_file], [open().read()], [expanduser],
    [resolve]) and for the Markdown parser of core/workflow/markdown, which the
    composer only calls. *)

From Stdlib Require Import ZArith Lia Ascii String.
From stdpp Require Import base gmap sets list strings.
From S2P Require Import Prelude PyStr StateExn Models Scheduler PlanRecords Artifacts PlanContract Foreach.

Open Scope string_scope.
Open Scope list_scope.
Open Scope Z_scope.

(** ** Records (core/workflow/composition/models.py) *)

(** Code: core/workflow/source_locations.py, SourceSpan. *)
Record SourceSpan := mkSpan {
  sp_start_line : Z;
  sp_end_line : Z;
  sp_start_column : option Z;
  sp_end_column : option Z
}.

(** Code: core/workflow/composition/models.py, WorkflowSourceRecord. *)
Record WorkflowSourceRecord := mkSourceRecord { wr_path : string; wr_sha256 : string }.

(** Code: core/workflow/composition/models.py, ImportSpec. *)
Record ImportSpec := mkImport {
  im_alias : string;
  im_raw_path : string;
  im_with_params : dict string;
  im_inputs : dict string;
  im_source_path : string;
  im_needs : list string
}.

(** Code: core/workflow/composition/models.py, NodeSpec. *)
Record NodeSpec := mkNodeSpec {
  nd_payload : WorkflowNode;
  nd_source_path : string;
  nd_source_span : option SourceSpan;
  nd_prompt_segment_spans : list SourceSpan
}.

(** Code: core/workflow/composition/models.py, ParsedWorkflow. *)
Record ParsedWorkflow := mkParsed {
  pw_path : string;
  pw_schema_version : string;
  pw_name : string;
  pw_description : string;
  pw_inputs : dict string;
  pw_worktrees : dict WorktreeDeclaration;
  pw_imports : list ImportSpec;
  pw_nodes : list NodeSpec;
  pw_repeat_force_run_count : option Z
}.

(** Code: core/workflow/composition/models.py, ComposedNode. *)
Record ComposedNode := mkComposed {
  cn_payload : WorkflowNode;
  cn_source_path : string;
  cn_source_span : option SourceSpan;
  cn_prompt_segment_spans : list SourceSpan;
  cn_local_worktree_count : Z;
  cn_implicit_worktree_selector : option string
}.

(** Code: core/workflow/composition/models.py, ComposedForeach. *)
Record ComposedForeach := mkComposedForeach {
  fe_group_id : string;
  fe_namespace : string;
  fe_item_node_id : string;
  fe_nodes : list ComposedNode;
  fe_worktrees : dict WorktreeDeclaration;
  fe_shared_bindings : dict string;
  fe_parameters : dict string
}.

(** Code: core/workflow/composition/models.py, ParamBinding. *)
Record ParamBinding := mkBinding { pb_value : string; pb_binding_id : string }.

(** Code: core/workflow/composition/models.py, CompositionContext. *)
Record CompositionContext := mkCompositionContext {
  co_workflow : ParsedWorkflow;
  co_namespace_prefix : string;
  co_inherited_params : dict ParamBinding;
  co_bound_input_nodes : dict string;
  co_import_stack : list string;
  co_implicit_worktree_selector : option string
}.

(** Code: core/workflow/composition/models.py, CompositionResult. *)
Record CompositionResult := mkResult {
  cr_nodes : list ComposedNode;
  cr_worktrees : dict WorktreeDeclaration;
  cr_consumed_param_bindings : list string
}.

(** Code: core/workflow/composition/models.py, ComposedWorkflowDocument. *)
Record ComposedWorkflowDocument := mkDocument {
  wd_workflow_payload : json;
  wd_source_records : list WorkflowSourceRecord;
  wd_node_source_paths : dict string;
  wd_node_source_spans : dict SourceSpan;
  wd_prompt_segment_spans : dict (list SourceSpan);
  wd_foreach_templates : dict ComposedForeach
}.

(** ** Parsed files (core/workflow/markdown/models.py, composition/parsing.py) *)

(** Code: core/workflow/markdown/models.py, WorkflowImportConfig. *)
Record WorkflowImportConfig := mkImportConfig {
  ic_path : string;
  ic_alias : string;
  ic_with_params : dict string;
  ic_input_bindings : dict string;
  ic_needs : list string
}.

(** What a call outside returns: an exception or a value. *)
Definition answer (A : Type) : Type := exn + A.
Definition answered {A} (a : answer A) : outcome A := match a with inl e => Raise e | inr v => Ok v end.

(** A node of the payload: its id and what [WorkflowNode.model_validate] makes of it. *)
Record PayloadNode := mkPayloadNode { pn_id : string; pn_model_validate : answer WorkflowNode }.

(** The front matter, without its node declarations, and the payload built from
    it and the sections of the body.
    Code: core/workflow/markdown/models.py, WorkflowFrontmatter..ParsedWorkflowMarkdown. *)
Record ParsedWorkflowMarkdown := mkMarkdown {
  wm_schema_version : string;
  wm_name : string;
  wm_description : option string;
  wm_repeat_force_run_count : option Z;
  wm_inputs : dict string;
  wm_worktrees : dict WorktreeDeclaration;
  wm_imports : list WorkflowImportConfig;
  wm_payload_nodes : list PayloadNode;
  wm_node_source_spans : dict SourceSpan;
  wm_prompt_segment_spans : dict (list SourceSpan)
}.

Class WorkflowFiles := {
  path_exists : string -> bool;
  path_is_file : string -> bool;
  read_text : string -> answer string;
  expanduser : string -> answer string;
  resolve_path : string -> answer string;
  parse_workflow_markdown_document : string -> string -> answer ParsedWorkflowMarkdown
}.

(** The configs are copied in order; an alias is used once.
    Code: core/workflow/composition/imports.py, import_specs_from_frontmatter. *)
Definition import_specs_from_frontmatter (configs : list WorkflowImportConfig) (source_path : string) : outcome (list ImportSpec) :=
  for_each (fun imports config =>
    let spec := mkImport (ic_alias config) (ic_path config) (ic_with_params config) (ic_input_bindings config) source_path
                  (ic_needs config) in
    if str_in (im_alias spec) (map im_alias imports) then
      Raise (ValueError ("Workflow " +:+ quoted source_path +:+ " declares duplicate import alias "
                         +:+ quoted (im_alias spec) +:+ "."))
    else Ok (imports ++ [spec])) configs [].

(** Code: core/workflow/composition/parsing.py, validate_declared_input_node. *)
Definition validate_declared_input_node (node : WorkflowNode) (source_path input_name node_id : string) : outcome unit :=
  if negb (bool_decide (node_mode node = InputMode)) then
    Raise (ValueError ("Workflow " +:+ quoted source_path +:+ " input " +:+ quoted input_name
                       +:+ " must reference an input node; " +:+ quoted node_id +:+ " is "
                       +:+ quoted (mode_value (node_mode node)) +:+ "."))
  else validate_input_node_boundary node ("Workflow " +:+ quoted source_path +:+ " input node " +:+ quoted node_id).

(** The keys of a dict are distinct, so sorting its items sorts the keys.
    Code: core/workflow/composition/parsing.py, validate_declared_workflow_inputs. *)
Definition validate_declared_workflow_inputs (source_path : string) (workflow_inputs : dict string) (nodes : list NodeSpec)
    : outcome (dict string) :=
  let nodes_by_id := dict_of (map (fun n => (node_id (nd_payload n), n)) nodes) in
  _ ← for_each (fun _ input_name =>
        match dget workflow_inputs input_name with
        | None => Ok tt
        | Some node_id =>
            match dget nodes_by_id node_id with
            | None => Raise (ValueError ("Workflow " +:+ quoted source_path +:+ " input " +:+ quoted input_name
                                         +:+ " references unknown node " +:+ quoted node_id +:+ "."))
            | Some node => validate_declared_input_node (nd_payload node) source_path input_name node_id
            end
        end) (sorted_str (dkeys workflow_inputs)) tt;
  Ok workflow_inputs.

(** Code: core/workflow/composition/parsing.py, parsed_workflow_from_markdown. *)
Definition parsed_workflow_from_markdown (document : ParsedWorkflowMarkdown) (source_path : string) : outcome ParsedWorkflow :=
  nodes ← mapM (fun n =>
            payload ← answered (pn_model_validate n);
            Ok (mkNodeSpec payload source_path (dget (wm_node_source_spans document) (pn_id n))
                  (default [] (dget (wm_prompt_segment_spans document) (pn_id n))))) (wm_payload_nodes document);
  inputs ← validate_declared_workflow_inputs source_path (wm_inputs document) nodes;
  imports ← import_specs_from_frontmatter (wm_imports document) source_path;
  Ok (mkParsed source_path (wm_schema_version document) (wm_name document) (default "" (wm_description document)) inputs
        (wm_worktrees document) imports nodes (wm_repeat_force_run_count document)).

(** ** Parameters (core/workflow/composition/rewrites.py; names and references are in Foreach.v) *)

(** The text that replaces a parameter.
    Code: core/workflow/composition/rewrites.py, resolve_param_templates._replace. *)
Definition rewritten_param (params : dict ParamBinding) (group : text) : text :=
  let key := str_strip (of_chars group) in
  match dget params key with
  | None => lit "{{var:" ++ chars key ++ lit "}}"
  | Some binding => chars (pb_value binding)
  end.

(** The templates are replaced from left to right; the first without a key raises.
    Code: core/workflow/composition/rewrites.py, resolve_param_templates. *)
Definition resolve_param_templates (prompt : string) (params : dict ParamBinding) (source_path node_id : string)
    : outcome (string * list string) :=
  let keys := map (fun group => str_strip (of_chars group)) (find_all match_param 0 (chars prompt)) in
  if existsb (fun key => negb (nonempty key)) keys then
    Raise (ValueError ("Workflow import parameter template has an empty key in " +:+ quoted source_path
                       +:+ " node " +:+ quoted node_id +:+ "."))
  else Ok (of_chars (sub_all match_param (rewritten_param params) 0 (chars prompt)),
           map pb_binding_id (omap (dget params) keys)).

(** Code: core/workflow/composition/rewrites.py, rewrite_prompt_segments. *)
Definition rewrite_prompt_segments (prompt_segments : list PromptSegment) (namespace_prefix : string)
    (bound_input_nodes : dict string) (params : dict ParamBinding) (source_path node_id : string)
    : outcome (list PromptSegment * list string) :=
  for_each (fun '(segments, consumed_params) segment =>
    '(resolved, consumed) ← resolve_param_templates
                              (rewrite_artifact_references (seg_content segment) namespace_prefix bound_input_nodes)
                              params source_path node_id;
    Ok (segments ++ [mkSegment (seg_role segment) resolved], consumed_params ++ consumed)) prompt_segments ([], []).

(** ** Imports (core/workflow/composition/imports.py) *)

Definition with_needs (needs : list string) (n : WorkflowNode) : WorkflowNode :=
  mkNode (node_id n) (node_mode n) (node_findings n) (node_prompt_segments n) (node_source n) (node_providers n) needs
    (node_audit_rounds n) (node_depth n) (node_review_starts_with n) (node_continue_on_failure n) (node_failure_threshold n)
    (node_token_budget n) (node_worktree n) (node_workflow n) (node_item_input n) (node_items n) (node_max_items n)
    (node_inputs n) (node_with_params n).

Definition with_payload (payload : WorkflowNode) (n : ComposedNode) : ComposedNode :=
  mkComposed payload (cn_source_path n) (cn_source_span n) (cn_prompt_segment_spans n) (cn_local_worktree_count n)
    (cn_implicit_worktree_selector n).

(** The provider nodes of an import that wait for no other provider node of it.
    Code: core/workflow/composition/imports.py:43-50. *)
Definition import_entry_ids (nodes : list ComposedNode) : list string :=
  let is_provider n := negb (bool_decide (node_mode (cn_payload n) = InputMode)) in
  let provider_ids := map (fun n => node_id (cn_payload n)) (List.filter is_provider nodes) in
  map (fun n => node_id (cn_payload n))
    (List.filter (fun n => is_provider n && forallb (fun d => negb (str_in d provider_ids)) (node_needs (cn_payload n))) nodes).

(** Code: core/workflow/composition/imports.py, attach_import_prerequisites. *)
Definition attach_import_prerequisites (child_result : CompositionResult) (prerequisites : list string) (import_spec : ImportSpec)
    : outcome CompositionResult :=
  match prerequisites with
  | [] => Ok child_result
  | _ =>
      let entry_ids := import_entry_ids (cr_nodes child_result) in
      match entry_ids with
      | [] => Raise (ValueError ("Workflow import " +:+ quoted (im_alias import_spec) +:+ " in "
                                 +:+ quoted (im_source_path import_spec)
                                 +:+ " declares 'needs' but has no provider entry nodes."))
      | _ =>
          Ok (mkResult
                (map (fun n => if str_in (node_id (cn_payload n)) entry_ids
                               then with_payload (with_needs (dedup (node_needs (cn_payload n) ++ prerequisites)) (cn_payload n)) n
                               else n) (cr_nodes child_result))
                (cr_worktrees child_result) (cr_consumed_param_bindings child_result))
      end
  end.

(** Code: core/workflow/composition/imports.py, parameter_binding_id. *)
Definition parameter_binding_id (namespace_prefix key : string) : string :=
  if nonempty namespace_prefix then namespace_prefix +:+ ":" +:+ key else key.

(** Code: core/workflow/composition/imports.py, bind_import_params. *)
Definition bind_import_params (inherited_params : dict ParamBinding) (child_namespace : string) (import_params : dict string)
    : dict ParamBinding :=
  foldl (fun params '(key, value) => dset params key (mkBinding value (parameter_binding_id child_namespace key)))
    inherited_params import_params.

(** Code: core/workflow/composition/imports.py, validate_import_params_consumed. *)
Definition validate_import_params_consumed (import_spec : ImportSpec) (child_namespace : string) (child_result : CompositionResult)
    : outcome unit :=
  match sorted_str (List.filter (fun key => negb (str_in (parameter_binding_id child_namespace key)
                                                    (cr_consumed_param_bindings child_result))) (dkeys (im_with_params import_spec))) with
  | [] => Ok tt
  | unused_keys =>
      Raise (ValueError ("Workflow import " +:+ quoted (im_alias import_spec) +:+ " in " +:+ quoted (im_source_path import_spec)
                         +:+ " defines unused parameter(s): " +:+ String.concat ", " unused_keys))
  end.

(** ** Nodes (core/workflow/composition/nodes.py, composition/foreach.py) *)

(** Code: core/workflow/composition/nodes.py, _compose_worktree_selector. *)
Definition compose_worktree_selector (context : CompositionContext) (node : WorkflowNode) : option string :=
  match node_worktree node with
  | None => None
  | Some selector =>
      if bool_decide (selector = PROJECT_ROOT_WORKTREE_SELECTOR) || negb (nonempty (co_namespace_prefix context))
      then Some selector else Some (qualify_id (co_namespace_prefix context) selector)
  end.

(** A node that asks providers: neither input nor foreach. *)
Definition runs_providers (node : WorkflowNode) : bool :=
  match node_mode node with InputMode | Models.Foreach => false | _ => true end.

(** Code: core/workflow/composition/nodes.py, _implicit_worktree_selector. *)
Definition node_implicit_worktree_selector (context : CompositionContext) (node : WorkflowNode) : option string :=
  if negb (runs_providers node) || is_some (node_worktree node) then None else co_implicit_worktree_selector context.

(** [node.model_copy(update=...)] for the fields that composition changes. *)
Definition with_composed (id : string) (needs : list string) (segments : list PromptSegment) (worktree : option string)
    (items : option ForeachItems) (inputs : dict string) (n : WorkflowNode) : WorkflowNode :=
  mkNode id (node_mode n) (node_findings n) segments (node_source n) (node_providers n) needs
    (node_audit_rounds n) (node_depth n) (node_review_starts_with n) (node_continue_on_failure n) (node_failure_threshold n)
    (node_token_budget n) worktree (node_workflow n) (node_item_input n) items (node_max_items n) inputs (node_with_params n).

(** Code: core/workflow/composition/nodes.py, compose_local_node. *)
Definition compose_local_node (context : CompositionContext) (node : NodeSpec) : outcome (ComposedNode * list string) :=
  let n := nd_payload node in
  let resolve d := resolve_dependency_id d (co_namespace_prefix context) (co_bound_input_nodes context) in
  let id := qualify_id (co_namespace_prefix context) (node_id n) in
  let needs := map resolve (node_needs n) in
  let composed payload :=
    mkComposed payload (nd_source_path node) (nd_source_span node) (nd_prompt_segment_spans node)
      (Z.of_nat (length (pw_worktrees (co_workflow context)))) (node_implicit_worktree_selector context n) in
  match node_mode n with
  | Models.Foreach =>
      let items := match node_items n with
                   | Some (ItemsReference s) =>
                       Some (ItemsReference (rewrite_artifact_references s (co_namespace_prefix context) (co_bound_input_nodes context)))
                   | items => items
                   end in
      Ok (composed (with_composed id needs (node_prompt_segments n) (node_worktree n) items
                      (map (fun '(name, caller) => (name, resolve caller)) (node_inputs n)) n), [])
  | InputMode =>
      Ok (composed (with_composed id needs (node_prompt_segments n) (compose_worktree_selector context n) (node_items n)
                      (node_inputs n) n), [])
  | _ =>
      '(segments, consumed) ← rewrite_prompt_segments (node_prompt_segments n) (co_namespace_prefix context)
                                (co_bound_input_nodes context) (co_inherited_params context) (nd_source_path node) (node_id n);
      Ok (composed (with_composed id needs segments (compose_worktree_selector context n) (node_items n) (node_inputs n) n), consumed)
  end.

(** [origins] keeps the first input of a fallback.
    Code: core/workflow/composition/nodes.py, resolve_bound_input_nodes. *)
Definition resolve_bound_input_nodes (source_path : string) (workflow_inputs bound_inputs : dict string) : outcome (dict string) :=
  '(resolved, _) ← for_each (fun '(resolved, origins) '(input_name, source_id) =>
      match dget workflow_inputs input_name with
      | None => Raise (ValueError ("Workflow " +:+ quoted source_path +:+ " does not declare input " +:+ quoted input_name +:+ "."))
      | Some raw_node_id =>
          match dget resolved raw_node_id with
          | Some other =>
              if negb (bool_decide (other = source_id)) then
                Raise (ValueError ("Workflow " +:+ quoted source_path +:+ " fallback " +:+ quoted raw_node_id
                  +:+ " has conflicting bindings: input " +:+ quoted (default "" (dget origins raw_node_id)) +:+ " uses "
                  +:+ quoted other +:+ ", but input " +:+ quoted input_name +:+ " uses " +:+ quoted source_id +:+ "."))
              else Ok (dset resolved raw_node_id source_id, origins)
          | None => Ok (dset resolved raw_node_id source_id, dset origins raw_node_id input_name)
          end
      end) bound_inputs ([], []);
  Ok resolved.

(** Code: core/workflow/composition/foreach.py, resolve_foreach_inputs. *)
Definition resolve_foreach_inputs (workflow : ParsedWorkflow) (item_input : string) (shared : dict string) (group : string)
    : outcome (string * dict string) :=
  _ ← for_each (fun bound_nodes name =>
        match dget (pw_inputs workflow) name with
        | None => Raise (ValueError ("Foreach " +:+ quoted group +:+ " has unknown child input " +:+ quoted name))
        | Some node_id =>
            match dget bound_nodes node_id with
            | Some other =>
                Raise (ValueError ("Foreach " +:+ quoted group +:+ " inputs " +:+ quoted name +:+ " and " +:+ quoted other
                                   +:+ " bind the same child node " +:+ quoted node_id))
            | None => Ok (dset bound_nodes node_id name)
            end
        end) (item_input :: dkeys shared) [];
  item ← ditem (pw_inputs workflow) item_input;
  bindings ← mapM (fun '(name, caller) => id ← ditem (pw_inputs workflow) name; Ok (id, caller)) shared;
  Ok (item, dict_of bindings).

(** ** Materialization (core/workflow/composition/materialization.py) *)

(** Code: core/workspace/policy.py, worktree_declarations_payload. *)
Definition worktree_declarations_payload (declarations : dict WorktreeDeclaration) : json :=
  JObj (map (fun '(name, d) =>
    (name, JObj (("kind", JStr (match wt_kind d with WK_worktree => "worktree" | WK_snapshot => "snapshot" end))
                 :: opt_field "setup_profile" JStr (wt_setup_profile d)
                 ++ (if wt_create_branch d then [("create_branch", JBool true)] else [])
                 ++ opt_field "branch_name" JStr (wt_branch_name d)))) declarations).

(** Code: core/workflow/composition/materialization.py, _needs_materialized_selector. *)
Definition needs_materialized_selector (node : ComposedNode) (composed_worktree_count root_worktree_count : Z) : bool :=
  if negb (runs_providers (cn_payload node)) then false
  else if is_some (node_worktree (cn_payload node)) then false
  else if cn_local_worktree_count node =? 0 then
    if is_some (cn_implicit_worktree_selector node) then 1 <? composed_worktree_count
    else negb (root_worktree_count =? 1) || (1 <? composed_worktree_count)
  else is_some (cn_implicit_worktree_selector node) && (1 <? composed_worktree_count).

Definition with_worktree (worktree : option string) (n : WorkflowNode) : WorkflowNode :=
  with_composed (node_id n) (node_needs n) (node_prompt_segments n) worktree (node_items n) (node_inputs n) n.

(** [a or b] on an optional string. *)
Definition selector_or (o : option string) (fallback : string) : string :=
  match o with Some s => if nonempty s then s else fallback | None => fallback end.

(** Code: core/workflow/composition/materialization.py, _materialize_worktree_selector. *)
Definition materialize_worktree_selector (node : ComposedNode) : ComposedNode :=
  with_payload (with_worktree (Some (selector_or (cn_implicit_worktree_selector node) PROJECT_ROOT_WORKTREE_SELECTOR))
                  (cn_payload node)) node.

(** Code: core/workflow/composition/materialization.py, _materialize_implicit_worktree_selectors. *)
Definition materialize_implicit_worktree_selectors (nodes : list ComposedNode) (composed_worktree_count root_worktree_count : Z)
    : list ComposedNode :=
  if composed_worktree_count =? 0 then nodes
  else map (fun node => if needs_materialized_selector node composed_worktree_count root_worktree_count
                        then materialize_worktree_selector node else node) nodes.

Definition dict_len {V} (d : dict V) : Z := Z.of_nat (length d).

(** The nodes of a payload or a template. *)
Definition materialized_nodes (workflow : ParsedWorkflow) (composition : CompositionResult) : list ComposedNode :=
  materialize_implicit_worktree_selectors (cr_nodes composition) (dict_len (cr_worktrees composition))
    (dict_len (pw_worktrees workflow)).

(** Code: core/workflow/composition/materialization.py, materialize_workflow_payload. *)
Definition materialize_workflow_payload (workflow : ParsedWorkflow) (composition : CompositionResult) : outcome json :=
  nodes ← mapM (fun n => workflow_node_payload_dict (cn_payload n)) (materialized_nodes workflow composition);
  Ok (JObj ([("schema_version", JStr (pw_schema_version workflow)); ("name", JStr (pw_name workflow));
             ("description", JStr (pw_description workflow)); ("inputs", string_dict_json (pw_inputs workflow));
             ("nodes", JList nodes)]
            ++ opt_field "repeat_force_run_count" JInt (pw_repeat_force_run_count workflow)
            ++ match cr_worktrees composition with
               | [] => []
               | worktrees => [("worktrees", worktree_declarations_payload worktrees)]
               end)).

(** Code: core/workflow/composition/materialization.py, materialize_foreach_template. *)
Definition materialize_foreach_template (group_id item_id : string) (workflow : ParsedWorkflow) (params : dict ParamBinding)
    (shared_bindings : dict string) (composition : CompositionResult) : ComposedForeach :=
  let namespace := group_id +:+ ".template" in
  mkComposedForeach group_id namespace (qualify_id namespace item_id) (materialized_nodes workflow composition)
    (cr_worktrees composition) shared_bindings
    (omap (fun '(key, binding) => if str_in (pb_binding_id binding) (cr_consumed_param_bindings composition)
                                  then Some (key, pb_value binding) else None) params).

(** ** The composer (core/workflow/composition/traversal.py) *)

(** Code: core/workflow/composition/traversal.py, WorkflowComposer.__init__. *)
Record Composer := mkComposer {
  cp_project_root : string;
  cp_parsed_cache : dict ParsedWorkflow;
  cp_source_hashes : dict string;
  cp_source_order : list string;
  cp_node_sources : dict string;
  cp_node_source_spans : dict SourceSpan;
  cp_prompt_segment_spans : dict (list SourceSpan);
  cp_root_schema_version : option string;
  cp_foreach_templates : dict ComposedForeach;
  cp_active_foreach : option string
}.

Definition new_composer (project_root : string) : Composer := mkComposer project_root [] [] [] [] [] [] None [] None.

Definition add_parsed (path : string) (w : ParsedWorkflow) (c : Composer) : Composer :=
  mkComposer (cp_project_root c) (dset (cp_parsed_cache c) path w) (cp_source_hashes c) (cp_source_order c) (cp_node_sources c)
    (cp_node_source_spans c) (cp_prompt_segment_spans c) (cp_root_schema_version c) (cp_foreach_templates c) (cp_active_foreach c).
Definition add_source (path digest : string) (c : Composer) : Composer :=
  mkComposer (cp_project_root c) (cp_parsed_cache c) (dset (cp_source_hashes c) path digest) (cp_source_order c ++ [path])
    (cp_node_sources c) (cp_node_source_spans c) (cp_prompt_segment_spans c) (cp_root_schema_version c) (cp_foreach_templates c)
    (cp_active_foreach c).
Definition set_root_schema (version : string) (c : Composer) : Composer :=
  mkComposer (cp_project_root c) (cp_parsed_cache c) (cp_source_hashes c) (cp_source_order c) (cp_node_sources c)
    (cp_node_source_spans c) (cp_prompt_segment_spans c) (Some version) (cp_foreach_templates c) (cp_active_foreach c).
Definition add_template (group_id : string) (t : ComposedForeach) (c : Composer) : Composer :=
  mkComposer (cp_project_root c) (cp_parsed_cache c) (cp_source_hashes c) (cp_source_order c) (cp_node_sources c)
    (cp_node_source_spans c) (cp_prompt_segment_spans c) (cp_root_schema_version c) (dset (cp_foreach_templates c) group_id t)
    (cp_active_foreach c).
Definition set_active_foreach (group : option string) (c : Composer) : Composer :=
  mkComposer (cp_project_root c) (cp_parsed_cache c) (cp_source_hashes c) (cp_source_order c) (cp_node_sources c)
    (cp_node_source_spans c) (cp_prompt_segment_spans c) (cp_root_schema_version c) (cp_foreach_templates c) group.

(** Registering a node with its spans. *)
Definition add_node (n : ComposedNode) (c : Composer) : Composer :=
  let id := node_id (cn_payload n) in
  mkComposer (cp_project_root c) (cp_parsed_cache c) (cp_source_hashes c) (cp_source_order c)
    (dset (cp_node_sources c) id (cn_source_path n))
    (match cn_source_span n with Some span => dset (cp_node_source_spans c) id span | None => cp_node_source_spans c end)
    (dset (cp_prompt_segment_spans c) id (cn_prompt_segment_spans n)) (cp_root_schema_version c) (cp_foreach_templates c)
    (cp_active_foreach c).

(** Code: core/workflow/composition/traversal.py, _context_implicit_worktree_selector. *)
Definition context_implicit_worktree_selector (namespace_prefix : string) (worktrees : dict WorktreeDeclaration)
    (inherited_selector : option string) : option string :=
  match dkeys worktrees with
  | [name] => Some (qualify_id namespace_prefix name)
  | [] => inherited_selector
  | _ => None
  end.

(** Code: core/workflow/composition/traversal.py, _merge_worktrees. *)
Definition merge_worktrees (first second : dict WorktreeDeclaration) : outcome (dict WorktreeDeclaration) :=
  match sorted_str (List.filter (fun name => str_in name (dkeys second)) (dkeys first)) with
  | [] => Ok (dict_update first second)
  | collisions => Raise (ValueError ("Worktree declaration collision after composition: " +:+ String.concat ", " collisions))
  end.

(** Code: core/workflow/composition/traversal.py, _compose_worktree_declarations. *)
Definition compose_worktree_declarations (context : CompositionContext) : dict WorktreeDeclaration :=
  dict_of (map (fun '(name, declaration) => (qualify_id (co_namespace_prefix context) name, declaration))
             (pw_worktrees (co_workflow context))).

(** Code: core/workflow/composition/traversal.py, _resolve_import_prerequisites. *)
Definition resolve_import_prerequisites (context : CompositionContext) (import_spec : ImportSpec) : list string :=
  map (fun d => resolve_dependency_id d (co_namespace_prefix context) (co_bound_input_nodes context)) (im_needs import_spec).

(** Code: core/workflow/composition/traversal.py, _resolve_import_inputs. *)
Definition resolve_import_inputs (context : CompositionContext) (import_spec : ImportSpec) : dict string :=
  map (fun '(key, source_id) => (key, resolve_dependency_id source_id (co_namespace_prefix context) (co_bound_input_nodes context)))
    (im_inputs import_spec).

Section Traversal.
Context {hash : HashLibrary} {fs : WorkflowFiles}.

(** Code: core/workflow/composition/traversal.py, WorkflowComposer._assert_file_exists. *)
Definition assert_file_exists (path label : string) : outcome unit :=
  if negb (path_exists path) then Raise (ValueError (label +:+ " does not exist: " +:+ path))
  else if negb (path_is_file path) then Raise (ValueError (label +:+ " is not a file: " +:+ path))
  else Ok tt.

(** [path.is_relative_to(root)] on resolved paths. *)
Definition is_relative_to (path root : string) : bool :=
  bool_decide (path = root) || str_startswith (if str_endswith "/" root then root else root +:+ "/") path.

(** Code: core/workflow/composition/traversal.py, WorkflowComposer._assert_project_path. *)
Definition assert_project_path (project_root path label : string) : outcome unit :=
  if is_relative_to path project_root then Ok tt
  else Raise (ValueError (label +:+ " resolves outside project root " +:+ quoted project_root +:+ ": " +:+ path)).

(** [path.parent], of an absolute path. *)
Definition path_parent (path : string) : string :=
  let (_, before) := span (fun c => negb (is_char c "/")) (reverse (chars path)) in
  match before with [] | [_] => "/" | _ :: parent => of_chars (reverse parent) end.

(** [resolve] makes the result canonical.
    Code: core/workflow/composition/imports.py, resolve_import_path. *)
Definition resolve_import_path (parent_file raw_path : string) : outcome string :=
  candidate ← answered (expanduser raw_path);
  answered (resolve_path (if str_startswith "/" candidate then candidate else path_parent parent_file +:+ "/" +:+ candidate)).

(** [path.suffix]: from the last dot of the name, which neither starts nor ends it. *)
Definition path_suffix (path : string) : string :=
  match split_last_dot (chars (path_name path)) with
  | Some (_ :: _, (_ :: _) as extension) => "." +:+ of_chars extension
  | _ => ""
  end.

(** Code: core/workflow/composition/traversal.py, WorkflowComposer._resolve_import_file. *)
Definition resolve_import_file (project_root : string) (import_spec : ImportSpec) : outcome string :=
  path ← resolve_import_path (im_source_path import_spec) (im_raw_path import_spec);
  _ ← assert_project_path project_root path
        ("Imported workflow " +:+ quoted (im_raw_path import_spec) +:+ " referenced from " +:+ quoted (im_source_path import_spec));
  _ ← assert_file_exists path "Imported workflow";
  if negb (bool_decide (str_lower (path_suffix path) = ".md")) then
    Raise (ValueError ("Imported workflow must be a markdown file (.md): " +:+ path))
  else Ok path.

(** Code: core/workflow/composition/traversal.py, WorkflowComposer._load_workflow_file. *)
Definition load_workflow_file (path : string) : M Composer ParsedWorkflow :=
  cache ← read cp_parsed_cache;
  match dget cache path with
  | Some cached => ret cached
  | None =>
      lift (assert_file_exists path "Workflow file") ;;
      raw_content ← lift (answered (read_text path));
      hashes ← read cp_source_hashes;
      when (negb (dmem hashes path)) (modify (add_source path (sha256 raw_content))) ;;
      parsed_document ← lift (answered (parse_workflow_markdown_document path raw_content));
      parsed ← lift (parsed_workflow_from_markdown parsed_document path);
      modify (add_parsed path parsed) ;;
      ret parsed
  end.

(** Code: core/workflow/composition/traversal.py, WorkflowComposer._set_or_validate_root_schema. *)
Definition set_or_validate_root_schema (source_path schema_version : string) : M Composer unit :=
  root ← read cp_root_schema_version;
  match root with
  | None => modify (set_root_schema schema_version)
  | Some version =>
      if bool_decide (schema_version = version) then ret tt
      else raise (ValueError ("Workflow " +:+ quoted source_path +:+ " has schema_version " +:+ quoted schema_version
                              +:+ ", but root workflow uses " +:+ quoted version +:+ "."))
  end.

(** Code: core/workflow/composition/traversal.py, WorkflowComposer._append_node. *)
Definition append_node (n : ComposedNode) : M Composer unit :=
  sources ← read cp_node_sources;
  match dget sources (node_id (cn_payload n)) with
  | Some existing_source =>
      raise (ValueError ("Node ID collision after workflow composition for " +:+ quoted (node_id (cn_payload n)) +:+ ": "
                         +:+ quoted existing_source +:+ " and " +:+ quoted (cn_source_path n) +:+ "."))
  | None => modify (add_node n)
  end.

(** Code: core/workflow/composition/traversal.py, WorkflowComposer._assert_no_active_foreach. *)
Definition assert_no_active_foreach (group_id : string) : M Composer unit :=
  active ← read cp_active_foreach;
  match active with
  | None => ret tt
  | Some other => raise (ValueError ("Foreach " +:+ quoted other +:+ " cannot contain nested foreach " +:+ quoted group_id))
  end.

(** Code: core/workflow/composition/traversal.py, WorkflowComposer._build_context. *)
Definition build_context (path namespace_prefix : string) (inherited_params : dict ParamBinding) (bound_inputs : dict string)
    (inherited_selector : option string) (import_stack : list string) : M Composer CompositionContext :=
  workflow ← load_workflow_file path;
  set_or_validate_root_schema path (pw_schema_version workflow) ;;
  bound ← lift (resolve_bound_input_nodes path (pw_inputs workflow) bound_inputs);
  ret (mkCompositionContext workflow namespace_prefix inherited_params bound (import_stack ++ [path])
         (context_implicit_worktree_selector namespace_prefix (pw_worktrees workflow) inherited_selector)).

(** The recursive calls of [compose_file]. *)
Section Step.
Variable compose_child : string -> string -> dict ParamBinding -> dict string -> option string -> list string ->
  M Composer CompositionResult.

(** Code: core/workflow/composition/traversal.py, WorkflowComposer._compose_import. *)
Definition compose_import (context : CompositionContext) (import_spec : ImportSpec) : M Composer CompositionResult :=
  project_root ← read cp_project_root;
  path ← lift (resolve_import_file project_root import_spec);
  let child_namespace := qualify_id (co_namespace_prefix context) (im_alias import_spec) in
  let prerequisites := resolve_import_prerequisites context import_spec in
  child_result ← compose_child path child_namespace
                   (bind_import_params (co_inherited_params context) child_namespace (im_with_params import_spec))
                   (resolve_import_inputs context import_spec) (co_implicit_worktree_selector context) (co_import_stack context);
  lift (validate_import_params_consumed import_spec child_namespace child_result) ;;
  lift (attach_import_prerequisites child_result prerequisites import_spec).

(** The imports from the first on, with what was composed before.
    Code: core/workflow/composition/traversal.py, WorkflowComposer._compose_imports. *)
Fixpoint compose_imports (context : CompositionContext) (imports : list ImportSpec) (acc : CompositionResult)
    : M Composer CompositionResult :=
  match imports with
  | [] => ret acc
  | import_spec :: imports =>
      child_result ← compose_import context import_spec;
      worktrees ← lift (merge_worktrees (cr_worktrees acc) (cr_worktrees child_result));
      compose_imports context imports
        (mkResult (cr_nodes acc ++ cr_nodes child_result) worktrees
           (cr_consumed_param_bindings acc ++ cr_consumed_param_bindings child_result))
  end.

(** [finally] resets the guard whatever happens.
    Code: core/workflow/composition/traversal.py, WorkflowComposer._traverse_foreach_template. *)
Definition traverse_foreach_template (context : CompositionContext) (node : WorkflowNode) (path : string)
    (params : dict ParamBinding) : M Composer CompositionResult :=
  modify (set_active_foreach (Some (node_id node))) ;;
  result ← try_except
    (compose_child path (node_id node +:+ ".template") params (node_inputs node) None (co_import_stack context))
    (fun e => modify (set_active_foreach None) ;; raise e);
  modify (set_active_foreach None) ;;
  ret result.

(** Code: core/workflow/composition/traversal.py, WorkflowComposer._compose_foreach. *)
Definition compose_foreach (context : CompositionContext) (group : ComposedNode) : M Composer (list string) :=
  let node := cn_payload group in
  assert_no_active_foreach (node_id node) ;;
  match node_workflow node, node_item_input node with
  | Some workflow, Some item_input =>
      let spec := mkImport (node_id node) workflow (node_with_params node) (node_inputs node) (cn_source_path group) [] in
      project_root ← read cp_project_root;
      path ← lift (resolve_import_file project_root spec);
      child ← load_workflow_file path;
      '(item_id, shared) ← lift (resolve_foreach_inputs child item_input (node_inputs node) (node_id node));
      let namespace := node_id node +:+ ".template" in
      let params := bind_import_params (co_inherited_params context) namespace (node_with_params node) in
      result ← traverse_foreach_template context node path params;
      lift (validate_import_params_consumed spec namespace result) ;;
      modify (add_template (node_id node) (materialize_foreach_template (node_id node) item_id child params shared result)) ;;
      ret (cr_consumed_param_bindings result)
  | _, _ => raise (ValueError ("Incomplete foreach " +:+ quoted (node_id node)))
  end.

(** The nodes from the first on; bound inputs are left out.
    Code: core/workflow/composition/traversal.py, WorkflowComposer.compose_local_nodes. *)
Fixpoint compose_local_nodes (context : CompositionContext) (nodes : list NodeSpec) (composed : list ComposedNode)
    (consumed : list string) : M Composer CompositionResult :=
  match nodes with
  | [] => ret (mkResult composed (compose_worktree_declarations context) consumed)
  | node :: nodes =>
      if dmem (co_bound_input_nodes context) (node_id (nd_payload node)) then compose_local_nodes context nodes composed consumed
      else
        '(composed_node, consumed_here) ← lift (compose_local_node context node);
        append_node composed_node ;;
        from_group ← (if bool_decide (node_mode (cn_payload composed_node) = Models.Foreach)
                      then compose_foreach context composed_node else ret []);
        compose_local_nodes context nodes (composed ++ [composed_node]) (consumed ++ consumed_here ++ from_group)
  end.

(** Code: core/workflow/composition/traversal.py, WorkflowComposer._compose_file. *)
Definition compose_file_step (path namespace_prefix : string) (inherited_params : dict ParamBinding) (bound_inputs : dict string)
    (inherited_selector : option string) (import_stack : list string) : M Composer CompositionResult :=
  if str_in path import_stack then
    raise (ValueError ("Workflow import cycle detected: " +:+ String.concat " -> " (import_stack ++ [path])))
  else
    context ← build_context path namespace_prefix inherited_params bound_inputs inherited_selector import_stack;
    import_result ← compose_imports context (pw_imports (co_workflow context)) (mkResult [] [] []);
    local_result ← compose_local_nodes context (pw_nodes (co_workflow context)) [] [];
    worktrees ← lift (merge_worktrees (cr_worktrees import_result) (cr_worktrees local_result));
    ret (mkResult (cr_nodes import_result ++ cr_nodes local_result) worktrees
           (cr_consumed_param_bindings import_result ++ cr_consumed_param_bindings local_result)).

End Step.

(** The depth of nested imports is the fuel. *)
Fixpoint compose_file (fuel : nat) : string -> string -> dict ParamBinding -> dict string -> option string -> list string ->
    M Composer CompositionResult :=
  match fuel with
  | O => fun _ _ _ _ _ _ => lift OutOfFuel
  | S fuel => compose_file_step (compose_file fuel)
  end.

(** Code: core/workflow/composition/traversal.py, WorkflowComposer._build_document. *)
Definition build_document (root_workflow : ParsedWorkflow) (composition : CompositionResult) : M Composer ComposedWorkflowDocument :=
  payload ← lift (materialize_workflow_payload root_workflow composition);
  order ← read cp_source_order;
  hashes ← read cp_source_hashes;
  records ← lift (mapM (fun path => digest ← ditem hashes path; Ok (mkSourceRecord path digest)) order);
  c ← read id;
  ret (mkDocument payload records (cp_node_sources c) (cp_node_source_spans c) (cp_prompt_segment_spans c)
         (cp_foreach_templates c)).

(** The root file and its composition, before the document is built.
    Code: core/workflow/composition/traversal.py:81-94. *)
Definition compose_root (fuel : nat) (path : string) : M Composer (ParsedWorkflow * CompositionResult) :=
  root_path ← lift (answered (resolve_path path));
  lift (assert_file_exists root_path "Workflow file") ;;
  root_workflow ← load_workflow_file root_path;
  set_or_validate_root_schema root_path (pw_schema_version root_workflow) ;;
  composition ← compose_file fuel root_path "" [] [] None [];
  ret (root_workflow, composition).

(** Code: core/workflow/composition/traversal.py, WorkflowComposer.compose. *)
Definition compose (fuel : nat) (path : string) : M Composer ComposedWorkflowDocument :=
  '(root_workflow, composition) ← compose_root fuel path;
  build_document root_workflow composition.

End Traversal.

(** ** The worktree a node runs in (core/workspace/selection.py) *)

(** Code: core/workspace/selection.py, selected_worktree_name. *)
Definition selected_worktree_name (workflow : WorkflowPlan) (node : WorkflowNode) : option string :=
  if negb (runs_providers node) then None
  else
    match node_worktree node with
    | Some selector => if bool_decide (selector = PROJECT_ROOT_WORKTREE_SELECTOR) then None else Some selector
    | None => match dkeys (plan_worktrees workflow) with [name] => Some name | _ => None end
    end.
