(* ===== verification/CompositionSpec.v ===== *)
(** What a composed workflow guarantees: distinct registered ids, sources
    inside the project, hygiene of namespaces and the worktrees of nodes. *)

From Stdlib Require Import ZArith Lia Ascii String.
From stdpp Require Import base gmap sets list strings.
From S2P Require Import Prelude PyStr StateExn Models Scheduler PlanRecords Artifacts PlanContract Foreach ForeachSpec Composition.

Open Scope string_scope.
Open Scope list_scope.
Open Scope Z_scope.

(** ** Lists and dicts *)

(** An invariant of a loop that ended without an error. *)
Lemma for_each_Ok {A S} (I : S -> Prop) (step : S -> A -> outcome S) l s s' :
  (forall s0 a s1, a ∈ l -> I s0 -> step s0 a = Ok s1 -> I s1) -> I s -> for_each step l s = Ok s' -> I s'.
Proof.
  revert s. induction l as [|a l IH]; intros s Hstep Hs H; simpl in H; inv_ok; [by subst|].
  eapply (IH a0); [intros s0 b s1 Hb; apply Hstep; by right | eapply Hstep; [left | exact Hs | done] | done].
Qed.

Lemma mapM_Forall2 {A B} (f : A -> outcome B) l k : mapM f l = Ok k -> Forall2 (fun a b => f a = Ok b) l k.
Proof. revert k. induction l as [|a l IH]; intros k H; simpl in H; inv_ok; subst; constructor; auto. Qed.

Lemma dkeys_app {V} (d e : dict V) : dkeys (d ++ e) = dkeys d ++ dkeys e.
Proof. apply map_app. Qed.

Lemma dict_update_disjoint {V} (d e : dict V) : NoDup (dkeys e) -> (forall k, k ∈ dkeys d -> k ∉ dkeys e) -> dict_update d e = d ++ e.
Proof.
  revert d. induction e as [|[k v] e IH]; intros d Hnd Hdis; [by rewrite app_nil_r|].
  simpl in Hnd. apply NoDup_cons in Hnd as [Hk Hnd]. unfold dict_update in *. simpl.
  rewrite dset_notin by (intros Hin; apply (Hdis k Hin); left). rewrite IH; [by rewrite <- app_assoc | done|].
  intros k' Hk' Hin. unfold dkeys in Hk'. rewrite map_app in Hk'. apply elem_of_app in Hk' as [Hk'|Hk'].
  - apply (Hdis k' Hk'). by right.
  - apply list_elem_of_singleton in Hk'. simpl in Hk'. by subst.
Qed.

Lemma dict_of_fresh {V} (l : list (string * V)) : NoDup (map fst l) -> dict_of l = l.
Proof.
  intros Hnd. change (dict_update [] l = l). rewrite dict_update_disjoint; [done | done|]. intros k Hk. by apply elem_of_nil in Hk.
Qed.

Lemma merge_worktrees_Ok a b c : merge_worktrees a b = Ok c -> NoDup (dkeys a) -> NoDup (dkeys b) ->
  c = a ++ b /\ NoDup (dkeys c).
Proof.
  unfold merge_worktrees. intros H Ha Hb. destruct (sorted_str _) as [|x l] eqn:E; [|done]. injection H as <-.
  assert (forall k, k ∈ dkeys a -> k ∉ dkeys b) as Hdis.
  { intros k Hk Hk'. pose proof (proj1 (sorted_str_nil _) E) as E'. assert (k ∈ ([] : list string)) as Hn; [|by apply elem_of_nil in Hn].
    rewrite <- E'. apply list_elem_of_In, filter_In. split; [by apply list_elem_of_In|]. by apply bool_decide_eq_true. }
  rewrite dict_update_disjoint by done. split; [done|]. unfold dkeys in *. rewrite map_app. by apply NoDup_app.
Qed.

(** ** Calls that return *)

Definition returns {A} (o : outcome A) : Prop := o <> OutOfFuel.

Lemma returns_bind {A B} (o : outcome A) (k : A -> outcome B) : returns o -> (forall a, returns (k a)) -> returns (o ≫= k).
Proof. destruct o as [a|e|]; simpl; [|done..]. intros _ H. apply H. Qed.

Lemma returns_for_each {A S} (step : S -> A -> outcome S) l s : (forall s a, returns (step s a)) -> returns (for_each step l s).
Proof. intros H. revert s. induction l as [|a l IH]; intros s; [done|]. by apply returns_bind. Qed.

Lemma returns_mapM {A B} (f : A -> outcome B) l : (forall a, returns (f a)) -> returns (mapM f l).
Proof. intros H. induction l as [|a l IH]; [done|]. simpl. apply returns_bind; [done|]. intros b. by apply returns_bind. Qed.

Lemma answered_returns {A} (a : answer A) : returns (answered a).
Proof. by destruct a. Qed.

(** Case analysis down to results and exceptions. *)
Ltac returning :=
  repeat first
    [ progress (intros; cbv beta zeta)
    | assumption
    | match goal with
      | |- returns (_ ≫= _) => apply returns_bind
      | |- returns (for_each _ _ _) => apply returns_for_each
      | |- returns (mapM _ _) => apply returns_mapM
      | |- returns (Ok _) => done
      | |- returns (Raise _) => done
      | |- returns (if ?c then _ else _) => destruct c
      | |- returns (match ?o with _ => _ end) => destruct o
      | |- returns ((match ?o with _ => _ end) _) => destruct o
      | |- returns (answered _) => apply answered_returns
      end ].

Create HintDb returning.

Lemma ditem_returns {V} (d : dict V) k : returns (ditem d k).
Proof. unfold ditem. returning. Qed.

Lemma resolve_bound_returns path inputs bound : returns (resolve_bound_input_nodes path inputs bound).
Proof. unfold resolve_bound_input_nodes. returning. Qed.

Lemma resolve_foreach_returns w item shared group : returns (resolve_foreach_inputs w item shared group).
Proof. unfold resolve_foreach_inputs. returning; apply ditem_returns. Qed.

Lemma input_boundary_returns n label : returns (validate_input_node_boundary n label).
Proof. unfold validate_input_node_boundary. returning. Qed.

Lemma declared_node_returns node path name id : returns (validate_declared_input_node node path name id).
Proof. unfold validate_declared_input_node. destruct (negb _); [done | apply input_boundary_returns]. Qed.

Lemma declared_inputs_returns path inputs nodes : returns (validate_declared_workflow_inputs path inputs nodes).
Proof.
  unfold validate_declared_workflow_inputs. apply returns_bind; [|done]. apply returns_for_each. intros _ name.
  destruct (dget inputs name) as [id|]; [|done]. destruct (dget _ id); [apply declared_node_returns | done].
Qed.

Lemma import_specs_returns configs path : returns (import_specs_from_frontmatter configs path).
Proof. unfold import_specs_from_frontmatter. returning. Qed.

Lemma parsed_returns document path : returns (parsed_workflow_from_markdown document path).
Proof.
  unfold parsed_workflow_from_markdown. apply returns_bind.
  { apply returns_mapM. intros n. apply returns_bind; [by destruct (pn_model_validate n) | done]. }
  intros nodes.
  apply returns_bind; [apply declared_inputs_returns|]. intros inputs. by apply returns_bind; [apply import_specs_returns|].
Qed.

Lemma compose_local_returns context node : returns (compose_local_node context node).
Proof.
  unfold compose_local_node. destruct (node_mode _); try done; (apply returns_bind; [|by intros []]);
    apply returns_for_each; intros [segments consumed] segment; (apply returns_bind; [|by intros []]);
    unfold resolve_param_templates; by destruct (existsb _ _).
Qed.

Lemma assert_file_returns {fs : WorkflowFiles} path label : returns (assert_file_exists path label).
Proof. unfold assert_file_exists. returning. Qed.

Lemma import_file_returns {fs : WorkflowFiles} root spec : returns (resolve_import_file root spec).
Proof. unfold resolve_import_file, resolve_import_path, assert_project_path. returning. apply assert_file_returns. Qed.

Lemma params_consumed_returns spec namespace r : returns (validate_import_params_consumed spec namespace r).
Proof. unfold validate_import_params_consumed. returning. Qed.

Lemma attach_returns r prerequisites spec : returns (attach_import_prerequisites r prerequisites spec).
Proof. unfold attach_import_prerequisites. returning. Qed.

Lemma merge_returns a b : returns (merge_worktrees a b).
Proof. unfold merge_worktrees. returning. Qed.

#[export] Hint Resolve ditem_returns resolve_bound_returns resolve_foreach_returns parsed_returns compose_local_returns
  assert_file_returns import_file_returns params_consumed_returns attach_returns merge_returns answered_returns : returning.

(** A lifted call that returns: only its result matters. *)
Lemma wp_call {S A} (o : outcome A) (Q : A -> S -> Prop) s : returns o -> (forall a, o = Ok a -> Q a s) ->
  wp (lift o) Q (fun _ _ => True) s.
Proof. intros Hr H. apply wp_lift. destruct o; [by apply H | done | done]. Qed.

(** ** Names *)

(** The ids of a namespace. *)
Definition scoped (namespace id : string) : Prop := exists local, id = qualify_id namespace local.

Lemma scoped_root id : scoped "" id.
Proof. by exists id. Qed.

Lemma scoped_child namespace alias id : scoped (qualify_id namespace alias) id -> scoped namespace id.
Proof.
  intros [local ->]. unfold scoped, qualify_id. destruct namespace as [|x n]; [by eexists|].
  set (ns := String x n). change (nonempty ns) with true. cbv iota. replace (nonempty (ns +:+ "." +:+ alias)) with true by done.
  exists (alias +:+ "." +:+ local). by rewrite !str_app_assoc.
Qed.

(** What a node of a namespace may refer to: its own namespace and what the importer binds. *)
Definition visible (namespace : string) (outer : list string) (id : string) : Prop := scoped namespace id \/ id ∈ outer.

Lemma resolve_visible d namespace bound : visible namespace (map snd bound) (resolve_dependency_id d namespace bound).
Proof.
  unfold resolve_dependency_id. destruct (dget bound d) as [t|] eqn:E; [right | left; by exists d].
  apply dget_elem_of in E. by apply (list_elem_of_fmap_2 snd) in E.
Qed.

Lemma visible_weaken namespace outer outer' id : (forall x, x ∈ outer -> visible namespace outer' x) ->
  visible namespace outer id -> visible namespace outer' id.
Proof. intros H [Hs|Ho]; [by left | by apply H]. Qed.

Lemma visible_child namespace alias outer outer' id : (forall x, x ∈ outer -> visible namespace outer' x) ->
  visible (qualify_id namespace alias) outer id -> visible namespace outer' id.
Proof. intros H [Hs|Ho]; [left; by eapply scoped_child | by apply H]. Qed.

Lemma dset_values {V} (d : dict V) k v x : x ∈ map snd (dset d k v) -> x = v \/ x ∈ map snd d.
Proof.
  induction d as [|[k0 v0] d IH]; simpl; [rewrite elem_of_cons; naive_solver|].
  case_decide; simpl; rewrite !elem_of_cons; naive_solver.
Qed.

Lemma resolve_bound_values path inputs bound resolved x : resolve_bound_input_nodes path inputs bound = Ok resolved ->
  x ∈ map snd resolved -> x ∈ map snd bound.
Proof.
  unfold resolve_bound_input_nodes. intros H Hx. inv_ok. destruct a as [d o]. simpl in H. inv_ok. subst resolved.
  refine (for_each_Ok (fun st => x ∈ map snd (fst st) -> x ∈ map snd bound) _ bound ([], []) (d, o) _ _ Hok Hx).
  - intros [d0 o0] [name source] [d1 o1] Hin IH Hstep. assert (source ∈ map snd bound) as Hs by (by apply (list_elem_of_fmap_2 snd) in Hin).
    destruct (dget inputs name) as [raw|]; [|done]. destruct (dget d0 raw) as [other|]; [destruct (negb _); [done|]|];
      injection Hstep as <- <-; intros [->|Hx0]%dset_values; auto.
  - simpl. by intros Hx0%elem_of_nil.
Qed.

(** ** Nodes *)

Definition ids (nodes : list ComposedNode) : list string := map (fun n => node_id (cn_payload n)) nodes.

(** A node of a namespace: its id is in it, and it refers only to what it may see. *)
Record node_ok (namespace : string) (outer : list string) (n : ComposedNode) : Prop := {
  no_id : scoped namespace (node_id (cn_payload n));
  no_needs : Forall (visible namespace outer) (node_needs (cn_payload n));
  no_inputs : node_mode (cn_payload n) = Models.Foreach -> Forall (visible namespace outer) (map snd (node_inputs (cn_payload n)))
}.

Lemma node_ok_child namespace alias outer outer' n : (forall x, x ∈ outer -> visible namespace outer' x) ->
  node_ok (qualify_id namespace alias) outer n -> node_ok namespace outer' n.
Proof.
  intros Ho [H1 H2 H3]. split; [by eapply scoped_child| |intros Hm; specialize (H3 Hm)];
    (eapply Forall_impl; [eassumption|]; intros x; by apply visible_child).
Qed.

Lemma node_ok_outer namespace outer outer' n : (forall x, x ∈ outer -> x ∈ outer') -> node_ok namespace outer n -> node_ok namespace outer' n.
Proof.
  intros Ho [H1 H2 H3]. split; [done| |intros Hm; specialize (H3 Hm)];
    (eapply Forall_impl; [eassumption|]; intros x [?|?]; [by left | right; auto]).
Qed.

(** What [compose_local_node] does to a node. *)
Lemma compose_local_node_facts context node n consumed : compose_local_node context node = Ok (n, consumed) ->
  node_id (cn_payload n) = qualify_id (co_namespace_prefix context) (node_id (nd_payload node)) /\
  node_mode (cn_payload n) = node_mode (nd_payload node) /\
  node_ok (co_namespace_prefix context) (map snd (co_bound_input_nodes context)) n /\
  node_worktree (cn_payload n) =
    (if bool_decide (node_mode (nd_payload node) = Models.Foreach) then node_worktree (nd_payload node)
     else compose_worktree_selector context (nd_payload node)) /\
  cn_implicit_worktree_selector n = node_implicit_worktree_selector context (nd_payload node) /\
  cn_local_worktree_count n = dict_len (pw_worktrees (co_workflow context)).
Proof.
  unfold compose_local_node. intros H.
  assert (Forall (visible (co_namespace_prefix context) (map snd (co_bound_input_nodes context)))
            (map (fun d => resolve_dependency_id d (co_namespace_prefix context) (co_bound_input_nodes context))
               (node_needs (nd_payload node)))) as Hneeds.
  { apply Forall_map, Forall_forall. intros d _. apply resolve_visible. }
  destruct (node_mode (nd_payload node)) eqn:Em;
    try (apply bind_Ok in H as ([segments c] & _ & H); simpl in H);
    injection H as <- <-; simpl; rewrite ?Em; (split_and!; [done | done | split; simpl | done..]);
    try done; try (by eexists); rewrite ?Em; try done.
  intros _. rewrite map_map. apply Forall_map, Forall_forall. intros [name caller] _. apply resolve_visible.
Qed.

(** Attaching prerequisites only adds dependencies. *)
Definition same_but_needs (extra : list string) (n n' : ComposedNode) : Prop :=
  (exists needs, n' = with_payload (with_needs needs (cn_payload n)) n /\
     forall d, d ∈ needs -> d ∈ node_needs (cn_payload n) \/ d ∈ extra) \/ n' = n.

Lemma attach_facts r prerequisites spec r' : attach_import_prerequisites r prerequisites spec = Ok r' ->
  cr_worktrees r' = cr_worktrees r /\ exists f, cr_nodes r' = map f (cr_nodes r) /\ forall n, same_but_needs prerequisites n (f n).
Proof.
  unfold attach_import_prerequisites. destruct prerequisites as [|p ps].
  { intros [= <-]. split; [done|]. exists id. split; [by rewrite map_id | by right]. }
  destruct (import_entry_ids _) as [|e es]; [done|]. intros [= <-]. split; [done|]. eexists. split; [reflexivity|].
  intros n. cbv beta. destruct (str_in (node_id (cn_payload n)) (e :: es)); [left | by right]. eexists. split; [done|]. intros d Hd. apply elem_of_dedup, elem_of_app in Hd. done.
Qed.

Lemma same_but_needs_id extra n n' : same_but_needs extra n n' -> node_id (cn_payload n') = node_id (cn_payload n).
Proof. by intros [(needs & -> & _)| ->]. Qed.

Lemma same_but_needs_ids extra f nodes : (forall n, same_but_needs extra n (f n)) -> ids (map f nodes) = ids nodes.
Proof. intros Hf. unfold ids. rewrite map_map. apply map_ext. intros n. by eapply same_but_needs_id. Qed.

Lemma same_but_needs_ok namespace outer extra n n' : same_but_needs extra n n' ->
  node_ok namespace outer n -> node_ok namespace (outer ++ extra) n'.
Proof.
  intros H Hn. apply (node_ok_outer _ _ (outer ++ extra)) in Hn; [|intros; by apply elem_of_app; left].
  destruct H as [(needs & -> & Hneeds)| ->]; [|done]. destruct Hn as [H1 H2 H3]. split; simpl; [done | | done].
  apply Forall_forall. intros d Hd. destruct (Hneeds d Hd) as [Hd'|Hd'].
  - rewrite Forall_forall in H2. by apply H2.
  - right. apply elem_of_app. by right.
Qed.

(** ** Worktrees *)

(** A file whose front matter was validated: worktree names are distinct,
    neither empty nor reserved, and the nodes that ask providers select declared
    ones. *)
Record well_declared (w : ParsedWorkflow) : Prop := {
  wd_nodup : NoDup (dkeys (pw_worktrees w));
  wd_names : Forall (fun name => name <> "" /\ name <> PROJECT_ROOT_WORKTREE_SELECTOR) (dkeys (pw_worktrees w));
  wd_selectors : Forall (fun n =>
    match node_worktree (nd_payload n) with
    | None => True
    | Some x => runs_providers (nd_payload n) = true /\ (x = PROJECT_ROOT_WORKTREE_SELECTOR \/ x ∈ dkeys (pw_worktrees w))
    end) (pw_nodes w)
}.

(** The selection of a composed node among the worktrees [trees]: an explicit
    selector is known; an implicit one is known or inherited; without one, there
    are several worktrees, or none in its files ([bare]) and none inherited. *)
Definition tree_ok (bare : Prop) (inherited : option string) (trees : dict WorktreeDeclaration) (n : ComposedNode) : Prop :=
  match node_worktree (cn_payload n) with
  | Some x => runs_providers (cn_payload n) = true /\ (x = PROJECT_ROOT_WORKTREE_SELECTOR \/ x ∈ dkeys trees)
  | None =>
      runs_providers (cn_payload n) = true ->
      match cn_implicit_worktree_selector n with
      | Some x => x ∈ dkeys trees \/ inherited = Some x
      | None => (2 <= length trees)%nat \/ inherited = None /\ cn_local_worktree_count n = 0 /\ bare
      end
  end.

Record trees_ok (bare : Prop) (inherited : option string) (r : CompositionResult) : Prop := {
  to_nodup : NoDup (dkeys (cr_worktrees r));
  to_names : Forall (fun name => name <> "" /\ name <> PROJECT_ROOT_WORKTREE_SELECTOR) (dkeys (cr_worktrees r));
  to_nodes : Forall (tree_ok bare inherited (cr_worktrees r)) (cr_nodes r)
}.

Lemma tree_ok_mono (bare bare' : Prop) inherited trees trees' n :
  (forall x, x ∈ dkeys trees -> x ∈ dkeys trees') -> (length trees <= length trees')%nat -> (bare -> bare') ->
  tree_ok bare inherited trees n -> tree_ok bare' inherited trees' n.
Proof.
  unfold tree_ok. intros Hk Hl Hb H. destruct (node_worktree _) as [x|].
  - destruct H as [Hr [?|?]]; auto.
  - intros Hr. specialize (H Hr). destruct (cn_implicit_worktree_selector n) as [x|].
    + destruct H as [?|?]; auto.
    + destruct H as [?|(? & ? & ?)]; [left; lia | auto].
Qed.

Lemma tree_ok_attach bare inherited trees extra n n' : same_but_needs extra n n' -> tree_ok bare inherited trees n -> tree_ok bare inherited trees n'.
Proof. by intros [(needs & -> & _)| ->]. Qed.

Lemma qualify_inj namespace a b : qualify_id namespace a = qualify_id namespace b -> a = b.
Proof. unfold qualify_id. destruct (nonempty namespace); [|done]. intros H%app_inj_str. by apply app_inj_str in H. Qed.

Lemma qualify_name namespace name : name <> "" /\ name <> PROJECT_ROOT_WORKTREE_SELECTOR ->
  qualify_id namespace name <> "" /\ qualify_id namespace name <> PROJECT_ROOT_WORKTREE_SELECTOR.
Proof.
  intros [H1 H2]. unfold qualify_id. destruct namespace as [|x ns]; [done|]. cbv iota beta delta [nonempty]. split; [done|].
  intros E. apply (f_equal chars) in E. rewrite !chars_app in E.
  assert (("."%char : ascii) ∈ chars PROJECT_ROOT_WORKTREE_SELECTOR) as Hin.
  { rewrite <- E. apply elem_of_app. right. simpl. left. }
  vm_compute in Hin. repeat (apply elem_of_cons in Hin as [?|Hin]; [done|]). by apply elem_of_nil in Hin.
Qed.

Lemma composed_declarations context : NoDup (dkeys (pw_worktrees (co_workflow context))) ->
  dkeys (compose_worktree_declarations context) = map (qualify_id (co_namespace_prefix context)) (dkeys (pw_worktrees (co_workflow context))) /\
  NoDup (dkeys (compose_worktree_declarations context)) /\
  length (compose_worktree_declarations context) = length (pw_worktrees (co_workflow context)).
Proof.
  intros Hnd. unfold compose_worktree_declarations. set (l := pw_worktrees (co_workflow context)) in *.
  assert (map fst (map (fun '(name, d) => (qualify_id (co_namespace_prefix context) name, d)) l)
          = map (qualify_id (co_namespace_prefix context)) (dkeys l)) as E.
  { unfold dkeys. rewrite !map_map. apply map_ext. by intros []. }
  assert (NoDup (map (qualify_id (co_namespace_prefix context)) (dkeys l))) as Hnd'
    by (apply NoDup_fmap_2; [intros a b; apply qualify_inj | done]).
  rewrite dict_of_fresh by (rewrite E; done). unfold dkeys at 1 3. rewrite E, length_map. done.
Qed.

(** The selection of a node of the file itself. *)
Lemma local_tree_ok context bare node n consumed inherited imported :
  well_declared (co_workflow context) -> node ∈ pw_nodes (co_workflow context) ->
  compose_local_node context node = Ok (n, consumed) ->
  co_implicit_worktree_selector context =
    context_implicit_worktree_selector (co_namespace_prefix context) (pw_worktrees (co_workflow context)) inherited ->
  (pw_worktrees (co_workflow context) = [] -> bare) ->
  tree_ok bare inherited (imported ++ compose_worktree_declarations context) n.
Proof.
  intros [Hnd _ Hsel] Hin Hc Hcx Hbare. destruct (compose_local_node_facts _ _ _ _ Hc) as (_ & Hmode & _ & Hw & Hi & Hl).
  destruct (composed_declarations context Hnd) as (Hkeys & _ & Hlen). rewrite Forall_forall in Hsel. specialize (Hsel node Hin). simpl in Hsel.
  assert (runs_providers (cn_payload n) = runs_providers (nd_payload node)) as Hr by (unfold runs_providers; by rewrite Hmode).
  assert (forall x, x ∈ dkeys (pw_worktrees (co_workflow context)) ->
    qualify_id (co_namespace_prefix context) x ∈ dkeys (imported ++ compose_worktree_declarations context)) as Hown.
  { intros x Hx. unfold dkeys. rewrite map_app. apply elem_of_app. right. fold (dkeys (compose_worktree_declarations context)).
    rewrite Hkeys. by apply list_elem_of_fmap_2. }
  unfold tree_ok. rewrite Hw, Hr, Hi, Hl. unfold compose_worktree_selector, node_implicit_worktree_selector.
  destruct (node_worktree (nd_payload node)) as [x|] eqn:Ew.
  - destruct Hsel as [Hrun Hx]. rewrite (bool_decide_eq_false_2 (node_mode (nd_payload node) = Models.Foreach)) by (unfold runs_providers in Hrun; by destruct (node_mode (nd_payload node))).
    destruct (bool_decide_reflect (x = PROJECT_ROOT_WORKTREE_SELECTOR)) as [Hnone|Hnone]; simpl; [split; [done | by left]|]. destruct Hx as [?|Hx]; [done|]. apply Hown in Hx.
    unfold qualify_id in *. destruct (nonempty (co_namespace_prefix context)); simpl; split; auto.
  - replace (if bool_decide (node_mode (nd_payload node) = Models.Foreach) then None else None) with (None : option string) by (by destruct (bool_decide _)).
    intros Hrun. rewrite Hrun. simpl. rewrite Hcx. unfold context_implicit_worktree_selector, dict_len.
    destruct (pw_worktrees (co_workflow context)) as [|[k v] [|[k2 v2] l]] eqn:Ewt; simpl.
    + destruct inherited; [by right | right; auto].
    + left. apply Hown. left.
    + left. rewrite length_app, Hlen. simpl. lia.
Qed.

(** The selection of a node of an import, in the file that imports it. *)
Lemma imported_tree_ok context bare n inherited imported :
  NoDup (dkeys (pw_worktrees (co_workflow context))) ->
  tree_ok True (co_implicit_worktree_selector context) imported n ->
  co_implicit_worktree_selector context =
    context_implicit_worktree_selector (co_namespace_prefix context) (pw_worktrees (co_workflow context)) inherited ->
  (pw_worktrees (co_workflow context) = [] -> bare) ->
  tree_ok bare inherited (imported ++ compose_worktree_declarations context) n.
Proof.
  intros Hnd Hn Hcx Hbare. destruct (composed_declarations context Hnd) as (Hkeys & _ & Hlen).
  assert (forall x, x ∈ dkeys imported -> x ∈ dkeys (imported ++ compose_worktree_declarations context)) as Hin
    by (intros x Hx; unfold dkeys; rewrite map_app; apply elem_of_app; by left).
  unfold tree_ok in *. destruct (node_worktree _) as [x|].
  { destruct Hn as [Hr [?|?]]; auto. }
  intros Hr. specialize (Hn Hr). unfold context_implicit_worktree_selector in Hcx.
  destruct (cn_implicit_worktree_selector n) as [x|].
  - destruct Hn as [Hx|Hx]; [left; auto|]. rewrite Hx in Hcx.
    destruct (pw_worktrees (co_workflow context)) as [|[k v] [|[k2 v2] l]]; simpl in *; [by right | | done].
    injection Hcx as ->. left. unfold dkeys. rewrite map_app. apply elem_of_app. right. fold (dkeys (compose_worktree_declarations context)).
    rewrite Hkeys. left.
  - destruct Hn as [Hn|(Hx & Hl & _)]; [left; rewrite length_app; lia|]. rewrite Hx in Hcx.
    destruct (pw_worktrees (co_workflow context)) as [|[k v] [|[k2 v2] l]]; simpl in *; [right; auto | done|].
    left. rewrite length_app, Hlen. lia.
Qed.

(** ** Templates *)

(** The inputs of a foreach node bind distinct nodes of the child. *)
Lemma foreach_bound_loop (inputs : dict string) group names : forall bound bound',
  for_each (fun bound_nodes name =>
    match dget inputs name with
    | None => Raise (ValueError ("Foreach " +:+ quoted group +:+ " has unknown child input " +:+ quoted name))
    | Some node_id =>
        match dget bound_nodes node_id with
        | Some other =>
            Raise (ValueError ("Foreach " +:+ quoted group +:+ " inputs " +:+ quoted name +:+ " and " +:+ quoted other
                               +:+ " bind the same child node " +:+ quoted node_id))
        | None => Ok (dset bound_nodes node_id name)
        end
    end) names bound = Ok bound' ->
  exists children, Forall2 (fun name child => dget inputs name = Some child) names children /\ NoDup children /\
    forall child, child ∈ children -> child ∉ dkeys bound.
Proof.
  induction names as [|name names IH]; intros bound bound' H; [exists []; split_and!; [constructor | constructor|]; by intros ? ?%elem_of_nil|].
  simpl in H. apply bind_Ok in H as (bound1 & H1 & H). destruct (dget inputs name) as [child|] eqn:E; [|done].
  destruct (dget bound child) as [other|] eqn:Eb; [done|]. injection H1 as <-. apply dget_None in Eb.
  destruct (IH _ _ H) as (children & Hf & Hnd & Hfresh). exists (child :: children). split_and!.
  - by constructor.
  - apply NoDup_cons. split; [|done]. intros Hin. apply (Hfresh child Hin), elem_of_dkeys_dset. by left.
  - intros c [->|Hc]%elem_of_cons; [done|]. intros Hin. apply (Hfresh c Hc), elem_of_dkeys_dset. by right.
Qed.

Lemma foreach_shared_values w item shared group item_id bindings :
  resolve_foreach_inputs w item shared group = Ok (item_id, bindings) -> map snd bindings = map snd shared.
Proof.
  unfold resolve_foreach_inputs. intros H. apply bind_Ok in H as (bound & Hb & H). apply bind_Ok in H as (i & Hi & H).
  apply bind_Ok in H as (l & Hl & H). injection H as _ <-. apply foreach_bound_loop in Hb as (children & Hf & Hnd & _).
  inversion Hf as [|x y names' children' _ Hf']; subst. apply NoDup_cons in Hnd as [_ Hnd]. apply mapM_Forall2 in Hl.
  assert (map fst l = children' /\ map snd l = map snd shared) as [Hfst Hsnd].
  { clear - Hf' Hl. revert children' Hf'. induction Hl as [|[name caller] [child c] shared l Hx Hl IH]; intros children Hf.
    - inversion Hf. done.
    - inversion Hf as [|a b names' children' Ha Hf']; subst. apply bind_Ok in Hx as (z & Hz & Hx). injection Hx as <- <-.
      apply ditem_Ok in Hz. rewrite Ha in Hz. injection Hz as <-. destruct (IH _ Hf') as [E1 E2]. simpl. by rewrite E1, E2. }
  rewrite dict_of_fresh; [done | by rewrite Hfst].
Qed.

Lemma materialized_ids w r : ids (materialized_nodes w r) = ids (cr_nodes r).
Proof.
  unfold materialized_nodes, materialize_implicit_worktree_selectors. destruct (_ =? 0); [done|]. unfold ids. rewrite map_map.
  apply map_ext. intros n. by destruct (needs_materialized_selector _ _ _).
Qed.

Lemma materialized_ok namespace outer w r : Forall (node_ok namespace outer) (cr_nodes r) ->
  Forall (node_ok namespace outer) (materialized_nodes w r).
Proof.
  unfold materialized_nodes, materialize_implicit_worktree_selectors. destruct (_ =? 0); [done|]. intros H. apply Forall_map.
  eapply Forall_impl; [exact H|]. intros n Hn. destruct (needs_materialized_selector _ _ _); [|done].
  destruct Hn as [H1 H2 H3]. by split.
Qed.
