(* ===== verification/CompositionCorrect.v ===== *)
(** The traversal of a workflow and its imports: termination, registered ids,
    sources, namespaces and worktrees. *)

From Stdlib Require Import ZArith Lia Ascii String.
From stdpp Require Import base gmap sets list strings.
From S2P Require Import Prelude PyStr StateExn Models Scheduler PlanRecords Artifacts PlanContract Foreach ForeachSpec Composition.
From S2P Require Import CompositionSpec.

Open Scope string_scope.
Open Scope list_scope.
Open Scope Z_scope.

(** The ids of the nodes of every template. *)
Definition template_ids (templates : dict ComposedForeach) : list string := mjoin (map (fun '(_, t) => ids (fe_nodes t)) templates).

(** What [s'] registered on top of [s]: [new] nodes of the workflow and [inner] nodes of templates. *)
Record registers (s : Composer) (new inner : list string) (s' : Composer) : Prop := {
  rg_root : cp_project_root s' = cp_project_root s;
  rg_cache : forall p w, dget (cp_parsed_cache s) p = Some w -> dget (cp_parsed_cache s') p = Some w;
  rg_nodes : dkeys (cp_node_sources s') ≡ₚ dkeys (cp_node_sources s) ++ new ++ inner;
  rg_templates : template_ids (cp_foreach_templates s') ≡ₚ template_ids (cp_foreach_templates s) ++ inner;
  rg_groups : forall g, g ∈ dkeys (cp_foreach_templates s') -> g ∈ dkeys (cp_foreach_templates s) \/ g ∈ new ++ inner
}.

Lemma registers_refl s : registers s [] [] s.
Proof. split; rewrite ?app_nil_r; auto. Qed.

Lemma registers_trans s a ia s1 b ib s2 : registers s a ia s1 -> registers s1 b ib s2 -> registers s (a ++ b) (ia ++ ib) s2.
Proof.
  intros [A1 A2 A3 A4 A5] [B1 B2 B3 B4 B5]. split; [congruence | auto | | |].
  - rewrite B3, A3, <- !app_assoc. apply Permutation_app_head, Permutation_app_head.
    rewrite !app_assoc. apply Permutation_app_tail, Permutation_app_comm.
  - by rewrite B4, A4, app_assoc.
  - intros g Hg. destruct (B5 g Hg) as [Hg1|Hg1]; [destruct (A5 g Hg1) as [?|Hg2]; [by left|]|]; right; rewrite !elem_of_app in *; tauto.
Qed.

(** The template of a group: its nodes are in its namespace and refer to it or to the shared bindings. *)
Record template_ok (group : string) (t : ComposedForeach) : Prop := {
  tm_group : fe_group_id t = group;
  tm_namespace : fe_namespace t = group +:+ ".template";
  tm_item : scoped (fe_namespace t) (fe_item_node_id t);
  tm_nodes : Forall (node_ok (fe_namespace t) (map snd (fe_shared_bindings t))) (fe_nodes t)
}.

(** ** What the files themselves say *)

Section Sources.
Context {fs : WorkflowFiles}.

(** The workflow that the file [path] holds. *)
Definition reads (path : string) (w : ParsedWorkflow) : Prop :=
  exists content document, read_text path = inr content /\ parse_workflow_markdown_document path content = inr document /\
    parsed_workflow_from_markdown document path = Ok w.

(** A file imports another one, or names it as the workflow of a foreach group. *)
Definition imports_file (project_root path child : string) : Prop :=
  exists w, reads path w /\
    ((exists spec, spec ∈ pw_imports w /\ resolve_import_file project_root spec = Ok child) \/
     (exists node workflow, node ∈ pw_nodes w /\ node_mode (nd_payload node) = Models.Foreach /\
        node_id (nd_payload node) ∉ map snd (pw_inputs w) /\ node_workflow (nd_payload node) = Some workflow /\
        resolve_import_file project_root (mkImport "" workflow [] [] (nd_source_path node) []) = Ok child)).

(** No file that composing [root] reads imports itself, directly or through others. *)
Definition no_import_cycle (project_root root : string) : Prop :=
  forall path, rtc (imports_file project_root) root path -> ~ tc (imports_file project_root) path path.

(** The worktree a file hands to nodes that name none: its only one, or, when it
    declares none, the one it inherits. *)
Definition default_worktree (prefix : string) (w : ParsedWorkflow) (inherited : option string) : option string :=
  match dkeys (pw_worktrees w) with [] => inherited | [name] => Some (qualify_id prefix name) | _ => None end.

(** The worktree of a node of the file [w], which is imported under [prefix]. *)
Definition own_worktree (prefix : string) (w : ParsedWorkflow) (inherited : option string) (node : WorkflowNode) : option string :=
  if negb (runs_providers node) then None
  else match node_worktree node with
       | Some name => if bool_decide (name = PROJECT_ROOT_WORKTREE_SELECTOR) then None else Some (qualify_id prefix name)
       | None => default_worktree prefix w inherited
       end.

(** The file [path], imported under a prefix with an inherited worktree, gives the
    composed node [id] its worktree: a node of the file itself, or of one it imports. *)
Inductive gives (project_root : string) : string -> string -> option string -> string -> option string -> Prop :=
| gives_local path prefix inherited w node :
    reads path w -> node ∈ pw_nodes w ->
    gives project_root path prefix inherited (qualify_id prefix (node_id (nd_payload node)))
      (own_worktree prefix w inherited (nd_payload node))
| gives_import path prefix inherited w spec child id worktree :
    reads path w -> spec ∈ pw_imports w -> resolve_import_file project_root spec = Ok child ->
    gives project_root child (qualify_id prefix (im_alias spec)) (default_worktree prefix w inherited) id worktree ->
    gives project_root path prefix inherited id worktree.

Lemma reads_functional path w w' : reads path w -> reads path w' -> w' = w.
Proof. intros (c & d & H1 & H2 & H3) (c' & d' & H1' & H2' & H3'). congruence. Qed.

(** Files that can be traversed to the end have no cycle. *)
Lemma acyclic_no_cycle project_root root : Acc (flip (imports_file project_root)) root -> no_import_cycle project_root root.
Proof.
  intros Hacc path Hr. assert (Acc (flip (imports_file project_root)) path) as Hp.
  { induction Hr as [|x y z Hxy _ IH]; [done|]. apply IH. by apply (Acc_inv Hacc). }
  clear Hacc Hr. induction Hp as [path _ IH]. intros Hc.
  assert (exists child, imports_file project_root path child /\ tc (imports_file project_root) child child) as (child & H1 & H2).
  { inversion Hc as [? ? H|? child ? H H']; subst; [exists path; done|]. exists child. split; [done|]. by eapply tc_r. }
  by apply (IH child H1).
Qed.

(** The result of resolving an import depends on two of its fields. *)
Lemma resolve_import_same project_root spec spec' path : im_raw_path spec' = im_raw_path spec -> im_source_path spec' = im_source_path spec ->
  resolve_import_file project_root spec = Ok path -> resolve_import_file project_root spec' = Ok path.
Proof. unfold resolve_import_file. by intros -> ->. Qed.

End Sources.

(** The worktree a composed node is meant to run in: the one it names, or the one
    its context gave it. *)
Definition intended_worktree (n : ComposedNode) : option string :=
  if negb (runs_providers (cn_payload n)) then None
  else
    match node_worktree (cn_payload n) with
    | Some selector => if bool_decide (selector = PROJECT_ROOT_WORKTREE_SELECTOR) then None else Some selector
    | None => cn_implicit_worktree_selector n
    end.

Lemma intended_same_but_needs extra n n' : same_but_needs extra n n' -> intended_worktree n' = intended_worktree n.
Proof. by intros [(needs & -> & _)| ->]. Qed.

Lemma qualify_not_root namespace name : name <> PROJECT_ROOT_WORKTREE_SELECTOR -> qualify_id namespace name <> PROJECT_ROOT_WORKTREE_SELECTOR.
Proof.
  intros Hn. destruct (nonempty name) eqn:E; [apply qualify_name; split; [by destruct name | done]|].
  destruct name; [|done]. unfold qualify_id. destruct (nonempty namespace); [|done]. intros H. apply (f_equal chars) in H.
  rewrite !chars_app in H. assert (("."%char : ascii) ∈ chars PROJECT_ROOT_WORKTREE_SELECTOR) as Hin
    by (rewrite <- H; apply elem_of_app; right; left).
  vm_compute in Hin. repeat (apply elem_of_cons in Hin as [?|Hin]; [done|]). by apply elem_of_nil in Hin.
Qed.

(** A local node is meant to run where its file says. *)
Lemma local_intended context node n c inherited : compose_local_node context node = Ok (n, c) ->
  co_implicit_worktree_selector context =
    context_implicit_worktree_selector (co_namespace_prefix context) (pw_worktrees (co_workflow context)) inherited ->
  intended_worktree n = own_worktree (co_namespace_prefix context) (co_workflow context) inherited (nd_payload node).
Proof.
  intros Hc Hi. destruct (compose_local_node_facts _ _ _ _ Hc) as (_ & Hmode & _ & Hw & Himp & _).
  unfold intended_worktree, own_worktree. assert (runs_providers (cn_payload n) = runs_providers (nd_payload node)) as ->
    by (unfold runs_providers; by rewrite Hmode).
  destruct (runs_providers (nd_payload node)) eqn:Hrun; [|done]. simpl. rewrite Hw, Himp.
  rewrite (bool_decide_eq_false_2 (node_mode (nd_payload node) = Models.Foreach)) by (intros E; unfold runs_providers in Hrun; by rewrite E in Hrun).
  unfold compose_worktree_selector, node_implicit_worktree_selector. rewrite Hrun.
  destruct (node_worktree (nd_payload node)) as [x|]; simpl.
  - destruct (bool_decide_reflect (x = PROJECT_ROOT_WORKTREE_SELECTOR)) as [->|Hx]; simpl; [done|].
    destruct (nonempty (co_namespace_prefix context)) eqn:E; simpl.
    + by rewrite bool_decide_eq_false_2 by (by apply qualify_not_root).
    + rewrite bool_decide_eq_false_2 by done. unfold qualify_id. by rewrite E.
  - rewrite Hi. unfold context_implicit_worktree_selector, default_worktree. by destruct (dkeys _) as [|? []].
Qed.

Section Correct.
Context {hash : HashLibrary} {fs : WorkflowFiles}.
(* The files that exist, the root file, and what is known of every parsed file. *)
Context (files : list string) (root_path : string) (good : ParsedWorkflow -> Prop).
Hypothesis finitely_many : forall p, path_is_file p = true -> p ∈ files.
Hypothesis parsed_good : forall path content document w, parse_workflow_markdown_document path content = inr document ->
  parsed_workflow_from_markdown document path = Ok w -> good w.

(** A file the composer may read. *)
Definition allowed (project_root path : string) : Prop := path = root_path \/ is_relative_to path project_root = true.

Record composer_ok (s : Composer) : Prop := {
  ck_cache : forall p w, dget (cp_parsed_cache s) p = Some w -> p ∈ files /\ good w /\ reads p w;
  ck_order : dkeys (cp_source_hashes s) = cp_source_order s;
  ck_sources_nodup : NoDup (cp_source_order s);
  ck_hashes : forall p d, dget (cp_source_hashes s) p = Some d -> exists content, read_text p = inr content /\ d = sha256 content;
  ck_allowed : Forall (allowed (cp_project_root s)) (cp_source_order s);
  ck_nodup : NoDup (dkeys (cp_node_sources s));
  ck_groups : forall g, g ∈ dkeys (cp_foreach_templates s) -> g ∈ dkeys (cp_node_sources s);
  ck_templates : Forall (fun '(g, t) => template_ok g t) (cp_foreach_templates s)
}.

Notation quiet := (fun (_ : exn) (_ : Composer) => True).

Lemma exists_is_file path label : assert_file_exists path label = Ok tt -> path ∈ files.
Proof.
  unfold assert_file_exists. intros H. destruct (negb (path_exists path)); [done|]. destruct (path_is_file path) eqn:E; [|done].
  by apply finitely_many.
Qed.

(** A change that only adds to the cache and the sources. *)
Lemma unregistered s s' : cp_project_root s' = cp_project_root s -> cp_node_sources s' = cp_node_sources s ->
  cp_foreach_templates s' = cp_foreach_templates s ->
  (forall p w, dget (cp_parsed_cache s) p = Some w -> dget (cp_parsed_cache s') p = Some w) -> registers s [] [] s'.
Proof. intros H1 H2 H3 H4. split; rewrite ?H2, ?H3, ?app_nil_r; auto. Qed.

Lemma wp_load path s : composer_ok s -> allowed (cp_project_root s) path ->
  wp (load_workflow_file path) (fun w s' => composer_ok s' /\ registers s [] [] s' /\ dget (cp_parsed_cache s') path = Some w) quiet s.
Proof.
  intros Hs Hp. unfold load_workflow_file. wp_step. wp_step. destruct (dget (cp_parsed_cache s) path) as [w|] eqn:Ec.
  { wp_step. split_and!; [done | apply registers_refl | done]. }
  wp_step. apply wp_call; [auto with returning|]. intros [] Ee%exists_is_file.
  wp_step. apply wp_call; [auto with returning|]. intros content Er. destruct (read_text path) as [|content'] eqn:Ert; [done|].
  injection Er as ->. wp_step. wp_step.
  assert (wp (when (negb (dmem (cp_source_hashes s) path)) (modify (add_source path (sha256 content))))
    (fun _ s1 => composer_ok s1 /\ registers s [] [] s1 /\ cp_parsed_cache s1 = cp_parsed_cache s) quiet s) as Hsource.
  { apply wp_when; intros Hmem; [|by split_and!; [|apply registers_refl|]]. apply negb_true_iff, dmem_false in Hmem.
    wp_step. split_and!; [|by apply unregistered | done]. destruct Hs as [H1 H2 H3 H4 H5 H6 H7 H8].
    split; simpl; try done.
    - by rewrite dkeys_dset_notin, H2.
    - apply NoDup_app. split_and!; [done | | apply NoDup_singleton]. intros x Hx ->%list_elem_of_singleton. by rewrite H2 in Hmem.
    - intros p d. rewrite dget_dset. case_decide; [|apply H4]. subst. intros [= <-]. by exists content.
    - apply Forall_app. split; [done | by constructor]. }
  wp_step. eapply wp_mono; [exact Hsource | | done]. intros [] s1 (Hs1 & Hr1 & Hc1).
  wp_step. apply wp_call; [auto with returning|]. intros document Ed.
  destruct (parse_workflow_markdown_document path content) as [|document'] eqn:Edoc; [done|]. injection Ed as ->.
  wp_step. apply wp_call; [auto with returning|]. intros w Ew. wp_step. wp_step. wp_step. split_and!.
  - destruct Hs1 as [H1 H2 H3 H4 H5 H6 H7 H8]. split; simpl; try done. intros p w'. rewrite dget_dset. case_decide; [|apply H1].
    subst. intros [= <-]. split_and!; [done | by eapply parsed_good | by exists content, document].
  - eapply (registers_trans _ [] [] _ [] []); [exact Hr1|]. apply unregistered; simpl; try done. intros p w' Hp'.
    rewrite dget_dset_ne; [done|]. intros <-. by rewrite Hc1, Ec in Hp'.
  - simpl. apply dget_dset_eq.
Qed.

Lemma wp_schema path version s : composer_ok s ->
  wp (set_or_validate_root_schema path version) (fun _ s' => composer_ok s' /\ registers s [] [] s') quiet s.
Proof.
  intros Hs. unfold set_or_validate_root_schema. wp_step. wp_step. destruct (cp_root_schema_version s) as [v|].
  - destruct (bool_decide (version = v)); [|done]. wp_step. split; [done | apply registers_refl].
  - wp_step. split; [|by apply unregistered]. by destruct Hs.
Qed.

(** Registering a node: its id is new. *)
Lemma wp_append n s : composer_ok s ->
  wp (append_node n) (fun _ s' => composer_ok s' /\ registers s [node_id (cn_payload n)] [] s' /\
    node_id (cn_payload n) ∉ dkeys (cp_node_sources s) /\ cp_foreach_templates s' = cp_foreach_templates s) quiet s.
Proof.
  intros Hs. unfold append_node. wp_step. wp_step. destruct (dget (cp_node_sources s) _) as [p|] eqn:E; [done|].
  apply dget_None in E. wp_step. split_and!; [| |done | done].
  - destruct Hs as [H1 H2 H3 H4 H5 H6 H7 H8]. split; simpl; try done.
    + by apply NoDup_dkeys_dset.
    + intros g Hg. apply elem_of_dkeys_dset. right. auto.
  - split; simpl; rewrite ?app_nil_r; auto. by rewrite dkeys_dset_notin.
Qed.

(** ** The specification of [compose_file] *)

(** What composing the file [path] in a namespace gives. *)
Definition composed (path namespace : string) (bound : dict string) (inherited : option string) (s : Composer)
    (r : CompositionResult) (s' : Composer) : Prop :=
  composer_ok s' /\ (exists inner, registers s (ids (cr_nodes r)) inner s') /\
  Forall (node_ok namespace (map snd bound)) (cr_nodes r) /\
  (Acc (flip (imports_file (cp_project_root s))) path /\
   Forall (fun n => gives (cp_project_root s) path namespace inherited (node_id (cn_payload n)) (intended_worktree n)) (cr_nodes r)) /\
  exists w, dget (cp_parsed_cache s') path = Some w /\
    ((forall w, good w -> well_declared w) -> trees_ok (pw_worktrees w = []) inherited r).

Definition child_ok (depth : nat) (compose_child : string -> string -> dict ParamBinding -> dict string -> option string ->
    list string -> M Composer CompositionResult) : Prop :=
  forall path namespace params bound inherited stack s,
    composer_ok s -> allowed (cp_project_root s) path -> NoDup stack -> (forall p, p ∈ stack -> p ∈ files) ->
    (length files < depth + length stack)%nat ->
    wp (compose_child path namespace params bound inherited stack) (composed path namespace bound inherited s) quiet s.

(** The import stack of a context, with [depth] files left to enter. *)
Record stack_ok (depth : nat) (stack : list string) : Prop := {
  sk_nodup : NoDup stack;
  sk_files : forall p, p ∈ stack -> p ∈ files;
  sk_depth : (length files < depth + length stack)%nat
}.

Notation sound := (forall w, good w -> well_declared w).

Lemma import_file_allowed s spec path : resolve_import_file (cp_project_root s) spec = Ok path -> allowed (cp_project_root s) path.
Proof.
  unfold resolve_import_file, assert_project_path. intros H. inv_ok.
  destruct (is_relative_to a (cp_project_root s)) eqn:E; [|done]. destruct (negb _); [done|]. right. by injection H as <-.
Qed.

Definition imported (context : CompositionContext) (spec : ImportSpec) (s : Composer) (r : CompositionResult) (s' : Composer) : Prop :=
  composer_ok s' /\ (exists inner, registers s (ids (cr_nodes r)) inner s') /\
  Forall (node_ok (qualify_id (co_namespace_prefix context) (im_alias spec))
            (map snd (resolve_import_inputs context spec) ++ resolve_import_prerequisites context spec)) (cr_nodes r) /\
  (exists child, resolve_import_file (cp_project_root s) spec = Ok child /\ Acc (flip (imports_file (cp_project_root s))) child /\
     Forall (fun n => gives (cp_project_root s) child (qualify_id (co_namespace_prefix context) (im_alias spec))
       (co_implicit_worktree_selector context) (node_id (cn_payload n)) (intended_worktree n)) (cr_nodes r)) /\
  (sound -> trees_ok True (co_implicit_worktree_selector context) r).

Section Child.
Context (depth : nat) (compose_child : string -> string -> dict ParamBinding -> dict string -> option string ->
  list string -> M Composer CompositionResult).
Hypothesis Hchild : child_ok depth compose_child.

Lemma wp_import context spec s : composer_ok s -> stack_ok depth (co_import_stack context) ->
  wp (compose_import compose_child context spec) (imported context spec s) quiet s.
Proof.
  intros Hs [Hk1 Hk2 Hk3]. unfold compose_import. wp_step. wp_step. wp_step. apply wp_call; [auto with returning|].
  intros path Hres. pose proof (import_file_allowed _ _ _ Hres) as Hpath. wp_step. eapply wp_mono; [by apply Hchild | | done].
  intros r s1 (Hs1 & (inner & Hr1) & Hn1 & (Hacc & Hg) & w & _ & Ht1). wp_step. apply wp_call; [auto with returning|]. intros [] _.
  apply wp_call; [auto with returning|]. intros r' Hr'. apply attach_facts in Hr' as (Hw & f & Hf & Hsame).
  split_and!; [done | | | |].
  - exists inner. rewrite Hf. by erewrite same_but_needs_ids.
  - rewrite Hf. apply Forall_map. eapply Forall_impl; [exact Hn1|]. intros n Hn. by eapply same_but_needs_ok.
  - exists path. split_and!; [done | done|]. rewrite Hf. apply Forall_map. eapply Forall_impl; [exact Hg|]. intros n Hn.
    by rewrite (same_but_needs_id _ _ _ (Hsame n)), (intended_same_but_needs _ _ _ (Hsame n)).
  - intros Hsound. destruct (Ht1 Hsound) as [H1 H2 H3]. split; rewrite ?Hw; [done..|]. rewrite Hf. apply Forall_map.
    eapply Forall_impl; [exact H3|]. intros n Hn. eapply tree_ok_attach; [done|]. by eapply tree_ok_mono; [..|exact Hn].
Qed.

(** What an importing file may see of its import's outer references. *)
Lemma import_outer_visible context spec x :
  x ∈ map snd (resolve_import_inputs context spec) ++ resolve_import_prerequisites context spec ->
  visible (co_namespace_prefix context) (map snd (co_bound_input_nodes context)) x.
Proof.
  intros [Hx|Hx]%elem_of_app.
  - unfold resolve_import_inputs in Hx. rewrite map_map in Hx. apply list_elem_of_fmap in Hx as ([k v] & -> & _). apply resolve_visible.
  - apply list_elem_of_fmap in Hx as (d & -> & _). apply resolve_visible.
Qed.

Lemma wp_imports context imports acc s : composer_ok s -> stack_ok depth (co_import_stack context) ->
  (sound -> trees_ok True (co_implicit_worktree_selector context) acc) ->
  wp (compose_imports compose_child context imports acc) (fun r s' =>
    composer_ok s' /\ (exists more inner, cr_nodes r = cr_nodes acc ++ more /\ registers s (ids more) inner s' /\
      Forall (node_ok (co_namespace_prefix context) (map snd (co_bound_input_nodes context))) more /\
      Forall (fun spec => forall child, resolve_import_file (cp_project_root s) spec = Ok child -> Acc (flip (imports_file (cp_project_root s))) child) imports /\
      Forall (fun n => exists spec child, spec ∈ imports /\ resolve_import_file (cp_project_root s) spec = Ok child /\
        gives (cp_project_root s) child (qualify_id (co_namespace_prefix context) (im_alias spec))
          (co_implicit_worktree_selector context) (node_id (cn_payload n)) (intended_worktree n)) more) /\
    (sound -> trees_ok True (co_implicit_worktree_selector context) r)) quiet s.
Proof.
  intros Hs Hk. revert acc s Hs. induction imports as [|spec imports IH]; intros acc s Hs Hacc; simpl.
  { wp_step. split_and!; [done | | done]. exists [], []. rewrite app_nil_r. split_and!; [done | apply registers_refl | constructor..]. }
  wp_step. eapply wp_mono; [by apply wp_import | | done]. intros r s1 (Hs1 & (i1 & Hr1) & Hn1 & (child & Hres & Hwf & Hg) & Ht1).
  wp_step. apply wp_call; [auto with returning|]. intros trees Htrees.
  eapply wp_mono; [apply IH; [done|] | | done].
  - intros Hsound. destruct (Hacc Hsound) as [A1 A2 A3], (Ht1 Hsound) as [B1 B2 B3].
    apply merge_worktrees_Ok in Htrees as [-> Hnd]; [|done..]. split; simpl; [done | unfold dkeys in *; rewrite map_app; by apply Forall_app|].
    apply Forall_app. split; (eapply Forall_impl; [eassumption|]); intros n; apply tree_ok_mono; rewrite ?length_app; try lia; try done;
      intros x Hx; unfold dkeys; rewrite map_app; apply elem_of_app; auto.
  - intros r' s2 (Hs2 & (more & i2 & Hmore & Hr2 & Hn2 & Ha2 & Hg2) & Ht2). rewrite (rg_root _ _ _ _ Hr1) in Ha2, Hg2.
    split_and!; [done | | done].
    exists (cr_nodes r ++ more), (i1 ++ i2). split_and!.
    + rewrite Hmore. simpl. by rewrite app_assoc.
    + unfold ids. rewrite map_app. by eapply registers_trans.
    + apply Forall_app. split; [|done]. eapply Forall_impl; [exact Hn1|]. intros n. apply node_ok_child.
      intros x. apply import_outer_visible.
    + constructor; [intros q Hq; congruence | done].
    + apply Forall_app. split.
      * eapply Forall_impl; [exact Hg|]. intros n Hn. exists spec, child. split_and!; [left | done | done].
      * eapply Forall_impl; [exact Hg2|]. intros n (spec' & q & Hin & Hq & Hn). exists spec', q. split_and!; [by right | done | done].
Qed.

(** ** Foreach groups *)

Lemma active_ok group s : composer_ok s -> composer_ok (set_active_foreach group s).
Proof. by intros []. Qed.

Lemma active_registers group s : registers s [] [] (set_active_foreach group s).
Proof. by apply unregistered. Qed.

Lemma wp_traverse context node path params s : composer_ok s -> allowed (cp_project_root s) path ->
  stack_ok depth (co_import_stack context) ->
  wp (traverse_foreach_template compose_child context node path params)
    (composed path (node_id node +:+ ".template") (node_inputs node) None s) quiet s.
Proof.
  intros Hs Hp [Hk1 Hk2 Hk3]. unfold traverse_foreach_template. wp_step. wp_step. wp_step. wp_step.
  eapply wp_mono; [apply Hchild; [by apply active_ok | done..] | |].
  2: { intros e s1 _. wp_step. wp_step. by wp_step. }
  intros r s1 (Hs1 & (inner & Hr1) & Hn1 & Hsrc & w & Hw & Ht1). wp_step. wp_step. wp_step.
  split; [by apply active_ok|]. split; [|split; [done | split; [done|]]].
  - exists inner. pose proof (registers_trans _ _ _ _ _ _ _ (active_registers (Some (node_id node)) s) Hr1) as H.
    pose proof (registers_trans _ _ _ _ _ _ _ H (active_registers None s1)) as H2. simpl in H2. by rewrite !app_nil_r in H2.
  - by exists w.
Qed.

(** Storing the template of a group that was registered before its nodes. *)
Lemma store_template s0 s1 s2 group nodes inner t :
  composer_ok s0 -> group ∉ dkeys (cp_node_sources s0) -> registers s0 [group] [] s1 ->
  cp_foreach_templates s1 = cp_foreach_templates s0 -> composer_ok s2 -> registers s1 nodes inner s2 ->
  template_ok group t -> ids (fe_nodes t) = nodes ->
  composer_ok (add_template group t s2) /\ registers s0 [group] (nodes ++ inner) (add_template group t s2).
Proof.
  intros Hs0 Hfresh R1 HT1 Hs2 R2 Ht Hids. pose proof (registers_trans _ _ _ _ _ _ _ R1 R2) as R. simpl in R.
  assert (group ∉ dkeys (cp_foreach_templates s2)) as Hnew.
  { intros Hg. destruct (rg_groups _ _ _ _ R2 group Hg) as [Hg'|Hg'].
    - rewrite HT1 in Hg'. by apply Hfresh, (ck_groups s0 Hs0).
    - pose proof (ck_nodup s2 Hs2) as Hnd. rewrite (rg_nodes _ _ _ _ R2) in Hnd. apply NoDup_app in Hnd as (_ & Hdis & _).
      apply (Hdis group); [|done]. rewrite (rg_nodes _ _ _ _ R1). apply elem_of_app. right. left. }
  destruct R as [A1 A2 A3 A4 A5]. split.
  - destruct Hs2 as [H1 H2 H3 H4 H5 H6 H7 H8]. split; simpl; try done.
    + intros g [->|Hg]%elem_of_dkeys_dset; [|auto]. rewrite A3. apply elem_of_app. right. left.
    + rewrite dset_notin by done. apply Forall_app. split; [done | by constructor].
  - split; simpl; try done.
    + rewrite dset_notin by done. unfold template_ids in *. rewrite map_app, join_app, A4. simpl. rewrite app_nil_r, Hids, <- app_assoc.
      apply Permutation_app_head, Permutation_app_comm.
    + intros g [->|Hg]%elem_of_dkeys_dset; [right; left | auto].
Qed.

(** The end of a foreach node that was registered in [s1]. *)
Lemma wp_foreach context group s0 s1 : composer_ok s0 -> node_id (cn_payload group) ∉ dkeys (cp_node_sources s0) ->
  registers s0 [node_id (cn_payload group)] [] s1 -> cp_foreach_templates s1 = cp_foreach_templates s0 -> composer_ok s1 ->
  stack_ok depth (co_import_stack context) ->
  wp (compose_foreach compose_child context group) (fun _ s' => composer_ok s' /\
    (exists inner, registers s0 [node_id (cn_payload group)] inner s') /\
    forall workflow child, node_workflow (cn_payload group) = Some workflow ->
      resolve_import_file (cp_project_root s0) (mkImport "" workflow [] [] (cn_source_path group) []) = Ok child ->
      Acc (flip (imports_file (cp_project_root s0))) child) quiet s1.
Proof.
  intros Hs0 Hfresh R1 HT Hs1 Hk. unfold compose_foreach, assert_no_active_foreach. wp_step. wp_step. wp_step.
  destruct (cp_active_foreach s1) as [other|]; [done|]. wp_step.
  destruct (node_workflow (cn_payload group)) as [workflow|] eqn:Ewf; [|done]. destruct (node_item_input (cn_payload group)) as [item|]; [|done].
  wp_step. wp_step. wp_step. apply wp_call; [auto with returning|]. intros path Hres. pose proof (import_file_allowed _ _ _ Hres) as Hpath.
  wp_step. eapply wp_mono; [by apply wp_load | | done]. intros child s2 (Hs2 & R2 & Hc2).
  wp_step. apply wp_call; [auto with returning|]. intros [item_id shared] Hshared%foreach_shared_values.
  wp_step. eapply wp_mono; [apply wp_traverse; [done | by rewrite (rg_root _ _ _ _ R2) | done] | | done].
  intros r s3 (Hs3 & (inner & R3) & Hn3 & (Hacc & _) & w & Hw3 & Ht3). wp_step. apply wp_call; [auto with returning|]. intros [] _.
  wp_step. wp_step. wp_step. pose proof (registers_trans _ _ _ _ _ _ _ R2 R3) as R. simpl in R.
  rewrite (rg_root _ _ _ _ R2), (rg_root _ _ _ _ R1) in Hacc. rewrite (rg_root _ _ _ _ R1) in Hres.
  eapply store_template in R; [destruct R as [H1 H2]; split_and!; [exact H1 | by eexists|] | done..| |].
  - intros wf q [= <-] Hc.
    apply (resolve_import_same _ _ (mkImport "" workflow [] [] (cn_source_path group) [])) in Hres; [|done..]. congruence.
  - split; simpl; [done | done | by eexists|]. apply materialized_ok. by rewrite Hshared.
  - simpl. apply materialized_ids.
Qed.

(** ** Local nodes *)

Lemma compose_local_node_source context node n c : compose_local_node context node = Ok (n, c) ->
  cn_source_path n = nd_source_path node /\ node_workflow (cn_payload n) = node_workflow (nd_payload node).
Proof.
  unfold compose_local_node. intros H. destruct (node_mode (nd_payload node));
    try (apply bind_Ok in H as ([segments d] & _ & H); simpl in H); by injection H as <- <-.
Qed.

(** Only declared inputs are bound. *)
Lemma bound_are_inputs path inputs bound resolved x : resolve_bound_input_nodes path inputs bound = Ok resolved ->
  x ∈ dkeys resolved -> x ∈ map snd inputs.
Proof.
  unfold resolve_bound_input_nodes. intros H Hx. inv_ok. destruct a as [d o]. simpl in H. inv_ok. subst resolved.
  refine (for_each_Ok (fun st => x ∈ dkeys (fst st) -> x ∈ map snd inputs) _ bound ([], []) (d, o) _ _ Hok Hx).
  - intros [d0 o0] [name source] [d1 o1] Hin IH Hstep. destruct (dget inputs name) as [raw|] eqn:Eraw; [|done].
    apply dget_elem_of, (list_elem_of_fmap_2 snd) in Eraw.
    destruct (dget d0 raw) as [other|]; [destruct (negb _); [done|]|]; injection Hstep as <- <-; intros [->|Hx0]%elem_of_dkeys_dset; auto.
  - simpl. by intros Hx0%elem_of_nil.
Qed.

Lemma wp_local_nodes context nodes composed_before consumed s :
  composer_ok s -> stack_ok depth (co_import_stack context) ->
  wp (compose_local_nodes compose_child context nodes composed_before consumed) (fun r s' =>
    composer_ok s' /\ cr_worktrees r = compose_worktree_declarations context /\
    exists more inner, cr_nodes r = composed_before ++ more /\ registers s (ids more) inner s' /\
      Forall (node_ok (co_namespace_prefix context) (map snd (co_bound_input_nodes context))) more /\
      Forall (fun n => exists node c, node ∈ nodes /\ compose_local_node context node = Ok (n, c)) more /\
      Forall (fun node => forall workflow child, dmem (co_bound_input_nodes context) (node_id (nd_payload node)) = false ->
        node_mode (nd_payload node) = Models.Foreach -> node_workflow (nd_payload node) = Some workflow ->
        resolve_import_file (cp_project_root s) (mkImport "" workflow [] [] (nd_source_path node) []) = Ok child ->
        Acc (flip (imports_file (cp_project_root s))) child) nodes) quiet s.
Proof.
  intros Hs Hk. revert composed_before consumed s Hs. induction nodes as [|node nodes IH]; intros before consumed s Hs; simpl.
  { wp_step. split_and!; [done..|]. exists [], []. rewrite app_nil_r. split_and!; [done | apply registers_refl | constructor..]. }
  destruct (dmem _ _) eqn:Hbound.
  { eapply wp_mono; [by apply IH | | done]. intros r s' (H1 & H2 & more & inner & H3 & H4 & H5 & H6 & H7).
    split_and!; [done..|]. exists more, inner. split_and!; [done..| |constructor; [intros ? ? Hno; congruence | done]]. eapply Forall_impl; [exact H6|].
    intros n (x & c & Hx & Hn). exists x, c. split; [by right | done]. }
  wp_step. apply wp_call; [auto with returning|]. intros [n c] Hn. wp_step. eapply wp_mono; [by apply wp_append | | done].
  intros [] s1 (Hs1 & R1 & Hfresh & HT). wp_step.
  assert (wp (if bool_decide (node_mode (cn_payload n) = Models.Foreach) then compose_foreach compose_child context n else ret [])
    (fun _ s' => composer_ok s' /\ (exists inner, registers s [node_id (cn_payload n)] inner s') /\
       forall workflow child, node_mode (cn_payload n) = Models.Foreach -> node_workflow (cn_payload n) = Some workflow ->
         resolve_import_file (cp_project_root s) (mkImport "" workflow [] [] (cn_source_path n) []) = Ok child ->
         Acc (flip (imports_file (cp_project_root s))) child) quiet s1) as Hgroup.
  { destruct (bool_decide_reflect (node_mode (cn_payload n) = Models.Foreach)).
    - eapply wp_mono; [by apply (wp_foreach context n s s1) | | done]. intros _ s2 (? & ? & Hq). split_and!; [done | done|]. intros wf q _. apply Hq.
    - wp_step. split_and!; [done | by eexists | done]. }
  eapply wp_mono; [exact Hgroup | | done]. intros consumed_here s2 (Hs2 & (inner & R2) & Hacc).
  eapply wp_mono; [by apply IH | | done]. intros r s' (H1 & H2 & more & inner' & H3 & H4 & H5 & H6 & H7).
  rewrite (rg_root _ _ _ _ R2) in H7. split_and!; [done..|].
  exists (n :: more), (inner ++ inner'). split_and!.
  - rewrite H3. by rewrite <- app_assoc.
  - exact (registers_trans _ _ _ _ _ _ _ R2 H4).
  - constructor; [|done]. by apply compose_local_node_facts in Hn as (_ & _ & Hn & _).
  - constructor; [exists node, c; split; [left | done]|]. eapply Forall_impl; [exact H6|].
    intros m (x & d & Hx & Hm). exists x, d. split; [by right | done].
  - constructor; [|done]. intros workflow child _ Hmode Hwf Hc. destruct (compose_local_node_source _ _ _ _ Hn) as [Hsp Hw].
    apply (Hacc workflow child); [|by rewrite Hw | by rewrite Hsp].
    by destruct (compose_local_node_facts _ _ _ _ Hn) as (_ & -> & _).
Qed.

(** ** Files *)

Lemma wp_file_step : child_ok (S depth) (compose_file_step compose_child).
Proof.
  intros path namespace params bound inherited stack s Hs Hp Hk1 Hk2 Hk3. unfold compose_file_step.
  apply wp_if; intros Hin; [done|]. apply bool_decide_eq_false in Hin. unfold build_context.
  wp_step. wp_step. eapply wp_mono; [by apply wp_load | | done]. intros w s1 (Hs1 & R1 & Hw).
  wp_step. eapply wp_mono; [by apply wp_schema | | done]. intros [] s2 (Hs2 & R2).
  wp_step. apply wp_call; [auto with returning|]. intros resolved Hb. wp_step.
  set (context := mkCompositionContext _ _ _ _ _ _).
  assert (stack_ok depth (co_import_stack context)) as Hk.
  { destruct (ck_cache _ Hs1 path w Hw) as (Hfile & _ & _). split; simpl.
    - apply NoDup_app. split_and!; [done | | apply NoDup_singleton]. by intros x Hx ->%list_elem_of_singleton.
    - intros p [Hq|Hq]%elem_of_app; [by apply Hk2|]. apply list_elem_of_singleton in Hq. by subst.
    - rewrite length_app. simpl. lia. }
  wp_step. eapply wp_mono; [apply wp_imports; [done | done|] | | done].
  { intros _. split; simpl; constructor. }
  intros ri s3 (Hs3 & (more & i3 & Hmore & R3 & Hn3 & Ha3 & Hg3) & Ht3). simpl in Hmore.
  wp_step. eapply wp_mono; [by apply wp_local_nodes | | done].
  intros rl s4 (Hs4 & Hdecl & local & i4 & Hlocal & R4 & Hn4 & Hfrom & Ha4). simpl in Hlocal.
  wp_step. apply wp_call; [auto with returning|]. intros trees Htrees. wp_step.
  pose proof (registers_trans _ _ _ _ _ _ _ (registers_trans _ _ _ _ _ _ _ R1 R2) (registers_trans _ _ _ _ _ _ _ R3 R4)) as R.
  simpl in R. destruct (ck_cache _ Hs1 path w Hw) as (_ & _ & Hreads).
  assert (cp_project_root s2 = cp_project_root s) as Eroot by (rewrite (rg_root _ _ _ _ R2); apply (rg_root _ _ _ _ R1)).
  rewrite Eroot in Ha3, Hg3. rewrite (rg_root _ _ _ _ R3), Eroot in Ha4. simpl in Ha3, Hg3, Ha4.
  rewrite Hmore, Hlocal. split; [done|]. split; [|split; [|split; [split|]]]; simpl.
  - exists (i3 ++ i4). unfold ids. by rewrite map_app.
  - apply Forall_app. split; (eapply Forall_impl; [first [exact Hn3 | exact Hn4]|]); intros n; apply node_ok_outer;
      intros x; by apply (resolve_bound_values _ _ _ _ _ Hb).
  - constructor. intros child (w' & Hw' & Hedge). rewrite (reads_functional _ _ _ Hreads Hw') in Hedge.
    rewrite Forall_forall in Ha3. rewrite Forall_forall in Ha4. destruct Hedge as [(spec & Hspec & Hc)|(node & wf & Hnode & Hmode & Hnb & Hwf & Hc)]; [by apply (Ha3 spec)|].
    apply (Ha4 node Hnode wf child); [|done..]. apply dmem_false. intros Hx. by apply Hnb, (bound_are_inputs _ _ _ _ _ Hb).
  - apply Forall_app. split.
    + eapply Forall_impl; [exact Hg3|]. intros n (spec & child & Hspec & Hc & Hn). eapply gives_import; [exact Hreads | exact Hspec | exact Hc|].
      replace (default_worktree namespace w inherited) with (context_implicit_worktree_selector namespace (pw_worktrees w) inherited); [done|].
      unfold context_implicit_worktree_selector, default_worktree. by destruct (dkeys _) as [|? []].
    + eapply Forall_impl; [exact Hfrom|]. intros n (node & c & Hnode & Hn).
      rewrite (local_intended context node n c inherited Hn eq_refl).
      destruct (compose_local_node_facts _ _ _ _ Hn) as (-> & _). by apply gives_local.
  - exists w. split; [by apply (rg_cache _ _ _ _ R4), (rg_cache _ _ _ _ R3), (rg_cache _ _ _ _ R2)|]. intros Hsound.
    assert (well_declared w) as Hwd by (apply Hsound; by destruct (ck_cache _ Hs1 path w Hw) as (_ & ? & _)).
    destruct (Ht3 Hsound) as [A1 A2 A3]. destruct Hwd as [W1 W2 W3].
    destruct (composed_declarations context W1) as (Hkeys & Hnd & _). rewrite Hdecl in Htrees.
    apply merge_worktrees_Ok in Htrees as [-> Hnd']; [|done..]. split; simpl; [done | |].
    + rewrite dkeys_app, Hkeys. apply Forall_app. split; [done|]. apply Forall_map.
      eapply Forall_impl; [exact W2|]. intros x. apply qualify_name.
    + rewrite Hmore in A3. apply Forall_app. split.
      * eapply Forall_impl; [exact A3|]. intros n Hn. by apply (imported_tree_ok context).
      * eapply Forall_impl; [exact Hfrom|]. intros n (node & c & Hnode & Hn). by apply (local_tree_ok context _ node n c).
Qed.

End Child.

Lemma stack_length stack : NoDup stack -> (forall p, p ∈ stack -> p ∈ files) -> (length stack <= length files)%nat.
Proof. intros H1 H2. by apply submseteq_length, NoDup_submseteq. Qed.

(** Enough depth composes every file. *)
Lemma wp_file depth : child_ok depth (compose_file depth).
Proof.
  induction depth as [|depth IH]; [|by apply wp_file_step].
  intros path namespace params bound inherited stack s _ _ Hk1 Hk2 Hk3. pose proof (stack_length stack Hk1 Hk2). lia.
Qed.

(** ** The root *)

Lemma new_ok project_root : composer_ok (new_composer project_root).
Proof. split; simpl; try done; constructor. Qed.

Lemma wp_root fuel path project_root : (length files < fuel)%nat -> (forall p, resolve_path path = inr p -> p = root_path) ->
  wp (compose_root fuel path) (fun '(w, r) s' => composed root_path "" [] None (new_composer project_root) r s' /\
    dget (cp_parsed_cache s') root_path = Some w) quiet (new_composer project_root).
Proof.
  intros Hfuel Hroot. unfold compose_root. wp_step. apply wp_call; [auto with returning|]. intros p Hp.
  destruct (resolve_path path) as [|p'] eqn:E; [done|]. injection Hp as ->. rewrite (Hroot p) in * by done.
  wp_step. apply wp_call; [auto with returning|]. intros [] _.
  wp_step. eapply wp_mono; [apply wp_load; [apply new_ok | by left] | | done]. intros w s1 (Hs1 & R1 & Hw1).
  wp_step. eapply wp_mono; [by apply wp_schema | | done]. intros [] s2 (Hs2 & R2).
  wp_step. eapply wp_mono; [apply wp_file; [done | by left | constructor | by intros ? ?%elem_of_nil | simpl; lia] | | done].
  intros r s3 (Hs3 & (inner & R3) & H3). assert (cp_project_root s2 = project_root) as Eroot
    by (rewrite (rg_root _ _ _ _ R2); apply (rg_root _ _ _ _ R1)). rewrite Eroot in H3. wp_step. split.
  - split; [done|]. split; [|exact H3]. exists inner.
    exact (registers_trans _ _ _ _ _ _ _ (registers_trans _ _ _ _ _ _ _ R1 R2) R3).
  - by apply (rg_cache _ _ _ _ R3), (rg_cache _ _ _ _ R2).
Qed.

End Correct.

(** The node ids of a payload. *)
Definition payload_node_id (node : json) : option string :=
  match node with
  | JObj fields => match dget fields "id" with Some (JStr id) => Some id | _ => None end
  | _ => None
  end.

Definition payload_node_ids (payload : json) : list string :=
  match payload with
  | JObj fields => match dget fields "nodes" with Some (JList nodes) => omap payload_node_id nodes | _ => [] end
  | _ => []
  end.

Lemma node_payload_id n j : workflow_node_payload_dict n = Ok j -> payload_node_id j = Some (node_id n).
Proof.
  unfold workflow_node_payload_dict. case_decide; [|by intros [= <-]].
  destruct (node_workflow n), (node_item_input n), (node_items n) as [[]|]; try done; destruct (node_max_items n); try done; by intros [= <-].
Qed.

Lemma payload_ids w r payload : materialize_workflow_payload w r = Ok payload -> payload_node_ids payload = ids (cr_nodes r).
Proof.
  unfold materialize_workflow_payload. intros H. apply bind_Ok in H as (nodes & Hn & H). injection H as <-.
  apply mapM_Forall2 in Hn. rewrite <- (materialized_ids w r). simpl.
  induction Hn as [|n j l js Hj Hl IH]; [done|]. simpl. rewrite (node_payload_id _ _ Hj). simpl. by f_equal.
Qed.

Lemma source_records_facts hashes order records :
  mapM (fun path => digest ← ditem hashes path; Ok (mkSourceRecord path digest)) order = Ok records ->
  map wr_path records = order /\ Forall (fun x => dget hashes (wr_path x) = Some (wr_sha256 x)) records.
Proof.
  intros H%mapM_Forall2. induction H as [|p x order records Hx _ [IH1 IH2]]; [done|].
  apply bind_Ok in Hx as (d & Hd & Hx). injection Hx as <-. apply ditem_Ok in Hd. simpl. rewrite IH1. split; [done | by constructor].
Qed.

(** What a composed document promises. *)
Definition document_ok `{HashLibrary} `{WorkflowFiles} (path project_root : string) (document : ComposedWorkflowDocument) : Prop :=
  NoDup (dkeys (wd_node_source_paths document)) /\
  dkeys (wd_node_source_paths document) ≡ₚ
    payload_node_ids (wd_workflow_payload document) ++ template_ids (wd_foreach_templates document) /\
  NoDup (map wr_path (wd_source_records document)) /\
  Forall (fun x =>
    (exists content, read_text (wr_path x) = inr content /\ wr_sha256 x = sha256 content) /\
    (resolve_path path = inr (wr_path x) \/ is_relative_to (wr_path x) project_root = true)) (wd_source_records document).

Section Claims.
Context {hash : HashLibrary} {fs : WorkflowFiles}.

Lemma compose_ok files fuel path project_root :
  (forall p, path_is_file p = true -> p ∈ files) -> (length files < fuel)%nat ->
  wp (compose fuel path) (fun document _ => document_ok path project_root document /\
    forall root, resolve_path path = inr root -> no_import_cycle project_root root) (fun _ _ => True) (new_composer project_root).
Proof.
  intros Hfiles Hfuel. destruct (resolve_path path) as [e|root_path] eqn:Eroot.
  { unfold wp, compose, compose_root. simpl. by rewrite Eroot. }
  unfold compose. wp_step. eapply wp_mono; [apply (wp_root files root_path (fun _ => True)); try done; congruence | | done].
  intros [w r] s [(Hs & (inner & R) & _ & (Hacc & _) & _) _]. unfold build_document. wp_step. apply wp_call; [|intros payload Hpayload].
  { unfold materialize_workflow_payload. apply returns_bind; [|done]. apply returns_mapM. intros n.
    unfold workflow_node_payload_dict. returning. }
  do 5 wp_step. apply wp_call; [apply returns_mapM; intros p; apply returns_bind; [auto with returning | done]|].
  intros records Hrecords. do 3 wp_step. destruct (source_records_facts _ _ _ Hrecords) as [Hpaths Hdigests].
  split; [|intros root [= <-]; by apply acyclic_no_cycle]. split_and!; simpl.
  - apply (ck_nodup _ _ _ _ Hs).
  - rewrite (payload_ids _ _ _ Hpayload), (rg_nodes _ _ _ _ R), (rg_templates _ _ _ _ R). done.
  - rewrite Hpaths. apply (ck_sources_nodup _ _ _ _ Hs).
  - pose proof (ck_allowed _ _ _ _ Hs) as Hall. rewrite <- Hpaths in Hall.
    rewrite Forall_forall in Hall. rewrite Forall_forall in Hdigests. apply Forall_forall. intros x Hx. specialize (Hall _ (list_elem_of_fmap_2 wr_path _ _ Hx)) as Ha.
    split; [by apply (ck_hashes _ _ _ _ Hs), Hdigests|].
    destruct Ha as [->|Ha]; [by left | right]. by rewrite (rg_root _ _ _ _ R) in Ha.
Qed.

(** ** Worktrees of the composed workflow *)

(** The plan that the payload is validated as. *)
Definition composed_plan (w : ParsedWorkflow) (r : CompositionResult) : WorkflowPlan :=
  mkPlan (pw_schema_version w) (pw_name w) (pw_description w) (pw_repeat_force_run_count w) (pw_inputs w) (cr_worktrees r)
    (map cn_payload (materialized_nodes w r)).

Definition materialized_node (w : ParsedWorkflow) (r : CompositionResult) (n : ComposedNode) : ComposedNode :=
  if dict_len (cr_worktrees r) =? 0 then n
  else if needs_materialized_selector n (dict_len (cr_worktrees r)) (dict_len (pw_worktrees w))
       then materialize_worktree_selector n else n.

Lemma materialized_nodes_map w r : materialized_nodes w r = map (materialized_node w r) (cr_nodes r).
Proof.
  unfold materialized_nodes, materialize_implicit_worktree_selectors, materialized_node.
  destruct (dict_len (cr_worktrees r) =? 0); [by rewrite map_id | done].
Qed.

Lemma materialized_node_id w r n : node_id (cn_payload (materialized_node w r n)) = node_id (cn_payload n).
Proof. unfold materialized_node. by repeat case_match. Qed.

Lemma only_key {V} (d : dict V) x : x ∈ dkeys d -> length d = 1%nat -> dkeys d = [x].
Proof. destruct d as [|[k v] [|]]; simpl; try done. by intros ->%list_elem_of_singleton. Qed.

Lemma not_only_key {V} (d : dict V) : length d <> 1%nat -> match dkeys d with [name] => Some name | _ => None end = None.
Proof. by destruct d as [|[k v] [|]]. Qed.

(** The cases of a node without a selector of its own. *)
Lemma implicit_selection_kept w r n : trees_ok (pw_worktrees w = []) None r -> n ∈ cr_nodes r ->
  runs_providers (cn_payload n) = true -> node_worktree (cn_payload n) = None ->
  selected_worktree_name (composed_plan w r) (cn_payload (materialized_node w r n)) = cn_implicit_worktree_selector n /\
  (forall x, node_worktree (cn_payload (materialized_node w r n)) = Some x ->
     x = PROJECT_ROOT_WORKTREE_SELECTOR \/ x ∈ dkeys (cr_worktrees r)).
Proof.
  intros [Hnd Hnames Hnodes] Hin Hrun Hw. rewrite Forall_forall in Hnodes. specialize (Hnodes n Hin). unfold tree_ok in Hnodes.
  rewrite Hw in Hnodes. specialize (Hnodes Hrun). rewrite Forall_forall in Hnames.
  unfold materialized_node, needs_materialized_selector, dict_len. rewrite Hrun, Hw. simpl.
  assert (forall m, cn_payload m = cn_payload n -> length (cr_worktrees r) <> 1%nat -> selected_worktree_name (composed_plan w r) (cn_payload m) = None) as Hnone.
  { intros m -> Hlen. unfold selected_worktree_name. rewrite Hrun, Hw. simpl. by apply not_only_key. }
  assert (selected_worktree_name (composed_plan w r) (cn_payload (materialize_worktree_selector n)) =
          match cn_implicit_worktree_selector n with Some x => if nonempty x && negb (bool_decide (x = PROJECT_ROOT_WORKTREE_SELECTOR)) then Some x else None | None => None end) as Hmat.
  { unfold selected_worktree_name, materialize_worktree_selector, runs_providers in *. simpl. rewrite Hrun. simpl.
    destruct (cn_implicit_worktree_selector n) as [x|]; [|done]. simpl. destruct (nonempty x); [|done]. by destruct (bool_decide _). }
  assert (node_worktree (cn_payload (materialize_worktree_selector n)) =
          Some (selector_or (cn_implicit_worktree_selector n) PROJECT_ROOT_WORKTREE_SELECTOR)) as Hsel by done.
  generalize dependent (materialize_worktree_selector n). intros m Hmat Hsel.
  destruct (cn_implicit_worktree_selector n) as [x|] eqn:Ei.
  - destruct Hnodes as [Hx|?]; [|done]. destruct (Hnames x Hx) as [Hne Hnn].
    assert (nonempty x = true) as Hx1 by (by destruct x). rewrite Hx1, bool_decide_eq_false_2 in Hmat by done. simpl in Hmat.
    assert (length (cr_worktrees r) <> 0%nat) as Hl0 by (intros E; destruct (cr_worktrees r); [by apply elem_of_nil in Hx | done]).
    rewrite (proj2 (Z.eqb_neq _ 0)) by lia. destruct (1 <? Z.of_nat (length (cr_worktrees r))) eqn:E1; simpl.
    + replace (if cn_local_worktree_count n =? 0 then true else true) with true by (by destruct (_ =? _)).
      rewrite Hmat, Hsel. simpl. rewrite Hx1. split; [done|]. intros y [= <-]. by right.
    + replace (if cn_local_worktree_count n =? 0 then false else false) with false by (by destruct (_ =? _)).
      split; [|by rewrite Hw]. unfold selected_worktree_name. rewrite Hrun, Hw. simpl. apply Z.ltb_ge in E1.
      by rewrite (only_key _ x Hx) by lia.
  - simpl in Hsel.
    destruct (Z.of_nat (length (cr_worktrees r)) =? 0) eqn:E0; [apply Z.eqb_eq in E0; split; [apply Hnone; [done | lia] | by rewrite Hw]|].
    destruct Hnodes as [Hlen|(_ & Hl & Hbare)].
    + rewrite (proj2 (Z.ltb_lt 1 _)) by lia. rewrite orb_true_r. destruct (cn_local_worktree_count n =? 0); simpl.
      * rewrite Hmat, Hsel. split; [done|]. intros y [= <-]. by left.
      * split; [apply Hnone; [done | lia] | by rewrite Hw].
    + rewrite Hl, Hbare. simpl. rewrite Hmat, Hsel. split; [done|]. intros y [= <-]. by left.
Qed.

Lemma selection_kept w r n : trees_ok (pw_worktrees w = []) None r -> n ∈ cr_nodes r ->
  selected_worktree_name (composed_plan w r) (cn_payload (materialized_node w r n)) = intended_worktree n /\
  (forall x, node_worktree (cn_payload (materialized_node w r n)) = Some x ->
     x = PROJECT_ROOT_WORKTREE_SELECTOR \/ x ∈ dkeys (cr_worktrees r)).
Proof.
  intros Ht Hin. destruct (node_worktree (cn_payload n)) as [x|] eqn:Hw.
  - assert (materialized_node w r n = n) as ->.
    { unfold materialized_node, needs_materialized_selector. rewrite Hw. destruct (_ =? _); [done|]. by destruct (runs_providers _). }
    pose proof (to_nodes _ _ _ Ht) as Hn. rewrite Forall_forall in Hn. specialize (Hn n Hin). unfold tree_ok in Hn. rewrite Hw in Hn.
    destruct Hn as [Hrun Hx]. unfold selected_worktree_name, intended_worktree. rewrite Hw, Hrun. split; [done|]. by intros y [= <-].
  - destruct (runs_providers (cn_payload n)) eqn:Hrun.
    + unfold intended_worktree. rewrite Hrun, Hw. by apply implicit_selection_kept.
    + assert (materialized_node w r n = n) as ->.
      { unfold materialized_node, needs_materialized_selector. rewrite Hrun. by destruct (_ =? _). }
      unfold selected_worktree_name, intended_worktree. rewrite Hrun, Hw. done.
Qed.

Lemma selectors_valid plan : (forall n x, n ∈ plan_nodes plan -> node_worktree n = Some x ->
    x = PROJECT_ROOT_WORKTREE_SELECTOR \/ x ∈ dkeys (plan_worktrees plan)) -> validate_worktree_selectors plan = Ok tt.
Proof.
  intros H. unfold validate_worktree_selectors.
  destruct (for_each_inv (fun _ (_ : unit) => True) (fun (_ : unit) (node : WorkflowNode) =>
    match node_worktree node with
    | Some w => if decide (w = PROJECT_ROOT_WORKTREE_SELECTOR) then Ok tt else if dmem (plan_worktrees plan) w then Ok tt
                else Raise (ValueError ("Node " +:+ quoted (node_id node) +:+ " selects unknown worktree " +:+ quoted w))
    | None => Ok tt end) (plan_nodes plan) tt) as ([] & E & _); [done| |exact E].
  intros before n after [] Hl _. exists tt. split; [|done]. destruct (node_worktree n) as [x|] eqn:Ex; [|done].
  case_decide; [done|]. destruct (H n x) as [?|Hx]; [rewrite Hl; set_solver | done | done|]. apply dmem_true in Hx. by rewrite Hx.
Qed.

End Claims.
