(* ===== verification/CompositionClaims.v ===== *)
(** The theorems about composed workflows, and the composition of three files. *)

From Stdlib Require Import ZArith Lia Ascii String.
From stdpp Require Import base gmap sets list strings.
From S2P Require Import Prelude PyStr StateExn Models Scheduler PlanRecords Artifacts PlanContract Foreach ForeachSpec Composition.
From S2P Require Import CompositionSpec CompositionCorrect.

Open Scope string_scope.
Open Scope list_scope.
Open Scope Z_scope.

Section CompositionTheorems.
Context {hash : HashLibrary} {fs : WorkflowFiles}.

(** C37 (termination): Composing a workflow terminates, whatever its files import, with as much depth as there are files,
    and import cycles are errors: when composition succeeds, no file that is reached from the workflow through imports and
    through the workflows of foreach groups reaches itself again.  A composed document names every node once: the nodes of
    the payload and of the foreach templates are pairwise distinct and are exactly those with a recorded source; and the
    source records list each file once, with the digest of its content, and apart from the workflow itself only files inside
    the project root.
    Definitions: compose, compose_file_step, compose_imports, compose_local_nodes, compose_foreach, append_node, load_workflow_file, resolve_import_file, build_document. *)
Theorem composition_terminates_with_distinct_nodes (files : list string) (fuel : nat) (path project_root : string) :
  (forall p, path_is_file p = true -> p ∈ files) -> (length files < fuel)%nat ->
  match compose fuel path (new_composer project_root) with
  | (Ok document, _) => document_ok path project_root document /\
      forall root, resolve_path path = inr root -> no_import_cycle project_root root
  | (Raise _, _) => True
  | (OutOfFuel, _) => False
  end.
Proof. apply compose_ok. Qed.

(** C38 (safety): Imports are hygienic: whatever its file says, the nodes of an import have ids in the namespace of its
    alias and depend only on nodes of that namespace, on the nodes its importer binds to its inputs and on the
    prerequisites its importer declares; the same holds of foreach templates, whose nodes depend only on their own
    namespace and on the shared bindings of their group.
    Definitions: compose_import, compose_file_step, compose_local_node, resolve_dependency_id, resolve_bound_input_nodes, attach_import_prerequisites, resolve_foreach_inputs, materialize_foreach_template. *)
Theorem imports_are_hygienic (files : list string) (root_path : string) (fuel : nat) (context : CompositionContext)
    (spec : ImportSpec) (s s' : Composer) (r : CompositionResult) :
  (forall p, path_is_file p = true -> p ∈ files) ->
  composer_ok files root_path (fun _ => True) s -> stack_ok files fuel (co_import_stack context) ->
  compose_import (compose_file fuel) context spec s = (Ok r, s') ->
  Forall (node_ok (qualify_id (co_namespace_prefix context) (im_alias spec))
            (map snd (resolve_import_inputs context spec) ++ resolve_import_prerequisites context spec)) (cr_nodes r) /\
  Forall (fun '(group, t) => template_ok group t) (cp_foreach_templates s').
Proof.
  intros Hfiles Hs Hk Hrun.
  pose proof (wp_import files root_path (fun _ => True) fuel _ (wp_file files root_path (fun _ => True) Hfiles (fun _ _ _ _ _ _ => I) fuel)
                context spec s Hs Hk) as H. unfold wp in H. rewrite Hrun in H. destruct H as (Hs' & _ & Hn & _).
  split; [exact Hn | apply (ck_templates _ _ _ _ Hs')].
Qed.


End CompositionTheorems.

(** ** A workflow with an import and a foreach group *)

Module CompositionExample.

#[local] Instance hash : HashLibrary := {| sha256 := fun s => s |}.

Definition provider : ProviderSpec := mkProvider "codex" None None EXECUTOR.

Definition task (id prompt : string) (needs : list string) : WorkflowNode :=
  mkNode id Sequential false [mkSegment SEG_SHARED prompt] None [provider] needs None None None false None None None None None None
    None [] [].
Definition input (id : string) : WorkflowNode :=
  mkNode id InputMode false [] (Some "{{file:notes.md}}") [] [] None None None false None None None None None None None [] [].
Definition group (id workflow item_input : string) (inputs : dict string) : WorkflowNode :=
  mkNode id Models.Foreach false [] None [] [] None None None false None None None (Some workflow) (Some item_input)
    (Some (InlineItems [JObj [("id", JStr "one")]])) None inputs [].

Definition payload (n : WorkflowNode) : PayloadNode := mkPayloadNode (node_id n) (inr n).

(* The root declares one worktree; the library two; the item file none. *)
Definition root_file : ParsedWorkflowMarkdown :=
  mkMarkdown "1" "root" None None [] [("main", mkWorktree WK_worktree None false None)]
    [mkImportConfig "lib.md" "quality" [("tone", "kind")] [("document", "plan")] ["plan"]]
    (map payload [task "plan" "Plan the work." []; group "each" "item.md" "entry" [("plan", "plan")];
                  task "end" "Merge {{quality.review.output}}." ["quality.review"; "each"]]) [] [].
Definition lib_file : ParsedWorkflowMarkdown :=
  mkMarkdown "1" "lib" None None [("document", "doc")]
    [("left", mkWorktree WK_worktree None false None); ("right", mkWorktree WK_snapshot None false None)] []
    (map payload [input "doc"; task "review" "Review {{doc.output}} in a {{param:tone}} tone." ["doc"]]) [] [].
Definition item_file : ParsedWorkflowMarkdown :=
  mkMarkdown "1" "item" None None [("entry", "item"); ("plan", "outline")] [] []
    (map payload [input "item"; input "outline"; task "work" "Do {{item.output}}." ["item"; "outline"]]) [] [].

Definition documents : dict ParsedWorkflowMarkdown := [("/p/root.md", root_file); ("/p/lib.md", lib_file); ("/p/item.md", item_file)].

#[local] Instance fs : WorkflowFiles := {|
  path_exists p := dmem documents p;
  path_is_file p := dmem documents p;
  read_text p := inr p;
  expanduser p := inr p;
  resolve_path p := inr p;
  parse_workflow_markdown_document p _ := match dget documents p with Some d => inr d | None => inl (OSError p) end
|}.

Lemma files_listed p : path_is_file p = true -> p ∈ dkeys documents.
Proof. apply dmem_true. Qed.

Definition document : outcome ComposedWorkflowDocument := fst (compose 4 "/p/root.md" (new_composer "/p")).

Lemma composition_terminates_with_distinct_nodes_witness :
  (exists d, document = Ok d /\
    payload_node_ids (wd_workflow_payload d) = ["quality.review"; "plan"; "each"; "end"] /\
    template_ids (wd_foreach_templates d) = ["each.template.item"; "each.template.work"] /\
    document_ok "/p/root.md" "/p" d) /\ no_import_cycle "/p" "/p/root.md".
Proof.
  pose proof (composition_terminates_with_distinct_nodes (dkeys documents) 4 "/p/root.md" "/p" files_listed ltac:(simpl; lia)) as H.
  unfold document. destruct (compose 4 "/p/root.md" (new_composer "/p")) as [[d|e|] s] eqn:E.
  - split; [exists d; split_and!; [reflexivity | | | exact (proj1 H)] | exact (proj2 H _ eq_refl)]; vm_compute in E; injection E as <- _; reflexivity.
  - exfalso. vm_compute in E. discriminate E.
  - contradiction H.
Defined.

Definition parsed_root : ParsedWorkflow :=
  match parsed_workflow_from_markdown root_file "/p/root.md" with Ok w => w | _ => mkParsed "" "" "" "" [] [] [] [] None end.
Definition root_context : CompositionContext := mkCompositionContext parsed_root "" [] [] ["/p/root.md"] (Some "main").
Definition library : ImportSpec := mkImport "quality" "lib.md" [("tone", "kind")] [("document", "plan")] "/p/root.md" ["plan"].
Definition imported_library : outcome CompositionResult :=
  fst (compose_import (compose_file 3) root_context library (new_composer "/p")).

Lemma imports_are_hygienic_witness :
  exists r, imported_library = Ok r /\ ids (cr_nodes r) = ["quality.review"] /\
    map (fun n => node_needs (cn_payload n)) (cr_nodes r) = [["plan"]] /\
    Forall (node_ok "quality" ["plan"; "plan"]) (cr_nodes r).
Proof.
  unfold imported_library. destruct (compose_import (compose_file 3) root_context library (new_composer "/p")) as [[r|e|] s] eqn:E;
    [|exfalso; vm_compute in E; discriminate E..].
  exists r. split_and!; [reflexivity| | |].
  - vm_compute in E. injection E as <- _. reflexivity.
  - vm_compute in E. injection E as <- _. reflexivity.
  - refine (proj1 (imports_are_hygienic (dkeys documents) "/p/root.md" 3 root_context library (new_composer "/p") s r
                     files_listed (new_ok _ _ _ _) _ E)).
    split; [apply NoDup_singleton | intros p Hp; apply list_elem_of_singleton in Hp; subst p; left | simpl; lia].
Defined.

Lemma example_declared p content d w : parse_workflow_markdown_document p content = inr d ->
  parsed_workflow_from_markdown d p = Ok w -> well_declared w.
Proof.
  cbn [parse_workflow_markdown_document fs]. intros H Hp. destruct (dget documents p) as [d'|] eqn:E; [|done]. injection H as ->. apply dget_elem_of in E.
  repeat (apply elem_of_cons in E as [[= -> ->]|E]; [vm_compute in Hp; injection Hp as <-; split; simpl; repeat constructor; try done; set_solver|]).
  by apply elem_of_nil in E.
Qed.

Definition composed_root : outcome (ParsedWorkflow * CompositionResult) := fst (compose_root 4 "/p/root.md" (new_composer "/p")).


End CompositionExample.
