(* ===== verification/CompositionReferences.v ===== *)
(** Rewriting the artifact references of a prompt: the references of the
    rewritten text are the resolved references of the text. *)

From Stdlib Require Import ZArith Lia Ascii String.
From stdpp Require Import base gmap sets list strings.
From S2P Require Import Prelude PyStr StateExn Models Scheduler PlanRecords Artifacts PlanContract Foreach Composition.

Open Scope string_scope.
Open Scope list_scope.
Open Scope nat_scope.

Definition core_char (c : ascii) : bool := node_id_char c || artifact_char c.

(** The text does not start with a character of [p]. *)
Definition stops (p : ascii -> bool) (l : text) : Prop := match l with [] => True | c :: _ => p c = false end.

Lemma span_app (p : ascii -> bool) a b : Forall (fun c => p c = true) a -> stops p b -> span p (a ++ b) = (a, b).
Proof.
  intros Ha Hb. induction Ha as [|c a Hc Ha IH]; simpl.
  - destruct b as [|c b]; [done|]. simpl in *. by rewrite Hb.
  - by rewrite Hc, IH.
Qed.

Lemma span_spec (p : ascii -> bool) l a b : span p l = (a, b) -> l = a ++ b /\ Forall (fun c => p c = true) a /\ stops p b.
Proof.
  revert a b. induction l as [|c l IH]; intros a b H; simpl in H; [by injection H as <- <-|].
  destruct (p c) eqn:E; [|injection H as <- <-; by rewrite app_nil_l; split_and!].
  destruct (span p l) as [a' b'] eqn:Es. injection H as <- <-. destruct (IH _ _ eq_refl) as (-> & Ha & Hb).
  split_and!; [done | by constructor | done].
Qed.

(** ** Characters *)

Lemma ascii_forall (P : ascii -> bool) : forallb (fun n => P (ascii_of_nat n)) (seq 0 256) = true -> forall c, P c = true.
Proof.
  intros H c. rewrite forallb_forall in H. rewrite <- (ascii_nat_embedding c). apply H, in_seq.
  pose proof (nat_ascii_bounded c). lia.
Qed.

Lemma core_not_space c : core_char c = true -> is_space c = false.
Proof.
  intros H. pose proof (ascii_forall (fun c => negb (core_char c) || negb (is_space c)) ltac:(vm_compute; reflexivity) c) as Hc.
  simpl in Hc. rewrite H in Hc. by destruct (is_space c).
Qed.

Lemma body_no_open c : is_space c || core_char c || is_char c brace_close = true -> c <> brace_open.
Proof.
  intros H ->. by vm_compute in H.
Qed.

Lemma artifact_no_dot c : core_char c = true -> c <> "."%char -> artifact_char c = true.
Proof.
  intros H Hn. pose proof (ascii_forall (fun c => negb (core_char c) || is_char c "." || artifact_char c) ltac:(vm_compute; reflexivity) c) as Hc.
  simpl in Hc. rewrite H in Hc. unfold is_char in Hc. rewrite bool_decide_eq_false_2 in Hc by done. done.
Qed.

Lemma artifact_not_dot c : artifact_char c = true -> negb (is_char c ".") = true.
Proof.
  intros H. pose proof (ascii_forall (fun c => negb (artifact_char c) || negb (is_char c ".")) ltac:(vm_compute; reflexivity) c) as Hc.
  simpl in Hc. by rewrite H in Hc.
Qed.

(** ** One reference *)

Lemma split_last_dot_app a b : Forall (fun c => artifact_char c = true) b -> split_last_dot (a ++ "."%char :: b) = Some (a, b).
Proof.
  intros Hb. unfold split_last_dot. rewrite reverse_app, reverse_cons, <- app_assoc.
  rewrite span_app; [simpl; by rewrite !reverse_involutive | | done].
  apply Forall_forall. intros c Hc. rewrite elem_of_reverse in Hc. rewrite Forall_forall in Hb. cbv beta. apply artifact_not_dot. by apply (Hb c).
Qed.

Lemma split_last_dot_spec l a b : Forall (fun c => core_char c = true) l -> split_last_dot l = Some (a, b) ->
  l = a ++ "."%char :: b /\ Forall (fun c => artifact_char c = true) b.
Proof.
  unfold split_last_dot. intros Hl H. destruct (span _ (reverse l)) as [after before] eqn:E. apply span_spec in E as (El & Ha & Hb).
  destruct before as [|d before]; [done|]. injection H as <- <-. simpl in Hb. apply negb_false_iff in Hb. apply bool_decide_eq_true in Hb. subst d.
  apply (f_equal reverse) in El. rewrite reverse_involutive, reverse_app, reverse_cons, <- app_assoc in El. split; [done|].
  apply Forall_forall. intros c Hc. rewrite El in Hl. rewrite !Forall_app in Hl. destruct Hl as (_ & _ & Hl).
  rewrite Forall_forall in Hl. pose proof Hc as Hc'. rewrite elem_of_reverse in Hc'. rewrite Forall_forall in Ha. specialize (Ha c Hc'). simpl in Ha.
  apply artifact_no_dot; [by apply Hl|]. intros ->. by vm_compute in Ha.
Qed.

Lemma drop_open l : drop 2 (lit "{{" ++ l) = l.
Proof. done. Qed.

(** A reference: blanks, an id, a name, blanks. *)
Record reference (sp1 g1 g2 sp2 : text) : Prop := {
  rf_sp1 : Forall (fun c => is_space c = true) sp1;
  rf_sp2 : Forall (fun c => is_space c = true) sp2;
  rf_id : g1 <> [] /\ Forall (fun c => node_id_char c = true) g1;
  rf_name : g2 <> [] /\ Forall (fun c => artifact_char c = true) g2
}.

Definition body (sp1 g1 g2 sp2 : text) : text := sp1 ++ (g1 ++ "."%char :: g2) ++ sp2 ++ lit "}}".

Lemma core_chars g1 g2 : Forall (fun c => node_id_char c = true) g1 -> Forall (fun c => artifact_char c = true) g2 ->
  Forall (fun c => core_char c = true) (g1 ++ "."%char :: g2).
Proof.
  intros H1 H2. apply Forall_app. split; [|constructor; [done|]]; (eapply Forall_impl; [eassumption|]); intros c Hc;
    unfold core_char; rewrite Hc; [done | apply orb_true_r].
Qed.

Lemma match_body sp1 g1 g2 sp2 rest : reference sp1 g1 g2 sp2 ->
  match_artifact_reference (lit "{{" ++ body sp1 g1 g2 sp2 ++ rest) = Some ((g1, g2), 2 + length (body sp1 g1 g2 sp2)).
Proof.
  intros [H1 H2 [Hg1 Hid] [Hg2 Hname]]. pose proof (core_chars g1 g2 Hid Hname) as Hcore.
  assert (stops is_space (g1 ++ "."%char :: g2)) as Hstop1.
  { destruct g1 as [|c g1]; [done|]. simpl. apply core_not_space. by inversion Hcore. }
  pose proof (split_last_dot_app g1 g2 Hname) as Hsplit. unfold body.
  remember (g1 ++ "."%char :: g2) as core eqn:Ecore.
  unfold match_artifact_reference. rewrite (proj2 (starts_with_spec _ _)) by (by eexists). rewrite drop_open, <- !app_assoc.
  rewrite (span_app is_space); [|exact H1|].
  2: { subst core. by destruct g1. }
  rewrite (span_app (fun c => node_id_char c || artifact_char c)); [|exact Hcore|].
  2: { destruct sp2 as [|c sp2]; [done|]. inversion H2; subst. simpl. change (core_char c = false).
       destruct (core_char c) eqn:E; [|done]. apply core_not_space in E. congruence. }
  rewrite (span_app is_space); [|exact H2|done]. rewrite (proj2 (starts_with_spec _ _)) by (by eexists). rewrite Hsplit.
  rewrite (bool_decide_eq_false_2 (g1 = [])), (bool_decide_eq_false_2 (g2 = [])) by done.
  assert (forallb node_id_char g1 = true) as -> by (apply forallb_forall; intros c Hc%list_elem_of_In; rewrite Forall_forall in Hid; by apply Hid).
  simpl. f_equal. f_equal. rewrite !length_app. simpl. lia.
Qed.

Lemma match_spec l g1 g2 n : match_artifact_reference l = Some ((g1, g2), n) ->
  exists sp1 sp2 rest, reference sp1 g1 g2 sp2 /\ l = lit "{{" ++ body sp1 g1 g2 sp2 ++ rest /\ n = 2 + length (body sp1 g1 g2 sp2).
Proof.
  unfold match_artifact_reference. intros H. destruct (starts_with (lit "{{") l) eqn:E0; [|done].
  apply starts_with_spec in E0 as [l0 ->]. rewrite drop_open in H.
  destruct (span is_space l0) as [sp1 l1] eqn:E1. destruct (span _ l1) as [core l2] eqn:E2. destruct (span is_space l2) as [sp2 l3] eqn:E3.
  apply span_spec in E1 as (-> & H1 & _). apply span_spec in E2 as (-> & H2 & _). apply span_spec in E3 as (-> & H3 & _).
  destruct (starts_with (lit "}}") l3) eqn:E4; [|done]. apply starts_with_spec in E4 as [rest ->].
  destruct (split_last_dot core) as [[a b]|] eqn:E5; [|done]. apply split_last_dot_spec in E5 as [-> Hb]; [|done].
  destruct (negb (bool_decide (a = [])) && forallb node_id_char a && negb (bool_decide (b = []))) eqn:E6; [|done].
  injection H as <- <- <-. apply andb_true_iff in E6 as [E6 Eb]. apply andb_true_iff in E6 as [Ea Eid].
  apply negb_true_iff, bool_decide_eq_false in Ea. apply negb_true_iff, bool_decide_eq_false in Eb.
  exists sp1, sp2, rest. split_and!.
  - split; [done | done | split; [done|] | done]. apply Forall_forall. intros c Hc%list_elem_of_In. by eapply forallb_forall in Eid.
  - unfold body. by rewrite <- !app_assoc.
  - unfold body. rewrite !length_app. simpl. lia.
Qed.

(** ** All references *)

Lemma body_closed sp1 g1 g2 sp2 : reference sp1 g1 g2 sp2 -> Forall (fun c => c <> brace_open) (body sp1 g1 g2 sp2).
Proof.
  intros [H1 H2 [_ Hid] [_ Hname]]. unfold body. apply Forall_app. split; [|apply Forall_app; split; [|apply Forall_app; split]].
  - eapply Forall_impl; [exact H1|]. intros c Hc. apply body_no_open. by rewrite Hc.
  - eapply Forall_impl; [by apply core_chars|]. intros c Hc. cbv beta in Hc. apply body_no_open. by rewrite Hc, orb_true_r.
  - eapply Forall_impl; [exact H2|]. intros c Hc. apply body_no_open. by rewrite Hc.
  - by repeat constructor.
Qed.

(** The text up to the next open brace. *)
Definition until_open (l : text) : text * text := span (fun c => negb (is_char c brace_open)) l.

Lemma closed_prefix (b u v r : text) : Forall (fun c => c <> brace_open) b -> stops (fun c => negb (is_char c brace_open)) v ->
  b ++ r = u ++ v -> exists u', u = b ++ u'.
Proof.
  intros Hb Hv. revert u. induction Hb as [|c b Hc Hb IH]; intros u E; [by exists u|]. destruct u as [|d u].
  - simpl in E. subst v. simpl in Hv. apply negb_false_iff, bool_decide_eq_true in Hv. done.
  - injection E as -> E. destruct (IH u E) as [u' ->]. by exists u'.
Qed.

(** Whether a reference starts here depends only on the text up to the next open brace. *)
Lemma match_local u v v' : stops (fun c => negb (is_char c brace_open)) v -> stops (fun c => negb (is_char c brace_open)) v' ->
  match_artifact_reference (lit "{{" ++ u ++ v) = None -> match_artifact_reference (lit "{{" ++ u ++ v') = None.
Proof.
  intros Hv Hv' H. destruct (match_artifact_reference (lit "{{" ++ u ++ v')) as [[[g1 g2] n]|] eqn:E; [|done]. exfalso.
  apply match_spec in E as (sp1 & sp2 & rest & Hr & E & _). apply app_inv_head in E. symmetry in E.
  destruct (closed_prefix _ _ _ _ (body_closed _ _ _ _ Hr) Hv' E) as [u' ->]. rewrite <- app_assoc, match_body in H by done. done.
Qed.

Section Rewriting.
Context (emit : text * text -> text).
Notation rewrite_text := (sub_all match_artifact_reference emit).
Notation references := (find_all match_artifact_reference).

Lemma sub_all_skip n l : rewrite_text n l = rewrite_text 0 (drop n l).
Proof. revert n. induction l as [|c l IH]; intros [|n]; try done. apply IH. Qed.

Lemma find_all_skip n l : references n l = references 0 (drop n l).
Proof. revert n. induction l as [|c l IH]; intros [|n]; try done. apply IH. Qed.

Lemma match_open l x : match_artifact_reference l = Some x -> exists l', l = lit "{{" ++ l'.
Proof. destruct x as [[g1 g2] n]. intros (? & ? & ? & _ & -> & _)%match_spec. by eexists. Qed.

Lemma rewrite_closed u v : Forall (fun c => c <> brace_open) u -> rewrite_text 0 (u ++ v) = u ++ rewrite_text 0 v.
Proof.
  induction 1 as [|c u Hc Hu IH]; [done|]. simpl. destruct (match_artifact_reference (c :: u ++ v)) as [[a [|n]]|] eqn:E; [| |by rewrite IH].
  - by rewrite IH.
  - apply match_open in E as [l' E]. injection E as -> _. by exfalso.
Qed.

Hypothesis emit_open : forall a, exists l, emit a = lit "{{" ++ l.

Lemma rewrite_stops v : stops (fun c => negb (is_char c brace_open)) v -> stops (fun c => negb (is_char c brace_open)) (rewrite_text 0 v).
Proof.
  destruct v as [|c v]; [done|]. intros Hv. simpl. destruct (match_artifact_reference (c :: v)) as [[a [|n]]|]; [done | | done].
  destruct (emit_open a) as [l ->]. done.
Qed.

Lemma no_new_reference c l : match_artifact_reference (c :: l) = None -> match_artifact_reference (c :: rewrite_text 0 l) = None.
Proof.
  intros H. destruct (match_artifact_reference (c :: rewrite_text 0 l)) as [x|] eqn:E; [|done]. exfalso.
  destruct (match_open _ _ E) as [r Er]. change (lit "{{" ++ r) with (brace_open :: brace_open :: r) in Er. injection Er as -> Er.
  destruct l as [|d l]; [done|]. simpl in Er. destruct (match_artifact_reference (d :: l)) as [[a [|n]]|] eqn:Ed.
  - injection Er as -> Er. destruct a as [a1 a2]. apply match_spec in Ed as (? & ? & ? & _ & _ & ?). lia.
  - destruct (emit_open a) as [e He]. rewrite He in Er. change (lit "{{" ++ e) with (brace_open :: brace_open :: e) in Er.
    simpl in Er. injection Er as Er. destruct x as [[g1 g2] k]. apply match_spec in E as (sp1 & sp2 & rest & Hr & E & _).
    simpl in E. rewrite Ed in E. rewrite He in E. change (lit "{{") with [brace_open; brace_open] in E. simpl in E.
    injection E as E. pose proof (body_closed _ _ _ _ Hr) as Hb. unfold body in *.
    destruct (sp1 ++ (g1 ++ "."%char :: g2) ++ sp2 ++ lit "}}") as [|b bs] eqn:Eb; [by destruct sp1, g1|].
    simpl in E. injection E as <- _. inversion Hb. done.
  - injection Er as -> Er. destruct (until_open l) as [u v] eqn:Eu. apply span_spec in Eu as (-> & Hu & Hv).
    assert (Forall (fun c => c <> brace_open) u) as Hu'.
    { eapply Forall_impl; [exact Hu|]. intros c Hc ->. by vm_compute in Hc. }
    simpl in E. rewrite Ed in E. rewrite rewrite_closed in E by done.
    pose proof (match_local u v (rewrite_text 0 v) Hv (rewrite_stops v Hv) H) as Hn. change (lit "{{") with [brace_open; brace_open] in Hn.
    simpl in Hn. congruence.
Qed.

(** References are renamed one by one. *)
Lemma references_renamed (f : text * text -> text * text) :
  (forall sp1 g1 g2 sp2, reference sp1 g1 g2 sp2 -> exists g, emit (g1, g2) = lit "{{" ++ body [] g g2 [] /\ f (g1, g2) = (g, g2) /\ reference [] g g2 []) ->
  forall l, references 0 (rewrite_text 0 l) = map f (references 0 l).
Proof.
  intros Hf l. remember (length l) as n eqn:En. revert l En. induction (lt_wf n) as [n _ IH]. intros l ->.
  destruct l as [|c l]; [done|]. simpl. destruct (match_artifact_reference (c :: l)) as [[a [|k]]|] eqn:E.
  - destruct a as [g1 g2]. apply match_spec in E as (? & ? & ? & _ & _ & ?). lia.
  - destruct a as [g1 g2]. destruct (match_spec _ _ _ _ E) as (sp1 & sp2 & rest & Hr & _ & _).
    destruct (Hf _ _ _ _ Hr) as (g & He & Hg & Hr'). rewrite sub_all_skip, (find_all_skip k). simpl. rewrite Hg.
    rewrite <- (IH (length (drop k l))) by (rewrite ?length_drop; simpl; lia).
    rewrite He, <- app_assoc. pose proof (match_body [] g g2 [] (rewrite_text 0 (drop k l)) Hr') as Hm.
    remember (rewrite_text 0 (drop k l)) as tail eqn:Et. clear Et.
    change (lit "{{" ++ body [] g g2 [] ++ tail) with (brace_open :: brace_open :: body [] g g2 [] ++ tail) in *.
    cbn [find_all]. rewrite Hm. cbn [find_all plus]. f_equal. rewrite find_all_skip. f_equal. by rewrite drop_app_length.
  - simpl. rewrite (no_new_reference c l E). apply (IH (length l)); simpl; [lia | done].
Qed.

End Rewriting.

(** ** The theorem *)

(** The artifact references of a text: node id and artifact name. *)
Definition artifact_references (s : string) : list (string * string) :=
  map (fun '(id, name) => (of_chars id, of_chars name)) (find_all match_artifact_reference 0 (chars s)).

Definition renamed (namespace : string) (bound : dict string) (r : text * text) : text * text :=
  (chars (resolve_dependency_id (of_chars (fst r)) namespace bound), snd r).

Lemma fullmatch_chars s : node_id_fullmatch s = true -> chars s <> [] /\ Forall (fun c => node_id_char c = true) (chars s).
Proof.
  unfold node_id_fullmatch. intros [Hn Hc]%andb_true_iff. split; [by destruct s|].
  apply Forall_forall. intros c Hin%list_elem_of_In. by eapply forallb_forall in Hc.
Qed.

Lemma resolved_is_id namespace bound g : namespace = "" \/ node_id_fullmatch namespace = true ->
  Forall (fun v => node_id_fullmatch v = true) (map snd bound) -> g <> [] -> Forall (fun c => node_id_char c = true) g ->
  chars (resolve_dependency_id (of_chars g) namespace bound) <> [] /\
  Forall (fun c => node_id_char c = true) (chars (resolve_dependency_id (of_chars g) namespace bound)).
Proof.
  intros Hns Hb Hg Hid. unfold resolve_dependency_id. destruct (dget bound (of_chars g)) as [v|] eqn:E.
  - apply dget_elem_of in E. rewrite Forall_forall in Hb. apply fullmatch_chars, Hb. by apply (list_elem_of_fmap_2 snd) in E.
  - destruct Hns as [->|Hns]; [change (qualify_id "" (of_chars g)) with (of_chars g); by rewrite chars_of_chars|]. apply fullmatch_chars in Hns as [Hne Hns]. unfold qualify_id.
    destruct (nonempty namespace) eqn:En; [|by rewrite chars_of_chars]. rewrite !chars_app, chars_of_chars.
    split; [by destruct (chars namespace)|]. apply Forall_app. split; [done|]. by constructor.
Qed.

Lemma emitted_reference namespace bound sp1 g1 g2 sp2 : namespace = "" \/ node_id_fullmatch namespace = true ->
  Forall (fun v => node_id_fullmatch v = true) (map snd bound) -> reference sp1 g1 g2 sp2 ->
  exists g, rewritten_reference namespace bound (g1, g2) = lit "{{" ++ body [] g g2 [] /\ renamed namespace bound (g1, g2) = (g, g2) /\
    reference [] g g2 [].
Proof.
  intros Hns Hb [_ _ [Hg1 Hid] Hname]. exists (chars (resolve_dependency_id (of_chars g1) namespace bound)). split_and!.
  - unfold rewritten_reference, body. simpl. by rewrite <- app_assoc.
  - done.
  - split; [constructor | constructor | by apply resolved_is_id | done].
Qed.

(** Rewriting the artifact references of a prompt into a namespace renames every reference and nothing
    else: the rewritten prompt has the references of the original, in their order and with their artifacts, each to the
    node that the namespace and the bound inputs give for it; no text between them becomes a reference. *)
Theorem rewritten_references_resolve (prompt namespace : string) (bound : dict string) :
  namespace = "" \/ node_id_fullmatch namespace = true ->
  Forall (fun v => node_id_fullmatch v = true) (map snd bound) ->
  artifact_references (rewrite_artifact_references prompt namespace bound) =
  map (fun '(id, name) => (resolve_dependency_id id namespace bound, name)) (artifact_references prompt).
Proof.
  intros Hns Hb. unfold artifact_references, rewrite_artifact_references. rewrite chars_of_chars.
  rewrite (references_renamed (rewritten_reference namespace bound) (fun a => ex_intro _ _ eq_refl) (renamed namespace bound)).
  - rewrite !map_map. apply map_ext. intros [g1 g2]. simpl. by rewrite of_chars_chars.
  - intros sp1 g1 g2 sp2. by apply emitted_reference.
Qed.

Lemma rewritten_references_resolve_witness :
  artifact_references (rewrite_artifact_references "{{{ doc.output }} and {{review.findings_path}}, not {{x}} or {{ y." "quality" [("doc", "plan")])
  = [("plan", "output"); ("quality.review", "findings_path")].
Proof.
  rewrite (rewritten_references_resolve _ "quality" [("doc", "plan")]); [vm_compute; reflexivity | right; reflexivity|].
  constructor; [reflexivity | constructor].
Defined.
