(* ===== verification/Events.v ===== *)
(** The event log of a run: architecture/contracts/execution_event.py,
    observability/events/{builders,log,reader}.py.

    Every phase of an execution emits events, which are written as JSON records,
    one per line, and read back for summaries and recovery.  A record keeps only
    the fields that are set; a reader drops records it does not understand.
    Clock readings are milliseconds, and a float is its JSON text. *)

From Stdlib Require Import ZArith Lia Ascii String.
From stdpp Require Import base gmap sets list strings.
From S2P Require Import Prelude PyStr Models Scheduler RunState RunManifests PlanRecords.

Open Scope string_scope.
Open Scope list_scope.
Open Scope Z_scope.

(** [iso_timestamp] is [datetime.fromisoformat(s).timestamp()], absent when it
    raises [ValueError]; [float_of_int] is the JSON text of [float(z)]. *)
Class EventLibrary := { iso_timestamp : string -> option Z; float_of_int : Z -> string }.

(** ** Event types *)

(** Code: architecture/contracts/execution_event.py, EventType. *)
Inductive EventType :=
| WORKFLOW_STARTED | WORKFLOW_FINISHED | WORKFLOW_FAILED | WORKFLOW_CANCELLED | TOPOLOGY_EXPANDED
| NODE_STARTED | NODE_FINISHED | NODE_FAILED | NODE_BLOCKED
| INVOCATION_STARTED | INVOCATION_FINISHED | INVOCATION_FAILED | WORKSPACE_CONTEXT_RECORDED | RUNTIME_LOG.

#[global] Instance EventType_eq_dec : EqDecision EventType.
Proof. solve_decision. Defined.

Definition event_types : list (string * EventType) :=
  [("workflow_started", WORKFLOW_STARTED); ("workflow_finished", WORKFLOW_FINISHED); ("workflow_failed", WORKFLOW_FAILED);
   ("workflow_cancelled", WORKFLOW_CANCELLED); ("topology_expanded", TOPOLOGY_EXPANDED); ("node_started", NODE_STARTED);
   ("node_finished", NODE_FINISHED); ("node_failed", NODE_FAILED); ("node_blocked", NODE_BLOCKED);
   ("invocation_started", INVOCATION_STARTED); ("invocation_finished", INVOCATION_FINISHED);
   ("invocation_failed", INVOCATION_FAILED); ("workspace_context_recorded", WORKSPACE_CONTEXT_RECORDED);
   ("runtime_log", RUNTIME_LOG)].

(** [event_type.value]. *)
Definition event_type_value (t : EventType) : string :=
  match t with
  | WORKFLOW_STARTED => "workflow_started" | WORKFLOW_FINISHED => "workflow_finished" | WORKFLOW_FAILED => "workflow_failed"
  | WORKFLOW_CANCELLED => "workflow_cancelled" | TOPOLOGY_EXPANDED => "topology_expanded" | NODE_STARTED => "node_started"
  | NODE_FINISHED => "node_finished" | NODE_FAILED => "node_failed" | NODE_BLOCKED => "node_blocked"
  | INVOCATION_STARTED => "invocation_started" | INVOCATION_FINISHED => "invocation_finished"
  | INVOCATION_FAILED => "invocation_failed" | WORKSPACE_CONTEXT_RECORDED => "workspace_context_recorded"
  | RUNTIME_LOG => "runtime_log"
  end.

(** [EventType(s)], absent when it raises. *)
Definition event_type_of (s : string) : option EventType := dget event_types s.

(** Code: architecture/contracts/execution_event.py, is_workflow_event_type. *)
Definition is_workflow_event_type (t : EventType) : bool :=
  bool_decide (t ∈ [WORKFLOW_STARTED; WORKFLOW_FINISHED; WORKFLOW_FAILED; WORKFLOW_CANCELLED]).
(** Code: architecture/contracts/execution_event.py, is_node_event_type. *)
Definition is_node_event_type (t : EventType) : bool := bool_decide (t ∈ [NODE_STARTED; NODE_FINISHED; NODE_FAILED; NODE_BLOCKED]).
(** Code: architecture/contracts/execution_event.py, is_invocation_event_type. *)
Definition is_invocation_event_type (t : EventType) : bool :=
  bool_decide (t ∈ [INVOCATION_STARTED; INVOCATION_FINISHED; INVOCATION_FAILED]).

(** Code: architecture/contracts/logging.py, LogLevel. *)
Inductive LogLevel := LOG_DEBUG | LOG_INFO | LOG_WARNING | LOG_ERROR.
#[global] Instance LogLevel_eq_dec : EqDecision LogLevel.
Proof. solve_decision. Defined.
Definition log_level_value (l : LogLevel) : string :=
  match l with LOG_DEBUG => "debug" | LOG_INFO => "info" | LOG_WARNING => "warning" | LOG_ERROR => "error" end.
Definition log_level_of (s : string) : option LogLevel :=
  dget [("debug", LOG_DEBUG); ("info", LOG_INFO); ("warning", LOG_WARNING); ("error", LOG_ERROR)] s.

(** [ProviderRole(s)], absent when it raises. *)
Definition provider_role_of (s : string) : option ProviderRole := dget [("executor", EXECUTOR); ("reviewer", REVIEWER)] s.

(** ** Payloads *)

(** Code: architecture/contracts/observer.py, TopologyProvider. *)
Record TopologyProvider := mkTopologyProvider { tp_provider : string; tp_model : option string; tp_role : option ProviderRole }.

(** Code: architecture/contracts/observer.py, TopologyNode. *)
Record TopologyNode := mkTopologyNode {
  tn_id : string; tn_mode : string; tn_dependencies : list string; tn_providers : list TopologyProvider }.

(** Code: architecture/contracts/execution_event.py:135-140. *)
Record TopologyExpansion := mkExpansion {
  te_group_id : string; te_item_count : Z; te_additions : list TopologyNode; te_group_dependencies : list string }.

(** Code: architecture/contracts/execution_event.py:175-196. *)
Record InvocationEvent := mkInvocationEvent {
  iv_duration_ms : option Z;
  iv_error : option string;
  iv_attempt_count : option Z;
  iv_cli_captured : option bool;
  iv_output_extraction_status : option string;
  iv_provider_usage_status : option string;
  iv_provider_tokens : option (dict (option Z));
  iv_visible_estimate_tokens : option Z;
  iv_visible_estimate_method : option string;
  iv_visible_estimate_is_lower_bound : option bool;
  iv_configured_cost_usd : option string;
  iv_invocation_cost_confidence : option string;
  iv_usage_parse_error : option string;
  iv_failure_kind : option string;
  iv_failure_phase : option string;
  iv_failure_source : option string;
  iv_failure_advice : option string;
  iv_provider_usage_report_count : option Z
}.

(** Code: architecture/contracts/execution_event.py:234-252. *)
Record WorkspaceEvent := mkWorkspaceEvent {
  we_status : option string;
  we_workspace_kind : option string;
  we_logical_worktree_name : option string;
  we_materialization : option string;
  we_source_kind : option string;
  we_source_node_id : option string;
  we_source_commit : option string;
  we_source_tree : option string;
  we_contract_mode : option string;
  we_contract_schema_version : option string;
  we_state_path : option string;
  we_writable : option bool;
  we_lineage_producer : option bool;
  we_child_environment_required : option bool;
  we_child_environment_applied : option bool
}.

(** Code: architecture/contracts/execution_event.py:279-288. *)
Record RuntimeLogEvent := mkRuntimeLog {
  rl_level : LogLevel;
  rl_message : string;
  rl_operation : string;
  rl_attributes : option (dict json);
  rl_duration_ms : option Z;
  rl_error : option string
}.

(** Code: architecture/contracts/execution_event.py, EventPayload. *)
Inductive EventPayload :=
| WorkflowEventPayload (error : option string)
| NodeEventPayload (error : option string)
| TopologyExpansionPayload (p : TopologyExpansion)
| InvocationEventPayload (p : InvocationEvent)
| WorkspaceEventPayload (p : WorkspaceEvent)
| RuntimeLogEventPayload (p : RuntimeLogEvent).

Definition payload_class (p : EventPayload) : string :=
  match p with
  | WorkflowEventPayload _ => "WorkflowEventPayload" | NodeEventPayload _ => "NodeEventPayload"
  | TopologyExpansionPayload _ => "TopologyExpansionPayload" | InvocationEventPayload _ => "InvocationEventPayload"
  | WorkspaceEventPayload _ => "WorkspaceEventPayload" | RuntimeLogEventPayload _ => "RuntimeLogEventPayload"
  end.

(** Code: architecture/contracts/execution_event.py, TopologyExpansionPayload.__post_init__. *)
Definition validate_topology_expansion (p : TopologyExpansion) : outcome unit :=
  if negb (nonempty (te_group_id p)) || (te_item_count p <? 0)
  then Raise (ValueError "Expansion events require group identity and nonnegative item count")
  else if negb (bool_decide (NoDup (map tn_id (te_additions p))))
  then Raise (ValueError "Expansion event contains duplicate nodes")
  else Ok tt.

Definition topology_provider_json (p : TopologyProvider) : json :=
  JObj [("provider", JStr (tp_provider p)); ("model", jopt JStr (tp_model p)); ("role", jopt (fun r => JStr (role_value r)) (tp_role p))].

Definition topology_node_json (n : TopologyNode) : json :=
  JObj [("id", JStr (tn_id n)); ("mode", JStr (tn_mode n)); ("dependencies", JList (map JStr (tn_dependencies n)));
        ("providers", JList (map topology_provider_json (tn_providers n)))].

(** Code: architecture/contracts/execution_event.py, TopologyExpansionPayload.as_event_fields. *)
Definition expansion_fields (p : TopologyExpansion) : dict json :=
  [("group_id", JStr (te_group_id p)); ("item_count", JInt (te_item_count p));
   ("group_dependencies", JList (map JStr (te_group_dependencies p)));
   ("additions", JList (map topology_node_json (te_additions p)))].

(** Code: architecture/contracts/execution_event.py, InvocationEventPayload.as_event_fields. *)
Definition invocation_fields (p : InvocationEvent) : dict json :=
  [("attempt_count", jopt JInt (iv_attempt_count p)); ("cli_captured", jopt JBool (iv_cli_captured p));
   ("output_extraction_status", jopt JStr (iv_output_extraction_status p));
   ("provider_usage_status", jopt JStr (iv_provider_usage_status p));
   ("provider_usage_report_count", jopt JInt (iv_provider_usage_report_count p));
   ("provider_tokens", jopt (fun tokens => JObj (map (fun '(k, v) => (k, jopt JInt v)) tokens)) (iv_provider_tokens p));
   ("visible_estimate_tokens", jopt JInt (iv_visible_estimate_tokens p));
   ("visible_estimate_method", jopt JStr (iv_visible_estimate_method p));
   ("visible_estimate_is_lower_bound", jopt JBool (iv_visible_estimate_is_lower_bound p));
   ("configured_cost_usd", jopt JFloat (iv_configured_cost_usd p));
   ("invocation_cost_confidence", jopt JStr (iv_invocation_cost_confidence p));
   ("usage_parse_error", jopt JStr (iv_usage_parse_error p)); ("failure_kind", jopt JStr (iv_failure_kind p));
   ("failure_phase", jopt JStr (iv_failure_phase p)); ("failure_source", jopt JStr (iv_failure_source p));
   ("failure_advice", jopt JStr (iv_failure_advice p)); ("duration_ms", jopt JInt (iv_duration_ms p));
   ("error", jopt JStr (iv_error p))].

(** Code: architecture/contracts/execution_event.py, WorkspaceEventPayload.as_event_fields. *)
Definition workspace_fields (p : WorkspaceEvent) : dict json :=
  [("status", jopt JStr (we_status p)); ("workspace_kind", jopt JStr (we_workspace_kind p));
   ("workspace_logical_worktree_name", jopt JStr (we_logical_worktree_name p));
   ("workspace_materialization", jopt JStr (we_materialization p)); ("workspace_source_kind", jopt JStr (we_source_kind p));
   ("workspace_source_node_id", jopt JStr (we_source_node_id p)); ("workspace_source_commit", jopt JStr (we_source_commit p));
   ("workspace_source_tree", jopt JStr (we_source_tree p)); ("worktree_contract_mode", jopt JStr (we_contract_mode p));
   ("worktree_contract_schema_version", jopt JStr (we_contract_schema_version p));
   ("workspace_state_path", jopt JStr (we_state_path p)); ("workspace_writable", jopt JBool (we_writable p));
   ("workspace_lineage_producer", jopt JBool (we_lineage_producer p));
   ("workspace_child_environment_required", jopt JBool (we_child_environment_required p));
   ("workspace_child_environment_applied", jopt JBool (we_child_environment_applied p))].

(** Code: architecture/contracts/execution_event.py, RuntimeLogEventPayload.as_event_fields. *)
Definition runtime_log_fields (p : RuntimeLogEvent) : dict json :=
  [("level", JStr (log_level_value (rl_level p))); ("message", JStr (rl_message p)); ("operation", JStr (rl_operation p));
   ("attributes", jopt JObj (rl_attributes p)); ("duration_ms", jopt JInt (rl_duration_ms p)); ("error", jopt JStr (rl_error p))].

(** Code: architecture/contracts/execution_event.py, WorkflowEventPayload.as_event_fields..NodeEventPayload.as_event_fields. *)
Definition payload_fields (p : EventPayload) : dict json :=
  match p with
  | WorkflowEventPayload error | NodeEventPayload error => [("error", jopt JStr error)]
  | TopologyExpansionPayload p => expansion_fields p
  | InvocationEventPayload p => invocation_fields p
  | WorkspaceEventPayload p => workspace_fields p
  | RuntimeLogEventPayload p => runtime_log_fields p
  end.

(** ** Events *)

(** Code: architecture/contracts/execution_event.py:315-332. *)
Record ExecutionEventContext := mkContext {
  ec_workflow_name : string;
  ec_run_id : string;
  ec_node_id : option string;
  ec_provider : option string;
  ec_role : option ProviderRole;
  ec_model : option string;
  ec_requested_reasoning : option string;
  ec_task_id : option string;
  ec_audit_round_num : option Z;
  ec_round_num : option Z;
  ec_output_file : option string;
  ec_log_file : option string;
  ec_log_presentation_format : option string;
  ec_log_presentation_profile : option string
}.

(** Code: architecture/contracts/execution_event.py, ExecutionEventContext.as_event_fields. *)
Definition context_fields (c : ExecutionEventContext) : dict json :=
  [("node_id", jopt JStr (ec_node_id c)); ("provider", jopt JStr (ec_provider c));
   ("role", jopt (fun r => JStr (role_value r)) (ec_role c)); ("model", jopt JStr (ec_model c));
   ("requested_reasoning", jopt JStr (ec_requested_reasoning c)); ("task_id", jopt JStr (ec_task_id c));
   ("audit_round_num", jopt JInt (ec_audit_round_num c)); ("round_num", jopt JInt (ec_round_num c));
   ("output_file", jopt JStr (ec_output_file c)); ("log_file", jopt JStr (ec_log_file c));
   ("log_presentation_format", jopt JStr (ec_log_presentation_format c));
   ("log_presentation_profile", jopt JStr (ec_log_presentation_profile c))].

(** Code: architecture/contracts/execution_event.py:387-397. *)
Record ExecutionEvent := mkEvent {
  ev_event_type : EventType;
  ev_workflow_name : string;
  ev_run_id : string;
  ev_context : ExecutionEventContext;
  ev_payload : EventPayload;
  ev_timestamp : Z;
  ev_timestamp_utc : string
}.

(** The class of payload an event type carries. *)
Definition expected_payload (t : EventType) : string :=
  if is_workflow_event_type t then "WorkflowEventPayload"
  else if is_node_event_type t then "NodeEventPayload"
  else if is_invocation_event_type t then "InvocationEventPayload"
  else match t with
       | WORKSPACE_CONTEXT_RECORDED => "WorkspaceEventPayload"
       | TOPOLOGY_EXPANDED => "TopologyExpansionPayload"
       | _ => "RuntimeLogEventPayload"
       end.

(** Code: architecture/contracts/execution_event.py, validate_payload_type. *)
Definition validate_payload_type (t : EventType) (p : EventPayload) : outcome unit :=
  if bool_decide (payload_class p = expected_payload t) then Ok tt
  else Raise (ValueError ("Execution event payload " +:+ payload_class p +:+ " is not valid for event_type "
                          +:+ quoted (event_type_value t) +:+ ".")).

(** Code: architecture/contracts/execution_event.py, ExecutionEvent.__post_init__. *)
Definition validate_event (e : ExecutionEvent) : outcome unit :=
  if negb (bool_decide (ec_workflow_name (ev_context e) = ev_workflow_name e))
  then Raise (ValueError "Execution event workflow mismatch in context.")
  else if negb (bool_decide (ec_run_id (ev_context e) = ev_run_id e))
  then Raise (ValueError "Execution event run_id mismatch in context.")
  else validate_payload_type (ev_event_type e) (ev_payload e).

(** ** Builders (observability/events/builders.py) *)

(** [_build_event] with the two clock readings, given or taken when the event is
    built.
    Code: observability/events/builders.py, _build_event. *)
Definition build_event (t : EventType) (workflow_name run_id : string) (context : ExecutionEventContext) (payload : EventPayload)
    (timestamp : Z) (timestamp_utc : string) : outcome ExecutionEvent :=
  let event := mkEvent t workflow_name run_id context payload timestamp timestamp_utc in
  _ ← validate_event event; mret event.

Definition bare_context (workflow_name run_id : string) (node : option string) : ExecutionEventContext :=
  mkContext workflow_name run_id node None None None None None None None None None None None.

(** Code: observability/events/builders.py, workflow_event. *)
Definition workflow_event (t : EventType) (workflow_name run_id : string) (error : option string) (timestamp : Z)
    (timestamp_utc : string) : outcome ExecutionEvent :=
  build_event t workflow_name run_id (bare_context workflow_name run_id None) (WorkflowEventPayload error) timestamp timestamp_utc.

(** Code: observability/events/builders.py, node_event. *)
Definition node_event (t : EventType) (workflow_name run_id node_id : string) (error : option string) (timestamp : Z)
    (timestamp_utc : string) : outcome ExecutionEvent :=
  build_event t workflow_name run_id (bare_context workflow_name run_id (Some node_id)) (NodeEventPayload error) timestamp
    timestamp_utc.

(** Code: observability/events/builders.py, _validate_invocation_context. *)
Definition validate_invocation_context (c : ExecutionEventContext) : outcome unit :=
  if is_some (ec_node_id c) && is_some (ec_provider c) && is_some (ec_role c) && is_some (ec_task_id c) then Ok tt
  else Raise (ValueError "Invocation event requires node, provider, role, and task.").

(** Code: observability/events/builders.py, invocation_event. *)
Definition invocation_event (t : EventType) (workflow_name run_id : string) (context : ExecutionEventContext)
    (payload : InvocationEvent) (timestamp : Z) (timestamp_utc : string) : outcome ExecutionEvent :=
  _ ← validate_invocation_context context;
  build_event t workflow_name run_id context (InvocationEventPayload payload) timestamp timestamp_utc.

(** Code: observability/events/builders.py, _validate_workspace_context. *)
Definition validate_workspace_context (c : ExecutionEventContext) : outcome unit :=
  if is_some (ec_node_id c) && is_some (ec_task_id c) then Ok tt
  else Raise (ValueError "Workspace event requires node and task.").

(** Code: observability/events/builders.py, workspace_event. *)
Definition workspace_event (t : EventType) (workflow_name run_id : string) (context : ExecutionEventContext)
    (payload : WorkspaceEvent) (timestamp : Z) (timestamp_utc : string) : outcome ExecutionEvent :=
  _ ← validate_workspace_context context;
  build_event t workflow_name run_id context (WorkspaceEventPayload payload) timestamp timestamp_utc.

(** Code: observability/events/builders.py, runtime_log_event. *)
Definition runtime_log_event (workflow_name run_id : string) (payload : RuntimeLogEvent) (context : option ExecutionEventContext)
    (timestamp : Z) (timestamp_utc : string) : outcome ExecutionEvent :=
  build_event RUNTIME_LOG workflow_name run_id (default (bare_context workflow_name run_id None) context)
    (RuntimeLogEventPayload payload) timestamp timestamp_utc.

(** Code: observability/events/builders.py, topology_expansion_event. *)
Definition topology_expansion_event (workflow_name run_id : string) (payload : TopologyExpansion) (timestamp : Z)
    (timestamp_utc : string) : outcome ExecutionEvent :=
  build_event TOPOLOGY_EXPANDED workflow_name run_id (bare_context workflow_name run_id (Some (te_group_id payload)))
    (TopologyExpansionPayload payload) timestamp timestamp_utc.

(** ** Records (observability/events/log.py) *)

(** The fields that are not [None].
    Code: observability/events/log.py:15-18. *)
Definition put_fields (record fields : dict json) : dict json :=
  foldl (fun record '(key, value) => match value with JNull => record | _ => dset record key value end) record fields.

(** Code: observability/events/log.py, execution_event_log_record. *)
Definition execution_event_log_record (e : ExecutionEvent) : dict json :=
  put_fields
    (put_fields
       [("event_type", JStr (event_type_value (ev_event_type e))); ("run_id", JStr (ev_run_id e));
        ("timestamp", JStr (ev_timestamp_utc e)); ("workflow_name", JStr (ev_workflow_name e))]
       (context_fields (ev_context e)))
    (payload_fields (ev_payload e)).

(** ** The reader (observability/events/reader.py) *)

Section Reader.
Context {library : EventLibrary} {jsons : JsonLibrary}.

(** Code: observability/events/reader.py, _string. *)
Definition read_string (v : option json) : option string := match v with Some (JStr s) => Some s | _ => None end.
(** Code: core/value_checks.py, optional_strict_int. *)
Definition optional_strict_int (v : option json) : option Z := match v with Some (JInt z) => Some z | _ => None end.
(** Code: observability/events/reader.py, _boolean. *)
Definition read_boolean (v : option json) : option bool := match v with Some (JBool b) => Some b | _ => None end.
(** Code: observability/events/reader.py, _float. *)
Definition read_float (v : option json) : option string :=
  match v with Some (JFloat r) => Some r | Some (JInt z) => Some (float_of_int z) | _ => None end.

(** Code: observability/events/reader.py, _report_count. *)
Definition report_count (v : option json) : option Z :=
  match optional_strict_int v with Some z => if z <? 0 then None else Some z | None => None end.

(** One entry of the loop, after the entries so far. *)
Definition add_count (result : option (dict (option Z))) (entry : string * json) : option (dict (option Z)) :=
  result ← result;
  match snd entry with
  | JNull => Some (dset result (fst entry) None)
  | JInt z => Some (dset result (fst entry) (Some z))
  | _ => None
  end.

(** Code: observability/events/reader.py, _integer_mapping. *)
Definition integer_mapping (v : option json) : option (dict (option Z)) :=
  match v with Some (JObj items) => foldl add_count (Some []) items | _ => None end.

(** Code: observability/events/reader.py, _is_runtime_log_value. *)
Definition is_runtime_log_value (v : json) : bool := match v with JList _ | JObj _ => false | _ => true end.

Definition add_attribute (result : option (dict json)) (entry : string * json) : option (dict json) :=
  result ← result; if is_runtime_log_value (snd entry) then Some (dset result (fst entry) (snd entry)) else None.

(** Code: observability/events/reader.py, _runtime_log_attributes. *)
Definition runtime_log_attributes (v : option json) : option (dict json) :=
  match v with Some (JObj items) => foldl add_attribute (Some []) items | _ => None end.

Definition OUTPUT_EXTRACTION_STATUSES : list string := ["success"; "missing"; "malformed"].

(** Code: observability/events/reader.py, _output_extraction_status. *)
Definition output_extraction_status (v : option json) : option string :=
  match v with Some (JStr s) => if str_in s OUTPUT_EXTRACTION_STATUSES then Some s else None | _ => None end.

(** Code: observability/events/reader.py, _log_level. *)
Definition read_log_level (v : option json) : option LogLevel := match v with Some (JStr s) => log_level_of s | _ => None end.

(** A JSON array of strings. *)
Definition read_strings (v : json) : option (list string) :=
  match v with JList l => mapM (fun item => match item with JStr s => Some s | _ => None end) l | _ => None end.

(** A field of a dataclass that may be absent, with its default. *)
Definition read_default {A} (d : A) (read : json -> option A) (v : option json) : option A :=
  match v with None => Some d | Some v => read v end.

(** A field of type [T | None]. *)
Definition read_nullable {A} (read : json -> option A) (v : json) : option (option A) :=
  match v with JNull => Some None | _ => Some <$> read v end.

Definition json_string (v : json) : option string := match v with JStr s => Some s | _ => None end.

(** [TypeAdapter] on the dataclasses of a topology: other keys are ignored. *)
Definition read_topology_provider (v : json) : option TopologyProvider :=
  match v with
  | JObj d =>
      provider ← dget d "provider" ≫= json_string;
      model ← read_default None (read_nullable json_string) (dget d "model");
      role ← read_default None (read_nullable (fun v => json_string v ≫= provider_role_of)) (dget d "role");
      Some (mkTopologyProvider provider model role)
  | _ => None
  end.

Definition read_topology_node (v : json) : option TopologyNode :=
  match v with
  | JObj d =>
      id ← dget d "id" ≫= json_string;
      mode ← dget d "mode" ≫= json_string;
      dependencies ← read_default [] read_strings (dget d "dependencies");
      providers ← read_default [] (fun v => match v with JList l => mapM read_topology_provider l | _ => None end)
                    (dget d "providers");
      Some (mkTopologyNode id mode dependencies providers)
  | _ => None
  end.

(** Code: observability/events/reader.py, _topology_expansion_payload_from_record. *)
Definition topology_expansion_payload_from_record (record : dict json) : option EventPayload :=
  group_id ← read_string (dget record "group_id");
  item_count ← optional_strict_int (dget record "item_count");
  additions ← (dget record "additions" ≫= fun v => match v with JList l => mapM read_topology_node l | _ => None end);
  group_dependencies ← dget record "group_dependencies" ≫= read_strings;
  let payload := mkExpansion group_id item_count additions group_dependencies in
  match validate_topology_expansion payload with Ok _ => Some (TopologyExpansionPayload payload) | _ => None end.

(** Code: observability/events/reader.py, _invocation_payload_from_record. *)
Definition invocation_payload_from_record (record : dict json) : option EventPayload :=
  let raw_report_count := dget record "provider_usage_report_count" in
  let count := report_count raw_report_count in
  if match raw_report_count with None | Some JNull => false | _ => true end && negb (is_some count) then None
  else
    Some (InvocationEventPayload (mkInvocationEvent
      (optional_strict_int (dget record "duration_ms")) (read_string (dget record "error"))
      (optional_strict_int (dget record "attempt_count")) (read_boolean (dget record "cli_captured"))
      (output_extraction_status (dget record "output_extraction_status")) (read_string (dget record "provider_usage_status"))
      (integer_mapping (dget record "provider_tokens")) (optional_strict_int (dget record "visible_estimate_tokens"))
      (read_string (dget record "visible_estimate_method")) (read_boolean (dget record "visible_estimate_is_lower_bound"))
      (read_float (dget record "configured_cost_usd")) (read_string (dget record "invocation_cost_confidence"))
      (read_string (dget record "usage_parse_error")) (read_string (dget record "failure_kind"))
      (read_string (dget record "failure_phase")) (read_string (dget record "failure_source"))
      (read_string (dget record "failure_advice")) count)).

(** Code: observability/events/reader.py, _workspace_payload_from_record. *)
Definition workspace_payload_from_record (record : dict json) : EventPayload :=
  let text key := read_string (dget record key) in
  let flag key := read_boolean (dget record key) in
  WorkspaceEventPayload (mkWorkspaceEvent (text "status") (text "workspace_kind") (text "workspace_logical_worktree_name")
    (text "workspace_materialization") (text "workspace_source_kind") (text "workspace_source_node_id")
    (text "workspace_source_commit") (text "workspace_source_tree") (text "worktree_contract_mode")
    (text "worktree_contract_schema_version") (text "workspace_state_path") (flag "workspace_writable")
    (flag "workspace_lineage_producer") (flag "workspace_child_environment_required")
    (flag "workspace_child_environment_applied")).

(** Code: observability/events/reader.py, _runtime_log_payload_from_record. *)
Definition runtime_log_payload_from_record (record : dict json) : option EventPayload :=
  level ← read_log_level (dget record "level");
  message ← read_string (dget record "message");
  operation ← read_string (dget record "operation");
  Some (RuntimeLogEventPayload (mkRuntimeLog level message operation (runtime_log_attributes (dget record "attributes"))
    (optional_strict_int (dget record "duration_ms")) (read_string (dget record "error")))).

(** Code: observability/events/reader.py, _payload_from_record.._node_payload_from_record. *)
Definition payload_from_record (t : EventType) (record : dict json) : option EventPayload :=
  if is_workflow_event_type t then Some (WorkflowEventPayload (read_string (dget record "error")))
  else if is_node_event_type t then Some (NodeEventPayload (read_string (dget record "error")))
  else if is_invocation_event_type t then invocation_payload_from_record record
  else match t with
       | WORKSPACE_CONTEXT_RECORDED => Some (workspace_payload_from_record record)
       | TOPOLOGY_EXPANDED => topology_expansion_payload_from_record record
       | _ => runtime_log_payload_from_record record
       end.

(** Absent when [ProviderRole] rejects the role.
    Code: architecture/contracts/execution_event.py, context_from_record. *)
Definition context_from_record (workflow_name run_id : string) (record : dict json) : option ExecutionEventContext :=
  let text key := read_string (dget record key) in
  role ← match text "role" with None => Some None | Some r => Some <$> provider_role_of r end;
  Some (mkContext workflow_name run_id (text "node_id") (text "provider") role (text "model") (text "requested_reasoning")
    (text "task_id") (optional_strict_int (dget record "audit_round_num")) (optional_strict_int (dget record "round_num"))
    (text "output_file") (text "log_file") (text "log_presentation_format") (text "log_presentation_profile")).

(** Code: observability/events/reader.py, _timestamp_value. *)
Definition timestamp_value (timestamp_utc : string) : Z := default 0 (iso_timestamp timestamp_utc).

(** Code: observability/events/reader.py, event_from_record. *)
Definition event_from_record (record : dict json) : option ExecutionEvent :=
  raw_event_type ← read_string (dget record "event_type");
  event_type ← event_type_of raw_event_type;
  workflow_name ← read_string (dget record "workflow_name");
  run_id ← read_string (dget record "run_id");
  timestamp_utc ← read_string (dget record "timestamp");
  payload ← payload_from_record event_type record;
  context ← context_from_record workflow_name run_id record;
  let event := mkEvent event_type workflow_name run_id context payload (timestamp_value timestamp_utc) timestamp_utc in
  match validate_event event with Ok _ => Some event | _ => None end.

(** Only a [JSONDecodeError] is handled.
    Code: observability/events/reader.py, event_from_line. *)
Definition event_from_line (line : string) : outcome (option ExecutionEvent) :=
  if negb (not_blank line) then Ok None
  else match json_loads line with
       | JsonValue (JObj record) => Ok (event_from_record record)
       | JsonValue _ | JsonUndecodable => Ok None
       | JsonError e => Raise e
       end.

(** [content] is the text of the log, absent when there is no regular file or it
    cannot be read.
    Code: observability/events/reader.py, read_event_log. *)
Definition read_event_log (content : option string) : outcome (list ExecutionEvent) :=
  match content with
  | Some s => events ← mapM event_from_line (str_splitlines s); mret (omap id events)
  | None => Ok []
  end.

End Reader.
