(* ===== verification/EventsSpec.v ===== *)
(** Events are read back from their records. *)

From Stdlib Require Import ZArith Lia Ascii String.
From stdpp Require Import base gmap sets list strings.
From S2P Require Import Prelude PyStr Models Scheduler RunState RunManifests PlanRecords Events.

Open Scope string_scope.
Open Scope list_scope.
Open Scope Z_scope.

(** ** Fields of a record *)

(** A field that is written. *)
Definition field (fields : dict json) (k : string) : option json :=
  match dget fields k with Some JNull | None => None | Some v => Some v end.

Lemma dget_put_fields fields : forall record k, NoDup (dkeys fields) ->
  dget (put_fields record fields) k = match field fields k with Some v => Some v | None => dget record k end.
Proof.
  unfold put_fields, field, dkeys. induction fields as [|[key v] fields IH]; intros record k Hd; [done|].
  simpl in Hd. apply NoDup_cons in Hd as [Hnot Hd]. simpl. rewrite IH by done.
  assert (Hkey : dget fields key = None) by (by apply dget_None).
  destruct (decide (k = key)) as [->|Hne].
  - rewrite Hkey. destruct v; try done; by rewrite dget_dset_eq.
  - destruct v; rewrite ?dget_dset_ne by done; done.
Qed.

Definition header (e : ExecutionEvent) : dict json :=
  [("event_type", JStr (event_type_value (ev_event_type e))); ("run_id", JStr (ev_run_id e));
   ("timestamp", JStr (ev_timestamp_utc e)); ("workflow_name", JStr (ev_workflow_name e))].

Lemma fields_distinct e : NoDup (dkeys (context_fields (ev_context e))) /\ NoDup (dkeys (payload_fields (ev_payload e))).
Proof.
  split; [|destruct (ev_payload e)]; apply (@bool_decide_unpack _ (NoDup_dec _)); vm_compute; exact I.
Qed.

Lemma record_get e k : dget (execution_event_log_record e) k =
  match field (payload_fields (ev_payload e)) k with
  | Some v => Some v
  | None => match field (context_fields (ev_context e)) k with Some v => Some v | None => dget (header e) k end
  end.
Proof.
  destruct (fields_distinct e) as [Hc Hp]. unfold execution_event_log_record. by rewrite !dget_put_fields.
Qed.

Section RoundTrip.
Context {library : EventLibrary} {jsons : JsonLibrary}.

(** What the emitting code ensures of a payload: the statuses are those of the
    enumeration, counts are not negative, mappings have distinct keys. *)
Definition payload_ok (p : EventPayload) : Prop :=
  match p with
  | TopologyExpansionPayload p => validate_topology_expansion p = Ok tt
  | InvocationEventPayload p =>
      (forall s, iv_output_extraction_status p = Some s -> s ∈ OUTPUT_EXTRACTION_STATUSES) /\
      (forall n, iv_provider_usage_report_count p = Some n -> 0 <= n) /\
      (forall tokens, iv_provider_tokens p = Some tokens -> NoDup (dkeys tokens))
  | RuntimeLogEventPayload p =>
      forall attributes, rl_attributes p = Some attributes ->
        NoDup (dkeys attributes) /\ Forall (fun '(_, v) => is_runtime_log_value v = true) attributes
  | _ => True
  end.

(** ** Fields *)

Lemma read_string_field o : read_string (JStr <$> o) = o.
Proof. by destruct o. Qed.
Lemma strict_int_field o : optional_strict_int (JInt <$> o) = o.
Proof. by destruct o. Qed.
Lemma read_boolean_field o : read_boolean (JBool <$> o) = o.
Proof. by destruct o. Qed.
Lemma read_float_field o : read_float (JFloat <$> o) = o.
Proof. by destruct o. Qed.

Lemma written {A} (f : A -> json) (o : option A) : (forall a, f a <> JNull) ->
  match jopt f o with JNull => None | v => Some v end = f <$> o.
Proof. intros Hf. destruct o as [a|]; [|done]. simpl. pose proof (Hf a). by destruct (f a). Qed.

Lemma snoc_key {V} (done : dict V) k v rest : NoDup (dkeys (done ++ (k, v) :: rest)) -> k ∉ dkeys done.
Proof. unfold dkeys. rewrite map_app. intros (_ & Hd & _)%NoDup_app Hin. apply (Hd k Hin). left. Qed.

Lemma integer_mapping_field tokens : NoDup (dkeys tokens) ->
  integer_mapping (Some (JObj (map (fun '(k, v) => (k, jopt JInt v)) tokens))) = Some tokens.
Proof.
  intros Hd. unfold integer_mapping.
  enough (H : forall done, NoDup (dkeys (done ++ tokens)) ->
    foldl add_count (Some done) (map (fun '(k, v) => (k, jopt JInt v)) tokens) = Some (done ++ tokens)) by by apply (H []).
  clear Hd. induction tokens as [|[k v] tokens IH]; intros done Hd; [by rewrite app_nil_r|].
  cbn [map foldl]. assert (Hstep : add_count (Some done) (k, jopt JInt v) = Some (done ++ [(k, v)])).
  { unfold add_count. apply snoc_key in Hd. destruct v; simpl; by rewrite dset_notin. }
  rewrite Hstep, IH; by rewrite <- app_assoc.
Qed.

Lemma attributes_field attributes : NoDup (dkeys attributes) -> Forall (fun '(_, v) => is_runtime_log_value v = true) attributes ->
  runtime_log_attributes (Some (JObj attributes)) = Some attributes.
Proof.
  intros Hd Hv. unfold runtime_log_attributes.
  enough (H : forall done, NoDup (dkeys (done ++ attributes)) -> foldl add_attribute (Some done) attributes = Some (done ++ attributes))
    by by apply (H []).
  clear Hd. induction Hv as [|[k v] attributes Hkv _ IH]; intros done Hd; [by rewrite app_nil_r|].
  cbn [foldl]. assert (Hstep : add_attribute (Some done) (k, v) = Some (done ++ [(k, v)])).
  { unfold add_attribute. simpl. rewrite Hkv. apply snoc_key in Hd. by rewrite dset_notin. }
  rewrite Hstep, IH; by rewrite <- app_assoc.
Qed.

Lemma read_strings_field l : read_strings (JList (map JStr l)) = Some l.
Proof. simpl. induction l as [|s l IH]; [done|]. simpl. by rewrite IH. Qed.

Lemma mapM_written {A} (write : A -> json) (read : json -> option A) l : (forall a, read (write a) = Some a) ->
  mapM read (map write l) = Some l.
Proof. intros H. induction l as [|a l IH]; simpl; [done|]. by rewrite H, IH. Qed.

Lemma topology_node_read n : read_topology_node (topology_node_json n) = Some n.
Proof.
  destruct n as [id mode dependencies providers].
  change (read_topology_node _) with (dependencies ← read_strings (JList (map JStr dependencies));
    providers ← mapM read_topology_provider (map topology_provider_json providers);
    Some (mkTopologyNode id mode dependencies providers)).
  rewrite read_strings_field. simpl. rewrite (mapM_written topology_provider_json); [done|].
  intros [provider model role]. unfold topology_provider_json, read_topology_provider. cbn.
  destruct model, role as [[]|]; reflexivity.
Qed.

(** ** Payloads and contexts *)

(** The value of a field of the record of [e]. *)
Ltac lookup := rewrite record_get; vm_compute;
  repeat match goal with |- context [match ?o with Some _ => _ | None => _ end] => is_var o; destruct o end; reflexivity.

Lemma header_read e : dget (execution_event_log_record e) "event_type" = Some (JStr (event_type_value (ev_event_type e))) /\
  dget (execution_event_log_record e) "run_id" = Some (JStr (ev_run_id e)) /\
  dget (execution_event_log_record e) "timestamp" = Some (JStr (ev_timestamp_utc e)) /\
  dget (execution_event_log_record e) "workflow_name" = Some (JStr (ev_workflow_name e)).
Proof. split_and!; destruct e as [t w r c p ts utc]; destruct p; lookup. Qed.

Notation R e := (execution_event_log_record e).

Lemma context_read e :
  context_from_record (ec_workflow_name (ev_context e)) (ec_run_id (ev_context e)) (R e) = Some (ev_context e).
Proof.
  assert (H1 : read_string (dget (R e) "node_id") = ec_node_id (ev_context e)) by (destruct e as [? ? ? [] []]; lookup).
  assert (H2 : read_string (dget (R e) "provider") = ec_provider (ev_context e)) by (destruct e as [? ? ? [] []]; lookup).
  assert (H3 : read_string (dget (R e) "role") = role_value <$> ec_role (ev_context e)) by (destruct e as [? ? ? [? ? ? ? [[]|]] []]; lookup).
  assert (H4 : read_string (dget (R e) "model") = ec_model (ev_context e)) by (destruct e as [? ? ? [] []]; lookup).
  assert (H5 : read_string (dget (R e) "requested_reasoning") = ec_requested_reasoning (ev_context e)) by (destruct e as [? ? ? [] []]; lookup).
  assert (H6 : read_string (dget (R e) "task_id") = ec_task_id (ev_context e)) by (destruct e as [? ? ? [] []]; lookup).
  assert (H7 : optional_strict_int (dget (R e) "audit_round_num") = ec_audit_round_num (ev_context e)) by (destruct e as [? ? ? [] []]; lookup).
  assert (H8 : optional_strict_int (dget (R e) "round_num") = ec_round_num (ev_context e)) by (destruct e as [? ? ? [] []]; lookup).
  assert (H9 : read_string (dget (R e) "output_file") = ec_output_file (ev_context e)) by (destruct e as [? ? ? [] []]; lookup).
  assert (H10 : read_string (dget (R e) "log_file") = ec_log_file (ev_context e)) by (destruct e as [? ? ? [] []]; lookup).
  assert (H11 : read_string (dget (R e) "log_presentation_format") = ec_log_presentation_format (ev_context e)) by (destruct e as [? ? ? [] []]; lookup).
  assert (H12 : read_string (dget (R e) "log_presentation_profile") = ec_log_presentation_profile (ev_context e)) by (destruct e as [? ? ? [] []]; lookup).
  unfold context_from_record. rewrite H1, H2, H3, H4, H5, H6, H7, H8, H9, H10, H11, H12. clear.
  destruct (ev_context e) as [w i n pr [[]|]]; reflexivity.
Qed.

(** *** Payloads *)

Section Payloads.
Variables (t : EventType) (w i : string) (c : ExecutionEventContext) (ts : Z) (utc : string).
Notation event p := (mkEvent t w i c p ts utc).

(** A field of the payload [p], which is destructed first. *)
Ltac payload_field p := destruct c; destruct p; lookup.

Lemma invocation_read p : payload_ok (InvocationEventPayload p) ->
  invocation_payload_from_record (R (event (InvocationEventPayload p))) = Some (InvocationEventPayload p).
Proof.
  intros (Hstatus & Hcount & Htokens). set (e := event (InvocationEventPayload p)).
  assert (H1 : optional_strict_int (dget (R e) "duration_ms") = iv_duration_ms p) by payload_field p.
  assert (H2 : read_string (dget (R e) "error") = iv_error p) by payload_field p.
  assert (H3 : optional_strict_int (dget (R e) "attempt_count") = iv_attempt_count p) by payload_field p.
  assert (H4 : read_boolean (dget (R e) "cli_captured") = iv_cli_captured p) by payload_field p.
  assert (H5 : read_string (dget (R e) "provider_usage_status") = iv_provider_usage_status p) by payload_field p.
  assert (H6 : optional_strict_int (dget (R e) "visible_estimate_tokens") = iv_visible_estimate_tokens p) by payload_field p.
  assert (H7 : read_string (dget (R e) "visible_estimate_method") = iv_visible_estimate_method p) by payload_field p.
  assert (H8 : read_boolean (dget (R e) "visible_estimate_is_lower_bound") = iv_visible_estimate_is_lower_bound p) by payload_field p.
  assert (H9 : read_float (dget (R e) "configured_cost_usd") = iv_configured_cost_usd p) by payload_field p.
  assert (H10 : read_string (dget (R e) "invocation_cost_confidence") = iv_invocation_cost_confidence p) by payload_field p.
  assert (H11 : read_string (dget (R e) "usage_parse_error") = iv_usage_parse_error p) by payload_field p.
  assert (H12 : read_string (dget (R e) "failure_kind") = iv_failure_kind p) by payload_field p.
  assert (H13 : read_string (dget (R e) "failure_phase") = iv_failure_phase p) by payload_field p.
  assert (H14 : read_string (dget (R e) "failure_source") = iv_failure_source p) by payload_field p.
  assert (H15 : read_string (dget (R e) "failure_advice") = iv_failure_advice p) by payload_field p.
  assert (H16 : dget (R e) "output_extraction_status" = JStr <$> iv_output_extraction_status p) by payload_field p.
  assert (H17 : dget (R e) "provider_usage_report_count" = JInt <$> iv_provider_usage_report_count p) by payload_field p.
  assert (H18 : dget (R e) "provider_tokens" =
    (fun tokens => JObj (map (fun '(k, v) => (k, jopt JInt v)) tokens)) <$> iv_provider_tokens p) by payload_field p.
  unfold invocation_payload_from_record. rewrite H16, H17, H18, H1, H2, H3, H4, H5, H6, H7, H8, H9, H10, H11, H12, H13, H14, H15.
  assert (Hc : report_count (JInt <$> iv_provider_usage_report_count p) = iv_provider_usage_report_count p).
  { unfold report_count. rewrite strict_int_field. destruct (iv_provider_usage_report_count p) as [n|]; [|done].
    destruct (Z.ltb_spec n 0); [|done]. specialize (Hcount n eq_refl). lia. }
  assert (Ht : integer_mapping ((fun tokens => JObj (map (fun '(k, v) => (k, jopt JInt v)) tokens)) <$> iv_provider_tokens p)
               = iv_provider_tokens p).
  { destruct (iv_provider_tokens p) as [tokens|]; [|done]. apply integer_mapping_field. by apply Htokens. }
  assert (Hs : output_extraction_status (JStr <$> iv_output_extraction_status p) = iv_output_extraction_status p).
  { destruct (iv_output_extraction_status p) as [s|]; [|done]. simpl. unfold str_in. by rewrite (bool_decide_eq_true_2 _ (Hstatus s eq_refl)). }
  rewrite Hc, Ht, Hs. destruct p as [? ? ? ? ? ? ? ? ? ? ? ? ? ? ? ? ? [n|]]; reflexivity.
Qed.

Lemma workspace_read p : workspace_payload_from_record (R (event (WorkspaceEventPayload p))) = WorkspaceEventPayload p.
Proof.
  set (e := event (WorkspaceEventPayload p)).
  assert (H1 : read_string (dget (R e) "status") = we_status p) by payload_field p.
  assert (H2 : read_string (dget (R e) "workspace_kind") = we_workspace_kind p) by payload_field p.
  assert (H3 : read_string (dget (R e) "workspace_logical_worktree_name") = we_logical_worktree_name p) by payload_field p.
  assert (H4 : read_string (dget (R e) "workspace_materialization") = we_materialization p) by payload_field p.
  assert (H5 : read_string (dget (R e) "workspace_source_kind") = we_source_kind p) by payload_field p.
  assert (H6 : read_string (dget (R e) "workspace_source_node_id") = we_source_node_id p) by payload_field p.
  assert (H7 : read_string (dget (R e) "workspace_source_commit") = we_source_commit p) by payload_field p.
  assert (H8 : read_string (dget (R e) "workspace_source_tree") = we_source_tree p) by payload_field p.
  assert (H9 : read_string (dget (R e) "worktree_contract_mode") = we_contract_mode p) by payload_field p.
  assert (H10 : read_string (dget (R e) "worktree_contract_schema_version") = we_contract_schema_version p) by payload_field p.
  assert (H11 : read_string (dget (R e) "workspace_state_path") = we_state_path p) by payload_field p.
  assert (H12 : read_boolean (dget (R e) "workspace_writable") = we_writable p) by payload_field p.
  assert (H13 : read_boolean (dget (R e) "workspace_lineage_producer") = we_lineage_producer p) by payload_field p.
  assert (H14 : read_boolean (dget (R e) "workspace_child_environment_required") = we_child_environment_required p) by payload_field p.
  assert (H15 : read_boolean (dget (R e) "workspace_child_environment_applied") = we_child_environment_applied p) by payload_field p.
  unfold workspace_payload_from_record. rewrite H1, H2, H3, H4, H5, H6, H7, H8, H9, H10, H11, H12, H13, H14, H15. by destruct p.
Qed.

Lemma runtime_log_read p : payload_ok (RuntimeLogEventPayload p) ->
  runtime_log_payload_from_record (R (event (RuntimeLogEventPayload p))) = Some (RuntimeLogEventPayload p).
Proof.
  intros Hattr. set (e := event (RuntimeLogEventPayload p)).
  assert (H1 : read_log_level (dget (R e) "level") = Some (rl_level p)) by (destruct c; destruct p as [[]]; lookup).
  assert (H2 : read_string (dget (R e) "message") = Some (rl_message p)) by payload_field p.
  assert (H3 : read_string (dget (R e) "operation") = Some (rl_operation p)) by payload_field p.
  assert (H4 : dget (R e) "attributes" = JObj <$> rl_attributes p) by payload_field p.
  assert (H5 : optional_strict_int (dget (R e) "duration_ms") = rl_duration_ms p) by payload_field p.
  assert (H6 : read_string (dget (R e) "error") = rl_error p) by payload_field p.
  unfold runtime_log_payload_from_record. rewrite H1, H2, H3, H4, H5, H6. simpl.
  assert (Ha : runtime_log_attributes (JObj <$> rl_attributes p) = rl_attributes p).
  { destruct (rl_attributes p) as [attributes|] eqn:E; [|done]. destruct (Hattr attributes E). by apply attributes_field. }
  rewrite Ha. by destruct p.
Qed.

Lemma expansion_read p : payload_ok (TopologyExpansionPayload p) ->
  topology_expansion_payload_from_record (R (event (TopologyExpansionPayload p))) = Some (TopologyExpansionPayload p).
Proof.
  intros Hok. set (e := event (TopologyExpansionPayload p)).
  assert (H1 : dget (R e) "group_id" = Some (JStr (te_group_id p))) by payload_field p.
  assert (H2 : dget (R e) "item_count" = Some (JInt (te_item_count p))) by payload_field p.
  assert (H3 : dget (R e) "additions" = Some (JList (map topology_node_json (te_additions p)))) by (rewrite record_get; reflexivity).
  assert (H4 : dget (R e) "group_dependencies" = Some (JList (map JStr (te_group_dependencies p)))) by (rewrite record_get; reflexivity).
  unfold topology_expansion_payload_from_record. rewrite H1, H2, H3, H4. cbn [read_string optional_strict_int mbind option_bind].
  rewrite (mapM_written topology_node_json) by exact topology_node_read. cbn [mbind option_bind].
  rewrite read_strings_field. cbn [mbind option_bind]. destruct p as [g n a d]. unfold payload_ok in Hok. cbn [te_group_id te_item_count te_additions te_group_dependencies]. by rewrite Hok.
Qed.

End Payloads.

(** The payload class decides how a record is read. *)
Lemma payload_read e : validate_event e = Ok tt -> payload_ok (ev_payload e) ->
  payload_from_record (ev_event_type e) (R e) = Some (ev_payload e).
Proof.
  intros Hv Hok. assert (Hc : payload_class (ev_payload e) = expected_payload (ev_event_type e)).
  { unfold validate_event, validate_payload_type in Hv. repeat case_match; try done. by apply bool_decide_eq_true in H1. }
  clear Hv.
  destruct (ev_payload e) as [error|error|p|p|p|p] eqn:Hp.
  - assert (H : read_string (dget (R e) "error") = error).
    { destruct e as [? ? ? [] ?]. simpl in Hp. subst. lookup. }
    unfold payload_from_record. rewrite H. by destruct (ev_event_type e).
  - assert (H : read_string (dget (R e) "error") = error).
    { destruct e as [? ? ? [] ?]. simpl in Hp. subst. lookup. }
    unfold payload_from_record. rewrite H. by destruct (ev_event_type e).
  - assert (H : topology_expansion_payload_from_record (R e) = Some (TopologyExpansionPayload p)); [|by destruct (ev_event_type e)].
    destruct e as [t w i c q ts utc]. simpl in Hp. subst q. by apply expansion_read.
  - assert (H : invocation_payload_from_record (R e) = Some (InvocationEventPayload p)); [|by destruct (ev_event_type e)].
    destruct e as [t w i c q ts utc]. simpl in Hp. subst q. by apply invocation_read.
  - assert (H : workspace_payload_from_record (R e) = WorkspaceEventPayload p).
    { destruct e as [t w i c q ts utc]. simpl in Hp. subst q. apply workspace_read. }
    unfold payload_from_record. rewrite H. by destruct (ev_event_type e).
  - assert (H : runtime_log_payload_from_record (R e) = Some (RuntimeLogEventPayload p)); [|by destruct (ev_event_type e)].
    destruct e as [t w i c q ts utc]. simpl in Hp. subst q. by apply runtime_log_read.
Qed.

(** The event with the clock reading that its time stamp denotes. *)
Definition read_back (e : ExecutionEvent) : ExecutionEvent :=
  mkEvent (ev_event_type e) (ev_workflow_name e) (ev_run_id e) (ev_context e) (ev_payload e) (timestamp_value (ev_timestamp_utc e))
    (ev_timestamp_utc e).

Lemma event_read r e : (forall k, dget r k = dget (R e) k) -> validate_event e = Ok tt -> payload_ok (ev_payload e) ->
  event_from_record r = Some (read_back e).
Proof.
  intros Hr Hv Hok.
  assert (Hext : event_from_record r = event_from_record (R e)).
  { unfold event_from_record, payload_from_record, invocation_payload_from_record, workspace_payload_from_record,
      topology_expansion_payload_from_record, runtime_log_payload_from_record, context_from_record. by rewrite !Hr. }
  rewrite Hext. clear Hext Hr r. unfold event_from_record. destruct (header_read e) as (-> & -> & -> & ->).
  cbn [read_string mbind option_bind].
  assert (Ht : event_type_of (event_type_value (ev_event_type e)) = Some (ev_event_type e)) by (by destruct (ev_event_type e)).
  rewrite Ht. cbn [mbind option_bind]. rewrite payload_read by done. cbn [mbind option_bind].
  assert (Hn : ec_workflow_name (ev_context e) = ev_workflow_name e /\ ec_run_id (ev_context e) = ev_run_id e).
  { unfold validate_event in Hv. repeat case_bool_decide; done. }
  pose proof (context_read e) as Hc. destruct Hn as [Hw Hi]. rewrite Hw, Hi in Hc. rewrite Hc. cbn [mbind option_bind].
  change (mkEvent _ _ _ _ _ _ _) with (read_back e). change (validate_event (read_back e)) with (validate_event e).
  by rewrite Hv.
Qed.

End RoundTrip.

(** C25 (roundtrip): The event log loses nothing: the record of an event, whatever order its keys are written in, reads back as
    the same event (type, run, context and payload), with the clock reading of its time stamp, for every event that the contracts
    of payloads and contexts admit; unset fields are left out of the record and read back as unset.
    Definitions: execution_event_log_record, put_fields, context_fields, payload_fields, invocation_fields, workspace_fields,
    runtime_log_fields, expansion_fields, event_from_record, payload_from_record, context_from_record,
    invocation_payload_from_record, workspace_payload_from_record, runtime_log_payload_from_record,
    topology_expansion_payload_from_record, integer_mapping, runtime_log_attributes, validate_event, validate_payload_type,
    validate_topology_expansion. *)
Theorem event_record_roundtrip {library : EventLibrary} {jsons : JsonLibrary} (e : ExecutionEvent) (record : dict json) :
  validate_event e = Ok tt -> payload_ok (ev_payload e) ->
  (forall k, dget record k = dget (execution_event_log_record e) k) ->
  event_from_record record = Some (read_back e).
Proof. intros Hv Hok Hr. by apply event_read. Qed.

(** The order of keys does not matter. *)
Lemma dget_Permutation {V} (d d' : dict V) k : NoDup (dkeys d) -> d ≡ₚ d' -> dget d k = dget d' k.
Proof.
  intros Hd Hp. assert (Hd' : NoDup (dkeys d')) by (unfold dkeys in *; by rewrite <- Hp).
  apply option_eq. intros v. split; intros H; apply dget_elem_of in H; apply elem_of_dget; try done; by rewrite Hp in *.
Qed.

Section EventWitness.

Definition example_library : EventLibrary := {| iso_timestamp := fun s => if bool_decide (s = "2026-01-01T00:00:00") then Some 1767225600000 else None; float_of_int := fun z => str_int z +:+ ".0" |}.
Definition example_jsons : JsonLibrary := {| json_loads := fun _ => JsonUndecodable |}.
Definition example_event : ExecutionEvent :=
  mkEvent INVOCATION_FINISHED "ship" "run-1"
    (mkContext "ship" "run-1" (Some "write") (Some "codex") (Some EXECUTOR) None None (Some "write-codex") (Some 1) (Some 2) None
       (Some "logs/a.log") None None)
    (InvocationEventPayload (mkInvocationEvent (Some 1500) None (Some 2) (Some true) (Some "success") (Some "full")
       (Some [("input", Some 10); ("cached", None)]) None None None (Some "0.25") (Some "full") None None None None None (Some 0)))
    7 "2026-01-01T00:00:00".

Lemma event_record_roundtrip_witness :
  @event_from_record example_library (rev (execution_event_log_record example_event)) =
  Some (@read_back example_library example_event).
Proof.
  apply (@event_record_roundtrip example_library example_jsons).
  - reflexivity.
  - split_and!.
    + intros s [= <-]. left.
    + intros n [= <-]. lia.
    + intros tokens [= <-]. apply (@bool_decide_unpack _ (NoDup_dec _)). vm_compute. exact I.
  - intros k. symmetry. apply dget_Permutation; [|apply Permutation_rev].
    apply (@bool_decide_unpack _ (NoDup_dec _)). vm_compute. exact I.
Defined.

End EventWitness.
