(* ===== verification/Dashboard.v ===== *)
(** The dashboard: observability/events/{dashboard_state,reducer}.py and
    observability/timing.py.

    The dashboard folds the events of a run into the status of the workflow, its
    nodes and their invocations.  Applying an event mutates the state; an event
    that does not fit raises. *)

From Stdlib Require Import ZArith Lia Ascii String.
From stdpp Require Import base gmap sets list strings.
From S2P Require Import Prelude PyStr StateExn Models Scheduler RunState RunManifests PlanRecords Events.

Open Scope string_scope.
Open Scope list_scope.
Open Scope Z_scope.

(** [format_tenths ms] is [f"{ms / 1000:.1f}"]. *)
Class FloatFormat := { format_tenths : Z -> string }.

(** ** State (observability/events/dashboard_state.py) *)

(** Code: observability/events/dashboard_state.py, InvocationRuntimeState. *)
Record InvocationRuntimeState := mkInvocationState {
  is_task_id : string;
  is_provider : string;
  is_role : ProviderRole;
  is_model : option string;
  is_audit_round_num : option Z;
  is_round_num : option Z;
  is_status : ExecutionStatus;
  is_started_at : option Z;
  is_finished_at : option Z;
  is_duration_ms : option Z;
  is_error : option string;
  is_output_file : option string;
  is_log_file : option string;
  is_log_presentation_format : option string;
  is_log_presentation_profile : option string
}.

(** Code: observability/events/dashboard_state.py:47-58. *)
Record NodeRuntimeState := mkNodeState {
  nr_node_id : string;
  nr_mode : string;
  nr_configured_providers : list string;
  nr_status : ExecutionStatus;
  nr_started_at : option Z;
  nr_finished_at : option Z;
  nr_invocations : dict InvocationRuntimeState;
  nr_recent_events : list string
}.

(** Code: observability/events/dashboard_state.py:86-97. *)
Record RunDashboardState := mkDashboard {
  rd_workflow_name : string;
  rd_run_id : string;
  rd_node_order : dict Z;
  rd_workflow_status : ExecutionStatus;
  rd_workflow_started_at : option Z;
  rd_workflow_finished_at : option Z;
  rd_nodes : dict NodeRuntimeState;
  rd_topology_nodes : dict TopologyNode
}.

(** Code: architecture/contracts/observer.py, WorkflowTopology. *)
Record WorkflowTopology := mkTopology { wt_workflow_name : string; wt_nodes : list TopologyNode }.

Definition new_node_state (node : TopologyNode) : NodeRuntimeState :=
  mkNodeState (tn_id node) (tn_mode node) (map tp_provider (tn_providers node)) PENDING None None [] [].

(** Code: observability/events/dashboard_state.py, build_initial_state. *)
Definition build_initial_state (topology : WorkflowTopology) (run_id : string) : RunDashboardState :=
  mkDashboard (wt_workflow_name topology) run_id (enumerate_order (map tn_id (wt_nodes topology))) PENDING None None
    (dict_of (map (fun node => (tn_id node, new_node_state node)) (wt_nodes topology)))
    (dict_of (map (fun node => (tn_id node, node)) (wt_nodes topology))).

Definition count_status (status : ExecutionStatus) (statuses : list ExecutionStatus) : Z :=
  Z.of_nat (length (List.filter (fun s => bool_decide (s = status)) statuses)).

(** Code: observability/events/dashboard_state.py, RunDashboardState.pending_nodes..RunDashboardState.blocked_nodes. *)
Definition nodes_with_status (status : ExecutionStatus) (state : RunDashboardState) : Z :=
  count_status status (map (fun '(_, node) => nr_status node) (rd_nodes state)).

(** Code: observability/events/dashboard_state.py, NodeRuntimeState.running_invocations..NodeRuntimeState.failed_invocations. *)
Definition invocations_with_status (status : ExecutionStatus) (node : NodeRuntimeState) : Z :=
  count_status status (map (fun '(_, invocation) => is_status invocation) (nr_invocations node)).

(** Code: observability/events/dashboard_state.py, RunDashboardState.elapsed_seconds. *)
Definition elapsed_ms (now : Z) (state : RunDashboardState) : Z :=
  match rd_workflow_started_at state with
  | None => 0
  | Some start => Z.max 0 (default now (rd_workflow_finished_at state) - start)
  end.

(** ** Updates *)

Definition with_nodes (f : dict NodeRuntimeState -> dict NodeRuntimeState) (s : RunDashboardState) : RunDashboardState :=
  mkDashboard (rd_workflow_name s) (rd_run_id s) (rd_node_order s) (rd_workflow_status s) (rd_workflow_started_at s)
    (rd_workflow_finished_at s) (f (rd_nodes s)) (rd_topology_nodes s).

Definition with_workflow_status (status : ExecutionStatus) (s : RunDashboardState) : RunDashboardState :=
  mkDashboard (rd_workflow_name s) (rd_run_id s) (rd_node_order s) status (rd_workflow_started_at s) (rd_workflow_finished_at s)
    (rd_nodes s) (rd_topology_nodes s).

Definition with_workflow_started (at_ : Z) (s : RunDashboardState) : RunDashboardState :=
  mkDashboard (rd_workflow_name s) (rd_run_id s) (rd_node_order s) (rd_workflow_status s) (Some at_) (rd_workflow_finished_at s)
    (rd_nodes s) (rd_topology_nodes s).

Definition with_workflow_finished (at_ : Z) (s : RunDashboardState) : RunDashboardState :=
  mkDashboard (rd_workflow_name s) (rd_run_id s) (rd_node_order s) (rd_workflow_status s) (rd_workflow_started_at s) (Some at_)
    (rd_nodes s) (rd_topology_nodes s).

Definition with_topology (topology : dict TopologyNode) (s : RunDashboardState) : RunDashboardState :=
  mkDashboard (rd_workflow_name s) (rd_run_id s) (enumerate_order (dkeys topology)) (rd_workflow_status s)
    (rd_workflow_started_at s) (rd_workflow_finished_at s) (rd_nodes s) topology.

(** The status and the times of a node. *)
Definition node_lifecycle (status : ExecutionStatus) (started finished : option Z -> option Z) (n : NodeRuntimeState)
    : NodeRuntimeState :=
  mkNodeState (nr_node_id n) (nr_mode n) (nr_configured_providers n) status (started (nr_started_at n))
    (finished (nr_finished_at n)) (nr_invocations n) (nr_recent_events n).

Definition with_invocations (f : dict InvocationRuntimeState -> dict InvocationRuntimeState) (n : NodeRuntimeState)
    : NodeRuntimeState :=
  mkNodeState (nr_node_id n) (nr_mode n) (nr_configured_providers n) (nr_status n) (nr_started_at n) (nr_finished_at n)
    (f (nr_invocations n)) (nr_recent_events n).

(** [recent_events.append(message)] on a deque of length five. *)
Definition push_event (message : string) (n : NodeRuntimeState) : NodeRuntimeState :=
  let events := nr_recent_events n ++ [message] in
  mkNodeState (nr_node_id n) (nr_mode n) (nr_configured_providers n) (nr_status n) (nr_started_at n) (nr_finished_at n)
    (nr_invocations n) (drop (length events - 5) events).

Definition invocation_lifecycle (status : ExecutionStatus) (started finished duration : option Z -> option Z)
    (error : option string -> option string) (i : InvocationRuntimeState) : InvocationRuntimeState :=
  mkInvocationState (is_task_id i) (is_provider i) (is_role i) (is_model i) (is_audit_round_num i) (is_round_num i) status
    (started (is_started_at i)) (finished (is_finished_at i)) (duration (is_duration_ms i)) (error (is_error i)) (is_output_file i)
    (is_log_file i) (is_log_presentation_format i) (is_log_presentation_profile i).

(** [a if a is not None else b]. *)
Definition or_else {A} (a b : option A) : option A := match a with Some _ => a | None => b end.

Definition with_files (c : ExecutionEventContext) (i : InvocationRuntimeState) : InvocationRuntimeState :=
  mkInvocationState (is_task_id i) (is_provider i) (is_role i) (is_model i) (is_audit_round_num i) (is_round_num i) (is_status i)
    (is_started_at i) (is_finished_at i) (is_duration_ms i) (is_error i) (or_else (ec_output_file c) (is_output_file i))
    (or_else (ec_log_file c) (is_log_file i)) (or_else (ec_log_presentation_format c) (is_log_presentation_format i))
    (or_else (ec_log_presentation_profile c) (is_log_presentation_profile i)).

(** ** The reducer (observability/events/reducer.py) *)

(** Code: observability/events/reducer.py, clip. *)
Definition clip (value : string) (max_len : nat) : string :=
  if (String.length value <=? max_len)%nat then value
  else if (max_len <=? 3)%nat then String.substring 0 max_len value
  else String.substring 0 (max_len - 3) value +:+ "...".

(** Code: observability/events/reducer.py, record_node_event. *)
Definition record_node_event (message : string) : NodeRuntimeState -> NodeRuntimeState := push_event (clip message 80).

(** Code: observability/events/reducer.py, invocation_key_for. *)
Definition invocation_key_for (task_id : string) (audit_round_num round_num : option Z) : string :=
  match audit_round_num, round_num with
  | None, None => task_id
  | _, _ =>
      let audit_part := match audit_round_num with Some n => "audit" +:+ str_int n | None => "audit?" end in
      let round_part := match round_num with Some n => "round" +:+ str_int n | None => "round?" end in
      task_id +:+ "#" +:+ audit_part +:+ "#" +:+ round_part
  end.

Definition LOG_PRESENTATION_FORMATS : list string := ["plain"; "json_lines"; "json_object"].

(** Code: architecture/contracts/invocation.py, validate_log_presentation_format. *)
Definition validate_log_presentation_format (value : string) : outcome string :=
  if str_in value LOG_PRESENTATION_FORMATS then Ok value
  else Raise (ValueError ("unsupported log presentation format: " +:+ quoted value)).

Definition two_digits (n : Z) : string := if n <? 10 then "0" +:+ str_int n else str_int n.

Section Reducer.
Context {format : FloatFormat}.

(** The argument is in milliseconds.
    Code: observability/timing.py, format_elapsed_seconds. *)
Definition format_elapsed (ms : Z) : string :=
  let normalized := Z.max 0 ms in
  if normalized <? 60000 then format_tenths normalized +:+ "s"
  else
    let total := normalized / 1000 in
    let minutes := total / 60 in
    let sec := total mod 60 in
    if minutes <? 60 then str_int minutes +:+ "m" +:+ two_digits sec +:+ "s"
    else str_int (minutes / 60) +:+ "h" +:+ two_digits (minutes mod 60) +:+ "m" +:+ two_digits sec +:+ "s".

Definition duration_label (duration : option Z) : string :=
  match duration with Some ms => " (" +:+ format_elapsed ms +:+ ")" | None => "" end.

(** Code: observability/events/reducer.py, require_node. *)
Definition require_node (node_id : option string) : M RunDashboardState string :=
  match node_id with
  | Some id =>
      if negb (nonempty id) then raise (ValueError "Execution event missing node_id.")
      else
        nodes ← read rd_nodes;
        if dmem nodes id then ret id else raise (ValueError ("Execution event references unknown node " +:+ quoted id +:+ "."))
  | None => raise (ValueError "Execution event missing node_id.")
  end.

(** A change of one node. *)
Definition update_node (id : string) (f : NodeRuntimeState -> NodeRuntimeState) : M RunDashboardState unit :=
  modify (with_nodes (fun nodes => match dget nodes id with Some n => dset nodes id (f n) | None => nodes end)).

Definition update_invocation (id key : string) (f : InvocationRuntimeState -> InvocationRuntimeState) : M RunDashboardState unit :=
  update_node id (with_invocations (fun invocations =>
    match dget invocations key with Some i => dset invocations key (f i) | None => invocations end)).

(** The key of the invocation of an event, which is created when it is new.
    Code: observability/events/reducer.py, require_invocation. *)
Definition require_invocation (id : string) (c : ExecutionEventContext) : M RunDashboardState string :=
  match ec_task_id c with
  | None => raise (ValueError "Invocation event missing task_id.")
  | Some task_id =>
      if negb (nonempty task_id) then raise (ValueError "Invocation event missing task_id.")
      else
        match ec_provider c with
        | None => raise (ValueError "Invocation event missing provider.")
        | Some provider =>
            if negb (nonempty provider) then raise (ValueError "Invocation event missing provider.")
            else
              match ec_role c with
              | None => raise (ValueError "Invocation event missing role.")
              | Some role =>
                  lift (match ec_log_presentation_format c with
                        | Some f => _ ← validate_log_presentation_format f; Ok tt
                        | None => Ok tt
                        end);;
                  let key := invocation_key_for task_id (ec_audit_round_num c) (ec_round_num c) in
                  update_node id (with_invocations (fun invocations =>
                    let invocation := default (mkInvocationState task_id provider role (ec_model c) (ec_audit_round_num c)
                      (ec_round_num c) PENDING None None None None (ec_output_file c) (ec_log_file c)
                      (ec_log_presentation_format c) (ec_log_presentation_profile c)) (dget invocations key) in
                    dset invocations key (with_files c invocation)));;
                  ret key
              end
        end
  end.

(** [invocation.task_id] of the invocation of an event. *)
Definition invocation_task (id key : string) : M RunDashboardState string :=
  read (fun s => match dget (rd_nodes s) id ≫= (fun n => dget (nr_invocations n) key) with Some i => is_task_id i | None => "" end).

(** Code: observability/events/reducer.py, _node_payload. *)
Definition node_payload (e : ExecutionEvent) : outcome (option string) :=
  match ev_payload e with
  | NodeEventPayload error => Ok error
  | _ => Raise (ValueError "Node event must carry NodeEventPayload.")
  end.

(** Code: observability/events/reducer.py, _invocation_payload. *)
Definition invocation_payload (e : ExecutionEvent) : outcome InvocationEvent :=
  match ev_payload e with
  | InvocationEventPayload p => Ok p
  | _ => Raise (ValueError "Invocation event must carry InvocationEventPayload.")
  end.

Definition unfinished (status : ExecutionStatus) : bool := bool_decide (status = PENDING) || bool_decide (status = RUNNING).

(** Code: observability/events/reducer.py:134-145. *)
Definition cancel_invocation (timestamp : Z) (i : InvocationRuntimeState) : InvocationRuntimeState :=
  if unfinished (is_status i)
  then invocation_lifecycle CANCELLED (fun s => s) (fun _ => Some timestamp)
         (fun duration => match is_started_at i with Some start => Some (Z.max 0 (timestamp - start)) | None => duration end)
         (fun error => error) i
  else i.

(** Code: observability/events/reducer.py:131-145. *)
Definition cancel_node (timestamp : Z) (n : NodeRuntimeState) : NodeRuntimeState :=
  with_invocations (map (fun '(key, i) => (key, cancel_invocation timestamp i)))
    (if unfinished (nr_status n) then node_lifecycle CANCELLED (fun s => s) (fun _ => Some timestamp) n else n).

(** Code: observability/events/reducer.py, cancel_unfinished_children. *)
Definition cancel_unfinished_children (timestamp : Z) : M RunDashboardState unit :=
  modify (with_nodes (map (fun '(id, n) => (id, cancel_node timestamp n)))).

(** Code: observability/events/reducer.py, apply_runtime_log_event. *)
Definition apply_runtime_log_event (id : string) (e : ExecutionEvent) : M RunDashboardState unit :=
  match ev_payload e with
  | RuntimeLogEventPayload p =>
      if negb (bool_decide (rl_level p = LOG_WARNING) || bool_decide (rl_level p = LOG_ERROR)) || negb (nonempty (rl_message p))
      then ret tt
      else
        let prefix := if bool_decide (rl_level p = LOG_WARNING) then "WARN" else "ERROR" in
        update_node id (record_node_event (prefix +:+ " " +:+ clip (rl_message p) 64))
  | _ => ret tt
  end.

(** The nodes of an expansion before its group, whose dependencies change. *)
Definition place_additions (group_id : string) (additions : dict TopologyNode) (dependencies : list string)
    (ordered : dict TopologyNode) (entry : string * TopologyNode) : dict TopologyNode :=
  let '(id, node) := entry in
  if bool_decide (id = group_id)
  then dset (dict_update ordered additions) id
         (mkTopologyNode (tn_id node) (tn_mode node) dependencies (tn_providers node))
  else dset ordered id node.

(** Code: observability/events/reducer.py, apply_topology_expansion. *)
Definition apply_topology_expansion (p : TopologyExpansion) : M RunDashboardState unit :=
  topology ← read rd_topology_nodes;
  if negb (dmem topology (te_group_id p)) then raise (ValueError ("Unknown expansion group " +:+ quoted (te_group_id p)))
  else
    let additions := dict_of (map (fun node => (tn_id node, node)) (te_additions p)) in
    modify (with_topology (foldl (place_additions (te_group_id p) additions (te_group_dependencies p)) [] topology));;
    for_all (fun node => modify (with_nodes (fun nodes =>
      if dmem nodes (tn_id node) then nodes else dset nodes (tn_id node) (new_node_state node)))) (te_additions p).

(** The event of a node that failed or is blocked. *)
Definition node_error (id prefix : string) (e : ExecutionEvent) : M RunDashboardState unit :=
  error ← lift (node_payload e);
  match error with
  | Some message => if nonempty message then update_node id (push_event (prefix +:+ " " +:+ message)) else ret tt
  | None => ret tt
  end.

(** Code: observability/events/reducer.py:45-126. *)
Definition apply_by_type (e : ExecutionEvent) : M RunDashboardState unit :=
  let c := ev_context e in
  let at_ := ev_timestamp e in
  match ev_event_type e with
  | WORKFLOW_STARTED => modify (with_workflow_status RUNNING);; modify (with_workflow_started at_)
  | WORKFLOW_FINISHED => modify (with_workflow_status SUCCEEDED);; modify (with_workflow_finished at_)
  | WORKFLOW_FAILED => modify (with_workflow_status FAILED);; modify (with_workflow_finished at_)
  | WORKFLOW_CANCELLED =>
      modify (with_workflow_status CANCELLED);; modify (with_workflow_finished at_);; cancel_unfinished_children at_
  | RUNTIME_LOG =>
      match ec_node_id c with
      | None => ret tt
      | Some _ => id ← require_node (ec_node_id c); apply_runtime_log_event id e
      end
  | NODE_STARTED =>
      id ← require_node (ec_node_id c); update_node id (node_lifecycle RUNNING (fun _ => Some at_) (fun _ => None))
  | NODE_FINISHED =>
      id ← require_node (ec_node_id c); update_node id (node_lifecycle SUCCEEDED (fun s => s) (fun _ => Some at_))
  | NODE_FAILED =>
      id ← require_node (ec_node_id c);
      update_node id (node_lifecycle FAILED (fun s => s) (fun _ => Some at_));; node_error id "FAIL" e
  | NODE_BLOCKED =>
      id ← require_node (ec_node_id c);
      update_node id (node_lifecycle BLOCKED (fun s => s) (fun f => f));; node_error id "BLOCKED" e
  | INVOCATION_STARTED =>
      id ← require_node (ec_node_id c);
      key ← require_invocation id c;
      update_invocation id key (invocation_lifecycle RUNNING (fun _ => Some at_) (fun _ => None) (fun d => d) (fun r => r));;
      task ← invocation_task id key;
      update_node id (record_node_event ("RUN " +:+ task))
  | INVOCATION_FINISHED =>
      id ← require_node (ec_node_id c);
      key ← require_invocation id c;
      p ← lift (invocation_payload e);
      update_invocation id key
        (invocation_lifecycle SUCCEEDED (fun s => s) (fun _ => Some at_) (fun _ => iv_duration_ms p) (fun r => r));;
      task ← invocation_task id key;
      update_node id (record_node_event ("DONE " +:+ task +:+ duration_label (iv_duration_ms p)))
  | INVOCATION_FAILED =>
      id ← require_node (ec_node_id c);
      key ← require_invocation id c;
      p ← lift (invocation_payload e);
      update_invocation id key
        (invocation_lifecycle FAILED (fun s => s) (fun _ => Some at_) (fun _ => iv_duration_ms p) (fun _ => iv_error p));;
      task ← invocation_task id key;
      let error := match iv_error p with Some m => if nonempty m then m else "error" | None => "error" end in
      update_node id (record_node_event ("FAIL " +:+ task +:+ duration_label (iv_duration_ms p) +:+ ": "
                                         +:+ clip error 50))
  | WORKSPACE_CONTEXT_RECORDED => ret tt
  | TOPOLOGY_EXPANDED => raise (ValueError "Unsupported event type: topology_expanded")
  end.

(** Code: observability/events/reducer.py, apply_event. *)
Definition apply_event (e : ExecutionEvent) : M RunDashboardState unit :=
  name ← read rd_workflow_name;
  run_id ← read rd_run_id;
  if negb (bool_decide (ec_workflow_name (ev_context e) = name)) then
    raise (ValueError ("Execution event workflow mismatch: expected " +:+ quoted name +:+ ", got " +:+ quoted (ev_workflow_name e)
                       +:+ "."))
  else if negb (bool_decide (ec_run_id (ev_context e) = run_id)) then
    raise (ValueError ("Execution event run_id mismatch: expected " +:+ quoted run_id +:+ ", got " +:+ quoted (ev_run_id e) +:+ "."))
  else
    match ev_payload e with
    | TopologyExpansionPayload p => apply_topology_expansion p
    | _ => apply_by_type e
    end.

End Reducer.
