(* ===== verification/DashboardSpec.v ===== *)
(** What the dashboard shows, whatever events it receives. *)

From Stdlib Require Import ZArith Lia Ascii String.
From stdpp Require Import base gmap sets list strings.
From S2P Require Import Prelude PyStr StateExn Models Scheduler SchedulerLoop RunState RunManifests PlanRecords Events Dashboard.

Open Scope string_scope.
Open Scope list_scope.
Open Scope Z_scope.

(** ** The invariant *)

(** A lifecycle with its times: nothing pending has times, running means started
    and not finished, an end has a time.  A blocked node keeps the times it had. *)
Definition lifecycle_ok (status : ExecutionStatus) (started finished : option Z) : Prop :=
  match status with
  | PENDING => started = None /\ finished = None
  | RUNNING => is_Some started /\ finished = None
  | SUCCEEDED | FAILED | CANCELLED => is_Some finished
  | BLOCKED => True
  end.

(** The run itself: a start does not clear the time of an earlier end. *)
Definition run_ok (status : ExecutionStatus) (started finished : option Z) : Prop :=
  match status with
  | PENDING => started = None /\ finished = None
  | RUNNING => is_Some started
  | SUCCEEDED | FAILED | CANCELLED => is_Some finished
  | BLOCKED => False
  end.

Definition invocation_ok (i : InvocationRuntimeState) : Prop :=
  is_status i <> BLOCKED /\ lifecycle_ok (is_status i) (is_started_at i) (is_finished_at i).

Record node_ok (n : NodeRuntimeState) : Prop := {
  no_lifecycle : lifecycle_ok (nr_status n) (nr_started_at n) (nr_finished_at n);
  no_recent : (length (nr_recent_events n) <= 5)%nat;
  no_keys : NoDup (dkeys (nr_invocations n));
  no_invocations : Forall (fun '(_, i) => invocation_ok i) (nr_invocations n)
}.

Record dashboard_ok (name run_id : string) (s : RunDashboardState) : Prop := {
  dk_name : rd_workflow_name s = name;
  dk_run : rd_run_id s = run_id;
  dk_workflow : run_ok (rd_workflow_status s) (rd_workflow_started_at s) (rd_workflow_finished_at s);
  dk_nodes : NoDup (dkeys (rd_nodes s));
  dk_ids : Forall (fun '(id, n) => nr_node_id n = id /\ node_ok n) (rd_nodes s);
  dk_topology : NoDup (dkeys (rd_topology_nodes s));
  dk_order : forall id, id ∈ dkeys (rd_node_order s) <-> id ∈ dkeys (rd_topology_nodes s);
  dk_known : forall id, id ∈ dkeys (rd_topology_nodes s) -> id ∈ dkeys (rd_nodes s)
}.

(** The state after a list of events; an event that raises leaves what it had
    done. *)
Definition replay {format : FloatFormat} (events : list ExecutionEvent) (s : RunDashboardState) : RunDashboardState :=
  foldl (fun s e => snd (apply_event e s)) s events.

(** A change that keeps a node a node. *)
Definition node_preserving (f : NodeRuntimeState -> NodeRuntimeState) : Prop :=
  forall n, node_ok n -> node_ok (f n) /\ nr_node_id (f n) = nr_node_id n.

Lemma Forall_dset {V} (P : string * V -> Prop) (d : dict V) k v : Forall P d -> P (k, v) -> Forall P (dset d k v).
Proof.
  intros Hd Hv. induction Hd as [|[k' v'] d Hkv Hd IH]; simpl; [by repeat constructor|].
  case_decide; subst; by constructor.
Qed.

Lemma push_event_ok message : node_preserving (push_event message).
Proof.
  intros n [H1 H2 H3 H4]. split; [|done]. constructor; [done| |done|done]. simpl. rewrite length_drop, length_app. simpl. lia.
Qed.

Lemma lifecycle_node_ok status started finished :
  (forall s f, lifecycle_ok status (started s) (finished f)) -> node_preserving (node_lifecycle status started finished).
Proof. intros H n [H1 H2 H3 H4]. split; [|done]. constructor; [apply H|done..]. Qed.

Lemma with_invocations_ok f :
  (forall d, NoDup (dkeys d) -> Forall (fun '(_, i) => invocation_ok i) d ->
     NoDup (dkeys (f d)) /\ Forall (fun '(_, i) => invocation_ok i) (f d)) -> node_preserving (with_invocations f).
Proof. intros H n [H1 H2 H3 H4]. split; [|done]. destruct (H _ H3 H4). constructor; done. Qed.

Section Invariant.
Context {name run_id : string}.
#[local] Notation dashboard_ok := (dashboard_ok name run_id).

Lemma with_nodes_ok f s :
  dashboard_ok s ->
  (NoDup (dkeys (rd_nodes s)) -> NoDup (dkeys (f (rd_nodes s)))) ->
  Forall (fun '(id, n) => nr_node_id n = id /\ node_ok n) (f (rd_nodes s)) ->
  (forall id, id ∈ dkeys (rd_nodes s) -> id ∈ dkeys (f (rd_nodes s))) -> dashboard_ok (with_nodes f s).
Proof. intros [? ? ? H1 H2 H3 H4 H5] Hk Hf Hid. constructor; simpl; auto. Qed.

Lemma update_node_ok id f s : node_preserving f -> dashboard_ok s -> dashboard_ok (snd (update_node id f s)).
Proof.
  intros Hf Hok. unfold update_node. simpl. apply with_nodes_ok; [done| | |]; destruct (dget (rd_nodes s) id) as [n|] eqn:Hn.
  - apply NoDup_dkeys_dset.
  - done.
  - pose proof (dk_ids _ _ _ Hok) as Hall. apply Forall_dset; [done|]. apply dget_elem_of in Hn. rewrite Forall_forall in Hall.
    destruct (Hall _ Hn) as [Hid Hn']. destruct (Hf n Hn') as [H1 H2]. split; [by rewrite H2 | done].
  - apply (dk_ids _ _ _ Hok).
  - intros k Hk. apply elem_of_dkeys_dset. by right.
  - done.
Qed.

(** ** Steps keep it, also when they raise *)

Definition keeps_ok {A} (m : M RunDashboardState A) : Prop := forall s, dashboard_ok s -> dashboard_ok (snd (m s)).

Lemma dash_bind {A B} (m : M RunDashboardState A) (k : A -> M RunDashboardState B) :
  keeps_ok m -> (forall a, keeps_ok (k a)) -> keeps_ok (m ≫= k).
Proof.
  intros Hm Hk s Hok. unfold mbind, M_bind, bind. specialize (Hm s Hok). destruct (m s) as [[a|e|] s']; simpl in *; [by apply Hk | done | done].
Qed.

Lemma dash_ret {A} (a : A) : keeps_ok (ret a).
Proof. by intros s. Qed.
Lemma dash_raise {A} e : keeps_ok (raise e : M RunDashboardState A).
Proof. by intros s. Qed.
Lemma dash_read {A} (f : RunDashboardState -> A) : keeps_ok (read f).
Proof. by intros s. Qed.
Lemma dash_lift {A} (o : outcome A) : keeps_ok (lift o).
Proof. by intros s. Qed.
Lemma keeps_update id f : node_preserving f -> keeps_ok (update_node id f).
Proof. intros Hf s Hok. by apply update_node_ok. Qed.

#[local] Hint Resolve dash_ret dash_raise dash_read dash_lift push_event_ok : dashboard.

Lemma keeps_update_invocation id key f :
  (forall i, invocation_ok i -> invocation_ok (f i)) -> keeps_ok (update_invocation id key f).
Proof.
  intros Hf. apply keeps_update, with_invocations_ok. intros d Hd Hi. destruct (dget d key) as [i|] eqn:Hk; [|done].
  split; [by apply NoDup_dkeys_dset|]. apply Forall_dset; [done|]. apply Hf. apply dget_elem_of in Hk.
  rewrite Forall_forall in Hi. by apply (Hi (key, i)).
Qed.

Lemma keeps_require_node o : keeps_ok (require_node o).
Proof.
  unfold require_node. destruct o; [|auto with dashboard]. case_match; [auto with dashboard|].
  apply dash_bind; [auto with dashboard|]. intros nodes. case_match; auto with dashboard.
Qed.

Lemma keeps_require_invocation id c : keeps_ok (require_invocation id c).
Proof.
  unfold require_invocation. destruct (ec_task_id c) as [task|]; [|auto with dashboard]. case_match; [auto with dashboard|].
  destruct (ec_provider c) as [provider|]; [|auto with dashboard]. case_match; [auto with dashboard|].
  destruct (ec_role c) as [role|]; [|auto with dashboard]. apply dash_bind; [auto with dashboard|]. intros _.
  apply dash_bind; [|auto with dashboard]. apply keeps_update, with_invocations_ok. intros d Hd Hi. cbv zeta.
  split; [by apply NoDup_dkeys_dset|]. apply Forall_dset; [done|].
  assert (Hw : forall i, invocation_ok i -> invocation_ok (with_files c i)) by (intros i []; by split). apply Hw.
  destruct (dget d _) as [i|] eqn:Hk; simpl; [|by split]. apply dget_elem_of in Hk. rewrite Forall_forall in Hi. by apply (Hi _ Hk).
Qed.

(** The status of the run and one of its times change together. *)
Lemma run_changes status started finished s : dashboard_ok s -> run_ok status started finished ->
  dashboard_ok (mkDashboard (rd_workflow_name s) (rd_run_id s) (rd_node_order s) status started finished (rd_nodes s) (rd_topology_nodes s)).
Proof. intros [? ? ? H1 H2 H3 H4 H5] Hr. by constructor. Qed.

Lemma keeps_started at_ : keeps_ok (modify (with_workflow_status RUNNING);; modify (with_workflow_started at_)).
Proof. intros s Hok. apply (run_changes RUNNING (Some at_) (rd_workflow_finished_at s) s); [done | by eexists]. Qed.

Lemma keeps_finished status at_ : run_ok status None (Some at_) ->
  keeps_ok (modify (with_workflow_status status);; modify (with_workflow_finished at_)).
Proof.
  intros Hs s Hok. apply (run_changes status (rd_workflow_started_at s) (Some at_) s); [done|].
  destruct status; simpl in *; first [done | by destruct Hs | destruct Hs; congruence].
Qed.

Lemma keeps_node_error id prefix e : keeps_ok (node_error id prefix e).
Proof.
  unfold node_error. apply dash_bind; [auto with dashboard|]. intros [message|]; [|auto with dashboard].
  case_match; auto using keeps_update with dashboard.
Qed.

Lemma keeps_runtime_log id e : keeps_ok (apply_runtime_log_event id e).
Proof.
  unfold apply_runtime_log_event. case_match; auto with dashboard. case_match; [auto with dashboard|].
  apply keeps_update, push_event_ok.
Qed.

(** *** Cancellation *)

Lemma dkeys_map {V W} (f : V -> W) (d : dict V) : dkeys (map (fun '(k, v) => (k, f v)) d) = dkeys d.
Proof. unfold dkeys. rewrite map_map. apply map_ext. by intros []. Qed.

Lemma cancel_invocation_ok t i : invocation_ok i -> invocation_ok (cancel_invocation t i).
Proof. intros H. unfold cancel_invocation. case_match; [|done]. split; [done|]. simpl. by eexists. Qed.

Lemma cancel_node_ok t : node_preserving (cancel_node t).
Proof.
  intros n Hn. unfold cancel_node.
  assert (Hw : node_preserving (with_invocations (map (fun '(key, i) => (key, cancel_invocation t i))))).
  { apply with_invocations_ok. intros d Hd Hi. rewrite dkeys_map. split; [done|]. rewrite Forall_map.
    eapply Forall_impl; [exact Hi|]. intros [k i]. apply cancel_invocation_ok. }
  destruct (unfinished _); [|by apply Hw].
  destruct (lifecycle_node_ok CANCELLED (fun s => s) (fun _ => Some t)) with n as [H1 H2]; [intros; by eexists | done |].
  destruct (Hw _ H1) as [H3 H4]. by split.
Qed.

Lemma keeps_cancel t : keeps_ok (cancel_unfinished_children t).
Proof.
  intros s Hok. simpl. apply with_nodes_ok; [done|by rewrite dkeys_map| |by rewrite dkeys_map].
  rewrite Forall_map. eapply Forall_impl; [exact (dk_ids _ _ _ Hok)|]. intros [id n] [Hid Hn].
  destruct (cancel_node_ok t n Hn) as [H1 H2]. split; [by rewrite H2 | done].
Qed.

(** *** Expansion *)

Lemma dkeys_dict_update {V} (d e : dict V) k : k ∈ dkeys (dict_update d e) <-> k ∈ dkeys d \/ k ∈ dkeys e.
Proof.
  unfold dict_update. revert d. induction e as [|[k' v] e IH]; intros d; simpl.
  - split; [by left | intros [H|H]; [done | by apply not_elem_of_nil in H]].
  - rewrite IH, elem_of_dkeys_dset. unfold dkeys at 4. simpl. rewrite elem_of_cons. naive_solver.
Qed.

Lemma keys_place_additions group additions dependencies l ordered :
  let d := foldl (place_additions group additions dependencies) ordered l in
  (NoDup (dkeys ordered) -> NoDup (dkeys d)) /\
  forall k, k ∈ dkeys d -> k ∈ dkeys ordered \/ k ∈ dkeys l \/ k ∈ dkeys additions.
Proof.
  revert ordered. induction l as [|[id node] l IH]; intros ordered; simpl; [naive_solver|].
  set (step := if bool_decide (id = group) then _ else _).
  assert (Hs : (NoDup (dkeys ordered) -> NoDup (dkeys step)) /\
               forall k, k ∈ dkeys step -> k ∈ dkeys ordered \/ k = id \/ k ∈ dkeys additions).
  { unfold step. case_bool_decide; split.
    - intros H1. by apply NoDup_dkeys_dset, NoDup_dict_update.
    - intros k Hk. rewrite elem_of_dkeys_dset, dkeys_dict_update in Hk. naive_solver.
    - apply NoDup_dkeys_dset.
    - intros k Hk. rewrite elem_of_dkeys_dset in Hk. naive_solver. }
  destruct (IH step) as [H1 H2]. destruct Hs as [H3 H4]. split; [auto|]. intros k Hk. unfold dkeys at 3. simpl. rewrite elem_of_cons.
  apply H2 in Hk as [Hk|Hk]; [apply H4 in Hk|]; naive_solver.
Qed.

Definition add_node (node : TopologyNode) (nodes : dict NodeRuntimeState) : dict NodeRuntimeState :=
  if dmem nodes (tn_id node) then nodes else dset nodes (tn_id node) (new_node_state node).

Lemma add_nodes_run l s :
  for_all (fun node => modify (with_nodes (add_node node))) l s = (Ok tt, with_nodes (fun nodes => foldl (flip add_node) nodes l) s).
Proof.
  revert s. induction l as [|node l IH]; intros s; simpl; [by destruct s|]. unfold mbind, M_bind, bind. simpl. by rewrite IH.
Qed.

Lemma new_node_ok node : nr_node_id (new_node_state node) = tn_id node /\ node_ok (new_node_state node).
Proof. split; [done|]. constructor; simpl; [done|lia|constructor|constructor]. Qed.

Lemma add_nodes_keep l nodes :
  let nodes' := foldl (flip add_node) nodes l in
  (NoDup (dkeys nodes) -> NoDup (dkeys nodes')) /\
  (Forall (fun '(id, n) => nr_node_id n = id /\ node_ok n) nodes -> Forall (fun '(id, n) => nr_node_id n = id /\ node_ok n) nodes') /\
  (forall k, k ∈ dkeys nodes' <-> k ∈ dkeys nodes \/ k ∈ map tn_id l).
Proof.
  revert nodes. induction l as [|node l IH]; intros nodes; simpl.
  { repeat split; auto. intros [H|H]; [done|by apply not_elem_of_nil in H]. }
  destruct (IH (add_node node nodes)) as (H1 & H2 & H3). change (flip add_node nodes node) with (add_node node nodes).
  assert (Ha : forall k, k ∈ dkeys (add_node node nodes) <-> k ∈ dkeys nodes \/ k = tn_id node).
  { intros k. unfold add_node. destruct (dmem nodes (tn_id node)) eqn:Hm; [apply dmem_true in Hm; naive_solver|].
    rewrite elem_of_dkeys_dset. naive_solver. }
  unfold add_node in *. repeat split.
  - intros Hd. apply H1. case_match; [done|]. by apply NoDup_dkeys_dset.
  - intros Hd. apply H2. case_match; [done|]. apply Forall_dset; [done|]. apply new_node_ok.
  - rewrite H3, Ha, elem_of_cons. naive_solver.
  - rewrite H3, Ha, elem_of_cons. naive_solver.
Qed.

Lemma keeps_expansion p : keeps_ok (apply_topology_expansion p).
Proof.
  intros s Hok. unfold apply_topology_expansion, mbind, M_bind, bind, read. simpl. case_match; [done|]. simpl.
  change (fun node : TopologyNode => modify _) with (fun node => modify (with_nodes (add_node node))). rewrite add_nodes_run. simpl.
  set (additions := dict_of _). destruct (keys_place_additions (te_group_id p) additions (te_group_dependencies p) (rd_topology_nodes s) [])
    as [Hk1 Hk2].
  destruct (add_nodes_keep (te_additions p) (rd_nodes s)) as (H1 & H2 & H3). destruct Hok as [Kw Kr Ks K1 K2 K3 K4 K5]. constructor; simpl; [done|done|done|..].
  - by apply H1.
  - by apply H2.
  - apply Hk1. constructor.
  - intros id. apply elem_of_dkeys_enumerate.
  - intros id Hid. rewrite H3. apply Hk2 in Hid as [Hid|[Hid|Hid]].
    + by apply not_elem_of_nil in Hid.
    + left. by apply K5.
    + right. unfold additions in Hid. rewrite elem_of_dkeys_dict_of, map_map in Hid. exact Hid.
Qed.

(** *** Every event *)

Context {format : FloatFormat}.

Lemma invocation_step_ok status started finished duration error :
  status <> BLOCKED -> (forall s f, lifecycle_ok status (started s) (finished f)) ->
  forall i, invocation_ok i -> invocation_ok (invocation_lifecycle status started finished duration error i).
Proof. intros Hs H i _. split; [done|]. apply H. Qed.

Ltac keeps :=
  repeat first
    [ apply keeps_require_node | apply keeps_require_invocation | apply keeps_node_error | apply keeps_runtime_log
    | apply keeps_cancel | apply dash_ret | apply dash_raise | apply dash_read | apply dash_lift
    | apply keeps_started | apply keeps_finished; by eexists
    | apply keeps_update_invocation, invocation_step_ok; [done|]
    | apply keeps_update, push_event_ok
    | apply keeps_update, lifecycle_node_ok
    | apply dash_bind; [|intros ?] ].

Lemma keeps_by_type e : keeps_ok (apply_by_type e).
Proof.
  assert (forall t, keeps_ok (modify (with_workflow_status CANCELLED);; modify (with_workflow_finished t);; cancel_unfinished_children t)) as Hc.
  { intros t s Hok. apply (keeps_cancel t). apply (keeps_finished CANCELLED t); [by eexists | done]. }
  unfold apply_by_type. destruct (ev_event_type e); try apply Hc; try (destruct (ec_node_id (ev_context e))); keeps; intros ? ?; simpl;
    first [exact I | by eexists | split; [by eexists | done]].
Qed.

Lemma keeps_apply_event e : keeps_ok (apply_event e).
Proof.
  unfold apply_event. keeps. case_match; [keeps|]. case_match; [keeps|].
  destruct (ev_payload e); try apply keeps_by_type. apply keeps_expansion.
Qed.

Lemma replay_ok events s : dashboard_ok s -> dashboard_ok (replay events s).
Proof. revert s. induction events as [|e events IH]; intros s H; simpl; [done|]. by apply IH, keeps_apply_event. Qed.

End Invariant.

Lemma initial_ok topology run_id : dashboard_ok (wt_workflow_name topology) run_id (build_initial_state topology run_id).
Proof.
  constructor; simpl; [done|done|done|..].
  - apply NoDup_dict_of.
  - rewrite Forall_forall. intros [id n] H. pose proof (elem_of_dget _ _ _ (NoDup_dict_of _) H) as Hg.
    clear H. revert id n Hg. induction (wt_nodes topology) as [|node l IH] using rev_ind; [done|]. intros id n.
    rewrite map_app. simpl. rewrite dict_of_snoc, dget_dset. case_decide as Hid; [|apply IH]. intros [= <-]. subst. apply new_node_ok.
  - apply NoDup_dict_of.
  - intros id. unfold build_initial_state. rewrite elem_of_dkeys_enumerate, elem_of_dkeys_dict_of, map_map. done.
  - intros id. rewrite !elem_of_dkeys_dict_of, !map_map. done.
Qed.

(** ** After a cancellation *)

Lemma count_status_zero status l : Forall (fun s => s <> status) l -> count_status status l = 0.
Proof.
  unfold count_status. induction 1 as [|s l Hs _ IH]; simpl; [done|]. by rewrite bool_decide_false.
Qed.

Lemma cancel_invocation_ended t i : unfinished (is_status (cancel_invocation t i)) = false.
Proof. unfold cancel_invocation. destruct (unfinished (is_status i)) eqn:H; [done | exact H]. Qed.

Lemma cancel_node_ended t n : unfinished (nr_status (cancel_node t n)) = false.
Proof. unfold cancel_node. simpl. destruct (unfinished (nr_status n)) eqn:H; [done | exact H]. Qed.

Lemma unfinished_false status : unfinished status = false -> status <> PENDING /\ status <> RUNNING.
Proof. by destruct status. Qed.

(** No node and no invocation is pending or running. *)
Definition nothing_unfinished (s : RunDashboardState) : Prop :=
  (nodes_with_status PENDING s = 0 /\ nodes_with_status RUNNING s = 0) /\
  Forall (fun '(_, n) => invocations_with_status PENDING n = 0 /\ invocations_with_status RUNNING n = 0) (rd_nodes s).

Lemma cancel_ends t s : nothing_unfinished (with_nodes (map (fun '(id, n) => (id, cancel_node t n))) s).
Proof.
  unfold nothing_unfinished, nodes_with_status, invocations_with_status. simpl. rewrite map_map. split.
  - split; apply count_status_zero; rewrite Forall_map; apply Forall_true; intros [id n]; apply (unfinished_false _ (cancel_node_ended t n)).
  - rewrite Forall_map. apply Forall_true. intros [id n]. unfold compose. simpl.
    split; apply count_status_zero; rewrite Forall_map;
      replace (nr_invocations _) with (nr_invocations n) by (by case_match); rewrite Forall_map; apply Forall_true; intros [k i];
      apply (unfinished_false _ (cancel_invocation_ended t i)).
Qed.

Lemma cancel_event_applies {format : FloatFormat} name run_id error t utc e s :
  dashboard_ok name run_id s -> workflow_event WORKFLOW_CANCELLED name run_id error t utc = Ok e ->
  apply_event e s =
  (Ok tt, with_nodes (map (fun '(id, n) => (id, cancel_node t n))) (with_workflow_finished t (with_workflow_status CANCELLED s))).
Proof.
  intros Hok He. unfold workflow_event, build_event in He. apply bind_Ok in He as (? & _ & He). injection He as <-.
  unfold apply_event, mbind, M_bind, bind, read. simpl. rewrite (dk_name _ _ _ Hok), (dk_run _ _ _ Hok), !bool_decide_true by done.
  reflexivity.
Qed.


(** A run that is started again keeps the time of its earlier end. *)
Example restarted_run_keeps_end {format : FloatFormat} :
  let event type t := mkEvent type "ship" "run-1" (bare_context "ship" "run-1" None) (WorkflowEventPayload None) t "" in
  let s := replay [event WORKFLOW_FINISHED 5; event WORKFLOW_STARTED 7] (build_initial_state (mkTopology "ship" []) "run-1") in
  rd_workflow_status s = RUNNING /\ rd_workflow_finished_at s = Some 5.
Proof. split; reflexivity. Qed.

Section DashboardWitness.

Definition example_format : FloatFormat := {| format_tenths := fun ms => str_int (ms / 1000) +:+ "." +:+ str_int (ms / 100 mod 10) |}.
Definition example_topology : WorkflowTopology :=
  mkTopology "ship" [mkTopologyNode "write" "sequential" [] []; mkTopologyNode "check" "parallel" ["write"] []].
Definition example_events : list ExecutionEvent :=
  flat_map (fun o => match o with Ok e => [e] | _ => [] end)
    [workflow_event WORKFLOW_STARTED "ship" "run-1" None 0 ""; node_event NODE_STARTED "ship" "run-1" "write" None 1 "";
     node_event NODE_STARTED "ship" "run-1" "absent" None 1 ""; node_event NODE_FINISHED "ship" "run-1" "write" None 5 "";
     node_event NODE_STARTED "ship" "run-1" "check" None 6 ""].


End DashboardWitness.
