(* ===== verification/PreflightState.v ===== *)
(** The state of the preflight compiler: core/preflight/{diagnostics,
    compile_state,references,token_catalog,dependency_edges,secrets,
    value_fingerprints}.py and core/{sensitive_names,file_text,state_paths}.py.

    Compilation mutates one [CompileState]; the operations on it are
    computations of the monad [M CompileState], which keeps what was recorded
    before an exception.  A path is its POSIX text; [PreflightFiles] stands for
    the file system, the history of earlier runs, git and the key file.  Bytes
    are text whose UTF-8 validity is checked where the code decodes them. *)

From Stdlib Require Import ZArith Lia Ascii String.
From stdpp Require Import base gmap sets list strings.
From S2P Require Import Prelude PyStr StateExn Models Artifacts Composition PlanRecords PlanContract.

Open Scope string_scope.
Open Scope list_scope.
Open Scope Z_scope.

(** ** Diagnostics (core/preflight/diagnostics.py) *)

(** Code: core/preflight/diagnostics.py, PreflightDiagnosticCode. *)
Inductive PreflightDiagnosticCode :=
| DAG | FILE_ENCODING | FILE_POLICY | FINGERPRINT_KEY | INPUT_SOURCE | NODE_REFERENCE | PARAM_TOKEN | PREFLIGHT_SETUP
| PREFLIGHT_VALIDATION | PROVIDER_CLI | PROVIDER_CONFIG | RUNTIME_CONFIG | TEMPLATE_PLAN | TEMPLATE_TOKEN | TEMPLATE_VALUE
| WORKSPACE_FILE_LOCATOR | WORKSPACE_GIT_CONTRACT | WORKSPACE_INVOKER | WORKSPACE_RUNTIME | WORKSPACE_SOURCE.

(** Code: core/preflight/diagnostics.py, PreflightDiagnosticPhase. *)
Inductive PreflightDiagnosticPhase :=
| PhaseEnvPolicy | PhaseFilePolicy | PhaseInvokerWorkspace | PhaseNodePolicy | PhaseParse | PhaseProvider | PhaseReference
| PhaseSourcePolicy | PhaseTemplatePlan | PhaseValidation | PhaseVarPolicy | PhaseWorkspaceFileLocator
| PhaseWorkspacePolicy | PhaseWorktreeContract.

(** Code: core/preflight/diagnostics.py, PreflightDiagnosticSeverity. *)
Inductive PreflightDiagnosticSeverity := SeverityError | SeverityWarning.

#[global] Instance PreflightDiagnosticCode_eq_dec : EqDecision PreflightDiagnosticCode.
Proof. solve_decision. Defined.
#[global] Instance PreflightDiagnosticPhase_eq_dec : EqDecision PreflightDiagnosticPhase.
Proof. solve_decision. Defined.
#[global] Instance PreflightDiagnosticSeverity_eq_dec : EqDecision PreflightDiagnosticSeverity.
Proof. solve_decision. Defined.

(** Code: core/preflight/diagnostics.py, PreflightDiagnostic. *)
Record PreflightDiagnostic := mkDiagnostic {
  dg_code : PreflightDiagnosticCode;
  dg_message : string;
  dg_severity : PreflightDiagnosticSeverity;
  dg_phase : PreflightDiagnosticPhase;
  dg_node_id : option string;
  dg_path : option string;
  dg_metadata : dict json
}.

#[global] Instance PreflightDiagnostic_eq_dec : EqDecision PreflightDiagnostic.
Proof. solve_decision. Defined.

Definition DiagnosticKey : Type :=
  PreflightDiagnosticCode * PreflightDiagnosticPhase * option string * option string * string.

(** Code: core/preflight/compile_state.py, diagnostic_key. *)
Definition diagnostic_key (d : PreflightDiagnostic) : DiagnosticKey :=
  (dg_code d, dg_phase d, dg_node_id d, dg_path d, dg_message d).

(** ** Template references (core/preflight/references.py) *)

(** Code: core/preflight/references.py, TemplateReferenceKind. *)
Inductive TemplateReferenceKind := RefNode | RefFile | RefEnv | RefVar | RefParam | RefUnknown.
#[global] Instance TemplateReferenceKind_eq_dec : EqDecision TemplateReferenceKind.
Proof. solve_decision. Defined.

(** Code: core/preflight/references.py, TemplateReference. *)
Record TemplateReference := mkReference {
  ref_raw_token : string;
  ref_start : nat;
  ref_end : nat;
  ref_kind : TemplateReferenceKind;
  ref_key : option string;
  ref_node_id : option string;
  ref_artifact_name : option string
}.

#[global] Instance TemplateReference_eq_dec : EqDecision TemplateReference.
Proof. solve_decision. Defined.

(** [pattern.finditer(s)] with the offset of every match. *)
Fixpoint find_spans {A} (try : text -> option (A * nat)) (pos skip : nat) (l : text) : list (A * nat * nat) :=
  match l with
  | [] => []
  | _ :: t =>
      match skip with
      | S k => find_spans try (S pos) k t
      | O => match try l with
             | Some (a, S n) => (a, pos, (pos + S n)%nat) :: find_spans try (S pos) n t
             | _ => find_spans try (S pos) O t
             end
      end
  end.

(** Code: core/preflight/references.py, _is_key_value_reference_kind. *)
Definition key_value_reference_kind (value : string) : option TemplateReferenceKind :=
  if bool_decide (value = "file") then Some RefFile
  else if bool_decide (value = "env") then Some RefEnv
  else if bool_decide (value = "var") then Some RefVar
  else if bool_decide (value = "param") then Some RefParam
  else None.

(** The reference a matched token denotes, at its offsets. *)
Definition reference_at (raw_token : string) (first last : nat) : TemplateReference :=
  match match_template_token raw_token with
  | Some (NodeArtifactToken node artifact) => mkReference raw_token first last RefNode None (Some node) (Some artifact)
  | None => mkReference raw_token first last RefUnknown None None None
  | Some (KeyValueToken template_type value) =>
      let key := str_strip value in
      match key_value_reference_kind (str_strip template_type) with
      | Some kind => mkReference raw_token first last kind (Some key) None None
      | None => mkReference raw_token first last RefUnknown (Some key) None None
      end
  end.

(** Code: core/preflight/references.py, iter_template_references. *)
Definition iter_template_references (s : string) : list TemplateReference :=
  map (fun '(raw, first, last) => reference_at (of_chars raw) first last) (find_spans match_template 0 0 (chars s)).

(** ** Names and bytes *)

(** Code: core/sensitive_names.py, is_sensitive_name. *)
Definition is_sensitive_name (name : string) : bool :=
  existsb (fun word => str_contains word (str_lower name))
    ["secret"; "token"; "password"; "passwd"; "apikey"; "api_key"; "api-key"; "credential"; "private"].

Definition utf8_continuation (c : ascii) : bool := in_range 128 191 c.

(** The byte sequences of strict UTF-8: no overlong form, no surrogate. *)
Fixpoint utf8_valid (l : text) : bool :=
  match l with
  | [] => true
  | a :: t =>
      if in_range 0 127 a then utf8_valid t
      else if in_range 194 223 a then
        match t with b :: t => utf8_continuation b && utf8_valid t | [] => false end
      else if in_range 224 239 a then
        match t with
        | b :: c :: t =>
            (if (code a =? 224)%N then in_range 160 191 b else if (code a =? 237)%N then in_range 128 159 b
             else utf8_continuation b) && utf8_continuation c && utf8_valid t
        | _ => false
        end
      else if in_range 240 244 a then
        match t with
        | b :: c :: d :: t =>
            (if (code a =? 240)%N then in_range 144 191 b else if (code a =? 244)%N then in_range 128 143 b
             else utf8_continuation b) && utf8_continuation c && utf8_continuation d && utf8_valid t
        | _ => false
        end
      else false
  end.

(** [payload.decode("utf-8")]; text is kept as its encoding. *)
Definition decode_utf8 (payload : string) : option string := if utf8_valid (chars payload) then Some payload else None.

Definition has_nul (s : string) : bool := existsb (fun c => (code c =? 0)%N) (chars s).

(** Whether the bytes are no UTF-8, hold NUL, or are a text. *)
Inductive DecodedText := NotUtf8 | NulText | Decoded (s : string).

(** Code: core/file_text.py, decode_utf8_without_nul. *)
Definition decode_utf8_without_nul (payload : string) : DecodedText :=
  match decode_utf8 payload with
  | None => NotUtf8
  | Some s => if has_nul s then NulText else Decoded s
  end.

(** Code: core/file_text.py, valid_utf8_without_nul. *)
Definition valid_utf8_without_nul (payload : string) : bool :=
  match decode_utf8_without_nul payload with Decoded _ => true | _ => false end.

(** Code: core/state_paths.py, FILE_TOKEN_EXCLUDED_ROOTS. *)
Definition FILE_TOKEN_EXCLUDED_ROOTS : list string :=
  [".crewplane/execution-stages"; ".crewplane/execution-results"; ".crewplane/locks"; ".crewplane/preflight"].

(** Code: core/state_paths.py, is_reserved_state_path. *)
Definition is_reserved_state_path (path : string) (reserved_roots : list string) : bool :=
  existsb (fun root => bool_decide (path = root) || str_startswith (root +:+ "/") path) reserved_roots.

(** [path.relative_to(root).as_posix()] on absolute paths. *)
Definition relative_to (path root : string) : option string :=
  if bool_decide (path = root) then Some "."
  else
    let prefix := if str_endswith "/" root then root else root +:+ "/" in
    if str_startswith prefix path then Some (of_chars (drop (String.length prefix) (chars path))) else None.

(** [root / path]. *)
Definition path_join (root path : string) : string :=
  if str_startswith "/" path then path else root +:+ "/" +:+ path.

(** ** Options and resolved references (core/preflight/compile_state.py) *)

(** Code: core/preflight/compiled_records.py, StaticResource. *)
Record StaticResource := mkResource {
  sr_resource_id : string;
  sr_raw_path : string;
  sr_source_root : string;
  sr_resolved_path : string;
  sr_content_ref : string;
  sr_encoding : string;
  sr_size_bytes : Z;
  sr_sha256 : string;
  sr_token_signatures : list string
}.

#[global] Instance StaticResource_eq_dec : EqDecision StaticResource.
Proof. solve_decision. Defined.

(** Code: core/preflight/compile_state.py, ResolvedStaticFileReference. *)
Record ResolvedStaticFileReference := mkResolvedFile { rf_resource : StaticResource; rf_token_signature : string }.

(** Code: core/preflight/compile_state.py, ResolvedStaticValueReference. *)
Record ResolvedStaticValueReference := mkResolvedValue {
  rv_kind : TokenKind;
  rv_key : string;
  rv_sensitive : bool;
  rv_value_handle : option string;
  rv_value_stored : option string;
  rv_fingerprint : option string;
  rv_token_signature : string
}.

(** Code: core/preflight/compile_state.py, ValueFingerprintRecord. *)
Record ValueFingerprintRecord := mkValueRecord {
  vf_kind : TokenKind;
  vf_key : string;
  vf_sensitive : string;
  vf_value : option string;
  vf_payload_version : option string;
  vf_fingerprint : option string
}.

(** The part of a source snapshot that the compiler reads.
    Code: core/preflight/workspace/models.py, WorkspaceSourceSnapshot. *)
Record WorkspaceSourceSnapshot := mkSourceSnapshot {
  ss_git_top_level : string;
  ss_run_base_commit : string;
  ss_project_root_relative_path : string;
  ss_worktree_contract : json
}.

(** Code: core/preflight/secrets.py, FingerprintKeyPolicy. *)
Inductive FingerprintKeyPolicy := persist_if_needed | read_only | ephemeral.

(** Code: architecture/ports/artifacts.py, TerminalHistoryRead. *)
Record TerminalHistoryRead := mkHistoryRead {
  hr_matched : bool;
  hr_path : option string;
  hr_payload : option string;
  hr_error : option string
}.

(** [po_environment] is [None] when the environment of the process is used.
    Code: core/preflight/compile_state.py:53-75. *)
Record PreflightCompileOptions := mkOptions {
  po_project_root : string;
  po_state_dir : string;
  po_node_source_roots : dict string;
  po_node_source_files : dict string;
  po_node_source_spans : dict SourceSpan;
  po_prompt_segment_spans : dict (list SourceSpan);
  po_item_input_ids : list string;
  po_allowed_template_paths : list string;
  po_terminal_history_reader : option (string -> string -> TerminalHistoryRead);
  po_runtime_variables : dict string;
  po_environment : option (dict string);
  po_fingerprint_key_policy : FingerprintKeyPolicy;
  po_additional_validation_errors : list string;
  po_additional_validation_warnings : list string;
  po_additional_diagnostics : list PreflightDiagnostic;
  po_workspace_source_snapshot : option WorkspaceSourceSnapshot
}.

(** What git says about a path of a commit.
    Code: core/workspace/git_reads.py, ProjectBlobRecord. *)
Record ProjectBlobRecord := mkBlob {
  pb_mode : string;
  pb_object_type : string;
  pb_object_id : string;
  pb_path : string;
  pb_payload : string
}.

(** Code: core/preflight/secrets.py, FingerprintKeyResult. *)
Record FingerprintKeyResult := mkKeyResult {
  kr_key : string;
  kr_persisted : bool;
  kr_diagnostics : list PreflightDiagnostic
}.

(** The file system ([resolve] is [Path.resolve(strict=False)]), the process
    environment, git and the key file.  [git_ls_tree] and [git_cat_blob] answer
    [inl message] when git fails. *)
Class PreflightFiles := {
  resolve : string -> string;
  resolve_strict : string -> answer string;
  expand_user : string -> answer string;
  file_exists : string -> bool;
  is_regular_file : string -> bool;
  read_bytes : string -> answer string;
  current_directory : string;
  process_environment : dict string;
  git_ls_tree : string -> string -> string -> string + option ProjectBlobRecord;
  git_cat_blob : string -> string -> string + string;
  load_key : string -> FingerprintKeyPolicy -> answer FingerprintKeyResult
}.

(** HMAC with SHA-256, in hexadecimal. *)
Class HmacLibrary := { hmac_sha256 : string -> string -> string }.

(** The edges of the dict [dependency_edges] in insertion order; the key of an
    edge is its [edge_key].
    Code: core/preflight/compile_state.py, CompileState. *)
Record CompileState := mkCompileState {
  cs_diagnostics : list PreflightDiagnostic;
  cs_diagnostic_keys : list DiagnosticKey;
  cs_token_catalog : list TokenCatalogEntry;
  cs_static_resources : list StaticResource;
  cs_static_payloads : dict string;
  cs_workspace_file_payloads : dict string;
  cs_static_file_references : dict ResolvedStaticFileReference;
  cs_static_value_references : dict ResolvedStaticValueReference;
  cs_dependency_edges : list CompiledEdge;
  cs_secret_context : dict json;
  cs_sensitive_values_required : bool;
  cs_fingerprint_key : option string;
  cs_fingerprint_key_persisted : bool;
  cs_value_fingerprints : list ValueFingerprintRecord;
  cs_input_content_refs : dict string;
  cs_input_workspace_file_locator_ids : dict string;
  cs_input_source_tokens : dict TemplateReference;
  cs_workspace_file_references : dict WorkspaceFileLocator;
  cs_workspace_file_locators : list WorkspaceFileLocator
}.

Definition empty_state : CompileState :=
  mkCompileState [] [] [] [] [] [] [] [] [] [] false None false [] [] [] [] [] [].

Definition on_diagnostics (f : list PreflightDiagnostic -> list PreflightDiagnostic) (s : CompileState) : CompileState :=
  mkCompileState
    (f (cs_diagnostics s)) (cs_diagnostic_keys s) (cs_token_catalog s) (cs_static_resources s)
    (cs_static_payloads s) (cs_workspace_file_payloads s) (cs_static_file_references s)
    (cs_static_value_references s) (cs_dependency_edges s) (cs_secret_context s) (cs_sensitive_values_required
    s) (cs_fingerprint_key s) (cs_fingerprint_key_persisted s) (cs_value_fingerprints s)
    (cs_input_content_refs s) (cs_input_workspace_file_locator_ids s) (cs_input_source_tokens s)
    (cs_workspace_file_references s) (cs_workspace_file_locators s).
Definition on_diagnostic_keys (f : list DiagnosticKey -> list DiagnosticKey) (s : CompileState) : CompileState :=
  mkCompileState
    (cs_diagnostics s) (f (cs_diagnostic_keys s)) (cs_token_catalog s) (cs_static_resources s)
    (cs_static_payloads s) (cs_workspace_file_payloads s) (cs_static_file_references s)
    (cs_static_value_references s) (cs_dependency_edges s) (cs_secret_context s) (cs_sensitive_values_required
    s) (cs_fingerprint_key s) (cs_fingerprint_key_persisted s) (cs_value_fingerprints s)
    (cs_input_content_refs s) (cs_input_workspace_file_locator_ids s) (cs_input_source_tokens s)
    (cs_workspace_file_references s) (cs_workspace_file_locators s).
Definition on_token_catalog (f : list TokenCatalogEntry -> list TokenCatalogEntry) (s : CompileState) : CompileState :=
  mkCompileState
    (cs_diagnostics s) (cs_diagnostic_keys s) (f (cs_token_catalog s)) (cs_static_resources s)
    (cs_static_payloads s) (cs_workspace_file_payloads s) (cs_static_file_references s)
    (cs_static_value_references s) (cs_dependency_edges s) (cs_secret_context s) (cs_sensitive_values_required
    s) (cs_fingerprint_key s) (cs_fingerprint_key_persisted s) (cs_value_fingerprints s)
    (cs_input_content_refs s) (cs_input_workspace_file_locator_ids s) (cs_input_source_tokens s)
    (cs_workspace_file_references s) (cs_workspace_file_locators s).
Definition on_static_resources (f : list StaticResource -> list StaticResource) (s : CompileState) : CompileState :=
  mkCompileState
    (cs_diagnostics s) (cs_diagnostic_keys s) (cs_token_catalog s) (f (cs_static_resources s))
    (cs_static_payloads s) (cs_workspace_file_payloads s) (cs_static_file_references s)
    (cs_static_value_references s) (cs_dependency_edges s) (cs_secret_context s) (cs_sensitive_values_required
    s) (cs_fingerprint_key s) (cs_fingerprint_key_persisted s) (cs_value_fingerprints s)
    (cs_input_content_refs s) (cs_input_workspace_file_locator_ids s) (cs_input_source_tokens s)
    (cs_workspace_file_references s) (cs_workspace_file_locators s).
Definition on_static_payloads (f : dict string -> dict string) (s : CompileState) : CompileState :=
  mkCompileState
    (cs_diagnostics s) (cs_diagnostic_keys s) (cs_token_catalog s) (cs_static_resources s) (f
    (cs_static_payloads s)) (cs_workspace_file_payloads s) (cs_static_file_references s)
    (cs_static_value_references s) (cs_dependency_edges s) (cs_secret_context s) (cs_sensitive_values_required
    s) (cs_fingerprint_key s) (cs_fingerprint_key_persisted s) (cs_value_fingerprints s)
    (cs_input_content_refs s) (cs_input_workspace_file_locator_ids s) (cs_input_source_tokens s)
    (cs_workspace_file_references s) (cs_workspace_file_locators s).
Definition on_workspace_file_payloads (f : dict string -> dict string) (s : CompileState) : CompileState :=
  mkCompileState
    (cs_diagnostics s) (cs_diagnostic_keys s) (cs_token_catalog s) (cs_static_resources s) (cs_static_payloads
    s) (f (cs_workspace_file_payloads s)) (cs_static_file_references s) (cs_static_value_references s)
    (cs_dependency_edges s) (cs_secret_context s) (cs_sensitive_values_required s) (cs_fingerprint_key s)
    (cs_fingerprint_key_persisted s) (cs_value_fingerprints s) (cs_input_content_refs s)
    (cs_input_workspace_file_locator_ids s) (cs_input_source_tokens s) (cs_workspace_file_references s)
    (cs_workspace_file_locators s).
Definition on_static_file_references (f : dict ResolvedStaticFileReference -> dict ResolvedStaticFileReference) (s : CompileState) : CompileState :=
  mkCompileState
    (cs_diagnostics s) (cs_diagnostic_keys s) (cs_token_catalog s) (cs_static_resources s) (cs_static_payloads
    s) (cs_workspace_file_payloads s) (f (cs_static_file_references s)) (cs_static_value_references s)
    (cs_dependency_edges s) (cs_secret_context s) (cs_sensitive_values_required s) (cs_fingerprint_key s)
    (cs_fingerprint_key_persisted s) (cs_value_fingerprints s) (cs_input_content_refs s)
    (cs_input_workspace_file_locator_ids s) (cs_input_source_tokens s) (cs_workspace_file_references s)
    (cs_workspace_file_locators s).
Definition on_static_value_references (f : dict ResolvedStaticValueReference -> dict ResolvedStaticValueReference) (s : CompileState) : CompileState :=
  mkCompileState
    (cs_diagnostics s) (cs_diagnostic_keys s) (cs_token_catalog s) (cs_static_resources s) (cs_static_payloads
    s) (cs_workspace_file_payloads s) (cs_static_file_references s) (f (cs_static_value_references s))
    (cs_dependency_edges s) (cs_secret_context s) (cs_sensitive_values_required s) (cs_fingerprint_key s)
    (cs_fingerprint_key_persisted s) (cs_value_fingerprints s) (cs_input_content_refs s)
    (cs_input_workspace_file_locator_ids s) (cs_input_source_tokens s) (cs_workspace_file_references s)
    (cs_workspace_file_locators s).
Definition on_dependency_edges (f : list CompiledEdge -> list CompiledEdge) (s : CompileState) : CompileState :=
  mkCompileState
    (cs_diagnostics s) (cs_diagnostic_keys s) (cs_token_catalog s) (cs_static_resources s) (cs_static_payloads
    s) (cs_workspace_file_payloads s) (cs_static_file_references s) (cs_static_value_references s) (f
    (cs_dependency_edges s)) (cs_secret_context s) (cs_sensitive_values_required s) (cs_fingerprint_key s)
    (cs_fingerprint_key_persisted s) (cs_value_fingerprints s) (cs_input_content_refs s)
    (cs_input_workspace_file_locator_ids s) (cs_input_source_tokens s) (cs_workspace_file_references s)
    (cs_workspace_file_locators s).
Definition on_secret_context (f : dict json -> dict json) (s : CompileState) : CompileState :=
  mkCompileState
    (cs_diagnostics s) (cs_diagnostic_keys s) (cs_token_catalog s) (cs_static_resources s) (cs_static_payloads
    s) (cs_workspace_file_payloads s) (cs_static_file_references s) (cs_static_value_references s)
    (cs_dependency_edges s) (f (cs_secret_context s)) (cs_sensitive_values_required s) (cs_fingerprint_key s)
    (cs_fingerprint_key_persisted s) (cs_value_fingerprints s) (cs_input_content_refs s)
    (cs_input_workspace_file_locator_ids s) (cs_input_source_tokens s) (cs_workspace_file_references s)
    (cs_workspace_file_locators s).
Definition on_sensitive_values_required (f : bool -> bool) (s : CompileState) : CompileState :=
  mkCompileState
    (cs_diagnostics s) (cs_diagnostic_keys s) (cs_token_catalog s) (cs_static_resources s) (cs_static_payloads
    s) (cs_workspace_file_payloads s) (cs_static_file_references s) (cs_static_value_references s)
    (cs_dependency_edges s) (cs_secret_context s) (f (cs_sensitive_values_required s)) (cs_fingerprint_key s)
    (cs_fingerprint_key_persisted s) (cs_value_fingerprints s) (cs_input_content_refs s)
    (cs_input_workspace_file_locator_ids s) (cs_input_source_tokens s) (cs_workspace_file_references s)
    (cs_workspace_file_locators s).
Definition on_fingerprint_key (f : option string -> option string) (s : CompileState) : CompileState :=
  mkCompileState
    (cs_diagnostics s) (cs_diagnostic_keys s) (cs_token_catalog s) (cs_static_resources s) (cs_static_payloads
    s) (cs_workspace_file_payloads s) (cs_static_file_references s) (cs_static_value_references s)
    (cs_dependency_edges s) (cs_secret_context s) (cs_sensitive_values_required s) (f (cs_fingerprint_key s))
    (cs_fingerprint_key_persisted s) (cs_value_fingerprints s) (cs_input_content_refs s)
    (cs_input_workspace_file_locator_ids s) (cs_input_source_tokens s) (cs_workspace_file_references s)
    (cs_workspace_file_locators s).
Definition on_fingerprint_key_persisted (f : bool -> bool) (s : CompileState) : CompileState :=
  mkCompileState
    (cs_diagnostics s) (cs_diagnostic_keys s) (cs_token_catalog s) (cs_static_resources s) (cs_static_payloads
    s) (cs_workspace_file_payloads s) (cs_static_file_references s) (cs_static_value_references s)
    (cs_dependency_edges s) (cs_secret_context s) (cs_sensitive_values_required s) (cs_fingerprint_key s) (f
    (cs_fingerprint_key_persisted s)) (cs_value_fingerprints s) (cs_input_content_refs s)
    (cs_input_workspace_file_locator_ids s) (cs_input_source_tokens s) (cs_workspace_file_references s)
    (cs_workspace_file_locators s).
Definition on_value_fingerprints (f : list ValueFingerprintRecord -> list ValueFingerprintRecord) (s : CompileState) : CompileState :=
  mkCompileState
    (cs_diagnostics s) (cs_diagnostic_keys s) (cs_token_catalog s) (cs_static_resources s) (cs_static_payloads
    s) (cs_workspace_file_payloads s) (cs_static_file_references s) (cs_static_value_references s)
    (cs_dependency_edges s) (cs_secret_context s) (cs_sensitive_values_required s) (cs_fingerprint_key s)
    (cs_fingerprint_key_persisted s) (f (cs_value_fingerprints s)) (cs_input_content_refs s)
    (cs_input_workspace_file_locator_ids s) (cs_input_source_tokens s) (cs_workspace_file_references s)
    (cs_workspace_file_locators s).
Definition on_input_content_refs (f : dict string -> dict string) (s : CompileState) : CompileState :=
  mkCompileState
    (cs_diagnostics s) (cs_diagnostic_keys s) (cs_token_catalog s) (cs_static_resources s) (cs_static_payloads
    s) (cs_workspace_file_payloads s) (cs_static_file_references s) (cs_static_value_references s)
    (cs_dependency_edges s) (cs_secret_context s) (cs_sensitive_values_required s) (cs_fingerprint_key s)
    (cs_fingerprint_key_persisted s) (cs_value_fingerprints s) (f (cs_input_content_refs s))
    (cs_input_workspace_file_locator_ids s) (cs_input_source_tokens s) (cs_workspace_file_references s)
    (cs_workspace_file_locators s).
Definition on_input_workspace_file_locator_ids (f : dict string -> dict string) (s : CompileState) : CompileState :=
  mkCompileState
    (cs_diagnostics s) (cs_diagnostic_keys s) (cs_token_catalog s) (cs_static_resources s) (cs_static_payloads
    s) (cs_workspace_file_payloads s) (cs_static_file_references s) (cs_static_value_references s)
    (cs_dependency_edges s) (cs_secret_context s) (cs_sensitive_values_required s) (cs_fingerprint_key s)
    (cs_fingerprint_key_persisted s) (cs_value_fingerprints s) (cs_input_content_refs s) (f
    (cs_input_workspace_file_locator_ids s)) (cs_input_source_tokens s) (cs_workspace_file_references s)
    (cs_workspace_file_locators s).
Definition on_input_source_tokens (f : dict TemplateReference -> dict TemplateReference) (s : CompileState) : CompileState :=
  mkCompileState
    (cs_diagnostics s) (cs_diagnostic_keys s) (cs_token_catalog s) (cs_static_resources s) (cs_static_payloads
    s) (cs_workspace_file_payloads s) (cs_static_file_references s) (cs_static_value_references s)
    (cs_dependency_edges s) (cs_secret_context s) (cs_sensitive_values_required s) (cs_fingerprint_key s)
    (cs_fingerprint_key_persisted s) (cs_value_fingerprints s) (cs_input_content_refs s)
    (cs_input_workspace_file_locator_ids s) (f (cs_input_source_tokens s)) (cs_workspace_file_references s)
    (cs_workspace_file_locators s).
Definition on_workspace_file_references (f : dict WorkspaceFileLocator -> dict WorkspaceFileLocator) (s : CompileState) : CompileState :=
  mkCompileState
    (cs_diagnostics s) (cs_diagnostic_keys s) (cs_token_catalog s) (cs_static_resources s) (cs_static_payloads
    s) (cs_workspace_file_payloads s) (cs_static_file_references s) (cs_static_value_references s)
    (cs_dependency_edges s) (cs_secret_context s) (cs_sensitive_values_required s) (cs_fingerprint_key s)
    (cs_fingerprint_key_persisted s) (cs_value_fingerprints s) (cs_input_content_refs s)
    (cs_input_workspace_file_locator_ids s) (cs_input_source_tokens s) (f (cs_workspace_file_references s))
    (cs_workspace_file_locators s).
Definition on_workspace_file_locators (f : list WorkspaceFileLocator -> list WorkspaceFileLocator) (s : CompileState) : CompileState :=
  mkCompileState
    (cs_diagnostics s) (cs_diagnostic_keys s) (cs_token_catalog s) (cs_static_resources s) (cs_static_payloads
    s) (cs_workspace_file_payloads s) (cs_static_file_references s) (cs_static_value_references s)
    (cs_dependency_edges s) (cs_secret_context s) (cs_sensitive_values_required s) (cs_fingerprint_key s)
    (cs_fingerprint_key_persisted s) (cs_value_fingerprints s) (cs_input_content_refs s)
    (cs_input_workspace_file_locator_ids s) (cs_input_source_tokens s) (cs_workspace_file_references s) (f
    (cs_workspace_file_locators s)).

(** ** Diagnostics of a compilation *)

Section State.
Context {hash : HashLibrary} {files : PreflightFiles} {hmac : HmacLibrary}.

(** Code: core/preflight/compile_state.py, has_errors. *)
Definition has_errors (s : CompileState) : bool :=
  existsb (fun d => bool_decide (dg_severity d = SeverityError)) (cs_diagnostics s).

(** Code: core/preflight/compile_state.py, _append_new_diagnostic. *)
Definition append_new_diagnostic (d : PreflightDiagnostic) : M CompileState unit :=
  known ← read cs_diagnostic_keys;
  if bool_decide (diagnostic_key d ∈ known) then ret tt
  else modify (on_diagnostic_keys (fun keys => diagnostic_key d :: keys));;
       modify (on_diagnostics (fun ds => ds ++ [d])).

(** Code: core/preflight/compile_state.py, append_diagnostic. *)
Definition append_diagnostic (c : PreflightDiagnosticCode) (phase : PreflightDiagnosticPhase) (message : string)
    (node path : option string) (severity : PreflightDiagnosticSeverity) : M CompileState unit :=
  append_new_diagnostic (mkDiagnostic c message severity phase node path []).

(** Code: core/preflight/compile_state.py, extend_diagnostics. *)
Definition extend_diagnostics (ds : list PreflightDiagnostic) : M CompileState unit := for_all append_new_diagnostic ds.

(** ** Where a node comes from *)

(** Code: core/preflight/compile_state.py, module_id. *)
Definition module_id (node : WorkflowNode) (options : PreflightCompileOptions) : option string :=
  match dget (po_node_source_files options) (node_id node) with
  | None => None
  | Some file =>
      let resolved := resolve file in
      Some (default resolved (relative_to resolved (po_project_root options)))
  end.

(** Code: core/preflight/compile_state.py, source_root. *)
Definition source_root (node : WorkflowNode) (options : PreflightCompileOptions) : string :=
  resolve (default (po_project_root options) (dget (po_node_source_roots options) (node_id node))).

(** Code: core/preflight/compile_state.py, source_file. *)
Definition source_file (node : WorkflowNode) (options : PreflightCompileOptions) : option string :=
  dget (po_node_source_files options) (node_id node).

(** Code: core/preflight/compile_state.py, node_source_span. *)
Definition node_source_span (node : WorkflowNode) (options : PreflightCompileOptions) : option SourceSpan :=
  dget (po_node_source_spans options) (node_id node).

(** Code: core/preflight/compile_state.py, prompt_segment_span. *)
Definition prompt_segment_span (node : WorkflowNode) (options : PreflightCompileOptions) (segment_index : nat) : option SourceSpan :=
  default [] (dget (po_prompt_segment_spans options) (node_id node)) !! segment_index.

(** Code: core/preflight/compile_state.py, column_at_offset. *)
Definition column_at_offset (l : text) : Z :=
  Z.of_nat (length (fst (span (fun c => negb (is_char c lf)) (reverse l)))).

Definition count_newlines (l : text) : Z := Z.of_nat (length (List.filter (fun c => is_char c lf) l)).

(** Code: core/preflight/compile_state.py, token_source_span. *)
Definition token_source_span (node : WorkflowNode) (options : PreflightCompileOptions) (segment_index : nat)
    (reference : TemplateReference) : option SourceSpan :=
  match prompt_segment_span node options segment_index with
  | None => None
  | Some span =>
      let content := chars (default "" (seg_content <$> node_prompt_segments node !! segment_index)) in
      let prefix := take (ref_start reference) content in
      let end_prefix := take (ref_end reference) content in
      Some (mkSpan (sp_start_line span + count_newlines prefix) (sp_start_line span + count_newlines end_prefix)
              (Some (column_at_offset prefix)) (Some (column_at_offset end_prefix)))
  end.

(** Code: core/preflight/compile_state.py, allowed_template_paths. *)
Definition allowed_template_paths (options : PreflightCompileOptions) : outcome (list string) :=
  mapM (fun path => expanded ← answered (expand_user path); mret (resolve expanded)) (po_allowed_template_paths options).

(** Code: core/preflight/compile_state.py, PreflightCompileOptions.with_source_metadata. *)
Definition with_source_metadata (node_source_paths : dict string) (node_spans : dict SourceSpan)
    (segment_spans : dict (list SourceSpan)) (o : PreflightCompileOptions) : PreflightCompileOptions :=
  let project := resolve (po_project_root o) in
  let source_files := map (fun '(id, path) => (id, resolve path)) node_source_paths in
  mkOptions (po_project_root o) (po_state_dir o) (map (fun id => (id, project)) (dkeys source_files)) source_files
    node_spans segment_spans (po_item_input_ids o) (po_allowed_template_paths o) (po_terminal_history_reader o)
    (po_runtime_variables o) (po_environment o) (po_fingerprint_key_policy o) (po_additional_validation_errors o)
    (po_additional_validation_warnings o) (po_additional_diagnostics o) (po_workspace_source_snapshot o).

(** ** The token catalog and the dependency edges *)

(** Code: core/preflight/token_catalog.py, append_token_catalog. *)
Definition append_token_catalog (occurrence_id : string) (node : WorkflowNode) (target_role : ProviderRole)
    (source_role : PromptSegmentRole) (reference : TemplateReference) (token_kind : TokenKind) (fragment_index : Z)
    (signature : string) (metadata : dict string) (options : PreflightCompileOptions) (canonical_locator : option string)
    (dependency_signature : option string) (source_span : option SourceSpan) (resolved : dict json) : M CompileState unit :=
  modify (on_token_catalog (fun catalog => catalog ++
    [mkTokenEntry occurrence_id (node_id node) target_role source_role (ref_raw_token reference) token_kind fragment_index
       signature (source_file node options) source_span
       (Some (mkRawSpan (Z.of_nat (ref_start reference)) (Z.of_nat (ref_end reference)))) canonical_locator
       dependency_signature resolved metadata])).

(** [existing.model_copy(update={"first_token_signature": signature})]. *)
Definition with_first_token (signature : option string) (e : CompiledEdge) : CompiledEdge :=
  mkCompiledEdge (de_source_node e) (de_target_node e) (de_artifact_name e) (de_dependency_signature e) (de_target_locator e)
    (de_artifact_key e) signature.

(** Code: core/preflight/dependency_edges.py:41-56. *)
Definition new_edge (source_node target_node : string) (artifact_name first_token : option string) : CompiledEdge :=
  mkCompiledEdge source_node target_node artifact_name (dependency_signature source_node target_node artifact_name)
    (Some (match artifact_name with Some a => source_node +:+ "." +:+ a | None => source_node end)) artifact_name first_token.

(** Code: core/preflight/dependency_edges.py, append_dependency_edge. *)
Definition append_dependency_edge (source_node target_node : string) (artifact_name first_token : option string)
    : M CompileState unit :=
  edges ← read cs_dependency_edges;
  let key := (source_node, target_node, artifact_name) in
  if existsb (fun e => bool_decide (edge_key e = key)) edges then
    match first_token with
    | None => ret tt
    | Some _ =>
        modify (on_dependency_edges (map (fun e =>
          if bool_decide (edge_key e = key) && negb (is_some (de_first_token_signature e))
          then with_first_token first_token e else e)))
    end
  else modify (on_dependency_edges (fun edges => edges ++ [new_edge source_node target_node artifact_name first_token])).

(** ** Secrets and fingerprints *)

(** Code: core/preflight/secrets.py, SecretContext.put. *)
Definition secret_put (handle value : string) : M CompileState unit :=
  modify (on_secret_context (fun context => dset context handle (JStr value))).

(** Code: core/preflight/secrets.py, SecretContext.put_config_value. *)
Definition put_config_value (handle : string) (value : json) : M CompileState unit :=
  modify (on_secret_context (fun context => dset context handle value)).

(** Code: core/preflight/secrets.py, SecretContext.get..SecretContext.get_config_value. *)
Definition secret_get (context : dict json) (handle : string) : outcome string :=
  match dget context handle with
  | None => Raise (KeyError ("Secret handle " +:+ quoted handle +:+ " is not available."))
  | Some (JStr value) => Ok value
  | Some _ => Raise (OtherError "TypeError" ("Secret handle " +:+ quoted handle +:+ " does not contain text."))
  end.

(** Code: core/preflight/secrets.py, fingerprint_payload. *)
Definition fingerprint_payload (key : string) (payload : json) : string := hmac_sha256 key (canonical_json payload).

Definition token_kind_value (k : TokenKind) : string :=
  match k with TokNode => "node" | TokFile => "file" | TokEnv => "env" | TokVar => "var" end.

(** Code: core/preflight/value_fingerprints.py, load_fingerprint_key_if_needed. *)
Definition load_fingerprint_key_if_needed (options : PreflightCompileOptions) : M CompileState unit :=
  required ← read cs_sensitive_values_required;
  present ← read cs_fingerprint_key;
  if negb required || is_some present then ret tt
  else
    result ← lift (answered (load_key (po_state_dir options) (po_fingerprint_key_policy options)));
    extend_diagnostics (kr_diagnostics result);;
    if is_cons (kr_diagnostics result) then ret tt
    else modify (on_fingerprint_key (fun _ => Some (kr_key result)));;
         modify (on_fingerprint_key_persisted (fun _ => kr_persisted result)).

Definition value_payload (r : ValueFingerprintRecord) (raw_value : string) : json :=
  JObj [("fingerprint_payload_version", JStr FINGERPRINT_PAYLOAD_VERSION); ("key", JStr (vf_key r));
        ("kind", JStr (token_kind_value (vf_kind r))); ("sensitive", JStr (vf_sensitive r)); ("value", JStr raw_value)].

(** One record of the loop: the value is removed before it is signed.
    Code: core/preflight/value_fingerprints.py:38-49. *)
Definition fingerprint_record (key : string) (r : ValueFingerprintRecord) : outcome ValueFingerprintRecord :=
  match vf_value r with
  | None => Raise (KeyError "value")
  | Some raw_value =>
      Ok (mkValueRecord (vf_kind r) (vf_key r) (vf_sensitive r) None (Some FINGERPRINT_PAYLOAD_VERSION)
            (Some (fingerprint_payload key (value_payload r raw_value))))
  end.

(** The loop over the records, which are changed in place. *)
Fixpoint fingerprint_records (key : string) (before rest : list ValueFingerprintRecord) : M CompileState unit :=
  match rest with
  | [] => ret tt
  | r :: rest =>
      r' ← lift (fingerprint_record key r);
      modify (on_value_fingerprints (fun _ => before ++ r' :: rest));;
      fingerprint_records key (before ++ [r']) rest
  end.

(** The last fingerprint recorded for a kind and a key. *)
Definition fingerprint_by_value (records : list ValueFingerprintRecord) (kind : TokenKind) (key : string) : option string :=
  last (omap (fun r =>
    if bool_decide (vf_kind r = kind /\ vf_key r = key /\ vf_sensitive r = "true") then vf_fingerprint r else None) records).

(** Code: core/preflight/value_fingerprints.py, backfill_static_value_reference_fingerprints. *)
Definition backfill_static_value_reference_fingerprints : M CompileState unit :=
  records ← read cs_value_fingerprints;
  modify (on_static_value_references (map (fun '(occurrence_id, r) =>
    (occurrence_id,
      if rv_sensitive r then
        match fingerprint_by_value records (rv_kind r) (rv_key r) with
        | Some fingerprint =>
            mkResolvedValue (rv_kind r) (rv_key r) (rv_sensitive r) (rv_value_handle r) (rv_value_stored r)
              (Some fingerprint) (rv_token_signature r)
        | None => r
        end
      else r)))).

(** Code: core/preflight/value_fingerprints.py, backfill_value_fingerprints. *)
Definition backfill_value_fingerprints : M CompileState unit :=
  key ← read cs_fingerprint_key;
  match key with
  | None => ret tt
  | Some key =>
      records ← read cs_value_fingerprints;
      fingerprint_records key [] records;;
      backfill_static_value_reference_fingerprints
  end.

(** Code: core/preflight/value_fingerprints.py, persisted_value_fingerprints. *)
Definition persisted_value_fingerprints (s : CompileState) : list (dict string) :=
  omap (fun r =>
    match vf_fingerprint r with
    | None => None
    | Some fingerprint =>
        Some [("fingerprint", fingerprint); ("fingerprint_payload_version", default "" (vf_payload_version r));
              ("key", vf_key r); ("kind", token_kind_value (vf_kind r)); ("sensitive", vf_sensitive r)]
    end) (cs_value_fingerprints s).

End State.
