(* ===== verification/Redaction.v ===== *)
(** Secrets in configuration: core/preflight/runtime_config/{redaction,capture}.py,
    architecture/contracts/{integration,integration_secrets}.py and the
    resolution of handles in runtime/execution/runtime_context.py.

    A configuration is redacted before it is signed and persisted: a value that a
    name or a command-line flag marks as secret is replaced by a handle (and,
    with a key, a fingerprint).  The values are kept in the secret context of the
    process, and a provider call resolves the handles from there. *)

From Stdlib Require Import ZArith Lia Ascii String.
From stdpp Require Import base gmap sets list strings.
From S2P Require Import Prelude PyStr StateExn Models Scheduler Artifacts RunState PlanRecords PlanContract Foreach PreflightState.

Open Scope string_scope.
Open Scope list_scope.
Open Scope Z_scope.

(** ** Text *)

(** [s.replace(old, new)] for a nonempty [old]; [skip] characters belong to the
    last occurrence. *)
Fixpoint replace_text (old new : text) (skip : nat) (l : text) : text :=
  match l with
  | [] => []
  | c :: t =>
      match skip with
      | S skip => replace_text old new skip t
      | O => if starts_with old l then new ++ replace_text old new (length old - 1) t else c :: replace_text old new 0 t
      end
  end.

Definition str_replace (old new s : string) : string := of_chars (replace_text (chars old) (chars new) 0 (chars s)).

Fixpoint take_while (p : ascii -> bool) (l : text) : text :=
  match l with
  | [] => []
  | c :: t => if p c then c :: take_while p t else []
  end.

Definition printable (c : ascii) : bool := in_range 32 126 c.

(** [repr(s)]. *)
Definition str_repr (s : string) : string :=
  let apostrophe := "'"%char in
  let quote := if str_contains "'" s && negb (bool_decide (quote_char ∈ chars s)) then quote_char else apostrophe in
  let escape c :=
    if bool_decide (c = quote) || bool_decide (c = "\"%char) then ["\"%char; c]
    else if bool_decide (c = lf) then chars "\n"
    else if bool_decide (c = cr) then chars "\r"
    else if bool_decide (c = ascii_of_N 9) then chars "\t"
    else if printable c then [c]
    else chars "\x" ++ [hex_digit (code c / 16); hex_digit (code c mod 16)] in
  of_chars ([quote] ++ concat (map escape (chars s)) ++ [quote]).

(** The number that a string of digits writes. *)
Definition digits_value (s : string) : nat := foldl (fun n c => n * 10 + N.to_nat (code c - 48))%nat 0%nat (chars s).

Definition all_digits (s : string) : bool := nonempty s && forallb is_digit (chars s).

Fixpoint insert_key {A} (key : A -> string) (x : A) (l : list A) : list A :=
  match l with
  | [] => [x]
  | y :: t => if String.leb (key x) (key y) then x :: l else y :: insert_key key x t
  end.

(** [sorted(l, key=key)]. *)
Definition sort_key {A} (key : A -> string) (l : list A) : list A := foldr (insert_key key) [] l.

(** [sorted(d.items())] for distinct keys. *)
Definition sorted_items {V} (d : dict V) : dict V := sort_key fst d.

(** [[f(i, x) for i, x in enumerate(l, i)]]. *)
Definition map_from {A B} (f : nat -> A -> B) : nat -> list A -> list B :=
  fix go i l := match l with [] => [] | x :: t => f i x :: go (S i) t end.

(** ** JSON pointers (architecture/contracts/integration_secrets.py) *)

(** Code: architecture/contracts/integration_secrets.py:11-11. *)
Inductive JsonPathSegment := Key (s : string) | Index (n : nat).

Definition segment_str (s : JsonPathSegment) : string :=
  match s with Key s => s | Index n => str_int (Z.of_nat n) end.

(** Code: architecture/contracts/integration_secrets.py, _encode_json_pointer_token. *)
Definition encode_json_pointer_token (token : string) : string := str_replace "/" "~1" (str_replace "~" "~0" token).

(** A tilde that is not followed by 0 or 1.
    Code: architecture/contracts/integration_secrets.py:14-14. *)
Fixpoint invalid_json_pointer_escape (l : text) : bool :=
  match l with
  | [] => false
  | c :: t =>
      (bool_decide (c = "~"%char)
       && match t with d :: _ => negb (bool_decide (d = "0"%char) || bool_decide (d = "1"%char)) | [] => true end)
      || invalid_json_pointer_escape t
  end.

(** Code: architecture/contracts/integration_secrets.py, _decode_json_pointer_token. *)
Definition decode_json_pointer_token (token : string) : outcome string :=
  if invalid_json_pointer_escape (chars token)
  then Raise (ValueError ("The sensitive option JSON Pointer segment " +:+ str_repr token
                          +:+ " is invalid: '~' must be followed by '0' or '1'. Use '~0' for '~' and '~1' for '/'."))
  else Ok (str_replace "~0" "~" (str_replace "~1" "/" token)).

(** Code: architecture/contracts/integration_secrets.py, parse_json_pointer. *)
Definition parse_json_pointer (pointer : string) : outcome (list string) :=
  if negb (str_startswith "/" pointer)
  then Raise (ValueError ("Canonical integration sensitive option JSON Pointer must start with '/': " +:+ str_repr pointer))
  else mapM decode_json_pointer_token (str_split_on "/"%char (of_chars (drop 1 (chars pointer)))).

(** Code: architecture/contracts/integration_secrets.py, json_pointer. *)
Definition json_pointer (segments : list JsonPathSegment) : string :=
  str_join "" (map (fun s => "/" +:+ encode_json_pointer_token (segment_str s)) segments).

(** ["0|[1-9][0-9]*"].
    Code: architecture/contracts/integration_secrets.py:15-15. *)
Definition is_json_array_index (s : string) : bool :=
  all_digits s && (bool_decide (s = "0") || negb (str_startswith "0" s)).

(** Code: architecture/contracts/integration_secrets.py, _json_path_exists. *)
Fixpoint json_path_exists (current : json) (segments : list string) : bool :=
  match segments with
  | [] => true
  | segment :: rest =>
      match current with
      | JObj fields => match dget fields segment with Some child => json_path_exists child rest | None => false end
      | JList l =>
          if negb (is_json_array_index segment) then false
          else match l !! digits_value segment with Some child => json_path_exists child rest | None => false end
      | _ => false
      end
  end.

(** Code: architecture/contracts/integration_secrets.py, validate_sensitive_integration_option_pointers. *)
Definition validate_sensitive_integration_option_pointers (options : dict json) (pointers : list string) : outcome unit :=
  for_each (fun _ pointer =>
    segments ← parse_json_pointer pointer;
    if json_path_exists (JObj options) segments then Ok tt
    else Raise (ValueError ("Canonical integration sensitive option JSON Pointer does not resolve to an option: "
                            +:+ str_repr pointer))) pointers tt.

(** ** Sensitive integration options *)

(** Code: core/preflight/runtime_config/redaction.py, _FingerprintRecord. *)
Record FingerprintRecord := mkFingerprint { fr_path : string; fr_fingerprint : string }.

(** A redacted value, the paths of what was redacted and the fingerprints that
    were recorded, in the order of the traversal. *)
Record Redaction := mkRedaction { rx_value : json; rx_paths : list string; rx_fingerprints : list FingerprintRecord }.

Definition is_container (v : json) : bool := match v with JObj _ | JList _ => true | _ => false end.

(** A transform returns the new value and the fingerprints it records. *)
Definition SensitiveOptionTransform := string -> json -> json * list FingerprintRecord.

Section Walker.
Context (explicit_pointers : list string) (transform : option SensitiveOptionTransform).

(** Code: architecture/contracts/integration_secrets.py, _SensitiveOptionWalker._is_sensitive_name. *)
Definition has_sensitive_name (path : list JsonPathSegment) : bool :=
  match last path with Some (Key segment) => is_sensitive_name segment | _ => false end.

(** Code: architecture/contracts/integration_secrets.py, _SensitiveOptionWalker._has_explicit_descendant. *)
Definition has_explicit_descendant (pointer : string) : bool :=
  existsb (fun candidate => str_startswith (pointer +:+ "/") candidate) explicit_pointers.

(** Code: architecture/contracts/integration_secrets.py, _SensitiveOptionWalker._matches_sensitive_option. *)
Definition matches_sensitive_option (value : json) (path : list JsonPathSegment) (inherited_sensitive : bool) : bool :=
  let pointer := json_pointer path in
  if str_in pointer explicit_pointers then true
  else if inherited_sensitive && negb (is_container value) then true
  else if negb (has_sensitive_name path) then false
  else negb (is_container value && has_explicit_descendant pointer).

(** Code: architecture/contracts/integration_secrets.py, _SensitiveOptionWalker.walk. *)
Fixpoint walk (value : json) (path : list JsonPathSegment) (inherited_sensitive : bool) : Redaction :=
  if is_cons path && matches_sensitive_option value path inherited_sensitive then
    match transform with
    | Some f => let '(value', fingerprints) := f (json_pointer path) value in mkRedaction value' [json_pointer path] fingerprints
    | None => mkRedaction value [json_pointer path] []
    end
  else
    let child_sensitive := inherited_sensitive || (is_cons path && has_sensitive_name path) in
    match value with
    | JObj fields =>
        let children := sorted_items (map (fun '(k, child) => (k, walk child (path ++ [Key k]) child_sensitive)) fields) in
        mkRedaction (JObj (map (fun '(k, r) => (k, rx_value r)) children)) (concat (map (fun '(_, r) => rx_paths r) children))
          (concat (map (fun '(_, r) => rx_fingerprints r) children))
    | JList l =>
        let children := map_from (fun i child => walk child (path ++ [Index i]) child_sensitive) 0%nat l in
        mkRedaction (JList (map rx_value children)) (concat (map rx_paths children)) (concat (map rx_fingerprints children))
    | _ => mkRedaction value [] []
    end.

End Walker.

(** Code: architecture/contracts/integration_secrets.py, transform_sensitive_integration_options. *)
Definition transform_sensitive_integration_options (options : dict json) (explicit_pointers : list string)
    (transform : option SensitiveOptionTransform) : outcome Redaction :=
  _ ← validate_sensitive_integration_option_pointers options explicit_pointers;
  let walked := walk explicit_pointers transform (JObj options) [] false in
  match rx_value walked with
  | JObj _ => Ok walked
  | _ => Raise (OtherError "TypeError" "Canonical integration options must remain a mapping.")
  end.

(** ** Integration configurations (architecture/contracts/integration.py) *)

(** Code: architecture/contracts/integration.py, CanonicalIntegrationConfig. *)
Record CanonicalIntegrationConfig := mkIntegration {
  ic_implementation : string;
  ic_resolved_identity : string;
  ic_options : dict json;
  ic_sensitive_options : list string;
  ic_option_fingerprints : list FingerprintRecord;
  ic_option_scopes : dict string;
  ic_capabilities : dict json;
  ic_options_are_generated_redacted : bool
}.

(** [json.dumps] writes the floats that are not finite as these words. *)
Definition finite_float (repr : string) : bool := negb (str_in repr ["NaN"; "Infinity"; "-Infinity"; "nan"; "inf"; "-inf"]).

(** Code: architecture/contracts/integration.py, _validate_finite_json. *)
Fixpoint validate_finite_json (value : json) (path : string) : outcome unit :=
  match value with
  | JFloat repr =>
      if finite_float repr then Ok tt else Raise (ValueError ("Canonical integration value " +:+ quoted path +:+ " must be finite"))
  | JObj fields =>
      for_each (fun _ check => check) (map (fun '(k, child) => validate_finite_json child (path +:+ "." +:+ k)) fields) tt
  | JList l =>
      for_each (fun _ check => check)
        (map_from (fun i child => validate_finite_json child (path +:+ "." +:+ str_int (Z.of_nat i))) 0%nat l) tt
  | _ => Ok tt
  end.

(** Code: architecture/contracts/integration.py, CanonicalIntegrationConfig._validate_option_metadata. *)
Definition validate_option_metadata (c : CanonicalIntegrationConfig) : outcome unit :=
  _ ← validate_finite_json (JObj (ic_options c)) "options";
  _ ← validate_finite_json (JObj (ic_capabilities c)) "capabilities";
  let missing := sorted_str (List.filter (fun k => negb (dmem (ic_option_scopes c) k)) (dkeys (ic_options c))) in
  let unknown := sorted_str (List.filter (fun k => negb (dmem (ic_options c) k)) (dkeys (ic_option_scopes c))) in
  let listed l := "[" +:+ str_join ", " (map str_repr l) +:+ "]" in
  let details := (if is_cons missing then ["missing scopes for " +:+ listed missing] else [])
                 ++ (if is_cons unknown then ["scopes without options " +:+ listed unknown] else []) in
  if is_cons details
  then Raise (ValueError ("Canonical integration option scopes must exactly match option keys: " +:+ str_join "; " details))
  else validate_sensitive_integration_option_pointers (ic_options c) (ic_sensitive_options c).

(** Code: architecture/contracts/integration.py, scoped_integration_payload. *)
Definition scoped_integration_payload (implementation resolved_identity capabilities : json) (options : dict json)
    (option_scopes : dict string) (scopes : list string) : json :=
  JObj [("capabilities", capabilities); ("implementation", implementation);
        ("options", JObj (List.filter (fun '(key, _) => match dget option_scopes key with Some s => str_in s scopes | None => false end)
                            options));
        ("resolved_identity", resolved_identity)].

(** Code: architecture/contracts/integration.py, CanonicalIntegrationConfig.scoped_payload. *)
Definition scoped_payload (c : CanonicalIntegrationConfig) (scopes : list string) : json :=
  scoped_integration_payload (JStr (ic_implementation c)) (JStr (ic_resolved_identity c)) (JObj (ic_capabilities c)) (ic_options c)
    (ic_option_scopes c) scopes.

(** Code: architecture/contracts/integration.py, redacted_integration_option_value. *)
Definition redacted_integration_option_value (fingerprint value_handle : option string) : json :=
  JObj ([("redacted", JBool true)] ++ match fingerprint with Some f => [("fingerprint", JStr f)] | None => [] end
        ++ match value_handle with Some h => [("value_handle", JStr h)] | None => [] end).

Definition fingerprint_json (r : FingerprintRecord) : json :=
  JObj [("path", JStr (fr_path r)); ("fingerprint", JStr (fr_fingerprint r))].

(** Code: architecture/contracts/integration.py, _redact_sensitive_option. *)
Definition redact_sensitive_option : SensitiveOptionTransform := fun _ _ => (redacted_integration_option_value None None, []).

(** Code: architecture/contracts/integration.py, sensitive_integration_option_pointers. *)
Definition sensitive_integration_option_pointers (c : CanonicalIntegrationConfig) : outcome (list string) :=
  walked ← transform_sensitive_integration_options (ic_options c) (ic_sensitive_options c) None;
  mret (rx_paths walked).

(** Code: architecture/contracts/integration.py, CanonicalIntegrationConfig.redacted_payload. *)
Definition integration_redacted_payload (c : CanonicalIntegrationConfig) : outcome json :=
  let payload option_fingerprints options sensitive_options :=
    JObj [("capabilities", JObj (ic_capabilities c)); ("implementation", JStr (ic_implementation c));
          ("option_fingerprints", JList option_fingerprints);
          ("option_scopes", JObj (map (fun '(k, s) => (k, JStr s)) (ic_option_scopes c))); ("options", options);
          ("resolved_identity", JStr (ic_resolved_identity c)); ("sensitive_options", JList (map JStr sensitive_options))] in
  if ic_options_are_generated_redacted c
  then Ok (payload (map fingerprint_json (ic_option_fingerprints c)) (JObj (ic_options c)) (ic_sensitive_options c))
  else
    walked ← transform_sensitive_integration_options (ic_options c) (ic_sensitive_options c) (Some redact_sensitive_option);
    mret (payload [] (rx_value walked) (rx_paths walked)).

(** Code: architecture/contracts/integration.py, CanonicalIntegrationConfig.with_generated_redaction. *)
Definition with_generated_redaction (c : CanonicalIntegrationConfig) (options : dict json) (sensitive_options : list string)
    (option_fingerprints : list FingerprintRecord) : CanonicalIntegrationConfig :=
  mkIntegration (ic_implementation c) (ic_resolved_identity c) options sensitive_options option_fingerprints (ic_option_scopes c)
    (ic_capabilities c) true.

(** ** Redaction of agents and workspaces (core/preflight/runtime_config/redaction.py) *)

Definition starts_identifier (c : ascii) : bool := is_lower c || is_upper c || bool_decide (c = "_"%char).

(** The lookahead [[A-Za-z_][A-Za-z0-9_]*=]. *)
Definition assigns_identifier (l : text) : bool :=
  match l with
  | [] => false
  | c :: t =>
      starts_identifier c
      && match drop_while (fun c => starts_identifier c || is_digit c) t with d :: _ => bool_decide (d = "="%char) | [] => false end
  end.

(** What may follow the name: the end, before a final line feed or not, or an
    assignment whose value is one line. *)
Definition argv_rest (l : text) : bool :=
  match l with
  | [] => true
  | c :: value =>
      if bool_decide (c = lf) then negb (is_cons value)
      else bool_decide (c = "="%char)
           && forallb (fun c => negb (bool_decide (c = lf)))
                (if bool_decide (last value = Some lf) then removelast value else value)
  end.

(** The flags and assignments whose name is sensitive.  The name is everything
    up to the first equals sign or blank, so that the pattern matches in one way
    at most.
    Code: core/preflight/runtime_config/redaction.py:27-32. *)
Definition sensitive_argv (s : string) : bool :=
  let l := chars s in
  let name_char c := negb (bool_decide (c = "="%char)) && negb (is_space c) in
  if starts_with (chars "--") l || assigns_identifier l then
    let body := if starts_with (chars "--") l then drop 2 l else l in
    is_sensitive_name (of_chars (take_while name_char body)) && argv_rest (drop_while name_char body)
  else false.

Definition has_equals (s : string) : bool := str_contains "=" s.

Definition ARGV_FIELD_NAMES : list string := ["argv"; "cli_cmd"; "extra_args"].
Definition ARGV_SCALAR_FIELD_NAMES : list string := ["model_arg"; "prompt_transport_arg"].

Inductive RedactionOutput := Redacted | Fingerprinted.

(** Code: core/preflight/runtime_config/redaction.py, config_value_handle. *)
Definition config_value_handle (path : string) : string := "config:" +:+ path.

(** Code: core/preflight/runtime_config/redaction.py, _path_label. *)
Definition path_label (path : list string) : string := str_join "." path.

(** Code: core/preflight/runtime_config/redaction.py, _is_sensitive_config_value. *)
Definition is_sensitive_config_value (value : json) (path : list string) (list_parent : option string) : bool :=
  match last path with
  | None => false
  | Some field =>
      if existsb is_sensitive_name path then negb (is_container value)
      else
        match value with
        | JStr s =>
            (str_in field ARGV_SCALAR_FIELD_NAMES
             || match list_parent with Some parent => str_in parent ARGV_FIELD_NAMES | None => false end)
            && has_equals s && sensitive_argv s
        | _ => false
        end
  end.

(** A flag whose value is the next argument. *)
Definition split_flag (value : json) : bool :=
  match value with JStr s => negb (has_equals s) && sensitive_argv s | _ => false end.

(** Code: core/preflight/runtime_config/redaction.py, _command_field_boundary_secret. *)
Definition command_field_boundary_secret (fields : dict json) (path : list string) : option (json * list string) :=
  match dget fields "cli_cmd", dget fields "extra_args" with
  | Some (JList cli_cmd), Some (JList (JStr secret_value :: _)) =>
      match last cli_cmd with
      | Some flag => if split_flag flag then Some (JStr secret_value, path ++ ["extra_args"; "0"]) else None
      | None => None
      end
  | _, _ => None
  end.

(** Code: core/preflight/runtime_config/redaction.py, _replace_first_extra_arg. *)
Definition replace_first_extra_arg (redacted : dict json) (value : json) : outcome (dict json) :=
  match dget redacted "extra_args" with
  | Some (JList (_ :: rest)) => Ok (dset redacted "extra_args" (JList (value :: rest)))
  | _ => Raise (OtherError "TypeError" "Redacted agent extra_args must remain a non-empty list.")
  end.

(** Code: core/preflight/runtime_config/redaction.py, _is_argv_token_list. *)
Definition is_argv_token_list (path : list string) : bool :=
  match reverse path with
  | [] => false
  | field :: above =>
      str_in field ARGV_FIELD_NAMES || (bool_decide (head above = Some "run") && str_in "setup_profiles" path)
  end.

(** The loop of [_sensitive_argv_indices], at index [i]. *)
Fixpoint argv_indices_from (i : nat) (previous_was_split_flag : bool) (l : list json) : list nat :=
  match l with
  | [] => []
  | child :: rest =>
      (if previous_was_split_flag || match child with JStr s => sensitive_argv s && has_equals s | _ => false end then [i] else [])
      ++ argv_indices_from (S i) (split_flag child) rest
  end.

(** Code: core/preflight/runtime_config/redaction.py, _sensitive_argv_indices. *)
Definition sensitive_argv_indices (l : list json) (path : list string) : list nat :=
  if is_argv_token_list path then argv_indices_from 0 false l else [].

Section Redact.
Context {hmac : HmacLibrary} (fingerprint_key : option string).

(** Code: core/preflight/runtime_config/redaction.py, config_fingerprint. *)
Definition config_fingerprint (path : string) (value : json) : option string :=
  match fingerprint_key with
  | None => None
  | Some key =>
      Some (fingerprint_payload key (JObj
        [("fingerprint_payload_version", JStr FINGERPRINT_PAYLOAD_VERSION); ("kind", JStr "config"); ("path", JStr path);
         ("sensitive", JStr "true"); ("value", value)]))
  end.

Context (output : RedactionOutput).

(** Code: core/preflight/runtime_config/redaction.py, _redacted_sensitive_leaf. *)
Definition redacted_sensitive_leaf (value : json) (path : list string) : Redaction :=
  let label := path_label path in
  let handle := match output with Fingerprinted => [("value_handle", JStr (config_value_handle label))] | Redacted => [] end in
  match config_fingerprint label value with
  | None => mkRedaction (JObj (("redacted", JBool true) :: handle)) [label] []
  | Some f =>
      mkRedaction (JObj ((("redacted", JBool true) :: handle) ++ [("fingerprint", JStr f)])) [label] [mkFingerprint label f]
  end.

(** The end of [_redacted_sensitive_dict]: the first extra argument may belong
    to the last flag of the command.
    Code: core/preflight/runtime_config/redaction.py:215-228. *)
Definition redact_boundary (fields : dict json) (path : list string) (children : dict Redaction) : outcome Redaction :=
  let redacted := map (fun '(k, r) => (k, rx_value r)) children in
  let paths := concat (map (fun '(_, r) => rx_paths r) children) in
  let fingerprints := concat (map (fun '(_, r) => rx_fingerprints r) children) in
  match command_field_boundary_secret fields path with
  | None => Ok (mkRedaction (JObj redacted) paths fingerprints)
  | Some (secret_value, secret_path) =>
      if str_in (path_label secret_path) paths then Ok (mkRedaction (JObj redacted) paths fingerprints)
      else
        let leaf := redacted_sensitive_leaf secret_value secret_path in
        redacted' ← replace_first_extra_arg redacted (rx_value leaf);
        Ok (mkRedaction (JObj redacted') (paths ++ rx_paths leaf) (fingerprints ++ rx_fingerprints leaf))
  end.

(** Code: core/preflight/runtime_config/redaction.py, _redact_sensitive_value.._redacted_sensitive_list. *)
Fixpoint redact_sensitive_value (value : json) (path : list string) (list_parent : option string) : outcome Redaction :=
  if is_sensitive_config_value value path list_parent then Ok (redacted_sensitive_leaf value path)
  else
    match value with
    | JObj fields =>
        children ← mapM (fun '(k, o) => r ← (o : outcome Redaction); mret (k, r))
          (sorted_items (map (fun '(k, child) => (k, redact_sensitive_value child (path ++ [k]) None)) fields));
        redact_boundary fields path children
    | JList l =>
        let sensitive_indices := sensitive_argv_indices l path in
        children ← mapM (fun o : outcome Redaction => o)
          (map_from (fun i child =>
             let child_path := path ++ [str_int (Z.of_nat i)] in
             if bool_decide (i ∈ sensitive_indices) then Ok (redacted_sensitive_leaf child child_path)
             else redact_sensitive_value child child_path (last path)) 0%nat l);
        mret (mkRedaction (JList (map rx_value children)) (concat (map rx_paths children)) (concat (map rx_fingerprints children)))
    | _ => Ok (mkRedaction value [] [])
    end.

End Redact.

(** Code: core/preflight/runtime_config/redaction.py, _ensure_dict. *)
Definition ensure_dict (value : json) : outcome (dict json) :=
  match value with
  | JObj fields => Ok fields
  | _ => Raise (OtherError "TypeError" "Runtime config payload must remain a dictionary.")
  end.

Section Configuration.
Context {hmac : HmacLibrary}.

(** Code: core/preflight/runtime_config/redaction.py, redact_sensitive_config. *)
Definition redact_sensitive_config (payload : dict json) (root_path : list string) : outcome (dict json * list string) :=
  r ← redact_sensitive_value None Redacted (JObj payload) root_path None;
  fields ← ensure_dict (rx_value r);
  mret (fields, sorted_str (rx_paths r)).

(** Code: core/preflight/runtime_config/redaction.py, redact_sensitive_config_with_fingerprints. *)
Definition redact_sensitive_config_with_fingerprints (payload : dict json) (fingerprint_key : option string) (root_path : list string)
    : outcome (dict json * list FingerprintRecord) :=
  r ← redact_sensitive_value fingerprint_key Fingerprinted (JObj payload) root_path None;
  fields ← ensure_dict (rx_value r);
  mret (fields, sort_key fr_path (rx_fingerprints r)).

Definition option_path_prefix (integration_name : string) : string :=
  json_pointer [Key "integrations"; Key integration_name; Key "options"].

(** Code: core/preflight/runtime_config/redaction.py, sensitive_integration_option_paths. *)
Definition sensitive_integration_option_paths (integration_name : string) (c : CanonicalIntegrationConfig) : outcome (list string) :=
  pointers ← sensitive_integration_option_pointers c;
  mret (sorted_str (map (fun pointer => option_path_prefix integration_name +:+ pointer) pointers)).

(** The inner function [redact_sensitive_value].
    Code: core/preflight/runtime_config/redaction.py:90-103. *)
Definition fingerprint_option (integration_name : string) (fingerprint_key : option string) : SensitiveOptionTransform :=
  fun pointer value =>
    let path := option_path_prefix integration_name +:+ pointer in
    let fingerprint := config_fingerprint fingerprint_key path value in
    (redacted_integration_option_value fingerprint (Some (config_value_handle path)),
     match fingerprint with Some f => [mkFingerprint path f] | None => [] end).

(** Code: core/preflight/runtime_config/redaction.py, integration_with_sensitive_option_fingerprints. *)
Definition integration_with_sensitive_option_fingerprints (c : CanonicalIntegrationConfig) (integration_name : string)
    (fingerprint_key : option string) : outcome (CanonicalIntegrationConfig * list FingerprintRecord) :=
  pointers ← sensitive_integration_option_pointers c;
  walked ← transform_sensitive_integration_options (ic_options c) pointers (Some (fingerprint_option integration_name fingerprint_key));
  if negb (is_cons (rx_paths walked)) then
    Ok (mkIntegration (ic_implementation c) (ic_resolved_identity c) (ic_options c) (ic_sensitive_options c) [] (ic_option_scopes c)
          (ic_capabilities c) (ic_options_are_generated_redacted c), [])
  else
    let fingerprints := sort_key fr_path (rx_fingerprints walked) in
    options ← ensure_dict (rx_value walked);
    Ok (with_generated_redaction c options (sorted_str (rx_paths walked)) fingerprints, fingerprints).

End Configuration.

(** ** Raw values of sensitive paths (core/preflight/runtime_config/capture.py) *)

(** [next(owner for owner in sorted(owners, key=len, reverse=True) if ...)].
    Code: core/preflight/runtime_config/capture.py, _matched_sensitive_path_owner. *)
Definition matched_sensitive_path_owner (path prefix : string) (owner_names : list string) (suffix : string) : option string :=
  List.find (fun owner => str_startswith (prefix +:+ owner +:+ suffix) path)
    (sort_by (fun owner => - Z.of_nat (String.length owner)) owner_names).

(** Code: core/preflight/runtime_config/capture.py, _value_at_path. *)
Fixpoint value_at_path (current : json) (parts : list string) : option json :=
  match parts with
  | [] => Some current
  | part :: rest =>
      match current with
      | JObj fields => match dget fields part with Some child => value_at_path child rest | None => None end
      | JList l =>
          if all_digits part then match l !! digits_value part with Some child => value_at_path child rest | None => None end
          else None
      | _ => None
      end
  end.

(** [s.split(".", 1)]. *)
Definition split_first_dot (s : string) : list string :=
  let l := chars s in
  let before := take_while (fun c => negb (bool_decide (c = "."%char))) l in
  if (length before =? length l)%nat then [s] else [of_chars before; of_chars (drop (S (length before)) l)].

(** Code: core/preflight/runtime_config/capture.py, _raw_agent_config_value. *)
Definition raw_agent_config_value (raw_agents : dict json) (path : string) : option json :=
  agent_name ← matched_sensitive_path_owner path "agents." (dkeys raw_agents) ".";
  let relative_path := removeprefix ("agents." +:+ agent_name +:+ ".") path in
  let parts := if str_startswith "environment." relative_path then split_first_dot relative_path
               else str_split_on "."%char relative_path in
  agent ← dget raw_agents agent_name;
  value_at_path agent parts.

(** Code: core/preflight/runtime_config/capture.py, _raw_workspace_setup_profile_value. *)
Definition raw_workspace_setup_profile_value (raw_workspace : dict json) (path : string) : option json :=
  match dget raw_workspace "setup_profiles" with
  | Some (JObj profiles) =>
      profile_name ← matched_sensitive_path_owner path "workspace.setup_profiles." (dkeys profiles) ".run.";
      let relative_path := removeprefix ("workspace.setup_profiles." +:+ profile_name +:+ ".") path in
      profile ← dget profiles profile_name;
      value_at_path profile (str_split_on "."%char relative_path)
  | _ => None
  end.

(** Code: core/preflight/runtime_config/capture.py, _raw_integration_config_value. *)
Definition raw_integration_config_value (raw_invoker raw_artifacts raw_ui : option CanonicalIntegrationConfig) (path : string)
    : outcome (option json) :=
  parts ← parse_json_pointer path;
  let integration :=
    if bool_decide (take 3 parts = ["integrations"; "invoker"; "options"]) then Some raw_invoker
    else if bool_decide (take 3 parts = ["integrations"; "artifacts"; "options"]) then Some raw_artifacts
    else if bool_decide (take 3 parts = ["integrations"; "ui"; "options"]) then Some raw_ui
    else None in
  mret match integration with
       | None => None
       | Some c => value_at_path (JObj match c with Some c => ic_options c | None => [] end) (drop 3 parts)
       end.

(** ** Resolving handles (runtime/execution/runtime_context.py) *)

Section Resolve.
Context (secret_context : dict json).

(** Code: runtime/execution/runtime_context.py, resolve_secret_config_values. *)
Fixpoint resolve_secret_config_values (payload : json) : outcome json :=
  match payload with
  | JList l =>
      items ← mapM (fun o : outcome json => o) (map resolve_secret_config_values l);
      mret (JList items)
  | JObj fields =>
      if bool_decide (dget fields "redacted" = Some (JBool true)) then
        match dget fields "value_handle" with
        | Some (JStr handle) =>
            match dget secret_context handle with
            | Some value => Ok value
            | None => Raise (ValueError ("Runtime secret handle " +:+ quoted handle +:+ " is unavailable."))
            end
        | _ => Raise (ValueError "Redacted runtime config value is missing a secret handle.")
        end
      else
        items ← mapM (fun '(k, o) => v ← (o : outcome json); mret (k, v))
          (map (fun '(k, v) => (k, resolve_secret_config_values v)) fields);
        mret (JObj items)
  | _ => Ok payload
  end.

End Resolve.

(** Code: runtime/workspace/setup.py, _resolve_setup_argv. *)
Definition resolve_setup_argv (argv : list json) (secret_context : option (dict json)) : outcome (list string) :=
  mapM (fun token =>
    match token with
    | JStr s => Ok s
    | JObj fields =>
        match dget fields "value_handle" with
        | Some (JStr handle) =>
            let unavailable := Raise (ValueError ("Workspace setup secret handle " +:+ quoted handle +:+ " is unavailable.")) in
            match secret_context with
            | None => unavailable
            | Some context => match secret_get context handle with Raise (KeyError _) => unavailable | o => o end
            end
        | _ => Raise (ValueError "Redacted workspace setup argv is missing a value handle.")
        end
    | _ => Raise (OtherError "AttributeError" "get")
    end) argv.
