(* ===== verification/RedactionSpec.v ===== *)
(** What redaction hides and what handles restore. *)

From Stdlib Require Import ZArith Lia Ascii String.
From stdpp Require Import base gmap sets list strings pretty sorting.
From S2P Require Import Prelude PyStr StateExn Models Scheduler Artifacts RunState PlanRecords PlanContract Foreach ForeachSpec.
From S2P Require Import PreflightState Redaction.

Open Scope string_scope.
Open Scope list_scope.
Open Scope Z_scope.

(** ** JSON values and sorting *)

Section JsonInduction.
Context (P : json -> Prop).
Hypothesis (Hscalar : forall v, is_container v = false -> P v).
Hypothesis (Hlist : forall l, Forall P l -> P (JList l)).
Hypothesis (Hobj : forall f, Forall (fun kv => P (snd kv)) f -> P (JObj f)).

(** Induction on values with the children of containers. *)
Lemma json_children_ind v : P v.
Proof.
  revert v. fix IH 1. intros [| | | | |l|f]; try (by apply Hscalar).
  - apply Hlist. induction l as [|v l IHl]; constructor; [apply IH | exact IHl].
  - apply Hobj. induction f as [|[k v] f IHf]; constructor; [apply IH | exact IHf].
Qed.
End JsonInduction.

Lemma insert_key_Permutation {A} (key : A -> string) x l : insert_key key x l ≡ₚ x :: l.
Proof. induction l as [|y l IH]; simpl; [done|]. case_match; [done|]. rewrite IH. constructor. Qed.

Lemma sort_key_Permutation {A} (key : A -> string) l : sort_key key l ≡ₚ l.
Proof. induction l as [|x l IH]; simpl; [done|]. by rewrite insert_key_Permutation, IH. Qed.

(** Sorting looks at keys only. *)
Lemma insert_key_Forall2 {A B} (ka : A -> string) (kb : B -> string) (R : A -> B -> Prop) x y l m :
  (forall a b, R a b -> ka a = kb b) -> R x y -> Forall2 R l m -> Forall2 R (insert_key ka x l) (insert_key kb y m).
Proof.
  intros HR Hxy. induction 1 as [|a b l m Hab Hlm IH]; simpl; [by repeat constructor|].
  rewrite (HR x y), (HR a b) by done. case_match; by repeat constructor.
Qed.

Lemma sort_key_Forall2 {A B} (ka : A -> string) (kb : B -> string) (R : A -> B -> Prop) l m :
  (forall a b, R a b -> ka a = kb b) -> Forall2 R l m -> Forall2 R (sort_key ka l) (sort_key kb m).
Proof. intros HR. induction 1; simpl; [constructor|]. by apply insert_key_Forall2. Qed.

Lemma sort_key_map {A B} (ka : A -> string) (kb : B -> string) (f : A -> B) l :
  (forall a, kb (f a) = ka a) -> sort_key kb (map f l) = map f (sort_key ka l).
Proof.
  intros Hf. induction l as [|x l IH]; simpl; [done|]. rewrite IH. generalize (sort_key ka l). intros m.
  induction m as [|y m IHm]; simpl; [done|]. rewrite !Hf. case_match; [done|]. simpl. by rewrite IHm.
Qed.

Lemma str_leb_trans a b c : String.leb a b = true -> String.leb b c = true -> String.leb a c = true.
Proof.
  unfold String.leb. revert b c. induction a as [|x a IH]; intros [|y b] [|z c]; simpl; try done.
  destruct (Ascii.compare x y) eqn:Hxy; [|intros _|done].
  - apply Ascii.compare_eq_iff in Hxy as ->. destruct (Ascii.compare y z); [apply IH | done | done].
  - destruct (Ascii.compare y z) eqn:Hyz; [|intros _|done].
    + apply Ascii.compare_eq_iff in Hyz as ->. by rewrite Hxy.
    + unfold Ascii.compare in *. rewrite (proj2 (N.compare_lt_iff _ _)); [done|]. rewrite N.compare_lt_iff in *. lia.
Qed.

Section StableSort.
Context {A : Type} (key : A -> string).

Lemma insert_key_comm x y l : key x <> key y -> insert_key key x (insert_key key y l) = insert_key key y (insert_key key x l).
Proof.
  intros Hne. assert (Hxy : String.leb (key x) (key y) = negb (String.leb (key y) (key x))).
  { destruct (String.leb (key x) (key y)) eqn:H1, (String.leb (key y) (key x)) eqn:H2; try done.
    - by apply String.leb_antisym in H1.
    - destruct (String.leb_total (key x) (key y)); congruence. }
  induction l as [|z l IH]; simpl.
  - rewrite Hxy. by destruct (String.leb (key y) (key x)).
  - destruct (String.leb (key x) (key z)) eqn:Hxz, (String.leb (key y) (key z)) eqn:Hyz; simpl; rewrite ?Hxz, ?Hyz.
    + rewrite Hxy. by destruct (String.leb (key y) (key x)).
    + destruct (String.leb (key y) (key x)) eqn:Hyx; [|done]. by rewrite (str_leb_trans _ _ _ Hyx Hxz) in Hyz.
    + rewrite Hxy. destruct (String.leb (key y) (key x)) eqn:Hyx; simpl; [done|]. exfalso. simpl in Hxy.
      by rewrite (str_leb_trans _ _ _ Hxy Hyz) in Hxz.
    + by rewrite IH.
Qed.

Lemma foldr_insert_key x (m l : list A) :
  foldr (insert_key key) l (insert_key key x m) = insert_key key x (foldr (insert_key key) l m).
Proof.
  induction m as [|y m IH]; simpl; [done|]. destruct (String.leb (key x) (key y)) eqn:Hxy; simpl; [done|].
  rewrite IH. apply insert_key_comm. intros He. rewrite He in Hxy. by destruct (String.leb_total (key y) (key y)); congruence.
Qed.

Lemma sort_key_app (l m : list A) : sort_key key (l ++ m) = foldr (insert_key key) (sort_key key m) (sort_key key l).
Proof. induction l as [|x l IH]; simpl; [done|]. by rewrite foldr_insert_key, IH. Qed.

(** Lists that sort alike. *)
Definition sorts_alike (l m : list A) : Prop := sort_key key l = sort_key key m.

#[global] Instance sorts_alike_equiv : Equivalence sorts_alike.
Proof. unfold sorts_alike. split; [by intros ? | by intros ? ? -> | by intros ? ? ? -> ->]. Qed.

#[global] Instance app_sorts_alike : Proper (sorts_alike ==> sorts_alike ==> sorts_alike) app.
Proof. intros l l' Hl m m' Hm. unfold sorts_alike in *. by rewrite !sort_key_app, Hl, Hm. Qed.

(** An element whose key occurs once may be anywhere. *)
Lemma sorts_alike_move x (l : list A) : Forall (fun y => key x <> key y) l -> sorts_alike (l ++ [x]) (x :: l).
Proof.
  unfold sorts_alike. induction 1 as [|y l Hne _ IH]; [done|]. simpl in *. rewrite IH. symmetry. by apply insert_key_comm.
Qed.

End StableSort.

Lemma insert_str_sorted x l : StronglySorted (fun a b => String.leb a b = true) l -> StronglySorted (fun a b => String.leb a b = true) (insert_str x l).
Proof.
  induction 1 as [|y l Hs IH Hy]; simpl; [repeat constructor|]. destruct (String.leb x y) eqn:Hxy.
  - constructor; [by constructor|]. constructor; [done|]. eapply Forall_impl; [exact Hy|]. intros z. by apply str_leb_trans.
  - constructor; [done|]. rewrite insert_str_Permutation. constructor; [|done]. by destruct (String.leb_total x y) as [H|H]; [rewrite H in Hxy|].
Qed.

Lemma sorted_str_perm l m : l ≡ₚ m -> sorted_str l = sorted_str m.
Proof.
  intros Hp.
  assert (Hs : forall l, StronglySorted (fun a b => String.leb a b = true) (sorted_str l)).
  { intros k. induction k; simpl; [constructor | by apply insert_str_sorted]. }
  assert (AntiSymm (=) (fun a b => String.leb a b = true)) by (intros a b; apply String.leb_antisym).
  apply (StronglySorted_unique (fun a b => String.leb a b = true)); [done|done|by rewrite !sorted_str_Permutation].
Qed.

Lemma mapM_Ok_map {A B} (f : A -> B) (l : list A) : mapM (fun x => (Ok (f x) : outcome B)) l = Ok (map f l).
Proof. induction l as [|x l IH]; simpl; [done|]. by rewrite IH. Qed.

Lemma map_from_map {A B C} (g : B -> C) (f : nat -> A -> B) i l : map g (map_from f i l) = map_from (fun i x => g (f i x)) i l.
Proof. revert i. induction l as [|x l IH]; intros i; simpl; [done|]. by rewrite IH. Qed.

Lemma map_from_ext {A B} (f g : nat -> A -> B) i l :
  (forall j x, (i <= j)%nat -> l !! (j - i)%nat = Some x -> f j x = g j x) -> map_from f i l = map_from g i l.
Proof.
  revert i. induction l as [|x l IH]; intros i H; simpl; [done|]. f_equal.
  - apply H; [lia|]. by rewrite Nat.sub_diag.
  - apply IH. intros j y Hj Hl. apply H; [lia|]. replace (j - i)%nat with (S (j - S i)) by lia. done.
Qed.

(** ** A top-down description of redaction *)

Definition assignment (v : json) : bool := match v with JStr s => sensitive_argv s && has_equals s | _ => false end.

(** The first extra argument is the value of the last flag of the command. *)
Definition ends_with_flag (fields : dict json) : bool := is_some (command_field_boundary_secret fields []).

Definition index_str (i : nat) : string := str_int (Z.of_nat i).

(** The arguments of a command; [after] tells whether the previous one is a
    sensitive flag. *)
Definition arguments {A} (leaf rest : nat -> json -> A) (argv : bool) : nat -> bool -> list json -> list A :=
  fix go i after l :=
    match l with
    | [] => []
    | c :: t => (if argv && (after || assignment c) then leaf i c else rest i c) :: go (S i) (split_flag c) t
    end.

(** The value with its secrets marked. *)
Fixpoint masked (mark : list string -> json -> json) (v : json) (path : list string) (parent : option string) (after : bool) : json :=
  if is_sensitive_config_value v path parent then mark path v
  else
    match v with
    | JObj f =>
        JObj (sorted_items (map (fun '(k, c) =>
          (k, masked mark c (path ++ [k]) None (bool_decide (k = "extra_args") && ends_with_flag f))) f))
    | JList l =>
        JList (arguments (fun i c => mark (path ++ [index_str i]) c)
                 (fun i c => masked mark c (path ++ [index_str i]) (last path) false) (is_argv_token_list path) 0 after l)
    | _ => v
    end.

(** The secrets of a value, with their paths. *)
Fixpoint secrets (v : json) (path : list string) (parent : option string) (after : bool) : list (list string * json) :=
  if is_sensitive_config_value v path parent then [(path, v)]
  else
    match v with
    | JObj f =>
        concat (map (fun '(k, c) => secrets c (path ++ [k]) None (bool_decide (k = "extra_args") && ends_with_flag f)) f)
    | JList l =>
        concat (arguments (fun i c => [(path ++ [index_str i], c)])
                  (fun i c => secrets c (path ++ [index_str i]) (last path) false) (is_argv_token_list path) 0 after l)
    | _ => []
    end.

(** What is recorded of the secrets, in the order of the keys. *)
Fixpoint printed {A} (print : list string -> json -> list A) (v : json) (path : list string) (parent : option string) (after : bool) : list A :=
  if is_sensitive_config_value v path parent then print path v
  else
    match v with
    | JObj f =>
        concat (map snd (sorted_items (map (fun '(k, c) =>
          (k, printed print c (path ++ [k]) None (bool_decide (k = "extra_args") && ends_with_flag f))) f)))
    | JList l =>
        concat (arguments (fun i c => print (path ++ [index_str i]) c)
                  (fun i c => printed print c (path ++ [index_str i]) (last path) false) (is_argv_token_list path) 0 after l)
    | _ => []
    end.

Definition no_dot (s : string) : bool := forallb (fun c => negb (bool_decide (c = "."%char))) (chars s).

(** Objects have distinct keys, and the fields of a command have no dots. *)
Fixpoint tidy (v : json) : bool :=
  match v with
  | JObj f =>
      bool_decide (NoDup (dkeys f)) && (negb (ends_with_flag f) || forallb no_dot (dkeys f)) && forallb (fun '(_, c) => tidy c) f
  | JList l => forallb tidy l
  | _ => true
  end.

(** *** Labels *)

Lemma no_dot_Forall s : no_dot s = true <-> Forall (fun c => c <> "."%char) (chars s).
Proof.
  unfold no_dot. rewrite Forall_forall. rewrite forallb_forall. setoid_rewrite list_elem_of_In.
  split; intros H c Hc; specialize (H c Hc); [by case_bool_decide | by rewrite bool_decide_false].
Qed.

Lemma label_cons k k' rest : path_label (k :: k' :: rest) = k +:+ "." +:+ path_label (k' :: rest).
Proof. reflexivity. Qed.

Lemma label_app path k rest : path <> [] -> path_label (path ++ k :: rest) = path_label path +:+ "." +:+ path_label (k :: rest).
Proof.
  induction path as [|a path IH]; [done|]. intros _. destruct path as [|b path].
  - reflexivity.
  - rewrite <- !app_comm_cons, !label_cons. rewrite app_comm_cons, IH by done. by rewrite !str_app_assoc.
Qed.

(** Labels with dot-free segments. *)
Lemma label_inj k k' rest rest' :
  no_dot k = true -> no_dot k' = true -> path_label (k :: rest) = path_label (k' :: rest') ->
  k = k' /\ (rest = [] <-> rest' = []) /\ (rest <> [] -> path_label rest = path_label rest').
Proof.
  rewrite !no_dot_Forall. intros Hk Hk' H. apply (f_equal chars) in H. destruct rest as [|a rest], rest' as [|b rest'].
  - unfold path_label in H. simpl in H. apply (f_equal of_chars) in H. rewrite !of_chars_chars in H. naive_solver.
  - rewrite label_cons, !chars_app in H. unfold path_label in H at 1. simpl in H. rewrite H in Hk. apply Forall_app in Hk as [_ Hk].
    by inversion Hk.
  - rewrite label_cons, !chars_app in H. unfold path_label in H at 2. simpl in H. rewrite <- H in Hk'. apply Forall_app in Hk' as [_ Hk'].
    by inversion Hk'.
  - rewrite !label_cons, !chars_app in H. apply dot_split_inj in H as [H1 H2]; [|done|done].
    apply (f_equal of_chars) in H1, H2. rewrite !of_chars_chars in H1. split; [done|]. split; [done|]. intros _.
    rewrite <- (of_chars_chars (path_label (a :: rest))), <- (of_chars_chars (path_label (b :: rest'))). exact H2.
Qed.

(** *** Where secrets are *)

Lemma arguments_elem {A} (leaf rest : nat -> json -> list A) argv i after l x :
  x ∈ concat (arguments leaf rest argv i after l) ->
  exists j c, l !! j = Some c /\ (x ∈ leaf (i + j)%nat c \/ x ∈ rest (i + j)%nat c).
Proof.
  revert i after. induction l as [|c l IH]; intros i after; simpl; [intros H; by apply not_elem_of_nil in H|].
  rewrite elem_of_app. intros [H|H].
  - exists 0%nat, c. split; [done|]. rewrite Nat.add_0_r. destruct (argv && _); auto.
  - destruct (IH _ _ H) as (j & c' & Hj & Hx). exists (S j), c'. split; [done|]. by rewrite Nat.add_succ_r.
Qed.

Lemma container_not_sensitive v path parent : is_container v = true -> is_sensitive_config_value v path parent = false.
Proof. intros Hv. unfold is_sensitive_config_value. destruct (last path); [|done]. case_match; by destruct v. Qed.

Lemma secrets_under v path parent after p raw :
  (p, raw) ∈ secrets v path parent after -> exists q, p = path ++ q.
Proof.
  revert path parent after. induction v as [v Hv|l IH|f IH] using json_children_ind; intros path parent after.
  - destruct v; try done; cbn [secrets]; destruct (is_sensitive_config_value _ _ _); try (intros H; by apply not_elem_of_nil in H);
      intros [= -> ->]%list_elem_of_singleton; exists []; by rewrite app_nil_r.
  - cbn [secrets]. rewrite container_not_sensitive by done.
    intros (j & c & Hj & [H|H])%arguments_elem; simpl in H.
    + apply list_elem_of_singleton in H as [= -> ->]. by eexists.
    + rewrite Forall_forall in IH. destruct (IH c (list_elem_of_lookup_2 _ _ _ Hj) _ _ _ H) as [q ->]. rewrite <- app_assoc. by eexists.
  - cbn [secrets]. rewrite container_not_sensitive by done.
    rewrite elem_of_list_concat. intros (l & H & Hl). apply list_elem_of_fmap in Hl as ([k c] & -> & Hf).
    rewrite Forall_forall in IH. destruct (IH _ Hf _ _ _ H) as [q ->]. rewrite <- app_assoc. by eexists.
Qed.

(** *** Redaction is masking *)

Lemma argv_indices_ge i j after l : i ∈ argv_indices_from j after l -> (j <= i)%nat.
Proof.
  revert j after. induction l as [|c l IH]; intros j after; simpl; [intros H; by apply not_elem_of_nil in H|].
  rewrite elem_of_app. intros [H|H]; [|apply IH in H; lia]. destruct (after || _); [|by apply not_elem_of_nil in H].
  apply list_elem_of_singleton in H. lia.
Qed.

Lemma arguments_map_from {A} (leaf rest : nat -> json -> A) argv (found : list nat) i after l :
  (forall j, (i <= j)%nat -> j ∈ found <-> argv = true /\ j ∈ argv_indices_from i after l) ->
  map_from (fun j c => if bool_decide (j ∈ found) then leaf j c else rest j c) i l = arguments leaf rest argv i after l.
Proof.
  revert i after. induction l as [|c l IH]; intros i after Hf; simpl; [done|]. f_equal.
  - assert (Hi : i ∈ found <-> argv = true /\ (after || assignment c) = true).
    { rewrite Hf by lia. simpl. unfold assignment. rewrite elem_of_app. destruct (after || _) eqn:Ha.
      - split; [intros [? _]; done|]. intros [? _]. split; [done|]. left. by apply list_elem_of_singleton.
      - split; [|naive_solver]. intros [_ [H|H]]; [by apply not_elem_of_nil in H | apply argv_indices_ge in H; lia]. }
    destruct (argv && _) eqn:Hb.
    + apply andb_true_iff in Hb. by rewrite bool_decide_true by (by apply Hi).
    + rewrite bool_decide_false; [done|]. rewrite Hi. by apply andb_false_iff in Hb as [-> | ->]; intros [? ?].
  - apply IH. intros j Hj. rewrite Hf by lia. simpl. rewrite elem_of_app. split; [|naive_solver].
    intros [? [H|H]]; [|done]. destruct (after || _); [|by apply not_elem_of_nil in H]. apply list_elem_of_singleton in H. lia.
Qed.

Lemma mapM_results (f : nat -> json -> outcome Redaction) (V : nat -> json -> json) (W : nat -> json -> list string)
    (P : nat -> json -> list FingerprintRecord) i l :
  (forall j c, l !! j = Some c -> exists r, f (i + j)%nat c = Ok r /\ rx_value r = V (i + j)%nat c /\ rx_paths r ≡ₚ W (i + j)%nat c /\
     sorts_alike fr_path (rx_fingerprints r) (P (i + j)%nat c)) ->
  exists rs, mapM (fun o : outcome Redaction => o) (map_from f i l) = Ok rs /\ map rx_value rs = map_from V i l /\
             concat (map rx_paths rs) ≡ₚ concat (map_from W i l) /\
             sorts_alike fr_path (concat (map rx_fingerprints rs)) (concat (map_from P i l)).
Proof.
  revert i. induction l as [|c l IH]; intros i Hf; [by exists []|]. destruct (Hf 0%nat c) as (r & Hr & Hv & Hw & Hp); [done|].
  rewrite Nat.add_0_r in *. destruct (IH (S i)) as (rs & Hrs & Hvs & Hws & Hps).
  { intros j c' Hj. specialize (Hf (S j) c' Hj). by rewrite Nat.add_succ_r in Hf. }
  exists (r :: rs). simpl. rewrite Hr. simpl. rewrite Hrs. simpl. split; [done|]. rewrite Hv, Hvs, Hw, Hws. by rewrite Hp, Hps.
Qed.

Lemma mapM_fields (g : string -> json -> outcome Redaction) (V : string -> json -> json) (W : string -> json -> list string)
    (P : string -> json -> list FingerprintRecord) f :
  (forall k c, (k, c) ∈ f -> exists r, g k c = Ok r /\ rx_value r = V k c /\ rx_paths r ≡ₚ W k c /\
     sorts_alike fr_path (rx_fingerprints r) (P k c)) ->
  exists rs : dict Redaction,
    mapM (fun '(k, o) => r ← (o : outcome Redaction); mret (k, r)) (map (fun '(k, c) => (k, g k c)) f) = Ok rs /\
    map (fun '(k, r) => (k, rx_value r)) rs = map (fun '(k, c) => (k, V k c)) f /\
    concat (map (fun '(_, r) => rx_paths r) rs) ≡ₚ concat (map (fun '(k, c) => W k c) f) /\
    sorts_alike fr_path (concat (map (fun '(_, r) => rx_fingerprints r) rs)) (concat (map (fun '(k, c) => P k c) f)).
Proof.
  induction f as [|[k c] f IH]; intros Hf; [by exists []|]. destruct (Hf k c) as (r & Hr & Hv & Hw & Hp); [left|].
  destruct IH as (rs & Hrs & Hvs & Hws & Hps); [intros; apply Hf; by right|]. exists ((k, r) :: rs). simpl. rewrite Hr. simpl.
  rewrite Hrs. simpl. split; [done|]. rewrite Hv, Hvs, Hw, Hws. by rewrite Hp, Hps.
Qed.

Lemma ends_with_flag_cases f path :
  if ends_with_flag f
  then exists s t, dget f "extra_args" = Some (JList (JStr s :: t)) /\
       command_field_boundary_secret f path = Some (JStr s, path ++ ["extra_args"; "0"])
  else command_field_boundary_secret f path = None.
Proof.
  unfold ends_with_flag, command_field_boundary_secret. destruct (dget f "cli_cmd") as [[| | | | |cmd|]|]; try done.
  destruct (dget f "extra_args") as [[| | | | |[|[| | | |s| |] t]|]|]; try done.
  destruct (last cmd) as [flag|]; [|done]. destruct (split_flag flag); [|done]. simpl. eauto.
Qed.

(** The first extra argument is secret by itself. *)
Definition own_secret (path : list string) (s : string) : bool :=
  assignment (JStr s) || is_sensitive_config_value (JStr s) (path ++ ["extra_args"; "0"]) (Some "extra_args").

Definition further_arguments {A} (leaf rest : nat -> json -> A) (s : string) (t : list json) : list A :=
  arguments leaf rest true 1 (split_flag (JStr s)) t.

Lemma extra_args_list path : is_argv_token_list (path ++ ["extra_args"]) = true.
Proof. unfold is_argv_token_list. by rewrite reverse_app. Qed.

Lemma extra_args_masked mark path s t after :
  masked mark (JList (JStr s :: t)) (path ++ ["extra_args"]) None after =
  JList ((if after || own_secret path s then mark (path ++ ["extra_args"; "0"]) (JStr s) else JStr s)
    :: further_arguments (fun i c => mark ((path ++ ["extra_args"]) ++ [index_str i]) c)
         (fun i c => masked mark c ((path ++ ["extra_args"]) ++ [index_str i]) (Some "extra_args") false) s t).
Proof.
  cbn [masked]. rewrite container_not_sensitive by done. rewrite extra_args_list, last_snoc. unfold own_secret, further_arguments. simpl.
  rewrite <- app_assoc. simpl. do 2 f_equal. change (index_str 0) with "0". destruct after; simpl; [done|].
  destruct (sensitive_argv s && has_equals s); simpl; [done|]. by destruct (is_sensitive_config_value _ _ _).
Qed.

Lemma extra_args_secrets path s t after :
  secrets (JList (JStr s :: t)) (path ++ ["extra_args"]) None after =
  (if after || own_secret path s then [(path ++ ["extra_args"; "0"], JStr s)] else [])
  ++ concat (further_arguments (fun i c => [((path ++ ["extra_args"]) ++ [index_str i], c)])
         (fun i c => secrets c ((path ++ ["extra_args"]) ++ [index_str i]) (Some "extra_args") false) s t).
Proof.
  cbn [secrets]. rewrite container_not_sensitive by done. rewrite extra_args_list, last_snoc. unfold own_secret, further_arguments. simpl.
  rewrite <- app_assoc. simpl. f_equal. change (index_str 0) with "0". destruct after; simpl; [done|].
  destruct (sensitive_argv s && has_equals s); simpl; [done|]. by destruct (is_sensitive_config_value _ _ _).
Qed.

Lemma extra_args_printed {A} (print : list string -> json -> list A) path s t after :
  printed print (JList (JStr s :: t)) (path ++ ["extra_args"]) None after =
  (if after || own_secret path s then print (path ++ ["extra_args"; "0"]) (JStr s) else [])
  ++ concat (further_arguments (fun i c => print ((path ++ ["extra_args"]) ++ [index_str i]) c)
         (fun i c => printed print c ((path ++ ["extra_args"]) ++ [index_str i]) (Some "extra_args") false) s t).
Proof.
  cbn [printed]. rewrite container_not_sensitive by done. rewrite extra_args_list, last_snoc. unfold own_secret, further_arguments. simpl.
  rewrite <- app_assoc. simpl. f_equal. change (index_str 0) with "0". destruct after; simpl; [done|].
  destruct (sensitive_argv s && has_equals s); simpl; [done|]. by destruct (is_sensitive_config_value _ _ _).
Qed.

Lemma index_str_inj i j : index_str i = index_str j -> i = j.
Proof. unfold index_str, str_int. intros H%(inj pretty). lia. Qed.

Lemma index_str_no_dot i : no_dot (index_str i) = true.
Proof. apply no_dot_Forall, str_int_no_dot. lia. Qed.

(** The label of the first extra argument names nothing else. *)
Lemma boundary_label_fresh f path s t k c p raw :
  path <> [] -> NoDup (dkeys f) -> forallb no_dot (dkeys f) = true -> dget f "extra_args" = Some (JList (JStr s :: t)) ->
  own_secret path s = false -> (k, c) ∈ f -> (p, raw) ∈ secrets c (path ++ [k]) None false ->
  path_label p <> path_label (path ++ ["extra_args"; "0"]).
Proof.
  intros Hpath Hnd Hdots He Hown Hk Hp Hl. destruct (secrets_under _ _ _ _ _ _ Hp) as [q ->].
  rewrite <- app_assoc in Hl. simpl in Hl. rewrite !label_app in Hl by done. apply app_inj_str, app_inj_str in Hl.
  assert (Hkd : no_dot k = true).
  { rewrite forallb_forall in Hdots. apply Hdots, list_elem_of_In. apply (list_elem_of_fmap_2 fst) in Hk. done. }
  apply label_inj in Hl as (-> & Hq & Hl); [|done|done]. rewrite (elem_of_dget f _ c) in He by done. injection He as ->.
  rewrite extra_args_secrets, Hown in Hp. simpl in Hp. unfold further_arguments in Hp. apply arguments_elem in Hp as (j & c & _ & Hin).
  assert (Hj : exists q', (path ++ ["extra_args"]) ++ q = (path ++ ["extra_args"]) ++ index_str (1 + j) :: q').
  { destruct Hin as [Hin|Hin]; [apply list_elem_of_singleton in Hin; injection Hin as Hin _; by exists []|].
    apply secrets_under in Hin as [q' Hin]. exists q'. by rewrite <- !app_assoc in *. }
  destruct Hj as [q' Hj]. apply app_inv_head in Hj as ->. specialize (Hl ltac:(done)). apply label_inj in Hl as (Hl & _); [|apply index_str_no_dot|done].
  change "0" with (index_str 0) in Hl. apply index_str_inj in Hl. lia.
Qed.

Definition labels (l : list (list string * json)) : list string := map (fun '(p, _) => path_label p) l.

Lemma labels_concat ls : labels (concat ls) = concat (map labels ls).
Proof. unfold labels. induction ls as [|l ls IH]; simpl; [done|]. by rewrite map_app, IH. Qed.

Lemma arguments_labels leaf rest argv i after l :
  map labels (arguments leaf rest argv i after l) = arguments (fun i c => labels (leaf i c)) (fun i c => labels (rest i c)) argv i after l.
Proof. revert i after. induction l as [|c l IH]; intros i after; simpl; [done|]. rewrite IH. by destruct (argv && _). Qed.

Lemma sorted_items_map {V W} (g : string -> V -> W) (f : dict V) :
  sorted_items (map (fun '(k, c) => (k, g k c)) f) = map (fun '(k, c) => (k, g k c)) (sorted_items f).
Proof. apply sort_key_map. by intros [k c]. Qed.

Lemma dset_map {V W} (g h : string -> V -> W) (f : dict V) key c :
  NoDup (dkeys f) -> dget f key = Some c -> (forall k v, k <> key -> g k v = h k v) ->
  dset (map (fun '(k, v) => (k, g k v)) f) key (h key c) = map (fun '(k, v) => (k, h k v)) f.
Proof.
  intros Hnd Hg Hext. induction f as [|[k v] f IH]; [done|]. unfold dkeys in Hnd. simpl in *. apply NoDup_cons in Hnd as [Hk Hnd].
  destruct (decide (key = k)) as [->|Hne].
  - injection Hg as ->. f_equal. apply map_ext_in. intros [k' v'] Hin. f_equal. apply Hext. intros ->. apply Hk.
    apply list_elem_of_fmap. exists (k, v'). split; [done | by apply list_elem_of_In].
  - rewrite IH by done. by rewrite Hext by done.
Qed.

Lemma dget_sorted_items {V} (f : dict V) key : NoDup (dkeys f) -> dget (sorted_items f) key = dget f key.
Proof.
  intros Hnd. symmetry. unfold dkeys in *. apply option_eq. intros v. pose proof (sort_key_Permutation fst f) as Hp.
  assert (Hnd' : NoDup (map fst (sorted_items f))) by (unfold sorted_items; by rewrite Hp).
  split; intros H; apply dget_elem_of in H; apply elem_of_dget; try done; unfold sorted_items in *; by rewrite Hp in *.
Qed.

Lemma NoDup_dkeys_sorted {V} (f : dict V) : NoDup (dkeys f) -> NoDup (dkeys (sorted_items f)).
Proof. intros H. unfold dkeys, sorted_items in *. by rewrite sort_key_Permutation. Qed.

Lemma dget_map_key {V W} (g : string -> V -> W) (d : dict V) k :
  dget (map (fun '(k, v) => (k, g k v)) d) k = g k <$> dget d k.
Proof. induction d as [|[k' v] d IH]; simpl; [done|]. by destruct (decide (k = k')) as [->|]. Qed.

Section Masking.
Context {hmac : HmacLibrary} (key : option string) (out : RedactionOutput).

Definition mark (path : list string) (v : json) : json := rx_value (redacted_sensitive_leaf key out v path).

Lemma leaf_paths v path : rx_paths (redacted_sensitive_leaf key out v path) = [path_label path].
Proof. unfold redacted_sensitive_leaf. by destruct (config_fingerprint _ _ _). Qed.

(** What is recorded of a secret. *)
Definition print (path : list string) (v : json) : list FingerprintRecord := rx_fingerprints (redacted_sensitive_leaf key out v path).

Lemma print_cases path v : print path v = [] \/ exists x, print path v = [x] /\ fr_path x = path_label path.
Proof. unfold print, redacted_sensitive_leaf. destruct (config_fingerprint _ _ _); [right | by left]. by eexists. Qed.

Lemma print_labelled path v x : x ∈ print path v -> fr_path x = path_label path.
Proof.
  destruct (print_cases path v) as [->|(y & -> & Hy)]; [intros H; by apply not_elem_of_nil in H|]. by intros ->%list_elem_of_singleton.
Qed.

Lemma printed_obj f path parent after :
  printed print (JObj f) path parent after =
  concat (map (fun '(k, c) => printed print c (path ++ [k]) None (bool_decide (k = "extra_args") && ends_with_flag f)) (sorted_items f)).
Proof.
  cbn [printed]. rewrite container_not_sensitive by done.
  rewrite (sorted_items_map (fun k c => printed print c (path ++ [k]) None (bool_decide (k = "extra_args") && ends_with_flag f))), map_map.
  f_equal. apply map_ext. by intros [].
Qed.

(** Only secrets are recorded, under their labels. *)
Lemma printed_labelled v path parent after x : x ∈ printed print v path parent after -> fr_path x ∈ labels (secrets v path parent after).
Proof.
  revert path parent after. induction v as [v Hv|l IH|f IH] using json_children_ind; intros path parent after.
  - destruct v; try done; cbn [printed secrets]; destruct (is_sensitive_config_value _ _ _); try (intros H; by apply not_elem_of_nil in H);
      intros ->%print_labelled; by apply list_elem_of_singleton.
  - cbn [printed secrets]. rewrite container_not_sensitive by done. generalize 0%nat.
    induction IH as [|c l Hc _ IHl] in after |- *; intros n; simpl; [intros H; by apply not_elem_of_nil in H|].
    rewrite elem_of_app. unfold labels. rewrite map_app. rewrite elem_of_app. intros [H|H].
    + left. destruct (_ && _); [apply print_labelled in H as ->; by apply list_elem_of_singleton | by apply Hc].
    + right. by apply IHl.
  - rewrite printed_obj. cbn [secrets]. rewrite container_not_sensitive by done. rewrite labels_concat, map_map.
    intros (l & Hx & Hl)%elem_of_list_concat. apply list_elem_of_fmap in Hl as ([k c] & -> & Hk). unfold sorted_items in Hk.
    rewrite sort_key_Permutation in Hk. rewrite Forall_forall in IH. apply elem_of_list_concat.
    eexists. split; [by apply (IH _ Hk) in Hx|]. apply list_elem_of_fmap. by exists (k, c).
Qed.

(** Every secret is recorded. *)
Lemma secrets_printed v path parent after p raw x :
  (p, raw) ∈ secrets v path parent after -> x ∈ print p raw -> x ∈ printed print v path parent after.
Proof.
  intros Hin Hx. revert path parent after Hin. induction v as [v Hv|l IH|f IH] using json_children_ind; intros path parent after.
  - destruct v; try done; cbn [printed secrets]; destruct (is_sensitive_config_value _ _ _); try (intros H; by apply not_elem_of_nil in H);
      by intros [= -> ->]%list_elem_of_singleton.
  - cbn [printed secrets]. rewrite container_not_sensitive by done. generalize 0%nat.
    induction IH as [|c l Hc _ IHl] in after |- *; intros n; simpl; [intros H; by apply not_elem_of_nil in H|].
    rewrite !elem_of_app. intros [H|H]; [left | right; by apply IHl].
    destruct (_ && _); [by apply list_elem_of_singleton in H as [= -> ->] | by apply Hc].
  - rewrite printed_obj. cbn [secrets]. rewrite container_not_sensitive by done.
    intros (l & Hp & Hl)%elem_of_list_concat. apply list_elem_of_fmap in Hl as ([k c] & -> & Hk).
    rewrite Forall_forall in IH. apply elem_of_list_concat. eexists. split; [by apply (IH _ Hk) in Hp|].
    apply list_elem_of_fmap. exists (k, c). split; [done|]. unfold sorted_items. by rewrite sort_key_Permutation.
Qed.

Definition describes (v : json) (path : list string) (parent : option string) (after : bool) (r : Redaction) : Prop :=
  rx_value r = masked mark v path parent after /\ rx_paths r ≡ₚ labels (secrets v path parent after) /\
  sorts_alike fr_path (rx_fingerprints r) (printed print v path parent after).

Lemma redact_list l path parent :
  path <> [] ->
  Forall (fun c => tidy c = true -> forall path parent, path <> [] ->
            exists r, redact_sensitive_value key out c path parent = Ok r /\ describes c path parent false r) l ->
  tidy (JList l) = true -> exists r, redact_sensitive_value key out (JList l) path parent = Ok r /\ describes (JList l) path parent false r.
Proof.
  intros Hpath IH Ht. cbn [redact_sensitive_value]. rewrite container_not_sensitive by done. cbv zeta.
  destruct (mapM_results (fun i child =>
             if bool_decide (i ∈ sensitive_argv_indices l path) then Ok (redacted_sensitive_leaf key out child (path ++ [str_int (Z.of_nat i)]))
             else redact_sensitive_value key out child (path ++ [str_int (Z.of_nat i)]) (last path))
      (fun i c => if bool_decide (i ∈ sensitive_argv_indices l path) then mark (path ++ [index_str i]) c
                  else masked mark c (path ++ [index_str i]) (last path) false)
      (fun i c => labels (if bool_decide (i ∈ sensitive_argv_indices l path) then [(path ++ [index_str i], c)]
                  else secrets c (path ++ [index_str i]) (last path) false))
      (fun i c => if bool_decide (i ∈ sensitive_argv_indices l path) then print (path ++ [index_str i]) c
                  else printed print c (path ++ [index_str i]) (last path) false) 0 l) as (rs & Hrs & Hv & Hw & Hq).
  { intros j c Hj. simpl. destruct (bool_decide _).
    - eexists. split; [done|]. by rewrite leaf_paths.
    - rewrite Forall_forall in IH. apply IH; [by eapply list_elem_of_lookup_2| |by destruct path].
      simpl in Ht. rewrite forallb_forall in Ht. apply Ht, list_elem_of_In. by eapply list_elem_of_lookup_2. }
  rewrite Hrs. simpl. eexists. split; [done|]. unfold describes. cbn [masked secrets printed rx_value rx_paths rx_fingerprints].
  rewrite container_not_sensitive by done.
  assert (Hfound : forall j, (0 <= j)%nat -> j ∈ sensitive_argv_indices l path <->
            is_argv_token_list path = true /\ j ∈ argv_indices_from 0 false l).
  { intros j _. unfold sensitive_argv_indices. destruct (is_argv_token_list path); [naive_solver|].
    split; [intros H; by apply not_elem_of_nil in H | naive_solver]. }
  rewrite Hv, Hw, Hq. split_and!.
  - f_equal. by apply arguments_map_from.
  - rewrite labels_concat, arguments_labels, <- (arguments_map_from _ _ _ _ 0 false l Hfound).
    apply reflexive_eq. f_equal. apply map_from_ext. intros j x _ _. by destruct (bool_decide _).
  - by rewrite (arguments_map_from _ _ _ _ 0 false l Hfound).
Qed.

(** Where the boundary does not matter. *)
Lemma not_extra_args k f : ends_with_flag f = false \/ k <> "extra_args" -> bool_decide (k = "extra_args") && ends_with_flag f = false.
Proof. intros [-> | H]; [apply andb_false_r|]. by rewrite bool_decide_false. Qed.

Lemma field_secrets_perm (f g : dict json) (W : string -> json -> list (list string * json)) :
  f ≡ₚ g -> concat (map (fun '(k, c) => labels (W k c)) f) ≡ₚ labels (concat (map (fun '(k, c) => W k c) g)).
Proof.
  intros Hp. rewrite labels_concat, map_map, Hp. apply reflexive_eq. f_equal. apply map_ext. by intros [].
Qed.

(** The fields of an object with the first extra argument marked. *)
Lemma boundary_fields f path s t :
  path <> [] -> NoDup (dkeys f) -> forallb no_dot (dkeys f) = true -> ends_with_flag f = true ->
  dget f "extra_args" = Some (JList (JStr s :: t)) ->
  let redacted := map (fun '(k, c) => (k, masked mark c (path ++ [k]) None false)) (sorted_items f) in
  let marked := map (fun '(k, c) => (k, masked mark c (path ++ [k]) None (bool_decide (k = "extra_args") && ends_with_flag f))) (sorted_items f) in
  let before := labels (concat (map (fun '(k, c) => secrets c (path ++ [k]) None false) f)) in
  let all := labels (concat (map (fun '(k, c) => secrets c (path ++ [k]) None (bool_decide (k = "extra_args") && ends_with_flag f)) f)) in
  let label := path_label (path ++ ["extra_args"; "0"]) in
  if own_secret path s then label ∈ before /\ redacted = marked /\ before = all
  else label ∉ before /\ replace_first_extra_arg redacted (mark (path ++ ["extra_args"; "0"]) (JStr s)) = Ok marked /\
       before ++ [label] ≡ₚ all.
Proof.
  intros Hpath Hnd Hdots Hend He. cbv zeta. pose proof (dget_elem_of _ _ _ He) as Hin.
  assert (Hsecrets : forall b, labels (secrets (JList (JStr s :: t)) (path ++ ["extra_args"]) None b) =
            (if b || own_secret path s then [path_label (path ++ ["extra_args"; "0"])] else []) ++
            labels (concat (further_arguments (fun i c => [((path ++ ["extra_args"]) ++ [index_str i], c)])
              (fun i c => secrets c ((path ++ ["extra_args"]) ++ [index_str i]) (Some "extra_args") false) s t))).
  { intros b. rewrite extra_args_secrets. unfold labels. rewrite map_app. by destruct (b || _). }
  destruct (own_secret path s) eqn:Hown.
  - assert (Hsame : forall k c, (k, c) ∈ f -> masked mark c (path ++ [k]) None false =
              masked mark c (path ++ [k]) None (bool_decide (k = "extra_args") && ends_with_flag f) /\
              secrets c (path ++ [k]) None false = secrets c (path ++ [k]) None (bool_decide (k = "extra_args") && ends_with_flag f)).
    { intros k c Hk. destruct (decide (k = "extra_args")) as [->|Hne]; [|by rewrite not_extra_args by auto].
      rewrite (elem_of_dget f _ c) in He by done. injection He as ->. rewrite !extra_args_masked, !extra_args_secrets, Hown, !orb_true_r.
      done. }
    split; [|split].
    + apply list_elem_of_fmap. exists (path ++ ["extra_args"; "0"], JStr s).
      split; [done|]. apply elem_of_list_concat. eexists. split; [|apply list_elem_of_fmap; eexists; split; [reflexivity | exact Hin]].
      cbv beta iota. rewrite extra_args_secrets, Hown. apply elem_of_app. left. by apply list_elem_of_singleton.
    + apply map_ext_in. intros [k c] Hk. f_equal. apply Hsame. apply list_elem_of_In in Hk. unfold sorted_items in Hk. by rewrite sort_key_Permutation in Hk.
    + do 2 f_equal. apply map_ext_in. intros [k c] Hk. apply Hsame. by apply list_elem_of_In.
  - split; [|split].
    + intros Hl. unfold labels in Hl. apply list_elem_of_fmap in Hl as ([p raw] & Hl & H). apply elem_of_list_concat in H as (l & Hp & H).
      apply list_elem_of_fmap in H as ([k c] & -> & Hk).
      by apply (boundary_label_fresh f path s t k c p raw Hpath Hnd Hdots He Hown Hk Hp).
    + unfold replace_first_extra_arg.
      rewrite (dget_map_key (fun k c => masked mark c (path ++ [k]) None false)), dget_sorted_items, He by done. cbn [fmap option_fmap option_map].
      rewrite extra_args_masked. cbn iota. f_equal.
      rewrite <- (dset_map (fun k c => masked mark c (path ++ [k]) None false)
        (fun k c => masked mark c (path ++ [k]) None (bool_decide (k = "extra_args") && ends_with_flag f)) (sorted_items f) "extra_args"
        (JList (JStr s :: t))).
      * f_equal. rewrite Hend, andb_true_r, bool_decide_true by done. by rewrite extra_args_masked.
      * by apply NoDup_dkeys_sorted.
      * by rewrite dget_sorted_items.
      * intros k v Hk. by rewrite not_extra_args by auto.
    + apply elem_of_Permutation in Hin as [g Hg]. rewrite <- !(field_secrets_perm _ _ _ (symmetry Hg)). cbn [map concat].
      rewrite Hend, !Hsecrets, (bool_decide_true ("extra_args" = "extra_args")) by done. cbn [orb andb].
      rewrite app_nil_l, Permutation_app_comm, <- app_assoc. cbn [app]. constructor. apply reflexive_eq. f_equal. f_equal.
      apply map_ext_in. intros [k c] Hk. rewrite andb_true_r, bool_decide_false; [done|]. intros ->.
      assert (Hnd' : NoDup (dkeys (("extra_args", JList (JStr s :: t)) :: g))) by (unfold dkeys in *; by rewrite <- Hg).
      apply NoDup_cons in Hnd' as [Hnd' _]. apply Hnd'. apply list_elem_of_fmap. exists ("extra_args", c). split; [done|].
      by apply list_elem_of_In.
Qed.

(** The records of the fields when the first extra argument is marked. *)
Lemma boundary_prints f path s t :
  path <> [] -> NoDup (dkeys f) -> forallb no_dot (dkeys f) = true -> ends_with_flag f = true ->
  dget f "extra_args" = Some (JList (JStr s :: t)) ->
  let before := concat (map (fun '(k, c) => printed print c (path ++ [k]) None false) (sorted_items f)) in
  let all := concat (map (fun '(k, c) => printed print c (path ++ [k]) None (bool_decide (k = "extra_args") && ends_with_flag f)) (sorted_items f)) in
  if own_secret path s then before = all
  else sorts_alike fr_path (before ++ print (path ++ ["extra_args"; "0"]) (JStr s)) all.
Proof.
  intros Hpath Hnd Hdots Hend He. cbv zeta. pose proof (dget_elem_of _ _ _ He) as Hin.
  assert (Hsub : forall k c, (k, c) ∈ sorted_items f -> (k, c) ∈ f) by (intros k c; unfold sorted_items; by rewrite sort_key_Permutation).
  assert (Hsame : forall k c b, k <> "extra_args" -> printed print c (path ++ [k]) None (bool_decide (k = "extra_args") && b) = printed print c (path ++ [k]) None false).
  { intros k c b Hk. by rewrite bool_decide_false. }
  destruct (own_secret path s) eqn:Hown.
  - f_equal. apply map_ext_in. intros [k c] Hk%list_elem_of_In%Hsub. destruct (decide (k = "extra_args")) as [->|Hne]; [|by rewrite Hsame].
    rewrite (elem_of_dget f _ c) in He by done. injection He as ->. by rewrite !extra_args_printed, Hown, !orb_true_r.
  - assert (Hfresh : forall k c x, (k, c) ∈ f -> x ∈ printed print c (path ++ [k]) None false -> path_label (path ++ ["extra_args"; "0"]) <> fr_path x).
    { intros k c x Hk Hx%printed_labelled Hl. unfold labels in Hx. apply list_elem_of_fmap in Hx as ([p raw] & Hp & Hx).
      apply (boundary_label_fresh f path s t k c p raw Hpath Hnd Hdots He Hown Hk Hx). congruence. }
    assert (Hsorted : ("extra_args", JList (JStr s :: t)) ∈ sorted_items f) by (unfold sorted_items; by rewrite sort_key_Permutation).
    pose proof (NoDup_dkeys_sorted f Hnd) as Hnds. apply list_elem_of_split in Hsorted as (l1 & l2 & Hl). rewrite Hl in *.
    unfold dkeys in Hnds. rewrite map_app in Hnds. apply NoDup_app in Hnds as (_ & Hn1 & Hn2). simpl in Hn1, Hn2. apply NoDup_cons in Hn2 as [Hn2 _].
    assert (Hother : forall k c, (k, c) ∈ l1 \/ (k, c) ∈ l2 -> k <> "extra_args").
    { intros k c [H|H] ->; apply (list_elem_of_fmap_2 fst) in H; [by apply Hn1 in H; apply H; left | done]. }
    rewrite !map_app, !concat_app. cbn [map concat]. rewrite Hend, (bool_decide_true ("extra_args" = "extra_args")) by done. cbn [andb].
    rewrite !extra_args_printed, Hown. cbn [orb app].
    rewrite (map_ext_in (fun '(k, c) => printed print c (path ++ [k]) None (bool_decide (k = "extra_args") && true))
               (fun '(k, c) => printed print c (path ++ [k]) None false) l1) by (intros [k c] Hk%list_elem_of_In; eapply Hsame, Hother; eauto).
    rewrite (map_ext_in (fun '(k, c) => printed print c (path ++ [k]) None (bool_decide (k = "extra_args") && true))
               (fun '(k, c) => printed print c (path ++ [k]) None false) l2) by (intros [k c] Hk%list_elem_of_In; eapply Hsame, Hother; eauto).
    rewrite <- !app_assoc. f_equiv. destruct (print_cases (path ++ ["extra_args"; "0"]) (JStr s)) as [->|(x & -> & Hx)]; [by rewrite app_nil_r|].
    rewrite app_assoc. cbn [app]. apply sorts_alike_move. rewrite Hx. apply Forall_app. split.
    + apply Forall_forall. intros y Hy. apply (Hfresh "extra_args" (JList (JStr s :: t))); [done|]. by rewrite extra_args_printed, Hown.
    + apply Forall_forall. intros y (l & Hy & Hl2)%elem_of_list_concat. apply list_elem_of_fmap in Hl2 as ([k c] & -> & Hk).
      apply (Hfresh k c); [|done]. apply Hsub. apply elem_of_app. right. by right.
Qed.

Lemma redact_obj f path parent :
  path <> [] ->
  Forall (fun kc => tidy (snd kc) = true -> forall path parent, path <> [] ->
            exists r, redact_sensitive_value key out (snd kc) path parent = Ok r /\ describes (snd kc) path parent false r) f ->
  tidy (JObj f) = true -> exists r, redact_sensitive_value key out (JObj f) path parent = Ok r /\ describes (JObj f) path parent false r.
Proof.
  intros Hpath IH Ht. cbn [redact_sensitive_value]. rewrite container_not_sensitive by done.
  cbn [tidy] in Ht. rewrite !andb_true_iff, bool_decide_eq_true in Ht. destruct Ht as [[Hnd Hdots] Ht].
  rewrite (sorted_items_map (fun k c => redact_sensitive_value key out c (path ++ [k]) None)).
  pose proof (sort_key_Permutation fst f) as Hp. change (sort_key fst f) with (sorted_items f) in Hp.
  destruct (mapM_fields (fun k c => redact_sensitive_value key out c (path ++ [k]) None)
      (fun k c => masked mark c (path ++ [k]) None false) (fun k c => labels (secrets c (path ++ [k]) None false))
      (fun k c => printed print c (path ++ [k]) None false) (sorted_items f))
    as (rs & Hrs & Hv & Hw & Hq).
  { intros k c Hk. rewrite Hp in Hk. rewrite Forall_forall in IH. apply (IH _ Hk); [|by destruct path].
    rewrite forallb_forall in Ht. apply list_elem_of_In in Hk. apply (Ht _ Hk). }
  rewrite Hrs. cbn [mbind outcome_bind]. unfold redact_boundary. rewrite Hv.
  rewrite (field_secrets_perm _ _ (fun k c => secrets c (path ++ [k]) None false) Hp) in Hw.
  unfold describes. rewrite printed_obj. cbn [masked secrets]. rewrite container_not_sensitive by done.
  rewrite (sorted_items_map (fun k c => masked mark c (path ++ [k]) None (bool_decide (k = "extra_args") && ends_with_flag f))).
  pose proof (ends_with_flag_cases f path) as Hcases. destruct (ends_with_flag f) eqn:Hend.
  - destruct Hcases as (s & t & He & ->).
    pose proof (boundary_fields f path s t Hpath Hnd Hdots Hend He) as Hb. cbv zeta in Hb. rewrite Hend in Hb.
    pose proof (boundary_prints f path s t Hpath Hnd Hdots Hend He) as Hbp. cbv zeta in Hbp. rewrite Hend in Hbp. destruct (own_secret path s).
    + destruct Hb as (Hl & Hm & Hall). rewrite (proj2 (str_in_true _ _)) by (by rewrite Hw). eexists. split; [done|].
      cbn [rx_value rx_paths rx_fingerprints]. by rewrite Hw, Hm, Hall, Hq, Hbp.
    + destruct Hb as (Hl & Hm & Hall). destruct (str_in _ _) eqn:Hin; [apply str_in_true in Hin; by rewrite Hw in Hin|].
      change (rx_value (redacted_sensitive_leaf key out (JStr s) (path ++ ["extra_args"; "0"])))
        with (mark (path ++ ["extra_args"; "0"]) (JStr s)). rewrite Hm. eexists. split; [done|]. cbn [rx_value rx_paths rx_fingerprints].
      split_and!; [done | by rewrite leaf_paths, Hw|]. rewrite <- Hbp, Hq. done.
  - rewrite Hcases. eexists. split; [done|]. cbn [rx_value rx_paths rx_fingerprints]. rewrite Hw, Hq. split_and!; apply reflexive_eq.
    + f_equal. apply map_ext. intros [k c]. by rewrite andb_false_r.
    + do 2 f_equal. apply map_ext. intros [k c]. by rewrite andb_false_r.
    + f_equal. apply map_ext. intros [k c]. by rewrite andb_false_r.
Qed.

(** Redaction never fails, and masks exactly the secrets. *)
Lemma redact_is_masked v path parent :
  tidy v = true -> path <> [] ->
  exists r, redact_sensitive_value key out v path parent = Ok r /\ describes v path parent false r.
Proof.
  revert path parent. induction v as [v Hv|l IH|f IH] using json_children_ind; intros path parent Ht Hpath.
  - unfold describes. destruct v; try done; cbn [redact_sensitive_value masked secrets printed]; destruct (is_sensitive_config_value _ _ _);
      (eexists; split; [done|]); rewrite ?leaf_paths; done.
  - apply redact_list; [done| |done]. eapply Forall_impl; [exact IH|]. eauto.
  - apply redact_obj; [done| |done]. eapply Forall_impl; [exact IH|]. eauto.
Qed.

(** The fingerprint of every secret is recorded. *)
Lemma fingerprints_recorded f root p raw fingerprint fields records :
  tidy (JObj f) = true -> root <> [] -> out = Fingerprinted ->
  redact_sensitive_config_with_fingerprints f key root = Ok (fields, records) ->
  (p, raw) ∈ secrets (JObj f) root None false -> config_fingerprint key (path_label p) raw = Some fingerprint ->
  mkFingerprint (path_label p) fingerprint ∈ records.
Proof.
  intros Ht Hroot Hout Hrun Hin Hf. unfold redact_sensitive_config_with_fingerprints in Hrun.
  destruct (redact_is_masked (JObj f) root None Ht Hroot) as (r & Hr & _ & _ & Hp). rewrite <- Hout, Hr in Hrun. cbn [mbind outcome_bind] in Hrun.
  apply bind_Ok in Hrun as (? & _ & Hrun). injection Hrun as _ <-. rewrite Hp, sort_key_Permutation.
  apply (secrets_printed _ _ _ _ _ _ _ Hin). unfold print, redacted_sensitive_leaf. rewrite Hf. by apply list_elem_of_singleton.
Qed.

End Masking.

(** ** Only fingerprints matter *)

(** Argument lists that differ in secret arguments only. *)
Inductive items_agree (secret public : nat -> json -> json -> Prop) (argv : bool) : nat -> bool -> list json -> list json -> Prop :=
| items_nil i after : items_agree secret public argv i after [] []
| items_secret i after c c' l l' :
    argv && (after || assignment c) = true -> argv && (after || assignment c') = true -> secret i c c' -> split_flag c = split_flag c' ->
    items_agree secret public argv (S i) (split_flag c) l l' -> items_agree secret public argv i after (c :: l) (c' :: l')
| items_public i after c c' l l' :
    argv && (after || assignment c) = false -> argv && (after || assignment c') = false -> public i c c' -> split_flag c = split_flag c' ->
    items_agree secret public argv (S i) (split_flag c) l l' -> items_agree secret public argv i after (c :: l) (c' :: l').

Lemma arguments_agree {A} (secret public : nat -> json -> json -> Prop) (leaf rest leaf' rest' : nat -> json -> A) argv i after l l' :
  (forall i c c', secret i c c' -> leaf i c = leaf' i c') -> (forall i c c', c ∈ l -> public i c c' -> rest i c = rest' i c') ->
  items_agree secret public argv i after l l' -> arguments leaf rest argv i after l = arguments leaf' rest' argv i after l'.
Proof.
  intros Hs Hp H. revert Hp. induction H as [|i after c c' l l' Hc Hc' Hsec Hf H IH|i after c c' l l' Hc Hc' Hpub Hf H IH]; intros Hp; simpl; [done| |].
  all: rewrite Hc, Hc', Hf in *; f_equal; [|apply IH; intros; apply Hp; [by right | done]].
  - by apply Hs.
  - apply Hp; [left | done].
Qed.

Section Agreement.
Context (h h' : HmacLibrary) (key key' : option string).

(** The two secrets leave the same trace, each in its own world. *)
Definition same_fingerprint (label : string) (v v' : json) : Prop :=
  config_fingerprint (hmac := h) key label v = config_fingerprint (hmac := h') key' label v'.

(** Two configurations that differ in secrets only, and whose secrets have the
    same fingerprints (which is no condition without keys).  A secret is a
    scalar under a sensitive name, an argument that assigns to a sensitive name,
    and the argument after a sensitive flag, also when the flag ends the command
    and the argument is the first extra one. *)
Inductive agree : list string -> option string -> bool -> json -> json -> Prop :=
| agree_scalar path parent after v :
    is_container v = false -> is_sensitive_config_value v path parent = false -> agree path parent after v v
| agree_secret path parent after v v' :
    is_sensitive_config_value v path parent = true -> is_sensitive_config_value v' path parent = true ->
    same_fingerprint (path_label path) v v' -> agree path parent after v v'
| agree_list path parent after l l' :
    items_agree (fun i => same_fingerprint (path_label (path ++ [index_str i]))) (fun i => agree (path ++ [index_str i]) (last path) false)
      (is_argv_token_list path) 0 after l l' -> agree path parent after (JList l) (JList l')
| agree_obj path parent after f f' :
    ends_with_flag f = ends_with_flag f' ->
    Forall2 (fun kc kc' => fst kc = fst kc' /\
      agree (path ++ [fst kc]) None (bool_decide (fst kc = "extra_args") && ends_with_flag f) (snd kc) (snd kc')) f f' ->
    agree path parent after (JObj f) (JObj f').

Section Looks.
Context {A : Type} (m m' : list string -> json -> json) (p p' : list string -> json -> list A).
Hypothesis (Hm : forall path v v', same_fingerprint (path_label path) v v' -> m path v = m' path v').
Hypothesis (Hp : forall path v v', same_fingerprint (path_label path) v v' -> p path v = p' path v').

Definition looks_same (path : list string) (parent : option string) (after : bool) (v v' : json) : Prop :=
  masked m v path parent after = masked m' v' path parent after /\
  labels (secrets v path parent after) = labels (secrets v' path parent after) /\
  printed p v path parent after = printed p' v' path parent after.

Lemma secret_looks_same path parent after v v' :
  is_sensitive_config_value v path parent = true -> is_sensitive_config_value v' path parent = true ->
  same_fingerprint (path_label path) v v' -> looks_same path parent after v v'.
Proof.
  intros Hv Hv' Hs. unfold looks_same. destruct v, v'; try (by rewrite container_not_sensitive in Hv); try (by rewrite container_not_sensitive in Hv');
    cbn [masked secrets printed]; rewrite ?Hv, ?Hv'; (split_and!; [by apply Hm | done | by apply Hp]).
Qed.

Lemma agree_looks_same v v' path parent after : agree path parent after v v' -> looks_same path parent after v v'.
Proof.
  revert v' path parent after. induction v as [v Hv|l IH|f IH] using json_children_ind; intros v' path parent after Ha.
  - inversion Ha as [? ? ? ? _ Hs| | |]; subst; [|by apply secret_looks_same|done..].
    unfold looks_same. destruct v'; try done; cbn [masked secrets printed]; by rewrite Hs.
  - inversion Ha as [|? ? ? ? ? Hv ? ?|? ? ? ? l' Hi|]; subst; [done|by rewrite container_not_sensitive in Hv|].
    rewrite Forall_forall in IH. unfold looks_same. cbn [masked secrets printed]. rewrite !container_not_sensitive by done.
    rewrite !labels_concat, !arguments_labels. split_and!; f_equal.
    all: (eapply arguments_agree; [| |exact Hi]); [intros i c c' Hs; first [by apply Hm | by apply Hp | done]|].
    all: intros i c c' Hc Hag; cbv beta in Hag; by apply (IH c Hc _ _ _ _ Hag).
  - inversion Ha as [|? ? ? ? ? Hv ? ?| |? ? ? ? f' He Hf]; subst; [done|by rewrite container_not_sensitive in Hv|].
    unfold looks_same. cbn [masked secrets printed]. rewrite !container_not_sensitive by done. rewrite !labels_concat, !map_map.
    assert (Hboth : forall k c k' c', (k, c) ∈ f -> k = k' -> agree (path ++ [k]) None (bool_decide (k = "extra_args") && ends_with_flag f) c c' ->
              looks_same (path ++ [k]) None (bool_decide (k = "extra_args") && ends_with_flag f) c c').
    { intros k c k' c' Hk -> Hc. rewrite Forall_forall in IH. by apply (IH (k', c) Hk). }
    rewrite <- He. clear Ha He IH. revert Hf Hboth. generalize (ends_with_flag f). intros b Hf Hboth.
    assert (Hmap : forall (B : Type) (g g' : string -> json -> B),
              (forall k c c', looks_same (path ++ [k]) None (bool_decide (k = "extra_args") && b) c c' -> g k c = g' k c') ->
              map (fun '(k, c) => g k c) f = map (fun '(k, c) => g' k c) f').
    { intros B g g' Hg. induction Hf as [|[k c] [k' c'] g0 g1 [Hk Hc] Hf IHf]; simpl; [done|]. simpl in *. subst k'. f_equal.
      - apply Hg. apply (Hboth k c k c'); [left | done | done].
      - apply IHf. intros. eapply Hboth; [by right | done | done]. }
    split_and!; [do 2 f_equal | f_equal | do 3 f_equal].
    + apply (Hmap _ (fun k c => (k, masked m c (path ++ [k]) None (bool_decide (k = "extra_args") && b)))
        (fun k c => (k, masked m' c (path ++ [k]) None (bool_decide (k = "extra_args") && b)))).
      intros k c c' [H _]. by rewrite H.
    + set (g := fun k c => labels (secrets c (path ++ [k]) None (bool_decide (k = "extra_args") && b))).
      etrans; [|etrans; [apply (Hmap _ g g); by intros k c c' (_ & H & _)|]]; apply map_ext; by intros [].
    + apply (Hmap _ (fun k c => (k, printed p c (path ++ [k]) None (bool_decide (k = "extra_args") && b)))
        (fun k c => (k, printed p' c (path ++ [k]) None (bool_decide (k = "extra_args") && b)))).
      intros k c c' (_ & _ & H). by rewrite H.
Qed.

End Looks.

(** Redacted configurations show the fingerprints of secrets, if there are keys,
    and nothing else of them. *)
Lemma redacted_value_same out root f f' q q' :
  root <> [] -> tidy (JObj f) = true -> tidy (JObj f') = true -> agree root None false (JObj f) (JObj f') ->
  (forall label v v', same_fingerprint label v v' -> config_fingerprint (hmac := h) q label v = config_fingerprint (hmac := h') q' label v') ->
  exists r r', redact_sensitive_value (hmac := h) q out (JObj f) root None = Ok r /\
    redact_sensitive_value (hmac := h') q' out (JObj f') root None = Ok r' /\ rx_value r = rx_value r' /\ rx_paths r ≡ₚ rx_paths r' /\
    sorts_alike fr_path (rx_fingerprints r) (rx_fingerprints r') /\ exists fields, rx_value r = JObj fields.
Proof.
  intros Hroot Ht Ht' Ha Hq.
  destruct (redact_is_masked (hmac := h) q out (JObj f) root None Ht Hroot) as (r & Hr & Hv & Hp & Hf).
  destruct (redact_is_masked (hmac := h') q' out (JObj f') root None Ht' Hroot) as (r' & Hr' & Hv' & Hp' & Hf').
  destruct (agree_looks_same (mark (hmac := h) q out) (mark (hmac := h') q' out) (print (hmac := h) q out) (print (hmac := h') q' out))
    with (3 := Ha) as (Hm & Hl & Hpr).
  1, 2: intros path v v' Hs%Hq; unfold mark, print, redacted_sensitive_leaf; by rewrite Hs.
  exists r, r'. split_and!; [done|done|by rewrite Hv, Hv'|by rewrite Hp, Hp', Hl|by rewrite Hf, Hf', Hpr|].
  rewrite Hv. cbn [masked]. rewrite container_not_sensitive by done. by eexists.
Qed.

Lemma redacted_config_same root f f' :
  root <> [] -> tidy (JObj f) = true -> tidy (JObj f') = true -> agree root None false (JObj f) (JObj f') ->
  redact_sensitive_config (hmac := h) f root = redact_sensitive_config (hmac := h') f' root /\
  redact_sensitive_config_with_fingerprints (hmac := h) f None root = redact_sensitive_config_with_fingerprints (hmac := h') f' None root /\
  redact_sensitive_config_with_fingerprints (hmac := h) f key root = redact_sensitive_config_with_fingerprints (hmac := h') f' key' root.
Proof.
  intros Hroot Ht Ht' Ha. unfold redact_sensitive_config, redact_sensitive_config_with_fingerprints.
  pose proof (fun out q q' => redacted_value_same out root f f' q q' Hroot Ht Ht' Ha) as Hsame. split_and!.
  - destruct (Hsame Redacted None None) as (r & r' & -> & -> & Hv & Hp & _ & fields & Hf); [done|]. cbn [mbind outcome_bind].
    by rewrite <- Hv, Hf, (sorted_str_perm _ _ Hp).
  - destruct (Hsame Fingerprinted None None) as (r & r' & -> & -> & Hv & _ & Hs & fields & Hf); [done|]. cbn [mbind outcome_bind].
    by rewrite <- Hv, Hf, Hs.
  - destruct (Hsame Fingerprinted key key') as (r & r' & -> & -> & Hv & _ & Hs & fields & Hf); [done|]. cbn [mbind outcome_bind].
    by rewrite <- Hv, Hf, Hs.
Qed.

End Agreement.

(** *** Integration options *)

Lemma map_from_same {A B} (f f' : nat -> A -> B) i l l' :
  length l = length l' -> (forall j c c', l !! j = Some c -> l' !! j = Some c' -> f (i + j)%nat c = f' (i + j)%nat c') ->
  map_from f i l = map_from f' i l'.
Proof.
  revert i l'. induction l as [|c l IH]; intros i [|c' l'] Hlen H; simpl in *; try lia; [done|]. f_equal.
  - specialize (H 0%nat c c'). rewrite Nat.add_0_r in H. by apply H.
  - apply IH; [lia|]. intros j d d' Hd Hd'. specialize (H (S j) d d' Hd Hd'). by rewrite Nat.add_succ_r in H.
Qed.

Lemma map_from_elem {A B} (f : nat -> A -> B) i l j c : l !! j = Some c -> f (i + j)%nat c ∈ map_from f i l.
Proof.
  revert i j. induction l as [|x l IH]; intros i [|j] H; simpl in *; try done.
  - injection H as ->. rewrite Nat.add_0_r. left.
  - right. rewrite Nat.add_succ_r. by apply (IH (S i)).
Qed.

Lemma fields_same {A} (f f' : dict json) (g g' : string -> json -> A) (Q : string -> json -> json -> Prop) :
  Forall2 (fun kc kc' => fst kc = fst kc' /\ Q (fst kc) (snd kc) (snd kc')) f f' -> (forall k c c', (k, c) ∈ f -> Q k c c' -> g k c = g' k c') ->
  map (fun '(k, c) => (k, g k c)) f = map (fun '(k, c) => (k, g' k c)) f'.
Proof.
  induction 1 as [|[k c] [k' c'] f f' [Hk Hq] Hf IH]; intros Hg; simpl in *; [done|]. subst k'.
  rewrite (Hg k c c' ltac:(left) Hq), IH; [done|]. intros; apply Hg; [by right | done].
Qed.

Lemma walk_match p transform v path inherited :
  is_cons path && matches_sensitive_option p v path inherited = true ->
  walk p transform v path inherited =
  match transform with
  | Some f => let '(value', fingerprints) := f (json_pointer path) v in mkRedaction value' [json_pointer path] fingerprints
  | None => mkRedaction v [json_pointer path] []
  end.
Proof. intros Hm. destruct v; cbn [walk]; by rewrite Hm. Qed.

Section Options.
Context (pointers : list string) (same : string -> json -> json -> Prop).

(** Options that differ in sensitive values only, the values at the sensitive
    [pointers], scalars below a sensitive name and values with a sensitive name;
    their traces are the same. *)
Inductive options_agree : list JsonPathSegment -> bool -> json -> json -> Prop :=
| options_scalar path inherited v :
    is_container v = false -> is_cons path && matches_sensitive_option pointers v path inherited = false -> options_agree path inherited v v
| options_secret path inherited v v' :
    is_cons path && matches_sensitive_option pointers v path inherited = true ->
    is_cons path && matches_sensitive_option pointers v' path inherited = true -> same (json_pointer path) v v' ->
    options_agree path inherited v v'
| options_list path inherited l l' :
    is_cons path && matches_sensitive_option pointers (JList l) path inherited = false -> length l = length l' ->
    (forall i c c', l !! i = Some c -> l' !! i = Some c' ->
       options_agree (path ++ [Index i]) (inherited || (is_cons path && has_sensitive_name path)) c c') ->
    options_agree path inherited (JList l) (JList l')
| options_obj path inherited f f' :
    is_cons path && matches_sensitive_option pointers (JObj f) path inherited = false ->
    Forall2 (fun kc kc' => fst kc = fst kc' /\
      options_agree (path ++ [Key (fst kc)]) (inherited || (is_cons path && has_sensitive_name path)) (snd kc) (snd kc')) f f' ->
    options_agree path inherited (JObj f) (JObj f').

Lemma matches_container v v' path inherited :
  is_container v = true -> is_container v' = true ->
  matches_sensitive_option pointers v path inherited = matches_sensitive_option pointers v' path inherited.
Proof. intros Hv Hv'. unfold matches_sensitive_option. by rewrite Hv, Hv'. Qed.

Lemma options_agree_walks t t' v v' path inherited :
  (forall p a b, same p a b -> t p a = t' p b) -> options_agree path inherited v v' ->
  walk pointers (Some t) v path inherited = walk pointers (Some t') v' path inherited.
Proof.
  intros Ht. revert v' path inherited. induction v as [v Hv|l IH|f IH] using json_children_ind; intros v' path inherited Ha.
  all: inversion Ha as [? ? ? Hc Hm|? ? ? ? Hm Hm' Hs|? ? ? l' Hno Hlen Hitems|? ? ? f' Hno Hf]; subst; try done.
  all: try (rewrite !walk_match by done; by rewrite (Ht _ _ _ Hs)).
  - destruct v'; try done; cbn [walk]; by rewrite Hm.
  - assert (Hno' := Hno). rewrite (matches_container _ (JList l')) in Hno' by done. cbn [walk]. rewrite Hno, Hno'. cbv zeta.
    set (child := inherited || (is_cons path && has_sensitive_name path)) in *.
    rewrite (map_from_same (fun i c => walk pointers (Some t) c (path ++ [Index i]) child)
               (fun i c => walk pointers (Some t') c (path ++ [Index i]) child) 0 l l' Hlen); [done|].
    intros j c c' Hj Hj'. rewrite Forall_forall in IH. apply IH; [by eapply list_elem_of_lookup_2 | by apply Hitems].
  - assert (Hno' := Hno). rewrite (matches_container _ (JObj f')) in Hno' by done. cbn [walk]. rewrite Hno, Hno'. cbv zeta.
    set (child := inherited || (is_cons path && has_sensitive_name path)) in *.
    rewrite (fields_same f f' (fun k c => walk pointers (Some t) c (path ++ [Key k]) child)
               (fun k c => walk pointers (Some t') c (path ++ [Key k]) child) (fun k => options_agree (path ++ [Key k]) child) Hf); [done|].
    intros k c c' Hk Hag. rewrite Forall_forall in IH. by apply (IH (k, c) Hk).
Qed.

(** Options without secrets that agree are the same. *)
Lemma options_agree_public t v v' path inherited :
  options_agree path inherited v v' -> rx_paths (walk pointers (Some t) v path inherited) = [] -> v = v'.
Proof.
  revert v' path inherited. induction v as [v Hv|l IH|f IH] using json_children_ind; intros v' path inherited Ha Hnone.
  all: inversion Ha as [|? ? ? ? Hm Hm'|? ? ? l' Hno Hlen Hitems|? ? ? f' Hno Hf]; subst; try done.
  all: try (rewrite walk_match in Hnone by done; by destruct (t _ _)).
  - f_equal. apply list_eq. intros i. destruct (l !! i) as [c|] eqn:Hi.
    + destruct (l' !! i) as [c'|] eqn:Hi'; [|apply lookup_ge_None in Hi'; apply lookup_lt_Some in Hi; lia]. f_equal.
      rewrite Forall_forall in IH. eapply IH; [by eapply list_elem_of_lookup_2 | by eapply Hitems |].
      cbn [walk] in Hnone. rewrite Hno in Hnone. cbv zeta in Hnone. cbn [rx_paths] in Hnone. rewrite map_from_map in Hnone.
      apply (map_from_elem (fun i child => rx_paths (walk pointers (Some t) child (path ++ [Index i])
        (inherited || is_cons path && has_sensitive_name path))) 0 l i c) in Hi. cbv beta in Hi. change (0 + i)%nat with i in Hi.
      destruct (rx_paths _) as [|p ps] eqn:Hps; [done|]. exfalso. eapply (not_elem_of_nil p). rewrite <- Hnone. apply elem_of_list_concat.
      eexists. split; [|exact Hi]. left.
    + symmetry. apply lookup_ge_None. apply lookup_ge_None in Hi. lia.
  - f_equal. cbn [walk] in Hnone. rewrite Hno in Hnone. cbv zeta in Hnone. cbn [rx_paths] in Hnone. rewrite Forall_forall in IH.
    assert (Hc : forall k c, (k, c) ∈ f -> rx_paths (walk pointers (Some t) c (path ++ [Key k]) (inherited || is_cons path && has_sensitive_name path)) = []).
    { intros k c Hk. destruct (rx_paths _) as [|p ps] eqn:Hps; [done|]. exfalso. eapply (not_elem_of_nil p). rewrite <- Hnone.
      apply elem_of_list_concat. exists (p :: ps). split; [left|]. apply list_elem_of_fmap.
      exists (k, walk pointers (Some t) c (path ++ [Key k]) (inherited || is_cons path && has_sensitive_name path)). split; [done|].
      unfold sorted_items. rewrite sort_key_Permutation. apply list_elem_of_fmap. by exists (k, c). }
    clear Ha Hno Hnone. induction Hf as [|[k c] [k' c'] g g' [Hk Hag] Hf IHf]; [done|]. simpl in *. subst k'. f_equal.
    + f_equal. eapply (IH (k, c) ltac:(left)); [exact Hag|]. apply Hc. left.
    + apply IHf; intros; [eapply IH; [by right | done | done] | apply Hc; by right].
Qed.

End Options.

Lemma transform_Ok options explicit transform r :
  transform_sensitive_integration_options options explicit transform = Ok r -> r = walk explicit transform (JObj options) [] false.
Proof.
  unfold transform_sensitive_integration_options. intros (_ & _ & H)%bind_Ok. cbv zeta in H. by destruct (rx_value _); simplify_eq.
Qed.

Section Integrations.
Context (h h' : HmacLibrary) (key key' : option string).

(** Integrations that differ in sensitive options only: the same options are
    sensitive, and their values have the same fingerprints. *)
Record integration_agree (name : string) (c c' : CanonicalIntegrationConfig) : Prop := {
  ia_implementation : ic_implementation c = ic_implementation c';
  ia_identity : ic_resolved_identity c = ic_resolved_identity c';
  ia_sensitive : ic_sensitive_options c = ic_sensitive_options c';
  ia_scopes : ic_option_scopes c = ic_option_scopes c';
  ia_capabilities : ic_capabilities c = ic_capabilities c';
  ia_generated : ic_options_are_generated_redacted c = ic_options_are_generated_redacted c';
  ia_pointers : sensitive_integration_option_pointers c = sensitive_integration_option_pointers c';
  ia_options : forall pointers, sensitive_integration_option_pointers c = Ok pointers ->
    options_agree pointers (fun pointer => same_fingerprint h h' key key' (option_path_prefix name +:+ pointer)) [] false
      (JObj (ic_options c)) (JObj (ic_options c'))
}.

(** The redacted integration and its fingerprints, with keys under which the
    fingerprints are the same. *)
Lemma redacted_integration_same name c c' q q' r r' :
  integration_agree name c c' ->
  (forall label v v', same_fingerprint h h' key key' label v v' ->
     config_fingerprint (hmac := h) q label v = config_fingerprint (hmac := h') q' label v') ->
  integration_with_sensitive_option_fingerprints (hmac := h) c name q = Ok r ->
  integration_with_sensitive_option_fingerprints (hmac := h') c' name q' = Ok r' -> r = r'.
Proof.
  intros Ha Hq Hc Hc'. unfold integration_with_sensitive_option_fingerprints in *. rewrite <- (ia_pointers _ _ _ Ha) in Hc'.
  apply bind_Ok in Hc as (ps & Hps & Hc), Hc' as (ps' & Hps' & Hc'). rewrite Hps in Hps'. injection Hps' as <-.
  apply bind_Ok in Hc as (w & Hw%transform_Ok & Hc), Hc' as (w' & Hw'%transform_Ok & Hc').
  pose proof (ia_options _ _ _ Ha _ Hps) as Hopts.
  assert (Hww : w = w').
  { subst w w'. eapply options_agree_walks; [|exact Hopts]. intros p v v' Hs%Hq. unfold fingerprint_option. by rewrite Hs. }
  destruct Ha as [H1 H2 H3 H4 H5 H6 _ _]. rewrite Hww in Hc. destruct (is_cons (rx_paths w')) eqn:Hnone; cbn [negb] in *.
  - apply bind_Ok in Hc as (o & Ho & Hc), Hc' as (o' & Ho' & Hc'). rewrite Ho in Ho'. simplify_eq. unfold with_generated_redaction. congruence.
  - injection Hc as <-. injection Hc' as <-.
    assert (JObj (ic_options c) = JObj (ic_options c')) as [= ->]; [|congruence].
    eapply options_agree_public; [exact Hopts|]. rewrite <- Hw, Hww. by destruct (rx_paths w').
Qed.

End Integrations.
