(* ===== verification/RuntimeConfig.v ===== *)
(** Snapshots of the runtime configuration: core/preflight/runtime_config and
    the agent models of core/config.py.

    A snapshot holds the redacted configuration that is signed and persisted,
    and, outside of what is persisted, the raw configuration from which secrets
    are fingerprinted and captured. *)

From Stdlib Require Import ZArith Lia Ascii String.
From stdpp Require Import base gmap sets list strings.
From S2P Require Import Prelude PyStr StateExn Models Scheduler Artifacts RunState PlanRecords PlanContract Foreach PreflightState.
From S2P Require Import Redaction.

Open Scope string_scope.
Open Scope list_scope.
Open Scope Z_scope.

(** ** Models with optional fields *)

(** A field of a Pydantic model: its default, when it has one, and its
    validation, which may normalize the value. *)
Record FieldSpec := mkField { fd_name : string; fd_default : option json; fd_check : json -> option json }.

(** The values of a model in the order of its fields, and the fields that were
    given. *)
Record Model := mkModel { md_values : dict json; md_fields_set : list string }.

Definition invalid {A} (cls : string) : outcome A := Raise (OtherError "ValidationError" cls).

Definition validate_field (cls : string) (given : dict json) (field : FieldSpec) : outcome (string * json) :=
  match dget given (fd_name field), fd_default field with
  | Some v, _ => match fd_check field v with Some v' => Ok (fd_name field, v') | None => invalid cls end
  | None, Some d => Ok (fd_name field, d)
  | None, None => invalid cls
  end.

(** [cls.model_validate(payload)] of a model that forbids other fields. *)
Definition model_validate (cls : string) (fields : list FieldSpec) (payload : json) : outcome Model :=
  match payload with
  | JObj given =>
      if forallb (fun '(k, _) => str_in k (map fd_name fields)) given then
        values ← mapM (validate_field cls given) fields;
        mret (mkModel values (List.filter (dmem given) (map fd_name fields)))
      else invalid cls
  | _ => invalid cls
  end.

Definition not_null (v : json) : bool := negb (bool_decide (v = JNull)).

(** [model_dump(exclude_none=True)]. *)
Definition dump_given (m : Model) : dict json := List.filter (fun '(_, v) => not_null v) (md_values m).

Definition model_value (m : Model) (field : string) : json := default JNull (dget (md_values m) field).

(** *** Checks of values *)

Definition is_str (v : json) : bool := match v with JStr _ => true | _ => false end.
Definition is_obj (v : json) : bool := match v with JObj _ => true | _ => false end.
Definition is_int (v : json) : bool := match v with JInt _ => true | _ => false end.
Definition is_float (v : json) : bool := match v with JFloat r => finite_float r | _ => false end.
Definition nonnegative_float (v : json) : bool :=
  match v with JFloat r => finite_float r && (negb (str_startswith "-" r) || bool_decide (r = "-0.0")) | _ => false end.
Definition positive_float (v : json) : bool :=
  match v with JFloat r => finite_float r && negb (str_startswith "-" r) && negb (bool_decide (r = "0.0")) | _ => false end.
Definition token_ok (v : json) : bool := match v with JStr s => not_blank s | _ => false end.
Definition or_null (check : json -> bool) (v : json) : bool := negb (not_null v) || check v.
Definition list_of (check : json -> bool) (v : json) : bool := match v with JList l => forallb check l | _ => false end.
Definition dict_of_values (check : json -> bool) (v : json) : bool :=
  match v with JObj f => forallb (fun '(_, c) => check c) f | _ => false end.

(** A check that does not change the value. *)
Definition checked (check : json -> bool) (v : json) : option json := if check v then Some v else None.

(** Code: core/config.py, validate_provider_identifier. *)
Definition validate_provider_identifier (v : json) : bool :=
  match v with
  | JStr s =>
      match chars s with
      | c :: t =>
          is_lower c
          && forallb (fun c => is_lower c || is_digit c || bool_decide (c = "_"%char) || bool_decide (c = "-"%char)) t
      | [] => false
      end
  | _ => false
  end.

(** ** Agents (core/config.py) *)

Definition PRICING_FIELDS : list string := ["input"; "cached_input"; "cache_write"; "output"; "reasoning"; "total"].

(** The configured prices, in the order of the fields.
    Code: core/config.py, TokenPricing. *)
Definition validate_pricing (v : json) : option json :=
  match v with
  | JObj given =>
      let configured := List.filter (fun '(_, v) => not_null v)
        (map (fun bucket => (bucket, default JNull (dget given bucket))) PRICING_FIELDS) in
      if forallb (fun '(k, _) => str_in k PRICING_FIELDS) given && forallb (fun '(_, v) => nonnegative_float v) configured
         && (negb (dmem configured "total") || (length configured =? 1)%nat)
      then Some (JObj configured) else None
  | _ => None
  end.

(** Code: core/agent_environment.py, validate_agent_environment. *)
Definition validate_agent_environment (v : json) : bool :=
  match v with
  | JObj f =>
      forallb (fun '(name, content) =>
        not_blank name && negb (str_contains "=" name) && negb (bool_decide (zero ∈ chars name))
        && match content with JStr s => negb (bool_decide (zero ∈ chars s)) | _ => false end) f
  | _ => false
  end.

(** Code: core/config.py:136-147. *)
Definition validate_prompt_transport (v : json) : option json :=
  match v with
  | JStr s => let normalized := str_lower (str_strip s) in if str_in normalized ["stdin"; "argv"] then Some (JStr normalized) else None
  | _ => None
  end.

Definition exit_code_ok (v : json) : bool := match v with JInt z => (0 <=? z) && (z <=? 255) | _ => false end.
Definition int_at_least (n : Z) (v : json) : bool := match v with JInt z => n <=? z | _ => false end.

(** Code: core/config.py:101-127. *)
Definition AGENT_CONFIG_FIELDS : list FieldSpec :=
  [mkField "cli_cmd" None (checked (fun v => list_of token_ok v && negb (bool_decide (v = JList []))));
   mkField "environment" (Some (JObj [])) (checked validate_agent_environment);
   mkField "provider_kind" (Some (JStr "generic")) (checked validate_provider_identifier);
   mkField "default_model" (Some JNull) (checked (or_null is_str));
   mkField "model_arg" (Some (JStr "--model")) (checked (or_null token_ok));
   mkField "prompt_transport" (Some (JStr "stdin")) validate_prompt_transport;
   mkField "prompt_transport_arg" (Some JNull) (checked (or_null token_ok));
   mkField "extra_args" (Some (JList [])) (checked (list_of token_ok));
   mkField "max_retries" (Some (JInt 0)) (checked (int_at_least 0));
   mkField "retry_delay_seconds" (Some (JFloat "300.0")) (checked nonnegative_float);
   mkField "retry_on_exit_codes" (Some (JList [])) (checked (list_of exit_code_ok));
   mkField "retry_on_stderr_contains" (Some (JList [])) (checked (list_of is_str));
   mkField "retry_on_output_contains" (Some (JList [])) (checked (list_of is_str));
   mkField "quota_reached_on_contains" (Some (JList [])) (checked (list_of is_str));
   mkField "quota_reached_retry_delay_seconds" (Some (JFloat "300.0")) (checked nonnegative_float);
   mkField "quota_reset_sleep_floor_seconds" (Some (JFloat "5.0")) (checked nonnegative_float);
   mkField "quota_retry_max_wait_seconds" (Some JNull) (checked (or_null positive_float));
   mkField "quota_retry_max_attempts" (Some JNull) (checked (or_null (int_at_least 1)));
   mkField "invocation_timeout_seconds" (Some JNull) (checked (or_null positive_float));
   mkField "invocation_idle_timeout_seconds" (Some (JFloat "1800.0")) (checked (or_null positive_float));
   mkField "pricing" (Some (JObj [])) validate_pricing].

(** Code: core/config.py, AgentConfig. *)
Definition validate_agent_config (payload : json) : outcome Model :=
  m ← model_validate "AgentConfig" AGENT_CONFIG_FIELDS payload;
  if bool_decide (model_value m "prompt_transport" = JStr "argv") && negb (not_null (model_value m "prompt_transport_arg"))
  then invalid "AgentConfig" else Ok m.

(** A value that may be redacted. *)
Definition str_or_obj (v : json) : bool := is_str v || is_obj v.

(** Code: core/preflight/runtime_config/__init__.py, RuntimeAgentConfigSnapshot. *)
Definition RUNTIME_AGENT_FIELDS : list FieldSpec :=
  [mkField "cli_cmd" None (checked (list_of str_or_obj));
   mkField "environment" (Some (JObj [])) (checked (dict_of_values str_or_obj));
   mkField "provider_kind" (Some (JStr "generic")) (checked validate_provider_identifier);
   mkField "default_model" (Some JNull) (checked (or_null is_str));
   mkField "model_arg" (Some (JStr "--model")) (checked (or_null str_or_obj));
   mkField "prompt_transport" (Some (JStr "stdin")) (checked (fun v => bool_decide (v = JStr "stdin") || bool_decide (v = JStr "argv")));
   mkField "prompt_transport_arg" (Some JNull) (checked (or_null str_or_obj));
   mkField "extra_args" (Some (JList [])) (checked (list_of str_or_obj));
   mkField "max_retries" (Some (JInt 0)) (checked is_int);
   mkField "retry_delay_seconds" (Some (JFloat "300.0")) (checked is_float);
   mkField "retry_on_exit_codes" (Some (JList [])) (checked (list_of is_int));
   mkField "retry_on_stderr_contains" (Some (JList [])) (checked (list_of is_str));
   mkField "retry_on_output_contains" (Some (JList [])) (checked (list_of is_str));
   mkField "quota_reached_on_contains" (Some (JList [])) (checked (list_of is_str));
   mkField "quota_reached_retry_delay_seconds" (Some (JFloat "300.0")) (checked is_float);
   mkField "quota_reset_sleep_floor_seconds" (Some (JFloat "5.0")) (checked is_float);
   mkField "quota_retry_max_wait_seconds" (Some JNull) (checked (or_null positive_float));
   mkField "quota_retry_max_attempts" (Some JNull) (checked (or_null (int_at_least 1)));
   mkField "invocation_timeout_seconds" (Some JNull) (checked (or_null is_float));
   mkField "invocation_idle_timeout_seconds" (Some (JFloat "1800.0")) (checked (or_null is_float));
   mkField "pricing" (Some (JObj [])) validate_pricing].

Definition validate_runtime_agent : json -> outcome Model := model_validate "RuntimeAgentConfigSnapshot" RUNTIME_AGENT_FIELDS.

(** *** Payloads of agents *)

(** Code: core/preflight/runtime_config/__init__.py, runtime_agent_snapshots. *)
Definition runtime_agent_snapshots (agents : dict json) : outcome (dict Model) :=
  mapM (fun '(name, payload) => agent ← validate_runtime_agent payload; mret (name, agent)) (agents : list (string * json)).

(** Code: core/preflight/runtime_config/__init__.py, _field_default_is_none. *)
Definition field_default_is_none (fields : list FieldSpec) (name : string) : bool :=
  match List.find (fun field => bool_decide (fd_name field = name)) fields with
  | Some field => bool_decide (fd_default field = Some JNull)
  | None => false
  end.

(** Code: core/preflight/runtime_config/__init__.py, _model_payload_preserving_non_default_nulls. *)
Definition model_payload_preserving_non_default_nulls (fields : list FieldSpec) (m : Model) : dict json :=
  let payload := dump_given m in
  let payload := if bool_decide (dget payload "environment" = Some (JObj [])) then ddel payload "environment" else payload in
  foldl (fun payload name =>
    if negb (not_null (model_value m name)) && negb (field_default_is_none fields name) then dset payload name JNull else payload)
    payload (sorted_str (md_fields_set m)).

(** Code: core/preflight/runtime_config/__init__.py, agent_config_input_payload. *)
Definition agent_config_input_payload : Model -> dict json := model_payload_preserving_non_default_nulls AGENT_CONFIG_FIELDS.

(** Code: core/preflight/runtime_config/__init__.py, runtime_agent_snapshot_payload. *)
Definition runtime_agent_snapshot_payload : Model -> dict json := model_payload_preserving_non_default_nulls RUNTIME_AGENT_FIELDS.

Definition nonempty_list (v : json) : bool := match v with JList (_ :: _) => true | _ => false end.

(** Code: core/preflight/runtime_config/__init__.py, _failure_retry_can_schedule. *)
Definition failure_retry_can_schedule (m : Model) : bool :=
  match model_value m "max_retries" with JInt z => 0 <? z | _ => false end
  && (nonempty_list (model_value m "retry_on_exit_codes") || nonempty_list (model_value m "retry_on_stderr_contains")
      || nonempty_list (model_value m "retry_on_output_contains")).

(** Code: core/preflight/runtime_config/__init__.py, runtime_agent_effective_payload. *)
Definition runtime_agent_effective_payload (m : Model) : dict json :=
  let payload := ddel (runtime_agent_snapshot_payload m) "default_model" in
  let payload := if failure_retry_can_schedule m then payload else ddel (ddel payload "max_retries") "retry_delay_seconds" in
  if negb (bool_decide (model_value m "provider_kind" = JStr "generic")) then ddel payload "model_arg" else payload.

(** Code: core/preflight/runtime_config/__init__.py, runtime_agent_invocation_effective_payload. *)
Definition runtime_agent_invocation_effective_payload (m : Model) (resolved_model : option string) : dict json :=
  let payload := runtime_agent_effective_payload m in
  match resolved_model with None => ddel payload "model_arg" | Some _ => payload end.

(** Code: core/preflight/runtime_config/__init__.py, runtime_agent_signature_payload. *)
Definition runtime_agent_signature_payload (agent_config_key : string) (agent_snapshot : option Model) (resolved_model : option string)
    : json :=
  JObj [("agent_config", jopt (fun m => JObj (runtime_agent_invocation_effective_payload m resolved_model)) agent_snapshot);
        ("agent_config_key", JStr agent_config_key); ("model", jopt JStr resolved_model)].

(** [model_dump(exclude_none=False)]: prices that are not configured are [None].
    Code: core/preflight/runtime_config/__init__.py, runtime_agent_execution_payload. *)
Definition runtime_agent_execution_payload (m : Model) : json :=
  JObj (map (fun '(name, v) =>
    match v with
    | JObj configured =>
        if bool_decide (name = "pricing")
        then (name, JObj (map (fun bucket => (bucket, default JNull (dget configured bucket))) PRICING_FIELDS)) else (name, v)
    | _ => (name, v)
    end) (md_values m)).

(** Code: core/preflight/runtime_config/__init__.py, runtime_agent_snapshot_payloads. *)
Definition runtime_agent_snapshot_payloads (agents : dict Model) : json :=
  JObj (map (fun '(name, agent) => (name, JObj (runtime_agent_snapshot_payload agent))) (sorted_items agents)).

(** Code: core/preflight/runtime_config/__init__.py, runtime_agent_effective_payloads. *)
Definition runtime_agent_effective_payloads (agents : dict Model) : json :=
  JObj (map (fun '(name, agent) => (name, JObj (runtime_agent_effective_payload agent))) (sorted_items agents)).

(** ** Settings and snapshots *)

(** Code: core/preflight/runtime_config/__init__.py, RuntimeExecutionSnapshot. *)
Record RuntimeExecutionSnapshot := mkExecution {
  ex_log_level : string;
  ex_max_audit_rounds : Z;
  ex_max_expanded_nodes : Z;
  ex_max_concurrent_nodes : option Z;
  ex_max_parallel_invocations : option Z;
  ex_consensus : SequentialConsensusPolicy;
  ex_token_budget : TokenBudgetSettings
}.

Definition execution_fields (e : RuntimeExecutionSnapshot) : dict json :=
  [("log_level", JStr (ex_log_level e)); ("max_audit_rounds", JInt (ex_max_audit_rounds e));
   ("max_expanded_nodes", JInt (ex_max_expanded_nodes e)); ("max_concurrent_nodes", jopt JInt (ex_max_concurrent_nodes e));
   ("max_parallel_invocations", jopt JInt (ex_max_parallel_invocations e));
   ("sequential_consensus_on_exhaustion", JStr (consensus_value (ex_consensus e)));
   ("token_budget", JObj [("warn_threshold_chars", jopt JInt (settings_warn (ex_token_budget e)));
                          ("fail_threshold_chars", jopt JInt (settings_fail (ex_token_budget e)))])].

(** Code: core/preflight/runtime_config/__init__.py, execution_effective_payload. *)
Definition execution_effective_payload (e : RuntimeExecutionSnapshot) : dict json :=
  ddel (ddel (execution_fields e) "log_level") "max_audit_rounds".

(** The settings of workspaces, whose profiles are lists of commands.
    Code: core/workspace/settings.py, WorkspaceSettings. *)
Record WorkspaceSettings := mkWorkspace {
  we_enabled : bool;
  we_cache_root : option string;
  we_cleanup_on_success : bool;
  we_worktree_contract : string;
  we_clean_start : string;
  we_setup_profiles : dict (list (list string));
  we_setup_timeout_seconds : string;
  we_include_cache_root : bool;
  we_max_concurrent_materializations : Z;
  we_warn_free_bytes : option Z;
  we_fail_free_bytes : option Z
}.

Definition setup_profiles_json (profiles : dict (list (list string))) : json :=
  JObj (map (fun '(name, run) => (name, JObj [("run", JList (map (fun argv => JList (map JStr argv)) run))])) profiles).

(** Code: core/preflight/runtime_config/__init__.py, RuntimeWorkspaceSettingsSnapshot. *)
Record RuntimeWorkspaceSnapshot := mkRuntimeWorkspace {
  rw_enabled : bool;
  rw_cache_root : option string;
  rw_cleanup_on_success : bool;
  rw_contract_mode : string;
  rw_contract_schema_version : string;
  rw_clean_start : string;
  rw_setup_profiles : dict json;
  rw_setup_timeout_seconds : string;
  rw_include_cache_root : bool;
  rw_max_concurrent_materializations : Z;
  rw_warn_free_bytes : option Z;
  rw_fail_free_bytes : option Z
}.

Definition default_workspace : RuntimeWorkspaceSnapshot :=
  mkRuntimeWorkspace false None true "blob_exact" SCHEMA_VERSION "strict" [] "600.0" false 1 None None.

Definition with_setup_profiles (profiles : dict json) (w : RuntimeWorkspaceSnapshot) : RuntimeWorkspaceSnapshot :=
  mkRuntimeWorkspace (rw_enabled w) (rw_cache_root w) (rw_cleanup_on_success w) (rw_contract_mode w) (rw_contract_schema_version w)
    (rw_clean_start w) profiles (rw_setup_timeout_seconds w) (rw_include_cache_root w) (rw_max_concurrent_materializations w)
    (rw_warn_free_bytes w) (rw_fail_free_bytes w).

(** Code: core/preflight/runtime_config/__init__.py, runtime_workspace_snapshot. *)
Definition runtime_workspace_snapshot (w : WorkspaceSettings) (setup_profiles : dict json) : RuntimeWorkspaceSnapshot :=
  if negb (we_enabled w) then default_workspace
  else mkRuntimeWorkspace (we_enabled w) (we_cache_root w) (we_cleanup_on_success w) (we_worktree_contract w) SCHEMA_VERSION
         (we_clean_start w) setup_profiles (we_setup_timeout_seconds w) (we_include_cache_root w)
         (we_max_concurrent_materializations w) (we_warn_free_bytes w) (we_fail_free_bytes w).

Definition contract_json (w : RuntimeWorkspaceSnapshot) : json :=
  JObj [("mode", JStr (rw_contract_mode w)); ("schema_version", JStr (rw_contract_schema_version w))].

(** [model_dump(exclude_none=True)] of a workspace snapshot. *)
Definition workspace_fields (w : RuntimeWorkspaceSnapshot) : json :=
  let given := List.filter (fun '(_, v) => not_null v) in
  JObj (given [("enabled", JBool (rw_enabled w)); ("cache_root", jopt JStr (rw_cache_root w));
    ("cleanup_on_success", JBool (rw_cleanup_on_success w)); ("worktree_contract", contract_json w);
    ("clean_start", JStr (rw_clean_start w)); ("setup_profiles", JObj (rw_setup_profiles w));
    ("setup_timeout_seconds", JFloat (rw_setup_timeout_seconds w));
    ("identity", JObj [("include_cache_root", JBool (rw_include_cache_root w))]);
    ("max_concurrent_materializations", JInt (rw_max_concurrent_materializations w));
    ("disk", JObj (given [("warn_free_bytes", jopt JInt (rw_warn_free_bytes w)); ("fail_free_bytes", jopt JInt (rw_fail_free_bytes w))]))]).

(** The home directory, the platform and the environment give the default
    cache directory. *)
Class CacheHost := { workspace_cache_root : option string -> string }.

(** The settings a snapshot is built from; agents are validated models.
    Code: core/config.py:290-295. *)
Record RunConfig := mkRunConfig {
  cf_version : string;
  cf_agents : dict Model;
  cf_execution : RuntimeExecutionSnapshot;
  cf_allowed_template_paths : list string;
  cf_workspace : WorkspaceSettings
}.

(** Code: core/preflight/runtime_config/__init__.py, RuntimeConfigSnapshotOptions. *)
Record RuntimeConfigSnapshotOptions := mkSnapshotOptions { op_no_live : bool; op_console_is_terminal : bool }.

(** Code: core/preflight/runtime_config/__init__.py, RuntimeConfigSnapshot. *)
Record RuntimeConfigSnapshot := mkRuntimeSnapshot {
  sn_schema_version : string;
  sn_execution : RuntimeExecutionSnapshot;
  sn_allowed_template_paths : list string;
  sn_agents : dict Model;
  sn_invoker : CanonicalIntegrationConfig;
  sn_artifacts : CanonicalIntegrationConfig;
  sn_ui : CanonicalIntegrationConfig;
  sn_integrations_loaded : bool;
  sn_console_is_terminal : bool;
  sn_no_live : bool;
  sn_workspace : RuntimeWorkspaceSnapshot;
  sn_sensitive_config_paths : list string;
  sn_config_fingerprints : list FingerprintRecord;
  sn_effective_signature : string;
  sn_raw_agents : dict json;
  sn_raw_workspace : dict json;
  sn_raw_invoker : option CanonicalIntegrationConfig;
  sn_raw_artifacts : option CanonicalIntegrationConfig;
  sn_raw_ui : option CanonicalIntegrationConfig
}.

Definition with_sensitive_paths (paths : list string) (s : RuntimeConfigSnapshot) : RuntimeConfigSnapshot :=
  mkRuntimeSnapshot (sn_schema_version s) (sn_execution s) (sn_allowed_template_paths s) (sn_agents s) (sn_invoker s) (sn_artifacts s)
    (sn_ui s) (sn_integrations_loaded s) (sn_console_is_terminal s) (sn_no_live s) (sn_workspace s) paths
    (sn_config_fingerprints s) (sn_effective_signature s) (sn_raw_agents s) (sn_raw_workspace s) (sn_raw_invoker s)
    (sn_raw_artifacts s) (sn_raw_ui s).

Definition with_effective_signature (signature : string) (s : RuntimeConfigSnapshot) : RuntimeConfigSnapshot :=
  mkRuntimeSnapshot (sn_schema_version s) (sn_execution s) (sn_allowed_template_paths s) (sn_agents s) (sn_invoker s) (sn_artifacts s)
    (sn_ui s) (sn_integrations_loaded s) (sn_console_is_terminal s) (sn_no_live s) (sn_workspace s) (sn_sensitive_config_paths s)
    (sn_config_fingerprints s) signature (sn_raw_agents s) (sn_raw_workspace s) (sn_raw_invoker s) (sn_raw_artifacts s) (sn_raw_ui s).

(** The redacted parts of a snapshot. *)
Definition with_redaction (agents : dict Model) (invoker artifacts ui : CanonicalIntegrationConfig)
    (workspace : RuntimeWorkspaceSnapshot) (fingerprints : list FingerprintRecord) (s : RuntimeConfigSnapshot) : RuntimeConfigSnapshot :=
  mkRuntimeSnapshot (sn_schema_version s) (sn_execution s) (sn_allowed_template_paths s) agents invoker artifacts ui
    (sn_integrations_loaded s) (sn_console_is_terminal s) (sn_no_live s) workspace (sn_sensitive_config_paths s) fingerprints
    (sn_effective_signature s) (sn_raw_agents s) (sn_raw_workspace s) (sn_raw_invoker s) (sn_raw_artifacts s) (sn_raw_ui s).

Definition file_access_json (paths : list string) : json := JObj [("allowed_template_paths", JList (map JStr paths))].

Section Snapshots.
Context {hash : HashLibrary} {hmac : HmacLibrary} {host : CacheHost}.

(** Code: core/preflight/runtime_config/__init__.py, workspace_signature_payload. *)
Definition workspace_signature_payload (w : RuntimeWorkspaceSnapshot) : dict json :=
  if negb (rw_enabled w) then [("enabled", JBool false)]
  else
    [("clean_start", JStr (rw_clean_start w)); ("enabled", JBool true); ("worktree_contract", contract_json w)]
    ++ (if rw_include_cache_root w
        then [("cache_root", JStr (workspace_cache_root (rw_cache_root w))); ("identity", JObj [("include_cache_root", JBool true)])]
        else []).

(** Code: core/preflight/runtime_config/__init__.py, _effective_signature. *)
Definition effective_signature (s : RuntimeConfigSnapshot) : string :=
  signature_for_payload (JObj
    [("agents", runtime_agent_effective_payloads (sn_agents s));
     ("artifacts", scoped_payload (sn_artifacts s) ["artifact"; "execution"]);
     ("execution", JObj (execution_effective_payload (sn_execution s)));
     ("file_access", file_access_json (sn_allowed_template_paths s));
     ("invoker", scoped_payload (sn_invoker s) ["execution"; "artifact"]);
     ("schema_version", JStr (sn_schema_version s));
     ("workspace", JObj (workspace_signature_payload (sn_workspace s)))]).

(** Code: core/preflight/runtime_config/__init__.py, _prepare_agent_snapshots. *)
Definition prepare_agent_snapshots (agents : dict Model) : outcome (dict json * list string * dict Model) :=
  let raw_agents := map (fun '(name, agent) => (name, JObj (agent_config_input_payload agent))) (sorted_items agents) in
  '(_, sensitive_agent_paths) ← redact_sensitive_config raw_agents ["agents"];
  '(redacted, _) ← redact_sensitive_config_with_fingerprints raw_agents None ["agents"];
  agent_snapshots ← runtime_agent_snapshots redacted;
  mret (raw_agents, sensitive_agent_paths, agent_snapshots).

(** Code: core/preflight/runtime_config/__init__.py, _prepare_workspace_config. *)
Definition prepare_workspace_config (w : WorkspaceSettings) : outcome (dict json * list string * dict json) :=
  let raw_workspace := [("setup_profiles", setup_profiles_json (we_setup_profiles w))] in
  '(_, sensitive_workspace_paths) ← redact_sensitive_config raw_workspace ["workspace"];
  '(redacted_workspace, _) ← redact_sensitive_config_with_fingerprints raw_workspace None ["workspace"];
  mret (raw_workspace, sensitive_workspace_paths, redacted_workspace).

Definition setup_profiles_of (redacted_workspace : dict json) : dict json :=
  match dget redacted_workspace "setup_profiles" with Some (JObj profiles) => profiles | _ => [] end.

(** Code: core/preflight/runtime_config/__init__.py, RuntimeConfigSnapshot.build. *)
Definition build_snapshot (config : RunConfig) (invoker artifacts ui : CanonicalIntegrationConfig)
    (options : RuntimeConfigSnapshotOptions) (file_access : option (list string)) : outcome RuntimeConfigSnapshot :=
  '(raw_agents, sensitive_agent_paths, agent_snapshots) ← prepare_agent_snapshots (cf_agents config);
  '(raw_workspace, sensitive_workspace_paths, redacted_workspace) ← prepare_workspace_config (cf_workspace config);
  invoker_paths ← sensitive_integration_option_paths "invoker" invoker;
  artifacts_paths ← sensitive_integration_option_paths "artifacts" artifacts;
  ui_paths ← sensitive_integration_option_paths "ui" ui;
  let sensitive_paths :=
    sorted_str (sensitive_agent_paths ++ sensitive_workspace_paths ++ invoker_paths ++ artifacts_paths ++ ui_paths) in
  let setup_profiles := setup_profiles_of redacted_workspace in
  let workspace := runtime_workspace_snapshot (cf_workspace config) setup_profiles in
  let workspace := if is_cons sensitive_paths then with_setup_profiles setup_profiles workspace else workspace in
  '(redacted_invoker, _) ← integration_with_sensitive_option_fingerprints invoker "invoker" None;
  '(redacted_artifacts, _) ← integration_with_sensitive_option_fingerprints artifacts "artifacts" None;
  '(redacted_ui, _) ← integration_with_sensitive_option_fingerprints ui "ui" None;
  let snapshot := mkRuntimeSnapshot (cf_version config) (cf_execution config) (default (cf_allowed_template_paths config) file_access)
    agent_snapshots redacted_invoker redacted_artifacts redacted_ui true (op_console_is_terminal options) (op_no_live options)
    workspace sensitive_paths [] "" raw_agents raw_workspace (Some invoker) (Some artifacts) (Some ui) in
  mret (with_effective_signature (effective_signature snapshot) snapshot).

(** Code: core/preflight/runtime_config/__init__.py, RuntimeConfigSnapshot.redacted_payload. *)
Definition redacted_payload (s : RuntimeConfigSnapshot) : outcome json :=
  invoker ← integration_redacted_payload (sn_invoker s);
  artifacts ← integration_redacted_payload (sn_artifacts s);
  ui ← integration_redacted_payload (sn_ui s);
  let given := List.filter (fun '(_, v) => not_null v) in
  mret (JObj
    [("schema_version", JStr (sn_schema_version s));
     ("execution", JObj (map (fun '(k, v) => match v with JObj f => (k, JObj (given f)) | _ => (k, v) end)
                           (given (execution_fields (sn_execution s)))));
     ("file_access", file_access_json (sn_allowed_template_paths s));
     ("agents", runtime_agent_snapshot_payloads (sn_agents s)); ("invoker", invoker); ("artifacts", artifacts); ("ui", ui);
     ("validation", JObj [("integrations_loaded", JBool (sn_integrations_loaded s))]);
     ("observer", JObj [("console_is_terminal", JBool (sn_console_is_terminal s)); ("no_live", JBool (sn_no_live s))]);
     ("workspace", workspace_fields (sn_workspace s));
     ("sensitive_config_paths", JList (map JStr (sn_sensitive_config_paths s)));
     ("config_fingerprints", JList (map fingerprint_json (sn_config_fingerprints s)));
     ("effective_runtime_config_signature", JStr (sn_effective_signature s))]).

(** Code: core/preflight/runtime_config/__init__.py, RuntimeConfigSnapshot.with_sensitive_config_fingerprints. *)
Definition with_sensitive_config_fingerprints (s : RuntimeConfigSnapshot) (fingerprint_key : option string)
    : outcome RuntimeConfigSnapshot :=
  if negb (is_cons (sn_sensitive_config_paths s)) then Ok (with_effective_signature (effective_signature s) s)
  else
    let raw_agents := match sn_raw_agents s with
                      | [] => map (fun '(name, agent) => (name, JObj (runtime_agent_snapshot_payload agent))) (sn_agents s)
                      | raw => raw
                      end in
    '(agents, fingerprints) ← redact_sensitive_config_with_fingerprints raw_agents fingerprint_key ["agents"];
    agent_snapshots ← runtime_agent_snapshots agents;
    let raw_workspace := match sn_raw_workspace s with
                         | [] => [("setup_profiles", JObj (rw_setup_profiles (sn_workspace s)))]
                         | raw => raw
                         end in
    '(workspace_payload, workspace_fingerprints) ← redact_sensitive_config_with_fingerprints raw_workspace fingerprint_key ["workspace"];
    let workspace := with_setup_profiles (setup_profiles_of workspace_payload) (sn_workspace s) in
    '(invoker, invoker_fingerprints) ←
      integration_with_sensitive_option_fingerprints (default (sn_invoker s) (sn_raw_invoker s)) "invoker" fingerprint_key;
    '(artifacts, artifact_fingerprints) ←
      integration_with_sensitive_option_fingerprints (default (sn_artifacts s) (sn_raw_artifacts s)) "artifacts" fingerprint_key;
    '(ui, ui_fingerprints) ← integration_with_sensitive_option_fingerprints (default (sn_ui s) (sn_raw_ui s)) "ui" fingerprint_key;
    let all_fingerprints := sort_key fr_path
      (fingerprints ++ workspace_fingerprints ++ invoker_fingerprints ++ artifact_fingerprints ++ ui_fingerprints) in
    let s' := with_redaction agent_snapshots invoker artifacts ui workspace all_fingerprints s in
    Ok (with_effective_signature (effective_signature s') s').

(** Code: core/preflight/runtime_config/__init__.py, runtime_agent_invocation_payloads. *)
Definition runtime_agent_invocation_payloads (agents : dict Model) (nodes : list PreflightExecutionNode) : json :=
  JList (concat (map (fun node => map (fun provider =>
    JObj [("agent_config", runtime_agent_signature_payload (pr_agent_config_key provider)
             (dget agents (pr_agent_config_key provider)) (pr_model provider));
          ("node_id", JStr (en_id node)); ("requested_reasoning", jopt JStr (pr_requested_reasoning provider));
          ("task_id", JStr (pr_task_id provider))]) (en_provider_records node)) nodes)).

(** Code: core/preflight/runtime_config/__init__.py, execution_signature_payload. *)
Definition execution_signature_payload (e : RuntimeExecutionSnapshot) (nodes : list PreflightExecutionNode) : dict json :=
  let payload := execution_effective_payload e in
  let has_review_loop := existsb (fun node => bool_decide (en_mode node = Sequential)
    && existsb (fun provider => bool_decide (pr_role provider = REVIEWER)) (en_provider_records node)) nodes in
  if has_review_loop then payload else ddel payload "sequential_consensus_on_exhaustion".

(** Code: core/preflight/runtime_config/__init__.py, runtime_config_signature. *)
Definition runtime_config_signature (s : RuntimeConfigSnapshot) (workspace_payload : dict json) (nodes : list PreflightExecutionNode)
    : string :=
  signature_for_payload (JObj
    [("agent_invocations", runtime_agent_invocation_payloads (sn_agents s) nodes);
     ("artifacts", scoped_payload (sn_artifacts s) ["artifact"; "execution"]);
     ("execution", JObj (execution_signature_payload (sn_execution s) nodes));
     ("file_access", file_access_json (sn_allowed_template_paths s));
     ("invoker", scoped_payload (sn_invoker s) ["execution"; "artifact"]); ("schema_version", JStr (sn_schema_version s));
     ("workspace", JObj workspace_payload)]).

(** Code: core/preflight/plan_signatures.py, semantic_workspace_runtime_payload. *)
Definition semantic_workspace_runtime_payload (s : RuntimeConfigSnapshot) (nodes : list PreflightExecutionNode) : dict json :=
  let policies := List.filter wp_enabled (omap en_workspace_policy nodes) in
  if negb (is_cons policies) then [("enabled", JBool false)]
  else
    let payload := workspace_signature_payload (sn_workspace s) in
    if existsb (fun policy => match wp_setup policy with Some setup => is_cons (ws_commands setup) | None => false end) policies
    then dset payload "setup_timeout_seconds" (JFloat (rw_setup_timeout_seconds (sn_workspace s))) else payload.

(** Code: core/preflight/plan_signatures.py, effective_runtime_config_signature_for_plan. *)
Definition effective_runtime_config_signature_for_plan (s : RuntimeConfigSnapshot) (nodes : list PreflightExecutionNode) : string :=
  runtime_config_signature s (semantic_workspace_runtime_payload s nodes) nodes.

End Snapshots.

(** Code: core/preflight/runtime_config/capture.py, _configured_workspace_setup_profiles. *)
Definition configured_workspace_setup_profiles (s : RuntimeConfigSnapshot) : list string :=
  match dget (sn_raw_workspace s) "setup_profiles" with
  | Some (JObj profiles) => dkeys profiles
  | _ => dkeys (rw_setup_profiles (sn_workspace s))
  end.

(** Code: core/preflight/runtime_config/capture.py, _raw_runtime_config_value. *)
Definition raw_runtime_config_value (s : RuntimeConfigSnapshot) (path : string) : outcome (option json) :=
  if str_startswith "agents." path then Ok (raw_agent_config_value (sn_raw_agents s) path)
  else if str_startswith "workspace.setup_profiles." path then Ok (raw_workspace_setup_profile_value (sn_raw_workspace s) path)
  else if str_startswith "/" path then
    raw_integration_config_value (sn_raw_invoker s) (sn_raw_artifacts s) (sn_raw_ui s) path
  else
    Ok match str_split_on "."%char path with
       | first :: second :: rest =>
           if bool_decide (first = "workspace") then value_at_path (JObj (sn_raw_workspace s)) (second :: rest) else None
       | _ => None
       end.
