(* ===== verification/SecretHandles.v ===== *)
(** What a persisted runtime configuration reveals, and the secret handles from
    which a run recovers its agents. *)

From Stdlib Require Import ZArith Lia Ascii String.
From stdpp Require Import base gmap sets list strings pretty sorting.
From S2P Require Import Prelude PyStr StateExn Models Scheduler Artifacts RunState PlanRecords PlanContract Foreach ForeachSpec PreflightState Redaction RedactionSpec RuntimeConfig.

Open Scope string_scope.
Open Scope list_scope.
Open Scope Z_scope.

(** ** Secrets are not persisted *)

Definition raw_agents (config : RunConfig) : dict json :=
  map (fun '(name, agent) => (name, JObj (agent_config_input_payload agent))) (sorted_items (cf_agents config)).

Definition raw_workspace (w : WorkspaceSettings) : dict json := [("setup_profiles", setup_profiles_json (we_setup_profiles w))].

(** The settings of a workspace without its profiles. *)
Definition without_profiles (w : WorkspaceSettings) : WorkspaceSettings :=
  mkWorkspace (we_enabled w) (we_cache_root w) (we_cleanup_on_success w) (we_worktree_contract w) (we_clean_start w) []
    (we_setup_timeout_seconds w) (we_include_cache_root w) (we_max_concurrent_materializations w) (we_warn_free_bytes w)
    (we_fail_free_bytes w).

(** Configurations that differ in secrets only, whose fingerprints are the same. *)
Record configs_agree (h h' : HmacLibrary) (key key' : option string) (c c' : RunConfig) : Prop := {
  ca_version : cf_version c = cf_version c';
  ca_execution : cf_execution c = cf_execution c';
  ca_paths : cf_allowed_template_paths c = cf_allowed_template_paths c';
  ca_workspace : without_profiles (cf_workspace c) = without_profiles (cf_workspace c');
  ca_agents_tidy : tidy (JObj (raw_agents c)) = true /\ tidy (JObj (raw_agents c')) = true;
  ca_agents : agree h h' key key' ["agents"] None false (JObj (raw_agents c)) (JObj (raw_agents c'));
  ca_profiles_tidy : tidy (JObj (raw_workspace (cf_workspace c))) = true /\ tidy (JObj (raw_workspace (cf_workspace c'))) = true;
  ca_profiles : agree h h' key key' ["workspace"] None false (JObj (raw_workspace (cf_workspace c))) (JObj (raw_workspace (cf_workspace c')))
}.

(** The snapshot without the raw values of the process. *)
Definition published (s : RuntimeConfigSnapshot) : RuntimeConfigSnapshot :=
  mkRuntimeSnapshot (sn_schema_version s) (sn_execution s) (sn_allowed_template_paths s) (sn_agents s) (sn_invoker s) (sn_artifacts s)
    (sn_ui s) (sn_integrations_loaded s) (sn_console_is_terminal s) (sn_no_live s) (sn_workspace s) (sn_sensitive_config_paths s)
    (sn_config_fingerprints s) (sn_effective_signature s) [] [] None None None.

Lemma prepared_raw_agents {hmac : HmacLibrary} c raw ps ms :
  prepare_agent_snapshots (cf_agents c) = Ok (raw, ps, ms) ->
  raw = raw_agents c /\ exists redacted, redact_sensitive_config (raw_agents c) ["agents"] = Ok (redacted, ps).
Proof.
  unfold prepare_agent_snapshots. fold (raw_agents c). intros ([x1 x2] & Hx & H)%bind_Ok. apply bind_Ok in H as ([y1 y2] & _ & H).
  apply bind_Ok in H as (? & _ & H). injection H as <- <- <-. eauto.
Qed.

Lemma workspace_snapshot_same w w' profiles :
  without_profiles w = without_profiles w' -> runtime_workspace_snapshot w profiles = runtime_workspace_snapshot w' profiles.
Proof. destruct w, w'. unfold without_profiles, runtime_workspace_snapshot. simpl. by intros [= -> -> -> -> -> -> -> -> -> ->]. Qed.

(** Objects that agree have the same keys. *)
Lemma agree_keys h h' key key' path parent after f f' :
  agree h h' key key' path parent after (JObj f) (JObj f') -> dkeys f = dkeys f'.
Proof.
  inversion 1 as [| ? ? ? ? ? Hv| |? ? ? ? ? _ Hf]; subst; [done|by rewrite container_not_sensitive in Hv|]. clear -Hf. unfold dkeys.
  induction Hf as [|[k v] [k' v'] l l' [Hk _] _ IH]; simpl in *; [done|]. by rewrite Hk, IH.
Qed.

(** So have their setup profiles. *)
Lemma profile_keys h h' key key' c c' :
  configs_agree h h' key key' c c' -> forall s s' : dict json,
  match dget (raw_workspace (cf_workspace c)) "setup_profiles" with Some (JObj profiles) => dkeys profiles | _ => dkeys s end =
  match dget (raw_workspace (cf_workspace c')) "setup_profiles" with Some (JObj profiles) => dkeys profiles | _ => dkeys s' end.
Proof.
  intros Hc s s'. pose proof (ca_profiles _ _ _ _ _ _ Hc) as Ha. unfold raw_workspace, setup_profiles_json in *.
  inversion Ha as [? ? ? ? Hcon|? ? ? ? ? Hv| |? ? ? ? ? _ Hf]; subst; [done|by rewrite container_not_sensitive in Hv|].
  inversion Hf as [|? ? ? ? [_ Hp] _]; subst. cbn [fst snd] in Hp. by apply agree_keys in Hp.
Qed.

Section Secrecy.
Context {hash : HashLibrary} {host : CacheHost} (h h' : HmacLibrary) (key key' : option string).

#[local] Notation configs_agree := (configs_agree h h' key key').
#[local] Notation integration_agree := (integration_agree h h' key key').

Lemma prepared_agents_same c c' raw raw' ps ps' ms ms' :
  configs_agree c c' -> prepare_agent_snapshots (hmac := h) (cf_agents c) = Ok (raw, ps, ms) ->
  prepare_agent_snapshots (hmac := h') (cf_agents c') = Ok (raw', ps', ms') ->
  raw = raw_agents c /\ raw' = raw_agents c' /\ ps = ps' /\ ms = ms' /\ (raw = [] -> ms = []).
Proof.
  intros Ha H H'. unfold prepare_agent_snapshots in *. fold (raw_agents c) in H. fold (raw_agents c') in H'.
  destruct (redacted_config_same h h' key key' ["agents"] _ _ ltac:(done) (proj1 (ca_agents_tidy h h' key key' _ _ Ha)) (proj2 (ca_agents_tidy h h' key key' _ _ Ha))
              (ca_agents h h' key key' _ _ Ha)) as (H1 & H2 & _).
  assert (Hempty : raw_agents c = [] -> ms = []).
  { intros He. rewrite He in H. cbn in H. by injection H. }
  rewrite H1, H2 in H. destruct (redact_sensitive_config _ _) as [[x1 x2]|?|]; [|done..].
  cbn [mbind outcome_bind] in H, H'. destruct (redact_sensitive_config_with_fingerprints _ _ _) as [[y1 y2]|?|]; [|done..].
  cbn [mbind outcome_bind] in H, H'. destruct (runtime_agent_snapshots y1); [|done..]. injection H as <- <- <-. by injection H' as <- <- <-.
Qed.

Lemma prepared_workspace_same c c' raw raw' ps ps' ws ws' :
  configs_agree c c' -> prepare_workspace_config (hmac := h) (cf_workspace c) = Ok (raw, ps, ws) ->
  prepare_workspace_config (hmac := h') (cf_workspace c') = Ok (raw', ps', ws') ->
  raw = raw_workspace (cf_workspace c) /\ raw' = raw_workspace (cf_workspace c') /\ ps = ps' /\ ws = ws'.
Proof.
  intros Ha H H'. unfold prepare_workspace_config in *. fold (raw_workspace (cf_workspace c)) in H. fold (raw_workspace (cf_workspace c')) in H'.
  destruct (redacted_config_same h h' key key' ["workspace"] _ _ ltac:(done) (proj1 (ca_profiles_tidy h h' key key' _ _ Ha))
              (proj2 (ca_profiles_tidy h h' key key' _ _ Ha)) (ca_profiles h h' key key' _ _ Ha)) as (H1 & H2 & _).
  rewrite H1, H2 in H. destruct (redact_sensitive_config _ _) as [[x1 x2]|?|]; [|done..].
  cbn [mbind outcome_bind] in H, H'. destruct (redact_sensitive_config_with_fingerprints _ _ _) as [[y1 y2]|?|]; [|done..].
  injection H as <- <- <-. by injection H' as <- <- <-.
Qed.

Lemma integration_paths_same name c c' ps ps' :
  integration_agree name c c' -> sensitive_integration_option_paths name c = Ok ps -> sensitive_integration_option_paths name c' = Ok ps' -> ps = ps'.
Proof. unfold sensitive_integration_option_paths. intros Ha H. rewrite <- (ia_pointers h h' key key' _ _ _ Ha), H. by intros [= ->]. Qed.

(** A built snapshot without its raw values. *)
Lemma snapshots_same c c' i i' a a' u u' options file_access s s' :
  configs_agree c c' -> integration_agree "invoker" i i' -> integration_agree "artifacts" a a' -> integration_agree "ui" u u' ->
  build_snapshot (hmac := h) c i a u options file_access = Ok s -> build_snapshot (hmac := h') c' i' a' u' options file_access = Ok s' ->
  published s = published s' /\ (sn_raw_agents s = [] -> sn_agents s = []) /\
  sn_raw_agents s = raw_agents c /\ sn_raw_workspace s = raw_workspace (cf_workspace c) /\
  sn_raw_invoker s = Some i /\ sn_raw_artifacts s = Some a /\ sn_raw_ui s = Some u /\
  sn_raw_agents s' = raw_agents c' /\ sn_raw_workspace s' = raw_workspace (cf_workspace c') /\
  sn_raw_invoker s' = Some i' /\ sn_raw_artifacts s' = Some a' /\ sn_raw_ui s' = Some u'.
Proof.
  intros Hc Hi Ha Hu Hs Hs'. unfold build_snapshot in *.
  pose proof (fun name c c' r r' Hn => redacted_integration_same h h' key key' name c c' None None r r' Hn ltac:(done)) as Hred.
  apply bind_Ok in Hs as ([[ra ps] ms] & Hag & Hs), Hs' as ([[ra' ps'] ms'] & Hag' & Hs').
  destruct (prepared_agents_same _ _ _ _ _ _ _ _ Hc Hag Hag') as (-> & -> & <- & <- & Hempty).
  apply bind_Ok in Hs as ([[rw wp] ws] & Hw & Hs), Hs' as ([[rw' wp'] ws'] & Hw' & Hs').
  destruct (prepared_workspace_same _ _ _ _ _ _ _ _ Hc Hw Hw') as (-> & -> & <- & <-).
  apply bind_Ok in Hs as (ip & Hip & Hs), Hs' as (ip' & Hip' & Hs'). rewrite <- (integration_paths_same _ _ _ _ _ Hi Hip Hip') in Hs'.
  apply bind_Ok in Hs as (ap & Hap & Hs), Hs' as (ap' & Hap' & Hs'). rewrite <- (integration_paths_same _ _ _ _ _ Ha Hap Hap') in Hs'.
  apply bind_Ok in Hs as (up & Hup & Hs), Hs' as (up' & Hup' & Hs'). rewrite <- (integration_paths_same _ _ _ _ _ Hu Hup Hup') in Hs'.
  apply bind_Ok in Hs as ([ri fi] & Hri & Hs), Hs' as ([ri' fi'] & Hri' & Hs'). injection (Hred _ _ _ _ _ Hi Hri Hri') as <- <-.
  apply bind_Ok in Hs as ([r2 f2] & Hr2 & Hs), Hs' as ([r2' f2'] & Hr2' & Hs'). injection (Hred _ _ _ _ _ Ha Hr2 Hr2') as <- <-.
  apply bind_Ok in Hs as ([r3 f3] & Hr3 & Hs), Hs' as ([r3' f3'] & Hr3' & Hs'). injection (Hred _ _ _ _ _ Hu Hr3 Hr3') as <- <-.
  injection Hs as <-. injection Hs' as <-. destruct Hc as [Hv He Hp Hwk _ _ _ _].
  rewrite <- Hv, <- He, <- Hp, <- (workspace_snapshot_same _ _ _ Hwk). split_and!; done.
Qed.

(** Fingerprinting keeps snapshots the same. *)
Lemma fingerprinted_same c c' i i' a a' u u' s s' s2 s2' :
  configs_agree c c' -> integration_agree "invoker" i i' -> integration_agree "artifacts" a a' -> integration_agree "ui" u u' ->
  published s = published s' -> (sn_raw_agents s = [] -> sn_agents s = []) ->
  sn_raw_agents s = raw_agents c -> sn_raw_workspace s = raw_workspace (cf_workspace c) ->
  sn_raw_invoker s = Some i -> sn_raw_artifacts s = Some a -> sn_raw_ui s = Some u ->
  sn_raw_agents s' = raw_agents c' -> sn_raw_workspace s' = raw_workspace (cf_workspace c') ->
  sn_raw_invoker s' = Some i' -> sn_raw_artifacts s' = Some a' -> sn_raw_ui s' = Some u' ->
  with_sensitive_config_fingerprints (hmac := h) s key = Ok s2 -> with_sensitive_config_fingerprints (hmac := h') s' key' = Ok s2' ->
  published s2 = published s2'.
Proof.
  intros Hc Hi Ha Hu Hpub Hnone R1 R2 R3 R4 R5 R1' R2' R3' R4' R5' H H'. destruct s, s'. cbn in R1, R2, R3, R4, R5, R1', R2', R3', R4', R5', Hnone. subst.
  injection Hpub as -> -> -> -> -> -> -> -> -> -> -> -> -> ->.
  unfold with_sensitive_config_fingerprints in *. cbn [sn_sensitive_config_paths] in *. destruct (negb _); [injection H as <-; by injection H' as <-|].
  cbn [sn_raw_agents sn_raw_workspace sn_raw_invoker sn_raw_artifacts sn_raw_ui sn_agents default from_option id raw_workspace] in H, H'.
  fold (raw_workspace (cf_workspace c)) in H. fold (raw_workspace (cf_workspace c')) in H'.
  set (ra := match raw_agents c with [] => _ | _ => _ end) in H. set (ra' := match raw_agents c' with [] => _ | _ => _ end) in H'.
  assert (Hra : ra = raw_agents c).
  { unfold ra. destruct (raw_agents c); [|done]. by rewrite (Hnone eq_refl). }
  assert (Hra' : ra' = raw_agents c').
  { pose proof (agree_keys h h' key key' _ _ _ _ _ (ca_agents h h' key key' _ _ Hc)) as Hk. unfold ra'. destruct (raw_agents c'); [|done].
    destruct (raw_agents c); [|done]. by rewrite (Hnone eq_refl). }
  clearbody ra ra'. subst ra ra'.
  destruct (redacted_config_same h h' key key' ["agents"] _ _ ltac:(done) (proj1 (ca_agents_tidy h h' key key' _ _ Hc)) (proj2 (ca_agents_tidy h h' key key' _ _ Hc))
              (ca_agents h h' key key' _ _ Hc)) as (_ & _ & Hag).
  destruct (redacted_config_same h h' key key' ["workspace"] _ _ ltac:(done) (proj1 (ca_profiles_tidy h h' key key' _ _ Hc))
              (proj2 (ca_profiles_tidy h h' key key' _ _ Hc)) (ca_profiles h h' key key' _ _ Hc)) as (_ & _ & Hwk).
  rewrite <- Hag, <- Hwk in H'. clear Hag Hwk.
  pose proof (fun name c c' r r' Hn => redacted_integration_same h h' key key' name c c' key key' r r' Hn ltac:(done)) as Hred.
  apply bind_Ok in H as ([ags f1] & Hags & H), H' as ([ags' f1'] & Hags' & H'). rewrite Hags in Hags'. injection Hags' as <- <-.
  apply bind_Ok in H as (ms & Hms & H), H' as (ms' & Hms' & H'). rewrite Hms in Hms'. injection Hms' as <-.
  apply bind_Ok in H as ([wp f2] & Hwp & H), H' as ([wp' f2'] & Hwp' & H'). rewrite Hwp in Hwp'. injection Hwp' as <- <-.
  apply bind_Ok in H as ([r1 g1] & Hr1 & H), H' as ([r1' g1'] & Hr1' & H'). injection (Hred _ _ _ _ _ Hi Hr1 Hr1') as <- <-.
  apply bind_Ok in H as ([r2 g2] & Hr2 & H), H' as ([r2' g2'] & Hr2' & H'). injection (Hred _ _ _ _ _ Ha Hr2 Hr2') as <- <-.
  apply bind_Ok in H as ([r3 g3] & Hr3 & H), H' as ([r3' g3'] & Hr3' & H'). injection (Hred _ _ _ _ _ Hu Hr3 Hr3') as <- <-.
  injection H as <-. by injection H' as <-.
Qed.

End Secrecy.

(** ** Values up to the order of keys *)

Lemma insert_key_sorted {A} (key : A -> string) x l :
  StronglySorted (fun a b => String.leb (key a) (key b) = true) l ->
  StronglySorted (fun a b => String.leb (key a) (key b) = true) (insert_key key x l).
Proof.
  induction 1 as [|y l Hs IH Hy]; simpl; [repeat constructor|]. destruct (String.leb (key x) (key y)) eqn:Hxy.
  - constructor; [by constructor|]. constructor; [done|]. eapply Forall_impl; [exact Hy|]. intros z. by apply str_leb_trans.
  - constructor; [done|]. rewrite insert_key_Permutation. constructor; [|done].
    by destruct (String.leb_total (key x) (key y)) as [H|H]; [rewrite H in Hxy|].
Qed.

Lemma sort_key_sorted {A} (key : A -> string) l : StronglySorted (fun a b => String.leb (key a) (key b) = true) (sort_key key l).
Proof. induction l; simpl; [constructor | by apply insert_key_sorted]. Qed.

Lemma NoDup_key_inj {A} (key : A -> string) l x y : NoDup (map key l) -> x ∈ l -> y ∈ l -> key x = key y -> x = y.
Proof.
  induction l as [|z l IH]; intros Hnd Hx Hy Hk; [by apply not_elem_of_nil in Hx|]. apply NoDup_cons in Hnd as [Hz Hnd].
  apply elem_of_cons in Hx as [->|Hx], Hy as [->|Hy]; [done| | |by apply IH].
  - exfalso. apply Hz. rewrite Hk. by apply list_elem_of_fmap_2.
  - exfalso. apply Hz. rewrite <- Hk. by apply list_elem_of_fmap_2.
Qed.

(** Distinct keys have one sorted order. *)
Lemma sort_key_perm {A} (key : A -> string) l m : NoDup (map key l) -> l ≡ₚ m -> sort_key key l = sort_key key m.
Proof.
  intros Hnd Hp. apply (StronglySorted_unique_strong (fun a b => String.leb (key a) (key b) = true)).
  - intros x y Hx Hy H1 H2. rewrite sort_key_Permutation in Hx. rewrite sort_key_Permutation, <- Hp in Hy.
    apply (NoDup_key_inj key l); [done..|]. by apply String.leb_antisym.
  - apply sort_key_sorted.
  - apply sort_key_sorted.
  - by rewrite !sort_key_Permutation.
Qed.

(** The value with the keys of every object in order. *)
Fixpoint sort_keys (v : json) : json :=
  match v with
  | JObj f => JObj (sorted_items (map (fun '(k, c) => (k, sort_keys c)) f))
  | JList l => JList (map sort_keys l)
  | _ => v
  end.

(** No object looks like a redacted value. *)
Fixpoint unmarked (v : json) : bool :=
  match v with
  | JObj f => negb (bool_decide (dget f "redacted" = Some (JBool true))) && forallb (fun '(_, c) => unmarked c) f
  | JList l => forallb unmarked l
  | _ => true
  end.

(** ** Resolving a redacted value *)

Section Resolving.
Context {hmac : HmacLibrary} (key : option string) (context : dict json).
#[local] Notation marked := (mark key Fingerprinted).

Definition holds (secret : list string * json) : Prop :=
  dget context (config_value_handle (path_label (fst secret))) = Some (snd secret).

Lemma resolve_mark path v : holds (path, v) -> resolve_secret_config_values context (marked path v) = Ok v.
Proof. unfold holds, mark, redacted_sensitive_leaf. simpl. intros H. destruct (config_fingerprint _ _ _); simpl; by rewrite H. Qed.

Lemma masked_not_true v path parent after : masked marked v path parent after = JBool true -> v = JBool true.
Proof.
  assert (Hm : forall path v, marked path v <> JBool true).
  { intros p w. unfold mark, redacted_sensitive_leaf. by destruct (config_fingerprint _ _ _). }
  destruct v; cbn [masked]; try (rewrite container_not_sensitive by done; done); destruct (is_sensitive_config_value _ _ _); try done;
    intros H; by apply Hm in H.
Qed.

Definition resolves (v w : json) : Prop := resolve_secret_config_values context v = Ok w.

Lemma resolve_arguments argv path l i after :
  Forall (fun c => forall path parent after, unmarked c = true -> tidy c = true -> Forall holds (secrets c path parent after) ->
    exists w, resolves (masked marked c path parent after) w /\ sort_keys w = sort_keys c) l ->
  forallb unmarked l = true -> forallb tidy l = true ->
  Forall holds (concat (arguments (fun i c => [(path ++ [index_str i], c)])
                  (fun i c => secrets c (path ++ [index_str i]) (last path) false) argv i after l)) ->
  exists ws, mapM (fun o : outcome json => o) (map (resolve_secret_config_values context)
      (arguments (fun i c => marked (path ++ [index_str i]) c) (fun i c => masked marked c (path ++ [index_str i]) (last path) false) argv i after l))
    = Ok ws /\ map sort_keys ws = map sort_keys l.
Proof.
  intros IH. revert i after. induction IH as [|c l Hc _ IHl]; intros i after Hu Ht Hs; [by exists []|]. simpl in *.
  apply andb_true_iff in Hu as [Hu1 Hu], Ht as [Ht1 Ht]. apply Forall_app in Hs as [Hs1 Hs].
  destruct (IHl _ _ Hu Ht Hs) as (ws & Hws & Hsort).
  assert (exists w, resolves (if argv && (after || assignment c) then marked (path ++ [index_str i]) c
            else masked marked c (path ++ [index_str i]) (last path) false) w /\ sort_keys w = sort_keys c) as (w & Hw & Hsw).
  { destruct (argv && _); [|by apply Hc]. exists c. split; [|done]. apply resolve_mark. by apply Forall_cons in Hs1 as [? _]. }
  exists (w :: ws). unfold resolves in Hw. rewrite Hw. simpl. rewrite Hws. simpl. split; [done|]. by rewrite Hsw, Hsort.
Qed.

Lemma resolve_fields (f : dict json) (g : string -> json -> json) :
  (forall k c, (k, c) ∈ f -> exists w, resolves (g k c) w /\ sort_keys w = sort_keys c) ->
  exists ws : dict json, mapM (fun '(k, o) => v ← (o : outcome json); mret (k, v))
      (map (fun '(k, v) => (k, resolve_secret_config_values context v)) (map (fun '(k, c) => (k, g k c)) f)) = Ok ws /\
    map (fun '(k, c) => (k, sort_keys c)) ws = map (fun '(k, c) => (k, sort_keys c)) f.
Proof.
  induction f as [|[k c] f IH]; intros Hf; [by exists []|]. destruct (Hf k c ltac:(left)) as (w & Hw & Hs).
  destruct IH as (ws & Hws & Hsort); [intros; apply Hf; by right|]. exists ((k, w) :: ws). simpl. unfold resolves in Hw. rewrite Hw. simpl.
  rewrite Hws. simpl. split; [done|]. by rewrite Hs, Hsort.
Qed.

(** A redacted value resolves to the value, when its secrets are available. *)
Lemma resolve_masked v path parent after :
  unmarked v = true -> tidy v = true -> Forall holds (secrets v path parent after) ->
  exists w, resolves (masked marked v path parent after) w /\ sort_keys w = sort_keys v.
Proof.
  revert path parent after. induction v as [v Hv|l IH|f IH] using json_children_ind; intros path parent after Hu Ht Hs.
  - destruct v; try done; cbn [masked secrets] in *; (destruct (is_sensitive_config_value _ _ _);
      [apply Forall_cons in Hs as [Hs _]; eexists; split; [by apply resolve_mark | done] | by eexists]).
  - cbn [masked secrets] in *. rewrite container_not_sensitive in * by done.
    destruct (resolve_arguments _ _ _ _ _ IH Hu Ht Hs) as (ws & Hws & Hsort). exists (JList ws). unfold resolves. cbn [resolve_secret_config_values].
    rewrite Hws. simpl. by rewrite Hsort.
  - cbn [masked secrets] in *. rewrite container_not_sensitive in * by done. cbn [unmarked tidy] in *.
    rewrite !andb_true_iff, ?bool_decide_eq_true in *. destruct Hu as [Hu1 Hu], Ht as [[Hnd _] Ht].
    rewrite (sorted_items_map (fun k c => masked marked c (path ++ [k]) None (bool_decide (k = "extra_args") && ends_with_flag f))).
    pose proof (sort_key_Permutation fst f) as Hp. change (sort_key fst f) with (sorted_items f) in Hp.
    destruct (resolve_fields (sorted_items f) (fun k c => masked marked c (path ++ [k]) None (bool_decide (k = "extra_args") && ends_with_flag f)))
      as (ws & Hws & Hsort).
    { intros k c Hk. rewrite Hp in Hk. rewrite Forall_forall in IH. apply (IH (k, c) Hk).
      - rewrite forallb_forall in Hu. apply list_elem_of_In in Hk. apply (Hu _ Hk).
      - rewrite forallb_forall in Ht. apply list_elem_of_In in Hk. apply (Ht _ Hk).
      - rewrite Forall_forall in Hs |- *. intros s Hin. apply Hs. apply elem_of_list_concat. eexists. split; [exact Hin|].
        apply list_elem_of_fmap. by exists (k, c). }
    exists (JObj ws). unfold resolves. cbn [resolve_secret_config_values]. rewrite bool_decide_false.
    + rewrite Hws. simpl. split; [done|]. f_equal. rewrite Hsort. apply sort_key_perm; [|by rewrite Hp].
      rewrite map_map. rewrite (map_ext _ fst) by (by intros []). unfold dkeys in Hnd. by rewrite Hp.
    + rewrite (dget_map_key (fun k c => masked marked c (path ++ [k]) None (bool_decide (k = "extra_args") && ends_with_flag f))).
      rewrite dget_sorted_items by done. intros (c & Hc & Hm)%fmap_Some. symmetry in Hm. apply masked_not_true in Hm as ->.
      rewrite Hc in Hu1. by rewrite bool_decide_true in Hu1.
Qed.

End Resolving.

(** ** Looking values up by their labels *)

Definition digit_step (n : nat) (c : ascii) : nat := (n * 10 + N.to_nat (code c - 48))%nat.

Lemma pretty_digit d : (d < 10)%N -> is_digit (pretty_N_char d) = true /\ (code (pretty_N_char d) - 48)%N = d.
Proof. intros Hd. destruct d as [|p]; [done|]. do 4 (destruct p as [p|p|]; try done). all: lia. Qed.

Lemma pretty_N_go_value x s :
  Forall (fun c => is_digit c = true) (chars s) ->
  Forall (fun c => is_digit c = true) (chars (pretty_N_go x s)) /\
  foldl digit_step 0%nat (chars (pretty_N_go x s)) = foldl digit_step (N.to_nat x) (chars s).
Proof.
  revert s. induction (N.lt_wf_0 x) as [x _ IH]; intros s Hs. destruct (decide (0 < x)%N) as [Hx|Hx].
  - rewrite pretty_N_go_step by done. assert (Hm : (x `mod` 10 < 10)%N) by (apply N.mod_lt; lia). destruct (pretty_digit _ Hm) as [Hd Hv].
    destruct (IH (x `div` 10)%N ltac:(by apply N.div_lt) (String (pretty_N_char (x `mod` 10)) s)) as [H1 H2]; [by constructor|].
    split; [done|]. rewrite H2. cbn [chars list_ascii_of_string foldl]. unfold chars. simpl. f_equal. unfold digit_step. rewrite Hv.
    pose proof (N.div_mod x 10 ltac:(lia)). lia.
  - assert (x = 0%N) as -> by lia. by rewrite pretty_N_go_0.
Qed.

Lemma index_digits i : all_digits (index_str i) = true /\ digits_value (index_str i) = i.
Proof.
  unfold index_str, str_int, all_digits, digits_value. destruct i as [|i]; [by vm_compute|].
  change (pretty (Z.of_nat (S i))) with (pretty_N_go (N.of_nat (S i)) "").
  destruct (pretty_N_go_value (N.of_nat (S i)) "" ltac:(constructor)) as [H1 H2]. unfold digit_step in H2. rewrite H2. simpl foldl.
  split; [|lia]. apply andb_true_iff. split.
  - destruct (pretty_N_go _ _); [|done]. cbn in H2. lia.
  - apply forallb_forall. intros c Hc. rewrite Forall_forall in H1. by apply H1, list_elem_of_In.
Qed.

(** The keys of all objects have no dots. *)
Fixpoint dotless (v : json) : bool :=
  match v with
  | JObj f => forallb no_dot (dkeys f) && forallb (fun '(_, c) => dotless c) f
  | JList l => forallb dotless l
  | _ => true
  end.

(** A secret is at its path. *)
Lemma secrets_at v path parent after p raw :
  (p, raw) ∈ secrets v path parent after -> tidy v = true ->
  exists q, p = path ++ q /\ value_at_path v q = Some raw /\ (dotless v = true -> forallb no_dot q = true) /\
            (is_container v = true -> q <> []).
Proof.
  revert path parent after. induction v as [v Hv|l IH|f IH] using json_children_ind; intros path parent after Hin Ht.
  - exists []. rewrite app_nil_r. destruct v; try done; cbn [secrets] in Hin;
      (destruct (is_sensitive_config_value _ _ _); [|by apply not_elem_of_nil in Hin]); apply list_elem_of_singleton in Hin as [= -> ->]; done.
  - cbn [secrets] in Hin. rewrite container_not_sensitive in Hin by done. apply arguments_elem in Hin as (j & c & Hj & Hin).
    destruct (index_digits j) as [Hd Hv]. simpl in Hin.
    assert (Hc : exists q, p = (path ++ [index_str j]) ++ q /\ value_at_path c q = Some raw /\ (dotless c = true -> forallb no_dot q = true)).
    { destruct Hin as [Hin|Hin].
      - apply list_elem_of_singleton in Hin as [= -> ->]. exists []. by rewrite app_nil_r.
      - rewrite Forall_forall in IH. cbn [tidy] in Ht. rewrite forallb_forall in Ht.
        destruct (IH c (list_elem_of_lookup_2 _ _ _ Hj) _ _ _ Hin) as (q & Hq & Hv' & Hdot & _); [|by exists q].
        apply Ht, list_elem_of_In. by eapply list_elem_of_lookup_2. }
    destruct Hc as (q & -> & Hval & Hdot). exists (index_str j :: q). rewrite <- app_assoc. split_and!; [done| | |done].
    + simpl. by rewrite Hd, Hv, Hj.
    + intros Hl. cbn [forallb]. rewrite index_str_no_dot. cbn [andb]. apply Hdot. cbn [dotless] in Hl. rewrite forallb_forall in Hl.
      apply Hl, list_elem_of_In. by eapply list_elem_of_lookup_2.
  - cbn [secrets] in Hin. rewrite container_not_sensitive in Hin by done. apply elem_of_list_concat in Hin as (l & Hin & Hl).
    apply list_elem_of_fmap in Hl as ([k c] & -> & Hk). cbn [tidy] in Ht. rewrite !andb_true_iff, bool_decide_eq_true in Ht.
    destruct Ht as [[Hnd _] Ht]. rewrite Forall_forall in IH. rewrite forallb_forall in Ht.
    destruct (IH _ Hk _ _ _ Hin) as (q & -> & Hval & Hdot & _); [by apply (Ht (k, c)), list_elem_of_In|].
    exists (k :: q). rewrite <- app_assoc. split_and!; [done| | |done].
    + simpl. by rewrite (elem_of_dget f k c).
    + cbn [dotless]. rewrite andb_true_iff. intros [Hd1 Hd2]. rewrite forallb_forall in Hd1, Hd2.  cbn [forallb]. apply andb_true_iff. split; [apply Hd1 | apply Hdot].
      * apply list_elem_of_In. unfold dkeys. apply list_elem_of_fmap. by exists (k, c).
      * by apply (Hd2 (k, c)), list_elem_of_In.
Qed.

(** [label.split(".")] gives the path back. *)
Lemma split_label q : q <> [] -> forallb no_dot q = true -> str_split_on "."%char (path_label q) = q.
Proof.
  induction q as [|a q IH]; [done|]. intros _. cbn [forallb]. rewrite andb_true_iff. intros [Ha Hq]. apply no_dot_Forall in Ha.
  unfold str_split_on. destruct q as [|b q].
  - change (path_label [a]) with a. rewrite <- (app_nil_r (chars a)), split_on_skip by done. simpl.
    by rewrite app_nil_r, reverse_involutive, of_chars_chars.
  - rewrite label_cons, !chars_app, split_on_skip by done. simpl. rewrite app_nil_r, reverse_involutive, of_chars_chars. f_equal.
    by apply IH.
Qed.

(** The payload of an agent: fields without dots, and an environment of
    scalars, whose names are arbitrary. *)
Definition agent_shape (v : json) : bool :=
  match v with
  | JObj f =>
      forallb (fun '(k, c) => no_dot k &&
        (if bool_decide (k = "environment")
         then match c with JObj e => forallb (fun '(_, v) => negb (is_container v)) e | _ => false end else dotless c)) f
  | _ => false
  end.

(** No agent name continues another one after a dot. *)
Definition names_apart (names : list string) : Prop :=
  forall n m, n ∈ names -> m ∈ names -> n <> m -> str_startswith (n +:+ ".") m = false.

Lemma str_startswith_app a b : str_startswith a (a +:+ b) = true.
Proof. unfold str_startswith. apply starts_with_spec. exists (chars b). by rewrite chars_app. Qed.

Lemma removeprefix_app a b : removeprefix a (a +:+ b) = b.
Proof.
  unfold removeprefix. rewrite str_startswith_app, chars_app, <- length_chars, drop_app_length. apply of_chars_chars.
Qed.

Lemma find_unique {A} (P : A -> bool) l a : a ∈ l -> P a = true -> (forall x, x ∈ l -> P x = true -> x = a) -> List.find P l = Some a.
Proof.
  induction l as [|x l IH]; intros Ha Hp Hu; [by apply not_elem_of_nil in Ha|]. simpl. destruct (P x) eqn:Hx.
  - f_equal. by apply Hu; [left|].
  - apply elem_of_cons in Ha as [->|Ha]; [congruence|]. apply IH; [done..|]. intros y Hy. apply Hu. by right.
Qed.

Lemma owner_found names name suffix :
  names_apart names -> name ∈ names ->
  matched_sensitive_path_owner ("agents." +:+ name +:+ "." +:+ suffix) "agents." names "." = Some name.
Proof.
  intros Hap Hin. unfold matched_sensitive_path_owner. apply find_unique.
  - by apply elem_of_sort_by.
  - rewrite <- !str_app_assoc. apply str_startswith_app.
  - intros other Ho Hs. apply elem_of_sort_by in Ho. destruct (decide (other = name)) as [|Hne]; [done|exfalso].
    unfold str_startswith in Hs. apply starts_with_spec in Hs as [rest Hs]. rewrite !chars_app, <- !app_assoc in Hs. apply app_inv_head in Hs.
    destruct (app_eq_inv _ _ _ _ Hs) as [(k & Hk1 & Hk2)|(k & Hk1 & Hk2)].
    + destruct k as [|c k]; [rewrite app_nil_r in Hk1; by apply (f_equal of_chars) in Hk1; rewrite !of_chars_chars in Hk1|].
      simpl in Hk2. injection Hk2 as <- Hk2. pose proof (Hap other name Ho Hin Hne) as Hf. unfold str_startswith in Hf.
      rewrite chars_app, Hk1 in Hf. rewrite (proj2 (starts_with_spec _ _)) in Hf; [done|]. exists k. simpl. by rewrite <- app_assoc.
    + destruct k as [|c k]; [rewrite app_nil_r in Hk1; by apply (f_equal of_chars) in Hk1; rewrite !of_chars_chars in Hk1|].
      simpl in Hk2. injection Hk2 as <- Hk2. pose proof (Hap name other Hin Ho ltac:(done)) as Hf. unfold str_startswith in Hf.
      rewrite chars_app, Hk1 in Hf. rewrite (proj2 (starts_with_spec _ _)) in Hf; [done|]. exists k. simpl. by rewrite <- app_assoc.
Qed.

Lemma secrets_scalar v path parent after p raw :
  is_container v = false -> (p, raw) ∈ secrets v path parent after -> p = path /\ raw = v.
Proof.
  intros Hv Hin. destruct v; try done; cbn [secrets] in Hin;
    (destruct (is_sensitive_config_value _ _ _); [|by apply not_elem_of_nil in Hin]); apply list_elem_of_singleton in Hin as [= -> ->]; done.
Qed.

Lemma split_environment k : split_first_dot ("environment." +:+ k) = ["environment"; k].
Proof. unfold split_first_dot. rewrite chars_app. simpl. do 2 f_equal. apply of_chars_chars. Qed.

Lemma not_environment field q :
  forallb no_dot (field :: q) = true -> field <> "environment" -> str_startswith "environment." (path_label (field :: q)) = false.
Proof.
  intros Hd Hf. destruct (str_startswith _ _) eqn:Hs; [exfalso|done]. unfold str_startswith in Hs. apply starts_with_spec in Hs as [rest Hs].
  cbn [forallb] in Hd. apply andb_true_iff in Hd as [Hd _]. apply no_dot_Forall in Hd. change (chars "environment.") with (chars "environment" ++ ["."%char]) in Hs.
  rewrite <- app_assoc in Hs. destruct q as [|b q].
  - change (path_label [field]) with field in Hs. rewrite Hs in Hd. apply Forall_app in Hd as [_ Hd]. by inversion Hd.
  - rewrite label_cons, !chars_app in Hs. apply dot_split_inj in Hs as [Hs _]; [|done|by apply no_dot_Forall].
    apply (f_equal of_chars) in Hs. by rewrite !of_chars_chars in Hs.
Qed.

(** The value behind the label of a secret of the agents is that secret. *)
Lemma agent_secret_found agents p raw :
  tidy (JObj agents) = true -> forallb (fun '(_, v) => agent_shape v) agents = true -> names_apart (dkeys agents) ->
  (p, raw) ∈ secrets (JObj agents) ["agents"] None false -> raw_agent_config_value agents (path_label p) = Some raw.
Proof.
  intros Ht Hs Hap Hin. cbn [secrets] in Hin. rewrite container_not_sensitive in Hin by done.
  apply elem_of_list_concat in Hin as (l & Hin & Hl). apply list_elem_of_fmap in Hl as ([name agent] & -> & Hname).
  cbn [tidy] in Ht. rewrite !andb_true_iff, bool_decide_eq_true, !forallb_forall in Ht. destruct Ht as [[Hnd _] Ht].
  rewrite forallb_forall in Hs. apply list_elem_of_In in Hname as HnameI. specialize (Hs _ HnameI). specialize (Ht _ HnameI). cbn iota beta in Hs, Ht.
  destruct agent as [| | | | | |f]; try done. cbn [agent_shape] in Hs. cbn [tidy] in Ht.
  rewrite !andb_true_iff, bool_decide_eq_true, !forallb_forall in Ht. destruct Ht as [[Hndf _] Ht]. rewrite forallb_forall in Hs.
  cbn [secrets] in Hin. rewrite container_not_sensitive in Hin by done.
  apply elem_of_list_concat in Hin as (l & Hin & Hl). apply list_elem_of_fmap in Hl as ([field c] & -> & Hfield).
  apply list_elem_of_In in Hfield as HfI. specialize (Hs _ HfI). specialize (Ht _ HfI). cbn iota beta in Hs, Ht.
  apply andb_true_iff in Hs as [Hdot Hs].
  assert (Hq : exists q, p = ["agents"; name; field] ++ q /\ value_at_path c q = Some raw /\
            (if str_startswith "environment." (path_label (field :: q)) then split_first_dot (path_label (field :: q))
             else str_split_on "."%char (path_label (field :: q))) = field :: q).
  { destruct (decide (field = "environment")) as [Henv|Henv]; [rewrite bool_decide_true in Hs by done | rewrite bool_decide_false in Hs by done].
    - destruct c as [| | | | | |e]; try done. subst field. cbn [secrets] in Hin. rewrite container_not_sensitive in Hin by done.
      apply elem_of_list_concat in Hin as (l & Hin & Hl). apply list_elem_of_fmap in Hl as ([k v] & -> & Hk).
      rewrite forallb_forall in Hs. apply list_elem_of_In in Hk as HkI. specialize (Hs _ HkI). cbn iota beta in Hs. apply negb_true_iff in Hs.
      apply secrets_scalar in Hin as [-> ->]; [|done]. exists [k]. split; [done|]. split.
      + simpl. cbn [tidy] in Ht. rewrite !andb_true_iff, bool_decide_eq_true in Ht. destruct Ht as [[Hnde _] _]. by rewrite (elem_of_dget e k v).
      + change (path_label ["environment"; k]) with ("environment." +:+ k). by rewrite str_startswith_app, split_environment.
    - destruct (secrets_at _ _ _ _ _ _ Hin Ht) as (q & -> & Hv & Hdq & _). exists q. split; [done|]. split; [done|].
      assert (Hall : forallb no_dot (field :: q) = true) by (cbn [forallb]; rewrite Hdot; by apply Hdq).
      rewrite not_environment by done. by apply split_label. }
  destruct Hq as (q & -> & Hv & Hparts). unfold raw_agent_config_value.
  change (path_label (["agents"; name; field] ++ q)) with ("agents." +:+ name +:+ "." +:+ path_label (field :: q)).
  rewrite owner_found; [|done|unfold dkeys; apply list_elem_of_fmap; by exists (name, JObj f)]. cbn [mbind option_bind].
  rewrite <- !str_app_assoc, removeprefix_app. rewrite Hparts, (elem_of_dget agents name (JObj f)) by done. simpl.
  by rewrite (elem_of_dget f field c).
Qed.
