(* ===== verification/PreflightFilesystem.v ===== *)
(** File tokens of templates: core/preflight/static_resources.py and
    core/preflight/workspace/files/{paths,selection,locators}.py.

    A file token names a text file of the project (or of an allowlisted
    directory), whose bytes are captured and registered by their digest, or,
    when the node runs in a managed workspace, a file of the run's base commit
    or of the workspace.  Paths are those of a POSIX system. *)

From Stdlib Require Import ZArith Lia Ascii String.
From stdpp Require Import base gmap sets list strings.
From S2P Require Import Prelude PyStr StateExn Models Graph Artifacts Composition PlanRecords PlanContract PreflightState.

Open Scope string_scope.
Open Scope list_scope.
Open Scope Z_scope.

(** Code: core/preflight/static_resources.py, StaticFileResult. *)
Record StaticFileResult := mkFileResult {
  sf_resource : option StaticResource;
  sf_payload : option string;
  sf_diagnostics : list PreflightDiagnostic
}.

(** Code: core/preflight/static_resources.py, _file_diagnostic. *)
Definition file_diagnostic (raw_path message : string) (resolved_path : option string) (c : PreflightDiagnosticCode)
    : StaticFileResult :=
  mkFileResult None None
    [mkDiagnostic c message SeverityError PhaseFilePolicy None (Some raw_path)
       (match resolved_path with Some p => [("resolved_path", JStr p)] | None => [] end)].

(** Code: core/preflight/static_resources.py, _path_is_allowed. *)
Definition path_is_allowed (path project_root : string) (allowed_paths : list string) : bool :=
  is_relative_to path project_root
  || existsb (fun allowed => bool_decide (path = allowed) || is_relative_to path allowed) allowed_paths.

Section Resources.
Context {hash : HashLibrary} {files : PreflightFiles}.

(** Code: core/preflight/static_resources.py, _is_reserved_state_resource. *)
Definition is_reserved_state_resource (path project_root : string) : bool :=
  match relative_to path (resolve project_root) with
  | None => false
  | Some relative_path => is_reserved_state_path relative_path FILE_TOKEN_EXCLUDED_ROOTS
  end.

(** Code: core/preflight/static_resources.py, _static_path_policy_diagnostic. *)
Definition static_path_policy_diagnostic (raw_path path project_root : string) (allowed_paths : list string)
    (access_denied_message : string) : option StaticFileResult :=
  if is_reserved_state_resource path project_root then
    Some (file_diagnostic raw_path ("Template access denied for Crewplane runtime-owned path: " +:+ raw_path) (Some path)
            FILE_POLICY)
  else if negb (path_is_allowed path project_root allowed_paths) then
    Some (file_diagnostic raw_path access_denied_message (Some path) FILE_POLICY)
  else None.

(** Code: core/preflight/static_resources.py, _static_file_candidate_diagnostic. *)
Definition static_file_candidate_diagnostic (raw_path path project_root : string) (allowed_paths : list string)
    : option StaticFileResult :=
  match static_path_policy_diagnostic raw_path path project_root allowed_paths ("Template access denied: " +:+ raw_path) with
  | Some d => Some d
  | None => if negb (file_exists path)
            then Some (file_diagnostic raw_path ("File not found: " +:+ raw_path) (Some path) FILE_POLICY) else None
  end.

(** Code: core/preflight/static_resources.py, _resolve_existing_static_file_path. *)
Definition resolve_existing_static_file_path (raw_path path project_root : string) (allowed_paths : list string)
    : outcome (StaticFileResult + string) :=
  resolved ← answered (resolve_strict path);
  mret (match static_path_policy_diagnostic raw_path resolved project_root allowed_paths
                ("Template access denied after symlink resolution: " +:+ raw_path) with
        | Some d => inl d
        | None => if negb (is_regular_file resolved)
                  then inl (file_diagnostic raw_path ("Not a file: " +:+ raw_path) (Some resolved) FILE_POLICY)
                  else inr resolved
        end).

(** Code: core/preflight/static_resources.py, _static_file_encoding_diagnostic. *)
Definition static_file_encoding_diagnostic (raw_path resolved_path payload : string) : option StaticFileResult :=
  match decode_utf8_without_nul payload with
  | NotUtf8 => Some (file_diagnostic raw_path "File token content must be UTF-8 text." (Some resolved_path) FILE_ENCODING)
  | NulText => Some (file_diagnostic raw_path "File contains NUL bytes." (Some resolved_path) FILE_ENCODING)
  | Decoded _ => None
  end.

(** Code: core/preflight/static_resources.py, _materialize_static_file. *)
Definition materialize_static_file (raw_path source_root resolved_path payload : string) : StaticFileResult :=
  match static_file_encoding_diagnostic raw_path resolved_path payload with
  | Some d => d
  | None =>
      let digest := sha256 payload in
      mkFileResult
        (Some (mkResource digest raw_path (resolve source_root) resolved_path ("static-files/" +:+ digest +:+ ".txt") "utf-8"
                 (Z.of_nat (String.length payload)) digest []))
        (Some payload) []
  end.

(** Code: core/preflight/static_resources.py, _normalize_static_file_path. *)
Definition normalize_static_file_path (raw_path source_root : string) : outcome string :=
  candidate ← answered (expand_user raw_path); mret (resolve (path_join source_root candidate)).

(** Code: core/preflight/static_resources.py, resolve_static_file. *)
Definition resolve_static_file (raw_path source_root project_root : string) (allowed_paths : list string)
    : outcome StaticFileResult :=
  let raw := str_strip raw_path in
  if negb (nonempty raw) then mret (file_diagnostic raw_path "Template file path is empty." None FILE_POLICY)
  else
    normalized ← normalize_static_file_path raw source_root;
    match static_file_candidate_diagnostic raw normalized project_root allowed_paths with
    | Some d => mret d
    | None =>
        resolved ← resolve_existing_static_file_path raw normalized project_root allowed_paths;
        match resolved with
        | inl d => mret d
        | inr resolved => payload ← answered (read_bytes resolved); mret (materialize_static_file raw source_root resolved payload)
        end
    end.

(** Code: core/preflight/static_resources.py, resolve_terminal_result_file. *)
Definition resolve_terminal_result_file (raw_path source_root : string)
    (history_reader : option (string -> string -> TerminalHistoryRead)) : outcome (option StaticFileResult) :=
  match history_reader with
  | None => mret None
  | Some reader =>
      let raw := str_strip raw_path in
      let result := reader raw source_root in
      if negb (hr_matched result) then mret None
      else
        match hr_error result with
        | Some e => mret (Some (file_diagnostic raw e (hr_path result) FILE_POLICY))
        | None =>
            match hr_path result, hr_payload result with
            | Some path, Some payload => mret (Some (materialize_static_file raw source_root path payload))
            | _, _ => Raise (ValueError "Terminal history reader returned an incomplete result.")
            end
        end
  end.

(** Code: core/preflight/static_resources.py, static_file_token_signature. *)
Definition static_file_token_signature (resource : StaticResource) (node_id occurrence_id raw_token : string) : string :=
  signature_for_payload (JObj
    [("content_ref", JStr (sr_content_ref resource)); ("node_id", JStr node_id); ("occurrence_id", JStr occurrence_id);
     ("raw_token", JStr raw_token); ("sha256", JStr (sr_sha256 resource)); ("size_bytes", JInt (sr_size_bytes resource))]).

(** Code: core/preflight/static_resources.py, static_file_resolved_payload. *)
Definition static_file_resolved_payload (resource : StaticResource) : dict json :=
  [("kind", JStr "static_file_content"); ("content_ref", JStr (sr_content_ref resource));
   ("content_sha256", JStr (sr_sha256 resource)); ("content_size", JStr (str_int (sr_size_bytes resource)));
   ("resolved_path", JStr (sr_resolved_path resource)); ("source_root", JStr (sr_source_root resource))].

(** Code: core/preflight/static_resources.py, static_file_metadata. *)
Definition static_file_metadata (resource : StaticResource) : dict string :=
  [("content_ref", sr_content_ref resource); ("sha256", sr_sha256 resource)].

(** [resource.model_copy(update={"token_signatures": signatures})]. *)
Definition with_token_signatures (signatures : list string) (r : StaticResource) : StaticResource :=
  mkResource (sr_resource_id r) (sr_raw_path r) (sr_source_root r) (sr_resolved_path r) (sr_content_ref r) (sr_encoding r)
    (sr_size_bytes r) (sr_sha256 r) signatures.

(** [sorted(set(l))]. *)
Definition sorted_set (l : list string) : list string := sorted_str (remove_dups l).

(** [d.setdefault(k, v)]. *)
Definition setdefault {V} (d : dict V) (k : string) (v : V) : dict V := if dmem d k then d else dset d k v.

(** The first registered resource with the content reference is replaced.
    Code: core/preflight/static_resources.py:128-134. *)
Fixpoint add_signature (content_ref token_signature : string) (rs : list StaticResource) : option (list StaticResource) :=
  match rs with
  | [] => None
  | r :: t =>
      if bool_decide (sr_content_ref r = content_ref)
      then Some (with_token_signatures (sorted_set (sr_token_signatures r ++ [token_signature])) r :: t)
      else cons r <$> add_signature content_ref token_signature t
  end.

(** Code: core/preflight/static_resources.py, append_static_resource. *)
Definition append_static_resource (resource : StaticResource) (payload token_signature : string) : M CompileState unit :=
  resources ← read cs_static_resources;
  match add_signature (sr_content_ref resource) token_signature resources with
  | Some updated =>
      modify (on_static_resources (fun _ => updated));;
      modify (on_static_payloads (fun payloads => setdefault payloads (sr_content_ref resource) payload))
  | None =>
      modify (on_static_resources (fun resources => resources ++ [resource]));;
      modify (on_static_payloads (fun payloads => dset payloads (sr_content_ref resource) payload))
  end.

(** Code: core/preflight/static_resources.py, prepare_static_file_reference. *)
Definition prepare_static_file_reference (result : StaticFileResult) (node_id occurrence_id raw_token : string)
    : M CompileState (option ResolvedStaticFileReference) :=
  extend_diagnostics (sf_diagnostics result);;
  match sf_resource result, sf_payload result with
  | Some found, Some payload =>
      let signature := static_file_token_signature found node_id occurrence_id raw_token in
      let resource := with_token_signatures [signature] found in
      append_static_resource resource payload signature;;
      ret (Some (mkResolvedFile resource signature))
  | _, _ => ret None
  end.

End Resources.

(** ** Managed workspaces (core/preflight/workspace/files/selection.py) *)

(** Code: core/preflight/workspace/files/selection.py, selected_worktree_kind. *)
Definition selected_worktree_kind (workflow : WorkflowPlan) (node : WorkflowNode) : option WorktreeKind :=
  match selected_worktree_name workflow node with
  | None => None
  | Some selector => wt_kind <$> dget (plan_worktrees workflow) selector
  end.

(** Code: core/preflight/workspace/files/selection.py, node_selects_managed_workspace. *)
Definition node_selects_managed_workspace (workflow : WorkflowPlan) (node : WorkflowNode) : bool :=
  if bool_decide (node_mode node = InputMode) || negb (is_cons (plan_worktrees workflow)) then false
  else is_some (selected_worktree_name workflow node).

(** Code: core/preflight/workspace/files/selection.py, workflow_has_managed_workspace_selection. *)
Definition workflow_has_managed_workspace_selection (workflow : WorkflowPlan) : bool :=
  existsb (node_selects_managed_workspace workflow) (plan_nodes workflow).

(** Code: core/preflight/workspace/files/selection.py, has_same_worktree_source_ancestor. *)
Definition has_same_worktree_source_ancestor (workflow : WorkflowPlan) (node : WorkflowNode) (selector : string)
    : outcome bool :=
  ancestors ← ancestor_map workflow;
  let own := default ∅ (dget ancestors (node_id node)) in
  let nodes_by_id := dict_of (map (fun candidate => (node_id candidate, candidate)) (plan_nodes workflow)) in
  mret (existsb (fun '(id, upstream) =>
    bool_decide (id ∈ own)
    && bool_decide (selected_worktree_name workflow upstream = Some selector)
    && bool_decide (selected_worktree_kind workflow upstream = Some WK_worktree)) nodes_by_id).

(** ** Paths of workspace files (core/preflight/workspace/files/paths.py) *)

(** Code: core/preflight/workspace/files/paths.py, WorkspaceFilePathRecord. *)
Record WorkspaceFilePathRecord := mkPathRecord {
  wf_source_root : string;
  wf_source_root_relative_to_project : string;
  wf_git_top_relative_path : string;
  wf_workspace_relative_path : string
}.

(** Code: core/preflight/workspace/files/paths.py, normalize_project_relative_parts. *)
Fixpoint normalize_parts (normalized parts : list string) : option (list string) :=
  match parts with
  | [] => Some normalized
  | part :: rest =>
      if bool_decide (part = "") || bool_decide (part = ".") then normalize_parts normalized rest
      else if bool_decide (part = "..") then
        match reverse normalized with
        | [] => None
        | _ :: shorter => normalize_parts (reverse shorter) rest
        end
      else normalize_parts (normalized ++ [part]) rest
  end.

Definition normalize_project_relative_parts (parts : list string) : option string :=
  match normalize_parts [] parts with
  | None | Some [] => None
  | Some normalized => Some (str_join "/" normalized)
  end.

(** Code: core/preflight/workspace/files/paths.py, project_relative_workspace_path. *)
Definition project_relative_workspace_path (source_root_relative raw_path : string) : option string :=
  let base_parts := if bool_decide (source_root_relative = ".") then [] else posix_parts source_root_relative in
  normalize_project_relative_parts (base_parts ++ posix_parts raw_path).

(** Code: core/preflight/workspace/files/locators.py, git_top_relative_path. *)
Definition git_top_relative_path (project_root_relative project_relative : string) : string :=
  if bool_decide (project_root_relative = ".") then project_relative
  else str_join "/" (posix_parts project_root_relative ++ posix_parts project_relative).

(** Code: core/workspace/git_policy.py, REGULAR_FILE_MODES. *)
Definition REGULAR_FILE_MODES : list string := ["100644"; "100755"].

(** A field that is written only when it is present. *)
Definition opt_entry (key : string) (value : option string) : dict string :=
  match value with Some v => [(key, v)] | None => [] end.

Section Locators.
Context {hash : HashLibrary} {files : PreflightFiles}.

(** Code: core/preflight/workspace/files/paths.py, lexical_absolute_path. *)
Definition lexical_absolute_path (path : string) : outcome string :=
  expanded ← answered (expand_user path); mret (path_join current_directory expanded).

(** Code: core/preflight/workspace/files/selection.py, is_allowlisted_absolute_path. *)
Definition is_allowlisted_absolute_path (raw_path : string) (allowed_paths : list string) : outcome bool :=
  match expand_user (str_strip raw_path) with
  | inl (RuntimeError _) => mret false
  | inl e => Raise e
  | inr candidate =>
      if negb (str_startswith "/" candidate) then mret false
      else
        let normalized := resolve candidate in
        mret (existsb (fun allowed => bool_decide (normalized = allowed) || is_relative_to normalized allowed) allowed_paths)
  end.

(** Code: core/preflight/workspace/files/locators.py, append_workspace_file_error. *)
Definition append_workspace_file_error (node_id raw_path message : string) : M CompileState unit :=
  append_diagnostic WORKSPACE_FILE_LOCATOR PhaseWorkspaceFileLocator message (Some node_id) (Some raw_path) SeverityError.

(** The early [return None] after an error. *)
Definition no_locator {A} (node_id raw_path message : string) : M CompileState (option A) :=
  append_workspace_file_error node_id raw_path message;; ret None.

(** Code: core/preflight/workspace/files/locators.py, is_absolute_workspace_file_path. *)
Definition is_absolute_workspace_file_path (raw node_id raw_path : string) : M CompileState (option bool) :=
  match expand_user raw with
  | inr expanded => ret (Some (str_startswith "/" expanded))
  | inl (RuntimeError message) =>
      no_locator node_id raw_path ("Workspace file path could not expand user home: " +:+ message)
  | inl e => raise e
  end.

(** Code: core/preflight/workspace/files/locators.py, workspace_file_path_record. *)
Definition workspace_file_path_record (node : WorkflowNode) (raw_path : string) (options : PreflightCompileOptions)
    : M CompileState (option WorkspaceFilePathRecord) :=
  let raw := str_strip raw_path in
  let id := node_id node in
  if negb (nonempty raw) then no_locator id raw_path "Workspace file path is empty."
  else if has_nul raw then no_locator id raw_path "Workspace file paths must not contain NUL bytes."
  else
    absolute_path ← is_absolute_workspace_file_path raw id raw_path;
    match absolute_path with
    | None => ret None
    | Some true => no_locator id raw_path "Workspace-enabled absolute file tokens must be explicitly allowlisted."
    | Some false =>
        project_root ← lift (lexical_absolute_path (po_project_root options));
        node_source_root ← lift (lexical_absolute_path (source_root node options));
        match relative_to node_source_root project_root with
        | None => no_locator id raw_path "Workspace file token source root escapes the project root."
        | Some source_relative =>
            match project_relative_workspace_path source_relative raw with
            | None => no_locator id raw_path "Workspace file token escapes the project root."
            | Some project_relative =>
                if is_reserved_state_path project_relative FILE_TOKEN_EXCLUDED_ROOTS then
                  no_locator id raw_path "Workspace file tokens cannot read reserved .crewplane runtime roots."
                else
                  ret (Some (mkPathRecord node_source_root source_relative
                    (git_top_relative_path
                       (match po_workspace_source_snapshot options with
                        | Some snapshot => ss_project_root_relative_path snapshot | None => "." end) project_relative)
                    project_relative))
            end
        end
    end.

(** Code: core/preflight/workspace/files/locators.py, locator_source_class. *)
Definition locator_source_class (workflow : WorkflowPlan) (node : WorkflowNode) (target : WorkspaceFileTarget)
    : outcome WorkspaceFileSourceClass :=
  if bool_decide (target = INPUT_OUTPUT) then mret PROJECT_INITIAL
  else
    match selected_worktree_name workflow node with
    | None => mret PROJECT_INITIAL
    | Some selector =>
        declaration ← ditem (plan_worktrees workflow) selector;
        if bool_decide (wt_kind declaration = WK_snapshot) then mret PROJECT_INITIAL
        else if bool_decide (target = REVIEWER_PROMPT) then mret RUNTIME_DYNAMIC
        else
          shared ← has_same_worktree_source_ancestor workflow node selector;
          if shared : bool then mret RUNTIME_DYNAMIC
          else if bool_decide (target = EXECUTOR_PROMPT) && bool_decide (selected_worktree_kind workflow node = Some WK_worktree)
          then mret PROJECT_INITIAL_THEN_CANDIDATE
          else mret PROJECT_INITIAL
    end.

(** Code: core/preflight/workspace/files/locators.py, resolve_project_blob. *)
Definition resolve_project_blob (git_top_level run_base_commit git_path node_id raw_path : string)
    : M CompileState (option ProjectBlobRecord) :=
  match git_ls_tree git_top_level run_base_commit git_path with
  | inl message => no_locator node_id raw_path ("Workspace file locator Git lookup failed: " +:+ message)
  | inr None => no_locator node_id raw_path "Workspace file token does not resolve at the run base commit."
  | inr (Some record) =>
      if negb (bool_decide (pb_path record = git_path)) then
        no_locator node_id raw_path "Workspace file token resolved to an unexpected Git path."
      else if negb (bool_decide (pb_object_type record = "blob")) || negb (str_in (pb_mode record) REGULAR_FILE_MODES) then
        no_locator node_id raw_path "Workspace file tokens must resolve to regular Git blob files."
      else
        match git_cat_blob git_top_level (pb_object_id record) with
        | inl message => no_locator node_id raw_path ("Workspace file locator blob read failed: " +:+ message)
        | inr payload =>
            if negb (valid_utf8_without_nul payload) then
              no_locator node_id raw_path "Workspace file token content must be UTF-8 text without NUL bytes."
            else ret (Some (mkBlob (pb_mode record) (pb_object_type record) (pb_object_id record) (pb_path record) payload))
        end
  end.

(** Code: core/preflight/workspace/files/locators.py, build_workspace_file_locator. *)
Definition build_workspace_file_locator (node : WorkflowNode) (target : WorkspaceFileTarget) (segment_index : option nat)
    (reference : TemplateReference) (occurrence_id : string) (options : PreflightCompileOptions)
    (source_class : WorkspaceFileSourceClass) (path_record : WorkspaceFilePathRecord)
    (blob_record : option ProjectBlobRecord) : outcome WorkspaceFileLocator :=
  let digest := sha256 ∘ pb_payload <$> blob_record in
  let locator_id := "workspace-file-" +:+ signature_for_payload (JObj
    [("git_blob", jopt JStr (pb_object_id <$> blob_record)); ("git_file_mode", jopt JStr (pb_mode <$> blob_record));
     ("git_top_relative_path", JStr (wf_git_top_relative_path path_record)); ("node_id", JStr (node_id node));
     ("occurrence_id", JStr occurrence_id); ("raw_path", JStr (default "" (ref_key reference)));
     ("source_class", JStr (source_class_value source_class)); ("target", JStr (target_value target));
     ("worktree_contract", jopt ss_worktree_contract (po_workspace_source_snapshot options))]) in
  let locator :=
    mkLocator locator_id ((fun _ => "workspace-files/" +:+ locator_id +:+ ".txt") <$> blob_record) occurrence_id
      (node_id node) target source_class (ref_raw_token reference) (default "" (ref_key reference))
      (source_file node options)
      (match segment_index with Some i => token_source_span node options i reference | None => None end)
      (Some (mkRawSpan (Z.of_nat (ref_start reference)) (Z.of_nat (ref_end reference))))
      (wf_source_root path_record) (wf_source_root_relative_to_project path_record)
      (match po_workspace_source_snapshot options with
       | Some snapshot => ss_project_root_relative_path snapshot | None => "." end)
      (wf_git_top_relative_path path_record) (wf_workspace_relative_path path_record)
      (pb_object_id <$> blob_record) (pb_mode <$> blob_record)
      ((fun b => Z.of_nat (String.length (pb_payload b))) <$> blob_record) digest None
      (is_some blob_record) (is_some blob_record) in
  _ ← validate_source_state locator; mret locator.

(** Code: core/preflight/workspace/files/locators.py, resolve_workspace_file_reference. *)
Definition resolve_workspace_file_reference (workflow : WorkflowPlan) (node : WorkflowNode) (target : WorkspaceFileTarget)
    (segment_index : option nat) (reference : TemplateReference) (occurrence_id : string)
    (options : PreflightCompileOptions) : M CompileState unit :=
  match po_workspace_source_snapshot options with
  | None => raise (ValueError "Workspace file locators require a workspace source snapshot.")
  | Some snapshot =>
      let raw_path := default "" (ref_key reference) in
      path_result ← workspace_file_path_record node raw_path options;
      match path_result with
      | None => ret tt
      | Some path_record =>
          source_class ← lift (locator_source_class workflow node target);
          blob_record ←
            (if bool_decide (source_class = RUNTIME_DYNAMIC) then ret (Some None)
             else
               blob ← resolve_project_blob (ss_git_top_level snapshot) (ss_run_base_commit snapshot)
                        (wf_git_top_relative_path path_record) (node_id node) raw_path;
               ret (Some <$> blob));
          match blob_record with
          | None => ret tt
          | Some blob_record =>
              locator ← lift (build_workspace_file_locator node target segment_index reference occurrence_id options
                                source_class path_record blob_record);
              modify (on_workspace_file_references (fun refs => dset refs occurrence_id locator));;
              modify (on_workspace_file_locators (fun locators => locators ++ [locator]));;
              match blob_record, wl_content_ref locator with
              | Some blob, Some content_ref =>
                  modify (on_workspace_file_payloads (fun payloads => setdefault payloads content_ref (pb_payload blob)))
              | _, _ => ret tt
              end
          end
      end
  end.

Definition span_json (s : SourceSpan) : json :=
  JObj (("start_line", JInt (sp_start_line s)) :: ("end_line", JInt (sp_end_line s)) ::
        opt_field "start_column" JInt (sp_start_column s) ++ opt_field "end_column" JInt (sp_end_column s)).

Definition raw_span_json (s : TokenRawSpan) : json := JObj [("start", JInt (rs_start s)); ("end", JInt (rs_end s))].

(** [locator.model_dump(mode="json")]. *)
Definition locator_json (l : WorkspaceFileLocator) : json :=
  JObj [("locator_id", JStr (wl_locator_id l)); ("content_ref", jopt JStr (wl_content_ref l));
        ("occurrence_id", JStr (wl_occurrence_id l)); ("node_id", JStr (wl_node_id l));
        ("target", JStr (target_value (wl_target l))); ("source_class", JStr (source_class_value (wl_source_class l)));
        ("raw_token", JStr (wl_raw_token l)); ("raw_path", JStr (wl_raw_path l));
        ("source_file", jopt JStr (wl_source_file l)); ("source_span", jopt span_json (wl_source_span l));
        ("token_raw_span", jopt raw_span_json (wl_token_raw_span l)); ("source_root", JStr (wl_source_root l));
        ("source_root_relative_to_project", JStr (wl_source_root_relative_to_project l));
        ("project_root_relative_to_git_top", JStr (wl_project_root_relative_to_git_top l));
        ("git_top_relative_path", JStr (wl_git_top_relative_path l));
        ("workspace_relative_path", JStr (wl_workspace_relative_path l)); ("git_blob", jopt JStr (wl_git_blob l));
        ("git_file_mode", jopt JStr (wl_git_file_mode l)); ("byte_size", jopt JInt (wl_byte_size l));
        ("canonical_blob_sha256", jopt JStr (wl_canonical_blob_sha256 l));
        ("injected_sha256", jopt JStr (wl_injected_sha256 l));
        ("literal_path_verified", JBool (wl_literal_path_verified l)); ("utf8_validated", JBool (wl_utf8_validated l))].

(** Code: core/preflight/workspace/files/locators.py, token_signature_for_workspace_locator. *)
Definition token_signature_for_workspace_locator (l : WorkspaceFileLocator) : string := signature_for_payload (locator_json l).

(** Code: core/preflight/workspace/files/locators.py, _optional_workspace_locator_fields. *)
Definition optional_workspace_locator_fields (l : WorkspaceFileLocator) : dict string :=
  opt_entry "git_blob" (wl_git_blob l) ++ opt_entry "canonical_blob_sha256" (wl_canonical_blob_sha256 l)
  ++ opt_entry "content_ref" (wl_content_ref l).

(** Code: core/preflight/workspace/files/locators.py, workspace_locator_resolved_payload. *)
Definition workspace_locator_resolved_payload (l : WorkspaceFileLocator) : dict json :=
  [("kind", JStr "workspace_file_locator"); ("locator_id", JStr (wl_locator_id l));
   ("source_class", JStr (source_class_value (wl_source_class l))); ("target", JStr (target_value (wl_target l)));
   ("workspace_relative_path", JStr (wl_workspace_relative_path l));
   ("git_top_relative_path", JStr (wl_git_top_relative_path l))]
  ++ map (fun '(k, v) => (k, JStr v)) (optional_workspace_locator_fields l).

(** Code: core/preflight/workspace/files/locators.py, workspace_locator_metadata. *)
Definition workspace_locator_metadata (l : WorkspaceFileLocator) : dict string :=
  [("locator_id", wl_locator_id l); ("source_class", source_class_value (wl_source_class l));
   ("workspace_relative_path", wl_workspace_relative_path l)]
  ++ optional_workspace_locator_fields l.

End Locators.
