(* ===== verification/PreflightRender.v ===== *)
(** Render plans: core/preflight/{fragment_handlers,input_sources,
    render_plans}.py and template_hash of plan_signatures.py.

    A node's prompt segments become, for the executor and the reviewer, a
    stream of fragments: the literal text between tokens and one fragment for
    every token, which names where the text of the token is found when the
    prompt is assembled.  The policies for files, environment variables and
    template variables resolve the tokens first. *)

From Stdlib Require Import ZArith Lia Ascii String.
From stdpp Require Import base gmap sets list strings.
From S2P Require Import Prelude PyStr StateExn Models Artifacts Composition PlanRecords PlanContract PreflightState.
From S2P Require Import PreflightFilesystem.

Open Scope string_scope.
Open Scope list_scope.
Open Scope Z_scope.

(** [s.replace("\r\n", "\n").replace("\r", "\n")]. *)
Fixpoint normalize_newlines (l : text) : text :=
  match l with
  | [] => []
  | c :: t =>
      if is_char c cr
      then lf :: match t with d :: t' => if is_char d lf then normalize_newlines t' else normalize_newlines t | [] => [] end
      else c :: normalize_newlines t
  end.

(** ** Occurrences of tokens (core/preflight/render_plans.py) *)

(** Code: core/preflight/render_plans.py, RenderTokenOccurrence. *)
Record RenderTokenOccurrence := mkOccurrence {
  oc_node_ref : WorkflowNode;
  oc_reference : TemplateReference;
  oc_occurrence_id : string;
  oc_target_role : ProviderRole;
  oc_source_role : PromptSegmentRole;
  oc_segment_index : nat
}.

(** Code: core/preflight/render_plans.py, target_roles_for_segment. *)
Definition target_roles_for_segment (segment : PromptSegment) : list ProviderRole :=
  match seg_role segment with
  | SEG_SHARED => [EXECUTOR; REVIEWER]
  | SEG_EXECUTOR => [EXECUTOR]
  | SEG_REVIEWER => [REVIEWER]
  end.

(** Code: core/preflight/render_plans.py, workspace_file_target_for_role. *)
Definition workspace_file_target_for_role (target_role : ProviderRole) : WorkspaceFileTarget :=
  match target_role with EXECUTOR => EXECUTOR_PROMPT | REVIEWER => REVIEWER_PROMPT end.

(** Code: core/preflight/render_plans.py, render_token_occurrence_id. *)
Definition render_token_occurrence_id (node_id : string) (target_role : ProviderRole) (segment_index reference_index : nat)
    : string :=
  node_id +:+ ":" +:+ role_value target_role +:+ ":" +:+ str_int (Z.of_nat segment_index) +:+ ":"
  +:+ str_int (Z.of_nat reference_index).

(** Code: core/preflight/render_plans.py, iter_segment_render_token_occurrences. *)
Definition iter_segment_render_token_occurrences (node : WorkflowNode) (segment_index : nat) (segment : PromptSegment)
    : list RenderTokenOccurrence :=
  concat (imap (fun reference_index reference =>
    map (fun target_role =>
      mkOccurrence node reference
        (render_token_occurrence_id (node_id node) target_role segment_index reference_index)
        target_role (seg_role segment) segment_index) (target_roles_for_segment segment))
    (iter_template_references (seg_content segment))).

(** Code: core/preflight/render_plans.py, iter_node_render_token_occurrences. *)
Definition iter_node_render_token_occurrences (node : WorkflowNode) : list RenderTokenOccurrence :=
  concat (imap (fun segment_index segment => iter_segment_render_token_occurrences node segment_index segment)
            (node_prompt_segments node)).

(** Code: core/preflight/render_plans.py, iter_render_token_occurrences. *)
Definition iter_render_token_occurrences (workflow : WorkflowPlan) : list RenderTokenOccurrence :=
  concat (map iter_node_render_token_occurrences
            (List.filter (fun node => negb (bool_decide (node_mode node = InputMode))) (plan_nodes workflow))).

Section Render.
Context {hash : HashLibrary} {files : PreflightFiles}.

(** Code: core/preflight/plan_signatures.py, template_hash. *)
Definition template_hash (node : WorkflowNode) : string :=
  signature_for_payload (JObj [("segments", JList (map (fun segment =>
    JStr (of_chars (normalize_newlines (chars (seg_content segment))))) (node_prompt_segments node)))]).

(** [Fragment(...)] runs the model's validator. *)
Definition make_fragment (f : Fragment) : M CompileState Fragment := lift (_ ← validate_fragment_payload f; mret f).

(** ** Fragments of tokens (core/preflight/fragment_handlers.py) *)

(** Code: core/preflight/fragment_handlers.py, node_reference_fragment. *)
Definition node_reference_fragment (options : PreflightCompileOptions) (o : RenderTokenOccurrence) (fragment_index : Z)
    : M CompileState (option Fragment) :=
  let node := oc_node_ref o in
  let reference := oc_reference o in
  let artifact_name := default "" (ref_artifact_name reference) in
  let target_node := default "" (ref_node_id reference) in
  if negb (str_in artifact_name ALLOWED_NODE_ARTIFACT_NAMES) then
    append_diagnostic NODE_REFERENCE PhaseReference
      ("Unsupported node artifact token " +:+ quoted (ref_raw_token reference) +:+ ".") (Some (node_id node)) None SeverityError;;
    ret None
  else
    let edge_signature := dependency_signature target_node (node_id node) (Some artifact_name) in
    let signature := signature_for_payload (JObj
      [("dependency_signature", JStr edge_signature); ("occurrence_id", JStr (oc_occurrence_id o));
       ("raw_token", JStr (ref_raw_token reference)); ("source", JStr (node_id node));
       ("source_role", JStr (segment_role_value (oc_source_role o)));
       ("target_role", JStr (role_value (oc_target_role o)))]) in
    append_token_catalog (oc_occurrence_id o) node (oc_target_role o) (oc_source_role o) reference TokNode fragment_index
      signature [("node_id", target_node); ("artifact_name", artifact_name); ("dependency_signature", edge_signature)] options
      (Some (target_node +:+ "." +:+ artifact_name)) (Some edge_signature)
      (token_source_span node options (oc_segment_index o) reference)
      [("kind", JStr "runtime_locator_lookup");
       ("locator", JObj [("node_id", JStr target_node); ("artifact_name", JStr artifact_name)]);
       ("artifact_key", JStr artifact_name); ("dependency_signature", JStr edge_signature)];;
    append_dependency_edge target_node (node_id node) (Some artifact_name) (Some signature);;
    fragment ← make_fragment (mkFragment fragment_index runtime_locator_lookup (oc_source_role o) None None None None None
                 None (Some [("node_id", target_node); ("artifact_name", artifact_name)]));
    ret (Some fragment).

(** Code: core/preflight/fragment_handlers.py, file_reference_fragment. *)
Definition file_reference_fragment (options : PreflightCompileOptions) (o : RenderTokenOccurrence) (fragment_index : Z)
    : M CompileState (option Fragment) :=
  let node := oc_node_ref o in
  let reference := oc_reference o in
  let span := token_source_span node options (oc_segment_index o) reference in
  locators ← read cs_workspace_file_references;
  match dget locators (oc_occurrence_id o) with
  | Some locator =>
      append_token_catalog (oc_occurrence_id o) node (oc_target_role o) (oc_source_role o) reference TokFile fragment_index
        (token_signature_for_workspace_locator locator) (workspace_locator_metadata locator) options
        (Some (wl_locator_id locator)) None span (workspace_locator_resolved_payload locator);;
      fragment ← make_fragment (mkFragment fragment_index workspace_file_locator (oc_source_role o) None None None None None
                   None (Some [("locator_id", wl_locator_id locator);
                               ("source_class", source_class_value (wl_source_class locator));
                               ("workspace_relative_path", wl_workspace_relative_path locator)]));
      ret (Some fragment)
  | None =>
      resolutions ← read cs_static_file_references;
      match dget resolutions (oc_occurrence_id o) with
      | None =>
          append_diagnostic TEMPLATE_PLAN PhaseTemplatePlan
            ("File token " +:+ quoted (ref_raw_token reference) +:+ " was not resolved.") (Some (node_id node)) None
            SeverityError;;
          ret None
      | Some resolution =>
          let resource := rf_resource resolution in
          append_token_catalog (oc_occurrence_id o) node (oc_target_role o) (oc_source_role o) reference TokFile fragment_index
            (rf_token_signature resolution) (static_file_metadata resource) options (Some (sr_content_ref resource)) None span
            (static_file_resolved_payload resource);;
          fragment ← make_fragment (mkFragment fragment_index static_file_content (oc_source_role o) None
                       (Some (sr_content_ref resource)) None None None None None);
          ret (Some fragment)
      end
  end.

Definition static_kind (kind : TokenKind) : FragmentKind := if bool_decide (kind = TokEnv) then static_env else static_var.

(** Code: core/preflight/fragment_handlers.py, static_value_resolved_payload. *)
Definition static_value_resolved_payload (r : ResolvedStaticValueReference) : outcome (dict json) :=
  let payload := [("kind", JStr (fragment_kind_value (static_kind (rv_kind r)))); ("key", JStr (rv_key r))] in
  let kind := token_kind_value (rv_kind r) in
  match rv_value_handle r with
  | Some handle =>
      match rv_fingerprint r with
      | None => Raise (ValueError ("Sensitive " +:+ kind +:+ " token " +:+ quoted (rv_key r) +:+ " is missing a fingerprint."))
      | Some fingerprint => Ok (payload ++ [("value_handle", JStr handle); ("fingerprint", JStr fingerprint)])
      end
  | None =>
      match rv_value_stored r with
      | None => Raise (ValueError ("Static " +:+ kind +:+ " token " +:+ quoted (rv_key r) +:+ " is missing a stored value."))
      | Some value => Ok (payload ++ [("value_stored", JStr value)])
      end
  end.

Definition bool_text (b : bool) : string := if b then "true" else "false".

(** Code: core/preflight/fragment_handlers.py, static_value_fragment. *)
Definition static_value_fragment (options : PreflightCompileOptions) (o : RenderTokenOccurrence) (fragment_index : Z)
    : M CompileState (option Fragment) :=
  let node := oc_node_ref o in
  let reference := oc_reference o in
  resolutions ← read cs_static_value_references;
  match dget resolutions (oc_occurrence_id o) with
  | None =>
      append_diagnostic TEMPLATE_PLAN PhaseTemplatePlan
        ("Static value token " +:+ quoted (ref_raw_token reference) +:+ " was not resolved.") (Some (node_id node)) None
        SeverityError;;
      ret None
  | Some r =>
      resolved_value ← lift (static_value_resolved_payload r);
      append_token_catalog (oc_occurrence_id o) node (oc_target_role o) (oc_source_role o) reference (rv_kind r) fragment_index
        (rv_token_signature r) [("key", rv_key r); ("sensitive", bool_text (rv_sensitive r))] options
        (Some (token_kind_value (rv_kind r) +:+ ":" +:+ rv_key r)) None
        (token_source_span node options (oc_segment_index o) reference) resolved_value;;
      fragment ← make_fragment (mkFragment fragment_index (static_kind (rv_kind r)) (oc_source_role o) None None
                   (Some (rv_key r)) (rv_value_handle r) (rv_value_stored r) (rv_fingerprint r) None);
      ret (Some fragment)
  end.

(** Code: core/preflight/fragment_handlers.py, record_static_file_reference. *)
Definition record_static_file_reference (node : WorkflowNode) (reference : TemplateReference) (occurrence_id : string)
    (result : StaticFileResult) : M CompileState unit :=
  resolution ← prepare_static_file_reference result (node_id node) occurrence_id (ref_raw_token reference);
  match resolution with
  | None => ret tt
  | Some resolution => modify (on_static_file_references (fun refs => dset refs occurrence_id resolution))
  end.

(** Code: core/preflight/fragment_handlers.py, resolve_file_reference. *)
Definition resolve_file_reference (node : WorkflowNode) (reference : TemplateReference) (options : PreflightCompileOptions)
    (occurrence_id : string) : M CompileState unit :=
  allowed ← lift (allowed_template_paths options);
  result ← lift (resolve_static_file (default "" (ref_key reference)) (source_root node options)
                   (resolve (po_project_root options)) allowed);
  record_static_file_reference node reference occurrence_id result.

(** Code: core/preflight/fragment_handlers.py, try_resolve_terminal_file_reference. *)
Definition try_resolve_terminal_file_reference (node : WorkflowNode) (reference : TemplateReference)
    (options : PreflightCompileOptions) (occurrence_id : string) : M CompileState bool :=
  result ← lift (resolve_terminal_result_file (default "" (ref_key reference)) (source_root node options)
                   (po_terminal_history_reader options));
  match result with
  | None => ret false
  | Some result => record_static_file_reference node reference occurrence_id result;; ret true
  end.

(** Code: core/preflight/fragment_handlers.py, static_value_phase. *)
Definition static_value_phase (kind : TokenKind) : outcome PreflightDiagnosticPhase :=
  match kind with
  | TokEnv => Ok PhaseEnvPolicy
  | TokVar => Ok PhaseVarPolicy
  | _ => Raise (ValueError ("Unsupported static value token kind: " +:+ token_kind_value kind))
  end.

(** Code: core/preflight/fragment_handlers.py, lookup_static_value. *)
Definition lookup_static_value (kind : TokenKind) (key : string) (variables : dict string)
    (options : PreflightCompileOptions) (node_id : string) : M CompileState (option string) :=
  phase ← lift (static_value_phase kind);
  if negb (nonempty key) then
    append_diagnostic TEMPLATE_VALUE phase (token_kind_value kind +:+ " template key is empty.") (Some node_id) None
      SeverityError;;
    ret None
  else
    let '(value, label) :=
      if bool_decide (kind = TokEnv)
      then (dget (default process_environment (po_environment options)) key, "Environment variable")
      else (dget variables key, "Template variable") in
    match value with
    | Some value => ret (Some value)
    | None =>
        append_diagnostic TEMPLATE_VALUE phase (label +:+ " not set: " +:+ key) (Some node_id) None SeverityError;;
        ret None
    end.

Definition reference_kind_value (kind : TemplateReferenceKind) : string :=
  match kind with
  | RefNode => "node" | RefFile => "file" | RefEnv => "env" | RefVar => "var" | RefParam => "param" | RefUnknown => "unknown"
  end.

(** The kinds of references that name a value. *)
Definition static_token_kind (kind : TemplateReferenceKind) : option TokenKind :=
  match kind with RefEnv => Some TokEnv | RefVar => Some TokVar | _ => None end.

(** Code: core/preflight/fragment_handlers.py, resolve_static_value_reference. *)
Definition resolve_static_value_reference (node : WorkflowNode) (reference : TemplateReference) (variables : dict string)
    (options : PreflightCompileOptions) (occurrence_id : string) : M CompileState unit :=
  match static_token_kind (ref_kind reference) with
  | None =>
      raise (ValueError ("Static value resolution requires an env or var reference, got "
                         +:+ reference_kind_value (ref_kind reference) +:+ "."))
  | Some kind =>
      let key := default "" (ref_key reference) in
      value ← lookup_static_value kind key variables options (node_id node);
      match value with
      | None => ret tt
      | Some value =>
          let sensitive := bool_decide (kind = TokEnv) || is_sensitive_name key in
          when sensitive (modify (on_sensitive_values_required (fun _ => true)));;
          let handle := if sensitive then Some (token_kind_value kind +:+ ":" +:+ key) else None in
          match handle with Some handle => secret_put handle value | None => ret tt end;;
          when sensitive (modify (on_value_fingerprints (fun records =>
            records ++ [mkValueRecord kind key "true" (Some value) None None])));;
          modify (on_static_value_references (fun refs => dset refs occurrence_id
            (mkResolvedValue kind key sensitive handle (if sensitive then None else Some value) None
               (signature_for_payload (JObj
                  [("key", JStr key); ("kind", JStr (token_kind_value kind)); ("node_id", JStr (node_id node));
                   ("occurrence_id", JStr occurrence_id); ("raw_token", JStr (ref_raw_token reference));
                   ("sensitive", JStr (bool_text sensitive))])))))
      end
  end.

(** ** Sources of input nodes (core/preflight/input_sources.py) *)

Definition input_occurrence_id (node : WorkflowNode) : string := node_id node +:+ ":input:0".

(** Code: core/preflight/input_sources.py, record_static_input_source. *)
Definition record_static_input_source (node : WorkflowNode) (reference : TemplateReference) (occurrence_id : string)
    (result : StaticFileResult) : M CompileState unit :=
  resolution ← prepare_static_file_reference result (node_id node) occurrence_id (ref_raw_token reference);
  match resolution with
  | None => ret tt
  | Some resolution =>
      modify (on_input_content_refs (fun refs => dset refs (node_id node) (sr_content_ref (rf_resource resolution))));;
      modify (on_input_source_tokens (fun tokens => dset tokens (node_id node) reference));;
      modify (on_static_file_references (fun refs => dset refs occurrence_id resolution))
  end.

(** Code: core/preflight/input_sources.py, resolve_static_input_source. *)
Definition resolve_static_input_source (node : WorkflowNode) (reference : TemplateReference) (occurrence_id : string)
    (options : PreflightCompileOptions) : M CompileState unit :=
  allowed ← lift (allowed_template_paths options);
  result ← lift (resolve_static_file (default "" (ref_key reference)) (source_root node options)
                   (resolve (po_project_root options)) allowed);
  record_static_input_source node reference occurrence_id result.

(** Code: core/preflight/input_sources.py, resolve_workspace_input_source. *)
Definition resolve_workspace_input_source (workflow : WorkflowPlan) (node : WorkflowNode) (reference : TemplateReference)
    (occurrence_id : string) (options : PreflightCompileOptions) : M CompileState unit :=
  resolve_workspace_file_reference workflow node INPUT_OUTPUT None reference occurrence_id options;;
  locators ← read cs_workspace_file_references;
  match dget locators occurrence_id with
  | None => ret tt
  | Some locator =>
      modify (on_input_workspace_file_locator_ids (fun ids => dset ids (node_id node) (wl_locator_id locator)));;
      modify (on_input_source_tokens (fun tokens => dset tokens (node_id node) reference))
  end.

(** [and] evaluates the allowlist only when the other conditions hold.
    Code: core/preflight/input_sources.py, should_use_input_workspace_file_locator. *)
Definition should_use_input_workspace_file_locator (workflow : WorkflowPlan) (reference : TemplateReference)
    (options : PreflightCompileOptions) : outcome bool :=
  match po_workspace_source_snapshot options, ref_key reference with
  | Some _, Some key =>
      if workflow_has_managed_workspace_selection workflow then
        allowed ← allowed_template_paths options;
        allowlisted ← is_allowlisted_absolute_path key allowed;
        mret (negb allowlisted)
      else mret false
  | _, _ => mret false
  end.

(** Code: core/preflight/input_sources.py, resolve_input_source. *)
Definition resolve_input_source (workflow : WorkflowPlan) (node : WorkflowNode) (options : PreflightCompileOptions)
    : M CompileState unit :=
  let invalid :=
    append_diagnostic INPUT_SOURCE PhaseFilePolicy
      ("Input node " +:+ quoted (node_id node) +:+ " source must be one file token.") (Some (node_id node)) None SeverityError in
  match iter_template_references (default "" (node_source node)) with
  | [reference] =>
      if negb (bool_decide (ref_kind reference = RefFile)) then invalid
      else
        let occurrence_id := input_occurrence_id node in
        terminal_result ← lift (resolve_terminal_result_file (default "" (ref_key reference)) (source_root node options)
                                  (po_terminal_history_reader options));
        match terminal_result with
        | Some result => record_static_input_source node reference occurrence_id result
        | None =>
            use_locator ← lift (should_use_input_workspace_file_locator workflow reference options);
            if use_locator : bool then resolve_workspace_input_source workflow node reference occurrence_id options
            else resolve_static_input_source node reference occurrence_id options
        end
  | _ => invalid
  end.

(** Code: core/preflight/input_sources.py, append_input_source_token_catalog. *)
Definition append_input_source_token_catalog (node : WorkflowNode) (options : PreflightCompileOptions) : M CompileState unit :=
  let unresolved :=
    append_diagnostic TEMPLATE_PLAN PhaseTemplatePlan
      ("Input node " +:+ quoted (node_id node) +:+ " source was not resolved.") (Some (node_id node)) None SeverityError in
  let occurrence_id := input_occurrence_id node in
  tokens ← read cs_input_source_tokens;
  match dget tokens (node_id node) with
  | None => unresolved
  | Some reference =>
      locators ← read cs_workspace_file_references;
      match dget locators occurrence_id with
      | Some locator =>
          append_token_catalog occurrence_id node EXECUTOR SEG_SHARED reference TokFile 0
            (token_signature_for_workspace_locator locator) (workspace_locator_metadata locator) options
            (Some (wl_locator_id locator)) None (node_source_span node options) (workspace_locator_resolved_payload locator)
      | None =>
          resolutions ← read cs_static_file_references;
          match dget resolutions occurrence_id with
          | None => unresolved
          | Some resolution =>
              let resource := rf_resource resolution in
              append_token_catalog occurrence_id node EXECUTOR SEG_SHARED reference TokFile 0 (rf_token_signature resolution)
                (static_file_metadata resource) options (Some (sr_content_ref resource)) None (node_source_span node options)
                (static_file_resolved_payload resource)
          end
      end
  end.

(** ** Policies (core/preflight/render_plans.py) *)

(** Code: core/preflight/render_plans.py, should_use_workspace_file_locator..is_allowlisted_absolute_reference. *)
Definition should_use_workspace_file_locator (workflow : WorkflowPlan) (node : WorkflowNode) (reference : TemplateReference)
    (options : PreflightCompileOptions) : outcome bool :=
  match po_workspace_source_snapshot options, ref_key reference with
  | Some _, Some key =>
      if node_selects_managed_workspace workflow node then
        allowed ← allowed_template_paths options;
        allowlisted ← is_allowlisted_absolute_path key allowed;
        mret (negb allowlisted)
      else mret false
  | _, _ => mret false
  end.

(** The second loop of [apply_file_policy] for one occurrence.
    Code: core/preflight/render_plans.py:48-80. *)
Definition apply_file_occurrence (workflow : WorkflowPlan) (options : PreflightCompileOptions) (o : RenderTokenOccurrence)
    : M CompileState unit :=
  if negb (bool_decide (ref_kind (oc_reference o) = RefFile)) then ret tt
  else
    resolved ← try_resolve_terminal_file_reference (oc_node_ref o) (oc_reference o) options (oc_occurrence_id o);
    if resolved : bool then ret tt
    else
      use_locator ← lift (should_use_workspace_file_locator workflow (oc_node_ref o) (oc_reference o) options);
      if use_locator : bool then
        resolve_workspace_file_reference workflow (oc_node_ref o) (workspace_file_target_for_role (oc_target_role o))
          (Some (oc_segment_index o)) (oc_reference o) (oc_occurrence_id o) options
      else resolve_file_reference (oc_node_ref o) (oc_reference o) options (oc_occurrence_id o).

(** Code: core/preflight/render_plans.py, apply_file_policy. *)
Definition apply_file_policy (workflow : WorkflowPlan) (options : PreflightCompileOptions) : M CompileState unit :=
  for_all (fun node =>
    if bool_decide (node_mode node = InputMode) && negb (str_in (node_id node) (po_item_input_ids options))
    then resolve_input_source workflow node options else ret tt) (plan_nodes workflow);;
  for_all (apply_file_occurrence workflow options) (iter_render_token_occurrences workflow).

(** Code: core/preflight/render_plans.py, apply_static_value_policy. *)
Definition apply_static_value_policy (workflow : WorkflowPlan) (token_kind : TemplateReferenceKind) (variables : dict string)
    (options : PreflightCompileOptions) : M CompileState unit :=
  for_all (fun o =>
    if negb (bool_decide (ref_kind (oc_reference o) = token_kind)) then ret tt
    else resolve_static_value_reference (oc_node_ref o) (oc_reference o) variables options (oc_occurrence_id o))
    (iter_render_token_occurrences workflow).

(** Code: core/preflight/render_plans.py, apply_env_policy. *)
Definition apply_env_policy (workflow : WorkflowPlan) (variables : dict string) (options : PreflightCompileOptions)
    : M CompileState unit := apply_static_value_policy workflow RefEnv variables options.

(** Code: core/preflight/render_plans.py, apply_var_policy. *)
Definition apply_var_policy (workflow : WorkflowPlan) (variables : dict string) (options : PreflightCompileOptions)
    : M CompileState unit := apply_static_value_policy workflow RefVar variables options.

(** ** Streams of fragments *)

(** Code: core/preflight/render_plans.py, fragment_for_occurrence. *)
Definition fragment_for_occurrence (options : PreflightCompileOptions) (o : RenderTokenOccurrence) (fragment_index : Z)
    : M CompileState (option Fragment) :=
  let reference := oc_reference o in
  match ref_kind reference with
  | RefNode => node_reference_fragment options o fragment_index
  | RefFile => file_reference_fragment options o fragment_index
  | RefEnv | RefVar => static_value_fragment options o fragment_index
  | RefParam =>
      append_diagnostic PARAM_TOKEN PhaseTemplatePlan
        ("Composition-only token " +:+ quoted (ref_raw_token reference) +:+ " reached preflight.")
        (Some (node_id (oc_node_ref o))) None SeverityError;;
      ret None
  | RefUnknown =>
      append_diagnostic TEMPLATE_TOKEN PhaseTemplatePlan
        ("Unsupported template token " +:+ quoted (ref_raw_token reference) +:+ ".")
        (Some (node_id (oc_node_ref o))) None SeverityError;;
      ret None
  end.

Definition literal_fragment (fragment_index : Z) (role : PromptSegmentRole) (l : text) : Fragment :=
  mkFragment fragment_index literal role (Some (of_chars l)) None None None None None None.

Definition next_index (fragments : list Fragment) : Z := Z.of_nat (length fragments).

(** [content[first:last]]. *)
Definition slice (first last : nat) (content : text) : text := drop first (take last content).

(** The loop over the occurrences of a segment, from a cursor. *)
Fixpoint segment_fragments (options : PreflightCompileOptions) (target_role : ProviderRole) (segment : PromptSegment)
    (cursor : nat) (occurrences : list RenderTokenOccurrence) (fragments : list Fragment)
    : M CompileState (nat * list Fragment) :=
  match occurrences with
  | [] => ret (cursor, fragments)
  | o :: rest =>
      if negb (bool_decide (oc_target_role o = target_role))
      then segment_fragments options target_role segment cursor rest fragments
      else
        let reference := oc_reference o in
        fragments ←
          (if (cursor <? ref_start reference)%nat then
             f ← make_fragment (literal_fragment (next_index fragments) (seg_role segment)
                   (slice cursor (ref_start reference) (chars (seg_content segment))));
             ret (fragments ++ [f])
           else ret fragments);
        fragment ← fragment_for_occurrence options o (next_index fragments);
        segment_fragments options target_role segment (ref_end reference) rest
          (match fragment with Some f => fragments ++ [f] | None => fragments end)
  end.

(** Code: core/preflight/render_plans.py, append_segment_fragments. *)
Definition append_segment_fragments (node : WorkflowNode) (target_role : ProviderRole) (segment_index : nat)
    (segment : PromptSegment) (options : PreflightCompileOptions) (fragments : list Fragment)
    : M CompileState (list Fragment) :=
  let content := chars (seg_content segment) in
  '(cursor, fragments) ← segment_fragments options target_role segment 0
                           (iter_segment_render_token_occurrences node segment_index segment) fragments;
  if (cursor <? length content)%nat then
    f ← make_fragment (literal_fragment (next_index fragments) (seg_role segment) (drop cursor content));
    ret (fragments ++ [f])
  else ret fragments.

(** The segments of a stream, from a segment index. *)
Fixpoint stream_fragments (node : WorkflowNode) (target_role : ProviderRole) (options : PreflightCompileOptions)
    (segment_index : nat) (segments : list PromptSegment) (fragments : list Fragment) : M CompileState (list Fragment) :=
  match segments with
  | [] => ret fragments
  | segment :: rest =>
      fragments ←
        (if bool_decide (target_role ∈ target_roles_for_segment segment)
         then append_segment_fragments node target_role segment_index segment options fragments
         else ret fragments);
      stream_fragments node target_role options (S segment_index) rest fragments
  end.

(** Code: core/preflight/render_plans.py, compile_render_stream. *)
Definition compile_render_stream (node : WorkflowNode) (target_role : ProviderRole) (options : PreflightCompileOptions)
    : M CompileState RenderStream :=
  fragments ← stream_fragments node target_role options 0 (node_prompt_segments node) [];
  ret (mkStream target_role fragments).

(** Code: core/preflight/render_plans.py, compile_render_plan. *)
Definition compile_render_plan (node : WorkflowNode) (options : PreflightCompileOptions) : M CompileState (option RenderPlan) :=
  match node_mode node with
  | Foreach => ret None
  | InputMode =>
      if str_in (node_id node) (po_item_input_ids options) then ret None
      else append_input_source_token_catalog node options;; ret None
  | _ =>
      let compiled_template_hash := template_hash node in
      executor ← compile_render_stream node EXECUTOR options;
      reviewer ← compile_render_stream node REVIEWER options;
      ret (Some (mkRenderPlan (node_id node) (Some (node_id node)) (module_id node options) (source_file node options)
        (Some (source_root node options)) (node_source_span node options) (Some compiled_template_hash)
        (Some (signature_for_payload (JObj [("node_id", JStr (node_id node)); ("template_hash", JStr compiled_template_hash)])))
        [executor; reviewer]))
  end.

End Render.
