(* ===== verification/WorkspaceSelection.v ===== *)
(** Workspaces that nodes select: core/workspace/selection.py and
    core/preflight/workspace/records.py.

    Every node that runs providers selects a declared worktree, a snapshot or
    the project root; a node in a worktree starts from the latest of its
    ancestors in the same worktree. *)

From Stdlib Require Import ZArith Lia Ascii String.
From stdpp Require Import base gmap sets list strings.
From S2P Require Import Prelude PyStr Models Graph RunState Composition PlanRecords PlanContract.

Open Scope string_scope.
Open Scope list_scope.
Open Scope Z_scope.

(** ** The configuration the compiler reads (core/config.py, core/workspace/settings.py) *)

(** Code: core/workspace/settings.py:102-108. *)
Record WorkspaceSettings := mkWorkspaceSettings {
  cw_enabled : bool;
  cw_worktree_contract : string;
  cw_clean_start : WorkspaceCleanStart;
  cw_setup_profiles : dict (list (list string))
}.

Record AgentConfig := mkAgentConfig { ag_default_model : option string; ag_prompt_transport : string }.

Record Config := mkConfig {
  cg_agents : dict AgentConfig;
  cg_workspace : WorkspaceSettings;
  cg_token_budget : TokenBudgetSettings;
  cg_max_audit_rounds : Z;
  cg_max_concurrent_nodes : option Z;
  cg_max_expanded_nodes : Z
}.

(** ** Logical selections (core/workspace/selection.py) *)

(** Code: core/workspace/selection.py, LogicalWorkspaceSelection. *)
Record LogicalWorkspaceSelection := mkLogical {
  ls_node_id : string;
  ls_enabled : bool;
  ls_logical_worktree_name : option string;
  ls_declaration_kind : option WorktreeKind;
  ls_materialization : WorkspaceMaterialization;
  ls_source_kind : WorkspaceSourceKind;
  ls_source_node_id : option string;
  ls_clean_start : WorkspaceCleanStart;
  ls_worktree_contract : string * string;
  ls_setup_profile : option string;
  ls_setup_commands : list (list string);
  ls_create_branch : bool;
  ls_branch_name : option string;
  ls_writable : bool;
  ls_lineage_producer : bool
}.

(** Code: core/workspace/selection.py, _setup_commands. *)
Definition setup_commands (settings : WorkspaceSettings) (setup_profile : option string) : list (list string) :=
  match setup_profile with
  | None => []
  | Some name => default [] (dget (cw_setup_profiles settings) name)
  end.

(** Code: core/workspace/selection.py, _selection_for_node. *)
Definition selection_for_node (workflow : WorkflowPlan) (settings : WorkspaceSettings) (node : WorkflowNode)
    : outcome LogicalWorkspaceSelection :=
  let contract := (cw_worktree_contract settings, SCHEMA_VERSION) in
  match selected_worktree_name workflow node with
  | None =>
      Ok (mkLogical (node_id node) false None None project_root SourceProject None (cw_clean_start settings) contract None []
            false None false false)
  | Some selector =>
      declaration ← ditem (plan_worktrees workflow) selector;
      let is_worktree := bool_decide (wt_kind declaration = WK_worktree) in
      let setup_profile := if is_worktree then wt_setup_profile declaration else None in
      Ok (mkLogical (node_id node) true (Some selector) (Some (wt_kind declaration))
            (if is_worktree then worktree_checkout else snapshot_checkout) SourceProject None (cw_clean_start settings)
            contract setup_profile (setup_commands settings setup_profile) (wt_create_branch declaration)
            (wt_branch_name declaration) true is_worktree)
  end.

(** Code: core/workspace/selection.py, _base_logical_workspace_selections. *)
Definition base_logical_workspace_selections (workflow : WorkflowPlan) (config : Config)
    : outcome (dict LogicalWorkspaceSelection) :=
  for_each (fun selections node =>
    if negb (runs_providers node) then Ok selections
    else selection ← selection_for_node workflow (cg_workspace config) node;
         mret (dset selections (node_id node) selection)) (plan_nodes workflow) [].

(** Code: core/workspace/selection.py, _same_lineage_worktree. *)
Definition same_lineage_worktree (selection : LogicalWorkspaceSelection) (upstream : option LogicalWorkspaceSelection) : bool :=
  match upstream with
  | None => false
  | Some u => ls_lineage_producer u && bool_decide (ls_logical_worktree_name u = ls_logical_worktree_name selection)
  end.

(** Code: core/workspace/selection.py, _latest_same_worktree_dependency. *)
Definition latest_same_worktree_dependency (node : WorkflowNode) (selection : LogicalWorkspaceSelection)
    (selections : dict LogicalWorkspaceSelection) (ancestors : dict (gset string)) (node_order : dict Z)
    : outcome (option string) :=
  let candidates := List.filter (fun ancestor => same_lineage_worktree selection (dget selections ancestor))
                      (elements (default ∅ (dget ancestors (node_id node)))) in
  latest_lineage_source
    (map (fun ancestor => (ancestor, Z.of_nat (size (default ∅ (dget ancestors ancestor))))) candidates) node_order.

(** [replace(selection, source_kind="node", source_node_id=source)]. *)
Definition with_source_node (source : string) (l : LogicalWorkspaceSelection) : LogicalWorkspaceSelection :=
  mkLogical (ls_node_id l) (ls_enabled l) (ls_logical_worktree_name l) (ls_declaration_kind l) (ls_materialization l) SourceNode
    (Some source) (ls_clean_start l) (ls_worktree_contract l) (ls_setup_profile l) (ls_setup_commands l) (ls_create_branch l)
    (ls_branch_name l) (ls_writable l) (ls_lineage_producer l).

(** Code: core/workspace/selection.py, _with_source_nodes. *)
Definition with_source_nodes (workflow : WorkflowPlan) (selections : dict LogicalWorkspaceSelection)
    : outcome (dict LogicalWorkspaceSelection) :=
  ancestors ← ancestor_map workflow;
  let node_order := enumerate_order (map node_id (plan_nodes workflow)) in
  for_each (fun updated node =>
    match dget updated (node_id node) with
    | None => Ok updated
    | Some selection =>
        if negb (bool_decide (ls_declaration_kind selection = Some WK_worktree)) then Ok updated
        else
          source ← latest_same_worktree_dependency node selection updated ancestors node_order;
          mret (match source with
                | None => updated
                | Some source => dset updated (node_id node) (with_source_node source selection)
                end)
    end) (plan_nodes workflow) selections.

(** Code: core/workspace/selection.py, logical_workspace_selections. *)
Definition logical_workspace_selections (workflow : WorkflowPlan) (config : Config)
    : outcome (dict LogicalWorkspaceSelection) :=
  base ← base_logical_workspace_selections workflow config; with_source_nodes workflow base.

(** ** Persisted records (core/preflight/workspace/records.py) *)

(** Code: core/preflight/workspace/models.py, _validate_setup_command_token.._validate_setup_command_redacted_token. *)
Definition validate_setup_command_token (token : json) : outcome unit :=
  match token with
  | JStr s => if not_blank s then Ok tt else Raise (ValueError "workspace setup command argv cannot contain blank tokens")
  | JObj fields =>
      if bool_decide (jget fields "redacted" = Some (JBool true))
         && match jget fields "value_handle" with Some (JStr _) => true | _ => false end
         && forallb (fun '(k, _) => str_in k ["fingerprint"; "redacted"; "value_handle"]) fields
      then Ok tt else Raise (ValueError "workspace setup command argv contains an invalid redacted token")
  | _ => Raise (OtherError "ValidationError" "WorkspaceSetupCommandRecord")
  end.

(** Code: core/preflight/workspace/models.py, WorkspaceSetupCommandRecord._validate_argv. *)
Definition validate_setup_command (c : WorkspaceSetupCommandRecord) : outcome unit :=
  if negb (is_cons (sc_argv c)) then Raise (ValueError "workspace setup command argv cannot be empty")
  else each validate_setup_command_token (sc_argv c).

Definition invalid_profile {A} (profile_name what : string) : outcome A :=
  Raise (ValueError ("Compiled workspace setup profile " +:+ quoted profile_name +:+ what)).

(** Code: core/preflight/workspace/records.py, _persisted_setup_commands. *)
Definition persisted_setup_commands (selection : LogicalWorkspaceSelection) (setup_profiles : dict json)
    : outcome (list (list json)) :=
  match ls_setup_profile selection with
  | None => Ok []
  | Some profile_name =>
      match dget setup_profiles profile_name with
      | Some (JObj profile) =>
          match jget profile "run" with
          | Some (JList commands) =>
              if negb (length commands =? length (ls_setup_commands selection))%nat then invalid_profile profile_name " has invalid commands."
              else mapM (fun command =>
                match command with
                | JList tokens =>
                    if forallb (fun token => match token with JStr _ | JObj _ => true | _ => false end) tokens then Ok tokens
                    else invalid_profile profile_name " has a non-string argv token."
                | _ => invalid_profile profile_name " has invalid argv."
                end) commands
          | _ => invalid_profile profile_name " has invalid commands."
          end
      | _ => invalid_profile profile_name " is missing."
      end
  end.

(** Code: core/preflight/workspace/records.py, _record_from_selection. *)
Definition record_from_selection (selection : LogicalWorkspaceSelection) (setup_profiles : dict json)
    : outcome WorkspaceSelectionRecord :=
  setup ← match ls_setup_profile selection with
          | None => Ok None
          | Some profile_name =>
              commands ← persisted_setup_commands selection setup_profiles;
              records ← mapM (fun '(index, argv) =>
                let command := mkSetupCommand argv (Z.of_nat index) in
                _ ← validate_setup_command command; mret command) (imap pair commands);
              if negb (is_cons records) then Raise (ValueError "workspace setup record must contain commands")
              else mret (Some (mkSetup profile_name records))
          end;
  let record := mkSelection (ls_enabled selection) (ls_logical_worktree_name selection) (ls_declaration_kind selection)
    (ls_source_kind selection) (ls_source_node_id selection) (ls_clean_start selection) (ls_materialization selection)
    (ls_worktree_contract selection) setup (mkBranchExport (ls_create_branch selection) (ls_branch_name selection))
    (ls_writable selection) (ls_lineage_producer selection) in
  _ ← validate_workspace_contract record; mret record.

(** Code: core/preflight/workspace/records.py, workspace_policy_records. *)
Definition workspace_policy_records (workflow : WorkflowPlan) (config : Config) (setup_profiles : dict json)
    : outcome (dict WorkspaceSelectionRecord) :=
  selections ← logical_workspace_selections workflow config;
  mapM (fun '(node_id, selection) => record ← record_from_selection selection setup_profiles; mret (node_id, record))
    (List.filter (fun '(_, selection) => ls_enabled selection) selections).

(** ** Selections of graphs that may be malformed (core/workflow/validation/workspace.py) *)

(** Code: core/workflow/validation/workspace.py, _is_graph_shape_error. *)
Definition is_graph_shape_error (message : string) : bool :=
  str_contains "depends on unknown node" message || bool_decide (message = "Workflow graph contains a cycle.").

(** Code: core/workflow/validation/workspace.py, graph_safe_logical_workspace_selections. *)
Definition graph_safe_logical_workspace_selections (workflow : WorkflowPlan) (config : Config)
    : outcome (option (dict LogicalWorkspaceSelection)) :=
  match logical_workspace_selections workflow config with
  | Ok selections => Ok (Some selections)
  | Raise (ValueError message) => if is_graph_shape_error message then Ok None else Raise (ValueError message)
  | Raise e => Raise e
  | OutOfFuel => OutOfFuel
  end.

(** Code: core/workflow/validation/workspace.py, workflow_has_selected_managed_workspaces. *)
Definition workflow_has_selected_managed_workspaces (workflow : WorkflowPlan) (config : Config) : outcome bool :=
  selections ← graph_safe_logical_workspace_selections workflow config;
  mret (match selections with
        | None => false
        | Some selections => existsb (fun '(_, selection) => ls_enabled selection) selections
        end).
