(* ===== verification/WorkflowValidation.v ===== *)
(** Validation of workflows before they are compiled: core/workflow/
    diagnostics.py, core/workflow/validation/{nodes,modes,templates,policies,
    workspace,workspace_diagnostics,api}.py and core/preflight/validation.py.

    Every check collects diagnostics; an error diagnostic stops the compilation.
    The functions that raise on an error are built from the same collectors. *)

From Stdlib Require Import ZArith Lia Ascii String.
From stdpp Require Import base gmap sets list strings.
From S2P Require Import Prelude PyStr Models Graph Artifacts RunState Composition PlanRecords PlanContract Foreach.
From S2P Require Import PreflightState WorkspaceSelection.

Open Scope string_scope.
Open Scope list_scope.
Open Scope Z_scope.

(** What the platform module reports: [platform.system()]. *)
Class Platform := { system_name : string }.

(** Code: core/platform.py, is_native_windows. *)
Definition is_native_windows `{!Platform} : bool := bool_decide (system_name = "Windows").

(** The field [managed_workspaces] of the support policy.
    Code: core/platform.py, support_policy. *)
Definition managed_workspaces_supported `{!Platform} : bool := negb is_native_windows.

(** ** Diagnostics (core/workflow/diagnostics.py) *)

(** Code: core/workflow/diagnostics.py, WorkflowValidationDiagnostic. *)
Record WorkflowValidationDiagnostic := mkWorkflowDiagnostic {
  wd_code : string;
  wd_phase : string;
  wd_message : string;
  wd_severity : PreflightDiagnosticSeverity;
  wd_node_id : option string;
  wd_metadata : dict json
}.

(** A text in quotes at the head: [([^']+)']. *)
Definition match_quoted (l : text) : option (text * text) :=
  let (name, rest) := span (fun c => negb (is_char c "'")) l in
  match name, rest with
  | _ :: _, _ :: tail => Some (name, tail)
  | _, _ => None
  end.

(** The text after a prefix. *)
Definition after_prefix (prefix : string) (l : text) : option text :=
  if starts_with (chars prefix) l then Some (drop (String.length prefix) l) else None.

(** Code: core/workflow/diagnostics.py, _NODE_MESSAGE_PATTERNS..node_id_from_message. *)
Definition node_id_from_message (message : string) : option string :=
  let l := chars message in
  let first := List.find (fun prefix => is_some (after_prefix prefix l ≫= match_quoted))
                 ["Node '"; "Sequential node '"; "Parallel node '"; "Input node '"] in
  match first with
  | Some prefix => '(name, _) ← after_prefix prefix l ≫= match_quoted; Some (of_chars name)
  | None =>
      '(_, rest) ← after_prefix "Workflow input '" l ≫= match_quoted;
      '(name, _) ← after_prefix " references unknown node '" rest ≫= match_quoted;
      Some (of_chars name)
  end.

(** Code: core/workflow/diagnostics.py, format_diagnostics. *)
Definition format_diagnostics (ds : list WorkflowValidationDiagnostic) : string := str_join lf_str (map wd_message ds).

Definition structure_error (message : string) (node : option string) (metadata : dict json) : WorkflowValidationDiagnostic :=
  mkWorkflowDiagnostic "WORKFLOW-STRUCTURE" "reference" message SeverityError node metadata.

(** [", ".join(sorted(set(names)))]. *)
Definition join_sorted (names : list string) : string := str_join ", " (sorted_str (remove_dups names)).

(** ** Templates (core/workflow/validation/templates.py) *)

(** Code: core/workflow/validation/templates.py, extract_template_tokens. *)
Definition extract_template_tokens (prompt : string) : list string :=
  map of_chars (find_all match_template 0 (chars prompt)).

(** Code: core/workflow/validation/templates.py, _node_artifact_name_error. *)
Definition node_artifact_name_error (artifact_name : string) : option string :=
  let allowed := str_join ", " ALLOWED_NODE_ARTIFACT_NAMES in
  if str_in artifact_name ALLOWED_NODE_ARTIFACT_NAMES then None
  else if str_in (str_lower artifact_name) ALLOWED_NODE_ARTIFACT_NAMES
  then Some ("node artifact name must be lower-case and one of: " +:+ allowed)
  else Some ("node artifact name must be one of: " +:+ allowed).

(** Code: core/workflow/validation/templates.py, _artifact_reference_error. *)
Definition artifact_reference_error (id reference_id artifact_name : string) (nodes_by_id : dict WorkflowNode)
    (ancestors : option (gset string)) : option string :=
  let node := "Node " +:+ quoted id in
  let artifact_template := quoted ("{{" +:+ reference_id +:+ "." +:+ artifact_name +:+ "}}") in
  match node_artifact_name_error artifact_name with
  | Some keyword_error => Some (node +:+ " references unsupported artifact " +:+ artifact_template +:+ ". " +:+ keyword_error)
  | None =>
      match dget nodes_by_id reference_id with
      | None => Some (node +:+ " references unknown " +:+ artifact_name +:+ " " +:+ artifact_template +:+ ".")
      | Some referenced_node =>
          if bool_decide (reference_id = id)
          then Some (node +:+ " cannot reference its own " +:+ artifact_name +:+ " " +:+ artifact_template +:+ ".")
          else
            match ancestors with
            | None => None
            | Some ancestors =>
                if negb (bool_decide (reference_id ∈ ancestors))
                then Some (node +:+ " references " +:+ artifact_template +:+ " but " +:+ quoted reference_id
                           +:+ " is not an upstream dependency.")
                else if negb (str_startswith "findings" artifact_name) then None
                else if node_findings referenced_node then None
                else Some (node +:+ " references " +:+ artifact_template +:+ " but upstream node " +:+ quoted reference_id
                           +:+ " does not define findings: true.")
            end
      end
  end.

(** Code: core/workflow/validation/templates.py, _unsupported_template_error. *)
Definition unsupported_template_error (id template_token : string) : string :=
  "Node " +:+ quoted id +:+ " references unsupported template " +:+ quoted template_token +:+ ". "
  +:+ "Supported forms are {{env:KEY}}, {{file:PATH}}, {{var:KEY}}, "
  +:+ "{{node.output}}, {{node.findings}}, {{node.output_path}}, and "
  +:+ "{{node.findings_path}}, plus {{node.output_size}}, "
  +:+ "{{node.findings_size}}, {{node.output_sha256}}, and "
  +:+ "{{node.findings_sha256}} for artifact metadata. {{param:KEY}} is only "
  +:+ "valid during Markdown workflow composition.".

Definition SUPPORTED_TEMPLATE_TYPES : list string := ["env"; "file"; "var"].
Definition COMPOSITION_ONLY_TEMPLATE_TYPES : list string := ["param"].

(** Code: core/workflow/validation/templates.py, _template_reference_error. *)
Definition template_reference_error (id template_token : string) (nodes_by_id : dict WorkflowNode)
    (ancestors : option (gset string)) : option string :=
  let node := "Node " +:+ quoted id in
  match match_template_token template_token with
  | Some (NodeArtifactToken reference_id artifact_name) =>
      artifact_reference_error id reference_id artifact_name nodes_by_id ancestors
  | None => Some (unsupported_template_error id template_token)
  | Some (KeyValueToken template_type value) =>
      if str_in template_type SUPPORTED_TEMPLATE_TYPES then
        if not_blank value then None
        else Some (node +:+ " references invalid template " +:+ quoted template_token
                   +:+ ". Template values must be non-empty.")
      else if str_in template_type COMPOSITION_ONLY_TEMPLATE_TYPES then
        Some (node +:+ " references composition-only template " +:+ quoted template_token
              +:+ ". {param:KEY} templates are only valid in Markdown workflow composition and must be resolved before runtime "
              +:+ "validation.")
      else if str_in (str_lower template_type) SUPPORTED_TEMPLATE_TYPES
              || str_in (str_lower template_type) COMPOSITION_ONLY_TEMPLATE_TYPES then
        Some (node +:+ " references unsupported template " +:+ quoted template_token
              +:+ ". Template types are case-sensitive and must be lower-case exactly.")
      else Some (unsupported_template_error id template_token)
  end.

(** [if node.source] appends a source that is not empty.
    Code: core/workflow/validation/templates.py, _node_template_texts. *)
Definition node_template_texts (node : WorkflowNode) : list string :=
  map seg_content (node_prompt_segments node)
  ++ match node_source node with Some source => if nonempty source then [source] else [] | None => [] end.

(** Code: core/workflow/validation/templates.py, _node_template_diagnostics.._template_diagnostic. *)
Definition node_template_diagnostics (node : WorkflowNode) (nodes_by_id : dict WorkflowNode) (ancestors : option (gset string))
    : list WorkflowValidationDiagnostic :=
  omap (fun template_token =>
    message ← template_reference_error (node_id node) template_token nodes_by_id ancestors;
    Some (mkWorkflowDiagnostic "WORKFLOW-TEMPLATE" "reference" message SeverityError (Some (node_id node)) []))
    (concat (map extract_template_tokens (node_template_texts node))).

(** [{node.id: node for node in workflow.nodes}]. *)
Definition nodes_by_id (workflow : WorkflowPlan) : dict WorkflowNode :=
  dict_of (map (fun node => (node_id node, node)) (plan_nodes workflow)).

(** Code: core/workflow/validation/templates.py, _ancestor_map_if_available. *)
Definition ancestor_map_if_available (workflow : WorkflowPlan) : outcome (option (dict (gset string))) :=
  if negb (has_valid_dependency_references workflow) then Ok None
  else
    match analyze_workflow_graph workflow with
    | Ok analysis => Ok (Some (analysis_ancestors analysis))
    | Raise (ValueError _) => Ok None
    | Raise e => Raise e
    | OutOfFuel => OutOfFuel
    end.

(** Code: core/workflow/validation/templates.py, collect_prompt_template_diagnostics. *)
Definition collect_prompt_template_diagnostics (workflow : WorkflowPlan) : outcome (list WorkflowValidationDiagnostic) :=
  ancestors ← ancestor_map_if_available workflow;
  mret (concat (map (fun node =>
    node_template_diagnostics node (nodes_by_id workflow) (ancestors ≫= (fun ancestors => dget ancestors (node_id node))))
    (plan_nodes workflow))).

(** Code: core/workflow/validation/templates.py, validate_prompt_templates. *)
Definition validate_prompt_templates (workflow : WorkflowPlan) : outcome unit :=
  ds ← collect_prompt_template_diagnostics workflow;
  if is_cons ds then Raise (ValueError (format_diagnostics ds)) else Ok tt.

(** ** Modes (core/workflow/validation/modes.py) *)

Definition mode_error (message id : string) : WorkflowValidationDiagnostic := structure_error message (Some id) [].

Definition report (condition : bool) (message id : string) : list WorkflowValidationDiagnostic :=
  if condition then [mode_error message id] else [].

(** Code: core/workflow/validation/modes.py, _input_node_diagnostics. *)
Definition input_node_diagnostics (node : WorkflowNode) : list WorkflowValidationDiagnostic :=
  let id := node_id node in
  let node_label := "Input node " +:+ quoted id in
  omap (fun (rule : string * (WorkflowNode -> bool)) => let (field_name, is_defined) := rule in
    if is_defined node then Some (mode_error (node_label +:+ " must not define " +:+ field_name +:+ ".") id) else None)
    INPUT_NODE_CONTRACT_RULES
  ++ match node_source node with
     | None => [mode_error (node_label +:+ " requires a non-empty source.") id]
     | Some source =>
         if negb (not_blank source) then [mode_error (node_label +:+ " requires a non-empty source.") id]
         else report (negb (input_source_fullmatch (str_strip source)))
                (node_label +:+ " source must be exactly one raw {{file:...}} template.") id
     end.

(** Code: core/workflow/validation/modes.py, _provider_presence_diagnostics. *)
Definition provider_presence_diagnostics (node : WorkflowNode) (mode_label : string) : list WorkflowValidationDiagnostic :=
  report (negb (is_cons (node_providers node)))
    (mode_label +:+ " node " +:+ quoted (node_id node) +:+ " requires at least one provider.") (node_id node).

(** Code: core/workflow/validation/modes.py, _prompt_segment_role_diagnostics. *)
Definition prompt_segment_role_diagnostics (node : WorkflowNode) (allowed_roles : list PromptSegmentRole)
    : list WorkflowValidationDiagnostic :=
  concat (map (fun segment =>
    report (negb (bool_decide (seg_role segment ∈ allowed_roles)))
      ("Node " +:+ quoted (node_id node) +:+ " uses disallowed prompt segment role "
       +:+ quoted (segment_role_value (seg_role segment)) +:+ ". Allowed roles: "
       +:+ str_join ", " (sorted_str (map segment_role_value allowed_roles)) +:+ ".") (node_id node))
    (node_prompt_segments node)).

(** Code: core/workflow/validation/modes.py, _prompt_presence_diagnostics. *)
Definition prompt_presence_diagnostics (node : WorkflowNode) (role : PromptSegmentRole) : list WorkflowValidationDiagnostic :=
  report (negb (not_blank (render_prompt_for_role node role)))
    ("Node " +:+ quoted (node_id node) +:+ " rendered " +:+ segment_role_value role +:+ " prompt cannot be empty.")
    (node_id node).

(** Code: core/workflow/validation/modes.py, _explicit_review_starts_with. *)
Definition explicit_review_starts_with (node : WorkflowNode) : bool := is_some (node_review_starts_with node).

(** Code: core/workflow/validation/modes.py, _parallel_failure_threshold_diagnostics. *)
Definition parallel_failure_threshold_diagnostics (node : WorkflowNode) : list WorkflowValidationDiagnostic :=
  let label := "Parallel node " +:+ quoted (node_id node) +:+ " failure_threshold" in
  let count := Z.of_nat (length (node_providers node)) in
  match node_failure_threshold node with
  | None => []
  | Some failure_threshold =>
      if failure_threshold <? 0
      then [mode_error (label +:+ " must be greater than or equal to 0.") (node_id node)]
      else report (count <=? failure_threshold)
             (label +:+ " (" +:+ str_int failure_threshold +:+ ") must be less than provider count ("
              +:+ str_int count +:+ ").") (node_id node)
  end.

(** Code: core/workflow/validation/modes.py, _parallel_node_diagnostics. *)
Definition parallel_node_diagnostics (node : WorkflowNode) : list WorkflowValidationDiagnostic :=
  let label := "Parallel node " +:+ quoted (node_id node) in
  let reviewer_providers := map provider_name
    (List.filter (fun provider => bool_decide (provider_role provider = REVIEWER)) (node_providers node)) in
  provider_presence_diagnostics node "Parallel"
  ++ prompt_segment_role_diagnostics node [SEG_SHARED; SEG_EXECUTOR]
  ++ prompt_presence_diagnostics node SEG_EXECUTOR
  ++ report (is_cons reviewer_providers)
       (label +:+ " does not allow reviewer roles. Reviewer providers: " +:+ str_join ", " reviewer_providers +:+ ".")
       (node_id node)
  ++ report (is_some (node_depth node)) (label +:+ " does not support depth; use sequential mode.") (node_id node)
  ++ report (is_some (node_audit_rounds node)) (label +:+ " does not support audit_rounds; use sequential mode.") (node_id node)
  ++ report (explicit_review_starts_with node)
       (label +:+ " does not support review_starts_with; use sequential executor/reviewer review loops.") (node_id node)
  ++ parallel_failure_threshold_diagnostics node.

(** Code: core/workflow/validation/modes.py, _single_sequential_provider_role_diagnostics. *)
Definition single_sequential_provider_role_diagnostics (node : WorkflowNode) (provider : ProviderSpec)
    : list WorkflowValidationDiagnostic :=
  let label := "Sequential node " +:+ quoted (node_id node) +:+ " has a single provider" in
  report (is_some (node_audit_rounds node)) (label +:+ " and does not support audit_rounds.") (node_id node)
  ++ report (explicit_review_starts_with node) (label +:+ " and does not support review_starts_with.") (node_id node)
  ++ report (negb (bool_decide (provider_role provider = EXECUTOR)))
       (label +:+ " but role is " +:+ quoted (role_value (provider_role provider)) +:+ ". Role must be "
        +:+ quoted (role_value EXECUTOR) +:+ " for single-provider nodes.") (node_id node).

(** Code: core/workflow/validation/modes.py, _multi_sequential_provider_role_diagnostics. *)
Definition multi_sequential_provider_role_diagnostics (node : WorkflowNode) : list WorkflowValidationDiagnostic :=
  let label := "Sequential node " +:+ quoted (node_id node) in
  let roles := map provider_role (node_providers node) in
  report (negb (bool_decide (head roles = Some EXECUTOR))) (label +:+ " must start with an executor provider.") (node_id node)
  ++ report (negb (provider_role_segments_are_contiguous roles))
       (label +:+ " must declare providers as a contiguous executor segment followed by a contiguous reviewer segment.")
       (node_id node)
  ++ report (negb (bool_decide (last roles = Some REVIEWER))) (label +:+ " must end with a reviewer provider.") (node_id node).

(** Code: core/workflow/validation/modes.py, _sequential_provider_role_diagnostics. *)
Definition sequential_provider_role_diagnostics (node : WorkflowNode) : list WorkflowValidationDiagnostic :=
  match node_providers node with
  | [] => []
  | [provider] => single_sequential_provider_role_diagnostics node provider
  | _ => multi_sequential_provider_role_diagnostics node
  end.

(** Code: core/workflow/validation/modes.py, _has_sequential_review_loop_provider_shape. *)
Definition has_sequential_review_loop_provider_shape (node : WorkflowNode) : bool :=
  let roles := map provider_role (node_providers node) in
  (2 <=? length roles)%nat && bool_decide (head roles = Some EXECUTOR) && bool_decide (last roles = Some REVIEWER)
  && provider_role_segments_are_contiguous roles.

(** [token[2:-2]]. *)
Definition token_inner (token : string) : string :=
  let l := chars token in of_chars (drop 2 (take (length l - 2) l)).

(** Code: core/workflow/validation/modes.py, _has_static_review_context. *)
Definition has_static_review_context (prompt : string) : bool :=
  existsb (fun token =>
    let token_body := str_strip (token_inner token) in
    str_startswith "file:" token_body
    || match split_last_dot (chars token_body) with
       | None => false
       | Some (_, artifact) => str_in (of_chars artifact) ALLOWED_NODE_ARTIFACT_NAMES
       end) (extract_template_tokens prompt).

(** Code: core/workflow/validation/modes.py, _reviewer_first_missing_context_warning_applies. *)
Definition reviewer_first_missing_context_warning_applies (node : WorkflowNode) : bool :=
  bool_decide (review_starts_with node = StartsReviewer) && negb (is_cons (node_needs node))
  && has_sequential_review_loop_provider_shape node
  && negb (has_static_review_context (render_prompt_for_role node SEG_REVIEWER)).

(** Code: core/workflow/validation/modes.py, _sequential_node_diagnostics. *)
Definition sequential_node_diagnostics (node : WorkflowNode) : list WorkflowValidationDiagnostic :=
  let label := "Sequential node " +:+ quoted (node_id node) in
  let count := length (node_providers node) in
  let nonpositive (o : option Z) := match o with Some z => z <=? 0 | None => false end in
  provider_presence_diagnostics node "Sequential"
  ++ prompt_segment_role_diagnostics node
       (if (count =? 1)%nat then [SEG_SHARED; SEG_EXECUTOR] else [SEG_SHARED; SEG_EXECUTOR; SEG_REVIEWER])
  ++ prompt_presence_diagnostics node SEG_EXECUTOR
  ++ report (nonpositive (node_audit_rounds node)) (label +:+ " audit_rounds must be greater than 0 when provided.") (node_id node)
  ++ report (nonpositive (node_depth node)) (label +:+ " depth must be greater than 0 when provided.") (node_id node)
  ++ report (is_some (node_failure_threshold node)) (label +:+ " does not support failure_threshold.") (node_id node)
  ++ sequential_provider_role_diagnostics node
  ++ (if (1 <? count)%nat then prompt_presence_diagnostics node SEG_REVIEWER else [])
  ++ (if reviewer_first_missing_context_warning_applies node
      then [mkWorkflowDiagnostic "WORKFLOW-STRUCTURE" "reference"
              (label +:+ " starts with a reviewer but has no dependencies or static review context references. Add explicit "
               +:+ "review context with {{file:...}} or upstream artifact references when reviewers need concrete material "
               +:+ "to inspect.") SeverityWarning (Some (node_id node)) []]
      else []).

(** Code: core/workflow/validation/modes.py, collect_node_mode_diagnostics. *)
Definition collect_node_mode_diagnostics (node : WorkflowNode) : list WorkflowValidationDiagnostic :=
  let source_error := report (is_some (node_source node))
    ("Node " +:+ quoted (node_id node) +:+ " source is only valid for input nodes.") (node_id node) in
  match node_mode node with
  | Models.Foreach => []
  | InputMode => input_node_diagnostics node
  | Parallel => source_error ++ parallel_node_diagnostics node
  | Sequential => source_error ++ sequential_node_diagnostics node
  end.

(** ** Nodes (core/workflow/validation/nodes.py) *)

(** The ids that occur before their position. *)
Definition duplicate_ids (ids : list string) : list string :=
  remove_dups (omap (fun '(i, id) => if bool_decide (id ∈ take i ids) then Some id else None) (imap pair ids)).

(** Code: core/workflow/validation/nodes.py, _unique_node_id_diagnostics. *)
Definition unique_node_id_diagnostics (workflow : WorkflowPlan) : list WorkflowValidationDiagnostic :=
  let duplicates := duplicate_ids (map node_id (plan_nodes workflow)) in
  if negb (is_cons duplicates) then []
  else
    let duplicate_labels := str_join ", " (sorted_str duplicates) in
    [structure_error ("Duplicate node IDs found: " +:+ duplicate_labels) None [("duplicates", JStr duplicate_labels)]].

(** Code: core/workflow/validation/nodes.py, _dependency_error. *)
Definition dependency_error (id dependency_id : string) (node_ids : list string) : option string :=
  if bool_decide (dependency_id = id) then Some ("Node " +:+ quoted id +:+ " cannot depend on itself.")
  else if negb (str_in dependency_id node_ids)
  then Some ("Node " +:+ quoted id +:+ " depends on unknown node " +:+ quoted dependency_id +:+ ".")
  else None.

(** Code: core/workflow/validation/nodes.py, _dependency_diagnostics. *)
Definition dependency_diagnostics (workflow : WorkflowPlan) : list WorkflowValidationDiagnostic :=
  let node_ids := map node_id (plan_nodes workflow) in
  concat (map (fun node => omap (fun needed =>
    message ← dependency_error (node_id node) needed node_ids;
    Some (structure_error message (Some (node_id node)) [])) (node_needs node)) (plan_nodes workflow)).

(** One binding of [sorted(workflow.inputs.items())]. *)
Definition input_binding_diagnostic (nodes : dict WorkflowNode) (input_name id : string) : option WorkflowValidationDiagnostic :=
  let label := "Workflow input " +:+ quoted input_name in
  match dget nodes id with
  | None => Some (structure_error (label +:+ " references unknown node " +:+ quoted id +:+ ".") (Some id)
                    [("input_name", JStr input_name)])
  | Some node =>
      if negb (bool_decide (node_mode node = InputMode))
      then Some (structure_error (label +:+ " must reference an input node; " +:+ quoted id +:+ " is "
                                  +:+ quoted (mode_value (node_mode node)) +:+ ".") (Some id)
                   [("input_name", JStr input_name)])
      else None
  end.

(** Code: core/workflow/validation/nodes.py, _input_binding_diagnostics. *)
Definition input_binding_diagnostics (workflow : WorkflowPlan) : list WorkflowValidationDiagnostic :=
  omap (fun input_name => id ← dget (plan_inputs workflow) input_name; input_binding_diagnostic (nodes_by_id workflow) input_name id)
    (sorted_str (dkeys (plan_inputs workflow))).

(** Code: core/workflow/validation/nodes.py, _node_id_diagnostics. *)
Definition node_id_diagnostics (node : WorkflowNode) : list WorkflowValidationDiagnostic :=
  let label := "Node id " +:+ quoted (node_id node) in
  report (negb (node_id_fullmatch (node_id node))) (label +:+ " is invalid. IDs must match '[a-z0-9._-]+'.") (node_id node)
  ++ report (str_in (node_id node) ["."; ".."]) (label +:+ " is invalid. IDs cannot be '.' or '..'.") (node_id node)
  ++ report (str_in (node_id node) RESERVED_RUN_ROOT_NAMES)
       (label +:+ " is reserved. IDs cannot be any of: " +:+ join_sorted RESERVED_RUN_ROOT_NAMES +:+ ".") (node_id node).

(** Code: core/workflow/validation/nodes.py, collect_workflow_node_diagnostics. *)
Definition collect_workflow_node_diagnostics (workflow : WorkflowPlan) : list WorkflowValidationDiagnostic :=
  (if is_cons (plan_nodes workflow) then [] else [structure_error "Workflow must contain at least one node." None []])
  ++ unique_node_id_diagnostics workflow ++ dependency_diagnostics workflow ++ input_binding_diagnostics workflow
  ++ concat (map (fun node => node_id_diagnostics node ++ collect_node_mode_diagnostics node) (plan_nodes workflow)).

(** Code: core/workflow/validation/nodes.py, validate_workflow_nodes. *)
Definition validate_workflow_nodes (workflow : WorkflowPlan) : outcome unit :=
  let ds := collect_workflow_node_diagnostics workflow in
  if is_cons ds then Raise (ValueError (format_diagnostics ds)) else Ok tt.

(** ** Policies (core/workflow/validation/policies.py) *)

(** Code: core/workflow/validation/policies.py, collect_audit_rounds_validation_errors. *)
Definition collect_audit_rounds_validation_errors (workflow : WorkflowPlan) (config : Config) : list string :=
  let max_audit_rounds := cg_max_audit_rounds config in
  omap (fun node =>
    match node_audit_rounds node with
    | Some audit_rounds =>
        if max_audit_rounds <? audit_rounds
        then Some ("Sequential node " +:+ quoted (node_id node) +:+ " audit_rounds (" +:+ str_int audit_rounds
                   +:+ ") must be less than or equal to settings.max_audit_rounds (" +:+ str_int max_audit_rounds +:+ ").")
        else None
    | None => None
    end) (plan_nodes workflow).

(** [if errors: raise ValueError("\n".join(errors))]. *)
Definition raise_errors (errors : list string) : outcome unit :=
  if is_cons errors then Raise (ValueError (str_join lf_str errors)) else Ok tt.

(** Code: core/workflow/validation/policies.py, validate_audit_rounds_settings. *)
Definition validate_audit_rounds_settings (workflow : WorkflowPlan) (config : Config) : outcome unit :=
  raise_errors (collect_audit_rounds_validation_errors workflow config).

(** Code: core/workflow/validation/policies.py, collect_token_budget_validation_errors. *)
Definition collect_token_budget_validation_errors (workflow : WorkflowPlan) (config : Config) : outcome (list string) :=
  for_each (fun errors node =>
    if bool_decide (node_mode node = InputMode) then Ok errors
    else
      match resolve_token_budget (Some (cg_token_budget config)) (node_token_budget node) with
      | Ok _ => Ok errors
      | Raise (ValueError message) =>
          Ok (errors ++ ["Node " +:+ quoted (node_id node) +:+ " token_budget is invalid: " +:+ message])
      | Raise e => Raise e
      | OutOfFuel => OutOfFuel
      end) (plan_nodes workflow) [].

(** Code: core/workflow/validation/policies.py, validate_token_budget_settings. *)
Definition validate_token_budget_settings (workflow : WorkflowPlan) (config : Config) : outcome unit :=
  errors ← collect_token_budget_validation_errors workflow config; raise_errors errors.

(** Code: core/workflow/validation/policies.py, collect_missing_provider_locations. *)
Definition collect_missing_provider_locations (workflow : WorkflowPlan) (config : Config) : dict (list string) :=
  foldl (fun missing node => foldl (fun missing provider =>
    let name := provider_name provider in
    if dmem (cg_agents config) name then missing
    else dset missing name (default [] (dget missing name)
           ++ ["workflow " +:+ quoted (plan_name workflow) +:+ " -> node " +:+ quoted (node_id node)]))
    missing (node_providers node)) [] (plan_nodes workflow).

(** Code: core/workflow/validation/policies.py, _format_unknown_provider_errors. *)
Definition format_unknown_provider_errors (missing : dict (list string)) : list string :=
  map (fun name => "Unknown provider " +:+ quoted name +:+ " referenced in: " +:+ join_sorted (default [] (dget missing name)))
    (sorted_str (dkeys missing)).

(** Code: core/workflow/validation/policies.py, collect_provider_validation_errors. *)
Definition collect_provider_validation_errors (workflow : WorkflowPlan) (config : Config) : list string :=
  format_unknown_provider_errors (collect_missing_provider_locations workflow config).

(** Code: core/workflow/validation/policies.py, validate_provider_references. *)
Definition validate_provider_references (workflow : WorkflowPlan) (config : Config) : outcome unit :=
  raise_errors (collect_provider_validation_errors workflow config).

(** ** Workspaces (core/workflow/validation/workspace_diagnostics.py) *)

Section Workspace.
Context {hash : HashLibrary} {platform : Platform}.

(** Code: core/workflow/validation/workspace_diagnostics.py, _diagnostic. *)
Definition workspace_diagnostic (message : string) (node : option string) (metadata : dict json)
    : WorkflowValidationDiagnostic :=
  mkWorkflowDiagnostic "WORKFLOW-WORKSPACE" "workspace_policy" message SeverityError node metadata.

(** Code: core/workflow/validation/workspace_diagnostics.py, platform_workspace_diagnostics. *)
Definition platform_workspace_diagnostics (config : Config) : list WorkflowValidationDiagnostic :=
  if negb managed_workspaces_supported && cw_enabled (cg_workspace config)
  then [workspace_diagnostic ("Managed workspaces are not supported on native Windows. Set "
          +:+ "settings.workspace.enabled: false, or use WSL for workspace isolation.") None []]
  else [].

(** Code: core/workflow/validation/workspace_diagnostics.py, repeat_force_run_workspace_diagnostics. *)
Definition repeat_force_run_workspace_diagnostics (workflow : WorkflowPlan) (config : Config)
    : list WorkflowValidationDiagnostic :=
  if negb (cw_enabled (cg_workspace config)) && negb (is_cons (plan_worktrees workflow)) then []
  else [workspace_diagnostic ("repeat_force_run_count requires project-root execution: set "
          +:+ "settings.workspace.enabled: false and remove all worktrees "
          +:+ "declarations, including imported and unused declarations.") None []].

(** [declaration.branch_name or generated_branch_name(...)]. *)
Definition declared_branch_name (workflow_name name : string) (declaration : WorktreeDeclaration) : outcome string :=
  match wt_branch_name declaration with
  | Some branch => if nonempty branch then Ok branch else generated_branch_name workflow_name name "run"
  | None => generated_branch_name workflow_name name "run"
  end.

(** A worktree that exports a branch. *)
Definition exports_branch (declaration : WorktreeDeclaration) : bool :=
  bool_decide (wt_kind declaration = WK_worktree) && wt_create_branch declaration.

(** Code: core/workflow/validation/workspace_diagnostics.py, _duplicate_branch_export_diagnostics. *)
Definition duplicate_branch_export_diagnostics (workflow : WorkflowPlan) (selected_worktrees : list string)
    : outcome (list WorkflowValidationDiagnostic) :=
  worktrees_by_branch ← for_each (fun (worktrees_by_branch : dict (list string)) '(name, declaration) =>
    if negb (str_in name selected_worktrees) || negb (exports_branch declaration) then Ok worktrees_by_branch
    else
      branch_name ← declared_branch_name (plan_name workflow) name declaration;
      mret (dset worktrees_by_branch branch_name (default [] (dget worktrees_by_branch branch_name) ++ [name])))
    (plan_worktrees workflow) [];
  mret (omap (fun branch_name =>
    let names := sorted_str (default [] (dget worktrees_by_branch branch_name)) in
    if (length names <=? 1)%nat then None
    else Some (workspace_diagnostic ("Selected worktrees " +:+ str_join ", " (map quoted names)
                 +:+ " request branch export to the same branch " +:+ quoted branch_name
                 +:+ ". Branch-exporting worktrees must target distinct branch names.") None
                 [("branch_name", JStr branch_name); ("worktrees", JStr (str_join ", " names))]))
    (sorted_str (dkeys worktrees_by_branch))).

(** Code: core/workflow/validation/workspace_diagnostics.py, _unselected_branch_export_diagnostics. *)
Definition unselected_branch_export_diagnostics (workflow : WorkflowPlan) (selected_worktrees : list string)
    : list WorkflowValidationDiagnostic :=
  omap (fun '(name, declaration) =>
    if exports_branch declaration && negb (str_in name selected_worktrees)
    then Some (workspace_diagnostic ("Worktree " +:+ quoted name +:+ " requests branch export but no provider node selects it.")
                 None [])
    else None) (plan_worktrees workflow).

(** Code: core/workflow/validation/workspace_diagnostics.py, _missing_selector_diagnostics. *)
Definition missing_selector_diagnostics (workflow : WorkflowPlan) : list WorkflowValidationDiagnostic :=
  if (length (plan_worktrees workflow) <=? 1)%nat then []
  else omap (fun node =>
    if negb (bool_decide (node_mode node = InputMode)) && negb (is_some (node_worktree node))
    then Some (workspace_diagnostic ("Node " +:+ quoted (node_id node) +:+ " must select a worktree or set worktree: none "
                 +:+ "because the workflow declares multiple worktrees.") (Some (node_id node)) [])
    else None) (plan_nodes workflow).

Definition none_text (o : option string) : string := default "None" o.

(** Code: core/workflow/validation/workspace_diagnostics.py, _setup_profile_diagnostics. *)
Definition setup_profile_diagnostics (config : Config) (selections : dict LogicalWorkspaceSelection)
    : list WorkflowValidationDiagnostic :=
  omap (fun '(_, selection) =>
    match ls_setup_profile selection with
    | Some profile =>
        if dmem (cw_setup_profiles (cg_workspace config)) profile then None
        else Some (workspace_diagnostic ("Node " +:+ quoted (ls_node_id selection) +:+ " selects worktree "
                     +:+ quoted (none_text (ls_logical_worktree_name selection)) +:+ " with unknown setup_profile "
                     +:+ quoted profile +:+ ".") (Some (ls_node_id selection)) [])
    | None => None
    end) selections.

(** Code: core/workflow/validation/workspace_diagnostics.py, _mutable_executor_diagnostics. *)
Definition mutable_executor_diagnostics (workflow : WorkflowPlan) (selections : dict LogicalWorkspaceSelection)
    : outcome (list WorkflowValidationDiagnostic) :=
  for_each (fun ds '(_, selection) =>
    if negb (bool_decide (ls_declaration_kind selection = Some WK_worktree)) then Ok ds
    else
      node ← ditem (nodes_by_id workflow) (ls_node_id selection);
      let executor_count := Z.of_nat (length (List.filter (fun provider =>
        bool_decide (provider_role provider = EXECUTOR)) (node_providers node))) in
      mret (if 1 <? executor_count
            then ds ++ [workspace_diagnostic ("Node " +:+ quoted (node_id node) +:+ " selects mutable worktree "
                          +:+ quoted (none_text (ls_logical_worktree_name selection)) +:+ " but defines multiple "
                          +:+ "executor providers. Worktree lineage allows one mutable executor; reviewers remain parallel-safe.")
                          (Some (node_id node))
                          [("executor_count", JInt executor_count); ("worktree", jopt JStr (ls_logical_worktree_name selection))]]
            else ds)) selections [].

(** Code: core/workflow/validation/workspace_diagnostics.py, _cross_worktree_dependency_diagnostics. *)
Definition cross_worktree_dependency_diagnostics (node : WorkflowNode) (selection : LogicalWorkspaceSelection)
    (selections : dict LogicalWorkspaceSelection) : list WorkflowValidationDiagnostic :=
  omap (fun dependency =>
    match dget selections dependency with
    | Some upstream =>
        if ls_lineage_producer upstream
           && negb (bool_decide (ls_logical_worktree_name upstream = ls_logical_worktree_name selection))
        then Some (workspace_diagnostic ("Node " +:+ quoted (node_id node) +:+ " depends directly on worktree "
                     +:+ quoted (none_text (ls_logical_worktree_name upstream)) +:+ " while selecting worktree "
                     +:+ quoted (none_text (ls_logical_worktree_name selection)) +:+ ". Automatic merge between "
                     +:+ "logical worktrees is not supported; pass artifacts or select worktree: none.")
                     (Some (node_id node))
                     [("dependency", JStr dependency); ("source_worktree", jopt JStr (ls_logical_worktree_name upstream));
                      ("target_worktree", jopt JStr (ls_logical_worktree_name selection))])
        else None
    | None => None
    end) (node_needs node).

(** Code: core/workflow/validation/workspace_diagnostics.py, _source_lineage_diagnostics. *)
Definition source_lineage_diagnostics (workflow : WorkflowPlan) (selections : dict LogicalWorkspaceSelection)
    : list WorkflowValidationDiagnostic :=
  concat (map (fun node =>
    match dget selections (node_id node) with
    | Some selection =>
        if bool_decide (ls_declaration_kind selection = Some WK_worktree)
        then cross_worktree_dependency_diagnostics node selection selections else []
    | None => []
    end) (plan_nodes workflow)).

(** Code: core/workflow/validation/workspace_diagnostics.py, _lineage_writers_by_worktree. *)
Definition lineage_writers_by_worktree (selections : dict LogicalWorkspaceSelection) : dict (list string) :=
  foldl (fun writers '(_, selection) =>
    match ls_logical_worktree_name selection with
    | Some name => if ls_lineage_producer selection
                   then dset writers name (default [] (dget writers name) ++ [ls_node_id selection]) else writers
    | None => writers
    end) [] selections.

(** The sort by the number of ancestors, then by position: both sorts are stable.
    Code: core/workflow/validation/workspace_diagnostics.py, _first_unordered_writer_pair. *)
Definition first_unordered_writer_pair (node_ids : list string) (ancestors : dict (gset string)) (node_order : dict Z)
    : outcome (option (string * string)) :=
  keyed ← mapM (fun id => above ← ditem ancestors id; position ← ditem node_order id;
                          mret (id, above, Z.of_nat (size above), position)) node_ids;
  let ordered := sort_by (fun '(_, _, count, _) => count) (sort_by (fun '(_, _, _, position) => position) keyed) in
  mret (option_map (fun '((first, _, _, _), (second, _, _, _)) => (first, second))
    (List.find (fun '((first, _, _, _), (_, above, _, _)) => negb (bool_decide (first ∈ above))) (pairwise ordered))).

(** Code: core/workflow/validation/workspace_diagnostics.py, _unordered_writer_diagnostic. *)
Definition unordered_writer_diagnostic (worktree_name first second : string) : WorkflowValidationDiagnostic :=
  workspace_diagnostic ("Nodes " +:+ quoted first +:+ " and " +:+ quoted second +:+ " both select logical worktree "
    +:+ quoted worktree_name +:+ " but they are not ordered by the DAG. One mutable source line cannot have unordered writers; "
    +:+ "add a needs edge to serialize the source line or use separate worktrees.") (Some second)
    [("left_node", JStr first); ("right_node", JStr second); ("worktree", JStr worktree_name)].

(** Code: core/workflow/validation/workspace_diagnostics.py, _unordered_writer_diagnostics. *)
Definition unordered_writer_diagnostics (workflow : WorkflowPlan) (selections : dict LogicalWorkspaceSelection)
    : outcome (list WorkflowValidationDiagnostic) :=
  ancestors ← ancestor_map workflow;
  let node_order := enumerate_order (map node_id (plan_nodes workflow)) in
  for_each (fun ds '(worktree_name, node_ids) =>
    unordered_pair ← first_unordered_writer_pair node_ids ancestors node_order;
    mret (match unordered_pair with
          | None => ds
          | Some (first, second) => ds ++ [unordered_writer_diagnostic worktree_name first second]
          end)) (lineage_writers_by_worktree selections) [].

(** Code: core/workflow/validation/workspace_diagnostics.py, _redundant_selector_diagnostics. *)
Definition redundant_selector_diagnostics (workflow : WorkflowPlan) : list WorkflowValidationDiagnostic :=
  match plan_worktrees workflow with
  | [(only_name, _)] =>
      omap (fun node =>
        if negb (bool_decide (node_mode node = InputMode)) && bool_decide (node_worktree node = Some only_name)
        then Some (mkWorkflowDiagnostic "WORKFLOW-WORKSPACE" "workspace_policy"
                     ("Node " +:+ quoted (node_id node) +:+ " explicitly selects the only declared worktree "
                      +:+ quoted only_name +:+ "; the selector is redundant.") SeverityWarning (Some (node_id node)) [])
        else None) (plan_nodes workflow)
  | _ => []
  end.

(** Code: core/workflow/validation/workspace_diagnostics.py, workspace_policy_diagnostics. *)
Definition workspace_policy_diagnostics (workflow : WorkflowPlan) (config : Config)
    (selections : dict LogicalWorkspaceSelection) : outcome (list WorkflowValidationDiagnostic) :=
  let enabled := cw_enabled (cg_workspace config) in
  let disabled := if is_cons (plan_worktrees workflow) && negb enabled
    then [workspace_diagnostic ("Managed worktrees require settings.workspace.enabled: true. Enable workspace "
            +:+ "isolation or remove workflow worktrees.") None []] else [] in
  let selected_worktrees := omap (fun '(_, selection) => ls_logical_worktree_name selection)
                              (selections : list (string * LogicalWorkspaceSelection)) in
  duplicates ← (if enabled then duplicate_branch_export_diagnostics workflow selected_worktrees else Ok []);
  mutable ← mutable_executor_diagnostics workflow selections;
  unordered ← unordered_writer_diagnostics workflow selections;
  mret (disabled ++ unselected_branch_export_diagnostics workflow selected_worktrees ++ duplicates
        ++ missing_selector_diagnostics workflow ++ setup_profile_diagnostics config selections ++ mutable ++ unordered
        ++ source_lineage_diagnostics workflow selections ++ redundant_selector_diagnostics workflow).

(** Code: core/workflow/validation/workspace.py, collect_workspace_policy_diagnostics. *)
Definition collect_workspace_policy_diagnostics (workflow : WorkflowPlan) (config : Config)
    : outcome (list WorkflowValidationDiagnostic) :=
  let repetition := platform_workspace_diagnostics config
    ++ (if is_some (plan_repeat_force_run_count workflow) then repeat_force_run_workspace_diagnostics workflow config else []) in
  selections ← graph_safe_logical_workspace_selections workflow config;
  match selections with
  | None => Ok repetition
  | Some selections => ds ← workspace_policy_diagnostics workflow config selections; mret (repetition ++ ds)
  end.

(** Code: core/workflow/validation/workspace.py, validate_repeat_force_run_workspace. *)
Definition validate_repeat_force_run_workspace (workflow : WorkflowPlan) (config : Config) : outcome unit :=
  match repeat_force_run_workspace_diagnostics workflow config with
  | d :: _ => Raise (ValueError (wd_message d))
  | [] => Ok tt
  end.

(** ** Collected diagnostics (core/workflow/validation/api.py) *)

(** Code: core/workflow/validation/api.py, collect_workflow_topology_diagnostics. *)
Definition collect_workflow_topology_diagnostics (workflow : WorkflowPlan) : outcome (list WorkflowValidationDiagnostic) :=
  if negb (has_valid_dependency_references workflow) then Ok []
  else
    match analyze_workflow_graph workflow with
    | Ok _ => Ok []
    | Raise (ValueError _) =>
        Ok [mkWorkflowDiagnostic "WORKFLOW-DAG" "reference" "Workflow graph contains a cycle." SeverityError None []]
    | Raise e => Raise e
    | OutOfFuel => OutOfFuel
    end.

(** Code: core/workflow/validation/api.py, collect_workflow_validation_diagnostics. *)
Definition collect_workflow_validation_diagnostics (workflow : WorkflowPlan) : outcome (list WorkflowValidationDiagnostic) :=
  topology ← collect_workflow_topology_diagnostics workflow;
  templates ← collect_prompt_template_diagnostics workflow;
  mret (collect_workflow_node_diagnostics workflow ++ topology ++ templates).

(** Code: core/workflow/validation/api.py, validate_workflow_plan. *)
Definition validate_workflow_plan (workflow : WorkflowPlan) : outcome WorkflowPlan :=
  ds ← collect_workflow_validation_diagnostics workflow;
  let errors := List.filter (fun d => bool_decide (wd_severity d = SeverityError)) ds in
  if is_cons errors then Raise (ValueError (format_diagnostics errors)) else Ok workflow.

(** Code: core/workflow/validation/api.py, collect_provider_validation_diagnostics. *)
Definition collect_provider_validation_diagnostics (workflow : WorkflowPlan) (config : Config)
    : list WorkflowValidationDiagnostic :=
  map (fun message => mkWorkflowDiagnostic "WORKFLOW-PROVIDER" "provider" message SeverityError None [])
    (collect_provider_validation_errors workflow config).

(** Code: core/workflow/validation/api.py, _diagnostics_from_messages. *)
Definition diagnostics_from_messages (code phase : string) (messages : list string) : list WorkflowValidationDiagnostic :=
  map (fun message => mkWorkflowDiagnostic code phase message SeverityError (node_id_from_message message) []) messages.

(** Code: core/workflow/validation/api.py, collect_workflow_policy_diagnostics. *)
Definition collect_workflow_policy_diagnostics (workflow : WorkflowPlan) (config : Config)
    : outcome (list WorkflowValidationDiagnostic) :=
  let audit_round_messages := collect_audit_rounds_validation_errors workflow config in
  token_budget_messages ← collect_token_budget_validation_errors workflow config;
  workspace ← collect_workspace_policy_diagnostics workflow config;
  mret (workspace ++ diagnostics_from_messages "WORKFLOW-POLICY" "node_policy" audit_round_messages
        ++ diagnostics_from_messages "WORKFLOW-TOKEN-BUDGET" "node_policy" token_budget_messages).

(** ** Preflight diagnostics (core/preflight/validation.py) *)

Definition phase_values : dict PreflightDiagnosticPhase :=
  [("env_policy", PhaseEnvPolicy); ("file_policy", PhaseFilePolicy); ("invoker_workspace_compatibility", PhaseInvokerWorkspace);
   ("node_policy", PhaseNodePolicy); ("parse", PhaseParse); ("provider", PhaseProvider); ("reference", PhaseReference);
   ("source_policy", PhaseSourcePolicy); ("template_plan", PhaseTemplatePlan); ("validation", PhaseValidation);
   ("var_policy", PhaseVarPolicy); ("workspace_file_locator_policy", PhaseWorkspaceFileLocator);
   ("workspace_policy", PhaseWorkspacePolicy); ("worktree_contract", PhaseWorktreeContract)].

(** [PreflightDiagnosticPhase(value)]. *)
Definition phase_of_value (value : string) : outcome PreflightDiagnosticPhase :=
  match dget phase_values value with
  | Some phase => Ok phase
  | None => Raise (ValueError (quoted value +:+ " is not a valid PreflightDiagnosticPhase"))
  end.

(** Code: core/preflight/validation.py, _to_preflight_diagnostics. *)
Definition to_preflight_diagnostics (ds : list WorkflowValidationDiagnostic) : outcome (list PreflightDiagnostic) :=
  mapM (fun d =>
    phase ← phase_of_value (wd_phase d);
    mret (mkDiagnostic PREFLIGHT_VALIDATION (wd_message d) (wd_severity d) phase (wd_node_id d) None
            (foldl (fun metadata '(k, v) => dset metadata k v) [("workflow_code", JStr (wd_code d))] (wd_metadata d)))) ds.

(** Code: core/preflight/validation.py, collect_preflight_workflow_reference_diagnostics. *)
Definition collect_preflight_workflow_reference_diagnostics (workflow : WorkflowPlan) : outcome (list PreflightDiagnostic) :=
  ds ← collect_workflow_validation_diagnostics workflow; to_preflight_diagnostics ds.

(** Code: core/preflight/validation.py, validate_preflight_workflow_references. *)
Definition validate_preflight_workflow_references (workflow : WorkflowPlan) : outcome WorkflowPlan :=
  ds ← collect_preflight_workflow_reference_diagnostics workflow;
  _ ← raise_errors (map dg_message (List.filter (fun d => bool_decide (dg_severity d = SeverityError)) ds));
  mret workflow.

(** Code: core/preflight/validation.py, _preflight_provider_diagnostics. *)
Definition preflight_provider_diagnostics (workflow : WorkflowPlan) (config : Config) : list PreflightDiagnostic :=
  map (fun '(name, locations) =>
    mkDiagnostic PREFLIGHT_VALIDATION
      ("Unknown provider " +:+ quoted name +:+ " referenced at: " +:+ join_sorted locations +:+ ".") SeverityError PhaseProvider
      None None []) (collect_missing_provider_locations workflow config).

(** Code: core/preflight/validation.py, collect_preflight_provider_reference_diagnostics. *)
Definition collect_preflight_provider_reference_diagnostics (workflow : WorkflowPlan) (config : Config)
    : outcome (list PreflightDiagnostic) :=
  let ds := preflight_provider_diagnostics workflow config in
  if is_cons ds then Ok ds else to_preflight_diagnostics (collect_provider_validation_diagnostics workflow config).

(** Code: core/preflight/validation.py, validate_preflight_provider_references. *)
Definition validate_preflight_provider_references (workflow : WorkflowPlan) (config : Config) : outcome unit :=
  ds ← collect_preflight_provider_reference_diagnostics workflow config; raise_errors (map dg_message ds).

(** Code: core/preflight/validation.py, collect_preflight_policy_diagnostics. *)
Definition collect_preflight_policy_diagnostics (workflow : WorkflowPlan) (config : Config) : outcome (list PreflightDiagnostic) :=
  ds ← collect_workflow_policy_diagnostics workflow config; to_preflight_diagnostics ds.

End Workspace.
