(* ===== verification/WorktreeOrder.v ===== *)
(** Writers of a worktree: the check of the workspace policy that the nodes
    which write one mutable worktree are ordered by dependencies.

    The code sorts the writers by the number of their ancestors and looks at
    neighbours only; an ancestor has fewer ancestors, so neighbours are enough. *)

From Stdlib Require Import ZArith Lia Ascii String Sorted.
From stdpp Require Import base gmap sets list strings relations.
From S2P Require Import Prelude PyStr Models Graph Artifacts RunState Composition CompositionSpec PlanRecords PlanContract.
From S2P Require Import PlanContractSpec PreflightState WorkspaceSelection WorkflowValidation.

Open Scope string_scope.
Open Scope list_scope.
Open Scope Z_scope.

(** ** Selections *)

(** The nodes that write a worktree: they run providers in it, and it is not a
    snapshot. *)
Definition writes_worktree (workflow : WorkflowPlan) (node : WorkflowNode) (name : string) : Prop :=
  selected_worktree_name workflow node = Some name /\
  exists declaration, dget (plan_worktrees workflow) name = Some declaration /\ wt_kind declaration = WK_worktree.

(** The selections of a workflow: one for each provider node. *)
Record selections_ok (workflow : WorkflowPlan) (selections : dict LogicalWorkspaceSelection) : Prop := {
  so_keys : NoDup (dkeys selections);
  so_id : forall id selection, dget selections id = Some selection -> ls_node_id selection = id;
  so_node : forall id selection, dget selections id = Some selection ->
    exists node, node ∈ plan_nodes workflow /\ node_id node = id;
  so_writes : forall node name selection, node ∈ plan_nodes workflow -> dget selections (node_id node) = Some selection ->
    (ls_logical_worktree_name selection = Some name /\ ls_lineage_producer selection = true <-> writes_worktree workflow node name)
}.

Lemma selection_for_node_ok workflow settings node selection name :
  selection_for_node workflow settings node = Ok selection ->
  ls_node_id selection = node_id node /\
  (ls_logical_worktree_name selection = Some name /\ ls_lineage_producer selection = true <-> writes_worktree workflow node name).
Proof.
  unfold selection_for_node, writes_worktree. destruct (selected_worktree_name workflow node) as [selector|].
  - intros (declaration & Hd & [= <-])%bind_Ok. simpl. split; [done|]. apply ditem_Ok in Hd. rewrite bool_decide_eq_true. split.
    + intros [[= ->] Hk]. split; [done|]. by exists declaration.
    + intros [[= ->] (d & Hd' & Hk)]. rewrite Hd in Hd'. injection Hd' as <-. done.
  - intros [= <-]. simpl. split; [done|]. by split; [intros [? _] | intros [? _]].
Qed.

Section Selections.
Variables (workflow : WorkflowPlan) (config : Config).
Hypothesis Hids : NoDup (workflow_ids workflow).

Lemma node_of_id node node' :
  node ∈ plan_nodes workflow -> node' ∈ plan_nodes workflow -> node_id node = node_id node' -> node = node'.
Proof.
  intros [i Hi]%list_elem_of_lookup [j Hj]%list_elem_of_lookup He.
  assert (i = j) as ->; [|congruence]. eapply NoDup_lookup; [exact Hids| |]; unfold workflow_ids; rewrite list_lookup_fmap.
  - by rewrite Hi.
  - rewrite Hj. simpl. by rewrite He.
Qed.

(** The selections of the nodes in [done]. *)
Definition base_inv (done : list WorkflowNode) (selections : dict LogicalWorkspaceSelection) : Prop :=
  selections_ok workflow selections /\ forall node, node ∈ done -> runs_providers node = true -> is_Some (dget selections (node_id node)).

Lemma selections_set selections id selection :
  selections_ok workflow selections -> ls_node_id selection = id -> (exists node, node ∈ plan_nodes workflow /\ node_id node = id) ->
  (forall node name, node ∈ plan_nodes workflow -> node_id node = id ->
     (ls_logical_worktree_name selection = Some name /\ ls_lineage_producer selection = true <-> writes_worktree workflow node name)) ->
  selections_ok workflow (dset selections id selection).
Proof.
  intros [H1 H2 H3 H4] Hid Hnode Hw. constructor.
  - by apply NoDup_dkeys_dset.
  - intros id' s. rewrite dget_dset. case_decide; [intros [= <-]; by subst | apply H2].
  - intros id' s. rewrite dget_dset. case_decide; [intros [= <-]; by subst | apply H3].
  - intros node name s Hn. rewrite dget_dset. case_decide as He; [intros [= <-]; by apply Hw | by apply H4].
Qed.

Lemma base_selections_ok nodes : forall done selections selections',
  done ++ nodes = plan_nodes workflow -> base_inv done selections ->
  for_each (fun selections node =>
    if negb (runs_providers node) then Ok selections
    else selection ← selection_for_node workflow (cg_workspace config) node;
         mret (dset selections (node_id node) selection)) nodes selections = Ok selections' ->
  base_inv (plan_nodes workflow) selections'.
Proof.
  induction nodes as [|n nodes IH]; intros done selections selections' Hd [Hok Hdone] H; simpl in H.
  { injection H as <-. rewrite app_nil_r in Hd. by subst. }
  apply bind_Ok in H as (selections1 & H1 & H).
  assert (Hn : n ∈ plan_nodes workflow) by (rewrite <- Hd; apply elem_of_app; right; left).
  apply (IH (done ++ [n]) selections1); [by rewrite <- app_assoc| |done]. destruct (runs_providers n) eqn:Hr; simpl in H1.
  - apply bind_Ok in H1 as (selection & Hs & [= <-]). split.
    + apply selections_set; [done| | |]; [by eapply (selection_for_node_ok _ _ _ _ "") in Hs as [? _] | by exists n|].
      intros node name Hnode He. pose proof (node_of_id _ _ Hnode Hn He) as ->. by eapply selection_for_node_ok.
    + intros m Hm Hmr. rewrite dget_dset. case_decide; [by eexists|]. apply elem_of_app in Hm as [Hm| ->%list_elem_of_singleton]; [by apply Hdone | done].
  - injection H1 as <-. split; [done|]. intros m [Hm| ->%list_elem_of_singleton]%elem_of_app Hmr; [by apply Hdone | congruence].
Qed.

Lemma logical_selections_ok selections : logical_workspace_selections workflow config = Ok selections ->
  selections_ok workflow selections /\
  forall node, node ∈ plan_nodes workflow -> runs_providers node = true -> is_Some (dget selections (node_id node)).
Proof.
  intros (base & Hb & H)%bind_Ok. assert (Hbase : base_inv (plan_nodes workflow) base).
  { eapply (base_selections_ok (plan_nodes workflow) []); [done| |exact Hb]. split; [|intros node Hn; by apply elem_of_nil in Hn].
    constructor; [constructor|done..]. }
  unfold with_source_nodes in H. apply bind_Ok in H as (ancestors & _ & H).
  eapply (for_each_Ok (base_inv (plan_nodes workflow))); [|exact Hbase|exact H].
  intros updated node updated' Hn [Hok Hall] Hstep. destruct (dget updated (node_id node)) as [selection|] eqn:Hs; [|by simplify_eq].
  case_match; [by simplify_eq|]. apply bind_Ok in Hstep as (source & _ & Hstep). injection Hstep as <-.
  destruct source as [source|]; [|done]. split.
  - apply selections_set; [done|apply (so_id _ _ Hok _ _ Hs)|by exists node|].
    intros node' name Hn' He. rewrite <- He in Hs. exact (so_writes _ _ Hok _ name _ Hn' Hs).
  - intros m Hm Hr. rewrite dget_dset. destruct (decide (node_id node = node_id m)); [by eexists | by apply Hall].
Qed.

End Selections.

(** ** Writers *)

Definition is_writer (selection : LogicalWorkspaceSelection) (name : string) : Prop :=
  ls_logical_worktree_name selection = Some name /\ ls_lineage_producer selection = true.

Definition add_writer (writers : dict (list string)) (entry : string * LogicalWorkspaceSelection) : dict (list string) :=
  let '(_, selection) := entry in
  match ls_logical_worktree_name selection with
  | Some name => if ls_lineage_producer selection
                 then dset writers name (default [] (dget writers name) ++ [ls_node_id selection]) else writers
  | None => writers
  end.

Lemma add_writer_lookup writers id selection name :
  default [] (dget (add_writer writers (id, selection)) name) =
  default [] (dget writers name) ++
  (if bool_decide (ls_logical_worktree_name selection = Some name) && ls_lineage_producer selection then [ls_node_id selection] else []).
Proof.
  unfold add_writer. destruct (ls_logical_worktree_name selection) as [n|]; [|by rewrite app_nil_r].
  destruct (ls_lineage_producer selection); [|by rewrite andb_false_r, app_nil_r]. rewrite andb_true_r, dget_dset.
  case_decide as Hn; case_bool_decide as Hb; [by subst | congruence | congruence | by rewrite app_nil_r].
Qed.

Lemma writers_spec name selections :
  default [] (dget (lineage_writers_by_worktree selections) name) =
  omap (fun '(_, selection) =>
    if bool_decide (ls_logical_worktree_name selection = Some name) && ls_lineage_producer selection
    then Some (ls_node_id selection) else None) (selections : list (string * LogicalWorkspaceSelection)).
Proof.
  unfold lineage_writers_by_worktree. change (foldl _ [] selections) with (foldl add_writer [] selections).
  enough (H : forall writers, default [] (dget (foldl add_writer writers selections) name) =
    default [] (dget writers name) ++ omap (fun '(_, selection) =>
      if bool_decide (ls_logical_worktree_name selection = Some name) && ls_lineage_producer selection
      then Some (ls_node_id selection) else None) (selections : list (string * LogicalWorkspaceSelection))) by apply (H []).
  induction selections as [|[id selection] selections IH]; intros writers; [simpl; by rewrite app_nil_r|].
  change (foldl add_writer writers ((id, selection) :: selections))
    with (foldl add_writer (add_writer writers (id, selection)) selections).
  rewrite IH, add_writer_lookup, <- app_assoc. f_equal. simpl. by destruct (_ && _).
Qed.

Section Writers.
Variables (workflow : WorkflowPlan) (selections : dict LogicalWorkspaceSelection).
Hypothesis Hids : NoDup (workflow_ids workflow).
Hypothesis Hsel : selections_ok workflow selections.
Hypothesis Hall : forall node, node ∈ plan_nodes workflow -> runs_providers node = true -> is_Some (dget selections (node_id node)).

Notation writers name := (default [] (dget (lineage_writers_by_worktree selections) name)).

Lemma elem_of_writers id name :
  id ∈ writers name <-> exists node, node ∈ plan_nodes workflow /\ node_id node = id /\ writes_worktree workflow node name.
Proof.
  rewrite writers_spec, list_elem_of_omap. split.
  - intros ([k selection] & Hin & H). destruct (_ && _) eqn:E; [|done]. injection H as <-.
    apply andb_true_iff in E as [Hn Hp]. apply bool_decide_eq_true in Hn. apply elem_of_dget in Hin; [|apply Hsel].
    destruct (so_node _ _ Hsel _ _ Hin) as (node & Hnode & <-). exists node. split_and!; [done| |].
    + symmetry. by apply (so_id _ _ Hsel).
    + by apply (so_writes _ _ Hsel node name selection).
  - intros (node & Hn & <- & Hw). destruct (Hall node Hn) as [selection Hs].
    { destruct Hw as [Hw _]. unfold selected_worktree_name in Hw. by destruct (runs_providers node). }
    exists (node_id node, selection). split; [by apply dget_elem_of|].
    destruct (proj2 (so_writes _ _ Hsel node name selection Hn Hs) Hw) as [-> ->].
    rewrite bool_decide_eq_true_2 by done. simpl. by rewrite (so_id _ _ Hsel _ _ Hs).
Qed.

Lemma NoDup_writers name : NoDup (writers name).
Proof.
  rewrite writers_spec. pose proof (so_keys _ _ Hsel) as Hd. pose proof (so_id _ _ Hsel) as Hid.
  assert (Hin : forall k s, (k, s) ∈ selections -> ls_node_id s = k) by (intros k s H; apply Hid; by apply elem_of_dget).
  clear Hid Hsel Hall. unfold dkeys in Hd. induction selections as [|[k s] l IH]; simpl; [constructor|].
  simpl in Hd. apply NoDup_cons in Hd as [Hnot Hd]. assert (Hl : forall k s, (k, s) ∈ l -> ls_node_id s = k) by (intros; apply Hin; by right).
  destruct (_ && _); [|by apply IH]. apply NoDup_cons. split; [|by apply IH].
  intros ([k' s'] & Hin' & H)%list_elem_of_omap. destruct (_ && _); [|done]. injection H as H. apply Hnot.
  rewrite (Hin k s) in H by left. rewrite (Hl k' s' Hin') in H. subst k'. apply list_elem_of_fmap. by exists (k, s').
Qed.

End Writers.

(** ** Neighbours in the sorted list *)

Lemma adjacent_chain {A} (R : A -> A -> Prop) l :
  (forall a b c, R a b -> R b c -> R a c) -> (forall a b, (a, b) ∈ pairwise l -> R a b) ->
  forall i j a b, (i < j)%nat -> l !! i = Some a -> l !! j = Some b -> R a b.
Proof.
  intros Htrans Hadj i j. induction j as [|j IH]; intros a b Hij Ha Hb; [lia|].
  destruct (decide (i = j)) as [->|Hne]; [apply Hadj; by eapply pairwise_lookup|].
  assert (exists c, l !! j = Some c) as [c Hc]; [apply lookup_lt_is_Some; apply lookup_lt_Some in Hb; lia|].
  apply (Htrans a c b); [apply IH; [lia|done..]|]. apply Hadj. by eapply pairwise_lookup.
Qed.

Section Order.
Variables (workflow : WorkflowPlan) (analysis : WorkflowGraphAnalysis).
Hypothesis Hvalid : has_valid_dependency_references workflow = true.
Hypothesis Hanalysis : analyze_workflow_graph workflow = Ok analysis.

Notation anc := (analysis_ancestors analysis).
Notation positions := (enumerate_order (map node_id (plan_nodes workflow))).

Definition above (id : string) : gset string := default ∅ (dget anc id).

(** A writer with its ancestors, their number and its position. *)
Definition writer_key (id : string) : string * gset string * Z * Z :=
  (id, above id, Z.of_nat (size (above id)), order_of positions id).

Lemma above_spec id : id ∈ workflow_ids workflow -> dget anc id = Some (above id) /\ forall m, m ∈ above id <-> tc (depends workflow) m id.
Proof.
  intros H. destruct (analysis_ancestors_spec workflow analysis Hvalid Hanalysis id H) as (A & HA & HAm).
  unfold above. rewrite HA. done.
Qed.

Lemma upstream_id m id : tc (depends workflow) m id -> m ∈ workflow_ids workflow.
Proof.
  apply has_valid_dependency_references_spec in Hvalid as [_ Hv]. intros H. induction H as [d n H|d m n H _ _]; by eapply Hv.
Qed.

(** An ancestor has fewer ancestors. *)
Lemma above_size m id : id ∈ workflow_ids workflow -> m ∈ above id -> (size (above m) < size (above id))%nat.
Proof.
  intros Hid Hm. destruct (above_spec id Hid) as [_ Ha]. apply Ha in Hm as Hup.
  destruct (above_spec m (upstream_id _ _ Hup)) as [_ Hb]. apply subset_size. split.
  - intros x Hx. apply Hb in Hx. apply Ha. eapply tc_trans; [exact Hx | exact Hup].
  - intros Hsub. apply Hsub, Hb in Hm.
    destruct (analyze_workflow_graph_cases workflow Hvalid) as [(D & T & ws & a & _ & _ & _ & _ & _ & _ & _ & Hac)|[Ha' _]];
      [apply Hac; by exists m | congruence].
Qed.

Lemma keyed_writers ids : (forall id, id ∈ ids -> id ∈ workflow_ids workflow) ->
  mapM (M := outcome) (fun id => above ← ditem anc id; position ← ditem positions id; mret (id, above, Z.of_nat (size above), position)) ids
  = Ok (map writer_key ids).
Proof.
  induction ids as [|id ids IH]; intros Hin; simpl; [done|].
  rewrite (proj2 (ditem_Ok anc _ _) (proj1 (above_spec id (Hin id ltac:(left))))). simpl.
  assert (Hp : ditem positions id = Ok (order_of positions id)).
  { pose proof (Hin id ltac:(left)) as H. apply elem_of_dkeys_enumerate, dget_is_Some in H as [z Hz].
    unfold ditem, order_of. unfold workflow_ids in Hz. by rewrite Hz. }
  rewrite Hp. simpl. rewrite IH; [done|]. intros x Hx. apply Hin. by right.
Qed.

(** No pair is found when every neighbour is an ancestor. *)
Lemma no_unordered_pair (l : list (string * gset string * Z * Z)) :
  option_map (fun '((first, _, _, _), (second, _, _, _)) => (first, second))
    (List.find (fun '((first, _, _, _), (_, above, _, _)) => negb (bool_decide (first ∈ above))) (pairwise l)) = None <->
  forall x y, (x, y) ∈ pairwise l -> x.1.1.1 ∈ y.1.1.2.
Proof.
  destruct (List.find _ _) as [[x y]|] eqn:Hf; simpl.
  - destruct x as [[[x1 x2] x3] x4], y as [[[y1 y2] y3] y4]. split; [done|]. intros H.
    apply find_some in Hf as [Hf Hb]. apply list_elem_of_In, H in Hf. simpl in Hf. by rewrite bool_decide_eq_true_2 in Hb.
  - split; [|done]. intros _ x y Hxy. apply list_elem_of_In, (List.find_none _ _ Hf) in Hxy.
    destruct x as [[[x1 x2] x3] x4], y as [[[y1 y2] y3] y4]. apply negb_false_iff, bool_decide_eq_true in Hxy. done.
Qed.

Lemma first_pair_spec ids : NoDup ids -> (forall id, id ∈ ids -> id ∈ workflow_ids workflow) ->
  exists o, first_unordered_writer_pair ids anc positions = Ok o /\
    (o = None <-> forall a b, a ∈ ids -> b ∈ ids -> a <> b -> tc (depends workflow) a b \/ tc (depends workflow) b a).
Proof.
  intros Hnd Hin. unfold first_unordered_writer_pair. rewrite keyed_writers by done. cbn [mbind outcome_bind]. eexists. split; [reflexivity|].
  set (keyed := sort_by _ (map writer_key ids)). set (ordered := sort_by _ keyed).
  assert (Hp : ordered ≡ₚ map writer_key ids) by (unfold ordered, keyed; by rewrite !sort_by_Permutation).
  assert (Hkey : forall x, x ∈ ordered -> exists id, x = writer_key id /\ id ∈ ids) by (intros x Hx; rewrite Hp in Hx; by apply list_elem_of_fmap in Hx).
  pose proof (sort_by_sorted (fun '(_, _, count, _) => count) keyed : StronglySorted _ ordered) as Hsorted.
  rewrite no_unordered_pair. split.
  - intros Hadj a b Ha Hb Hne.
    assert (Hlook : forall id, id ∈ ids -> exists i, ordered !! i = Some (writer_key id)).
    { intros id Hid. apply list_elem_of_lookup. rewrite Hp. by apply list_elem_of_fmap_2. }
    destruct (Hlook a Ha) as [i Hi], (Hlook b Hb) as [j Hj].
    assert (Hchain : forall i j a b, (i < j)%nat -> ordered !! i = Some (writer_key a) -> ordered !! j = Some (writer_key b) ->
      tc (depends workflow) a b).
    { intros i' j' a' b' Hij Hi' Hj'. refine (adjacent_chain (fun x y => tc (depends workflow) x.1.1.1 y.1.1.1) ordered _ _ i' j' _ _ Hij Hi' Hj').
      - intros x y z Hxy Hyz. by eapply tc_trans.
      - intros x y Hxy. pose proof (Hadj x y Hxy) as Hab. apply elem_of_pairwise in Hxy as (k & Hk & Hk').
        destruct (Hkey y) as (id & -> & Hid); [by eapply list_elem_of_lookup_2|]. simpl in *. by apply (above_spec id (Hin id Hid)). }
    destruct (Nat.lt_total i j) as [Hlt|[Heq|Hlt]]; [left; by eapply Hchain| |right; by eapply Hchain].
    exfalso. subst j. rewrite Hi in Hj. by injection Hj.
  - intros Hord x y Hxy. apply elem_of_pairwise in Hxy as (k & Hk & Hk').
    destruct (Hkey x) as (a & -> & Ha); [by eapply list_elem_of_lookup_2|]. destruct (Hkey y) as (b & -> & Hb); [by eapply list_elem_of_lookup_2|].
    simpl. assert (Hne : a <> b).
    { intros ->. assert (Hd : NoDup ordered). { rewrite Hp. apply NoDup_fmap_2; [intros p q [= -> _ _ _]; done | done]. }
      assert (k = S k) by (by eapply NoDup_lookup). lia. }
    destruct (Hord a b Ha Hb Hne) as [H|H]; [by apply (above_spec b (Hin b Hb))|]. exfalso.
    apply (above_spec a (Hin a Ha)) in H. apply (above_size b a (Hin a Ha)) in H.
    assert (Hle : (size (above a) <= size (above b))%nat); [|lia].
    pose proof (StronglySorted_lookup _ _ k (S k) _ _ Hsorted ltac:(lia) Hk Hk') as Hs. unfold key_le in Hs. simpl in Hs. lia.
Qed.

End Order.

(** ** The check *)

(** Any two nodes that write one worktree are ordered by dependencies. *)
Definition writers_ordered (workflow : WorkflowPlan) : Prop :=
  forall name a b, a ∈ plan_nodes workflow -> b ∈ plan_nodes workflow ->
    writes_worktree workflow a name -> writes_worktree workflow b name -> node_id a <> node_id b ->
    tc (depends workflow) (node_id a) (node_id b) \/ tc (depends workflow) (node_id b) (node_id a).

Lemma NoDup_writer_names selections : NoDup (dkeys (lineage_writers_by_worktree selections)).
Proof.
  unfold lineage_writers_by_worktree. generalize (NoDup_nil_2 : NoDup (dkeys ([] : dict (list string)))).
  generalize ([] : dict (list string)). induction selections as [|[k s] l IH]; intros d Hd; simpl; [done|]. apply IH.
  destruct (ls_logical_worktree_name s); [|done]. destruct (ls_lineage_producer s); [by apply NoDup_dkeys_dset | done].
Qed.

Section Check.
Variables (workflow : WorkflowPlan) (analysis : WorkflowGraphAnalysis) (selections : dict LogicalWorkspaceSelection).
Hypothesis Hvalid : has_valid_dependency_references workflow = true.
Hypothesis Hanalysis : analyze_workflow_graph workflow = Ok analysis.
Hypothesis Hsel : selections_ok workflow selections.
Hypothesis Hall : forall node, node ∈ plan_nodes workflow -> runs_providers node = true -> is_Some (dget selections (node_id node)).

(** The writers of one worktree. *)
Definition chain (ids : list string) : Prop :=
  forall a b, a ∈ ids -> b ∈ ids -> a <> b -> tc (depends workflow) a b \/ tc (depends workflow) b a.

Lemma unordered_loop (entries : dict (list string)) : forall ds,
  (forall name ids, (name, ids) ∈ entries -> NoDup ids /\ forall id, id ∈ ids -> id ∈ workflow_ids workflow) ->
  Forall (fun d => wd_severity d = SeverityError) ds ->
  exists ds', for_each (fun ds '(worktree_name, node_ids) =>
      unordered_pair ← first_unordered_writer_pair node_ids (analysis_ancestors analysis)
                         (enumerate_order (map node_id (plan_nodes workflow)));
      mret (match unordered_pair with
            | None => ds
            | Some (first, second) => ds ++ [unordered_writer_diagnostic worktree_name first second]
            end)) entries ds = Ok ds' /\
    (ds' = [] <-> ds = [] /\ forall name ids, (name, ids) ∈ entries -> chain ids) /\
    Forall (fun d => wd_severity d = SeverityError) ds'.
Proof.
  induction entries as [|[name ids] entries IH]; intros ds Hin Hds.
  { exists ds. split_and!; [done| |done]. split; [|by intros [? _]]. intros ->. split; [done|]. intros n i H. by apply elem_of_nil in H. }
  destruct (Hin name ids) as [Hnd Hids]; [left|].
  destruct (first_pair_spec workflow analysis Hvalid Hanalysis ids Hnd Hids) as (o & Ho & Hchain).
  cbn [for_each]. rewrite Ho. cbn [mbind outcome_bind mret outcome_ret].
  destruct (IH (match o with None => ds | Some (first, second) => ds ++ [unordered_writer_diagnostic name first second] end))
    as (ds' & Hrun & Hiff & Hsev).
  - intros n i H. apply (Hin n i). by right.
  - destruct o as [[first second]|]; [|done]. apply Forall_app. split; [done|]. by repeat constructor.
  - exists ds'. split_and!; [exact Hrun| |done]. rewrite Hiff. destruct o as [[first second]|].
    + split; [intros [H _]; by apply app_nil in H as [_ ?]|]. intros [_ H].
      assert (Some (first, second) = None :> option (string * string)); [|done]. apply (proj2 Hchain). apply (H name). left.
    + split; intros [-> H]; (split; [done|]).
      * intros n i [[= -> ->]|Hi]%elem_of_cons; [exact (proj1 Hchain eq_refl) | by eapply H].
      * intros n i Hi. apply (H n). by right.
Qed.

Lemma unordered_writers_spec : exists ds, unordered_writer_diagnostics workflow selections = Ok ds /\
  (ds = [] <-> writers_ordered workflow) /\ Forall (fun d => wd_severity d = SeverityError) ds.
Proof.
  apply has_valid_dependency_references_spec in Hvalid as Hv. destruct Hv as [Hnodup _].
  assert (Hget : forall name ids, (name, ids) ∈ lineage_writers_by_worktree selections ->
    ids = default [] (dget (lineage_writers_by_worktree selections) name)).
  { intros name ids H. apply elem_of_dget in H; [|apply NoDup_writer_names]. by rewrite H. }
  destruct (unordered_loop (lineage_writers_by_worktree selections) []) as (ds & Hrun & Hiff & Hsev); [|constructor|].
  - intros name ids H. rewrite (Hget name ids H). split; [by eapply NoDup_writers|].
    intros id (node & Hn & <- & _)%(elem_of_writers workflow selections Hsel Hall). by apply list_elem_of_fmap_2.
  - exists ds. split_and!; [|rewrite Hiff|done].
    + unfold unordered_writer_diagnostics, ancestor_map. rewrite Hanalysis. exact Hrun.
    + split.
      * intros [_ H] name a b Ha Hb Wa Wb Hne.
        assert (Hmem : forall n, n ∈ plan_nodes workflow -> writes_worktree workflow n name ->
          node_id n ∈ default [] (dget (lineage_writers_by_worktree selections) name)).
        { intros n Hn Wn. apply (elem_of_writers workflow selections Hsel Hall). by exists n. }
        pose proof (Hmem a Ha Wa) as Ma. pose proof (Hmem b Hb Wb) as Mb.
        destruct (dget (lineage_writers_by_worktree selections) name) as [ids|] eqn:E; [|by apply elem_of_nil in Ma].
        apply (H name ids); [by apply dget_elem_of|done..].
      * intros H. split; [done|]. intros name ids Hin a b Ha Hb Hne. rewrite (Hget name ids Hin) in Ha, Hb.
        apply (elem_of_writers workflow selections Hsel Hall) in Ha as (na & Hna & <- & Wa).
        apply (elem_of_writers workflow selections Hsel Hall) in Hb as (nb & Hnb & <- & Wb). by eapply H.
Qed.

End Check.

(** ** Selections of a well-formed graph *)

Definition no_value_error {A} (o : outcome A) : Prop := match o with Raise (ValueError _) => False | _ => True end.

Lemma no_value_error_bind {A B} (o : outcome A) (k : A -> outcome B) :
  no_value_error o -> (forall a, no_value_error (k a)) -> no_value_error (o ≫= k).
Proof. intros Ho Hk. destruct o; [apply Hk | exact Ho | done]. Qed.

Lemma no_value_error_loop {A S} (step : S -> A -> outcome S) l : (forall s a, no_value_error (step s a)) ->
  forall s, no_value_error (for_each step l s).
Proof. intros H. induction l as [|a l IH]; intros s; simpl; [done|]. by apply no_value_error_bind. Qed.

Lemma no_value_error_item {V} (d : dict V) k : no_value_error (ditem d k).
Proof. unfold ditem. by destruct (dget d k). Qed.

Lemma graph_safe_Some workflow config analysis selections :
  analyze_workflow_graph workflow = Ok analysis -> graph_safe_logical_workspace_selections workflow config = Ok selections ->
  exists found, selections = Some found /\ logical_workspace_selections workflow config = Ok found.
Proof.
  intros Ha H. assert (Hno : no_value_error (logical_workspace_selections workflow config)).
  { apply no_value_error_bind.
    - apply no_value_error_loop. intros s node. case_match; [done|]. apply no_value_error_bind; [|done].
      unfold selection_for_node. case_match; [|done]. apply no_value_error_bind; [apply no_value_error_item | done].
    - intros base. unfold with_source_nodes, ancestor_map. rewrite Ha. cbn [mbind outcome_bind mret outcome_ret].
      apply no_value_error_loop. intros s node. case_match; [|done]. case_match; [done|].
      apply no_value_error_bind; [|done]. unfold latest_same_worktree_dependency, latest_lineage_source.
      apply no_value_error_bind; [|done]. apply no_value_error_loop. intros best [id count].
      apply no_value_error_bind; [apply no_value_error_item | done]. }
  unfold graph_safe_logical_workspace_selections in H.
  destruct (logical_workspace_selections workflow config) as [found|[]|]; simplify_eq; by eauto.
Qed.

(** ** The claim *)

(** C14 (safety): One mutable worktree never has two unordered writers: for a workflow whose references are valid and whose graph
    has no cycle, a workspace policy without errors means that any two nodes which run providers in the same worktree (that is not
    a snapshot) are ordered by their dependencies, so no schedule that respects dependencies runs them together; and the check, which
    compares neighbours in the order of their ancestor counts only, reports nothing when all writers are ordered.
    Definitions: collect_workspace_policy_diagnostics, workspace_policy_diagnostics, unordered_writer_diagnostics,
    first_unordered_writer_pair, lineage_writers_by_worktree, logical_workspace_selections, base_logical_workspace_selections,
    with_source_nodes, selection_for_node, graph_safe_logical_workspace_selections, ancestor_map. *)
Theorem worktree_writers_are_ordered {hash : HashLibrary} {platform : Platform} (workflow : WorkflowPlan) (config : Config)
    (analysis : WorkflowGraphAnalysis)
    (Hvalid : has_valid_dependency_references workflow = true)
    (Hgraph : analyze_workflow_graph workflow = Ok analysis) :
  (forall ds, collect_workspace_policy_diagnostics workflow config = Ok ds ->
     Forall (fun d => wd_severity d <> SeverityError) ds -> writers_ordered workflow) /\
  (forall selections, logical_workspace_selections workflow config = Ok selections -> writers_ordered workflow ->
     unordered_writer_diagnostics workflow selections = Ok []).
Proof.
  pose proof (proj1 (proj1 (has_valid_dependency_references_spec workflow) Hvalid)) as Hids. split.
  - intros ds H Hclean. unfold collect_workspace_policy_diagnostics in H. apply bind_Ok in H as (o & Hs & H).
    destruct (graph_safe_Some _ _ _ _ Hgraph Hs) as (selections & -> & Hl). apply bind_Ok in H as (policy & Hp & [= <-]).
    destruct (logical_selections_ok workflow config Hids selections Hl) as [Hok Hall].
    destruct (unordered_writers_spec workflow analysis selections Hvalid Hgraph Hok Hall) as (unordered & Hu & Hiff & Hsev).
    unfold workspace_policy_diagnostics in Hp. apply bind_Ok in Hp as (duplicates & _ & Hp).
    apply bind_Ok in Hp as (mutable & _ & Hp). apply bind_Ok in Hp as (unordered' & Hu' & [= <-]).
    rewrite Hu in Hu'. injection Hu' as <-. apply Hiff. destruct unordered as [|d unordered]; [done|]. exfalso.
    rewrite Forall_forall in Hclean. apply (Hclean d); [|by inversion Hsev]. rewrite !elem_of_app. do 7 right. left. left.
  - intros selections Hl Hord. destruct (logical_selections_ok workflow config Hids selections Hl) as [Hok Hall].
    destruct (unordered_writers_spec workflow analysis selections Hvalid Hgraph Hok Hall) as (unordered & Hu & Hiff & _).
    by rewrite Hu, (proj2 Hiff Hord).
Qed.

Section WorktreeOrderWitness.

Definition shared_worktree_node (id : string) (needs : list string) : WorkflowNode :=
  mkNode id Sequential false [] None [mkProvider "codex" None None EXECUTOR] needs None None None false None None (Some "line") None
    None None None [] [].

Definition shared_worktree_workflow : WorkflowPlan :=
  mkPlan "1.0" "shared" "" None [] [("line", mkWorktree WK_worktree None false None)]
    [shared_worktree_node "draft" []; shared_worktree_node "polish" ["draft"]].

Definition shared_worktree_config : Config :=
  mkConfig [] (mkWorkspaceSettings true "" CleanStrict []) default_TokenBudgetSettings 5 None 100.

Lemma worktree_writers_are_ordered_witness :
  tc (depends shared_worktree_workflow) "draft" "polish" \/ tc (depends shared_worktree_workflow) "polish" "draft".
Proof.
  destruct (worktree_writers_are_ordered (hash := constant_hash) (platform := {| system_name := "Linux" |})
    shared_worktree_workflow shared_worktree_config
    (match analyze_workflow_graph shared_worktree_workflow with Ok a => a | _ => mkAnalysis [] [] end)
    ltac:(vm_compute; reflexivity) ltac:(vm_compute; reflexivity)) as [H _].
  refine (H _ ltac:(vm_compute; reflexivity) _ "line" (shared_worktree_node "draft" []) (shared_worktree_node "polish" ["draft"])
    _ _ _ _ _).
  - repeat constructor; discriminate.
  - left.
  - right. left.
  - split; [reflexivity|]. eexists. split; reflexivity.
  - split; [reflexivity|]. eexists. split; reflexivity.
  - discriminate.
Defined.

End WorktreeOrderWitness.
