(* ===== verification/PreflightCompiler.v ===== *)
(** The compiler of execution plans: core/preflight/{compiler,
    execution_nodes,prompt_transport_warnings}.py, foreach/prompts.py and
    runtime_config/capture.py.

    The phases run in order and stop after one that records an error:
    validation, file, environment and variable policies, fingerprints, then the
    template plan, which is the render plans, the execution nodes and the
    dependency graph.  [CompilerServices] stands for the signature of the whole
    plan. *)

From Stdlib Require Import ZArith Lia Ascii String.
From stdpp Require Import base gmap sets list strings.
From S2P Require Import Prelude PyStr StateExn Models Graph Artifacts RunState Composition PlanRecords PlanContract.
From S2P Require Import Foreach WorkspaceSelection PreflightState PreflightFilesystem PreflightRender.
From S2P Require Import Redaction RuntimeConfig.
From S2P Require Import WorkflowValidation.

Open Scope string_scope.
Open Scope list_scope.
Open Scope Z_scope.

(** The parts of a workflow source that the compiler reads.
    Code: core/preflight/source.py, PreflightWorkflowSource. *)
Record PreflightWorkflowSource := mkSource {
  ws_workflow : WorkflowPlan;
  ws_node_source_paths : dict string;
  ws_node_source_spans : dict SourceSpan;
  ws_prompt_segment_spans : dict (list SourceSpan);
  ws_foreach_templates : dict ComposedForeach
}.

(** Code: core/preflight/models.py:93-122. *)
Record PreflightCompilationPreview := mkPreview {
  pv_workflow_name : string;
  pv_workflow_signature : option string;
  pv_execution_order : list string;
  pv_foreach_templates : list CompiledForeach;
  pv_nodes : list PreflightExecutionNode;
  pv_render_plans : list RenderPlan;
  pv_static_resources : list StaticResource;
  pv_workspace_file_locators : list WorkspaceFileLocator;
  pv_token_catalog : list TokenCatalogEntry;
  pv_dependency_graph : list CompiledEdge;
  pv_diagnostics : list PreflightDiagnostic;
  pv_value_fingerprints : list (dict string);
  pv_sensitive_values_required : bool;
  pv_fingerprint_key_persisted : bool;
  pv_persisted_key_path : option string;
  pv_secret_context : dict json;
  pv_static_file_payloads : dict string;
  pv_workspace_file_payloads : dict string
}.

(** Code: core/preflight/models.py, PreflightCompilationPreview.has_errors. *)
Definition preview_has_errors (p : PreflightCompilationPreview) : bool :=
  existsb (fun d => bool_decide (dg_severity d = SeverityError)) (pv_diagnostics p).

Class CompilerServices := {
  sign_workflow : PreflightWorkflowSource -> RuntimeConfigSnapshot -> CompileState -> list RenderPlan -> list CompiledEdge ->
    list PreflightExecutionNode -> string
}.

(** ** Collection limits (core/preflight/foreach/prompts.py) *)

(** Code: core/preflight/foreach/prompts.py, _producer_limits. *)
Definition producer_limits (workflow : WorkflowPlan) : outcome (dict Z) :=
  for_each (fun limits group =>
    match node_mode group, node_items group with
    | Foreach, Some (ItemsReference reference) =>
        '(producer, artifact) ← collection_reference reference;
        if negb (bool_decide (artifact = "findings")) then Ok limits
        else
          match node_max_items group with
          | None => Raise (OtherError "AssertionError" "")
          | Some max_items => mret (dset limits producer (Z.min (default max_items (dget limits producer)) max_items))
          end
    | _, _ => Ok limits
    end) (plan_nodes workflow) [].

(** Code: core/preflight/foreach/prompts.py, COLLECTION_CONSTRAINT_INSTRUCTION. *)
Definition collection_constraint_instruction (max_items : Z) : string :=
  lf_str +:+ lf_str +:+ "Executor findings: JSON array with at most " +:+ str_int max_items +:+ " items." +:+ lf_str.

Definition with_prompt_segments (segments : list PromptSegment) (n : WorkflowNode) : WorkflowNode :=
  mkNode (node_id n) (node_mode n) (node_findings n) segments (node_source n) (node_providers n) (node_needs n)
    (node_audit_rounds n) (node_depth n) (node_review_starts_with n) (node_continue_on_failure n) (node_failure_threshold n)
    (node_token_budget n) (node_worktree n) (node_workflow n) (node_item_input n) (node_items n) (node_max_items n)
    (node_inputs n) (node_with_params n).

(** One node of the workflow with its collection limit. *)
Definition constrain_node (limits : dict Z) (node : WorkflowNode) : WorkflowNode :=
  match dget limits (node_id node) with
  | None => node
  | Some limit =>
      with_prompt_segments (node_prompt_segments node ++ [mkSegment SEG_SHARED (collection_constraint_instruction limit)]) node
  end.

Definition with_nodes (nodes : list WorkflowNode) (p : WorkflowPlan) : WorkflowPlan :=
  mkPlan (plan_schema_version p) (plan_name p) (plan_description p) (plan_repeat_force_run_count p) (plan_inputs p)
    (plan_worktrees p) nodes.

(** Code: core/preflight/foreach/prompts.py, with_collection_constraints. *)
Definition with_collection_constraints (workflow : WorkflowPlan) : outcome WorkflowPlan :=
  limits ← producer_limits workflow;
  mret (if negb (is_cons limits) then workflow else with_nodes (map (constrain_node limits) (plan_nodes workflow)) workflow).

(** ** Execution nodes (core/preflight/execution_nodes.py) *)

Section Nodes.
Context {hash : HashLibrary} {files : PreflightFiles}.

(** Code: core/preflight/execution_nodes.py, artifact_task_id. *)
Definition artifact_task_id (provider : ProviderSpec) (index : Z) : string :=
  safe_artifact_name (provider_name provider) +:+ "_" +:+ role_value (provider_role provider) +:+ "_" +:+ str_int index.

(** [provider.model or agent.default_model].
    Code: core/preflight/execution_nodes.py, resolve_provider_model. *)
Definition resolve_provider_model (provider : ProviderSpec) (agent_config : option AgentConfig) : option string :=
  match provider_model provider with
  | Some model => if nonempty model then Some model else agent_config ≫= ag_default_model
  | None => agent_config ≫= ag_default_model
  end.

(** Code: core/preflight/execution_nodes.py, agent_config_signature. *)
Definition agent_config_signature (agent_config_key : string) (snapshot : RuntimeConfigSnapshot)
    (resolved_model : option string) : string :=
  signature_for_payload (runtime_agent_signature_payload agent_config_key (dget (sn_agents snapshot) agent_config_key) resolved_model).

(** The loop over the providers, with the index of the next executor and of the
    next reviewer. *)
Fixpoint provider_records_from (executors reviewers : Z) (providers : list ProviderSpec) (config : Config)
    (snapshot : RuntimeConfigSnapshot) : list ProviderRecord :=
  match providers with
  | [] => []
  | provider :: rest =>
      let is_executor := bool_decide (provider_role provider = EXECUTOR) in
      let role_index := if is_executor then executors else reviewers in
      let resolved_model := resolve_provider_model provider (dget (cg_agents config) (provider_name provider)) in
      mkProviderRecord (provider_name provider) (provider_role provider) resolved_model (provider_reasoning provider)
        (artifact_task_id provider role_index) (provider_name provider) (ic_implementation (sn_invoker snapshot))
        (agent_config_signature (provider_name provider) snapshot resolved_model)
        (signature_for_payload (scoped_payload (sn_invoker snapshot) ["execution"; "artifact"]))
      :: provider_records_from (if is_executor then executors + 1 else executors)
           (if is_executor then reviewers else reviewers + 1) rest config snapshot
  end.

(** Code: core/preflight/execution_nodes.py, provider_records. *)
Definition provider_records (node : WorkflowNode) (config : Config) (snapshot : RuntimeConfigSnapshot) : list ProviderRecord :=
  provider_records_from 0 0 (node_providers node) config snapshot.

(** Code: core/preflight/execution_nodes.py, resolved_token_budget_payload. *)
Definition resolved_token_budget_payload (node : WorkflowNode) (config : Config) : option (option Z * option Z) :=
  if negb (runs_providers node) then None
  else
    match resolve_token_budget (Some (cg_token_budget config)) (node_token_budget node) with
    | Ok budget => Some (resolved_warn budget, resolved_fail budget)
    | _ => None
    end.

Definition at_least (bound : Z) (o : option Z) : bool := match o with Some z => bound <=? z | None => true end.

(** The field constraints of an execution policy and of its token budget. *)
Definition policy_ok (p : ExecutionPolicy) : bool :=
  at_least 1 (xp_depth p) && at_least 1 (xp_audit_rounds p) && at_least 0 (xp_failure_threshold p)
  && match xp_token_budget p with Some (warn, fail) => at_least 1 warn && at_least 1 fail | None => true end
  && at_least 1 (xp_max_concurrent_nodes p) && at_least 1 (xp_max_parallel_invocations p).

(** Code: core/preflight/execution_nodes.py:46-69. *)
Definition compiled_policy (node : WorkflowNode) (config : Config) (snapshot : RuntimeConfigSnapshot) : outcome ExecutionPolicy :=
  let uses_review_loop := bool_decide (node_mode node = Sequential)
    && existsb (fun provider => bool_decide (provider_role provider = REVIEWER)) (node_providers node) in
  let policy := mkPolicy (node_depth node) (node_audit_rounds node) (review_starts_with node) (node_continue_on_failure node)
    (node_failure_threshold node) (resolved_token_budget_payload node config)
    (if uses_review_loop then Some (ex_consensus (sn_execution snapshot)) else None) (ex_max_concurrent_nodes (sn_execution snapshot))
    (ex_max_parallel_invocations (sn_execution snapshot)) in
  _ ← fields "ExecutionPolicy" (policy_ok policy); mret policy.

(** [except ValueError as exc: append_diagnostic(..., str(exc))]. *)
Definition diagnose_value_error (c : PreflightDiagnosticCode) (phase : PreflightDiagnosticPhase) (node : option string)
    (o : outcome unit) : M CompileState unit :=
  match o with
  | Raise (ValueError message) => append_diagnostic c phase message node None SeverityError
  | _ => lift o
  end.

(** Code: core/preflight/execution_nodes.py, compile_execution_node. *)
Definition compile_execution_node (node : WorkflowNode) (config : Config) (snapshot : RuntimeConfigSnapshot)
    (options : PreflightCompileOptions) (render_plan : option RenderPlan)
    (workspace_policy : option WorkspaceSelectionRecord) : M CompileState PreflightExecutionNode :=
  policy ← lift (compiled_policy node config snapshot);
  contract ← lift (artifact_contract_for_node (node_id node) (node_findings node));
  content_refs ← read cs_input_content_refs;
  locator_ids ← read cs_input_workspace_file_locator_ids;
  let compiled := mkExecNode (node_id node) (module_id node options) (source_file node options)
    (Some (source_root node options)) (node_source_span node options) (node_mode node) (node_findings node) (node_needs node)
    (rp_render_plan_id <$> render_plan) (provider_records node config snapshot) policy workspace_policy contract None
    (str_in (node_id node) (po_item_input_ids options)) (dget content_refs (node_id node)) (dget locator_ids (node_id node)) in
  lift (validate_mode_payload compiled);;
  diagnose_value_error PREFLIGHT_VALIDATION PhaseNodePolicy (Some (node_id node)) (validate_invocation_names compiled);;
  ret compiled.

Definition with_dependencies (deps : list string) (n : PreflightExecutionNode) : PreflightExecutionNode :=
  mkExecNode (en_id n) (en_module_id n) (en_source_file n) (en_source_root n) (en_source_span n) (en_mode n) (en_findings n)
    deps (en_render_plan_id n) (en_provider_records n) (en_execution_policy n) (en_workspace_policy n) (en_artifact_contract n)
    (en_expansion n) (en_input_item_slot n) (en_input_content_ref n) (en_input_workspace_file_locator_id n).

(** [dependencies_by_node[node_id]] after the loop over the edges. *)
Definition graph_sources (dependency_graph : list CompiledEdge) (node : string) : gset string :=
  list_to_set (map de_source_node (List.filter (fun e => bool_decide (de_target_node e = node)) dependency_graph)).

(** Code: core/preflight/execution_nodes.py, nodes_with_graph_dependencies. *)
Definition nodes_with_graph_dependencies (nodes : list PreflightExecutionNode) (dependency_graph : list CompiledEdge)
    : list PreflightExecutionNode :=
  let node_order := enumerate_order (map en_id nodes) in
  map (fun node => with_dependencies
    (sort_by (fun dependency => default (Z.of_nat (length node_order)) (dget node_order dependency))
       (elements (graph_sources dependency_graph (en_id node)))) node) nodes.

End Nodes.

(** ** Fingerprints of the runtime configuration (runtime_config/capture.py) *)

(** Code: core/preflight/runtime_config/capture.py, _sensitive_path_is_effective. *)
Definition sensitive_path_is_effective (path : string) (setup_profiles configured_setup_profiles agent_names
    configured_agent_names : list string) : bool :=
  let owned owner names := match owner with Some name => str_in name names | None => false end in
  if str_startswith "agents." path then owned (matched_sensitive_path_owner path "agents." configured_agent_names ".") agent_names
  else if str_startswith "workspace.setup_profiles." path then
    owned (matched_sensitive_path_owner path "workspace.setup_profiles." configured_setup_profiles ".run.") setup_profiles
  else true.

(** Code: core/preflight/runtime_config/capture.py, _selected_agent_names. *)
Definition selected_agent_names (workflow : WorkflowPlan) : list string :=
  concat (map (fun node => map provider_name (node_providers node))
            (List.filter (fun node => negb (bool_decide (node_mode node = InputMode))) (plan_nodes workflow))).

(** Code: core/preflight/runtime_config/capture.py, _selected_workspace_setup_profiles. *)
Definition selected_workspace_setup_profiles (workflow : WorkflowPlan) (config : Config) : outcome (list string) :=
  selections ← (logical_workspace_selections workflow config : outcome (dict LogicalWorkspaceSelection));
  mret (omap (fun '(_, selection) => if ls_enabled selection then ls_setup_profile selection else None)
          (selections : list (string * LogicalWorkspaceSelection))).

(** Code: core/preflight/runtime_config/capture.py, runtime_snapshot_with_effective_sensitive_paths.._effective_sensitive_config_paths. *)
Definition runtime_snapshot_with_effective_sensitive_paths (workflow : WorkflowPlan) (config : Config)
    (snapshot : RuntimeConfigSnapshot) : outcome RuntimeConfigSnapshot :=
  setup_profiles ← selected_workspace_setup_profiles workflow config;
  mret (with_sensitive_paths
    (List.filter (fun path => sensitive_path_is_effective path setup_profiles (configured_workspace_setup_profiles snapshot)
                                (selected_agent_names workflow) (dkeys (sn_raw_agents snapshot)))
       (sn_sensitive_config_paths snapshot)) snapshot).

Section Compiler.
Context {hash : HashLibrary} {files : PreflightFiles} {hmac : HmacLibrary} {platform : Platform}
  {host : CacheHost} {services : CompilerServices}.

(** Code: core/preflight/runtime_config/capture.py, _capture_runtime_config_secrets. *)
Definition capture_runtime_config_secrets (snapshot : RuntimeConfigSnapshot) : M CompileState unit :=
  for_all (fun path =>
    found ← lift (raw_runtime_config_value snapshot path);
    match found with
    | None => ret tt
    | Some value => put_config_value (config_value_handle path) value
    end) (sn_sensitive_config_paths snapshot).

(** Code: core/preflight/runtime_config/capture.py, _fingerprinted_runtime_snapshot. *)
Definition fingerprinted_runtime_snapshot (snapshot : RuntimeConfigSnapshot) (options : PreflightCompileOptions)
    : M CompileState RuntimeConfigSnapshot :=
  if negb (is_cons (sn_sensitive_config_paths snapshot))
  then lift (with_sensitive_config_fingerprints snapshot None)
  else
    modify (on_sensitive_values_required (fun _ => true));;
    load_fingerprint_key_if_needed options;;
    key ← read cs_fingerprint_key;
    match key with
    | None => ret snapshot
    | Some key => lift (with_sensitive_config_fingerprints snapshot (Some key))
    end.

(** Code: core/preflight/runtime_config/capture.py, finalize_fingerprints. *)
Definition finalize_fingerprints (snapshot : RuntimeConfigSnapshot) (options : PreflightCompileOptions)
    : M CompileState RuntimeConfigSnapshot :=
  fingerprinted ← fingerprinted_runtime_snapshot snapshot options;
  failed ← read has_errors;
  if failed : bool then ret fingerprinted
  else
    load_fingerprint_key_if_needed options;;
    failed ← read has_errors;
    if failed : bool then ret fingerprinted
    else
      backfill_value_fingerprints;;
      capture_runtime_config_secrets fingerprinted;;
      ret fingerprinted.

(** ** The phases (core/preflight/compiler.py) *)

(** Code: core/preflight/prompt_transport_warnings.py, collect_prompt_transport_warnings..append_prompt_transport_warning. *)
Definition collect_prompt_transport_warnings (config : Config) : M CompileState unit :=
  for_all (fun '(agent_key, agent) =>
    if negb (bool_decide (ag_prompt_transport agent = "argv")) then ret tt
    else append_diagnostic PROVIDER_CONFIG PhaseProvider
           ("Agent " +:+ quoted agent_key +:+ " uses argv prompt transport for rendered prompts. "
            +:+ "This may expose prompt contents in process arguments.") None None SeverityWarning) (cg_agents config).

(** Code: core/preflight/workspace/snapshot_guard.py, append_missing_workspace_snapshot_diagnostic. *)
Definition append_missing_workspace_snapshot_diagnostic (workflow : WorkflowPlan) (config : Config)
    (options : PreflightCompileOptions) : M CompileState unit :=
  if negb (cw_enabled (cg_workspace config)) then ret tt
  else
    selected ← lift (workflow_has_selected_managed_workspaces workflow config);
    if negb selected || is_some (po_workspace_source_snapshot options) then ret tt
    else
      failed ← read has_errors;
      if failed : bool then ret tt
      else append_diagnostic WORKSPACE_GIT_CONTRACT PhaseWorktreeContract
             ("Workspace-enabled preflight requires a trusted workspace source snapshot from the CLI source gate before "
              +:+ "compiling workspace locators or execution identity.") None None SeverityError.

(** Code: core/preflight/compiler.py, _collect_validation_diagnostics. *)
Definition collect_validation_diagnostics (workflow : WorkflowPlan) (config : Config) (options : PreflightCompileOptions)
    : M CompileState unit :=
  references ← lift (collect_preflight_workflow_reference_diagnostics workflow);
  extend_diagnostics references;;
  providers ← lift (collect_preflight_provider_reference_diagnostics workflow config);
  extend_diagnostics providers;;
  policies ← lift (collect_preflight_policy_diagnostics workflow config);
  extend_diagnostics policies;;
  extend_diagnostics (po_additional_diagnostics options);;
  append_missing_workspace_snapshot_diagnostic workflow config options;;
  for_all (fun message => append_diagnostic PROVIDER_CLI PhaseValidation message None None SeverityError)
    (po_additional_validation_errors options);;
  for_all (fun message => append_diagnostic PROVIDER_CLI PhaseValidation message None None SeverityWarning)
    (po_additional_validation_warnings options).

(** Code: core/preflight/compiler.py, _execution_order. *)
Definition execution_order (workflow : WorkflowPlan) : M CompileState (list string) :=
  match topological_waves workflow with
  | Ok waves => ret (concat waves)
  | Raise (ValueError message) =>
      append_diagnostic DAG PhaseReference message None None SeverityError;;
      ret (map node_id (plan_nodes workflow))
  | Raise e => raise e
  | OutOfFuel => lift OutOfFuel
  end.

(** One node of the loop of [_compile_template_plan].
    Code: core/preflight/compiler.py:248-273. *)
Definition compile_node (config : Config) (snapshot : RuntimeConfigSnapshot) (options : PreflightCompileOptions)
    (workspace_records : dict WorkspaceSelectionRecord) (node : WorkflowNode)
    : M CompileState (option RenderPlan * PreflightExecutionNode) :=
  for_all (fun dependency => append_dependency_edge dependency (node_id node) None None) (node_needs node);;
  match node_mode node, node_items node with
  | Foreach, Some (ItemsReference reference) =>
      '(producer, artifact) ← lift (collection_reference reference);
      append_dependency_edge producer (node_id node) (Some artifact) None
  | _, _ => ret tt
  end;;
  render_plan ← compile_render_plan node options;
  compiled ← compile_execution_node node config snapshot options render_plan (dget workspace_records (node_id node));
  ret (render_plan, compiled).

(** Code: core/preflight/compiler.py, _compile_template_plan. *)
Definition compile_template_plan (workflow : WorkflowPlan) (config : Config) (snapshot : RuntimeConfigSnapshot)
    (options : PreflightCompileOptions)
    : M CompileState (list RenderPlan * list PreflightExecutionNode * list CompiledEdge) :=
  workflow ← lift (with_collection_constraints workflow);
  workspace_records ← lift (workspace_policy_records workflow config (rw_setup_profiles (sn_workspace snapshot)));
  compiled ← map_all (compile_node config snapshot options workspace_records) (plan_nodes workflow);
  dependency_graph ← read cs_dependency_edges;
  ret (omap fst compiled, nodes_with_graph_dependencies (map snd compiled) dependency_graph, dependency_graph).

(** Code: core/preflight/compiler.py, _build_preview. *)
Definition build_preview (source : PreflightWorkflowSource) (options : PreflightCompileOptions) (order : list string)
    (nodes : list PreflightExecutionNode) (render_plans : list RenderPlan) (dependency_graph : list CompiledEdge)
    (signature : option string) (s : CompileState) : PreflightCompilationPreview :=
  mkPreview (plan_name (ws_workflow source)) signature order [] nodes render_plans (cs_static_resources s)
    (cs_workspace_file_locators s) (cs_token_catalog s) dependency_graph (cs_diagnostics s) (persisted_value_fingerprints s)
    (cs_sensitive_values_required s) (cs_fingerprint_key_persisted s)
    (if cs_sensitive_values_required s && cs_fingerprint_key_persisted s
     then Some (path_join (path_join (po_state_dir options) "preflight") "fingerprint.key") else None)
    (cs_secret_context s) (cs_static_payloads s) (cs_workspace_file_payloads s).

(** [if has_errors(state): return _build_preview(...)], else [next]. *)
Definition stop_on_errors (early : M CompileState PreflightCompilationPreview) (next : M CompileState PreflightCompilationPreview)
    : M CompileState PreflightCompilationPreview :=
  failed ← read has_errors; if failed : bool then early else next.

(** [variables.update(runtime_variables)]. *)
Definition dict_update {V} (d e : dict V) : dict V := foldl (fun d '(k, v) => dset d k v) d e.

(** Code: core/preflight/variables.py, build_builtin_template_variables. *)
Definition build_builtin_template_variables (root : string) : dict string := [("project_name", path_name (resolve root))].

(** Code: core/preflight/compiler.py, _compile_preflight_inventory. *)
Definition compile_preflight_inventory (source : PreflightWorkflowSource) (config : Config) (snapshot : RuntimeConfigSnapshot)
    (options : PreflightCompileOptions) : M CompileState PreflightCompilationPreview :=
  let workflow := ws_workflow source in
  let options := with_source_metadata (ws_node_source_paths source) (ws_node_source_spans source)
                   (ws_prompt_segment_spans source) options in
  collect_validation_diagnostics workflow config options;;
  collect_prompt_transport_warnings config;;
  order ← execution_order workflow;
  let early := read (build_preview source options order [] [] [] None) in
  stop_on_errors early (
    let variables := dict_update (build_builtin_template_variables (po_project_root options)) (po_runtime_variables options) in
    apply_file_policy workflow options;;
    stop_on_errors early (
      apply_env_policy workflow variables options;;
      stop_on_errors early (
        apply_var_policy workflow variables options;;
        stop_on_errors early (
          snapshot ← lift (runtime_snapshot_with_effective_sensitive_paths workflow config snapshot);
          snapshot ← finalize_fingerprints snapshot options;
          stop_on_errors early (
            '(render_plans, nodes, dependency_graph) ← compile_template_plan workflow config snapshot options;
            diagnose_value_error PREFLIGHT_VALIDATION PhaseValidation None (validate_artifact_contract_uniqueness nodes);;
            stop_on_errors (read (build_preview source options order nodes render_plans dependency_graph None)) (
              let snapshot := with_effective_signature (effective_runtime_config_signature_for_plan snapshot nodes) snapshot in
              state ← read (fun s => s);
              let signature := sign_workflow source snapshot state render_plans dependency_graph nodes in
              read (build_preview source options order nodes render_plans dependency_graph (Some signature)))))))).

End Compiler.
