(* ===== verification/SecretClaims.v ===== *)
(** Secrets of a configuration: they are not persisted, and they are available
    to the run. *)

From Stdlib Require Import ZArith Lia Ascii String.
From stdpp Require Import base gmap sets list strings pretty sorting.
From S2P Require Import Prelude PyStr StateExn Models Scheduler Artifacts RunState PlanRecords PlanContract Foreach ForeachSpec.
From S2P Require Import PreflightState WorkspaceSelection Redaction RedactionSpec RuntimeConfig SecretHandles PreflightCompiler.

Open Scope string_scope.
Open Scope list_scope.
Open Scope Z_scope.

(** ** Payloads of validated agents *)

(** What a field of an agent may hold. *)
Definition value_shape (field : string) (v : json) : Prop :=
  unmarked v = true /\ tidy v = true /\
  (if bool_decide (field = "environment")
   then match v with JObj e => forallb (fun '(_, v) => negb (is_container v)) e | _ => false end = true else dotless v = true).

Lemma scalars_shape l :
  forallb (fun v => negb (is_container v)) l = true ->
  forallb unmarked l = true /\ forallb tidy l = true /\ forallb dotless l = true.
Proof.
  induction l as [|v l IH]; [done|]. simpl. rewrite !andb_true_iff. intros [Hv (H1 & H2 & H3)%IH]. by destruct v.
Qed.

Lemma list_of_shape check v :
  (forall x, check x = true -> is_container x = false) -> list_of check v = true -> unmarked v = true /\ tidy v = true /\ dotless v = true.
Proof.
  intros Hc Hv. destruct v as [| | | | |l|]; try done. simpl in *. apply scalars_shape. induction l as [|x l IH]; [done|]. simpl in *.
  apply andb_true_iff in Hv as [Hx Hv]. by rewrite (Hc _ Hx), IH.
Qed.

Lemma scalar_shape v : is_container v = false -> unmarked v = true /\ tidy v = true /\ dotless v = true.
Proof. by destruct v. Qed.

(** An object of scalars without commands. *)
Lemma object_shape e :
  NoDup (dkeys e) -> forallb (fun '(_, v) => negb (is_container v)) e = true -> dget e "redacted" <> Some (JBool true) ->
  unmarked (JObj e) = true /\ tidy (JObj e) = true.
Proof.
  intros Hnd He Hr. cbn [unmarked tidy]. rewrite bool_decide_false, bool_decide_true by done. simpl.
  assert (Hall : Forall (fun kv => is_container (snd kv) = false) e).
  { rewrite forallb_forall in He. apply Forall_forall. intros [k v] Hk. apply list_elem_of_In in Hk. specialize (He _ Hk). by destruct v. }
  assert (Hflag : ends_with_flag e = false).
  { unfold ends_with_flag, command_field_boundary_secret. destruct (dget e "cli_cmd") as [c|] eqn:Hc; [|done]. apply dget_elem_of in Hc.
    rewrite Forall_forall in Hall. specialize (Hall _ Hc). by destruct c. }
  rewrite Hflag. simpl. rewrite Forall_forall in Hall.
  split; apply forallb_forall; intros [k v] Hk; apply list_elem_of_In in Hk; specialize (Hall _ Hk); by destruct v.
Qed.

Lemma checked_Some check v w : checked check v = Some w -> w = v /\ check v = true.
Proof. unfold checked. by destruct (check v); intros [= <-]. Qed.

Lemma pricing_shape v w : validate_pricing v = Some w -> unmarked w = true /\ tidy w = true /\ dotless w = true.
Proof.
  unfold validate_pricing. destruct v as [| | | | | |given]; try done. cbv zeta. set (configured := List.filter _ _).
  destruct (_ && _ && _) eqn:Hc; [|done]. intros [= <-]. apply andb_true_iff in Hc as [Hc _]. apply andb_true_iff in Hc as [_ Hc].
  assert (Hkeys : forall k v, (k, v) ∈ configured -> k ∈ PRICING_FIELDS).
  { intros k v Hin. unfold configured in Hin. apply elem_of_filter_true in Hin as [Hin _]. apply list_elem_of_fmap in Hin as (b & [= -> _] & Hb). done. }
  assert (Hnd : NoDup (dkeys configured)).
  { unfold configured, dkeys. apply NoDup_map_fst_filter. rewrite map_map. change (NoDup PRICING_FIELDS). apply (@bool_decide_unpack _ (NoDup_dec _)). by vm_compute. }
  assert (Hsc : forallb (fun '(_, v) => negb (is_container v)) configured = true).
  { rewrite forallb_forall in *. intros [k v] Hin. specialize (Hc _ Hin). by destruct v. }
  assert (Hr : dget configured "redacted" <> Some (JBool true)).
  { intros Hr. apply dget_elem_of, Hkeys in Hr. revert Hr. by apply (@bool_decide_unpack _ (not_dec _)). }
  destruct (object_shape configured Hnd Hsc Hr) as [H1 H2]. split_and!; [done..|]. cbn [dotless]. apply andb_true_iff. split.
  - apply forallb_forall. intros k Hk. apply list_elem_of_In in Hk. unfold dkeys in Hk. apply list_elem_of_fmap in Hk as ([k' v] & -> & Hk).
    apply Hkeys in Hk. revert Hk. generalize k'. clear. apply (proj1 (Forall_forall _ _)). by repeat constructor.
  - apply forallb_forall. intros [k v] Hk. rewrite forallb_forall in Hsc. specialize (Hsc _ Hk). by destruct v.
Qed.

Lemma or_null_scalar check v : (forall x, check x = true -> is_container x = false) -> or_null check v = true -> is_container v = false.
Proof. intros Hc Hv. unfold or_null, not_null in Hv. case_bool_decide; [by subst | by apply Hc]. Qed.

Lemma environment_shape v : validate_agent_environment v = true -> tidy v = true -> value_shape "environment" v.
Proof.
  intros Hv Ht. destruct v as [| | | | | |e]; try done. cbn [tidy] in Ht. rewrite !andb_true_iff, bool_decide_eq_true in Ht. destruct Ht as [[Hnd _] _].
  assert (Hs : forall k x, (k, x) ∈ e -> is_str x = true).
  { intros k x Hk. simpl in Hv. rewrite forallb_forall in Hv. apply list_elem_of_In in Hk. specialize (Hv _ Hk). cbn iota beta in Hv.
    by destruct x; rewrite ?andb_false_r in Hv. }
  assert (Hsc : forallb (fun '(_, v) => negb (is_container v)) e = true).
  { apply forallb_forall. intros [k x] Hk. apply list_elem_of_In, Hs in Hk. by destruct x. }
  destruct (object_shape e Hnd Hsc) as [H1 H2]; [by intros H%dget_elem_of%Hs|]. by split_and!.
Qed.

(** The values an agent field accepts, or starts with. *)
Lemma agent_field_shape field v :
  field ∈ AGENT_CONFIG_FIELDS -> (fd_default field = Some v \/ exists v0, tidy v0 = true /\ fd_check field v0 = Some v) ->
  value_shape (fd_name field) v.
Proof.
  assert (Hst : forall x, is_str x = true -> is_container x = false) by (by intros []).
  assert (Htok : forall x, token_ok x = true -> is_container x = false) by (by intros []).
  assert (Hcode : forall x, exit_code_ok x = true -> is_container x = false) by (by intros []).
  assert (Hint : forall n x, int_at_least n x = true -> is_container x = false) by (by intros n []).
  assert (Hpos : forall x, positive_float x = true -> is_container x = false) by (by intros []).
  assert (Hnon : forall x, nonnegative_float x = true -> is_container x = false) by (by intros []).
  intros Hf [Hd|(v0 & Ht & Hc)]; unfold AGENT_CONFIG_FIELDS in Hf; repeat (apply elem_of_cons in Hf as [->|Hf]);
    try (by apply not_elem_of_nil in Hf); simpl in *; try (injection Hd as <-; by split_and!).
  all: try discriminate Hd.
  all: try (apply checked_Some in Hc as [-> Hc]).
  all: try (apply andb_true_iff in Hc as [Hc _]).
  all: unfold value_shape; simpl.
  all: try (by eapply list_of_shape; [|exact Hc]).
  all: try (apply scalar_shape; first [by destruct v0 | eapply or_null_scalar; [|exact Hc]; eauto]).
  - by apply environment_shape.
  - unfold validate_prompt_transport in Hc. destruct v0; try done. cbv zeta in Hc. by case_match; simplify_eq.
  - by eapply pricing_shape.
Qed.

Definition agent_entry (k : string) (v : json) : Prop := k ∈ map fd_name AGENT_CONFIG_FIELDS /\ value_shape k v.

Definition agent_payload_ok (d : dict json) : Prop := NoDup (dkeys d) /\ forall k v, (k, v) ∈ d -> agent_entry k v.

Lemma model_validate_Ok cls fields p m : model_validate cls fields p = Ok m ->
  exists given values, p = JObj given /\ mapM (validate_field cls given) fields = Ok values /\
    m = mkModel values (List.filter (dmem given) (map fd_name fields)).
Proof.
  destruct p as [| | | | | |given]; try done. cbn [model_validate]. destruct (forallb _ _); [|done]. intros (values & Hv & Hm)%bind_Ok.
  injection Hm as <-. eauto.
Qed.

Lemma validate_agent_Ok p m : validate_agent_config p = Ok m -> model_validate "AgentConfig" AGENT_CONFIG_FIELDS p = Ok m.
Proof.
  unfold validate_agent_config. generalize AGENT_CONFIG_FIELDS. intros fields (m' & Hm & H)%bind_Ok. destruct (_ && _); [done|].
  by injection H as <-.
Qed.

Lemma agent_values_ok p m : tidy p = true -> validate_agent_config p = Ok m ->
  agent_payload_ok (md_values m) /\ dkeys (md_values m) = map fd_name AGENT_CONFIG_FIELDS /\
  (forall k, k ∈ md_fields_set m -> k ∈ map fd_name AGENT_CONFIG_FIELDS).
Proof.
  intros Ht H. apply validate_agent_Ok, model_validate_Ok in H as (given & values & -> & Hv & ->). cbn [md_values md_fields_set].
  assert (Hgiven : forall k v, dget given k = Some v -> tidy v = true).
  { intros k v Hk. cbn [tidy] in Ht. rewrite !andb_true_iff, !forallb_forall in Ht. destruct Ht as [_ Ht]. apply dget_elem_of, list_elem_of_In in Hk. apply (Ht _ Hk). }
  assert (Hall : forall fields, (forall field, field ∈ fields -> field ∈ AGENT_CONFIG_FIELDS) -> forall values,
            mapM (validate_field "AgentConfig" given) fields = Ok values ->
            dkeys values = map fd_name fields /\ forall k v, (k, v) ∈ values -> agent_entry k v).
  { clear Hv values. induction fields as [|field fields IH]; intros Hsub values Hv; [injection Hv as <-; split; [done|]; intros k v Hk; by apply not_elem_of_nil in Hk|].
    simpl in Hv. apply bind_Ok in Hv as ([k v] & Hf & Hv). apply bind_Ok in Hv as (rest & Hr & Hv). injection Hv as <-.
    destruct (IH (fun x Hx => Hsub x ltac:(by right)) _ Hr) as [Hk Hval]. pose proof (Hsub field ltac:(left)) as Hin.
    assert (Hkv : k = fd_name field /\ value_shape (fd_name field) v).
    { unfold validate_field in Hf. destruct (dget given (fd_name field)) as [v0|] eqn:Hg.
      - destruct (fd_check field v0) as [v1|] eqn:Hc; [|done]. injection Hf as <- <-. split; [done|].
        apply agent_field_shape; [done|]. right. exists v0. split; [by apply Hgiven in Hg | done].
      - destruct (fd_default field) as [d|] eqn:Hd; [|done]. injection Hf as <- <-. split; [done|]. apply agent_field_shape; [done|]. by left. }
    destruct Hkv as [-> Hkv]. unfold dkeys in *. simpl. rewrite Hk. split; [done|]. intros k' v' [[= -> ->]|Hin']%elem_of_cons; [|by apply Hval].
    split; [by apply list_elem_of_fmap_2 | done]. }
  destruct (Hall _ (fun x Hx => Hx) _ Hv) as [Hk Hval]. split_and!; [|done|].
  - split; [|done]. rewrite Hk. apply (@bool_decide_unpack _ (NoDup_dec _)). by vm_compute.
  - intros k [Hin _]%elem_of_filter_true. done.
Qed.

Lemma agent_payload_dset d k v : agent_payload_ok d -> agent_entry k v -> agent_payload_ok (dset d k v).
Proof.
  intros [Hnd Hd] Hk. split; [by apply NoDup_dkeys_dset|]. intros k' v' Hin. apply elem_of_dget in Hin; [|by apply NoDup_dkeys_dset].
  rewrite dget_dset in Hin. case_decide; [by simplify_eq|]. apply dget_elem_of in Hin. by apply Hd.
Qed.

Lemma agent_payload_ddel d k : agent_payload_ok d -> agent_payload_ok (ddel d k).
Proof.
  intros [Hnd Hd]. split; [by apply NoDup_dkeys_ddel|]. intros k' v' Hin. apply elem_of_dget in Hin; [|by apply NoDup_dkeys_ddel].
  destruct (decide (k = k')) as [<-|Hne]; [by rewrite dget_ddel_eq in Hin|]. rewrite dget_ddel_ne in Hin by done.
  apply Hd. by apply dget_elem_of.
Qed.

Lemma agent_input_payload_ok p m : tidy p = true -> validate_agent_config p = Ok m -> agent_payload_ok (agent_config_input_payload m).
Proof.
  intros Ht Hm. destruct (agent_values_ok _ _ Ht Hm) as ([Hnd Hval] & Hk & Hset).
  unfold agent_config_input_payload, model_payload_preserving_non_default_nulls. cbv zeta.
  assert (Hdump : agent_payload_ok (dump_given m)).
  { split; [by apply NoDup_map_fst_filter|]. intros k v [Hin _]%elem_of_filter_true. by apply Hval. }
  assert (Hstart : agent_payload_ok (if bool_decide (dget (dump_given m) "environment" = Some (JObj [])) then ddel (dump_given m) "environment" else dump_given m)).
  { case_bool_decide; [by apply agent_payload_ddel | done]. }
  revert Hstart. generalize (if bool_decide (dget (dump_given m) "environment" = Some (JObj [])) then ddel (dump_given m) "environment" else dump_given m).
  assert (Hs : forall k, k ∈ sorted_str (md_fields_set m) -> k ∈ map fd_name AGENT_CONFIG_FIELDS) by (intros k Hin; apply Hset; by apply elem_of_sorted_str).
  revert Hs. generalize (sorted_str (md_fields_set m)). intros names. induction names as [|n names IH]; intros Hs d Hd; [done|]. simpl.
  apply IH; [intros; apply Hs; by right|]. destruct (_ && _) eqn:Hb; [|done]. apply agent_payload_dset; [done|]. split; [apply Hs; left|].
  apply andb_true_iff in Hb as [Hb _]. unfold not_null in Hb. rewrite negb_involutive, bool_decide_eq_true in Hb.
  assert (Hin : n ∈ dkeys (md_values m)) by (rewrite Hk; apply Hs; left). apply dget_is_Some in Hin as [v Hv].
  unfold model_value in Hb. rewrite Hv in Hb. simpl in Hb. subst v. apply dget_elem_of, Hval in Hv. apply Hv.
Qed.

(** The agents of a configuration come from payloads with distinct keys, under
    distinct names. *)
Definition agents_valid (config : RunConfig) : Prop :=
  NoDup (dkeys (cf_agents config)) /\
  forall name m, (name, m) ∈ cf_agents config -> exists p, tidy p = true /\ validate_agent_config p = Ok m.

Lemma agent_field_names k : k ∈ map fd_name AGENT_CONFIG_FIELDS -> no_dot k = true /\ k <> "redacted".
Proof.
  revert k. apply Forall_forall.
  assert (H : forallb (fun k => no_dot k && negb (bool_decide (k = "redacted"))) (map fd_name AGENT_CONFIG_FIELDS) = true) by by vm_compute.
  rewrite forallb_forall in H. apply Forall_forall. intros k Hk. apply list_elem_of_In, H in Hk. apply andb_true_iff in Hk as [H1 H2].
  split; [done|]. by apply negb_true_iff, bool_decide_eq_false in H2.
Qed.

Lemma agent_payload_shape d : agent_payload_ok d -> agent_shape (JObj d) = true /\ tidy (JObj d) = true /\ unmarked (JObj d) = true.
Proof.
  intros [Hnd Hd]. cbn [agent_shape tidy unmarked]. rewrite (bool_decide_true (NoDup _)) by done.
  assert (Hkeys : forallb no_dot (dkeys d) = true).
  { apply forallb_forall. intros k Hk. apply list_elem_of_In in Hk. unfold dkeys in Hk. apply list_elem_of_fmap in Hk as ([k' v] & -> & Hk).
    apply Hd in Hk as [Hk _]. by apply agent_field_names. }
  rewrite Hkeys, orb_true_r. cbn [andb]. split_and!.
  - apply forallb_forall. intros [k v] Hk. apply list_elem_of_In, Hd in Hk as [Hk (_ & _ & Hs)]. apply agent_field_names in Hk as [Hk _].
    rewrite Hk. cbn [andb]. by case_bool_decide.
  - apply forallb_forall. intros [k v] Hk. apply list_elem_of_In, Hd in Hk as [_ (_ & Ht & _)]. done.
  - apply andb_true_iff. split.
    + apply negb_true_iff, bool_decide_eq_false. intros Hr. apply dget_elem_of, Hd in Hr as [Hr _]. by apply agent_field_names in Hr as [_ Hr].
    + apply forallb_forall. intros [k v] Hk. apply list_elem_of_In, Hd in Hk as [_ (Hu & _)]. done.
Qed.

Lemma raw_agents_keys c : dkeys (raw_agents c) ≡ₚ dkeys (cf_agents c).
Proof.
  unfold raw_agents, dkeys. rewrite map_map. rewrite (map_ext _ fst) by (by intros []). unfold sorted_items. by rewrite sort_key_Permutation.
Qed.

Lemma raw_agents_shape c : agents_valid c ->
  forallb (fun '(_, v) => agent_shape v) (raw_agents c) = true /\ tidy (JObj (raw_agents c)) = true /\ unmarked (JObj (raw_agents c)) = true.
Proof.
  intros [Hnd Hv].
  assert (Hall : forall k v, (k, v) ∈ raw_agents c -> is_obj v = true /\ agent_shape v = true /\ tidy v = true /\ unmarked v = true).
  { intros k v Hk. unfold raw_agents in Hk. apply list_elem_of_fmap in Hk as ([name m] & [= -> ->] & Hk). unfold sorted_items in Hk.
    rewrite sort_key_Permutation in Hk. apply Hv in Hk as (p & Ht & Hm). split; [done|]. by apply agent_payload_shape, (agent_input_payload_ok p). }
  assert (Hflag : ends_with_flag (raw_agents c) = false).
  { unfold ends_with_flag, command_field_boundary_secret. destruct (dget _ "cli_cmd") as [v|] eqn:Hc; [|done].
    apply dget_elem_of, Hall in Hc as [Hc _]. by destruct v. }
  cbn [tidy unmarked]. rewrite Hflag, bool_decide_true by (by rewrite raw_agents_keys). cbn [andb orb negb]. split_and!.
  - apply forallb_forall. intros [k v] Hk. apply list_elem_of_In, Hall in Hk. apply Hk.
  - apply forallb_forall. intros [k v] Hk. apply list_elem_of_In, Hall in Hk. apply Hk.
  - apply andb_true_iff. split.
    + apply negb_true_iff, bool_decide_eq_false. intros Hr. by apply dget_elem_of, Hall in Hr as [Hr _].
    + apply forallb_forall. intros [k v] Hk. apply list_elem_of_In, Hall in Hk. apply Hk.
Qed.

(** ** Capturing secrets *)

Section Capture.
Context {hash : HashLibrary} {hmac : HmacLibrary}.

Lemma secret_handle_inj p q : config_value_handle p = config_value_handle q -> p = q.
Proof. unfold config_value_handle. apply app_inj_str. Qed.

Lemma capture_holds s st st' :
  capture_runtime_config_secrets s st = (Ok tt, st') ->
  forall path v, path ∈ sn_sensitive_config_paths s -> raw_runtime_config_value s path = Ok (Some v) ->
    dget (cs_secret_context st') (config_value_handle path) = Some v.
Proof.
  unfold capture_runtime_config_secrets. generalize (sn_sensitive_config_paths s). intros paths Hrun path v Hin Hraw.
  assert (Hgen : forall paths st, for_all (fun path =>
              found ← lift (raw_runtime_config_value s path);
              match found with Some value => put_config_value (config_value_handle path) value | None => ret tt end) paths st = (Ok tt, st') ->
            path ∈ paths \/ dget (cs_secret_context st) (config_value_handle path) = Some v ->
            dget (cs_secret_context st') (config_value_handle path) = Some v).
  { clear paths Hrun Hin st. induction paths as [|p paths IH]; intros st Hrun Hor.
    - injection Hrun as <-. destruct Hor as [Hor|Hor]; [by apply not_elem_of_nil in Hor | done].
    - cbn [for_all] in Hrun. unfold mbind, M_bind, bind in Hrun. unfold lift in Hrun at 1.
      destruct (raw_runtime_config_value s p) as [[x|]|e|] eqn:Hp; [| |done|done].
      + cbv beta iota in Hrun. cbn [put_config_value modify] in Hrun. unfold put_config_value, modify in Hrun. apply (IH _ Hrun). clear IH Hrun.
        destruct (decide (path ∈ paths)) as [Hin|Hin]; [by left|right]. cbn. rewrite dget_dset. case_decide as Hd.
        * apply secret_handle_inj in Hd as ->. congruence.
        * destruct Hor as [[->|Hor]%elem_of_cons|Hor]; done.
      + cbv beta iota in Hrun. apply (IH _ Hrun). destruct Hor as [[->|Hor]%elem_of_cons|Hor]; [congruence | by left | by right]. }
  apply (Hgen paths st); [|by left]. done.
Qed.

Context {host : CacheHost}.

Lemma fingerprinted_keeps_raw s key s' :
  with_sensitive_config_fingerprints s key = Ok s' ->
  sn_sensitive_config_paths s' = sn_sensitive_config_paths s /\ sn_raw_agents s' = sn_raw_agents s.
Proof.
  unfold with_sensitive_config_fingerprints. destruct (negb _); [by intros [= <-]|]. cbv zeta.
  intros ([? ?] & _ & H)%bind_Ok. apply bind_Ok in H as (? & _ & H). apply bind_Ok in H as ([? ?] & _ & H).
  apply bind_Ok in H as ([? ?] & _ & H). apply bind_Ok in H as ([? ?] & _ & H). apply bind_Ok in H as ([? ?] & _ & H).
  by injection H as <-.
Qed.

Lemma built_raw_agents c i a u options file_access s :
  build_snapshot c i a u options file_access = Ok s ->
  sn_raw_agents s = raw_agents c /\
  exists redacted ps, redact_sensitive_config (raw_agents c) ["agents"] = Ok (redacted, ps) /\
    forall p, p ∈ ps -> p ∈ sn_sensitive_config_paths s.
Proof.
  unfold build_snapshot. intros ([[ra ps] ms] & Hag & H)%bind_Ok. apply prepared_raw_agents in Hag as (-> & redacted & Hr).
  apply bind_Ok in H as ([[? ?] ?] & _ & H). do 3 apply bind_Ok in H as (? & _ & H). do 3 apply bind_Ok in H as ([? ?] & _ & H).
  injection H as <-. split; [done|]. exists redacted, ps. split; [done|]. intros p Hp. cbn. rewrite elem_of_sorted_str, elem_of_app. by left.
Qed.

Lemma agents_label p raw agents : (p, raw) ∈ secrets (JObj agents) ["agents"] None false -> tidy (JObj agents) = true ->
  str_startswith "agents." (path_label p) = true.
Proof.
  intros Hin Ht. destruct (secrets_at _ _ _ _ _ _ Hin Ht) as (q & -> & _ & _ & Hq). destruct q as [|k q]; [by specialize (Hq eq_refl)|].
  change (path_label (["agents"] ++ k :: q)) with ("agents." +:+ path_label (k :: q)). apply str_startswith_app.
Qed.

(** The path of a secret of the agents names the agent and a field of it. *)
Lemma agent_secret_path agents p raw :
  (p, raw) ∈ secrets (JObj agents) ["agents"] None false -> tidy (JObj agents) = true -> forallb (fun '(_, v) => agent_shape v) agents = true ->
  exists name k q, p = "agents" :: name :: k :: q /\ name ∈ dkeys agents.
Proof.
  intros Hin Ht Hs. cbn [secrets] in Hin. rewrite container_not_sensitive in Hin by done.
  apply elem_of_list_concat in Hin as (l & Hin & Hl). apply list_elem_of_fmap in Hl as ([name agent] & -> & Hname).
  cbn [tidy] in Ht. rewrite !andb_true_iff, !forallb_forall in Ht. destruct Ht as [_ Ht]. rewrite forallb_forall in Hs.
  apply list_elem_of_In in Hname as HnameI. specialize (Hs _ HnameI). specialize (Ht _ HnameI). cbn iota beta in Hs, Ht.
  destruct (secrets_at _ _ _ _ _ _ Hin Ht) as (q & -> & _ & _ & Hq). destruct agent; try done. specialize (Hq eq_refl).
  destruct q as [|k q]; [done|]. exists name, k, q. split; [done|]. unfold dkeys. apply list_elem_of_fmap. by eexists (name, _).
Qed.

Lemma filtered_paths workflow config s s1 :
  runtime_snapshot_with_effective_sensitive_paths workflow config s = Ok s1 ->
  sn_raw_agents s1 = sn_raw_agents s /\ exists profiles,
    sn_sensitive_config_paths s1 =
      List.filter (fun path => sensitive_path_is_effective path profiles (configured_workspace_setup_profiles s)
                                 (selected_agent_names workflow) (dkeys (sn_raw_agents s))) (sn_sensitive_config_paths s).
Proof. intros (profiles & _ & H)%bind_Ok. injection H as <-. split; [done|]. by exists profiles. Qed.

(** A secret of an agent is effective exactly when the workflow selects it. *)
Lemma agent_path_effective name k q names profiles configured selected :
  names_apart names -> name ∈ names ->
  sensitive_path_is_effective (path_label ("agents" :: name :: k :: q)) profiles configured selected names = str_in name selected.
Proof.
  intros Hap Hin. change (path_label ("agents" :: name :: k :: q)) with ("agents." +:+ name +:+ "." +:+ path_label (k :: q)).
  unfold sensitive_path_is_effective. rewrite str_startswith_app. by rewrite owner_found.
Qed.

(** Capturing touches no handle but those of the sensitive paths. *)
Lemma capture_only s st st' handle :
  capture_runtime_config_secrets s st = (Ok tt, st') ->
  (forall path, path ∈ sn_sensitive_config_paths s -> config_value_handle path <> handle) ->
  dget (cs_secret_context st') handle = dget (cs_secret_context st) handle.
Proof.
  unfold capture_runtime_config_secrets. generalize (sn_sensitive_config_paths s). intros paths. revert st.
  induction paths as [|p paths IH]; intros st Hrun Hne; [by injection Hrun as <-|].
  assert (Hp : config_value_handle p <> handle) by (apply Hne; left).
  cbn [for_all] in Hrun. unfold mbind, M_bind, bind in Hrun. unfold lift in Hrun at 1.
  destruct (raw_runtime_config_value s p) as [[x|]|e|]; [| |done|done]; cbv beta iota in Hrun.
  - cbn [put_config_value modify] in Hrun. unfold put_config_value, modify in Hrun. apply IH in Hrun; [|intros; apply Hne; by right].
    rewrite Hrun. cbn. rewrite dget_dset. by case_decide.
  - apply IH in Hrun; [done|]. intros. apply Hne. by right.
Qed.

Section Selected.
Context (c : RunConfig) (i a u : CanonicalIntegrationConfig) (options : RuntimeConfigSnapshotOptions) (file_access : option (list string)).
Context (workflow : WorkflowPlan) (config : Config) (key : option string) (s s1 s2 : RuntimeConfigSnapshot) (st st' : CompileState).
Hypothesis (Hvalid : agents_valid c) (Hapart : names_apart (dkeys (cf_agents c))).
Hypothesis (Hbuilt : build_snapshot c i a u options file_access = Ok s).
Hypothesis (Hfiltered : runtime_snapshot_with_effective_sensitive_paths workflow config s = Ok s1).
Hypothesis (Hprinted : with_sensitive_config_fingerprints s1 key = Ok s2).
Hypothesis (Hcaptured : capture_runtime_config_secrets s2 st = (Ok tt, st')).

Lemma raw_names_apart : names_apart (dkeys (raw_agents c)).
Proof. intros n m Hn Hm. rewrite raw_agents_keys in Hn, Hm. by apply Hapart. Qed.

Lemma captured_paths : sn_raw_agents s2 = raw_agents c /\ exists profiles,
  sn_sensitive_config_paths s2 =
    List.filter (fun path => sensitive_path_is_effective path profiles (configured_workspace_setup_profiles s)
                               (selected_agent_names workflow) (dkeys (raw_agents c))) (sn_sensitive_config_paths s).
Proof.
  destruct (built_raw_agents _ _ _ _ _ _ _ Hbuilt) as [Hraw _]. destruct (fingerprinted_keeps_raw _ _ _ Hprinted) as [-> ->].
  destruct (filtered_paths _ _ _ _ Hfiltered) as (-> & profiles & ->). rewrite Hraw. split; [done|]. by exists profiles.
Qed.

(** The secrets of the selected agents are in the context once they are
    captured. *)
Lemma captured_agents_hold name q raw :
  name ∈ selected_agent_names workflow -> ("agents" :: name :: q, raw) ∈ secrets (JObj (raw_agents c)) ["agents"] None false ->
  holds (cs_secret_context st') ("agents" :: name :: q, raw).
Proof.
  intros Hsel Hin. destruct captured_paths as (Hraw & profiles & Hpaths). destruct (raw_agents_shape c Hvalid) as (Hshape & Ht & _).
  destruct (built_raw_agents _ _ _ _ _ _ _ Hbuilt) as (_ & redacted & ps & Hr & Hps). unfold holds. cbn [fst snd].
  apply (capture_holds _ _ _ Hcaptured).
  - rewrite Hpaths. apply elem_of_filter_true. split.
    + apply Hps. unfold redact_sensitive_config in Hr.
      destruct (redact_is_masked None Redacted _ ["agents"] None Ht ltac:(done)) as (r & Hrun & _ & Hlabels & _).
      rewrite Hrun in Hr. cbn [mbind outcome_bind] in Hr. apply bind_Ok in Hr as (? & _ & Hr). injection Hr as _ <-.
      rewrite elem_of_sorted_str, Hlabels. unfold labels. apply list_elem_of_fmap. by exists ("agents" :: name :: q, raw).
    + destruct (agent_secret_path _ _ _ Hin Ht Hshape) as (n & k & q' & [= -> ->] & Hn).
      rewrite agent_path_effective; [by apply str_in_true | apply raw_names_apart | done].
  - unfold raw_runtime_config_value. rewrite (agents_label _ _ _ Hin Ht). f_equal. rewrite Hraw.
    apply agent_secret_found; [done..|apply raw_names_apart|done].
Qed.

(** The secrets of the other agents are not captured. *)
Lemma other_agents_kept name q raw :
  name ∉ selected_agent_names workflow -> ("agents" :: name :: q, raw) ∈ secrets (JObj (raw_agents c)) ["agents"] None false ->
  let handle := config_value_handle (path_label ("agents" :: name :: q)) in
  dget (cs_secret_context st') handle = dget (cs_secret_context st) handle.
Proof.
  intros Hsel Hin handle. destruct captured_paths as (_ & profiles & Hpaths). destruct (raw_agents_shape c Hvalid) as (Hshape & Ht & _).
  apply (capture_only _ _ _ _ Hcaptured). intros path Hp He%secret_handle_inj. subst path. rewrite Hpaths in Hp. apply elem_of_filter_true in Hp as [_ Hp].
  destruct (agent_secret_path _ _ _ Hin Ht Hshape) as (n & k & q' & [= -> ->] & Hn).
  rewrite agent_path_effective in Hp; [|apply raw_names_apart | done]. by apply str_in_true in Hp.
Qed.

(** The redacted form of a selected agent resolves to the agent. *)
Lemma selected_agent_resolves key' name raw :
  name ∈ selected_agent_names workflow -> dget (raw_agents c) name = Some raw ->
  exists w, resolve_secret_config_values (cs_secret_context st')
      (masked (mark key' Fingerprinted) raw ["agents"; name] None (bool_decide (name = "extra_args") && ends_with_flag (raw_agents c))) = Ok w /\
    sort_keys w = sort_keys raw.
Proof.
  intros Hsel Hraw. destruct (raw_agents_shape c Hvalid) as (_ & Ht & Hu). cbn [tidy unmarked] in Ht, Hu.
  rewrite !andb_true_iff, !forallb_forall in Ht, Hu. apply dget_elem_of in Hraw as Hin. apply list_elem_of_In in Hin as HinI.
  apply resolve_masked; [apply (proj2 Hu _ HinI) | apply (proj2 Ht _ HinI)|]. apply Forall_forall. intros [p v] Hp.
  destruct (secrets_under _ _ _ _ _ _ Hp) as [q ->]. apply captured_agents_hold; [done|].
  cbn [secrets]. rewrite container_not_sensitive by done. apply elem_of_list_concat. eexists. split; [exact Hp|].
  apply list_elem_of_fmap. by exists (name, raw).
Qed.

End Selected.

End Capture.

(** ** What is published *)

(** Everything that is persisted is published. *)
Lemma published_all {hash : HashLibrary} {host : CacheHost} s s' :
  published s = published s' ->
  redacted_payload s = redacted_payload s' /\
  sn_config_fingerprints s = sn_config_fingerprints s' /\
  sn_sensitive_config_paths s = sn_sensitive_config_paths s' /\
  sn_effective_signature s = sn_effective_signature s' /\
  forall nodes, effective_runtime_config_signature_for_plan s nodes = effective_runtime_config_signature_for_plan s' nodes.
Proof.
  destruct s, s'. intros Hp. injection Hp as -> -> -> -> -> -> -> -> -> -> -> -> -> ->. by split_and!.
Qed.

Lemma filtered_same workflow config s s' s1 s1' :
  published s = published s' -> dkeys (sn_raw_agents s) = dkeys (sn_raw_agents s') ->
  configured_workspace_setup_profiles s = configured_workspace_setup_profiles s' ->
  runtime_snapshot_with_effective_sensitive_paths workflow config s = Ok s1 ->
  runtime_snapshot_with_effective_sensitive_paths workflow config s' = Ok s1' -> published s1 = published s1'.
Proof.
  intros Hp Hk Hw (profiles & Hs & H)%bind_Ok (profiles' & Hs' & H')%bind_Ok. rewrite Hs in Hs'. injection Hs' as <-.
  injection H as <-. injection H' as <-. rewrite Hk, Hw. destruct s, s'. unfold published in *. simpl in *.
  injection Hp as -> -> -> -> -> -> -> -> -> -> -> -> -> ->. done.
Qed.

Lemma persisted_same {hash : HashLibrary} {host : CacheHost} h h' key key' c c' i i' a a' u u' options file_access workflow config s s' s1 s1' s2 s2' :
  configs_agree h h' key key' c c' -> integration_agree h h' key key' "invoker" i i' ->
  integration_agree h h' key key' "artifacts" a a' -> integration_agree h h' key key' "ui" u u' ->
  build_snapshot (hmac := h) c i a u options file_access = Ok s -> build_snapshot (hmac := h') c' i' a' u' options file_access = Ok s' ->
  runtime_snapshot_with_effective_sensitive_paths workflow config s = Ok s1 ->
  runtime_snapshot_with_effective_sensitive_paths workflow config s' = Ok s1' ->
  with_sensitive_config_fingerprints (hmac := h) s1 key = Ok s2 -> with_sensitive_config_fingerprints (hmac := h') s1' key' = Ok s2' ->
  published s2 = published s2'.
Proof.
  intros Hc Hi Ha Hu Hs Hs' H1 H1' H2 H2'.
  destruct (snapshots_same h h' key key' _ _ _ _ _ _ _ _ _ _ _ _ Hc Hi Ha Hu Hs Hs')
    as (Hp & Hnone & R1 & R2 & R3 & R4 & R5 & R1' & R2' & R3' & R4' & R5').
  assert (Hp1 : published s1 = published s1').
  { eapply filtered_same; [exact Hp | | | exact H1 | exact H1'].
    - rewrite R1, R1'. apply (agree_keys h h' key key' _ _ _ _ _ (ca_agents _ _ _ _ _ _ Hc)).
    - unfold configured_workspace_setup_profiles. rewrite R2, R2'. apply (profile_keys h h' key key'), Hc. }
  apply bind_Ok in H1 as (? & _ & H1), H1' as (? & _ & H1'). injection H1 as <-. injection H1' as <-.
  by apply (fingerprinted_same h h' key key' c c' i i' a a' u u' _ _ _ _ Hc Hi Ha Hu Hp1 Hnone R1 R2 R3 R4 R5 R1' R2' R3' R4' R5').
Qed.

(** The fingerprints of the secrets of the agents are recorded. *)
Lemma recorded_secrets {hash : HashLibrary} {hmac : HmacLibrary} {host : CacheHost} s s2 key agents :
  tidy (JObj agents) = true -> sn_raw_agents s = agents -> with_sensitive_config_fingerprints s key = Ok s2 -> sn_sensitive_config_paths s2 <> [] ->
  forall p secret fingerprint, (p, secret) ∈ secrets (JObj agents) ["agents"] None false ->
    config_fingerprint key (path_label p) secret = Some fingerprint -> mkFingerprint (path_label p) fingerprint ∈ sn_config_fingerprints s2.
Proof.
  intros Ht Hraw H Hpaths p secret fingerprint Hin Hf. destruct (fingerprinted_keeps_raw _ _ _ H) as [Hkeep _].
  unfold with_sensitive_config_fingerprints in H. destruct (sn_sensitive_config_paths s) as [|? ?]; [by rewrite Hkeep in Hpaths|].
  cbn [is_cons negb] in H. cbv zeta in H. rewrite Hraw in H.
  assert (Hne : agents <> []) by (intros ->; by apply not_elem_of_nil in Hin).
  replace (match agents with [] => _ | _ => _ end) with agents in H by (by destruct agents).
  apply bind_Ok in H as ([ags records] & Hags & H). do 2 apply bind_Ok in H as ([? ?] & _ & H) || apply bind_Ok in H as (? & _ & H).
  apply bind_Ok in H as ([? ?] & _ & H). apply bind_Ok in H as ([? ?] & _ & H). apply bind_Ok in H as ([? ?] & _ & H). injection H as <-.
  cbn [sn_config_fingerprints with_effective_signature with_redaction]. rewrite sort_key_Permutation. apply elem_of_app. left.
  by apply (fingerprints_recorded key Fingerprinted agents ["agents"] p secret fingerprint ags records).
Qed.

(** ** Claims *)



Module SecretExample.

#[local] Instance hash : HashLibrary := {| sha256 := fun s => s |}.
#[local] Instance hmac : HmacLibrary := {| hmac_sha256 := fun key s => key +:+ ":" +:+ str_int (Z.of_nat (String.length s)) |}.
#[local] Instance host : CacheHost := {| workspace_cache_root := fun root => default "/cache" root |}.

Definition agent_payload (token variable : string) : json :=
  JObj [("cli_cmd", JList [JStr "claude"; JStr "--token"; JStr token; JStr ("--api-key=" +:+ token)]);
        ("environment", JObj [("API.TOKEN", JStr variable); ("HOME", JStr "/home")]); ("max_retries", JInt 2)].

Definition agent (token variable : string) : Model :=
  match validate_agent_config (agent_payload token variable) with Ok m => m | _ => mkModel [] [] end.

Definition integration (token : string) : CanonicalIntegrationConfig :=
  mkIntegration "mock" "mock:Mock" [("url", JStr "u"); ("token", JStr token)] ["/token"] [] [("url", "execution")] [] false.

Definition config (token variable : string) : RunConfig :=
  mkRunConfig "1.0" [("claude", agent token variable); ("codex", agent variable token)] (mkExecution "info" 5 10000 None None ConsensusContinue (mkBudgetSettings None None))
    ["docs"] (mkWorkspace true None true "blob_exact" "strict" [("default", [["setup"; "--password"; token]])] "600.0" false 1 None None).

Definition options := mkSnapshotOptions false true.

Definition built {hmac : HmacLibrary} (token variable : string) : outcome RuntimeConfigSnapshot :=
  build_snapshot (config token variable) (integration token) (integration variable) (integration token) options None.

Definition snapshot_of (o : outcome RuntimeConfigSnapshot) : RuntimeConfigSnapshot :=
  match o with Ok s => s
  | _ => mkRuntimeSnapshot "" (cf_execution (config "" "")) [] [] (integration "") (integration "") (integration "") true true true
           default_workspace [] [] "" [] [] None None None
  end.

(** A workflow that runs claude, and configures codex only. *)
Definition workflow : WorkflowPlan :=
  mkPlan "1.0" "example" "" None [] []
    [mkNode "write" Sequential false [mkSegment SEG_SHARED "work"] None [mkProvider "claude" None None EXECUTOR] [] None None None false None
       None None None None None None [] []].

Definition settings : Config :=
  mkConfig [("claude", mkAgentConfig None "stdin"); ("codex", mkAgentConfig None "stdin")] (mkWorkspaceSettings false "" CleanStrict [])
    (mkBudgetSettings None None) 5 None 10000.

Definition effective : RuntimeConfigSnapshot :=
  snapshot_of (runtime_snapshot_with_effective_sensitive_paths workflow settings (snapshot_of (built "t1" "v1"))).

Definition fingerprinted : RuntimeConfigSnapshot := snapshot_of (with_sensitive_config_fingerprints effective (Some "key")).

Definition captured : CompileState := snd (capture_runtime_config_secrets fingerprinted empty_state).

Lemma agents_are_valid : agents_valid (config "t1" "v1").
Proof.
  split; [apply (@bool_decide_unpack _ (NoDup_dec _)); by vm_compute|].
  intros name m [[= -> ->]|[= -> ->]%list_elem_of_singleton]%elem_of_cons;
    [exists (agent_payload "t1" "v1") | exists (agent_payload "v1" "t1")]; split; vm_compute; reflexivity.
Qed.

(** Another library, under which another key gives the fingerprints of [hmac]
    and the first key. *)
Definition hmac' : HmacLibrary := {| hmac_sha256 := fun _ s => "key:" +:+ str_int (Z.of_nat (String.length s)) |}.

Ltac solve_agree := cbn [fst snd]; lazymatch goal with
  | |- Forall2 _ [] [] => constructor
  | |- Forall2 _ _ _ => constructor; [split; [done | solve_agree] | solve_agree]
  | |- agree _ _ _ _ _ _ _ (JObj _) (JObj _) => apply agree_obj; [by vm_compute | solve_agree]
  | |- agree _ _ _ _ _ _ _ (JList _) (JList _) => apply agree_list; solve_agree
  | |- agree _ _ _ _ _ _ _ _ _ => first [ apply agree_scalar; by vm_compute | apply agree_secret; by vm_compute ]
  | |- items_agree _ _ _ _ _ [] [] => apply items_nil
  | |- items_agree _ _ _ _ _ _ _ =>
      first [ apply items_secret; [by vm_compute | by vm_compute | by vm_compute | by vm_compute | solve_agree]
            | apply items_public; [by vm_compute | by vm_compute | solve_agree | by vm_compute | solve_agree] ]
  end.

Ltac evaluated t := let v := eval vm_compute in t in replace t with v by (vm_compute; reflexivity).

Lemma configs_differ_in_secrets : configs_agree hmac hmac' (Some "key") (Some "other") (config "t1" "v1") (config "t2" "v2").
Proof.
  constructor; [done..| | | |].
  - by vm_compute.
  - evaluated (raw_agents (config "t1" "v1")). evaluated (raw_agents (config "t2" "v2")). solve_agree.
  - by vm_compute.
  - evaluated (raw_workspace (cf_workspace (config "t1" "v1"))). evaluated (raw_workspace (cf_workspace (config "t2" "v2"))). solve_agree.
Qed.

Ltac solve_integration :=
  constructor; [done..|by vm_compute|]; intros ps Hps;
  vm_compute in Hps; injection Hps as <-; apply options_obj; [done|];
  constructor; [split; [done|]; by apply options_scalar|];
  constructor; [|constructor]; split; [done|]; apply options_secret; by vm_compute.

Lemma invokers_differ : integration_agree hmac hmac' (Some "key") (Some "other") "invoker" (integration "t1") (integration "t2").
Proof. solve_integration. Qed.

Lemma artifacts_differ : integration_agree hmac hmac' (Some "key") (Some "other") "artifacts" (integration "v1") (integration "v2").
Proof. solve_integration. Qed.

Lemma uis_differ : integration_agree hmac hmac' (Some "key") (Some "other") "ui" (integration "t1") (integration "t2").
Proof. solve_integration. Qed.

Definition effective' : RuntimeConfigSnapshot :=
  snapshot_of (runtime_snapshot_with_effective_sensitive_paths workflow settings (snapshot_of (built (hmac := hmac') "t2" "v2"))).

Definition fingerprinted' : RuntimeConfigSnapshot := snapshot_of (with_sensitive_config_fingerprints (hmac := hmac') effective' (Some "other")).


(** A secret with another fingerprint changes the signature. *)
Example secret_changes_signature :
  let signed token := sn_effective_signature (snapshot_of (with_sensitive_config_fingerprints
    (snapshot_of (runtime_snapshot_with_effective_sensitive_paths workflow settings (snapshot_of (built token "v1")))) (Some "key"))) in
  signed "t1" <> signed "longer".
Proof. by vm_compute. Qed.


(** An agent with a sensitive name cannot be run: every scalar of its
    configuration counts as a secret, and the snapshot accepts no redacted
    numbers. *)
Example sensitive_agent_name_rejected :
  build_snapshot (mkRunConfig "1.0" [("private-claude", agent "t" "v")] (cf_execution (config "t" "v")) [] (cf_workspace (config "t" "v")))
    (integration "t") (integration "t") (integration "t") options None
  = invalid "RuntimeAgentConfigSnapshot".
Proof. vm_compute. reflexivity. Qed.

End SecretExample.
