(* ===== verification/WorkspaceContract.v ===== *)
(** The contract of persisted workspace states
    (artifacts/workspace/state: fields, source_fields, invocation,
    ref_contracts, contracts).

    A state is a JSON object that the runtime edits while an invocation runs
    and that resumption, exports and cleanup read later.  Every reader first
    asks for the errors of the state with respect to its own operation.

    A check that looks a value up in a set raises [TypeError] on a list or an
    object, so the errors are an outcome. *)

From Stdlib Require Import ZArith Lia Ascii String.
From stdpp Require Import base gmap sets list strings pretty sorting.
From S2P Require Import Prelude PyStr StateExn Models Scheduler Artifacts RunState PlanRecords PlanContract Foreach ReviewCandidates PreflightState Redaction SecretHandles.

Open Scope string_scope.
Open Scope list_scope.
Open Scope Z_scope.

(** ** Values of records *)

(** [payload.get(key)]. *)
Definition get (payload : dict json) (key : string) : json := default JNull (dget payload key).

(** Python compares dicts without regard to order, and [True == 1]; floats are
    compared as they are written. *)
Fixpoint python_value (v : json) : json :=
  match v with
  | JBool b => JInt (if b then 1 else 0)
  | JObj f => JObj (sorted_items (map (fun '(k, c) => (k, python_value c)) f))
  | JList l => JList (map python_value l)
  | _ => v
  end.

(** [a == b]. *)
Definition json_equal (a b : json) : bool := bool_decide (python_value a = python_value b).

Definition is_text (v : json) (s : string) : bool := json_equal v (JStr s).

(** [value is None]. *)
Definition is_none (v : json) : bool := match v with JNull => true | _ => false end.

(** [value is True] and [value is False]. *)
Definition is_true (v : json) : bool := match v with JBool true => true | _ => false end.
Definition is_false (v : json) : bool := match v with JBool false => true | _ => false end.

(** [repr(value)]. *)
Fixpoint json_repr (v : json) : string :=
  match v with
  | JNull => "None"
  | JBool b => if b then "True" else "False"
  | JInt n => str_int n
  | JFloat r => r
  | JStr s => quoted s
  | JList l => "[" +:+ str_join ", " (map json_repr l) +:+ "]"
  | JObj f => "{" +:+ str_join ", " (map (fun '(k, c) => quoted k +:+ ": " +:+ json_repr c) f) +:+ "}"
  end.

(** [str(value)]. *)
Definition json_str (v : json) : string := match v with JStr s => s | _ => json_repr v end.

(** [value in {...}] for a set of strings. *)
Definition in_strings (v : json) (l : list string) : outcome bool :=
  match v with
  | JList _ => Raise (OtherError "TypeError" "unhashable type: 'list'")
  | JObj _ => Raise (OtherError "TypeError" "unhashable type: 'dict'")
  | _ => Ok (existsb (is_text v) l)
  end.

(** Code: core/value_checks.py, is_nonnegative_int. *)
Definition is_nonnegative_int (v : json) : bool := match v with JInt n => 0 <=? n | _ => false end.

(** Code: core/value_checks.py, positive_strict_int. *)
Definition positive_strict_int (v : json) : option Z :=
  match v with JInt n => if 0 <? n then Some n else None | _ => None end.

(** [is_sha256] of a value that may not be a string. *)
Definition is_sha256_value (v : json) : bool := match v with JStr s => is_sha256 s | _ => false end.

(** Code: core/workspace/git_policy.py, is_git_object_id. *)
Definition is_git_object_id (v : json) : bool :=
  match v with
  | JStr s => ((str_len s =? 40) || (str_len s =? 64)) && forallb (fun c => existsb (fun d => bool_decide (c = d)) (chars "0123456789abcdef")) (chars s)
  | _ => false
  end.

(** Code: core/workspace/git_policy.py, GIT_OBJECT_FORMAT_DIGEST_SIZES. *)
Definition GIT_OBJECT_FORMAT_DIGEST_SIZES : dict Z := [("sha1", 20); ("sha256", 32)].

(** Code: artifacts/workspace/state/fields.py, mapping_value. *)
Definition mapping_value (v : json) : dict json := match v with JObj f => f | _ => [] end.

(** Code: artifacts/workspace/state/fields.py, is_nonempty_string. *)
Definition is_nonempty_string (v : json) : bool := match v with JStr s => nonempty s | _ => false end.

(** Code: architecture/contracts/execution_status.py, TERMINAL_WORKSPACE_STATUSES. *)
Definition TERMINAL_WORKSPACE_STATUSES : list string := ["succeeded"; "failed"; "cancelled"].

(** ** Errors of a state *)

(** What a check appends to the list of errors. *)
Notation errors := (outcome (list string)).

Definition error_if (c : bool) (message : string) : errors := Ok (if c then [message] else []).

(** A check after another one. *)
Definition then_check (a b : errors) : errors := x ← a; y ← b; mret (x ++ y).
Infix "+!+" := then_check (at level 60, right associativity).

(** [for x in l: check(x)]. *)
Definition check_each {A} (check : A -> errors) (l : list A) : errors := foldr (fun x rest => check x +!+ rest) (Ok []) l.

(** [if condition: check]. *)
Definition check_when (c : bool) (check : errors) : errors := if c then check else Ok [].

(** [value not in {...}] is an error. *)
Definition error_unless_in (v : json) (l : list string) (message : string) : errors :=
  known ← in_strings v l; error_if (negb known) message.

(** ** Sources (source_fields.py) *)

(** Code: artifacts/workspace/state/source_fields.py, SOURCE_FIELDS. *)
Definition SOURCE_FIELDS : list (string * string * string) :=
  [("kind", "source_kind", "source_kind"); ("node_id", "source_node_id", "source_node_id");
   ("commit", "source_commit", "source_commit"); ("tree", "source_tree", "source_tree");
   ("candidate_sequence", "candidate_sequence", "candidate_sequence"); ("bundle_path", "source_bundle_path", "bundle_path");
   ("bundle_sha256", "source_bundle_sha256", "bundle_sha256");
   ("bundle_size_bytes", "source_bundle_size_bytes", "bundle_size_bytes"); ("bundle_ref", "source_bundle_ref", "bundle_ref")].

(** Code: artifacts/workspace/state/source_fields.py, invocation_source_payload. *)
Definition invocation_source_payload (source : dict json) : dict json :=
  omap (fun '(source_field, invocation_field, _) => (fun v => (invocation_field, v)) <$> dget source source_field) SOURCE_FIELDS.

(** Code: artifacts/workspace/state/source_fields.py, source_field_mismatches. *)
Definition source_field_mismatches (source invocation : dict json) : list string :=
  omap (fun '(source_field, invocation_field, label) =>
    if json_equal (get source source_field) (get invocation invocation_field) then None else Some label) SOURCE_FIELDS.

(** Code: artifacts/workspace/state/source_fields.py, normalized_source_descriptor. *)
Definition normalized_source_descriptor (source : dict json) : dict json :=
  map (fun '(field, _, _) => (field, get source field)) SOURCE_FIELDS.

(** Code: artifacts/workspace/state/source_fields.py, source_matches_result_fields. *)
Definition source_matches_result_fields (source result : dict json) : bool :=
  json_equal (get source "commit") (get result "result_commit") && json_equal (get source "tree") (get result "result_tree")
  && json_equal (get source "candidate_sequence") (JInt 1).

(** Code: artifacts/workspace/state/source_fields.py, source_matches_bundle_fields. *)
Definition source_matches_bundle_fields (source bundle : dict json) : bool :=
  json_equal (get source "bundle_path") (get bundle "path")
  && match get source "bundle_sha256" with JStr _ => true | _ => false end
  && json_equal (get source "bundle_sha256") (get bundle "sha256")
  && json_equal (get source "bundle_size_bytes") (get bundle "size_bytes").

Section Contract.
Context {hash : HashLibrary}.

(** ** Invocation identity (invocation.py, core/workspace/invocation_identity.py) *)

(** Code: core/workspace/invocation_identity.py, _short_slug_hash. *)
Definition short_slug_hash (value : string) : string := str_take 12 (sha256 value).

(** Code: core/workspace/invocation_identity.py, bounded_invocation_slug. *)
Definition bounded_invocation_slug (value : string) : string :=
  let edge c := is_char c "." || is_char c "-" in
  let slug := of_chars (rstrip_text edge (drop_while edge (dash_runs ref_char false (chars value)))) in
  if negb (nonempty slug) then short_slug_hash value
  else if str_len slug <=? 160 then slug
  else
    let suffix := "--" +:+ short_slug_hash value in
    let prefix := of_chars (rstrip_text edge (chars (str_take (160 - str_len suffix) slug))) in
    (if nonempty prefix then prefix else "workspace") +:+ suffix.

(** Code: core/workspace/invocation_identity.py, invocation_slug. *)
Definition invocation_slug (node_id task_id : string) (audit_round_num : option Z) (round_num : Z) : string :=
  let audit := match audit_round_num with Some n => "audit" +:+ str_int n +:+ "-" | None => "" end in
  let identity := json_dumps (JList [JStr node_id; JStr task_id; jopt JInt audit_round_num; JInt round_num]) in
  bounded_invocation_slug (node_id +:+ "-" +:+ task_id +:+ "-" +:+ audit +:+ "round" +:+ str_int round_num +:+ "--" +:+ short_slug_hash identity).

(** The first invalid field, or the slug.
    Code: artifacts/workspace/state/invocation.py, require_state_invocation_slug. *)
Definition require_state_invocation_slug (payload : dict json) : string + string :=
  match get payload "node_id", get payload "task_id", get payload "round_num", get payload "audit_round_num" with
  | JStr node_id, task_id, round_num, audit_round_num =>
      if negb (nonempty node_id) then inl "node_id"
      else
        match task_id with
        | JStr task_id =>
            if negb (nonempty task_id) then inl "task_id"
            else
              match round_num, audit_round_num with
              | JInt round_num, JNull => inr (invocation_slug node_id task_id None round_num)
              | JInt round_num, JInt audit => inr (invocation_slug node_id task_id (Some audit) round_num)
              | JInt _, _ => inl "audit_round_num"
              | _, _ => inl "round_num"
              end
        | _ => inl "task_id"
        end
  | _, _, _, _ => inl "node_id"
  end.

(** Code: artifacts/workspace/state/invocation.py, state_invocation_slug. *)
Definition state_invocation_slug (payload : dict json) : option string :=
  match require_state_invocation_slug payload with inr slug => Some slug | inl _ => None end.

(** Code: core/workspace/naming.py, result_ref_names. *)
Definition result_ref_names (run_key_name node_id slug : string) : outcome (string * string) :=
  a ← safe_ref_component run_key_name;
  b ← safe_ref_component node_id;
  c ← safe_ref_component slug;
  let base := "refs/crewplane/runs/" +:+ a +:+ "/" +:+ b +:+ "/" +:+ c in
  mret (base +:+ "/candidate", base +:+ "/result").

(** Code: core/workspace/naming.py, temporary_import_ref_prefix. *)
Definition temporary_import_ref_prefix (run_key_name node_id slug : string) : outcome string :=
  a ← safe_ref_component run_key_name;
  b ← safe_ref_component node_id;
  c ← safe_ref_component slug;
  mret ("refs/crewplane/runs/" +:+ a +:+ "/imports/" +:+ b +:+ "/" +:+ c +:+ "/").

(** ** Published and temporary refs (ref_contracts.py) *)

(** Code: artifacts/workspace/state/ref_contracts.py, REF_PUBLICATION_PHASES. *)
Definition REF_PUBLICATION_PHASES : list string := ["prepared"; "published"; "removed"].

(** Code: artifacts/workspace/state/ref_contracts.py, is_discarded_lineage. *)
Definition is_discarded_lineage (payload : dict json) : bool :=
  let result := mapping_value (get payload "result") in
  is_text (get payload "workspace_kind") "worktree" && is_text (get payload "role") "executor"
  && is_false (get result "lineage_produced") && is_true (get result "lineage_discarded")
  && is_nonempty_string (get result "lineage_discard_reason") && negb (dmem payload "refs") && negb (dmem payload "bundle").

(** Code: artifacts/workspace/state/ref_contracts.py, _requires_ref_publication. *)
Definition requires_ref_publication (payload : dict json) (lineage_producer hydrated_placement : bool) : bool :=
  lineage_producer && is_text (get payload "status") "succeeded" && negb hydrated_placement.

(** Code: artifacts/workspace/state/ref_contracts.py, _validate_publication_phase. *)
Definition validate_publication_phase (publication : dict json) (canonical_success : bool) : errors :=
  error_if (canonical_success && is_text (get publication "phase") "prepared") "successful lineage has only prepared ref publication".

(** The origins of a resumed state, the nearest first.
    Code: artifacts/workspace/state/ref_contracts.py:362-369. *)
Fixpoint origin_matches (expected_run_id expected_key : json) (origin : json) : bool :=
  match origin with
  | JObj ((_ :: _) as fields) =>
      (json_equal expected_run_id (get fields "source_run_id") && json_equal expected_key (get fields "source_run_key_name"))
      || (fix at_key (l : dict json) : bool :=
            match l with
            | [] => false
            | (k, v) :: t => if decide ("source_resume_origin" = k) then origin_matches expected_run_id expected_key v else at_key t
            end) fields
  | _ => false
  end.

(** Code: artifacts/workspace/state/ref_contracts.py, _publication_run_identity_matches. *)
Definition publication_run_identity_matches (payload publication : dict json) : bool :=
  let run_id := get publication "run_id" in
  let run_key_name := get publication "run_key_name" in
  (json_equal run_id (get payload "run_id") && json_equal run_key_name (get payload "run_key_name"))
  || origin_matches run_id run_key_name (get payload "resume_origin").

(** Code: artifacts/workspace/state/ref_contracts.py, _validate_publication_identity. *)
Definition validate_publication_identity (payload publication : dict json) : errors :=
  error_if (negb (json_equal (get publication "repository_id") (get (mapping_value (get payload "git")) "repo_id")))
    "ref publication repository mismatch"
  +!+ error_if (negb (publication_run_identity_matches payload publication)) "ref publication run identity mismatch"
  +!+ check_each (fun field => error_if (negb (json_equal (get publication field) (get payload field))) ("ref publication " +:+ field +:+ " mismatch"))
        ["node_id"; "task_id"; "role"; "round_num"; "audit_round_num"].

(** Code: artifacts/workspace/state/ref_contracts.py, _PublicationExpectations. *)
Record PublicationExpectations := mkPublicationExpectations {
  pe_canonical_success : bool;
  pe_recorded_names : dict json;
  pe_scoped_names : dict string;
  pe_target_oids : dict json
}.

(** Code: artifacts/workspace/state/ref_contracts.py, _expected_publication_names. *)
Definition expected_publication_names (payload publication : dict json) : outcome (dict string) :=
  match state_invocation_slug payload with
  | None => Ok []
  | Some slug =>
      '(candidate, result) ← result_ref_names (json_str (get publication "run_key_name")) (json_str (get payload "node_id")) slug;
      mret [("candidate", candidate); ("result", result)]
  end.

(** Code: artifacts/workspace/state/ref_contracts.py, _publication_expectations. *)
Definition publication_expectations (payload publication : dict json) (canonical_success : bool) : outcome PublicationExpectations :=
  let refs := if canonical_success then mapping_value (get payload "refs") else [] in
  let result := if canonical_success then mapping_value (get payload "result") else [] in
  names ← expected_publication_names payload publication;
  mret (mkPublicationExpectations canonical_success refs names
          [("candidate", get result "candidate_commit"); ("result", get result "result_commit")]).

(** Code: artifacts/workspace/state/ref_contracts.py, _destination_has_valid_name_and_target. *)
Definition destination_has_valid_name_and_target (destination : dict json) : bool :=
  is_nonempty_string (get destination "name") && is_git_object_id (get destination "target_oid").

(** Code: artifacts/workspace/state/ref_contracts.py, _validate_destination_expected_oid. *)
Definition validate_destination_expected_oid (label : string) (destination : dict json) : errors :=
  let expected_old_oid := get destination "expected_old_oid" in
  error_if (negb (dmem destination "expected_old_oid") || (negb (is_none expected_old_oid) && negb (is_git_object_id expected_old_oid)))
    ("ref publication " +:+ label +:+ " expected OID is invalid").

(** Code: artifacts/workspace/state/ref_contracts.py, _validate_destination_names. *)
Definition validate_destination_names (label : string) (destination : dict json) (e : PublicationExpectations) : errors :=
  error_if (pe_canonical_success e && negb (json_equal (get destination "name") (get (pe_recorded_names e) label)))
    ("ref publication " +:+ label +:+ " name mismatch")
  +!+ error_if (is_cons (pe_scoped_names e) && negb (json_equal (get destination "name") (jopt JStr (dget (pe_scoped_names e) label))))
        ("ref publication " +:+ label +:+ " escapes invocation scope").

(** Code: artifacts/workspace/state/ref_contracts.py, _validate_destination_target. *)
Definition validate_destination_target (label : string) (destination : dict json) (e : PublicationExpectations) : errors :=
  error_if (pe_canonical_success e && negb (json_equal (get destination "target_oid") (get (pe_target_oids e) label)))
    ("ref publication " +:+ label +:+ " target mismatch").

(** Code: artifacts/workspace/state/ref_contracts.py, _validate_destination. *)
Definition validate_destination (label : string) (value : json) (e : PublicationExpectations) : errors :=
  let destination := mapping_value value in
  if negb (destination_has_valid_name_and_target destination) then Ok ["invalid ref publication destination"]
  else
    validate_destination_expected_oid label destination +!+ validate_destination_names label destination e
    +!+ validate_destination_target label destination e.

(** Code: artifacts/workspace/state/ref_contracts.py, _validate_destinations. *)
Definition validate_destinations (payload publication : dict json) (canonical_success : bool) : errors :=
  let destinations := mapping_value (get publication "destinations") in
  if negb (bool_decide (list_to_set (dkeys destinations) =@{gset string} {["candidate"; "result"]}))
  then Ok ["ref publication destinations are incomplete"]
  else
    e ← publication_expectations payload publication canonical_success;
    check_each (fun '(label, value) => validate_destination label value e) destinations.

(** Code: artifacts/workspace/state/ref_contracts.py, _validate_ref_publication. *)
Definition validate_ref_publication (payload : dict json) (hydrated_placement : bool) : errors :=
  let workspace := mapping_value (get payload "workspace") in
  let lineage_producer := is_true (get workspace "lineage_producer") in
  if negb (dmem payload "ref_publication") then
    error_if (requires_ref_publication payload lineage_producer hydrated_placement) "lineage result lacks ref publication phase"
  else if negb lineage_producer && negb (is_discarded_lineage payload) then Ok ["non-lineage workspace has ref publication evidence"]
  else
    let publication := mapping_value (get payload "ref_publication") in
    known ← in_strings (get publication "phase") REF_PUBLICATION_PHASES;
    if negb known then Ok ["lineage result lacks ref publication phase"]
    else
      let canonical_success := lineage_producer && is_text (get payload "status") "succeeded" in
      validate_publication_phase publication canonical_success +!+ validate_publication_identity payload publication
      +!+ validate_destinations payload publication canonical_success.

(** Code: artifacts/workspace/state/ref_contracts.py, temporary_ref_ownership. *)
Definition temporary_ref_ownership (payload : dict json) : dict json :=
  map (fun field => ("owner_" +:+ field, get payload field)) ["run_id"; "node_id"; "task_id"; "role"; "round_num"; "audit_round_num"]
  ++ [("repository_id", get (mapping_value (get payload "git")) "repo_id")].

(** Code: artifacts/workspace/state/ref_contracts.py, temporary_ref_ownership_matches. *)
Definition temporary_ref_ownership_matches (record ownership : dict json) : bool :=
  forallb (fun '(field, value) => json_equal (get record field) value) ownership.

(** Code: artifacts/workspace/state/ref_contracts.py, temporary_ref_repository_matches. *)
Definition temporary_ref_repository_matches (payload : dict json) (expected_repository_id : string) : bool :=
  match get payload "git" with JObj git => is_text (get git "repo_id") expected_repository_id | _ => false end.

(** Code: artifacts/workspace/state/ref_contracts.py, temporary_ref_claim_repositories_match. *)
Definition temporary_ref_claim_repositories_match (payload : dict json) (expected_repository_id : string) : bool :=
  match get payload "temporary_refs" with
  | JList claims =>
      forallb (fun claim => match claim with JObj f => is_text (get f "repository_id") expected_repository_id | _ => false end) claims
  | _ => true
  end.

(** Code: artifacts/workspace/state/ref_contracts.py, _source_commit_oids. *)
Fixpoint source_commit_oids (source : json) : list string :=
  match source with
  | JObj fields =>
      match get fields "commit" with JStr s => [s] | _ => [] end
      ++ (fix at_key (l : dict json) : list string :=
            match l with
            | [] => []
            | (k, v) :: t =>
                if decide ("upstream_sources" = k) then
                  match v with
                  | JList upstreams => (fix each l := match l with [] => [] | u :: t => source_commit_oids u ++ each t end) upstreams
                  | _ => []
                  end
                else at_key t
            end) fields
  | _ => []
  end.

(** Code: artifacts/workspace/state/ref_contracts.py, _coherent_ref_oids. *)
Definition coherent_ref_oids (payload : dict json) : list string :=
  let result := mapping_value (get payload "result") in
  source_commit_oids (get payload "source")
  ++ omap (fun v => match v with JStr s => Some s | _ => None end) [get result "candidate_commit"; get result "result_commit"].

(** Code: artifacts/workspace/state/ref_contracts.py, _TemporaryRefContext. *)
Record TemporaryRefContext := mkTemporaryRefContext {
  tc_payload : dict json;
  tc_invocation_slug_value : option string;
  tc_prefix : string;
  tc_coherent_oids : list string
}.

(** Code: artifacts/workspace/state/ref_contracts.py, _temporary_ref_phase_is_valid. *)
Definition temporary_ref_phase_is_valid (record : dict json) : outcome bool := in_strings (get record "phase") ["prepared"; "removed"].

(** Code: artifacts/workspace/state/ref_contracts.py, _temporary_ref_is_invocation_scoped. *)
Definition temporary_ref_is_invocation_scoped (record : dict json) (context : TemporaryRefContext) : bool :=
  match get record "name", tc_invocation_slug_value context with
  | JStr name, Some _ => str_startswith (tc_prefix context) name
  | _, _ => false
  end.

(** Code: artifacts/workspace/state/ref_contracts.py, _temporary_ref_target_is_valid. *)
Definition temporary_ref_target_is_valid (record : dict json) : bool := is_git_object_id (get record "target_oid").

(** Code: artifacts/workspace/state/ref_contracts.py, _temporary_ref_target_is_coherent. *)
Definition temporary_ref_target_is_coherent (record : dict json) (coherent_oids : list string) : bool :=
  existsb (is_text (get record "target_oid")) coherent_oids.

(** The target is looked up only when it is an object id, a string.
    Code: artifacts/workspace/state/ref_contracts.py, _valid_temporary_ref. *)
Definition valid_temporary_ref (record : dict json) (context : TemporaryRefContext) : outcome bool :=
  known ← temporary_ref_phase_is_valid record;
  mret (known && temporary_ref_ownership_matches record (temporary_ref_ownership (tc_payload context))
        && temporary_ref_is_invocation_scoped record context && temporary_ref_target_is_valid record
        && temporary_ref_target_is_coherent record (tc_coherent_oids context)).

(** Code: artifacts/workspace/state/ref_contracts.py, _validate_temporary_refs. *)
Definition validate_temporary_refs (payload : dict json) : errors :=
  match get payload "temporary_refs" with
  | JNull => Ok []
  | JList temporary_refs =>
      let invocation_slug_value := state_invocation_slug payload in
      prefix ← temporary_import_ref_prefix (json_str (get payload "run_key_name")) (json_str (get payload "node_id"))
                 (default "None" invocation_slug_value);
      let context := mkTemporaryRefContext payload invocation_slug_value prefix (coherent_ref_oids payload) in
      check_each (fun claim => valid ← valid_temporary_ref (mapping_value claim) context;
                               error_if (negb valid) "temporary ref claim is contradictory") temporary_refs
  | _ => Ok ["temporary ref evidence is invalid"]
  end.

(** Code: artifacts/workspace/state/ref_contracts.py, validate_ref_contracts. *)
Definition validate_ref_contracts (payload : dict json) (hydrated_placement : bool) : errors :=
  validate_ref_publication payload hydrated_placement +!+ validate_temporary_refs payload.

(** ** The contract (contracts.py) *)

(** Code: artifacts/workspace/state/contracts.py, PersistedWorkspaceOperation. *)
Inductive PersistedWorkspaceOperation :=
| for_materialization | for_resume | for_duplicate_skip | for_rendering | for_export | for_cleanup | for_ref_cleanup
| for_failed_invocation | for_checkpoint | for_checkpoint_failed.

#[global] Instance PersistedWorkspaceOperation_eq_dec : EqDecision PersistedWorkspaceOperation.
Proof. solve_decision. Defined.

Definition persisted_operation_value (o : PersistedWorkspaceOperation) : string :=
  match o with
  | for_materialization => "materialization" | for_resume => "resume" | for_duplicate_skip => "duplicate_skip"
  | for_rendering => "rendering" | for_export => "export" | for_cleanup => "cleanup" | for_ref_cleanup => "ref_cleanup"
  | for_failed_invocation => "failed_invocation" | for_checkpoint => "checkpoint" | for_checkpoint_failed => "checkpoint_failed"
  end.

(** [operation in {...}]. *)
Definition one_of (operation : PersistedWorkspaceOperation) (l : list PersistedWorkspaceOperation) : bool :=
  existsb (fun o => bool_decide (operation = o)) l.

(** Code: artifacts/workspace/state/contracts.py, _hydrated_resume_placement. *)
Definition hydrated_resume_placement (payload workspace : dict json) : bool :=
  let execution := mapping_value (get payload "execution") in
  let origin := mapping_value (get payload "resume_origin") in
  let is_object v := match v with JObj _ => true | _ => false end in
  is_text (get workspace "retention") "not_applicable" && is_text (get workspace "retained_reason") "hydrated_resume"
  && forallb (fun field => is_none (get workspace field)) ["path"; "effective_cwd"; "cache_root"; "checkout_root"; "cache_key"]
  && forallb (fun field => is_none (get execution field)) ["cache_root"; "workspace_path"; "checkout_root"; "effective_cwd"; "worktree_git_dir"]
  && is_nonempty_string (get origin "source_run_id") && is_nonempty_string (get origin "source_run_key_name")
  && json_equal (get origin "source_node_id") (get payload "node_id") && is_nonempty_string (get origin "hydrated_at")
  && is_object (get origin "source_workspace") && is_object (get origin "source_execution").

(** Code: artifacts/workspace/state/contracts.py, _validate_identity. *)
Definition validate_identity (payload : dict json) : errors :=
  error_if (negb (is_text (get payload "version") SCHEMA_VERSION)) "schema version mismatch"
  +!+ check_each (fun field => error_if (negb (is_nonempty_string (get payload field))) ("missing " +:+ field))
        ["run_id"; "run_key_name"; "workflow_name"; "workflow_signature"; "node_id"; "task_id"; "provider"]
  +!+ error_unless_in (get payload "role") ["executor"; "reviewer"] "invalid provider role"
  +!+ error_if (negb (is_nonnegative_int (get payload "round_num"))) "invalid round_num".

(** Code: artifacts/workspace/state/contracts.py, _validate_repository. *)
Definition validate_repository (git : dict json) : errors :=
  error_unless_in (get git "object_format") (dkeys GIT_OBJECT_FORMAT_DIGEST_SIZES) "invalid object format"
  +!+ check_each (fun field => error_if (negb (is_nonempty_string (get git field))) ("missing git." +:+ field))
        ["repo_id"; "run_base_commit"; "source_tree"; "git_top_level"; "active_git_dir"; "common_git_dir"].

(** Code: artifacts/workspace/state/contracts.py, _validate_snapshot_materialization. *)
Definition validate_snapshot_materialization (workspace : dict json) : errors :=
  error_if (negb (is_text (get workspace "materialization") "snapshot_checkout")) "snapshot materialization mismatch"
  +!+ error_if (negb (is_false (get workspace "lineage_producer"))) "snapshot cannot produce lineage"
  +!+ error_if (dmem workspace "reuse_generation") "snapshot cannot claim a reuse generation".

(** Code: artifacts/workspace/state/contracts.py, _validate_worktree_materialization. *)
Definition validate_worktree_materialization (payload workspace : dict json) : errors :=
  let execution := mapping_value (get payload "execution") in
  error_if (negb (is_text (get workspace "materialization") "worktree_checkout")) "worktree materialization mismatch"
  +!+ check_when (negb (is_none (get execution "effective_cwd")))
        (error_if (bool_decide (positive_strict_int (get workspace "reuse_generation") = None)) "materialized worktree lacks reuse generation"
         +!+ error_if (negb (is_nonempty_string (get execution "worktree_git_dir"))) "materialized worktree lacks exact Git directory").

(** Code: artifacts/workspace/state/contracts.py, _validate_workspace_materialization. *)
Definition validate_workspace_materialization (payload workspace : dict json) : errors :=
  (if is_text (get payload "workspace_kind") "snapshot" then validate_snapshot_materialization workspace
   else if is_text (get payload "workspace_kind") "worktree" then validate_worktree_materialization payload workspace
   else Ok ["invalid workspace kind"])
  +!+ error_if (negb (is_true (get workspace "writable"))) "managed workspace must be writable".

(** Code: artifacts/workspace/state/contracts.py, _validate_workspace_operation_eligibility. *)
Definition validate_workspace_operation_eligibility (payload : dict json) (operation : PersistedWorkspaceOperation) : errors :=
  let status := get payload "status" in
  let physical_path_required :=
    one_of operation [for_cleanup]
    || (one_of operation [for_failed_invocation] && negb (hydrated_resume_placement payload (mapping_value (get payload "workspace")))) in
  error_if (physical_path_required && negb (is_nonempty_string (get (mapping_value (get payload "execution")) "workspace_path")))
    (persisted_operation_value operation +:+ " workspace lacks its physical path")
  +!+ error_if (one_of operation [for_resume; for_duplicate_skip; for_rendering; for_export; for_checkpoint] && negb (is_text status "succeeded"))
        (persisted_operation_value operation +:+ " requires a succeeded workspace")
  +!+ check_when (one_of operation [for_cleanup])
        (error_unless_in status TERMINAL_WORKSPACE_STATUSES "cleanup requires a terminal outcome")
  +!+ error_if (one_of operation [for_failed_invocation; for_checkpoint_failed] && negb (is_text status "failed"))
        "failed_invocation requires a failed workspace".

(** Code: artifacts/workspace/state/contracts.py, _validate_workspace_retention. *)
Definition validate_workspace_retention (payload workspace : dict json) : errors :=
  terminal ← in_strings (get payload "status") TERMINAL_WORKSPACE_STATUSES;
  check_when terminal
    (known ← in_strings (get workspace "retention") ["pending_cleanup"; "deleted"; "retained"];
     error_if (negb known && negb (hydrated_resume_placement payload workspace)) "terminal workspace has invalid retention").

(** Code: artifacts/workspace/state/contracts.py, _validate_workspace. *)
Definition validate_workspace (payload workspace : dict json) (operation : PersistedWorkspaceOperation) : errors :=
  validate_workspace_materialization payload workspace
  +!+ validate_workspace_operation_eligibility payload operation
  +!+ check_when (negb (one_of operation [for_checkpoint; for_checkpoint_failed])) (validate_workspace_retention payload workspace).

(** Code: artifacts/workspace/state/contracts.py, _validate_project_source. *)
Definition validate_project_source (source : dict json) : errors :=
  error_if (negb (is_none (get source "node_id"))) "project source cannot name a source node"
  +!+ error_if (negb (is_none (get source "upstream_sources")) && negb (json_equal (get source "upstream_sources") (JList [])))
        "project source cannot contain upstream sources"
  +!+ error_if (existsb (fun field => negb (is_none (get source field))) ["bundle_path"; "bundle_sha256"; "bundle_size_bytes"; "bundle_ref"])
        "project source cannot contain bundle evidence".

(** The checks of a bundled source before its upstream source.
    Code: artifacts/workspace/state/contracts.py, _validate_bundled_source. *)
Definition validate_bundled_source (source : dict json) (kind : string) : errors :=
  error_if (negb (is_nonempty_string (get source "node_id"))) (kind +:+ " source requires a source node")
  +!+ error_if (negb (is_nonempty_string (get source "bundle_path"))) (kind +:+ " source lacks bundle_path")
  +!+ error_if (negb (is_sha256_value (get source "bundle_sha256"))) (kind +:+ " source lacks bundle_sha256")
  +!+ error_if (negb (is_nonnegative_int (get source "bundle_size_bytes"))) (kind +:+ " source lacks bundle_size_bytes")
  +!+ error_if (negb (is_nonempty_string (get source "bundle_ref"))) (kind +:+ " source lacks bundle_ref").

(** A source and the upstream source below it.
    Code: artifacts/workspace/state/contracts.py, _validate_source. *)
Fixpoint validate_source (source : json) : errors :=
  let fields := mapping_value source in
  let kind := get fields "kind" in
  (if is_text kind "project" then validate_project_source fields
   else if is_text kind "node" || is_text kind "candidate" then
     validate_bundled_source fields (json_str kind)
     +!+ (let requires_one := Ok [json_str kind +:+ " source requires exactly one upstream source"] in
          match source with
          | JObj f =>
              (fix validate_upstream_source (l : dict json) : errors :=
                 match l with
                 | [] => requires_one
                 | (k, upstreams) :: t =>
                     if decide ("upstream_sources" = k) then
                       match upstreams with
                       | JList [u] =>
                           match u with
                           | JObj _ => validate_source u
                           | _ => Ok [json_str kind +:+ " source upstream descriptor is invalid"]
                           end
                       | _ => requires_one
                       end
                     else validate_upstream_source t
                 end) f
          | _ => requires_one
          end)
   else Ok ["invalid source kind"])
  +!+ error_if (negb (is_git_object_id (get fields "commit")) || negb (is_git_object_id (get fields "tree"))) "source commit or tree is invalid".

(** Code: artifacts/workspace/state/contracts.py, _validate_invocation_source. *)
Definition validate_invocation_source (payload source : dict json) : errors :=
  check_each (fun field => Ok ["invocation source " +:+ field +:+ " mismatch"])
    (source_field_mismatches source (mapping_value (get payload "invocation_source"))).

(** Code: artifacts/workspace/state/contracts.py, has_unresolved_workspace_owner. *)
Definition has_unresolved_workspace_owner (payload : dict json) : bool :=
  existsb (fun field => match get payload field with JObj evidence => is_text (get evidence "status") "unresolved" | _ => false end)
    ["process_drain"; "workspace_mutator"].

(** Code: artifacts/workspace/state/contracts.py, _validate_process_drain. *)
Definition validate_process_drain (payload : dict json) (operation : PersistedWorkspaceOperation) : errors :=
  let drain_status := get (mapping_value (get payload "process_drain")) "status" in
  error_unless_in drain_status ["not_started"; "confirmed"; "unresolved"] "missing process drain evidence"
  +!+ error_if (is_text (get payload "status") "succeeded" && is_text drain_status "unresolved")
        "successful workspace has unresolved process liveness"
  +!+ error_if (one_of operation [for_cleanup; for_failed_invocation; for_checkpoint; for_checkpoint_failed] && is_text drain_status "unresolved")
        (persisted_operation_value operation +:+ " workspace has unresolved process liveness").

(** Code: artifacts/workspace/state/contracts.py, _validate_workspace_mutator. *)
Definition validate_workspace_mutator (payload : dict json) (operation : PersistedWorkspaceOperation) : errors :=
  match get payload "workspace_mutator" with
  | JNull => Ok []
  | JObj value =>
      let status := get value "status" in
      error_unless_in status ["confirmed"; "unresolved"] "workspace mutator status is invalid"
      +!+ error_if (negb (is_nonempty_string (get value "operation"))) "workspace mutator operation is invalid"
      +!+ error_if (is_text status "confirmed" && negb (is_text (get value "outcome") "finished")) "confirmed workspace mutator outcome is invalid"
      +!+ error_if (is_text (get payload "status") "succeeded" && is_text status "unresolved")
            "successful workspace has unresolved workspace mutator"
      +!+ error_if (one_of operation [for_cleanup; for_ref_cleanup; for_failed_invocation; for_checkpoint; for_checkpoint_failed]
                    && is_text status "unresolved")
            (persisted_operation_value operation +:+ " workspace has unresolved workspace mutator")
  | _ => Ok ["workspace mutator evidence is invalid"]
  end.

(** Code: artifacts/workspace/state/contracts.py, _validate_snapshot_result. *)
Definition validate_snapshot_result (result : dict json) : errors :=
  let complete := get result "drift_scan_complete" in
  error_if (negb (match complete with JBool _ => true | _ => false end)) "snapshot result lacks drift scan completeness"
  +!+ error_if (is_false complete
                && existsb (dmem result) ["snapshot_drift_discarded"; "changed_path_count"; "changed_paths"; "changed_paths_truncated"])
        "incomplete snapshot drift contains exact claims".

(** Code: artifacts/workspace/state/contracts.py, _validate_lineage_result. *)
Definition validate_lineage_result (result : dict json) : errors :=
  check_each (fun field => error_if (negb (is_git_object_id (get result field))) ("lineage result lacks " +:+ field))
    ["candidate_commit"; "result_commit"; "candidate_tree"; "result_tree"]
  +!+ error_if (negb (is_nonnegative_int (get result "changed_path_count"))) "lineage result lacks changed_path_count".

(** Code: artifacts/workspace/state/contracts.py, _validate_bundle_evidence. *)
Definition validate_bundle_evidence (bundle : dict json) : errors :=
  error_if (negb (is_nonempty_string (get bundle "path") && is_nonempty_string (get bundle "sha256")
                  && is_nonnegative_int (get bundle "size_bytes") && is_true (get bundle "verified")))
    "lineage result lacks verified bundle evidence".

(** Code: artifacts/workspace/state/contracts.py, _validate_result. *)
Definition validate_result (payload workspace : dict json) (operation : PersistedWorkspaceOperation) : errors :=
  if one_of operation [for_materialization] || negb (is_text (get payload "status") "succeeded") then Ok []
  else
    let result := mapping_value (get payload "result") in
    if is_text (get payload "workspace_kind") "snapshot" then validate_snapshot_result result
    else if negb (is_true (get workspace "lineage_producer")) then Ok []
    else validate_lineage_result result +!+ validate_bundle_evidence (mapping_value (get payload "bundle")).

(** A checkpoint has neither a placement nor live refs.
    Code: artifacts/workspace/state/contracts.py:72-83. *)
Definition validate_checkpoint (payload workspace : dict json) : errors :=
  error_if (negb (is_text (get workspace "retention") "not_applicable") || negb (is_text (get workspace "retained_reason") "checkpoint"))
    "checkpoint metadata contains placement claims"
  +!+ error_if (existsb (dmem payload) ["temporary_refs"; "ref_publication"; "branch_export"]) "checkpoint metadata contains live ref claims".

(** Code: artifacts/workspace/state/contracts.py, workspace_state_contract_errors. *)
Definition workspace_state_contract_errors (payload : dict json) (operation : PersistedWorkspaceOperation) : errors :=
  let workspace := mapping_value (get payload "workspace") in
  let source := get payload "source" in
  let checkpoint := one_of operation [for_checkpoint; for_checkpoint_failed] in
  validate_identity payload
  +!+ validate_repository (mapping_value (get payload "git"))
  +!+ validate_workspace payload workspace operation
  +!+ validate_source (JObj (mapping_value source))
  +!+ validate_invocation_source payload (mapping_value source)
  +!+ validate_process_drain payload operation
  +!+ validate_workspace_mutator payload operation
  +!+ validate_result payload workspace operation
  +!+ check_when checkpoint (validate_checkpoint payload workspace)
  +!+ validate_ref_contracts payload (checkpoint || hydrated_resume_placement payload workspace).

(** Code: artifacts/workspace/state/contracts.py, require_workspace_state_contract. *)
Definition require_workspace_state_contract (payload : dict json) (operation : PersistedWorkspaceOperation) : outcome unit :=
  found ← workspace_state_contract_errors payload operation;
  if is_cons found
  then Raise (RuntimeError ("Workspace state lacks required hardening evidence; rerun or regenerate the workspace artifacts: "
                            +:+ str_join "; " found +:+ "."))
  else Ok tt.

(** Code: artifacts/workspace/state/contracts.py, workspace_state_contract_is_valid. *)
Definition workspace_state_contract_is_valid (payload : dict json) (operation : PersistedWorkspaceOperation) : outcome bool :=
  found ← workspace_state_contract_errors payload operation; mret (negb (is_cons found)).

End Contract.
