(* ===== verification/BranchExport.v ===== *)
(** Branch exports: the result of a worktree becomes a branch of the
    repository (runtime/workspace/branch_export).

    An export writes a prepared record before it creates the branch, and a
    terminal record afterwards; a later attempt classifies the record it finds
    and continues.  The repository, the files of a run and the clock are the
    class [ExportHost]; other processes may change the repository at any time. *)

From Stdlib Require Import ZArith Lia Ascii String.
From stdpp Require Import base gmap sets list strings pretty sorting.
From S2P Require Import Prelude PyStr StateExn Models Scheduler Artifacts RunState PlanRecords PlanContract Foreach PreflightState Redaction SecretHandles WorkspaceContract.

Open Scope string_scope.
Open Scope list_scope.
Open Scope Z_scope.

(** ** Values of records *)

(** Code: runtime/workspace/branch_export/records.py, _mapping. *)
Definition mapping (v : json) : dict json := match v with JObj f => f | _ => [] end.

(** Code: runtime/workspace/branch_export/records.py, _required_string. *)
Definition required_string (v : json) : option string :=
  match v with JStr s => if nonempty s then Some s else None | _ => None end.

(** ** Checkpoints and attempts *)

(** The part of a source snapshot that exports read.
    Code: core/preflight/workspace/models.py, WorkspaceSourceSnapshot. *)
Record ExportSource := mkExportSource {
  xs_git_top_level : string;
  xs_common_git_dir : string;
  xs_repository_id : string;
  xs_project_root_relative_path : string
}.

(** Code: runtime/workspace/branch_export/fulfillment.py, BranchExportCheckpoint. *)
Record BranchExportCheckpoint := mkExportCheckpoint {
  bc_state_path : string;
  bc_state_relative_path : string;
  bc_node_id : string;
  bc_task_id : string;
  bc_result_commit : string;
  bc_result_tree : string;
  bc_result_ref : string;
  bc_bundle_path : string;
  bc_bundle_relative_path : string;
  bc_bundle_sha256 : string;
  bc_bundle_size_bytes : Z
}.

(** Code: runtime/workspace/branch_export/reconciliation.py:18-19. *)
Inductive BranchExportOrigin := current_run | verified_history.

(** Code: runtime/workspace/branch_export/reconciliation.py:19-20. *)
Inductive BranchExportRecoveryMode := recovery_initial | prepared_record.

#[global] Instance BranchExportOrigin_eq_dec : EqDecision BranchExportOrigin.
Proof. solve_decision. Defined.
#[global] Instance BranchExportRecoveryMode_eq_dec : EqDecision BranchExportRecoveryMode.
Proof. solve_decision. Defined.

Definition origin_value (o : BranchExportOrigin) : string :=
  match o with current_run => "current_run" | verified_history => "verified_history" end.
Definition recovery_value (r : BranchExportRecoveryMode) : string :=
  match r with recovery_initial => "initial" | prepared_record => "prepared_record" end.

(** Code: runtime/workspace/branch_export/git.py, BranchExportOperation. *)
Inductive BranchExportOperation := op_created | op_verified_existing | op_skipped | op_failed_verification.

#[global] Instance BranchExportOperation_eq_dec : EqDecision BranchExportOperation.
Proof. solve_decision. Defined.

Definition operation_value (o : BranchExportOperation) : string :=
  match o with
  | op_created => "created" | op_verified_existing => "verified_existing" | op_skipped => "skipped"
  | op_failed_verification => "failed_verification"
  end.

(** The run whose worktrees are exported; its lookup of stage directories is
    part of the host.
    Code: runtime/workspace/branch_export/attempts.py, BranchExportRun. *)
Record BranchExportRun := mkExportRun {
  br_plan : PreflightExecutionPlan;
  br_run_id : string;
  br_run_key_name : string;
  br_source : ExportSource;
  br_stages_dir : string
}.

(** Code: runtime/workspace/branch_export/attempts.py, BranchExportAttempt. *)
Record BranchExportAttempt := mkAttempt {
  ba_run : BranchExportRun;
  ba_logical_worktree_name : string;
  ba_node : PreflightExecutionNode;
  ba_policy : WorkspaceSelectionRecord;
  ba_operation_origin : BranchExportOrigin
}.

(** Code: runtime/workspace/branch_export/reconciliation.py, BranchExportReconciliation. *)
Record BranchExportReconciliation := mkReconciliation {
  rc_recovery_mode : BranchExportRecoveryMode;
  rc_operation_origin : option BranchExportOrigin;
  rc_idempotent_payload : option (dict json)
}.

(** Code: runtime/workspace/branch_export/reconciliation.py, BranchExportRecordExpectation. *)
Record BranchExportRecordExpectation := mkExpectation {
  be_plan : PreflightExecutionPlan;
  be_run_id : string;
  be_run_key_name : string;
  be_repository_id : string;
  be_worktree_name : string;
  be_name : string;
  be_branch_ref : string;
  be_checkpoint : BranchExportCheckpoint;
  be_policy : WorkspaceSelectionRecord
}.

(** Code: runtime/workspace/branch_export/attempts.py, _ValidatedBranchExportAttempt. *)
Record ValidatedBranchExportAttempt := mkValidated {
  va_request : BranchExportAttempt;
  va_branch_name : string;
  va_branch_ref : string;
  va_checkpoint : BranchExportCheckpoint;
  va_reconciliation : BranchExportReconciliation
}.

(** Code: runtime/workspace/branch_export/attempts.py, _ValidatedBranchExportAttempt.operation_origin. *)
Definition va_operation_origin (a : ValidatedBranchExportAttempt) : BranchExportOrigin :=
  default (ba_operation_origin (va_request a)) (rc_operation_origin (va_reconciliation a)).

Section Names.
Context {hash : HashLibrary}.

(** Code: artifacts/naming.py, build_workspace_export_filename. *)
Definition build_workspace_export_filename (logical_worktree_name : string) : outcome string :=
  bounded_artifact_name (safe_artifact_name logical_worktree_name) ("--" +:+ artifact_name_hash logical_worktree_name +:+ ".json").

(** Code: artifacts/naming.py, workspace_export_relative_path. *)
Definition workspace_export_relative_path (logical_worktree_name : string) : outcome string :=
  name ← build_workspace_export_filename logical_worktree_name; mret ("workspace-exports/" +:+ name).

(** Code: runtime/workspace/branch_export/records.py, branch_name. *)
Definition branch_name (plan : PreflightExecutionPlan) (policy : WorkspaceSelectionRecord) (logical_worktree_name run_key_name : string)
    : outcome string :=
  match be_branch_name (wp_branch_export policy) with
  | Some name => if nonempty name then Ok name else generated_branch_name (pp_workflow_name plan) logical_worktree_name run_key_name
  | None => generated_branch_name (pp_workflow_name plan) logical_worktree_name run_key_name
  end.

End Names.

(** ** Records (records.py) *)

(** [policy.worktree_contract.model_dump(mode="json")]. *)
Definition worktree_contract_json (policy : WorkspaceSelectionRecord) : json :=
  JObj [("mode", JStr (fst (wp_worktree_contract policy))); ("schema_version", JStr (snd (wp_worktree_contract policy)))].

(** Code: runtime/workspace/branch_export/records.py, _branch_export_identity. *)
Definition branch_export_identity (run : BranchExportRun) (logical_worktree_name : string) : dict json :=
  [("version", JStr SCHEMA_VERSION); ("run_id", JStr (br_run_id run)); ("run_key_name", JStr (br_run_key_name run));
   ("workflow_name", JStr (pp_workflow_name (br_plan run))); ("workflow_signature", JStr (pp_workflow_signature (br_plan run)));
   ("logical_worktree_name", JStr logical_worktree_name)].

(** Code: runtime/workspace/branch_export/records.py, checkpoint_record. *)
Definition checkpoint_record (c : BranchExportCheckpoint) : dict json :=
  [("node_id", JStr (bc_node_id c)); ("task_id", JStr (bc_task_id c));
   ("workspace_state_artifact", JStr (bc_state_relative_path c)); ("result_commit", JStr (bc_result_commit c));
   ("result_tree", JStr (bc_result_tree c)); ("result_ref", JStr (bc_result_ref c));
   ("bundle", JObj [("path", JStr (bc_bundle_relative_path c)); ("sha256", JStr (bc_bundle_sha256 c));
                    ("size_bytes", JInt (bc_bundle_size_bytes c))])].

(** [payload.update(record)]. *)
Definition update (payload record : dict json) : dict json := foldl (fun p '(k, v) => dset p k v) payload record.

(** Code: runtime/workspace/branch_export/records.py, branch_export_record. *)
Definition branch_export_record (run : BranchExportRun) (logical_worktree_name branch_name branch_ref : string)
    (checkpoint : BranchExportCheckpoint) (policy : WorkspaceSelectionRecord) (operation : BranchExportOperation)
    (branch_exists_before branch_exists_after : bool) (operation_origin : BranchExportOrigin)
    (recovery_mode : BranchExportRecoveryMode) (dry_run : bool) (created_at : string) : dict json :=
  update
    (branch_export_identity run logical_worktree_name ++
     [("branch_name", JStr branch_name); ("branch_ref", JStr branch_ref); ("status", JStr "fulfilled");
      ("operation_origin", JStr (origin_value operation_origin)); ("recovery_mode", JStr (recovery_value recovery_mode));
      ("repository_id", JStr (xs_repository_id (br_source run))); ("operation", JStr (operation_value operation));
      ("branch_exists_before", JBool branch_exists_before); ("branch_exists_after", JBool branch_exists_after);
      ("dry_run", JBool dry_run); ("created_at", JStr created_at); ("worktree_contract", worktree_contract_json policy)])
    (checkpoint_record checkpoint).

(** Code: runtime/workspace/branch_export/records.py, skipped_branch_export_record. *)
Definition skipped_branch_export_record (run : BranchExportRun) (logical_worktree_name node_id : string) (dry_run : bool)
    (operation_origin : BranchExportOrigin) (created_at : string) : dict json :=
  branch_export_identity run logical_worktree_name ++
  [("branch_name", JNull); ("branch_ref", JNull); ("status", JStr "skipped");
   ("operation_origin", JStr (origin_value operation_origin)); ("recovery_mode", JStr "initial");
   ("repository_id", JStr (xs_repository_id (br_source run))); ("operation", JStr "skipped");
   ("skip_reason", JStr "create_branch_false"); ("branch_exists_before", JNull); ("branch_exists_after", JNull);
   ("dry_run", JBool dry_run); ("created_at", JStr created_at); ("node_id", JStr node_id)].

(** Code: runtime/workspace/branch_export/records.py, failed_branch_export_record. *)
Definition failed_branch_export_record (run : BranchExportRun) (logical_worktree_name node_id : string)
    (branch_name branch_ref : option string) (checkpoint : option BranchExportCheckpoint) (branch_exists_before : option bool)
    (failure_message : string) (dry_run : bool) (operation_origin : BranchExportOrigin) (recovery_mode : BranchExportRecoveryMode)
    (created_at : string) : dict json :=
  let payload :=
    branch_export_identity run logical_worktree_name ++
    [("branch_name", jopt JStr branch_name); ("branch_ref", jopt JStr branch_ref); ("status", JStr "failed_verification");
     ("operation_origin", JStr (origin_value operation_origin)); ("recovery_mode", JStr (recovery_value recovery_mode));
     ("repository_id", JStr (xs_repository_id (br_source run))); ("operation", JStr "failed_verification");
     ("failure_message", JStr failure_message); ("branch_exists_before", jopt JBool branch_exists_before);
     ("branch_exists_after", jopt JBool branch_exists_before); ("dry_run", JBool dry_run); ("created_at", JStr created_at);
     ("node_id", JStr node_id)] in
  match checkpoint with None => payload | Some c => update payload (checkpoint_record c) end.

(** Code: runtime/workspace/branch_export/records.py, prepared_branch_export_record. *)
Definition prepared_branch_export_record (run : BranchExportRun) (logical_worktree_name branch_name branch_ref : string)
    (checkpoint : BranchExportCheckpoint) (policy : WorkspaceSelectionRecord) (operation_origin : BranchExportOrigin)
    (recovery_mode : BranchExportRecoveryMode) (created_at : string) : dict json :=
  update
    (branch_export_identity run logical_worktree_name ++
     [("repository_id", JStr (xs_repository_id (br_source run))); ("branch_name", JStr branch_name); ("branch_ref", JStr branch_ref);
      ("status", JStr "prepared"); ("operation", JStr "prepared"); ("operation_origin", JStr (origin_value operation_origin));
      ("recovery_mode", JStr (recovery_value recovery_mode)); ("expected_old_oid", JNull);
      ("target_oid", JStr (bc_result_commit checkpoint)); ("dry_run", JBool false); ("created_at", JStr created_at);
      ("worktree_contract", worktree_contract_json policy)])
    (checkpoint_record checkpoint).

(** Code: runtime/workspace/branch_export/records.py, _checkpoint_fields_present. *)
Definition checkpoint_fields_present (payload : dict json) : bool :=
  existsb (dmem payload) ["workspace_state_artifact"; "result_commit"; "result_tree"; "result_ref"; "bundle"].

(** Code: runtime/workspace/branch_export/records.py, checkpoint_from_record. *)
Definition checkpoint_from_record (stages_dir : string) (payload : dict json) : outcome (option BranchExportCheckpoint) :=
  if negb (checkpoint_fields_present payload) then Ok None
  else
    let bundle := mapping (get payload "bundle") in
    match required_string (get payload "workspace_state_artifact"), required_string (get payload "node_id"),
          required_string (get payload "task_id"), required_string (get payload "result_commit"),
          required_string (get payload "result_tree"), required_string (get payload "result_ref"),
          required_string (get bundle "path"), required_string (get bundle "sha256"), get bundle "size_bytes" with
    | Some state_path, Some node_id, Some task_id, Some result_commit, Some result_tree, Some result_ref, Some bundle_path,
      Some bundle_sha256, JInt bundle_size_bytes =>
        if bundle_size_bytes <? 0 then Raise (RuntimeError "Invalid branch export checkpoint record.")
        else Ok (Some (mkExportCheckpoint (path_join stages_dir state_path) state_path node_id task_id result_commit result_tree result_ref
                         bundle_path bundle_path bundle_sha256 bundle_size_bytes))
    | _, _, _, _, _, _, _, _, _ => Raise (RuntimeError "Invalid branch export checkpoint record.")
    end.

(** Code: runtime/workspace/branch_export/records.py, branch_export_operation. *)
Definition branch_export_operation (payload : dict json) : outcome BranchExportOperation :=
  match List.find (fun o => is_text (get payload "operation") (operation_value o))
          [op_created; op_verified_existing; op_skipped; op_failed_verification] with
  | Some o => Ok o
  | None => Raise (RuntimeError ("Invalid branch export operation: " +:+ json_repr (get payload "operation")))
  end.

(** ** Reconciliation (reconciliation.py) *)

Definition conflicting_prepared (msg : string) : exn := OtherError "ConflictingPreparedBranchExport" msg.

(** Code: runtime/workspace/branch_export/reconciliation.py, _record_identity_matches. *)
Definition record_identity_matches (payload : dict json) (e : BranchExportRecordExpectation) : bool :=
  is_text (get payload "version") SCHEMA_VERSION && is_text (get payload "run_id") (be_run_id e)
  && is_text (get payload "run_key_name") (be_run_key_name e) && is_text (get payload "workflow_name") (pp_workflow_name (be_plan e))
  && is_text (get payload "workflow_signature") (pp_workflow_signature (be_plan e))
  && is_text (get payload "logical_worktree_name") (be_worktree_name e) && is_text (get payload "repository_id") (be_repository_id e)
  && is_text (get payload "node_id") (bc_node_id (be_checkpoint e)) && bool_decide (get payload "dry_run" = JBool false).

(** Code: runtime/workspace/branch_export/reconciliation.py, _checkpoint_matches. *)
Definition checkpoint_matches (payload : dict json) (c : BranchExportCheckpoint) : bool :=
  forallb (fun '(field, value) => json_equal (get payload field) value) (checkpoint_record c).

(** Code: runtime/workspace/branch_export/reconciliation.py, _worktree_contract_matches. *)
Definition worktree_contract_matches (payload : dict json) (policy : WorkspaceSelectionRecord) : bool :=
  json_equal (get payload "worktree_contract") (worktree_contract_json policy).

(** Code: runtime/workspace/branch_export/reconciliation.py, _prepared_record_matches. *)
Definition prepared_record_matches (payload : dict json) (e : BranchExportRecordExpectation) : bool :=
  record_identity_matches payload e && is_text (get payload "branch_name") (be_name e)
  && is_text (get payload "branch_ref") (be_branch_ref e) && is_text (get payload "operation") "prepared"
  && is_text (get payload "recovery_mode") "initial" && bool_decide (get payload "expected_old_oid" = JNull)
  && is_text (get payload "target_oid") (bc_result_commit (be_checkpoint e)) && checkpoint_matches payload (be_checkpoint e)
  && worktree_contract_matches payload (be_policy e).

(** Code: runtime/workspace/branch_export/reconciliation.py, _prepared_operation_origin. *)
Definition prepared_operation_origin (payload : dict json) : outcome BranchExportOrigin :=
  if is_text (get payload "operation_origin") "current_run" then Ok current_run
  else if is_text (get payload "operation_origin") "verified_history" then Ok verified_history
  else Raise (conflicting_prepared "Workspace branch export prepared evidence has an invalid origin.").

(** Code: runtime/workspace/branch_export/reconciliation.py, _reconcile_prepared_record. *)
Definition reconcile_prepared_record (payload : dict json) (e : BranchExportRecordExpectation) : outcome BranchExportReconciliation :=
  if negb (prepared_record_matches payload e)
  then Raise (conflicting_prepared "Workspace branch export has unresolved conflicting prepared evidence.")
  else origin ← prepared_operation_origin payload; mret (mkReconciliation prepared_record (Some origin) None).

(** Code: runtime/workspace/branch_export/reconciliation.py, _terminal_identity_matches. *)
Definition terminal_identity_matches (payload : dict json) (e : BranchExportRecordExpectation) : bool :=
  record_identity_matches payload e
  && existsb (is_text (get payload "operation_origin")) ["current_run"; "verified_history"]
  && existsb (is_text (get payload "recovery_mode")) ["initial"; "prepared_record"].

(** Code: runtime/workspace/branch_export/reconciliation.py, _skipped_terminal_record_matches. *)
Definition skipped_terminal_record_matches (payload : dict json) (e : BranchExportRecordExpectation) : bool :=
  let null key := bool_decide (get payload key = JNull) in
  terminal_identity_matches payload e && is_text (get payload "operation") "skipped"
  && is_text (get payload "skip_reason") "create_branch_false" && null "branch_name" && null "branch_ref"
  && null "branch_exists_before" && null "branch_exists_after" && is_text (get payload "recovery_mode") "initial".

(** Code: runtime/workspace/branch_export/reconciliation.py, _CHECKPOINT_FIELDS. *)
Definition CHECKPOINT_FIELDS : list string :=
  ["workspace_state_artifact"; "task_id"; "result_commit"; "result_tree"; "result_ref"; "bundle"].

(** Code: runtime/workspace/branch_export/reconciliation.py, _terminal_checkpoint_matches. *)
Definition terminal_checkpoint_matches (payload : dict json) (c : BranchExportCheckpoint) : bool :=
  negb (existsb (dmem payload) CHECKPOINT_FIELDS) || checkpoint_matches payload c.

(** Code: runtime/workspace/branch_export/reconciliation.py, _terminal_checkpoint_is_present. *)
Definition terminal_checkpoint_is_present (payload : dict json) : bool := forallb (dmem payload) CHECKPOINT_FIELDS.

(** Code: runtime/workspace/branch_export/reconciliation.py, _failed_terminal_record_matches. *)
Definition failed_terminal_record_matches (payload : dict json) (e : BranchExportRecordExpectation) : bool :=
  terminal_identity_matches payload e && is_text (get payload "operation") "failed_verification"
  && match get payload "failure_message" with JStr _ => true | _ => false end && json_equal (get payload "branch_exists_after") (get payload "branch_exists_before")
  && terminal_checkpoint_matches payload (be_checkpoint e)
  && (negb (is_text (get payload "recovery_mode") "prepared_record") || terminal_checkpoint_is_present payload).

(** Code: runtime/workspace/branch_export/reconciliation.py, _terminal_branch_identity_is_valid. *)
Definition terminal_branch_identity_is_valid (payload : dict json) : bool :=
  match get payload "branch_name" with
  | JStr name => nonempty name && is_text (get payload "branch_ref") ("refs/heads/" +:+ name)
  | _ => false
  end.

(** Code: runtime/workspace/branch_export/reconciliation.py, _fulfilled_operation_matches. *)
Definition fulfilled_operation_matches (payload : dict json) : bool :=
  (is_text (get payload "operation") "created" && bool_decide (get payload "branch_exists_before" = JBool false))
  || (is_text (get payload "operation") "verified_existing" && bool_decide (get payload "branch_exists_before" = JBool true)).

(** Code: runtime/workspace/branch_export/reconciliation.py, _terminal_operation_tuple_is_valid. *)
Definition terminal_operation_tuple_is_valid (payload : dict json) : bool :=
  if is_text (get payload "recovery_mode") "initial" && is_text (get payload "operation") "verified_existing"
  then is_text (get payload "operation_origin") "verified_history"
  else existsb (is_text (get payload "recovery_mode")) ["initial"; "prepared_record"].

(** Code: runtime/workspace/branch_export/reconciliation.py, _fulfilled_terminal_record_matches. *)
Definition fulfilled_terminal_record_matches (payload : dict json) (e : BranchExportRecordExpectation) : bool :=
  terminal_identity_matches payload e && terminal_branch_identity_is_valid payload && fulfilled_operation_matches payload
  && bool_decide (get payload "branch_exists_after" = JBool true) && terminal_operation_tuple_is_valid payload
  && checkpoint_matches payload (be_checkpoint e) && worktree_contract_matches payload (be_policy e).

(** Code: runtime/workspace/branch_export/reconciliation.py, _terminal_record_matches. *)
Definition terminal_record_matches (payload : dict json) (e : BranchExportRecordExpectation) : bool :=
  if is_text (get payload "status") "skipped" then skipped_terminal_record_matches payload e
  else if is_text (get payload "status") "failed_verification" then failed_terminal_record_matches payload e
  else if is_text (get payload "status") "fulfilled" then fulfilled_terminal_record_matches payload e
  else false.

(** Code: runtime/workspace/branch_export/reconciliation.py, _validate_terminal_record. *)
Definition validate_terminal_record (payload : dict json) (e : BranchExportRecordExpectation) : outcome unit :=
  if terminal_record_matches payload e then Ok tt
  else Raise (RuntimeError "Workspace branch export terminal history contradicts the current run.").

(** Code: runtime/workspace/branch_export/reconciliation.py, _reconcile_terminal_record. *)
Definition reconcile_terminal_record (payload : dict json) (e : BranchExportRecordExpectation) : outcome BranchExportReconciliation :=
  _ ← validate_terminal_record payload e;
  if is_text (get payload "status") "fulfilled" && is_text (get payload "branch_ref") (be_branch_ref e)
     && is_text (get payload "result_commit") (bc_result_commit (be_checkpoint e))
     && is_text (get payload "result_tree") (bc_result_tree (be_checkpoint e))
  then Ok (mkReconciliation recovery_initial None (Some payload))
  else Ok (mkReconciliation recovery_initial None None).

(** ** The host *)

(** The result of a git command: its output, its exit code with the text of the
    error stream and of the exception, or a timeout. *)
Inductive GitResult :=
| GitDone (stdout : string)
| GitFailed (returncode : Z) (stderr message : string)
| GitTimeout (message : string)
| GitRaised (e : exn).

(** What a path holds: nothing, something that is no regular file, a file that
    is not JSON, or a JSON document. *)
Inductive FileContent := FileAbsent | FileUnsafe | FileUnreadable | FileJson (v : json).

(** The fields of a source reference that an export compares.
    Code: runtime/workspace/worktree/types.py, WorktreeSourceRef. *)
Record WorktreeSourceRef := mkSourceRef {
  sf_source_commit : string;
  sf_source_tree : string;
  sf_bundle_path : option string;
  sf_bundle_sha256 : option string;
  sf_bundle_size_bytes : option Z;
  sf_bundle_ref : option string
}.

(** Verification of the recorded lineage: the final result differs, another
    lineage error, another [RuntimeError], another error. *)
Inductive LineageVerification :=
| LineageVerified
| LineageResultMismatch (msg : string)
| LineageError (msg : string)
| LineageRuntimeError (msg : string)
| LineageRaised (e : exn).

(** What exports use of the repository, the files of a run and the clock, on
    states of the host [W]. *)
Class ExportHost (W : Type) := {
  git_run : string -> list string -> W -> GitResult * W;
  lock_git : string -> M W unit;
  unlock_git : string -> M W unit;
  file_at : W -> string -> FileContent;
  write_json : string -> json -> M W unit;
  now : M W string;
  lineage_state_path : PreflightExecutionNode -> M W string;
  load_source_ref : string -> M W WorktreeSourceRef;
  verify_source : ExportSource -> WorktreeSourceRef -> W -> LineageVerification * W;
  resolve_common_git_dir : string -> M W string;
  resolve_path : string -> string;
  contained_regular_file : W -> string -> string -> option string;
  file_size_and_sha256 : string -> M W (Z * string);
  enter_source : BranchExportAttempt -> WorktreeSourceRef -> M W unit;
  exit_source : BranchExportAttempt -> WorktreeSourceRef -> M W unit;
  refresh_descriptor : BranchExportRun -> PreflightExecutionNode -> M W unit
}.

Definition completed_error (msg : string) : exn := OtherError "BranchExportOperationCompletedError" msg.
Definition ambiguous_error (msg : string) : exn := OtherError "_BranchRefUpdateOutcomeAmbiguousError" msg.
Definition symbolic_error (msg : string) : exn := OtherError "_SymbolicBranchRefError" msg.
Definition called_process_error (msg : string) : exn := OtherError "CalledProcessError" msg.
Definition timeout_expired (msg : string) : exn := OtherError "TimeoutExpired" msg.

(** Whether [except cls] catches [e]. *)
Definition has_class (cls : string) (e : exn) : bool := bool_decide (exn_class e = cls).

(** [except Exception]. *)
Definition is_exception (e : exn) : bool := negb (bool_decide (e = CancelledError)).

(** [with enter: body], with [exit] at its end, and how the body ended. *)
Definition scoped {W A} (enter exit : M W unit) (body : M W A) : W -> outcome A * option (outcome A) * W := fun w =>
  match enter w with
  | (Ok _, w1) =>
      let '(inner, w2) := body w1 in
      match exit w2 with
      | (Ok _, w3) => (inner, Some inner, w3)
      | (Raise e, w3) => (Raise e, Some inner, w3)
      | (OutOfFuel, w3) => (OutOfFuel, Some inner, w3)
      end
  | (Raise e, w1) => (Raise e, None, w1)
  | (OutOfFuel, w1) => (OutOfFuel, None, w1)
  end.

Section Exporting.
Context {hash : HashLibrary} {W : Type} {host : ExportHost W}.

(** ** Branches of the repository (git.py) *)

Definition run_git (source : ExportSource) (args : list string) : M W GitResult := fun w =>
  let '(r, w') := git_run (xs_git_top_level source) args w in (Ok r, w').

(** The exceptions of a command whose failure is not handled. *)
Definition checked_result (r : GitResult) : M W string :=
  match r with
  | GitDone out => ret out
  | GitFailed _ _ m => raise (called_process_error m)
  | GitTimeout m => raise (timeout_expired m)
  | GitRaised e => raise e
  end.

(** [command.text(args)]. *)
Definition git_text (source : ExportSource) (args : list string) : M W string :=
  r ← run_git source args; out ← checked_result r; ret (str_strip out).

(** Code: runtime/workspace/branch_export/git.py, validated_branch_ref. *)
Definition validated_branch_ref (source : ExportSource) (name : string) : M W string :=
  if str_startswith "refs/" name then raise (RuntimeError "Branch export branch_name must not include refs/.")
  else
    let branch_ref := "refs/heads/" +:+ name in
    r ← run_git source ["check-ref-format"; "--normalize"; branch_ref];
    match r with
    | GitFailed _ stderr message =>
        let text := if nonempty (str_strip stderr) then str_strip stderr else message in
        raise (RuntimeError ("Invalid branch export branch name '" +:+ name +:+ "': " +:+ text))
    | r =>
        out ← checked_result r;
        if bool_decide (str_strip out = branch_ref) then ret (str_strip out)
        else raise (RuntimeError ("Unsafe branch export branch name '" +:+ name +:+ "'."))
    end.

(** Code: runtime/workspace/branch_export/git.py, _reject_symbolic_branch_ref. *)
Definition reject_symbolic_branch_ref (source : ExportSource) (branch_ref : string) : M W unit :=
  r ← run_git source ["symbolic-ref"; "-q"; branch_ref];
  match r with
  | GitFailed 1 _ _ => ret tt
  | r =>
      out ← checked_result r;
      raise (symbolic_error ("Workspace branch export destination is symbolic and was retained: "
                             +:+ branch_ref +:+ " -> " +:+ str_strip out +:+ "."))
  end.

(** Code: runtime/workspace/branch_export/git.py, branch_commit. *)
Definition branch_commit (source : ExportSource) (branch_ref : string) : M W (option string) :=
  reject_symbolic_branch_ref source branch_ref;;
  r ← run_git source ["show-ref"; "--verify"; "--quiet"; branch_ref];
  match r with
  | GitFailed 1 _ _ => ret None
  | r => checked_result r;; commit ← git_text source ["rev-parse"; "--verify"; branch_ref +:+ "^{commit}"]; ret (Some commit)
  end.

(** Code: runtime/workspace/branch_export/git.py, branch_ref_exists. *)
Definition branch_ref_exists (source : ExportSource) (branch_ref : string) : M W bool :=
  commit ← branch_commit source branch_ref; ret (is_some commit).

(** Code: runtime/workspace/branch_export/git.py, _existing_branch_message. *)
Definition existing_branch_message (branch_ref : string) : string :=
  "Workspace branch export refuses to overwrite existing branch '" +:+ removeprefix "refs/heads/" branch_ref +:+ "'.".

(** Code: runtime/workspace/branch_export/git.py, planned_branch_operation. *)
Definition planned_branch_operation (source : ExportSource) (branch_ref result_commit : string)
    : M W (BranchExportOperation * option string) := fun w =>
  match branch_commit source branch_ref w with
  | (Ok None, w') => (Ok (op_created, None), w')
  | (Ok (Some current), w') =>
      (Ok (if bool_decide (current = result_commit) then (op_verified_existing, None)
           else (op_failed_verification, Some (existing_branch_message branch_ref))), w')
  | (Raise e, w') => (if has_class "_SymbolicBranchRefError" e then Ok (op_failed_verification, Some (exn_str e)) else Raise e, w')
  | (OutOfFuel, w') => (OutOfFuel, w')
  end.

(** Code: runtime/workspace/branch_export/git.py, _create_missing_branch_ref. *)
Definition create_missing_branch_ref (source : ExportSource) (branch_ref result_commit : string) (allow_existing : bool)
    : M W BranchExportOperation :=
  r ← run_git source ["update-ref"; "--no-deref"; branch_ref; result_commit; ""];
  match r with
  | GitTimeout m => raise (ambiguous_error m)
  | GitFailed code stderr m =>
      raced_commit ← branch_commit source branch_ref;
      if allow_existing && bool_decide (raced_commit = Some result_commit) then ret op_verified_existing
      else if is_some raced_commit then raise (RuntimeError (existing_branch_message branch_ref))
      else raise (called_process_error m)
  | GitRaised e => raise e
  | GitDone _ => ret op_created
  end.

(** Code: runtime/workspace/branch_export/git.py, _create_or_verify_locked_branch_ref. *)
Definition create_or_verify_locked_branch_ref (source : ExportSource) (branch_ref result_commit : string)
    (allow_existing allow_create : bool) : M W BranchExportOperation :=
  current ← branch_commit source branch_ref;
  match current with
  | Some current_commit =>
      if allow_existing && bool_decide (current_commit = result_commit) then ret op_verified_existing
      else raise (RuntimeError (existing_branch_message branch_ref))
  | None =>
      if negb allow_create
      then raise (RuntimeError "Workspace branch export destination branch disappeared before locked verification.")
      else create_missing_branch_ref source branch_ref result_commit allow_existing
  end.

(** An error after the operation is one that says so. *)
Definition after_operation {A} (completed : exn -> bool) (r : outcome A * option (outcome A) * W) : outcome A * W :=
  let '(result, inner, w) := r in
  match result with
  | Raise e =>
      let done := match inner with Some (Ok _) => true | Some (Raise e') => completed e' | _ => false end in
      (Raise (if is_exception e && done then completed_error (exn_str e) else e), w)
  | _ => (result, w)
  end.

(** Code: runtime/workspace/branch_export/git.py, create_or_verify_branch_ref. *)
Definition create_or_verify_branch_ref (source : ExportSource) (branch_ref result_commit : string)
    (allow_existing allow_create : bool) : M W BranchExportOperation := fun w =>
  after_operation (has_class "_BranchRefUpdateOutcomeAmbiguousError")
    (scoped (lock_git (xs_common_git_dir source)) (unlock_git (xs_common_git_dir source))
       (create_or_verify_locked_branch_ref source branch_ref result_commit allow_existing allow_create) w).

(** Code: runtime/workspace/branch_export/fulfillment.py, create_branch_export_ref. *)
Definition create_branch_export_ref (source : ExportSource) (branch_ref : string) (checkpoint : BranchExportCheckpoint)
    (allow_existing allow_create : bool) : M W BranchExportOperation :=
  create_or_verify_branch_ref source branch_ref (bc_result_commit checkpoint) allow_existing allow_create.

(** ** Checkpoints (checkpoint.py) *)

(** Code: runtime/workspace/branch_export/checkpoint.py, _workspace_state_payload. *)
Definition workspace_state_payload (state_path : string) : M W (dict json) :=
  content ← read (fun w => file_at w state_path);
  match content with
  | FileJson (JObj payload) => ret payload
  | FileJson _ => raise (RuntimeError ("Workspace branch export state is invalid: " +:+ state_path))
  | _ => raise (RuntimeError ("Workspace branch export state is unreadable: " +:+ state_path))
  end.

(** Code: artifacts/workspace/state/validation.py, workspace_state_identity_matches. *)
Definition workspace_state_identity_matches (plan : PreflightExecutionPlan) (node : PreflightExecutionNode) (payload : dict json)
    (run_id run_key_name : string) : bool :=
  is_text (get payload "version") SCHEMA_VERSION && is_text (get payload "run_id") run_id
  && is_text (get payload "run_key_name") run_key_name && is_text (get payload "workflow_name") (pp_workflow_name plan)
  && is_text (get payload "workflow_signature") (pp_workflow_signature plan) && is_text (get payload "node_id") (en_id node).

(** Code: core/workspace/repository_identity.py, workspace_repository_id. *)
Definition workspace_repository_id (common_git_dir project_root object_format : string) : string :=
  sha256 (str_join "|" [resolve_path common_git_dir; resolve_path project_root; object_format]).

(** Code: runtime/workspace/branch_export/checkpoint.py, _require_current_repository_identity. *)
Definition require_current_repository_identity (source : ExportSource) : M W unit :=
  let repo_root := xs_git_top_level source in
  common_git_dir ← resolve_common_git_dir repo_root;
  object_format ← git_text source ["rev-parse"; "--show-object-format=storage"];
  let current := workspace_repository_id common_git_dir (path_join repo_root (xs_project_root_relative_path source)) object_format in
  if bool_decide (common_git_dir = resolve_path (xs_common_git_dir source)) && bool_decide (current = xs_repository_id source) then ret tt
  else raise (RuntimeError "Workspace branch export repository identity changed.").

(** Code: runtime/workspace/branch_export/checkpoint.py, _validate_state_header. *)
Definition validate_state_header (a : BranchExportAttempt) (payload : dict json) : M W unit :=
  let run := ba_run a in
  let workspace := mapping (get payload "workspace") in
  let git_payload := mapping (get payload "git") in
  if workspace_state_identity_matches (br_plan run) (ba_node a) payload (br_run_id run) (br_run_key_name run)
     && is_text (get payload "status") "succeeded" && is_text (get payload "role") (role_value EXECUTOR)
     && is_text (get payload "workspace_kind") "worktree"
     && json_equal (get payload "logical_worktree_name") (jopt JStr (wp_logical_worktree_name (ba_policy a)))
     && json_equal (get payload "worktree_contract") (worktree_contract_json (ba_policy a))
     && is_text (get workspace "materialization") "worktree_checkout"
     && bool_decide (get workspace "lineage_producer" = JBool true)
     && is_text (get git_payload "repo_id") (xs_repository_id (br_source run))
  then require_current_repository_identity (br_source run)
  else raise (RuntimeError ("Workspace branch export state does not match node '" +:+ en_id (ba_node a) +:+ "'.")).

(** [Path(text).parts] of a relative path. *)
Definition path_parts (path : string) : list string :=
  List.filter (fun part => nonempty part && negb (bool_decide (part = "."))) (str_split_on "/"%char path).

(** The parts after the first [name]. *)
Fixpoint parts_after (name : string) (parts : list string) : option (list string) :=
  match parts with
  | [] => None
  | part :: rest => if bool_decide (part = name) then Some rest else parts_after name rest
  end.

(** Code: runtime/workspace/branch_export/checkpoint.py, _contained_bundle_file. *)
Definition contained_bundle_file (w : W) (stages_dir relative_path : string) : option string :=
  match contained_regular_file w stages_dir relative_path with
  | Some path => Some path
  | None =>
      match parts_after "execution-stages" (path_parts relative_path) with
      | Some (run_dir :: part :: rest) =>
          if bool_decide (last (path_parts stages_dir) = Some run_dir)
          then contained_regular_file w stages_dir (str_join "/" (part :: rest)) else None
      | _ => None
      end
  end.

(** Code: runtime/workspace/branch_export/checkpoint.py, _validated_bundle. *)
Definition validated_bundle (stages_dir : string) (payload : dict json) : M W (string * string * string * Z) :=
  let bundle := mapping (get payload "bundle") in
  match required_string (get bundle "path"), required_string (get bundle "sha256"), get bundle "size_bytes",
        bool_decide (get bundle "verified" = JBool true) with
  | Some relative_path, Some sha256, JInt size_bytes, true =>
      bundle_path ← read (fun w => contained_bundle_file w stages_dir relative_path);
      match bundle_path with
      | None => raise (RuntimeError "Workspace branch export bundle is missing or unsafe.")
      | Some bundle_path =>
          '(actual_size, actual_sha256) ← file_size_and_sha256 bundle_path;
          if negb (actual_size =? size_bytes) then raise (RuntimeError "Workspace branch export bundle size mismatch.")
          else if negb (bool_decide (actual_sha256 = sha256)) then raise (RuntimeError "Workspace branch export bundle digest mismatch.")
          else ret (bundle_path, relative_path, sha256, size_bytes)
      end
  | _, _, _, _ => raise (RuntimeError "Workspace branch export checkpoint lacks a bundle.")
  end.

(** Code: runtime/workspace/branch_export/checkpoint.py, _reject_source_ref_mismatch. *)
Definition reject_source_ref_mismatch (source_ref : WorktreeSourceRef) (result_commit result_tree result_ref bundle_path bundle_sha256 : string)
    (bundle_size_bytes : Z) : M W unit :=
  if bool_decide (sf_source_commit source_ref = result_commit) && bool_decide (sf_source_tree source_ref = result_tree)
     && bool_decide (sf_bundle_ref source_ref = Some result_ref) && bool_decide (sf_bundle_path source_ref = Some bundle_path)
     && bool_decide (sf_bundle_sha256 source_ref = Some bundle_sha256)
     && bool_decide (sf_bundle_size_bytes source_ref = Some bundle_size_bytes)
  then ret tt else raise (RuntimeError "Workspace branch export checkpoint source descriptor mismatch.").

(** Code: runtime/workspace/branch_export/checkpoint.py, _verify_branch_export_source_available. *)
Definition verify_branch_export_source_available (source : ExportSource) (source_ref : WorktreeSourceRef) : M W unit := fun w =>
  let '(r, w') := verify_source source source_ref w in
  (match r with
   | LineageVerified => Ok tt
   | LineageResultMismatch _ =>
       Raise (RuntimeError "Workspace branch export bundle final result does not match the recorded commit and tree.")
   | LineageError msg => Raise (RuntimeError msg)
   | LineageRuntimeError msg =>
       Raise (RuntimeError ("Workspace lineage source verification failed while validating recorded Git artifacts: " +:+ msg))
   | LineageRaised e => Raise e
   end, w').

(** Code: runtime/workspace/branch_export/checkpoint.py, validated_checkpoint. *)
Definition validated_checkpoint (a : BranchExportAttempt) : M W BranchExportCheckpoint :=
  let run := ba_run a in
  state_path ← lineage_state_path (ba_node a);
  payload ← workspace_state_payload state_path;
  lift (require_workspace_state_contract payload for_export);;
  validate_state_header a payload;;
  let result := mapping (get payload "result") in
  let refs := mapping (get payload "refs") in
  match is_git_object_id (get result "result_commit"), get result "result_commit", is_git_object_id (get result "result_tree"),
        get result "result_tree", required_string (get refs "result") with
  | true, JStr result_commit, true, JStr result_tree, Some result_ref =>
      source_ref ← load_source_ref state_path;
      '(bundle_path, bundle_relative_path, bundle_sha256, bundle_size_bytes) ← validated_bundle (br_stages_dir run) payload;
      reject_source_ref_mismatch source_ref result_commit result_tree result_ref bundle_path bundle_sha256 bundle_size_bytes;;
      verify_branch_export_source_available (br_source run) source_ref;;
      match relative_to state_path (br_stages_dir run) with
      | None => raise (ValueError (quoted state_path +:+ " is not in the subpath of " +:+ quoted (br_stages_dir run)))
      | Some relative =>
          ret (mkExportCheckpoint state_path relative (en_id (ba_node a)) (default "" (required_string (get payload "task_id")))
                 result_commit result_tree result_ref bundle_path bundle_relative_path bundle_sha256 bundle_size_bytes)
      end
  | _, _, _, _, _ => raise (RuntimeError ("Workspace branch export checkpoint is incomplete for node '" +:+ en_id (ba_node a) +:+ "'."))
  end.

(** ** Attempts (attempts.py) *)

(** Code: runtime/workspace/branch_export/attempts.py, BranchExportAttempt.record_path. *)
Definition export_record_path (run : BranchExportRun) (logical_worktree_name : string) : outcome string :=
  relative ← workspace_export_relative_path logical_worktree_name; mret (path_join (br_stages_dir run) relative).

(** The writers of both callers write the record of a worktree below the
    directory of the run.
    Code: runtime/workspace/branch_export/orchestration.py, fulfill_branch_exports_from_history.write_record. *)
Definition write_record (run : BranchExportRun) (logical_worktree_name : string) (payload : dict json) : M W string :=
  path ← lift (export_record_path run logical_worktree_name);
  write_json path (JObj payload);;
  ret path.

(** [record_path.exists(follow_symlinks=False)]. *)
Definition record_exists (a : BranchExportAttempt) : M W bool :=
  path ← lift (export_record_path (ba_run a) (ba_logical_worktree_name a));
  read (fun w => match file_at w path with FileAbsent => false | _ => true end).

(** Code: runtime/workspace/branch_export/reconciliation.py, _load_record. *)
Definition load_record (path : string) : M W (dict json) :=
  content ← read (fun w => file_at w path);
  match content with
  | FileAbsent | FileUnsafe => raise (OtherError "UnsafeBranchExportRecord" "Workspace branch export record is missing or unsafe.")
  | FileUnreadable => raise (RuntimeError "Workspace branch export record is unreadable.")
  | FileJson (JObj payload) => ret payload
  | FileJson _ => raise (RuntimeError "Workspace branch export record is invalid.")
  end.

(** Code: runtime/workspace/branch_export/reconciliation.py, classify_branch_export_record. *)
Definition classify_branch_export_record (path : string) (e : BranchExportRecordExpectation) : M W BranchExportReconciliation :=
  absent ← read (fun w => match file_at w path with FileAbsent => true | _ => false end);
  if absent : bool then ret (mkReconciliation recovery_initial None None)
  else
    payload ← load_record path;
    if is_text (get payload "status") "prepared" then lift (reconcile_prepared_record payload e)
    else if existsb (is_text (get payload "status")) ["fulfilled"; "skipped"; "failed_verification"]
    then lift (reconcile_terminal_record payload e)
    else raise (RuntimeError "Workspace branch export record is malformed; rerun or regenerate the workspace artifacts.").

(** Code: runtime/workspace/branch_export/attempts.py, _branch_name. *)
Definition attempt_branch_name (a : BranchExportAttempt) : outcome string :=
  branch_name (br_plan (ba_run a)) (ba_policy a) (ba_logical_worktree_name a) (br_run_key_name (ba_run a)).

Definition attempt_expectation (a : BranchExportAttempt) (name branch_ref : string) (c : BranchExportCheckpoint)
    : BranchExportRecordExpectation :=
  let run := ba_run a in
  mkExpectation (br_plan run) (br_run_id run) (br_run_key_name run) (xs_repository_id (br_source run)) (ba_logical_worktree_name a) name
    branch_ref c (ba_policy a).

(** Code: runtime/workspace/branch_export/attempts.py, _reconcile_attempt. *)
Definition reconcile_attempt (a : BranchExportAttempt) (name branch_ref : string) (c : BranchExportCheckpoint)
    : M W ValidatedBranchExportAttempt :=
  path ← lift (export_record_path (ba_run a) (ba_logical_worktree_name a));
  reconciliation ← classify_branch_export_record path (attempt_expectation a name branch_ref c);
  ret (mkValidated a name branch_ref c reconciliation).

(** Code: runtime/workspace/branch_export/attempts.py, _prepared_record. *)
Definition prepared_attempt_record (a : ValidatedBranchExportAttempt) : M W (dict json) :=
  created_at ← now;
  let request := va_request a in
  ret (prepared_branch_export_record (ba_run request) (ba_logical_worktree_name request) (va_branch_name a) (va_branch_ref a)
         (va_checkpoint a) (ba_policy request) (va_operation_origin a) (rc_recovery_mode (va_reconciliation a)) created_at).

(** Code: runtime/workspace/branch_export/attempts.py, _fulfilled_record. *)
Definition fulfilled_attempt_record (a : ValidatedBranchExportAttempt) (operation : BranchExportOperation)
    (branch_exists_before dry_run : bool) : M W (dict json) :=
  created_at ← now;
  let request := va_request a in
  ret (branch_export_record (ba_run request) (ba_logical_worktree_name request) (va_branch_name a) (va_branch_ref a) (va_checkpoint a)
         (ba_policy request) operation branch_exists_before (if dry_run then branch_exists_before else true) (va_operation_origin a)
         (rc_recovery_mode (va_reconciliation a)) dry_run created_at).

(** Code: runtime/workspace/branch_export/attempts.py, _skipped_record. *)
Definition skipped_attempt_record (a : BranchExportAttempt) (origin : BranchExportOrigin) (dry_run : bool) : M W (dict json) :=
  created_at ← now;
  ret (skipped_branch_export_record (ba_run a) (ba_logical_worktree_name a) (en_id (ba_node a)) dry_run origin created_at).

(** Code: runtime/workspace/branch_export/attempts.py, _failed_record. *)
Definition failed_attempt_record (a : BranchExportAttempt) (name branch_ref : option string) (c : option BranchExportCheckpoint)
    (branch_exists_before : option bool) (failure_message : string) (origin : BranchExportOrigin)
    (recovery_mode : BranchExportRecoveryMode) (dry_run : bool) : M W (dict json) :=
  created_at ← now;
  ret (failed_branch_export_record (ba_run a) (ba_logical_worktree_name a) (en_id (ba_node a)) name branch_ref c branch_exists_before
         failure_message dry_run origin recovery_mode created_at).

(** Code: runtime/workspace/branch_export/attempts.py, _create_branch_export_ref_with_source. *)
Definition create_branch_export_ref_with_source (a : ValidatedBranchExportAttempt) (allow_existing allow_create : bool)
    : M W BranchExportOperation :=
  source_ref ← load_source_ref (bc_state_path (va_checkpoint a));
  ((fun w => after_operation (has_class "BranchExportOperationCompletedError")
     (scoped (enter_source (va_request a) source_ref) (exit_source (va_request a) source_ref)
        (create_branch_export_ref (br_source (ba_run (va_request a))) (va_branch_ref a) (va_checkpoint a) allow_existing allow_create) w))
   : M W BranchExportOperation).

(** Code: runtime/workspace/branch_export/attempts.py, _should_skip_reconciled_attempt. *)
Definition should_skip_reconciled_attempt (a : ValidatedBranchExportAttempt) : bool :=
  negb (be_create_branch (wp_branch_export (ba_policy (va_request a))))
  && negb (bool_decide (rc_recovery_mode (va_reconciliation a) = prepared_record)).

(** Code: runtime/workspace/branch_export/attempts.py, _fulfill_after_branch_probe. *)
Definition fulfill_after_branch_probe (a : ValidatedBranchExportAttempt) (branch_exists_before : bool) : M W (dict json) :=
  match rc_idempotent_payload (va_reconciliation a), branch_exists_before with
  | Some payload, true => create_branch_export_ref_with_source a true false;; ret payload
  | _, _ =>
      let recovering := bool_decide (rc_recovery_mode (va_reconciliation a) = prepared_record) in
      let allow_create := recovering || negb branch_exists_before in
      (if allow_create && negb recovering
       then record ← prepared_attempt_record a;
            write_record (ba_run (va_request a)) (ba_logical_worktree_name (va_request a)) record;; ret tt
       else ret tt);;
      operation ← create_branch_export_ref_with_source a
        (bool_decide (va_operation_origin a = verified_history) || recovering) allow_create;
      fulfilled_attempt_record a operation (bool_decide (operation = op_verified_existing)) false
  end.

(** Code: runtime/workspace/branch_export/attempts.py, _reconciled_failure_message. *)
Definition reconciled_failure_message (a : ValidatedBranchExportAttempt) (e : exn) : M W (option string) :=
  match rc_idempotent_payload (va_reconciliation a) with
  | None => ret (Some (exn_str e))
  | Some _ =>
      '(_, collision_message) ← planned_branch_operation (br_source (ba_run (va_request a))) (va_branch_ref a)
                                  (bc_result_commit (va_checkpoint a));
      ret collision_message
  end.

(** The record of a failure after the record has been reconciled.
    Code: runtime/workspace/branch_export/attempts.py:246-259. *)
Definition reconciled_failure (a : ValidatedBranchExportAttempt) (branch_exists_before : option bool) (e : exn) : M W (dict json) :=
  if has_class "BranchExportOperationCompletedError" e || negb (is_exception e) then raise e
  else
    message ← reconciled_failure_message a e;
    match message with
    | None => raise e
    | Some message =>
        failed_attempt_record (va_request a) (Some (va_branch_name a)) (Some (va_branch_ref a)) (Some (va_checkpoint a))
          branch_exists_before message (va_operation_origin a) (rc_recovery_mode (va_reconciliation a)) false
    end.

(** Code: runtime/workspace/branch_export/attempts.py, _fulfill_validated_attempt. *)
Definition fulfill_validated_attempt (a : ValidatedBranchExportAttempt) : M W (dict json) :=
  if should_skip_reconciled_attempt a
  then try_except (skipped_attempt_record (va_request a) (ba_operation_origin (va_request a)) false) (reconciled_failure a None)
  else fun w =>
    match branch_ref_exists (br_source (ba_run (va_request a))) (va_branch_ref a) w with
    | (Ok before, w') => try_except (fulfill_after_branch_probe a before) (reconciled_failure a (Some before)) w'
    | (Raise e, w') => reconciled_failure a None e w'
    | (OutOfFuel, w') => (OutOfFuel, w')
    end.

(** What the first part of a fulfillment finds out before it raises: the
    checkpoint and the branch. *)
Definition validated_destination (a : BranchExportAttempt) (name : string)
    : W -> outcome (BranchExportCheckpoint * string) * option BranchExportCheckpoint * W := fun w =>
  match validated_checkpoint a w with
  | (Ok c, w1) =>
      match validated_branch_ref (br_source (ba_run a)) name w1 with
      | (Ok branch_ref, w2) => (Ok (c, branch_ref), Some c, w2)
      | (Raise e, w2) => (Raise e, Some c, w2)
      | (OutOfFuel, w2) => (OutOfFuel, Some c, w2)
      end
  | (Raise e, w1) => (Raise e, None, w1)
  | (OutOfFuel, w1) => (OutOfFuel, None, w1)
  end.

(** Code: runtime/workspace/branch_export/attempts.py, fulfillment_payload. *)
Definition fulfillment_payload (a : BranchExportAttempt) : M W (dict json) :=
  existed ← record_exists a;
  if negb (be_create_branch (wp_branch_export (ba_policy a))) && negb existed then skipped_attempt_record a (ba_operation_origin a) false
  else
    name ← lift (attempt_branch_name a);
    ((fun w =>
      match validated_destination a name w with
      | (Ok (c, branch_ref), _, w') =>
          (validated ← reconcile_attempt a name branch_ref c; fulfill_validated_attempt validated) w'
      | (Raise e, c, w') =>
          if negb (is_exception e) then (Raise e, w')
          else (exists_now ← record_exists a;
                if existed || exists_now then raise e
                else failed_attempt_record a (Some name) None c None (exn_str e) (ba_operation_origin a) recovery_initial false) w'
      | (OutOfFuel, _, w') => (OutOfFuel, w')
      end) : M W (dict json)).

(** Code: runtime/workspace/branch_export/attempts.py, _preview_validated_attempt. *)
Definition preview_validated_attempt (a : ValidatedBranchExportAttempt) : M W (dict json) :=
  if should_skip_reconciled_attempt a then skipped_attempt_record (va_request a) (va_operation_origin a) true
  else
    '(operation, failure_message) ← planned_branch_operation (br_source (ba_run (va_request a))) (va_branch_ref a)
                                      (bc_result_commit (va_checkpoint a));
    match failure_message with
    | Some message =>
        failed_attempt_record (va_request a) (Some (va_branch_name a)) (Some (va_branch_ref a)) (Some (va_checkpoint a)) (Some true) message
          (va_operation_origin a) (rc_recovery_mode (va_reconciliation a)) true
    | None => fulfilled_attempt_record a operation (bool_decide (operation = op_verified_existing)) true
    end.

(** The record of a preview that raised [e].
    Code: runtime/workspace/branch_export/attempts.py:145-167. *)
Definition preview_failure (a : BranchExportAttempt) (name : string) (branch_ref : option string) (c : option BranchExportCheckpoint)
    (validated : option ValidatedBranchExportAttempt) (e : exn) : M W (dict json) :=
  if negb (is_exception e) then raise e
  else
    failed_attempt_record a (Some name) branch_ref c None (exn_str e)
      (match validated with Some v => va_operation_origin v | None => ba_operation_origin a end)
      (match validated with Some v => rc_recovery_mode (va_reconciliation v) | None => recovery_initial end) true.

(** Code: runtime/workspace/branch_export/attempts.py, preview_payload. *)
Definition preview_payload (a : BranchExportAttempt) : M W (dict json) :=
  existed ← record_exists a;
  if negb (be_create_branch (wp_branch_export (ba_policy a))) && negb existed then skipped_attempt_record a verified_history true
  else
    name ← lift (attempt_branch_name a);
    ((fun w =>
      match validated_destination a name w with
      | (Ok (c, branch_ref), _, w') =>
          match reconcile_attempt a name branch_ref c w' with
          | (Ok validated, w2) =>
              try_except (preview_validated_attempt validated) (preview_failure a name (Some branch_ref) (Some c) (Some validated)) w2
          | (Raise e, w2) => preview_failure a name (Some branch_ref) (Some c) None e w2
          | (OutOfFuel, w2) => (OutOfFuel, w2)
          end
      | (Raise e, c, w') => preview_failure a name None c None e w'
      | (OutOfFuel, _, w') => (OutOfFuel, w')
      end) : M W (dict json)).

(** ** Fulfillment in the workspace state (fulfillment.py) *)

(** Code: runtime/workspace/state.py, read_workspace_state. *)
Definition read_workspace_state (state_path : string) : M W (dict json) :=
  content ← read (fun w => file_at w state_path);
  match content with
  | FileJson (JObj payload) => ret payload
  | _ => raise (RuntimeError ("Invalid workspace state: " +:+ state_path))
  end.

(** Code: runtime/workspace/state.py, edit_workspace_state..mutate_workspace_state. *)
Definition mutate_workspace_state (state_path : string) (mutation : dict json -> dict json) : M W unit :=
  payload ← read_workspace_state state_path;
  updated_at ← now;
  write_json state_path (JObj (dset (mutation payload) "updated_at" (JStr updated_at))).

(** [record_path.relative_to(stages_dir).as_posix()], or the path itself. *)
Definition record_relative_path (run : BranchExportRun) (record_path : string) : string :=
  default record_path (relative_to record_path (br_stages_dir run)).

(** Code: runtime/workspace/branch_export/fulfillment.py, record_branch_export_fulfillment. *)
Definition record_branch_export_fulfillment (run : BranchExportRun) (node : PreflightExecutionNode) (checkpoint : BranchExportCheckpoint)
    (record_path : string) (payload : dict json) (operation : BranchExportOperation) : M W unit :=
  status ← lift (ditem payload "status");
  branch_name ← lift (ditem payload "branch_name");
  branch_ref ← lift (ditem payload "branch_ref");
  created_at ← lift (ditem payload "created_at");
  let branch_export :=
    [("status", status); ("operation", JStr (operation_value operation)); ("branch_name", branch_name);
     ("branch_ref", branch_ref); ("record_artifact", JStr (record_relative_path run record_path));
     ("result_commit", JStr (bc_result_commit checkpoint)); ("result_tree", JStr (bc_result_tree checkpoint));
     ("completed_at", created_at)]
    ++ (if dmem payload "failure_message" then [("failure_message", get payload "failure_message")] else []) in
  mutate_workspace_state (bc_state_path checkpoint) (fun state => dset state "branch_export" (JObj branch_export));;
  refresh_descriptor run node.

(** Code: runtime/workspace/branch_export/fulfillment.py, _node_workspace_state_path. *)
Definition node_workspace_state_path (run : BranchExportRun) (node : PreflightExecutionNode) (w : W) : option string :=
  match ac_stage_path (en_artifact_contract node) with
  | None => None
  | Some stage_path =>
      let state_path := path_join (path_join (br_stages_dir run) stage_path) "workspace-state.json" in
      match file_at w state_path with FileAbsent | FileUnsafe => None | _ => Some state_path end
  end.

(** Code: runtime/workspace/branch_export/fulfillment.py, record_skipped_branch_export_fulfillment. *)
Definition record_skipped_branch_export_fulfillment (run : BranchExportRun) (node : PreflightExecutionNode) (record_path : string)
    (payload : dict json) : M W unit :=
  state_path ← read (node_workspace_state_path run node);
  match state_path with
  | None => ret tt
  | Some state_path =>
      status ← lift (ditem payload "status");
      operation ← lift (ditem payload "operation");
      branch_name ← lift (ditem payload "branch_name");
      branch_ref ← lift (ditem payload "branch_ref");
      created_at ← lift (ditem payload "created_at");
      let branch_export :=
        [("status", status); ("operation", operation); ("branch_name", branch_name); ("branch_ref", branch_ref);
         ("record_artifact", JStr (record_relative_path run record_path)); ("skip_reason", get payload "skip_reason");
         ("completed_at", created_at)] in
      mutate_workspace_state state_path (fun state => dset state "branch_export" (JObj branch_export));;
      refresh_descriptor run node
  end.

(** ** Batches (orchestration.py) *)

(** Code: runtime/workspace/branch_export/orchestration.py, _BranchExportBatch. *)
Record BranchExportBatch := mkExportBatch {
  bb_run : BranchExportRun;
  bb_operation_origin : BranchExportOrigin;
  bb_resumed_node_ids : list string;
  bb_eligible_node_ids : option (list string)
}.

(** Code: runtime/workspace/branch_export/orchestration.py, _selected_worktree_nodes_by_worktree. *)
Definition selected_worktree_nodes_by_worktree (plan : PreflightExecutionPlan) : dict PreflightExecutionNode :=
  let nodes_by_id : dict PreflightExecutionNode := foldl (fun d n => dset d (en_id n) n) [] (pp_nodes plan) in
  foldl (fun selected node_id =>
    match dget nodes_by_id node_id with
    | None => selected
    | Some node =>
        match en_workspace_policy node with
        | Some policy =>
            match wp_enabled policy, bool_decide (wp_declaration_kind policy = Some WK_worktree), wp_logical_worktree_name policy with
            | true, true, Some name => dset selected name node
            | _, _, _ => selected
            end
        | None => selected
        end
    end) [] (pp_execution_order plan).

(** Code: runtime/workspace/branch_export/orchestration.py, _node_operation_origin. *)
Definition node_operation_origin (batch : BranchExportBatch) (node_id : string) : BranchExportOrigin :=
  if bool_decide (bb_operation_origin batch = verified_history) || str_in node_id (bb_resumed_node_ids batch)
  then verified_history else current_run.

(** Code: runtime/workspace/branch_export/orchestration.py, _record_state_fulfillment. *)
Definition record_state_fulfillment (run : BranchExportRun) (node : PreflightExecutionNode) (payload : dict json) (record_path : string)
    : M W unit :=
  checkpoint ← lift (checkpoint_from_record (br_stages_dir run) payload);
  match checkpoint with
  | None => if is_text (get payload "status") "skipped" then record_skipped_branch_export_fulfillment run node record_path payload else ret tt
  | Some checkpoint =>
      operation ← lift (branch_export_operation payload);
      record_branch_export_fulfillment run node checkpoint record_path payload operation
  end.

Definition is_eligible (batch : BranchExportBatch) (node : PreflightExecutionNode) : bool :=
  match bb_eligible_node_ids batch with None => true | Some ids => str_in (en_id node) ids end.

(** One worktree of a batch.
    Code: runtime/workspace/branch_export/orchestration.py:172-203. *)
Definition fulfill_worktree (batch : BranchExportBatch) (entry : string * PreflightExecutionNode) : M W (list string) :=
  let '(logical_worktree_name, node) := entry in
  match is_eligible batch node, en_workspace_policy node with
  | true, Some policy =>
      let attempt := mkAttempt (bb_run batch) logical_worktree_name node policy (node_operation_origin batch (en_id node)) in
      payload ← fulfillment_payload attempt;
      record_path ← write_record (bb_run batch) logical_worktree_name payload;
      record_state_fulfillment (bb_run batch) node payload record_path;;
      status ← lift (ditem payload "status");
      if is_text status "failed_verification"
      then message ← lift (ditem payload "failure_message");
           raise (RuntimeError (match message with JStr m => m | v => json_repr v end))
      else ret [record_path]
  | _, _ => ret []
  end.

(** Code: runtime/workspace/branch_export/orchestration.py, _fulfill_branch_export_batch. *)
Definition fulfill_branch_export_batch (batch : BranchExportBatch) : M W (list string) :=
  records ← map_all (fulfill_worktree batch) (selected_worktree_nodes_by_worktree (br_plan (bb_run batch)));
  ret (concat records).

(** Code: runtime/workspace/branch_export/orchestration.py, _branch_export_run. *)
Definition branch_export_run (plan : PreflightExecutionPlan) (workspace_source : option ExportSource) (run_id run_key_name stages_dir : string)
    : option BranchExportRun :=
  match workspace_source with
  | None => None
  | Some source => Some (mkExportRun plan run_id run_key_name source stages_dir)
  end.

(** Code: runtime/workspace/branch_export/orchestration.py, fulfill_branch_exports. *)
Definition fulfill_branch_exports (plan : PreflightExecutionPlan) (workspace_source : option ExportSource)
    (run_id run_key_name stages_dir : string) (resumed_node_ids : list string) : M W (list string) :=
  match branch_export_run plan workspace_source run_id run_key_name stages_dir with
  | None => ret []
  | Some run => fulfill_branch_export_batch (mkExportBatch run current_run resumed_node_ids None)
  end.

(** Code: runtime/workspace/branch_export/orchestration.py, fulfill_branch_exports_from_history. *)
Definition fulfill_branch_exports_from_history (plan : PreflightExecutionPlan) (workspace_source : option ExportSource)
    (run_id run_key_name run_dir : string) (eligible_node_ids : option (list string)) : M W (list string) :=
  match branch_export_run plan workspace_source run_id run_key_name run_dir with
  | None => ret []
  | Some run => fulfill_branch_export_batch (mkExportBatch run verified_history [] eligible_node_ids)
  end.

(** Code: runtime/workspace/branch_export/orchestration.py, preview_branch_exports_from_history. *)
Definition preview_branch_exports_from_history (plan : PreflightExecutionPlan) (workspace_source : option ExportSource)
    (run_id run_key_name run_dir : string) : M W (list (dict json)) :=
  match branch_export_run plan workspace_source run_id run_key_name run_dir with
  | None => ret []
  | Some run =>
      previews ← map_all (fun '(logical_worktree_name, node) =>
        match en_workspace_policy node with
        | Some policy => payload ← preview_payload (mkAttempt run logical_worktree_name node policy verified_history); ret [payload]
        | None => ret []
        end) (selected_worktree_nodes_by_worktree plan);
      ret (concat previews)
  end.

End Exporting.
