(* ===== verification/BranchExportSpec.v ===== *)
(** Branch exports are safe: branches are created, never moved, and only under
    a persisted prepared record. *)

From Stdlib Require Import ZArith Lia Ascii String.
From stdpp Require Import base gmap sets list strings pretty sorting relations.
From S2P Require Import Prelude PyStr StateExn Models Scheduler Artifacts RunState PlanRecords PlanContract Foreach ForeachSpec PreflightState Redaction RedactionSpec SecretHandles WorkspaceContract BranchExport.

Open Scope string_scope.
Open Scope list_scope.
Open Scope Z_scope.

(** ** Records that are stored and loaded *)

(** [json.loads(json.dumps(payload, sort_keys=True))]. *)
Definition stored (payload : dict json) : dict json := sorted_items (map (fun '(k, c) => (k, sort_keys c)) payload).

Lemma sort_keys_obj payload : sort_keys (JObj payload) = JObj (stored payload).
Proof. done. Qed.

Lemma get_stored payload k : NoDup (dkeys payload) -> get (stored payload) k = sort_keys (get payload k).
Proof.
  intros Hnd. unfold get, stored. rewrite dget_sorted_items.
  - rewrite (dget_map_key (fun _ c => sort_keys c)). by destruct (dget payload k).
  - unfold dkeys in *. rewrite map_map. by rewrite (map_ext _ fst) by (by intros []).
Qed.

Lemma is_text_sorted v s : is_text (sort_keys v) s = is_text v s.
Proof. unfold is_text, json_equal. by destruct v. Qed.

Lemma is_text_refl s : is_text (JStr s) s = true.
Proof. unfold is_text, json_equal. by rewrite bool_decide_true. Qed.

Lemma json_equal_refl v : json_equal v v = true.
Proof. unfold json_equal. by rewrite bool_decide_true. Qed.

Lemma is_text_true v s : is_text v s = true -> v = JStr s.
Proof. unfold is_text, json_equal. rewrite bool_decide_eq_true. by destruct v; simpl; intros [= <-]. Qed.

(** Evaluates the fields of a stored record. *)
Ltac stored_fields :=
  repeat match goal with
  | |- context [get (stored ?p) ?k] =>
      rewrite (get_stored p k) by (apply (@bool_decide_unpack _ (NoDup_dec _)); vm_compute; exact I)
  end;
  repeat match goal with |- context [sort_keys (get ?p ?k)] => let v := eval cbv in (sort_keys (get p k)) in change (sort_keys (get p k)) with v end;
  rewrite ?is_text_refl, ?json_equal_refl.

Definition record_expectation (run : BranchExportRun) (worktree name branch_ref : string) (c : BranchExportCheckpoint)
    (policy : WorkspaceSelectionRecord) : BranchExportRecordExpectation :=
  mkExpectation (br_plan run) (br_run_id run) (br_run_key_name run) (xs_repository_id (br_source run)) worktree name branch_ref c policy.

Ltac expected_fields :=
  cbn [forallb existsb be_run_id be_run_key_name be_plan be_worktree_name be_repository_id be_checkpoint be_name be_branch_ref be_policy
       record_expectation checkpoint_record worktree_contract_json bc_node_id bc_task_id bc_state_relative_path bc_result_commit
       bc_result_tree bc_result_ref bc_bundle_relative_path bc_bundle_sha256 bc_bundle_size_bytes br_run_id br_run_key_name br_plan
       br_source xs_repository_id pp_workflow_name pp_workflow_signature wp_worktree_contract].

(** A prepared record is recognised by the attempt that wrote it. *)
Lemma prepared_record_recognised run worktree name branch_ref c policy origin created_at :
  let record := stored (prepared_branch_export_record run worktree name branch_ref c policy origin recovery_initial created_at) in
  prepared_record_matches record (record_expectation run worktree name branch_ref c policy) = true /\
  get record "status" = JStr "prepared" /\ prepared_operation_origin record = Ok origin.
Proof.
  cbv zeta. destruct run as [plan ? ? [] ?], c, policy, plan, origin.
  all: unfold prepared_record_matches, record_identity_matches, checkpoint_matches, worktree_contract_matches, prepared_operation_origin;
    expected_fields; stored_fields; done.
Qed.

(** So is the record of a fulfilled export. *)
Lemma fulfilled_record_recognised run worktree name c policy operation origin recovery created_at :
  nonempty name = true -> operation = op_created \/ operation = op_verified_existing ->
  (operation = op_verified_existing -> recovery = recovery_initial -> origin = verified_history) ->
  let branch_ref := "refs/heads/" +:+ name in
  let record := stored (branch_export_record run worktree name branch_ref c policy operation (bool_decide (operation = op_verified_existing))
                          true origin recovery false created_at) in
  get record "status" = JStr "fulfilled" /\
  reconcile_terminal_record record (record_expectation run worktree name branch_ref c policy)
    = Ok (mkReconciliation recovery_initial None (Some record)).
Proof.
  intros Hn Hop Hh. cbv zeta. destruct run as [plan ? ? [] ?], c, policy, plan.
  destruct Hop as [->| ->], origin, recovery; try (by specialize (Hh eq_refl eq_refl)).
  all: unfold reconcile_terminal_record, validate_terminal_record, terminal_record_matches, fulfilled_terminal_record_matches,
    terminal_identity_matches, record_identity_matches, checkpoint_matches, worktree_contract_matches,
    terminal_branch_identity_is_valid, fulfilled_operation_matches, terminal_operation_tuple_is_valid;
    expected_fields; stored_fields; cbn [existsb forallb andb orb]; rewrite ?is_text_refl, ?Hn; done.
Qed.

(** ** What the host promises *)

(** A ref of the repository. *)
Inductive Ref := DirectRef (oid : string) | SymbolicRef (target : string).

(** The repositories of a host, by their top-level directory, and the moves of
    other processes. *)
Class RepositoryView (W : Type) := { branches : W -> string -> string -> option Ref; others : relation W }.

Section View.
Context {W : Type} {host : ExportHost W} {view : RepositoryView W}.

(** A branch appears. *)
Definition creates (root ref oid : string) (w w' : W) : Prop :=
  branches w root ref = None /\ branches w' root ref = Some (DirectRef oid) /\
  (forall root' ref', (root', ref') <> (root, ref) -> branches w' root' ref' = branches w root' ref') /\
  (forall path, file_at w' path = file_at w path).

(** A file is replaced. *)
Definition wrote (path : string) (v : json) (w w' : W) : Prop :=
  file_at w' path = FileJson (sort_keys v) /\ (forall path', path' <> path -> file_at w' path' = file_at w path') /\
  (forall root ref, branches w' root ref = branches w root ref).

(** One of these, among moves of other processes. *)
Definition amid (step : relation W) (w w' : W) : Prop := exists w1 w2, others w w1 /\ step w1 w2 /\ others w2 w'.

(** Nothing but moves of other processes. *)
Definition quiet {A} (m : M W A) : Prop := forall w r w', m w = (r, w') -> others w w'.

End View.

(** Only [update-ref] changes a branch; with an empty old value it creates a
    branch that does not exist, or fails.  Files are replaced atomically, and
    nothing else writes the records of exports. *)
Class ExportLaws {W : Type} {hash : HashLibrary} (host : ExportHost W) (view : RepositoryView W) := {
  others_preorder :: PreOrder others;
  others_records w w' run name path : others w w' -> export_record_path run name = Ok path -> file_at w' path = file_at w path;
  law_git_read root args w r w' : head args <> Some "update-ref" -> git_run root args w = (r, w') -> others w w';
  law_update_ref root ref oid w r w' : git_run root ["update-ref"; "--no-deref"; ref; oid; ""] w = (r, w') ->
    match r with
    | GitDone _ => amid (creates root ref oid) w w'
    | GitTimeout _ => others w w' \/ amid (creates root ref oid) w w'
    | _ => others w w'
    end;
  law_write_json path v w r w' : write_json path v w = (r, w') ->
    match r with Ok _ => amid (wrote path v) w w' | _ => others w w' end;
  law_lock_git dir : quiet (lock_git dir);
  law_unlock_git dir : quiet (unlock_git dir);
  law_now : quiet now;
  law_lineage_state_path node : quiet (lineage_state_path node);
  law_load_source_ref path : quiet (load_source_ref path);
  law_verify_source source ref w r w' : verify_source source ref w = (r, w') -> others w w';
  law_resolve_common_git_dir root : quiet (resolve_common_git_dir root);
  law_file_size_and_sha256 path : quiet (file_size_and_sha256 path);
  law_enter_source a ref : quiet (enter_source a ref);
  law_exit_source a ref : quiet (exit_source a ref);
  law_refresh_descriptor run node : quiet (refresh_descriptor run node)
}.

Section Safety.
Context {hash : HashLibrary} {W : Type} {host : ExportHost W} {view : RepositoryView W} {laws : ExportLaws host view}.

(** *** Quiet computations *)

Lemma ret_quiet {A} (a : A) : quiet (ret a).
Proof. intros w r w' [= _ <-]. done. Qed.

Lemma raise_quiet {A} e : quiet (raise e : M W A).
Proof. intros w r w' [= _ <-]. done. Qed.

Lemma lift_quiet {A} (o : outcome A) : quiet (lift o : M W A).
Proof. intros w r w' [= _ <-]. done. Qed.

Lemma read_quiet {A} (f : W -> A) : quiet (read f).
Proof. intros w r w' [= _ <-]. done. Qed.

Lemma quiet_bind {A B} (m : M W A) (k : A -> M W B) : quiet m -> (forall a, quiet (k a)) -> quiet (m ≫= k).
Proof.
  intros Hm Hk w r w' Hrun. unfold mbind, M_bind, bind in Hrun. destruct (m w) as [[a|e|] w1] eqn:H1.
  - etransitivity; [by eapply Hm | by eapply Hk].
  - injection Hrun as _ <-. by eapply Hm.
  - injection Hrun as _ <-. by eapply Hm.
Qed.

Lemma if_quiet {A} (c : bool) (m1 m2 : M W A) : quiet m1 -> quiet m2 -> quiet (if c then m1 else m2).
Proof. by destruct c. Qed.

Lemma quiet_git source args : head args <> Some "update-ref" -> quiet (run_git source args).
Proof.
  intros Hargs w r w' Hrun. unfold run_git in Hrun. destruct (git_run _ _ _) as [x w1] eqn:Hg. injection Hrun as _ <-. by eapply law_git_read.
Qed.

Lemma quiet_checked r : quiet (checked_result r).
Proof. destruct r; [apply ret_quiet | apply raise_quiet..]. Qed.

Create HintDb quiet.
#[local] Hint Resolve ret_quiet raise_quiet lift_quiet read_quiet quiet_checked : quiet.

#[local] Hint Extern 1 (quiet _) =>
  first [apply law_lock_git | apply law_unlock_git | apply law_now | apply law_lineage_state_path | apply law_load_source_ref
        | apply law_resolve_common_git_dir | apply law_file_size_and_sha256 | apply law_enter_source | apply law_exit_source
        | apply law_refresh_descriptor] : quiet.

Ltac quiet_step :=
  match goal with
  | |- quiet (_ ≫= _) => apply quiet_bind; [|intros ?]
  | |- quiet (run_git _ _) => apply quiet_git; discriminate
  | |- quiet (if _ then _ else _) => apply if_quiet
  | |- quiet (match ?x with _ => _ end) => destruct x
  | |- quiet (let '(_, _) := ?x in _) => destruct x
  | |- quiet _ => solve [auto with quiet]
  end.
Ltac quiet_solve := cbv zeta; repeat quiet_step.

Lemma quiet_git_text source args : head args <> Some "update-ref" -> quiet (git_text source args).
Proof. intros H. unfold git_text. apply quiet_bind; [by apply quiet_git|]. intros. quiet_solve. Qed.

#[local] Hint Extern 2 (quiet (git_text _ _)) => apply quiet_git_text; discriminate : quiet.

Lemma quiet_validated_branch_ref source name : quiet (validated_branch_ref source name).
Proof. unfold validated_branch_ref. quiet_solve. Qed.

Lemma quiet_reject_symbolic source ref : quiet (reject_symbolic_branch_ref source ref).
Proof. unfold reject_symbolic_branch_ref. quiet_solve. Qed.
#[local] Hint Resolve quiet_reject_symbolic quiet_validated_branch_ref : quiet.

Lemma quiet_branch_commit source ref : quiet (branch_commit source ref).
Proof. unfold branch_commit. quiet_solve. Qed.
#[local] Hint Resolve quiet_branch_commit : quiet.

Lemma quiet_branch_ref_exists source ref : quiet (branch_ref_exists source ref).
Proof. unfold branch_ref_exists. quiet_solve. Qed.

Lemma quiet_planned source ref commit : quiet (planned_branch_operation source ref commit).
Proof.
  intros w r w' Hrun. unfold planned_branch_operation in Hrun. destruct (branch_commit source ref w) as [[[c|]|e|] w1] eqn:Hb;
    injection Hrun as _ <-; by eapply quiet_branch_commit.
Qed.

Lemma quiet_verify_available source ref : quiet (verify_branch_export_source_available source ref).
Proof.
  intros w r w' Hrun. unfold verify_branch_export_source_available in Hrun. destruct (verify_source source ref w) as [x w1] eqn:Hv.
  injection Hrun as _ <-. by eapply law_verify_source.
Qed.

Lemma quiet_load_record path : quiet (load_record path).
Proof. unfold load_record. quiet_solve. Qed.
#[local] Hint Resolve quiet_branch_ref_exists quiet_planned quiet_verify_available quiet_load_record : quiet.

Lemma quiet_validated_bundle dir payload : quiet (validated_bundle dir payload).
Proof. unfold validated_bundle. quiet_solve. Qed.

Lemma quiet_state_header a payload : quiet (validate_state_header a payload).
Proof. unfold validate_state_header, require_current_repository_identity. quiet_solve. Qed.
#[local] Hint Resolve quiet_validated_bundle quiet_state_header : quiet.

Lemma quiet_validated_checkpoint a : quiet (validated_checkpoint a).
Proof. unfold validated_checkpoint, workspace_state_payload, reject_source_ref_mismatch. quiet_solve. Qed.

Lemma quiet_reconcile_attempt a name ref c : quiet (reconcile_attempt a name ref c).
Proof. unfold reconcile_attempt, classify_branch_export_record. quiet_solve. Qed.

Lemma quiet_record_exists a : quiet (record_exists a).
Proof. unfold record_exists. quiet_solve. Qed.

Lemma quiet_skipped a origin dry : quiet (skipped_attempt_record a origin dry).
Proof. unfold skipped_attempt_record. quiet_solve. Qed.

Lemma quiet_failed a name ref c before message origin recovery dry :
  quiet (failed_attempt_record a name ref c before message origin recovery dry).
Proof. unfold failed_attempt_record. quiet_solve. Qed.

Lemma quiet_fulfilled a operation before dry : quiet (fulfilled_attempt_record a operation before dry).
Proof. unfold fulfilled_attempt_record. quiet_solve. Qed.

Lemma quiet_prepared a : quiet (prepared_attempt_record a).
Proof. unfold prepared_attempt_record. quiet_solve. Qed.
#[local] Hint Resolve quiet_validated_checkpoint quiet_reconcile_attempt quiet_record_exists quiet_skipped quiet_failed quiet_fulfilled
  quiet_prepared : quiet.

Lemma quiet_reconciled_failure a before e : quiet (reconciled_failure a before e).
Proof. unfold reconciled_failure, reconciled_failure_message. quiet_solve. Qed.

(** *** Steps of an export *)

(** The record of a worktree announces that a branch is created. *)
Definition announced (run : BranchExportRun) (worktree name ref : string) (c : BranchExportCheckpoint) (policy : WorkspaceSelectionRecord)
    (w : W) : Prop :=
  exists path record, export_record_path run worktree = Ok path /\ file_at w path = FileJson (JObj record) /\
    get record "status" = JStr "prepared" /\ prepared_record_matches record (record_expectation run worktree name ref c policy) = true.

(** Other processes move, a file is replaced, or an announced branch is created
    where none was. *)
Inductive export_step (run : BranchExportRun) : W -> W -> Prop :=
| step_others w w' : others w w' -> export_step run w w'
| step_write path v w w' : wrote path v w w' -> export_step run w w'
| step_create worktree name ref c policy w w' :
    announced run worktree name ref c policy w -> creates (xs_git_top_level (br_source run)) ref (bc_result_commit c) w w' ->
    export_step run w w'.

Definition stable (P : W -> Prop) : Prop := forall w w', others w w' -> P w -> P w'.

Lemma announced_stable run worktree name ref c policy : stable (announced run worktree name ref c policy).
Proof.
  intros w w' Ho (path & record & Hp & Hf & Hs & Hm). exists path, record. split_and!; [done| |done..].
  by rewrite (others_records w w' run worktree path).
Qed.

(** From states with [P], the computation makes steps of an export. *)
Definition traced {A} (run : BranchExportRun) (P : W -> Prop) (m : M W A) : Prop :=
  forall w r w', P w -> m w = (r, w') -> rtc (export_step run) w w'.

Lemma others_steps run w w' : others w w' -> rtc (export_step run) w w'.
Proof. intros H. apply rtc_once. by apply step_others. Qed.

Lemma amid_steps run (step : relation W) w w' :
  (forall w1 w2, others w w1 -> step w1 w2 -> export_step run w1 w2) -> amid step w w' -> rtc (export_step run) w w'.
Proof.
  intros Hstep (w1 & w2 & H1 & H2 & H3). eapply rtc_l; [by apply step_others|]. eapply rtc_l; [by apply Hstep | by apply others_steps].
Qed.

Lemma quiet_traced {A} run P (m : M W A) : quiet m -> traced run P m.
Proof. intros Hq w r w' _ Hrun. apply others_steps. by eapply Hq. Qed.

Lemma traced_weaken {A} run (P Q : W -> Prop) (m : M W A) : (forall w, Q w -> P w) -> traced run P m -> traced run Q m.
Proof. intros HPQ Hm w r w' HQ. by apply Hm, HPQ. Qed.

(** A sequence whose first part leaves [Q]. *)
Lemma traced_bind {A B} run (P : W -> Prop) (Q : A -> W -> Prop) (m : M W A) (k : A -> M W B) :
  traced run P m -> (forall w a w', P w -> m w = (Ok a, w') -> Q a w') -> (forall a, traced run (Q a) (k a)) -> traced run P (m ≫= k).
Proof.
  intros Hm HQ Hk w r w' HP Hrun. unfold mbind, M_bind, bind in Hrun. destruct (m w) as [[a|e|] w1] eqn:H1.
  - etransitivity; [by eapply Hm|]. eapply Hk; [by eapply HQ | done].
  - injection Hrun as _ <-. by eapply Hm.
  - injection Hrun as _ <-. by eapply Hm.
Qed.

Lemma traced_then {A B} run P (m : M W A) (k : A -> M W B) :
  traced run P m -> (forall a, traced run (fun _ => True) (k a)) -> traced run P (m ≫= k).
Proof. intros Hm Hk. by apply (traced_bind run P (fun _ _ => True)). Qed.

Lemma traced_after {A B} run P (m : M W A) (k : A -> M W B) :
  quiet m -> stable P -> (forall a, traced run P (k a)) -> traced run P (m ≫= k).
Proof.
  intros Hm HP Hk. apply (traced_bind run P (fun _ => P)); [by apply quiet_traced | | done].
  intros w a w' Hw Hrun. eapply HP; [by eapply Hm | done].
Qed.

Lemma traced_try {A} run P (m : M W A) h :
  traced run P m -> (forall e, traced run (fun _ => True) (h e)) -> traced run P (try_except m h).
Proof.
  intros Hm Hh w r w' HP Hrun. unfold try_except in Hrun. destruct (m w) as [[a|e|] w1] eqn:H1.
  - injection Hrun as _ <-. by eapply Hm.
  - etransitivity; [by eapply Hm | by eapply Hh].
  - injection Hrun as _ <-. by eapply Hm.
Qed.

Lemma after_operation_state {A} completed (result : outcome A) inner (w : W) r w' :
  after_operation completed (result, inner, w) = (r, w') -> w' = w.
Proof. unfold after_operation. by destruct result; intros [= _ <-]. Qed.

(** The states of a scoped computation. *)
Lemma scoped_states {A} completed enter exit (body : M W A) w r w' :
  quiet enter -> quiet exit -> after_operation completed (scoped enter exit body w) = (r, w') ->
  others w w' \/ exists w1 inner w2, others w w1 /\ body w1 = (inner, w2) /\ others w2 w'.
Proof.
  intros Hen Hex Hrun. unfold scoped in Hrun. destruct (enter w) as [[[]|e|] w1] eqn:H1; pose proof (Hen _ _ _ H1) as Ho1.
  - right. destruct (body w1) as [inner w2] eqn:H2. exists w1, inner, w2. split_and!; [done..|].
    destruct (exit w2) as [[[]|e|] w3] eqn:H3; pose proof (Hex _ _ _ H3) as Ho3; by apply after_operation_state in Hrun as ->.
  - left. by apply after_operation_state in Hrun as ->.
  - left. by apply after_operation_state in Hrun as ->.
Qed.

Lemma traced_scoped {A} run P completed enter exit (body : M W A) :
  quiet enter -> quiet exit -> stable P -> traced run P body ->
  traced run P (fun w => after_operation completed (scoped enter exit body w)).
Proof.
  intros Hen Hex HP Hbody w r w' Hw Hrun. apply scoped_states in Hrun as [Ho|(w1 & inner & w2 & Ho1 & Hb & Ho2)]; [by apply others_steps| |done..].
  etransitivity; [by apply others_steps|]. etransitivity; [|by apply others_steps]. eapply Hbody; [by eapply HP | done].
Qed.

Lemma quiet_scoped {A} completed enter exit (body : M W A) :
  quiet enter -> quiet exit -> quiet body -> quiet (fun w => after_operation completed (scoped enter exit body w)).
Proof.
  intros Hen Hex Hbody w r w' Hrun. apply scoped_states in Hrun as [Ho|(w1 & inner & w2 & Ho1 & Hb & Ho2)]; [done| |done..].
  etransitivity; [exact Ho1|]. etransitivity; [by eapply Hbody | done].
Qed.

(** *** The operations *)

Section Attempt.
Context (a : ValidatedBranchExportAttempt).
#[local] Notation request := (va_request a).
#[local] Notation run := (ba_run (va_request a)).
#[local] Notation announced_here :=
  (announced run (ba_logical_worktree_name request) (va_branch_name a) (va_branch_ref a) (va_checkpoint a) (ba_policy request)).

Lemma traced_create_missing allow_existing :
  traced run announced_here
    (create_missing_branch_ref (br_source run) (va_branch_ref a) (bc_result_commit (va_checkpoint a)) allow_existing).
Proof.
  unfold create_missing_branch_ref. apply traced_then.
  - intros w r w' Hw Hrun. unfold run_git in Hrun. destruct (git_run _ _ _) as [x w1] eqn:Hg. injection Hrun as _ <-.
    apply law_update_ref in Hg.
    assert (Hsteps : amid (creates (xs_git_top_level (br_source run)) (va_branch_ref a) (bc_result_commit (va_checkpoint a))) w w1 ->
              rtc (export_step run) w w1).
    { apply amid_steps. intros w2 w3 Ho Hc. eapply step_create; [|exact Hc]. by eapply announced_stable. }
    destruct x; [by apply Hsteps | by apply others_steps | | by apply others_steps].
    destruct Hg as [Hg|Hg]; [by apply others_steps | by apply Hsteps].
  - intros []; apply quiet_traced; quiet_solve.
Qed.

Lemma traced_create_ref allow_existing : traced run announced_here (create_branch_export_ref_with_source a allow_existing true).
Proof.
  unfold create_branch_export_ref_with_source. apply traced_after; [auto with quiet | apply announced_stable |]. intros source_ref.
  apply traced_scoped; [auto with quiet | auto with quiet | apply announced_stable |].
  unfold create_branch_export_ref, create_or_verify_branch_ref. apply traced_scoped; [auto with quiet | auto with quiet | apply announced_stable |].
  unfold create_or_verify_locked_branch_ref. apply traced_after; [auto with quiet | apply announced_stable |]. intros [current|].
  - apply quiet_traced. quiet_solve.
  - apply traced_create_missing.
Qed.

(** Without permission to create, nothing is created. *)
Lemma quiet_verify_ref allow_existing : quiet (create_branch_export_ref_with_source a allow_existing false).
Proof.
  unfold create_branch_export_ref_with_source. apply quiet_bind; [auto with quiet|]. intros source_ref.
  apply quiet_scoped; [auto with quiet..|]. unfold create_branch_export_ref, create_or_verify_branch_ref.
  apply quiet_scoped; [auto with quiet..|]. unfold create_or_verify_locked_branch_ref. cbn [negb]. quiet_solve.
Qed.

Lemma traced_write_record worktree payload : traced run (fun _ => True) (write_record run worktree payload).
Proof.
  unfold write_record. apply traced_after; [auto with quiet | done |]. intros path. apply traced_then.
  - intros w r w' _ Hrun. apply law_write_json in Hrun. destruct r; [|by apply others_steps..].
    eapply amid_steps; [|exact Hrun]. intros w1 w2 _ Hw. by eapply step_write.
  - intros _. apply quiet_traced. auto with quiet.
Qed.

(** Once the prepared record is written, the branch is announced. *)
Lemma prepared_announces created_at path w w' :
  rc_recovery_mode (va_reconciliation a) = recovery_initial ->
  write_record run (ba_logical_worktree_name request)
    (prepared_branch_export_record run (ba_logical_worktree_name request) (va_branch_name a) (va_branch_ref a) (va_checkpoint a)
       (ba_policy request) (va_operation_origin a) (rc_recovery_mode (va_reconciliation a)) created_at) w = (Ok path, w') ->
  announced_here w'.
Proof.
  intros Hinit Hrun. rewrite Hinit in Hrun. unfold write_record, lift, mbind, M_bind, bind in Hrun.
  destruct (export_record_path _ _) as [p|e|] eqn:Hp; [|done..]. destruct (write_json _ _ _) as [[[]|e|] w1] eqn:Hw; [|done..].
  injection Hrun as -> <-. apply law_write_json in Hw as (w2 & w3 & _ & (Hf & _) & Ho).
  eapply announced_stable; [exact Ho|]. rewrite sort_keys_obj in Hf.
  destruct (prepared_record_recognised run (ba_logical_worktree_name request) (va_branch_name a) (va_branch_ref a) (va_checkpoint a)
              (ba_policy request) (va_operation_origin a) created_at) as (Hm & Hs & _).
  by exists path, (stored (prepared_branch_export_record run (ba_logical_worktree_name request) (va_branch_name a) (va_branch_ref a)
    (va_checkpoint a) (ba_policy request) (va_operation_origin a) recovery_initial created_at)).
Qed.

(** In recovery, the record that was found announces the branch. *)
Definition recovery_announced (w : W) : Prop := rc_recovery_mode (va_reconciliation a) = prepared_record -> announced_here w.

Lemma recovery_announced_stable : stable recovery_announced.
Proof. intros w w' Ho Hw Hr. eapply announced_stable; [done | by apply Hw]. Qed.

Lemma traced_fulfill_after_probe before : traced run recovery_announced (fulfill_after_branch_probe a before).
Proof.
  assert (Hmain : traced run recovery_announced
    (let recovering := bool_decide (rc_recovery_mode (va_reconciliation a) = prepared_record) in
     let allow_create := recovering || negb before in
     (if allow_create && negb recovering
      then record ← prepared_attempt_record a;
           write_record (ba_run (va_request a)) (ba_logical_worktree_name (va_request a)) record;; ret tt
      else ret tt);;
     operation ← create_branch_export_ref_with_source a
       (bool_decide (va_operation_origin a = verified_history) || recovering) allow_create;
     fulfilled_attempt_record a operation (bool_decide (operation = op_verified_existing)) false)).
  { cbv zeta. destruct (rc_recovery_mode (va_reconciliation a)) eqn:Hr.
    - rewrite (bool_decide_false (recovery_initial = prepared_record)) by done. cbn [orb andb negb]. rewrite andb_true_r, orb_false_r.
      destruct before; cbn [negb].
      + apply quiet_traced. apply quiet_bind; [auto with quiet|]. intros _. apply quiet_bind; [apply quiet_verify_ref|]. auto with quiet.
      + apply (traced_bind run recovery_announced (fun _ => announced_here)).
        * apply traced_after; [auto with quiet | apply recovery_announced_stable |]. intros record.
          apply traced_then; [|intros _; apply quiet_traced; auto with quiet].
          by apply (traced_weaken run (fun _ => True)), traced_write_record.
        * intros w [] w' _ Hrun. unfold prepared_attempt_record, mbind, M_bind, bind in Hrun.
          destruct (now w) as [[t|e|] w1] eqn:Hn; [|done..]. cbn [ret] in Hrun. unfold ret in Hrun.
          destruct (write_record _ _ _ w1) as [[path|e|] w2] eqn:Hw; [|done..]. injection Hrun as <-.
          by eapply prepared_announces.
        * intros _. apply traced_then; [apply traced_create_ref|]. intros operation. apply quiet_traced. auto with quiet.
    - rewrite (bool_decide_true (prepared_record = prepared_record)) by done. cbn [orb andb negb]. apply traced_after; [auto with quiet | apply recovery_announced_stable |].
      intros _. apply traced_then; [|intros operation; apply quiet_traced; auto with quiet].
      eapply traced_weaken; [|apply traced_create_ref]. intros w Hw. by apply Hw. }
  unfold fulfill_after_branch_probe. destruct (rc_idempotent_payload _) as [payload|]; [|exact Hmain].
  destruct before; [|exact Hmain]. apply quiet_traced. apply quiet_bind; [apply quiet_verify_ref|]. auto with quiet.
Qed.

Lemma traced_fulfill_validated : traced run recovery_announced (fulfill_validated_attempt a).
Proof.
  unfold fulfill_validated_attempt. destruct (should_skip_reconciled_attempt a).
  - apply traced_try; [apply quiet_traced; auto with quiet|]. intros e. apply quiet_traced, quiet_reconciled_failure.
  - intros w r w' Hw Hrun. destruct (branch_ref_exists _ _ w) as [[before|e|] w1] eqn:Hb; pose proof (quiet_branch_ref_exists _ _ _ _ _ Hb) as Ho.
    + etransitivity; [by apply others_steps|]. eapply (traced_try run recovery_announced); [apply traced_fulfill_after_probe| | |exact Hrun].
      * intros e. apply quiet_traced, quiet_reconciled_failure.
      * by eapply recovery_announced_stable.
    + etransitivity; [by apply others_steps|]. apply others_steps. by eapply quiet_reconciled_failure.
    + injection Hrun as _ <-. by apply others_steps.
Qed.

End Attempt.

(** Reconciling reads the record, and finds it announced in recovery. *)
Lemma reconcile_reads a name ref c w v w' :
  reconcile_attempt a name ref c w = (Ok v, w') ->
  w' = w /\ va_request v = a /\ va_branch_name v = name /\ va_branch_ref v = ref /\ va_checkpoint v = c /\ recovery_announced v w.
Proof.
  unfold reconcile_attempt, lift, mbind, M_bind, bind. destruct (export_record_path _ _) as [path|e|] eqn:Hp; [|done..].
  unfold classify_branch_export_record, read, mbind, M_bind, bind. destruct (file_at w path) as [| | |content] eqn:Hf.
  { intros [= <- <-]. split_and!; [done..|]. by intros. }
  all: unfold load_record, read, mbind, M_bind, bind; rewrite Hf; try done.
  destruct content as [| | | | | |payload]; try done. unfold ret. destruct (is_text (get payload "status") "prepared") eqn:Hs.
  - unfold lift. destruct (reconcile_prepared_record _ _) as [x|e|] eqn:Hr; [|done..]. intros [= <- <-]. split_and!; [done..|].
    intros Hrec. exists path, payload. apply is_text_true in Hs. split_and!; [done..|]. unfold reconcile_prepared_record in Hr.
    by destruct (prepared_record_matches payload _) eqn:Hm.
  - destruct (existsb _ _); [|done]. unfold lift. destruct (reconcile_terminal_record _ _) as [x|e|] eqn:Hr; [|done..].
    intros [= <- <-]. split_and!; [done..|]. intros Hrec. exfalso. unfold reconcile_terminal_record in Hr.
    apply bind_Ok in Hr as (_ & _ & Hr). cbn [va_reconciliation] in Hrec. by destruct (_ && _); injection Hr as <-.
Qed.

Lemma destination_states a name w r c w' : validated_destination a name w = (r, c, w') -> others w w'.
Proof.
  unfold validated_destination. destruct (validated_checkpoint a w) as [[x|e|] w1] eqn:Hc; pose proof (quiet_validated_checkpoint _ _ _ _ Hc) as Ho.
  - destruct (validated_branch_ref _ name w1) as [[ref|e|] w2] eqn:Hr; pose proof (quiet_validated_branch_ref _ _ _ _ _ Hr) as Ho2;
      intros [= _ _ <-]; by etransitivity.
  - by intros [= _ _ <-].
  - by intros [= _ _ <-].
Qed.

Lemma traced_fulfillment a : traced (ba_run a) (fun _ => True) (fulfillment_payload a).
Proof.
  unfold fulfillment_payload. apply traced_after; [auto with quiet | done |]. intros existed. destruct (_ && _); [apply quiet_traced; auto with quiet|].
  apply traced_after; [auto with quiet | done |]. intros name w r w' _ Hrun.
  destruct (validated_destination a name w) as [[[[c ref]|e|] c'] w1] eqn:Hd; pose proof (destination_states _ _ _ _ _ _ Hd) as Ho;
    (etransitivity; [by apply others_steps|]).
  - unfold mbind, M_bind, bind in Hrun. destruct (reconcile_attempt a name ref c w1) as [[v|e|] w2] eqn:Hr.
    + apply reconcile_reads in Hr as (-> & Hreq & _ & _ & _ & Hann). pose proof (traced_fulfill_validated v) as Ht. rewrite Hreq in Ht.
      by eapply Ht.
    + injection Hrun as _ <-. apply others_steps. by eapply quiet_reconcile_attempt.
    + injection Hrun as _ <-. apply others_steps. by eapply quiet_reconcile_attempt.
  - destruct (negb _); [by injection Hrun as _ <-|]. apply others_steps. revert Hrun.
    apply (quiet_bind (record_exists a)); [auto with quiet|]. intros now_exists. quiet_solve.
  - by injection Hrun as _ <-.
Qed.

Lemma traced_write_json run path v : traced run (fun _ => True) (write_json path v).
Proof.
  intros w r w' _ Hrun. apply law_write_json in Hrun. destruct r; [|by apply others_steps..].
  eapply amid_steps; [|exact Hrun]. intros w1 w2 _ Hw. by eapply step_write.
Qed.

Lemma traced_mutate run path f : traced run (fun _ => True) (mutate_workspace_state path f).
Proof.
  unfold mutate_workspace_state, read_workspace_state. apply traced_after; [quiet_solve | done |]. intros payload.
  apply traced_after; [auto with quiet | done |]. intros t. apply traced_write_json.
Qed.

Lemma traced_state_fulfillment run node payload path : traced run (fun _ => True) (record_state_fulfillment run node payload path).
Proof.
  assert (Hend : forall p f, traced run (fun _ => True) (mutate_workspace_state p f;; refresh_descriptor run node)).
  { intros p f. apply traced_then; [apply traced_mutate|]. intros _. apply quiet_traced. auto with quiet. }
  unfold record_state_fulfillment. apply traced_after; [auto with quiet | done |]. intros [c|].
  - apply traced_after; [auto with quiet | done |]. intros operation. unfold record_branch_export_fulfillment.
    do 4 (apply traced_after; [auto with quiet | done |]; intros ?). apply Hend.
  - destruct (is_text _ _); [|apply quiet_traced; auto with quiet]. unfold record_skipped_branch_export_fulfillment.
    apply traced_after; [auto with quiet | done |]. intros [p|]; [|apply quiet_traced; auto with quiet].
    do 5 (apply traced_after; [auto with quiet | done |]; intros ?). apply Hend.
Qed.

Lemma traced_worktree batch entry : traced (bb_run batch) (fun _ => True) (fulfill_worktree batch entry).
Proof.
  destruct entry as [name node]. unfold fulfill_worktree. destruct (is_eligible batch node); [|apply quiet_traced; auto with quiet].
  destruct (en_workspace_policy node) as [policy|]; [|apply quiet_traced; auto with quiet].
  apply traced_then; [apply traced_fulfillment|]. intros payload. apply traced_then.
  - unfold write_record. apply traced_after; [auto with quiet | done |]. intros path. apply traced_then; [apply traced_write_json|].
    intros _. apply quiet_traced. auto with quiet.
  - intros path. apply traced_then; [apply traced_state_fulfillment|]. intros _. apply quiet_traced. quiet_solve.
Qed.

Lemma traced_map_all {A B} run (f : A -> M W B) l : (forall x, traced run (fun _ => True) (f x)) -> traced run (fun _ => True) (map_all f l).
Proof.
  intros Hf. induction l as [|x l IH]; simpl; [apply quiet_traced; auto with quiet|]. apply traced_then; [apply Hf|]. intros y.
  apply traced_then; [apply IH|]. intros ys. apply quiet_traced. auto with quiet.
Qed.

Lemma traced_batch batch : traced (bb_run batch) (fun _ => True) (fulfill_branch_export_batch batch).
Proof.
  unfold fulfill_branch_export_batch. apply traced_then; [apply traced_map_all, traced_worktree|]. intros records. apply quiet_traced.
  auto with quiet.
Qed.

(** Steps keep the branches that other processes keep. *)
Lemma steps_keep_branches run w w' :
  (forall w1 w2 root ref, others w1 w2 -> branches w2 root ref = branches w1 root ref) ->
  rtc (export_step run) w w' -> forall root ref v, branches w root ref = Some v -> branches w' root ref = Some v.
Proof.
  intros Hq Hsteps. induction Hsteps as [|w w1 w' Hstep _ IH]; [done|]. intros root ref v Hv. apply IH.
  destruct Hstep as [w w1 Ho|path x w w1 (_ & _ & Hb)|worktree name ref' c policy w w1 _ (Hnone & _ & Hrest & _)].
  - by rewrite (Hq w w1).
  - by rewrite Hb.
  - rewrite Hrest; [done|]. intros [= -> ->]. congruence.
Qed.

End Safety.
