(* ===== verification/BranchExportRecovery.v ===== *)
(** Branch exports recover from a crash, and repeating one changes nothing. *)

From Stdlib Require Import ZArith Lia Ascii String.
From stdpp Require Import base gmap sets list strings pretty sorting relations.
From S2P Require Import Prelude PyStr StateExn Models Scheduler Artifacts RunState PlanRecords PlanContract Foreach ForeachSpec PreflightState Redaction RedactionSpec SecretHandles WorkspaceContract BranchExport BranchExportSpec.

Open Scope string_scope.
Open Scope list_scope.
Open Scope Z_scope.

(** The computation ends with [r], in a state with [Q]. *)
Definition ends {W A} (m : M W A) (w : W) (r : A) (Q : W -> Prop) : Prop := exists w', m w = (Ok r, w') /\ Q w'.

(** The computation succeeds in states with [P]. *)
Definition succeeds {W A} (P : W -> Prop) (m : M W A) : Prop := forall w, P w -> exists r w', m w = (Ok r, w').

(** A host on which the export [a] of the checkpoint [c] to the branch [ref] can
    work: in its [usable] states nothing fails, and git reports the branch as it
    is; other processes do not move the branch, and neither they nor the export
    make the host unusable. *)
Record works {hash : HashLibrary} {W : Type} {host : ExportHost W} {view : RepositoryView W} (usable : W -> Prop)
    (a : BranchExportAttempt) (c : BranchExportCheckpoint) (ref root path : string) : Prop := {
  works_others w w' : usable w -> others w w' -> usable w' /\ branches w' root ref = branches w root ref;
  works_creates w w' : usable w -> creates root ref (bc_result_commit c) w w' -> usable w';
  works_wrote v w w' : usable w -> wrote path v w w' -> usable w';
  works_checkpoint w : usable w -> exists w', validated_checkpoint a w = (Ok c, w');
  works_normalize w : usable w -> exists out w', git_run root ["check-ref-format"; "--normalize"; ref] w = (GitDone out, w') /\ str_strip out = ref;
  works_symbolic_ref w : usable w -> (forall target, branches w root ref <> Some (SymbolicRef target)) ->
    exists stderr m w', git_run root ["symbolic-ref"; "-q"; ref] w = (GitFailed 1 stderr m, w');
  works_show_ref w : usable w -> match branches w root ref with
    | None => exists stderr m w', git_run root ["show-ref"; "--verify"; "--quiet"; ref] w = (GitFailed 1 stderr m, w')
    | Some _ => exists out w', git_run root ["show-ref"; "--verify"; "--quiet"; ref] w = (GitDone out, w')
    end;
  works_rev_parse w : usable w -> branches w root ref = Some (DirectRef (bc_result_commit c)) -> exists out w',
    git_run root ["rev-parse"; "--verify"; ref +:+ "^{commit}"] w = (GitDone out, w') /\ str_strip out = bc_result_commit c;
  works_update_ref w : usable w -> branches w root ref = None -> exists out w',
    git_run root ["update-ref"; "--no-deref"; ref; bc_result_commit c; ""] w = (GitDone out, w');
  works_lock : succeeds usable (lock_git (xs_common_git_dir (br_source (ba_run a))));
  works_unlock : succeeds usable (unlock_git (xs_common_git_dir (br_source (ba_run a))));
  works_now : succeeds usable now;
  works_load_source_ref : succeeds usable (load_source_ref (bc_state_path c));
  works_enter_source source_ref : succeeds usable (enter_source a source_ref);
  works_exit_source source_ref : succeeds usable (exit_source a source_ref);
  works_write v : succeeds usable (write_json path v)
}.

Section Recovery.
Context {hash : HashLibrary} {W : Type} {host : ExportHost W} {view : RepositoryView W} {laws : ExportLaws host view}.
Context (usable : W -> Prop) (a : BranchExportAttempt) (c : BranchExportCheckpoint) (name path : string).
#[local] Notation run := (ba_run a).
#[local] Notation source := (br_source (ba_run a)).
#[local] Notation root := (xs_git_top_level (br_source (ba_run a))).
#[local] Notation worktree := (ba_logical_worktree_name a).
#[local] Notation ref := ("refs/heads/" +:+ name).
#[local] Notation branch w := (branches w (xs_git_top_level (br_source (ba_run a))) ("refs/heads/" +:+ name)).
Context (Hworks : works usable a c ref root path) (Hpath : export_record_path run worktree = Ok path).

(** The branch, the record and the host are as before. *)
Definition kept (w w' : W) : Prop := branch w' = branch w /\ file_at w' path = file_at w path /\ usable w'.

Lemma others_kept w w' : usable w -> others w w' -> kept w w'.
Proof. intros Hu Ho. destruct (works_others _ _ _ _ _ _ Hworks w w' Hu Ho). split_and!; [done | by eapply others_records | done]. Qed.

Lemma quiet_ends {A} (m : M W A) w : usable w -> quiet m -> succeeds usable m -> exists r w', m w = (Ok r, w') /\ kept w w'.
Proof. intros Hu Hq Hs. destruct (Hs w Hu) as (r & w' & Hrun). exists r, w'. split; [done|]. apply others_kept; [done|]. by eapply Hq. Qed.

Lemma kept_trans w1 w2 w3 : kept w1 w2 -> kept w2 w3 -> kept w1 w3.
Proof. intros (H1 & H2 & _) (H3 & H4 & H5). split_and!; [congruence..|done]. Qed.

Lemma run_git_read args w out w' : usable w -> head args <> Some "update-ref" -> git_run root args w = (out, w') ->
  run_git source args w = (Ok out, w') /\ kept w w'.
Proof. intros Hu Hargs Hg. unfold run_git. rewrite Hg. split; [done|]. apply others_kept; [done|]. by eapply law_git_read. Qed.

(** [branch_commit] reports the branch. *)
Lemma branch_commit_works w : usable w ->
  (branch w = None \/ branch w = Some (DirectRef (bc_result_commit c))) ->
  exists w', branch_commit source ref w = (Ok (if branch w then Some (bc_result_commit c) else None), w') /\ kept w w'.
Proof.
  intros Hu Hb. unfold branch_commit, reject_symbolic_branch_ref.
  destruct (works_symbolic_ref _ _ _ _ _ _ Hworks w Hu) as (e1 & m1 & w1 & H1). { intros t Ht. destruct Hb; congruence. }
  apply run_git_read in H1 as [H1' (K1 & F1 & U1)]; [|done|discriminate]. unfold mbind, M_bind, bind. rewrite H1'. cbn [ret]. unfold ret at 1.
  pose proof (works_show_ref _ _ _ _ _ _ Hworks w1 U1) as H2. rewrite K1 in H2. destruct Hb as [Hb|Hb]; rewrite Hb in *.
  - destruct H2 as (e2 & m2 & w2 & H2). apply run_git_read in H2 as [H2' (K2 & F2 & U2)]; [|done|discriminate]. rewrite H2'. exists w2. split; [done|].
    split_and!; [congruence..|done].
  - destruct H2 as (o2 & w2 & H2). apply run_git_read in H2 as [H2' (K2 & F2 & U2)]; [|done|discriminate]. rewrite H2'. cbn [checked_result]. unfold ret at 1.
    destruct (works_rev_parse _ _ _ _ _ _ Hworks w2 U2) as (o3 & w3 & H3 & Ho3); [congruence|].
    apply run_git_read in H3 as [H3' (K3 & F3 & U3)]; [|done|discriminate]. unfold git_text, mbind, M_bind, bind. rewrite H3'. cbn. rewrite Ho3.
    exists w3. split; [done|]. split_and!; [congruence..|done].
Qed.

Lemma scoped_works {A} completed enter exit (body : M W A) w (r : A) (Q : W -> Prop) :
  usable w -> succeeds usable enter -> quiet enter -> succeeds usable exit -> quiet exit ->
  (forall w1, kept w w1 -> ends body w1 r Q) -> (forall w1, Q w1 -> usable w1) -> (forall w1 w2, kept w1 w2 -> Q w1 -> Q w2) ->
  ends (fun w => after_operation completed (scoped enter exit body w)) w r Q.
Proof.
  intros Hu Hen Qen Hex Qex Hbody HQu HQ. destruct (quiet_ends _ w Hu Qen Hen) as ([] & w1 & H1 & K1).
  destruct (Hbody w1 K1) as (w2 & H2 & HQ2). destruct (quiet_ends _ w2 (HQu _ HQ2) Qex Hex) as ([] & w3 & H3 & K3).
  exists w3. unfold scoped. rewrite H1, H2, H3. split; [done | by eapply HQ].
Qed.

(** The branch is at the commit of the checkpoint, and the record is [content]. *)
Definition at_commit (content : FileContent) (w : W) : Prop :=
  branch w = Some (DirectRef (bc_result_commit c)) /\ file_at w path = content /\ usable w.

Lemma at_commit_usable content w : at_commit content w -> usable w.
Proof. by intros (_ & _ & H). Qed.

Lemma at_commit_kept content w w' : kept w w' -> at_commit content w -> at_commit content w'.
Proof. intros (H1 & H2 & H3) (H4 & H5 & _). split_and!; [congruence..|done]. Qed.

Lemma create_missing_works w allow_existing : usable w ->
  branch w = None -> ends (create_missing_branch_ref source ref (bc_result_commit c) allow_existing) w op_created (at_commit (file_at w path)).
Proof.
  intros Hu Hb. destruct (works_update_ref _ _ _ _ _ _ Hworks w Hu Hb) as (out & w' & Hg). exists w'.
  unfold create_missing_branch_ref, run_git, mbind, M_bind, bind. rewrite Hg. split; [done|].
  apply law_update_ref in Hg as (w1 & w2 & Ho1 & Hcr & Ho2). apply others_kept in Ho1 as (K1 & F1 & U1); [|done].
  pose proof (works_creates _ _ _ _ _ _ Hworks w1 w2 U1 Hcr) as U2. destruct Hcr as (Hn & Hs & _ & Hf).
  apply others_kept in Ho2 as (K2 & F2 & U3); [|done]. split_and!; [congruence| |done]. by rewrite F2, Hf, F1.
Qed.

(** Both ways to a branch begin alike. *)
Lemma create_ref_ends v w operation allow_existing allow_create :
  va_request v = a -> va_branch_ref v = ref -> va_checkpoint v = c -> usable w ->
  (forall w2, kept w w2 -> ends (create_or_verify_locked_branch_ref source ref (bc_result_commit c) allow_existing allow_create) w2 operation
     (at_commit (file_at w path))) ->
  ends (create_branch_export_ref_with_source v allow_existing allow_create) w operation (at_commit (file_at w path)).
Proof.
  intros Hreq Href Hc Hu Hend. unfold create_branch_export_ref_with_source. rewrite Hreq, Href, Hc.
  destruct (quiet_ends _ w Hu (law_load_source_ref (bc_state_path c)) (works_load_source_ref _ _ _ _ _ _ Hworks)) as (sr & w0 & H0 & K0).
  unfold ends, mbind, M_bind, bind. rewrite H0.
  apply scoped_works; [apply K0 | apply Hworks | apply law_enter_source | apply Hworks | apply law_exit_source | |apply at_commit_usable | apply at_commit_kept].
  intros w1 K1. unfold create_branch_export_ref, create_or_verify_branch_ref.
  apply scoped_works; [apply K1 | apply Hworks | apply law_lock_git | apply Hworks | apply law_unlock_git | |apply at_commit_usable | apply at_commit_kept].
  intros w2 K2. apply Hend. by eapply kept_trans; [eapply kept_trans|].
Qed.

Section Create.
Context (v : ValidatedBranchExportAttempt) (Hreq : va_request v = a) (Href : va_branch_ref v = ref) (Hc : va_checkpoint v = c).

Lemma create_ref_works w allow_existing : usable w ->
  branch w = None -> ends (create_branch_export_ref_with_source v allow_existing true) w op_created (at_commit (file_at w path)).
Proof.
  intros Hu Hb. apply create_ref_ends; [done..|]. intros w2 (K2 & F2 & U2). unfold create_or_verify_locked_branch_ref, ends, mbind, M_bind, bind.
  assert (Hb2 : branch w2 = None) by congruence. destruct (branch_commit_works w2 U2 ltac:(by left)) as (w3 & H3 & (K3 & F3 & U3)).
  rewrite H3, Hb2. cbn [negb].
  destruct (create_missing_works w3 allow_existing U3) as (w4 & H4 & (B4 & F4 & U4)); [congruence|]. exists w4. split; [done|].
  split_and!; [done | congruence | done].
Qed.

Lemma verify_ref_works w allow_create : usable w ->
  branch w = Some (DirectRef (bc_result_commit c)) ->
  ends (create_branch_export_ref_with_source v true allow_create) w op_verified_existing (at_commit (file_at w path)).
Proof.
  intros Hu Hb. apply create_ref_ends; [done..|]. intros w2 (K2 & F2 & U2). unfold create_or_verify_locked_branch_ref, ends, mbind, M_bind, bind.
  assert (Hb2 : branch w2 = Some (DirectRef (bc_result_commit c))) by congruence.
  destruct (branch_commit_works w2 U2 ltac:(by right)) as (w3 & H3 & (K3 & F3 & U3)).
  rewrite H3, Hb2. cbn [andb]. rewrite bool_decide_true by done. exists w3. split; [done|]. split_and!; [congruence..|done].
Qed.

End Create.

Lemma exists_works w : usable w ->
  (branch w = None \/ branch w = Some (DirectRef (bc_result_commit c))) ->
  exists w', branch_ref_exists source ref w = (Ok (bool_decide (branch w <> None)), w') /\ kept w w'.
Proof.
  intros Hu Hb. destruct (branch_commit_works w Hu Hb) as (w' & H & K). exists w'. unfold branch_ref_exists, mbind, M_bind, bind. rewrite H.
  split; [|done]. destruct Hb as [-> | ->]; [rewrite bool_decide_false by naive_solver | rewrite bool_decide_true by done]; done.
Qed.

(** *** Fulfillment *)

Lemma record_exists_works w : record_exists a w = (Ok (match file_at w path with FileAbsent => false | _ => true end), w).
Proof. unfold record_exists, lift, mbind, M_bind, bind. rewrite Hpath. done. Qed.

Lemma destination_works w : usable w -> str_startswith "refs/" name = false ->
  exists w', validated_destination a name w = (Ok (c, ref), Some c, w') /\ kept w w'.
Proof.
  intros Hu Hn. destruct (works_checkpoint _ _ _ _ _ _ Hworks w Hu) as (w1 & H1).
  pose proof (others_kept _ _ Hu (quiet_validated_checkpoint _ _ _ _ H1)) as K1.
  destruct (works_normalize _ _ _ _ _ _ Hworks w1) as (out & w2 & H2 & Ho); [apply K1|].
  apply run_git_read in H2 as [H2 K2]; [|apply K1|discriminate].
  exists w2. split; [|by eapply kept_trans]. unfold validated_destination. rewrite H1. unfold validated_branch_ref. rewrite Hn.
  unfold mbind, M_bind, bind. rewrite H2. cbn [checked_result]. unfold ret. rewrite Ho, bool_decide_true by done. done.
Qed.

(** What a fulfillment does once its record is reconciled. *)
Lemma fulfillment_runs w v :
  usable w -> attempt_branch_name a = Ok name -> str_startswith "refs/" name = false ->
  be_create_branch (wp_branch_export (ba_policy a)) = true ->
  (forall w1, kept w w1 -> reconcile_attempt a name ref c w1 = (Ok v, w1)) ->
  exists w1, kept w w1 /\ fulfillment_payload a w = fulfill_validated_attempt v w1.
Proof.
  intros Hu Hname Hn Hcreate Hrest. destruct (destination_works w Hu Hn) as (w1 & Hd & K1). exists w1. split; [done|].
  unfold fulfillment_payload, mbind, M_bind, bind. rewrite record_exists_works, Hcreate. cbn [negb andb].
  unfold lift. rewrite Hname, Hd, (Hrest w1 K1). done.
Qed.

Lemma now_works w : usable w -> exists t w', now w = (Ok t, w') /\ kept w w'.
Proof. intros Hu. apply quiet_ends; [done | apply law_now | apply Hworks]. Qed.

Lemma write_works payload w : usable w -> exists w', write_record run worktree payload w = (Ok path, w') /\ branch w' = branch w /\
  file_at w' path = FileJson (JObj (stored payload)) /\ usable w'.
Proof.
  intros Hu. destruct (works_write _ _ _ _ _ _ Hworks (JObj payload) w Hu) as ([] & w' & Hw). exists w'. unfold write_record, lift, mbind, M_bind, bind.
  rewrite Hpath, Hw. split; [done|]. apply law_write_json in Hw as (w1 & w2 & Ho1 & Hwr & Ho2).
  apply others_kept in Ho1 as (K1 & F1 & U1); [|done]. pose proof (works_wrote _ _ _ _ _ _ Hworks _ w1 w2 U1 Hwr) as U2.
  destruct Hwr as (Hf & _ & Hb). apply others_kept in Ho2 as (K2 & F2 & U3); [|done].
  split_and!; [by rewrite K2, Hb, K1 | by rewrite F2, Hf, sort_keys_obj | done].
Qed.

(** The payload of a fulfillment by creation or verification. *)
Definition fulfilled_payload (operation : BranchExportOperation) (origin : BranchExportOrigin) (recovery : BranchExportRecoveryMode) (t : string)
    : dict json :=
  branch_export_record run worktree name ref c (ba_policy a) operation (bool_decide (operation = op_verified_existing)) true origin recovery
    false t.

(** The branch is at the commit, and the host can be used. *)
Definition done_at (w : W) : Prop := branch w = Some (DirectRef (bc_result_commit c)) /\ usable w.

Lemma finish_works v w operation : va_request v = a -> va_branch_name v = name -> va_branch_ref v = ref -> va_checkpoint v = c -> done_at w ->
  exists t w', fulfilled_attempt_record v operation (bool_decide (operation = op_verified_existing)) false w
    = (Ok (fulfilled_payload operation (va_operation_origin v) (rc_recovery_mode (va_reconciliation v)) t), w') /\ done_at w'.
Proof.
  intros H1 H2 H3 H4 [Hb Hu]. destruct (now_works w Hu) as (t & w' & Hn & (K & _ & U)). exists t, w'.
  unfold fulfilled_attempt_record, mbind, M_bind, bind. rewrite Hn, H1, H2, H3, H4. split; [done|]. split; [congruence | done].
Qed.

Lemma initial_works w :
  usable w -> be_create_branch (wp_branch_export (ba_policy a)) = true -> branch w = None ->
  exists t w', fulfill_validated_attempt (mkValidated a name ref c (mkReconciliation recovery_initial None None)) w
    = (Ok (fulfilled_payload op_created (ba_operation_origin a) recovery_initial t), w') /\ done_at w'.
Proof.
  intros Hu Hcreate Hb. set (v := mkValidated _ _ _ _ _). unfold fulfill_validated_attempt, should_skip_reconciled_attempt.
  change (va_request v) with a. rewrite Hcreate. cbn [negb andb].
  destruct (exists_works w Hu ltac:(by left)) as (w1 & H1 & (K1 & F1 & U1)). change (va_branch_ref v) with ref. rewrite H1, Hb.
  rewrite (bool_decide_false (None <> None)) by naive_solver. unfold try_except, fulfill_after_branch_probe.
  cbn [va_reconciliation v rc_idempotent_payload rc_recovery_mode].
  rewrite (bool_decide_false (recovery_initial = prepared_record)) by done. cbn [orb andb negb]. change (va_request v) with a.
  destruct (now_works w1 U1) as (t0 & w2 & H2 & (K2 & F2 & U2)). unfold prepared_attempt_record, mbind, M_bind, bind. rewrite H2. cbn [ret]. unfold ret at 1.
  destruct (write_works (prepared_branch_export_record run worktree name ref c (ba_policy a) (va_operation_origin v) recovery_initial t0) w2 U2)
    as (w3 & H3 & B3 & F3 & U3). change (va_branch_name v) with name. change (va_checkpoint v) with c.
  change (va_request v) with a. change (va_branch_ref v) with ref. change (rc_recovery_mode (va_reconciliation v)) with recovery_initial.
  rewrite H3. cbn iota beta.
  destruct (create_ref_works v eq_refl eq_refl eq_refl w3 (bool_decide (va_operation_origin v = verified_history) || false) U3)
    as (w4 & H4 & (B4 & F4 & U4)); [congruence|].
  rewrite H4. destruct (finish_works v w4 op_created) as (t & w5 & H5 & D5); [done..|]. rewrite H5. by exists t, w5.
Qed.

Lemma prepared_works w origin :
  usable w -> (branch w = None \/ branch w = Some (DirectRef (bc_result_commit c))) ->
  exists t w', fulfill_validated_attempt (mkValidated a name ref c (mkReconciliation prepared_record (Some origin) None)) w
    = (Ok (fulfilled_payload (if branch w then op_verified_existing else op_created) origin prepared_record t), w') /\ done_at w'.
Proof.
  intros Hu Hb. set (v := mkValidated _ _ _ _ _). unfold fulfill_validated_attempt, should_skip_reconciled_attempt.
  change (rc_recovery_mode (va_reconciliation v)) with prepared_record. rewrite (bool_decide_true (prepared_record = prepared_record)) by done.
  rewrite andb_false_r. change (va_request v) with a. change (va_branch_ref v) with ref.
  destruct (exists_works w Hu Hb) as (w1 & H1 & (K1 & F1 & U1)). rewrite H1. unfold try_except, fulfill_after_branch_probe.
  cbn [va_reconciliation v rc_idempotent_payload rc_recovery_mode]. rewrite (bool_decide_true (prepared_record = prepared_record)) by done.
  cbn [orb andb negb]. rewrite orb_true_r. unfold mbind, M_bind, bind. unfold ret at 1. destruct Hb as [Hb|Hb].
  - destruct (create_ref_works v eq_refl eq_refl eq_refl w1 true U1) as (w4 & H4 & (B4 & F4 & U4)); [congruence|]. rewrite H4.
    destruct (finish_works v w4 op_created) as (t & w5 & H5 & D5); [done..|]. rewrite H5, Hb. by exists t, w5.
  - destruct (verify_ref_works v eq_refl eq_refl eq_refl w1 true U1) as (w4 & H4 & (B4 & F4 & U4)); [congruence|]. rewrite H4.
    destruct (finish_works v w4 op_verified_existing) as (t & w5 & H5 & D5); [done..|]. rewrite H5, Hb. by exists t, w5.
Qed.

Lemma idempotent_works w payload :
  be_create_branch (wp_branch_export (ba_policy a)) = true -> done_at w ->
  exists w', fulfill_validated_attempt (mkValidated a name ref c (mkReconciliation recovery_initial None (Some payload))) w = (Ok payload, w') /\
    done_at w'.
Proof.
  intros Hcreate [Hb Hu]. set (v := mkValidated _ _ _ _ _). unfold fulfill_validated_attempt, should_skip_reconciled_attempt.
  change (va_request v) with a. rewrite Hcreate. cbn [negb andb].
  destruct (exists_works w Hu ltac:(by right)) as (w1 & H1 & (K1 & F1 & U1)). change (va_branch_ref v) with ref. rewrite H1, Hb.
  rewrite (bool_decide_true (Some (DirectRef (bc_result_commit c)) <> None)) by done. unfold try_except, fulfill_after_branch_probe.
  cbn [va_reconciliation v rc_idempotent_payload].
  destruct (verify_ref_works v eq_refl eq_refl eq_refl w1 false U1) as (w4 & H4 & (B4 & F4 & U4)); [congruence|].
  unfold mbind, M_bind, bind. rewrite H4. by exists w4.
Qed.

(** *** Reconciliation of the records that fulfillments leave *)

Lemma reconcile_absent w : file_at w path = FileAbsent ->
  reconcile_attempt a name ref c w = (Ok (mkValidated a name ref c (mkReconciliation recovery_initial None None)), w).
Proof.
  intros Hf. unfold reconcile_attempt, classify_branch_export_record, lift, read, mbind, M_bind, bind. by rewrite Hpath, Hf.
Qed.

Lemma reconcile_prepared w origin t :
  file_at w path = FileJson (JObj (stored (prepared_branch_export_record run worktree name ref c (ba_policy a) origin recovery_initial t))) ->
  reconcile_attempt a name ref c w = (Ok (mkValidated a name ref c (mkReconciliation prepared_record (Some origin) None)), w).
Proof.
  intros Hf. unfold reconcile_attempt, classify_branch_export_record, load_record, lift, read, mbind, M_bind, bind. rewrite Hpath, Hf. cbn iota beta.
  destruct (prepared_record_recognised run worktree name ref c (ba_policy a) origin t) as (Hm & Hs & Ho).
  rewrite Hf. unfold ret at 1. rewrite Hs, is_text_refl.
  unfold reconcile_prepared_record. change (attempt_expectation a name ref c) with (record_expectation run worktree name ref c (ba_policy a)).
  rewrite Hm. cbn [negb]. by rewrite Ho.
Qed.

Lemma reconcile_fulfilled w operation origin recovery t :
  nonempty name = true -> operation = op_created \/ operation = op_verified_existing ->
  (operation = op_verified_existing -> recovery = recovery_initial -> origin = verified_history) ->
  file_at w path = FileJson (JObj (stored (fulfilled_payload operation origin recovery t))) ->
  reconcile_attempt a name ref c w
    = (Ok (mkValidated a name ref c (mkReconciliation recovery_initial None (Some (stored (fulfilled_payload operation origin recovery t))))), w).
Proof.
  intros Hn Hop Hh Hf. unfold reconcile_attempt, classify_branch_export_record, load_record, lift, read, mbind, M_bind, bind.
  rewrite Hpath, Hf. cbn iota beta.
  destruct (fulfilled_record_recognised run worktree name c (ba_policy a) operation origin recovery t Hn Hop Hh) as [Hs Hr].
  rewrite Hf. unfold ret at 1. fold (fulfilled_payload operation origin recovery t) in Hs, Hr. rewrite Hs.
  change (is_text (JStr "fulfilled") "prepared") with false. cbn [existsb]. rewrite is_text_refl. cbn [orb].
  change (attempt_expectation a name ref c) with (record_expectation run worktree name ref c (ba_policy a)). by rewrite Hr.
Qed.

End Recovery.
