(* ===== verification/BranchExportClaims.v ===== *)
(** The theorems about branch exports, with an example host. *)

From Stdlib Require Import ZArith Lia Ascii String.
From stdpp Require Import base gmap sets list strings pretty sorting relations.
From S2P Require Import Prelude PyStr StateExn Models Scheduler Artifacts RunState PlanRecords PlanContract PlanContractSpec Foreach ForeachSpec PreflightState Redaction RedactionSpec SecretHandles WorkspaceContract BranchExport BranchExportSpec BranchExportRecovery.

Open Scope string_scope.
Open Scope list_scope.
Open Scope Z_scope.

(** C7 (safety): Exporting branches never overwrites one.  However a batch of
    exports ends, with its records or with an error, and whatever other
    processes do to the repository meanwhile, the export itself only replaces
    files atomically and creates branches that do not exist at that moment, at
    the commit of a checkpoint, while the persisted record of the worktree is a
    prepared record of exactly this branch, commit and run.  So branches that
    other processes leave alone stay where they are.
    Definitions: fulfill_branch_exports, fulfill_branch_exports_from_history, fulfillment_payload, fulfill_after_branch_probe, create_or_verify_branch_ref, create_missing_branch_ref, prepared_branch_export_record, prepared_record_matches, classify_branch_export_record. *)
Theorem branch_exports_never_overwrite {hash : HashLibrary} {W : Type} {host : ExportHost W} {view : RepositoryView W}
    {laws : ExportLaws host view} (plan : PreflightExecutionPlan) (source : ExportSource) (run_id run_key_name dir : string)
    (resumed : list string) (eligible : option (list string)) (w : W) (r : outcome (list string)) (w' : W) :
  fulfill_branch_exports plan (Some source) run_id run_key_name dir resumed w = (r, w') \/
  fulfill_branch_exports_from_history plan (Some source) run_id run_key_name dir eligible w = (r, w') ->
  rtc (export_step (mkExportRun plan run_id run_key_name source dir)) w w' /\
  ((forall w1 w2 root ref, others w1 w2 -> branches w2 root ref = branches w1 root ref) ->
   forall root ref v, branches w root ref = Some v -> branches w' root ref = Some v).
Proof.
  intros Hrun. assert (Hsteps : rtc (export_step (mkExportRun plan run_id run_key_name source dir)) w w').
  { destruct Hrun as [Hrun|Hrun].
    - by eapply (traced_batch (mkExportBatch (mkExportRun plan run_id run_key_name source dir) current_run resumed None)).
    - by eapply (traced_batch (mkExportBatch (mkExportRun plan run_id run_key_name source dir) verified_history [] eligible)). }
  split; [done|]. intros Hq. by apply (steps_keep_branches (mkExportRun plan run_id run_key_name source dir)).
Qed.

(** C13 (liveness): An interrupted export is completed, and a completed one can be
    repeated.  On a host where nothing fails, from a state without a record or
    branch, and from every state that an interrupted attempt can leave (its
    prepared record, with or without the branch), a fulfillment ends with a
    fulfilled record and the branch at the commit of the checkpoint; when that
    record is written, a further fulfillment returns it again and leaves the
    branch.
    Definitions: fulfillment_payload, fulfill_validated_attempt, reconcile_attempt, reconcile_prepared_record, reconcile_terminal_record, branch_export_record, prepared_branch_export_record, write_record. *)
Theorem interrupted_exports_complete {hash : HashLibrary} {W : Type} {host : ExportHost W} {view : RepositoryView W}
    {laws : ExportLaws host view} (usable : W -> Prop) (a : BranchExportAttempt) (c : BranchExportCheckpoint) (name path : string) (w : W) :
  let root := xs_git_top_level (br_source (ba_run a)) in
  let ref := "refs/heads/" +:+ name in
  let commit := Some (DirectRef (bc_result_commit c)) in
  works usable a c ref root path -> export_record_path (ba_run a) (ba_logical_worktree_name a) = Ok path ->
  attempt_branch_name a = Ok name -> nonempty name = true -> str_startswith "refs/" name = false ->
  be_create_branch (wp_branch_export (ba_policy a)) = true -> usable w ->
  (file_at w path = FileAbsent /\ branches w root ref = None) \/
  (exists origin t, file_at w path = FileJson (JObj (stored (prepared_branch_export_record (ba_run a) (ba_logical_worktree_name a) name ref c
                                                      (ba_policy a) origin recovery_initial t))) /\
     (branches w root ref = None \/ branches w root ref = commit)) ->
  exists payload w1 w2 w3,
    fulfillment_payload a w = (Ok payload, w1) /\ get payload "status" = JStr "fulfilled" /\ branches w1 root ref = commit /\
    write_record (ba_run a) (ba_logical_worktree_name a) payload w1 = (Ok path, w2) /\
    fulfillment_payload a w2 = (Ok (stored payload), w3) /\ branches w3 root ref = commit.
Proof.
  cbv zeta. intros Hworks Hpath Hname Hne Hrefs Hcreate Hu Hstart.
  assert (Hfirst : exists operation origin recovery t w1,
    fulfillment_payload a w = (Ok (fulfilled_payload a c name operation origin recovery t), w1) /\ done_at usable a c name w1 /\
    (operation = op_created \/ operation = op_verified_existing) /\
    (operation = op_verified_existing -> recovery = recovery_initial -> origin = verified_history)).
  { destruct Hstart as [[Hf Hb]|(origin & t & Hf & Hb)].
    - destruct (fulfillment_runs usable a c name path Hworks Hpath w (mkValidated a name ("refs/heads/" +:+ name) c (mkReconciliation recovery_initial None None)))
        as (w1 & (K1 & F1 & U1) & Hrun); [done..| |].
      { intros w1 (_ & F1 & _). apply (reconcile_absent a c name path Hpath). by rewrite F1. }
      destruct (initial_works usable a c name path Hworks Hpath w1 U1 Hcreate) as (t & w2 & H2 & D2); [by rewrite K1|].
      exists op_created, (ba_operation_origin a), recovery_initial, t, w2. rewrite Hrun. split_and!; [done|done|by left|done].
    - destruct (fulfillment_runs usable a c name path Hworks Hpath w (mkValidated a name ("refs/heads/" +:+ name) c (mkReconciliation prepared_record (Some origin) None)))
        as (w1 & (K1 & F1 & U1) & Hrun); [done..| |].
      { intros w1 (_ & F1 & _). apply (reconcile_prepared a c name path Hpath w1 origin t). by rewrite F1. }
      destruct (prepared_works usable a c name path Hworks Hpath w1 origin U1) as (t' & w2 & H2 & D2); [by rewrite K1|].
      eexists _, origin, prepared_record, t', w2. rewrite Hrun. split_and!; [exact H2|done| |done]. rewrite K1.
      destruct Hb as [-> | ->]; [by left | by right]. }
  destruct Hfirst as (operation & origin & recovery & t & w1 & H1 & D1 & Hop & Hh). destruct D1 as [B1 U1].
  destruct (write_works usable a c name path Hworks Hpath (fulfilled_payload a c name operation origin recovery t) w1 U1) as (w2 & H2 & B2 & F2 & U2).
  destruct (fulfillment_runs usable a c name path Hworks Hpath w2 (mkValidated a name ("refs/heads/" +:+ name) c
    (mkReconciliation recovery_initial None (Some (stored (fulfilled_payload a c name operation origin recovery t))))))
    as (w3 & (K3 & F3 & U3) & Hrun); [done..| |].
  { intros w3 (_ & F3 & _). apply (reconcile_fulfilled a c name path Hpath); [done..|]. by rewrite F3. }
  destruct (idempotent_works usable a c name path Hworks Hpath w3 (stored (fulfilled_payload a c name operation origin recovery t)) Hcreate) as (w4 & H4 & D4).
  { split; [congruence | done]. }
  exists (fulfilled_payload a c name operation origin recovery t), w1, w2, w4. rewrite Hrun.
  split_and!; [done| |done|done|done|apply D4]. by destruct operation, origin, recovery.
Qed.

(** ** An example host: refs and files, used by nobody else *)

Module ExportExample.

Record World := mkWorld { wd_refs : string -> string -> option string; wd_files : string -> FileContent }.

#[local] Instance hash : HashLibrary := constant_hash.

Definition commit : string := "0123456789012345678901234567890123456789".
Definition state_path : string := "/run/stage/workspace-state.json".

Definition git (root : string) (args : list string) (w : World) : GitResult * World :=
  match args with
  | ["check-ref-format"; _; ref] => (GitDone ref, w)
  | ["symbolic-ref"; _; _] => (GitFailed 1 "" "exit 1", w)
  | ["show-ref"; _; _; ref] => (if wd_refs w root ref then GitDone "" else GitFailed 1 "" "exit 1", w)
  | ["rev-parse"; "--verify"; spec] =>
      (match wd_refs w root (str_take (str_len spec - 9) spec) with Some oid => GitDone oid | None => GitFailed 128 "" "exit 128" end, w)
  | ["rev-parse"; _] => (GitDone "sha1", w)
  | ["update-ref"; _; ref; oid; _] =>
      if wd_refs w root ref then (GitFailed 128 "" "exit 128", w)
      else (GitDone "", mkWorld (fun root' ref' => if decide ((root', ref') = (root, ref)) then Some oid else wd_refs w root' ref') (wd_files w))
  | _ => (GitFailed 1 "" "usage", w)
  end.

Definition result_refs : string * string :=
  match state_invocation_slug [("node_id", JStr "build"); ("task_id", JStr "t"); ("round_num", JInt 1)] with
  | Some slug => match result_ref_names "run" "build" slug with Ok names => names | _ => ("", "") end
  | None => ("", "")
  end.

Definition source_ref : WorktreeSourceRef := mkSourceRef commit commit (Some "/run/b.bundle") (Some "d") (Some 12) (Some (snd result_refs)).

#[export] Instance host : ExportHost World := {|
  git_run := git;
  lock_git _ := ret tt;
  unlock_git _ := ret tt;
  file_at := wd_files;
  write_json path v := modify (fun w => mkWorld (wd_refs w) (fun p => if decide (p = path) then FileJson (sort_keys v) else wd_files w p));
  now := ret "2026-01-01T00:00:00+00:00";
  lineage_state_path _ := ret state_path;
  load_source_ref _ := ret source_ref;
  verify_source _ _ w := (LineageVerified, w);
  resolve_common_git_dir _ := ret "/repo/.git";
  resolve_path p := p;
  contained_regular_file _ dir path := Some (path_join dir path);
  file_size_and_sha256 _ := ret (12, "d");
  enter_source _ _ := ret tt;
  exit_source _ _ := ret tt;
  refresh_descriptor _ _ := ret tt
|}.

#[export] Instance view : RepositoryView World := {| branches w root ref := DirectRef <$> wd_refs w root ref; others := eq |}.

#[export] Instance laws : ExportLaws host view.
Proof.
  constructor.
  all: try (intros ? w r w' [= _ <-]; reflexivity).
  all: try (intros ? ? w r w' [= _ <-]; reflexivity).
  all: try (intros w r w' [= _ <-]; reflexivity).
  - split; [by intros ? | by intros ? ? ? -> ->].
  - by intros w w' run name path <-.
  - intros root args w r w' Hargs Hg. cbn in Hg. unfold git in Hg. repeat (case_match; simplify_eq; try done).
  - intros root ref oid w r w' Hg. cbn in Hg. destruct (wd_refs w root ref) as [x|] eqn:Hr; injection Hg as <- <-; [done|].
    eexists w, _. split_and!; [done| |done]. split_and!; cbn; [by rewrite Hr | by rewrite decide_True | | done].
    intros root' ref' Hne. by rewrite decide_False.
  - intros path v w r w' [= <- <-]. eexists w, _. split_and!; [done| |done]. split_and!; cbn; [by rewrite decide_True | | done].
    intros path' Hne. by rewrite decide_False.
Qed.

Definition policy : WorkspaceSelectionRecord :=
  mkSelection true (Some "main") (Some WK_worktree) SourceProject None CleanStrict worktree_checkout ("blob_exact", "1.0") None
    (mkBranchExport true (Some "feature")) true true.

Definition node : PreflightExecutionNode :=
  mkExecNode "build" None None None None Sequential false [] (Some "build") [] no_policy (Some policy) (contract_named "build") None false None None.

Definition plan : PreflightExecutionPlan := mkPlanRecord "run" "demo" "sig" ["build"] [] [] [node] [] [] [] [] [] [] [].

Definition source : ExportSource := mkExportSource "/repo" "/repo/.git" (sha256 "") ".".

Definition attempt : BranchExportAttempt := mkAttempt (mkExportRun plan "id" "run" source "/run") "main" node policy current_run.

Definition oid (digit : string) : string := str_take 40 (str_join digit (replicate 41 "")).

Definition base_source : dict json := [("kind", JStr "project"); ("commit", JStr (oid "a")); ("tree", JStr (oid "b"))].

Definition destination (name : string) : json :=
  JObj [("name", JStr name); ("target_oid", JStr commit); ("expected_old_oid", JNull)].

(** The state that a successful worktree leaves. *)
Definition state : json :=
  JObj [("version", JStr SCHEMA_VERSION); ("run_id", JStr "id"); ("run_key_name", JStr "run"); ("workflow_name", JStr "demo");
    ("workflow_signature", JStr "sig"); ("node_id", JStr "build"); ("status", JStr "succeeded"); ("role", JStr "executor");
    ("task_id", JStr "t"); ("provider", JStr "p"); ("round_num", JInt 1); ("workspace_kind", JStr "worktree");
    ("logical_worktree_name", JStr "main"); ("worktree_contract", worktree_contract_json policy);
    ("workspace", JObj [("materialization", JStr "worktree_checkout"); ("lineage_producer", JBool true); ("writable", JBool true);
                        ("retention", JStr "deleted")]);
    ("git", JObj [("object_format", JStr "sha1"); ("repo_id", JStr (sha256 "")); ("run_base_commit", JStr (oid "a"));
                  ("source_tree", JStr (oid "b")); ("git_top_level", JStr "/repo"); ("active_git_dir", JStr "/repo/.git");
                  ("common_git_dir", JStr "/repo/.git")]);
    ("source", JObj base_source); ("invocation_source", JObj (invocation_source_payload base_source));
    ("process_drain", JObj [("status", JStr "confirmed")]);
    ("result", JObj [("candidate_commit", JStr commit); ("candidate_tree", JStr commit); ("result_commit", JStr commit);
                     ("result_tree", JStr commit); ("changed_path_count", JInt 1)]);
    ("refs", JObj [("candidate", JStr (fst result_refs)); ("result", JStr (snd result_refs))]);
    ("ref_publication",
       JObj [("phase", JStr "published"); ("repository_id", JStr (sha256 "")); ("run_id", JStr "id"); ("run_key_name", JStr "run");
             ("node_id", JStr "build"); ("task_id", JStr "t"); ("role", JStr "executor"); ("round_num", JInt 1);
             ("destinations", JObj [("candidate", destination (fst result_refs)); ("result", destination (snd result_refs))])]);
    ("bundle", JObj [("path", JStr "b.bundle"); ("sha256", JStr "d"); ("size_bytes", JInt 12); ("verified", JBool true)])].

Definition checkpoint : BranchExportCheckpoint :=
  mkExportCheckpoint state_path "stage/workspace-state.json" "build" "t" commit commit (snd result_refs) "/run/b.bundle" "b.bundle" "d" 12.

Definition usable (w : World) : Prop := wd_files w state_path = FileJson state.

Definition start : World := mkWorld (fun _ _ => None) (fun p => if decide (p = state_path) then FileJson state else FileAbsent).

Definition record_path : string := match export_record_path (ba_run attempt) "main" with Ok p => p | _ => "" end.

Lemma checkpoint_valid w : usable w -> validated_checkpoint attempt w = (Ok checkpoint, w).
Proof.
  intros Hu. destruct w as [refs files]. unfold usable in Hu. cbn [wd_files] in Hu.
  unfold validated_checkpoint, workspace_state_payload, mbind, M_bind, bind, read. cbn [lineage_state_path file_at host wd_files ret]. unfold ret at 1.
  rewrite Hu. vm_compute. reflexivity.
Qed.

Lemma export_works : works usable attempt checkpoint "refs/heads/feature" "/repo" record_path.
Proof.
  constructor.
  all: try (intros ? w _; by do 2 eexists).
  all: try (intros w _; by do 2 eexists).
  - intros w w' Hu <-. done.
  - intros w w' Hu (_ & _ & _ & Hf). etransitivity; [apply (Hf state_path) | exact Hu].
  - intros v w w' Hu (_ & Hf & _). etransitivity; [apply (Hf state_path); intros H; by vm_compute in H | exact Hu].
  - intros w Hu. exists w. by apply checkpoint_valid.
  - intros w _ _. by do 3 eexists.
  - intros w _. cbn. by destruct (wd_refs w "/repo" "refs/heads/feature") eqn:Hr; cbn; repeat eexists; rewrite Hr.
  - intros w _ Hb. cbn in *. destruct (wd_refs w "/repo" "refs/heads/feature") as [oid|] eqn:Hr; [|done]. injection Hb as ->.
    exists commit, w. split; [|done].
    change (str_take (str_len ("refs/heads/feature" +:+ "^{commit}") - 9) ("refs/heads/feature" +:+ "^{commit}")) with "refs/heads/feature".
    by rewrite Hr.
  - intros w _ Hb. cbn in *. destruct (wd_refs w "/repo" "refs/heads/feature") as [oid|] eqn:Hr; [done|]. by repeat eexists.
Qed.

(** Witness of C7. *)
Lemma branch_exports_never_overwrite_witness :
  let run := fulfill_branch_exports plan (Some source) "id" "run" "/run" [] start in
  rtc (export_step (mkExportRun plan "id" "run" source "/run")) start (snd run) /\
  fst run = Ok [record_path] /\ branches (snd run) "/repo" "refs/heads/feature" = Some (DirectRef commit).
Proof.
  cbv zeta. split; [|split; vm_compute; reflexivity].
  apply (branch_exports_never_overwrite plan source "id" "run" "/run" [] None start (fst (fulfill_branch_exports plan (Some source) "id" "run" "/run" [] start))).
  left. apply surjective_pairing.
Defined.

(** Witness of C13. *)
Lemma interrupted_exports_complete_witness :
  exists payload w1 w2 w3,
    fulfillment_payload attempt start = (Ok payload, w1) /\ get payload "status" = JStr "fulfilled" /\
    branches w1 "/repo" "refs/heads/feature" = Some (DirectRef commit) /\
    write_record (ba_run attempt) "main" payload w1 = (Ok record_path, w2) /\
    fulfillment_payload attempt w2 = (Ok (stored payload), w3) /\ branches w3 "/repo" "refs/heads/feature" = Some (DirectRef commit).
Proof.
  apply (interrupted_exports_complete usable attempt checkpoint "feature" record_path start); [apply export_works | vm_compute; reflexivity..|].
  left. split; vm_compute; reflexivity.
Defined.

End ExportExample.
