(* ===== verification/WorkspaceState.v ===== *)
(** Workspace states: the JSON file that records what happens to the workspace
    of an invocation (runtime/workspace: state, state_evidence,
    running_state_payload, lineage_discard, terminalization, mutator_fence, and
    the fences of workers in runtime/execution/provider_call and
    runtime/agent/invocation).

    Every edit reads the file, changes the payload and replaces the file, under
    a lock of its path.  An edit that raises leaves the file as it was; so does
    a write that fails.  The store has the files by their resolved path, the
    paths with a running mutator, the results of the next writes and the number
    of times that the clock was read. *)

From Stdlib Require Import ZArith Lia Ascii String.
From stdpp Require Import base gmap sets list strings pretty sorting.
From S2P Require Import Prelude PyStr StateExn Models Scheduler Artifacts RunState PlanRecords PlanContract Foreach ReviewCandidates Composition PreflightState Redaction SecretHandles WorkspaceContract BranchExport.

Open Scope string_scope.
Open Scope list_scope.
Open Scope Z_scope.

(** ** Requests *)

(** Code: runtime/workspace/state.py, WorkspaceStateWriteRequest. *)
Record WorkspaceStateWriteRequest := mkWriteRequest {
  wr_run_id : string;
  wr_run_key_name : string;
  wr_workflow_name : string;
  wr_workflow_signature : string;
  wr_task_id : string;
  wr_provider : string;
  wr_role_label : ProviderRole;
  wr_round_num : Z;
  wr_audit_round_num : option Z;
  wr_invoker : dict json;
  wr_rendered_workspace_files : list json
}.

(** A duration is kept as it is written.
    Code: runtime/workspace/state.py, WorkspaceProvisioningMetadata. *)
Record WorkspaceProvisioningMetadata := mkProvisioning { pm_checkout_size_bytes : Z; pm_duration_seconds : string }.

(** Code: runtime/workspace/worktree/types.py, WorktreeSourceRef. *)
Inductive WorktreeSource := mkWorktreeSource {
  so_source_kind : string;
  so_source_node_id : option string;
  so_source_commit : string;
  so_source_tree : string;
  so_candidate_sequence : option Z;
  so_bundle_path : option string;
  so_bundle_sha256 : option string;
  so_bundle_size_bytes : option Z;
  so_bundle_ref : option string;
  so_upstream_sources : list WorktreeSource
}.

(** Code: runtime/workspace/state.py, WorkspaceStateMaterializationRequest. *)
Record WorkspaceStateMaterializationRequest := mkMaterialization {
  mt_workspace_path : string;
  mt_child_environment_required : bool;
  mt_cache_root : option string;
  mt_effective_cwd : option string;
  mt_checkout_root : option string;
  mt_worktree_git_dir : option string;
  mt_provisioning : option WorkspaceProvisioningMetadata;
  mt_source_ref : option WorktreeSource;
  mt_materialization : string;
  mt_writable : bool;
  mt_lineage_producer : bool;
  mt_worktree_lock_mode : option string;
  mt_reuse : option (dict json);
  mt_reuse_generation : option Z
}.

(** Code: runtime/workspace/state.py, WorkspaceStateRetention. *)
Record WorkspaceStateRetention := mkRetention { rt_retention : string; rt_retained_reason : option string }.

(** Code: architecture/contracts/execution_status.py, TerminalWorkspaceStatus. *)
Inductive TerminalWorkspaceStatus := ws_succeeded | ws_failed | ws_cancelled.

#[global] Instance TerminalWorkspaceStatus_eq_dec : EqDecision TerminalWorkspaceStatus.
Proof. solve_decision. Defined.

Definition terminal_status_value (s : TerminalWorkspaceStatus) : string :=
  match s with ws_succeeded => "succeeded" | ws_failed => "failed" | ws_cancelled => "cancelled" end.

(** Code: runtime/workspace/state.py, WorkspaceStateUpdateRequest. *)
Record WorkspaceStateUpdateRequest := mkUpdateRequest {
  ur_status : TerminalWorkspaceStatus;
  ur_diagnostics : option (list json);
  ur_retention : WorkspaceStateRetention;
  ur_result : option (dict json);
  ur_refs : option (dict json);
  ur_bundle : option (dict json);
  ur_setup : option (dict json);
  ur_child_environment_applied : option bool
}.

(** The part of a source snapshot that a state records.
    Code: core/preflight/workspace/models.py, WorkspaceSourceSnapshot. *)
Record StateSource := mkStateSource {
  sx_object_format : string;
  sx_repository_id : string;
  sx_run_base_commit : string;
  sx_source_tree : string;
  sx_git_top_level : string;
  sx_active_git_dir : string;
  sx_common_git_dir : string;
  sx_project_root_relative_path : string
}.

(** ** The state of a running invocation (running_state_payload.py) *)

Definition jtext (o : option string) : json := jopt JStr o.
Definition jint (o : option Z) : json := jopt JInt o.

(** Code: runtime/workspace/running_state_payload.py, _git_payload. *)
Definition git_payload (source : StateSource) (m : WorkspaceStateMaterializationRequest) : dict json :=
  [("object_format", JStr (sx_object_format source)); ("repo_id", JStr (sx_repository_id source));
   ("run_base_commit", JStr (sx_run_base_commit source)); ("source_tree", JStr (sx_source_tree source));
   ("git_top_level", JStr (sx_git_top_level source)); ("active_git_dir", JStr (sx_active_git_dir source));
   ("common_git_dir", JStr (sx_common_git_dir source)); ("worktree_config_active", JBool false);
   ("worktree_lock_mode", jtext (mt_worktree_lock_mode m))].

(** Code: runtime/workspace/running_state_payload.py, _workspace_payload. *)
Definition workspace_payload (source : StateSource) (m : WorkspaceStateMaterializationRequest) : dict json :=
  [("path", JNull); ("effective_cwd", JNull); ("cache_key", JStr (path_name (mt_workspace_path m)));
   ("materialization", JStr (mt_materialization m)); ("writable", JBool (mt_writable m));
   ("lineage_producer", JBool (mt_lineage_producer m)); ("retention", JStr "pending"); ("retained_reason", JNull);
   ("project_root_relative_path", JStr (sx_project_root_relative_path source))].

(** Code: runtime/workspace/running_state_payload.py, _execution_payload. *)
Definition execution_payload (m : WorkspaceStateMaterializationRequest) : dict json :=
  [("cache_root", jtext (mt_cache_root m)); ("workspace_path", JStr (mt_workspace_path m));
   ("checkout_root", jtext (mt_checkout_root m)); ("worktree_git_dir", jtext (mt_worktree_git_dir m));
   ("checkout_size_bytes", jint (pm_checkout_size_bytes <$> mt_provisioning m)); ("effective_cwd", jtext (mt_effective_cwd m));
   ("provisioning_duration_seconds", jopt JFloat (pm_duration_seconds <$> mt_provisioning m))].

(** Code: runtime/workspace/running_state_payload.py, _relative_source_bundle_path. *)
Definition relative_source_bundle_path (bundle_path state_path : string) : option string :=
  relative_to bundle_path (path_parent (path_parent state_path)).

(** Code: runtime/workspace/running_state_payload.py, _source_bundle_payload. *)
Definition source_bundle_payload (r : WorktreeSource) (state_path : string) : dict json :=
  match so_bundle_sha256 r with
  | None => []
  | Some digest =>
      [("bundle_sha256", JStr digest)]
      ++ match so_bundle_size_bytes r with Some n => [("bundle_size_bytes", JInt n)] | None => [] end
      ++ match so_bundle_ref r with Some ref => [("bundle_ref", JStr ref)] | None => [] end
      ++ match so_bundle_path r with
         | Some path => match relative_source_bundle_path path state_path with Some p => [("bundle_path", JStr p)] | None => [] end
         | None => []
         end
  end.

(** The payload of a source reference.
    Code: runtime/workspace/running_state_payload.py:193-212. *)
Fixpoint source_ref_payload (state_path : string) (r : WorktreeSource) : dict json :=
  [("kind", JStr (so_source_kind r)); ("node_id", jtext (so_source_node_id r)); ("commit", JStr (so_source_commit r));
   ("tree", JStr (so_source_tree r)); ("candidate_sequence", jint (so_candidate_sequence r))]
  ++ source_bundle_payload r state_path
  ++ match so_upstream_sources r with
     | [] => []
     | (_ :: _) as l => [("upstream_sources", JList (map (fun u => JObj (source_ref_payload state_path u)) l))]
     end.

(** Code: runtime/workspace/running_state_payload.py, _source_payload. *)
Definition source_payload (source_ref : option WorktreeSource) (source : StateSource) (state_path : string) : dict json :=
  match source_ref with
  | None =>
      [("kind", JStr "project"); ("node_id", JNull); ("commit", JStr (sx_run_base_commit source));
       ("tree", JStr (sx_source_tree source)); ("candidate_sequence", JNull)]
  | Some r => source_ref_payload state_path r
  end.

(** Code: runtime/workspace/running_state_payload.py, _add_reuse_payload. *)
Definition add_reuse_payload (payload : dict json) (m : WorkspaceStateMaterializationRequest) : dict json :=
  let payload := match mt_reuse m with Some reuse => dset payload "reuse" (JObj reuse) | None => payload end in
  match mt_reuse_generation m, get payload "workspace" with
  | Some generation, JObj workspace => dset payload "workspace" (JObj (dset workspace "reuse_generation" (JInt generation)))
  | _, _ => payload
  end.

(** Code: runtime/workspace/running_state_payload.py, _add_setup_payload. *)
Definition add_setup_payload (payload : dict json) (policy : WorkspaceSelectionRecord) : dict json :=
  match wp_setup policy with
  | None => payload
  | Some setup =>
      dset payload "setup"
        (JObj [("profile_name", JStr (ws_profile_name setup)); ("status", JStr "pending");
               ("commands", JList (map (fun c => JObj [("argv", JList (sc_argv c)); ("command_index", JInt (sc_command_index c))])
                                     (ws_commands setup)))])
  end.

Definition kind_text (k : WorktreeKind) : string := match k with WK_worktree => "worktree" | WK_snapshot => "snapshot" end.
Definition clean_start_text (c : WorkspaceCleanStart) : string :=
  match c with CleanStrict => "strict" | CleanTrackedOnly => "tracked_only" end.

(** Code: runtime/workspace/running_state_payload.py, build_running_workspace_state_payload. *)
Definition build_running_workspace_state_payload (state_path : string) (request : WorkspaceStateWriteRequest) (node : PreflightExecutionNode)
    (source : StateSource) (policy : WorkspaceSelectionRecord) (m : WorkspaceStateMaterializationRequest) (updated_at : string) : dict json :=
  let source_fields := source_payload (mt_source_ref m) source state_path in
  let payload :=
    [("version", JStr SCHEMA_VERSION); ("run_id", JStr (wr_run_id request)); ("run_key_name", JStr (wr_run_key_name request));
     ("workflow_name", JStr (wr_workflow_name request)); ("workflow_signature", JStr (wr_workflow_signature request));
     ("node_id", JStr (en_id node)); ("task_id", JStr (wr_task_id request)); ("provider", JStr (wr_provider request));
     ("role", JStr (role_value (wr_role_label request))); ("round_num", JInt (wr_round_num request));
     ("audit_round_num", jint (wr_audit_round_num request)); ("status", JStr "running");
     ("logical_worktree_name", jtext (wp_logical_worktree_name policy));
     ("workspace_kind", jtext (kind_text <$> wp_declaration_kind policy)); ("clean_start", JStr (clean_start_text (wp_clean_start policy)));
     ("worktree_contract", worktree_contract_json policy); ("git", JObj (git_payload source m)); ("source", JObj source_fields);
     ("workspace", JObj (workspace_payload source m)); ("execution", JObj (execution_payload m));
     ("invocation_source", JObj (invocation_source_payload source_fields));
     ("child_process_environment",
        JObj [("required", JBool (mt_child_environment_required m));
              ("applied", if mt_child_environment_required m then JBool false else JNull)]);
     ("invoker", JObj (wr_invoker request)); ("rendered_workspace_files", JList (wr_rendered_workspace_files request));
     ("diagnostics", JList []); ("process_drain", JObj [("status", JStr "not_started")]); ("updated_at", JStr updated_at)] in
  add_setup_payload (add_reuse_payload payload m) policy.

(** ** The store *)

(** [sw_writes] tells how the next writes end; those that are not listed are
    done. *)
Record StateStore := mkStore {
  sw_files : gmap string FileContent;
  sw_fence : gset string;
  sw_writes : list WriteResult;
  sw_ticks : nat
}.

Section Store.
Context (resolve : string -> string) (clock : nat -> string).

Definition state_file (w : StateStore) (path : string) : FileContent := default FileAbsent (sw_files w !! resolve path).

(** [datetime.now(UTC).isoformat()]. *)
Definition timestamp : M StateStore string := fun w =>
  (Ok (clock (sw_ticks w)), mkStore (sw_files w) (sw_fence w) (sw_writes w) (S (sw_ticks w))).

(** The file is replaced as a whole or not at all, and a write that raises may
    have replaced it; a written object has its keys sorted.
    Code: artifacts/atomic.py, atomic_write_json. *)
Definition atomic_write_json (path : string) (payload : dict json) : M StateStore unit := fun w =>
  let failed := Raise (OSError ("cannot write " +:+ path)) in
  let kept := mkStore (sw_files w) (sw_fence w) (tail (sw_writes w)) (sw_ticks w) in
  let replaced := mkStore (<[resolve path := FileJson (sort_keys (JObj payload))]> (sw_files w)) (sw_fence w) (tail (sw_writes w)) (sw_ticks w) in
  match default Written (head (sw_writes w)) with
  | Written => (Ok tt, replaced)
  | NotReplaced => (failed, kept)
  | ReplacedUnsynced => (failed, replaced)
  end.

(** Code: runtime/workspace/state.py, read_workspace_state. *)
Definition read_workspace_state (state_path : string) : M StateStore (dict json) :=
  content ← read (fun w => state_file w state_path);
  match content with
  | FileJson (JObj payload) => ret payload
  | _ => raise (RuntimeError ("Invalid workspace state: " +:+ state_path))
  end.

(** An edit; its body raises or returns the changed payload.
    Code: runtime/workspace/state.py, edit_workspace_state..mutate_workspace_state. *)
Definition edit_workspace_state (state_path : string) (body : dict json -> outcome (dict json)) : M StateStore unit :=
  payload ← read_workspace_state state_path;
  payload ← lift (body payload);
  updated_at ← timestamp;
  atomic_write_json state_path (dset payload "updated_at" (JStr updated_at)).

(** [status in TERMINAL_WORKSPACE_STATUSES]. *)
Definition is_terminal_status (status : json) : outcome bool := in_strings status TERMINAL_WORKSPACE_STATUSES.

(** The fields that name the invocation of a state.
    Code: runtime/workspace/state.py:140-152. *)
Definition STATE_IDENTITY_FIELDS : list string :=
  ["version"; "run_id"; "run_key_name"; "workflow_name"; "workflow_signature"; "node_id"; "task_id"; "provider"; "role"; "round_num";
   "audit_round_num"].

(** What a materialization makes of the state that exists.
    Code: runtime/workspace/state.py:133-159. *)
Definition rewrite_running_state (payload current : dict json) : outcome (dict json) :=
  terminal ← is_terminal_status (get current "status");
  if terminal : bool then Raise (RuntimeError "Workspace materialization cannot rewrite a terminal outcome.")
  else if existsb (fun field => negb (json_equal (get current field) (get payload field))) STATE_IDENTITY_FIELDS
  then Raise (RuntimeError "Workspace materialization state identity is contradictory.")
  else Ok (update current payload).

(** Code: runtime/workspace/state.py, write_running_workspace_state. *)
Definition write_running_workspace_state (state_path : string) (request : WorkspaceStateWriteRequest) (node : PreflightExecutionNode)
    (source : StateSource) (policy : WorkspaceSelectionRecord) (m : WorkspaceStateMaterializationRequest) : M StateStore unit :=
  updated_at ← timestamp;
  let payload := build_running_workspace_state_payload state_path request node source policy m updated_at in
  content ← read (fun w => state_file w state_path);
  match content with
  | FileAbsent => atomic_write_json state_path payload
  | _ =>
      current ← read_workspace_state state_path;
      payload ← lift (rewrite_running_state payload current);
      atomic_write_json state_path payload
  end.

(** ** Identity of a state *)

Definition without_fields (fields : list string) (payload : dict json) : dict json :=
  List.filter (fun '(k, _) => negb (bool_decide (k ∈ fields))) payload.

(** Code: runtime/workspace/state.py, _RUNTIME_MUTABLE_WORKSPACE_STATE_FIELDS. *)
Definition RUNTIME_MUTABLE_WORKSPACE_STATE_FIELDS : list string := ["process_drain"; "updated_at"; "workspace_mutator"].

(** Code: runtime/workspace/state.py, _TERMINAL_WORKSPACE_STATE_FIELDS. *)
Definition TERMINAL_WORKSPACE_STATE_FIELDS : list string :=
  ["branch_export"; "bundle"; "diagnostics"; "ref_publication"; "refs"; "result"; "status"; "temporary_refs"].

(** Code: runtime/workspace/state.py, _workspace_state_identity. *)
Definition workspace_state_identity (payload : dict json) (terminalized : bool) : dict json :=
  let mutable_fields := RUNTIME_MUTABLE_WORKSPACE_STATE_FIELDS ++ (if terminalized then TERMINAL_WORKSPACE_STATE_FIELDS else []) in
  let identity := without_fields mutable_fields payload in
  if negb terminalized then identity
  else
    let identity :=
      match get payload "workspace" with
      | JObj workspace => dset identity "workspace" (JObj (without_fields ["retained_reason"; "retention"] workspace))
      | _ => identity
      end in
    match get payload "child_process_environment" with
    | JObj environment => dset identity "child_process_environment" (JObj (without_fields ["applied"] environment))
    | _ => identity
    end.

(** Code: runtime/workspace/state.py, require_workspace_state_payload_identity. *)
Definition require_workspace_state_payload_identity (current expected : dict json) : outcome unit :=
  current_terminal ← is_terminal_status (get current "status");
  expected_terminal ← (if current_terminal : bool then is_terminal_status (get expected "status") else Ok false);
  let terminalized := current_terminal && expected_terminal in
  if json_equal (JObj (workspace_state_identity current terminalized)) (JObj (workspace_state_identity expected terminalized))
  then Ok tt
  else Raise (RuntimeError "Workspace state identity changed during execution; the workspace was retained.").

(** Code: runtime/workspace/state.py, require_workspace_state_identity. *)
Definition require_workspace_state_identity (state_path : string) (expected : dict json) : M StateStore unit :=
  current ← read_workspace_state state_path; lift (require_workspace_state_payload_identity current expected).

(** ** Terminal outcomes *)

(** Code: runtime/workspace/state.py, _require_valid_terminal_transition. *)
Definition require_valid_terminal_transition (previous_status : json) (requested_status : TerminalWorkspaceStatus) : outcome unit :=
  terminal ← is_terminal_status previous_status;
  if terminal && negb (is_text previous_status (terminal_status_value requested_status))
  then Raise (RuntimeError ("Workspace terminal outcome cannot be rewritten from " +:+ json_repr previous_status +:+ " to "
                            +:+ quoted (terminal_status_value requested_status) +:+ "."))
  else Ok tt.

(** Code: runtime/workspace/state.py, _apply_workspace_retention. *)
Definition apply_workspace_retention (payload : dict json) (retention : WorkspaceStateRetention) : dict json :=
  match get payload "workspace" with
  | JObj workspace =>
      dset payload "workspace"
        (JObj (dset (dset workspace "retention" (JStr (rt_retention retention))) "retained_reason" (jtext (rt_retained_reason retention))))
  | _ => payload
  end.

(** Code: runtime/workspace/state.py, _apply_evidence_field. *)
Definition apply_evidence_field (payload : dict json) (field_name : string) (evidence : option (dict json)) (terminalized : bool)
    : outcome (dict json) :=
  match evidence with
  | None => Ok payload
  | Some evidence =>
      if terminalized && negb (json_equal (get payload field_name) (JObj evidence))
      then Raise (RuntimeError ("Workspace terminal " +:+ (if bool_decide (field_name = "refs") then "ref" else field_name)
                                +:+ " evidence is immutable."))
      else Ok (dset payload field_name (JObj evidence))
  end.

(** Code: runtime/workspace/state.py, _apply_terminal_evidence. *)
Definition apply_terminal_evidence (payload : dict json) (request : WorkspaceStateUpdateRequest) (previous_status : json)
    : outcome (dict json) :=
  terminalized ← is_terminal_status previous_status;
  payload ← apply_evidence_field payload "result" (ur_result request) terminalized;
  payload ← apply_evidence_field payload "refs" (ur_refs request) terminalized;
  apply_evidence_field payload "bundle" (ur_bundle request) terminalized.

(** Code: runtime/workspace/state.py, _apply_child_environment_status. *)
Definition apply_child_environment_status (payload : dict json) (request : WorkspaceStateUpdateRequest) (previous_status : json) : dict json :=
  match get payload "child_process_environment" with
  | JObj environment =>
      if negb (is_true (get environment "required")) then payload
      else
        match ur_child_environment_applied request with
        | Some applied => dset payload "child_process_environment" (JObj (dset environment "applied" (JBool applied)))
        | None =>
            if bool_decide (ur_status request = ws_succeeded) && is_text previous_status "running"
            then dset payload "child_process_environment" (JObj (dset environment "applied" (JBool true)))
            else payload
        end
  | _ => payload
  end.

(** Code: runtime/workspace/state.py, _apply_workspace_state_update. *)
Definition apply_workspace_state_update (request : WorkspaceStateUpdateRequest) (payload : dict json) : outcome (dict json) :=
  let previous_status := get payload "status" in
  _ ← require_valid_terminal_transition previous_status (ur_status request);
  let payload := dset payload "status" (JStr (terminal_status_value (ur_status request))) in
  let payload := apply_workspace_retention payload (ur_retention request) in
  let payload := match ur_diagnostics request with Some d => dset payload "diagnostics" (JList d) | None => payload end in
  payload ← apply_terminal_evidence payload request previous_status;
  let payload := match ur_setup request with Some setup => dset payload "setup" (JObj setup) | None => payload end in
  mret (apply_child_environment_status payload request previous_status).

(** Code: runtime/workspace/state.py, update_workspace_state. *)
Definition update_workspace_state (state_path : string) (request : WorkspaceStateUpdateRequest) : M StateStore unit :=
  edit_workspace_state state_path (apply_workspace_state_update request).

(** Code: runtime/workspace/state.py, update_workspace_retention.apply_retention. *)
Definition apply_retention (retention : WorkspaceStateRetention) (diagnostic : option (dict json)) (payload : dict json) : outcome (dict json) :=
  terminal ← is_terminal_status (get payload "status");
  if negb terminal then Raise (RuntimeError "Workspace retention can change only after terminal outcome publication.")
  else
    match get payload "workspace" with
    | JObj workspace =>
        payload ← match diagnostic with
                  | None => Ok payload
                  | Some diagnostic =>
                      match get payload "diagnostics" with
                      | JList diagnostics => Ok (dset payload "diagnostics" (JList (diagnostics ++ [JObj diagnostic])))
                      | _ => Raise (RuntimeError "Workspace state lacks diagnostic evidence.")
                      end
                  end;
        mret (dset payload "workspace"
                (JObj (dset (dset workspace "retention" (JStr (rt_retention retention))) "retained_reason"
                         (jtext (rt_retained_reason retention)))))
    | _ => Raise (RuntimeError "Workspace state lacks workspace retention evidence.")
    end.

(** Code: runtime/workspace/state.py, update_workspace_retention. *)
Definition update_workspace_retention (state_path : string) (retention : WorkspaceStateRetention) (diagnostic : option (dict json))
    : M StateStore unit :=
  edit_workspace_state state_path (apply_retention retention diagnostic).

(** ** Discarded lineage (lineage_discard.py) *)

(** The truth of a value in a condition. *)
Definition truthy (v : json) : bool :=
  match v with
  | JNull => false | JBool b => b | JInt n => negb (n =? 0) | JStr s => nonempty s
  | JFloat r => negb (existsb (fun z => bool_decide (r = z)) ["0.0"; "-0.0"])
  | JList l => is_cons l | JObj f => is_cons f
  end.

(** Code: runtime/workspace/lineage_discard.py, _discarded_result. *)
Definition discarded_result (result : json) (reason : string) : dict json :=
  let discarded := [("lineage_produced", JBool false); ("lineage_discarded", JBool true); ("lineage_discard_reason", JStr reason)] in
  match result with
  | JObj result =>
      let discarded := match get result "changed_path_count" with JInt n => dset discarded "changed_path_count" (JInt n) | _ => discarded end in
      let final_head := get result "final_head" in
      let final_head :=
        if is_none final_head
        then if truthy (get result "result_commit") then get result "result_commit" else get result "candidate_commit"
        else final_head in
      match final_head with JStr head => dset discarded "final_head" (JStr head) | _ => discarded end
  | _ => discarded
  end.

(** Code: runtime/workspace/lineage_discard.py, apply_lineage_discard. *)
Definition apply_lineage_discard (payload : dict json) (reason : string) : dict json :=
  let payload :=
    match get payload "workspace" with
    | JObj workspace => dset payload "workspace" (JObj (dset workspace "lineage_producer" (JBool false)))
    | _ => payload
    end in
  let payload := dset payload "result" (JObj (discarded_result (get payload "result") reason)) in
  let payload := without_fields ["bundle"] (without_fields ["refs"] payload) in
  let diagnostics := match get payload "diagnostics" with JList d => d | _ => [] end in
  dset payload "diagnostics"
    (JList (diagnostics ++ [JObj [("level", JStr "warning"); ("message", JStr ("Workspace lineage discarded: " +:+ reason))]])).

(** Code: runtime/workspace/state.py, discard_workspace_lineage. *)
Definition discard_workspace_lineage (state_path reason : string) : M StateStore unit :=
  content ← read (fun w => state_file w state_path);
  match content with
  | FileAbsent | FileUnsafe => ret tt
  | _ => edit_workspace_state state_path (fun payload => Ok (apply_lineage_discard payload reason))
  end.

(** ** Evidence of refs (state_evidence.py) *)

(** Code: runtime/workspace/state_evidence.py, _RefPublicationTargetPhase. *)
Inductive RefPublicationTargetPhase := to_published | to_removed.

Definition target_phase_value (p : RefPublicationTargetPhase) : string :=
  match p with to_published => "published" | to_removed => "removed" end.

(** Code: runtime/workspace/state_evidence.py, _REF_PUBLICATION_TRANSITIONS. *)
Definition REF_PUBLICATION_TRANSITIONS (current : string) : list string :=
  if bool_decide (current = "prepared") then ["published"; "removed"]
  else if bool_decide (current = "published") then ["removed"]
  else [].

(** Code: runtime/workspace/state_evidence.py, _is_ref_publication_phase. *)
Definition is_ref_publication_phase (value : json) : option string :=
  match value with JStr s => if bool_decide (s ∈ REF_PUBLICATION_PHASES) then Some s else None | _ => None end.

(** The body of the edit.
    Code: runtime/workspace/state_evidence.py:37-41. *)
Definition set_ref_publication (publication payload : dict json) : outcome (dict json) :=
  let existing := get payload "ref_publication" in
  if negb (is_none existing) && negb (json_equal existing (JObj publication))
  then Raise (RuntimeError "Workspace ref publication evidence is immutable.")
  else Ok (dset payload "ref_publication" (JObj publication)).

(** Code: runtime/workspace/state_evidence.py, update_workspace_ref_publication. *)
Definition update_workspace_ref_publication (state_path : string) (publication : dict json) : M StateStore unit :=
  edit_workspace_state state_path (set_ref_publication publication).

(** The body of the edit.
    Code: runtime/workspace/state_evidence.py:48-64. *)
Definition set_ref_publication_phase (phase : RefPublicationTargetPhase) (payload : dict json) : outcome (dict json) :=
  match get payload "ref_publication" with
  | JObj publication =>
      let target := target_phase_value phase in
      let invalid current :=
        Raise (RuntimeError ("Invalid ref publication phase transition: " +:+ json_repr current +:+ " -> " +:+ quoted target +:+ ".")) in
      match is_ref_publication_phase (get publication "phase") with
      | None => invalid (get publication "phase")
      | Some current =>
          if negb (bool_decide (target = current)) && negb (bool_decide (target ∈ REF_PUBLICATION_TRANSITIONS current))
          then invalid (JStr current)
          else Ok (dset payload "ref_publication" (JObj (dset publication "phase" (JStr target))))
      end
  | _ => Raise (RuntimeError "Workspace state lacks ref publication evidence.")
  end.

(** Code: runtime/workspace/state_evidence.py, update_workspace_ref_publication_phase. *)
Definition update_workspace_ref_publication_phase (state_path : string) (phase : RefPublicationTargetPhase) : M StateStore unit :=
  edit_workspace_state state_path (set_ref_publication_phase phase).

(** Code: runtime/workspace/state_evidence.py, _is_temporary_ref_claim. *)
Definition is_temporary_ref_claim (value : json) : outcome bool :=
  match value with
  | JObj claim =>
      known ← in_strings (get claim "phase") ["prepared"; "removed"];
      mret (known && is_nonempty_string (get claim "name") && is_nonempty_string (get claim "target_oid"))
  | _ => Ok false
  end.

(** [all(...)] over the entries, which stops at the first that fails.
    Code: runtime/workspace/state_evidence.py, _is_temporary_ref_claim_list. *)
Fixpoint are_temporary_ref_claims (claims : list json) : outcome bool :=
  match claims with
  | [] => Ok true
  | claim :: rest => valid ← is_temporary_ref_claim claim; if valid : bool then are_temporary_ref_claims rest else Ok false
  end.

(** Code: runtime/workspace/state_evidence.py, _matching_temporary_ref_claims. *)
Definition matching_temporary_ref_claims (claims : list json) (ref_name : string) : list (dict json) :=
  omap (fun claim => match claim with JObj f => if is_text (get f "name") ref_name then Some f else None | _ => None end) claims.

(** The body of the edit.
    Code: runtime/workspace/state_evidence.py:120-138. *)
Definition add_temporary_ref (ref_name target_oid : string) (payload : dict json) : outcome (dict json) :=
  let payload := if dmem payload "temporary_refs" then payload else dset payload "temporary_refs" (JList []) in
  match get payload "temporary_refs" with
  | JList claims =>
      valid ← are_temporary_ref_claims claims;
      if negb valid then Raise (RuntimeError "Workspace temporary ref evidence is invalid.")
      else
        match matching_temporary_ref_claims claims ref_name with
        | [] =>
            let claim := update [("phase", JStr "prepared"); ("name", JStr ref_name); ("target_oid", JStr target_oid)]
                           (temporary_ref_ownership payload) in
            Ok (dset payload "temporary_refs" (JList (claims ++ [JObj claim])))
        | [claim] =>
            if negb (is_text (get claim "target_oid") target_oid)
            then Raise (RuntimeError "Workspace temporary ref evidence conflicts.")
            else Ok payload
        | _ => Raise (RuntimeError "Workspace temporary ref evidence is ambiguous.")
        end
  | _ => Raise (RuntimeError "Workspace temporary ref evidence is invalid.")
  end.

(** Code: runtime/workspace/state_evidence.py, record_workspace_temporary_ref. *)
Definition record_workspace_temporary_ref (state_path ref_name target_oid : string) : M StateStore unit :=
  edit_workspace_state state_path (add_temporary_ref ref_name target_oid).

Definition mark_removed (ref_name : string) (claim : json) : json :=
  match claim with
  | JObj f => if is_text (get f "name") ref_name then JObj (dset f "phase" (JStr "removed")) else claim
  | _ => claim
  end.

(** The body of the edit.
    Code: runtime/workspace/state_evidence.py:142-151. *)
Definition remove_temporary_ref (ref_name : string) (payload : dict json) : outcome (dict json) :=
  match get payload "temporary_refs" with
  | JNull => Raise (RuntimeError "Workspace temporary ref evidence is missing.")
  | JList claims =>
      valid ← are_temporary_ref_claims claims;
      if negb valid then Raise (RuntimeError "Workspace temporary ref evidence is invalid.")
      else
        match matching_temporary_ref_claims claims ref_name with
        | [_] => Ok (dset payload "temporary_refs" (JList (map (mark_removed ref_name) claims)))
        | _ => Raise (RuntimeError "Workspace temporary ref evidence is ambiguous.")
        end
  | _ => Raise (RuntimeError "Workspace temporary ref evidence is invalid.")
  end.

(** Code: runtime/workspace/state_evidence.py, mark_workspace_temporary_ref_removed. *)
Definition mark_workspace_temporary_ref_removed (state_path ref_name : string) : M StateStore unit :=
  edit_workspace_state state_path (remove_temporary_ref ref_name).

(** Code: runtime/workspace/state_evidence.py, update_workspace_setup. *)
Definition update_workspace_setup (state_path : string) (setup base_payload : dict json) : M StateStore unit :=
  edit_workspace_state state_path (fun payload =>
    _ ← require_workspace_state_payload_identity payload base_payload; mret (dset payload "setup" (JObj setup))).

(** ** Processes and workers that may still write *)

(** Code: runtime/workspace/mutator_fence.py, fence_workspace_mutator. *)
Definition fence_workspace_mutator (state_path : string) : M StateStore unit :=
  modify (fun w => mkStore (sw_files w) ({[resolve state_path]} ∪ sw_fence w) (sw_writes w) (sw_ticks w)).

(** Code: runtime/workspace/mutator_fence.py, release_workspace_mutator. *)
Definition release_workspace_mutator (state_path : string) : M StateStore unit :=
  modify (fun w => mkStore (sw_files w) (sw_fence w ∖ {[resolve state_path]}) (sw_writes w) (sw_ticks w)).

(** Code: runtime/workspace/mutator_fence.py, workspace_mutator_is_fenced. *)
Definition workspace_mutator_is_fenced (w : StateStore) (state_path : string) : bool := bool_decide (resolve state_path ∈ sw_fence w).

(** Code: runtime/workspace/state_evidence.py, record_workspace_process_drain. *)
Definition record_workspace_process_drain (state_path status : string) (pid : Z) (process_group_id : option Z) (reason : option string)
    : M StateStore unit :=
  edit_workspace_state state_path (fun payload =>
    Ok (dset payload "process_drain"
          (JObj ([("status", JStr status); ("pid", JInt pid); ("process_group_id", jint process_group_id)]
                 ++ match reason with Some r => [("reason", JStr r)] | None => [] end)))).

(** Code: runtime/workspace/state_evidence.py, confirm_workspace_process_drain. *)
Definition confirm_workspace_process_drain (state_path : option string) (pid : Z) (process_group_id : option Z) : M StateStore unit :=
  match state_path with
  | None => ret tt
  | Some state_path =>
      record_workspace_process_drain state_path "confirmed" pid process_group_id None;; release_workspace_mutator state_path
  end.

(** The note that is added to the error when its evidence cannot be stored.
    Code: runtime/workspace/state_evidence.py, record_unresolved_workspace_process_drain. *)
Definition record_unresolved_workspace_process_drain (state_path : option string) (pid : Z) (process_group_id : option Z) (error : string)
    : M StateStore (option string) :=
  match state_path with
  | None => ret None
  | Some state_path =>
      fence_workspace_mutator state_path;;
      try_except (record_workspace_process_drain state_path "unresolved" pid process_group_id (Some error);; ret None)
        (fun e => if is_exception e
                  then ret (Some ("Workspace process-drain evidence persistence failed: " +:+ exn_str e)) else raise e)
  end.

(** [payload["workspace_mutator"] = evidence]. *)
Definition set_workspace_mutator (state_path : string) (evidence : dict json) : M StateStore unit :=
  edit_workspace_state state_path (fun payload => Ok (dset payload "workspace_mutator" (JObj evidence))).

Definition mutator_unresolved (operation : string) : dict json := [("status", JStr "unresolved"); ("operation", JStr operation)].
Definition mutator_finished (operation : string) : dict json :=
  [("status", JStr "confirmed"); ("operation", JStr operation); ("outcome", JStr "finished")].

(** Code: runtime/agent/invocation/retry_reset.py, _record_unresolved_retry_reset. *)
Definition record_unresolved_retry_reset (state_path : string) : M StateStore unit :=
  fence_workspace_mutator state_path;;
  try_except (set_workspace_mutator state_path (mutator_unresolved "retry_reset"))
    (fun e => release_workspace_mutator state_path;; raise e).

(** Code: runtime/agent/invocation/retry_reset.py, _confirm_retry_reset_worker_finished. *)
Definition confirm_retry_reset_worker_finished (state_path : string) : M StateStore unit :=
  fun w =>
    let '(r, w') := try_except (set_workspace_mutator state_path (mutator_finished "retry_reset"))
                      (fun e => if is_exception e then ret tt else raise e) w in
    let '(_, w'') := release_workspace_mutator state_path w' in (r, w'').

(** Code: runtime/execution/provider_call/workspace_worker_cancellation.py, WorkspaceWorkerFence.__init__. *)
Record WorkspaceWorkerFence := mkWorkerFence {
  wf_state_path : option string;
  wf_operation : string;
  wf_finished : bool;
  wf_fenced : bool;
  wf_durable : bool
}.

(** Code: runtime/execution/provider_call/workspace_worker_cancellation.py, WorkspaceWorkerFence.install_if_running. *)
Definition install_if_running (f : WorkspaceWorkerFence) : M StateStore (bool * WorkspaceWorkerFence) :=
  match wf_finished f, wf_state_path f with
  | false, Some path =>
      fence_workspace_mutator path;; ret (true, mkWorkerFence (wf_state_path f) (wf_operation f) (wf_finished f) true (wf_durable f))
  | _, _ => ret (false, f)
  end.

(** Code: runtime/execution/provider_call/workspace_worker_cancellation.py, WorkspaceWorkerFence.persist. *)
Definition persist (f : WorkspaceWorkerFence) : M StateStore (bool * WorkspaceWorkerFence) :=
  match wf_finished f, wf_fenced f, wf_state_path f with
  | false, true, Some path =>
      set_workspace_mutator path (mutator_unresolved (wf_operation f));;
      ret (true, mkWorkerFence (wf_state_path f) (wf_operation f) (wf_finished f) (wf_fenced f) true)
  | _, _, _ => ret (false, f)
  end.

(** Code: runtime/execution/provider_call/workspace_worker_cancellation.py, _release_durable_workspace_worker_fence. *)
Definition release_durable_workspace_worker_fence (state_path operation : string) : M StateStore unit := fun w =>
  let '(r, w') := set_workspace_mutator state_path (mutator_finished operation) w in
  let '(_, w'') := release_workspace_mutator state_path w' in (r, w'').

(** Code: runtime/execution/provider_call/workspace_worker_cancellation.py, WorkspaceWorkerFence.finish. *)
Definition finish (f : WorkspaceWorkerFence) : M StateStore unit :=
  match wf_fenced f, wf_state_path f with
  | true, Some path =>
      if wf_durable f then release_durable_workspace_worker_fence path (wf_operation f) else release_workspace_mutator path
  | _, _ => ret tt
  end.

(** ** Terminal publication (terminalization.py) *)

(** Code: runtime/workspace/terminalization.py, workspace_diagnostic. *)
Definition workspace_diagnostic (level message : string) : dict json := [("level", JStr level); ("message", JStr message)].

(** Code: runtime/workspace/terminalization.py, workspace_mutators_are_drained. *)
Definition workspace_mutators_are_drained (state_path : string) : M StateStore bool :=
  fenced ← read (fun w => workspace_mutator_is_fenced w state_path);
  if fenced : bool then ret false
  else payload ← read_workspace_state state_path; ret (negb (has_unresolved_workspace_owner payload)).

(** Code: runtime/workspace/terminalization.py, _terminal_retention. *)
Definition terminal_retention (cleanup_intended drained : bool) (retained_reason : option string) : WorkspaceStateRetention :=
  if cleanup_intended && drained then mkRetention "pending_cleanup" retained_reason
  else
    mkRetention "retained"
      (Some (default (if drained then "cleanup_not_requested" else "process_drain_unresolved") retained_reason)).

(** Code: runtime/workspace/terminalization.py, publish_terminal_workspace_state. *)
Definition publish_terminal_workspace_state (state_path : string) (status : TerminalWorkspaceStatus) (cleanup_intended : bool)
    (diagnostics : option (list json)) (result refs bundle : option (dict json)) (child_environment_applied : option bool)
    (retained_reason : option string) : M StateStore unit :=
  drained ← workspace_mutators_are_drained state_path;
  update_workspace_state state_path
    (mkUpdateRequest status diagnostics (terminal_retention cleanup_intended drained retained_reason) result refs bundle None
       child_environment_applied).

(** Code: runtime/workspace/terminalization.py, publish_workspace_cleanup_result. *)
Definition publish_workspace_cleanup_result (state_path : string) (deleted : bool) (retained_reason : option string)
    (diagnostic : option (dict json)) : M StateStore unit :=
  update_workspace_retention state_path
    (mkRetention (if deleted then "deleted" else "retained") (if deleted then None else retained_reason)) diagnostic.

(** ** Every operation on workspace states *)

Inductive StateCall :=
| WriteRunning (path : string) (request : WorkspaceStateWriteRequest) (node : PreflightExecutionNode) (source : StateSource)
    (policy : WorkspaceSelectionRecord) (m : WorkspaceStateMaterializationRequest)
| UpdateState (path : string) (request : WorkspaceStateUpdateRequest)
| PublishTerminal (path : string) (status : TerminalWorkspaceStatus) (cleanup : bool) (diagnostics : option (list json))
    (result refs bundle : option (dict json)) (applied : option bool) (reason : option string)
| PublishCleanup (path : string) (deleted : bool) (reason : option string) (diagnostic : option (dict json))
| UpdateRetention (path : string) (retention : WorkspaceStateRetention) (diagnostic : option (dict json))
| DiscardLineage (path reason : string)
| UpdatePublication (path : string) (publication : dict json)
| UpdatePublicationPhase (path : string) (phase : RefPublicationTargetPhase)
| RecordTemporaryRef (path ref_name target_oid : string)
| MarkTemporaryRefRemoved (path ref_name : string)
| UpdateSetup (path : string) (setup base : dict json)
| RecordDrain (path status : string) (pid : Z) (group : option Z) (reason : option string)
| ConfirmDrain (path : option string) (pid : Z) (group : option Z)
| RecordUnresolvedDrain (path : option string) (pid : Z) (group : option Z) (error : string)
| RecordUnresolvedRetryReset (path : string)
| ConfirmRetryReset (path : string)
| InstallFence (f : WorkspaceWorkerFence)
| PersistFence (f : WorkspaceWorkerFence)
| FinishFence (f : WorkspaceWorkerFence)
| RecordBranchExport (path : string) (branch_export : dict json)
| RequireIdentity (path : string) (expected : dict json).

(** The branch export of a state is recorded by
    [BranchExport.record_branch_export_fulfillment]. *)
Definition run_call (c : StateCall) : M StateStore unit :=
  match c with
  | WriteRunning p r n s po m => write_running_workspace_state p r n s po m
  | UpdateState p r => update_workspace_state p r
  | PublishTerminal p st cl d r rf b a re => publish_terminal_workspace_state p st cl d r rf b a re
  | PublishCleanup p d r x => publish_workspace_cleanup_result p d r x
  | UpdateRetention p r d => update_workspace_retention p r d
  | DiscardLineage p r => discard_workspace_lineage p r
  | UpdatePublication p u => update_workspace_ref_publication p u
  | UpdatePublicationPhase p ph => update_workspace_ref_publication_phase p ph
  | RecordTemporaryRef p n o => record_workspace_temporary_ref p n o
  | MarkTemporaryRefRemoved p n => mark_workspace_temporary_ref_removed p n
  | UpdateSetup p s b => update_workspace_setup p s b
  | RecordDrain p s i g r => record_workspace_process_drain p s i g r
  | ConfirmDrain p i g => confirm_workspace_process_drain p i g
  | RecordUnresolvedDrain p i g e => record_unresolved_workspace_process_drain p i g e;; ret tt
  | RecordUnresolvedRetryReset p => record_unresolved_retry_reset p
  | ConfirmRetryReset p => confirm_retry_reset_worker_finished p
  | InstallFence f => install_if_running f;; ret tt
  | PersistFence f => persist f;; ret tt
  | FinishFence f => finish f
  | RecordBranchExport p x => edit_workspace_state p (fun payload => Ok (dset payload "branch_export" (JObj x)))
  | RequireIdentity p e => require_workspace_state_identity p e
  end.

End Store.
