(* ===== verification/WorkspaceStateSpec.v ===== *)
(** How the state of a workspace may change: every operation moves it forward. *)

From Stdlib Require Import ZArith Lia Ascii String.
From stdpp Require Import base gmap sets list strings pretty sorting.
From S2P Require Import Prelude PyStr StateExn Models Scheduler Artifacts RunState PlanRecords PlanContract Foreach ReviewCandidates Composition PreflightState Redaction RedactionSpec SecretHandles WorkspaceContract BranchExport BranchExportSpec WorkspaceState.

Open Scope string_scope.
Open Scope list_scope.
Open Scope Z_scope.

(** ** Values that Python does not tell apart *)

(** [a == b]. *)
Definition same (a b : json) : Prop := python_value a = python_value b.

#[global] Instance same_equivalence : Equivalence same.
Proof. split; unfold same; [by intros ? | by intros ? ? -> | by intros ? ? ? -> ->]. Qed.

Lemma json_equal_same a b : json_equal a b = true <-> same a b.
Proof. apply bool_decide_eq_true. Qed.

Lemma sort_key_of_sorted {A} (key : A -> string) l :
  StronglySorted (fun a b => String.leb (key a) (key b) = true) l -> sort_key key l = l.
Proof.
  intros Hs. induction Hs as [|x l Hs IH Hx]; [done|]. unfold sort_key in *. cbn [foldr]. rewrite IH.
  destruct l as [|y l]; [done|]. cbn [insert_key]. apply Forall_cons in Hx as [-> _]. done.
Qed.

Lemma sorted_items_values {V W} (g : V -> W) (d : dict V) :
  sorted_items (map (fun '(k, c) => (k, g c)) d) = map (fun '(k, c) => (k, g c)) (sorted_items d).
Proof. apply (sort_key_map fst fst). by intros []. Qed.

Lemma sorted_items_idem {V} (d : dict V) : sorted_items (sorted_items d) = sorted_items d.
Proof. apply sort_key_of_sorted, sort_key_sorted. Qed.

(** Writing a value and reading it back gives an equal one. *)
Lemma sort_keys_same v : same (sort_keys v) v.
Proof.
  unfold same. induction v as [v Hv | l IH | f IH] using json_children_ind; [by destruct v| |].
  - cbn. f_equal. rewrite map_map. apply map_ext_in. intros x Hx. rewrite Forall_forall in IH. by apply IH, list_elem_of_In.
  - cbn. f_equal. rewrite <- !sorted_items_values, sorted_items_idem, map_map. f_equal. apply map_ext_in. intros [k x] Hx.
    rewrite Forall_forall in IH. f_equal. apply list_elem_of_In in Hx. apply (IH _ Hx).
Qed.

Lemma dget_insert_key {V} k v (d : dict V) k' : dget (insert_key fst (k, v) d) k' = if decide (k' = k) then Some v else dget d k'.
Proof.
  induction d as [|[k0 v0] d IH]; [by cbn; case_decide|]. cbn [insert_key fst]. destruct (String.leb k k0) eqn:Hle; [done|].
  cbn [dget]. rewrite IH. repeat case_decide; subst; try done.
  exfalso. assert (Ht := String.leb_total k0 k0). rewrite Hle in Ht. by destruct Ht.
Qed.

Lemma dget_sorted {V} (d : dict V) k : dget (sorted_items d) k = dget d k.
Proof.
  induction d as [|[k0 v0] d IH]; [done|]. unfold sorted_items, sort_key in *. cbn [foldr]. rewrite dget_insert_key, IH. done.
Qed.

(** A field of the written object. *)
Lemma get_written payload k : get (stored payload) k = sort_keys (get payload k).
Proof. unfold get, stored. rewrite dget_sorted, (dget_map_key (fun _ c => sort_keys c)). by destruct (dget payload k). Qed.

Lemma same_get f f' k : same (JObj f) (JObj f') -> same (get f k) (get f' k).
Proof.
  unfold same. cbn. intros [= H]. assert (Hk := f_equal (fun d => dget d k) H). cbn in Hk.
  rewrite !dget_sorted, !(dget_map_key (fun _ c => python_value c)) in Hk. unfold get.
  destruct (dget f k), (dget f' k); cbn in *; congruence.
Qed.

Lemma same_text s v : same (JStr s) v -> v = JStr s.
Proof. unfold same. by destruct v; cbn; intros [= <-]. Qed.

Lemma same_null v : same JNull v -> v = JNull.
Proof. unfold same. by destruct v; cbn; intros [=]. Qed.

Lemma same_obj f v : same (JObj f) v -> exists f', v = JObj f'.
Proof. unfold same. destruct v; cbn; intros [=]; eauto. Qed.

Lemma same_list l v : same (JList l) v -> exists l', v = JList l' /\ Forall2 same l l'.
Proof.
  unfold same. destruct v as [| | | | |l'|]; cbn; intros [= H]. exists l'. split; [done|].
  revert l' H. induction l as [|x l IH]; intros [|y l'] [=]; constructor; auto.
Qed.

(** ** Fields of edited payloads *)

Lemma get_dset payload k v k' : get (dset payload k v) k' = if decide (k = k') then v else get payload k'.
Proof. unfold get. rewrite dget_dset. by case_decide. Qed.

Lemma get_dset_ne payload k v k' : k <> k' -> get (dset payload k v) k' = get payload k'.
Proof. intros H. by rewrite get_dset, decide_False. Qed.

Lemma get_dset_eq payload k v : get (dset payload k v) k = v.
Proof. by rewrite get_dset, decide_True. Qed.

Lemma dget_without fields (payload : dict json) k :
  dget (without_fields fields payload) k = if decide (k ∈ fields) then None else dget payload k.
Proof.
  induction payload as [|[k0 v] d IH]; [by cbn; case_decide|]. unfold without_fields in *. cbn.
  case_bool_decide; cbn; rewrite IH; repeat case_decide; subst; done.
Qed.

Lemma get_without fields payload k : get (without_fields fields payload) k = if decide (k ∈ fields) then JNull else get payload k.
Proof. unfold get. rewrite dget_without. by case_decide. Qed.

Lemma dget_update (d e : dict json) k : NoDup (dkeys e) -> dget (update d e) k = match dget e k with Some v => Some v | None => dget d k end.
Proof.
  unfold update, dkeys. revert d. induction e as [|[k0 v] e IH]; intros d Hnd; [done|]. cbn in Hnd |- *.
  apply NoDup_cons in Hnd as [Hk Hnd]. rewrite IH by done. rewrite dget_dset.
  destruct (decide (k = k0)) as [->|Hne].
  - assert (dget e k0 = None) as -> by (by apply dget_None). by rewrite decide_True.
  - destruct (dget e k); [done|]. by rewrite decide_False by congruence.
Qed.

Lemma get_update d e k : NoDup (dkeys e) -> get (update d e) k = match dget e k with Some v => v | None => get d k end.
Proof. intros H. unfold get. rewrite dget_update by done. by destruct (dget e k). Qed.

(** Membership in lists of field names, by computation. *)
Definition names_within (l l' : list string) : bool := forallb (fun x => bool_decide (x ∈ l')) l.
Definition names_apart (l l' : list string) : bool := forallb (fun x => bool_decide (x ∉ l')) l.

Lemma within l l' k : names_within l l' = true -> k ∈ l -> k ∈ l'.
Proof. unfold names_within. rewrite forallb_forall. intros H Hk. apply list_elem_of_In, H in Hk. by apply bool_decide_eq_true in Hk. Qed.

Lemma elsewhere l l' k : names_apart l l' = true -> k ∈ l -> k ∉ l'.
Proof. unfold names_apart. rewrite forallb_forall. intros H Hk. apply list_elem_of_In, H in Hk. by apply bool_decide_eq_true in Hk. Qed.

Lemma outside l l' k : names_within l' l = true -> k ∉ l -> k ∉ l'.
Proof. intros H Hk Hk'. by apply Hk, (within l' l k H). Qed.

Lemma differs l k x : names_within [x] l = true -> k ∉ l -> x <> k.
Proof. intros H Hk ->. apply Hk. apply (within [k] l k H). by left. Qed.

Lemma not_among l k x : names_apart [x] l = true -> k ∈ l -> x <> k.
Proof. intros H Hk ->. by apply (elsewhere [k] l k H); [left|]. Qed.

Ltac by_names :=
  match goal with
  | |- ?x ∈ _ => first [refine (bool_decide_unpack _ _); vm_compute; exact I
                       | match goal with H : x ∈ _ |- _ => refine (within _ _ _ _ H); vm_compute; reflexivity end]
  | |- ?x ∉ _ => first [match goal with H : x ∈ _ |- _ => refine (elsewhere _ _ _ _ H); vm_compute; reflexivity end
                       | match goal with H : x ∉ _ |- _ => refine (outside _ _ _ _ H); vm_compute; reflexivity end
                       | refine (bool_decide_unpack _ _); vm_compute; exact I]
  | |- ?x <> ?k => first [match goal with H : k ∉ _ |- _ => refine (differs _ _ _ _ H); vm_compute; reflexivity end
                         | match goal with H : k ∈ _ |- _ => refine (not_among _ _ _ _ H); vm_compute; reflexivity end
                         | match goal with H : x ∉ _ |- _ => refine (not_eq_sym (differs _ _ _ _ H)); vm_compute; reflexivity end
                         | done]
  end.

(** Looks a concrete field up in edited payloads. *)
Ltac fields_of := repeat first [rewrite get_dset_eq | rewrite get_dset_ne by done | rewrite get_without, decide_False by set_solver].

(** ** How a state evolves *)

(** A terminal outcome. *)
Definition terminal (v : json) : Prop := exists s, v = JStr s /\ s ∈ TERMINAL_WORKSPACE_STATUSES.

Definition EVIDENCE_FIELDS : list string := ["result"; "refs"; "bundle"].

(** The lineage of a result was discarded, with its refs and its bundle. *)
Definition lineage_is_discarded (payload : dict json) : Prop :=
  same (JBool true) (get (mapping_value (get payload "result")) "lineage_discarded") /\
  get payload "refs" = JNull /\ get payload "bundle" = JNull.

(** The order of the phases of a publication. *)
Definition phase_rank (v : json) : option Z :=
  match v with
  | JStr s => if bool_decide (s = "prepared") then Some 0 else if bool_decide (s = "published") then Some 1
              else if bool_decide (s = "removed") then Some 2 else None
  | _ => None
  end.

Definition phase_advances (v v' : json) : Prop :=
  same v v' \/ exists r r', phase_rank v = Some r /\ phase_rank v' = Some r' /\ r <= r'.

(** All fields but the phase stay. *)
Definition fixed_but_phase (f f' : dict json) : Prop := forall k, k <> "phase" -> same (get f k) (get f' k).

(** A publication, once there, keeps its destinations and owner. *)
Definition publication_evolves (v v' : json) : Prop :=
  v = JNull \/ same v v' \/
  exists f f', v = JObj f /\ v' = JObj f' /\ fixed_but_phase f f' /\ phase_advances (get f "phase") (get f' "phase").

(** So does the claim of a temporary ref, which can only be removed. *)
Definition claim_evolves (v v' : json) : Prop :=
  same v v' \/ exists f f', v = JObj f /\ v' = JObj f' /\ fixed_but_phase f f' /\ get f' "phase" = JStr "removed".

(** Claims are never forgotten. *)
Definition claims_evolve (v v' : json) : Prop :=
  v = JNull \/ same v v' \/
  exists claims claims' more, v = JList claims /\ v' = JList (claims' ++ more) /\ Forall2 claim_evolves claims claims'.

Record evolves (p p' : dict json) : Prop := {
  ev_identity : forall k, k ∈ STATE_IDENTITY_FIELDS -> same (get p k) (get p' k);
  ev_status : terminal (get p "status") -> get p' "status" = get p "status";
  ev_evidence : terminal (get p "status") -> (forall k, k ∈ EVIDENCE_FIELDS -> same (get p k) (get p' k)) \/ lineage_is_discarded p';
  ev_publication : publication_evolves (get p "ref_publication") (get p' "ref_publication");
  ev_claims : claims_evolve (get p "temporary_refs") (get p' "temporary_refs")
}.

Definition file_evolves (c c' : FileContent) : Prop :=
  match c with
  | FileAbsent => c' = FileAbsent \/ exists p, c' = FileJson (JObj p)
  | FileJson (JObj p) => exists p', c' = FileJson (JObj p') /\ evolves p p'
  | _ => c' = c
  end.

Lemma fixed_but_phase_trans f g h : fixed_but_phase f g -> fixed_but_phase g h -> fixed_but_phase f h.
Proof. intros H1 H2 k Hk. etransitivity; [by apply H1 | by apply H2]. Qed.

Lemma phase_rank_same v v' : same v v' -> phase_rank v' = phase_rank v.
Proof. unfold same. destruct v, v'; cbn; intros H; simplify_eq; done. Qed.

Lemma phase_advances_trans u v w : phase_advances u v -> phase_advances v w -> phase_advances u w.
Proof.
  intros [H1|(a & b & Ha & Hb & Hab)] [H2|(c & d & Hc & Hd & Hcd)].
  - left. by etransitivity.
  - right. exists c, d. split_and!; [|done..]. by rewrite <- (phase_rank_same u v).
  - right. exists a, b. split_and!; [done| |done]. by rewrite (phase_rank_same v w).
  - right. exists a, d. split_and!; [done..|]. rewrite Hb in Hc. injection Hc as <-. lia.
Qed.

(** A value that is equal to an object is one, with equal fields. *)
Lemma same_fields f v : same (JObj f) v -> exists f', v = JObj f' /\ forall k, same (get f k) (get f' k).
Proof. intros H. destruct (same_obj f v H) as [f' ->]. exists f'. split; [done|]. intros k. by apply same_get. Qed.

Lemma same_fields_of f v : same v (JObj f) -> exists f', v = JObj f' /\ forall k, same (get f' k) (get f k).
Proof. intros H. symmetry in H. destruct (same_fields f v H) as (f' & -> & Hf). exists f'. split; [done|]. intros k. symmetry. apply Hf. Qed.

#[global] Instance publication_evolves_trans : Transitive publication_evolves.
Proof.
  intros u v w [->|[H1|(f & g & -> & -> & Hf & Hp)]]; [by left|..].
  - intros [->|[H2|(f & g & -> & -> & Hf & Hp)]].
    + symmetry in H1. apply same_null in H1 as ->. by left.
    + right. left. by etransitivity.
    + right. right. destruct (same_fields_of f u H1) as (f' & -> & Hf'). exists f', g. split_and!; [done..| |].
      * intros k Hk. etransitivity; [apply Hf' | by apply Hf].
      * eapply phase_advances_trans; [left; apply Hf' | done].
  - intros [[=]|[H2|(f' & h & [= <-] & -> & Hf' & Hp')]].
    + right. right. destruct (same_fields g w H2) as (h & -> & Hh). exists f, h. split_and!; [done..| |].
      * intros k Hk. etransitivity; [by apply Hf | apply Hh].
      * eapply phase_advances_trans; [done | left; apply Hh].
    + right. right. exists f, h. split_and!; [done..|by eapply fixed_but_phase_trans | by eapply phase_advances_trans].
Qed.

#[global] Instance claim_evolves_trans : Transitive claim_evolves.
Proof.
  intros u v w [H1|(f & g & -> & -> & Hf & Hp)].
  - intros [H2|(f & g & -> & -> & Hf & Hp)]; [left; by etransitivity|].
    right. destruct (same_fields_of f u H1) as (f' & -> & Hf'). exists f', g. split_and!; [done..| |done].
    intros k Hk. etransitivity; [apply Hf' | by apply Hf].
  - intros [H2|(f' & h & [= <-] & -> & Hf' & Hp')].
    + right. destruct (same_fields g w H2) as (h & -> & Hh). exists f, h. split_and!; [done..| |].
      * intros k Hk. etransitivity; [by apply Hf | apply Hh].
      * apply same_text. rewrite <- Hp. apply Hh.
    + right. exists f, h. split_and!; [done..|by eapply fixed_but_phase_trans | done].
Qed.

Lemma claim_evolves_same u v w : same u v -> claim_evolves v w -> claim_evolves u w.
Proof. intros H1 H2. etransitivity; [left; exact H1 | done]. Qed.

#[global] Instance claims_evolve_trans : Transitive claims_evolve.
Proof.
  intros u v w [->|[H1|(l & l' & more & -> & -> & Hl)]]; [by left|..].
  - intros [->|[H2|(l & l' & more & -> & -> & Hl)]].
    + symmetry in H1. apply same_null in H1 as ->. by left.
    + right. left. by etransitivity.
    + right. right. symmetry in H1. destruct (same_list l u H1) as (k & -> & Hk). exists k, l', more. split_and!; [done..|].
      clear -Hk Hl. apply Forall2_flip in Hk. eapply Forall2_trans; [|exact Hk|exact Hl].
      intros x y z Hxy Hyz. eapply claim_evolves_same; [symmetry; exact Hxy | exact Hyz].
  - intros [[=]|[H2|(k & k' & more' & [= <-] & -> & Hk)]]; right; right.
    + destruct (same_list _ w H2) as (k & -> & Hk). apply Forall2_app_inv_l in Hk as (k1 & k2 & Hk1 & Hk2 & ->).
      exists l, k1, k2. split_and!; [done..|]. eapply Forall2_trans; [|exact Hl|exact Hk1].
      intros x y z Hxy Hyz. etransitivity; [exact Hxy | by left].
    + apply Forall2_app_inv_l in Hk as (k1 & k2 & Hk1 & Hk2 & ->). exists l, k1, (k2 ++ more'). split_and!; [done|by rewrite app_assoc|].
      eapply Forall2_trans; [|exact Hl|exact Hk1]. intros x y z. apply transitivity.
Qed.

Lemma discarded_same p p' : (forall k, k ∈ EVIDENCE_FIELDS -> same (get p k) (get p' k)) -> lineage_is_discarded p -> lineage_is_discarded p'.
Proof.
  intros H (Hd & Hr & Hb). assert (H1 := H "result" ltac:(by_names)). assert (H2 := H "refs" ltac:(by_names)).
  assert (H3 := H "bundle" ltac:(by_names)). rewrite Hr in H2. rewrite Hb in H3. apply same_null in H2, H3. split_and!; [|done..].
  etransitivity; [exact Hd|]. destruct (get p "result") as [| | | | | |f] eqn:Hf; try (by cbn in Hd).
  destruct (same_fields _ _ H1) as (f' & -> & Hf'). apply Hf'.
Qed.

#[global] Instance evolves_trans : Transitive evolves.
Proof.
  intros p q r Hpq Hqr. split.
  - intros k Hk. etransitivity; [by apply Hpq | by apply Hqr].
  - intros Ht. assert (Hq := ev_status _ _ Hpq Ht). rewrite (ev_status _ _ Hqr); [done|]. by rewrite Hq.
  - intros Ht. assert (Hq := ev_status _ _ Hpq Ht). assert (Ht' : terminal (get q "status")) by by rewrite Hq.
    destruct (ev_evidence _ _ Hpq Ht) as [H1|H1], (ev_evidence _ _ Hqr Ht') as [H2|H2]; try (by right).
    + left. intros k Hk. etransitivity; [by apply H1 | by apply H2].
    + right. by eapply discarded_same.
  - etransitivity; [apply Hpq | apply Hqr].
  - etransitivity; [apply Hpq | apply Hqr].
Qed.

(** The fields that matter. *)
Definition WATCHED_FIELDS : list string := STATE_IDENTITY_FIELDS ++ ["status"] ++ EVIDENCE_FIELDS ++ ["ref_publication"; "temporary_refs"].

Lemma evolves_same p p' : (forall k, k ∈ WATCHED_FIELDS -> same (get p k) (get p' k)) -> evolves p p'.
Proof.
  intros H. assert (Hw : forall k, k ∈ WATCHED_FIELDS -> same (get p k) (get p' k)) by done. split.
  - intros k Hk. apply Hw. by_names.
  - intros (s & Hs & _). assert (Hk := Hw "status" ltac:(by_names)). rewrite Hs in *. by apply same_text.
  - intros _. left. intros k Hk. apply Hw. by_names.
  - right. left. apply Hw. by_names.
  - right. left. apply Hw. by_names.
Qed.

#[global] Instance evolves_refl : Reflexive evolves.
Proof. intros p. by apply evolves_same. Qed.

(** Fields that nobody watches may change. *)
Lemma evolves_dset p k v : k ∉ WATCHED_FIELDS -> evolves p (dset p k v).
Proof. intros Hk. apply evolves_same. intros k' Hk'. rewrite get_dset_ne; [done|]. by intros ->. Qed.

Lemma evolves_stored p : evolves p (stored p).
Proof. apply evolves_same. intros k _. rewrite get_written. symmetry. apply sort_keys_same. Qed.

#[global] Instance file_evolves_refl : Reflexive file_evolves.
Proof. intros [| | |[]]; cbn; eauto. eexists. by split. Qed.

#[global] Instance file_evolves_trans : Transitive file_evolves.
Proof.
  intros c d e. destruct c as [| | |[| | | | | |p]]; cbn; try (by intros -> ->).
  - intros [->|[p ->]]; [done|]. intros (p' & -> & _). right. eauto.
  - intros (q & -> & Hq) (r & -> & Hr). exists r. split; [done | by etransitivity].
Qed.

(** ** Every edit moves the state forward *)

Lemma in_strings_true v l : in_strings v l = Ok true <-> exists s, v = JStr s /\ s ∈ l.
Proof.
  assert (Hin : forall s, existsb (is_text (JStr s)) l = true <-> s ∈ l).
  { intros s. rewrite existsb_exists. setoid_rewrite <- list_elem_of_In. split.
    - intros (t & Ht & Hs). apply is_text_true in Hs. by injection Hs as ->.
    - intros Hs. exists s. split; [done | apply is_text_refl]. }
  assert (Hno : forall v, (forall s, v <> JStr s) -> existsb (is_text v) l = false).
  { intros u Hu. apply not_true_is_false. rewrite existsb_exists. intros (t & _ & Ht). apply is_text_true in Ht. by eapply Hu. }
  destruct v as [| | | |s| |]; cbn; rewrite ?Hno by done; try (by split; [|intros (? & ? & _)]).
  split; [intros [= H] | intros (t & [= <-] & Ht)]; [exists s; split; [done | by apply Hin] | f_equal; by apply Hin].
Qed.

Lemma terminal_status v b : is_terminal_status v = Ok b -> b = true <-> terminal v.
Proof.
  intros H. unfold is_terminal_status in H. unfold terminal. rewrite <- in_strings_true, H. naive_solver.
Qed.

(** A materialization keeps the identity and everything that is not its own. *)
Lemma running_payload_keys state_path request node source policy m t :
  let payload := build_running_workspace_state_payload state_path request node source policy m t in
  NoDup (dkeys payload) /\ dget payload "ref_publication" = None /\ dget payload "temporary_refs" = None.
Proof.
  cbv zeta. unfold build_running_workspace_state_payload, add_setup_payload, add_reuse_payload.
  destruct (mt_reuse m), (mt_reuse_generation m), (wp_setup policy).
  all: split_and!; [|reflexivity..]; apply (@bool_decide_unpack _ (NoDup_dec _)); vm_compute; exact I.
Qed.

Lemma rewrite_running_evolves payload current p' :
  NoDup (dkeys payload) -> dget payload "ref_publication" = None -> dget payload "temporary_refs" = None ->
  rewrite_running_state payload current = Ok p' -> evolves current p'.
Proof.
  intros Hnd Hpub Htmp. unfold rewrite_running_state. intros H. inv_ok. destruct a; [done|].
  destruct (existsb _ _) eqn:Hid; [done|]. injection H as <-.
  match goal with Hs : is_terminal_status _ = Ok false |- _ => apply terminal_status in Hs as Hrun end.
  assert (Hnt : ~ terminal (get current "status")) by naive_solver. split.
  - intros k Hk. rewrite get_update by done. destruct (dget payload k) as [v|] eqn:Hv; [|done]. apply json_equal_same.
    destruct (json_equal (get current k) v) eqn:Heq; [done|]. assert (Hx : existsb (fun k => negb (json_equal (get current k) (get payload k)))
      STATE_IDENTITY_FIELDS = true); [|congruence].
    apply existsb_exists. exists k. split; [by apply list_elem_of_In|]. unfold get at 2. by rewrite Hv; cbn; rewrite Heq.
  - done.
  - done.
  - right. left. by rewrite get_update, Hpub.
  - right. left. by rewrite get_update, Htmp.
Qed.

Lemma evidence_field_ok p k evidence terminalized p' :
  apply_evidence_field p k evidence terminalized = Ok p' ->
  (forall k', k' <> k -> get p' k' = get p k') /\ (terminalized = true -> same (get p k) (get p' k)).
Proof.
  unfold apply_evidence_field. destruct evidence as [e|]; [|by intros [= <-]].
  destruct (terminalized && _) eqn:Hc; [done|]. intros [= <-]. split.
  - intros k' Hk'. by rewrite get_dset_ne.
  - intros ->. cbn in Hc. rewrite get_dset_eq. apply json_equal_same. by apply negb_false_iff.
Qed.

Lemma terminal_evidence_ok p request status b p' :
  is_terminal_status status = Ok b -> apply_terminal_evidence p request status = Ok p' ->
  (forall k, k ∉ EVIDENCE_FIELDS -> get p' k = get p k) /\ (b = true -> forall k, k ∈ EVIDENCE_FIELDS -> same (get p k) (get p' k)).
Proof.
  intros Hb. unfold apply_terminal_evidence. rewrite Hb. cbn [mbind outcome_bind]. intros H. inv_ok. rename H into H3.
  apply evidence_field_ok in Hok as [E1 S1], Hok0 as [E2 S2], H3 as [E3 S3]. split.
  - intros k Hk. unfold EVIDENCE_FIELDS in Hk. rewrite E3, E2, E1 by by_names. done.
  - intros Ht k Hk. unfold EVIDENCE_FIELDS in Hk. apply elem_of_cons in Hk as [->|[->|[->|Hk]%elem_of_cons]%elem_of_cons]; [..|set_solver].
    + rewrite E3, E2 by done. by apply S1.
    + rewrite E3 by done. rewrite <- (E1 "refs") by done. by apply S2.
    + rewrite <- (E1 "bundle"), <- (E2 "bundle") by done. by apply S3.
Qed.

Lemma child_environment_fields p request status k :
  k <> "child_process_environment" -> get (apply_child_environment_status p request status) k = get p k.
Proof. intros Hk. unfold apply_child_environment_status. repeat case_match; try done; by rewrite get_dset_ne. Qed.

Lemma retention_fields p retention k : k <> "workspace" -> get (apply_workspace_retention p retention) k = get p k.
Proof. intros Hk. unfold apply_workspace_retention. case_match; try done. by rewrite get_dset_ne. Qed.

(** The payload before the evidence of an update, and after it. *)
Definition before_evidence (request : WorkspaceStateUpdateRequest) (p : dict json) : dict json :=
  let p := apply_workspace_retention (dset p "status" (JStr (terminal_status_value (ur_status request)))) (ur_retention request) in
  match ur_diagnostics request with Some d => dset p "diagnostics" (JList d) | None => p end.

Definition after_evidence (request : WorkspaceStateUpdateRequest) (status : json) (p : dict json) : dict json :=
  apply_child_environment_status (match ur_setup request with Some s => dset p "setup" (JObj s) | None => p end) request status.

Lemma before_evidence_fields request p k :
  k ∉ ["status"; "workspace"; "diagnostics"] -> get (before_evidence request p) k = get p k.
Proof. intros Hk. unfold before_evidence. destruct (ur_diagnostics request); rewrite ?get_dset_ne, retention_fields, get_dset_ne by by_names; done. Qed.

Lemma before_evidence_status request p : get (before_evidence request p) "status" = JStr (terminal_status_value (ur_status request)).
Proof. unfold before_evidence. destruct (ur_diagnostics request); rewrite ?get_dset_ne, retention_fields, get_dset_eq by done; done. Qed.

Lemma after_evidence_fields request status p k :
  k ∉ ["setup"; "child_process_environment"] -> get (after_evidence request status p) k = get p k.
Proof.
  intros Hk. unfold after_evidence. rewrite child_environment_fields by by_names.
  destruct (ur_setup request); [by rewrite get_dset_ne by by_names | done].
Qed.

(** The fields of an updated state. *)
Lemma update_fields request p p' :
  apply_workspace_state_update request p = Ok p' ->
  exists b, is_terminal_status (get p "status") = Ok b /\
    get p' "status" = JStr (terminal_status_value (ur_status request)) /\
    (b = true -> get p "status" = get p' "status") /\
    (forall k, k ∉ ["status"; "workspace"; "diagnostics"; "setup"; "child_process_environment"] ++ EVIDENCE_FIELDS -> get p' k = get p k) /\
    (b = true -> forall k, k ∈ EVIDENCE_FIELDS -> same (get p k) (get p' k)).
Proof.
  unfold apply_workspace_state_update. intros H. apply bind_Ok in H as ([] & Ht & H). apply bind_Ok in H as (q & Hq & H). injection H as H.
  change (after_evidence request (get p "status") q = p') in H. subst p'.
  change (apply_terminal_evidence (before_evidence request p) request (get p "status") = Ok q) in Hq.
  unfold require_valid_terminal_transition in Ht. apply bind_Ok in Ht as (b & Hb & Ht). exists b.
  destruct (terminal_evidence_ok _ _ _ _ _ Hb Hq) as [He Hs].
  assert (Hst : get (after_evidence request (get p "status") q) "status" = JStr (terminal_status_value (ur_status request))).
  { rewrite after_evidence_fields by by_names. rewrite He by by_names. apply before_evidence_status. }
  split_and!; [done|done|..].
  - intros ->. rewrite Hst. apply is_text_true. destruct (is_text _ _); [done|discriminate Ht].
  - intros k Hk. rewrite after_evidence_fields, He, before_evidence_fields by by_names. done.
  - intros Hb' k Hk. rewrite after_evidence_fields by by_names.
    rewrite <- (before_evidence_fields request p) by by_names. by apply Hs.
Qed.

Lemma update_evolves request p p' : apply_workspace_state_update request p = Ok p' -> evolves p p'.
Proof.
  intros H. destruct (update_fields _ _ _ H) as (b & Hb & Hst & Hsame & Hout & Hev). apply terminal_status in Hb.
  assert (Hk : forall k, k ∈ STATE_IDENTITY_FIELDS ++ ["ref_publication"; "temporary_refs"] -> get p' k = get p k).
  { intros k Hk. apply Hout. by_names. }
  split.
  - intros k Hi. by rewrite Hk by by_names.
  - intros Ht. symmetry. by apply Hsame, Hb.
  - intros Ht. left. by apply Hev, Hb.
  - right. left. by rewrite Hk by by_names.
  - right. left. by rewrite Hk by by_names.
Qed.

Lemma retention_evolves retention diagnostic p p' : apply_retention retention diagnostic p = Ok p' -> evolves p p'.
Proof.
  unfold apply_retention. intros H. apply bind_Ok in H as (b & _ & H). destruct b; [|done]. cbn [negb] in H. cbv iota in H.
  destruct (get p "workspace"); try done. apply bind_Ok in H as (q & Hq & H). injection H as <-.
  etransitivity; [|apply evolves_dset; by_names]. destruct diagnostic as [d|]; [|by injection Hq as <-].
  destruct (get p "diagnostics"); try done. injection Hq as <-. apply evolves_dset. by_names.
Qed.

(** The fields of a discarded result. *)
Lemma discarded_result_fields result reason :
  get (discarded_result result reason) "lineage_produced" = JBool false /\
  get (discarded_result result reason) "lineage_discarded" = JBool true /\
  get (discarded_result result reason) "lineage_discard_reason" = JStr reason /\
  get (discarded_result result reason) "candidate_commit" = JNull /\ get (discarded_result result reason) "result_commit" = JNull.
Proof. unfold discarded_result. repeat case_match; split_and!; fields_of; reflexivity. Qed.

(** The fields of a state whose lineage is discarded. *)
Lemma discard_fields p reason k :
  k ∉ ["workspace"; "result"; "refs"; "bundle"; "diagnostics"] -> get (apply_lineage_discard p reason) k = get p k.
Proof.
  intros Hk. unfold apply_lineage_discard. rewrite get_dset_ne by by_names. rewrite !get_without, !decide_False by by_names.
  rewrite get_dset_ne by by_names. case_match; try done. by rewrite get_dset_ne by by_names.
Qed.

Lemma discard_result p reason : get (apply_lineage_discard p reason) "result" = JObj (discarded_result (get p "result") reason).
Proof.
  unfold apply_lineage_discard. rewrite get_dset_ne, !get_without, !decide_False, get_dset_eq by by_names.
  case_match; try done. by rewrite get_dset_ne.
Qed.

Lemma discard_absent p reason k : k ∈ ["refs"; "bundle"] -> dget (apply_lineage_discard p reason) k = None.
Proof.
  intros Hk. unfold apply_lineage_discard. rewrite dget_dset_ne by by_names.
  rewrite !dget_without. repeat case_decide; try done. set_solver.
Qed.

Lemma discard_evolves p reason : evolves p (apply_lineage_discard p reason).
Proof.
  split.
  - intros k Hk. by rewrite discard_fields by by_names.
  - intros _. apply discard_fields. by_names.
  - intros _. right. split_and!.
    + rewrite discard_result. cbn [mapping_value]. by destruct (discarded_result_fields (get p "result") reason) as (_ & -> & _).
    + unfold get. by rewrite discard_absent by by_names.
    + unfold get. by rewrite discard_absent by by_names.
  - right. left. by rewrite discard_fields by by_names.
  - right. left. by rewrite discard_fields by by_names.
Qed.

(** Only the publication or only the claims change. *)
Lemma evolves_publication p v : publication_evolves (get p "ref_publication") v -> evolves p (dset p "ref_publication" v).
Proof.
  intros H. split.
  - intros k Hk. by rewrite get_dset_ne by by_names.
  - intros _. by rewrite get_dset_ne.
  - intros _. left. intros k Hk. by rewrite get_dset_ne by by_names.
  - by rewrite get_dset_eq.
  - right. left. by rewrite get_dset_ne.
Qed.

Lemma evolves_claims p v : claims_evolve (get p "temporary_refs") v -> evolves p (dset p "temporary_refs" v).
Proof.
  intros H. split.
  - intros k Hk. by rewrite get_dset_ne by by_names.
  - intros _. by rewrite get_dset_ne.
  - intros _. left. intros k Hk. by rewrite get_dset_ne by by_names.
  - right. left. by rewrite get_dset_ne.
  - by rewrite get_dset_eq.
Qed.

Lemma set_publication_evolves publication p p' : set_ref_publication publication p = Ok p' -> evolves p p'.
Proof.
  unfold set_ref_publication. destruct (_ && _) eqn:Hc; [done|]. intros [= <-]. apply evolves_publication.
  destruct (get p "ref_publication"); [by left|..]; right; left; apply json_equal_same; by apply negb_false_iff.
Qed.

Lemma set_phase_evolves phase p p' : set_ref_publication_phase phase p = Ok p' -> evolves p p'.
Proof.
  unfold set_ref_publication_phase. destruct (get p "ref_publication") as [| | | | | |f] eqn:Hf; try done.
  destruct (is_ref_publication_phase (get f "phase")) as [current|] eqn:Hp; [|done]. destruct (_ && _) eqn:Hc; [done|]. intros [= <-].
  apply evolves_publication. rewrite Hf. right. right. eexists f, _. split_and!; [done..| |].
  - intros k Hk. by rewrite get_dset_ne.
  - rewrite get_dset_eq. unfold is_ref_publication_phase in Hp. destruct (get f "phase") as [| | | |s| |]; try done.
    destruct (bool_decide (s ∈ _)) eqn:Hs; [|done]. injection Hp as ->. apply bool_decide_eq_true in Hs.
    right. apply andb_false_iff in Hc. unfold REF_PUBLICATION_PHASES in Hs.
    apply elem_of_cons in Hs as [->|[->|[->|[]%elem_of_nil]%elem_of_cons]%elem_of_cons]; destruct phase; cbn in *.
    all: try (eexists _, _; split_and!; [reflexivity..|lia]).
    all: exfalso; destruct Hc as [Hc|Hc]; vm_compute in Hc; discriminate.
Qed.

Lemma mark_removed_evolves ref_name claim : claim_evolves claim (mark_removed ref_name claim).
Proof.
  unfold mark_removed. destruct claim as [| | | | | |f]; try (by left). destruct (is_text _ _); [|by left].
  right. eexists f, _. split_and!; [done..| |apply get_dset_eq]. intros k Hk. by rewrite get_dset_ne.
Qed.

Lemma remove_temporary_evolves ref_name p p' : remove_temporary_ref ref_name p = Ok p' -> evolves p p'.
Proof.
  unfold remove_temporary_ref. destruct (get p "temporary_refs") as [| | | | |claims|] eqn:Hc; try done.
  intros H. apply bind_Ok in H as (b & _ & H). destruct b; [|done]. cbn [negb] in H. cbv iota in H.
  destruct (matching_temporary_ref_claims claims ref_name) as [|? [|]]; try done. injection H as <-. apply evolves_claims. rewrite Hc.
  right. right. exists claims, (map (mark_removed ref_name) claims), []. rewrite app_nil_r. split_and!; [done..|].
  clear. induction claims; constructor; [apply mark_removed_evolves | done].
Qed.

Lemma add_temporary_evolves ref_name target_oid p p' : add_temporary_ref ref_name target_oid p = Ok p' -> evolves p p'.
Proof.
  unfold add_temporary_ref. set (q := if dmem p "temporary_refs" then p else _).
  assert (Hq : evolves p q).
  { subst q. unfold dmem. destruct (dget p "temporary_refs") eqn:Hd; [done|]. apply evolves_claims. left. unfold get. by rewrite Hd. }
  destruct (get q "temporary_refs") as [| | | | |claims|] eqn:Hc; try done.
  intros H. apply bind_Ok in H as (b & _ & H). destruct b; [|done]. cbn [negb] in H. cbv iota in H. etransitivity; [exact Hq|].
  destruct (matching_temporary_ref_claims claims ref_name) as [|claim [|]]; try done.
  - injection H as <-. apply evolves_claims. rewrite Hc. right. right. eexists claims, claims, _. split_and!; [done..|].
    clear. induction claims; constructor; [by left | done].
  - destruct (negb _); [done|]. by injection H as <-.
Qed.

(** ** Operations on the store *)

Section Store.
Context (resolve : string -> string) (clock : nat -> string).

(** The files are not written. *)
Definition unwritten {A} (m : M StateStore A) : Prop := forall w,
  sw_files (snd (m w)) = sw_files w /\ sw_writes (snd (m w)) = sw_writes w.

(** Every file evolves, and an operation that raises, but for no failed write,
    has written nothing. *)
Definition forward {A} (m : M StateStore A) : Prop := forall w,
  (forall path, file_evolves (state_file resolve w path) (state_file resolve (snd (m w)) path)) /\
  (forall e, sw_writes w = [] -> fst (m w) = Raise e -> sw_files (snd (m w)) = sw_files w).

Lemma unwritten_files {A} (m : M StateStore A) w : unwritten m -> sw_files (snd (m w)) = sw_files w.
Proof. intros H. apply H. Qed.

Lemma forward_unwritten {A} (m : M StateStore A) : unwritten m -> forward m.
Proof. intros H w. split; [|intros; apply H]. intros path. unfold state_file. by rewrite (proj1 (H w)). Qed.

Lemma unwritten_bind {A B} (m : M StateStore A) (k : A -> M StateStore B) : unwritten m -> (forall a, unwritten (k a)) -> unwritten (m ≫= k).
Proof.
  intros Hm Hk w. unfold mbind, M_bind, bind. specialize (Hm w). destruct (m w) as [[a|e|] w']; cbn in *; [|done..].
  destruct (Hk a w') as [-> ->]. done.
Qed.

(** Nothing is written before the rest. *)
Lemma forward_after {A B} (m : M StateStore A) (k : A -> M StateStore B) : unwritten m -> (forall a, forward (k a)) -> forward (m ≫= k).
Proof.
  intros Hm Hk w. unfold mbind, M_bind, bind. destruct (Hm w) as [Hf Hw]. destruct (m w) as [[a|e|] w']; cbn in *.
  - destruct (Hk a w') as [H1 H2]. split; [|intros e Hn He; rewrite (H2 e) by congruence; done].
    intros path. specialize (H1 path). unfold state_file in *. by rewrite <- Hf.
  - split; [intros path; unfold state_file; by rewrite Hf | done].
  - split; [intros path; unfold state_file; by rewrite Hf | done].
Qed.

(** What follows neither writes nor raises. *)
Lemma forward_then {A B} (m : M StateStore A) (k : A -> M StateStore B) :
  forward m -> (forall a w, exists b w', k a w = (Ok b, w') /\ sw_files w' = sw_files w) -> forward (m ≫= k).
Proof.
  intros Hm Hk w. unfold mbind, M_bind, bind. destruct (Hm w) as [H1 H2]. destruct (m w) as [[a|e|] w']; cbn in *;
    [|split; [done | intros e' Hn _; by apply (H2 e)] | by split].
  destruct (Hk a w') as (b & w2 & -> & Hw). split; [|done]. intros path. specialize (H1 path). unfold state_file in *. cbn. by rewrite Hw.
Qed.

Lemma forward_try {A} (m : M StateStore A) (h : exn -> M StateStore A) : forward m -> (forall e, unwritten (h e)) -> forward (try_except m h).
Proof.
  intros Hm Hh w. unfold try_except. destruct (Hm w) as [H1 H2]. destruct (m w) as [[a|e|] w']; cbn in *; [by split| |by split].
  destruct (Hh e w') as [Hf _]. split; [|intros e' Hn _; rewrite Hf; by apply (H2 e)].
  intros path. specialize (H1 path). unfold state_file in *. by rewrite Hf.
Qed.

Lemma unwritten_ret {A} (a : A) : unwritten (ret a).
Proof. done. Qed.
Lemma unwritten_raise {A} e : unwritten (raise e : M StateStore A).
Proof. done. Qed.
Lemma unwritten_lift {A} (o : outcome A) : unwritten (lift o).
Proof. done. Qed.
Lemma unwritten_read {A} (f : StateStore -> A) : unwritten (read f).
Proof. done. Qed.
Lemma unwritten_fence path : unwritten (fence_workspace_mutator resolve path).
Proof. done. Qed.
Lemma unwritten_release path : unwritten (release_workspace_mutator resolve path).
Proof. done. Qed.
Lemma unwritten_timestamp : unwritten (timestamp clock).
Proof. done. Qed.

Lemma unwritten_read_state path : unwritten (read_workspace_state resolve path).
Proof. apply unwritten_bind; [apply unwritten_read|]. intros [| | |[]]; done. Qed.

Lemma released path w : exists b w', (release_workspace_mutator resolve path) w = (Ok b, w') /\ sw_files w' = sw_files w.
Proof. by eexists _, _. Qed.

(** A write of what the file may become. *)
Lemma write_forward path p w :
  file_evolves (state_file resolve w path) (FileJson (JObj (stored p))) ->
  let r := atomic_write_json resolve path p w in
  (forall path', file_evolves (state_file resolve w path') (state_file resolve (snd r) path')) /\
  (forall e, sw_writes w = [] -> fst r = Raise e -> sw_files (snd r) = sw_files w).
Proof.
  intros Hp. cbv zeta. split; [|intros e Hn; unfold atomic_write_json; by rewrite Hn].
  assert (Hnew : forall path' files, sw_files files = <[resolve path := FileJson (sort_keys (JObj p))]> (sw_files w) ->
            file_evolves (state_file resolve w path') (state_file resolve files path')).
  { intros path' files Hf. unfold state_file in *. rewrite Hf. destruct (decide (resolve path' = resolve path)) as [Heq|Hne].
    - by rewrite Heq, lookup_insert_eq.
    - by rewrite lookup_insert_ne by congruence. }
  intros path'. unfold atomic_write_json. destruct (default Written _); cbn [snd]; [by apply Hnew | done | by apply Hnew].
Qed.

Lemma edit_forward path body :
  (forall p p', body p = Ok p' -> evolves p p') -> forward (edit_workspace_state resolve clock path body).
Proof.
  intros Hbody w. unfold edit_workspace_state, read_workspace_state, mbind, M_bind, bind, read, lift, timestamp.
  destruct (state_file resolve w path) as [| | |[| | | | | |p]] eqn:Hf; try done. unfold ret.
  destruct (body p) as [p'|e|] eqn:Hp; [|done..].
  set (w1 := mkStore _ _ _ _). assert (Hw1 : forall q, state_file resolve w1 q = state_file resolve w q) by done.
  apply (write_forward path _ w1). rewrite Hw1, Hf. cbn. eexists. split; [done|].
  etransitivity; [by apply Hbody|]. etransitivity; [|apply evolves_stored]. apply evolves_dset. by_names.
Qed.

Lemma write_running_forward path request node source policy m :
  forward (write_running_workspace_state resolve clock path request node source policy m).
Proof.
  unfold write_running_workspace_state. apply forward_after; [apply unwritten_timestamp|]. intros t.
  destruct (running_payload_keys path request node source policy m t) as (Hnd & Hpub & Htmp).
  set (payload := build_running_workspace_state_payload _ _ _ _ _ _ _) in *. clearbody payload. intros w.
  unfold read_workspace_state, mbind, M_bind, bind, read, lift.
  destruct (state_file resolve w path) as [| | |[| | | | | |p]] eqn:Hf; try (by rewrite ?Hf).
  - apply (write_forward path payload w). rewrite Hf. right. eauto.
  - rewrite Hf. unfold ret. destruct (rewrite_running_state payload p) as [p'|e|] eqn:Hp; [|done..].
    apply (write_forward path p' w). rewrite Hf. cbn. eexists. split; [done|].
    etransitivity; [by eapply rewrite_running_evolves | apply evolves_stored].
Qed.

Lemma drained_unwritten path : unwritten (workspace_mutators_are_drained resolve path).
Proof. apply unwritten_bind; [apply unwritten_read|]. intros []; [apply unwritten_ret|]. apply unwritten_bind; [apply unwritten_read_state | intros; apply unwritten_ret]. Qed.

Lemma mutator_forward path evidence : forward (set_workspace_mutator resolve clock path evidence).
Proof. apply edit_forward. intros p p' [= <-]. apply evolves_dset. by_names. Qed.

Lemma drain_forward path status pid group reason : forward (record_workspace_process_drain resolve clock path status pid group reason).
Proof. apply edit_forward. intros p p' [= <-]. apply evolves_dset. by_names. Qed.

(** [try: m finally: release]. *)
Lemma forward_finally (m : M StateStore unit) path :
  forward m -> forward (fun w => let '(r, w') := m w in let '(_, w'') := release_workspace_mutator resolve path w' in (r, w'')).
Proof.
  intros Hm w. destruct (Hm w) as [H1 H2]. destruct (m w) as [r w']; cbn in *. split; [|done]. intros p. apply (H1 p).
Qed.

Lemma call_forward c : forward (run_call resolve clock c).
Proof.
  destruct c; cbn [run_call].
  - apply write_running_forward.
  - apply edit_forward, update_evolves.
  - apply forward_after; [apply drained_unwritten|]. intros drained. apply edit_forward, update_evolves.
  - apply edit_forward, retention_evolves.
  - apply edit_forward, retention_evolves.
  - apply forward_after; [apply unwritten_read|]. intros [| | |]; try (by apply forward_unwritten).
    all: apply edit_forward; intros p p' [= <-]; apply discard_evolves.
  - apply edit_forward, set_publication_evolves.
  - apply edit_forward, set_phase_evolves.
  - apply edit_forward, add_temporary_evolves.
  - apply edit_forward, remove_temporary_evolves.
  - apply edit_forward. intros p p' H. inv_ok. subst. apply evolves_dset. by_names.
  - apply drain_forward.
  - destruct path; [|by apply forward_unwritten]. apply forward_then; [apply drain_forward | intros; apply released].
  - destruct path; [|by apply forward_unwritten].
    apply forward_then; [|by intros; eexists _, _]. apply forward_after; [apply unwritten_fence|]. intros _.
    apply forward_try; [apply forward_then; [apply drain_forward | by intros; eexists _, _]|].
    intros e. by destruct (is_exception e).
  - apply forward_after; [apply unwritten_fence|]. intros _. apply forward_try; [apply mutator_forward|]. done.
  - apply forward_finally, forward_try; [apply mutator_forward|]. intros e. by destruct (is_exception e).
  - apply forward_unwritten, unwritten_bind; [|done]. unfold install_if_running. by destruct (wf_finished f), (wf_state_path f).
  - apply forward_then; [|by intros; eexists _, _]. unfold persist.
    destruct (wf_finished f), (wf_fenced f), (wf_state_path f); try (by apply forward_unwritten).
    apply forward_then; [apply mutator_forward | by intros; eexists _, _].
  - unfold finish. destruct (wf_fenced f), (wf_state_path f); try (by apply forward_unwritten).
    destruct (wf_durable f); [|by apply forward_unwritten]. apply (forward_finally _ s), mutator_forward.
  - apply edit_forward. intros p p' [= <-]. apply evolves_dset. by_names.
  - apply forward_unwritten, unwritten_bind; [apply unwritten_read_state | intros; apply unwritten_lift].
Qed.

(** A sequence of operations, whether they raise or not. *)
Definition run_calls (calls : list StateCall) (w : StateStore) : StateStore := foldl (fun w c => snd (run_call resolve clock c w)) w calls.

End Store.
