(* ===== verification/WorkspaceStateContract.v ===== *)
(** The edits of the runtime keep the contract that the readers of a state
    check. *)

From Stdlib Require Import ZArith Lia Ascii String.
From stdpp Require Import base gmap sets list strings pretty sorting.
From S2P Require Import Prelude PyStr StateExn Models Scheduler Artifacts RunState PlanRecords PlanContract Foreach ReviewCandidates Composition PreflightState Redaction RedactionSpec SecretHandles WorkspaceContract BranchExport BranchExportSpec WorkspaceState WorkspaceStateSpec.

Open Scope string_scope.
Open Scope list_scope.
Open Scope Z_scope.

(** ** Checks without errors *)

Lemma then_check_nil a b : (a +!+ b) = Ok [] <-> a = Ok [] /\ b = Ok [].
Proof.
  unfold then_check. destruct a as [x|e|]; cbn; [|naive_solver..]. destruct b as [y|e|]; cbn; [|naive_solver..].
  unfold mret, outcome_ret. split; [|naive_solver]. intros [= H]. by apply app_eq_nil in H as [-> ->].
Qed.

Lemma error_if_nil c m : error_if c m = Ok [] <-> c = false.
Proof. destruct c; unfold error_if; naive_solver. Qed.

Lemma error_unless_in_nil v l m : error_unless_in v l m = Ok [] <-> in_strings v l = Ok true.
Proof.
  unfold error_unless_in. destruct (in_strings v l) as [b|e|]; cbn; [|naive_solver..]. rewrite error_if_nil. destruct b; naive_solver.
Qed.

Lemma check_each_nil {A} (check : A -> errors) l : check_each check l = Ok [] <-> forall x, x ∈ l -> check x = Ok [].
Proof.
  induction l as [|x l IH]; [cbn; split; [by intros _ x Hx%elem_of_nil | done]|]. cbn. rewrite then_check_nil, IH.
  setoid_rewrite elem_of_cons. naive_solver.
Qed.

(** ** What each check reads *)

Section Frame.
Context {hash : HashLibrary}.

(** Two payloads with the same fields. *)
Definition agree (p q : dict json) (fields : list string) : Prop :=
  forall k, k ∈ fields -> get q k = get p k /\ dmem q k = dmem p k.

Lemma agree_get p q fields k : agree p q fields -> names_within [k] fields = true -> get q k = get p k.
Proof. intros H Hk. apply H. apply (within [k] fields k Hk). by left. Qed.

Lemma agree_dmem p q fields k : agree p q fields -> names_within [k] fields = true -> dmem q k = dmem p k.
Proof. intros H Hk. apply H. apply (within [k] fields k Hk). by left. Qed.

(** Replaces the fields that agree. *)
Ltac agreeing H :=
  match type of H with
  | agree ?p ?q _ =>
      repeat match goal with
      | |- context [get q ?k] => rewrite (agree_get p q _ k H) by reflexivity
      | |- context [dmem q ?k] => rewrite (agree_dmem p q _ k H) by reflexivity
      end
  end.

Lemma identity_frame p q :
  agree p q ["version"; "run_id"; "run_key_name"; "workflow_name"; "workflow_signature"; "node_id"; "task_id"; "provider"; "role"; "round_num"] ->
  validate_identity q = validate_identity p.
Proof. intros H. unfold validate_identity. cbn [check_each foldr]. by agreeing H. Qed.

Lemma hydrated_frame p q ws : agree p q ["execution"; "resume_origin"; "node_id"] -> hydrated_resume_placement q ws = hydrated_resume_placement p ws.
Proof. intros H. unfold hydrated_resume_placement. by agreeing H. Qed.

Lemma agree_fewer p q fields fewer : agree p q fields -> names_within fewer fields = true -> agree p q fewer.
Proof. intros H Hw k Hk. apply H. by apply (within fewer). Qed.

Ltac fewer H := eapply agree_fewer; [exact H | reflexivity].

Lemma workspace_frame p q ws op :
  agree p q ["workspace_kind"; "execution"; "status"; "workspace"; "resume_origin"; "node_id"] -> validate_workspace q ws op = validate_workspace p ws op.
Proof.
  intros H. unfold validate_workspace, validate_workspace_materialization, validate_worktree_materialization,
    validate_workspace_operation_eligibility, validate_workspace_retention. rewrite !(hydrated_frame p q) by fewer H. by agreeing H.
Qed.

Lemma invocation_source_frame p q source : agree p q ["invocation_source"] -> validate_invocation_source q source = validate_invocation_source p source.
Proof. intros H. unfold validate_invocation_source. by agreeing H. Qed.

Lemma process_drain_frame p q op : agree p q ["process_drain"; "status"] -> validate_process_drain q op = validate_process_drain p op.
Proof. intros H. unfold validate_process_drain. by agreeing H. Qed.

Lemma mutator_frame p q op : agree p q ["workspace_mutator"; "status"] -> validate_workspace_mutator q op = validate_workspace_mutator p op.
Proof. intros H. unfold validate_workspace_mutator. by agreeing H. Qed.

Lemma result_frame p q ws op : agree p q ["status"; "result"; "workspace_kind"; "bundle"] -> validate_result q ws op = validate_result p ws op.
Proof. intros H. unfold validate_result. by agreeing H. Qed.

Lemma slug_frame p q : agree p q ["node_id"; "task_id"; "round_num"; "audit_round_num"] -> state_invocation_slug q = state_invocation_slug p.
Proof. intros H. unfold state_invocation_slug, require_state_invocation_slug. by agreeing H. Qed.

Lemma ownership_frame p q :
  agree p q ["run_id"; "node_id"; "task_id"; "role"; "round_num"; "audit_round_num"; "git"] -> temporary_ref_ownership q = temporary_ref_ownership p.
Proof. intros H. unfold temporary_ref_ownership. cbn [map]. by agreeing H. Qed.

(** The fields that name the invocation, its repository and its source. *)
Definition OWNER_FIELDS : list string :=
  ["run_id"; "run_key_name"; "node_id"; "task_id"; "role"; "round_num"; "audit_round_num"; "git"; "source"; "resume_origin"].

Lemma publication_identity_frame p q publication :
  agree p q OWNER_FIELDS -> validate_publication_identity q publication = validate_publication_identity p publication.
Proof.
  intros H. unfold validate_publication_identity, publication_run_identity_matches. cbn [check_each foldr]. by agreeing H.
Qed.

Lemma expected_names_frame p q publication :
  agree p q OWNER_FIELDS -> expected_publication_names q publication = expected_publication_names p publication.
Proof. intros H. unfold expected_publication_names. rewrite (slug_frame p q) by fewer H. by agreeing H. Qed.

Lemma destinations_frame p q publication canonical :
  agree p q (OWNER_FIELDS ++ ["refs"; "result"]) -> validate_destinations q publication canonical = validate_destinations p publication canonical.
Proof.
  intros H. unfold validate_destinations, publication_expectations. rewrite (expected_names_frame p q) by fewer H. by agreeing H.
Qed.

Lemma publication_frame p q hydrated :
  agree p q (OWNER_FIELDS ++ ["refs"; "result"; "bundle"; "workspace"; "status"; "workspace_kind"; "ref_publication"]) ->
  validate_ref_publication q hydrated = validate_ref_publication p hydrated.
Proof.
  intros H. unfold validate_ref_publication, requires_ref_publication, is_discarded_lineage.
  agreeing H. by rewrite (publication_identity_frame p q), (destinations_frame p q) by fewer H.
Qed.

Lemma temporary_refs_frame p q : agree p q (OWNER_FIELDS ++ ["result"; "temporary_refs"]) -> validate_temporary_refs q = validate_temporary_refs p.
Proof.
  intros H. unfold validate_temporary_refs, valid_temporary_ref, coherent_ref_oids. cbn [tc_payload]. rewrite (slug_frame p q) by fewer H.
  rewrite (ownership_frame p q) by fewer H. by agreeing H.
Qed.

(** Every field that the contract of a live state reads. *)
Definition CONTRACT_FIELDS : list string :=
  OWNER_FIELDS ++ ["version"; "workflow_name"; "workflow_signature"; "provider"; "workspace_kind"; "execution"; "status"; "workspace";
    "invocation_source"; "process_drain"; "workspace_mutator"; "result"; "refs"; "bundle"; "ref_publication"; "temporary_refs"].

Lemma contract_frame p q op :
  one_of op [for_checkpoint; for_checkpoint_failed] = false -> agree p q CONTRACT_FIELDS ->
  workspace_state_contract_errors q op = workspace_state_contract_errors p op.
Proof.
  intros Hop H. unfold workspace_state_contract_errors, validate_ref_contracts. rewrite Hop. cbn [check_when orb].
  rewrite (identity_frame p q), (workspace_frame p q), (invocation_source_frame p q), (process_drain_frame p q), (mutator_frame p q),
    (result_frame p q), (publication_frame p q), (temporary_refs_frame p q), (hydrated_frame p q) by fewer H.
  by agreeing H.
Qed.

(** ** States as they are written *)

Lemma sort_keys_idem v : sort_keys (sort_keys v) = sort_keys v.
Proof.
  induction v as [v Hv | l IH | f IH] using json_children_ind; [by destruct v| |].
  - cbn. f_equal. rewrite map_map. apply map_ext_in. intros x Hx. rewrite Forall_forall in IH. by apply IH, list_elem_of_In.
  - cbn. f_equal. rewrite <- !sorted_items_values, sorted_items_idem, map_map. f_equal. apply map_ext_in. intros [k x] Hx.
    rewrite Forall_forall in IH. f_equal. apply list_elem_of_In in Hx. apply (IH _ Hx).
Qed.

(** The fields of a payload that was read from a written file. *)
Definition canonical (p : dict json) : Prop := forall k, sort_keys (get p k) = get p k.

Lemma stored_canonical p : canonical (stored p).
Proof. intros k. rewrite get_written. apply sort_keys_idem. Qed.

Lemma mapping_sorted v : mapping_value (sort_keys v) = stored (mapping_value v).
Proof. by destruct v. Qed.

Lemma canonical_mapping p k : canonical p -> canonical (mapping_value (get p k)).
Proof. intros H. rewrite <- H, mapping_sorted. apply stored_canonical. Qed.

Lemma dmem_stored p k : dmem (stored p) k = dmem p k.
Proof. unfold dmem, stored. rewrite dget_sorted, (dget_map_key (fun _ c => sort_keys c)). by destruct (dget p k). Qed.

Lemma dmem_dset_ne (p : dict json) k v k' : k <> k' -> dmem (dset p k v) k' = dmem p k'.
Proof. intros H. unfold dmem. by rewrite dget_dset_ne. Qed.

(** What an edit stores. *)
Definition written (p : dict json) (updated_at : string) : dict json := stored (dset p "updated_at" (JStr updated_at)).

Lemma get_edited p t k : k <> "updated_at" -> get (written p t) k = sort_keys (get p k).
Proof. intros Hk. unfold written. by rewrite get_written, get_dset_ne. Qed.

Lemma dmem_edited p t k : k <> "updated_at" -> dmem (written p t) k = dmem p k.
Proof. intros Hk. unfold written. by rewrite dmem_stored, dmem_dset_ne. Qed.

Lemma agree_dset p k v fields : names_apart [k] fields = true -> agree p (dset p k v) fields.
Proof. intros Hk k' Hk'. assert (k <> k') by (by apply (not_among fields)). by rewrite get_dset_ne, dmem_dset_ne. Qed.

Lemma agree_edited p p' t fields : canonical p -> names_apart ["updated_at"] fields = true -> agree p p' fields -> agree p (written p' t) fields.
Proof.
  intros Hc Hu H k Hk. assert (k <> "updated_at") by (apply not_eq_sym; by apply (not_among fields)).
  rewrite get_edited, dmem_edited by done. destruct (H k Hk) as [-> ->]. by rewrite Hc.
Qed.

Lemma agree_stored p p' fields : canonical p -> agree p p' fields -> agree p (stored p') fields.
Proof. intros Hc H k Hk. rewrite get_written, dmem_stored. destruct (H k Hk) as [-> ->]. by rewrite Hc. Qed.

Lemma agree_trans p q r fields : agree p q fields -> agree q r fields -> agree p r fields.
Proof. intros H1 H2 k Hk. destruct (H1 k Hk), (H2 k Hk). split; congruence. Qed.

(** The contract of a live state, check by check. *)
Lemma contract_valid p op : one_of op [for_checkpoint; for_checkpoint_failed] = false ->
  let ws := mapping_value (get p "workspace") in
  workspace_state_contract_errors p op = Ok [] <->
  validate_identity p = Ok [] /\ validate_repository (mapping_value (get p "git")) = Ok [] /\ validate_workspace p ws op = Ok [] /\
  validate_source (JObj (mapping_value (get p "source"))) = Ok [] /\ validate_invocation_source p (mapping_value (get p "source")) = Ok [] /\
  validate_process_drain p op = Ok [] /\ validate_workspace_mutator p op = Ok [] /\ validate_result p ws op = Ok [] /\
  validate_ref_publication p (hydrated_resume_placement p ws) = Ok [] /\ validate_temporary_refs p = Ok [].
Proof.
  intros Hop. cbv zeta. unfold workspace_state_contract_errors, validate_ref_contracts. rewrite Hop. cbn [check_when orb].
  rewrite !then_check_nil. naive_solver.
Qed.

Definition valid (op : PersistedWorkspaceOperation) (p : dict json) : Prop := workspace_state_contract_errors p op = Ok [].

Section Operation.
Context (op : PersistedWorkspaceOperation) (Hop : one_of op [for_checkpoint; for_checkpoint_failed] = false).

(** Solves the checks that read no changed field. *)
Ltac kept H :=
  lazymatch type of H with
  | agree ?p ?q _ =>
      rewrite ?(identity_frame p q), ?(invocation_source_frame p q), ?(process_drain_frame p q), ?(mutator_frame p q) by fewer H;
      rewrite ?(workspace_frame p q), ?(result_frame p q), ?(publication_frame p q), ?(temporary_refs_frame p q), ?(hydrated_frame p q) by fewer H
  end.

Lemma unread_valid p p' t : canonical p -> agree p p' CONTRACT_FIELDS -> valid op p -> valid op (written p' t).
Proof. intros Hc H Hv. unfold valid. rewrite (contract_frame p); [done|done|]. by apply agree_edited. Qed.

(** A field that only one check reads. *)
Lemma drain_valid p f t :
  canonical p -> get f "status" = JStr "confirmed" -> valid op p -> valid op (written (dset p "process_drain" (JObj f)) t).
Proof.
  intros Hc Hf Hv. unfold valid. rewrite contract_valid by done. apply contract_valid in Hv; [|done].
  destruct Hv as (V1 & V2 & V3 & V4 & V5 & V6 & V7 & V8 & V9 & V10). set (q := written _ _).
  assert (H : agree p q (List.filter (fun k => negb (String.eqb k "process_drain")) CONTRACT_FIELDS)).
  { apply agree_edited; [done..|]. by apply agree_dset. }
  rewrite (agree_get p q _ "workspace" H), (agree_get p q _ "git" H), (agree_get p q _ "source" H) by reflexivity.
  assert (Hd : validate_process_drain q op = Ok []).
  { unfold validate_process_drain. subst q. rewrite get_edited, get_dset_eq, mapping_sorted, get_written by done. cbn [mapping_value]. rewrite Hf. cbn.
    rewrite !andb_false_r. done. }
  split_and!; [..|done| | | |]; kept H; done.
Qed.

Lemma mutator_valid p operation t :
  canonical p -> nonempty operation = true -> valid op p -> valid op (written (dset p "workspace_mutator" (JObj (mutator_finished operation))) t).
Proof.
  intros Hc Hn Hv. unfold valid. rewrite contract_valid by done. apply contract_valid in Hv; [|done].
  destruct Hv as (V1 & V2 & V3 & V4 & V5 & V6 & V7 & V8 & V9 & V10). set (q := written _ _).
  assert (H : agree p q (List.filter (fun k => negb (String.eqb k "workspace_mutator")) CONTRACT_FIELDS)).
  { apply agree_edited; [done..|]. by apply agree_dset. }
  rewrite (agree_get p q _ "workspace" H), (agree_get p q _ "git" H), (agree_get p q _ "source" H) by reflexivity.
  assert (Hm : validate_workspace_mutator q op = Ok []).
  { unfold validate_workspace_mutator. subst q. rewrite get_edited, get_dset_eq by done. rewrite sort_keys_obj.
    rewrite !get_written. change (get (mutator_finished operation) "status") with (JStr "confirmed").
    change (get (mutator_finished operation) "operation") with (JStr operation).
    change (get (mutator_finished operation) "outcome") with (JStr "finished"). cbn [sort_keys is_nonempty_string]. rewrite Hn.
    change (is_text (JStr "confirmed") "unresolved") with false. by rewrite !andb_false_r. }
  split_and!; [..|done| | |]; kept H; done.
Qed.

(** *** Publications *)

Definition PUBLICATION_FIELDS : list string :=
  ["repository_id"; "run_id"; "run_key_name"; "node_id"; "task_id"; "role"; "round_num"; "audit_round_num"; "destinations"].

Lemma publication_fields_frame p f f' canonical_success :
  agree f f' PUBLICATION_FIELDS ->
  validate_publication_identity p f' = validate_publication_identity p f /\
  validate_destinations p f' canonical_success = validate_destinations p f canonical_success.
Proof.
  intros H. split.
  - unfold validate_publication_identity, publication_run_identity_matches. cbn [check_each foldr]. by agreeing H.
  - unfold validate_destinations, publication_expectations, expected_publication_names. by agreeing H.
Qed.

(** What a valid publication is. *)
Lemma publication_valid p hydrated :
  dmem p "ref_publication" = true ->
  let lineage_producer := is_true (get (mapping_value (get p "workspace")) "lineage_producer") in
  let publication := mapping_value (get p "ref_publication") in
  let canonical_success := lineage_producer && is_text (get p "status") "succeeded" in
  validate_ref_publication p hydrated = Ok [] <->
  (lineage_producer = true \/ is_discarded_lineage p = true) /\ in_strings (get publication "phase") REF_PUBLICATION_PHASES = Ok true /\
  validate_publication_phase publication canonical_success = Ok [] /\ validate_publication_identity p publication = Ok [] /\
  validate_destinations p publication canonical_success = Ok [].
Proof.
  intros Hm. cbv zeta. unfold validate_ref_publication. rewrite Hm. cbn [negb].
  destruct (is_true _) eqn:Hl; cbn [negb andb]; [|destruct (is_discarded_lineage p); cbn [negb]; [|naive_solver]].
  all: destruct (in_strings _ _) as [[]|e|]; cbn [mbind outcome_bind negb]; rewrite ?then_check_nil; naive_solver.
Qed.

Lemma phase_valid p p' phase t : canonical p -> set_ref_publication_phase phase p = Ok p' -> valid op p -> valid op (written p' t).
Proof.
  intros Hc Hp' Hv. unfold set_ref_publication_phase in Hp'. destruct (get p "ref_publication") as [| | | | | |f] eqn:Hf; try done.
  destruct (is_ref_publication_phase _) as [current|]; [|done]. destruct (_ && _); [done|]. injection Hp' as <-.
  unfold valid. rewrite contract_valid by done. apply contract_valid in Hv; [|done].
  destruct Hv as (V1 & V2 & V3 & V4 & V5 & V6 & V7 & V8 & V9 & V10). set (q := written _ _).
  assert (H : agree p q (List.filter (fun k => negb (String.eqb k "ref_publication")) CONTRACT_FIELDS)).
  { apply agree_edited; [done..|]. by apply agree_dset. }
  rewrite (agree_get p q _ "workspace" H), (agree_get p q _ "git" H), (agree_get p q _ "source" H) by reflexivity.
  assert (Hpub : validate_ref_publication q (hydrated_resume_placement q (mapping_value (get p "workspace"))) = Ok []).
  { assert (Hm : dmem p "ref_publication" = true) by (unfold dmem, get in *; destruct (dget p "ref_publication"); [done|by cbn in Hf]).
    apply publication_valid in V9; [|done]. rewrite Hf in V9. cbn [mapping_value] in V9. destruct V9 as (P1 & P2 & P3 & P4 & P5).
    assert (Hmq : dmem q "ref_publication" = true) by (subst q; rewrite dmem_edited by done; unfold dmem; by rewrite dget_dset_eq).
    apply publication_valid; [done|]. agreeing H.
    assert (Hq : get q "ref_publication" = JObj (stored (dset f "phase" (JStr (target_phase_value phase)))))
      by (subst q; by rewrite get_edited, get_dset_eq by done).
    rewrite Hq. cbn [mapping_value]. assert (Hcf : canonical f) by (assert (Hx := canonical_mapping p "ref_publication" Hc); by rewrite Hf in Hx).
    assert (Hagree : agree f (stored (dset f "phase" (JStr (target_phase_value phase)))) PUBLICATION_FIELDS)
      by (apply agree_stored; [done | by apply agree_dset]).
    destruct (publication_fields_frame q _ _ (is_true (get (mapping_value (get p "workspace")) "lineage_producer") && is_text (get p "status") "succeeded") Hagree) as [-> ->].
    rewrite (publication_identity_frame p q), (destinations_frame p q) by fewer H.
    rewrite get_written, get_dset_eq. unfold is_discarded_lineage in P1 |- *. agreeing H. split_and!; [done| | |done|done].
    - by destruct phase.
    - unfold validate_publication_phase. rewrite get_written, get_dset_eq. by destruct phase; cbn; rewrite andb_false_r. }
  split_and!; [.. | |]; try exact Hpub; kept H; done.
Qed.

(** A destination of a publication: a ref of the invocation that is to point to
    a commit. *)
Definition destination_of (name : string) (d : dict json) : Prop :=
  nonempty name = true /\ get d "name" = JStr name /\ is_git_object_id (get d "target_oid") = true /\ dmem d "expected_old_oid" = true /\
  (get d "expected_old_oid" = JNull \/ is_git_object_id (get d "expected_old_oid") = true).

(** The record of a publication that the invocation of [p] prepares, before it
    succeeds: it names the invocation and its repository, and two refs of it. *)
Definition prepares (p u : dict json) : Prop :=
  is_true (get (mapping_value (get p "workspace")) "lineage_producer") = true /\ is_text (get p "status") "succeeded" = false /\
  get u "phase" = JStr "prepared" /\ get u "repository_id" = get (mapping_value (get p "git")) "repo_id" /\
  (forall k, k ∈ ["run_id"; "run_key_name"; "node_id"; "task_id"; "role"; "round_num"; "audit_round_num"] -> get u k = get p k) /\
  exists slug candidate result c r, state_invocation_slug p = Some slug /\
    result_ref_names (json_str (get p "run_key_name")) (json_str (get p "node_id")) slug = Ok (candidate, result) /\
    get u "destinations" = JObj [("candidate", JObj c); ("result", JObj r)] /\ destination_of candidate c /\ destination_of result r.

Lemma git_object_id_sorted v : is_git_object_id v = true -> sort_keys v = v.
Proof. by destruct v. Qed.

Lemma destination_valid label name d e :
  destination_of name d -> pe_canonical_success e = false -> dget (pe_scoped_names e) label = Some name ->
  validate_destination label (JObj (stored d)) e = Ok [].
Proof.
  intros (Hne & Hn & Ho & Hm & He) Hc Hs. unfold validate_destination, destination_has_valid_name_and_target. cbn [mapping_value].
  rewrite !get_written, Hn, (git_object_id_sorted _ Ho), Ho. cbn [sort_keys is_nonempty_string]. rewrite Hne. cbn [andb negb].
  unfold validate_destination_expected_oid, validate_destination_names, validate_destination_target.
  rewrite dmem_stored, Hm, Hc, !get_written, Hn, Hs. cbn [andb negb orb sort_keys jopt].
  rewrite !then_check_nil, !error_if_nil. rewrite json_equal_refl. cbn [negb]. rewrite andb_false_r. split_and!; [|done..].
  destruct He as [-> | He]; [done|]. rewrite (git_object_id_sorted _ He), He. by rewrite andb_false_r.
Qed.

Lemma prepared_valid p p' u t : canonical p -> prepares p u -> set_ref_publication u p = Ok p' -> valid op p -> valid op (written p' t).
Proof.
  intros Hc (Hlp & Hst & Hph & Hrepo & Hids & slug & cn & rn & c & r & Hslug & Hnames & Hdest & Hcd & Hrd) Hp' Hv.
  unfold set_ref_publication in Hp'. destruct (_ && _); [done|]. injection Hp' as <-.
  unfold valid. rewrite contract_valid by done. apply contract_valid in Hv; [|done].
  destruct Hv as (V1 & V2 & V3 & V4 & V5 & V6 & V7 & V8 & V9 & V10). set (q := written _ _).
  assert (H : agree p q (List.filter (fun k => negb (String.eqb k "ref_publication")) CONTRACT_FIELDS)).
  { apply agree_edited; [done..|]. by apply agree_dset. }
  rewrite (agree_get p q _ "workspace" H), (agree_get p q _ "git" H), (agree_get p q _ "source" H) by reflexivity.
  assert (Hpub : validate_ref_publication q (hydrated_resume_placement q (mapping_value (get p "workspace"))) = Ok []).
  { apply publication_valid; [subst q; rewrite dmem_edited by done; unfold dmem; by rewrite dget_dset_eq|]. agreeing H.
    assert (Hq : get q "ref_publication" = JObj (stored u)) by (subst q; by rewrite get_edited, get_dset_eq by done).
    rewrite Hq. cbn [mapping_value]. rewrite Hlp, Hst. cbn [andb].
    rewrite (publication_identity_frame p q), (destinations_frame p q) by fewer H.
    assert (Hk : forall k, k ∈ ["run_id"; "run_key_name"; "node_id"; "task_id"; "role"; "round_num"; "audit_round_num"] -> get (stored u) k = get p k)
      by (intros k Hk; rewrite get_written, (Hids k Hk); apply Hc).
    split_and!; [by left|by rewrite get_written, Hph|done| |].
    - unfold validate_publication_identity, publication_run_identity_matches.
      rewrite get_written, Hrepo, (canonical_mapping p "git" Hc), json_equal_refl.
      rewrite !Hk, !json_equal_refl by by_names. cbn [negb andb orb check_each foldr]. rewrite !Hk, !json_equal_refl by by_names. done.
    - unfold validate_destinations. rewrite get_written, Hdest, mapping_sorted.
      change (stored [("candidate", JObj c); ("result", JObj r)]) with [("candidate", sort_keys (JObj c)); ("result", sort_keys (JObj r))].
      rewrite bool_decide_true by (cbn; set_solver). cbn [negb].
      unfold publication_expectations, expected_publication_names. rewrite Hslug, Hk, Hnames by by_names. cbn [mbind outcome_bind].
      apply check_each_nil. intros [label v] [Hl|Hl%list_elem_of_singleton]%elem_of_cons; injection Hl as -> ->;
        by eapply destination_valid. }
  split_and!; [.. | |]; try exact Hpub; kept H; done.
Qed.

(** *** Temporary refs *)

Lemma canonical_list p k l v : canonical p -> get p k = JList l -> v ∈ l -> sort_keys v = v.
Proof.
  intros Hc Hk Hv. specialize (Hc k). rewrite Hk in Hc. cbn in Hc. injection Hc as Hm. clear Hk.
  induction l as [|x l IH]; [by apply elem_of_nil in Hv|]. injection Hm as Hx Hl. apply elem_of_cons in Hv as [->|Hv]; auto.
Qed.

Lemma dset_dset (d : dict json) k v v' : dset (dset d k v) k v' = dset d k v'.
Proof.
  induction d as [|[k0 v0] d IH]; cbn; [by rewrite decide_True|].
  case_decide; cbn; [by rewrite decide_True | rewrite decide_False by done; by rewrite IH].
Qed.

Definition CLAIM_FIELDS : list string :=
  ["name"; "target_oid"; "owner_run_id"; "owner_node_id"; "owner_task_id"; "owner_role"; "owner_round_num"; "owner_audit_round_num"; "repository_id"].

Lemma ownership_fields p :
  temporary_ref_ownership p =
    [("owner_run_id", get p "run_id"); ("owner_node_id", get p "node_id"); ("owner_task_id", get p "task_id"); ("owner_role", get p "role");
     ("owner_round_num", get p "round_num"); ("owner_audit_round_num", get p "audit_round_num");
     ("repository_id", get (mapping_value (get p "git")) "repo_id")].
Proof. reflexivity. Qed.

(** Claims that differ in their phase only. *)
Lemma claim_frame f f' context :
  agree f f' CLAIM_FIELDS -> in_strings (get f' "phase") ["prepared"; "removed"] = Ok true ->
  valid_temporary_ref f context = Ok true -> valid_temporary_ref f' context = Ok true.
Proof.
  intros H Hp Hv. unfold valid_temporary_ref, temporary_ref_phase_is_valid in *. rewrite Hp. apply bind_Ok in Hv as (b & _ & Hv).
  injection Hv as Hv. destruct b; [|done]. cbn [mbind outcome_bind]. unfold mret, outcome_ret. f_equal. etransitivity; [|exact Hv]. clear Hv.
  unfold temporary_ref_ownership_matches, temporary_ref_is_invocation_scoped, temporary_ref_target_is_valid, temporary_ref_target_is_coherent.
  rewrite ownership_fields. cbn [forallb]. by agreeing H.
Qed.

(** The context in which the claims of a state are checked. *)
Definition claim_context (p : dict json) (prefix : string) : TemporaryRefContext :=
  mkTemporaryRefContext p (state_invocation_slug p) prefix (coherent_ref_oids p).

Definition claim_prefix (p : dict json) : outcome string :=
  temporary_import_ref_prefix (json_str (get p "run_key_name")) (json_str (get p "node_id")) (default "None" (state_invocation_slug p)).

Lemma temporary_valid p claims :
  get p "temporary_refs" = JList claims ->
  validate_temporary_refs p = Ok [] <->
  exists prefix, claim_prefix p = Ok prefix /\ forall c, c ∈ claims -> valid_temporary_ref (mapping_value c) (claim_context p prefix) = Ok true.
Proof.
  intros Hc. unfold validate_temporary_refs. rewrite Hc. fold (claim_prefix p). destruct (claim_prefix p) as [prefix|e|]; cbn [mbind outcome_bind];
    [|by split; [|intros (? & ? & _)]..]. rewrite check_each_nil. fold (claim_context p prefix).
  assert (Hone : forall c, (valid ← valid_temporary_ref (mapping_value c) (claim_context p prefix);
    error_if (negb valid) "temporary ref claim is contradictory") = Ok [] <-> valid_temporary_ref (mapping_value c) (claim_context p prefix) = Ok true).
  { intros c. destruct (valid_temporary_ref _ _) as [[]|e|]; cbn; naive_solver. }
  setoid_rewrite Hone. naive_solver.
Qed.

(** Only the claims change. *)
Lemma claims_valid p claims' t :
  canonical p -> valid op p ->
  (forall prefix, claim_prefix p = Ok prefix ->
     forall c, c ∈ claims' -> valid_temporary_ref (mapping_value (sort_keys c)) (claim_context p prefix) = Ok true) ->
  (exists prefix, claim_prefix p = Ok prefix) -> valid op (written (dset p "temporary_refs" (JList claims')) t).
Proof.
  intros Hc Hv Hclaims [prefix Hprefix]. unfold valid. rewrite contract_valid by done. apply contract_valid in Hv; [|done].
  destruct Hv as (V1 & V2 & V3 & V4 & V5 & V6 & V7 & V8 & V9 & V10). set (q := written _ _).
  assert (H : agree p q (List.filter (fun k => negb (String.eqb k "temporary_refs")) CONTRACT_FIELDS)).
  { apply agree_edited; [done..|]. by apply agree_dset. }
  rewrite (agree_get p q _ "workspace" H), (agree_get p q _ "git" H), (agree_get p q _ "source" H) by reflexivity.
  assert (Ht : validate_temporary_refs q = Ok []).
  { apply (temporary_valid q (map sort_keys claims')); [subst q; by rewrite get_edited, get_dset_eq by done|].
    assert (Hsp : claim_prefix q = claim_prefix p) by (unfold claim_prefix; rewrite (slug_frame p q) by fewer H; by agreeing H).
    exists prefix. rewrite Hsp. split; [done|]. intros c (c0 & -> & Hc0)%list_elem_of_fmap.
    specialize (Hclaims prefix Hprefix c0 Hc0). unfold valid_temporary_ref, claim_context in *. cbn [tc_payload tc_coherent_oids] in *.
    rewrite (ownership_frame p q) by fewer H. unfold temporary_ref_is_invocation_scoped, coherent_ref_oids in *.
    cbn [tc_invocation_slug_value tc_prefix] in *. rewrite (slug_frame p q) by fewer H. agreeing H. exact Hclaims. }
  split_and!; [..|done]; kept H; done.
Qed.

Lemma remove_valid p p' ref_name t : canonical p -> remove_temporary_ref ref_name p = Ok p' -> valid op p -> valid op (written p' t).
Proof.
  intros Hc Hp' Hv. unfold remove_temporary_ref in Hp'. destruct (get p "temporary_refs") as [| | | | |claims|] eqn:Hl; try done.
  apply bind_Ok in Hp' as (b & _ & Hp'). destruct b; [|done]. cbn [negb] in Hp'. cbv iota in Hp'.
  destruct (matching_temporary_ref_claims claims ref_name) as [|? [|]]; try done. injection Hp' as <-.
  assert (V10 : validate_temporary_refs p = Ok []) by (apply contract_valid in Hv; [|done]; apply Hv).
  apply (temporary_valid p claims Hl) in V10 as (prefix & Hprefix & Hall). apply claims_valid; [done..| |by eauto].
  intros prefix' Hp c (c0 & -> & Hc0)%list_elem_of_fmap. rewrite Hprefix in Hp. injection Hp as <-. specialize (Hall c0 Hc0).
  assert (Hs : sort_keys c0 = c0) by by apply (canonical_list p _ _ _ Hc Hl).
  unfold mark_removed. destruct c0 as [| | | | | |f]; try (by rewrite Hs). destruct (is_text _ _); [|by rewrite Hs].
  rewrite mapping_sorted. cbn [mapping_value] in *. eapply claim_frame; [| |exact Hall].
  - apply agree_stored; [|by apply agree_dset]. intros k. rewrite sort_keys_obj in Hs. injection Hs as Hs. rewrite <- Hs.
    rewrite get_written. apply sort_keys_idem.
  - by rewrite get_written, get_dset_eq.
Qed.

(** A claim of the invocation that targets one of its sources. *)
Definition scoped_claim (p : dict json) (ref_name target_oid : string) : Prop :=
  exists slug prefix, state_invocation_slug p = Some slug /\ claim_prefix p = Ok prefix /\ str_startswith prefix ref_name = true /\
    is_git_object_id (JStr target_oid) = true /\ target_oid ∈ source_commit_oids (get p "source").

Lemma new_claim_valid p ref_name target_oid prefix :
  canonical p -> scoped_claim p ref_name target_oid -> claim_prefix p = Ok prefix ->
  valid_temporary_ref
    (stored (update [("phase", JStr "prepared"); ("name", JStr ref_name); ("target_oid", JStr target_oid)] (temporary_ref_ownership p)))
    (claim_context p prefix) = Ok true.
Proof.
  intros Hc (slug & prefix' & Hslug & Hp & Hname & Hoid & Hin) Hprefix. rewrite Hp in Hprefix. injection Hprefix as ->.
  assert (Hg : canonical (mapping_value (get p "git"))) by by apply canonical_mapping.
  unfold valid_temporary_ref, temporary_ref_phase_is_valid, temporary_ref_ownership_matches, temporary_ref_is_invocation_scoped,
    temporary_ref_target_is_valid, temporary_ref_target_is_coherent, claim_context. cbn [tc_payload tc_invocation_slug_value tc_prefix tc_coherent_oids].
  set (claim := update _ _). rewrite ownership_fields. cbn [forallb]. rewrite !get_written, Hslug.
  change (get claim "phase") with (JStr "prepared"). change (get claim "name") with (JStr ref_name).
  change (get claim "target_oid") with (JStr target_oid). change (get claim "owner_run_id") with (get p "run_id").
  change (get claim "owner_node_id") with (get p "node_id"). change (get claim "owner_task_id") with (get p "task_id").
  change (get claim "owner_role") with (get p "role"). change (get claim "owner_round_num") with (get p "round_num").
  change (get claim "owner_audit_round_num") with (get p "audit_round_num").
  change (get claim "repository_id") with (get (mapping_value (get p "git")) "repo_id").
  rewrite !Hc, Hg, !json_equal_refl. cbn [sort_keys]. rewrite Hname, Hoid.
  change (in_strings (JStr "prepared") ["prepared"; "removed"]) with (Ok true). cbn [mbind outcome_bind andb].
  unfold mret, outcome_ret. f_equal. apply existsb_exists. exists target_oid. split; [|apply is_text_refl].
  apply list_elem_of_In. unfold coherent_ref_oids. set_solver.
Qed.

Lemma add_valid p p' ref_name target_oid t :
  canonical p -> scoped_claim p ref_name target_oid -> add_temporary_ref ref_name target_oid p = Ok p' -> valid op p -> valid op (written p' t).
Proof.
  intros Hc Hs Hp' Hv. assert (Hprefix : exists prefix, claim_prefix p = Ok prefix) by (destruct Hs as (? & ? & _ & ? & _); eauto).
  assert (V10 : validate_temporary_refs p = Ok []) by (apply contract_valid in Hv; [|done]; apply Hv).
  assert (Hnew : forall claims q, (forall prefix, claim_prefix p = Ok prefix -> forall c, c ∈ claims ->
      valid_temporary_ref (mapping_value (sort_keys c)) (claim_context p prefix) = Ok true) ->
    temporary_ref_ownership q = temporary_ref_ownership p ->
    valid op (written (dset p "temporary_refs" (JList (claims ++ [JObj (update [("phase", JStr "prepared"); ("name", JStr ref_name);
      ("target_oid", JStr target_oid)] (temporary_ref_ownership q))]))) t)).
  { intros claims q Hclaims ->. apply claims_valid; [done..| |done]. intros prefix Hpre c [Hin|Hin]%elem_of_app; [by apply Hclaims|].
    apply list_elem_of_singleton in Hin as ->. rewrite mapping_sorted. by apply new_claim_valid. }
  unfold add_temporary_ref, dmem in Hp'. destruct (dget p "temporary_refs") as [v|] eqn:Hd.
  - destruct (get p "temporary_refs") as [| | | | |claims|] eqn:Hl; try done.
    apply bind_Ok in Hp' as (b & _ & Hp'). destruct b; [|done]. cbn [negb] in Hp'. cbv iota in Hp'.
    destruct (matching_temporary_ref_claims claims ref_name) as [|claim [|]]; try done.
    + injection Hp' as <-. apply Hnew; [|done]. intros prefix Hpre c Hin.
      apply (temporary_valid p claims Hl) in V10 as (prefix' & Hp & Hall). rewrite Hpre in Hp. injection Hp as <-.
      rewrite (canonical_list p _ _ _ Hc Hl Hin). by apply Hall.
    + destruct (negb _); [done|]. injection Hp' as <-. by apply (unread_valid p).
  - rewrite get_dset_eq in Hp'. cbn in Hp'. injection Hp' as <-. rewrite dset_dset. apply (Hnew [] (dset p "temporary_refs" (JList []))).
    + intros prefix _ c Hin. by apply elem_of_nil in Hin.
    + apply ownership_frame. by apply agree_dset.
Qed.

(** *** Retention *)

Definition KNOWN_RETENTION : list string := ["pending_cleanup"; "deleted"; "retained"].

(** Workspaces that differ in their retention only. *)
Definition WORKSPACE_FIELDS : list string := ["materialization"; "writable"; "lineage_producer"; "reuse_generation"].

Lemma materialization_frame p q ws ws' :
  agree p q ["workspace_kind"; "execution"] -> agree ws ws' WORKSPACE_FIELDS ->
  validate_workspace_materialization q ws' = validate_workspace_materialization p ws.
Proof.
  intros H Hw. unfold validate_workspace_materialization, validate_snapshot_materialization, validate_worktree_materialization.
  agreeing H. by agreeing Hw.
Qed.

Lemma not_hydrated p ws retention : get ws "retention" = JStr retention -> retention ∈ KNOWN_RETENTION -> hydrated_resume_placement p ws = false.
Proof.
  intros Hr Hk. unfold hydrated_resume_placement. rewrite Hr.
  assert (Hn : is_text (JStr retention) "not_applicable" = false); [|by rewrite Hn].
  apply not_true_is_false. intros [= ->]%is_text_true. revert Hk. by apply (elsewhere ["not_applicable"]); [|left].
Qed.

(** The payload of a valid state has a workspace. *)
Lemma valid_workspace p : valid op p -> exists ws, get p "workspace" = JObj ws.
Proof.
  intros Hv. apply contract_valid in Hv as (_ & _ & Hv & _); [|done]. unfold validate_workspace, validate_workspace_materialization in Hv.
  rewrite !then_check_nil, !error_if_nil in Hv. destruct Hv as [[_ Hw] _]. destruct (get p "workspace"); try done. by eexists.
Qed.

Lemma retention_known_nil p ws retention :
  get ws "retention" = JStr retention -> retention ∈ KNOWN_RETENTION -> (exists b, is_terminal_status (get p "status") = Ok b) ->
  validate_workspace_retention p ws = Ok [].
Proof.
  intros Hr Hk [b Hb]. unfold validate_workspace_retention. unfold is_terminal_status in Hb. rewrite Hb. destruct b; [|done].
  cbn [mbind outcome_bind check_when]. rewrite Hr. assert (Hin : in_strings (JStr retention) ["pending_cleanup"; "deleted"; "retained"] = Ok true)
    by (apply in_strings_true; eauto). by rewrite Hin.
Qed.

(** The retention of a state changes, and nothing else that is read. *)
Lemma retention_valid p p' ws retention reason t :
  canonical p -> get p "workspace" = JObj ws -> hydrated_resume_placement p ws = false -> retention ∈ KNOWN_RETENTION ->
  (exists b, is_terminal_status (get p "status") = Ok b) ->
  agree p p' (List.filter (fun k => negb (String.eqb k "workspace")) CONTRACT_FIELDS) ->
  get p' "workspace" = JObj (dset (dset ws "retention" (JStr retention)) "retained_reason" reason) ->
  valid op p -> valid op (written p' t).
Proof.
  intros Hc Hws Hh Hr Hb Ha Hw' Hv. unfold valid. rewrite contract_valid by done. apply contract_valid in Hv; [|done].
  rewrite Hws in Hv. cbn [mapping_value] in Hv. destruct Hv as (V1 & V2 & V3 & V4 & V5 & V6 & V7 & V8 & V9 & V10). set (q := written _ _).
  assert (H : agree p q (List.filter (fun k => negb (String.eqb k "workspace")) CONTRACT_FIELDS)) by by apply agree_edited.
  rewrite (agree_get p q _ "git" H), (agree_get p q _ "source" H) by reflexivity.
  set (ws' := dset (dset ws "retention" (JStr retention)) "retained_reason" reason) in *.
  assert (Hq : get q "workspace" = JObj (stored ws')) by (subst q; by rewrite get_edited, Hw' by done).
  assert (Hcw : canonical ws) by (assert (Hx := canonical_mapping p "workspace" Hc); by rewrite Hws in Hx).
  assert (Haw : agree ws (stored ws') WORKSPACE_FIELDS)
    by (apply agree_stored; [done|]; eapply agree_trans; by apply agree_dset).
  assert (Hret : get (stored ws') "retention" = JStr retention) by (unfold ws'; by rewrite get_written, get_dset_ne, get_dset_eq by done).
  rewrite Hq. cbn [mapping_value]. rewrite (not_hydrated q _ _ Hret Hr). rewrite Hh in V9.
  assert (Hwsv : validate_workspace q (stored ws') op = Ok []).
  { unfold validate_workspace in V3 |- *. rewrite !then_check_nil in V3 |- *. destruct V3 as (W1 & W2 & W3). split_and!.
    - rewrite (materialization_frame p q ws) by (done || fewer H). done.
    - unfold validate_workspace_operation_eligibility in W2 |- *. rewrite Hws in W2. rewrite Hq. cbn [mapping_value] in *.
      rewrite (not_hydrated q _ _ Hret Hr). rewrite Hh in W2. by agreeing H.
    - destruct (one_of op _); [done|]. cbn [check_when negb]. apply (retention_known_nil _ _ retention); [done..|].
      by rewrite (agree_get p q _ "status" H) by reflexivity. }
  assert (Hres : validate_result q (stored ws') op = Ok []).
  { unfold validate_result in V8 |- *. agreeing H. by rewrite (agree_get ws (stored ws') _ "lineage_producer" Haw) by reflexivity. }
  assert (Hpub : validate_ref_publication q false = Ok []).
  { unfold validate_ref_publication, requires_ref_publication, is_discarded_lineage in V9 |- *. rewrite Hws in V9. rewrite Hq. cbn [mapping_value] in *.
    rewrite (agree_get ws (stored ws') _ "lineage_producer" Haw) by reflexivity. agreeing H.
    by rewrite (publication_identity_frame p q), (destinations_frame p q) by fewer H. }
  split_and!; try done; kept H; done.
Qed.

(** *** Discarded lineage *)

(** Without a successful lineage less is expected of the destinations. *)
Lemma destinations_weaken p q publication canonical_success :
  agree p q OWNER_FIELDS -> validate_destinations p publication canonical_success = Ok [] -> validate_destinations q publication false = Ok [].
Proof.
  intros H Hv. unfold validate_destinations in *. destruct (negb _); [done|]. unfold publication_expectations in *.
  rewrite (expected_names_frame p q) by done. apply bind_Ok in Hv as (e & He & Hv). apply bind_Ok in He as (names & Hn & He).
  injection He as <-. rewrite Hn. cbn [mbind outcome_bind mret outcome_ret]. rewrite check_each_nil in Hv |- *.
  intros [label value] Hin. specialize (Hv _ Hin). cbv beta iota in Hv |- *. unfold validate_destination in *. destruct (negb _); [done|].
  unfold validate_destination_names, validate_destination_target in *. rewrite !then_check_nil, !error_if_nil in Hv |- *.
  cbn [pe_canonical_success pe_scoped_names andb] in *. naive_solver.
Qed.

(** The claims of the state target its sources. *)
Definition claims_target_sources (p : dict json) : Prop :=
  forall claims c oid, get p "temporary_refs" = JList claims -> c ∈ claims -> get (mapping_value c) "target_oid" = JStr oid ->
    oid ∈ source_commit_oids (get p "source").

Lemma claim_of_source c context context' oid :
  get c "target_oid" = JStr oid -> oid ∈ tc_coherent_oids context' -> tc_invocation_slug_value context' = tc_invocation_slug_value context ->
  tc_prefix context' = tc_prefix context -> temporary_ref_ownership (tc_payload context') = temporary_ref_ownership (tc_payload context) ->
  valid_temporary_ref c context = Ok true -> valid_temporary_ref c context' = Ok true.
Proof.
  intros Hoid Hin Hs Hp Ho Hv. unfold valid_temporary_ref in *. apply bind_Ok in Hv as (b & Hb & Hv). rewrite Hb.
  match type of Hv with mret ?x = _ => assert (Hv' : x = true) by (by injection Hv) end.
  apply andb_true_iff in Hv' as [[[[-> V1]%andb_true_iff V2]%andb_true_iff V3]%andb_true_iff _]. cbn [mbind outcome_bind].
  unfold mret, outcome_ret. f_equal. rewrite Ho, V1, V3. unfold temporary_ref_is_invocation_scoped in *. rewrite Hs, Hp, V2. cbn [andb].
  unfold temporary_ref_target_is_coherent. rewrite Hoid. apply existsb_exists. exists oid. split; [by apply list_elem_of_In | apply is_text_refl].
Qed.

Lemma valid_claim_target c context : valid_temporary_ref c context = Ok true -> exists oid, get c "target_oid" = JStr oid.
Proof.
  intros Hv. apply bind_Ok in Hv as (b & _ & Hv). injection Hv as Hv. rewrite !andb_true_iff in Hv. destruct Hv as ((_ & Hv) & _).
  unfold temporary_ref_target_is_valid in Hv. destruct (get c "target_oid"); try done. by eexists.
Qed.

Lemma agree_discard p reason :
  agree p (apply_lineage_discard p reason) (List.filter (fun k => negb (bool_decide (k ∈ ["workspace"; "result"; "refs"; "bundle"]))) CONTRACT_FIELDS).
Proof.
  intros k Hk. unfold apply_lineage_discard. assert (Hn : k ∉ ["workspace"; "result"; "refs"; "bundle"; "diagnostics"]) by by_names.
  rewrite get_dset_ne, dmem_dset_ne by by_names. unfold dmem. rewrite !dget_without, !get_without, !decide_False by by_names.
  rewrite get_dset_ne, dget_dset_ne by by_names. case_match; try done. by rewrite get_dset_ne, dget_dset_ne by by_names.
Qed.

Lemma discard_workspace p reason ws :
  get p "workspace" = JObj ws -> get (apply_lineage_discard p reason) "workspace" = JObj (dset ws "lineage_producer" (JBool false)).
Proof.
  intros Hw. unfold apply_lineage_discard. rewrite Hw, get_dset_ne, !get_without, !decide_False, get_dset_ne, get_dset_eq by by_names. done.
Qed.

(** What a discarded state [q] shares with the state [p] before. *)
Record discarded_from (p q : dict json) (ws ws' : dict json) : Prop := {
  df_fields : agree p q (List.filter (fun k => negb (bool_decide (k ∈ ["workspace"; "result"; "refs"; "bundle"]))) CONTRACT_FIELDS);
  df_before : get p "workspace" = JObj ws;
  df_after : get q "workspace" = JObj ws';
  df_workspace : agree ws ws' ["materialization"; "writable"; "reuse_generation"; "retention"; "retained_reason"; "path"; "effective_cwd";
                               "cache_root"; "checkout_root"; "cache_key"];
  df_lineage : get ws' "lineage_producer" = JBool false;
  df_discarded : is_discarded_lineage q = true
}.

Lemma discard_shares p reason ws t :
  canonical p -> get p "workspace" = JObj ws -> get p "workspace_kind" = JStr "worktree" -> get p "role" = JStr "executor" ->
  nonempty reason = true ->
  discarded_from p (written (apply_lineage_discard p reason) t) ws (stored (dset ws "lineage_producer" (JBool false))).
Proof.
  intros Hc Hws Hkind Hrole Hreason. assert (Hcw : canonical ws) by (assert (Hx := canonical_mapping p "workspace" Hc); by rewrite Hws in Hx).
  assert (H : agree p (written (apply_lineage_discard p reason) t)
    (List.filter (fun k => negb (bool_decide (k ∈ ["workspace"; "result"; "refs"; "bundle"]))) CONTRACT_FIELDS))
    by (apply agree_edited; [done..|apply agree_discard]).
  split; [exact H|done|by rewrite get_edited, (discard_workspace p reason ws) by done|
    apply agree_stored; [done | by apply agree_dset] | by rewrite get_written, get_dset_eq|].
  unfold is_discarded_lineage. agreeing H. rewrite Hkind, Hrole. rewrite !dmem_edited, get_edited by done.
  rewrite discard_result, mapping_sorted, !get_written. cbn [mapping_value].
  destruct (discarded_result_fields (get p "result") reason) as (-> & -> & -> & _). unfold dmem. rewrite !discard_absent by by_names.
  cbn [sort_keys is_nonempty_string]. by rewrite Hreason.
Qed.

Section Discarded.
Context (p q ws ws' : dict json) (D : discarded_from p q ws ws').

Lemma discarded_hydrated : hydrated_resume_placement q ws' = hydrated_resume_placement p ws.
Proof.
  destruct D as [H _ _ Haw _ _]. rewrite (hydrated_frame p q) by fewer H. unfold hydrated_resume_placement. cbn [forallb]. by agreeing Haw.
Qed.

Lemma discarded_workspace_valid :
  get p "workspace_kind" = JStr "worktree" -> validate_workspace p ws op = Ok [] -> validate_workspace q ws' op = Ok [].
Proof.
  intros Hkind V3. assert (Hhyd := discarded_hydrated). destruct D as [H Hws Hq Haw Hlp _]. unfold validate_workspace in V3 |- *.
  rewrite !then_check_nil in V3 |- *. destruct V3 as (W1 & W2 & W3). split_and!.
  - unfold validate_workspace_materialization, validate_worktree_materialization in W1 |- *. agreeing H. rewrite Hkind in W1 |- *.
    change (is_text (JStr "worktree") "snapshot") with false in *. cbv iota in *. by agreeing Haw.
  - unfold validate_workspace_operation_eligibility in W2 |- *. rewrite Hws in W2. rewrite Hq. cbn [mapping_value] in *.
    rewrite Hhyd. by agreeing H.
  - destruct (one_of op _); [done|]. cbn [check_when negb] in *. unfold validate_workspace_retention in *. rewrite Hhyd. agreeing H. by agreeing Haw.
Qed.

Lemma discarded_publication_valid hydrated : validate_ref_publication p hydrated = Ok [] -> validate_ref_publication q hydrated = Ok [].
Proof.
  intros V9. destruct D as [H Hws Hq Haw Hlp Hdisc]. destruct (dmem q "ref_publication") eqn:Hm.
  - assert (Hmp : dmem p "ref_publication" = true) by (by rewrite <- (agree_dmem p q _ _ H)).
    apply publication_valid in V9; [|done]. apply publication_valid; [done|]. rewrite Hq. cbn [mapping_value]. rewrite Hlp. cbn [is_true andb].
    agreeing H. destruct V9 as (_ & P2 & _ & P4 & P5). split_and!; [by right|done|done| |].
    + by rewrite (publication_identity_frame p q) by fewer H.
    + eapply destinations_weaken; [fewer H | exact P5].
  - unfold validate_ref_publication. rewrite Hm, Hq. cbn [mapping_value negb]. by rewrite Hlp.
Qed.

Lemma discarded_claims_valid : claims_target_sources p -> validate_temporary_refs p = Ok [] -> validate_temporary_refs q = Ok [].
Proof.
  intros Hsrc V10. destruct D as [H _ _ _ _ _]. destruct (get p "temporary_refs") as [| | | | |claims|] eqn:Hl.
  all: try (unfold validate_temporary_refs in *; rewrite (agree_get p q _ "temporary_refs" H) by reflexivity; by rewrite Hl in *).
  apply (temporary_valid p claims Hl) in V10 as (prefix & Hp & Hall).
  apply (temporary_valid q claims); [by rewrite (agree_get p q _ "temporary_refs" H), Hl by reflexivity|].
  assert (Hsp : claim_prefix q = claim_prefix p) by (unfold claim_prefix; rewrite (slug_frame p q) by fewer H; by agreeing H).
  exists prefix. rewrite Hsp. split; [done|]. intros c Hin. specialize (Hall c Hin). destruct (valid_claim_target _ _ Hall) as [oid Hoid].
  eapply claim_of_source; [exact Hoid|..|exact Hall]; unfold claim_context; cbn [tc_coherent_oids tc_invocation_slug_value tc_prefix tc_payload].
  - unfold coherent_ref_oids. rewrite (agree_get p q _ "source" H) by reflexivity. apply elem_of_app. left. by apply (Hsrc claims c).
  - apply slug_frame. fewer H.
  - done.
  - apply ownership_frame. fewer H.
Qed.

End Discarded.

Lemma discard_valid p reason t :
  canonical p -> get p "workspace_kind" = JStr "worktree" -> get p "role" = JStr "executor" -> nonempty reason = true ->
  claims_target_sources p -> valid op p -> valid op (written (apply_lineage_discard p reason) t).
Proof.
  intros Hc Hkind Hrole Hreason Hsrc Hv. destruct (valid_workspace p Hv) as [ws Hws].
  assert (D := discard_shares p reason ws t Hc Hws Hkind Hrole Hreason). set (q := written _ _) in *. set (ws' := stored _) in *.
  assert (Hhyd := discarded_hydrated p q ws ws' D). assert (H := df_fields _ _ _ _ D).
  unfold valid. rewrite contract_valid by done. apply contract_valid in Hv; [|done]. rewrite Hws in Hv. cbn [mapping_value] in Hv.
  destruct Hv as (V1 & V2 & V3 & V4 & V5 & V6 & V7 & V8 & V9 & V10).
  rewrite (df_after _ _ _ _ D), (agree_get p q _ "git" H), (agree_get p q _ "source" H) by reflexivity. cbn [mapping_value]. rewrite Hhyd.
  assert (Hres : validate_result q ws' op = Ok []).
  { unfold validate_result. agreeing H. rewrite Hkind, (df_lineage _ _ _ _ D). by destruct (_ || _). }
  assert (Hwsv := discarded_workspace_valid p q ws ws' D Hkind V3). assert (Hpub := discarded_publication_valid p q ws ws' D _ V9).
  assert (Htmp := discarded_claims_valid p q ws ws' D Hsrc V10). split_and!; try done; kept H; done.
Qed.

End Operation.

(** *** Failed invocations *)

Lemma agree_refl p fields : agree p p fields.
Proof. done. Qed.

(** A few fields are set. *)
Ltac agree_chain := first [apply agree_refl | by apply agree_dset | eapply agree_trans; [|by apply agree_dset]; by apply agree_dset].

Lemma agree_update request p :
  agree p (after_evidence request (get p "status") (before_evidence request p))
    (List.filter (fun k => negb (bool_decide (k ∈ ["workspace"; "status"]))) CONTRACT_FIELDS).
Proof.
  apply (agree_trans p (before_evidence request p)).
  - unfold before_evidence, apply_workspace_retention. eapply agree_trans; [apply (agree_dset p "status"); reflexivity|].
    repeat case_match; agree_chain.
  - unfold after_evidence, apply_child_environment_status. destruct (ur_setup request).
    all: repeat case_match; agree_chain.
Qed.

Lemma update_without_evidence request p p' :
  ur_result request = None -> ur_refs request = None -> ur_bundle request = None -> apply_workspace_state_update request p = Ok p' ->
  p' = after_evidence request (get p "status") (before_evidence request p).
Proof.
  intros H1 H2 H3 H. unfold apply_workspace_state_update in H. apply bind_Ok in H as (_ & _ & H). apply bind_Ok in H as (r & Hr & H).
  change (apply_terminal_evidence (before_evidence request p) request (get p "status") = Ok r) in Hr.
  injection H as <-. unfold apply_terminal_evidence in Hr. apply bind_Ok in Hr as (b & _ & Hr). rewrite H1, H2, H3 in Hr. cbn in Hr.
  injection Hr as <-. reflexivity.
Qed.

Lemma update_retention request p ws :
  get p "workspace" = JObj ws ->
  get (after_evidence request (get p "status") (before_evidence request p)) "workspace" =
    JObj (dset (dset ws "retention" (JStr (rt_retention (ur_retention request)))) "retained_reason" (jtext (rt_retained_reason (ur_retention request)))).
Proof.
  intros Hw. rewrite after_evidence_fields by by_names. unfold before_evidence, apply_workspace_retention.
  rewrite get_dset_ne, Hw by done. destruct (ur_diagnostics request); fields_of; done.
Qed.

Lemma failure_valid request p p' t :
  canonical p -> ur_status request <> ws_succeeded -> rt_retention (ur_retention request) ∈ KNOWN_RETENTION ->
  ur_result request = None -> ur_refs request = None -> ur_bundle request = None ->
  apply_workspace_state_update request p = Ok p' -> valid for_materialization p -> valid for_materialization (written p' t).
Proof.
  intros Hc Hst Hr N1 N2 N3 Hp' Hv. destruct (valid_workspace for_materialization eq_refl p Hv) as [ws Hws].
  assert (Hfields := update_fields _ _ _ Hp'). apply update_without_evidence in Hp' as ->; [|done..].
  set (p' := after_evidence _ _ _) in *. destruct Hfields as (b & Hb & Hst' & Hsame & _).
  assert (Hns : is_text (JStr (terminal_status_value (ur_status request))) "succeeded" = false) by (by destruct (ur_status request)).
  assert (Hps : is_text (get p "status") "succeeded" = false).
  { apply not_true_is_false. intros Hs%is_text_true. rewrite Hs in Hb. injection Hb as <-. rewrite <- Hsame, Hs in Hst' by done.
    rewrite <- Hst' in Hns. done. }
  unfold valid. rewrite contract_valid by done. apply contract_valid in Hv; [|done].
  rewrite Hws in Hv. cbn [mapping_value] in Hv. destruct Hv as (V1 & V2 & V3 & V4 & V5 & V6 & V7 & V8 & V9 & V10). set (q := written _ _).
  assert (H : agree p q (List.filter (fun k => negb (bool_decide (k ∈ ["workspace"; "status"]))) CONTRACT_FIELDS))
    by (apply agree_edited; [done..|apply agree_update]).
  rewrite (agree_get p q _ "git" H), (agree_get p q _ "source" H) by reflexivity.
  set (ws' := dset (dset ws "retention" (JStr (rt_retention (ur_retention request)))) "retained_reason" (jtext (rt_retained_reason (ur_retention request)))).
  assert (Hq : get q "workspace" = JObj (stored ws')) by (subst q p'; by rewrite get_edited, (update_retention request p ws) by done).
  assert (Hqs : get q "status" = JStr (terminal_status_value (ur_status request))) by (subst q; by rewrite get_edited, Hst' by done).
  assert (Hcw : canonical ws) by (assert (Hx := canonical_mapping p "workspace" Hc); by rewrite Hws in Hx).
  assert (Haw : agree ws (stored ws') WORKSPACE_FIELDS)
    by (apply agree_stored; [done|]; eapply agree_trans; by apply agree_dset).
  assert (Hret : get (stored ws') "retention" = JStr (rt_retention (ur_retention request)))
    by (unfold ws'; by rewrite get_written, get_dset_ne, get_dset_eq by done).
  rewrite Hq. cbn [mapping_value]. split_and!; try done.
  - by rewrite (identity_frame p q) by fewer H.
  - unfold validate_workspace in V3 |- *. rewrite !then_check_nil in V3 |- *. destruct V3 as (W1 & _ & _). split_and!; [|done|].
    + by rewrite (materialization_frame p q ws) by (done || fewer H).
    + apply (retention_known_nil _ _ _ Hret Hr). rewrite Hqs. by destruct (ur_status request); eexists.
  - by rewrite (invocation_source_frame p q) by fewer H.
  - unfold validate_process_drain in V6 |- *. rewrite Hqs, Hns. rewrite Hps in V6. by agreeing H.
  - unfold validate_workspace_mutator in V7 |- *. rewrite Hqs, Hns. rewrite Hps in V7. by agreeing H.
  - unfold validate_ref_publication, requires_ref_publication, is_discarded_lineage in V9 |- *. rewrite Hws in V9. rewrite Hq, Hqs, Hns.
    rewrite Hps in V9. cbn [mapping_value] in *. rewrite !andb_false_r in *. cbn [andb] in *.
    rewrite (agree_get ws (stored ws') _ "lineage_producer" Haw) by reflexivity. agreeing H.
    by rewrite (publication_identity_frame p q), (destinations_frame p q) by fewer H.
  - by rewrite (temporary_refs_frame p q) by fewer H.
Qed.

End Frame.
