(* ===== verification/WorkspaceStateClaims.v ===== *)
(** What the states of workspaces promise to their readers. *)

From Stdlib Require Import ZArith Lia Ascii String.
From stdpp Require Import base gmap sets list strings pretty sorting.
From S2P Require Import Prelude PyStr StateExn Models Scheduler Artifacts RunState PlanRecords PlanContract PlanContractSpec Foreach ReviewCandidates Composition PreflightState Redaction RedactionSpec SecretHandles WorkspaceContract BranchExport BranchExportSpec WorkspaceState WorkspaceStateSpec WorkspaceStateContract.

Open Scope string_scope.
Open Scope list_scope.
Open Scope Z_scope.

(** ** Operations and the edit they make *)

Section Edits.
Context (resolve : string -> string) (clock : nat -> string) (path : string).

(** The file of the state is kept, or it is edited once by [change]. *)
Definition edits {A} (change : dict json -> dict json -> Prop) (m : M StateStore A) : Prop := forall w p,
  state_file resolve w path = FileJson (JObj p) ->
  state_file resolve (snd (m w)) path = FileJson (JObj p) \/
  exists p' t, change p p' /\ state_file resolve (snd (m w)) path = FileJson (JObj (written p' t)).

Lemma unwritten_file {A} (m : M StateStore A) w : unwritten m -> state_file resolve (snd (m w)) path = state_file resolve w path.
Proof. intros H. unfold state_file. by rewrite unwritten_files. Qed.

Lemma edits_unwritten {A} change (m : M StateStore A) : unwritten m -> edits change m.
Proof. intros H w p Hp. left. unfold state_file in *. by rewrite unwritten_files. Qed.

Lemma edits_mono {A} (R S : dict json -> dict json -> Prop) (m : M StateStore A) : (forall p p', R p p' -> S p p') -> edits R m -> edits S m.
Proof. intros H Hm w p Hp. destruct (Hm w p Hp) as [Hk|(p' & t & HR & Hk)]; [by left|]. right. eauto. Qed.

Lemma edits_after {A B} change (m : M StateStore A) (k : A -> M StateStore B) :
  unwritten m -> (forall a, edits change (k a)) -> edits change (m ≫= k).
Proof.
  intros Hm Hk w p Hp. unfold mbind, M_bind, bind. apply (unwritten_files m w) in Hm. destruct (m w) as [[a|e|] w']; cbn [fst snd] in *.
  - apply Hk. unfold state_file in *. by rewrite Hm.
  - left. unfold state_file in *. by rewrite Hm.
  - left. unfold state_file in *. by rewrite Hm.
Qed.

Lemma edits_then {A B} change (m : M StateStore A) (k : A -> M StateStore B) :
  edits change m -> (forall a, unwritten (k a)) -> edits change (m ≫= k).
Proof.
  intros Hm Hk w p Hp. unfold mbind, M_bind, bind. specialize (Hm w p Hp). destruct (m w) as [[a|e|] w']; cbn [fst snd] in *; [|done..].
  rewrite (unwritten_file (k a)) by done. exact Hm.
Qed.

Lemma edits_try {A} change (m : M StateStore A) (h : exn -> M StateStore A) :
  edits change m -> (forall e, unwritten (h e)) -> edits change (try_except m h).
Proof.
  intros Hm Hh w p Hp. unfold try_except. specialize (Hm w p Hp). destruct (m w) as [[a|e|] w']; cbn [fst snd] in *; [done| |done].
  rewrite (unwritten_file (h e)) by done. exact Hm.
Qed.

Lemma edits_finally change (m : M StateStore unit) path' :
  edits change m -> edits change (fun w => let '(r, w') := m w in let '(_, w'') := release_workspace_mutator resolve path' w' in (r, w'')).
Proof. intros Hm w p Hp. specialize (Hm w p Hp). by destruct (m w). Qed.

Lemma edits_edit body : edits (fun p p' => body p = Ok p') (edit_workspace_state resolve clock path body).
Proof.
  intros w p Hp. unfold edit_workspace_state, read_workspace_state, mbind, M_bind, bind, read, lift, timestamp. rewrite Hp. unfold ret.
  destruct (body p) as [p'|e|] eqn:Hb; [|by left..]. unfold atomic_write_json. cbn [sw_writes sw_ticks sw_files sw_fence].
  destruct (default Written _); cbn [snd]; [|by left|]; right; exists p', (clock (sw_ticks w)); (split; [done|]);
    unfold state_file; cbn [sw_files]; by rewrite lookup_insert_eq.
Qed.

(** Operations that keep the contract of a state, with what their callers
    promise. *)
Definition lawful {hash : HashLibrary} (op : PersistedWorkspaceOperation) (p : dict json) (c : StateCall) : Prop :=
  match c with
  | UpdateSetup q _ _ | RecordBranchExport q _ | RequireIdentity q _ | UpdatePublicationPhase q _ | MarkTemporaryRefRemoved q _
  | ConfirmDrain (Some q) _ _ | ConfirmRetryReset q => q = path
  | RecordDrain q status _ _ _ => q = path /\ status = "confirmed"
  | FinishFence f => wf_state_path f = Some path /\ nonempty (wf_operation f) = true
  | InstallFence f => wf_state_path f = Some path
  | PublishCleanup q _ _ _ => q = path /\ hydrated_resume_placement p (mapping_value (get p "workspace")) = false
  | UpdateRetention q r _ =>
      q = path /\ hydrated_resume_placement p (mapping_value (get p "workspace")) = false /\ rt_retention r ∈ KNOWN_RETENTION
  | DiscardLineage q reason =>
      q = path /\ get p "workspace_kind" = JStr "worktree" /\ get p "role" = JStr "executor" /\ nonempty reason = true /\ claims_target_sources p
  | RecordTemporaryRef q name oid => q = path /\ scoped_claim p name oid
  | UpdatePublication q u => q = path /\ prepares p u
  | PublishTerminal q status _ _ result refs bundle _ _ =>
      q = path /\ op = for_materialization /\ status <> ws_succeeded /\ result = None /\ refs = None /\ bundle = None
  | UpdateState q r =>
      q = path /\ op = for_materialization /\ ur_status r <> ws_succeeded /\ rt_retention (ur_retention r) ∈ KNOWN_RETENTION /\
      ur_result r = None /\ ur_refs r = None /\ ur_bundle r = None
  | _ => False
  end.

Context {hash : HashLibrary} (op : PersistedWorkspaceOperation) (Hop : one_of op [for_checkpoint; for_checkpoint_failed] = false).

(** The change keeps the contract of [p]. *)
Definition keeps (p : dict json) (p0 p' : dict json) : Prop := p0 = p -> forall t, valid op p -> valid op (written p' t).

Lemma finish_keeps p operation :
  canonical p -> nonempty operation = true -> edits (keeps p) (set_workspace_mutator resolve clock path (mutator_finished operation)).
Proof. intros Hc Hn. eapply edits_mono; [|apply edits_edit]. intros p0 p' [= <-] -> t. by apply mutator_valid. Qed.

Lemma drain_keeps p pid group reason :
  canonical p -> edits (keeps p) (record_workspace_process_drain resolve clock path "confirmed" pid group reason).
Proof. intros Hc. eapply edits_mono; [|apply edits_edit]. intros p0 p' [= <-] -> t. by apply drain_valid. Qed.

Lemma unread_keeps p p' k v :
  canonical p -> names_apart [k] CONTRACT_FIELDS = true -> p' = dset p k v -> forall t, valid op p -> valid op (written p' t).
Proof. intros Hc Hk -> t. apply unread_valid; [done..|]. by apply agree_dset. Qed.

Lemma retention_keeps p retention diagnostic :
  canonical p -> hydrated_resume_placement p (mapping_value (get p "workspace")) = false -> rt_retention retention ∈ KNOWN_RETENTION ->
  edits (keeps p) (update_workspace_retention resolve clock path retention diagnostic).
Proof.
  intros Hc Hh Hr. eapply edits_mono; [|apply edits_edit]. intros p0 p' H -> t Hv. unfold apply_retention in H.
  apply bind_Ok in H as (b & Hb & H). destruct b; [|done]. cbn [negb] in H. cbv iota in H.
  destruct (get p "workspace") as [| | | | | |ws] eqn:Hws; try done. apply bind_Ok in H as (r & Hq & H). injection H as <-.
  assert (Ha : agree p r CONTRACT_FIELDS).
  { destruct diagnostic; [|by injection Hq as <-]. destruct (get p "diagnostics"); try done. injection Hq as <-. by apply agree_dset. }
  eapply retention_valid; [done|done|exact Hws|done|exact Hr|by eauto| |apply get_dset_eq|done].
  eapply agree_trans; [|by apply agree_dset]. by eapply agree_fewer.
Qed.

Lemma update_keeps p request :
  canonical p -> op = for_materialization -> ur_status request <> ws_succeeded -> rt_retention (ur_retention request) ∈ KNOWN_RETENTION ->
  ur_result request = None -> ur_refs request = None -> ur_bundle request = None ->
  edits (keeps p) (update_workspace_state resolve clock path request).
Proof.
  intros Hc Ho Hs Hr H1 H2 H3. eapply edits_mono; [|apply edits_edit]. intros p0 p' Hp -> t Hv. unfold keeps. rewrite Ho in *. by eapply failure_valid.
Qed.

Lemma terminal_retention_known cleanup drained reason : rt_retention (terminal_retention cleanup drained reason) ∈ KNOWN_RETENTION.
Proof. unfold terminal_retention. destruct (cleanup && drained); refine (bool_decide_unpack _ _); vm_compute; exact I. Qed.

Lemma lawful_keeps p c : canonical p -> lawful op p c -> edits (keeps p) (run_call resolve clock c).
Proof.
  intros Hc. destruct c; cbn [lawful run_call]; try done.
  - intros (-> & Ho & Hs & Hr & H1 & H2 & H3). by apply update_keeps.
  - intros (-> & Ho & Hs & -> & -> & ->). apply edits_after; [apply drained_unwritten|]. intros drained.
    apply update_keeps; first [done | apply terminal_retention_known].
  - intros (-> & Hh). apply retention_keeps; [done..|]. cbn [rt_retention]. destruct deleted; refine (bool_decide_unpack _ _); vm_compute; exact I.
  - intros (-> & Hh & Hr). by apply retention_keeps.
  - intros (-> & Hk & Hr & Hn & Hs). apply edits_after; [apply unwritten_read|]. intros [| | |]; try (by apply edits_unwritten).
    all: eapply edits_mono; [|apply edits_edit]; intros p0 p' [= <-] -> t; by apply discard_valid.
  - intros [-> Hu]. eapply edits_mono; [|apply edits_edit]. intros p0 p' Hp -> t. by eapply prepared_valid.
  - intros ->. eapply edits_mono; [|apply edits_edit]. intros p0 p' Hp -> t. by eapply phase_valid.
  - intros [-> Hs]. eapply edits_mono; [|apply edits_edit]. intros p0 p' Hp -> t. by eapply add_valid.
  - intros ->. eapply edits_mono; [|apply edits_edit]. intros p0 p' Hp -> t. by eapply remove_valid.
  - intros ->. eapply edits_mono; [|apply edits_edit]. intros p0 p' H -> t. apply bind_Ok in H as ([] & _ & H). injection H as H.
    apply (unread_keeps p p' "setup" (JObj setup) Hc eq_refl (eq_sym H)).
  - intros [-> ->]. by apply drain_keeps.
  - destruct path0 as [q|]; [|done]. intros ->. apply edits_then; [by apply drain_keeps | done].
  - intros ->. apply edits_finally, edits_try; [by apply finish_keeps|]. intros e. by destruct (is_exception e).
  - intros Hf. apply edits_unwritten, unwritten_bind; [|done]. unfold install_if_running. by destruct (wf_finished f), (wf_state_path f).
  - intros [Hf Hn]. unfold finish. rewrite Hf. destruct (wf_fenced f); [|by apply edits_unwritten].
    destruct (wf_durable f); [|by apply edits_unwritten]. by apply (edits_finally _ _ path), finish_keeps.
  - intros ->. eapply edits_mono; [|apply edits_edit]. intros p0 p' H -> t. injection H as H.
    apply (unread_keeps p p' "branch_export" (JObj branch_export) Hc eq_refl (eq_sym H)).
  - intros ->. apply edits_unwritten, unwritten_bind; [apply unwritten_read_state | intros; apply unwritten_lift].
Qed.

(** Each operation is lawful for the state that it finds. *)
Fixpoint lawful_calls (calls : list StateCall) (w : StateStore) : Prop :=
  match calls with
  | [] => True
  | c :: rest => (forall p, state_file resolve w path = FileJson (JObj p) -> lawful op p c) /\ lawful_calls rest (snd (run_call resolve clock c w))
  end.

End Edits.



(** ** An example: a worktree that is prepared, fails and is cleaned up *)

Module StateExample.

#[local] Instance hash : HashLibrary := constant_hash.

Definition path : string := "/run/stage/workspace-state.json".
Definition oid (digit : string) : string := str_take 40 (str_join digit (replicate 41 "")).

Definition request : WorkspaceStateWriteRequest := mkWriteRequest "id" "run" "demo" "sig" "t" "p" EXECUTOR 1 None [] [].
Definition source : StateSource := mkStateSource "sha1" "repo" (oid "a") (oid "b") "/repo" "/repo/.git" "/repo/.git" ".".
Definition policy : WorkspaceSelectionRecord :=
  mkSelection true (Some "main") (Some WK_worktree) SourceProject None CleanStrict worktree_checkout ("blob_exact", "1.0") None
    (mkBranchExport false None) true true.
Definition node : PreflightExecutionNode :=
  mkExecNode "build" None None None None Sequential false [] (Some "build") [] no_policy (Some policy) (contract_named "build") None false None None.
Definition materialization : WorkspaceStateMaterializationRequest :=
  mkMaterialization "/cache/w1" true None (Some "/cache/w1/checkout") (Some "/cache/w1/checkout") (Some "/repo/.git/worktrees/w1") None None
    "worktree_checkout" true true (Some "locked") None (Some 1).

Definition clock (n : nat) : string := "2026-01-01T00:00:00+00:00".

Definition start : StateStore := snd (run_call id clock (WriteRunning path request node source policy materialization) (mkStore ∅ ∅ [] 0)).

Definition payload : dict json := match state_file id start path with FileJson (JObj p) => p | _ => [] end.

Definition ref_name : string := match claim_prefix payload with Ok prefix => prefix +:+ "aaaa-1" | _ => "" end.

Definition ref_names : string * string :=
  match result_ref_names (json_str (get payload "run_key_name")) (json_str (get payload "node_id")) (default "" (state_invocation_slug payload)) with
  | Ok names => names
  | _ => ("", "")
  end.

Definition destination (name : string) : json :=
  JObj [("name", JStr name); ("target_oid", JStr (oid "c")); ("expected_old_oid", JNull)].

Definition publication : dict json :=
  [("phase", JStr "prepared"); ("repository_id", JStr "repo")]
  ++ map (fun k => (k, get payload k)) ["run_id"; "run_key_name"; "node_id"; "task_id"; "role"; "round_num"; "audit_round_num"]
  ++ [("destinations", JObj [("candidate", destination (fst ref_names)); ("result", destination (snd ref_names))])].

Definition calls : list StateCall :=
  [UpdatePublication path publication; UpdatePublicationPhase path to_published; RecordTemporaryRef path ref_name (oid "a"); MarkTemporaryRefRemoved path ref_name; ConfirmDrain (Some path) 7 None;
   ConfirmRetryReset path; DiscardLineage path "superseded"; PublishTerminal path ws_failed true None None None None None None;
   PublishCleanup path true None None].


(** The events were recorded. *)
Example recorded_events :
  match state_file id (run_calls id clock calls start) path with
  | FileJson (JObj p) =>
      get p "status" = JStr "failed" /\ get (mapping_value (get p "ref_publication")) "phase" = JStr "published" /\ is_discarded_lineage p = true /\ get (mapping_value (get p "workspace")) "retention" = JStr "deleted" /\
      match get p "temporary_refs" with JList [JObj c] => get c "phase" = JStr "removed" | _ => False end
  | _ => False
  end.
Proof. vm_compute. done. Qed.

End StateExample.
