(* ===== verification/WorktreeRefs.v ===== *)
(** Refs of a worktree in the repository: temporary refs that keep an imported
    source alive, and the refs of a result
    (runtime/workspace/worktree/{refs,temporary_refs,ref_publication}.py).

    Both kinds are recorded in a workspace state before they are created and
    are removed only at the object that was recorded.  Git, the lock of its
    metadata and random identifiers are the class [RefHost]; notes that are
    added to an exception are left out. *)

From Stdlib Require Import ZArith Lia Ascii String.
From stdpp Require Import base gmap sets list strings pretty sorting.
From S2P Require Import Prelude PyStr StateExn Models Scheduler Artifacts RunState PlanRecords PlanContract Foreach ReviewCandidates Composition PreflightState Redaction SecretHandles WorkspaceContract BranchExport WorkspaceState.

Open Scope string_scope.
Open Scope list_scope.
Open Scope Z_scope.

(** A git command gets its working directory, its arguments and the lines of
    its standard input. *)
Class RefHost (W : Type) := {
  rf_store : W -> StateStore;
  rf_set_store : StateStore -> W -> W;
  rf_git : string -> list string -> list string -> W -> GitResult * W;
  rf_lock : string -> M W unit;
  rf_unlock : string -> M W unit;
  rf_uuid : M W string
}.

Section Refs.
Context {hash : HashLibrary} (resolve : string -> string) (clock : nat -> string) {W : Type} {host : RefHost W}.

(** An operation on workspace states. *)
Definition on_states {A} (m : M StateStore A) : M W A := zoom rf_store rf_set_store m.

Definition ref_git (cwd : string) (args : list string) : M W GitResult := fun w => let '(r, w') := rf_git cwd args [] w in (Ok r, w').

(** Code: runtime/workspace/git.py, GitCommand.run. *)
Definition ref_git_run (cwd : string) (args : list string) : M W unit := r ← ref_git cwd args; checked_result r;; ret tt.

(** Code: runtime/workspace/git.py, GitCommand.text. *)
Definition ref_git_text (cwd : string) (args : list string) : M W string := r ← ref_git cwd args; out ← checked_result r; ret (str_strip out).

(** Code: runtime/workspace/git.py, GitCommand.commit_exists. *)
Definition commit_exists (cwd commit : string) : M W bool :=
  r ← ref_git cwd ["cat-file"; "-e"; commit +:+ "^{commit}"];
  match r with GitFailed _ _ _ => ret false | r => checked_result r;; ret true end.

(** [with git_metadata_lock(dir): body]. *)
Definition with_git_lock {A} (dir : string) (body : M W A) : M W A := fun w =>
  let '(r, _, w') := scoped (rf_lock dir) (rf_unlock dir) body w in (r, w').

(** ** Refs (refs.py) *)

(** Code: runtime/workspace/worktree/refs.py, checked_ref. *)
Definition checked_ref (checkout_root ref : string) : M W string :=
  normalized ← ref_git_text checkout_root ["check-ref-format"; "--normalize"; ref];
  if bool_decide (normalized = ref) then ret normalized else raise (RuntimeError ("Unsafe workspace ref name: " +:+ ref)).

(** Code: runtime/workspace/worktree/refs.py, direct_ref_oid. *)
Definition direct_ref_oid (cwd ref_name description : string) : M W (option string) :=
  r ← ref_git cwd ["symbolic-ref"; "-q"; ref_name];
  match r with
  | GitFailed 1 _ _ =>
      r ← ref_git cwd ["rev-parse"; "--verify"; ref_name];
      match r with
      | GitFailed 128 _ _ => ret None
      | r => out ← checked_result r; ret (Some (str_strip out))
      end
  | r =>
      target ← checked_result r;
      raise (RuntimeError ("Workspace " +:+ description +:+ " ref is symbolic and was retained: " +:+ ref_name +:+ " -> "
                           +:+ str_strip target +:+ "."))
  end.

(** ["0" * len(oid)]. *)
Definition zero_oid (oid : string) : string := of_chars (replicate (String.length oid) "0"%char).

(** ** Temporary refs (temporary_refs.py) *)

(** Code: runtime/workspace/worktree/temporary_refs.py:36-39. *)
Record TemporaryRefOwner := mkRefOwner { to_state_path : string; to_initial_payload : option (dict json) }.

(** Code: artifacts/workspace/state/paths.py, workspace_temporary_refs_filename. *)
Definition workspace_temporary_refs_filename (identity : string) : string := "workspace-temporary-refs-" +:+ identity +:+ ".json".

(** Code: runtime/workspace/worktree/temporary_refs.py, TemporaryRefOwner.dedicated. *)
Definition dedicated (plan : PreflightExecutionPlan) (run_id repository_id evidence_dir node_id consumer_id : string) : M W TemporaryRefOwner :=
  identity ← rf_uuid;
  ret (mkRefOwner (path_join evidence_dir (workspace_temporary_refs_filename identity))
         (Some [("evidence_kind", JStr "temporary_ref_cleanup"); ("run_id", JStr run_id); ("run_key_name", JStr (pp_run_key_name plan));
                ("node_id", JStr node_id); ("task_id", JStr consumer_id); ("role", JStr "artifact_consumer"); ("round_num", JInt 0);
                ("audit_round_num", JNull); ("git", JObj [("repo_id", JStr repository_id)]); ("temporary_refs", JList [])])).

(** Code: runtime/workspace/worktree/temporary_refs.py, TemporaryRefOwner.prepare. *)
Definition prepare_owner (owner : TemporaryRefOwner) : M StateStore unit :=
  match to_initial_payload owner with
  | None => ret tt
  | Some payload =>
      content ← read (fun w => state_file resolve w (to_state_path owner));
      match content with FileAbsent => atomic_write_json resolve (to_state_path owner) payload | _ => ret tt end
  end.

Definition claim_is_removed (claim : json) : bool := match claim with JObj f => is_text (get f "phase") "removed" | _ => false end.

(** [state_path.unlink()]. *)
Definition unlink_state (path : string) : M StateStore unit :=
  modify (fun w => mkStore (delete (resolve path) (sw_files w)) (sw_fence w) (sw_writes w) (sw_ticks w)).

(** Code: runtime/workspace/worktree/temporary_refs.py, TemporaryRefOwner.discard_resolved_evidence. *)
Definition discard_resolved_evidence (owner : TemporaryRefOwner) : M StateStore unit :=
  content ← read (fun w => state_file resolve w (to_state_path owner));
  match to_initial_payload owner, content with
  | None, _ | _, FileAbsent | _, FileUnsafe => ret tt
  | _, _ =>
      payload ← read_workspace_state resolve (to_state_path owner);
      match get payload "temporary_refs" with
      | JList claims => if forallb claim_is_removed claims then unlink_state (to_state_path owner) else ret tt
      | _ => ret tt
      end
  end.

(** Code: runtime/workspace/worktree/temporary_refs.py, TemporaryImportRef. *)
Record TemporaryImportRef := mkImportRef { ti_source : ExportSource; ti_owner : TemporaryRefOwner; ti_name : string; ti_target_oid : string }.

(** Code: runtime/workspace/worktree/temporary_refs.py, _state_invocation_slug. *)
Definition required_state_invocation_slug (payload : dict json) : outcome string :=
  match state_invocation_slug payload with
  | Some slug => Ok slug
  | None => Raise (RuntimeError "Workspace temporary ref evidence lacks invocation identity.")
  end.

(** Code: runtime/workspace/worktree/temporary_refs.py, _import_ref_for_source_commit. *)
Definition import_ref_for_source_commit (run_key_name node_id slug source_commit : string) : M W string :=
  identity ← rf_uuid;
  prefix ← lift (temporary_import_ref_prefix run_key_name node_id slug);
  component ← lift (safe_ref_component (str_take 24 source_commit));
  ret (prefix +:+ component +:+ "-" +:+ str_take 16 identity).

(** Code: runtime/workspace/worktree/temporary_refs.py, _prepare_temporary_import_ref. *)
Definition prepare_temporary_import_ref (source : ExportSource) (source_commit : string) (owner : option TemporaryRefOwner)
    : M W TemporaryImportRef :=
  match owner with
  | None => raise (RuntimeError "Workspace source import requires durable invocation-owned cleanup evidence.")
  | Some owner =>
      on_states (prepare_owner owner);;
      state ← on_states (read_workspace_state resolve (to_state_path owner));
      slug ← lift (required_state_invocation_slug state);
      name ← import_ref_for_source_commit (json_str (get state "run_key_name")) (json_str (get state "node_id")) slug source_commit;
      ref_name ← checked_ref (xs_git_top_level source) name;
      on_states (record_workspace_temporary_ref resolve clock (to_state_path owner) ref_name source_commit);;
      ret (mkImportRef source owner ref_name source_commit)
  end.

(** Code: runtime/workspace/worktree/temporary_refs.py, _create_temporary_import_ref. *)
Definition create_temporary_import_ref (r : TemporaryImportRef) (bundle_path : string) : M W unit :=
  let root := xs_git_top_level (ti_source r) in
  with_git_lock (xs_common_git_dir (ti_source r))
    (current ← direct_ref_oid root (ti_name r) "temporary import";
     if is_some current then raise (RuntimeError ("Workspace temporary import ref already exists: " +:+ ti_name r +:+ "."))
     else
       ref_git_run root ["bundle"; "unbundle"; bundle_path];;
       ref_git_run root ["update-ref"; "--no-deref"; ti_name r; ti_target_oid r; zero_oid (ti_target_oid r)]).

(** Code: runtime/workspace/worktree/temporary_refs.py, _delete_exact_temporary_import_ref. *)
Definition delete_exact_temporary_import_ref (cwd ref_name target_oid : string) : M W Z :=
  current ← direct_ref_oid cwd ref_name "temporary import";
  if bool_decide (current = Some target_oid) then ref_git_run cwd ["update-ref"; "--no-deref"; "-d"; ref_name; target_oid];; ret 1
  else if is_some current then raise (RuntimeError ("Workspace temporary import ref moved and was retained: " +:+ ref_name +:+ "."))
  else ret 0.

(** Code: runtime/workspace/worktree/temporary_refs.py, _delete_temporary_import_ref. *)
Definition delete_temporary_import_ref (r : TemporaryImportRef) : M W unit :=
  with_git_lock (xs_common_git_dir (ti_source r))
    (delete_exact_temporary_import_ref (xs_git_top_level (ti_source r)) (ti_name r) (ti_target_oid r));;
  on_states (mark_workspace_temporary_ref_removed resolve clock (to_state_path (ti_owner r)) (ti_name r)).

(** Code: runtime/workspace/worktree/temporary_refs.py, import_source_bundle. *)
Definition import_source_bundle (source : ExportSource) (source_commit verified_bundle_path : string) (owner : option TemporaryRefOwner)
    : M W TemporaryImportRef :=
  imported_ref ← prepare_temporary_import_ref source source_commit owner;
  try_except
    (create_temporary_import_ref imported_ref verified_bundle_path;;
     exists_ ← commit_exists (xs_git_top_level source) source_commit;
     if exists_ : bool then ret imported_ref else raise (RuntimeError "Workspace source import did not provide its target."))
    (fun failure =>
       try_except (delete_temporary_import_ref imported_ref) (fun e => if is_exception e then ret tt else raise e);;
       raise failure).

(** The first failure is raised after every ref was tried.
    Code: runtime/workspace/worktree/temporary_refs.py, delete_temporary_import_refs. *)
Definition delete_temporary_import_refs (imported_refs : list TemporaryImportRef) : M W unit :=
  let step (first_failure : M W (option exn)) (r : TemporaryImportRef) : M W (option exn) :=
    failure ← first_failure;
    try_except (delete_temporary_import_ref r;; ret failure)
      (fun e => if is_exception e then ret (Some (default e failure)) else raise e) in
  failure ← foldl step (ret None) (reverse imported_refs);
  match failure with Some e => raise e | None => ret tt end.

(** Code: runtime/workspace/worktree/temporary_refs.py, _temporary_ref_claim_identity. *)
Definition temporary_ref_claim_identity (claim : dict json) (prefix : string) : outcome (string * string) :=
  match get claim "name", get claim "target_oid" with
  | JStr ref_name, JStr target_oid =>
      if str_startswith prefix ref_name then Ok (ref_name, target_oid)
      else Raise (RuntimeError "Workspace temporary ref cleanup claim escapes its invocation scope.")
  | _, _ => Raise (RuntimeError "Workspace temporary ref cleanup claim is incomplete.")
  end.

(** Code: runtime/workspace/worktree/temporary_refs.py, _reconcile_temporary_import_ref. *)
Definition reconcile_temporary_import_ref (repo_root common_git_dir ref_name target_oid : string) : M W Z :=
  with_git_lock common_git_dir
    (normalized ← ref_git_text repo_root ["check-ref-format"; "--normalize"; ref_name];
     if bool_decide (normalized = ref_name) then delete_exact_temporary_import_ref repo_root ref_name target_oid
     else raise (RuntimeError "Workspace temporary ref cleanup name is unsafe.")).

(** Code: runtime/workspace/worktree/temporary_refs.py, _reconcile_temporary_import_ref_claim. *)
Definition reconcile_temporary_import_ref_claim (state_path repo_root common_git_dir prefix : string) (claim : json) : M W Z :=
  match claim with
  | JObj claim =>
      if is_text (get claim "phase") "removed" then ret 0
      else
        '(ref_name, target_oid) ← lift (temporary_ref_claim_identity claim prefix);
        removed ← reconcile_temporary_import_ref repo_root common_git_dir ref_name target_oid;
        on_states (mark_workspace_temporary_ref_removed resolve clock state_path ref_name);;
        ret removed
  | _ => raise (RuntimeError "Workspace temporary ref cleanup claim is invalid.")
  end.

(** Code: runtime/workspace/worktree/temporary_refs.py, _require_temporary_ref_repository_identity. *)
Definition require_temporary_ref_repository_identity (payload : dict json) (expected_repository_id : string) : outcome unit :=
  if negb (temporary_ref_repository_matches payload expected_repository_id)
  then Raise (RuntimeError "Workspace temporary ref cleanup repository identity changed.")
  else if negb (temporary_ref_claim_repositories_match payload expected_repository_id)
  then Raise (RuntimeError "Workspace temporary ref cleanup claim repository identity changed.")
  else Ok tt.

(** Code: runtime/workspace/worktree/temporary_refs.py, _temporary_ref_owner_prefix. *)
Definition temporary_ref_owner_prefix (payload : dict json) : outcome string :=
  slug ← required_state_invocation_slug payload;
  let required field value : outcome string :=
    match value with
    | JStr s => if nonempty s then Ok s else Raise (RuntimeError ("Workspace temporary ref evidence lacks " +:+ field +:+ "."))
    | _ => Raise (RuntimeError ("Workspace temporary ref evidence lacks " +:+ field +:+ "."))
    end in
  run_key_name ← required "run_key_name" (get payload "run_key_name");
  node_id ← required "node_id" (get payload "node_id");
  slug ← required "invocation_slug" (JStr slug);
  temporary_import_ref_prefix run_key_name node_id slug.

(** Code: runtime/workspace/worktree/temporary_refs.py, reconcile_temporary_import_refs. *)
Definition reconcile_temporary_import_refs (state_path repo_root common_git_dir expected_repository_id : string) : M W Z :=
  payload ← on_states (read_workspace_state resolve state_path);
  lift (require_temporary_ref_repository_identity payload expected_repository_id);;
  match get payload "temporary_refs" with
  | JNull => ret 0
  | JList claims =>
      prefix ← lift (temporary_ref_owner_prefix payload);
      removed ← map_all (reconcile_temporary_import_ref_claim state_path repo_root common_git_dir prefix) claims;
      ret (foldr Z.add 0 removed)
  | _ => raise (RuntimeError "Workspace temporary ref cleanup evidence is invalid.")
  end.

(** ** Refs of results (ref_publication.py) *)

(** Code: runtime/workspace/worktree/protected_refs.py:15-18. *)
Record ProtectedRefSnapshot := mkProtected { pr_scopes : list string; pr_refs : dict string }.

(** No ref outside the invocation is watched.
    Code: runtime/workspace/worktree/protected_refs.py, protected_ref_snapshot. *)
Definition protected_ref_snapshot (repo_root : string) : ProtectedRefSnapshot := mkProtected [] [].

(** What a publication reads of a capture request.
    Code: runtime/workspace/worktree/types.py, WorktreeCaptureRequest. *)
Record WorktreeCaptureRequest := mkCapture {
  cr_run_key_name : string;
  cr_source : ExportSource;
  cr_checkout_root : string;
  cr_node_id : string;
  cr_task_id : string;
  cr_state_path : string;
  cr_slug : string;
  cr_protected_refs : ProtectedRefSnapshot
}.

(** Code: runtime/workspace/worktree/ref_publication.py, RefPublicationDestination. *)
Record RefPublicationDestination := mkDestination { rd_name : string; rd_target_oid : string; rd_expected_old_oid : option string }.

(** Code: runtime/workspace/worktree/ref_publication.py, _PublicationReconciliation. *)
Record PublicationReconciliation := mkPublicationReconciliation {
  pc_removed : list RefPublicationDestination;
  pc_mismatched : list RefPublicationDestination;
  pc_remaining : list RefPublicationDestination
}.

(** An operation of a ref transaction: the ref has the old value, and gets the
    new one or is deleted. *)
Inductive RefOperation :=
| VerifyRef (name old : string)
| UpdateRef (name new old : string)
| DeleteRef (name old : string).

(** Code: runtime/workspace/worktree/ref_publication.py:361-393. *)
Definition operation_text (o : RefOperation) : string :=
  match o with
  | VerifyRef name old => "verify " +:+ name +:+ " " +:+ old
  | UpdateRef name new old => "update " +:+ name +:+ " " +:+ new +:+ " " +:+ old
  | DeleteRef name old => "delete " +:+ name +:+ " " +:+ old
  end.

(** The lines of the input.
    Code: runtime/workspace/worktree/ref_publication.py:397-400. *)
Definition transaction_lines (operations : list RefOperation) : list string :=
  ["start"] ++ concat (map (fun o => ["option no-deref"; operation_text o]) operations) ++ ["prepare"; "commit"; ""].

(** Code: runtime/workspace/worktree/ref_publication.py, _run_ref_transaction. *)
Definition run_ref_transaction (cwd : string) (operations : list RefOperation) : M W unit := fun w =>
  let '(r, w') := rf_git cwd ["update-ref"; "--stdin"] (transaction_lines operations) w in (checked_result r;; ret tt) w'.

(** Code: runtime/workspace/worktree/ref_publication.py, _protected_ref_verification_operations. *)
Definition protected_ref_verification_operations (destinations : list RefPublicationDestination) (protected : ProtectedRefSnapshot) (zero : string)
    : list RefOperation :=
  map (fun name => VerifyRef name (default zero (dget (dict_of (pr_refs protected)) name)))
    (List.filter (fun name => negb (bool_decide (name ∈ map rd_name destinations))) (pr_scopes protected)).

(** Code: runtime/workspace/worktree/ref_publication.py, _publication_update_operations. *)
Definition publication_update_operations (destinations : list RefPublicationDestination) (zero : string) : list RefOperation :=
  map (fun d => UpdateRef (rd_name d) (rd_target_oid d) zero) destinations.

(** Code: runtime/workspace/worktree/ref_publication.py, _require_absent_destinations. *)
Definition require_absent_destinations (cwd : string) (destinations : list RefPublicationDestination) : M W unit :=
  for_all (fun d =>
    current ← direct_ref_oid cwd (rd_name d) "result";
    if is_some current then raise (RuntimeError ("Workspace result ref already exists: " +:+ rd_name d +:+ ".")) else ret tt) destinations.

(** Code: runtime/workspace/worktree/ref_publication.py, _publish_transaction. *)
Definition publish_transaction (cwd : string) (destinations : list RefPublicationDestination) (protected : ProtectedRefSnapshot) : M W unit :=
  require_absent_destinations cwd destinations;;
  let zero := zero_oid (match destinations with d :: _ => rd_target_oid d | [] => "" end) in
  run_ref_transaction cwd (protected_ref_verification_operations destinations protected zero ++ publication_update_operations destinations zero).

(** Code: runtime/workspace/worktree/ref_publication.py, _delete_transaction. *)
Definition delete_transaction (cwd : string) (destinations : list RefPublicationDestination) : M W unit :=
  run_ref_transaction cwd (map (fun d => DeleteRef (rd_name d) (rd_target_oid d)) destinations).

(** Code: runtime/workspace/worktree/ref_publication.py, _result_ref_names. *)
Definition publication_ref_names (request : WorktreeCaptureRequest) : M W (string * string) :=
  '(candidate, result) ← lift (result_ref_names (cr_run_key_name request) (cr_node_id request) (cr_slug request));
  candidate ← checked_ref (cr_checkout_root request) candidate;
  result ← checked_ref (cr_checkout_root request) result;
  ret (candidate, result).

(** Code: runtime/workspace/worktree/ref_publication.py, _result_ref_destinations. *)
Definition result_ref_destinations (request : WorktreeCaptureRequest) (candidate_commit result_commit : string)
    : M W (list RefPublicationDestination) :=
  '(candidate, result) ← publication_ref_names request;
  ret [mkDestination candidate candidate_commit None; mkDestination result result_commit None].

(** Code: runtime/workspace/worktree/ref_publication.py, _destination_payload. *)
Definition destination_payload (d : RefPublicationDestination) : dict json :=
  [("name", JStr (rd_name d)); ("target_oid", JStr (rd_target_oid d)); ("expected_old_oid", jtext (rd_expected_old_oid d))].

(** The record of a publication.
    Code: runtime/workspace/worktree/ref_publication.py:306-320. *)
Definition prepared_publication (request : WorktreeCaptureRequest) (state : dict json) (candidate result : RefPublicationDestination) : dict json :=
  [("phase", JStr "prepared"); ("repository_id", JStr (xs_repository_id (cr_source request))); ("run_id", get state "run_id");
   ("run_key_name", get state "run_key_name"); ("node_id", JStr (cr_node_id request)); ("task_id", JStr (cr_task_id request));
   ("role", get state "role"); ("round_num", get state "round_num"); ("audit_round_num", get state "audit_round_num");
   ("destinations", JObj [("candidate", JObj (destination_payload candidate)); ("result", JObj (destination_payload result))])].

(** Code: runtime/workspace/worktree/ref_publication.py, _persist_prepared_publication. *)
Definition persist_prepared_publication (request : WorktreeCaptureRequest) (candidate result : RefPublicationDestination) : M StateStore unit :=
  state ← read_workspace_state resolve (cr_state_path request);
  lift (require_workspace_state_contract state for_materialization);;
  if is_text (get state "run_key_name") (cr_run_key_name request) && is_text (get state "node_id") (cr_node_id request)
     && is_text (get state "task_id") (cr_task_id request) && match get state "run_id" with JStr _ => true | _ => false end
  then update_workspace_ref_publication resolve clock (cr_state_path request) (prepared_publication request state candidate result)
  else raise (RuntimeError "Workspace ref publication identity is contradictory.").

(** Code: runtime/workspace/worktree/ref_publication.py, _publish_destinations. *)
Definition publish_destinations (request : WorktreeCaptureRequest) (destinations : list RefPublicationDestination) : M W unit :=
  with_git_lock (xs_common_git_dir (cr_source request))
    (publish_transaction (cr_checkout_root request) destinations (cr_protected_refs request)).

(** Code: runtime/workspace/worktree/ref_publication.py, _publication_destination. *)
Definition publication_destination (value : json) : outcome RefPublicationDestination :=
  let invalid := Raise (RuntimeError "Workspace ref publication destination is invalid.") in
  match value with
  | JObj f =>
      match get f "name", get f "target_oid" with
      | JStr name, JStr target_oid =>
          if negb (is_git_object_id (JStr target_oid)) then invalid
          else
            match get f "expected_old_oid" with
            | JNull => Ok (mkDestination name target_oid None)
            | JStr old =>
                if is_git_object_id (JStr old) then Ok (mkDestination name target_oid (Some old))
                else Raise (RuntimeError "Workspace ref publication expected OID is invalid.")
            | _ => Raise (RuntimeError "Workspace ref publication expected OID is invalid.")
            end
      | _, _ => invalid
      end
  | _ => invalid
  end.

(** Code: runtime/workspace/worktree/ref_publication.py, publication_destinations. *)
Definition publication_destinations (payload : dict json) : outcome (list RefPublicationDestination) :=
  let incomplete := Raise (RuntimeError "Workspace ref publication destinations are incomplete.") in
  match get payload "ref_publication" with
  | JObj publication =>
      match get publication "destinations" with
      | JObj records =>
          if bool_decide (list_to_set (dkeys records) =@{gset string} {["candidate"; "result"]}) then
            candidate ← publication_destination (get records "candidate");
            result ← publication_destination (get records "result");
            mret [candidate; result]
          else incomplete
      | _ => incomplete
      end
  | _ => Ok []
  end.

(** Code: runtime/workspace/worktree/ref_publication.py, _required_identity. *)
Definition required_identity (payload : dict json) (field : string) : outcome string :=
  match get payload field with
  | JStr s => if nonempty s then Ok s else Raise (RuntimeError ("Workspace ref publication lacks " +:+ field +:+ " identity."))
  | _ => Raise (RuntimeError ("Workspace ref publication lacks " +:+ field +:+ " identity."))
  end.

(** Code: runtime/workspace/worktree/ref_publication.py, _required_invocation_slug. *)
Definition required_invocation_slug (payload : dict json) : outcome string :=
  match require_state_invocation_slug payload with
  | inr slug => Ok slug
  | inl field =>
      Raise (RuntimeError
        (if bool_decide (field = "round_num") then "Workspace ref publication lacks round identity."
         else if bool_decide (field = "audit_round_num") then "Workspace ref publication has invalid audit identity."
         else "Workspace ref publication lacks " +:+ field +:+ " identity."))
  end.

(** Code: runtime/workspace/worktree/ref_publication.py, _require_owned_publication_destinations. *)
Definition require_owned_publication_destinations (cwd : string) (payload : dict json) (destinations : list RefPublicationDestination) : M W unit :=
  match get payload "ref_publication" with
  | JObj _ =>
      run_key_name ← lift (required_identity payload "run_key_name");
      node_id ← lift (required_identity payload "node_id");
      slug ← lift (required_invocation_slug payload);
      '(candidate, result) ← lift (result_ref_names run_key_name node_id slug);
      if negb (bool_decide (map rd_name destinations = [candidate; result]))
      then raise (RuntimeError "Workspace result refs escape their invocation scope.")
      else for_all (fun ref_name => checked_ref cwd ref_name;; ret tt) [candidate; result]
  | _ => raise (RuntimeError "Workspace ref publication evidence is invalid.")
  end.

(** The destinations whose current value satisfies [keep]. *)
Definition destinations_where (cwd : string) (keep : RefPublicationDestination -> option string -> bool)
    (destinations : list RefPublicationDestination) : M W (list RefPublicationDestination) :=
  kept ← map_all (fun d => current ← direct_ref_oid cwd (rd_name d) "result"; ret (if keep d current then [d] else [])) destinations;
  ret (concat kept).

(** Code: runtime/workspace/worktree/ref_publication.py, _matching_destinations. *)
Definition matching_destinations (cwd : string) : list RefPublicationDestination -> M W (list RefPublicationDestination) :=
  destinations_where cwd (fun d current => bool_decide (current = Some (rd_target_oid d))).

(** Code: runtime/workspace/worktree/ref_publication.py, _mismatched_destinations. *)
Definition mismatched_destinations (cwd : string) : list RefPublicationDestination -> M W (list RefPublicationDestination) :=
  destinations_where cwd (fun d current => is_some current && negb (bool_decide (current = Some (rd_target_oid d)))).

(** Code: runtime/workspace/worktree/ref_publication.py, _remaining_destinations. *)
Definition remaining_destinations (cwd : string) : list RefPublicationDestination -> M W (list RefPublicationDestination) :=
  destinations_where cwd (fun _ current => is_some current).

(** Code: runtime/workspace/worktree/ref_publication.py, _reconcile_destinations. *)
Definition reconcile_destinations (cwd : string) (payload : dict json) (destinations : list RefPublicationDestination)
    : M W PublicationReconciliation :=
  require_owned_publication_destinations cwd payload destinations;;
  matching ← matching_destinations cwd destinations;
  mismatched ← mismatched_destinations cwd destinations;
  (if is_cons matching then delete_transaction cwd matching else ret tt);;
  remaining ← remaining_destinations cwd destinations;
  ret (mkPublicationReconciliation matching mismatched remaining).

(** Code: runtime/workspace/worktree/ref_publication.py, _require_complete_reconciliation. *)
Definition require_complete_reconciliation (r : PublicationReconciliation) : outcome unit :=
  let unresolved := pc_mismatched r ++ pc_remaining r in
  if is_cons unresolved
  then Raise (RuntimeError ("Workspace result refs moved or remain after exact-OID cleanup: " +:+ str_join ", " (map rd_name unresolved) +:+ "."))
  else Ok tt.

(** Code: runtime/workspace/worktree/ref_publication.py, _require_repository_identity. *)
Definition require_publication_repository (payload : dict json) (repo_root common_git_dir : string) : outcome unit :=
  match get payload "git" with
  | JObj git =>
      match get git "git_top_level", get git "common_git_dir" with
      | JStr git_top_level, JStr recorded_common =>
          if bool_decide (resolve git_top_level = resolve repo_root) && bool_decide (resolve recorded_common = resolve common_git_dir) then Ok tt
          else Raise (RuntimeError "Workspace ref publication repository identity changed.")
      | _, _ => Raise (RuntimeError "Workspace ref publication repository identity changed.")
      end
  | _ => Raise (RuntimeError "Workspace ref publication lacks repository evidence.")
  end.

(** Code: runtime/workspace/worktree/ref_publication.py, reconcile_result_ref_publication. *)
Definition reconcile_result_ref_publication (state_path repo_root common_git_dir : string) : M W Z :=
  payload ← on_states (read_workspace_state resolve state_path);
  lift (require_publication_repository payload repo_root common_git_dir);;
  destinations ← lift (publication_destinations payload);
  if negb (is_cons destinations) then ret 0
  else
    reconciliation ← with_git_lock common_git_dir (reconcile_destinations repo_root payload destinations);
    lift (require_complete_reconciliation reconciliation);;
    on_states (update_workspace_ref_publication_phase resolve clock state_path to_removed);;
    ret (Z.of_nat (length (pc_removed reconciliation))).

(** Code: runtime/workspace/worktree/ref_publication.py, _reconcile_after_phase_failure. *)
Definition reconcile_after_phase_failure (request : WorktreeCaptureRequest) : M W unit :=
  try_except
    (reconcile_result_ref_publication (cr_state_path request) (xs_git_top_level (cr_source request)) (xs_common_git_dir (cr_source request));; ret tt)
    (fun e => if is_exception e then ret tt else raise e).

(** Code: runtime/workspace/worktree/ref_publication.py, _record_published_phase. *)
Definition record_published_phase (request : WorktreeCaptureRequest) : M W unit :=
  try_except (on_states (update_workspace_ref_publication_phase resolve clock (cr_state_path request) to_published))
    (fun e => (if is_exception e then reconcile_after_phase_failure request else ret tt);; raise e).

(** Code: runtime/workspace/worktree/ref_publication.py, publish_result_refs. *)
Definition publish_result_refs (request : WorktreeCaptureRequest) (candidate_commit result_commit : string) : M W (string * string) :=
  destinations ← result_ref_destinations request candidate_commit result_commit;
  match destinations with
  | [candidate; result] =>
      on_states (persist_prepared_publication request candidate result);;
      publish_destinations request [candidate; result];;
      record_published_phase request;;
      ret (rd_name candidate, rd_name result)
  | _ => raise (ValueError "not enough values to unpack")
  end.

End Refs.
