(* ===== verification/WorktreeRefsSpec.v ===== *)
(** Refs of worktrees are recorded before they are created, and removed only at
    the object that was recorded; and a repository that satisfies the laws of
    git that the proof uses. *)

From Stdlib Require Import ZArith Lia Ascii String.
From stdpp Require Import base gmap sets list strings pretty sorting relations.
From S2P Require Import Prelude PyStr StateExn Models Scheduler Artifacts RunState PlanRecords PlanContract PlanContractSpec Foreach ReviewCandidates Composition PreflightState Redaction RedactionSpec SecretHandles WorkspaceContract BranchExport BranchExportSpec WorkspaceState WorkspaceStateSpec WorkspaceStateContract WorkspaceStateClaims WorktreeRefs.

Open Scope string_scope.
Open Scope list_scope.
Open Scope Z_scope.

(** Text without blanks and control characters. *)
Definition plain (s : string) : bool := forallb (fun c => (32 <? code c)%N && negb (code c =? 127)%N) (chars s).

(** Only zeros: there is no such object. *)
Definition all_zeros (oid : string) : bool := forallb (fun c => bool_decide (c = "0"%char)) (chars oid).

Definition is_ref (name : string) : bool := str_startswith "refs/" name.

(** An operation that git reads from a line as it is meant. *)
Definition plain_operation (o : RefOperation) : bool :=
  match o with
  | VerifyRef name old => is_ref name && plain name && plain old
  | UpdateRef name new old => is_ref name && plain name && plain new && plain old && negb (all_zeros new)
  | DeleteRef name old => is_ref name && plain name && plain old && negb (all_zeros old)
  end.

(** The refs of the repository, and the moves of other processes and threads. *)
Class RefView (W : Type) := { rv_refs : W -> string -> option Ref; rv_others : relation W }.

Section View.
Context (resolve : string -> string) {W : Type} {host : RefHost W} {view : RefView W}.

Definition old_value (old : string) : option Ref := if all_zeros old then None else Some (DirectRef old).

Definition operation_name (o : RefOperation) : string := match o with VerifyRef n _ | UpdateRef n _ _ | DeleteRef n _ => n end.

(** All the operations of a transaction happen at once. *)
Definition applies (operations : list RefOperation) (w w' : W) : Prop :=
  (forall o, o ∈ operations ->
     match o with
     | VerifyRef name old => rv_refs w name = old_value old
     | UpdateRef name new old => rv_refs w name = old_value old /\ rv_refs w' name = Some (DirectRef new)
     | DeleteRef name old => rv_refs w name = Some (DirectRef old) /\ rv_refs w' name = None
     end) /\
  (forall name, name ∉ map operation_name operations -> rv_refs w' name = rv_refs w name) /\ rf_store w' = rf_store w.

(** One of these, among moves of others. *)
Definition amid_others (step : relation W) (w w' : W) : Prop := exists w1 w2, rv_others w w1 /\ step w1 w2 /\ rv_others w2 w'.

Definition only_others {A} (m : M W A) : Prop := forall w r w', m w = (r, w') -> rv_others w w'.

(** A command that changes refs did so when it ends well; otherwise it did so
    or not. *)
Definition changes (operations : list RefOperation) (r : GitResult) (w w' : W) : Prop :=
  match r with
  | GitDone _ => amid_others (applies operations) w w'
  | _ => rv_others w w' \/ amid_others (applies operations) w w'
  end.

End View.

(** What is used of git: only [update-ref] changes refs, with an old value only
    from that value, and a transaction as a whole; names that it normalizes to
    themselves are plain, and the value of a ref is not zero.  Nothing is
    assumed of what others do to workspace states. *)
Class RefLaws (resolve : string -> string) {W : Type} (host : RefHost W) (view : RefView W) := {
  rl_others :: PreOrder rv_others;
  rl_store s w : rf_store (rf_set_store s w) = s;
  rl_refs s w name : rv_refs (rf_set_store s w) name = rv_refs w name;
  rl_read cwd args input w r w' : head args <> Some "update-ref" -> rf_git cwd args input w = (r, w') -> rv_others w w';
  rl_value cwd ref w out w' : rf_git cwd ["rev-parse"; "--verify"; ref] [] w = (GitDone out, w') -> all_zeros (str_strip out) = false;
  rl_update cwd name new old w r w' : is_ref name = true -> all_zeros new = false ->
    rf_git cwd ["update-ref"; "--no-deref"; name; new; old] [] w = (r, w') -> changes [UpdateRef name new old] r w w';
  rl_delete cwd name old w r w' : is_ref name = true -> all_zeros old = false ->
    rf_git cwd ["update-ref"; "--no-deref"; "-d"; name; old] [] w = (r, w') -> changes [DeleteRef name old] r w w';
  rl_transaction cwd operations w r w' : forallb plain_operation operations = true ->
    rf_git cwd ["update-ref"; "--stdin"] (transaction_lines operations) w = (r, w') -> changes operations r w w';
  rl_normalized cwd ref w out w' :
    rf_git cwd ["check-ref-format"; "--normalize"; ref] [] w = (GitDone out, w') -> str_strip out = ref -> plain ref = true;
  rl_lock dir : only_others (rf_lock dir);
  rl_unlock dir : only_others (rf_unlock dir);
  rl_uuid : only_others rf_uuid
}.

(** ** Records of refs in workspace states *)

(** The state claims the temporary ref. *)
Definition claims_ref (p : dict json) (name oid : string) : Prop :=
  exists claims f, get p "temporary_refs" = JList claims /\ JObj f ∈ claims /\ get f "name" = JStr name /\ get f "target_oid" = JStr oid.

(** The state records a publication of the ref. *)
Definition publishes_ref (p : dict json) (name oid : string) : Prop :=
  exists f d label r, get p "ref_publication" = JObj f /\ get f "destinations" = JObj d /\ get d label = JObj r /\
    get r "name" = JStr name /\ get r "target_oid" = JStr oid.

Definition records_ref (c : FileContent) (name oid : string) : Prop :=
  exists p, c = FileJson (JObj p) /\ (claims_ref p name oid \/ publishes_ref p name oid).

(** ** Steps *)

Section Trace.
Context {hash : HashLibrary} (resolve : string -> string) (clock : nat -> string) {W : Type} {host : RefHost W} {view : RefView W}
  {laws : RefLaws resolve host view}.

(** Some workspace state records the ref with its object. *)
Definition recorded_in (w : W) (name oid : string) : Prop := exists path, records_ref (state_file resolve (rf_store w) path) name oid.

(** What workspace states have recorded up to now: records stay known when the
    file that held them is unlinked. *)
Definition History : Type := string -> string -> Prop.

Definition noted (h : History) (w : W) : History := fun name oid => h name oid \/ recorded_in w name oid.

Definition recorded (name oid : string) (g : W * History) : Prop := snd g name oid.

(** A ref is created where none is, or removed where it has the recorded
    object. *)
Definition authorised (g : W * History) (o : RefOperation) : Prop :=
  match o with
  | VerifyRef _ _ => True
  | UpdateRef name new old => all_zeros old = true /\ recorded name new g
  | DeleteRef name old => recorded name old g
  end.

(** The evidence at the path, all of whose claims are removed, is unlinked. *)
Definition unlinks (path : string) (w w' : W) : Prop :=
  (exists p claims, state_file resolve (rf_store w) path = FileJson (JObj p) /\ get p "temporary_refs" = JList claims /\
     forallb claim_is_removed claims = true) /\
  forall path', state_file resolve (rf_store w') path' =
    if decide (resolve path' = resolve path) then FileAbsent else state_file resolve (rf_store w) path'.

(** Others move, workspace states evolve, evidence that is resolved is unlinked,
    or authorised operations on refs happen at once. *)
Inductive ref_step : W * History -> W * History -> Prop :=
| ref_others w w' h : rv_others w w' -> ref_step (w, h) (w', noted h w')
| ref_states w w' h :
    (forall path, file_evolves (state_file resolve (rf_store w) path) (state_file resolve (rf_store w') path)) ->
    (forall name, rv_refs w' name = rv_refs w name) -> ref_step (w, h) (w', noted h w')
| ref_unlinks path w w' h : unlinks path w w' -> (forall name, rv_refs w' name = rv_refs w name) -> ref_step (w, h) (w', noted h w')
| ref_operations operations w w' h : Forall (authorised (w, h)) operations -> applies operations w w' -> ref_step (w, h) (w', noted h w').

(** What is recorded stays known. *)
Lemma recorded_steps name oid g g' : rtc ref_step g g' -> recorded name oid g -> recorded name oid g'.
Proof. induction 1 as [|g g1 g' Hs _ IH]; [done|]. intros Hr. apply IH. by destruct Hs; left. Qed.

(** Assertions that steps keep. *)
Definition persistent (P : W * History -> Prop) : Prop := forall g g', rtc ref_step g g' -> P g -> P g'.

Lemma recorded_persistent name oid : persistent (recorded name oid).
Proof. intros g g'. apply recorded_steps. Qed.

(** From [P], the computation makes steps and leaves [Q] when it returns. *)
Definition traces {A} (P : W * History -> Prop) (m : M W A) (Q : A -> W * History -> Prop) : Prop := forall w h r w',
  P (w, h) -> m w = (r, w') -> exists h', rtc ref_step (w, h) (w', h') /\ forall a, r = Ok a -> Q a (w', h').

Lemma traces_bind {A B} P (m : M W A) Q (k : A -> M W B) R :
  traces P m Q -> (forall a, traces (Q a) (k a) R) -> traces P (m ≫= k) R.
Proof.
  intros Hm Hk w h r w' HP Hrun. unfold mbind, M_bind, bind in Hrun. destruct (m w) as [[a|e|] w1] eqn:H1.
  - destruct (Hm _ _ _ _ HP H1) as (h1 & Hs & HQ). destruct (Hk a _ _ _ _ (HQ a eq_refl) Hrun) as (h2 & Hs' & HR).
    exists h2. split; [by etransitivity | done].
  - injection Hrun as <- <-. destruct (Hm _ _ _ _ HP H1) as (h1 & Hs & _). by exists h1.
  - injection Hrun as <- <-. destruct (Hm _ _ _ _ HP H1) as (h1 & Hs & _). by exists h1.
Qed.

Lemma traces_weaken {A} (P P' : W * History -> Prop) (m : M W A) (Q Q' : A -> W * History -> Prop) :
  traces P m Q -> (forall g, P' g -> P g) -> (forall a g, Q a g -> Q' a g) -> traces P' m Q'.
Proof.
  intros Hm HP HQ w h r w' HP' Hrun. destruct (Hm _ _ _ _ (HP _ HP') Hrun) as (h' & Hs & H). exists h'. split; [done|].
  intros a Ha. by apply HQ, H.
Qed.

Lemma traces_pre {A} (P P' : W * History -> Prop) (m : M W A) Q : (forall g, P' g -> P g) -> traces P m Q -> traces P' m Q.
Proof. intros HP Hm. by eapply traces_weaken. Qed.

Lemma traces_post {A} (P : W * History -> Prop) (m : M W A) (Q Q' : A -> W * History -> Prop) :
  (forall a g, Q a g -> Q' a g) -> traces P m Q -> traces P m Q'.
Proof. intros HQ Hm. by eapply traces_weaken. Qed.

(** What does not depend on the world. *)
Lemma traces_fact {A} (F : Prop) (P : W * History -> Prop) (m : M W A) Q : (F -> traces P m Q) -> traces (fun g => P g /\ F) m Q.
Proof. intros Hm w h r w' [Hw HF]. by apply Hm. Qed.

(** A persistent assertion is kept. *)
Lemma traces_keep {A} (P I : W * History -> Prop) (m : M W A) Q :
  persistent I -> traces P m Q -> traces (fun g => P g /\ I g) m (fun a g => Q a g /\ I g).
Proof.
  intros HI Hm w h r w' [HP Hi] Hrun. destruct (Hm _ _ _ _ HP Hrun) as (h' & Hs & HQ). exists h'. split; [done|].
  intros a Ha. split; [by apply HQ | by eapply HI].
Qed.

Lemma traces_kept {A} (P : W * History -> Prop) (m : M W A) Q : persistent P -> traces P m Q -> traces P m (fun a g => Q a g /\ P g).
Proof. intros HP Hm. apply (traces_pre (fun g => P g /\ P g)); [done | by apply traces_keep]. Qed.

(** [try: m except e: h(e)], from a persistent assertion. *)
Lemma traces_try {A} (P : W * History -> Prop) (m : M W A) (f : exn -> M W A) Q :
  persistent P -> traces P m Q -> (forall e, traces P (f e) Q) -> traces P (try_except m f) Q.
Proof.
  intros HP Hm Hf w h r w' Hw Hrun. unfold try_except in Hrun. destruct (m w) as [[a|e|] w1] eqn:H1.
  - injection Hrun as <- <-. by apply (Hm w h (Ok a)).
  - destruct (Hm _ _ _ _ Hw H1) as (h1 & Hs & _). destruct (Hf e _ _ _ _ (HP _ _ Hs Hw) Hrun) as (h2 & Hs' & HQ).
    exists h2. split; [by etransitivity | done].
  - injection Hrun as <- <-. by apply (Hm w h OutOfFuel).
Qed.

Lemma traces_ret {A} P (a : A) Q : (forall g, P g -> Q a g) -> traces P (ret a) Q.
Proof. intros H w h r w' HP [= <- <-]. exists h. split; [done|]. intros a' [= <-]. by apply H. Qed.

Lemma traces_raise {A} P e (Q : A -> W * History -> Prop) : traces P (raise e) Q.
Proof. intros w h r w' HP [= <- <-]. by exists h. Qed.

Lemma traces_lift {A} P (o : outcome A) Q : (forall a g, o = Ok a -> P g -> Q a g) -> traces P (lift o) Q.
Proof. intros H w h r w' HP [= <- <-]. exists h. split; [done|]. intros a Ha. by apply H. Qed.

Lemma others_step w w' h : rv_others w w' -> rtc ref_step (w, h) (w', noted h w').
Proof. intros H. apply rtc_once. by apply ref_others. Qed.

Lemma traces_others {A} P (m : M W A) : persistent P -> only_others m -> traces P m (fun _ => P).
Proof.
  intros HP Hm w h r w' Hw Hrun. assert (Hs := others_step _ _ h (Hm _ _ _ Hrun)). eexists. split; [exact Hs|]. intros a _. by eapply HP.
Qed.

(** [with git_metadata_lock(dir): body]. *)
Lemma traces_lock {A} (P : W * History -> Prop) dir (body : M W A) Q :
  persistent P -> (forall a, persistent (Q a)) -> traces P body Q -> traces P (with_git_lock dir body) Q.
Proof.
  intros HP HQ Hb w h r w' Hw Hrun. unfold with_git_lock, scoped in Hrun. destruct (rf_lock dir w) as [[u|e|] w1] eqn:H1.
  - destruct (body w1) as [inner w2] eqn:H2. destruct (rf_unlock dir w2) as [x w3] eqn:H3.
    assert (Hs1 := others_step _ _ h (rl_lock _ _ _ _ H1)). destruct (Hb _ _ _ _ (HP _ _ Hs1 Hw) H2) as (h2 & Hs2 & Hq).
    assert (Hs3 := others_step _ _ h2 (rl_unlock _ _ _ _ H3)). exists (noted h2 w3).
    assert (Hall : rtc ref_step (w, h) (w3, noted h2 w3)) by (by do 2 (etransitivity; [eassumption|])).
    destruct x as [u'|e|]; injection Hrun as <- <-; (split; [done|]); [|done..]. intros a Ha. eapply HQ; [exact Hs3 | by apply Hq].
  - injection Hrun as <- <-. eexists. split; [by eapply others_step, rl_lock | done].
  - injection Hrun as <- <-. eexists. split; [by eapply others_step, rl_lock | done].
Qed.

(** ** Operations on states *)

(** The world after an operation on states. *)
Definition stored_in (s : StateStore) (g : W * History) : W * History :=
  (rf_set_store s (fst g), noted (snd g) (rf_set_store s (fst g))).

Lemma traces_states {A} (P : W * History -> Prop) (m : M StateStore A) Q :
  forward resolve m ->
  (forall g a s', P g -> m (rf_store (fst g)) = (Ok a, s') -> Q a (stored_in s' g)) -> traces P (on_states m) Q.
Proof.
  intros Hm HQ w h r w' Hw Hrun. unfold on_states, zoom in Hrun. destruct (m (rf_store w)) as [o s'] eqn:Hs. injection Hrun as <- <-.
  exists (noted h (rf_set_store s' w)). split; [|intros a ->; by apply (HQ (w, h))]. apply rtc_once, ref_states.
  - intros path. rewrite rl_store. destruct (Hm (rf_store w)) as [H1 _]. rewrite Hs in H1. apply H1.
  - intros name. apply rl_refs.
Qed.

(** What the state at the path records is known afterwards. *)
Lemma stored_recorded s g path name oid : records_ref (state_file resolve s path) name oid -> recorded name oid (stored_in s g).
Proof. intros H. right. exists path. cbn. by rewrite rl_store. Qed.

(** An edit that returns stored its result. *)
Lemma edit_stored path body s u s' : edit_workspace_state resolve clock path body s = (Ok u, s') ->
  exists p p' t, state_file resolve s path = FileJson (JObj p) /\ body p = Ok p' /\ state_file resolve s' path = FileJson (JObj (written p' t)).
Proof.
  unfold edit_workspace_state, read_workspace_state, mbind, M_bind, bind, read, lift, timestamp.
  destruct (state_file resolve s path) as [| | |[| | | | | |p]] eqn:Hf; try done. unfold ret. destruct (body p) as [p'|e|] eqn:Hb; [|done..].
  unfold atomic_write_json. cbn [sw_writes sw_ticks sw_files sw_fence]. destruct (default Written _); [|done..]. intros [= <- <-].
  exists p, p', (clock (sw_ticks s)). split_and!; [done..|]. unfold state_file. cbn [sw_files]. by rewrite lookup_insert_eq.
Qed.

Lemma record_stored path name oid s u s' : record_workspace_temporary_ref resolve clock path name oid s = (Ok u, s') ->
  records_ref (state_file resolve s' path) name oid.
Proof.
  intros H. apply edit_stored in H as (p & p' & t & _ & Hb & ->). eexists. split; [done|]. left. unfold add_temporary_ref in Hb.
  set (q := if dmem p "temporary_refs" then p else _) in Hb. destruct (get q "temporary_refs") as [| | | | |claims|] eqn:Hq; try done.
  apply bind_Ok in Hb as (b & _ & Hb). destruct b; [|done]. cbn [negb] in Hb. cbv iota in Hb.
  destruct (matching_temporary_ref_claims claims name) as [|f [|]] eqn:Hm; try done.
  - injection Hb as <-. unfold claims_ref. rewrite get_edited, get_dset_eq by done. eexists _, _. split_and!.
    + cbn [sort_keys]. reflexivity.
    + apply list_elem_of_fmap. eexists. split; [|apply elem_of_app; right; by left]. rewrite sort_keys_obj. reflexivity.
    + rewrite get_written. reflexivity.
    + rewrite get_written. reflexivity.
  - destruct (is_text (get f "target_oid") oid) eqn:Ho; [|done]. injection Hb as <-. unfold claims_ref. rewrite get_edited, Hq by done.
    assert (Hin : f ∈ matching_temporary_ref_claims claims name) by (rewrite Hm; by left).
    apply list_elem_of_omap in Hin as (c & Hc & Hf). destruct c as [| | | | | |g]; try done.
    destruct (is_text (get g "name") name) eqn:Hn; [|done]. injection Hf as ->. apply is_text_true in Hn, Ho.
    eexists _, (stored f). split_and!; [reflexivity|apply list_elem_of_fmap; by exists (JObj f)| |]; rewrite get_written; [by rewrite Hn | by rewrite Ho].
Qed.

Lemma publication_stored path publication s u s' : update_workspace_ref_publication resolve clock path publication s = (Ok u, s') ->
  exists p', state_file resolve s' path = FileJson (JObj p') /\ get p' "ref_publication" = JObj (stored publication).
Proof.
  intros H. apply edit_stored in H as (p & p' & t & _ & Hb & ->). eexists. split; [done|]. unfold set_ref_publication in Hb.
  destruct (_ && _); [done|]. injection Hb as <-. by rewrite get_edited, get_dset_eq by done.
Qed.

(** ** Git commands *)

Lemma others_ret {A} (a : A) : only_others (ret a : M W A).
Proof. intros w r w' [= _ <-]. done. Qed.

Lemma others_raise {A} e : only_others (raise e : M W A).
Proof. intros w r w' [= _ <-]. done. Qed.

Lemma others_bind {A B} (m : M W A) (k : A -> M W B) : only_others m -> (forall a, only_others (k a)) -> only_others (m ≫= k).
Proof.
  intros Hm Hk w r w' Hrun. unfold mbind, M_bind, bind in Hrun. destruct (m w) as [[a|e|] w1] eqn:H1.
  - etransitivity; [by eapply Hm | by eapply Hk].
  - injection Hrun as _ <-. by eapply Hm.
  - injection Hrun as _ <-. by eapply Hm.
Qed.

Lemma others_git cwd args : head args <> Some "update-ref" -> only_others (ref_git cwd args).
Proof. intros Ha w r w' Hrun. unfold ref_git in Hrun. destruct (rf_git _ _ _ _) eqn:Hg. injection Hrun as _ <-. by eapply rl_read. Qed.

Lemma others_checked r : only_others (checked_result r : M W string).
Proof. destruct r; [apply others_ret | apply others_raise..]. Qed.

Ltac others_solve :=
  repeat match goal with
  | |- only_others (_ ≫= _) => apply others_bind; [|intros ?]
  | |- only_others (ref_git _ _) => apply others_git; discriminate
  | |- only_others (checked_result _) => apply others_checked
  | |- only_others (ret _) => apply others_ret
  | |- only_others (raise _) => apply others_raise
  | |- only_others (match ?x with _ => _ end) => destruct x
  | |- only_others (if ?x then _ else _) => destruct x
  end.

Lemma others_git_run cwd args : head args <> Some "update-ref" -> only_others (ref_git_run cwd args).
Proof. intros H. unfold ref_git_run. apply others_bind; [by apply others_git|]. intros r. others_solve. Qed.

Lemma others_direct cwd ref_name description : only_others (direct_ref_oid cwd ref_name description).
Proof. unfold direct_ref_oid. others_solve. Qed.

Lemma others_commit_exists cwd commit : only_others (commit_exists cwd commit).
Proof. unfold commit_exists. others_solve. Qed.

Lemma others_text cwd args : head args <> Some "update-ref" -> only_others (ref_git_text cwd args).
Proof. intros H. unfold ref_git_text. apply others_bind; [by apply others_git|]. intros r. others_solve. Qed.

Lemma others_checked_ref cwd ref : only_others (checked_ref cwd ref).
Proof. unfold checked_ref. apply others_bind; [apply others_text; discriminate|]. intros r. others_solve. Qed.

(** A name that git normalizes to itself. *)
Lemma normalized_plain cwd ref w w' : ref_git_text cwd ["check-ref-format"; "--normalize"; ref] w = (Ok ref, w') -> plain ref = true.
Proof.
  unfold ref_git_text, ref_git, mbind, M_bind, bind. destruct (rf_git _ _ _ _) as [r w1] eqn:Hg. destruct r; cbn; try done.
  intros [= Hs _]. by eapply rl_normalized.
Qed.

Lemma checked_ref_ok cwd ref w a w' : checked_ref cwd ref w = (Ok a, w') -> a = ref /\ plain ref = true.
Proof.
  unfold checked_ref. intros H. unfold mbind, M_bind, bind in H. destruct (ref_git_text _ _ _) as [[n|e|] w1] eqn:Hg; try done.
  case_bool_decide as Heq; [|done]. subst n. injection H as <- <-. split; [done|]. by eapply normalized_plain.
Qed.

Lemma direct_ref_nonzero cwd name description w oid w' : direct_ref_oid cwd name description w = (Ok (Some oid), w') -> all_zeros oid = false.
Proof.
  unfold direct_ref_oid, ref_git, mbind, M_bind, bind. destruct (rf_git _ _ _ w) as [r1 w1]. intros H.
  destruct r1 as [out|code err msg|msg|e]; try done. destruct code as [|[]|]; try done.
  destruct (rf_git _ ["rev-parse"; "--verify"; name] [] w1) as [r2 w2] eqn:H2. destruct r2 as [out|code2 err2 msg2|msg2|e2]; try done.
  - cbn in H. injection H as <- <-. by eapply rl_value.
  - repeat (case_match; try done).
Qed.

Lemma traces_checked_ref P cwd ref : persistent P -> traces P (checked_ref cwd ref) (fun a w => P w /\ a = ref /\ plain ref = true).
Proof.
  intros HP w h r w' Hw Hrun. destruct (traces_others P _ HP (others_checked_ref cwd ref) w h r w' Hw Hrun) as (h' & Hs & HQ).
  exists h'. split; [done|].
  intros a ->. destruct (checked_ref_ok _ _ _ _ _ Hrun) as [-> Hp]. split; [by apply (HQ ref) | done].
Qed.

Lemma traces_direct P cwd name description :
  persistent P -> traces P (direct_ref_oid cwd name description) (fun a w => P w /\ forall oid, a = Some oid -> all_zeros oid = false).
Proof.
  intros HP w h r w' Hw Hrun. destruct (traces_others P _ HP (others_direct cwd name description) w h r w' Hw Hrun) as (h' & Hs & HQ).
  exists h'. split; [done|].
  intros a ->. split; [by eapply HQ|]. intros oid ->. by eapply direct_ref_nonzero.
Qed.

Lemma authorised_steps g g' o : rtc ref_step g g' -> authorised g o -> authorised g' o.
Proof. intros H. destruct o; cbn; [done| |]; [intros [? ?]; split; [done|]|intros ?]; by eapply recorded_steps. Qed.

(** Authorised operations are steps. *)
Lemma changes_steps operations r w w' h :
  Forall (authorised (w, h)) operations -> changes operations r w w' -> exists h', rtc ref_step (w, h) (w', h').
Proof.
  intros Hauth Hc. assert (Ham : amid_others (applies operations) w w' -> exists h', rtc ref_step (w, h) (w', h')).
  { intros (w1 & w2 & H1 & H2 & H3). eexists. etransitivity; [by apply others_step|]. eapply rtc_l; [|by apply others_step].
    apply (ref_operations operations); [|done]. eapply Forall_impl; [exact Hauth|]. intros o. apply authorised_steps. by apply others_step. }
  assert (Hno : rv_others w w' -> exists h', rtc ref_step (w, h) (w', h')) by (intros H; eexists; by apply others_step).
  destruct r; cbn in Hc; [by apply Ham|destruct Hc; [by apply Hno | by apply Ham]..].
Qed.

Lemma traces_git_update (P : W * History -> Prop) cwd args operations :
  (forall w r w', rf_git cwd args [] w = (r, w') -> changes operations r w w') -> (forall g, P g -> Forall (authorised g) operations) ->
  traces P (ref_git_run cwd args) (fun _ _ => True).
Proof.
  intros Hg HP w h r w' Hw Hrun. unfold ref_git_run, ref_git, mbind, M_bind, bind in Hrun.
  destruct (rf_git cwd args [] w) as [x w1] eqn:Hx.
  destruct (changes_steps operations x w w1 h (HP _ Hw) (Hg _ _ _ Hx)) as [h' Hs].
  exists h'. split; [|done]. destruct x; cbn in Hrun; by injection Hrun as _ <-.
Qed.

Lemma traces_transaction (P : W * History -> Prop) cwd operations :
  forallb plain_operation operations = true -> (forall g, P g -> Forall (authorised g) operations) ->
  traces P (run_ref_transaction cwd operations) (fun _ _ => True).
Proof.
  intros Hplain HP w h r w' Hw Hrun. unfold run_ref_transaction in Hrun.
  destruct (rf_git cwd ["update-ref"; "--stdin"] _ w) as [x w1] eqn:Hx.
  destruct (changes_steps operations x w w1 h (HP _ Hw) ltac:(by eapply rl_transaction)) as [h' Hs].
  exists h'. split; [|done]. destruct x; cbn in Hrun; by injection Hrun as _ <-.
Qed.

Lemma zero_oid_zeros oid : all_zeros (zero_oid oid) = true.
Proof.
  unfold all_zeros, zero_oid. rewrite chars_of_chars. induction (String.length oid); [done|]. cbn [replicate forallb]. rewrite IHn. done.
Qed.

(** ** Temporary refs *)

Definition import_recorded (r : TemporaryImportRef) (g : W * History) : Prop := recorded (ti_name r) (ti_target_oid r) g.

Lemma traces_create r bundle_path :
  is_ref (ti_name r) = true -> all_zeros (ti_target_oid r) = false ->
  traces (import_recorded r) (create_temporary_import_ref r bundle_path) (fun _ _ => True).
Proof.
  intros Hr Hz. assert (HP := recorded_persistent (ti_name r) (ti_target_oid r)). apply traces_lock; [done|by intros|].
  eapply traces_bind; [by apply traces_direct|]. intros [current|]; cbn [is_some]; [apply traces_raise|].
  apply (traces_pre (import_recorded r)); [by intros g []|].
  eapply traces_bind; [apply traces_others; [done | by apply others_git_run]|]. intros u. cbv beta.
  apply (traces_git_update _ _ _ [UpdateRef (ti_name r) (ti_target_oid r) (zero_oid (ti_target_oid r))]); [intros; by eapply rl_update|].
  intros w Hw. apply Forall_singleton. split; [apply zero_oid_zeros | done].
Qed.

Lemma traces_delete_exact cwd name oid :
  is_ref name = true -> traces (recorded name oid) (delete_exact_temporary_import_ref cwd name oid) (fun _ _ => True).
Proof.
  intros Hr. eapply traces_bind; [apply traces_direct, recorded_persistent|]. intros current. case_bool_decide as Hc.
  - subst current. eapply traces_bind; [|intros; by apply traces_ret].
    apply (traces_pre (fun g => recorded name oid g /\ all_zeros oid = false)); [intros g [Hg Hz]; split; [done | by apply Hz]|].
    apply traces_fact. intros Hz.
    apply (traces_git_update _ _ _ [DeleteRef name oid]); [intros; by eapply rl_delete|]. intros w Hw. by apply Forall_singleton.
  - destruct (is_some current); [apply traces_raise | by apply traces_ret].
Qed.

Lemma mark_forward path name : forward resolve (mark_workspace_temporary_ref_removed resolve clock path name).
Proof. apply edit_forward, remove_temporary_evolves. Qed.

(** An operation on states of which nothing is needed. *)
Lemma traces_states_true {A} (P : W * History -> Prop) (m : M StateStore A) : forward resolve m -> traces P (on_states m) (fun _ _ => True).
Proof. intros Hm. by apply traces_states. Qed.

Lemma traces_delete r : is_ref (ti_name r) = true -> traces (import_recorded r) (delete_temporary_import_ref resolve clock r) (fun _ _ => True).
Proof.
  intros Hr. apply (traces_bind _ _ (fun _ _ => True)); [|intros; apply traces_states_true, mark_forward].
  apply traces_lock; [apply recorded_persistent|by intros|by apply traces_delete_exact].
Qed.

Lemma prepare_owner_forward owner : forward resolve (prepare_owner resolve owner).
Proof.
  unfold prepare_owner. destruct (to_initial_payload owner) as [payload|]; [|by apply forward_unwritten].
  intros w. unfold mbind, M_bind, bind, read. destruct (state_file resolve w (to_state_path owner)) eqn:Hf; try done.
  apply (write_forward resolve (to_state_path owner) payload w). rewrite Hf. right. eauto.
Qed.

Lemma prefix_is_ref run_key node slug prefix : temporary_import_ref_prefix run_key node slug = Ok prefix -> is_ref prefix = true.
Proof. intros H. unfold temporary_import_ref_prefix in H. inv_ok. by subst. Qed.

Lemma is_ref_extends prefix name : is_ref prefix = true -> str_startswith prefix name = true -> is_ref name = true.
Proof.
  unfold is_ref, str_startswith. rewrite !starts_with_spec. intros (a & Ha) (b & Hb). exists (a ++ b). by rewrite Hb, Ha, app_assoc.
Qed.

Lemma startswith_app prefix rest : str_startswith prefix (prefix +:+ rest) = true.
Proof. unfold str_startswith. apply starts_with_spec. exists (chars rest). apply chars_app. Qed.

Definition always (g : W * History) : Prop := True.

Lemma always_persistent : persistent always.
Proof. by intros w w'. Qed.

Lemma fact_persistent (F : Prop) (P : W * History -> Prop) : persistent P -> persistent (fun w => P w /\ F).
Proof. intros HP w w' Hs [Hw HF]. split; [by eapply HP | done]. Qed.

Lemma traces_import_name run_key node slug commit :
  traces always (import_ref_for_source_commit run_key node slug commit) (fun name _ => is_ref name = true).
Proof.
  eapply traces_bind; [apply traces_others; [apply always_persistent | apply rl_uuid]|]. intros identity.
  eapply traces_bind; [apply (traces_lift _ _ (fun prefix _ => is_ref prefix = true)); intros prefix w Hp _; by eapply prefix_is_ref|].
  intros prefix. eapply traces_bind; [apply (traces_lift _ _ (fun _ _ => is_ref prefix = true)); by intros|].
  intros component. apply traces_ret. intros w Hp. eapply is_ref_extends; [exact Hp | apply startswith_app].
Qed.

(** A prepared import is recorded. *)
Lemma traces_prepare source commit owner :
  traces always (prepare_temporary_import_ref resolve clock source commit owner)
    (fun r w => import_recorded r w /\ is_ref (ti_name r) = true /\ ti_target_oid r = commit).
Proof.
  unfold prepare_temporary_import_ref. destruct owner as [owner|]; [|apply traces_raise].
  eapply traces_bind; [apply traces_states_true, prepare_owner_forward|]. intros u0. cbv beta.
  eapply traces_bind; [apply traces_states_true, forward_unwritten, unwritten_read_state|]. intros state.
  eapply traces_bind; [apply (traces_lift _ _ (fun _ => always)); by intros|]. intros slug.
  eapply traces_bind; [apply traces_import_name|]. intros name.
  apply (traces_pre (fun w => always w /\ is_ref name = true)); [by intros w|].
  eapply traces_bind; [apply traces_checked_ref, fact_persistent, always_persistent|]. intros ref_name.
  apply (traces_bind _ _ (fun _ w => recorded ref_name commit w /\ is_ref ref_name = true)).
  - apply traces_states; [apply edit_forward, add_temporary_evolves|]. intros w u s' ((_ & Hr) & -> & _) Hs. split; [|done].
    eapply stored_recorded. by eapply record_stored.
  - intros u. apply traces_ret. by intros w [Hw Hr].
Qed.

Lemma traces_import source commit bundle_path owner :
  all_zeros commit = false ->
  traces always (import_source_bundle resolve clock source commit bundle_path owner) (fun r w => import_recorded r w /\ is_ref (ti_name r) = true).
Proof.
  intros Hz. eapply traces_bind; [apply traces_prepare|]. intros r.
  apply traces_fact. intros [Hr Ho]. rewrite <- Ho in Hz. assert (HP := recorded_persistent (ti_name r) (ti_target_oid r)).
  apply (traces_post _ _ (fun a w => a = r /\ import_recorded r w)); [by intros a w [-> Hw]|]. apply traces_kept; [done|].
  apply traces_try; [done| |].
  - eapply traces_bind; [by apply traces_create|]. intros u.
    eapply traces_bind; [apply (traces_others always); [apply always_persistent | apply others_commit_exists]|].
    intros []; [by apply traces_ret | apply traces_raise].
  - intros failure. eapply traces_bind; [|intros; apply traces_raise].
    apply traces_try; [done|by apply traces_delete|]. intros e. destruct (is_exception e); [by apply traces_ret | apply traces_raise].
Qed.

(** Every ref of the list is recorded. *)
Definition imports_recorded (refs : list TemporaryImportRef) (g : W * History) : Prop := forall r, r ∈ refs -> import_recorded r g.

Lemma imports_persistent refs : persistent (imports_recorded refs).
Proof. intros w w' Hs H r Hr. eapply recorded_steps; [exact Hs | by apply H]. Qed.

Lemma traces_delete_all refs :
  Forall (fun r => is_ref (ti_name r) = true) refs ->
  traces (imports_recorded refs) (delete_temporary_import_refs resolve clock refs) (fun _ _ => True).
Proof.
  intros Hrefs. unfold delete_temporary_import_refs. set (step := fun _ _ => _).
  assert (Hfold : forall l m, (forall r, r ∈ l -> r ∈ refs) -> traces (imports_recorded refs) m (fun _ => imports_recorded refs) ->
    traces (imports_recorded refs) (foldl step m l) (fun _ => imports_recorded refs)).
  { induction l as [|r l IH]; intros m Hl Hm; [done|]. cbn. apply IH; [intros; apply Hl; by right|]. unfold step.
    eapply traces_bind; [exact Hm|]. intros failure. cbv beta. assert (Hr : r ∈ refs) by (apply Hl; by left).
    apply traces_try; [apply imports_persistent| |].
    - eapply traces_bind; [|intros u; by apply (traces_ret (imports_recorded refs))].
      eapply traces_weaken; [apply (traces_keep (import_recorded r) (imports_recorded refs) _ (fun _ _ => True) (imports_persistent refs)), traces_delete|..].
      + rewrite Forall_forall in Hrefs. by apply Hrefs.
      + intros w Hw. split; [by apply Hw | done].
      + by intros a w [_ Hw].
    - intros e. destruct (is_exception e); [by apply traces_ret | apply traces_raise]. }
  eapply traces_bind; [apply Hfold; [intros r; by rewrite elem_of_reverse | by apply traces_ret]|].
  intros [e|]; [apply traces_raise | by apply traces_ret].
Qed.

(** Everything that the payload records is recorded. *)
Definition payload_recorded (p : dict json) (g : W * History) : Prop :=
  forall name oid, claims_ref p name oid \/ publishes_ref p name oid -> recorded name oid g.

Lemma payload_persistent p : persistent (payload_recorded p).
Proof. intros w w' Hs H name oid Hr. eapply recorded_steps; [exact Hs | by apply H]. Qed.

Lemma traces_read path : traces always (on_states (read_workspace_state resolve path)) (fun p w => payload_recorded p w).
Proof.
  apply traces_states; [apply forward_unwritten, unwritten_read_state|]. intros g p s' _ Hs name oid Hr. apply (stored_recorded _ _ path).
  unfold read_workspace_state, mbind, M_bind, bind, read in Hs. destruct (state_file resolve (rf_store (fst g)) path) as [| | |[| | | | | |q]] eqn:Hf; try done.
  injection Hs as <- <-. exists q. by split.
Qed.

Lemma traces_map_all {A B} (P : W * History -> Prop) (R : A -> B -> Prop) (f : A -> M W B) l :
  (forall x, x ∈ l -> traces P (f x) (fun y w => P w /\ R x y)) -> traces P (map_all f l) (fun ys w => P w /\ Forall2 R l ys).
Proof.
  induction l as [|x l IH]; intros H; cbn [map_all]; [apply traces_ret; by split|].
  eapply traces_bind; [apply H; by left|]. intros y. cbv beta. apply traces_fact. intros Hy.
  eapply traces_bind; [apply IH; intros; apply H; by right|]. intros ys. cbv beta. apply traces_fact. intros Hys.
  apply traces_ret. intros w Hw. split; [done | by constructor].
Qed.

Lemma traces_for_all {A} (P : W * History -> Prop) (R : A -> Prop) (f : A -> M W unit) l :
  (forall x, x ∈ l -> traces P (f x) (fun _ w => P w /\ R x)) -> traces P (for_all f l) (fun _ w => P w /\ Forall R l).
Proof.
  induction l as [|x l IH]; intros H; cbn [for_all]; [apply traces_ret; by split|].
  eapply traces_bind; [apply H; by left|]. intros []. cbv beta. apply traces_fact. intros Hx.
  eapply traces_post; [|apply IH; intros; apply H; by right]. intros a w [Hw Hl]. split; [done | by constructor].
Qed.

Lemma traces_reconcile_claim path root dir prefix p claims claim :
  is_ref prefix = true -> get p "temporary_refs" = JList claims -> claim ∈ claims ->
  traces (payload_recorded p) (reconcile_temporary_import_ref_claim resolve clock path root dir prefix claim) (fun _ => payload_recorded p).
Proof.
  intros Hprefix Hl Hin. unfold reconcile_temporary_import_ref_claim. destruct claim as [| | | | | |f]; try apply traces_raise.
  destruct (is_text _ _); [by apply traces_ret|].
  apply (traces_bind _ _ (fun r w => payload_recorded p w /\ is_ref (fst r) = true /\ recorded (fst r) (snd r) w)).
  { apply traces_lift. intros [name oid] w Hid Hp. unfold temporary_ref_claim_identity in Hid.
    destruct (get f "name") as [| | | |n| |] eqn:Hn; try done. destruct (get f "target_oid") as [| | | |o| |] eqn:Ho; try done.
    destruct (str_startswith prefix n) eqn:Hs; [|done]. injection Hid as <- <-. cbn [fst snd].
    split_and!; [done|by eapply is_ref_extends|]. apply Hp. left. by exists claims, f. }
  intros [name oid]. cbn [fst snd].
  apply (traces_pre (fun w => (recorded name oid w /\ payload_recorded p w) /\ is_ref name = true)); [by intros w (? & ? & ?)|].
  apply traces_fact. intros Hr. apply (traces_post _ _ (fun _ w => True /\ payload_recorded p w)); [by intros ? ? []|].
  apply (traces_keep (recorded name oid)); [apply payload_persistent|].
  apply (traces_bind _ _ (fun _ _ => True)).
  - apply traces_lock; [apply recorded_persistent|by intros|].
    eapply traces_bind; [apply traces_others; [apply recorded_persistent | apply others_text; discriminate]|]. intros normalized. cbv beta.
    destruct (bool_decide _); [by apply traces_delete_exact | apply traces_raise].
  - intros removed. apply (traces_bind _ _ (fun _ _ => True)); [apply traces_states_true, mark_forward | intros; by apply traces_ret].
Qed.

Lemma owner_prefix_is_ref p prefix : temporary_ref_owner_prefix p = Ok prefix -> is_ref prefix = true.
Proof. unfold temporary_ref_owner_prefix. intros H. inv_ok. by eapply prefix_is_ref. Qed.

Lemma traces_reconcile_temporary path root dir repository_id :
  traces always (reconcile_temporary_import_refs resolve clock path root dir repository_id) (fun _ _ => True).
Proof.
  eapply traces_bind; [apply traces_read|]. intros p.
  eapply traces_bind; [apply (traces_lift _ _ (fun _ => payload_recorded p)); by intros|]. intros u. cbv beta.
  destruct (get p "temporary_refs") as [| | | | |claims|] eqn:Hl; try apply traces_raise; [by apply traces_ret|].
  apply (traces_bind _ _ (fun prefix w => payload_recorded p w /\ is_ref prefix = true)).
  { apply traces_lift. intros prefix w Hp Hw. split; [done | by eapply owner_prefix_is_ref]. }
  intros prefix. apply traces_fact. intros Hp.
  eapply traces_bind; [|intros; by apply traces_ret]. apply (traces_map_all _ (fun _ _ => True)). intros claim Hin.
  eapply traces_post; [|by eapply traces_reconcile_claim]. by intros.
Qed.

(** ** Refs of results *)

Lemma object_id_plain s : is_git_object_id (JStr s) = true -> plain s = true.
Proof.
  cbn. rewrite andb_true_iff. intros [_ H]. unfold plain. rewrite forallb_forall in H |- *. intros c Hc. specialize (H c Hc).
  repeat (apply orb_true_iff in H as [H|H]; [apply bool_decide_eq_true in H as ->; reflexivity|]). done.
Qed.

Lemma destination_ok v d : publication_destination v = Ok d ->
  exists f, v = JObj f /\ get f "name" = JStr (rd_name d) /\ get f "target_oid" = JStr (rd_target_oid d) /\ is_git_object_id (JStr (rd_target_oid d)) = true.
Proof.
  unfold publication_destination. destruct v as [| | | | | |f]; try done. destruct (get f "name") as [| | | |name| |] eqn:Hn; try done.
  destruct (get f "target_oid") as [| | | |oid| |] eqn:Ho; try done. destruct (is_git_object_id (JStr oid)) eqn:Hid; [|done]. cbn [negb].
  destruct (get f "expected_old_oid") as [| | | |old| |]; try done; [|destruct (is_git_object_id (JStr old)); [|done]].
  all: intros [= <-]; exists f; cbn [rd_name rd_target_oid]; by rewrite Hn, Ho.
Qed.

Lemma destinations_ok p ds d : publication_destinations p = Ok ds -> d ∈ ds ->
  publishes_ref p (rd_name d) (rd_target_oid d) /\ is_git_object_id (JStr (rd_target_oid d)) = true.
Proof.
  unfold publication_destinations. destruct (get p "ref_publication") as [| | | | | |f] eqn:Hf; try (by intros [= <-] ?%elem_of_nil).
  destruct (get f "destinations") as [| | | | | |records] eqn:Hr; try done. case_bool_decide; [|done]. intros H1 Hd.
  apply bind_Ok in H1 as (c & Hc & H1). apply bind_Ok in H1 as (r & Hres & H1). injection H1 as <-.
  apply destination_ok in Hc as (fc & Hfc & Hcn & Hct & Hcid), Hres as (fr & Hfr & Hrn & Hrt & Hrid).
  apply elem_of_cons in Hd as [->|[->|[]%elem_of_nil]%elem_of_cons]; (split; [|done]).
  - by exists f, records, "candidate", fc.
  - by exists f, records, "result", fr.
Qed.

Lemma result_names_are_refs run_key node slug c r : result_ref_names run_key node slug = Ok (c, r) -> is_ref c = true /\ is_ref r = true.
Proof. unfold result_ref_names. intros H. inv_ok. by simplify_eq. Qed.

(** The refs that the payload publishes are those of its invocation, with names git accepts. *)
Lemma traces_owned P cwd p ds : persistent P ->
  traces P (require_owned_publication_destinations cwd p ds)
    (fun _ w => P w /\ Forall (fun d => is_ref (rd_name d) = true /\ plain (rd_name d) = true) ds).
Proof.
  intros HP. unfold require_owned_publication_destinations. destruct (get p "ref_publication"); try apply traces_raise.
  do 3 (eapply traces_bind; [apply (traces_lift _ _ (fun _ => P)); by intros|]; intros ?; cbv beta).
  apply (traces_bind _ _ (fun names w => P w /\ is_ref (fst names) = true /\ is_ref (snd names) = true)).
  { apply traces_lift. intros [c r] w Hn Hw. split; [done | by eapply result_names_are_refs]. }
  intros [candidate result]. apply traces_fact. cbn [fst snd]. intros [Hc Hr].
  case_bool_decide as Hnames; cbn [negb]; [|apply traces_raise].
  apply (traces_post _ _ (fun _ w => P w /\ Forall (fun name => plain name = true) [candidate; result])).
  - intros u w [Hw Hall]. split; [done|]. rewrite <- Hnames, Forall_map in Hall.
    assert (Hrefs : Forall (fun d => is_ref (rd_name d) = true) ds) by (apply (Forall_map rd_name (fun name => is_ref name = true)); rewrite Hnames; by repeat constructor).
    rewrite !Forall_forall in *. intros d Hd. split; [by apply Hrefs | by apply Hall].
  - apply traces_for_all. intros name _. eapply traces_bind; [by apply traces_checked_ref|]. intros n. apply traces_ret. by intros w (? & _ & ?).
Qed.

(** What is deleted had its object as its value. *)
Lemma traces_matching P cwd ds : persistent P ->
  traces P (matching_destinations cwd ds) (fun l w => P w /\ Forall (fun d => d ∈ ds /\ all_zeros (rd_target_oid d) = false) l).
Proof.
  intros HP. eapply traces_bind.
  - apply (traces_map_all _ (fun d l => Forall (fun x => x = d /\ all_zeros (rd_target_oid d) = false) l)). intros d _.
    eapply traces_bind; [by apply traces_direct|]. intros current. cbv beta. apply traces_ret. intros w [Hw Hz]. split; [done|].
    case_bool_decide as Hc; [|constructor]. constructor; [|constructor]. split; [done | by apply Hz].
  - intros kept. apply traces_ret. intros w [Hw Hall]. split; [done|]. clear - Hall. apply Forall_forall. intros x Hx.
    apply list_elem_of_In, in_concat in Hx as (l & Hl & Hx). apply list_elem_of_In in Hx. apply list_elem_of_In, list_elem_of_lookup in Hl as [i Hi].
    destruct (Forall2_lookup_r _ _ _ _ _ Hall Hi) as (d & Hd & Hl). rewrite Forall_forall in Hl. destruct (Hl x Hx) as [-> Hz].
    split; [by eapply list_elem_of_lookup_2 | done].
Qed.

Lemma others_map_all {A B} (f : A -> M W B) l : (forall x, only_others (f x)) -> only_others (map_all f l).
Proof.
  intros Hf. induction l; cbn [map_all]; [apply others_ret|]. apply others_bind; [done|]. intros y.
  apply others_bind; [done|]. intros ys. apply others_ret.
Qed.

Lemma others_where cwd keep ds : only_others (destinations_where cwd keep ds).
Proof.
  apply others_bind; [|intros; apply others_ret]. apply others_map_all. intros d.
  apply others_bind; [apply others_direct | intros; apply others_ret].
Qed.

(** All the destinations are recorded. *)
Definition destinations_recorded (ds : list RefPublicationDestination) (g : W * History) : Prop :=
  Forall (fun d => recorded (rd_name d) (rd_target_oid d) g) ds.

Lemma destinations_persistent ds : persistent (destinations_recorded ds).
Proof. intros w w' Hs H. eapply Forall_impl; [exact H|]. intros d. by apply recorded_steps. Qed.

Lemma traces_delete_transaction cwd ds :
  Forall (fun d => is_ref (rd_name d) = true /\ plain (rd_name d) = true /\ plain (rd_target_oid d) = true /\ all_zeros (rd_target_oid d) = false) ds ->
  traces (destinations_recorded ds) (delete_transaction cwd ds) (fun _ _ => True).
Proof.
  intros Hds. apply traces_transaction.
  - rewrite forallb_forall. intros o (d & <- & Hd)%in_map_iff. apply list_elem_of_In in Hd. rewrite Forall_forall in Hds.
    destruct (Hds d Hd) as (H1 & H2 & H3 & H4). cbn [plain_operation]. by rewrite H1, H2, H3, H4.
  - intros w Hw. by apply Forall_map.
Qed.

Lemma traces_reconcile_destinations cwd p ds :
  Forall (fun d => is_git_object_id (JStr (rd_target_oid d)) = true) ds ->
  traces (destinations_recorded ds) (reconcile_destinations cwd p ds) (fun _ _ => True).
Proof.
  intros Hids. assert (HP := destinations_persistent ds). eapply traces_bind; [by apply traces_owned|]. intros u. cbv beta.
  apply traces_fact. intros Hown. eapply traces_bind; [by apply traces_matching|]. intros matching. cbv beta. apply traces_fact. intros Hm.
  eapply traces_bind; [apply traces_others; [done | apply others_where]|]. intros mismatched. cbv beta.
  apply (traces_bind _ _ (fun _ _ => True)).
  - destruct (is_cons matching); [|by apply traces_ret]. apply (traces_pre (destinations_recorded matching)).
    + intros w Hw. unfold destinations_recorded in *. rewrite Forall_forall in *. intros d Hd. apply Hw. by apply Hm.
    + apply traces_delete_transaction. rewrite Forall_forall in *. intros d Hd. destruct (Hm d Hd) as [Hin Hz].
      destruct (Hown d Hin) as [H1 H2]. split_and!; [done..|by apply object_id_plain, Hids|done].
  - intros u'. eapply traces_bind; [apply (traces_others always); [done | apply others_where]|]. intros remaining. by apply traces_ret.
Qed.

Lemma phase_forward path phase : forward resolve (update_workspace_ref_publication_phase resolve clock path phase).
Proof. apply edit_forward, set_phase_evolves. Qed.

Lemma traces_reconcile_result path root dir :
  traces always (reconcile_result_ref_publication resolve clock path root dir) (fun _ _ => True).
Proof.
  eapply traces_bind; [apply traces_read|]. intros p.
  eapply traces_bind; [apply (traces_lift _ _ (fun _ => payload_recorded p)); by intros|]. intros u. cbv beta.
  apply (traces_bind _ _ (fun ds w => destinations_recorded ds w /\ Forall (fun d => is_git_object_id (JStr (rd_target_oid d)) = true) ds)).
  { apply traces_lift. intros ds w Hds Hp. unfold destinations_recorded. rewrite !Forall_forall.
    split; intros d Hd; destruct (destinations_ok _ _ _ Hds Hd); [apply Hp; by right | done]. }
  intros ds. apply traces_fact. intros Hids. destruct (negb (is_cons ds)); [by apply traces_ret|].
  apply (traces_bind _ _ (fun _ _ => True)).
  { apply traces_lock; [apply destinations_persistent|by intros|by apply traces_reconcile_destinations]. }
  intros reconciliation. eapply traces_bind; [apply (traces_lift _ _ (fun _ => always)); by intros|]. intros u'. cbv beta.
  apply (traces_bind _ _ (fun _ _ => True)); [apply traces_states_true, phase_forward|]. intros u''. by apply traces_ret.
Qed.

(** A prepared publication is recorded with both of its refs. *)
Lemma prepared_recorded path request state c r s u s' d :
  update_workspace_ref_publication resolve clock path (prepared_publication request state c r) s = (Ok u, s') -> d ∈ [c; r] ->
  records_ref (state_file resolve s' path) (rd_name d) (rd_target_oid d).
Proof.
  intros H Hd. apply publication_stored in H as (p & -> & Hp). exists p. split; [done|]. right. unfold publishes_ref. rewrite Hp.
  set (destinations := stored [("candidate", JObj (destination_payload c)); ("result", JObj (destination_payload r))]).
  assert (Hlabel : exists label, get destinations label = JObj (stored (destination_payload d))).
  { apply elem_of_cons in Hd as [->|[->|[]%elem_of_nil]%elem_of_cons]; [exists "candidate" | exists "result"]; unfold destinations; by rewrite get_written. }
  destruct Hlabel as [label Hlabel].
  exists (stored (prepared_publication request state c r)), destinations, label, (stored (destination_payload d)). rewrite !get_written.
  split_and!; [done|reflexivity|done|reflexivity..].
Qed.

Lemma persist_forward request c r : forward resolve (persist_prepared_publication resolve clock request c r).
Proof.
  apply forward_after; [apply unwritten_read_state|]. intros state. apply forward_after; [apply unwritten_lift|]. intros u.
  destruct (_ && _); [apply edit_forward, set_publication_evolves | by apply forward_unwritten].
Qed.

Lemma persist_recorded request c r s u s' d : persist_prepared_publication resolve clock request c r s = (Ok u, s') -> d ∈ [c; r] ->
  records_ref (state_file resolve s' (cr_state_path request)) (rd_name d) (rd_target_oid d).
Proof.
  unfold persist_prepared_publication, mbind, M_bind, bind. destruct (read_workspace_state resolve _ s) as [[state|e|] s1]; [|done..].
  destruct (lift _ s1) as [[x|e|] s2]; [|done..]. destruct (_ && _); [|done]. apply prepared_recorded.
Qed.

Lemma zero_oid_plain oid : plain (zero_oid oid) = true.
Proof. unfold plain, zero_oid. rewrite chars_of_chars. induction (String.length oid) as [|n IH]; [done|]. cbn [replicate forallb]. by rewrite IH. Qed.

(** A result is published as plain refs to objects. *)
Definition publishable (d : RefPublicationDestination) : Prop :=
  is_ref (rd_name d) = true /\ plain (rd_name d) = true /\ plain (rd_target_oid d) = true /\ all_zeros (rd_target_oid d) = false.

(** The protected refs of a publication: names that git accepts, with values
    that it printed. *)
Definition plain_protected (protected : ProtectedRefSnapshot) : bool :=
  forallb (fun name => is_ref name && plain name) (pr_scopes protected) && forallb (fun '(_, value) => plain value) (pr_refs protected).

Lemma dict_of_values (refs : dict string) name value : dget (dict_of refs) name = Some value -> exists k, (k, value) ∈ refs.
Proof.
  induction refs as [|[k v] refs IH] using rev_ind; [done|]. rewrite dict_of_snoc, dget_dset. case_decide.
  - intros [= <-]. exists k. apply elem_of_app. right. by left.
  - intros (k' & Hk')%IH. exists k'. apply elem_of_app. by left.
Qed.

Lemma traces_publish_destinations request ds :
  plain_protected (cr_protected_refs request) = true -> Forall publishable ds ->
  traces (destinations_recorded ds) (publish_destinations request ds) (fun _ _ => True).
Proof.
  intros Hprot Hds. assert (HP := destinations_persistent ds). apply traces_lock; [done|by intros|].
  apply (traces_bind _ _ (fun _ w => destinations_recorded ds w /\ Forall (fun _ => True) ds)).
  { apply traces_for_all. intros d _. eapply traces_bind; [by apply traces_direct|]. intros [oid|]; [apply traces_raise|].
    apply traces_ret. by intros w []. }
  intros u. cbv beta zeta. set (zero := zero_oid _). assert (Hzero : plain zero = true) by apply zero_oid_plain.
  apply andb_true_iff in Hprot as [Hscopes Hvalues]. rewrite forallb_forall in Hscopes, Hvalues. rewrite Forall_forall in Hds.
  apply traces_transaction.
  - rewrite forallb_app. apply andb_true_iff. split; apply forallb_forall.
    + intros o (name & <- & Hn)%in_map_iff. apply filter_In in Hn as [Hn _]. cbn [plain_operation]. rewrite (Hscopes _ Hn). cbn [andb].
      destruct (dget _ name) as [value|] eqn:Hv; [|done]. apply dict_of_values in Hv as (k & Hk). apply list_elem_of_In in Hk. apply (Hvalues _ Hk).
    + intros o (d & <- & Hd)%in_map_iff. apply list_elem_of_In in Hd.
      destruct (Hds d Hd) as (H1 & H2 & H3 & H4). cbn [plain_operation]. by rewrite H1, H2, H3, H4, Hzero.
  - intros g [Hg _]. apply Forall_app. split.
    + apply Forall_map, Forall_forall. by intros.
    + apply Forall_map. eapply Forall_impl; [exact Hg|]. intros d Hd. split; [apply zero_oid_zeros | done].
Qed.

Lemma traces_result_destinations request candidate_commit result_commit :
  plain candidate_commit = true -> all_zeros candidate_commit = false -> plain result_commit = true -> all_zeros result_commit = false ->
  traces always (result_ref_destinations request candidate_commit result_commit) (fun ds w => always w /\ Forall publishable ds).
Proof.
  intros Hc1 Hc2 Hr1 Hr2. apply (traces_bind _ _ (fun names w => always w /\ Forall (fun n => is_ref n = true /\ plain n = true) [fst names; snd names])).
  - apply (traces_bind _ _ (fun names w => always w /\ is_ref (fst names) = true /\ is_ref (snd names) = true)).
    { apply traces_lift. intros [c r] w Hn _. split; [done | by eapply result_names_are_refs]. }
    intros [c r]. apply traces_fact. cbn [fst snd]. intros [Hc Hr].
    eapply traces_bind; [apply traces_checked_ref, always_persistent|]. intros c'. cbv beta. apply traces_fact. intros [-> Hpc].
    eapply traces_bind; [apply traces_checked_ref, always_persistent|]. intros r'. cbv beta. apply traces_fact. intros [-> Hpr].
    apply traces_ret. intros w _. split; [done|]. by repeat constructor.
  - intros [c r]. apply traces_fact. cbn [fst snd]. intros Hn. apply Forall_cons in Hn as [[H1 H2] Hn]. apply Forall_singleton in Hn as [H3 H4].
    apply traces_ret. intros w _. split; [done|]. by repeat constructor.
Qed.

Lemma traces_reconcile_after request : traces always (reconcile_after_phase_failure resolve clock request) (fun _ _ => True).
Proof.
  apply traces_try; [apply always_persistent| |].
  - eapply traces_bind; [apply traces_reconcile_result|]. intros z. by apply traces_ret.
  - intros e. destruct (is_exception e); [by apply traces_ret | apply traces_raise].
Qed.

Lemma traces_published request : traces always (record_published_phase resolve clock request) (fun _ _ => True).
Proof.
  apply traces_try; [apply always_persistent|apply traces_states_true, phase_forward|]. intros e.
  apply (traces_bind _ _ (fun _ _ => True)); [|intros; apply traces_raise].
  destruct (is_exception e); [apply traces_reconcile_after | by apply traces_ret].
Qed.

Lemma traces_publish request candidate_commit result_commit :
  plain_protected (cr_protected_refs request) = true ->
  plain candidate_commit = true -> all_zeros candidate_commit = false -> plain result_commit = true -> all_zeros result_commit = false ->
  traces always (publish_result_refs resolve clock request candidate_commit result_commit) (fun _ _ => True).
Proof.
  intros Hprot Hc1 Hc2 Hr1 Hr2. eapply traces_bind; [by apply traces_result_destinations|]. intros ds. cbv beta. apply traces_fact. intros Hds.
  destruct ds as [|c [|r [|]]]; try apply traces_raise.
  apply (traces_bind _ _ (fun _ => destinations_recorded [c; r])).
  { apply traces_states; [apply persist_forward|]. intros w u s' _ Hs. apply Forall_forall. intros d Hd.
    eapply stored_recorded. by eapply persist_recorded. }
  intros u. eapply traces_bind; [by apply traces_publish_destinations|]. intros u'. cbv beta.
  eapply traces_bind; [apply traces_published|]. intros u''. by apply traces_ret.
Qed.

(** ** Sessions *)

(** The calls that change refs; temporary refs are deleted that the session
    imported. *)
Inductive RefCall :=
| ImportBundle (source : ExportSource) (source_commit bundle_path : string) (owner : option TemporaryRefOwner)
| DeleteImports (imported : list nat)
| ReconcileImports (state_path repo_root common_git_dir repository_id : string)
| PublishResults (request : WorktreeCaptureRequest) (candidate_commit result_commit : string)
| ReconcileResults (state_path repo_root common_git_dir : string)
| DiscardEvidence (owner : TemporaryRefOwner).

(** Commits, and the protected refs and their values, come from git. *)
Definition object (oid : string) : bool := plain oid && negb (all_zeros oid).

Definition call_on_objects (c : RefCall) : bool :=
  match c with
  | ImportBundle _ commit _ _ => object commit
  | PublishResults request candidate result => plain_protected (cr_protected_refs request) && object candidate && object result
  | _ => true
  end.

(** The call, whether it returns or raises, and the refs imported until then. *)
Definition run_ref_call (imported : list TemporaryImportRef) (c : RefCall) (w : W) : list TemporaryImportRef * W :=
  match c with
  | ImportBundle source commit bundle owner =>
      match import_source_bundle resolve clock source commit bundle owner w with
      | (Ok r, w') => (imported ++ [r], w')
      | (_, w') => (imported, w')
      end
  | DeleteImports which => (imported, snd (delete_temporary_import_refs resolve clock (omap (fun i => imported !! i) which) w))
  | ReconcileImports path root dir repository_id => (imported, snd (reconcile_temporary_import_refs resolve clock path root dir repository_id w))
  | PublishResults request candidate result => (imported, snd (publish_result_refs resolve clock request candidate result w))
  | ReconcileResults path root dir => (imported, snd (reconcile_result_ref_publication resolve clock path root dir w))
  | DiscardEvidence owner => (imported, snd (on_states (discard_resolved_evidence resolve owner) w))
  end.

Fixpoint run_session (imported : list TemporaryImportRef) (calls : list RefCall) (w : W) : W :=
  match calls with
  | [] => w
  | c :: rest => let '(imported', w') := run_ref_call imported c w in run_session imported' rest w'
  end.

Lemma traces_run {A} (P : W * History -> Prop) (m : M W A) Q w h : traces P m Q -> P (w, h) -> exists h', rtc ref_step (w, h) (snd (m w), h').
Proof. intros Hm Hw. destruct (m w) as [r w'] eqn:Hrun. destruct (Hm _ _ _ _ Hw Hrun) as (h' & Hs & _). by exists h'. Qed.

(** Evidence is unlinked only when it is resolved. *)
Lemma traces_discard owner : traces always (on_states (discard_resolved_evidence resolve owner)) (fun _ _ => True).
Proof.
  intros w h r w' _ Hrun. unfold on_states, zoom in Hrun. destruct (discard_resolved_evidence _ _ _) as [o s'] eqn:Hd. injection Hrun as _ <-.
  exists (noted h (rf_set_store s' w)). split; [|done]. apply rtc_once.
  assert (Hkept : s' = rf_store w -> ref_step (w, h) (rf_set_store s' w, noted h (rf_set_store s' w))).
  { intros ->. apply ref_states; [|apply rl_refs]. intros path. rewrite rl_store. reflexivity. }
  unfold discard_resolved_evidence, mbind, M_bind, bind, read in Hd.
  destruct (to_initial_payload owner); [|by injection Hd as _ <-; apply Hkept].
  destruct (state_file resolve (rf_store w) (to_state_path owner)) as [| | |v] eqn:Hf;
    try (by unfold read_workspace_state, mbind, M_bind, bind, read in Hd; rewrite ?Hf in Hd; injection Hd as _ <-; apply Hkept).
  unfold read_workspace_state, mbind, M_bind, bind, read in Hd. rewrite Hf in Hd.
  destruct v as [| | | | | |p]; try (by injection Hd as _ <-; apply Hkept). unfold ret in Hd.
  destruct (get p "temporary_refs") as [| | | | |claims|] eqn:Hc; try (by injection Hd as _ <-; apply Hkept).
  destruct (forallb claim_is_removed claims) eqn:Hall; [|by injection Hd as _ <-; apply Hkept].
  injection Hd as _ <-. apply (ref_unlinks (to_state_path owner)); [|apply rl_refs]. split; [by eauto|]. intros path'. rewrite rl_store.
  unfold state_file. cbn [sw_files]. case_decide as He; [by rewrite He, lookup_delete_eq|]. by rewrite lookup_delete_ne by congruence.
Qed.

Definition imports_valid (imported : list TemporaryImportRef) (g : W * History) : Prop :=
  imports_recorded imported g /\ Forall (fun r => is_ref (ti_name r) = true) imported.

Lemma call_steps imported c w h imported' w' :
  call_on_objects c = true -> imports_valid imported (w, h) -> run_ref_call imported c w = (imported', w') ->
  exists h', rtc ref_step (w, h) (w', h') /\ imports_valid imported' (w', h').
Proof.
  intros Hok [Hrec Hrefs] Hrun.
  assert (Hsame : forall w', (exists h', rtc ref_step (w, h) (w', h')) -> exists h', rtc ref_step (w, h) (w', h') /\ imports_valid imported (w', h')).
  { intros w2 [h' Hs]. exists h'. split; [done|]. split; [by eapply imports_persistent | done]. }
  destruct c; cbn [run_ref_call call_on_objects] in *.
  - apply andb_true_iff in Hok as [_ Hz]. apply negb_true_iff in Hz.
    assert (Ht := traces_import source source_commit bundle_path owner Hz w h).
    destruct (import_source_bundle _ _ _ _ _ _ w) as [o w1]. destruct (Ht _ _ I eq_refl) as (h' & Hs & Hpost). exists h'.
    destruct o as [r|e|]; injection Hrun as <- <-; (split; [done|]); [|by split; [eapply imports_persistent|]..].
    destruct (Hpost r eq_refl) as [Hr Hn]. split; [|apply Forall_app; by split; [|apply Forall_singleton]].
    intros x [Hx|Hx%list_elem_of_singleton]%elem_of_app; [|by subst]. by eapply imports_persistent.
  - injection Hrun as <- <-. apply Hsame. set (chosen := omap _ _).
    assert (Hsub : forall r, r ∈ chosen -> r ∈ imported).
    { intros r (i & _ & Hi)%list_elem_of_omap. by eapply list_elem_of_lookup_2. }
    eapply traces_run; [apply traces_delete_all|].
    + rewrite Forall_forall in *. intros r Hr. by apply Hrefs, Hsub.
    + intros r Hr. by apply Hrec, Hsub.
  - injection Hrun as <- <-. apply Hsame. by eapply traces_run; [apply traces_reconcile_temporary|].
  - injection Hrun as <- <-. apply Hsame. unfold object in Hok. rewrite !andb_true_iff, !negb_true_iff in Hok. destruct Hok as [[Hp [? ?]] [? ?]].
    by eapply traces_run; [apply traces_publish|].
  - injection Hrun as <- <-. apply Hsame. by eapply traces_run; [apply traces_reconcile_result|].
  - injection Hrun as <- <-. apply Hsame. by eapply traces_run; [apply traces_discard|].
Qed.

Lemma session_steps calls imported w h :
  forallb call_on_objects calls = true -> imports_valid imported (w, h) -> exists h', rtc ref_step (w, h) (run_session imported calls w, h').
Proof.
  revert imported w h. induction calls as [|c calls IH]; intros imported w h Hok Hv; [by exists h|]. cbn in Hok. apply andb_true_iff in Hok as [Hc Hok].
  cbn [run_session]. destruct (run_ref_call imported c w) as [imported' w1] eqn:Hrun. destruct (call_steps _ _ _ _ _ _ Hc Hv Hrun) as (h1 & Hs & Hv').
  destruct (IH _ _ _ Hok Hv') as [h2 Hs']. exists h2. by etransitivity.
Qed.

End Trace.


(** ** A repository *)

Module RepositoryExample.

Record Repo := mkRepo { rp_store : StateStore; rp_refs : gmap string string; rp_ids : nat }.

Definition set_refs (refs : gmap string string) (w : Repo) : Repo := mkRepo (rp_store w) refs (rp_ids w).

Definition has_value (refs : gmap string string) (name old : string) : bool :=
  bool_decide (refs !! name = if all_zeros old then None else Some old).

Definition accepts (refs : gmap string string) (o : RefOperation) : bool :=
  match o with
  | VerifyRef name old | UpdateRef name _ old => has_value refs name old
  | DeleteRef name old => bool_decide (refs !! name = Some old)
  end.

Definition perform (refs : gmap string string) (o : RefOperation) : gmap string string :=
  match o with
  | VerifyRef _ _ => refs
  | UpdateRef name new _ => <[name := new]> refs
  | DeleteRef name _ => delete name refs
  end.

(** Every operation is checked before any is done; a ref has one operation. *)
Definition transact (operations : list RefOperation) (w : Repo) : GitResult * Repo :=
  if bool_decide (NoDup (map operation_name operations)) && forallb (accepts (rp_refs w)) operations
  then (GitDone "", set_refs (foldl perform (rp_refs w) operations) w)
  else (GitFailed 128 "fatal: cannot lock ref" "update-ref failed", w).

Definition parse_operation (line : string) : option RefOperation :=
  match str_split_on " "%char line with
  | [verb; name; old] =>
      if bool_decide (verb = "verify") then Some (VerifyRef name old)
      else if bool_decide (verb = "delete") then Some (DeleteRef name old) else None
  | [verb; name; new; old] => if bool_decide (verb = "update") then Some (UpdateRef name new old) else None
  | _ => None
  end.

Fixpoint parse_operations (lines : list string) : option (list RefOperation) :=
  match lines with
  | option_line :: line :: rest =>
      if bool_decide (option_line = "option no-deref") then o ← parse_operation line; os ← parse_operations rest; Some (o :: os)
      else if bool_decide (lines = ["prepare"; "commit"; ""]) then Some [] else None
  | _ => None
  end.

Definition parse_transaction (lines : list string) : option (list RefOperation) :=
  match lines with start :: rest => if bool_decide (start = "start") then parse_operations rest else None | [] => None end.

Definition run_git (args input : list string) (w : Repo) : GitResult * Repo :=
  let unknown := (GitFailed 129 "usage: git" "git failed", w) in
  match args with
  | [command; option; x] =>
      if bool_decide (command = "check-ref-format") then if plain x then (GitDone x, w) else (GitFailed 1 "" "check-ref-format failed", w)
      else if bool_decide (command = "symbolic-ref") then (GitFailed 1 "" "symbolic-ref failed", w)
      else if bool_decide (command = "rev-parse") then
        match rp_refs w !! x with
        | Some oid => if all_zeros (str_strip oid) then unknown else (GitDone oid, w)
        | None => (GitFailed 128 "fatal: Needed a single revision" "rev-parse failed", w)
        end
      else if bool_decide (command = "bundle") || bool_decide (command = "cat-file") then (GitDone "", w)
      else unknown
  | [command; option; a; b; c] =>
      if bool_decide (command = "update-ref") then if bool_decide (a = "-d") then transact [DeleteRef b c] w else transact [UpdateRef a b c] w
      else unknown
  | [command; option] =>
      if bool_decide (command = "update-ref") then match parse_transaction input with Some operations => transact operations w | None => unknown end
      else unknown
  | _ => unknown
  end.

#[local] Instance host : RefHost Repo := {|
  rf_store := rp_store;
  rf_set_store s w := mkRepo s (rp_refs w) (rp_ids w);
  rf_git _ args input w := run_git args input w;
  rf_lock _ := ret tt;
  rf_unlock _ := ret tt;
  rf_uuid := fun w => (Ok (pretty (N.of_nat (rp_ids w)) +:+ "-0123456789abcdef"), mkRepo (rp_store w) (rp_refs w) (S (rp_ids w)))
|}.

(** Others only draw identifiers. *)
#[local] Instance view : RefView Repo := {|
  rv_refs w name := DirectRef <$> rp_refs w !! name;
  rv_others w w' := rp_store w = rp_store w' /\ rp_refs w = rp_refs w'
|}.

(** ** The laws *)

Lemma plain_no_space s : plain s = true -> Forall (fun c => c <> " "%char) (chars s).
Proof. unfold plain. rewrite forallb_forall, Forall_forall. intros H c Hc ->. apply list_elem_of_In in Hc. by specialize (H _ Hc). Qed.

Lemma split_word s rest : Forall (fun c => c <> " "%char) (chars s) ->
  str_split_on " "%char (s +:+ " " +:+ rest) = s :: str_split_on " "%char rest.
Proof.
  intros Hs. unfold str_split_on. rewrite !chars_app, split_on_skip by done. simpl. by rewrite app_nil_r, reverse_involutive, of_chars_chars.
Qed.

Lemma split_last_word s : Forall (fun c => c <> " "%char) (chars s) -> str_split_on " "%char s = [s].
Proof.
  intros Hs. unfold str_split_on. rewrite <- (app_nil_r (chars s)), split_on_skip by done. simpl.
  by rewrite app_nil_r, reverse_involutive, of_chars_chars.
Qed.

(** Plain operations read back as they are written. *)
Lemma parse_plain o : plain_operation o = true -> parse_operation (operation_text o) = Some o.
Proof.
  assert (Hv : forall verb, plain verb = true -> forall rest, str_split_on " "%char (verb +:+ " " +:+ rest) = verb :: str_split_on " "%char rest).
  { intros verb Hp rest. by apply split_word, plain_no_space. }
  assert (Hw : forall s, plain s = true -> str_split_on " "%char s = [s]) by (intros s Hs; by apply split_last_word, plain_no_space).
  destruct o as [name old|name new old|name old]; cbn [plain_operation operation_text]; rewrite !andb_true_iff; intros Hp; destruct_and!;
    unfold parse_operation.
  - change ("verify " +:+ name +:+ " " +:+ old) with ("verify" +:+ " " +:+ (name +:+ " " +:+ old)). by rewrite !Hv, Hw by done.
  - change ("update " +:+ name +:+ " " +:+ new +:+ " " +:+ old) with ("update" +:+ " " +:+ (name +:+ " " +:+ (new +:+ " " +:+ old))).
    by rewrite !Hv, Hw by done.
  - change ("delete " +:+ name +:+ " " +:+ old) with ("delete" +:+ " " +:+ (name +:+ " " +:+ old)). by rewrite !Hv, Hw by done.
Qed.

Lemma parse_transaction_lines operations : forallb plain_operation operations = true ->
  parse_transaction (transaction_lines operations) = Some operations.
Proof.
  unfold parse_transaction, transaction_lines. cbn [app]. rewrite bool_decide_eq_true_2 by done.
  induction operations as [|o os IH]; cbn [forallb]; [done|]. rewrite andb_true_iff. intros [Ho Hos]. specialize (IH Hos).
  cbn [map concat app parse_operations]. rewrite bool_decide_eq_true_2 by done. rewrite (parse_plain o Ho). cbn. by rewrite IH.
Qed.

Lemma perform_other refs o name : operation_name o <> name -> perform refs o !! name = refs !! name.
Proof. destruct o; cbn; intros Hn; [done|by rewrite lookup_insert_ne|by rewrite lookup_delete_ne]. Qed.

Lemma performed_other operations refs name : name ∉ map operation_name operations -> foldl perform refs operations !! name = refs !! name.
Proof.
  revert refs. induction operations as [|o os IH]; intros refs Hn; [done|]. cbn in *. apply not_elem_of_cons in Hn as [Hn Hr].
  rewrite IH by done. by apply perform_other.
Qed.

(** An operation decides the value of its ref. *)
Lemma performed operations refs o : NoDup (map operation_name operations) -> o ∈ operations ->
  foldl perform refs operations !! operation_name o = perform refs o !! operation_name o.
Proof.
  revert refs. induction operations as [|x os IH]; intros refs Hnd Ho; [by apply elem_of_nil in Ho|]. cbn in *.
  apply NoDup_cons in Hnd as [Hx Hnd]. apply elem_of_cons in Ho as [->|Ho]; [by apply performed_other|]. rewrite IH by done.
  assert (Hne : operation_name x <> operation_name o) by (intros Heq; rewrite Heq in Hx; apply Hx; apply list_elem_of_fmap; by exists o).
  destruct o as [name old|name new old|name old]; cbn [operation_name perform] in *;
    [by apply perform_other|by rewrite !lookup_insert_eq|by rewrite !lookup_delete_eq].
Qed.

Lemma transact_changes operations w r w' : transact operations w = (r, w') -> changes operations r w w'.
Proof.
  unfold transact. destruct (bool_decide _ && _) eqn:Hok; intros [= <- <-]; cbn; [|by left].
  apply andb_true_iff in Hok as [Hnd Hall]. apply bool_decide_eq_true in Hnd. rewrite forallb_forall in Hall.
  eexists w, _. split_and!; [done| |done]. split_and!; [| |done].
  - intros o Ho. specialize (Hall o (proj1 (list_elem_of_In _ _) Ho)). assert (Hp := performed operations (rp_refs w) o Hnd Ho).
    destruct o as [name old|name new old|name old]; cbn [accepts has_value operation_name perform] in *; apply bool_decide_eq_true in Hall; cbn.
    + rewrite Hall. unfold old_value. by destruct (all_zeros old).
    + rewrite Hall, Hp, lookup_insert_eq. split; [|done]. unfold old_value. by destruct (all_zeros old).
    + by rewrite Hall, Hp, lookup_delete_eq.
  - intros name Hn. cbn. by rewrite performed_other.
Qed.

#[local] Instance repository_laws : RefLaws id host view.
Proof.
  split.
  - split; [done | intros x y z [H1 H2] [H3 H4]; split; congruence].
  - done.
  - done.
  - intros cwd args input w r w' Hu Hg. cbn in Hg. unfold run_git in Hg.
    repeat case_match; simplify_eq; try done; destruct Hu; cbn; f_equal; by eapply bool_decide_eq_true_1.
  - intros cwd ref w out w' Hg. cbn in Hg. unfold run_git in Hg. repeat case_match; by simplify_eq.
  - intros cwd name new old w r w' Hn _ Hg. apply transact_changes. cbn in Hg. unfold run_git in Hg.
    repeat (case_bool_decide; try done); by subst.
  - intros cwd name old w r w' _ _ Hg. apply transact_changes. exact Hg.
  - intros cwd operations w r w' Hp Hg. cbn [rf_git host] in Hg. unfold run_git in Hg.
    rewrite bool_decide_eq_true_2, parse_transaction_lines in Hg by done.
    by apply transact_changes.
  - intros cwd ref w out w' Hg _. cbn in Hg. unfold run_git in Hg. repeat (case_match; try done); by simplify_eq.
  - by intros dir w r w' [= <- <-].
  - by intros dir w r w' [= <- <-].
  - by intros w r w' [= <- <-].
Qed.

(** ** A session of a worktree *)

#[local] Instance hash : HashLibrary := constant_hash.

Definition source : ExportSource := mkExportSource "/repo" "/repo/.git" "repo" ".".
Definition slug : string := default "" (state_invocation_slug StateExample.payload).

(** A ref that the worktree consumed, and the refs of its result. *)
Definition consumed : string := "refs/crewplane/runs/run/plan/p-1/result".
Definition protected : ProtectedRefSnapshot :=
  mkProtected [fst StateExample.ref_names; snd StateExample.ref_names; consumed] [(consumed, StateExample.oid "b")].

Definition request : WorktreeCaptureRequest := mkCapture "run" source "/repo" "build" "t" StateExample.path slug protected.
Definition start : Repo := mkRepo StateExample.start {[consumed := StateExample.oid "b"]} 0.

(** Evidence of its own, for an artifact consumer. *)
Definition evidence : string := "/run/stage/workspace-temporary-refs-1.json".
Definition evidence_owner : TemporaryRefOwner :=
  mkRefOwner evidence
    (Some [("evidence_kind", JStr "temporary_ref_cleanup"); ("run_id", JStr "id"); ("run_key_name", JStr "run"); ("node_id", JStr "build");
           ("task_id", JStr "reader"); ("role", JStr "artifact_consumer"); ("round_num", JInt 0); ("audit_round_num", JNull);
           ("git", JObj [("repo_id", JStr "repo")]); ("temporary_refs", JList [])]).

Definition import_calls : list RefCall :=
  [ImportBundle source (StateExample.oid "a") "/cache/source.bundle" (Some (mkRefOwner StateExample.path None));
   ImportBundle source (StateExample.oid "a") "/cache/source.bundle" (Some evidence_owner)].
Definition publish_calls : list RefCall :=
  import_calls ++ [DeleteImports [0%nat; 1%nat]; DiscardEvidence evidence_owner;
                   PublishResults request (StateExample.oid "c") (StateExample.oid "d")].
Definition remove_calls : list RefCall := publish_calls ++ [ReconcileResults StateExample.path "/repo" "/repo/.git"].

Definition after (calls : list RefCall) : Repo := run_session id StateExample.clock [] calls start.
Definition values_after (calls : list RefCall) : list string := sorted_str (map snd (map_to_list (rp_refs (after calls)))).


End RepositoryExample.
