(* ===== verification/ForeachCompilation.v ===== *)
(** Foreach sources before compilation: core/preflight/foreach/compilation.py.

    Groups are checked against the authored workflow, then the nodes of their
    child workflows join the inventory that the compiler reads; a compiled
    inventory is divided into the parent's records and one frozen template per
    group.  The digest of a template is an argument. *)

From Stdlib Require Import ZArith Lia Ascii String.
From stdpp Require Import base gmap sets list strings relations.
From S2P Require Import Redaction RuntimeConfig.
From S2P Require Import Prelude PyStr StateExn Models Graph Artifacts RunState Composition PlanRecords PlanContract.
From S2P Require Import Foreach WorkspaceSelection PreflightState PreflightFilesystem PreflightRender.
From S2P Require Import WorkflowValidation PreflightCompiler.

Open Scope string_scope.
Open Scope list_scope.
Open Scope Z_scope.

(** ** Checks of a group *)

(** A reference of a prompt to a node under a prefix. *)
Definition references_namespace (prefix : string) (node : WorkflowNode) : bool :=
  existsb (fun segment =>
    existsb (fun '(id, _) => starts_with (chars prefix) id)
      (find_all match_artifact_reference 0 (chars (seg_content segment))))
    (node_prompt_segments node).

(** Code: core/preflight/foreach/compilation.py, _validate_namespace. *)
Definition validate_namespace (workflow : WorkflowPlan) (group_id : string) : outcome unit :=
  let prefix := group_id +:+ "." in
  _ ← each (fun node =>
        _ ← require (negb (str_startswith prefix (node_id node) || existsb (str_startswith prefix) (node_needs node)))
              ("Foreach " +:+ quoted group_id +:+ " reserves node namespace " +:+ quoted prefix);
        require (negb (references_namespace prefix node))
          ("Parent prompts cannot reference generated namespace " +:+ quoted prefix)) (plan_nodes workflow);
  require (negb (existsb (str_startswith prefix) (dkeys (plan_worktrees workflow))))
    ("Foreach " +:+ quoted group_id +:+ " reserves worktree namespace " +:+ quoted prefix).

(** Code: core/preflight/foreach/compilation.py, _validate_collection_artifact. *)
Definition validate_collection_artifact (group_id : string) (producer : WorkflowNode) (artifact : string) : outcome unit :=
  _ ← require (negb (bool_decide (artifact = "output") &&
                     negb (bool_decide (node_mode producer = InputMode) || bool_decide (node_mode producer = Foreach))))
        ("Foreach " +:+ quoted group_id +:+ " collection output must come from an input or foreach node");
  require (negb (bool_decide (artifact = "findings") &&
                 (negb (node_findings producer) ||
                  negb (Z.of_nat (length (List.filter (fun provider => bool_decide (provider_role provider = EXECUTOR))
                                            (node_providers producer))) =? 1))))
    ("Foreach " +:+ quoted group_id +:+ " requires available single-executor findings from " +:+ quoted (node_id producer)).

(** Code: core/preflight/foreach/compilation.py, _validate_collection_sources. *)
Definition validate_collection_sources (group : WorkflowNode) (nodes : dict WorkflowNode) (ancestors : gset string) : outcome unit :=
  let inputs : gset string := list_to_set (map snd (node_inputs group)) in
  sources ← match node_items group with
            | Some (ItemsReference reference) =>
                '(producer, artifact) ← collection_reference reference;
                _ ← match dget nodes producer with
                    | Some node => validate_collection_artifact (node_id group) node artifact
                    | None => Ok tt
                    end;
                mret ({[producer]} ∪ inputs)
            | _ => mret inputs
            end;
  require (bool_decide (sources ⊆ ancestors))
    ("Foreach " +:+ quoted (node_id group) +:+ " sources must be ancestors through authored needs: "
     +:+ str_join ", " (sorted_str (elements (sources ∖ ancestors)))).

(** [len(group.items) if isinstance(group.items, list) else group.max_items]. *)
Definition item_count (group : WorkflowNode) : option Z :=
  match node_items group with Some (InlineItems items) => Some (Z.of_nat (length items)) | _ => node_max_items group end.

(** ** The inventory *)

(** Code: core/preflight/foreach/compilation.py, _inventory_parent_node. *)
Definition inventory_parent_node (workflow : WorkflowPlan) (node : WorkflowNode) : WorkflowNode :=
  match node_mode node with
  | InputMode | Foreach => node
  | _ => with_worktree (Some (selector_or (selected_worktree_name workflow node) PROJECT_ROOT_WORKTREE_SELECTOR)) node
  end.

(** Code: core/preflight/foreach/compilation.py, _inventory_child_node. *)
Definition inventory_child_node (node : ComposedNode) : WorkflowNode :=
  match node_mode (cn_payload node) with
  | InputMode => cn_payload node
  | _ => with_worktree
           (Some (selector_or (node_worktree (cn_payload node))
                    (selector_or (cn_implicit_worktree_selector node) PROJECT_ROOT_WORKTREE_SELECTOR))) (cn_payload node)
  end.

(** Code: core/preflight/foreach/compilation.py, inventory_workflow. *)
Definition inventory_workflow (source : PreflightWorkflowSource) : WorkflowPlan :=
  let workflow := ws_workflow source in
  match ws_foreach_templates source with
  | [] => workflow
  | templates =>
      mkPlan (plan_schema_version workflow) (plan_name workflow) (plan_description workflow)
        (plan_repeat_force_run_count workflow) (plan_inputs workflow)
        (foldl (fun worktrees '(_, template) => dict_update worktrees (fe_worktrees template)) (plan_worktrees workflow) templates)
        (map (inventory_parent_node workflow) (plan_nodes workflow) ++
         concat (map (fun '(_, template) => map inventory_child_node (fe_nodes template)) templates))
  end.

(** [replace(source, workflow=workflow)]. *)
Definition with_workflow (workflow : WorkflowPlan) (s : PreflightWorkflowSource) : PreflightWorkflowSource :=
  mkSource workflow (ws_node_source_paths s) (ws_node_source_spans s) (ws_prompt_segment_spans s) (ws_foreach_templates s).

Definition is_group (node : WorkflowNode) : bool := bool_decide (node_mode node = Foreach).

(** The checks of one group and the bound on generated nodes with it.
    Code: core/preflight/foreach/compilation.py:52-64. *)
Definition check_group (source : PreflightWorkflowSource) (ancestors : dict (gset string)) (bound : Z) (group : WorkflowNode)
    : outcome Z :=
  match dget (ws_foreach_templates source) (node_id group) with
  | None => Raise (ValueError ("Foreach " +:+ quoted (node_id group) +:+ " requires a composed Markdown child workflow"))
  | Some template =>
      _ ← validate_namespace (ws_workflow source) (node_id group);
      mine ← ditem ancestors (node_id group);
      _ ← validate_collection_sources group (nodes_by_id (ws_workflow source)) mine;
      match item_count group with
      | None => Raise (ValueError ("Foreach " +:+ quoted (node_id group) +:+ " has no max_items"))
      | Some count => mret (bound + count * Z.of_nat (length (fe_nodes template)))
      end
  end.

(** Code: core/preflight/foreach/compilation.py, compilation_source. *)
Definition compilation_source (source : PreflightWorkflowSource) (config : Config) : outcome PreflightWorkflowSource :=
  match List.filter is_group (plan_nodes (ws_workflow source)) with
  | [] => mret source
  | groups =>
      match cg_max_concurrent_nodes config with
      | None => Raise (ValueError "Foreach workflows require explicit finite settings.max_concurrent_nodes")
      | Some _ =>
          ancestors ← ancestor_map (ws_workflow source);
          bound ← for_each (check_group source ancestors) groups 0;
          if cg_max_expanded_nodes config <? bound
          then Raise (ValueError ("Foreach generated-node bound " +:+ str_int bound +:+ " exceeds settings.max_expanded_nodes "
                                  +:+ str_int (cg_max_expanded_nodes config)))
          else mret (with_workflow (inventory_workflow source) source)
      end
  end.

(** ** Partition of a compiled inventory *)

(** [node_id in ids] on an optional id. *)
Definition owned_by (o : option string) (ids : list string) : bool := match o with Some id => str_in id ids | None => false end.

Section Finish.
Variable semantic_digest : CompiledForeach -> string.

(** The template of a group before its digest is known.
    Code: core/preflight/foreach/compilation.py:186-218. *)
Definition undigested_template (group : WorkflowNode) (child : ComposedForeach) (preview : PreflightCompilationPreview)
    (ids child_order : list string) (child_nodes : list PreflightExecutionNode) (workflow : string) (items : list json + string)
    (limit : Z) (digest : string) : CompiledForeach :=
  mkCompiledForeach (node_id group) (fe_namespace child) workflow items limit (fe_item_node_id child) (fe_shared_bindings child)
    (fe_parameters child) (node_needs group) digest child_order child_nodes
    (List.filter (fun render => owned_by (rp_node_id render) ids) (pv_render_plans preview))
    (List.filter (fun locator => str_in (wl_node_id locator) ids) (pv_workspace_file_locators preview))
    (List.filter (fun token => str_in (te_node_id token) ids) (pv_token_catalog preview))
    (List.filter (fun edge => str_in (de_target_node edge) ids) (pv_dependency_graph preview)).

(** Code: core/preflight/foreach/compilation.py, _compile_foreach_template. *)
Definition compile_foreach_template (group : WorkflowNode) (child : ComposedForeach) (preview : PreflightCompilationPreview)
    (nodes : dict PreflightExecutionNode) : outcome CompiledForeach :=
  let ids := map (fun node => node_id (cn_payload node)) (fe_nodes child) in
  child_nodes ← mapM (M := outcome) (ditem nodes) (List.filter (fun id => str_in id ids) (pv_execution_order preview));
  let incomplete {A} : outcome A := Raise (ValueError ("Incomplete foreach " +:+ quoted (node_id group))) in
  match node_workflow group, node_items group with
  | Some workflow, Some group_items =>
      '(items, limit) ← match group_items, node_max_items group return outcome ((list json + string) * Z) with
                        | InlineItems items, Some limit => mret (inl items, limit)
                        | InlineItems items, None => mret (inl items, Z.of_nat (length items))
                        | ItemsReference reference, Some limit => mret (inr reference, limit)
                        | ItemsReference _, None => incomplete
                        end;
      let template := undigested_template group child preview ids (map en_id child_nodes) child_nodes workflow items limit in
      mret (template (semantic_digest (template "")))
  | _, _ => incomplete
  end.

(** Code: core/preflight/foreach/compilation.py, _parent_preview. *)
Definition parent_preview (preview : PreflightCompilationPreview) (authored : list string) (templates : list CompiledForeach)
    : PreflightCompilationPreview :=
  mkPreview (pv_workflow_name preview) (pv_workflow_signature preview)
    (List.filter (fun id => str_in id authored) (pv_execution_order preview))
    templates
    (List.filter (fun node => str_in (en_id node) authored) (pv_nodes preview))
    (List.filter (fun render => owned_by (rp_node_id render) authored) (pv_render_plans preview))
    (pv_static_resources preview)
    (List.filter (fun locator => str_in (wl_node_id locator) authored) (pv_workspace_file_locators preview))
    (List.filter (fun token => str_in (te_node_id token) authored) (pv_token_catalog preview))
    (List.filter (fun edge => str_in (de_target_node edge) authored) (pv_dependency_graph preview))
    (pv_diagnostics preview) (pv_value_fingerprints preview) (pv_sensitive_values_required preview)
    (pv_fingerprint_key_persisted preview) (pv_persisted_key_path preview) (pv_secret_context preview)
    (pv_static_file_payloads preview) (pv_workspace_file_payloads preview).

(** Code: core/preflight/foreach/compilation.py, finish_foreach_preview. *)
Definition finish_foreach_preview (source : PreflightWorkflowSource) (preview : PreflightCompilationPreview)
    : outcome PreflightCompilationPreview :=
  let nodes := dict_of (map (fun node => (en_id node, node)) (pv_nodes preview)) in
  let authored := nodes_by_id (ws_workflow source) in
  templates ← mapM (M := outcome) (fun '(group_id, child) =>
                group ← ditem authored group_id; compile_foreach_template group child preview nodes) (ws_foreach_templates source);
  mret (parent_preview preview (dkeys authored) templates).

End Finish.
