(* ===== verification/PromptAssembly.v ===== *)
(** Assembly of prompts from compiled fragments:
    runtime/execution/{fragment_assembler,preflight_files,prompt_budgeting}.py.

    [PromptSources] stands for what an execution reads: the files of the
    preflight bundle below the run's context root, the verified artifacts of
    finished nodes, and the files of managed workspaces. *)

From Stdlib Require Import ZArith Lia Ascii String.
From stdpp Require Import base gmap sets list strings.
From S2P Require Import Prelude PyStr StateExn Models Artifacts Composition PlanRecords PlanContract PreflightState.

Open Scope string_scope.
Open Scope list_scope.
Open Scope Z_scope.

(** Code: architecture/contracts/artifacts.py, VerifiedNodeArtifact. *)
Record VerifiedNodeArtifact := mkVerified {
  va_path : string;
  va_payload : string;
  va_size_bytes : Z;
  va_sha256 : string
}.

(** The part of a resolved workspace file that the assembler reads.
    Code: runtime/execution/workspace_files/models.py, ResolvedWorkspaceFile. *)
Record ResolvedWorkspaceFile := mkResolvedWorkspaceFile { rw_locator : WorkspaceFileLocator; rw_text : string }.

(** [read_bundle content_ref limit] is [read_contained_bytes] below the preflight
    directory; [read_artifact node contract key] is
    [read_verified_node_artifact]; [decode_message] is the message of the
    [UnicodeDecodeError] for some bytes. *)
Class PromptSources := {
  read_bundle : string -> Z -> answer string;
  read_artifact : string -> ArtifactContract -> string -> answer VerifiedNodeArtifact;
  workspace_file : string -> answer ResolvedWorkspaceFile;
  decode_message : string -> string
}.

(** Code: core/workflow/keywords.py:29-31. *)
Definition OUTPUT_ARTIFACT_KEYS : list string := ["output"; "output_path"; "output_size"; "output_sha256"].

(** Code: core/workflow/keywords.py:32-34. *)
Definition FINDINGS_ARTIFACT_KEYS : list string := ["findings"; "findings_path"; "findings_size"; "findings_sha256"].

(** The plan an execution runs, with the static resources of its bundle. *)
Record RuntimePlan := mkRuntimePlan { rt_plan : PreflightExecutionPlan; rt_static_resources : list StaticResource }.

(** [len(s)] of a decoded text, which is kept as its UTF-8 bytes: the bytes that
    start a character. *)
Definition char_len (s : string) : Z := Z.of_nat (length (List.filter (fun c => negb (in_range 128 191 c)) (chars s))).

(** Code: runtime/execution/fragment_assembler.py, RuntimeLocatorInspection. *)
Record RuntimeLocatorInspection := mkInspection { ri_node_id : string; ri_artifact_name : string; ri_char_count : Z }.

(** Code: runtime/execution/fragment_assembler.py, ResolvedPrompt. *)
Record ResolvedPrompt := mkResolvedPrompt { rq_text : string; rq_workspace_files : list ResolvedWorkspaceFile }.

(** [re.fullmatch(r"[0-9a-f]{64}", s)]. *)
Definition sha256_fullmatch (s : string) : bool :=
  (String.length s =? 64)%nat && forallb (fun c => is_digit c || in_range 97 102 c) (chars s).

(** An exception of the class [ValueError] or of one of its subclasses. *)
Definition is_value_error (e : exn) : bool :=
  match e with
  | ValueError _ => true
  | OtherError cls _ => bool_decide (cls = "UnicodeDecodeError")
  | _ => false
  end.

Section Assembly.
Context {hash : HashLibrary} {sources : PromptSources}.

(** Code: runtime/execution/preflight_files.py, read_verified_static_text. *)
Definition read_verified_static_text (plan : RuntimePlan) (content_ref : string) : outcome string :=
  let context := "Static resource " +:+ quoted content_ref in
  match List.filter (fun r => bool_decide (sr_content_ref r = content_ref)) (rt_static_resources plan) with
  | [resource] =>
      if negb (bool_decide (sr_encoding resource = "utf-8")) || (sr_size_bytes resource <? 0)
         || negb (sha256_fullmatch (sr_sha256 resource))
      then Raise (ValueError (context +:+ " has invalid encoding, size, or SHA-256 metadata."))
      else
        match read_bundle content_ref (sr_size_bytes resource) with
        | inl (OSError _ | ValueError _) =>
            Raise (ValueError (context +:+ " is missing or unsafe, or exceeds its size."))
        | inl e => Raise e
        | inr payload =>
            if negb (Z.of_nat (String.length payload) =? sr_size_bytes resource)
               || negb (bool_decide (sha256 payload = sr_sha256 resource))
            then Raise (ValueError (context +:+ " bytes do not match its descriptor."))
            else
              match decode_utf8 payload with
              | None => Raise (ValueError (context +:+ " is not valid UTF-8."))
              | Some s => if has_nul s then Raise (ValueError (context +:+ " contains NUL content.")) else Ok s
              end
        end
  | _ => Raise (ValueError (context +:+ " requires exactly one descriptor."))
  end.

(** Code: runtime/execution/fragment_assembler.py, _find_stream. *)
Definition find_stream (plan : PreflightExecutionPlan) (node : PreflightExecutionNode) (target_role : ProviderRole)
    : outcome RenderStream :=
  match en_render_plan_id node with
  | None => Raise (ValueError ("Node " +:+ quoted (en_id node) +:+ " does not have a render plan."))
  | Some render_plan_id =>
      match List.find (fun stream => bool_decide (rs_target_role stream = target_role))
              (concat (map rp_streams (List.filter (fun rp => bool_decide (rp_render_plan_id rp = render_plan_id))
                                         (pp_render_plans plan)))) with
      | Some stream => Ok stream
      | None => Raise (ValueError ("Render stream " +:+ quoted (role_value target_role) +:+ " not found for node "
                                   +:+ quoted (en_id node) +:+ "."))
      end
  end.

(** Code: runtime/execution/fragment_assembler.py, _locator_parts. *)
Definition locator_parts (fragment : Fragment) : outcome (string * string) :=
  match fr_locator fragment with
  | None => Raise (ValueError "Runtime locator fragment is missing locator metadata.")
  | Some locator =>
      match dget locator "node_id", dget locator "artifact_name" with
      | Some node_id, Some artifact_name =>
          if nonempty node_id && nonempty artifact_name then Ok (node_id, artifact_name)
          else Raise (ValueError "Runtime locator fragment has incomplete locator metadata.")
      | _, _ => Raise (ValueError "Runtime locator fragment has incomplete locator metadata.")
      end
  end.

(** Code: runtime/execution/fragment_assembler.py, _artifact_contract. *)
Definition artifact_contract (plan : PreflightExecutionPlan) (node_id : string) : outcome ArtifactContract :=
  match List.find (fun node => bool_decide (en_id node = node_id)) (pp_nodes plan) with
  | Some node => Ok (en_artifact_contract node)
  | None => Raise (ValueError ("Compiled plan has no node artifact contract for " +:+ quoted node_id +:+ "."))
  end.

(** [NodeArtifactRequest] rejects a blank node id.
    Code: runtime/execution/fragment_assembler.py, _artifact. *)
Definition read_plan_artifact (plan : PreflightExecutionPlan) (node_id artifact_name : string) : outcome VerifiedNodeArtifact :=
  contract ← artifact_contract plan node_id;
  if negb (not_blank node_id) then Raise (ValueError "Artifact requests require a nonblank node_id.")
  else if str_in artifact_name OUTPUT_ARTIFACT_KEYS then answered (read_artifact node_id contract "output")
  else if str_in artifact_name FINDINGS_ARTIFACT_KEYS then
    if negb (is_some (ac_findings_path contract))
    then Raise (ValueError ("Node " +:+ quoted node_id +:+ " has no findings artifact locator."))
    else answered (read_artifact node_id contract "findings")
  else Raise (ValueError ("Unsupported artifact locator '" +:+ node_id +:+ "." +:+ artifact_name +:+ "'.")).

(** Code: runtime/execution/fragment_assembler.py, _resolve_runtime_locator. *)
Definition resolve_runtime_locator (plan : PreflightExecutionPlan) (node_id artifact_name : string) : outcome string :=
  artifact ← read_plan_artifact plan node_id artifact_name;
  if str_endswith "_path" artifact_name then Ok (va_path artifact)
  else if str_endswith "_size" artifact_name then Ok (str_int (va_size_bytes artifact))
  else if str_endswith "_sha256" artifact_name then Ok (va_sha256 artifact)
  else
    match decode_utf8 (va_payload artifact) with
    | Some s => Ok s
    | None => Raise (OtherError "UnicodeDecodeError" (decode_message (va_payload artifact)))
    end.

(** Code: runtime/execution/fragment_assembler.py, _resolve_fragment. *)
Definition resolve_fragment (plan : RuntimePlan) (secrets : dict json) (fragment : Fragment)
    : outcome (string * option ResolvedWorkspaceFile) :=
  match fr_kind fragment with
  | literal => Ok (default "" (fr_text fragment), None)
  | static_file_content =>
      match fr_content_ref fragment with
      | None => Raise (ValueError "Static file fragment is missing content_ref.")
      | Some content_ref => s ← read_verified_static_text plan content_ref; mret (s, None)
      end
  | workspace_file_locator =>
      match fr_locator fragment ≫= (fun locator => dget locator "locator_id") with
      | None => Raise (ValueError "Workspace file fragment is missing locator_id.")
      | Some locator_id => resolved ← answered (workspace_file locator_id); mret (rw_text resolved, Some resolved)
      end
  | static_env | static_var =>
      match fr_value_stored fragment, fr_value_handle fragment with
      | Some value, _ => Ok (value, None)
      | None, None => Raise (ValueError "Static value fragment is missing a value handle.")
      | None, Some handle => s ← secret_get secrets handle; mret (s, None)
      end
  | runtime_locator_lookup =>
      '(node_id, artifact_name) ← locator_parts fragment;
      s ← resolve_runtime_locator (rt_plan plan) node_id artifact_name;
      mret (s, None)
  end.

(** [try: ... except ValueError as exc: raise ValueError(f"Node ...")]. *)
Definition with_node_context {A} (node : PreflightExecutionNode) (o : outcome A) : outcome A :=
  match o with
  | Raise e => if is_value_error e
               then Raise (ValueError ("Node " +:+ quoted (en_id node) +:+ ": " +:+ exn_str e)) else Raise e
  | _ => o
  end.

(** The loop over the fragments: the text so far and the workspace files. *)
Definition assemble_fragments (plan : RuntimePlan) (node : PreflightExecutionNode) (secrets : dict json)
    (fragments : list Fragment) (start : string * list ResolvedWorkspaceFile)
    : outcome (string * list ResolvedWorkspaceFile) :=
  for_each (fun '(prompt, files) fragment =>
    '(s, file) ← with_node_context node (resolve_fragment plan secrets fragment);
    mret (prompt +:+ s, files ++ option_list file)) fragments start.

(** Code: runtime/execution/fragment_assembler.py, assemble_prompt_details. *)
Definition assemble_prompt_details (plan : RuntimePlan) (node : PreflightExecutionNode) (target_role : ProviderRole)
    (secrets : dict json) : outcome ResolvedPrompt :=
  stream ← find_stream (rt_plan plan) node target_role;
  '(prompt, files) ← assemble_fragments plan node secrets (sort_by fr_fragment_index (rs_fragments stream)) ("", []);
  mret (mkResolvedPrompt prompt files).

(** One fragment of the loop of [inspect_runtime_locators], with the locators
    seen so far.
    Code: runtime/execution/fragment_assembler.py:86-99. *)
Definition inspect_step (plan : PreflightExecutionPlan) (st : list RuntimeLocatorInspection * list (string * string))
    (fragment : Fragment) : outcome (list RuntimeLocatorInspection * list (string * string)) :=
  let '(inspections, seen) := st in
  if negb (bool_decide (fr_kind fragment = runtime_locator_lookup)) || negb (is_some (fr_locator fragment))
  then Ok (inspections, seen)
  else
    locator ← locator_parts fragment;
    if bool_decide (locator ∈ seen) then Ok (inspections, seen)
    else
      value ← resolve_runtime_locator plan (fst locator) (snd locator);
      mret (inspections ++ [mkInspection (fst locator) (snd locator) (char_len value)], locator :: seen).

(** Code: runtime/execution/fragment_assembler.py, inspect_runtime_locators. *)
Definition inspect_runtime_locators (plan : PreflightExecutionPlan) (node : PreflightExecutionNode)
    (target_role : ProviderRole) : outcome (list RuntimeLocatorInspection) :=
  stream ← find_stream plan node target_role;
  '(inspections, _) ← for_each (inspect_step plan) (rs_fragments stream) ([], []);
  mret inspections.

(** Code: runtime/execution/fragment_assembler.py, stream_has_runtime_dynamic_workspace_locator. *)
Definition stream_has_runtime_dynamic_workspace_locator (plan : PreflightExecutionPlan) (node : PreflightExecutionNode)
    (target_role : ProviderRole) : outcome bool :=
  stream ← find_stream plan node target_role;
  let locator_ids := omap (fun fragment =>
    if bool_decide (fr_kind fragment = workspace_file_locator)
    then fr_locator fragment ≫= (fun locator => dget locator "locator_id") else None) (rs_fragments stream) in
  mret (existsb (fun locator =>
    str_in (wl_locator_id locator) locator_ids
    && negb (bool_decide (wl_source_class locator = PROJECT_INITIAL))) (pp_workspace_file_locators plan)).

(** ** Prompt budgets (runtime/execution/prompt_budgeting.py) *)

(** Code: runtime/execution/prompt_budgeting.py, PromptBudgetInspection. *)
Record PromptBudgetInspection := mkBudgetInspection { pi_display_name : string; pi_char_count : Z; pi_shorten_advice : string }.

(** The state is the list of warnings logged so far; the attributes of the log
    event are left out.
    Code: runtime/execution/prompt_budgeting.py, enforce_prompt_budget. *)
Definition enforce_prompt_budget (node : PreflightExecutionNode) (inspection : PromptBudgetInspection)
    : M (list string) unit :=
  let resolves := quoted (en_id node) +:+ ": " +:+ pi_display_name inspection +:+ " resolves to "
                  +:+ str_int (pi_char_count inspection) +:+ " chars, exceeding " in
  match xp_token_budget (en_execution_policy node) with
  | None => ret tt
  | Some (warn_threshold, fail_threshold) =>
      match fail_threshold with
      | Some fail => if fail <? pi_char_count inspection
                     then raise (OtherError "PromptBudgetExceededError"
                            ("Prompt budget exceeded for node " +:+ resolves +:+ "fail threshold " +:+ str_int fail +:+ ". "
                             +:+ pi_shorten_advice inspection))
                     else ret tt
      | None => ret tt
      end;;
      match warn_threshold with
      | Some warn => when (warn <? pi_char_count inspection) (modify (fun log => log ++
                       ["Prompt budget warning for node " +:+ resolves +:+ "warn threshold " +:+ str_int warn +:+ ". "
                        +:+ pi_shorten_advice inspection]))
      | None => ret tt
      end
  end.

(** Code: runtime/execution/prompt_budgeting.py, _workspace_file_budget_inspections. *)
Fixpoint workspace_file_budget_inspections (seen : list string) (files : list ResolvedWorkspaceFile)
    : list PromptBudgetInspection :=
  match files with
  | [] => []
  | file :: rest =>
      let locator := rw_locator file in
      if str_in (wl_locator_id locator) seen then workspace_file_budget_inspections seen rest
      else mkBudgetInspection ("workspace file " +:+ quoted (wl_workspace_relative_path locator))
             (char_len (rw_text file))
             "Shorten the workspace file or raise the threshold intentionally."
           :: workspace_file_budget_inspections (wl_locator_id locator :: seen) rest
  end.

Definition locator_budget_inspection (i : RuntimeLocatorInspection) : PromptBudgetInspection :=
  mkBudgetInspection ("'" +:+ ri_node_id i +:+ "." +:+ ri_artifact_name i +:+ "'") (ri_char_count i)
    "Shorten the upstream artifact or raise the threshold intentionally.".

(** Code: runtime/execution/prompt_budgeting.py, resolve_prompt_with_output_budget_details. *)
Definition resolve_prompt_with_output_budget_details (plan : RuntimePlan) (node : PreflightExecutionNode)
    (role : ProviderRole) (secrets : dict json) : M (list string) ResolvedPrompt :=
  inspections ← lift (inspect_runtime_locators (rt_plan plan) node role);
  for_all (fun i => enforce_prompt_budget node (locator_budget_inspection i)) inspections;;
  prompt ← lift (assemble_prompt_details plan node role secrets);
  for_all (enforce_prompt_budget node) (workspace_file_budget_inspections [] (rq_workspace_files prompt));;
  if negb (not_blank (rq_text prompt)) then
    raise (NodeExecutionError ("Resolved " +:+ role_value role +:+ " prompt for node " +:+ quoted (en_id node)
                               +:+ " is empty after fragment assembly."))
  else ret prompt.

End Assembly.
