(* ===== verification/PromptBudget.v ===== *)
(** Prompt budgets: which prompts the budget of a node lets through. *)

From Stdlib Require Import ZArith Lia Ascii String.
From stdpp Require Import base gmap sets list strings.
From S2P Require Import Prelude PyStr StateExn Models Artifacts Composition PlanRecords PlanContract PreflightState PromptAssembly.

Open Scope string_scope.
Open Scope list_scope.
Open Scope Z_scope.

Section Budget.
Context {hash : HashLibrary} {sources : PromptSources}.

(** The fail threshold of a node, where it has one. *)
Definition within_budget (node : PreflightExecutionNode) (n : Z) : Prop :=
  match xp_token_budget (en_execution_policy node) with Some (_, Some fail) => n <= fail | _ => True end.

Lemma enforce_ok node i log :
  (exists log', enforce_prompt_budget node i log = (Ok tt, log')) <-> within_budget node (pi_char_count i).
Proof.
  unfold enforce_prompt_budget, within_budget. cbv zeta. destruct (xp_token_budget _) as [[warn fail]|]; [|by split; eauto].
  unfold mbind, M_bind, bind, when. destruct fail as [fail|].
  - destruct (Z.ltb_spec fail (pi_char_count i)); simpl.
    + split; [by intros [log' ?] | lia].
    + split; [done|]. intros _. destruct warn as [warn|]; simpl; [|by eauto]. case_match; by eauto.
  - split; [done|]. intros _. simpl. destruct warn as [warn|]; simpl; [|by eauto]. case_match; by eauto.
Qed.

Lemma enforce_all_ok node l : forall log,
  (exists log', for_all (enforce_prompt_budget node) l log = (Ok tt, log')) <->
  Forall (fun i => within_budget node (pi_char_count i)) l.
Proof.
  induction l as [|i l IH]; intros log; simpl; [split; [constructor | by eauto]|].
  rewrite Forall_cons, <- (enforce_ok node i log). unfold mbind, M_bind, bind.
  destruct (enforce_prompt_budget node i log) as [[[]|e|] log1] eqn:E.
  - rewrite <- (IH log1). split; [intros H; split; by eauto | by intros [_ H]].
  - split; [by intros [? ?] | by intros [[? ?] _]].
  - split; [by intros [? ?] | by intros [[? ?] _]].
Qed.

Lemma for_all_map {S A B} (f : A -> B) (body : B -> M S unit) l : forall s, for_all (fun x => body (f x)) l s = for_all body (map f l) s.
Proof.
  induction l as [|x l IH]; intros s; simpl; [done|]. unfold mbind, M_bind, bind. destruct (body (f x) s) as [[[]|e|] s']; auto.
Qed.

(** ** Upstream artifacts *)

(** A fragment that inserts an artifact of an upstream node. *)
Definition is_lookup (f : Fragment) : bool := bool_decide (fr_kind f = runtime_locator_lookup) && is_some (fr_locator f).

(** An inspection of a readable artifact. *)
Definition inspected (plan : PreflightExecutionPlan) (inspections : list RuntimeLocatorInspection) (locator : string * string) : Prop :=
  exists value, resolve_runtime_locator plan (fst locator) (snd locator) = Ok value /\
    mkInspection (fst locator) (snd locator) (char_len value) ∈ inspections.

(** Every inspection is of the locator of a fragment, and every locator that was
    seen was inspected. *)
Definition inspect_inv (plan : PreflightExecutionPlan) (all done : list Fragment)
    (st : list RuntimeLocatorInspection * list (string * string)) : Prop :=
  (forall i, i ∈ fst st -> exists f locator value, f ∈ all /\ is_lookup f = true /\ locator_parts f = Ok locator /\
     resolve_runtime_locator plan (fst locator) (snd locator) = Ok value /\ ri_char_count i = char_len value) /\
  (forall locator, locator ∈ snd st -> inspected plan (fst st) locator) /\
  (forall f, f ∈ done -> is_lookup f = true -> exists locator, locator_parts f = Ok locator /\ locator ∈ snd st).

Lemma inspect_step_ok plan all done f st st' :
  f ∈ all -> inspect_inv plan all done st -> inspect_step plan st f = Ok st' -> inspect_inv plan all (done ++ [f]) st'.
Proof.
  intros Hf (H1 & H2 & H3) H. destruct st as [inspections seen]. unfold inspect_step in H.
  destruct (is_lookup f) eqn:Hl; unfold is_lookup in Hl.
  - apply andb_true_iff in Hl as [Hk Hs]. rewrite Hk, Hs in H. simpl in H. apply bind_Ok in H as (locator & Hp & H).
    assert (Hlookup : is_lookup f = true) by (unfold is_lookup; by rewrite Hk, Hs). clear Hk Hs. case_bool_decide as Hseen.
    + injection H as <-. split_and!; [done..|]. intros g [Hg| ->%list_elem_of_singleton]%elem_of_app Hgl; [by apply H3|]. eauto.
    + apply bind_Ok in H as (value & Hv & [= <-]). split_and!; simpl.
      * intros i [Hi| ->%list_elem_of_singleton]%elem_of_app; [by apply H1|]. by exists f, locator, value.
      * intros l [-> | Hin]%elem_of_cons.
        -- exists value. split; [done|]. apply elem_of_app. right. by apply list_elem_of_singleton.
        -- destruct (H2 l Hin) as (v & Hv' & Hi). exists v. split; [done|]. apply elem_of_app. by left.
      * intros g [Hg| ->%list_elem_of_singleton]%elem_of_app Hgl.
        -- destruct (H3 g Hg Hgl) as (l & ? & ?). exists l. split; [done|]. by right.
        -- exists locator. split; [done|]. left.
  - rewrite <- negb_andb, Hl in H. simpl in H. injection H as <-. split_and!; [done..|].
    intros g [Hg| ->%list_elem_of_singleton]%elem_of_app Hgl; [by apply H3|]. unfold is_lookup in Hgl. congruence.
Qed.

Lemma inspect_loop_ok plan all fs : forall done st st', (forall f, f ∈ fs -> f ∈ all) ->
  inspect_inv plan all done st -> for_each (inspect_step plan) fs st = Ok st' -> inspect_inv plan all (done ++ fs) st'.
Proof.
  induction fs as [|f fs IH]; intros done st st' Hall Hinv H; simpl in H; [injection H as <-; by rewrite app_nil_r|].
  apply bind_Ok in H as (st1 & H1 & H). rewrite cons_middle, app_assoc. apply (IH _ st1); [intros g Hg; apply Hall; by right| |done].
  eapply inspect_step_ok; [apply Hall; left|done..].
Qed.

Lemma inspect_loop_total plan fs : forall st,
  Forall (fun f => is_lookup f = true -> exists locator value, locator_parts f = Ok locator /\
    resolve_runtime_locator plan (fst locator) (snd locator) = Ok value) fs ->
  exists st', for_each (inspect_step plan) fs st = Ok st'.
Proof.
  induction fs as [|f fs IH]; intros st H; simpl; [by eauto|]. inversion H as [|? ? Hf Hfs]; subst.
  assert (exists st1, inspect_step plan st f = Ok st1) as [st1 H1]; [|rewrite H1; simpl; by apply IH].
  destruct st as [inspections seen]. unfold inspect_step. unfold is_lookup in Hf.
  destruct (bool_decide (fr_kind f = runtime_locator_lookup)), (is_some (fr_locator f)); simpl; try by eauto.
  destruct (Hf eq_refl) as (locator & value & -> & Hv). simpl. case_bool_decide; [by eauto|]. rewrite Hv. simpl. by eauto.
Qed.

(** The inspections of a stream, whose artifacts can all be read. *)
Lemma inspections_budget plan node role stream :
  find_stream plan node role = Ok stream ->
  forall inspections, inspect_runtime_locators plan node role = Ok inspections ->
  (Forall (fun i => within_budget node (ri_char_count i)) inspections <->
   forall f locator value, f ∈ rs_fragments stream -> is_lookup f = true -> locator_parts f = Ok locator ->
     resolve_runtime_locator plan (fst locator) (snd locator) = Ok value -> within_budget node (char_len value)).
Proof.
  intros Hs inspections H. unfold inspect_runtime_locators in H. rewrite Hs in H. cbn [mbind outcome_bind] in H.
  apply bind_Ok in H as ([found seen] & H & [= <-]).
  apply (inspect_loop_ok plan (rs_fragments stream) (rs_fragments stream) [] ([], [])) in H as (H1 & H2 & H3); [|done|].
  2: { split_and!; [intros i Hi; by apply elem_of_nil in Hi | intros l Hl; by apply elem_of_nil in Hl | intros f Hf; by apply elem_of_nil in Hf]. }
  simpl in *. rewrite Forall_forall. split.
  - intros Hb f locator value Hf Hl Hp Hv. destruct (H3 f Hf Hl) as (l & Hp' & Hseen). rewrite Hp in Hp'. injection Hp' as <-.
    destruct (H2 locator Hseen) as (v & Hv' & Hi). rewrite Hv in Hv'. injection Hv' as <-. apply (Hb _ Hi).
  - intros Hb i (f & locator & value & Hf & Hl & Hp & Hv & ->)%H1. eauto.
Qed.

(** ** Assembled fragments *)

Lemma with_node_context_Ok {A} node (o : outcome A) a : with_node_context node o = Ok a <-> o = Ok a.
Proof. unfold with_node_context. destruct o as [b|e|]; [done| |done]. case_match; split; done. Qed.

Lemma assembled plan node secrets fs : forall start text files,
  assemble_fragments plan node secrets fs start = Ok (text, files) ->
  Forall (fun f => exists r, resolve_fragment plan secrets f = Ok r) fs /\
  (forall file, file ∈ files -> file ∈ snd start \/ exists f s, f ∈ fs /\ resolve_fragment plan secrets f = Ok (s, Some file)).
Proof.
  induction fs as [|f fs IH]; intros [prompt found] text files H; simpl in H.
  { injection H as <- <-. split; [constructor | by left]. }
  apply bind_Ok in H as ([prompt' found'] & H1 & H). apply bind_Ok in H1 as ([s file] & Hf & [= <- <-]).
  apply with_node_context_Ok in Hf. destruct (IH _ _ _ H) as [Hall Hfiles]. split; [constructor; [by eauto | done]|].
  intros g [Hg|(f' & s' & Hf' & Hr)]%Hfiles; [|right; exists f', s'; split; [by right | done]].
  simpl in Hg. apply elem_of_app in Hg as [Hg|Hg]; [by left|]. right. exists f, s. split; [left|].
  destruct file as [file|]; simpl in Hg; [|by apply elem_of_nil in Hg]. apply list_elem_of_singleton in Hg as ->. done.
Qed.

Lemma resolved_file plan secrets f s file : resolve_fragment plan secrets f = Ok (s, Some file) ->
  exists locator_id, workspace_file locator_id = inr file.
Proof.
  unfold resolve_fragment. destruct (fr_kind f).
  - done.
  - destruct (fr_content_ref f); [|done]. intros H. by apply bind_Ok in H as (? & _ & H).
  - destruct (fr_locator f ≫= _) as [id|]; [|done]. intros H. apply bind_Ok in H as (r & Hr & [= _ <-]). exists id.
    by destruct (workspace_file id); simpl in Hr; simplify_eq.
  - repeat case_match; try done. intros Hb. by apply bind_Ok in Hb as (? & _ & Hb).
  - repeat case_match; try done. intros Hb. by apply bind_Ok in Hb as (? & _ & Hb).
  - intros H. apply bind_Ok in H as ([] & _ & H). by apply bind_Ok in H as (? & _ & H).
Qed.

Lemma lookup_resolves plan secrets f r : fr_kind f = runtime_locator_lookup -> resolve_fragment plan secrets f = Ok r ->
  is_lookup f = true /\ exists locator, locator_parts f = Ok locator /\
    resolve_runtime_locator (rt_plan plan) (fst locator) (snd locator) = Ok (fst r) /\ snd r = None.
Proof.
  intros Hk H. unfold is_lookup. unfold resolve_fragment in H. rewrite Hk in H. rewrite bool_decide_eq_true_2 by done.
  apply bind_Ok in H as ([n a] & Hp & H). apply bind_Ok in H as (s & Hs & [= <-]). split; [|by exists (n, a)].
  unfold locator_parts in Hp. by destruct (fr_locator f).
Qed.

(** ** Files of workspaces *)

(** A file is inspected once for each locator, and files with one locator are
    one file. *)
Lemma file_inspections node : forall files seen,
  (forall file, file ∈ files -> workspace_file (wl_locator_id (rw_locator file)) = inr file) ->
  (Forall (fun i => within_budget node (pi_char_count i)) (workspace_file_budget_inspections seen files) <->
   forall file, file ∈ files -> wl_locator_id (rw_locator file) ∉ seen -> within_budget node (char_len (rw_text file))).
Proof.
  induction files as [|file files IH]; intros seen Hlaw; simpl.
  { split; [intros _ f Hf; by apply elem_of_nil in Hf | constructor]. }
  assert (Hlaw' : forall f, f ∈ files -> workspace_file (wl_locator_id (rw_locator f)) = inr f) by (intros f Hf; apply Hlaw; by right).
  unfold str_in. case_bool_decide as Hseen.
  - rewrite IH by done. split; [|intros H f Hf; apply H; by right].
    intros H f [-> | Hf]%elem_of_cons Hn; [done | by apply H].
  - rewrite Forall_cons, IH by done. simpl. split.
    + intros [H1 H2] f [-> | Hf]%elem_of_cons Hn; [done|].
      destruct (decide (wl_locator_id (rw_locator f) = wl_locator_id (rw_locator file))) as [He|Hne].
      * assert (f = file) as ->; [|done]. pose proof (Hlaw f) as Hl1. pose proof (Hlaw file) as Hl2. rewrite He in Hl1.
        rewrite Hl2 in Hl1 by left. specialize (Hl1 ltac:(by right)). congruence.
      * apply H2; [done|]. rewrite elem_of_cons. tauto.
    + intros H. split; [apply H; [left | done]|]. intros f Hf Hn. rewrite elem_of_cons in Hn. apply H; [by right | tauto].
Qed.

(** ** The two groups of checks, for a prompt that can be assembled *)

Section Prompt.
Variables (plan : RuntimePlan) (node : PreflightExecutionNode) (role : ProviderRole) (secrets : dict json) (prompt : ResolvedPrompt).
Hypothesis Hlaw : forall id file, workspace_file id = inr file -> wl_locator_id (rw_locator file) = id.
Hypothesis Hassembled : assemble_prompt_details plan node role secrets = Ok prompt.

Lemma files_budget :
  Forall (fun i => within_budget node (pi_char_count i)) (workspace_file_budget_inspections [] (rq_workspace_files prompt)) <->
  forall file, file ∈ rq_workspace_files prompt -> within_budget node (char_len (rw_text file)).
Proof.
  rewrite file_inspections; [setoid_rewrite elem_of_nil; naive_solver|].
  intros file Hf. pose proof Hassembled as H. unfold assemble_prompt_details in H. apply bind_Ok in H as (stream & _ & H).
  apply bind_Ok in H as ([text files] & Ha & He). injection He as He. rewrite <- He in Hf. apply assembled in Ha as [_ Ha].
  destruct (Ha file Hf) as [Hnil|(f & s & _ & Hr)]; [by apply elem_of_nil in Hnil|].
  apply resolved_file in Hr as (id & Hid). by rewrite (Hlaw id file Hid).
Qed.

Lemma assembled_stream : exists stream, find_stream (rt_plan plan) node role = Ok stream /\
  forall f, f ∈ rs_fragments stream -> exists r, resolve_fragment plan secrets f = Ok r.
Proof.
  pose proof Hassembled as H. unfold assemble_prompt_details in H. apply bind_Ok in H as (stream & Hs & H).
  apply bind_Ok in H as ([text files] & Hfs & _). apply assembled in Hfs as [Hall _]. exists stream. split; [done|].
  intros f Hf. rewrite Forall_forall in Hall. apply Hall. by apply elem_of_sort_by.
Qed.

Lemma lookups_budget : exists inspections, inspect_runtime_locators (rt_plan plan) node role = Ok inspections /\
  (Forall (fun i => within_budget node (pi_char_count i)) (map locator_budget_inspection inspections) <->
   forall stream f value file, find_stream (rt_plan plan) node role = Ok stream -> f ∈ rs_fragments stream ->
     fr_kind f = runtime_locator_lookup -> resolve_fragment plan secrets f = Ok (value, file) -> within_budget node (char_len value)).
Proof.
  destruct assembled_stream as (stream & Hs & Hres).
  destruct (inspect_loop_total (rt_plan plan) (rs_fragments stream) ([], [])) as [[inspections seen] Hloop].
  { apply Forall_forall. intros f Hf Hl. destruct (Hres f Hf) as [r Hr]. apply andb_true_iff in Hl as [Hk _].
    apply bool_decide_eq_true in Hk. destruct (lookup_resolves plan secrets f r Hk Hr) as (_ & locator & ? & ? & _). by eauto. }
  assert (Hi : inspect_runtime_locators (rt_plan plan) node role = Ok inspections).
  { unfold inspect_runtime_locators. rewrite Hs. cbn [mbind outcome_bind]. by rewrite Hloop. }
  exists inspections. split; [done|].
  assert (Hmap : forall l, Forall (fun i => within_budget node (pi_char_count i)) (map locator_budget_inspection l) <->
            Forall (fun i => within_budget node (ri_char_count i)) l) by (intros l; by rewrite Forall_fmap).
  rewrite Hmap, (inspections_budget _ _ _ _ Hs _ Hi). split.
  - intros H stream' f value file Hs' Hf Hk Hr. rewrite Hs in Hs'. injection Hs' as <-.
    destruct (lookup_resolves plan secrets f _ Hk Hr) as (Hl & locator & Hp & Hv & _). by eapply H.
  - intros H f locator value Hf Hl Hp Hv. destruct (Hres f Hf) as [[v file] Hr]. pose proof Hl as Hk.
    apply andb_true_iff in Hk as [Hk _]. apply bool_decide_eq_true in Hk.
    destruct (lookup_resolves plan secrets f _ Hk Hr) as (_ & locator' & Hp' & Hv' & _). rewrite Hp in Hp'. injection Hp' as <-.
    rewrite Hv in Hv'. injection Hv' as ->. by eapply H.
Qed.

End Prompt.

End Budget.

(** C15 (bounds): A prompt passes the budget exactly when it can be assembled, is not blank, and no text that it takes from
    outside exceeds the node's fail threshold: every inserted artifact of an upstream node and every inserted workspace file has
    at most that many characters; nothing else is rejected, and the prompt that is returned is the assembled one.
    Definitions: resolve_prompt_with_output_budget_details, enforce_prompt_budget, inspect_runtime_locators,
    workspace_file_budget_inspections, assemble_prompt_details, resolve_fragment, resolve_runtime_locator, read_plan_artifact,
    locator_parts, find_stream. *)
Theorem prompt_budget_bounds_inserted_text {hash : HashLibrary} {sources : PromptSources} (plan : RuntimePlan)
    (node : PreflightExecutionNode) (role : ProviderRole) (secrets : dict json) (log : list string) (prompt : ResolvedPrompt) :
  (forall id file, workspace_file id = inr file -> wl_locator_id (rw_locator file) = id) ->
  ((exists log', resolve_prompt_with_output_budget_details plan node role secrets log = (Ok prompt, log')) <->
   assemble_prompt_details plan node role secrets = Ok prompt /\ not_blank (rq_text prompt) = true /\
   (forall stream f value file, find_stream (rt_plan plan) node role = Ok stream -> f ∈ rs_fragments stream ->
      fr_kind f = runtime_locator_lookup -> resolve_fragment plan secrets f = Ok (value, file) ->
      within_budget node (char_len value)) /\
   (forall file, file ∈ rq_workspace_files prompt -> within_budget node (char_len (rw_text file)))).
Proof.
  intros Hlaw. unfold resolve_prompt_with_output_budget_details. unfold mbind, M_bind, bind, lift. split.
  - intros [log' H]. destruct (inspect_runtime_locators (rt_plan plan) node role) as [inspections|e|] eqn:Hi; [|done..].
    rewrite (for_all_map locator_budget_inspection (enforce_prompt_budget node)) in H.
    destruct (for_all _ _ log) as [[[]|e|] log1] eqn:H1; [|done..].
    destruct (assemble_prompt_details plan node role secrets) as [prompt1|e|] eqn:Ha; [|done..].
    destruct (for_all _ _ log1) as [[[]|e|] log2] eqn:H2; [|done..].
    destruct (not_blank (rq_text prompt1)) eqn:Hb; [|done]. injection H as -> <-.
    destruct (lookups_budget _ _ _ _ _ Ha) as (inspections' & Hi' & Hl). rewrite Hi in Hi'. injection Hi' as <-.
    split_and!; [done..| |].
    + apply Hl, (enforce_all_ok node _ log). by eexists.
    + apply (files_budget _ _ _ _ _ Hlaw Ha), (enforce_all_ok node _ log1). by eexists.
  - intros (Ha & Hb & Hlook & Hws). destruct (lookups_budget _ _ _ _ _ Ha) as (inspections & Hi & Hl).
    rewrite Hi, (for_all_map locator_budget_inspection (enforce_prompt_budget node)).
    apply Hl, (enforce_all_ok node _ log) in Hlook as [log1 ->]. rewrite Ha.
    apply (files_budget _ _ _ _ _ Hlaw Ha), (enforce_all_ok node _ log1) in Hws as [log2 ->]. rewrite Hb. simpl. by eexists.
Qed.
