(* ===== verification/PreflightText.v ===== *)
(** Text lemmas of the preflight compiler: spans of tokens, substitution of
    tokens, and identities of token occurrences. *)

From Stdlib Require Import ZArith Lia Ascii String.
From stdpp Require Import base gmap sets list strings pretty.
From S2P Require Import Prelude PyStr StateExn Models Artifacts Composition CompositionReferences PlanRecords.
From S2P Require Import PlanContract PreflightState PreflightFilesystem PreflightRender.

Open Scope string_scope.
Open Scope list_scope.
Open Scope Z_scope.

(** ** Substitution of tokens *)

(** [pattern.sub(f, s)] where [f] may raise: the reference semantics of a
    template, to which the compiled fragments are compared. *)
Fixpoint substitute {A} (try : text -> option (A * nat)) (emit : A -> outcome text) (skip : nat) (l : text) : outcome text :=
  match l with
  | [] => Ok []
  | c :: t =>
      match skip with
      | S k => substitute try emit k t
      | O => match try l with
             | Some (a, S n) => v ← emit a; rest ← substitute try emit n t; mret (v ++ rest)
             | _ => rest ← substitute try emit O t; mret (c :: rest)
             end
      end
  end.

(** The same text from the spans of the tokens: the literal text between the
    cursor and the next token, the token's value, and the rest. *)
Fixpoint fill {A} (emit : A -> outcome text) (cursor : nat) (spans : list (A * nat * nat)) (content : text) : outcome text :=
  match spans with
  | [] => Ok (drop cursor content)
  | (a, first, last) :: rest =>
      v ← emit a; tail ← fill emit last rest content; mret (slice cursor first content ++ v ++ tail)
  end.

Section Spans.
Context {A : Type} (try : text -> option (A * nat)) (emit : A -> outcome text).
Hypothesis try_bound : forall l a n, try l = Some (a, n) -> (n <= length l)%nat.

Lemma slice_step cursor pos (c : ascii) content :
  (cursor <= pos)%nat -> content !! pos = Some c -> slice cursor (S pos) content = slice cursor pos content ++ [c].
Proof.
  intros Hle Hc. unfold slice. rewrite (take_S_r _ _ c) by done. rewrite drop_app_le; [done|].
  apply lookup_lt_Some in Hc. rewrite length_take. lia.
Qed.

Lemma outcome_bind_assoc {X Y Z} (m : outcome X) (f : X -> outcome Y) (g : Y -> outcome Z) :
  (m ≫= f) ≫= g = m ≫= (fun x => f x ≫= g).
Proof. by destruct m. Qed.

Lemma fill_from : forall l pos pre,
  length pre = pos ->
  (forall cursor, (cursor <= pos)%nat ->
     fill emit cursor (find_spans try pos 0 l) (pre ++ l) =
     substitute try emit 0 l ≫= (fun rest => Ok (slice cursor pos (pre ++ l) ++ rest))) /\
  (forall k, (k <= length l)%nat ->
     fill emit (pos + k) (find_spans try pos k l) (pre ++ l) = substitute try emit k l).
Proof.
  induction l as [|c l IH]; intros pos pre Hpos.
  - split; intros cursor H; cbn [find_spans fill substitute]; rewrite app_nil_r.
    + simpl. unfold slice. rewrite (take_ge pre) by lia. by rewrite app_nil_r.
    + rewrite drop_ge; [done|]. simpl in H. lia.
  - destruct (IH (S pos) (pre ++ [c])) as [IH0 IHk]; [rewrite length_app; simpl; lia|].
    rewrite <- app_assoc in IH0, IHk. cbn [app] in IH0, IHk.
    assert (Hlook : (pre ++ c :: l) !! pos = Some c).
    { rewrite lookup_app_r by lia. by replace (pos - length pre)%nat with O by lia. }
    assert (Hskip : forall k, (S k <= length (c :: l))%nat ->
      fill emit (pos + S k) (find_spans try pos (S k) (c :: l)) (pre ++ c :: l) = substitute try emit (S k) (c :: l)).
    { intros k Hk. cbn [find_spans substitute]. rewrite <- IHk by (simpl in Hk; lia). f_equal. lia. }
    assert (H0 : forall cursor, (cursor <= pos)%nat ->
      fill emit cursor (find_spans try pos 0 (c :: l)) (pre ++ c :: l) =
      substitute try emit 0 (c :: l) ≫= (fun rest => Ok (slice cursor pos (pre ++ c :: l) ++ rest))).
    { intros cursor Hc. cbn [find_spans substitute].
      assert (Hplain : fill emit cursor (find_spans try (S pos) 0 l) (pre ++ c :: l) =
        (substitute try emit 0 l ≫= (fun rest => Ok (c :: rest))) ≫= (fun rest => Ok (slice cursor pos (pre ++ c :: l) ++ rest))).
      { rewrite IH0 by lia. rewrite outcome_bind_assoc. destruct (substitute try emit 0 l); simpl; [|done..].
        rewrite (slice_step cursor pos c) by done. by rewrite <- app_assoc. }
      destruct (try (c :: l)) as [[a [|n]]|] eqn:Ht; [exact Hplain| |exact Hplain].
      cbn [fill]. pose proof (try_bound _ _ _ Ht) as Hb. replace (pos + S n)%nat with (S pos + n)%nat by lia.
      rewrite IHk by (simpl in Hb; lia). destruct (emit a); simpl; [|done..]. by destruct (substitute try emit n l). }
    split; [exact H0|]. intros [|k] Hk; [|by apply Hskip].
    rewrite Nat.add_0_r, H0 by lia. destruct (substitute try emit 0 (c :: l)) eqn:E; simpl; [|done..].
    unfold slice. by rewrite drop_ge by (rewrite length_take; lia).
Qed.

(** Filling the spans of the tokens is substituting them. *)
Lemma fill_substitute l : fill emit 0 (find_spans try 0 0 l) l = substitute try emit 0 l.
Proof. apply (proj2 (fill_from l 0 [] eq_refl) 0%nat). lia. Qed.

(** The spans follow each other. *)
Fixpoint ordered (cursor : nat) (spans : list (A * nat * nat)) : Prop :=
  match spans with
  | [] => True
  | (_, first, last) :: rest => (cursor <= first)%nat /\ ordered last rest
  end.

Lemma find_spans_ordered : forall l pos skip cursor, (cursor <= pos + skip)%nat -> ordered cursor (find_spans try pos skip l).
Proof.
  induction l as [|c l IH]; intros pos skip cursor Hc; simpl; [done|]. destruct skip as [|k]; [|apply IH; lia].
  destruct (try (c :: l)) as [[a [|n]]|]; [apply IH; lia| |apply IH; lia]. split; [lia|]. apply IH. lia.
Qed.

End Spans.

Lemma match_template_bound l a n : match_template l = Some (a, n) -> (n <= length l)%nat.
Proof.
  unfold match_template. destruct (starts_with (lit "{{") l) eqn:Hs; [|done].
  apply starts_with_spec in Hs as [rest ->]. change (drop 2 (lit "{{" ++ rest)) with rest.
  destruct (span _ rest) as [body r] eqn:Hsp. destruct (starts_with (lit "}}") r) eqn:Hr; [|done].
  apply span_spec in Hsp as (-> & _). apply starts_with_spec in Hr as [tail ->]. intros [= _ <-].
  rewrite !length_app. simpl. lia.
Qed.

(** The raw token of a match is the matched text. *)
Lemma reference_at_raw raw first last : ref_raw_token (reference_at raw first last) = raw.
Proof.
  unfold reference_at. destruct (match_template_token raw) as [[]|]; [done| |done]. by destruct (key_value_reference_kind _).
Qed.

(** The offsets do not change what a token denotes. *)
Lemma reference_at_offsets raw first last :
  ref_start (reference_at raw first last) = first /\ ref_end (reference_at raw first last) = last /\
  ref_kind (reference_at raw first last) = ref_kind (reference_at raw 0 0) /\
  ref_key (reference_at raw first last) = ref_key (reference_at raw 0 0) /\
  ref_node_id (reference_at raw first last) = ref_node_id (reference_at raw 0 0) /\
  ref_artifact_name (reference_at raw first last) = ref_artifact_name (reference_at raw 0 0).
Proof.
  unfold reference_at. destruct (match_template_token raw) as [[]|]; [done| |done]. by destruct (key_value_reference_kind _).
Qed.

(** ** Text without tokens *)

Lemma substitute_no_match {A} (try : text -> option (A * nat)) emit l :
  (forall l1 l2, l = l1 ++ l2 -> try l2 = None) -> substitute try emit 0 l = Ok l.
Proof.
  induction l as [|c l IH]; intros H; simpl; [done|]. rewrite (H [] (c :: l)) by done.
  rewrite IH; [done|]. intros l1 l2 ->. by apply (H (c :: l1)).
Qed.

Lemma find_spans_no_match {A} (try : text -> option (A * nat)) l : forall pos,
  (forall l1 l2, l = l1 ++ l2 -> try l2 = None) -> find_spans try pos 0 l = [].
Proof.
  induction l as [|c l IH]; intros pos H; simpl; [done|]. rewrite (H [] (c :: l)) by done.
  apply IH. intros l1 l2 ->. by apply (H (c :: l1)).
Qed.

(** Text without an opening brace holds no token. *)
Lemma no_brace_no_token l : Forall (fun c => c <> brace_open) l -> forall l1 l2, l = l1 ++ l2 -> match_template l2 = None.
Proof.
  intros H l1 l2 ->. apply Forall_app in H as [_ H]. unfold match_template.
  destruct (starts_with (lit "{{") l2) eqn:Hs; [|done]. apply starts_with_spec in Hs as [rest ->].
  by apply Forall_inv in H.
Qed.

(** ** Identities of occurrences *)

(** Two texts that end at their first separator. *)
Lemma separator_inj (sep : ascii) a b a' b' :
  Forall (fun c => c <> sep) a -> Forall (fun c => c <> sep) a' -> a ++ sep :: b = a' ++ sep :: b' -> a = a' /\ b = b'.
Proof.
  revert a'. induction a as [|x a IH]; intros [|y a'] Ha Ha' H; simplify_eq/=; [done| | |].
  - by inversion Ha'.
  - by inversion Ha.
  - inversion Ha; inversion Ha'; subst. by edestruct (IH a') as [-> ->].
Qed.

Definition no_colon (s : string) : Prop := Forall (fun c => c <> ":"%char) (chars s).

Lemma colon_inj a b a' b' :
  no_colon a -> no_colon a' -> a +:+ ":" +:+ b = a' +:+ ":" +:+ b' -> a = a' /\ b = b'.
Proof.
  unfold no_colon. intros Ha Ha' H. apply (f_equal chars) in H. rewrite !chars_app in H.
  apply (separator_inj ":"%char (chars a) (chars b) (chars a') (chars b')) in H as [H1 H2]; [|done..].
  apply (f_equal of_chars) in H1, H2. by rewrite !of_chars_chars in H1, H2.
Qed.

Lemma pretty_go_avoids (sep : ascii) x s :
  is_digit sep = false -> Forall (fun c => c <> sep) (chars s) -> Forall (fun c => c <> sep) (chars (pretty_N_go x s)).
Proof.
  intros Hsep. revert s. induction (N.lt_wf_0 x) as [x _ IH]; intros s Hs.
  destruct (decide (0 < x)%N) as [Hx|Hx].
  - rewrite pretty_N_go_step by done. apply IH; [by apply N.div_lt|].
    constructor; [|done]. unfold pretty_N_char. repeat case_match; by intros <-.
  - assert (x = 0%N) as -> by lia. by rewrite pretty_N_go_0.
Qed.

(** Decimal numerals are made of digits and the sign. *)
Lemma str_int_avoids (sep : ascii) z :
  is_digit sep = false -> sep <> "-"%char -> Forall (fun c => c <> sep) (chars (str_int z)).
Proof.
  intros Hsep Hminus. unfold str_int. destruct z as [|p|p].
  - constructor; [by intros <- | constructor].
  - apply pretty_go_avoids; [done | constructor].
  - change (Forall (fun c => c <> sep) (chars ("-" +:+ pretty (Npos p)))). rewrite chars_app. apply Forall_app.
    split; [by repeat constructor|]. apply pretty_go_avoids; [done | constructor].
Qed.

Lemma str_int_no_colon z : no_colon (str_int z).
Proof. by apply str_int_avoids. Qed.

Lemma role_no_colon r : no_colon (role_value r).
Proof. destruct r; repeat (constructor; [done|]); constructor. Qed.

Lemma node_id_no_colon s : node_id_fullmatch s = true -> no_colon s.
Proof.
  unfold node_id_fullmatch, no_colon. rewrite andb_true_iff, forallb_forall. intros [_ H].
  apply Forall_forall. intros c Hc%list_elem_of_In ->. by specialize (H _ Hc).
Qed.

Lemma role_value_inj r r' : role_value r = role_value r' -> r = r'.
Proof. by destruct r, r'. Qed.

(** An occurrence id determines the node, the role, the segment and the token. *)
Lemma occurrence_id_inj n r i j n' r' i' j' :
  no_colon n -> no_colon n' ->
  render_token_occurrence_id n r i j = render_token_occurrence_id n' r' i' j' -> n = n' /\ r = r' /\ i = i' /\ j = j'.
Proof.
  unfold render_token_occurrence_id. intros Hn Hn' H.
  apply colon_inj in H as [-> H]; [|done..].
  apply colon_inj in H as [Hr%role_value_inj H]; [|apply role_no_colon..].
  apply colon_inj in H as [Hi Hj]; [|apply str_int_no_colon..].
  unfold str_int in Hi, Hj. apply (inj pretty) in Hi, Hj. split_and!; [done|done|lia|lia].
Qed.

(** The id of an input source is no id of a token of a prompt. *)
Lemma input_id_not_occurrence n n' r i j :
  no_colon n -> no_colon n' -> n +:+ ":input:0" <> render_token_occurrence_id n' r i j.
Proof.
  unfold render_token_occurrence_id. intros Hn Hn' H. change (n +:+ ":input:0") with (n +:+ ":" +:+ "input:0") in H.
  apply colon_inj in H as [_ H]; [|done..]. change "input:0" with ("input" +:+ ":" +:+ "0") in H.
  apply colon_inj in H as [H _]; [by destruct r| |apply role_no_colon]. repeat (constructor; [done|]). constructor.
Qed.

(** Handles determine the kind and the key of a value. *)
Lemma handle_inj k key k' key' :
  token_kind_value k +:+ ":" +:+ key = token_kind_value k' +:+ ":" +:+ key' -> k = k' /\ key = key'.
Proof.
  intros H. apply colon_inj in H as [H ->].
  - by destruct k, k'.
  - destruct k; repeat (constructor; [done|]); constructor.
  - destruct k'; repeat (constructor; [done|]); constructor.
Qed.

Lemma config_handle_distinct k key path : token_kind_value k +:+ ":" +:+ key <> "config:" +:+ path.
Proof.
  intros H. change ("config:" +:+ path) with ("config" +:+ ":" +:+ path) in H. apply colon_inj in H as [H _].
  - by destruct k.
  - destruct k; repeat (constructor; [done|]); constructor.
  - repeat (constructor; [done|]). constructor.
Qed.

(** Content references determine the digest. *)
Lemma str_app_cancel_r a b s : a +:+ s = b +:+ s -> a = b.
Proof.
  intros H. apply (f_equal chars) in H. rewrite !chars_app in H. apply app_inv_tail in H.
  apply (f_equal of_chars) in H. by rewrite !of_chars_chars in H.
Qed.

Lemma content_ref_inj d d' : "static-files/" +:+ d +:+ ".txt" = "static-files/" +:+ d' +:+ ".txt" -> d = d'.
Proof. intros H. apply (inj (String.append "static-files/")) in H. by apply str_app_cancel_r in H. Qed.
