(* ===== verification/PreflightInv.v ===== *)
(** The invariant of the compiler's state: what the maps of resolved tokens
    promise about the files and the values they were resolved from. *)

From Stdlib Require Import ZArith Lia Ascii String.
From stdpp Require Import base gmap sets list strings.
From S2P Require Import Prelude PyStr StateExn Models Artifacts Composition CompositionSpec PlanRecords PlanContract.
From S2P Require Import PreflightState PreflightFilesystem PreflightRender PreflightText.

Open Scope string_scope.
Open Scope list_scope.
Open Scope Z_scope.

Lemma concat_imap_elem {A B} (f : nat -> A -> list B) l x :
  x ∈ concat (imap f l) <-> exists i y, l !! i = Some y /\ x ∈ f i y.
Proof.
  rewrite list_elem_of_In, in_concat. split.
  - intros (k & Hk%list_elem_of_In & Hx%list_elem_of_In). apply elem_of_lookup_imap in Hk as (i & y & -> & Hy). eauto.
  - intros (i & y & Hy & Hx). exists (f i y). rewrite <- !list_elem_of_In. split; [|done].
    apply elem_of_lookup_imap. eauto.
Qed.

(** ** Diagnostics *)

(** The diagnostics that report a token without a fragment or a plan that
    breaks its contract. *)
Definition reserved (c : PreflightDiagnosticCode) (phase : PreflightDiagnosticPhase) : bool :=
  match c, phase with
  | (NODE_REFERENCE | TEMPLATE_PLAN | PARAM_TOKEN | TEMPLATE_TOKEN), _ => true
  | PREFLIGHT_VALIDATION, (PhaseValidation | PhaseNodePolicy) => true
  | _, _ => false
  end.

(** A warning does not carry such a code: the key under which diagnostics are
    deduplicated has no severity. *)
Definition plain (d : PreflightDiagnostic) : Prop := reserved (dg_code d) (dg_phase d) = true -> dg_severity d = SeverityError.

Record diagnostics_ok (s : CompileState) : Prop := {
  do_keys : forall k, k ∈ cs_diagnostic_keys s -> exists d, d ∈ cs_diagnostics s /\ diagnostic_key d = k;
  do_plain : Forall plain (cs_diagnostics s)
}.

Lemma has_errors_spec s : has_errors s = true <-> exists d, d ∈ cs_diagnostics s /\ dg_severity d = SeverityError.
Proof.
  unfold has_errors. rewrite existsb_exists. split; intros (d & Hd & Hs); exists d.
  - split; [by apply list_elem_of_In | by apply bool_decide_eq_true in Hs].
  - split; [by apply list_elem_of_In | by apply bool_decide_eq_true].
Qed.

(** The fields that resolve tokens. *)
Record same_refs (s s' : CompileState) : Prop := {
  sr_files : cs_static_file_references s' = cs_static_file_references s;
  sr_values : cs_static_value_references s' = cs_static_value_references s;
  sr_workspace : cs_workspace_file_references s' = cs_workspace_file_references s;
  sr_locators : cs_workspace_file_locators s' = cs_workspace_file_locators s;
  sr_resources : cs_static_resources s' = cs_static_resources s;
  sr_payloads : cs_static_payloads s' = cs_static_payloads s;
  sr_secrets : cs_secret_context s' = cs_secret_context s
}.

(** Nothing that was recorded is lost. *)
Record keeps (s s' : CompileState) : Prop := {
  kp_refs : same_refs s s';
  kp_errors : has_errors s = true -> has_errors s' = true;
  kp_diagnostics : diagnostics_ok s -> diagnostics_ok s'
}.

#[global] Instance same_refs_preorder : PreOrder same_refs.
Proof. split; [intros s; by constructor|]. intros a b c [] []. constructor; by etrans. Qed.

#[global] Instance keeps_preorder : PreOrder keeps.
Proof.
  split; [intros s; by constructor|]. intros a b c [Ha ? ?] [Hb ? ?]. constructor; [by transitivity b | auto..].
Qed.

Lemma post_append_new_diagnostic d s :
  post (append_new_diagnostic d) (fun _ s' =>
    same_refs s s' /\ (has_errors s = true -> has_errors s' = true) /\
    (plain d -> diagnostics_ok s ->
       diagnostics_ok s' /\ (reserved (dg_code d) (dg_phase d) = true -> dg_severity d = SeverityError -> has_errors s' = true))) s.
Proof.
  unfold append_new_diagnostic. repeat post_step; try done.
  - split_and!; [done..|]. intros Hp Hok. split; [done|]. intros Hc He. apply has_errors_spec.
    apply bool_decide_eq_true in H. destruct (do_keys _ Hok _ H) as (d' & Hd' & Hk).
    exists d'. split; [done|]. pose proof (do_plain _ Hok) as Hall. rewrite Forall_forall in Hall.
    apply (Hall _ Hd'). by injection Hk as -> -> _ _ _.
  - split_and!; [by constructor| |].
    + rewrite !has_errors_spec. intros (d' & Hd' & He). exists d'. split; [|done]. apply elem_of_app. by left.
    + intros Hp Hok. split.
      * constructor.
        -- intros k [->|Hk]%elem_of_cons; [exists d | destruct (do_keys _ Hok _ Hk) as (d' & Hd' & <-); exists d'];
             (split; [|done]); apply elem_of_app; [right; by apply list_elem_of_singleton | by left].
        -- apply Forall_app. split; [apply Hok | by constructor].
      * intros _ He. apply has_errors_spec. exists d. split; [|done]. apply elem_of_app. right. by apply list_elem_of_singleton.
Qed.

(** A diagnostic that reports a token is an error of the final state. *)
Lemma post_append_diagnostic c phase message node path severity s :
  (reserved c phase = true -> severity = SeverityError) ->
  post (append_diagnostic c phase message node path severity) (fun _ s' =>
    keeps s s' /\ (reserved c phase = true -> diagnostics_ok s -> has_errors s' = true)) s.
Proof.
  intros Hc. eapply post_mono; [apply post_append_new_diagnostic|]. intros _ s' (Hr & He & Hd).
  split; [constructor; [done..|]; intros Hok; by apply Hd|]. intros Hin Hok. apply Hd; auto.
Qed.

Lemma post_extend_diagnostics ds s : Forall plain ds -> post (extend_diagnostics ds) (fun _ s' => keeps s s') s.
Proof.
  intros Hds. rewrite Forall_forall in Hds. apply (post_for_all (keeps s)); [done|]. intros d s' Hd Hk.
  eapply post_mono; [apply post_append_new_diagnostic|]. intros _ s'' (Hr & He & Hp).
  transitivity s'; [done|]. constructor; [done..|]. intros Hok. apply Hp; [by apply Hds | done].
Qed.

(** ** The registry of static resources *)

Section Files.
Context {hash : HashLibrary} {files : PreflightFiles}.
Variable options : PreflightCompileOptions.

(** A path and what lies below it. *)
Definition path_prefix (root : string) : string := if str_endswith "/" root then root else root +:+ "/".
Definition below (path root : string) : Prop := path = root \/ exists rest, path = path_prefix root +:+ rest.

(** The directories below [root] that hold the state of runs. *)
Definition holds_state (path root : string) : Prop :=
  exists state, state ∈ FILE_TOKEN_EXCLUDED_ROOTS /\
    (path = path_prefix root +:+ state \/ exists rest, path = path_prefix root +:+ state +:+ "/" +:+ rest).

(** Where file tokens may read: inside the project or an allowlisted path, and
    never below the directories that hold the state of runs. *)
Definition permitted (path : string) : Prop :=
  (below path (resolve (po_project_root options)) \/
   exists raw expanded, raw ∈ po_allowed_template_paths options /\ expand_user raw = inr expanded /\ below path (resolve expanded)) /\
  ~ holds_state path (resolve (resolve (po_project_root options))).

(** Bytes that the compiler reads from a regular file, at the place that strict
    resolution of symlinks gives and where it may read, or from an earlier run. *)
Definition captured_at (path p : string) : Prop :=
  (exists requested, permitted requested /\ resolve_strict requested = inr path /\
     permitted path /\ is_regular_file path = true /\ read_bytes path = inr p) \/
  (exists reader raw root, po_terminal_history_reader options = Some reader /\ hr_matched (reader raw root) = true /\
     hr_path (reader raw root) = Some path /\ hr_payload (reader raw root) = Some p).

Definition captured (p : string) : Prop := exists path, captured_at path p.

Definition content_ref_of (p : string) : string := "static-files/" +:+ sha256 p +:+ ".txt".

(** The descriptor of some bytes. *)
Record describes (r : StaticResource) (p : string) : Prop := {
  ds_ref : sr_content_ref r = content_ref_of p;
  ds_sha : sr_sha256 r = sha256 p;
  ds_size : sr_size_bytes r = Z.of_nat (String.length p);
  ds_encoding : sr_encoding r = "utf-8";
  ds_text : decode_utf8_without_nul p = Decoded p;
  ds_captured : captured_at (sr_resolved_path r) p
}.

Lemma describes_signatures r p l : describes r p -> describes (with_token_signatures l r) p.
Proof. intros []. by constructor. Qed.

(** A result is a described capture or diagnostics. *)
Record result_ok (result : StaticFileResult) : Prop := {
  ro_resource : forall r, sf_resource result = Some r -> exists p, sf_payload result = Some p /\ describes r p;
  ro_plain : Forall plain (sf_diagnostics result)
}.

Lemma decode_utf8_without_nul_Decoded p s : decode_utf8_without_nul p = Decoded s -> s = p.
Proof. unfold decode_utf8_without_nul, decode_utf8. destruct (utf8_valid _); [|done]. destruct (has_nul p); naive_solver. Qed.

Lemma file_diagnostic_ok raw message path c :
  c = FILE_POLICY \/ c = FILE_ENCODING -> result_ok (file_diagnostic raw message path c).
Proof.
  intros Hc. constructor; [done|]. constructor; [|constructor]. unfold plain. simpl.
  intros Hin. by destruct Hc as [-> | ->].
Qed.

Lemma materialize_ok raw root path p : captured_at path p -> result_ok (materialize_static_file raw root path p).
Proof.
  intros Hp. unfold materialize_static_file, static_file_encoding_diagnostic.
  destruct (decode_utf8_without_nul p) as [| |s] eqn:Hd; [apply file_diagnostic_ok; by right..|].
  pose proof (decode_utf8_without_nul_Decoded _ _ Hd) as ->.
  constructor; [|constructor]. intros r [= <-]. exists p. split; [done|]. by constructor.
Qed.

Lemma policy_result_ok raw path root allowed message result :
  static_path_policy_diagnostic raw path root allowed message = Some result -> result_ok result.
Proof.
  unfold static_path_policy_diagnostic. repeat case_match; intros; simplify_eq; apply file_diagnostic_ok; by left.
Qed.

Lemma relative_below path root : is_relative_to path root = true -> below path root.
Proof.
  unfold is_relative_to, below, path_prefix. intros [->%bool_decide_eq_true|H]%orb_true_iff; [by left|right].
  unfold str_startswith in H. apply starts_with_spec in H as [rest H]. exists (of_chars rest).
  apply (f_equal of_chars) in H. rewrite of_chars_chars in H. rewrite H, of_chars_app, of_chars_chars. done.
Qed.

Lemma relative_to_prefix root rest : rest <> "" -> relative_to (path_prefix root +:+ rest) root = Some rest.
Proof.
  intros Hr. unfold relative_to. fold (path_prefix root). rewrite bool_decide_eq_false_2.
  2: { intros E. apply (f_equal String.length) in E. unfold path_prefix in E. destruct rest as [|c rest]; [done|].
       destruct (str_endswith "/" root); rewrite <- !length_chars, !chars_app, !length_app in E; simpl in E; lia. }
  cbv zeta. unfold str_startswith. rewrite (proj2 (starts_with_spec _ _)) by (exists (chars rest); apply chars_app).
  by rewrite chars_app, drop_app_length' by (by rewrite length_chars); rewrite of_chars_chars.
Qed.

Lemma unreserved_holds_no_state path root : is_reserved_state_resource path root = false -> ~ holds_state path (resolve root).
Proof.
  unfold is_reserved_state_resource. intros H (state & Hin & Hp).
  assert (state <> "") as Hne by (intros ->; unfold FILE_TOKEN_EXCLUDED_ROOTS in Hin;
    repeat (apply elem_of_cons in Hin as [Hin|Hin]; [done|]); by apply elem_of_nil in Hin).
  assert (exists rest, rest <> "" /\ path = path_prefix (resolve root) +:+ rest /\
    (rest = state \/ str_startswith (state +:+ "/") rest = true)) as (rest & Hr & -> & Hm).
  { destruct Hp as [->|(rest & ->)]; [exists state; auto|]. exists (state +:+ "/" +:+ rest). split_and!; [by destruct state | done|].
    right. unfold str_startswith. apply starts_with_spec. exists (chars rest). by rewrite !chars_app, <- app_assoc. }
  rewrite relative_to_prefix in H by done. apply not_true_iff_false in H. apply H. unfold is_reserved_state_path. apply existsb_exists.
  exists state. split; [by apply list_elem_of_In|]. apply orb_true_iff. destruct Hm as [->|Hm]; [left; by apply bool_decide_eq_true | by right].
Qed.

Lemma policy_permits raw path allowed message :
  allowed_template_paths options = Ok allowed ->
  static_path_policy_diagnostic raw path (resolve (po_project_root options)) allowed message = None -> permitted path.
Proof.
  intros Ha. unfold static_path_policy_diagnostic. destruct (is_reserved_state_resource _ _) eqn:Hs; [done|].
  destruct (path_is_allowed _ _ _) eqn:Hp; [|done]. intros _. split; [|by apply unreserved_holds_no_state].
  unfold path_is_allowed in Hp. apply orb_true_iff in Hp as [Hp|Hp]; [left; by apply relative_below|right].
  apply existsb_exists in Hp as (directory & Hin%list_elem_of_In & Hd).
  unfold allowed_template_paths in Ha. apply mapM_Forall2 in Ha. apply list_elem_of_lookup in Hin as [i Hi].
  destruct (Forall2_lookup_r _ _ _ _ _ Ha Hi) as (raw' & Hraw & He). apply bind_Ok in He as (expanded & He & Hd').
  injection Hd' as <-. exists raw', expanded. split_and!; [by eapply list_elem_of_lookup_2 | by destruct (expand_user raw'); simplify_eq/=|].
  apply orb_true_iff in Hd as [->%bool_decide_eq_true|Hd]; [by left | by apply relative_below].
Qed.

Lemma resolve_static_file_ok raw root allowed result :
  allowed_template_paths options = Ok allowed ->
  resolve_static_file raw root (resolve (po_project_root options)) allowed = Ok result -> result_ok result.
Proof.
  intros Hallowed. unfold resolve_static_file. case_match; [intros [= <-]; apply file_diagnostic_ok; by left|]. intros H0.
  apply bind_Ok in H0 as (normalized & _ & H0). destruct (static_file_candidate_diagnostic _ _ _ _) as [d|] eqn:Hd.
  - injection H0 as <-. unfold static_file_candidate_diagnostic in Hd.
    destruct (static_path_policy_diagnostic _ _ _ _ _) eqn:Hp; [simplify_eq; by eapply policy_result_ok|].
    case_match; [|done]. injection Hd as <-. apply file_diagnostic_ok; by left.
  - apply bind_Ok in H0 as (found & He & H0).
    unfold resolve_existing_static_file_path in He. apply bind_Ok in He as (resolved & Hstrict & He). injection He as He.
    unfold static_file_candidate_diagnostic in Hd. destruct (static_path_policy_diagnostic _ normalized _ _ _) eqn:Hc; [done|].
    destruct (static_path_policy_diagnostic _ resolved _ _ _) eqn:Hp.
    { subst found. injection H0 as <-. by eapply policy_result_ok. }
    destruct (is_regular_file resolved) eqn:Hf; subst found; [|injection H0 as <-; apply file_diagnostic_ok; by left].
    apply bind_Ok in H0 as (p & Hread & H0). injection H0 as <-. apply materialize_ok. left.
    exists normalized. split_and!; [by eapply policy_permits | by destruct (resolve_strict normalized); simplify_eq/= | by eapply policy_permits | done|].
    destruct (read_bytes resolved); simpl in Hread; congruence.
Qed.

Lemma resolve_terminal_ok raw root result :
  resolve_terminal_result_file raw root (po_terminal_history_reader options) = Ok (Some result) -> result_ok result.
Proof.
  unfold resolve_terminal_result_file. destruct (po_terminal_history_reader options) as [reader|] eqn:Hr; [|done].
  case_match eqn:Hm; [done|]. apply negb_false_iff in Hm. case_match; [intros [= <-]; apply file_diagnostic_ok; by left|].
  case_match; [|done]. case_match; [|done]. intros [= <-]. apply materialize_ok. right. by exists reader, (str_strip raw), root.
Qed.

(** Content addressing: one descriptor per reference, stored with its bytes. *)
Record registry_ok (s : CompileState) : Prop := {
  rg_distinct : NoDup (map sr_content_ref (cs_static_resources s));
  rg_payload : forall r, r ∈ cs_static_resources s ->
    exists p, dget (cs_static_payloads s) (sr_content_ref r) = Some p /\ describes r p;
  rg_keys : forall k, is_Some (dget (cs_static_payloads s) k) -> k ∈ map sr_content_ref (cs_static_resources s)
}.

Definition registered (s : CompileState) (ref : string) : Prop := ref ∈ map sr_content_ref (cs_static_resources s).

Lemma add_signature_Some ref signature rs rs' : add_signature ref signature rs = Some rs' ->
  map sr_content_ref rs' = map sr_content_ref rs /\ ref ∈ map sr_content_ref rs /\
  forall r', r' ∈ rs' -> exists r l, r ∈ rs /\ (r' = r \/ r' = with_token_signatures l r).
Proof.
  revert rs'. induction rs as [|r rs IH]; intros rs' H; simpl in H; [done|]. case_bool_decide as Hr.
  - injection H as <-. split_and!; [done| |].
    + simpl. rewrite Hr. left.
    + intros r' [->|Hin]%elem_of_cons; [exists r; eexists; split; [left | by right]|].
      exists r', []. split; [by right | by left].
  - apply fmap_Some in H as (rest & Hrest & ->). destruct (IH _ Hrest) as (H1 & H2 & H3). split_and!.
    + simpl. by rewrite H1.
    + simpl. by right.
    + intros r' [->|Hin]%elem_of_cons; [exists r, []; split; [left | by left]|].
      destruct (H3 _ Hin) as (r0 & l & ? & ?). exists r0, l. split; [by right | done].
Qed.

Lemma add_signature_None ref signature rs : add_signature ref signature rs = None -> ref ∉ map sr_content_ref rs.
Proof.
  induction rs as [|r rs IH]; simpl; [intros _; apply not_elem_of_nil|]. case_bool_decide as Hr; [done|].
  intros H%fmap_None. apply not_elem_of_cons. split; [done | auto].
Qed.

Definition same_tokens (s s' : CompileState) : Prop :=
  cs_static_file_references s' = cs_static_file_references s /\ cs_static_value_references s' = cs_static_value_references s /\
  cs_workspace_file_references s' = cs_workspace_file_references s /\
  cs_workspace_file_locators s' = cs_workspace_file_locators s /\ cs_secret_context s' = cs_secret_context s.

Lemma post_append_static_resource r p signature s :
  describes r p -> registry_ok s ->
  post (append_static_resource r p signature) (fun _ s' =>
    registry_ok s' /\ registered s' (sr_content_ref r) /\ (forall ref, registered s ref -> registered s' ref) /\
    same_tokens s s' /\ cs_diagnostics s' = cs_diagnostics s /\ cs_diagnostic_keys s' = cs_diagnostic_keys s) s.
Proof.
  intros Hd Hok. unfold append_static_resource. post_step. post_step.
  destruct (add_signature _ _ _) as [rs'|] eqn:Ha; repeat post_step; unfold registered; cbn.
  - destruct (add_signature_Some _ _ _ _ Ha) as (Hm & Hin & Hrs).
    assert (Hsd : setdefault (cs_static_payloads s) (sr_content_ref r) p = cs_static_payloads s).
    { unfold setdefault. destruct (dmem _ _) eqn:Hmem; [done|]. apply dmem_false in Hmem.
      apply list_elem_of_fmap in Hin as (r0 & Hr0 & Hin). destruct (rg_payload _ Hok _ Hin) as (p0 & Hp0 & _).
      rewrite <- Hr0 in Hp0. exfalso. apply Hmem. apply dget_is_Some. eauto. }
    split_and!; [|by rewrite Hm|by rewrite Hm|done..].
    constructor; cbn; rewrite ?Hsd, ?Hm; [apply Hok| |apply Hok].
    intros r' Hr'. destruct (Hrs _ Hr') as (r0 & l & Hr0 & [-> | ->]); destruct (rg_payload _ Hok _ Hr0) as (p0 & Hp0 & Hd0);
      exists p0; (split; [done|]); [done | by apply describes_signatures].
  - pose proof (add_signature_None _ _ _ Ha) as Hnot. split_and!; [|rewrite map_app; apply elem_of_app; right; left| |done..].
    + constructor; cbn.
      * rewrite map_app. apply NoDup_app. split_and!; [apply Hok | | apply NoDup_singleton].
        intros x Hx ->%list_elem_of_singleton. done.
      * intros r' [Hr'| ->%list_elem_of_singleton]%elem_of_app.
        -- destruct (rg_payload _ Hok _ Hr') as (p0 & Hp0 & Hd0). exists p0. split; [|done].
           rewrite dget_dset_ne; [done|]. intros He. apply Hnot. rewrite He. by apply list_elem_of_fmap_2.
        -- exists p. split; [apply dget_dset_eq | done].
      * intros k. rewrite map_app, elem_of_app, dget_is_Some, elem_of_dkeys_dset, <- dget_is_Some.
        intros [-> | Hk]; [right; left | left; by apply (rg_keys _ Hok)].
    + intros ref Href. rewrite map_app. apply elem_of_app. by left.
Qed.

(** A prepared reference names a registered descriptor of the bytes. *)
Lemma post_prepare_static_file_reference result node occurrence raw s :
  result_ok result -> registry_ok s ->
  post (prepare_static_file_reference result node occurrence raw) (fun o s' =>
    registry_ok s' /\ (forall ref, registered s ref -> registered s' ref) /\ same_tokens s s' /\
    (diagnostics_ok s -> diagnostics_ok s') /\
    match o with
    | None => True
    | Some rf => exists p, sf_payload result = Some p /\ describes (rf_resource rf) p /\ registered s' (sr_content_ref (rf_resource rf))
    end) s.
Proof.
  intros Hres Hok. unfold prepare_static_file_reference. post_step.
  eapply post_mono; [apply post_extend_diagnostics, Hres|]. intros _ s1 [Hr1 _ Hd1].
  assert (Hok1 : registry_ok s1).
  { destruct Hr1. destruct Hok. constructor; rewrite ?sr_resources0, ?sr_payloads0; done. }
  assert (Hreg1 : forall ref, registered s ref -> registered s1 ref).
  { intros ref. unfold registered. by rewrite (sr_resources _ _ Hr1). }
  assert (Hsame1 : same_tokens s s1) by (destruct Hr1; by split_and!).
  destruct (sf_resource result) as [r|] eqn:Hsr; [|repeat post_step; by split_and!].
  destruct (ro_resource _ Hres _ Hsr) as (p & Hp & Hdesc). rewrite Hp.
  post_step. eapply post_mono; [apply (post_append_static_resource _ p); [by apply describes_signatures | done]|].
  intros _ s2 (Hok2 & Hreg & Hmono & Hsame2 & Hdd & Hdk). post_step. split_and!; [done|auto| | |].
  - destruct Hsame1 as (?&?&?&?&?), Hsame2 as (?&?&?&?&?). by split_and!; etrans.
  - intros Hdo. apply Hd1 in Hdo. destruct Hdo as [Hk Hpl]. constructor; rewrite ?Hdd, ?Hdk; done.
  - exists p. split_and!; [done | by apply describes_signatures | done].
Qed.

End Files.
