(* ===== verification/PreflightTokens.v ===== *)
(** Resolution of tokens: after the file, environment and variable policies,
    every map entry of an occurrence is what its token denotes. *)

From Stdlib Require Import ZArith Lia Ascii String.
From stdpp Require Import base gmap sets list strings.
From S2P Require Import Prelude PyStr StateExn Models Artifacts Composition CompositionSpec PlanRecords PlanContract.
From S2P Require Import PreflightState PreflightFilesystem PreflightRender PreflightText PreflightInv.

Open Scope string_scope.
Open Scope list_scope.
Open Scope Z_scope.

(** ** Occurrences *)

Lemma elem_of_segment_occurrences node i segment o :
  o ∈ iter_segment_render_token_occurrences node i segment <->
  exists j reference role, iter_template_references (seg_content segment) !! j = Some reference /\
    role ∈ target_roles_for_segment segment /\
    o = mkOccurrence node reference (render_token_occurrence_id (node_id node) role i j) role (seg_role segment) i.
Proof.
  unfold iter_segment_render_token_occurrences. rewrite concat_imap_elem. split.
  - intros (j & reference & Hj & (role & -> & Hr)%list_elem_of_fmap). eauto 8.
  - intros (j & reference & role & Hj & Hr & ->). exists j, reference. split; [done|]. apply list_elem_of_fmap. eauto.
Qed.

Lemma elem_of_occurrences workflow o :
  o ∈ iter_render_token_occurrences workflow <->
  exists node i segment, node ∈ plan_nodes workflow /\ node_mode node <> InputMode /\
    node_prompt_segments node !! i = Some segment /\ o ∈ iter_segment_render_token_occurrences node i segment.
Proof.
  unfold iter_render_token_occurrences, iter_node_render_token_occurrences. rewrite list_elem_of_In, in_concat. split.
  - intros (k & Hk%in_map_iff & Hx%list_elem_of_In). destruct Hk as (node & <- & Hn%filter_In). destruct Hn as [Hn Hm].
    apply concat_imap_elem in Hx as (i & segment & Hi & Ho). exists node, i, segment.
    split_and!; [by apply list_elem_of_In| |done..]. apply negb_true_iff, bool_decide_eq_false in Hm. done.
  - intros (node & i & segment & Hn & Hm & Hi & Ho). eexists. split; [apply in_map_iff; exists node; split; [done|]|].
    + apply filter_In. split; [by apply list_elem_of_In|]. by apply negb_true_iff, bool_decide_eq_false.
    + apply list_elem_of_In, concat_imap_elem. eauto.
Qed.

Section Tokens.
Context {hash : HashLibrary} {files : PreflightFiles}.
Variables (workflow : WorkflowPlan) (options : PreflightCompileOptions) (variables : dict string).

(** Node ids are distinct and hold no colon. *)
Record ids_ok : Prop := {
  io_distinct : NoDup (map node_id (plan_nodes workflow));
  io_plain : Forall (fun node => no_colon (node_id node)) (plan_nodes workflow)
}.
Hypothesis Hids : ids_ok.

Notation occurrences := (iter_render_token_occurrences workflow).

Lemma node_no_colon node : node ∈ plan_nodes workflow -> no_colon (node_id node).
Proof. intros H. pose proof (io_plain Hids) as Hp. rewrite Forall_forall in Hp. by apply Hp. Qed.

Lemma node_by_id node node' :
  node ∈ plan_nodes workflow -> node' ∈ plan_nodes workflow -> node_id node = node_id node' -> node = node'.
Proof.
  intros [i Hi]%list_elem_of_lookup [j Hj]%list_elem_of_lookup He.
  assert (i = j) as ->; [|by simplify_eq].
  eapply (NoDup_lookup _ _ _ _ (io_distinct Hids)); rewrite list_lookup_fmap; [by rewrite Hi | rewrite Hj; simpl; by rewrite He].
Qed.

Lemma occurrence_inj o o' : o ∈ occurrences -> o' ∈ occurrences -> oc_occurrence_id o = oc_occurrence_id o' -> o = o'.
Proof.
  rewrite !elem_of_occurrences. intros (n & i & seg & Hn & _ & Hi & Ho) (n' & i' & seg' & Hn' & _ & Hi' & Ho') He.
  apply elem_of_segment_occurrences in Ho as (j & reference & role & Hj & Hr & ->).
  apply elem_of_segment_occurrences in Ho' as (j' & reference' & role' & Hj' & Hr' & ->). cbn in He.
  apply occurrence_id_inj in He as (Hid & -> & -> & ->); [|by apply node_no_colon..].
  pose proof (node_by_id _ _ Hn Hn' Hid) as ->. simplify_eq. done.
Qed.

Lemma input_id_fresh node o : node ∈ plan_nodes workflow -> o ∈ occurrences -> input_occurrence_id node <> oc_occurrence_id o.
Proof.
  rewrite elem_of_occurrences. intros Hn (n & i & seg & Hn' & _ & _ & Ho).
  apply elem_of_segment_occurrences in Ho as (j & reference & role & _ & _ & ->).
  apply input_id_not_occurrence; by apply node_no_colon.
Qed.

(** ** What tokens denote *)

(** The file a file token captures, or [None] for a file of a workspace. *)
Definition file_source (node : WorkflowNode) (reference : TemplateReference) : outcome (option StaticFileResult) :=
  let key := default "" (ref_key reference) in
  terminal ← resolve_terminal_result_file key (source_root node options) (po_terminal_history_reader options);
  match terminal with
  | Some result => mret (Some result)
  | None =>
      use_locator ← should_use_workspace_file_locator workflow node reference options;
      if use_locator : bool then mret None
      else
        allowed ← allowed_template_paths options;
        result ← resolve_static_file key (source_root node options) (resolve (po_project_root options)) allowed;
        mret (Some result)
  end.

(** The value of an environment or template variable. *)
Definition static_value (kind : TokenKind) (key : string) : option string :=
  match kind with
  | TokEnv => dget (default process_environment (po_environment options)) key
  | TokVar => dget variables key
  | _ => None
  end.

Definition value_handle (kind : TokenKind) (key : string) : string := token_kind_value kind +:+ ":" +:+ key.

Definition is_sensitive_value (kind : TokenKind) (key : string) : bool := bool_decide (kind = TokEnv) || is_sensitive_name key.

(** A resolved value: stored, or kept as a secret under its handle. *)
Record value_ok (secrets : dict json) (o : RenderTokenOccurrence) (r : ResolvedStaticValueReference) : Prop := {
  vo_kind : static_token_kind (ref_kind (oc_reference o)) = Some (rv_kind r);
  vo_key : rv_key r = default "" (ref_key (oc_reference o));
  vo_value : exists v, static_value (rv_kind r) (rv_key r) = Some v /\
    if is_sensitive_value (rv_kind r) (rv_key r)
    then rv_value_handle r = Some (value_handle (rv_kind r) (rv_key r)) /\ rv_value_stored r = None /\
         dget secrets (value_handle (rv_kind r) (rv_key r)) = Some (JStr v)
    else rv_value_handle r = None /\ rv_value_stored r = Some v
}.

Record locator_ok (s : CompileState) (o : RenderTokenOccurrence) (l : WorkspaceFileLocator) : Prop := {
  lk_source : file_source (oc_node_ref o) (oc_reference o) = Ok None;
  lk_in : l ∈ cs_workspace_file_locators s;
  lk_node : wl_node_id l = node_id (oc_node_ref o);
  lk_target : wl_target l = workspace_file_target_for_role (oc_target_role o);
  lk_path : wl_raw_path l = default "" (ref_key (oc_reference o))
}.

Record file_ok (s : CompileState) (o : RenderTokenOccurrence) (rf : ResolvedStaticFileReference) : Prop := {
  fo_source : exists result p, file_source (oc_node_ref o) (oc_reference o) = Ok (Some result) /\
    sf_payload result = Some p /\ describes options (rf_resource rf) p;
  fo_registered : registered s (sr_content_ref (rf_resource rf))
}.

(** The invariant of the resolution phases. *)
Record tokens_ok (s : CompileState) : Prop := {
  tk_registry : registry_ok options s;
  tk_file : forall o rf, o ∈ occurrences -> dget (cs_static_file_references s) (oc_occurrence_id o) = Some rf -> file_ok s o rf;
  tk_workspace : forall o l, o ∈ occurrences ->
    dget (cs_workspace_file_references s) (oc_occurrence_id o) = Some l -> locator_ok s o l;
  tk_value : forall o r, o ∈ occurrences ->
    dget (cs_static_value_references s) (oc_occurrence_id o) = Some r -> value_ok (cs_secret_context s) o r;
  tk_diagnostics : diagnostics_ok s
}.

Lemma registry_ok_transfer s s' :
  cs_static_resources s' = cs_static_resources s -> cs_static_payloads s' = cs_static_payloads s ->
  registry_ok options s -> registry_ok options s'.
Proof. intros Hr Hp [H1 H2 H3]. by constructor; rewrite ?Hr, ?Hp. Qed.

(** The invariant depends on the resolving fields only. *)
Lemma tokens_ok_keeps s s' : keeps s s' -> tokens_ok s -> tokens_ok s'.
Proof.
  intros [[Hf Hv Hw Hl Hr Hp Hs] _ Hd] [H1 H2 H3 H4 H5]. constructor; [| | | |auto].
  - by apply (registry_ok_transfer s).
  - rewrite Hf. intros o rf Ho Hg. destruct (H2 o rf Ho Hg) as [Ha Hb]. constructor; [done|]. unfold registered. by rewrite Hr.
  - rewrite Hw. intros o l Ho Hg. destruct (H3 o l Ho Hg). constructor; [done| |done..]. by rewrite Hl.
  - rewrite Hv, Hs. auto.
Qed.

(** A registered file reference at an id: either the id of [o], which [result]
    belongs to, or the id of no occurrence. *)
Lemma tokens_ok_register s s' id rf (o0 : option RenderTokenOccurrence) :
  tokens_ok s -> registry_ok options s' -> diagnostics_ok s' ->
  (forall ref, registered s ref -> registered s' ref) ->
  cs_static_file_references s' = dset (cs_static_file_references s) id rf ->
  cs_static_value_references s' = cs_static_value_references s -> cs_workspace_file_references s' = cs_workspace_file_references s ->
  cs_workspace_file_locators s' = cs_workspace_file_locators s -> cs_secret_context s' = cs_secret_context s ->
  (forall o, o ∈ occurrences -> oc_occurrence_id o = id -> file_ok s' o rf) -> tokens_ok s'.
Proof.
  intros [H1 H2 H3 H4 H5] Hreg Hd Hmono Hf Hv Hw Hl Hs Hnew. constructor; [done| | | |done].
  - rewrite Hf. intros o rf' Ho. rewrite dget_dset. case_decide as He; [intros [= <-]; by apply Hnew|].
    intros Hg. destruct (H2 o rf' Ho Hg) as [Ha Hb]. constructor; [done | by apply Hmono].
  - rewrite Hw. intros o l Ho Hg. destruct (H3 o l Ho Hg). constructor; [done| |done..]. by rewrite Hl.
  - rewrite Hv, Hs. auto.
Qed.

(** Only resources are registered. *)
Lemma tokens_ok_same_tokens s s' :
  tokens_ok s -> registry_ok options s' -> diagnostics_ok s' -> (forall ref, registered s ref -> registered s' ref) ->
  same_tokens s s' -> tokens_ok s'.
Proof.
  intros [H1 H2 H3 H4 H5] Hreg Hd Hmono (Hf & Hv & Hw & Hl & Hs). constructor; [done| | | |done].
  - rewrite Hf. intros o rf Ho Hg. destruct (H2 o rf Ho Hg) as [Ha Hb]. constructor; [done | by apply Hmono].
  - rewrite Hw. intros o l Ho Hg. destruct (H3 o l Ho Hg). constructor; [done| |done..]. by rewrite Hl.
  - rewrite Hv, Hs. auto.
Qed.

(** ** Files *)

Lemma post_record_static_file_reference o result s :
  o ∈ occurrences -> file_source (oc_node_ref o) (oc_reference o) = Ok (Some result) -> result_ok options result -> tokens_ok s ->
  post (record_static_file_reference (oc_node_ref o) (oc_reference o) (oc_occurrence_id o) result) (fun _ => tokens_ok) s.
Proof.
  intros Ho Hsrc Hres Hok. unfold record_static_file_reference. post_step.
  eapply post_mono; [apply (post_prepare_static_file_reference options); [done | apply Hok]|].
  intros r s1 (Hreg & Hmono & Hsame & Hd & Hr). pose proof (Hd (tk_diagnostics _ Hok)) as Hd1.
  destruct r as [rf|]; post_step; [|by apply (tokens_ok_same_tokens s)].
  destruct Hr as (p & Hp & Hdesc & Hin). destruct Hsame as (Hf & Hv & Hw & Hl & Hs).
  apply (tokens_ok_register s _ (oc_occurrence_id o) rf None); try done; cbn; [by apply (registry_ok_transfer s1)| |by rewrite Hf|].
  - by destruct Hd1; constructor.
  - intros o' Ho' He. pose proof (occurrence_inj _ _ Ho' Ho He) as ->. constructor; [eauto | done].
Qed.

Lemma post_record_static_input_source node reference result s :
  node ∈ plan_nodes workflow -> result_ok options result -> tokens_ok s ->
  post (record_static_input_source node reference (input_occurrence_id node) result) (fun _ => tokens_ok) s.
Proof.
  intros Hn Hres Hok. unfold record_static_input_source. post_step.
  eapply post_mono; [apply (post_prepare_static_file_reference options); [done | apply Hok]|].
  intros r s1 (Hreg & Hmono & Hsame & Hd & Hr). pose proof (Hd (tk_diagnostics _ Hok)) as Hd1.
  destruct r as [rf|]; repeat post_step; [|by apply (tokens_ok_same_tokens s)].
  destruct Hsame as (Hf & Hv & Hw & Hl & Hs).
  apply (tokens_ok_register s _ (input_occurrence_id node) rf None); try done; cbn;
    [by apply (registry_ok_transfer s1)|by destruct Hd1; constructor|by rewrite Hf|].
  intros o Ho He. by destruct (input_id_fresh node o Hn Ho).
Qed.

(** What a workspace lookup changes: at most one locator under its id. *)
Definition locator_added (node : WorkflowNode) (target : WorkspaceFileTarget) (reference : TemplateReference) (id : string)
    (s s' : CompileState) : Prop :=
  keeps s s' \/
  exists l s1, keeps s s1 /\ (diagnostics_ok s1 -> diagnostics_ok s') /\
    cs_static_file_references s' = cs_static_file_references s1 /\ cs_static_value_references s' = cs_static_value_references s1 /\
    cs_static_resources s' = cs_static_resources s1 /\ cs_static_payloads s' = cs_static_payloads s1 /\
    cs_secret_context s' = cs_secret_context s1 /\
    cs_workspace_file_references s' = dset (cs_workspace_file_references s1) id l /\
    cs_workspace_file_locators s' = cs_workspace_file_locators s1 ++ [l] /\
    wl_node_id l = node_id node /\ wl_target l = target /\ wl_raw_path l = default "" (ref_key reference).

Lemma post_no_locator {A} id raw message s :
  post (no_locator id raw message : M CompileState (option A)) (fun o s' => o = None /\ keeps s s') s.
Proof.
  unfold no_locator, append_workspace_file_error. post_step. eapply post_mono.
  - eapply post_append_diagnostic. done.
  - intros _ s' [Hk _]. by post_step.
Qed.

Ltac no_locator := eapply post_mono; [apply post_no_locator | intros ? ? [-> ?]].

Lemma post_path_record node raw_path s :
  post (workspace_file_path_record node raw_path options) (fun _ s' => keeps s s') s.
Proof.
  unfold workspace_file_path_record. post_step; [by no_locator|]. post_step; [by no_locator|].
  unfold is_absolute_workspace_file_path. post_step.
  destruct (expand_user _) as [e|expanded]; [destruct e; try apply post_raise; no_locator; by post_step|].
  post_step. destruct (str_startswith "/" expanded); [by no_locator|]. repeat post_step.
  case_match; [|by no_locator]. case_match; [|by no_locator]. post_step; [by no_locator|]. by post_step.
Qed.

Lemma post_project_blob top commit path id raw s :
  post (resolve_project_blob top commit path id raw) (fun _ s' => keeps s s') s.
Proof.
  unfold resolve_project_blob. destruct (git_ls_tree top commit path) as [?|[record|]]; [by no_locator| |by no_locator].
  post_step; [by no_locator|]. post_step; [by no_locator|]. destruct (git_cat_blob _ _); [by no_locator|].
  post_step; [by no_locator|]. by post_step.
Qed.

Lemma build_locator_fields node target seg reference id source_class path_record blob l :
  build_workspace_file_locator node target seg reference id options source_class path_record blob = Ok l ->
  wl_node_id l = node_id node /\ wl_target l = target /\ wl_raw_path l = default "" (ref_key reference).
Proof. unfold build_workspace_file_locator. intros H. apply bind_Ok in H as (? & _ & H). by injection H as <-. Qed.

Lemma post_workspace_file_reference node target seg reference id s :
  post (resolve_workspace_file_reference workflow node target seg reference id options)
    (fun _ => locator_added node target reference id s) s.
Proof.
  unfold resolve_workspace_file_reference. destruct (po_workspace_source_snapshot options) as [snapshot|]; [|apply post_raise].
  post_step. eapply post_mono; [apply post_path_record|]. intros [path_record|] s1 Hk1; [|post_step; by left].
  post_step. post_step. post_step.
  eapply post_mono with (Q := fun _ s' => keeps s s').
  - post_step; [by post_step|]. post_step. eapply post_mono; [apply post_project_blob|]. intros b s2 Hk2. post_step. by transitivity s1.
  - intros [blob|] s2 Hk2; [|post_step; by left]. repeat post_step.
    match goal with H : build_workspace_file_locator _ _ _ _ _ _ _ _ _ = Ok ?l |- _ =>
      destruct (build_locator_fields _ _ _ _ _ _ _ _ _ H) as (Hn & Ht & Hp); rename l into loc end.
    assert (Hadd : forall s3, (exists f, s3 = on_workspace_file_payloads f
        (on_workspace_file_locators (fun locators => locators ++ [loc])
          (on_workspace_file_references (fun refs => dset refs id loc) s2))) -> locator_added node target reference id s s3).
    { intros s3 [f ->]. right. exists loc, s2. split_and!; try done. intros []. by constructor. }
    destruct blob as [b|]; [destruct (wl_content_ref loc)|]; post_step; apply Hadd;
      [eexists; reflexivity | exists (fun d => d); reflexivity | exists (fun d => d); reflexivity].
Qed.

Lemma tokens_ok_locator node target reference id s s' :
  tokens_ok s -> locator_added node target reference id s s' ->
  (forall o, o ∈ occurrences -> oc_occurrence_id o = id ->
     node = oc_node_ref o /\ target = workspace_file_target_for_role (oc_target_role o) /\ reference = oc_reference o /\
     file_source (oc_node_ref o) (oc_reference o) = Ok None) ->
  tokens_ok s'.
Proof.
  intros Hok [Hk|(l & s1 & Hk & Hd & Hf & Hv & Hr & Hp & Hs & Hw & Hl & Hn & Ht & Hraw)] Hnew; [by eapply tokens_ok_keeps|].
  pose proof (tokens_ok_keeps _ _ Hk Hok) as [H1 H2 H3 H4 H5]. constructor.
  - by apply (registry_ok_transfer s1).
  - rewrite Hf. intros o rf Ho Hg. destruct (H2 o rf Ho Hg) as [Ha Hb]. constructor; [done|]. unfold registered. by rewrite Hr.
  - rewrite Hw. intros o l' Ho. rewrite dget_dset. case_decide as He.
    + intros [= <-]. destruct (Hnew o Ho (eq_sym He)) as (-> & -> & -> & Hsrc). constructor; [done| |done..].
      rewrite Hl. apply elem_of_app. right. by apply list_elem_of_singleton.
    + intros Hg. destruct (H3 o l' Ho Hg). constructor; [done| |done..]. rewrite Hl. apply elem_of_app. by left.
  - rewrite Hv, Hs. auto.
  - auto.
Qed.

Lemma post_apply_file_occurrence o s :
  o ∈ occurrences -> tokens_ok s -> post (apply_file_occurrence workflow options o) (fun _ => tokens_ok) s.
Proof.
  intros Ho Hok. unfold apply_file_occurrence. post_step; [by post_step|]. unfold try_resolve_terminal_file_reference.
  post_step. post_step. post_step. destruct a as [result|].
  - post_step. eapply post_mono; [apply (post_record_static_file_reference o result); [done| | |done]|].
    + unfold file_source. by rewrite H0.
    + by eapply resolve_terminal_ok.
    + intros u s1 H1. by repeat post_step.
  - post_step. post_step. post_step. destruct a.
    + eapply post_mono; [apply post_workspace_file_reference|]. intros u s1 Hl. eapply tokens_ok_locator; [exact Hok | exact Hl |].
      intros o' Ho' He. pose proof (occurrence_inj _ _ Ho' Ho He) as ->. split_and!; [done..|].
      unfold file_source. rewrite H0. simpl. by rewrite H1.
    + unfold resolve_file_reference. repeat post_step. apply post_record_static_file_reference; [done| | |done].
      * unfold file_source. rewrite H0. simpl. rewrite H1. simpl. rewrite H2. simpl. by rewrite H3.
      * by eapply resolve_static_file_ok.
Qed.

Lemma post_input_source node s :
  node ∈ plan_nodes workflow -> tokens_ok s -> post (resolve_input_source workflow node options) (fun _ => tokens_ok) s.
Proof.
  intros Hn Hok. unfold resolve_input_source.
  assert (Hinvalid : forall message n p,
    post (append_diagnostic INPUT_SOURCE PhaseFilePolicy message n p SeverityError) (fun _ => tokens_ok) s).
  { intros message n p. eapply post_mono; [apply post_append_diagnostic; done|]. intros u s' [Hk _]. by apply (tokens_ok_keeps s). }
  destruct (iter_template_references _) as [|reference [|]]; [apply Hinvalid| |apply Hinvalid].
  post_step; [apply Hinvalid|]. repeat post_step. destruct a as [result|].
  - apply post_record_static_input_source; [done| |done]. by eapply resolve_terminal_ok.
  - repeat post_step.
    + unfold resolve_workspace_input_source. post_step.
      eapply post_mono; [apply post_workspace_file_reference|]. intros u s1 Hl.
      assert (Hok1 : tokens_ok s1).
      { eapply tokens_ok_locator; [exact Hok | exact Hl |]. intros o Ho He. by destruct (input_id_fresh node o Hn Ho). }
      repeat post_step. destruct (dget _ _); repeat post_step; [|done].
      apply (tokens_ok_keeps s1); [|done]. constructor; [by constructor | done | intros []; by constructor].
    + unfold resolve_static_input_source. repeat post_step. apply post_record_static_input_source; [done| |done].
      by eapply resolve_static_file_ok.
Qed.

Lemma post_apply_file_policy s : tokens_ok s -> post (apply_file_policy workflow options) (fun _ => tokens_ok) s.
Proof.
  intros Hok. unfold apply_file_policy. post_step. eapply post_mono.
  - apply (post_for_all tokens_ok); [done|]. intros node s' Hn Hok'. post_step; [by apply post_input_source | by post_step].
  - intros u s' Hok'. apply (post_for_all tokens_ok); [done|]. intros o s'' Ho Hok''. by apply post_apply_file_occurrence.
Qed.

(** ** Values *)

Lemma post_lookup_static_value kind key id s :
  post (lookup_static_value kind key variables options id) (fun o s' =>
    keeps s s' /\ match o with Some v => static_value kind key = Some v | None => True end) s.
Proof.
  unfold lookup_static_value. repeat post_step.
  - eapply post_mono; [apply post_append_diagnostic; done|]. intros u s' [Hk _]. by post_step.
  - assert (Hvalue : fst (if bool_decide (kind = TokEnv)
                    then (dget (default process_environment (po_environment options)) key, "Environment variable")
                    else (dget variables key, "Template variable")) = static_value kind key).
    { destruct kind; simpl in H; done. }
    destruct (if bool_decide (kind = TokEnv) then _ else _) as [[v|] label]; simpl in Hvalue.
    + post_step. by rewrite <- Hvalue.
    + post_step. eapply post_mono; [apply post_append_diagnostic; done|]. intros u s' [Hk _]. by post_step.
Qed.

(** A secret is only overwritten by the same value. *)
Lemma value_ok_secret secrets o r kind key v :
  static_value kind key = Some v -> value_ok secrets o r -> value_ok (dset secrets (value_handle kind key) (JStr v)) o r.
Proof.
  intros Hv [H1 H2 (v' & Hv' & H3)]. constructor; [done..|]. exists v'. split; [done|].
  destruct (is_sensitive_value _ _); [|done]. destruct H3 as (H4 & H5 & H6). split_and!; [done..|].
  rewrite dget_dset. case_decide as He; [|done]. unfold value_handle in He. apply handle_inj in He as [-> ->]. congruence.
Qed.

Lemma tokens_ok_value s s' o r :
  o ∈ occurrences -> tokens_ok s ->
  cs_static_file_references s' = cs_static_file_references s -> cs_workspace_file_references s' = cs_workspace_file_references s ->
  cs_workspace_file_locators s' = cs_workspace_file_locators s -> cs_static_resources s' = cs_static_resources s ->
  cs_static_payloads s' = cs_static_payloads s -> cs_diagnostics s' = cs_diagnostics s ->
  cs_diagnostic_keys s' = cs_diagnostic_keys s ->
  cs_static_value_references s' = dset (cs_static_value_references s) (oc_occurrence_id o) r ->
  value_ok (cs_secret_context s') o r ->
  (forall o' r', value_ok (cs_secret_context s) o' r' -> value_ok (cs_secret_context s') o' r') -> tokens_ok s'.
Proof.
  intros Ho [H1 H2 H3 H4 H5] Hf Hw Hl Hr Hp Hd Hk Hv Hnew Hold. constructor.
  - by apply (registry_ok_transfer s).
  - rewrite Hf. intros o' rf Ho' Hg. destruct (H2 o' rf Ho' Hg) as [Ha Hb]. constructor; [done|]. unfold registered. by rewrite Hr.
  - rewrite Hw. intros o' l Ho' Hg. destruct (H3 o' l Ho' Hg). constructor; [done| |done..]. by rewrite Hl.
  - rewrite Hv. intros o' r' Ho'. rewrite dget_dset. case_decide as He; [|eauto].
    intros [= <-]. by pose proof (occurrence_inj _ _ Ho Ho' He) as ->.
  - destruct H5. by constructor; rewrite ?Hd, ?Hk.
Qed.

Lemma post_resolve_static_value o s :
  o ∈ occurrences -> tokens_ok s ->
  post (resolve_static_value_reference (oc_node_ref o) (oc_reference o) variables options (oc_occurrence_id o))
    (fun _ => tokens_ok) s.
Proof.
  intros Ho Hok. unfold resolve_static_value_reference.
  destruct (static_token_kind _) as [kind|] eqn:Hkind; [|apply post_raise]. post_step.
  eapply post_mono; [apply post_lookup_static_value|]. intros [v|] s1 [Hk Hv]; [|post_step; by apply (tokens_ok_keeps s)].
  pose proof (tokens_ok_keeps _ _ Hk Hok) as Hok1.
  change (bool_decide (kind = TokEnv) || is_sensitive_name (default "" (ref_key (oc_reference o))))
    with (is_sensitive_value kind (default "" (ref_key (oc_reference o)))).
  set (key := default "" (ref_key (oc_reference o))) in *.
  unfold secret_put. destruct (is_sensitive_value kind key) eqn:Hs; cbn [when]; repeat post_step.
  - eapply (tokens_ok_value s1 _ o); [done..|reflexivity| |].
    + constructor; cbn; [done..|]. exists v. split; [done|]. rewrite Hs. split_and!; [done..|]. apply dget_dset_eq.
    + intros o' r'. by apply value_ok_secret.
  - eapply (tokens_ok_value s1 _ o); [done..|reflexivity| |done].
    constructor; cbn; [done..|]. exists v. split; [done|]. by rewrite Hs.
Qed.

Lemma post_apply_static_value_policy kind s :
  tokens_ok s -> post (apply_static_value_policy workflow kind variables options) (fun _ => tokens_ok) s.
Proof.
  intros Hok. apply (post_for_all tokens_ok); [done|]. intros o s' Ho Hok'. post_step; [by post_step|].
  by apply post_resolve_static_value.
Qed.

End Tokens.
