(* ===== verification/PreflightStreams.v ===== *)
(** Streams of fragments: rendering the fragments compiled for a prompt is
    substituting the tokens of its segments. *)

From Stdlib Require Import ZArith Lia Ascii String.
From stdpp Require Import base gmap sets list strings sorting.
From S2P Require Import Prelude PyStr StateExn Models Artifacts Composition CompositionSpec PlanRecords PlanContract.
From S2P Require Import PreflightState PreflightFilesystem PreflightRender PromptAssembly PreflightText PreflightInv.
From S2P Require Import PreflightTokens.

Open Scope string_scope.
Open Scope list_scope.
Open Scope Z_scope.

(** ** Rendering *)

Section Rendering.
Context {hash : HashLibrary} {sources : PromptSources}.
Variables (rt : RuntimePlan) (secrets : dict json).

Definition fragment_text (f : Fragment) : outcome text :=
  '(s, _) ← resolve_fragment rt secrets f; mret (chars s).

(** The texts of fragments, one after the other. *)
Fixpoint render (fs : list Fragment) : outcome text :=
  match fs with
  | [] => Ok []
  | f :: rest => t ← fragment_text f; tail ← render rest; mret (t ++ tail)
  end.

Lemma render_app fs gs : render (fs ++ gs) = t ← render fs; u ← render gs; mret (t ++ u).
Proof.
  induction fs as [|f fs IH]; simpl; [by destruct (render gs)|]. rewrite IH. destruct (fragment_text f); simpl; [|done..].
  destruct (render fs); simpl; [|done..]. destruct (render gs); simpl; [|done..]. by rewrite app_assoc.
Qed.

Lemma render_literal i role l : fragment_text (literal_fragment i role l) = Ok l.
Proof. unfold fragment_text, literal_fragment, resolve_fragment. simpl. by rewrite chars_of_chars. Qed.

Lemma with_node_context_bind {A B} node (m : outcome A) (k : A -> outcome B) :
  with_node_context node (m ≫= k) = a ← with_node_context node m; with_node_context node (k a).
Proof. destruct m as [a|e|]; simpl; [done| |done]. by destruct (is_value_error e). Qed.

(** Assembly is rendering, with the node named in the errors. *)
Lemma assemble_fragments_render node fs prompt found :
  (r ← assemble_fragments rt node secrets fs (prompt, found); mret (chars (fst r))) =
  with_node_context node (t ← render fs; mret (chars prompt ++ t)).
Proof.
  unfold assemble_fragments. revert prompt found.
  induction fs as [|f fs IH]; intros prompt found; simpl; [by rewrite app_nil_r|].
  unfold fragment_text. rewrite !with_node_context_bind.
  destruct (resolve_fragment rt secrets f) as [[s file]|e|]; simpl; [|by destruct (is_value_error e)|done].
  rewrite IH. rewrite chars_app. destruct (render fs) as [t|e|]; simpl; [|by destruct (is_value_error e)|done].
  by rewrite <- app_assoc.
Qed.

End Rendering.

(** ** The numbering of fragments *)

(** The index of a fragment is its position. *)
Definition numbered (fs : list Fragment) : Prop := map fr_fragment_index fs = map Z.of_nat (seq 0 (length fs)).

Lemma numbered_snoc fs f : numbered fs -> fr_fragment_index f = next_index fs -> numbered (fs ++ [f]).
Proof.
  unfold numbered, next_index. intros H Hf. rewrite map_app, length_app, seq_app, map_app, H. simpl. by rewrite Hf.
Qed.

Lemma sort_by_sorted_id {A} (key : A -> Z) l : StronglySorted (fun x y => key x <= key y) l -> sort_by key l = l.
Proof.
  induction 1 as [|x l Hl IH Hx]; [done|]. change (insert_by key x (sort_by key l) = x :: l). rewrite IH.
  destruct l as [|y l]; [done|].
  simpl. apply Forall_inv in Hx. by apply Z.leb_le in Hx as ->.
Qed.

(** The assembler's sort changes nothing. *)
Lemma numbered_sorted fs : numbered fs -> sort_by fr_fragment_index fs = fs.
Proof.
  intros H. apply sort_by_sorted_id. assert (Hs : StronglySorted Z.le (map fr_fragment_index fs)).
  { rewrite H. generalize (length fs) 0%nat. clear. induction n as [|n IH]; intros k; simpl; constructor; [done|].
    apply Forall_forall. intros z (m & -> & Hm%list_elem_of_In%in_seq)%list_elem_of_fmap. lia. }
  clear H. induction fs as [|f fs IH]; [constructor|]. simpl in Hs. apply StronglySorted_inv in Hs as [Hs Hf].
  constructor; [by apply IH|]. rewrite List.Forall_map in Hf. exact Hf.
Qed.

(** ** Fragments of tokens *)

Section Streams.
Context {hash : HashLibrary} {files : PreflightFiles} {sources : PromptSources} {laws : HashLaws hash}.
Variables (workflow : WorkflowPlan) (options : PreflightCompileOptions) (variables : dict string).
Variable lookup : string -> WorkspaceFileTarget -> string -> answer ResolvedWorkspaceFile.

Notation occurrences := (iter_render_token_occurrences workflow).

Definition unresolved {A} : outcome A := Raise (ValueError "unresolved").

(** The text a token of a node's prompt denotes for a role: an artifact, a file
    captured by the compiler, a file of the node's workspace, or a value. *)
Definition token_text (rt : RuntimePlan) (node : WorkflowNode) (role : ProviderRole) (raw : text) : outcome text :=
  let reference := reference_at (of_chars raw) 0 0 in
  let key := default "" (ref_key reference) in
  s ← match ref_kind reference with
      | RefNode => resolve_runtime_locator (rt_plan rt) (default "" (ref_node_id reference))
                     (default "" (ref_artifact_name reference))
      | RefFile =>
          source ← file_source workflow options node reference;
          match source with
          | Some result => from_option Ok unresolved (sf_payload result)
          | None => file ← answered (lookup (node_id node) (workspace_file_target_for_role role) key); mret (rw_text file)
          end
      | RefEnv => from_option Ok unresolved (static_value options variables TokEnv key)
      | RefVar => from_option Ok unresolved (static_value options variables TokVar key)
      | RefParam | RefUnknown => unresolved
      end;
  mret (chars s).

(** What the execution finds: the descriptors and the secrets of the
    compilation, the captured bytes in the bundle, and workspace files. *)
Record runtime_ok (s : CompileState) (rt : RuntimePlan) (secrets : dict json) : Prop := {
  rn_resources : rt_static_resources rt = cs_static_resources s;
  rn_secrets : secrets = cs_secret_context s;
  rn_bundle : forall ref p limit, dget (cs_static_payloads s) ref = Some p -> Z.of_nat (String.length p) <= limit ->
    read_bundle ref limit = inr p;
  rn_workspace : forall l, l ∈ cs_workspace_file_locators s ->
    workspace_file (wl_locator_id l) = lookup (wl_node_id l) (wl_target l) (wl_raw_path l)
}.

Lemma runtime_ok_keeps s s' rt secrets : same_refs s s' -> runtime_ok s rt secrets -> runtime_ok s' rt secrets.
Proof. intros [_ _ _ Hl Hr Hp Hs] [H1 H2 H3 H4]. constructor; rewrite ?Hl, ?Hr, ?Hp, ?Hs; done. Qed.

(** No two captured files share a digest. *)
Definition no_collision : Prop :=
  forall p q, captured options p -> captured options q -> sha256 p = sha256 q -> p = q.
Hypothesis Hhash : no_collision.

Lemma sha256_form p : sha256_fullmatch (sha256 p) = true.
Proof.
  unfold sha256_fullmatch. apply andb_true_iff. split.
  - apply Nat.eqb_eq. rewrite <- length_chars. apply sha256_length.
  - apply forallb_forall. intros c Hc. pose proof (sha256_hex p) as H. rewrite Forall_forall in H.
    by apply H, list_elem_of_In.
Qed.

Lemma filter_content_ref (rs : list StaticResource) r :
  NoDup (map sr_content_ref rs) -> r ∈ rs ->
  List.filter (fun x => bool_decide (sr_content_ref x = sr_content_ref r)) rs = [r].
Proof.
  induction rs as [|x rs IH]; intros Hd Hr; [by apply elem_of_nil in Hr|]. simpl in Hd. apply NoDup_cons in Hd as [Hx Hd].
  simpl. apply elem_of_cons in Hr as [->|Hr].
  - rewrite bool_decide_eq_true_2 by done. f_equal. clear IH Hd. induction rs as [|y rs IH]; [done|]. simpl in *.
    apply not_elem_of_cons in Hx as [Hy Hx]. rewrite bool_decide_eq_false_2 by done. by apply IH.
  - rewrite bool_decide_eq_false_2; [by apply IH|]. intros He. apply Hx. rewrite He. by apply list_elem_of_fmap_2.
Qed.

(** A registered capture is read back. *)
Lemma read_registered s rt secrets r p :
  registry_ok options s -> runtime_ok s rt secrets -> registered s (sr_content_ref r) -> describes options r p ->
  read_verified_static_text rt (sr_content_ref r) = Ok p.
Proof.
  intros Hreg Hrt Hin Hd. unfold read_verified_static_text. rewrite (rn_resources _ _ _ Hrt).
  apply list_elem_of_fmap in Hin as (r0 & Href & Hr0). rewrite Href, (filter_content_ref _ _ (rg_distinct _ _ Hreg) Hr0).
  destruct (rg_payload _ _ Hreg _ Hr0) as (p0 & Hp0 & Hd0).
  assert (p0 = p) as ->.
  { apply Hhash; [eexists; apply Hd0 | eexists; apply Hd|]. apply content_ref_inj.
    fold (content_ref_of p0) (content_ref_of p). rewrite <- (ds_ref _ _ _ Hd0), <- (ds_ref _ _ _ Hd). done. }
  rewrite (ds_encoding _ _ _ Hd0), (ds_size _ _ _ Hd0), (ds_sha _ _ _ Hd0), sha256_form. simpl.
  rewrite (proj2 (Z.ltb_ge _ _)) by lia. simpl. rewrite (rn_bundle _ _ _ Hrt _ _ _ Hp0) by lia.
  rewrite Z.eqb_refl, bool_decide_eq_true_2 by done. simpl.
  pose proof (ds_text _ _ _ Hd0) as Ht. unfold decode_utf8_without_nul in Ht.
  destruct (decode_utf8 p) as [t|]; [|done]. destruct (has_nul t); [done|]. by injection Ht as ->.
Qed.

(** An occurrence of the same token in a node with the same id. *)
Definition same_occurrence (o o' : RenderTokenOccurrence) : Prop :=
  node_id (oc_node_ref o') = node_id (oc_node_ref o) /\ oc_reference o' = oc_reference o /\
  oc_occurrence_id o' = oc_occurrence_id o /\ oc_target_role o' = oc_target_role o.

(** The fragment of an occurrence renders what its token denotes. *)
Definition renders (s : CompileState) (o : RenderTokenOccurrence) (f : Fragment) : Prop :=
  forall rt secrets, runtime_ok s rt secrets ->
    fragment_text rt secrets f = token_text rt (oc_node_ref o) (oc_target_role o) (chars (ref_raw_token (oc_reference o))).

Lemma make_fragment_Ok f g s s' : make_fragment f s = (Ok g, s') -> g = f /\ s' = s /\ validate_fragment_payload f = Ok tt.
Proof.
  unfold make_fragment, lift. destruct (validate_fragment_payload f) as [[]|e|] eqn:Hv; simpl; [|done..]. by intros [= <- <-].
Qed.

Lemma post_make_fragment f (Q : Fragment -> CompileState -> Prop) s :
  (validate_fragment_payload f = Ok tt -> Q f s) -> post (make_fragment f) Q s.
Proof. intros H g s' (-> & -> & Hv)%make_fragment_Ok. by apply H. Qed.

Lemma keeps_catalog f s : keeps s (on_token_catalog f s).
Proof. constructor; [by constructor | done | intros []; by constructor]. Qed.

Lemma keeps_edges f s : keeps s (on_dependency_edges f s).
Proof. constructor; [by constructor | done | intros []; by constructor]. Qed.

Lemma post_append_dependency_edge a b c d s : post (append_dependency_edge a b c d) (fun _ s' => keeps s s') s.
Proof.
  unfold append_dependency_edge. repeat post_step; [|apply keeps_edges]. destruct d; repeat post_step; [apply keeps_edges | done].
Qed.

(** The token is the one at the offsets of the reference. *)
Definition reference_wf (reference : TemplateReference) : Prop :=
  exists first last, reference = reference_at (ref_raw_token reference) first last.

Lemma file_source_reference node r r' :
  ref_key r = ref_key r' -> file_source workflow options node r = file_source workflow options node r'.
Proof. unfold file_source, should_use_workspace_file_locator. by intros ->. Qed.

Lemma token_text_of rt o :
  reference_wf (oc_reference o) ->
  token_text rt (oc_node_ref o) (oc_target_role o) (chars (ref_raw_token (oc_reference o))) =
  s ← match ref_kind (oc_reference o) with
      | RefNode => resolve_runtime_locator (rt_plan rt) (default "" (ref_node_id (oc_reference o)))
                     (default "" (ref_artifact_name (oc_reference o)))
      | RefFile =>
          source ← file_source workflow options (oc_node_ref o) (oc_reference o);
          match source with
          | Some result => from_option Ok unresolved (sf_payload result)
          | None => file ← answered (lookup (node_id (oc_node_ref o)) (workspace_file_target_for_role (oc_target_role o))
                                       (default "" (ref_key (oc_reference o)))); mret (rw_text file)
          end
      | RefEnv => from_option Ok unresolved (static_value options variables TokEnv (default "" (ref_key (oc_reference o))))
      | RefVar => from_option Ok unresolved (static_value options variables TokVar (default "" (ref_key (oc_reference o))))
      | RefParam | RefUnknown => unresolved
      end;
  mret (chars s).
Proof.
  intros (first & last & Hr). unfold token_text. rewrite of_chars_chars.
  destruct (reference_at_offsets (ref_raw_token (oc_reference o)) first last) as (_ & _ & Hk & Hkey & Hn & Ha).
  rewrite <- Hr in Hk, Hkey, Hn, Ha. rewrite <- Hk, <- Hkey, <- Hn, <- Ha.
  rewrite (file_source_reference _ _ (oc_reference o)) by done. done.
Qed.

(** What is known of the fragment of an occurrence. *)
Definition fragment_post (o : RenderTokenOccurrence) (index : Z) (s : CompileState) (r : option Fragment) (s' : CompileState)
    : Prop :=
  keeps s s' /\
  match r with
  | None => has_errors s' = true
  | Some f => fr_fragment_index f = index /\ renders s o f
  end.

Lemma post_token_diagnostic {A} c phase message node s :
  reserved c phase = true -> diagnostics_ok s ->
  post (append_diagnostic c phase message node None SeverityError;; ret (None : option A))
    (fun r s' => r = None /\ keeps s s' /\ has_errors s' = true) s.
Proof.
  intros Hc Hd. post_step. eapply post_mono; [by apply post_append_diagnostic|]. intros u s' [Hk He]. post_step. auto.
Qed.

Lemma post_node_fragment o o' index s :
  reference_wf (oc_reference o) -> ref_kind (oc_reference o) = RefNode -> same_occurrence o o' -> diagnostics_ok s ->
  post (node_reference_fragment options o' index) (fragment_post o index s) s.
Proof.
  intros Hwf Hkind (Hn & Hr & Hid & Hrole) Hd. unfold node_reference_fragment. rewrite Hr. post_step.
  - eapply post_mono; [apply post_token_diagnostic; [|done]|].
    + done.
    + intros r s' (-> & Hk & He). by split.
  - post_step. unfold append_token_catalog. post_step. post_step.
    eapply post_mono; [apply post_append_dependency_edge|]. intros u s1 Hk. post_step. apply post_make_fragment. intros Hv.
    post_step. split; [eapply transitivity; [apply keeps_catalog | exact Hk]|]. split; [done|].
    intros rt secrets _. rewrite token_text_of, Hkind by done. unfold fragment_text, resolve_fragment. cbn [fr_kind].
    unfold locator_parts. cbn [fr_locator].
    unfold validate_fragment_payload in Hv. apply bind_Ok in Hv as (? & _ & Hv). cbn [fr_kind fr_locator] in Hv.
    unfold has_locator_field in Hv. simpl in Hv. simpl. destruct (nonempty _ && nonempty _); [|done]. simpl.
    by destruct (resolve_runtime_locator _ _ _).
Qed.

Lemma post_file_fragment o o' index s :
  reference_wf (oc_reference o) -> ref_kind (oc_reference o) = RefFile -> same_occurrence o o' -> o ∈ occurrences ->
  tokens_ok workflow options variables s -> post (file_reference_fragment options o' index) (fragment_post o index s) s.
Proof.
  intros Hwf Hkind (Hn & Hr & Hid & Hrole) Ho Hok. unfold file_reference_fragment. post_step. post_step. rewrite Hid.
  destruct (dget (cs_workspace_file_references s) (oc_occurrence_id o)) as [l|] eqn:Hl.
  - destruct (tk_workspace _ _ _ _ Hok o l Ho Hl) as [Hsrc Hin Hln Hlt Hlp].
    unfold append_token_catalog. repeat post_step. apply post_make_fragment. intros Hv. post_step.
    split; [apply keeps_catalog|]. split; [done|]. intros rt secrets Hrt. rewrite token_text_of, Hkind, Hsrc by done.
    unfold fragment_text, resolve_fragment. simpl. rewrite (rn_workspace _ _ _ Hrt l Hin), Hln, Hlt, Hlp.
    by destruct (lookup _ _ _).
  - post_step. post_step. destruct (dget (cs_static_file_references s) (oc_occurrence_id o)) as [rf|] eqn:Hf.
    + destruct (tk_file _ _ _ _ Hok o rf Ho Hf) as [(result & p & Hsrc & Hp & Hd) Hreg].
      unfold append_token_catalog. repeat post_step. apply post_make_fragment. intros Hv. post_step.
      split; [apply keeps_catalog|]. split; [done|]. intros rt secrets Hrt. rewrite token_text_of, Hkind, Hsrc by done.
      unfold fragment_text, resolve_fragment. simpl. rewrite Hp. simpl.
      by rewrite (read_registered s rt secrets (rf_resource rf) p (tk_registry _ _ _ _ Hok) Hrt Hreg Hd).
    + eapply post_mono; [apply post_token_diagnostic; [|apply Hok]|].
      * done.
      * intros r s' (-> & Hk & He). by split.
Qed.

Lemma post_value_fragment o o' index s :
  reference_wf (oc_reference o) -> ref_kind (oc_reference o) = RefEnv \/ ref_kind (oc_reference o) = RefVar ->
  same_occurrence o o' -> o ∈ occurrences -> tokens_ok workflow options variables s ->
  post (static_value_fragment options o' index) (fragment_post o index s) s.
Proof.
  intros Hwf Hkind (Hn & Hr & Hid & Hrole) Ho Hok. unfold static_value_fragment. post_step. post_step. rewrite Hid.
  destruct (dget (cs_static_value_references s) (oc_occurrence_id o)) as [r|] eqn:Hg.
  - destruct (tk_value _ _ _ _ Hok o r Ho Hg) as [Hvk Hkey (v & Hv & Hcase)].
    unfold append_token_catalog. repeat post_step. apply post_make_fragment. intros _. post_step.
    split; [apply keeps_catalog|]. split; [done|]. intros rt secrets Hrt. rewrite token_text_of by done.
    rewrite <- Hkey. rewrite (rn_secrets _ _ _ Hrt).
    assert (Hfrag : forall f, fr_kind f = static_kind (rv_kind r) -> fr_value_stored f = rv_value_stored r ->
              fr_value_handle f = rv_value_handle r -> fragment_text rt (cs_secret_context s) f = Ok (chars v)).
    { intros f Hfk Hfs Hfh. unfold fragment_text, resolve_fragment. rewrite Hfk, Hfs, Hfh.
      assert (Hsk : static_kind (rv_kind r) = static_env \/ static_kind (rv_kind r) = static_var)
        by (unfold static_kind; case_bool_decide; auto).
      destruct (is_sensitive_value (rv_kind r) (rv_key r)).
      - destruct Hcase as (-> & -> & Hsec). unfold secret_get. rewrite Hsec. by destruct Hsk as [-> | ->].
      - destruct Hcase as (-> & ->). by destruct Hsk as [-> | ->]. }
    rewrite Hfrag by done.
    destruct Hkind as [Hk|Hk]; rewrite Hk in Hvk |- *; injection Hvk as Hvk; rewrite <- Hvk in Hv; by rewrite Hv.
  - eapply post_mono; [apply post_token_diagnostic; [|apply Hok]|].
    + done.
    + intros r s' (-> & Hk & He). by split.
Qed.

Lemma post_fragment_for_occurrence o o' index s :
  reference_wf (oc_reference o) -> same_occurrence o o' -> o ∈ occurrences -> tokens_ok workflow options variables s ->
  post (fragment_for_occurrence options o' index) (fragment_post o index s) s.
Proof.
  intros Hwf Hsame Ho Hok. unfold fragment_for_occurrence. pose proof Hsame as (_ & Hr & _). rewrite Hr.
  destruct (ref_kind (oc_reference o)) eqn:Hkind.
  - apply post_node_fragment; try done. apply Hok.
  - by apply post_file_fragment.
  - apply post_value_fragment; auto.
  - apply post_value_fragment; auto.
  - eapply post_mono; [apply post_token_diagnostic; [|apply Hok]|].
    + done.
    + intros r s' (-> & Hk & He). by split.
  - eapply post_mono; [apply post_token_diagnostic; [|apply Hok]|].
    + done.
    + intros r s' (-> & Hk & He). by split.
Qed.

(** ** Segments *)

Definition segment_occurrence (node : WorkflowNode) (role : ProviderRole) (i : nat) (segment : PromptSegment) (j : nat)
    (reference : TemplateReference) : RenderTokenOccurrence :=
  mkOccurrence node reference (render_token_occurrence_id (node_id node) role i j) role (seg_role segment) i.

(** The occurrences for one role, one for each token. *)
Lemma filter_segment_occurrences node role i segment :
  role ∈ target_roles_for_segment segment ->
  List.filter (fun o => bool_decide (oc_target_role o = role)) (iter_segment_render_token_occurrences node i segment) =
  imap (segment_occurrence node role i segment) (iter_template_references (seg_content segment)).
Proof.
  intros Hrole. unfold iter_segment_render_token_occurrences.
  enough (Hgen : forall refs (h : nat -> nat),
    List.filter (fun o => bool_decide (oc_target_role o = role))
      (concat (imap (fun j reference => map (fun r => segment_occurrence node r i segment (h j) reference)
                                          (target_roles_for_segment segment)) refs)) =
    imap (fun j => segment_occurrence node role i segment (h j)) refs) by apply (Hgen _ (fun j => j)).
  induction refs as [|reference refs IH]; intros h; simpl; [done|]. rewrite List.filter_app.
  change (imap ((fun (j : nat) reference => map (fun r => segment_occurrence node r i segment (h j) reference)
            (target_roles_for_segment segment)) ∘ S) refs)
    with (imap (fun (j : nat) reference => map (fun r => segment_occurrence node r i segment ((h ∘ S) j) reference)
            (target_roles_for_segment segment)) refs).
  rewrite (IH (h ∘ S)). unfold target_roles_for_segment in *.
  destruct (seg_role segment), role; simpl in *; try done; try (exfalso; set_solver).
Qed.

(** An occurrence of the compiled node [node'] and the token it was found at. *)
Definition located (node : WorkflowNode) (role : ProviderRole) (o' : RenderTokenOccurrence) (token : text * nat * nat) : Prop :=
  let '(raw, first, last) := token in
  exists o, o ∈ occurrences /\ same_occurrence o o' /\ oc_node_ref o = node /\ oc_target_role o = role /\
    oc_reference o = reference_at (of_chars raw) first last.

(** Fragments appended to [fs], or an error of the final state. *)
Definition appended (s : CompileState) (fs fs' : list Fragment) (s' : CompileState)
    (spec : RuntimePlan -> dict json -> list Fragment -> Prop) : Prop :=
  keeps s s' /\ numbered fs' /\
  (has_errors s' = true \/
   exists new, fs' = fs ++ new /\ forall rt secrets, runtime_ok s rt secrets -> spec rt secrets new).

Lemma appended_trans s1 s2 s3 fs1 fs2 fs3 (P Q R : RuntimePlan -> dict json -> list Fragment -> Prop) :
  appended s1 fs1 fs2 s2 P -> appended s2 fs2 fs3 s3 Q ->
  (forall rt secrets a b, P rt secrets a -> Q rt secrets b -> R rt secrets (a ++ b)) -> appended s1 fs1 fs3 s3 R.
Proof.
  intros (K1 & _ & H1) (K2 & Hn & H2) HR. split; [by transitivity s2|]. split; [done|].
  destruct H2 as [He|(b & -> & Hb)]; [by left|]. destruct H1 as [He|(a & -> & Ha)]; [left; by apply K2|].
  right. exists (a ++ b). rewrite app_assoc. split; [done|]. intros rt secrets Hrt. apply HR; [by apply Ha|].
  apply Hb. eapply runtime_ok_keeps; [apply K1 | done].
Qed.

Lemma appended_nil s fs (P : RuntimePlan -> dict json -> list Fragment -> Prop) :
  numbered fs -> (forall rt secrets, P rt secrets []) -> appended s fs fs s P.
Proof. intros Hn HP. split; [done|]. split; [done|]. right. exists []. rewrite app_nil_r. auto. Qed.

(** A literal fragment is appended when the text is not empty. *)
Lemma post_literal (c : bool) fs role l s :
  numbered fs -> (c = false -> l = []) ->
  post (if c then f ← make_fragment (literal_fragment (next_index fs) role l); ret (fs ++ [f]) else ret fs)
    (fun fs' s' => appended s fs fs' s' (fun rt secrets new => render rt secrets new = Ok l)) s.
Proof.
  intros Hn Hl. post_step.
  - post_step. apply post_make_fragment. intros _. post_step. split; [done|]. split; [by apply numbered_snoc|].
    right. eexists. split; [done|]. intros rt secrets _. cbn [render]. rewrite render_literal. simpl. by rewrite app_nil_r.
  - post_step. apply appended_nil; [done|]. intros. by rewrite Hl.
Qed.

(** The fragment of a token. *)
Lemma post_token o o' fs s :
  reference_wf (oc_reference o) -> same_occurrence o o' -> o ∈ occurrences -> tokens_ok workflow options variables s ->
  numbered fs ->
  post (fragment_for_occurrence options o' (next_index fs)) (fun f s' =>
    appended s fs (match f with Some f => fs ++ [f] | None => fs end) s' (fun rt secrets new =>
      render rt secrets new = token_text rt (oc_node_ref o) (oc_target_role o) (chars (ref_raw_token (oc_reference o))))) s.
Proof.
  intros Hwf Hsame Ho Hok Hn. eapply post_mono; [by apply (post_fragment_for_occurrence o)|].
  intros [f|] s' [Hk Hf]; (split; [done|]); [|split; [done | by left]].
  destruct Hf as [Hi Hr]. split; [by apply numbered_snoc|]. right. exists [f]. split; [done|].
  intros rt secrets Hrt. cbn [render]. rewrite (Hr rt secrets Hrt). destruct (token_text _ _ _ _); [|done..].
  simpl. by rewrite app_nil_r.
Qed.

Lemma slice_ge i j (l : text) : (j <= i)%nat -> slice i j l = [].
Proof. intros H. unfold slice. apply drop_ge. rewrite length_take. lia. Qed.

Lemma post_segment_loop node role segment : forall occs spans cursor fs s,
  Forall2 (located node role) (List.filter (fun o => bool_decide (oc_target_role o = role)) occs) spans ->
  ordered cursor spans -> tokens_ok workflow options variables s -> numbered fs ->
  post (segment_fragments options role segment cursor occs fs) (fun r s' =>
    appended s fs (snd r) s' (fun rt secrets new =>
      (t ← render rt secrets new; mret (t ++ drop (fst r) (chars (seg_content segment)))) =
      fill (token_text rt node role) cursor spans (chars (seg_content segment)))) s.
Proof.
  induction occs as [|o' occs IH]; intros spans cursor fs s Hlocated Hord Hok Hn.
  { inversion Hlocated; subst. simpl. post_step. by apply appended_nil. }
  simpl in Hlocated |- *. destruct (bool_decide (oc_target_role o' = role)) eqn:E; simpl; [|by apply IH].
  inversion Hlocated as [|? [[raw first] last] ? rest (o & Ho & Hsame & Hnode & Hrole & Href) Hrest]; subst. destruct Hord as [Hle Hord].
  pose proof Hsame as (_ & Hr & _ & Hrole). rewrite Hr, Href, <- Hrole in *.
  destruct (reference_at_offsets (of_chars raw) first last) as (-> & -> & _).
  assert (Hwf : reference_wf (oc_reference o)) by (exists first, last; rewrite Href; by rewrite reference_at_raw).
  post_step. eapply post_mono; [apply post_literal; [done|]; intros Hlt%Nat.ltb_ge; by apply slice_ge|].
  intros fs1 s1 H1. pose proof H1 as (K1 & N1 & _). assert (Hok1 : tokens_ok workflow options variables s1) by (by eapply tokens_ok_keeps).
  post_step. eapply post_mono; [by apply (post_token o)|].
  intros f s2 H2. pose proof H2 as (K2 & N2 & _). assert (Hok2 : tokens_ok workflow options variables s2) by (by eapply tokens_ok_keeps).
  eapply post_mono; [by apply (IH rest)|]. intros r s3 H3.
  eapply appended_trans; [exact H1 | eapply (appended_trans _ _ _ _ _ _ _ _ (fun rt secrets new =>
    (t ← render rt secrets new; mret (t ++ drop (fst r) (chars (seg_content segment)))) =
    v ← token_text rt (oc_node_ref o) (oc_target_role o') raw;
    tail ← fill (token_text rt (oc_node_ref o) (oc_target_role o')) last rest (chars (seg_content segment));
    mret (v ++ tail))); [exact H2 | exact H3|]|]; cbv beta.
  - intros rt secrets a b Ha Hb. rewrite render_app, <- Hb, Ha, Hrole, Href, reference_at_raw, chars_of_chars.
    clear Ha. destruct (token_text _ _ _ _); [|reflexivity..]. destruct (render rt secrets b); [|reflexivity..]. simpl. by rewrite app_assoc.
  - intros rt secrets a b Ha Hb. rewrite render_app, Ha. cbn [fill]. simpl in Hb |- *.
    transitivity (u ← (t ← render rt secrets b; mret (t ++ drop (fst r) (chars (seg_content segment))));
                  mret (slice cursor first (chars (seg_content segment)) ++ u)).
    + destruct (render rt secrets b); simpl; [|done..]. by rewrite app_assoc.
    + etransitivity; [apply (f_equal (fun m => m ≫= _) Hb)|].
      destruct (token_text _ _ _ _); simpl; [|done..]. by destruct (fill _ _ _ _).
Qed.

(** ** Prompts *)

(** The text of a prompt: the tokens of its segments for a role, substituted. *)
Fixpoint direct_text (rt : RuntimePlan) (node : WorkflowNode) (role : ProviderRole) (segments : list PromptSegment)
    : outcome text :=
  match segments with
  | [] => Ok []
  | segment :: rest =>
      if bool_decide (role ∈ target_roles_for_segment segment) then
        t ← substitute match_template (token_text rt node role) 0 (chars (seg_content segment));
        tail ← direct_text rt node role rest;
        mret (t ++ tail)
      else direct_text rt node role rest
  end.

(** A segment of [node], or text without tokens. *)
Definition segment_of (node : WorkflowNode) (i : nat) (segment : PromptSegment) : Prop :=
  node_prompt_segments node !! i = Some segment \/ find_spans match_template 0 0 (chars (seg_content segment)) = [].

Lemma located_segment node node' role i segment :
  node ∈ plan_nodes workflow -> node_mode node <> InputMode -> node_id node' = node_id node ->
  role ∈ target_roles_for_segment segment -> segment_of node i segment ->
  Forall2 (located node role)
    (List.filter (fun o => bool_decide (oc_target_role o = role)) (iter_segment_render_token_occurrences node' i segment))
    (find_spans match_template 0 0 (chars (seg_content segment))).
Proof.
  intros Hn Hm Hid Hrole Hseg. rewrite filter_segment_occurrences by done. unfold iter_template_references.
  destruct Hseg as [Hseg|Hnone]; [|rewrite Hnone; constructor].
  apply Forall2_same_length_lookup_2; [by rewrite length_imap, length_map|].
  intros j o' [[raw first] last] Ho' Hj. rewrite list_lookup_imap, list_lookup_fmap, Hj in Ho'. injection Ho' as <-.
  exists (segment_occurrence node role i segment j (reference_at (of_chars raw) first last)).
  split_and!; [|by unfold same_occurrence; simpl; rewrite Hid|done..].
  apply elem_of_occurrences. exists node, i, segment. split_and!; [done..|]. apply elem_of_segment_occurrences.
  exists j, (reference_at (of_chars raw) first last), role. split_and!; [|done..].
  unfold iter_template_references. by rewrite list_lookup_fmap, Hj.
Qed.

Lemma post_append_segment node node' role i segment fs s :
  node ∈ plan_nodes workflow -> node_mode node <> InputMode -> node_id node' = node_id node ->
  role ∈ target_roles_for_segment segment -> segment_of node i segment -> tokens_ok workflow options variables s ->
  numbered fs ->
  post (append_segment_fragments node' role i segment options fs) (fun fs' s' =>
    appended s fs fs' s' (fun rt secrets new =>
      render rt secrets new = substitute match_template (token_text rt node role) 0 (chars (seg_content segment)))) s.
Proof.
  intros Hn Hm Hid Hrole Hseg Hok Hnum. unfold append_segment_fragments. post_step.
  eapply post_mono; [apply (post_segment_loop node role segment); [by apply (located_segment _ node')| |done..]|].
  { apply find_spans_ordered. lia. }
  intros [cursor fs1] s1 H1. cbn [fst snd] in H1. pose proof H1 as (_ & N1 & _).
  eapply post_mono; [apply (post_literal _ fs1); [done|]; intros Hlt%Nat.ltb_ge; by apply drop_ge|].
  intros fs2 s2 H2. eapply appended_trans; [exact H1 | exact H2 |]. cbv beta. intros rt secrets a b Ha Hb.
  rewrite <- fill_substitute by apply match_template_bound. rewrite <- Ha, render_app, Hb. by destruct (render rt secrets a).
Qed.

Lemma post_stream node node' role : forall segments i fs s,
  node ∈ plan_nodes workflow -> node_mode node <> InputMode -> node_id node' = node_id node ->
  (forall k segment, segments !! k = Some segment -> segment_of node (i + k) segment) ->
  tokens_ok workflow options variables s -> numbered fs ->
  post (stream_fragments node' role options i segments fs) (fun fs' s' =>
    appended s fs fs' s' (fun rt secrets new => render rt secrets new = direct_text rt node role segments)) s.
Proof.
  induction segments as [|segment segments IH]; intros i fs s Hn Hm Hid Hseg Hok Hnum; cbn [stream_fragments direct_text].
  { post_step. by apply appended_nil. }
  assert (Hrest : forall k segment, segments !! k = Some segment -> segment_of node (S i + k) segment).
  { intros k sg Hk. replace (S i + k)%nat with (i + S k)%nat by lia. by apply Hseg. }
  post_step. case_bool_decide as Hrole.
  - eapply post_mono; [apply (post_append_segment node); try done|].
    { replace i with (i + 0)%nat by lia. by apply Hseg. }
    intros fs1 s1 H1. pose proof H1 as (K1 & N1 & _). eapply post_mono; [apply IH; try done|].
    { by eapply tokens_ok_keeps. }
    intros fs2 s2 H2. eapply appended_trans; [exact H1 | exact H2 |]. cbv beta. intros rt secrets a b Ha Hb.
    by rewrite render_app, Ha, Hb.
  - post_step. by apply IH.
Qed.

(** A compiled stream renders the text of the prompt. *)
Definition stream_ok (node : WorkflowNode) (segments : list PromptSegment) (s : CompileState) (stream : RenderStream) : Prop :=
  numbered (rs_fragments stream) /\
  forall rt secrets, runtime_ok s rt secrets ->
    render rt secrets (rs_fragments stream) = direct_text rt node (rs_target_role stream) segments.

Lemma post_compile_render_stream node node' role s :
  node ∈ plan_nodes workflow -> node_mode node <> InputMode -> node_id node' = node_id node ->
  (forall k segment, node_prompt_segments node' !! k = Some segment -> segment_of node k segment) ->
  tokens_ok workflow options variables s ->
  post (compile_render_stream node' role options) (fun stream s' =>
    keeps s s' /\ rs_target_role stream = role /\
    (has_errors s' = true \/ stream_ok node (node_prompt_segments node') s stream)) s.
Proof.
  intros Hn Hm Hid Hseg Hok. unfold compile_render_stream. post_step.
  eapply post_mono; [by apply (post_stream node node' role)|]. intros fs s' (Hk & Hnum & H). post_step.
  split_and!; [done..|]. destruct H as [He|(new & -> & Hnew)]; [by left | right]. by split.
Qed.

End Streams.
