(* ===== verification/ValidationSpec.v ===== *)
(** What the validators establish: a workflow without an error diagnostic has
    distinct, well-formed ids, an acyclic dependency graph, and tokens that name
    artifacts of upstream nodes. *)

From Stdlib Require Import ZArith Lia Ascii String.
From stdpp Require Import base gmap sets list strings.
From S2P Require Import Prelude PyStr StateExn Models Graph Artifacts RunState Composition CompositionSpec PlanRecords.
From S2P Require Import PlanContract Foreach PreflightState WorkspaceSelection WorkflowValidation.

Open Scope string_scope.
Open Scope list_scope.
Open Scope Z_scope.

(** ** Severities *)

(** A warning of the reference checks is about a sequential node. *)
Definition mild (d : WorkflowValidationDiagnostic) : Prop :=
  wd_severity d = SeverityError \/ str_startswith "S" (wd_message d) = true /\ wd_phase d = "reference".

(** A warning is not about a policy of a node. *)
Definition tame (d : WorkflowValidationDiagnostic) : Prop :=
  wd_severity d = SeverityError \/ wd_phase d = "reference" \/ wd_phase d = "workspace_policy".

Lemma mild_tame ds : Forall mild ds -> Forall tame ds.
Proof. intros H. eapply Forall_impl; [exact H|]. intros d [He|[_ Hp]]; unfold tame; auto. Qed.

Lemma Forall_omap_of {A B} (P : B -> Prop) (f : A -> option B) l :
  (forall x d, f x = Some d -> P d) -> Forall P (omap f l).
Proof. intros H. apply Forall_forall. intros d (x & _ & Hx)%list_elem_of_omap. eauto. Qed.

Lemma Forall_concat_of {A B} (P : B -> Prop) (f : A -> list B) l :
  (forall x, Forall P (f x)) -> Forall P (concat (map f l)).
Proof. intros H. induction l; simpl; [constructor|]. by apply Forall_app. Qed.

Lemma report_mild c m id : Forall mild (report c m id).
Proof. unfold report. destruct c; repeat constructor. Qed.

Lemma error_mild m id : mild (mode_error m id).
Proof. by left. Qed.

Create HintDb mild.
#[export] Hint Resolve report_mild error_mild Forall_nil_2 Forall_cons_2 : mild.

(** Lists of diagnostics, part by part. *)
Ltac mild_step :=
  match goal with
  | |- Forall _ (_ ++ _) => apply Forall_app; split
  | |- Forall _ (concat (map _ _)) => apply Forall_concat_of; intros ?
  | |- Forall _ (omap _ _) => apply Forall_omap_of; intros ? ? ?
  | |- Forall _ (if ?c then _ else _) => destruct c
  | |- Forall _ (match ?x with _ => _ end) => destruct x
  | |- Forall _ _ => progress auto with mild
  | H : match ?x with _ => _ end = Some _ |- _ => destruct x eqn:?; simplify_eq/=
  | H : (_ ≫= _) = Some _ |- _ => apply bind_Some in H as (? & ? & ?); simplify_eq/=
  | |- mild _ => by left
  | |- tame _ => by left
  | |- tame _ => right; by right
  end.

Lemma sequential_mild node : Forall mild (sequential_node_diagnostics node).
Proof.
  unfold sequential_node_diagnostics, provider_presence_diagnostics, prompt_segment_role_diagnostics,
    prompt_presence_diagnostics, sequential_provider_role_diagnostics, single_sequential_provider_role_diagnostics,
    multi_sequential_provider_role_diagnostics.
  repeat mild_step. apply Forall_cons_2; [by right | constructor].
Qed.

Lemma parallel_mild node : Forall mild (parallel_node_diagnostics node).
Proof.
  unfold parallel_node_diagnostics, provider_presence_diagnostics, prompt_segment_role_diagnostics,
    prompt_presence_diagnostics, parallel_failure_threshold_diagnostics. repeat mild_step.
Qed.

Lemma mode_mild node : Forall mild (collect_node_mode_diagnostics node).
Proof.
  unfold collect_node_mode_diagnostics, input_node_diagnostics.
  repeat mild_step; auto using sequential_mild, parallel_mild. all: by left.
Qed.

Lemma node_diagnostics_mild workflow : Forall mild (collect_workflow_node_diagnostics workflow).
Proof.
  unfold collect_workflow_node_diagnostics, unique_node_id_diagnostics, dependency_diagnostics, input_binding_diagnostics,
    input_binding_diagnostic, node_id_diagnostics. repeat mild_step; auto using mode_mild.
  all: try (apply Forall_cons_2; [by left | constructor]).
Qed.

Lemma reference_diagnostics_mild workflow ds : collect_workflow_validation_diagnostics workflow = Ok ds -> Forall mild ds.
Proof.
  unfold collect_workflow_validation_diagnostics. intros (topology & Ht & H)%bind_Ok.
  apply bind_Ok in H as (templates & Hp & H). injection H as <-. apply Forall_app. split; [apply node_diagnostics_mild|].
  apply Forall_app. split.
  - unfold collect_workflow_topology_diagnostics in Ht. destruct (negb _); [injection Ht as <-; constructor|].
    destruct (analyze_workflow_graph workflow) as [|[]|]; simplify_eq; repeat constructor.
  - unfold collect_prompt_template_diagnostics in Hp. apply bind_Ok in Hp as (anc & _ & Hp). injection Hp as <-.
    unfold node_template_diagnostics. repeat mild_step.
Qed.

(** ** What a workflow without serious diagnostics satisfies *)

(** The node checks of names. *)
Record validated (workflow : WorkflowPlan) : Prop := {
  vl_references : has_valid_dependency_references workflow = true;
  vl_ids : Forall (fun node => node_id_fullmatch (node_id node) = true) (plan_nodes workflow);
  vl_graph : exists analysis, analyze_workflow_graph workflow = Ok analysis;
  vl_tokens : forall node token analysis, node ∈ plan_nodes workflow -> analyze_workflow_graph workflow = Ok analysis ->
    token ∈ concat (map extract_template_tokens (node_template_texts node)) ->
    template_reference_error (node_id node) token (nodes_by_id workflow) (dget (analysis_ancestors analysis) (node_id node)) = None
}.

Definition serious (d : WorkflowValidationDiagnostic) : Prop :=
  wd_severity d = SeverityError /\ str_startswith "S" (wd_message d) = false.

Lemma duplicate_ids_nil ids : duplicate_ids ids = [] -> NoDup ids.
Proof.
  intros H. apply NoDup_alt. intros i j x Hi Hj.
  assert (Hlt : forall i j, (i < j)%nat -> ids !! i = Some x -> ids !! j = Some x -> False).
  { clear i j Hi Hj. intros i j Hlt Hi Hj. assert (Hin : x ∈ duplicate_ids ids); [|rewrite H in Hin; by apply elem_of_nil in Hin].
    unfold duplicate_ids. apply elem_of_remove_dups, list_elem_of_omap. exists (j, x). split.
    - apply elem_of_lookup_imap. exists j, x. by split.
    - rewrite bool_decide_eq_true_2; [done|]. apply list_elem_of_lookup. exists i. apply lookup_take_Some. split; [done | lia]. }
  destruct (Nat.lt_total i j) as [Hc|[Hc|Hc]]; [by destruct (Hlt i j)|done|by destruct (Hlt j i)].
Qed.

Lemma report_none c m id (P : WorkflowValidationDiagnostic -> Prop) :
  (forall d, d ∈ report c m id -> ~ P d) -> P (mode_error m id) -> c = false.
Proof. unfold report. destruct c; [|done]. intros H Hp. destruct (H (mode_error m id)); [left | done]. Qed.

Lemma elem_of_node_part workflow node d :
  node ∈ plan_nodes workflow -> d ∈ node_id_diagnostics node -> d ∈ collect_workflow_node_diagnostics workflow.
Proof.
  intros Hn Hd. unfold collect_workflow_node_diagnostics. rewrite !elem_of_app. do 4 right.
  apply list_elem_of_In, in_concat. eexists. split; [apply in_map, list_elem_of_In, Hn|].
  apply in_or_app. left. by apply list_elem_of_In.
Qed.

Lemma validated_references workflow :
  (forall d, d ∈ collect_workflow_node_diagnostics workflow -> ~ serious d) -> has_valid_dependency_references workflow = true.
Proof.
  intros H. apply has_valid_dependency_references_spec. split.
  - apply duplicate_ids_nil. destruct (duplicate_ids _) as [|id ids] eqn:E; [done|]. exfalso.
    unfold workflow_ids in E. eapply H.
    + unfold collect_workflow_node_diagnostics. rewrite !elem_of_app. right. left.
      unfold unique_node_id_diagnostics. rewrite E. simpl. left.
    + by split.
  - intros d n (node & Hn & <- & Hd). assert (Hnone : dependency_error (node_id node) d (map node_id (plan_nodes workflow)) = None).
    { destruct (dependency_error _ _ _) as [m|] eqn:E; [|done]. exfalso.
      apply (H (structure_error m (Some (node_id node)) [])).
      - unfold collect_workflow_node_diagnostics. rewrite !elem_of_app. right. right. left. unfold dependency_diagnostics.
        apply list_elem_of_In, in_concat. eexists. split; [apply in_map, list_elem_of_In, Hn|].
        apply list_elem_of_In, list_elem_of_omap. exists d. split; [done|]. by rewrite E.
      - split; [done|]. unfold dependency_error in E. repeat case_match; by simplify_eq. }
    unfold dependency_error in Hnone. case_bool_decide; [done|].
    destruct (str_in d _) eqn:E; [|done]. unfold str_in in E. apply bool_decide_eq_true in E. by split.
Qed.

Lemma template_error_head id token nodes ancestors m :
  template_reference_error id token nodes ancestors = Some m -> str_startswith "S" m = false.
Proof.
  unfold template_reference_error, artifact_reference_error, unsupported_template_error.
  repeat case_match; intros; by simplify_eq.
Qed.

Lemma validated_of_diagnostics workflow ds :
  collect_workflow_validation_diagnostics workflow = Ok ds -> (forall d, d ∈ ds -> ~ serious d) -> validated workflow.
Proof.
  unfold collect_workflow_validation_diagnostics. intros (topology & Ht & H)%bind_Ok Hno.
  apply bind_Ok in H as (templates & Hp & H). injection H as <-.
  assert (Hnodes : forall d, d ∈ collect_workflow_node_diagnostics workflow -> ~ serious d).
  { intros d Hd. apply Hno. apply elem_of_app. by left. }
  pose proof (validated_references _ Hnodes) as Href.
  assert (Hgraph : exists analysis, analyze_workflow_graph workflow = Ok analysis).
  { unfold collect_workflow_topology_diagnostics in Ht. rewrite Href in Ht. simpl in Ht.
    destruct (analyze_workflow_graph workflow) as [a|[]|]; simplify_eq; [by exists a|]. exfalso.
    eapply Hno; [rewrite !elem_of_app; right; left; left | by split]. }
  constructor; [done| |done|].
  - apply Forall_forall. intros node Hn.
    assert (Hr : negb (node_id_fullmatch (node_id node)) = false); [|by destruct (node_id_fullmatch _)].
    eapply (report_none _ ("Node id " +:+ quoted (node_id node) +:+ " is invalid. IDs must match '[a-z0-9._-]+'.") (node_id node)
              serious); [|by split]. intros d Hd. apply Hnodes.
    eapply elem_of_node_part; [done|]. unfold node_id_diagnostics. apply elem_of_app. left. exact Hd.
  - intros node token analysis Hn Ha Htok. destruct (template_reference_error _ _ _ _) as [m|] eqn:E; [|done]. exfalso.
    unfold collect_prompt_template_diagnostics, ancestor_map_if_available in Hp. rewrite Href, Ha in Hp. simpl in Hp.
    injection Hp as <-.
    apply (Hno (mkWorkflowDiagnostic "WORKFLOW-TEMPLATE" "reference" m SeverityError (Some (node_id node)) []));
      [|split; [done | by eapply template_error_head]].
    rewrite !elem_of_app. do 2 right. apply list_elem_of_In, in_concat. eexists.
    split; [apply in_map, list_elem_of_In, Hn|]. apply list_elem_of_In. unfold node_template_diagnostics.
    apply list_elem_of_omap. exists token. split; [done|]. simpl. by rewrite E.
Qed.

(** ** Policies *)

Lemma for_each_Forall {A B} (P : B -> Prop) (f : list B -> A -> outcome (list B)) l acc r :
  Forall P acc -> (forall acc x r, Forall P acc -> f acc x = Ok r -> Forall P r) -> for_each f l acc = Ok r -> Forall P r.
Proof.
  intros Hacc Hf. revert acc Hacc. induction l as [|x l IH]; intros acc Hacc H; simpl in H; [by injection H as <-|].
  apply bind_Ok in H as (acc' & Hx & H). apply (IH acc'); [by eapply Hf | done].
Qed.

Section Policies.
Context {hash : HashLibrary} {platform : Platform}.

Lemma workspace_policy_tame workflow config selections ds :
  workspace_policy_diagnostics workflow config selections = Ok ds -> Forall tame ds.
Proof.
  unfold workspace_policy_diagnostics. intros (duplicates & H1 & H)%bind_Ok. apply bind_Ok in H as (mutable & H2 & H).
  apply bind_Ok in H as (unordered & H3 & H). injection H as <-.
  assert (Forall tame duplicates).
  { destruct (cw_enabled _); [|injection H1 as <-; constructor]. apply bind_Ok in H1 as (by_branch & _ & H1). injection H1 as <-.
    repeat mild_step. }
  assert (Forall tame mutable).
  { eapply for_each_Forall; [constructor| |exact H2]. intros acc [k selection] r Hacc Hr. destruct (negb _); [by injection Hr as <-|].
    apply bind_Ok in Hr as (node & _ & Hr). injection Hr as <-. destruct (1 <? _); [|done].
    apply Forall_app. split; [done|]. apply Forall_cons_2; [by left | constructor]. }
  assert (Forall tame unordered).
  { apply bind_Ok in H3 as (anc & _ & H3). eapply for_each_Forall; [constructor| |exact H3].
    intros acc [name ids] r Hacc Hr. apply bind_Ok in Hr as (pair & _ & Hr). injection Hr as <-.
    destruct pair as [[a b]|]; [|done]. apply Forall_app. split; [done|]. apply Forall_cons_2; [by left | constructor]. }
  unfold unselected_branch_export_diagnostics, missing_selector_diagnostics, setup_profile_diagnostics,
    source_lineage_diagnostics, cross_worktree_dependency_diagnostics, redundant_selector_diagnostics.
  repeat (apply Forall_app; split); try done; repeat mild_step. all: apply Forall_cons_2; [by left | constructor].
Qed.

Lemma policy_diagnostics_tame workflow config ds : collect_workflow_policy_diagnostics workflow config = Ok ds -> Forall tame ds.
Proof.
  unfold collect_workflow_policy_diagnostics. intros (budgets & _ & H)%bind_Ok. apply bind_Ok in H as (workspace & Hw & H).
  injection H as <-. assert (Hmsg : forall code phase ms, Forall tame (diagnostics_from_messages code phase ms)).
  { intros code phase ms. apply List.Forall_map, Forall_true. intros m. by left. }
  apply Forall_app. split; [|apply Forall_app; split; apply Hmsg].
  unfold collect_workspace_policy_diagnostics in Hw. apply bind_Ok in Hw as ([selections|] & _ & Hw).
  - apply bind_Ok in Hw as (ws & Hws & Hw). injection Hw as <-. apply workspace_policy_tame in Hws.
    unfold platform_workspace_diagnostics, repeat_force_run_workspace_diagnostics.
    repeat mild_step; try done; repeat constructor.
  - injection Hw as <-. unfold platform_workspace_diagnostics, repeat_force_run_workspace_diagnostics.
    repeat mild_step; repeat constructor.
Qed.

End Policies.
