(* ===== verification/PreflightGraph.v ===== *)
(** The dependency graph of a compiled plan: the phases before the template plan
    do not touch its edges, every edge comes from a declared need, from the
    collection of a group or from a token of a prompt, and every artifact a
    prompt reads at run time has an edge. *)

From Stdlib Require Import ZArith Lia Ascii String.
From stdpp Require Import base gmap sets list strings.
From S2P Require Import Redaction RuntimeConfig Prelude PyStr StateExn Models Graph Artifacts RunState Composition CompositionSpec PlanRecords PlanContract PlanContractSpec Foreach WorkspaceSelection WorkflowValidation PreflightState PreflightFilesystem PreflightRender PreflightCompiler PreflightText ValidationSpec.

Open Scope string_scope.
Open Scope list_scope.
Open Scope Z_scope.

(** Every outcome of [m] leaves the edges as they are. *)
Definition frames {A} (m : M CompileState A) : Prop := forall s, cs_dependency_edges (snd (m s)) = cs_dependency_edges s.

Lemma frames_ret {A} (a : A) : frames (ret a).
Proof. done. Qed.

Lemma frames_raise {A} e : frames (raise e : M CompileState A).
Proof. done. Qed.

Lemma frames_read {A} (f : CompileState -> A) : frames (read f).
Proof. done. Qed.

Lemma frames_lift {A} (o : outcome A) : frames (lift o).
Proof. done. Qed.

Lemma frames_modify f : (forall s, cs_dependency_edges (f s) = cs_dependency_edges s) -> frames (modify f).
Proof. intros H s. apply H. Qed.

Lemma frames_bind {A B} (m : M CompileState A) (k : A -> M CompileState B) :
  frames m -> (forall a, frames (k a)) -> frames (m ≫= k).
Proof.
  intros Hm Hk s. unfold mbind, M_bind, bind. specialize (Hm s). destruct (m s) as [[a|e|] s']; simpl in *; [|done..].
  by rewrite (Hk a s').
Qed.

Lemma frames_for_all {A} (body : A -> M CompileState unit) l : (forall x, frames (body x)) -> frames (for_all body l).
Proof. intros H. induction l; simpl; [apply frames_ret|]. by apply frames_bind. Qed.

Lemma frames_post {A} (m : M CompileState A) s : frames m -> post m (fun _ s' => cs_dependency_edges s' = cs_dependency_edges s) s.
Proof. intros H a s' Hm. rewrite <- (H s). by rewrite Hm. Qed.

Create HintDb frames.
#[export] Hint Resolve frames_ret frames_raise frames_read frames_lift : frames.

Ltac frames_step :=
  match goal with
  | |- frames (_ ≫= _) => apply frames_bind; [|intros ?]
  | |- frames (modify _) => apply frames_modify; reflexivity
  | |- frames (for_all _ _) => apply frames_for_all; intros ?
  | |- frames (when ?c _) => unfold when
  | |- frames (if ?c then _ else _) => destruct c
  | |- frames (match ?x with _ => _ end) => destruct x
  | |- frames _ => solve [auto with frames]
  end.

Section Frames.
Context {hash : HashLibrary} {files : PreflightFiles} {hmac : HmacLibrary} {platform : Platform} {host : CacheHost} {services : CompilerServices}.

Lemma frames_diagnostic c phase m node path sev : frames (append_diagnostic c phase m node path sev).
Proof. unfold append_diagnostic, append_new_diagnostic. repeat frames_step. Qed.

Lemma frames_extend ds : frames (extend_diagnostics ds).
Proof. unfold extend_diagnostics, append_new_diagnostic. repeat frames_step. Qed.

#[local] Hint Resolve frames_diagnostic frames_extend : frames.

Lemma frames_prepare result node id raw : frames (prepare_static_file_reference result node id raw).
Proof. unfold prepare_static_file_reference, append_static_resource. repeat frames_step. Qed.
#[local] Hint Resolve frames_prepare : frames.

Lemma frames_no_locator {A} node raw m : frames (no_locator node raw m : M CompileState (option A)).
Proof. unfold no_locator, append_workspace_file_error. repeat frames_step. Qed.
#[local] Hint Resolve frames_no_locator : frames.

Lemma frames_workspace_reference workflow node target seg reference id options :
  frames (resolve_workspace_file_reference workflow node target seg reference id options).
Proof.
  unfold resolve_workspace_file_reference, workspace_file_path_record, resolve_project_blob,
    is_absolute_workspace_file_path. repeat frames_step.
Qed.
#[local] Hint Resolve frames_workspace_reference : frames.

Lemma frames_file_policy workflow options : frames (apply_file_policy workflow options).
Proof.
  unfold apply_file_policy, resolve_input_source, apply_file_occurrence, resolve_workspace_input_source,
    resolve_static_input_source, try_resolve_terminal_file_reference, resolve_file_reference, record_static_input_source,
    record_static_file_reference. repeat frames_step.
Qed.

Lemma frames_value_policy workflow kind variables options : frames (apply_static_value_policy workflow kind variables options).
Proof.
  unfold apply_static_value_policy, resolve_static_value_reference, lookup_static_value, secret_put. repeat frames_step.
Qed.

Lemma frames_fingerprint_records key before rest : frames (fingerprint_records key before rest).
Proof. revert before. induction rest as [|r rest IH]; intros before; simpl; repeat frames_step. Qed.
#[local] Hint Resolve frames_fingerprint_records : frames.

Lemma frames_finalize snapshot options : frames (finalize_fingerprints snapshot options).
Proof.
  unfold finalize_fingerprints, fingerprinted_runtime_snapshot, load_fingerprint_key_if_needed, backfill_value_fingerprints,
    backfill_static_value_reference_fingerprints, capture_runtime_config_secrets, put_config_value. repeat frames_step.
Qed.

Lemma frames_validation workflow config options : frames (collect_validation_diagnostics workflow config options).
Proof. unfold collect_validation_diagnostics, append_missing_workspace_snapshot_diagnostic. repeat frames_step. Qed.

Lemma frames_transport config : frames (collect_prompt_transport_warnings config).
Proof. unfold collect_prompt_transport_warnings. repeat frames_step. Qed.

Lemma frames_order workflow : frames (execution_order workflow).
Proof. unfold execution_order. repeat frames_step. Qed.

End Frames.

(** ** The edges of a state *)

Definition edge_keys (s : CompileState) : list (string * string * option string) := map edge_key (cs_dependency_edges s).

(** The fields that follow from the key. *)
Definition edge_shape (e : CompiledEdge) : Prop :=
  de_artifact_key e = de_artifact_name e /\
  de_target_locator e = Some (match de_artifact_name e with Some a => de_source_node e +:+ "." +:+ a | None => de_source_node e end).

Section Edges.
Context {hash : HashLibrary} {files : PreflightFiles} {hmac : HmacLibrary} {platform : Platform} {host : CacheHost} {services : CompilerServices}.
Variable allowed : string * string * option string -> Prop.

Record edges_ok (s : CompileState) : Prop := {
  eo_distinct : NoDup (edge_keys s);
  eo_edges : Forall (fun e => allowed (edge_key e) /\ edge_shape e) (cs_dependency_edges s)
}.

(** Edges are only added. *)
Definition grows (s s' : CompileState) : Prop := edge_keys s ⊆ edge_keys s'.

#[export] Instance grows_preorder : PreOrder grows.
Proof. split; [intros s x; done|]. intros a b c H1 H2 x Hx. by apply H2, H1. Qed.

(** Both: the form of every lemma below. *)
Definition edges_post (s s' : CompileState) : Prop := edges_ok s' /\ grows s s'.

Lemma edges_of_frames {A} (m : M CompileState A) s : frames m -> edges_ok s -> post m (fun _ s' => edges_post s s') s.
Proof.
  intros Hf [H1 H2]. eapply post_mono; [by apply frames_post|]. intros a s' He. unfold edges_post, grows, edge_keys in *. cbv beta in He.
  split; [constructor; unfold edge_keys; by rewrite He|]. by rewrite He.
Qed.

Lemma post_append_edge source target artifact first s :
  allowed (source, target, artifact) -> edges_ok s ->
  post (append_dependency_edge source target artifact first) (fun _ s' =>
    edges_post s s' /\ (source, target, artifact) ∈ edge_keys s') s.
Proof.
  intros Ha [H1 H2]. unfold append_dependency_edge. post_step. post_step. post_step.
  - assert (Hin : (source, target, artifact) ∈ edge_keys s).
    { apply existsb_exists in H as (e & He%list_elem_of_In & Hk%bool_decide_eq_true). rewrite <- Hk. by apply list_elem_of_fmap_2. }
    destruct first as [signature|]; post_step; [|by repeat constructor].
    set (f := fun e => if _ && _ then with_first_token (Some signature) e else e).
    assert (Hf : forall e, edge_key (f e) = edge_key e /\ (edge_shape e -> edge_shape (f e))).
    { intros e. unfold f. by destruct (_ && _). }
    assert (Hkeys : edge_keys (on_dependency_edges (map f) s) = edge_keys s).
    { unfold edge_keys. simpl. rewrite map_map. apply map_ext. intros e. apply Hf. }
    unfold edges_post, grows. rewrite Hkeys. split; [|done]. split; [|done]. constructor; [by rewrite Hkeys|].
    simpl. apply List.Forall_map. eapply Forall_impl; [exact H2|]. intros e [He Hs]. destruct (Hf e) as [-> Hsh]. auto.
  - post_step. assert (Hkeys : edge_keys (on_dependency_edges (fun edges => edges ++ [new_edge source target artifact first]) s)
                    = edge_keys s ++ [(source, target, artifact)]) by (unfold edge_keys; simpl; by rewrite map_app).
    unfold edges_post, grows. rewrite Hkeys. split; [split|].
    + constructor.
      * rewrite Hkeys. apply NoDup_app. split_and!; [done| |apply NoDup_singleton].
        intros x Hx ->%list_elem_of_singleton. apply list_elem_of_fmap in Hx as (e & Hk & He).
        assert (existsb (fun e => bool_decide (edge_key e = (source, target, artifact))) (cs_dependency_edges s) = true); [|congruence].
        apply existsb_exists. exists e. split; [by apply list_elem_of_In | by apply bool_decide_eq_true].
      * simpl. apply Forall_app. split; [done|]. constructor; [|constructor]. by repeat split.
    + intros x Hx. apply elem_of_app. by left.
    + apply elem_of_app. right. by apply list_elem_of_singleton.
Qed.

(** ** Fragments *)

(** The artifact a fragment reads at run time has an edge to the node. *)
Definition covered (s : CompileState) (target : string) (f : Fragment) : Prop :=
  fr_kind f = runtime_locator_lookup ->
  exists source artifact, fr_locator f = Some [("node_id", source); ("artifact_name", artifact)] /\
    (source, target, Some artifact) ∈ edge_keys s.

Lemma covered_grows s s' target f : grows s s' -> covered s target f -> covered s' target f.
Proof. intros Hg H Hk. destruct (H Hk) as (a & b & Hl & Hin). exists a, b. split; [done | by apply Hg]. Qed.

(** The artifact references of an occurrence are allowed as edges. *)
Definition occurrence_allowed (o : RenderTokenOccurrence) : Prop :=
  ref_kind (oc_reference o) = RefNode -> default "" (ref_artifact_name (oc_reference o)) ∈ ALLOWED_NODE_ARTIFACT_NAMES ->
  allowed (default "" (ref_node_id (oc_reference o)), node_id (oc_node_ref o), Some (default "" (ref_artifact_name (oc_reference o)))).

Lemma frames_make_fragment f : frames (make_fragment f).
Proof. done. Qed.

Lemma frames_catalog occ node role src reference kind index signature metadata options canonical dep span resolved :
  frames (append_token_catalog occ node role src reference kind index signature metadata options canonical dep span resolved).
Proof. unfold append_token_catalog. repeat frames_step. Qed.

#[local] Hint Resolve frames_make_fragment frames_catalog frames_diagnostic frames_extend : frames.

Lemma frames_file_fragment options o index : frames (file_reference_fragment options o index).
Proof. unfold file_reference_fragment. repeat frames_step. Qed.

Lemma frames_value_fragment options o index : frames (static_value_fragment options o index).
Proof. unfold static_value_fragment. repeat frames_step. Qed.

Lemma post_make f (Q : Fragment -> CompileState -> Prop) s : Q f s -> post (make_fragment f) Q s.
Proof.
  intros H g s'. unfold make_fragment, lift. destruct (validate_fragment_payload f); simpl; [|done..]. by intros [= <- <-].
Qed.

(** A fragment of another kind needs no edge. *)
Lemma post_other_fragment {A} (m : M CompileState (option A)) (kind : A -> FragmentKind) s :
  frames m -> post m (fun f _ => forall g, f = Some g -> kind g <> runtime_locator_lookup) s -> edges_ok s ->
  post m (fun f s' => edges_post s s' /\ forall g, f = Some g -> kind g <> runtime_locator_lookup) s.
Proof. intros Hf Hk Hok a s' Hm. split; [by eapply edges_of_frames|]. by apply (Hk a s'). Qed.

Lemma post_file_kind options o index s :
  post (file_reference_fragment options o index) (fun f _ => forall g, f = Some g -> fr_kind g <> runtime_locator_lookup) s.
Proof.
  unfold file_reference_fragment, append_token_catalog. repeat post_step.
  destruct (dget _ _); repeat post_step; [apply post_make; post_step; by intros g [= <-]|].
  destruct (dget _ _); repeat post_step; [apply post_make; post_step; by intros g [= <-]|]. intros u s' _. by post_step.
Qed.

Lemma post_value_kind options o index s :
  post (static_value_fragment options o index) (fun f _ => forall g, f = Some g -> fr_kind g <> runtime_locator_lookup) s.
Proof.
  unfold static_value_fragment, append_token_catalog. repeat post_step.
  destruct (dget _ _); repeat post_step; [apply post_make; post_step; intros g [= <-]; simpl; unfold static_kind; by case_bool_decide|].
  intros u s' _. by post_step.
Qed.

Lemma post_fragment_covered options o index s :
  occurrence_allowed o -> edges_ok s ->
  post (fragment_for_occurrence options o index) (fun f s' =>
    edges_post s s' /\ forall g, f = Some g -> covered s' (node_id (oc_node_ref o)) g) s.
Proof.
  intros Ho Hok. unfold fragment_for_occurrence.
  assert (Hother : forall m : M CompileState (option Fragment), frames m ->
    post m (fun f _ => forall g, f = Some g -> fr_kind g <> runtime_locator_lookup) s ->
    post m (fun f s' => edges_post s s' /\ forall g, f = Some g -> covered s' (node_id (oc_node_ref o)) g) s).
  { intros m Hf Hk. eapply post_mono; [by apply (post_other_fragment m fr_kind)|]. intros f s' [H1 H2]. split; [done|].
    intros g Hg Hkind. by destruct (H2 g Hg). }
  destruct (ref_kind (oc_reference o)) eqn:Hkind.
  - unfold node_reference_fragment. post_step.
    + apply Hother; [repeat frames_step|]. post_step. intros u s' _. by post_step.
    + post_step. eapply post_mono; [apply edges_of_frames; [apply frames_catalog | done]|]. intros u s1 [Hok1 G1].
      post_step. eapply post_mono; [apply post_append_edge; [|done]|].
      { apply Ho; [done|]. unfold str_in in H. by apply negb_false_iff, bool_decide_eq_true in H. }
      intros v s2 [[Hok2 G2] Hin]. post_step. apply post_make. post_step. split; [split; [done | by transitivity s1]|].
      intros g [= <-] _. eexists _, _. split; [reflexivity | exact Hin].
  - apply Hother; [apply frames_file_fragment | apply post_file_kind].
  - apply Hother; [apply frames_value_fragment | apply post_value_kind].
  - apply Hother; [apply frames_value_fragment | apply post_value_kind].
  - apply Hother; [repeat frames_step|]. post_step. intros u s' _. by post_step.
  - apply Hother; [repeat frames_step|]. post_step. intros u s' _. by post_step.
Qed.

(** ** Render plans *)

Definition fragments_covered (s : CompileState) (target : string) (fs : list Fragment) : Prop := Forall (covered s target) fs.

Lemma fragments_covered_grows s s' target fs : grows s s' -> fragments_covered s target fs -> fragments_covered s' target fs.
Proof. intros Hg H. eapply Forall_impl; [exact H|]. intros f. by apply covered_grows. Qed.

Lemma post_literal_covered (c : bool) target fs index role l s :
  edges_ok s -> fragments_covered s target fs ->
  post (if c then f ← make_fragment (literal_fragment index role l); ret (fs ++ [f]) else ret fs)
    (fun fs' s' => edges_post s s' /\ fragments_covered s' target fs') s.
Proof.
  intros Hok Hfs. post_step; [|by post_step]. post_step. apply post_make. post_step. split; [done|].
  apply Forall_app. split; [done|]. by repeat constructor.
Qed.

Lemma edges_post_trans a b c : edges_post a b -> edges_post b c -> edges_post a c.
Proof. intros [_ G1] [H G2]. split; [done | by transitivity b]. Qed.

Lemma post_segment_covered options role segment target : forall occs cursor fs s,
  (forall o, o ∈ occs -> occurrence_allowed o /\ node_id (oc_node_ref o) = target) -> edges_ok s -> fragments_covered s target fs ->
  post (segment_fragments options role segment cursor occs fs) (fun r s' =>
    edges_post s s' /\ fragments_covered s' target (snd r)) s.
Proof.
  induction occs as [|o occs IH]; intros cursor fs s Ho Hok Hfs; simpl; [by post_step|].
  assert (Hrest : forall o, o ∈ occs -> occurrence_allowed o /\ node_id (oc_node_ref o) = target) by (intros o' H'; apply Ho; by right).
  destruct (Ho o) as [Hoa Hot]; [left|]. post_step; [by apply IH|].
  post_step. eapply post_mono; [by apply post_literal_covered|]. intros fs1 s1 [P1 C1]. pose proof P1 as [Hok1 G1].
  post_step. eapply post_mono; [by apply post_fragment_covered|]. intros f s2 [P2 C2]. pose proof P2 as [Hok2 G2]. rewrite Hot in C2.
  assert (C12 : fragments_covered s2 target (match f with Some f => fs1 ++ [f] | None => fs1 end)).
  { destruct f as [f|]; [|by eapply fragments_covered_grows]. apply Forall_app. split; [by eapply fragments_covered_grows|].
    constructor; [by apply C2 | constructor]. }
  eapply post_mono; [by apply IH|]. intros r s3 [P3 C3]. split; [|done].
  eapply edges_post_trans; [exact P1|]. by eapply edges_post_trans.
Qed.

(** The edges a node may add. *)
Record node_allowed (node : WorkflowNode) : Prop := {
  na_needs : forall d, d ∈ node_needs node -> allowed (d, node_id node, None);
  na_items : forall reference producer artifact, node_mode node = Foreach -> node_items node = Some (ItemsReference reference) ->
    collection_reference reference = Ok (producer, artifact) -> allowed (producer, node_id node, Some artifact);
  na_tokens : forall i segment o, node_prompt_segments node !! i = Some segment ->
    o ∈ iter_segment_render_token_occurrences node i segment -> occurrence_allowed o
}.

Lemma segment_occurrence_node node i segment o : o ∈ iter_segment_render_token_occurrences node i segment -> oc_node_ref o = node.
Proof.
  unfold iter_segment_render_token_occurrences. intros (l & Hl & Ho)%list_elem_of_In%in_concat.
  apply list_elem_of_In in Hl. apply elem_of_lookup_imap in Hl as (j & reference & -> & _).
  apply in_map_iff in Ho as (role & <- & _). done.
Qed.

Lemma post_stream_covered options node role : forall segments i fs s,
  (forall k segment, segments !! k = Some segment -> forall o, o ∈ iter_segment_render_token_occurrences node (i + k) segment ->
     occurrence_allowed o) -> edges_ok s -> fragments_covered s (node_id node) fs ->
  post (stream_fragments node role options i segments fs) (fun fs' s' =>
    edges_post s s' /\ fragments_covered s' (node_id node) fs') s.
Proof.
  induction segments as [|segment segments IH]; intros i fs s Ha Hok Hfs; cbn [stream_fragments]; [by post_step|].
  assert (Hrest : forall k segment, segments !! k = Some segment -> forall o,
    o ∈ iter_segment_render_token_occurrences node (S i + k) segment -> occurrence_allowed o).
  { intros k sg Hk. replace (S i + k)%nat with (i + S k)%nat by lia. by apply Ha. }
  post_step. eapply post_mono with (Q := fun fs' s' => edges_post s s' /\ fragments_covered s' (node_id node) fs').
  - post_step; [|by post_step]. unfold append_segment_fragments. post_step.
    eapply post_mono; [apply post_segment_covered; [|done|exact Hfs]|].
    + intros o Ho. split; [|by rewrite (segment_occurrence_node _ _ _ _ Ho)]. apply (Ha 0%nat segment eq_refl).
      by replace (i + 0)%nat with i by lia.
    + intros [cursor fs1] s1 [P1 C1]. eapply post_mono; [apply post_literal_covered; [apply P1 | exact C1]|].
      intros fs2 s2 [P2 C2]. split; [by eapply edges_post_trans | done].
  - intros fs1 s1 [P1 C1]. eapply post_mono; [apply IH; [done|apply P1|done]|]. intros fs2 s2 [P2 C2].
    split; [by eapply edges_post_trans | done].
Qed.

(** What is known of a compiled render plan. *)
Definition plan_covered (s : CompileState) (node : WorkflowNode) (rp : RenderPlan) : Prop :=
  rp_render_plan_id rp = node_id node /\ rp_node_id rp = Some (node_id node) /\
  Forall (fun stream => fragments_covered s (node_id node) (rs_fragments stream)) (rp_streams rp).

Lemma plan_covered_grows s s' node rp : grows s s' -> plan_covered s node rp -> plan_covered s' node rp.
Proof.
  intros Hg (H1 & H2 & H3). split_and!; [done..|]. eapply Forall_impl; [exact H3|]. intros stream. by apply fragments_covered_grows.
Qed.

Lemma frames_input_catalog node options : frames (append_input_source_token_catalog node options).
Proof. unfold append_input_source_token_catalog, append_token_catalog. repeat frames_step. Qed.

Lemma post_render_plan_covered options node s :
  node_allowed node -> edges_ok s ->
  post (compile_render_plan node options) (fun r s' =>
    edges_post s s' /\ forall rp, r = Some rp -> plan_covered s' node rp) s.
Proof.
  intros Ha Hok. unfold compile_render_plan.
  assert (Hstreams : forall f : RenderStream -> RenderStream -> RenderPlan,
    (forall a b, rp_render_plan_id (f a b) = node_id node /\ rp_node_id (f a b) = Some (node_id node) /\ rp_streams (f a b) = [a; b]) ->
    post (executor ← compile_render_stream node EXECUTOR options;
          reviewer ← compile_render_stream node REVIEWER options; ret (Some (f executor reviewer)))
      (fun r s' => edges_post s s' /\ forall rp, r = Some rp -> plan_covered s' node rp) s).
  { intros f Hf. unfold compile_render_stream. post_step. post_step.
    eapply post_mono; [apply post_stream_covered; [intros k sg Hk o; by apply (na_tokens _ Ha k) | done | constructor]|]. intros fs1 s1 [P1 C1].
    post_step. post_step. post_step. eapply post_mono; [apply post_stream_covered; [intros k sg Hk o; by apply (na_tokens _ Ha k) | apply P1 | constructor]|].
    intros fs2 s2 [P2 C2]. repeat post_step. split; [by eapply edges_post_trans|]. intros rp [= <-].
    destruct (Hf (mkStream EXECUTOR fs1) (mkStream REVIEWER fs2)) as (H1 & H2 & H3). split_and!; [done..|]. rewrite H3.
    repeat constructor; [|done]. eapply fragments_covered_grows; [apply P2 | exact C1]. }
  destruct (node_mode node); try (by apply Hstreams); [|by repeat post_step].
  post_step; [by post_step|]. post_step. eapply post_mono; [apply edges_of_frames; [apply frames_input_catalog | done]|].
  intros u s1 P. by post_step.
Qed.

(** ** Nodes *)

Lemma frames_diagnose c phase node o : frames (diagnose_value_error c phase node o).
Proof. unfold diagnose_value_error. repeat frames_step. Qed.
#[local] Hint Resolve frames_diagnose : frames.

Lemma frames_execution_node node config snapshot options rp policy :
  frames (compile_execution_node node config snapshot options rp policy).
Proof. unfold compile_execution_node. repeat frames_step. Qed.

Lemma post_execution_node_fields node config snapshot options rp policy s :
  post (compile_execution_node node config snapshot options rp policy) (fun en _ =>
    en_id en = node_id node /\ en_findings en = node_findings node /\ en_render_plan_id en = rp_render_plan_id <$> rp) s.
Proof. unfold compile_execution_node. repeat post_step. intros u s' _. by post_step. Qed.

(** What is known of a compiled node. *)
Record compiled_covered (s : CompileState) (node : WorkflowNode) (compiled : option RenderPlan * PreflightExecutionNode) : Prop := {
  cc_id : en_id (snd compiled) = node_id node;
  cc_findings : en_findings (snd compiled) = node_findings node;
  cc_plan_id : en_render_plan_id (snd compiled) = rp_render_plan_id <$> fst compiled;
  cc_plan : forall rp, fst compiled = Some rp -> plan_covered s node rp;
  cc_needs : forall d, d ∈ node_needs node -> (d, node_id node, None) ∈ edge_keys s
}.

Lemma compiled_covered_grows s s' node compiled : grows s s' -> compiled_covered s node compiled -> compiled_covered s' node compiled.
Proof.
  intros Hg [H1 H2 H3 H4 H5]. constructor; [done..| |by intros d Hd; apply Hg, H5]. intros rp Hrp. eapply plan_covered_grows; eauto.
Qed.

Lemma post_needs node : forall needs s,
  (forall d, d ∈ needs -> allowed (d, node_id node, None)) -> edges_ok s ->
  post (for_all (fun d => append_dependency_edge d (node_id node) None None) needs) (fun _ s' =>
    edges_post s s' /\ forall d, d ∈ needs -> (d, node_id node, None) ∈ edge_keys s') s.
Proof.
  induction needs as [|d needs IH]; intros s Ha Hok; simpl.
  { post_step. split; [done|]. by intros d ?%elem_of_nil. }
  post_step. eapply post_mono; [apply post_append_edge; [apply Ha; left | done]|]. intros u s1 [P1 Hin].
  eapply post_mono; [apply IH; [intros d' Hd'; apply Ha; by right | apply P1]|]. intros v s2 [P2 Hins].
  split; [by eapply edges_post_trans|]. intros d' [->|Hd']%elem_of_cons; [by apply P2 | by apply Hins].
Qed.

Lemma post_node_covered config snapshot options records node s :
  node_allowed node -> edges_ok s ->
  post (compile_node config snapshot options records node) (fun compiled s' =>
    edges_post s s' /\ compiled_covered s' node compiled) s.
Proof.
  intros Ha Hok. unfold compile_node. post_step.
  eapply post_mono; [apply post_needs; [apply Ha | done]|]. intros u s1 [P1 Hneeds].
  post_step. eapply post_mono with (Q := fun _ s' => edges_post s1 s').
  { assert (Hid : edges_post s1 s1) by (split; [apply P1 | done]).
    destruct (node_mode node) eqn:Hm; repeat post_step; try done.
    destruct (node_items node) as [[|reference]|] eqn:Hi; repeat post_step; try done.
    destruct a as [producer artifact]. eapply post_mono; [apply post_append_edge; [by eapply na_items | apply P1]|].
    by intros v s2 [P2 _]. }
  intros u2 s2 P2. post_step. eapply post_mono; [apply post_render_plan_covered; [done | apply P2]|]. intros rp s3 [P3 Hrp].
  post_step. intros en s4 Hrun.
  destruct (edges_of_frames _ s3 (frames_execution_node _ _ _ _ _ _) (proj1 P3) en s4 Hrun) as [Hok4 G4].
  destruct (post_execution_node_fields _ _ _ _ _ _ s3 en s4 Hrun) as (H1 & H2 & H3). post_step.
  assert (P13 : edges_post s1 s3) by (by eapply edges_post_trans). assert (P14 : edges_post s1 s4) by (eapply edges_post_trans; [exact P13 | by split]).
  split; [by eapply edges_post_trans|]. constructor; cbn [fst snd]; [done..| |].
  - intros r Hr. eapply plan_covered_grows; [exact G4 | by apply Hrp].
  - intros d Hd. by apply P14, Hneeds.
Qed.

Lemma post_nodes_covered config snapshot options records nodes s :
  Forall node_allowed nodes -> edges_ok s ->
  post (map_all (compile_node config snapshot options records) nodes) (fun compiled s' =>
    edges_post s s' /\ Forall2 (compiled_covered s') nodes compiled) s.
Proof.
  intros Ha. revert s. induction Ha as [|node nodes Hn Hns IH]; intros s Hok; simpl; [by post_step|].
  post_step. eapply post_mono; [by apply post_node_covered|]. intros c s1 [P1 C1].
  post_step. eapply post_mono; [apply IH, P1|]. intros cs s2 [P2 C2]. post_step.
  split; [by eapply edges_post_trans|]. constructor; [|done]. eapply compiled_covered_grows; [apply P2 | done].
Qed.

End Edges.
