(* ===== verification/PreflightCorrect.v ===== *)
(** A compiled plan renders the prompts of its workflow: the phases of the
    compiler keep the resolution invariant, and the assembled prompt of every
    provider node is its template with the tokens substituted. *)

From Stdlib Require Import ZArith Lia Ascii String.
From stdpp Require Import base gmap sets list strings.
From S2P Require Import Redaction RuntimeConfig.
From S2P Require Import Prelude PyStr StateExn Models Graph Artifacts RunState Composition CompositionSpec PlanRecords.
From S2P Require Import PlanContract Foreach WorkspaceSelection WorkflowValidation PreflightState PreflightFilesystem.
From S2P Require Import PreflightRender PreflightCompiler PromptAssembly PreflightText PreflightInv PreflightTokens.
From S2P Require Import PreflightStreams ValidationSpec PreflightGraph.

Open Scope string_scope.
Open Scope list_scope.
Open Scope Z_scope.

(** ** Phases that only report *)

Section Phases.
Context {hash : HashLibrary} {files : PreflightFiles} {hmac : HmacLibrary} {platform : Platform}
  {host : CacheHost} {services : CompilerServices}.

Lemma post_report c phase message node path severity s :
  (reserved c phase = true -> severity = SeverityError) ->
  post (append_diagnostic c phase message node path severity) (fun _ s' => keeps s s') s.
Proof. intros Hc. eapply post_mono; [by apply post_append_diagnostic|]. by intros u s' [Hk _]. Qed.

Lemma post_reports {A} (body : A -> M CompileState unit) l s :
  (forall x s', x ∈ l -> post (body x) (fun _ s'' => keeps s' s'') s') -> post (for_all body l) (fun _ s' => keeps s s') s.
Proof.
  intros H. apply (post_for_all (keeps s)); [done|]. intros x s' Hx Hk. eapply post_mono; [by apply H|].
  intros u s'' Hk'. by transitivity s'.
Qed.

(** Sequencing of phases that keep the state. *)
Lemma post_keeps_bind {A B} (m : M CompileState A) (k : A -> M CompileState B) Q s :
  post m (fun _ s' => keeps s s') s -> (forall a s', keeps s s' -> post (k a) Q s') -> post (m ≫= k) Q s.
Proof. intros Hm Hk. post_step. eapply post_mono; [exact Hm|]. auto. Qed.

Lemma post_missing_snapshot workflow config options s :
  post (append_missing_workspace_snapshot_diagnostic workflow config options) (fun _ s' => keeps s s') s.
Proof.
  unfold append_missing_workspace_snapshot_diagnostic. repeat post_step; try done.
  apply post_report. done.
Qed.

(** ** Validation *)

(** A diagnostic with the key of [d] is recorded. *)
Definition reported (s : CompileState) (d : PreflightDiagnostic) : Prop :=
  exists d', d' ∈ cs_diagnostics s /\ diagnostic_key d' = diagnostic_key d.

(** Every key of [s'] has its diagnostic, which is one of [s] or one of [ds]. *)
Record records (s : CompileState) (ds : list PreflightDiagnostic) (s' : CompileState) : Prop := {
  rc_keys : forall k, k ∈ cs_diagnostic_keys s' -> exists d, d ∈ cs_diagnostics s' /\ diagnostic_key d = k;
  rc_reported : forall d, d ∈ ds \/ reported s d -> reported s' d;
  rc_origin : forall d, d ∈ cs_diagnostics s' -> d ∈ cs_diagnostics s \/ d ∈ ds
}.

Lemma post_extend_records ds s :
  (forall k, k ∈ cs_diagnostic_keys s -> exists d, d ∈ cs_diagnostics s /\ diagnostic_key d = k) ->
  post (extend_diagnostics ds) (fun _ => records s ds) s.
Proof.
  revert s. induction ds as [|d ds IH]; intros s Hkeys; unfold extend_diagnostics; simpl.
  { post_step. constructor; [done| |by left]. intros d [Hd%elem_of_nil|Hd]; done. }
  post_step. eapply post_mono with (Q := fun _ => records s [d]).
  - unfold append_new_diagnostic. repeat post_step.
    + constructor; [done| |by left]. intros x [->%list_elem_of_singleton|Hx]; [|done].
      apply bool_decide_eq_true in H. by apply Hkeys.
    + constructor; cbn.
      * intros k [->|Hk]%elem_of_cons; [exists d | destruct (Hkeys _ Hk) as (d' & Hd' & <-); exists d'];
          (split; [|done]); apply elem_of_app; [right; by apply list_elem_of_singleton | by left].
      * intros x [->%list_elem_of_singleton|(d' & Hd' & Hk)]; [exists d | exists d'];
          (split; [|done]); apply elem_of_app; [right; by apply list_elem_of_singleton | by left].
      * intros x [Hx|Hx]%elem_of_app; auto.
  - intros u s1 [K1 R1 O1]. eapply post_mono; [by apply IH|]. intros u' s2 [K2 R2 O2]. constructor; [done| |].
    + intros x [[->|Hx]%elem_of_cons|Hx]; apply R2; [|by left|]; right; apply R1; [|by right]. left. by apply list_elem_of_singleton.
    + intros x Hx. destruct (O2 x Hx) as [H|H]; [|right; by right]. destruct (O1 x H) as [H'| ->%list_elem_of_singleton]; [by left|].
      right. left.
Qed.

Lemma to_preflight_fields ds ps :
  to_preflight_diagnostics ds = Ok ps ->
  Forall2 (fun d p => dg_message p = wd_message d /\ dg_severity p = wd_severity d) ds ps.
Proof.
  intros H%mapM_Forall2. eapply Forall2_impl; [exact H|]. intros d p (phase & _ & Hp)%bind_Ok. by injection Hp as <-.
Qed.

Lemma to_preflight_plain ds ps : Forall tame ds -> to_preflight_diagnostics ds = Ok ps -> Forall plain ps.
Proof.
  intros Ht H%mapM_Forall2. induction H as [|d p ds ps (phase & Hphase & Hp)%bind_Ok _ IH]; [constructor|].
  inversion Ht as [|? ? Hd Hds]; subst. constructor; [|by apply IH]. injection Hp as <-. intros Hres. simpl in *.
  destruct Hd as [He|[Hr|Hr]]; [done|..]; rewrite Hr in Hphase; injection Hphase as <-; done.
Qed.

Lemma provider_diagnostics_plain workflow config ps :
  collect_preflight_provider_reference_diagnostics workflow config = Ok ps -> Forall plain ps.
Proof.
  unfold collect_preflight_provider_reference_diagnostics. destruct (is_cons _).
  - intros [= <-]. unfold preflight_provider_diagnostics. apply List.Forall_map, Forall_true. by intros [].
  - apply to_preflight_plain. apply List.Forall_map, Forall_true. intros m. by left.
Qed.

(** An error of the reference checks that no warning hides stops the compilation. *)
Lemma reported_validated workflow ps s :
  collect_preflight_workflow_reference_diagnostics workflow = Ok ps -> records empty_state ps s -> has_errors s = false ->
  validated workflow.
Proof.
  unfold collect_preflight_workflow_reference_diagnostics. intros (ds & Hds & Hps)%bind_Ok [_ Hr Ho] He.
  pose proof (reference_diagnostics_mild _ _ Hds) as Hmild. rewrite Forall_forall in Hmild.
  apply to_preflight_fields in Hps. eapply validated_of_diagnostics; [done|]. intros d Hd [Hsev Hhead].
  apply list_elem_of_lookup in Hd as [i Hi]. destruct (Forall2_lookup_l _ _ _ _ _ Hps Hi) as (p & Hp & Hm & Hs).
  destruct (Hr p) as (p' & Hp' & Hk); [left; by eapply list_elem_of_lookup_2|].
  destruct (Ho _ Hp') as [Hin%elem_of_nil|Hin]; [done|]. apply list_elem_of_lookup in Hin as [j Hj].
  destruct (Forall2_lookup_r _ _ _ _ _ Hps Hj) as (d' & Hd' & Hm' & Hs').
  assert (Herr : wd_severity d' = SeverityError).
  { destruct (Hmild d') as [H|[H _]]; [by eapply list_elem_of_lookup_2 | done|]. injection Hk as _ _ _ _ Hmsg. congruence. }
  assert (has_errors s = true); [|congruence]. apply has_errors_spec. exists p'. split; [done | congruence].
Qed.

Lemma post_validation workflow config options :
  Forall plain (po_additional_diagnostics options) ->
  post (collect_validation_diagnostics workflow config options) (fun _ s' =>
    keeps empty_state s' /\ (has_errors s' = false -> validated workflow)) empty_state.
Proof.
  intros Ha. unfold collect_validation_diagnostics. post_step. post_step. rename a into ps. post_step.
  assert (Hval : Forall plain ps).
  { unfold collect_preflight_workflow_reference_diagnostics in H. apply bind_Ok in H as (ds & Hds & H).
    eapply to_preflight_plain; [|exact H]. by eapply mild_tame, reference_diagnostics_mild. }
  intros u s1 Hrun. pose proof (post_extend_diagnostics ps empty_state Hval u s1 Hrun) as K1.
  assert (R1 : records empty_state ps s1).
  { refine (post_extend_records ps empty_state _ u s1 Hrun). by intros k ?%elem_of_nil. }
  assert (Hlater : forall s', keeps s1 s' -> keeps empty_state s' /\ (has_errors s' = false -> validated workflow)).
  { intros s' K. split; [by transitivity s1|]. intros He. eapply reported_validated; [done..|].
    destruct (has_errors s1) eqn:E; [|done]. apply (kp_errors _ _ K) in E. congruence. }
  eapply post_mono with (Q := fun _ s' => keeps s1 s'); [|intros u' s'; apply Hlater]. clear Hlater R1 K1 Hrun.
  post_step. post_step. rename a into providers.
  apply post_keeps_bind; [by eapply post_extend_diagnostics, provider_diagnostics_plain|]. intros _ s2 K2.
  post_step. post_step. rename a into policies.
  assert (Hpol : Forall plain policies).
  { unfold collect_preflight_policy_diagnostics in H1. apply bind_Ok in H1 as (ds & Hds & H1).
    eapply to_preflight_plain; [|exact H1]. by eapply policy_diagnostics_tame. }
  apply post_keeps_bind; [by apply post_extend_diagnostics|]. intros _ s3 K3.
  apply post_keeps_bind; [by apply post_extend_diagnostics|]. intros _ s4 K4.
  apply post_keeps_bind; [apply post_missing_snapshot|]. intros _ s5 K5.
  apply post_keeps_bind; [apply post_reports; intros; apply post_report; done|]. intros _ s6 K6.
  eapply post_mono; [apply post_reports; intros; apply post_report; done|].
  intros v s7 K7. by transitivity s6; [transitivity s5; [transitivity s4; [transitivity s3; [transitivity s2|]|]|]|].
Qed.

Lemma post_transport_warnings config s : post (collect_prompt_transport_warnings config) (fun _ s' => keeps s s') s.
Proof.
  apply post_reports. intros [key agent] s' _. repeat post_step; [done|]. apply post_report. done.
Qed.

Lemma post_execution_order workflow s : post (execution_order workflow) (fun _ s' => keeps s s') s.
Proof.
  unfold execution_order. destruct (topological_waves workflow) as [waves|[]|]; try apply post_raise; repeat post_step; try done.
  eapply post_mono; [apply post_report; done|]. intros u s' K. by post_step.
Qed.

Lemma post_order_value workflow s :
  post (execution_order workflow) (fun order _ => forall waves, topological_waves workflow = Ok waves -> order = concat waves) s.
Proof.
  unfold execution_order. destruct (topological_waves workflow) as [waves|[]|]; try apply post_raise; repeat post_step; try done.
  by intros waves' [= ->].
Qed.

(** A reported failure is an error of the final state. *)
Lemma post_diagnose_value_error c phase node o s :
  post (diagnose_value_error c phase node o) (fun _ s' =>
    keeps s s' /\ (reserved c phase = true -> diagnostics_ok s -> has_errors s' = false -> o = Ok tt)) s.
Proof.
  unfold diagnose_value_error. destruct o as [[]|[]|]; try (post_step; done).
  eapply post_mono; [by apply post_append_diagnostic|]. intros u s' [Hk He]. split; [done|].
  intros Hr Hd Hno. rewrite He in Hno by done. done.
Qed.

(** ** Fingerprints *)

(** The diagnostics of the key file do not report tokens. *)
Definition key_diagnostics_plain : Prop :=
  forall dir policy r, load_key dir policy = inr r -> Forall plain (kr_diagnostics r).
Hypothesis Hkey : key_diagnostics_plain.

Variables (workflow : WorkflowPlan) (options : PreflightCompileOptions) (variables : dict string).
Notation tokens_ok := (tokens_ok workflow options variables).

Lemma keeps_same_refs s s' :
  same_refs s s' -> cs_diagnostics s' = cs_diagnostics s -> cs_diagnostic_keys s' = cs_diagnostic_keys s -> keeps s s'.
Proof.
  intros Hr Hd Hk. constructor; [done| |].
  - unfold has_errors. by rewrite Hd.
  - intros []. constructor; by rewrite ?Hd, ?Hk.
Qed.

Lemma post_load_key o s : post (load_fingerprint_key_if_needed o) (fun _ s' => keeps s s') s.
Proof.
  unfold load_fingerprint_key_if_needed. repeat post_step; [done|].
  destruct (load_key _ _) as [e|r] eqn:Hr; simplify_eq/=.
  eapply post_mono; [by apply post_extend_diagnostics, (Hkey _ _ _ Hr)|]. intros u s1 K. repeat post_step; [done|].
  transitivity s1; [done|]. by apply keeps_same_refs.
Qed.

Lemma post_fingerprinted snapshot o s : post (fingerprinted_runtime_snapshot snapshot o) (fun _ s' => keeps s s') s.
Proof.
  unfold fingerprinted_runtime_snapshot. repeat post_step; [done|].
  eapply post_mono; [apply post_load_key|]. intros u s1 K. repeat post_step.
  assert (keeps s s1) by (transitivity (on_sensitive_values_required (fun _ => true) s); [by apply keeps_same_refs | done]).
  destruct (cs_fingerprint_key s1); by repeat post_step.
Qed.

Lemma post_fingerprint_records key before rest s : post (fingerprint_records key before rest) (fun _ s' => keeps s s') s.
Proof.
  revert before s. induction rest as [|r rest IH]; intros before s; simpl; [by post_step|]. repeat post_step.
  eapply post_mono; [apply IH|]. intros u s' K. etransitivity; [|exact K]. by apply keeps_same_refs.
Qed.

(** A fingerprint does not change what a reference resolves to. *)
Lemma post_backfill s : tokens_ok s -> post backfill_value_fingerprints (fun _ => tokens_ok) s.
Proof.
  intros Hok. unfold backfill_value_fingerprints. repeat post_step.
  destruct (cs_fingerprint_key s) as [key|]; [|by post_step]. repeat post_step.
  eapply post_mono; [apply post_fingerprint_records|]. intros u s1 K.
  assert (Hok1 : tokens_ok s1) by (eapply tokens_ok_keeps; [exact K | exact Hok]).
  unfold backfill_static_value_reference_fingerprints. repeat post_step. destruct Hok1 as [H1 H2 H3 H4 H5].
  constructor; cbn; [by apply (registry_ok_transfer _ s1)| | | |by destruct H5; constructor].
  - intros o rf Ho Hg. destruct (H2 o rf Ho Hg). by constructor.
  - intros o l Ho Hg. destruct (H3 o l Ho Hg). by constructor.
  - intros o r Ho. rewrite dget_map_val. intros (r0 & Hr0 & ->)%fmap_Some. specialize (H4 _ _ Ho Hr0).
    destruct (rv_sensitive r0); [|done]. destruct (fingerprint_by_value _ _ _); [|done]. destruct H4. by constructor.
Qed.

Lemma post_capture_secrets snapshot s : tokens_ok s -> post (capture_runtime_config_secrets snapshot) (fun _ => tokens_ok) s.
Proof.
  intros Hok. apply (post_for_all tokens_ok); [done|]. intros path s1 _ [H1 H2 H3 H4 H5].
  assert (Hok1 : tokens_ok s1) by by constructor.
  post_step. apply post_lift. intros [value|] _; [|by post_step]. unfold put_config_value. post_step.
  constructor; cbn; [by apply (registry_ok_transfer _ s1)| | | |by destruct H5; constructor].
  - intros o rf Ho Hg. destruct (H2 o rf Ho Hg). by constructor.
  - intros o l Ho Hg. destruct (H3 o l Ho Hg). by constructor.
  - intros o r Ho Hg. destruct (H4 o r Ho Hg) as [Hk Hkey' (v & Hv & Hs)]. constructor; [done..|]. exists v. split; [done|].
    destruct (is_sensitive_value _ _); [|done]. destruct Hs as (Ha & Hb & Hc). split_and!; [done..|].
    rewrite dget_dset_ne; [done|]. intros He. symmetry in He. by apply config_handle_distinct in He.
Qed.

Lemma post_finalize_fingerprints snapshot o s : tokens_ok s -> post (finalize_fingerprints snapshot o) (fun _ => tokens_ok) s.
Proof.
  intros Hok. unfold finalize_fingerprints.
  apply post_keeps_bind; [apply post_fingerprinted|]. intros fp s1 K1.
  assert (Hok1 : tokens_ok s1) by (eapply tokens_ok_keeps; [exact K1 | exact Hok]). repeat post_step; [done|].
  eapply post_mono; [apply post_load_key|]. intros u s2 K2.
  assert (Hok2 : tokens_ok s2) by (eapply tokens_ok_keeps; [exact K2 | exact Hok1]). repeat post_step; [done|].
  eapply post_mono; [by apply post_backfill|]. intros v s3 Hok3. post_step.
  eapply post_mono; [by apply post_capture_secrets|]. intros w s4 Hok4. by post_step.
Qed.

End Phases.

(** ** Collection limits *)

(** The instruction appended to the producer of a collection holds no token. *)
Lemma constraint_no_token limit : find_spans match_template 0 0 (chars (collection_constraint_instruction limit)) = [].
Proof.
  apply find_spans_no_match. apply no_brace_no_token. unfold collection_constraint_instruction.
  rewrite !chars_app. repeat (apply Forall_app; split).
  all: try (repeat (constructor; [done|]); constructor).
  by apply str_int_avoids.
Qed.

Lemma constrain_node_same limits node :
  node_id (constrain_node limits node) = node_id node /\ node_mode (constrain_node limits node) = node_mode node.
Proof. unfold constrain_node. by destruct (dget _ _). Qed.

Lemma constrain_segment_of limits node k segment :
  node_prompt_segments (constrain_node limits node) !! k = Some segment -> segment_of node k segment.
Proof.
  unfold constrain_node. destruct (dget _ _) as [limit|]; [|by left]. simpl. intros H.
  apply lookup_app_Some in H as [H|[_ H]]; [by left|].
  destruct (k - _)%nat; [|done]. injection H as <-. right. apply constraint_no_token.
Qed.

Lemma constrained_nodes workflow constrained :
  with_collection_constraints workflow = Ok constrained ->
  exists limits, producer_limits workflow = Ok limits /\
    plan_nodes constrained = map (constrain_node limits) (plan_nodes workflow).
Proof.
  unfold with_collection_constraints. intros (limits & Hl & H)%bind_Ok. exists limits. split; [done|].
  injection H as <-. destruct limits; [|done]. simpl. symmetry. by apply map_id.
Qed.

(** ** Compiled nodes *)

Section Plans.
Context {hash : HashLibrary} {files : PreflightFiles} {hmac : HmacLibrary} {platform : Platform}
  {host : CacheHost} {services : CompilerServices}.
Context {sources : PromptSources} {laws : HashLaws hash}.
Variables (workflow : WorkflowPlan) (options : PreflightCompileOptions) (variables : dict string).
Variable lookup_file : string -> WorkspaceFileTarget -> string -> answer ResolvedWorkspaceFile.
Hypothesis Hhash : no_collision options.

Notation tokens_ok := (tokens_ok workflow options variables).
Notation runtime_ok := (runtime_ok lookup_file).
Notation stream_ok := (stream_ok workflow options variables lookup_file).
Notation direct_text := (direct_text workflow options variables lookup_file).

(** The two streams of a render plan. *)
Definition render_plan_ok (node : WorkflowNode) (segments : list PromptSegment) (s : CompileState) (rp : RenderPlan) : Prop :=
  exists executor reviewer, rp_streams rp = [executor; reviewer] /\
    rs_target_role executor = EXECUTOR /\ rs_target_role reviewer = REVIEWER /\
    (has_errors s = true \/ stream_ok node segments s executor /\ stream_ok node segments s reviewer).

Lemma stream_ok_keeps node segments s s' stream :
  keeps s s' -> stream_ok node segments s stream -> stream_ok node segments s' stream.
Proof.
  intros [[Hf Hv Hw Hl Hr Hp Hs] _ _] [Hn H]. split; [done|]. intros rt secrets [H1 H2 H3 H4]. apply H.
  constructor; rewrite <- ?Hl, <- ?Hr, <- ?Hp, <- ?Hs; done.
Qed.

Lemma render_plan_ok_keeps node segments s s' rp : keeps s s' -> render_plan_ok node segments s rp -> render_plan_ok node segments s' rp.
Proof.
  intros Hk (ex & rv & H1 & H2 & H3 & H4). exists ex, rv. split_and!; [done..|].
  destruct H4 as [He|[Hx Hr]]; [left; by apply Hk | right; split; by eapply stream_ok_keeps].
Qed.

(** What is compiled for a node. *)
Record compiled_ok (node node' : WorkflowNode) (compiled : option RenderPlan * PreflightExecutionNode) (s : CompileState) : Prop := {
  ck_id : en_id (snd compiled) = node_id node;
  ck_plan_id : forall rp, fst compiled = Some rp -> rp_render_plan_id rp = node_id node;
  ck_plan : runs_providers node = true -> exists rp, fst compiled = Some rp /\
    en_render_plan_id (snd compiled) = Some (node_id node) /\ render_plan_ok node (node_prompt_segments node') s rp
}.

Lemma compiled_ok_keeps node node' compiled s s' : keeps s s' -> compiled_ok node node' compiled s -> compiled_ok node node' compiled s'.
Proof.
  intros Hk [H1 H2 H3]. constructor; [done..|]. intros Hr. destruct (H3 Hr) as (rp & Ha & Hb & Hc).
  exists rp. split_and!; [done..|]. by eapply render_plan_ok_keeps.
Qed.

Lemma post_input_catalog node s : diagnostics_ok s -> post (append_input_source_token_catalog node options) (fun _ s' => keeps s s') s.
Proof.
  intros Hd. unfold append_input_source_token_catalog, append_token_catalog. repeat post_step.
  assert (Hun : forall message n,
    post (append_diagnostic TEMPLATE_PLAN PhaseTemplatePlan message n None SeverityError) (fun _ s' => keeps s s') s).
  { intros message n. eapply post_mono; [by apply post_append_diagnostic|]. by intros u s' [Hk _]. }
  destruct (dget _ _); [|apply Hun]. repeat post_step. destruct (dget _ _); repeat post_step; [apply keeps_catalog|].
  destruct (dget _ _); [|apply Hun]. post_step. apply keeps_catalog.
Qed.

Lemma runs_providers_mode node : runs_providers node = true <-> node_mode node <> InputMode /\ node_mode node <> Foreach.
Proof. unfold runs_providers. by destruct (node_mode node); naive_solver. Qed.

Lemma post_compile_render_plan node node' s :
  node ∈ plan_nodes workflow -> node_id node' = node_id node -> node_mode node' = node_mode node ->
  (forall k segment, node_prompt_segments node' !! k = Some segment -> segment_of node k segment) -> tokens_ok s ->
  post (compile_render_plan node' options) (fun r s' =>
    keeps s s' /\ (forall rp, r = Some rp -> rp_render_plan_id rp = node_id node) /\
    (runs_providers node = true -> exists rp, r = Some rp /\ render_plan_ok node (node_prompt_segments node') s' rp)) s.
Proof.
  intros Hn Hid Hmode Hseg Hok. unfold compile_render_plan. rewrite Hmode.
  assert (Hstreams : node_mode node <> InputMode -> post
    (executor ← compile_render_stream node' EXECUTOR options;
     reviewer ← compile_render_stream node' REVIEWER options;
     ret (Some (mkRenderPlan (node_id node') (Some (node_id node')) (module_id node' options) (source_file node' options)
        (Some (source_root node' options)) (node_source_span node' options) (Some (template_hash node'))
        (Some (signature_for_payload (JObj [("node_id", JStr (node_id node')); ("template_hash", JStr (template_hash node'))])))
        [executor; reviewer])))
    (fun r s' => keeps s s' /\ (forall rp, r = Some rp -> rp_render_plan_id rp = node_id node) /\
      (runs_providers node = true -> exists rp, r = Some rp /\ render_plan_ok node (node_prompt_segments node') s' rp)) s).
  { intros Hm. post_step. eapply post_mono; [by apply (post_compile_render_stream workflow options variables lookup_file Hhash node)|].
    intros ex s1 (K1 & R1 & H1). assert (Hok1 : tokens_ok s1) by (eapply tokens_ok_keeps; [exact K1 | exact Hok]).
    post_step. eapply post_mono; [by apply (post_compile_render_stream workflow options variables lookup_file Hhash node)|].
    intros rv s2 (K2 & R2 & H2). post_step. split_and!; [by transitivity s1| |].
    - by intros rp [= <-].
    - intros _. eexists. split; [done|]. exists ex, rv. split_and!; [done..|].
      destruct H2 as [He|H2]; [by left|]. destruct H1 as [He|H1]; [left; by apply K2|]. right.
      split; [apply (stream_ok_keeps _ _ s); [by transitivity s1 | done] | by apply (stream_ok_keeps _ _ s1)]. }
  unfold runs_providers in *. destruct (node_mode node); try (by apply Hstreams); [|by repeat post_step].
  all: repeat post_step; try done.
  eapply post_mono; [apply post_input_catalog, Hok|]. intros u s1 K. by post_step.
Qed.

Lemma post_compile_execution_node node config snapshot rp policy s :
  post (compile_execution_node node config snapshot options rp policy) (fun en s' =>
    keeps s s' /\ en_id en = node_id node /\ en_render_plan_id en = rp_render_plan_id <$> rp) s.
Proof.
  unfold compile_execution_node. repeat post_step.
  eapply post_mono; [apply post_diagnose_value_error|]. intros u s1 [K _]. by post_step.
Qed.

Lemma post_compile_node config snapshot records node node' s :
  node ∈ plan_nodes workflow -> node_id node' = node_id node -> node_mode node' = node_mode node ->
  (forall k segment, node_prompt_segments node' !! k = Some segment -> segment_of node k segment) -> tokens_ok s ->
  post (compile_node config snapshot options records node') (fun compiled s' =>
    keeps s s' /\ compiled_ok node node' compiled s') s.
Proof.
  intros Hn Hid Hmode Hseg Hok. unfold compile_node.
  apply post_keeps_bind; [apply post_reports; intros; apply post_append_dependency_edge|]. intros _ s1 K1.
  apply post_keeps_bind; [repeat case_match; repeat post_step; try done; by case_match; apply post_append_dependency_edge|].
  intros _ s2 K2. assert (K : keeps s s2) by by transitivity s1.
  assert (Hok2 : tokens_ok s2) by (eapply tokens_ok_keeps; [exact K | exact Hok]).
  post_step. eapply post_mono; [by apply (post_compile_render_plan node)|]. intros rp s3 (K3 & Hrp & Hplan).
  post_step. eapply post_mono; [apply post_compile_execution_node|]. intros en s4 (K4 & Hen & Hpid). post_step.
  split; [by transitivity s3; [transitivity s2|]|]. constructor; cbn [fst snd]; [by rewrite Hen|done|].
  intros Hr. destruct (Hplan Hr) as (r & -> & Hok'). exists r. split_and!; [done| |by eapply render_plan_ok_keeps].
  rewrite Hpid. simpl. by rewrite (Hrp r eq_refl).
Qed.

(** The compiled nodes, in the order of the workflow. *)
Lemma post_compile_template_plan config snapshot s :
  tokens_ok s ->
  post (compile_template_plan workflow config snapshot options) (fun '(render_plans, nodes, graph) s' =>
    keeps s s' /\ exists limits compiled, producer_limits workflow = Ok limits /\
      render_plans = omap fst compiled /\ nodes = nodes_with_graph_dependencies (map snd compiled) graph /\
      Forall2 (fun node c => compiled_ok node (constrain_node limits node) c s') (plan_nodes workflow) compiled) s.
Proof.
  intros Hok. unfold compile_template_plan. post_step. post_step. rename a into constrained.
  destruct (constrained_nodes _ _ H) as (limits & Hl & Hnodes). post_step. post_step. post_step. rewrite Hnodes.
  assert (Hmap : forall ns s1, (forall n, n ∈ ns -> n ∈ plan_nodes workflow) -> keeps s s1 ->
    post (map_all (compile_node config snapshot options a) (map (constrain_node limits) ns)) (fun compiled s' =>
      keeps s1 s' /\ Forall2 (fun node c => compiled_ok node (constrain_node limits node) c s') ns compiled) s1).
  { induction ns as [|n ns IH]; intros s1 Hns K1; simpl; [by post_step|]. post_step.
    destruct (constrain_node_same limits n) as [Hid Hmode].
    eapply post_mono; [apply (post_compile_node _ _ _ n); [apply Hns; left|done|done|by apply constrain_segment_of|]|].
    { eapply tokens_ok_keeps; [exact K1 | exact Hok]. }
    intros c s2 [K2 Hc]. post_step. eapply post_mono; [apply IH; [intros m Hm; apply Hns; by right | by transitivity s1]|].
    intros cs s3 [K3 Hcs]. post_step. split; [by transitivity s2|]. constructor; [by eapply compiled_ok_keeps | done]. }
  eapply post_mono; [by apply Hmap|]. intros compiled s1 [K1 Hc]. repeat post_step. split; [done|].
  by exists limits, compiled.
Qed.

(** ** Finding the stream of a role *)

Lemma compiled_lookup nodes (f : WorkflowNode -> WorkflowNode) compiled s node :
  Forall2 (fun node c => compiled_ok node (f node) c s) nodes compiled -> node ∈ nodes ->
  exists c, c ∈ compiled /\ compiled_ok node (f node) c s.
Proof.
  induction 1 as [|n c ns cs Hc Hcs IH]; [by intros ?%elem_of_nil|]. intros [->|Hn]%elem_of_cons.
  - exists c. split; [left | done].
  - destruct (IH Hn) as (c' & Hc' & Hok). exists c'. split; [by right | done].
Qed.

(** The render plan of a node is the only one with its id. *)
Lemma filter_render_plans nodes (f : WorkflowNode -> WorkflowNode) compiled s node c rp :
  Forall2 (fun node c => compiled_ok node (f node) c s) nodes compiled -> NoDup (map node_id nodes) ->
  node ∈ nodes -> c ∈ compiled -> en_id (snd c) = node_id node -> fst c = Some rp ->
  List.filter (fun r => bool_decide (rp_render_plan_id r = node_id node)) (omap fst compiled) = [rp].
Proof.
  intros H. revert node. induction H as [|n c0 ns cs Hc Hcs IH]; intros node Hd Hn Hin Hid Hrp; [by apply elem_of_nil in Hin|].
  simpl in Hd. apply NoDup_cons in Hd as [Hnotin Hd].
  assert (Hnone : forall ns' cs', Forall2 (fun node c => compiled_ok node (f node) c s) ns' cs' -> forall id,
    id ∉ map node_id ns' -> List.filter (fun r => bool_decide (rp_render_plan_id r = id)) (omap fst cs') = []).
  { induction 1 as [|m c1 ms cs1 Hm Hms IHm]; intros id Hid'; [done|]. simpl in Hid'.
    apply not_elem_of_cons in Hid' as [Hne Hid']. simpl. destruct (fst c1) as [r|] eqn:Hf; simpl; [|by apply IHm].
    rewrite (ck_plan_id _ _ _ _ Hm r Hf), bool_decide_eq_false_2 by done. by apply IHm. }
  apply elem_of_cons in Hin as [->|Hin].
  - assert (node_id node = node_id n) as -> by (by rewrite <- Hid, (ck_id _ _ _ _ Hc)).
    simpl. rewrite Hrp. simpl. rewrite (ck_plan_id _ _ _ _ Hc rp Hrp), bool_decide_eq_true_2 by done. f_equal. by eapply Hnone.
  - assert (Hin' : node_id node ∈ map node_id ns).
    { clear -Hcs Hin Hid. rewrite <- Hid. induction Hcs as [|m c1 ms cs1 Hm Hms IHm]; [by apply elem_of_nil in Hin|]. simpl.
      apply elem_of_cons in Hin as [->|Hin]; [rewrite (ck_id _ _ _ _ Hm); left | right; by apply IHm]. }
    assert (Hne : node_id n <> node_id node) by (intros He; by rewrite He in Hnotin).
    assert (Hn' : node ∈ ns) by (apply elem_of_cons in Hn as [->|]; done).
    simpl. destruct (fst c0) as [r|] eqn:Hf; simpl; [|by apply IH].
    rewrite (ck_plan_id _ _ _ _ Hc r Hf), bool_decide_eq_false_2 by done. by apply IH.
Qed.

(** A plan whose render plan for the node is [rp] assembles its streams. *)
Lemma assemble_render_plan node segments s rp rt secrets en role :
  render_plan_ok node segments s rp -> has_errors s = false -> runtime_ok s rt secrets -> en_render_plan_id en = Some (node_id node) ->
  List.filter (fun r => bool_decide (rp_render_plan_id r = node_id node)) (pp_render_plans (rt_plan rt)) = [rp] ->
  (r ← assemble_prompt_details rt en role secrets; mret (chars (rq_text r))) =
  with_node_context en (direct_text rt node role segments).
Proof.
  intros (ex & rv & Hs & Hex & Hrv & H) He Hrt Hid Hf. destruct H as [H|[Hx Hr]]; [by rewrite H in He|].
  assert (Hstream : exists stream, find_stream (rt_plan rt) en role = Ok stream /\ stream_ok node segments s stream /\
            rs_target_role stream = role).
  { unfold find_stream. rewrite Hid, Hf. simpl. rewrite Hs, app_nil_r. simpl. rewrite Hex, Hrv.
    destruct role; [exists ex | exists rv]; done. }
  destruct Hstream as (stream & Hfind & [Hnum Hren] & <-). unfold assemble_prompt_details. rewrite Hfind. simpl.
  rewrite numbered_sorted by done.
  pose proof (assemble_fragments_render rt secrets en (rs_fragments stream) "" []) as Ha.
  rewrite (Hren rt secrets Hrt) in Ha. destruct (assemble_fragments _ _ _ _ _) as [[prompt fs]|e|]; simpl in *; rewrite Ha;
    by destruct (direct_text _ _ _ _).
Qed.

End Plans.

(** ** The inventory *)

Section Inventory.
Context {hash : HashLibrary} {files : PreflightFiles} {hmac : HmacLibrary} {platform : Platform}
  {host : CacheHost} {services : CompilerServices}.
Context {sources : PromptSources} {laws : HashLaws hash}.

(** The options with the source metadata of the workflow. *)
Definition source_options (source : PreflightWorkflowSource) (options : PreflightCompileOptions) : PreflightCompileOptions :=
  with_source_metadata (ws_node_source_paths source) (ws_node_source_spans source) (ws_prompt_segment_spans source) options.

Definition template_variables (options : PreflightCompileOptions) : dict string :=
  dict_update (build_builtin_template_variables (po_project_root options)) (po_runtime_variables options).

(** What a compilation relies on: no colliding captures, and no warning passed
    in that has the key of an error of the compiler. *)
Record compile_ok (source : PreflightWorkflowSource) (options : PreflightCompileOptions) : Prop := {
  cp_hash : no_collision (source_options source options);
  cp_additional : Forall plain (po_additional_diagnostics options);
  cp_key : key_diagnostics_plain
}.

Lemma validated_ids_ok workflow : validated workflow -> ids_ok workflow.
Proof.
  intros [Href Hids _ _]. constructor.
  - apply has_valid_dependency_references_spec in Href as [Hd _]. exact Hd.
  - eapply Forall_impl; [exact Hids|]. intros node. apply node_id_no_colon.
Qed.

(** How an error-free preview was produced: [before] is the state in which the
    template plan was compiled, [after] the final state. *)
Record produced (source : PreflightWorkflowSource) (config : Config) (options : PreflightCompileOptions)
    (preview : PreflightCompilationPreview) (snapshot : RuntimeConfigSnapshot) (order : list string)
    (rps : list RenderPlan) (nodes : list PreflightExecutionNode) (graph : list CompiledEdge) (signature : option string)
    (before middle after : CompileState) : Prop := {
  pd_validated : validated (ws_workflow source);
  pd_order : exists waves, topological_waves (ws_workflow source) = Ok waves /\ order = concat waves;
  pd_tokens : tokens_ok (ws_workflow source) options (template_variables options) before;
  pd_edges : cs_dependency_edges before = [];
  pd_template : compile_template_plan (ws_workflow source) config snapshot options before = (Ok (rps, nodes, graph), middle);
  pd_unique : validate_artifact_contract_uniqueness nodes = Ok tt;
  pd_keeps : keeps middle after;
  pd_clean : has_errors after = false;
  pd_preview : preview = build_preview source options order nodes rps graph signature after
}.

(** An execution of a compiled plan: its render plans, descriptors and secrets,
    the captured bytes in the bundle, and the files of workspaces. *)
Record executes (lookup_file : string -> WorkspaceFileTarget -> string -> answer ResolvedWorkspaceFile)
    (preview : PreflightCompilationPreview) (rt : RuntimePlan) (secrets : dict json) : Prop := {
  ex_plans : pp_render_plans (rt_plan rt) = pv_render_plans preview;
  ex_resources : rt_static_resources rt = pv_static_resources preview;
  ex_secrets : secrets = pv_secret_context preview;
  ex_bundle : forall ref p limit, dget (pv_static_file_payloads preview) ref = Some p -> Z.of_nat (String.length p) <= limit ->
    read_bundle ref limit = inr p;
  ex_workspace : forall l, l ∈ pv_workspace_file_locators preview ->
    workspace_file (wl_locator_id l) = lookup_file (wl_node_id l) (wl_target l) (wl_raw_path l)
}.

(** Every provider node of the workflow has a compiled node whose assembled
    prompts are the node's segments with their tokens substituted. *)
Definition renders_prompts (lookup_file : string -> WorkspaceFileTarget -> string -> answer ResolvedWorkspaceFile)
    (source : PreflightWorkflowSource) (options : PreflightCompileOptions) (preview : PreflightCompilationPreview) : Prop :=
  forall rt secrets node, executes lookup_file preview rt secrets -> node ∈ plan_nodes (ws_workflow source) ->
    runs_providers node = true ->
    exists limits en, producer_limits (ws_workflow source) = Ok limits /\ en ∈ pv_nodes preview /\ en_id en = node_id node /\
      forall role, (r ← assemble_prompt_details rt en role secrets; mret (chars (rq_text r))) =
        with_node_context en
          (direct_text (ws_workflow source) options (template_variables options) lookup_file rt node role
             (node_prompt_segments (constrain_node limits node))).

Lemma post_stop early next (Q : PreflightCompilationPreview -> CompileState -> Prop) s :
  (has_errors s = true -> post early Q s) -> (has_errors s = false -> post next Q s) -> post (stop_on_errors early next) Q s.
Proof. intros H1 H2. unfold stop_on_errors. repeat post_step; auto. Qed.

Lemma tokens_ok_start workflow options variables s :
  keeps empty_state s -> tokens_ok workflow options variables s.
Proof.
  intros Hk. eapply tokens_ok_keeps; [exact Hk|].
  constructor; [constructor; cbn; [constructor | by intros r ?%elem_of_nil | by intros k [? ?]] | done..|].
  constructor; cbn; [by intros k ?%elem_of_nil | constructor].
Qed.

(** A finished template plan renders. *)
Lemma renders_of_compiled lookup_file source options order graph signature limits compiled s :
  ids_ok (ws_workflow source) -> has_errors s = false -> producer_limits (ws_workflow source) = Ok limits ->
  Forall2 (fun node c => compiled_ok (ws_workflow source) options (template_variables options) lookup_file
                           node (constrain_node limits node) c s) (plan_nodes (ws_workflow source)) compiled ->
  renders_prompts lookup_file source options
    (build_preview source options order (nodes_with_graph_dependencies (map snd compiled) graph) (omap fst compiled) graph
       signature s).
Proof.
  intros Hids He Hl Hc rt secrets node [H1 H2 H3 H4 H5] Hn Hr.
  destruct (compiled_lookup _ _ _ _ _ _ _ _ _ Hc Hn) as (c & Hin & Hok). destruct (ck_plan _ _ _ _ _ _ _ _ Hok Hr) as (rp & Hrp & Hid & Hplan).
  exists limits. eexists (with_dependencies _ (snd c)). split; [done|]. split; [|split; [apply Hok|]].
  - cbn [pv_nodes build_preview]. unfold nodes_with_graph_dependencies. apply list_elem_of_fmap. exists (snd c).
    split; [reflexivity|]. by apply list_elem_of_fmap_2.
  - intros role. eapply assemble_render_plan; [exact Hplan | done | by constructor | done |].
    rewrite H1. cbn [pv_render_plans build_preview].
    eapply filter_render_plans; [exact Hc | apply Hids | done | exact Hin | apply Hok | done].
Qed.

(** Two facts about the same run. *)
Lemma post_and {S A} (m : M S A) (P Q : A -> S -> Prop) s : post m P s -> post m Q s -> post m (fun a s' => P a s' /\ Q a s') s.
Proof. intros HP HQ a s' H. split; [by apply HP | by apply HQ]. Qed.

Lemma post_inventory source config snapshot options0 :
  compile_ok source options0 ->
  post (compile_preflight_inventory source config snapshot options0) (fun preview _ =>
    preview_has_errors preview = false ->
    exists snapshot' order rps nodes graph signature before middle after,
      produced source config (source_options source options0) preview snapshot' order rps nodes graph signature before middle after)
    empty_state.
Proof.
  intros [Hhash Ha Hkey]. unfold compile_preflight_inventory. fold (source_options source options0).
  set (options := source_options source options0). fold (template_variables options).
  set (variables := template_variables options).
  match goal with |- post _ ?Q _ => set (goal := Q) end.
  assert (Hearly : forall s order nodes rps graph signature, has_errors s = true ->
    post (read (build_preview source options order nodes rps graph signature)) goal s).
  { intros s order nodes rps graph signature He. post_step. intros Hno. exfalso. unfold preview_has_errors in Hno. simpl in Hno.
    unfold has_errors in He. congruence. }
  post_step. eapply post_mono; [apply post_and; [by apply post_validation | apply frames_post, frames_validation]|].
  intros u0 s1 [[K1 Hval] E1].
  post_step. eapply post_mono; [apply post_and; [apply post_transport_warnings | apply frames_post, frames_transport]|].
  intros u1 s2 [K2 E2]. post_step. eapply post_mono; [apply post_and; [apply post_and; [apply post_execution_order |
    apply frames_post, frames_order] | apply post_order_value]|]. intros order s3 [[K3 E3] Horder].
  assert (Hok3 : tokens_ok (ws_workflow source) options variables s3)
    by (apply tokens_ok_start; transitivity s2; [by transitivity s1 | exact K3]).
  apply post_stop; [apply Hearly|]. intros Hno3.
  assert (Hv : validated (ws_workflow source)).
  { apply Hval. destruct (has_errors s1) eqn:E; [|done]. apply (kp_errors _ _ K2), (kp_errors _ _ K3) in E. congruence. }
  pose proof (validated_ids_ok _ Hv) as Hids.
  post_step. eapply post_mono; [apply post_and; [by apply (post_apply_file_policy _ _ variables Hids) |
    apply frames_post, frames_file_policy]|]. intros u2 s4 [Hok4 E4].
  apply post_stop; [apply Hearly|]. intros _.
  post_step. eapply post_mono; [apply post_and; [by apply (post_apply_static_value_policy _ _ variables Hids) |
    apply frames_post, frames_value_policy]|]. intros u3 s5 [Hok5 E5].
  apply post_stop; [apply Hearly|]. intros _.
  post_step. eapply post_mono; [apply post_and; [by apply (post_apply_static_value_policy _ _ variables Hids) |
    apply frames_post, frames_value_policy]|]. intros u4 s6 [Hok6 E6].
  apply post_stop; [apply Hearly|]. intros _. post_step. post_step.
  post_step. eapply post_mono; [apply post_and; [by apply (post_finalize_fingerprints Hkey (ws_workflow source) options variables) |
    apply frames_post, frames_finalize]|]. intros fp s7 [Hok7 E7].
  apply post_stop; [apply Hearly|]. intros _. post_step. intros [[rps nodes] graph] s8 Hrun.
  assert (Hdiag : diagnostics_ok s8).
  { destruct (post_compile_template_plan _ options _ (fun _ _ _ => inl (ValueError "")) Hhash _ _ _ Hok7 _ _ Hrun) as [K8 _].
    apply K8, Hok7. }
  post_step. eapply post_mono; [apply post_diagnose_value_error|]. intros u5 s9 [K9 Huniq].
  apply post_stop; [apply Hearly|]. intros He. repeat post_step. intros _.
  eexists _, order, rps, nodes, graph, _, s7, s8, s9. constructor; try done.
  - destruct (vl_graph _ Hv) as [a0 Ha0]. unfold topological_waves in *. rewrite Ha0. eexists. split; [done|].
    rewrite (Horder (analysis_waves a0)); [done|]. unfold topological_waves. by rewrite Ha0.
  - transitivity (cs_dependency_edges s6); [exact E7|]. transitivity (cs_dependency_edges s5); [exact E6|].
    transitivity (cs_dependency_edges s4); [exact E5|]. transitivity (cs_dependency_edges s3); [exact E4|].
    transitivity (cs_dependency_edges s2); [exact E3|]. transitivity (cs_dependency_edges s1); [exact E2 | exact E1].
  - by apply Huniq.
Qed.

(** A produced preview renders the prompts of its workflow. *)
Lemma produced_renders lookup_file source config options preview snapshot order rps nodes graph signature before middle after :
  no_collision options ->
  produced source config options preview snapshot order rps nodes graph signature before middle after ->
  renders_prompts lookup_file source options preview.
Proof.
  intros Hhash [Hv _ Htok _ Hrun _ Hk He ->].
  destruct (post_compile_template_plan _ options _ lookup_file Hhash _ _ _ Htok _ _ Hrun)
    as (_ & limits & compiled & Hl & -> & -> & Hc).
  apply (renders_of_compiled _ _ _ _ _ _ limits); [by apply validated_ids_ok|done..|].
  eapply Forall2_impl; [exact Hc|]. intros node c Hck. by eapply compiled_ok_keeps.
Qed.

(** The captured files of a compilation are described by their content. *)
Lemma produced_registry source config options preview snapshot order rps nodes graph signature before middle after :
  no_collision options ->
  produced source config options preview snapshot order rps nodes graph signature before middle after ->
  registry_ok options after /\ pv_static_resources preview = cs_static_resources after /\
  pv_static_file_payloads preview = cs_static_payloads after.
Proof.
  intros Hhash [Hv _ Htok _ Hrun _ Hk He ->]. split; [|done].
  destruct (post_compile_template_plan _ options _ (fun _ _ _ => inl (ValueError "")) Hhash _ _ _ Htok _ _ Hrun) as (Hk' & _).
  eapply tk_registry, tokens_ok_keeps; [exact Hk|]. by eapply tokens_ok_keeps.
Qed.

End Inventory.
