(* ===== verification/PreflightContract.v ===== *)
(** A compiled plan passes the checks of the persisted-plan contract that
    concern its records, its execution order and its dependency graph. *)

From Stdlib Require Import ZArith Lia Ascii String.
From stdpp Require Import base gmap sets list strings relations.
From S2P Require Import Redaction RuntimeConfig.
From S2P Require Import Prelude PyStr StateExn Models Graph Scheduler SchedulerInv Artifacts RunState Composition.
From S2P Require Import CompositionSpec PlanRecords PlanContract PlanContractSpec Foreach WorkspaceSelection.
From S2P Require Import WorkflowValidation PreflightState PreflightFilesystem PreflightRender PreflightCompiler.
From S2P Require Import PromptAssembly PreflightText PreflightTokens PreflightStreams ValidationSpec.
From S2P Require Import PreflightCorrect PreflightGraph.

Open Scope string_scope.
Open Scope list_scope.
Open Scope Z_scope.

(** ** Names *)

Lemma find_all_spans {A} (try : text -> option (A * nat)) l : forall pos skip,
  map (fun '(a, _, _) => a) (find_spans try pos skip l) = find_all try skip l.
Proof.
  induction l as [|c l IH]; intros pos skip; simpl; [done|]. destruct skip as [|k]; [|apply IH].
  destruct (try (c :: l)) as [[a [|n]]|]; simpl; [apply IH| |apply IH]. by rewrite IH.
Qed.

(** A reference of a text is one of its tokens. *)
Lemma reference_token content reference :
  reference ∈ iter_template_references content -> ref_raw_token reference ∈ extract_template_tokens content.
Proof.
  unfold iter_template_references, extract_template_tokens. intros ([[raw first] last] & -> & Hin)%list_elem_of_fmap.
  rewrite reference_at_raw. apply list_elem_of_fmap_2. rewrite <- (find_all_spans _ _ 0 0).
  apply list_elem_of_fmap. by exists (raw, first, last).
Qed.

(** A node reference is an artifact token. *)
Lemma reference_node content reference :
  reference ∈ iter_template_references content -> ref_kind reference = RefNode ->
  exists n a, match_template_token (ref_raw_token reference) = Some (NodeArtifactToken n a) /\
    ref_node_id reference = Some n /\ ref_artifact_name reference = Some a.
Proof.
  unfold iter_template_references. intros ([[raw first] last] & -> & _)%list_elem_of_fmap. rewrite reference_at_raw.
  unfold reference_at. destruct (match_template_token (of_chars raw)) as [[n a|t v]|]; [|..|done].
  - intros _. by exists n, a.
  - unfold key_value_reference_kind. by repeat case_bool_decide.
Qed.

Lemma no_space_strip l : Forall (fun c => is_space c = false) l -> strip_text l = l.
Proof.
  intros H. assert (Hd : forall l, Forall (fun c => is_space c = false) l -> drop_while is_space l = l).
  { intros [|c k] Hk; [done|]. simpl. inversion Hk as [|? ? Hc _]; subst. by rewrite Hc. }
  unfold strip_text, rstrip_text. rewrite (Hd l) by done. rewrite Hd by (by apply Forall_reverse). by rewrite reverse_involutive.
Qed.

Lemma node_id_char_not_space c : node_id_char c = true -> is_space c = false.
Proof.
  destruct c as [[] [] [] [] [] [] [] []]; vm_compute; congruence.
Qed.

Lemma node_id_not_blank s : node_id_fullmatch s = true -> not_blank s = true.
Proof.
  unfold node_id_fullmatch, not_blank, str_strip. intros [Hn Hc]%andb_true_iff. rewrite no_space_strip; [by rewrite of_chars_chars|].
  apply Forall_forall. intros c Hin. apply node_id_char_not_space. rewrite forallb_forall in Hc. by apply Hc, list_elem_of_In.
Qed.

(** ** Edges that a validated workflow allows *)

Section Contract.
Context {hash : HashLibrary} {files : PreflightFiles} {hmac : HmacLibrary} {platform : Platform} {host : CacheHost} {services : CompilerServices}.
Variable workflow : WorkflowPlan.

(** A node that publishes findings. *)
Definition publishes (id : string) : Prop := exists node, node ∈ plan_nodes workflow /\ node_id node = id /\ node_findings node = true.

(** The collections of groups come from upstream nodes, findings from nodes
    that publish them. *)
Definition collections_checked : Prop :=
  forall group reference producer artifact, group ∈ plan_nodes workflow -> node_mode group = Foreach ->
    node_items group = Some (ItemsReference reference) -> collection_reference reference = Ok (producer, artifact) ->
    tc (depends workflow) producer (node_id group) /\ (artifact = "findings" -> publishes producer).

(** An edge from an upstream node, to findings only where they are published. *)
Definition allowed_edge (key : string * string * option string) : Prop :=
  let '(source, target, artifact) := key in
  tc (depends workflow) source target /\
  match artifact with
  | None => True
  | Some a => a ∈ ALLOWED_NODE_ARTIFACT_NAMES /\ (str_startswith "findings" a = true -> publishes source)
  end.

Hypothesis Hv : validated workflow.
Hypothesis Hcollections : collections_checked.

Lemma depends_ids d n : depends workflow d n -> d ∈ workflow_ids workflow /\ n ∈ workflow_ids workflow.
Proof.
  intros H. split; [by apply (proj2 (proj1 (has_valid_dependency_references_spec _) (vl_references _ Hv)) d n)|].
  destruct H as (node & Hn & <- & _). by apply list_elem_of_fmap_2.
Qed.

Lemma upstream_ids d n : tc (depends workflow) d n -> d ∈ workflow_ids workflow /\ n ∈ workflow_ids workflow.
Proof. induction 1 as [d n H|d m n H _ [_ IH]]; [by apply depends_ids|]. split; [by apply (depends_ids d m) | done]. Qed.

Lemma ids_distinct : NoDup (workflow_ids workflow).
Proof. apply (proj1 (has_valid_dependency_references_spec _) (vl_references _ Hv)). Qed.

Lemma nodes_by_id_spec id node : dget (nodes_by_id workflow) id = Some node -> node ∈ plan_nodes workflow /\ node_id node = id.
Proof.
  unfold nodes_by_id. rewrite dict_of_NoDup.
  - intros H%dget_elem_of. apply list_elem_of_fmap in H as (m & [= -> ->] & Hm). done.
  - rewrite map_map. exact ids_distinct.
Qed.

Lemma collection_artifact reference producer artifact :
  collection_reference reference = Ok (producer, artifact) -> artifact = "output" \/ artifact = "findings".
Proof.
  unfold collection_reference. repeat case_match; try done. intros [= <- <-].
  repeat match goal with H : _ && _ = true |- _ => apply andb_true_iff in H as [? H] end.
  match goal with H : str_in _ _ = true |- _ => unfold str_in in H; apply bool_decide_eq_true in H; revert H end.
  rewrite !elem_of_cons, elem_of_nil. tauto.
Qed.

(** A token that passed validation is an allowed edge. *)
Lemma token_allowed node token n a :
  node ∈ plan_nodes workflow -> token ∈ concat (map extract_template_tokens (node_template_texts node)) ->
  match_template_token token = Some (NodeArtifactToken n a) -> allowed_edge (n, node_id node, Some a).
Proof.
  intros Hn Ht Hm. destruct (vl_graph _ Hv) as [analysis Ha]. pose proof (vl_tokens _ Hv node token analysis Hn Ha Ht) as H.
  unfold template_reference_error in H. rewrite Hm in H. unfold artifact_reference_error in H.
  destruct (node_artifact_name_error a) eqn:Hname; [done|].
  destruct (dget (nodes_by_id workflow) n) as [referenced|] eqn:Hr; [|done]. case_bool_decide; [done|].
  destruct (analysis_ancestors_spec workflow analysis (vl_references _ Hv) Ha (node_id node)) as (A & HA & HAm).
  { by apply list_elem_of_fmap_2. }
  rewrite HA in H. case_bool_decide as Hup; [|done]. simpl in H. split; [by apply HAm|]. split.
  - unfold node_artifact_name_error in Hname. destruct (str_in a _) eqn:E; [by apply bool_decide_eq_true in E | by destruct (str_in (str_lower a) _)].
  - intros Hf. rewrite Hf in H. simpl in H. destruct (node_findings referenced) eqn:E; [|done].
    apply nodes_by_id_spec in Hr as [Hin Hid]. by exists referenced.
Qed.

Lemma segment_text node segment : segment ∈ node_prompt_segments node ->
  forall token, token ∈ extract_template_tokens (seg_content segment) ->
    token ∈ concat (map extract_template_tokens (node_template_texts node)).
Proof.
  intros Hs token Ht. apply list_elem_of_In, in_concat. exists (extract_template_tokens (seg_content segment)).
  split; [|by apply list_elem_of_In]. apply in_map. unfold node_template_texts. apply in_or_app. left. apply in_map.
  by apply list_elem_of_In.
Qed.

Lemma constrained_allowed limits node : node ∈ plan_nodes workflow -> node_allowed allowed_edge (constrain_node limits node).
Proof.
  intros Hn. destruct (constrain_node_same limits node) as [Hid Hmode]. constructor; rewrite ?Hid.
  - intros d Hd. split; [|done]. apply tc_once. exists node. split_and!; [done..|].
    unfold constrain_node in Hd. by destruct (dget _ _).
  - intros reference producer artifact Hm Hi Hc. rewrite Hmode in Hm.
    assert (Hi' : node_items node = Some (ItemsReference reference)) by (unfold constrain_node in Hi; by destruct (dget _ _)).
    destruct (Hcollections node reference producer artifact Hn Hm Hi' Hc) as [Hup Hf]. split; [done|].
    destruct (collection_artifact _ _ _ Hc) as [-> | ->]; (split; [set_solver|]); [done | auto].
  - intros i segment o Hi Ho Hkind Hart. apply elem_of_segment_occurrences in Ho as (j & reference & role & Hj & _ & ->).
    cbn in *. apply (list_elem_of_lookup_2 _ _ _) in Hj. rewrite Hid.
    destruct (constrain_segment_of _ _ _ _ Hi) as [Hseg|Hnone].
    + destruct (reference_node _ _ Hj Hkind) as (n & a & Hm & Hn' & Ha). rewrite Hn', Ha. simpl.
      eapply token_allowed; [done| |exact Hm]. eapply segment_text; [by eapply list_elem_of_lookup_2|]. by apply reference_token.
    + unfold iter_template_references in Hj. rewrite Hnone in Hj. by apply elem_of_nil in Hj.
Qed.

(** ** The compiled nodes *)

Variables (limits : dict Z) (compiled : list (option RenderPlan * PreflightExecutionNode)) (s : CompileState).
Hypothesis Hcompiled : Forall2 (compiled_covered s) (map (constrain_node limits) (plan_nodes workflow)) compiled.
Hypothesis Hedges : edges_ok allowed_edge s.

Notation graph := (cs_dependency_edges s).
Notation nodes := (nodes_with_graph_dependencies (map snd compiled) graph).
Notation N := (map (fun r => (en_id r, r)) nodes).

Lemma compiled_at i c : compiled !! i = Some c ->
  exists node, plan_nodes workflow !! i = Some node /\ compiled_covered s (constrain_node limits node) c.
Proof.
  intros Hc. destruct (Forall2_lookup_r _ _ _ _ _ Hcompiled Hc) as (node' & Hn & Hcov).
  rewrite list_lookup_fmap in Hn. apply fmap_Some in Hn as (node & Hn & ->). eauto.
Qed.

Lemma compiled_of i node : plan_nodes workflow !! i = Some node ->
  exists c, compiled !! i = Some c /\ compiled_covered s (constrain_node limits node) c.
Proof.
  intros Hn. destruct (Forall2_lookup_l _ _ _ i (constrain_node limits node) Hcompiled) as (c & Hc & Hcov); [|eauto].
  by rewrite list_lookup_fmap, Hn.
Qed.

Lemma nodes_ids : map en_id nodes = workflow_ids workflow.
Proof.
  unfold nodes_with_graph_dependencies. rewrite map_map. simpl. unfold workflow_ids.
  assert (Hids : map (fun c => en_id (snd c)) compiled = map node_id (map (constrain_node limits) (plan_nodes workflow))).
  { clear Hedges. revert Hcompiled. generalize (map (constrain_node limits) (plan_nodes workflow)).
    intros ns H. induction H as [|node c ns cs Hc _ IH]; [done|]. simpl. rewrite (cc_id _ _ _ Hc). by f_equal. }
  rewrite map_map, Hids, map_map. apply map_ext. intros node. apply constrain_node_same.
Qed.

Lemma N_keys : dkeys N = workflow_ids workflow.
Proof. unfold dkeys. rewrite map_map. apply nodes_ids. Qed.

(** The node of an id. *)
Lemma N_lookup node : node ∈ plan_nodes workflow ->
  exists en, dget N (node_id node) = Some en /\ en ∈ nodes /\ en_id en = node_id node /\ en_findings en = node_findings node.
Proof.
  intros [i Hi]%list_elem_of_lookup. destruct (compiled_of i node Hi) as (c & Hc & Hcov).
  set (order := enumerate_order (map en_id (map snd compiled))).
  set (en := with_dependencies (sort_by (fun d => default (Z.of_nat (length order)) (dget order d))
                                  (elements (graph_sources graph (en_id (snd c))))) (snd c)).
  assert (Hin : en ∈ nodes).
  { unfold nodes_with_graph_dependencies. apply list_elem_of_fmap. exists (snd c). split; [done|].
    apply list_elem_of_fmap_2. by eapply list_elem_of_lookup_2. }
  assert (Hid : en_id en = node_id node) by (simpl; rewrite (cc_id _ _ _ Hcov); apply constrain_node_same).
  exists en. split_and!; [|done..|].
  - apply elem_of_dget; [rewrite N_keys; apply ids_distinct|]. apply list_elem_of_fmap. exists en. by rewrite Hid.
  - simpl. rewrite (cc_findings _ _ _ Hcov). unfold constrain_node. by destruct (dget _ _).
Qed.

Lemma workflow_id_node id : id ∈ workflow_ids workflow -> exists node, node ∈ plan_nodes workflow /\ node_id node = id.
Proof. intros (node & -> & Hn)%list_elem_of_fmap. eauto. Qed.

Lemma id_not_blank id : id ∈ workflow_ids workflow -> not_blank id = true.
Proof.
  intros (node & Hn & <-)%workflow_id_node. apply node_id_not_blank. pose proof (vl_ids _ Hv) as H. rewrite Forall_forall in H. by apply H.
Qed.

(** ** The order *)

Variable analysis : WorkflowGraphAnalysis.
Hypothesis Hanalysis : analyze_workflow_graph workflow = Ok analysis.
Notation order := (concat (analysis_waves analysis)).

Lemma order_perm : order ≡ₚ workflow_ids workflow.
Proof.
  destruct (analyze_workflow_graph_cases workflow (vl_references _ Hv)) as [(D & T & ws & anc & _ & _ & Ha & _ & _ & Hp & _)|[Ha _]];
    rewrite Hanalysis in Ha; [|done]. by injection Ha as ->.
Qed.

Lemma order_item id : id ∈ workflow_ids workflow ->
  ditem (enumerate_order order) id = Ok (order_of (enumerate_order order) id).
Proof.
  intros H. rewrite <- order_perm in H. apply elem_of_dkeys_enumerate, dget_is_Some in H as [z Hz].
  unfold ditem, order_of. by rewrite Hz.
Qed.

Lemma execution_order_valid : validate_execution_order order N = Ok tt.
Proof.
  unfold validate_execution_order, all_distinct, same_set. rewrite (bool_decide_eq_true_2 (NoDup _)) by (rewrite order_perm; apply ids_distinct).
  simpl. rewrite N_keys. rewrite bool_decide_eq_true_2; [done|]. apply list_to_set_perm_L, order_perm.
Qed.

Lemma node_records_valid : unique_records en_id "id" "node" nodes = Ok N.
Proof.
  apply unique_records_total; [rewrite nodes_ids; apply ids_distinct|]. apply Forall_forall. intros en Hen. apply id_not_blank.
  rewrite <- nodes_ids. by apply list_elem_of_fmap_2.
Qed.

(** ** The graph *)

Lemma edge_valid e : e ∈ graph -> validate_graph_edge N (enumerate_order order) e = Ok tt.
Proof.
  intros He. pose proof (eo_edges _ _ Hedges) as Hall. rewrite Forall_forall in Hall. destruct (Hall e He) as [[Hup Hart] [Hk Hl]].
  destruct (upstream_ids _ _ Hup) as [Hs Ht]. unfold validate_graph_edge. cbv zeta.
  rewrite !id_not_blank by done. simpl.
  rewrite (proj2 (dmem_true N _)) by (by rewrite N_keys). rewrite (proj2 (dmem_true N _)) by (by rewrite N_keys). simpl.
  rewrite !order_item by done. simpl.
  rewrite (proj2 (Z.ltb_lt _ _)) by (by apply (waves_precede workflow); [apply vl_references|..]). simpl.
  destruct (workflow_id_node _ Hs) as (node & Hn & Hid). destruct (N_lookup node Hn) as (en & Hen & _ & _ & Hf).
  rewrite Hid in Hen. rewrite (proj2 (ditem_Ok N _ _) Hen), Hk, Hl. simpl.
  rewrite !bool_decide_eq_true_2 by (done || by destruct (de_artifact_name e)).
  destruct (de_artifact_name e) as [a|]; simpl; [|done]. destruct Hart as [Ha Hfind].
  unfold str_in. rewrite (bool_decide_eq_true_2 _ Ha). simpl. destruct (str_startswith "findings" a); simpl; [|done].
  destruct (Hfind eq_refl) as (node' & Hn' & Hid' & Hfn). rewrite Hf.
  assert (node' = node) as ->; [|by rewrite Hfn]. apply (node_by_id workflow); [by apply validated_ids_ok|done..|congruence].
Qed.

Lemma graph_loop_total (M0 : dict PreflightExecutionNode) O : forall edges seen G,
  Forall (fun e => validate_graph_edge M0 O e = Ok tt) edges -> NoDup (map edge_key edges) ->
  (forall e, e ∈ edges -> edge_key e ∉ seen) -> (forall e, e ∈ edges -> is_Some (dget G (de_target_node e))) ->
  exists G', for_each (graph_step M0 O) edges (seen, G) = Ok (reverse (map edge_key edges) ++ seen, G') /\
    forall n X, dget G n = Some X -> dget G' n = Some (X ∪ graph_sources edges n).
Proof.
  induction edges as [|e edges IH]; intros seen G Hval Hnd Hfresh Htargets.
  { exists G. split; [done|]. intros n X HX. rewrite HX. f_equal. unfold graph_sources. simpl. set_solver. }
  inversion Hval as [|? ? Hv1 Hvs]; subst. simpl in Hnd. apply NoDup_cons in Hnd as [Hnot Hnd].
  destruct (Htargets e) as [X HX]; [left|].
  destruct (IH (edge_key e :: seen) (dset G (de_target_node e) (X ∪ {[de_source_node e]}))) as (G' & Hrun & HG'); [done..| | |].
  - intros e' He' [Heq|Hin]%elem_of_cons; [|apply (Hfresh e'); [by right | done]]. apply Hnot. rewrite <- Heq. by apply list_elem_of_fmap_2.
  - intros e' He'. apply dget_is_Some, elem_of_dkeys_dset. right. apply dget_is_Some. apply Htargets. by right.
  - exists G'. split.
    + assert (Hstep : graph_step M0 O (seen, G) e =
                Ok (edge_key e :: seen, dset G (de_target_node e) (X ∪ {[de_source_node e]}))).
      { unfold graph_step. rewrite Hv1. simpl. rewrite bool_decide_eq_false_2 by (apply Hfresh; left). simpl.
        by rewrite (proj2 (ditem_Ok G _ _) HX). }
      cbn [for_each]. rewrite Hstep. cbn [mbind outcome_bind]. rewrite Hrun. simpl. by rewrite reverse_cons, <- app_assoc.
    + intros n Y HY. destruct (decide (de_target_node e = n)) as [<-|Hne].
      * rewrite HX in HY. injection HY as <-. rewrite (HG' _ _ (dget_dset_eq _ _ _)). f_equal. unfold graph_sources. simpl.
        rewrite bool_decide_eq_true_2 by done. simpl. set_solver.
      * rewrite (HG' n Y) by (by rewrite dget_dset_ne). f_equal. unfold graph_sources. simpl.
        by rewrite bool_decide_eq_false_2 by done.
Qed.

Lemma runtime_locators_valid keys rp :
  (forall k, k ∈ edge_keys s -> k ∈ keys) -> rp ∈ omap fst compiled ->
  validate_render_plan_runtime_locator_dependencies keys rp = Ok tt.
Proof.
  intros Hkeys (c & Hc & Hrp)%list_elem_of_omap. apply list_elem_of_lookup in Hc as [i Hi].
  destruct (compiled_at i c Hi) as (node & _ & Hcov). destruct (cc_plan _ _ _ Hcov rp Hrp) as (_ & Hnode & Hstreams).
  unfold validate_render_plan_runtime_locator_dependencies. rewrite Hnode. apply each_Ok.
  eapply Forall_impl; [exact Hstreams|]. intros stream Hfs. apply each_Ok. eapply Forall_impl; [exact Hfs|]. intros f Hf.
  cbv beta. case_bool_decide as Hkind; [|done]. destruct (Hf Hkind) as (src & a & Hl & Hin). rewrite Hl. simpl.
  by rewrite (bool_decide_eq_true_2 _ (Hkeys _ Hin)).
Qed.

Lemma node_dependencies_set en : en ∈ nodes -> list_to_set (en_dependencies en) = graph_sources graph (en_id en).
Proof.
  unfold nodes_with_graph_dependencies. intros (en0 & -> & _)%list_elem_of_fmap. simpl.
  rewrite (list_to_set_perm_L _ _ (sort_by_Permutation _ _)). by rewrite list_to_set_elements_L.
Qed.

(** The plan an execution stores: the compiled records. *)
Variable plan : PreflightExecutionPlan.
Hypothesis Hplan : pp_nodes plan = nodes /\ pp_render_plans plan = omap fst compiled /\ pp_execution_order plan = order /\
  pp_dependency_graph plan = graph.

Lemma dependency_graph_valid : validate_dependency_graph plan N = Ok tt.
Proof.
  destruct Hplan as (H1 & H2 & H3 & H4). unfold validate_dependency_graph. cbv zeta. rewrite H1, H2, H3, H4.
  destruct (graph_loop_total N (enumerate_order order) graph [] (map (fun id => (id, ∅ : gset string)) (dkeys N)))
    as (G & Hrun & HG).
  - apply Forall_forall. exact edge_valid.
  - apply (eo_distinct _ _ Hedges).
  - intros e _. apply not_elem_of_nil.
  - intros e He. apply dget_is_Some. unfold dkeys at 1. rewrite map_map. simpl. rewrite map_id, N_keys.
    pose proof (eo_edges _ _ Hedges) as Hall. rewrite Forall_forall in Hall. destruct (Hall e He) as [[Hup _] _].
    apply (upstream_ids _ _ Hup).
  - rewrite Hrun. cbn [mbind outcome_bind]. rewrite app_nil_r.
    assert (Hlocators : each (validate_render_plan_runtime_locator_dependencies (reverse (map edge_key graph)))
                          (omap fst compiled) = Ok tt).
    { apply each_Ok, Forall_forall. intros rp Hrp. apply runtime_locators_valid; [|done]. intros k Hk. by apply elem_of_reverse. }
    rewrite Hlocators. cbn [mbind outcome_bind]. apply each_Ok, Forall_forall. intros en Hen.
    assert (Hg : dget (map (fun id => (id, ∅ : gset string)) (dkeys N)) (en_id en) = Some ∅).
    { apply elem_of_dget; [unfold dkeys at 1; rewrite map_map; simpl; rewrite map_id, N_keys; apply ids_distinct|].
      apply list_elem_of_fmap. exists (en_id en). split; [done|]. rewrite N_keys, <- nodes_ids. by apply list_elem_of_fmap_2. }
    rewrite (proj2 (ditem_Ok G _ _) (HG _ _ Hg)). simpl. rewrite bool_decide_eq_true_2; [done|].
    rewrite (node_dependencies_set _ Hen). set_solver.
Qed.

Lemma elem_of_render_plan_ids rp : rp ∈ omap fst compiled -> exists en, en ∈ nodes /\ en_render_plan_id en = Some (rp_render_plan_id rp).
Proof.
  intros (c & Hc & Hrp)%list_elem_of_omap. pose proof Hc as [i Hi]%list_elem_of_lookup.
  destruct (compiled_at i c Hi) as (node & _ & Hcov). eexists (with_dependencies _ (snd c)). split.
  - unfold nodes_with_graph_dependencies. apply list_elem_of_fmap. exists (snd c). split; [reflexivity|]. by apply list_elem_of_fmap_2.
  - simpl. by rewrite (cc_plan_id _ _ _ Hcov), Hrp.
Qed.

(** Render plans have the ids of their nodes, in the order of the nodes. *)
Lemma render_plan_ids : NoDup (map rp_render_plan_id (omap fst compiled)) /\
  Forall (fun rp => not_blank (rp_render_plan_id rp) = true) (omap fst compiled).
Proof.
  assert (Hid : forall rp, rp ∈ omap fst compiled -> rp_render_plan_id rp ∈ workflow_ids workflow).
  { intros rp (c & [i Hi]%list_elem_of_lookup & Hrp)%list_elem_of_omap. destruct (compiled_at i c Hi) as (node & Hn & Hcov).
    destruct (cc_plan _ _ _ Hcov rp Hrp) as (-> & _). rewrite (proj1 (constrain_node_same _ _)).
    apply list_elem_of_fmap_2. by eapply list_elem_of_lookup_2. }
  split; [|apply Forall_forall; intros rp Hrp; apply id_not_blank; by apply Hid].
  pose proof ids_distinct as Hd. unfold workflow_ids in Hd.
  assert (Hmap : map node_id (plan_nodes workflow) = map node_id (map (constrain_node limits) (plan_nodes workflow))).
  { rewrite map_map. apply map_ext. intros node. symmetry. apply constrain_node_same. }
  rewrite Hmap in Hd. clear Hid Hmap Hplan. revert Hcompiled Hd. generalize (map (constrain_node limits) (plan_nodes workflow)).
  intros ns H. clear Hedges Hanalysis. induction H as [|node c ns cs Hc Hcs IH]; intros Hd; [constructor|].
  simpl in Hd. apply NoDup_cons in Hd as [Hnot Hd]. simpl. destruct (fst c) as [rp|] eqn:Hrp; [|by apply IH]. simpl.
  apply NoDup_cons. split; [|by apply IH]. destruct (cc_plan _ _ _ Hc rp Hrp) as (-> & _). intros Hin. apply Hnot.
  apply list_elem_of_fmap in Hin as (rp' & -> & (c' & [i Hi]%list_elem_of_lookup & Hrp')%list_elem_of_omap).
  destruct (Forall2_lookup_r _ _ _ _ _ Hcs Hi) as (node' & Hn' & Hc'). destruct (cc_plan _ _ _ Hc' rp' Hrp') as (-> & _).
  apply list_elem_of_fmap_2. by eapply list_elem_of_lookup_2.
Qed.

Lemma ownership_valid : validate_render_plan_ownership plan (map (fun rp => (rp_render_plan_id rp, rp)) (omap fst compiled)) = Ok tt.
Proof.
  destruct Hplan as (H1 & _). unfold validate_render_plan_ownership. rewrite H1.
  rewrite (List.filter_ext_in _ (fun _ => false)), filter_false; [done|]. intros id Hid. apply negb_false_iff.
  unfold str_in. apply bool_decide_eq_true_2. apply list_elem_of_In in Hid. unfold dkeys in Hid. rewrite map_map in Hid.
  apply list_elem_of_fmap in Hid as (rp & -> & Hrp). simpl. destruct (elem_of_render_plan_ids rp Hrp) as (en & Hen & Heq).
  apply list_elem_of_omap. by exists en.
Qed.

End Contract.

(** ** Compiled plans *)

Section Compiled.
Context {hash : HashLibrary} {files : PreflightFiles} {hmac : HmacLibrary} {platform : Platform} {host : CacheHost} {services : CompilerServices}.
Context {sources : PromptSources} {laws : HashLaws hash}.

(** A stored plan with the records of a preview. *)
Record stores (preview : PreflightCompilationPreview) (plan : PreflightExecutionPlan) : Prop := {
  st_nodes : pp_nodes plan = pv_nodes preview;
  st_render_plans : pp_render_plans plan = pv_render_plans preview;
  st_order : pp_execution_order plan = pv_execution_order preview;
  st_graph : pp_dependency_graph plan = pv_dependency_graph preview
}.

(** The checks of the contract on records, order and graph. *)
Record graph_contract (plan : PreflightExecutionPlan) (nodes_by_id : dict PreflightExecutionNode)
    (render_plans_by_id : dict RenderPlan) : Prop := {
  gc_nodes : unique_records en_id "id" "node" (pp_nodes plan) = Ok nodes_by_id;
  gc_order : validate_execution_order (pp_execution_order plan) nodes_by_id = Ok tt;
  gc_render_plans : unique_records rp_render_plan_id "render_plan_id" "render plan" (pp_render_plans plan) = Ok render_plans_by_id;
  gc_graph : validate_dependency_graph plan nodes_by_id = Ok tt;
  gc_ownership : validate_render_plan_ownership plan render_plans_by_id = Ok tt;
  gc_artifacts : validate_artifact_contract_uniqueness (pp_nodes plan) = Ok tt
}.

(** The same from the checks alone: the precondition of the scheduler. *)
Lemma graph_contract_schedulable plan nodes_by_id render_plans_by_id :
  graph_contract plan nodes_by_id render_plans_by_id -> plan_ok (sched_plan plan).
Proof.
  intros [H1 _ _ H4 _ _]. apply unique_records_Ok in H1 as (-> & Hids & _).
  assert (HN : dkeys (map (fun r => (en_id r, r)) (pp_nodes plan)) = map en_id (pp_nodes plan)) by (unfold dkeys; by rewrite map_map).
  apply validate_dependency_graph_Ok in H4 as [Hedges _]; [|by rewrite HN].
  apply (plan_ok_by_rank _ (order_of (enumerate_order (pp_execution_order plan)))); [by rewrite sched_plan_ids|].
  intros d n (e & He & <- & <-)%sched_plan_dep. rewrite Forall_forall in Hedges. destruct (Hedges e He) as (Hs & Ht & Hlt).
  rewrite sched_plan_ids, <- HN. by split.
Qed.

Lemma produced_contract source config options preview snapshot order rps nodes graph signature before middle after plan :
  collections_checked (ws_workflow source) -> stores preview plan ->
  produced source config options preview snapshot order rps nodes graph signature before middle after ->
  (exists nodes_by_id render_plans_by_id, graph_contract plan nodes_by_id render_plans_by_id) /\
  Forall (fun e => tc (depends (ws_workflow source)) (de_source_node e) (de_target_node e)) (pv_dependency_graph preview).
Proof.
  intros Hcol [S1 S2 S3 S4] [Hv (waves & Hwaves & ->) Htok Hempty Hrun Huniq _ _ ->]. cbn in S1, S2, S3, S4.
  unfold topological_waves in Hwaves. apply bind_Ok in Hwaves as (analysis & Ha & [= <-]).
  unfold compile_template_plan in Hrun. unfold mbind, M_bind, bind, lift in Hrun.
  destruct (with_collection_constraints (ws_workflow source)) as [constrained|e|] eqn:Hc; [|done..].
  destruct (workspace_policy_records constrained config _) as [records|e|] eqn:Hrec; [|done..].
  destruct (map_all _ _ before) as [[compiled|e|] s1] eqn:Hmap; [|done..]. simpl in Hrun. injection Hrun as <- <- <- <-.
  destruct (constrained_nodes _ _ Hc) as (limits & Hl & Hnodes). rewrite Hnodes in Hmap.
  assert (Hstart : edges_ok (allowed_edge (ws_workflow source)) before).
  { constructor; unfold edge_keys; rewrite Hempty; constructor. }
  destruct (post_nodes_covered (allowed_edge (ws_workflow source)) config snapshot options records
    (map (constrain_node limits) (plan_nodes (ws_workflow source))) before) with (a := compiled) (s' := s1) as [[Hok _] Hcov];
    [|exact Hstart|exact Hmap|].
  { apply List.Forall_map, Forall_forall. intros node Hn. by apply constrained_allowed. }
  split; [|eapply Forall_impl; [exact (eo_edges _ _ Hok)|]; by intros e [[? _] _]].
  edestruct render_plan_ids as [Hd Hb]; [eassumption..|].
  eexists _, _. constructor.
  - rewrite S1. eapply node_records_valid; eassumption.
  - rewrite S3. eapply execution_order_valid; eassumption.
  - rewrite S2. by apply unique_records_total.
  - eapply dependency_graph_valid; [eassumption..|by split_and!].
  - eapply ownership_valid; [eassumption..|by split_and!].
  - by rewrite S1.
Qed.

End Compiled.
