(* ===== verification/ForeachCompilationSpec.v ===== *)
(** What the checks of foreach groups establish of the inventory that is
    compiled: collections come from upstream nodes that publish them. *)

From Stdlib Require Import ZArith Lia Ascii String.
From stdpp Require Import base gmap sets list strings relations.
From S2P Require Import Redaction RuntimeConfig.
From S2P Require Import Prelude PyStr StateExn Models Graph Scheduler SchedulerInv Artifacts RunState Composition.
From S2P Require Import CompositionSpec PlanRecords PlanContract PlanContractSpec Foreach WorkspaceSelection.
From S2P Require Import PreflightState PreflightFilesystem PreflightRender WorkflowValidation PreflightCompiler.
From S2P Require Import ForeachCompilation PreflightText PreflightInv PreflightTokens ValidationSpec PreflightCorrect.
From S2P Require Import PreflightContract.

Open Scope string_scope.
Open Scope list_scope.
Open Scope Z_scope.

(** ** Known dependencies *)

Lemma add_dependents_known id needs : forall T T', for_each (add_dependent id) needs T = Ok T' ->
  (forall x, x ∈ dkeys T' <-> x ∈ dkeys T) /\ (forall d, d ∈ needs -> d ∈ dkeys T).
Proof.
  induction needs as [|need needs IH]; intros T T' H; simpl in H; [injection H as <-; set_solver|].
  apply bind_Ok in H as (T1 & H1 & H). unfold add_dependent in H1. destruct (dget T need) as [S|] eqn:HS; [|done].
  injection H1 as <-. assert (Hneed : need ∈ dkeys T) by (apply dget_is_Some; by rewrite HS).
  apply IH in H as [Hk Hd]. assert (Hset : forall x, x ∈ dkeys (dset T need ({[id]} ∪ S)) <-> x ∈ dkeys T).
  { intros x. rewrite <- !dget_is_Some, dget_dset. case_decide; subst; [|done]. rewrite HS. split; eauto. }
  split; [intros x; by rewrite Hk, Hset|]. intros d [->|Hin]%elem_of_cons; [done|]. apply Hset. by apply Hd.
Qed.

Lemma analysis_known workflow analysis d n :
  analyze_workflow_graph workflow = Ok analysis -> depends workflow d n -> d ∈ workflow_ids workflow.
Proof.
  intros H (node & Hn & <- & Hd). unfold analyze_workflow_graph in H. apply bind_Ok in H as ([D T] & H & _).
  unfold build_dependency_maps, build_graph_dependency_maps in H. cbv zeta in H. apply bind_Ok in H as (T1 & H & _).
  assert (Hids : map fst (map (fun '(id, _) => (id, ∅ : gset string)) (node_refs workflow)) = workflow_ids workflow).
  { unfold node_refs, workflow_ids. rewrite !map_map. done. }
  assert (Hstart : forall x, x ∈ dkeys (dict_of (map (fun '(id, _) => (id, ∅ : gset string)) (node_refs workflow))) ->
            x ∈ workflow_ids workflow).
  { intros x Hx. rewrite <- Hids. by apply elem_of_dkeys_dict_of. }
  assert (Hin : (node_id node, node_needs node) ∈ node_refs workflow) by (apply elem_of_node_refs; by exists node).
  clear Hids. revert Hin Hstart H. generalize (dict_of (map (fun '(id, _) => (id, ∅ : gset string)) (node_refs workflow))).
  induction (node_refs workflow) as [|[id needs] refs IH]; intros T0 Hin Hstart H; [by apply elem_of_nil in Hin|].
  simpl in H. apply bind_Ok in H as (T2 & H2 & H). apply add_dependents_known in H2 as [Hk Hknown].
  apply elem_of_cons in Hin as [[= <- <-]|Hin]; [by apply Hstart, Hknown|].
  apply (IH T2); [done| |done]. intros x Hx. by apply Hstart, Hk.
Qed.

(** ** The inventory *)

(** What the compiler's checks read of a parent node. *)
Definition same_node (n n' : WorkflowNode) : Prop :=
  node_id n' = node_id n /\ node_mode n' = node_mode n /\ node_needs n' = node_needs n /\
  node_findings n' = node_findings n /\ node_items n' = node_items n.

(** No child workflow has a group, as composition ensures. *)
Definition flat_templates (source : PreflightWorkflowSource) : Prop :=
  forall group template node, (group, template) ∈ ws_foreach_templates source -> node ∈ fe_nodes template ->
    node_mode (cn_payload node) <> Foreach.

Lemma inventory_nodes source : flat_templates source ->
  exists parents children, plan_nodes (inventory_workflow source) = parents ++ children /\
    Forall2 same_node (plan_nodes (ws_workflow source)) parents /\ Forall (fun node => node_mode node <> Foreach) children.
Proof.
  intros Hflat. unfold inventory_workflow. destruct (ws_foreach_templates source) as [|t ts] eqn:Ht.
  - exists (plan_nodes (ws_workflow source)), []. rewrite app_nil_r. split_and!; [done| |constructor].
    apply Forall_Forall2_diag, Forall_forall. done.
  - rewrite <- Ht. eexists _, _. split; [reflexivity|]. split.
    + apply Forall2_fmap_r, Forall_Forall2_diag, Forall_forall. intros n _. unfold inventory_parent_node, same_node.
      destruct (node_mode n) eqn:E; simpl; rewrite ?E; by split_and!.
    + apply Forall_forall. intros node Hn. apply list_elem_of_In, in_concat in Hn as (l & Hn%list_elem_of_In & Hl%list_elem_of_In).
      apply list_elem_of_fmap in Hn as ([group template] & -> & Hin). apply list_elem_of_fmap in Hl as (c & -> & Hc).
      pose proof (Hflat group template c Hin Hc) as Hmode. unfold inventory_child_node.
      destruct (node_mode (cn_payload c)) eqn:E; simpl; rewrite E; done.
Qed.

Section Checked.
Variables (source inventory : PreflightWorkflowSource) (config : Config).
Hypothesis Hflat : flat_templates source.
Hypothesis Hrun : compilation_source source config = Ok inventory.
Hypothesis Hv : validated (ws_workflow inventory).

Lemma inventory_parents : exists parents children, plan_nodes (ws_workflow inventory) = parents ++ children /\
  Forall2 same_node (plan_nodes (ws_workflow source)) parents /\ Forall (fun node => node_mode node <> Foreach) children.
Proof.
  unfold compilation_source in Hrun. destruct (List.filter is_group (plan_nodes (ws_workflow source))) as [|g gs].
  - injection Hrun as <-. exists (plan_nodes (ws_workflow source)), []. rewrite app_nil_r. split_and!; [done| |constructor].
    apply Forall_Forall2_diag, Forall_forall. done.
  - destruct (cg_max_concurrent_nodes config); [|done]. apply bind_Ok in Hrun as (ancestors & _ & H).
    apply bind_Ok in H as (bound & _ & H). case_match; [done|]. injection H as <-. by apply inventory_nodes.
Qed.

Lemma parent_node node : node ∈ plan_nodes (ws_workflow source) ->
  exists node', node' ∈ plan_nodes (ws_workflow inventory) /\ same_node node node'.
Proof.
  intros [i Hi]%list_elem_of_lookup. destruct inventory_parents as (parents & children & -> & Hp & _).
  destruct (Forall2_lookup_l _ _ _ _ _ Hp Hi) as (node' & Hi' & Hs). exists node'. split; [|done].
  apply elem_of_app. left. by eapply list_elem_of_lookup_2.
Qed.

Lemma depends_inventory d n : depends (ws_workflow source) d n -> depends (ws_workflow inventory) d n.
Proof.
  intros (node & Hn & <- & Hd). destruct (parent_node node Hn) as (node' & Hn' & Hid & _ & Hneeds & _).
  exists node'. by rewrite Hneeds.
Qed.

Lemma source_references analysis : analyze_workflow_graph (ws_workflow source) = Ok analysis ->
  has_valid_dependency_references (ws_workflow source) = true.
Proof.
  intros Ha. apply has_valid_dependency_references_spec.
  destruct (proj1 (has_valid_dependency_references_spec _) (vl_references _ Hv)) as [Hd Hne]. split.
  - destruct inventory_parents as (parents & children & Hn & Hp & _). unfold workflow_ids in *. rewrite Hn, map_app in Hd.
    apply NoDup_app in Hd as [Hd _]. replace (map node_id (plan_nodes (ws_workflow source))) with (map node_id parents); [done|].
    clear -Hp. induction Hp as [|n n' ns ns' (Hid & _) _ IH]; [done|]. simpl. by rewrite Hid, IH.
  - intros d n Hdep. split; [by eapply analysis_known|]. by apply Hne, depends_inventory.
Qed.

(** A group passed its checks with the ancestors of the authored workflow. *)
Lemma group_checked node : node ∈ plan_nodes (ws_workflow source) -> node_mode node = Foreach ->
  exists analysis mine, analyze_workflow_graph (ws_workflow source) = Ok analysis /\
    dget (analysis_ancestors analysis) (node_id node) = Some mine /\
    validate_collection_sources node (nodes_by_id (ws_workflow source)) mine = Ok tt.
Proof.
  intros Hn Hmode. pose proof Hrun as H. unfold compilation_source in H.
  assert (Hin : node ∈ List.filter is_group (plan_nodes (ws_workflow source))).
  { apply list_elem_of_In, List.filter_In. split; [by apply list_elem_of_In|]. by apply bool_decide_eq_true. }
  destruct (List.filter is_group (plan_nodes (ws_workflow source))) as [|g gs]; [by apply elem_of_nil in Hin|].
  destruct (cg_max_concurrent_nodes config); [|done]. apply bind_Ok in H as (ancestors & Ha & H).
  apply bind_Ok in H as (bound & Hloop & _). unfold ancestor_map in Ha. apply bind_Ok in Ha as (analysis & Ha & [= <-]).
  exists analysis. revert Hloop. generalize 0. revert Hin. generalize (g :: gs). clear -Ha. intros l.
  induction l as [|x l IH]; intros Hin b H; [by apply elem_of_nil in Hin|]. simpl in H. apply bind_Ok in H as (b1 & H1 & H).
  apply elem_of_cons in Hin as [<-|Hin]; [|by eapply IH]. clear IH H. unfold check_group in H1.
  destruct (dget (ws_foreach_templates source) (node_id node)); [|done]. apply bind_Ok in H1 as (u & _ & H).
  apply bind_Ok in H as (mine & Hmine & H). apply bind_Ok in H as ([] & H & _). apply ditem_Ok in Hmine. by exists mine.
Qed.

Lemma source_node_by_id node : NoDup (workflow_ids (ws_workflow source)) -> node ∈ plan_nodes (ws_workflow source) ->
  dget (nodes_by_id (ws_workflow source)) (node_id node) = Some node.
Proof.
  intros Hd Hn. unfold nodes_by_id. rewrite dict_of_NoDup by (by rewrite map_map).
  apply elem_of_dget; [unfold dkeys; by rewrite map_map|]. apply list_elem_of_fmap. by exists node.
Qed.

Lemma findings_published group node : validate_collection_artifact group node "findings" = Ok tt -> node_findings node = true.
Proof.
  intros H. unfold validate_collection_artifact in H. apply bind_Ok in H as ([] & _ & H). by destruct (node_findings node).
Qed.

Lemma compilation_source_collections : collections_checked (ws_workflow inventory).
Proof.
  intros group reference producer artifact Hg Hmode Hitems Href.
  destruct inventory_parents as (parents & children & Hn & Hp & Hc). rewrite Hn in Hg.
  apply elem_of_app in Hg as [Hg|Hg]; [|rewrite Forall_forall in Hc; by apply Hc in Hg].
  apply list_elem_of_lookup in Hg as [i Hi]. destruct (Forall2_lookup_r _ _ _ _ _ Hp Hi) as (node & Hi' & Hid & Hm & _ & _ & Hit).
  apply list_elem_of_lookup_2 in Hi'. rewrite Hid. rewrite Hmode in Hm. rewrite Hitems in Hit.
  destruct (group_checked node Hi' (eq_sym Hm)) as (analysis & mine & Ha & Hmine & H).
  unfold validate_collection_sources in H. cbv zeta in H. rewrite <- Hit in H. apply bind_Ok in H as (sources & Hs & H).
  rewrite Href in Hs. cbn [mbind outcome_bind] in Hs. apply bind_Ok in Hs as ([] & Hart & [= <-]).
  unfold require in H. case_bool_decide as Hsub; [|done]. pose proof (source_references analysis Ha) as Hvalid.
  destruct (analysis_ancestors_spec _ analysis Hvalid Ha (node_id node)) as (A & HA & HAm); [by apply list_elem_of_fmap_2|].
  rewrite HA in Hmine. injection Hmine as <-. apply has_valid_dependency_references_spec in Hvalid as [Hd _].
  assert (Hup : tc (depends (ws_workflow source)) producer (node_id node)) by (apply HAm; set_solver).
  split.
  - clear -Hup Hflat Hrun Hv. induction Hup; [by apply tc_once, depends_inventory|]. eapply tc_l; [by apply depends_inventory | done].
  - intros ->. assert (Hpin : producer ∈ workflow_ids (ws_workflow source)).
    { clear -Hup Ha. induction Hup; by eapply analysis_known. }
    apply list_elem_of_fmap in Hpin as (pn & -> & Hpn). rewrite source_node_by_id in Hart by done.
    destruct (parent_node pn Hpn) as (pn' & Hpn' & Hid' & _ & _ & Hf & _). exists pn'. split_and!; [done..|].
    rewrite Hf. by eapply findings_published.
Qed.

(** The ids of the authored nodes are closed under dependencies. *)
Lemma authored_closed analysis d n : analyze_workflow_graph (ws_workflow source) = Ok analysis ->
  tc (depends (ws_workflow inventory)) d n -> n ∈ workflow_ids (ws_workflow source) -> d ∈ workflow_ids (ws_workflow source).
Proof.
  intros Ha. assert (Hstep : forall d n, depends (ws_workflow inventory) d n -> n ∈ workflow_ids (ws_workflow source) ->
    d ∈ workflow_ids (ws_workflow source)).
  { intros d' n' (node & Hn & <- & Hd) (parent & Hid & Hp)%list_elem_of_fmap.
    destruct (parent_node parent Hp) as (node' & Hn' & Hid' & _ & Hneeds & _).
    assert (node = node') as ->; [|eapply analysis_known; [done|]; exists parent; by rewrite <- Hneeds].
    apply (node_by_id (ws_workflow inventory)); [by apply validated_ids_ok|done..|congruence]. }
  induction 1 as [d n H|d m n H _ IH]; intros Hn; [by eapply Hstep|]. eapply Hstep; [done|]. by apply IH.
Qed.

(** Without groups the authored graph is the compiled one. *)
Lemma source_analysis : exists analysis, analyze_workflow_graph (ws_workflow source) = Ok analysis.
Proof.
  pose proof Hrun as H. unfold compilation_source in H. destruct (List.filter is_group (plan_nodes (ws_workflow source))) as [|g gs].
  - injection H as <-. exact (vl_graph _ Hv).
  - destruct (cg_max_concurrent_nodes config); [|done]. apply bind_Ok in H as (ancestors & Ha & _).
    unfold ancestor_map in Ha. apply bind_Ok in Ha as (analysis & Ha & _). eauto.
Qed.

(** The parent of a plan whose edges follow dependencies is schedulable. *)
Lemma parent_schedulable digest preview final whole plan N R :
  stores preview whole -> graph_contract whole N R ->
  Forall (fun e => tc (depends (ws_workflow inventory)) (de_source_node e) (de_target_node e)) (pv_dependency_graph preview) ->
  finish_foreach_preview digest source preview = Ok final -> stores final plan -> plan_ok (sched_plan plan).
Proof.
  intros [W1 _ W3 W4] [H1 _ _ H4 _ _] Hup Hfin [S1 _ S3 S4]. unfold finish_foreach_preview in Hfin. cbv zeta in Hfin.
  apply bind_Ok in Hfin as (templates & _ & [= <-]). cbn in S1, S3, S4. destruct source_analysis as [analysis Ha].
  assert (Hauth : forall id, str_in id (dkeys (nodes_by_id (ws_workflow source))) = true <-> id ∈ workflow_ids (ws_workflow source)).
  { intros id. unfold str_in. rewrite bool_decide_eq_true. unfold nodes_by_id. rewrite elem_of_dkeys_dict_of. by rewrite map_map. }
  apply unique_records_Ok in H1 as (-> & Hids & _).
  assert (HN : dkeys (map (fun r => (en_id r, r)) (pp_nodes whole)) = map en_id (pp_nodes whole)) by (unfold dkeys; by rewrite map_map).
  apply validate_dependency_graph_Ok in H4 as [Hedges _]; [|by rewrite HN]. rewrite W4 in Hedges.
  apply (plan_ok_by_rank _ (order_of (enumerate_order (pp_execution_order whole)))).
  - rewrite sched_plan_ids, S1, <- W1. clear -Hids. induction (pp_nodes whole) as [|n ns IH]; [done|]. simpl in *.
    apply NoDup_cons in Hids as [Hn Hids]. case_match; [|by apply IH]. simpl. apply NoDup_cons. split; [|by apply IH].
    intros (m & Heq & Hm)%list_elem_of_fmap. apply Hn. rewrite Heq. apply list_elem_of_fmap_2.
    apply list_elem_of_In, List.filter_In in Hm as [Hm _]. by apply list_elem_of_In.
  - intros d n (e & He & <- & <-)%sched_plan_dep. rewrite S4 in He. apply list_elem_of_In, List.filter_In in He as [He Ht].
    apply list_elem_of_In in He. rewrite Forall_forall in Hedges. destruct (Hedges e He) as (Hs & Htn & Hlt).
    rewrite Forall_forall in Hup. apply Hauth in Ht. pose proof (authored_closed analysis _ _ Ha (Hup e He) Ht) as Hd.
    assert (Hkept : forall id, id ∈ dkeys (map (fun r => (en_id r, r)) (pp_nodes whole)) -> id ∈ workflow_ids (ws_workflow source) ->
      id ∈ map en_id (pp_nodes plan)).
    { intros id Hin Hid. rewrite HN, W1 in Hin. apply list_elem_of_fmap in Hin as (en & -> & Hen). rewrite S1.
      apply list_elem_of_fmap_2, list_elem_of_In, List.filter_In. split; [by apply list_elem_of_In | by apply Hauth]. }
    rewrite sched_plan_ids. split_and!; [by apply Hkept..|done].
Qed.

End Checked.
