(* ===== verification/PreflightClaims.v ===== *)
(** What the preflight compiler and the prompt assembler promise. *)

From Stdlib Require Import ZArith Lia Ascii String.
From stdpp Require Import base gmap sets list strings.
From S2P Require Import Redaction RuntimeConfig.
From S2P Require Import Prelude PyStr StateExn Models Graph Scheduler SchedulerInv Artifacts RunState Composition.
From S2P Require Import CompositionSpec PlanRecords PlanContract PlanContractSpec Foreach WorkspaceSelection.
From S2P Require Import WorkflowValidation PreflightState PreflightFilesystem PreflightRender PreflightCompiler.
From S2P Require Import PromptAssembly PreflightText PreflightInv PreflightTokens PreflightStreams ValidationSpec.
From S2P Require Import PreflightCorrect PreflightContract ForeachCompilation ForeachCompilationSpec PromptBudget.

Open Scope string_scope.
Open Scope list_scope.
Open Scope Z_scope.

(** ** Compiled prompts *)

(** C8 (equivalence): Compiling a workflow and assembling its prompts later is substituting the tokens of its templates:
    when the compilation ends without an error diagnostic, every provider node has a compiled node, and for either role the
    prompt assembled from its fragments is the node's prompt (with the collection limit that downstream groups impose)
    in which every artifact, file, environment and variable token is replaced by what it denotes, in order and with the
    text between tokens unchanged; where a token cannot be read at run time, the assembly fails with that error.
    Definitions: compile_preflight_inventory, compile_template_plan, compile_node, compile_render_plan,
    compile_render_stream, append_segment_fragments, fragment_for_occurrence, node_reference_fragment,
    file_reference_fragment, static_value_fragment, apply_file_policy, apply_static_value_policy,
    resolve_static_value_reference, finalize_fingerprints, with_collection_constraints, iter_template_references,
    assemble_prompt_details, find_stream, resolve_fragment, read_verified_static_text, secret_get. *)
Theorem compiled_prompts_are_substituted {hash : HashLibrary} {laws : HashLaws hash} {files : PreflightFiles}
    {hmac : HmacLibrary} {platform : Platform} {host : CacheHost} {services : CompilerServices} {sources : PromptSources}
    (lookup_file : string -> WorkspaceFileTarget -> string -> answer ResolvedWorkspaceFile)
    (source : PreflightWorkflowSource) (config : Config) (snapshot : RuntimeConfigSnapshot) (options : PreflightCompileOptions)
    (preview : PreflightCompilationPreview) (s : CompileState) (rt : RuntimePlan) (secrets : dict json) (node : WorkflowNode) :
  compile_ok source options ->
  compile_preflight_inventory source config snapshot options empty_state = (Ok preview, s) ->
  preview_has_errors preview = false ->
  executes lookup_file preview rt secrets ->
  node ∈ plan_nodes (ws_workflow source) -> runs_providers node = true ->
  exists limits en, producer_limits (ws_workflow source) = Ok limits /\ en ∈ pv_nodes preview /\ en_id en = node_id node /\
    forall role,
      (r ← assemble_prompt_details rt en role secrets; mret (chars (rq_text r))) =
      with_node_context en
        (direct_text (ws_workflow source) (source_options source options) (template_variables (source_options source options))
           lookup_file rt node role (node_prompt_segments (constrain_node limits node))).
Proof.
  intros Hok Hrun He Hex Hn Hr.
  destruct (post_inventory source config snapshot options Hok preview s Hrun He)
    as (snapshot' & order & rps & nodes & graph & signature & before & middle & after & Hp).
  exact (produced_renders lookup_file _ _ _ _ _ _ _ _ _ _ _ _ _ (cp_hash _ _ Hok) Hp rt secrets node Hex Hn Hr).
Qed.

(** ** Compiled plans *)

(** C9 (refinement): A compilation without error diagnostics produces what execution relies on: the records, execution order
    and dependency graph of the inventory pass the checks of the persisted-plan contract (unique nonblank ids, an order with
    every node once, edges from earlier nodes only, dependencies equal to the graph, findings only from nodes that publish them,
    render plans owned by nodes, disjoint artifact locators), and the plan of the authored nodes that remains once child
    workflows are divided into templates has distinct ids, known dependencies and no cycle, the precondition of the scheduler.
    Definitions: compilation_source, check_group, validate_collection_sources, validate_collection_artifact, inventory_workflow,
    inventory_parent_node, compile_preflight_inventory, collect_validation_diagnostics, compile_template_plan, compile_node,
    append_dependency_edge, nodes_with_graph_dependencies, execution_order, finish_foreach_preview, parent_preview,
    validate_dependency_graph, validate_execution_order, unique_records, validate_render_plan_ownership. *)
Theorem compiled_plan_meets_contract {hash : HashLibrary} {laws : HashLaws hash} {files : PreflightFiles} {hmac : HmacLibrary}
    {platform : Platform} {host : CacheHost} {services : CompilerServices} {sources : PromptSources} (digest : CompiledForeach -> string)
    (source inventory : PreflightWorkflowSource) (config : Config) (snapshot : RuntimeConfigSnapshot)
    (options : PreflightCompileOptions) (preview final : PreflightCompilationPreview) (s : CompileState)
    (whole plan : PreflightExecutionPlan) :
  flat_templates source -> compilation_source source config = Ok inventory -> compile_ok inventory options ->
  compile_preflight_inventory inventory config snapshot options empty_state = (Ok preview, s) ->
  preview_has_errors preview = false -> finish_foreach_preview digest source preview = Ok final ->
  stores preview whole -> stores final plan ->
  (exists nodes_by_id render_plans_by_id, graph_contract whole nodes_by_id render_plans_by_id) /\ plan_ok (sched_plan plan).
Proof.
  intros Hflat Hinv Hok Hrun He Hfin Hwhole Hplan.
  destruct (post_inventory inventory config snapshot options Hok preview s Hrun He)
    as (snapshot' & order & rps & nodes & graph & signature & before & middle & after & Hp).
  pose proof (pd_validated _ _ _ _ _ _ _ _ _ _ _ _ _ Hp) as Hv.
  pose proof (compilation_source_collections source inventory config Hflat Hinv Hv) as Hcol.
  destruct (produced_contract _ _ _ _ _ _ _ _ _ _ _ _ _ whole Hcol Hwhole Hp) as [(N & R & HC) Hup].
  split; [by exists N, R|]. eapply parent_schedulable; [exact Hflat | exact Hinv | exact Hv | exact Hwhole | exact HC | exact Hup | exact Hfin | exact Hplan].
Qed.

(** ** Captured files *)

(** C10 (safety): File tokens and input sources capture only what the file policy allows, and captures are addressed by their
    content: after a compilation without error diagnostics every registered file has one descriptor, its bytes are stored under
    the reference made of their SHA-256, with that digest and size, and they are UTF-8 text without NUL bytes.  They were read
    from the recorded path, a regular file, which is the strict resolution, through every symlink, of a path that the author
    may name; both paths, the one named and the one read, are inside the project or inside an allowlisted directory, and neither
    is or lies below a directory of run state (or the bytes are the payload that the history of runs returned for the path); no
    other bytes are stored.
    Definitions: compile_preflight_inventory, apply_file_policy, resolve_static_file, resolve_existing_static_file_path,
    static_path_policy_diagnostic, is_reserved_state_resource, path_is_allowed, materialize_static_file,
    static_file_encoding_diagnostic, resolve_terminal_result_file, prepare_static_file_reference, append_static_resource,
    add_signature, resolve_input_source. *)
Theorem captured_files_are_permitted {hash : HashLibrary} {laws : HashLaws hash} {files : PreflightFiles} {hmac : HmacLibrary}
    {platform : Platform} {host : CacheHost} {services : CompilerServices} {sources : PromptSources} (source : PreflightWorkflowSource)
    (config : Config) (snapshot : RuntimeConfigSnapshot) (options : PreflightCompileOptions)
    (preview : PreflightCompilationPreview) (s : CompileState) :
  compile_ok source options ->
  compile_preflight_inventory source config snapshot options empty_state = (Ok preview, s) ->
  preview_has_errors preview = false ->
  NoDup (map sr_content_ref (pv_static_resources preview)) /\
  (forall r, r ∈ pv_static_resources preview ->
     exists p, dget (pv_static_file_payloads preview) (sr_content_ref r) = Some p /\
       sr_content_ref r = "static-files/" +:+ sha256 p +:+ ".txt" /\ sr_sha256 r = sha256 p /\
       sr_size_bytes r = Z.of_nat (String.length p) /\ decode_utf8_without_nul p = Decoded p /\
       captured_at (source_options source options) (sr_resolved_path r) p) /\
  (forall k, is_Some (dget (pv_static_file_payloads preview) k) -> k ∈ map sr_content_ref (pv_static_resources preview)).
Proof.
  intros Hok Hrun He.
  destruct (post_inventory source config snapshot options Hok preview s Hrun He)
    as (snapshot' & order & rps & nodes & graph & signature & before & middle & after & Hp).
  destruct (produced_registry _ _ _ _ _ _ _ _ _ _ _ _ _ (cp_hash _ _ Hok) Hp) as ([Hd Hr Hk] & -> & ->).
  split_and!; [done| |done]. intros r (p & Hp' & [])%Hr. exists p. by split_and!.
Qed.

(** A project with one file, behind a symlink, whose prompt uses every kind of
    token. *)
Module PreflightExample.
#[export] Existing Instance constant_hash.
#[export] Existing Instance constant_hash_laws.
#[export] Instance files : PreflightFiles := {|
  resolve := fun p => p; resolve_strict := fun p => inr (if bool_decide (p = "/p/notes.txt") then "/p/docs/notes.txt" else p); expand_user := inr; file_exists := fun _ => true;
  is_regular_file := fun _ => true; read_bytes := fun _ => inr "body"; current_directory := "/p"; process_environment := [];
  git_ls_tree := fun _ _ _ => inl "no git"; git_cat_blob := fun _ _ => inl "no git";
  load_key := fun _ _ => inr (mkKeyResult "k" false []) |}.
#[export] Instance hmac : HmacLibrary := {| hmac_sha256 := fun _ _ => "f" |}.
#[export] Instance platform : Platform := {| system_name := "Linux" |}.
#[export] Instance host : CacheHost := {| workspace_cache_root := fun root => default "/cache" root |}.
#[export] Instance services : CompilerServices := {|
  sign_workflow := fun _ _ _ _ _ _ => "w" |}.
#[export] Instance sources : PromptSources := {|
  read_bundle := fun _ _ => inr "body";
  read_artifact := fun _ _ _ => inr (mkVerified "out.md" "found" 5 "d");
  workspace_file := fun _ => inl (ValueError "no workspace");
  decode_message := fun _ => "bytes" |}.
Definition lookup_file : string -> WorkspaceFileTarget -> string -> answer ResolvedWorkspaceFile :=
  fun _ _ _ => inl (ValueError "no workspace").
Definition write_node : WorkflowNode :=
  mkNode "write" Sequential false
    [mkSegment SEG_SHARED "Use {{file:notes.txt}} on {{var:topic}}"; mkSegment SEG_REVIEWER " strictly";
     mkSegment SEG_EXECUTOR " from {{env:HOME}}: {{plan.output}}."] None
    [mkProvider "codex" None None EXECUTOR; mkProvider "codex" None None REVIEWER] ["plan"] None None None false None None None
    None None None None [] [].
Definition source : PreflightWorkflowSource :=
  mkSource (mkPlan "1.0" "example" "" None [] [] [example_node "plan" []; write_node]) [] [] [] [].
Definition config : Config :=
  mkConfig [("codex", mkAgentConfig None "stdin")] (mkWorkspaceSettings false "" CleanStrict []) (mkBudgetSettings (Some 3) (Some 5)) 5
    None 10000.
Definition snapshot : RuntimeConfigSnapshot :=
  let integration := mkIntegration "cli" "cli" [] [] [] [] [] false in
  mkRuntimeSnapshot "1.0" (mkExecution "info" 5 10000 None None ConsensusContinue (mkBudgetSettings (Some 3) (Some 5))) [] [] integration
    integration integration true false false default_workspace [] [] "" [] [] None None None.
Definition options : PreflightCompileOptions :=
  mkOptions "/p" "/p/.crewplane" [] [] [] [] [] [] None [("topic", "birds")] (Some [("HOME", "/home/x")]) ephemeral [] [] []
    None.
Definition run := compile_preflight_inventory source config snapshot options empty_state.
Definition preview : PreflightCompilationPreview :=
  match run with (Ok p, _) => p | _ => build_preview source options [] [] [] [] None empty_state end.
Definition stored (p : PreflightCompilationPreview) : PreflightExecutionPlan :=
  mkPlanRecord "run" (pv_workflow_name p) (default "" (pv_workflow_signature p)) (pv_execution_order p) [] []
    (pv_nodes p) (pv_render_plans p) (pv_workspace_file_locators p) (pv_token_catalog p) (pv_dependency_graph p) [] []
    (pv_value_fingerprints p).
Definition plan : RuntimePlan := mkRuntimePlan (stored preview) (pv_static_resources preview).
(** The compiled node of [write_node]. *)
Definition write_en : PreflightExecutionNode :=
  ltac:(let n := eval vm_compute in (nth_error (pv_nodes preview) 1) in match n with Some ?en => exact en end).
Lemma compile_hypotheses : compile_ok source options.
Proof.
  constructor; [|constructor|].
  - assert (Hbody : forall p, captured (source_options source options) p -> p = "body").
    { intros p (path & [(requested & _ & _ & _ & _ & [= <-])|(reader & raw & root & H & _)]); [done | discriminate H]. }
    intros p q Hp Hq _. by rewrite (Hbody p Hp), (Hbody q Hq).
  - intros dir policy r [= <-]. constructor.
Qed.
Lemma run_executes : executes lookup_file preview plan (pv_secret_context preview).
Proof.
  constructor; [reflexivity..| |].
  - intros ref p limit H _. vm_compute in H. repeat case_match; by simplify_eq.
  - intros l H. vm_compute in H. inversion H.
Qed.
End PreflightExample.

Section PreflightWitness.
Import PreflightExample.

Lemma compiled_prompts_are_substituted_witness :
  exists en, en ∈ pv_nodes preview /\ en_id en = "write" /\
    (r ← assemble_prompt_details plan en EXECUTOR (pv_secret_context preview);
     mret (chars (rq_text r))) = Ok (chars "Use body on birds from /home/x: found.").
Proof.
  destruct (compiled_prompts_are_substituted (hmac := hmac) (platform := platform) (host := host) (services := services) lookup_file source config
    snapshot options preview (snd run)
    plan (pv_secret_context preview) write_node
    compile_hypotheses ltac:(vm_compute; reflexivity) ltac:(vm_compute; reflexivity)
    run_executes ltac:(right; left) eq_refl) as (limits & en & Hl & Hin & Hid & Hrole).
  exists en. split; [exact Hin|]. split; [exact Hid|]. rewrite Hrole.
  vm_compute in Hl. injection Hl as <-. vm_compute. reflexivity.
Defined.

Lemma compiled_plan_meets_contract_witness :
  (exists nodes_by_id render_plans_by_id, graph_contract (stored preview) nodes_by_id render_plans_by_id) /\
  plan_ok (sched_plan (stored (parent_preview preview ["plan"; "write"] []))).
Proof.
  apply (compiled_plan_meets_contract (hmac := hmac) (platform := platform) (host := host) (services := services) (fun _ => "d") source source
    config snapshot options preview (parent_preview preview ["plan"; "write"] []) (snd run)).
  - intros group template node H. by apply elem_of_nil in H.
  - vm_compute. reflexivity.
  - exact compile_hypotheses.
  - vm_compute. reflexivity.
  - vm_compute. reflexivity.
  - vm_compute. reflexivity.
  - by constructor.
  - by constructor.
Defined.

Lemma captured_files_are_permitted_witness :
  exists r, r ∈ pv_static_resources preview /\ sr_resolved_path r = "/p/docs/notes.txt" /\
    permitted (source_options source options) "/p/docs/notes.txt" /\
    exists requested, permitted (source_options source options) requested /\ resolve_strict requested = inr "/p/docs/notes.txt".
Proof.
  destruct (captured_files_are_permitted (hmac := hmac) (platform := platform) (host := host) (services := services) source config snapshot
    options preview (snd run) compile_hypotheses ltac:(vm_compute; reflexivity) ltac:(vm_compute; reflexivity))
    as (_ & Hall & _).
  exists (List.hd (mkResource "" "" "" "" "" "" 0 "" []) (pv_static_resources preview)).
  assert (Hin : List.hd (mkResource "" "" "" "" "" "" 0 "" []) (pv_static_resources preview) ∈ pv_static_resources preview)
    by (vm_compute; left).
  split; [exact Hin|]. split; [vm_compute; reflexivity|].
  destruct (Hall _ Hin) as (p & _ & _ & _ & _ & _ & [(requested & Hr & Hs & Hp & _)|(reader & raw & root & H & _)]); [|discriminate H].
  split; [exact Hp|]. exists requested. split; [exact Hr | exact Hs].
Defined.

Lemma prompt_budget_bounds_inserted_text_witness :
  nth_error (pv_nodes preview) 1 = Some write_en /\ xp_token_budget (en_execution_policy write_en) = Some (Some 3, Some 5) /\
  forall stream f value file, find_stream (rt_plan plan) write_en EXECUTOR = Ok stream -> f ∈ rs_fragments stream ->
    fr_kind f = runtime_locator_lookup -> resolve_fragment plan (pv_secret_context preview) f = Ok (value, file) ->
    within_budget write_en (char_len value).
Proof.
  split; [vm_compute; reflexivity|]. split; [vm_compute; reflexivity|].
  apply (proj1 (prompt_budget_bounds_inserted_text (sources := sources) plan write_en EXECUTOR (pv_secret_context preview) []
    (mkResolvedPrompt "Use body on birds from /home/x: found." []) ltac:(intros id file Hf; discriminate Hf))).
  eexists. vm_compute. reflexivity.
Defined.

End PreflightWitness.
